(* ===== verification/_CoqProject ===== *)
-Q . S2P
Prelude.v
Binary64.v
Prog.v
Abi.v
Maps.v
Typing.v
WakeupData.v
Handoff.v
RunnableDepth.v
Accounting.v
Scheduler.v
Lifecycle.v
Irq.v
BlockIo.v
Kms.v
DrmFence.v
Probes.v
LatencySpec.v
Tracer.v
Runs.v
PolicyModel.v
PolicyEval.v
PolicySpec.v
ActionModel.v
ActionRunner.v
ActionRuns.v
RunnerLogic.v
Journal.v
Recovery.v
RecoverySafety.v
Procfs.v
Allowlist.v
CpuMask.v
Tasks.v
Nice.v
Transaction.v
Executor.v
CrashRecovery.v
CrashRuns.v
Metrics.v
Intervals.v
Profiles.v
Classify.v
RunnableSignal.v
Score.v
Objective.v
Controller.v
AutonomousGate.v
ContextKey.v
WorkloadPolicy.v
CandidateMemory.v
Decide.v
Planner.v
PlannerSafety.v
LiveExperiment.v
LiveSafety.v
FocusModel.v
RollingWindow.v
Runtime.v
Selection.v
ProcessTree.v
FocusScore.v
FocusGroups.v
FocusResolver.v
FocusForeground.v
FocusRuns.v
WindowSignals.v
MeasureRuns.v
WindowRuns.v
ControllerRuns.v
LiveRuns.v
PlanRuns.v
DaemonHealth.v
ActiveConfig.v
Offenders.v
Situation.v
Observation.v
RuntimeEvents.v
EventRuns.v
RollbackRuns.v
