(* ===== verification/Prelude.v ===== *)
(** * stutter: verification development

    stutter measures how long runnable tasks wait for a CPU on Linux and, as an
    autotune daemon, changes scheduling settings under a policy.  The parts of the
    program this development is about and how they meet:

    - the eBPF probes ([stutter-ebpf]) run on tracepoints of the kernel, keep
      their state in BPF maps that all CPUs share, and submit records to a ring
      buffer;
    - the record layouts, constants and default sizes both sides agree on
      ([stutter-common]), and the userspace decoder of those records
      ([stutter/src/events/decode.rs]);
    - the daemon policy ([stutter/src/daemon/policy], configured by
      [daemon/config] and, for the remote agent, [remote/limits.rs]) decides
      whether an action may be observed, suggested, applied or rolled back;
    - the audited action runner ([stutter/src/actions/runner]) takes an action
      through preflight, dry run, apply, verify and rollback under that policy;
      the nice family ([actions/nice]) is one such action;
    - the measurements ([metrics], [scorer.rs], [autotune/objective],
      [autotune/comparison.rs]) turn latencies into interval records, window
      scores and verdicts on an experiment;
    - focus detection ([focus]) groups the processes of a snapshot, scores the groups
      and decides which one has the focus;
    - the planner ([autotune/planning], [workload_policy], [candidate_memory])
      evaluates what the providers propose and selects a candidate; the autotune
      controller ([autotune/controller.rs]) decides on an observation; the live
      experiment manager ([autotune/live_experiment]) applies, keeps and
      reverts candidates; the runtime ([autotune/runtime]) turns the events of the
      monitor into observations ([observation_builder], [situation.rs]) and drives both;
    - the configuration that is live ([autotune/active_config]) is read back to tell whether
      an experiment is still applied and whether a rollback restored it; profiles and CPU
      masks ([profiles], [affinity]) say which task is placed where;
    - the health of the system, the watchdog and the reaction to suspends
      ([daemon/health.rs], [watchdog.rs], [lifecycle.rs]) say when to hold back;
    - the controller journal and the ledger of kept actions
      ([autotune/controller_journal], [kept_ledger.rs]) say on disk what is applied,
      and startup recovery and emergency restore undo it after a crash.

    ** Files

    - [Prelude]: machine integers, little-endian bytes, counting in maps, stable
      sorting, shared tactics and hint databases ([machine], [stutter]).
    - [Prog]: programs as sequences of atomic steps on a shared state, their
      sequential run, their interleavings ([pool_step]), and invariants that hold
      at every step of every interleaving ([typed]).
    - [Abi]: [stutter-common] and [events/decode.rs]: constants, the nine records
      with layouts computed by the C rules, encoder and decoder.
    - [Maps]: the BPF maps as the record [World] ([maps.rs] and the maps of
      [wakeup_data.rs], [irq.rs], [block_io.rs]), the patched offsets
      ([trace_offsets.rs]), the map sizes ([map_limits.rs]), the readers
      ([trace_read.rs]), the filters ([target_filter.rs]) and the drop counters.
      What the kernel decides (whether an insert or a reservation succeeds, what
      the LRU map evicts) is the class [Kernel], with the documented behaviour
      as laws and two instances.
    - [Typing]: every stored value is in the range of its Rust type ([world_ok]).
    - [WakeupData], [RunnableDepth]: [wakeup_data.rs] and [runnable_depth.rs].
    - [Handoff]: one wakeup recorded against any number of concurrent consumers.
    - [Accounting]: the invariant that ties the counters to the pending wakeups.
    - [Scheduler], [Lifecycle], [Irq], [BlockIo], [Kms], [DrmFence]: the handlers
      of [scheduler.rs], [process_lifecycle.rs] with [cpu_frequency.rs],
      [irq.rs], [block_io.rs], [kms.rs] with [kms_emit.rs], and [drm_fence.rs].
    - [Probes]: the 25 entry points of [main.rs].
    - [LatencySpec]: the abstract latency machine; [Tracer]: whole runs and the
      refinement; [Runs]: concrete runs on raw trace records.
    - [PolicyModel]: the data of the policy, configuration, presets and
      [build_daemon_policy]; [PolicyEval]: the evaluator; [PolicySpec]: the
      specification of its decisions and the theorems about built policies.
    - [ActionModel]: phases, rollback tokens and errors of [actions];
      [ActionRunner]: the runner and its theorems; [RunnerLogic]: its rules for
      the transaction; [ActionRuns]: concrete policies and action runs.
    - [Journal]: the host with its disk, the crash points of a computation, the two
      durable files written call by call, and the rules [hspec] the proofs use;
      [Recovery] and [RecoverySafety]: startup recovery; [Transaction]: the journaled
      action; [Procfs], [Tasks], [Nice]: the nice action over a kernel given by its
      proc files; [Executor]: the recovery executor and emergency restore;
      [CrashRecovery]: from the action through a crash to the restored tasks;
      [CrashRuns]: a concrete machine.
    - [Binary64]: the [f64] operations the measurements use; [Metrics]: latency
      statistics and percentiles; [Intervals]: tasks and the collection of an
      interval; [RunnableSignal]: the window of the runnable-latency objective;
      [Score]: scores and their comparison; [Objective]: the nine objectives;
      [RollingWindow]: the queues of telemetry of a measurement window and the log they
      represent; [WindowSignals]: its score, the quality of its data and the signals the
      objectives read; [MeasureRuns], [WindowRuns]: concrete windows.
    - [Allowlist]: cgroup targets and the system-wide allowlist ([daemon/config]);
      [CpuMask]: CPU masks, their range lists and the two-way conversion; [Profiles]: I/O
      priorities, the rules of a profile, which task each places, parsed profiles;
      [Classify]: the class of a task from its names ([process/classify.rs]);
      [Controller]: candidates, conflicts and the kept set; [AutonomousGate]: what may
      be applied without a user; [ContextKey]: the key of a context;
      [CandidateMemory]: what was tried; [Decide]: the controller's transition;
      [ControllerRuns]: a concrete controller.
    - [WorkloadPolicy]: the rules per situation, their configuration and linter;
      [Planner]: the evaluation of proposals, dry runs, ranking and selection;
      [PlannerSafety]: what a plan can select; [Selection]: the candidate of a tick;
      [PlanRuns]: concrete plans.
    - [FocusModel], [FocusScore]: processes, groups and their scores in binary32;
      [ProcessTree]: the walks over parents and children; [FocusGroups]: the builders
      of groups; [FocusResolver]: which group has the focus; [FocusForeground]: the
      foreground window; [FocusRuns]: concrete snapshots.
    - [LiveExperiment]: the experiment manager and its durable writes; [LiveSafety]:
      no token is forgotten; [Runtime]: the tick, external changes and the stop;
      [LiveRuns]: a concrete host and executor.
    - [DaemonHealth]: the sensors, guardrails and verdict on the health of the system,
      the watchdog, the lifecycle events and the detector of suspends; [ActiveConfig]: what
      is read of the live configuration, the match of a candidate with it and the
      verification of a rollback, with the manager's rollback on top; [Offenders]: the
      sampler of background processes ([autotune/offenders]); [Situation]: what
      the workload is going through; [Observation]: activity, the focused GPU, the
      identity of the workload, the observation of a tick; [RuntimeEvents]: the events
      of the monitor, the clock gap of a suspend and the session; [EventRuns]: concrete
      sessions and a concrete machine; [RollbackRuns]: rollbacks and samples on concrete
      machines.

    ** How the code is modelled

    A probe is a program whose steps are the map operations, helper calls and
    stores it makes, in the order of the source; a read-modify-write through a
    map pointer is a load step and a store step.  Sequential theorems are about
    [exec], the steps run without interruption; interleaving theorems ([Handoff],
    [smp_records_decodable]) are about [pool_step].  Integers are [Z] with the
    wrap-around or saturation of the Rust operation written out.  The probes have
    no loops and the runner's recursion is structural; the walks of [ProcessTree]
    are the loops that take fuel (see below).
    The policy is pure functions over records named as in the source; a rule
    evaluation threads the list of rules and the first rejection.  The runner is
    a state monad over an abstract system state, its audit event and the trace
    of calls; an action is a record of operations on that state, since the runner
    is generic over the [TuningAction] trait.  [Reversible] states what an action
    owes the runner.
    Code that writes to disk is a state monad over a [Host]: every change of the
    disk leaves the disk before it as a crash point, a renamed file keeps its
    earlier versions until the directory is synced, and the class [FileSystem]
    answers every system call, failures included.  The controller is pure functions
    over its runtime state; the live manager and the runtime are functions on [Host]
    with their state passed along, and the executor they call is a class whose laws
    ([LiveExecutorLaws]) the theorems name.

    ** What the theorems show

    - Tracer: every run of probes that each run to their end refines the latency machine
      and keeps the counters exact, records decode under every interleaving; what each handler
      does on its branches, refusals included; the ABI.
    - Policy: the evaluator decides exactly the order-free specification, explains
      its decision, respects published ceilings, remote limits and presets.
    - Runner: authorization before apply, rollback after a failed mutation,
      restoration of the system, completion, audit, dry runs.
    - Durability: at every crash point of a journaled action that prepares its token
      first, the disk names a token that undoes what was done; recovery never forgets a
      token, rolls back everything the two files name, and with the nice action and a
      kernel that grants the writes gives back every task's value; the live manager and
      the release of kept actions lose no token either.  Undone stands for the success
      the executor reports.  Completeness of recovery and the live manager need a stat that
      does not fail ([StatReliable]): a failed one reads the ledger as empty.
    - Measurements: snapshots and interval records are the exact statistics of the
      latencies; the rolling window is a time-ordered view of one log of arrivals, and
      its score does not depend on the order they came in; the data blocks actions
      exactly when it is too thin; fixed work counts only when it is unambiguous; an
      improved verdict has no failed guard, is one-way, and for the runnable objective
      is an improvement of the exact integers, from the samples to the verdict.
    - Controller: when an experiment starts, what a keep rests on, that the same
      action cools down, that kept actions never conflict, what the autonomous gate
      lets through, that the phases of the runtime are never violated.
    - Planner: a plan selects the eligible proposal of the lowest rank, then the highest
      confidence, then the first name; what it selects the policy applies and the
      autonomous gate lets through; every experiment a tick starts was authorized or is a
      configured simulation; in low-risk mode only a CPU-affinity profile can be selected; a
      configured workload policy resolves to what it says.
    - Focus: the walks return and compute reachability whatever the parent pids are;
      groups of different kinds are disjoint; the focus switches only for a stable
      winner, while it can hold only for a better one, and does switch for a stable one; a foreground window directs it
      only to a safe process.
    - Events: what is measured for an experiment was measured after it started and never
      across a focus change or a suspend; the situation an observation names is supported
      by the focus, a diagnosis or a direct signal; the focused GPU and the activity level
      are what their sources say.
    - Configuration: where there is something to compare, an experiment is reported reverted
      exactly when every setting it changed is read back at its earlier value; a mask and its range list stand for the same CPUs,
      in both directions; a task is placed by the first rule of the profile that matches it;
      what a parsed profile holds is valid.
    - Background processes: a reported offender was hot in each of the last three intervals
      between samples that count and is a process of the owner, neither protected nor a game
      by its names; the class of a task does not depend on the case of its names.
    - Health: an apply allowed under the probed health respects every guardrail the
      sensors can check; the watchdog's actions are exactly those of its issues; a
      suspend is detected exactly when the clocks drift apart by the threshold.
    - Behaviour worth knowing: a wakeup can be reported twice when a consumer
      runs between two steps of the producer; the policy that
      [ActionRunPolicy::for_action] builds for medium-risk actions refuses every
      apply; two autotune flags have no effect on decisions; a restore the kernel
      refuses counts as done; emergency restore does not read the ledger; a latency
      of exactly 1, 2 or 5 ms rejects its window; a sample that arrives later than the
      window is long stays in it until the next one in time; a cycle of parent pids can keep the
      focus groups from ever being built; the fallback group of the foreground window
      loses the focus in the poll after it got it; the health of an observation is that
      of the drop counters alone; the diagnoses of one workload classify the next one in
      focus; an event that fails ends the session with the experiment applied; the rollback
      of a demotion of background processes, or of a profile whose game has started a thread
      since, faults although everything was restored; a native game that only its path
      tells can be reported as an offender.

    ** Bounds and what is not modelled

    The exact form of the pending counters needs [runnable_has_room]: the reverse
    map is at least as large as the wakeup map, which the loader may arrange and
    the compiled-in sizes do not; without it they are upper bounds.  The creation of the journal's temporary file is
    bounded by 16 attempts as in the source.  A descent in [ProcessTree] has one turn
    per child entry and root, a climb one per process, the closure of a runnable target
    one round per task, each plus one to stop: the theorems show that this is enough.
    The walk to a compile session has its fuel as an argument, since it may not
    return.  Texts for people (reasons, error and audit messages)
    are not modelled, except those the code reads again; strings are ASCII.  An [f32] is a binary32 value of [SpecFloat],
    an [f64] a binary64 one.  JSON is not modelled: a file holds the value written or
    something unreadable.  Not modelled: the loader and verifier, the interpretation
    of decoded events, the providers of candidates (a parameter of the planner), the
    scan of [/proc] that builds a snapshot (its processes come with their class), the
    database of community rules, the action families other than nice, the remote
    agent's transport, recording, reports, the terminal interface and the command line.

    ** Extensions, in order

    1. The other action families as instances of the [TuningAction] record
       ([uclamp], [ioprio], [cgroup], ...), discharging [Undoable] for each.
    2. Layered configuration ([stutter-config]): resolution order and validation.
    3. The offline comparison of recorded sessions ([measurement.rs], [baseline.rs]).
    4. The providers of candidates and the scan of [/proc]. *)

From stdpp Require Export base tactics option list gmap fin_maps strings numbers.
From Stdlib Require Export ZArith Lia Bool.
From Stdlib Require Sorted.

Open Scope Z_scope.

(** ** Machine integers *)

Declare Scope machine_scope.
Delimit Scope machine_scope with machine.

Definition U8_MAX : Z := 2 ^ 8 - 1.
Definition U32_MAX : Z := 2 ^ 32 - 1.
Definition U64_MAX : Z := 2 ^ 64 - 1.

Definition in_u8 (x : Z) : Prop := 0 <= x < 2 ^ 8.
Definition in_u32 (x : Z) : Prop := 0 <= x < 2 ^ 32.
Definition in_u64 (x : Z) : Prop := 0 <= x < 2 ^ 64.
Definition in_i32 (x : Z) : Prop := - 2 ^ 31 <= x < 2 ^ 31.
Definition in_i64 (x : Z) : Prop := - 2 ^ 63 <= x < 2 ^ 63.

(** Rust's [as u32], [as u64] casts and wrapping operators: two's complement
    truncation. *)
Definition as_u32 (x : Z) : Z := x mod 2 ^ 32.
Definition as_u64 (x : Z) : Z := x mod 2 ^ 64.
Definition as_i32 (x : Z) : Z := (x + 2 ^ 31) mod 2 ^ 32 - 2 ^ 31.
Definition as_i64 (x : Z) : Z := (x + 2 ^ 63) mod 2 ^ 64 - 2 ^ 63.

Definition wrapping_add_u32 (x y : Z) : Z := as_u32 (x + y).
Definition wrapping_add_u64 (x y : Z) : Z := as_u64 (x + y).
Definition wrapping_mul_u64 (x y : Z) : Z := as_u64 (x * y).

Definition saturating_add_u32 (x y : Z) : Z := Z.min (x + y) U32_MAX.
Definition saturating_add_u64 (x y : Z) : Z := Z.min (x + y) U64_MAX.
(** [saturating_sub] is the same function at every unsigned width. *)
Definition saturating_sub (x y : Z) : Z := Z.max 0 (x - y).

Notation "x '+sat32' y" := (saturating_add_u32 x y) (at level 50) : machine_scope.
Notation "x '+sat64' y" := (saturating_add_u64 x y) (at level 50) : machine_scope.
Notation "x '-sat' y" := (saturating_sub x y) (at level 50) : machine_scope.
Notation "x '.|' y" := (Z.lor x y) (at level 51, left associativity) : machine_scope.
Notation "x '.&' y" := (Z.land x y) (at level 49, left associativity) : machine_scope.
Notation "x '.^' y" := (Z.lxor x y) (at level 50, left associativity) : machine_scope.
Notation "x '.<<' y" := (Z.shiftl x y) (at level 48, left associativity) : machine_scope.
Notation "x '.>>' y" := (Z.shiftr x y) (at level 48, left associativity) : machine_scope.

(** ** Hint databases and tactics *)

Create HintDb machine.
Create HintDb stutter.

(** Turns boolean comparisons into propositions. *)
Ltac zbool :=
  repeat match goal with
  | H : context [ (?x =? ?y)%Z ] |- _ => destruct (Z.eqb_spec x y)
  | H : context [ (?x <? ?y)%Z ] |- _ => destruct (Z.ltb_spec x y)
  | H : context [ (?x <=? ?y)%Z ] |- _ => destruct (Z.leb_spec x y)
  | |- context [ (?x =? ?y)%Z ] => destruct (Z.eqb_spec x y)
  | |- context [ (?x <? ?y)%Z ] => destruct (Z.ltb_spec x y)
  | |- context [ (?x <=? ?y)%Z ] => destruct (Z.leb_spec x y)
  end.

(** Case analysis on the scrutinee of the first match of the goal. *)
Ltac case_goal :=
  match goal with
  | |- context [ match ?x with _ => _ end ] => destruct x eqn:?
  end.

(** Unfolds the machine-width predicates and operations and calls [lia]. *)
Ltac width :=
  unfold in_u8, in_u32, in_u64, in_i32, in_i64, saturating_add_u32,
    saturating_add_u64, saturating_sub, U8_MAX, U32_MAX, U64_MAX in *; lia.

(** ** Generic lemmas on integers *)

Lemma as_u32_range x : in_u32 (as_u32 x).
Proof. unfold in_u32, as_u32. apply Z.mod_pos_bound. lia. Qed.

Lemma as_u64_range x : in_u64 (as_u64 x).
Proof. unfold in_u64, as_u64. apply Z.mod_pos_bound. lia. Qed.

Lemma as_i32_range x : in_i32 (as_i32 x).
Proof.
  unfold in_i32, as_i32. pose proof (Z.mod_pos_bound (x + 2 ^ 31) (2 ^ 32)). lia.
Qed.

Lemma as_i64_range x : in_i64 (as_i64 x).
Proof.
  unfold in_i64, as_i64. pose proof (Z.mod_pos_bound (x + 2 ^ 63) (2 ^ 64)). lia.
Qed.

Lemma as_u32_id x : in_u32 x -> as_u32 x = x.
Proof. intros H. apply Z.mod_small. exact H. Qed.

Lemma as_u64_id x : in_u64 x -> as_u64 x = x.
Proof. intros H. apply Z.mod_small. exact H. Qed.

Lemma as_i32_id x : in_i32 x -> as_i32 x = x.
Proof. unfold in_i32, as_i32. intros H. rewrite Z.mod_small; lia. Qed.

Lemma as_i64_id x : in_i64 x -> as_i64 x = x.
Proof. unfold in_i64, as_i64. intros H. rewrite Z.mod_small; lia. Qed.

Lemma saturating_sub_u64 x y : in_u64 x -> in_u64 y -> in_u64 (saturating_sub x y).
Proof. width. Qed.

Lemma saturating_sub_u32 x y : in_u32 x -> in_u32 y -> in_u32 (saturating_sub x y).
Proof. width. Qed.

Lemma saturating_add_u32_range x y :
  in_u32 x -> in_u32 y -> in_u32 (saturating_add_u32 x y).
Proof. width. Qed.

Lemma saturating_add_u64_range x y :
  in_u64 x -> in_u64 y -> in_u64 (saturating_add_u64 x y).
Proof. width. Qed.

#[export] Hint Resolve as_u32_range as_u64_range as_i32_range as_i64_range
  saturating_sub_u64 saturating_sub_u32 saturating_add_u32_range
  saturating_add_u64_range : machine.

(** ** Little-endian bytes *)

Fixpoint le_bytes (n : nat) (z : Z) : list Z :=
  match n with
  | O => []
  | S n => z mod 256 :: le_bytes n (z / 256)
  end.

Fixpoint le_Z (bs : list Z) : Z :=
  match bs with
  | [] => 0
  | b :: bs => b + 256 * le_Z bs
  end.

Lemma le_bytes_length n z : length (le_bytes n z) = n.
Proof. revert z. induction n; intros z; simpl; [done | by rewrite IHn]. Qed.

Lemma le_bytes_range n z : Forall in_u8 (le_bytes n z).
Proof.
  revert z. induction n; intros z; simpl; constructor; [ | apply IHn ].
  unfold in_u8. apply Z.mod_pos_bound. lia.
Qed.

Lemma le_Z_bytes n z : 0 <= z < 256 ^ Z.of_nat n -> le_Z (le_bytes n z) = z.
Proof.
  revert z. induction n as [ | n IH ]; intros z Hz; simpl.
  - simpl in Hz. lia.
  - rewrite Nat2Z.inj_succ, Z.pow_succ_r in Hz by lia.
    rewrite IH.
    + pose proof (Z.div_mod z 256). lia.
    + split; [ apply Z.div_pos; lia | apply Z.div_lt_upper_bound; lia ].
Qed.

Lemma le_Z_range bs : Forall in_u8 bs -> 0 <= le_Z bs < 256 ^ Z.of_nat (length bs).
Proof.
  induction 1 as [ | b bs Hb _ IH ]; simpl; [ lia | ].
  rewrite Nat2Z.inj_succ, Z.pow_succ_r by lia. unfold in_u8 in Hb. lia.
Qed.

#[global] Arguments le_bytes : simpl never.
#[global] Arguments le_Z : simpl never.

(** ** Generic lemmas on finite maps *)

(** Number of keys whose value satisfies a predicate. *)
Definition count_map `{Countable K} {A} (P : A -> bool) (m : gmap K A) : Z :=
  Z.of_nat (size (filter (fun kv => P kv.2 = true) m)).

Section count_map.
Context `{Countable K} {A : Type}.
Implicit Types (m : gmap K A) (P : A -> bool).

Lemma count_map_empty P : count_map P (∅ : gmap K A) = 0.
Proof. unfold count_map. rewrite map_filter_empty. done. Qed.

Lemma count_map_nonneg P m : 0 <= count_map P m.
Proof. unfold count_map. lia. Qed.

Lemma count_map_insert_new P m k v :
  m !! k = None ->
  count_map P (<[k := v]> m) = count_map P m + (if P v then 1 else 0).
Proof.
  intros Hk. unfold count_map. rewrite map_filter_insert. simpl.
  destruct (P v) eqn:Hv.
  - rewrite decide_True by done. rewrite map_size_insert_None; [ lia | ].
    apply map_lookup_filter_None. by left.
  - rewrite decide_False by done. rewrite delete_id by done. lia.
Qed.

Lemma count_map_delete P m k v :
  m !! k = Some v ->
  count_map P (delete k m) = count_map P m - (if P v then 1 else 0).
Proof.
  intros Hk.
  assert (Hm : m = <[k := v]> (delete k m)) by (by rewrite insert_delete_id).
  rewrite Hm at 2. rewrite count_map_insert_new by apply lookup_delete_eq. lia.
Qed.

Lemma count_map_insert_some P m k v v' :
  m !! k = Some v ->
  count_map P (<[k := v']> m) =
    count_map P m - (if P v then 1 else 0) + (if P v' then 1 else 0).
Proof.
  intros Hk. rewrite <- insert_delete_eq.
  rewrite count_map_insert_new by apply lookup_delete_eq.
  rewrite (count_map_delete _ _ _ v) by done. lia.
Qed.

Lemma count_map_pos P m k v : m !! k = Some v -> P v = true -> 1 <= count_map P m.
Proof.
  intros Hk HP. pose proof (count_map_delete P m k v Hk) as Hd.
  rewrite HP in Hd. pose proof (count_map_nonneg P (delete k m)). lia.
Qed.

Lemma count_map_size P m : count_map P m <= Z.of_nat (size m).
Proof.
  unfold count_map. apply Nat2Z.inj_le, map_subseteq_size, map_filter_subseteq.
Qed.
End count_map.

(** A positive [i32] keeps its value when cast to [u32]. *)
Lemma as_u32_pos x : in_i32 x -> 0 < x -> as_u32 x = x.
Proof. intros H H0. apply as_u32_id. width. Qed.

(** A filter that everything passes. *)
Lemma filter_all {A} (P : A -> Prop) `{!forall x, Decision (P x)} (l : list A) :
  Forall P l -> filter P l = l.
Proof. induction 1 as [|x l Hx _ IH]; [done|]. by rewrite filter_cons_True, IH. Qed.

(** ** Stable sorting

    [slice::sort_by] is stable: elements that compare equal keep their order. *)

Section stable_sort.
Context {A : Type} (R : relation A) `{!forall x y, Decision (R x y)}.

Fixpoint insert_before (x : A) (l : list A) : list A :=
  match l with
  | [] => [x]
  | y :: l => if decide (R x y) then x :: y :: l else y :: insert_before x l
  end.

Definition stable_sort (l : list A) : list A := foldr insert_before [] l.

Lemma insert_before_Permutation x l : insert_before x l ≡ₚ x :: l.
Proof.
  induction l as [|y l IH]; cbn; [done|]. case_decide; [done|]. rewrite IH. constructor.
Qed.

Lemma stable_sort_Permutation l : stable_sort l ≡ₚ l.
Proof. induction l as [|x l IH]; cbn; [done|]. by rewrite insert_before_Permutation, IH. Qed.

Lemma StronglySorted_stable_sort `{!Transitive R, !Total R} l : Sorted.StronglySorted R (stable_sort l).
Proof.
  induction l as [|x l IH]; [constructor|]. unfold stable_sort in *. cbn [foldr].
  induction IH as [|y s Hs IHs Hy]; cbn; [by repeat constructor|]. case_decide as Hxy.
  - constructor; [by constructor|]. constructor; [done|]. revert Hy. apply Forall_impl.
    intros z ?. by transitivity y.
  - constructor; [done|]. rewrite insert_before_Permutation. constructor; [|done].
    by destruct (total R x y).
Qed.

(** What compares equal to [x] keeps its order. *)
Lemma insert_before_stable `{!Transitive R} x z l :
  R x z -> R z x ->
  filter (fun y => R z y /\ R y z) (insert_before x l) = x :: filter (fun y => R z y /\ R y z) l.
Proof.
  intros Hxz Hzx. induction l as [|y l IH]; cbn [insert_before].
  - by rewrite filter_cons_True.
  - case_decide as Hxy; [by rewrite filter_cons_True|].
    assert (~ (R z y /\ R y z)) by (intros [? ?]; apply Hxy; by transitivity z).
    by rewrite !(filter_cons_False _ y), IH by done.
Qed.
End stable_sort.
