(* ===== verification/Binary64.v ===== *)
(** * Binary64: Rust's [f64] as IEEE 754 binary64

    The operations the measurement and comparison code makes on [f64], over
    [SpecFloat]: the four operations, the comparisons, [is_finite], [max], the
    conversion [as f64] from an unsigned integer (round to nearest even) and
    [ceil] followed by a saturating [as u64].

    The lemmas are about order and sign: the conversion is monotone and exact
    below [2^53], a difference has the sign of the exact difference, products and
    quotients of non-negative values are not negative.  They let a theorem
    about a floating-point comparison speak of the integers it came from. *)

From S2P Require Import Prelude.
From Stdlib Require Import SpecFloat.

Definition f64 := spec_float.

Definition f64_zero : f64 := S754_zero false.
(** [n as f64] for an unsigned integer type of at most 128 bits. *)
Definition f64_of_Z (z : Z) : f64 := binary_normalize 53 1024 z 0 false.
Definition f64_add : f64 -> f64 -> f64 := SFadd 53 1024.
Definition f64_sub : f64 -> f64 -> f64 := SFsub 53 1024.
Definition f64_mul : f64 -> f64 -> f64 := SFmul 53 1024.
Definition f64_div : f64 -> f64 -> f64 := SFdiv 53 1024.
Definition f64_neg : f64 -> f64 := SFopp.

(** Rust's [<], [<=], [>], [>=] and [==]: false when an operand is a NaN. *)
Definition f64_lt (a b : f64) : bool := SFltb a b.
Definition f64_le (a b : f64) : bool := SFleb a b.
Definition f64_gt (a b : f64) : bool := SFltb b a.
Definition f64_ge (a b : f64) : bool := SFleb b a.
Definition f64_eq (a b : f64) : bool := SFeqb a b.

Definition f64_is_finite (x : f64) : bool :=
  match x with S754_infinity _ | S754_nan => false | _ => true end.

(** [f64::max]: the other operand when one is a NaN. *)
Definition f64_max (a b : f64) : f64 :=
  match SFcompare a b with
  | Some Lt => b
  | Some _ => a
  | None => match a with S754_nan => b | _ => a end
  end.

(** [x.ceil() as u64] (the cast saturates and sends a NaN to zero). *)
Definition f64_ceil_as_u64 (x : f64) : Z :=
  match x with
  | S754_zero _ | S754_nan => 0
  | S754_infinity s => if s then 0 else U64_MAX
  | S754_finite s m e =>
      let v := cond_Zopp s (Zpos m) in
      let c := if 0 <=? e then v * 2 ^ e else - ((- v) / 2 ^ (- e)) in
      Z.max 0 (Z.min c U64_MAX)
  end.

(** Decimal literals that have an exact binary value. *)
Definition f64_lit (num : Z) (den : Z) : f64 := f64_div (f64_of_Z num) (f64_of_Z den).

#[export] Instance comparison_eq_dec : EqDecision comparison.
Proof. solve_decision. Defined.
#[export] Instance f64_eq_dec : EqDecision f64.
Proof. solve_decision. Defined.

(** ** Rounding *)

Section Rounding.

Implicit Types (m k : Z) (p : positive).

Lemma digits2_pos_bounds p :
  2 ^ (Zpos (digits2_pos p) - 1) <= Zpos p < 2 ^ Zpos (digits2_pos p).
Proof.
  induction p as [p IH|p IH|]; cbn [digits2_pos]; [| |cbn; lia];
    rewrite Pos2Z.inj_succ;
    replace (Z.succ (Zpos (digits2_pos p)) - 1) with (Z.succ (Zpos (digits2_pos p) - 1)) by lia;
    rewrite !Z.pow_succ_r by lia; lia.
Qed.

(** The bit length is the only [d] with [2^(d-1) <= p < 2^d]. *)
Lemma digits2_pos_unique p d :
  0 < d -> 2 ^ (d - 1) <= Zpos p < 2 ^ d -> Zpos (digits2_pos p) = d.
Proof.
  intros Hd [Hl Hu]. pose proof (digits2_pos_bounds p) as [Hl' Hu'].
  destruct (Z.lt_trichotomy (Zpos (digits2_pos p)) d) as [H|[H|H]]; [|done|].
  - assert (2 ^ Zpos (digits2_pos p) <= 2 ^ (d - 1)) by (apply Z.pow_le_mono_r; lia). lia.
  - assert (2 ^ d <= 2 ^ (Zpos (digits2_pos p) - 1)) by (apply Z.pow_le_mono_r; lia). lia.
Qed.

Lemma iter_pos_nat {A} (f : A -> A) p x : iter_pos f p x = Nat.iter (Pos.to_nat p) f x.
Proof.
  revert x. induction p as [p IH|p IH|]; intros x; cbn [iter_pos]; [| |done].
  - rewrite !IH, <- Nat.iter_succ_r, <- Nat.iter_add. f_equal. lia.
  - rewrite !IH, <- Nat.iter_add. f_equal. lia.
Qed.

Lemma shr_1_spec m r s :
  0 <= m ->
  shr_1 (Build_shr_record m r s) = Build_shr_record (m / 2) (Z.odd m) (r || s).
Proof.
  intros Hm. rewrite <- Z.div2_div.
  destruct m as [|[p|p|]|p]; cbn; try done; lia.
Qed.

(** Shifting right by [k + 1] keeps the quotient, the last bit dropped and whether
    anything was lost below it. *)
Lemma shr_iter m (k : nat) :
  0 <= m ->
  Nat.iter (S k) shr_1 (Build_shr_record m false false)
    = Build_shr_record (m / 2 ^ Z.of_nat (S k)) (Z.odd (m / 2 ^ Z.of_nat k))
        (negb (m mod 2 ^ Z.of_nat k =? 0)).
Proof.
  intros Hm. induction k as [|k IH].
  - cbn [Nat.iter nat_rect]. rewrite shr_1_spec by done.
    cbn. by rewrite Z.mod_1_r, Z.div_1_r.
  - rewrite Nat.iter_succ, IH, shr_1_spec by (apply Z.div_pos; lia).
    f_equal.
    + rewrite Z.div_div by lia. f_equal.
      rewrite (Nat2Z.inj_succ (S k)), Z.pow_succ_r by lia. lia.
    + rewrite Nat2Z.inj_succ, Z.pow_succ_r, Z.mul_comm by lia.
      rewrite Z.rem_mul_r by lia.
      pose proof (Z.mod_pos_bound m (2 ^ Z.of_nat k) ltac:(lia)).
      assert (Hodd : Z.odd (m / 2 ^ Z.of_nat k) = ((m / 2 ^ Z.of_nat k) mod 2 =? 1)).
      { rewrite Zmod_odd. by destruct (Z.odd _). }
      rewrite Hodd. pose proof (Z.mod_pos_bound (m / 2 ^ Z.of_nat k) 2 ltac:(lia)).
      assert ((m / 2 ^ Z.of_nat k) mod 2 = 0 \/ (m / 2 ^ Z.of_nat k) mod 2 = 1) as [->| ->] by lia.
      * rewrite Z.mul_0_r, Z.add_0_r. done.
      * cbn. symmetry. apply negb_true_iff, Z.eqb_neq. lia.
Qed.

Lemma shr_succ m e (k : nat) :
  0 <= m ->
  shr (Build_shr_record m false false) e (Z.of_nat (S k))
    = (Build_shr_record (m / 2 ^ Z.of_nat (S k)) (Z.odd (m / 2 ^ Z.of_nat k))
         (negb (m mod 2 ^ Z.of_nat k =? 0)), e + Z.of_nat (S k)).
Proof.
  intros Hm. unfold shr.
  change (Z.of_nat (S k)) with (Zpos (Pos.of_succ_nat k)) at 1.
  cbv iota. rewrite iter_pos_nat, SuccNat2Pos.id_succ, shr_iter by done. done.
Qed.

(** [m / 2^k] rounded to nearest, ties to even. *)
Definition rne m k : Z :=
  let mrs := (shr (Build_shr_record m false false) 0 k).1 in
  round_nearest_even (shr_m mrs) (loc_of_shr_record mrs).

Definition round_up m (k : nat) : bool :=
  Z.odd (m / 2 ^ Z.of_nat k)
    && (negb (m mod 2 ^ Z.of_nat k =? 0) || Z.odd (m / 2 ^ Z.of_nat (S k))).

Lemma rne_spec m (k : nat) :
  0 <= m ->
  rne m (Z.of_nat (S k)) = m / 2 ^ Z.of_nat (S k) + Z.b2z (round_up m k).
Proof.
  intros Hm. unfold rne. rewrite shr_succ by done. cbn [fst].
  unfold round_up, loc_of_shr_record, round_nearest_even. cbn [shr_m].
  rewrite <- Z.negb_odd.
  destruct (Z.odd (m / 2 ^ Z.of_nat k)), (m mod 2 ^ Z.of_nat k =? 0),
    (Z.odd (m / 2 ^ Z.of_nat (S k))); cbn; lia.
Qed.

Lemma rne_bounds m k : 0 <= m -> 0 < k -> m / 2 ^ k <= rne m k <= m / 2 ^ k + 1.
Proof.
  intros Hm Hk. replace k with (Z.of_nat (S (Z.to_nat (k - 1)))) by lia.
  rewrite rne_spec by done. destruct (round_up _ _); cbn; lia.
Qed.

Lemma odd_quot m1 m2 (k : nat) :
  m1 <= m2 -> m1 / 2 ^ Z.of_nat (S k) = m2 / 2 ^ Z.of_nat (S k) ->
  m1 / 2 ^ Z.of_nat k <= m2 / 2 ^ Z.of_nat k
  /\ (Z.odd (m1 / 2 ^ Z.of_nat k) = true -> Z.odd (m2 / 2 ^ Z.of_nat k) = true
      /\ m1 / 2 ^ Z.of_nat k = m2 / 2 ^ Z.of_nat k).
Proof.
  intros Hle Heq. rewrite !Nat2Z.inj_succ, !Z.pow_succ_r in Heq by lia.
  rewrite !(Z.mul_comm 2), <- !Z.div_div in Heq by lia.
  assert (Hm : m1 / 2 ^ Z.of_nat k <= m2 / 2 ^ Z.of_nat k) by (apply Z.div_le_mono; lia).
  split; [done|]. intros Ho.
  generalize dependent (m1 / 2 ^ Z.of_nat k). generalize (m2 / 2 ^ Z.of_nat k). intros b a Heq Hab Ho.
  pose proof (Z.div_mod a 2 ltac:(lia)) as Ha. pose proof (Z.div_mod b 2 ltac:(lia)) as Hb.
  rewrite Zmod_odd, Ho in Ha. rewrite Zmod_odd in Hb.
  destruct (Z.odd b); [split; [done|lia]|lia].
Qed.

Lemma rne_mono m1 m2 k : 0 <= m1 -> m1 <= m2 -> 0 < k -> rne m1 k <= rne m2 k.
Proof.
  intros H1 H2 Hk. replace k with (Z.of_nat (S (Z.to_nat (k - 1)))) by lia.
  generalize (Z.to_nat (k - 1)). intros n. rewrite !rne_spec by lia.
  pose proof (Z.div_le_mono m1 m2 (2 ^ Z.of_nat (S n)) ltac:(lia) H2).
  destruct (decide (m1 / 2 ^ Z.of_nat (S n) = m2 / 2 ^ Z.of_nat (S n))) as [E|];
    [|destruct (round_up m1 n), (round_up m2 n); cbn; lia].
  destruct (odd_quot m1 m2 n H2 E) as [_ Ho]. rewrite E. apply Z.add_le_mono_l.
  unfold round_up. rewrite E.
  destruct (Z.odd (m1 / 2 ^ Z.of_nat n)); [|cbn; destruct (_ && _); cbn; lia].
  destruct (Ho eq_refl) as [-> Eq]. cbn [andb].
  assert (m1 mod 2 ^ Z.of_nat n <= m2 mod 2 ^ Z.of_nat n) by (rewrite !Z.mod_eq by lia; lia).
  pose proof (Z.mod_pos_bound m1 (2 ^ Z.of_nat n) ltac:(lia)).
  destruct (Z.eqb_spec (m1 mod 2 ^ Z.of_nat n) 0), (Z.eqb_spec (m2 mod 2 ^ Z.of_nat n) 0),
    (Z.odd (m2 / 2 ^ Z.of_nat (S n))); cbn [negb orb Z.b2z]; lia.
Qed.

End Rounding.

(** ** Conversion from integers *)

Section Conversion.

Implicit Types (z e : Z) (p : positive).

Definition bits z : Z := Zdigits2 z.

(** The nearest binary64 to [z], as an integer. *)
Definition round_Z z : Z :=
  if bits z <=? 53 then z else rne z (bits z - 53) * 2 ^ (bits z - 53).

Lemma iter_xO p q : Zpos (Pos.iter xO p q) = Zpos p * 2 ^ Zpos q.
Proof.
  revert p. induction q as [|q IH] using Pos.peano_ind; intros p; cbn [Pos.iter]; [lia|].
  rewrite Pos.iter_succ, Pos2Z.inj_xO, IH, Pos2Z.inj_succ, Z.pow_succ_r by lia. lia.
Qed.

Lemma shl_align_spec p e e' :
  e' <= e -> Zpos (shl_align p e e').1 = Zpos p * 2 ^ (e - e').
Proof.
  intros H. unfold shl_align. destruct (e' - e) eqn:E; cbn [fst].
  - replace (e - e') with 0 by lia. lia.
  - lia.
  - rewrite iter_xO. f_equal. f_equal. lia.
Qed.

Lemma shr_nop m e : shr (Build_shr_record m false false) e 0 = (Build_shr_record m false false, e).
Proof. done. Qed.

Lemma fexp_big e : -1021 <= e -> fexp 53 1024 e = e - 53.
Proof. unfold fexp, emin. lia. Qed.

(** Rounding a mantissa of at most 54 bits that is exactly representable. *)
Lemma round_exact (q : positive) e :
  Zpos (digits2_pos q) = 53 -> -1074 <= e <= 971 ->
  shr_fexp 53 1024 (Zpos q) e loc_Exact = (Build_shr_record (Zpos q) false false, e).
Proof.
  intros Hd He. unfold shr_fexp. cbn [Zdigits2 shr_record_of_loc].
  rewrite Hd, fexp_big by lia. replace (53 + e - 53 - e) with 0 by lia. done.
Qed.

Lemma shr_fexp_carry e :
  -1074 <= e <= 970 ->
  shr_fexp 53 1024 (2 ^ 53) e loc_Exact = (Build_shr_record (2 ^ 52) false false, e + 1).
Proof.
  intros He. unfold shr_fexp.
  replace (Zdigits2 (2 ^ 53)) with 54 by reflexivity.
  rewrite fexp_big by lia. replace (54 + e - 53 - e) with (Z.of_nat 1) by lia.
  cbn [shr_record_of_loc]. by rewrite shr_succ by lia.
Qed.

Lemma pow53_cases r : 2 ^ 52 <= r <= 2 ^ 53 -> r = 2 ^ 53 \/ 2 ^ 52 <= r < 2 ^ 53.
Proof. lia. Qed.

(** What [f64_of_Z] returns: a finite value worth [round_Z z]. *)
Definition converts (x : f64) z : Prop :=
  exists m e, x = S754_finite false m e /\ -1074 <= e
    /\ Zpos m * 2 ^ (e + 1074) = round_Z z * 2 ^ 1074.

Lemma bits_le p : Zpos p < 2 ^ 128 -> 0 < bits (Zpos p) <= 128.
Proof.
  intros H. unfold bits, Zdigits2. pose proof (digits2_pos_bounds p) as [Hl _].
  split; [lia|]. destruct (Z.le_gt_cases (Zpos (digits2_pos p)) 128); [done|exfalso].
  assert (2 ^ 128 <= 2 ^ (Zpos (digits2_pos p) - 1)) by (apply Z.pow_le_mono_r; lia). lia.
Qed.

Lemma bits_bounds p : 2 ^ (bits (Zpos p) - 1) <= Zpos p < 2 ^ bits (Zpos p).
Proof. apply digits2_pos_bounds. Qed.

Lemma round_aux_small (q : positive) e :
  Zpos (digits2_pos q) = 53 -> -1074 <= e <= 971 ->
  binary_round_aux 53 1024 false (Zpos q) e loc_Exact = S754_finite false q e.
Proof.
  intros Hd He. unfold binary_round_aux. rewrite round_exact by lia.
  cbn [shr_m loc_of_shr_record round_nearest_even]. rewrite round_exact by lia. cbn [shr_m].
  by destruct (Z.leb_spec e (1024 - 53)); [|lia].
Qed.

Lemma f64_of_Z_small p :
  bits (Zpos p) <= 53 -> converts (f64_of_Z (Zpos p)) (Zpos p).
Proof.
  intros Hs. pose proof (bits_bounds p) as [Hl Hu].
  unfold converts, round_Z. destruct (Z.leb_spec (bits (Zpos p)) 53); [|lia].
  unfold f64_of_Z, binary_normalize, binary_round. fold (bits (Zpos p)).
  change (Zpos (digits2_pos p)) with (bits (Zpos p)).
  set (d := bits (Zpos p)) in *. assert (0 < d) by (unfold d, bits, Zdigits2; lia).
  rewrite Z.add_0_r, fexp_big by lia.
  pose proof (shl_align_spec p 0 (d - 53) ltac:(lia)) as Ha.
  assert (Hsnd : (shl_align p 0 (d - 53)).2 = d - 53).
  { unfold shl_align. rewrite Z.sub_0_r. destruct (d - 53) eqn:E; cbn; lia. }
  destruct (shl_align p 0 (d - 53)) as [q e]. cbn [fst snd] in *. subst e.
  replace (0 - (d - 53)) with (53 - d) in Ha by lia.
  rewrite round_aux_small.
  - exists q, (d - 53). split; [done|]. split; [lia|].
    rewrite Ha, <- Z.mul_assoc, <- Z.pow_add_r by lia. do 2 f_equal. lia.
  - apply digits2_pos_unique; [lia|]. rewrite Ha.
    replace (2 ^ (53 - 1)) with (2 ^ (d - 1) * 2 ^ (53 - d))
      by (rewrite <- Z.pow_add_r by lia; f_equal; lia).
    replace (2 ^ 53) with (2 ^ d * 2 ^ (53 - d))
      by (rewrite <- Z.pow_add_r by lia; f_equal; lia).
    split; [apply Z.mul_le_mono_nonneg_r|apply Z.mul_lt_mono_pos_r]; lia.
  - lia.
Qed.

(** The rounded quotient has 53 bits, or carried to [2^53]. *)
Lemma rne_range p :
  53 < bits (Zpos p) -> 2 ^ 52 <= rne (Zpos p) (bits (Zpos p) - 53) <= 2 ^ 53.
Proof.
  intros Hb. pose proof (bits_bounds p) as [Hl Hu]. set (d := bits (Zpos p)) in *.
  pose proof (rne_bounds (Zpos p) (d - 53) ltac:(lia) ltac:(lia)) as Hr.
  assert (2 ^ 52 <= Zpos p / 2 ^ (d - 53)).
  { apply Z.div_le_lower_bound; [lia|]. rewrite <- Z.pow_add_r by lia.
    replace (d - 53 + 52) with (d - 1) by lia. done. }
  assert (Zpos p / 2 ^ (d - 53) < 2 ^ 53).
  { apply Z.div_lt_upper_bound; [lia|]. rewrite <- Z.pow_add_r by lia.
    replace (d - 53 + 53) with d by lia. done. }
  lia.
Qed.

Lemma f64_of_Z_big p :
  53 < bits (Zpos p) <= 128 -> converts (f64_of_Z (Zpos p)) (Zpos p).
Proof.
  intros [Hb H128]. pose proof (rne_range p Hb) as Hrr.
  unfold converts, round_Z. destruct (Z.leb_spec (bits (Zpos p)) 53); [lia|].
  unfold f64_of_Z, binary_normalize, binary_round.
  change (Zpos (digits2_pos p)) with (bits (Zpos p)). set (d := bits (Zpos p)) in *.
  rewrite Z.add_0_r, fexp_big by lia.
  assert (Hal : shl_align p 0 (d - 53) = (p, 0)).
  { unfold shl_align. destruct (d - 53 - 0) eqn:E; [lia|done|lia]. }
  rewrite Hal. unfold binary_round_aux, shr_fexp at 1. fold (bits (Zpos p)). fold d.
  cbn [shr_record_of_loc]. rewrite Z.add_0_r, fexp_big, Z.sub_0_r by lia.
  unfold rne in *. destruct (shr _ 0 (d - 53)) as [mrs e'] eqn:Es.
  assert (e' = d - 53) as ->.
  { revert Es. replace (d - 53) with (Z.of_nat (S (Z.to_nat (d - 54)))) by lia.
    rewrite shr_succ by lia. intros [= _ <-]. lia. }
  cbn [fst] in *. set (r := round_nearest_even _ _) in *.
  destruct (pow53_cases r Hrr) as [->|Hr2].
  - rewrite shr_fexp_carry by lia. cbn [shr_m].
    change (2 ^ 52) with (Zpos 4503599627370496).
    destruct (Z.leb_spec (d - 53 + 1) (1024 - 53)); [|lia].
    eexists _, _. split; [done|]. split; [lia|].
    change (Zpos 4503599627370496) with (2 ^ 52).
    rewrite <- !Z.pow_add_r by lia. f_equal. lia.
  - destruct r as [|q|q]; [lia| |lia].
    rewrite round_exact by (first [apply digits2_pos_unique; lia | lia]). cbn [shr_m].
    destruct (Z.leb_spec (d - 53) (1024 - 53)); [|lia].
    eexists _, _. split; [done|]. split; [lia|]. rewrite Z.pow_add_r by lia. lia.
Qed.

Lemma f64_of_Z_value z : 0 < z < 2 ^ 128 -> converts (f64_of_Z z) z.
Proof.
  intros [Hz Hz']. destruct z as [|p|p]; [lia| |lia].
  pose proof (bits_le p Hz').
  destruct (Z.le_gt_cases (bits (Zpos p)) 53); [by apply f64_of_Z_small|apply f64_of_Z_big; lia].
Qed.

Lemma round_Z_pos z : 0 < z < 2 ^ 128 -> 0 < round_Z z.
Proof.
  intros Hz. destruct (f64_of_Z_value z Hz) as (m & e & _ & He & H).
  apply (Z.mul_pos_cancel_r _ (2 ^ 1074)); [lia|]. rewrite <- H.
  apply Z.mul_pos_pos; [lia|apply Z.pow_pos_nonneg; lia].
Qed.

(** Rounding is monotone. *)
Lemma round_Z_mono z1 z2 : 0 < z1 -> z1 <= z2 < 2 ^ 128 -> round_Z z1 <= round_Z z2.
Proof.
  intros H1 [H2 H3]. destruct z1 as [|p1|p1], z2 as [|p2|p2]; try lia.
  pose proof (bits_bounds p1) as [Hl1 Hu1]. pose proof (bits_bounds p2) as [Hl2 Hu2].
  pose proof (bits_le p1 ltac:(lia)). pose proof (bits_le p2 ltac:(lia)).
  assert (Hb : bits (Zpos p1) <= bits (Zpos p2)).
  { destruct (Z.le_gt_cases (bits (Zpos p1)) (bits (Zpos p2))); [done|exfalso].
    assert (2 ^ bits (Zpos p2) <= 2 ^ (bits (Zpos p1) - 1)) by (apply Z.pow_le_mono_r; lia). lia. }
  unfold round_Z.
  destruct (Z.leb_spec (bits (Zpos p1)) 53) as [Hs1|Hs1],
           (Z.leb_spec (bits (Zpos p2)) 53) as [Hs2|Hs2]; [done| |lia|].
  - pose proof (rne_range p2 Hs2) as [Hr _].
    assert (2 ^ bits (Zpos p1) <= 2 ^ 52 * 2 ^ (bits (Zpos p2) - 53)).
    { rewrite <- Z.pow_add_r by lia. apply Z.pow_le_mono_r; lia. }
    nia.
  - destruct (decide (bits (Zpos p1) = bits (Zpos p2))) as [E|Hne].
    + rewrite E. apply Z.mul_le_mono_nonneg_r; [lia|]. apply rne_mono; lia.
    + pose proof (rne_range p2 Hs2) as [Hr2 _]. pose proof (rne_range p1 Hs1) as [_ Hr1].
      assert (2 ^ 53 * 2 ^ (bits (Zpos p1) - 53) <= 2 ^ 52 * 2 ^ (bits (Zpos p2) - 53)).
      { rewrite <- !Z.pow_add_r by lia. apply Z.pow_le_mono_r; lia. }
      nia.
Qed.

End Conversion.

(** ** Signs *)

(** Not a NaN, and the sign bit is [s]. *)
Definition has_sign (s : bool) (x : f64) : Prop :=
  match x with
  | S754_zero s' | S754_infinity s' | S754_finite s' _ _ => s' = s
  | S754_nan => False
  end.

(** A value that is not below zero (a NaN included). *)
Definition not_negative (x : f64) : Prop := f64_lt x f64_zero = false.

Lemma shr_m_nonneg m r s e n :
  0 <= m -> 0 <= shr_m (shr (Build_shr_record m r s) e n).1.
Proof.
  intros Hm. unfold shr. destruct n as [|p|p]; cbn [fst shr_m]; [done| |done].
  rewrite iter_pos_nat. generalize (Pos.to_nat p). intros k. revert m r s Hm.
  induction k as [|k IH]; intros m r s Hm; [done|].
  rewrite Nat.iter_succ_r, shr_1_spec by done. apply IH, Z.div_pos; lia.
Qed.

Lemma shr_fexp_nonneg m e l : 0 <= m -> 0 <= shr_m (shr_fexp 53 1024 m e l).1.
Proof.
  intros Hm. unfold shr_fexp. destruct l as [|[]]; cbn [shr_record_of_loc]; by apply shr_m_nonneg.
Qed.

Lemma binary_round_aux_sign s m e l : 0 <= m -> has_sign s (binary_round_aux 53 1024 s m e l).
Proof.
  intros Hm. unfold binary_round_aux.
  pose proof (shr_fexp_nonneg m e l Hm) as H1.
  destruct (shr_fexp 53 1024 m e l) as [mrs e']. cbn [fst] in H1.
  assert (H2 : 0 <= round_nearest_even (shr_m mrs) (loc_of_shr_record mrs)).
  { unfold round_nearest_even. destruct (loc_of_shr_record mrs) as [|[]]; try destruct (Z.even _); lia. }
  pose proof (shr_fexp_nonneg _ e' loc_Exact H2) as H3.
  destruct (shr_fexp 53 1024 _ e' loc_Exact) as [mrs' e'']. cbn [fst] in H3.
  destruct (shr_m mrs') eqn:E; [done| |lia]. by destruct (e'' <=? _).
Qed.

Lemma binary_normalize_nonneg m e : 0 <= m -> has_sign false (binary_normalize 53 1024 m e false).
Proof.
  intros Hm. destruct m as [|p|p]; [done| |lia].
  unfold binary_normalize, binary_round. destruct (shl_align _ _ _). by apply binary_round_aux_sign.
Qed.

Lemma f64_of_Z_sign z : 0 <= z -> has_sign false (f64_of_Z z).
Proof. apply binary_normalize_nonneg. Qed.

Lemma f64_of_Z_finite z : 0 <= z < 2 ^ 128 -> f64_is_finite (f64_of_Z z) = true.
Proof.
  intros [H0 H1]. destruct (decide (z = 0)) as [->|]; [done|].
  destruct (f64_of_Z_value z ltac:(lia)) as (m & e & -> & _). done.
Qed.

Lemma f64_of_Z_nonzero z :
  0 < z < 2 ^ 128 -> exists m e, f64_of_Z z = S754_finite false m e.
Proof. intros H. destruct (f64_of_Z_value z H) as (m & e & -> & _). eauto. Qed.

(** [a as f64 - b as f64] is not negative when [b <= a]. *)
Lemma f64_sub_of_Z_sign a b :
  0 <= b <= a -> a < 2 ^ 128 -> has_sign false (f64_sub (f64_of_Z a) (f64_of_Z b)).
Proof.
  intros [Hb Hab] Ha. destruct (decide (b = 0)) as [->|Hb0].
  - pose proof (f64_of_Z_sign a ltac:(lia)) as Hs. pose proof (f64_of_Z_finite a ltac:(lia)).
    change (f64_of_Z 0) with (S754_zero false).
    destruct (f64_of_Z a) as [[]|[]| |[]]; try done; by cbn in Hs.
  - destruct (f64_of_Z_value a ltac:(lia)) as (ma & ea & -> & Hea & Hva).
    destruct (f64_of_Z_value b ltac:(lia)) as (mb & eb & -> & Heb & Hvb).
    unfold f64_sub, SFsub, cond_Zopp. apply binary_normalize_nonneg.
    rewrite !shl_align_spec by lia.
    pose proof (round_Z_mono b a ltac:(lia) ltac:(lia)) as Hm.
    assert (Hmul : Zpos mb * 2 ^ (eb + 1074) <= Zpos ma * 2 ^ (ea + 1074)) by nia.
    set (ez := Z.min ea eb) in *.
    replace (2 ^ (eb + 1074)) with (2 ^ (eb - ez) * 2 ^ (ez + 1074)) in Hmul
      by (rewrite <- Z.pow_add_r by lia; f_equal; lia).
    replace (2 ^ (ea + 1074)) with (2 ^ (ea - ez) * 2 ^ (ez + 1074)) in Hmul
      by (rewrite <- Z.pow_add_r by lia; f_equal; lia).
    rewrite !Z.mul_assoc in Hmul. apply Z.mul_le_mono_pos_r in Hmul; [lia|].
    apply Z.pow_pos_nonneg; lia.
Qed.

Lemma f64_div_sign x m e :
  has_sign false x -> has_sign false (f64_div x (S754_finite false m e)).
Proof.
  unfold f64_div, SFdiv. destruct x as [s|s| |s mx ex]; cbn [has_sign]; intros H; try done; subst; try done.
  unfold SFdiv_core_binary. set (m' := match _ with Z0 => _ | _ => _ end).
  assert (0 <= m').
  { unfold m'. destruct (_ - _ - _); [lia|rewrite Z.shiftl_nonneg; lia|lia]. }
  destruct (Z.div_eucl m' (Zpos m)) as [q r] eqn:E.
  apply binary_round_aux_sign.
  pose proof (Z.div_pos m' (Zpos m) ltac:(lia) ltac:(lia)) as Hq. unfold Z.div in Hq. by rewrite E in Hq.
Qed.

Lemma f64_mul_sign x m e :
  has_sign false x -> has_sign false (f64_mul x (S754_finite false m e)).
Proof.
  unfold f64_mul, SFmul. destruct x as [s|s| |s mx ex]; cbn [has_sign]; intros H; try done; subst; try done.
  apply binary_round_aux_sign. lia.
Qed.

(** A non-negative value has a negation that no positive threshold accepts. *)
Lemma neg_not_ge x m e :
  has_sign false x -> f64_ge (f64_neg x) (S754_finite false m e) = false.
Proof. destruct x as [[]|[]| |[]]; cbn; congruence. Qed.

(** ** Order *)

Lemma SFcompare_antisym a b : SFcompare b a = option_map CompOpp (SFcompare a b).
Proof.
  destruct a as [[]|[]| |[] m e], b as [[]|[]| |[] m' e']; cbn; try done;
    rewrite (Z.compare_antisym e e'); change (Pos.compare_cont Eq) with Pos.compare;
    rewrite (Pos.compare_antisym m m');
    destruct (e ?= e'), (m ?= m')%positive; done.
Qed.

Lemma SFcompare_refl a : a <> S754_nan -> SFcompare a a = Some Eq.
Proof.
  destruct a as [[]|[]| |[] m e]; cbn; try done; intros _;
    rewrite Z.compare_refl; change (Pos.compare_cont Eq) with Pos.compare;
    rewrite Pos.compare_refl; done.
Qed.

Lemma SFcompare_some a b : a <> S754_nan -> b <> S754_nan -> is_Some (SFcompare a b).
Proof. intros Ha Hb. destruct a, b; cbn; eauto; done. Qed.

Lemma finite_not_nan x : f64_is_finite x = true -> x <> S754_nan.
Proof. by destruct x. Qed.

(** On values that are not NaN the comparisons are one total order. *)
Lemma f64_not_le a b :
  a <> S754_nan -> b <> S754_nan -> f64_le a b = false -> f64_lt b a = true.
Proof.
  intros Ha Hb. unfold f64_le, f64_lt, SFleb, SFltb. rewrite (SFcompare_antisym a b).
  destruct (SFcompare_some a b Ha Hb) as [[] ->]; done.
Qed.

Lemma f64_lt_asym a b : f64_lt a b = true -> f64_lt b a = false.
Proof.
  unfold f64_lt, SFltb. rewrite (SFcompare_antisym a b). by destruct (SFcompare a b) as [[]|].
Qed.

Lemma f64_lt_le a b : f64_lt a b = true -> f64_le a b = true.
Proof. unfold f64_lt, f64_le, SFltb, SFleb. by destruct (SFcompare a b) as [[]|]. Qed.

Lemma f64_le_not_lt a b : f64_le a b = true -> f64_lt b a = false.
Proof.
  unfold f64_lt, f64_le, SFltb, SFleb. rewrite (SFcompare_antisym a b).
  by destruct (SFcompare a b) as [[]|].
Qed.

Lemma f64_le_refl a : a <> S754_nan -> f64_le a a = true.
Proof. intros H. unfold f64_le, SFleb. by rewrite SFcompare_refl. Qed.
