(* ===== verification/Prog.v ===== *)
(** * Programs as trees of atomic steps

    A probe handler runs on one CPU while handlers on other CPUs run too.  What
    is atomic is one map operation or one memory access, not the handler.  A
    handler is therefore a tree of atomic steps on a shared world: [run] executes
    it alone, from start to end; [pool_step] executes one atomic step of one
    handler of a pool, so that [rtc pool_step] ranges over every interleaving. *)

From S2P Require Import Prelude.

Inductive prog (W A : Type) : Type :=
| Ret (a : A)
| Step {X : Type} (f : W -> X * W) (k : X -> prog W A).
Arguments Ret {W A} _.
Arguments Step {W A X} _ _.

Section prog.
Context {W : Type}.

#[global] Instance prog_ret : MRet (prog W) := fun A a => Ret a.

#[global] Instance prog_bind : MBind (prog W) := fun A B k =>
  fix bind (p : prog W A) : prog W B :=
    match p with
    | Ret a => k a
    | Step f k' => Step f (fun x => bind (k' x))
    end.

(** One atomic step. *)
Definition atomic {X : Type} (f : W -> X * W) : prog W X := Step f Ret.

Fixpoint run {A} (p : prog W A) (w : W) : A * W :=
  match p with
  | Ret a => (a, w)
  | Step f k => run (k (f w).1) (f w).2
  end.

Definition result {A} (p : prog W A) (w : W) : A := (run p w).1.
Definition exec {A} (p : prog W A) (w : W) : W := (run p w).2.

Lemma run_ret {A} (a : A) w : run (mret a) w = (a, w).
Proof. done. Qed.

Lemma run_atomic {X} (f : W -> X * W) w : run (atomic f) w = f w.
Proof. simpl. by destruct (f w). Qed.

Lemma run_bind {A B} (p : prog W A) (k : A -> prog W B) w :
  run (p ≫= k) w = run (k (run p w).1) (run p w).2.
Proof. revert w. induction p as [ a | X f k' IH ]; intros w; [done|]. apply IH. Qed.

(** ** Total-correctness triples *)

Definition triple {A} (P : W -> Prop) (p : prog W A) (Q : A -> W -> Prop) : Prop :=
  forall w, P w -> Q (run p w).1 (run p w).2.

Lemma triple_ret {A} (P : W -> Prop) (a : A) (Q : A -> W -> Prop) :
  (forall w, P w -> Q a w) -> triple P (mret a) Q.
Proof. intros H w Hw. by apply H. Qed.

Lemma triple_bind {A B} P (p : prog W A) (k : A -> prog W B) (R : A -> W -> Prop) Q :
  triple P p R -> (forall a, triple (R a) (k a) Q) -> triple P (p ≫= k) Q.
Proof. intros Hp Hk w Hw. rewrite run_bind. apply Hk, Hp, Hw. Qed.

Lemma triple_atomic {X} P (f : W -> X * W) (Q : X -> W -> Prop) :
  (forall w, P w -> Q (f w).1 (f w).2) -> triple P (atomic f) Q.
Proof. intros H w Hw. rewrite run_atomic. by apply H. Qed.

Lemma triple_conseq {A} (P P' : W -> Prop) (p : prog W A) (Q Q' : A -> W -> Prop) :
  triple P' p Q' -> (forall w, P w -> P' w) -> (forall a w, Q' a w -> Q a w) ->
  triple P p Q.
Proof. intros H HP HQ w Hw. apply HQ, H, HP, Hw. Qed.

(** A program preserves a predicate of the world. *)
Definition preserves {A} (I : W -> Prop) (p : prog W A) : Prop :=
  triple I p (fun _ => I).

Lemma preserves_ret {A} I (a : A) : preserves I (mret a).
Proof. by apply triple_ret. Qed.

Lemma preserves_bind {A B} I (p : prog W A) (k : A -> prog W B) :
  preserves I p -> (forall a, preserves I (k a)) -> preserves I (p ≫= k).
Proof. intros Hp Hk. eapply triple_bind; [ apply Hp | apply Hk ]. Qed.

Lemma preserves_atomic {X} I (f : W -> X * W) :
  (forall w, I w -> I (f w).2) -> preserves I (atomic f).
Proof. intros H. by apply triple_atomic. Qed.

(** ** Interleavings *)

Inductive pool_step {A} : list (prog W A) * W -> list (prog W A) * W -> Prop :=
| pool_step_at i X (f : W -> X * W) k ps w :
    ps !! i = Some (Step f k) ->
    pool_step (ps, w) (<[i := k (f w).1]> ps, (f w).2).

(** A pool invariant: a predicate on the threads' residual programs that every
    atomic step of every thread keeps. *)
Lemma pool_invariant {A} (I : list (prog W A) -> W -> Prop) :
  (forall i X (f : W -> X * W) k ps w, ps !! i = Some (Step f k) -> I ps w ->
     I (<[i := k (f w).1]> ps) (f w).2) ->
  forall c c', rtc pool_step c c' -> I c.1 c.2 -> I c'.1 c'.2.
Proof.
  intros HI c c' Hs. induction Hs as [ | c1 c2 c3 Hstep _ IH ]; [done|].
  intros Hc. apply IH. destruct Hstep as [ ?????? Hi ].
  exact (HI _ _ _ _ _ _ Hi Hc).
Qed.

(** The next atomic step of a program. *)
Definition step1 {A} (p : prog W A) (w : W) : option (prog W A * W) :=
  match p with
  | Ret _ => None
  | Step f k => Some (k (f w).1, (f w).2)
  end.

Lemma pool_invariant_step1 {A} (I : list (prog W A) -> W -> Prop) :
  (forall i p p' ps w w', ps !! i = Some p -> step1 p w = Some (p', w') -> I ps w ->
     I (<[i := p']> ps) w') ->
  forall c c', rtc pool_step c c' -> I c.1 c.2 -> I c'.1 c'.2.
Proof.
  intros HI. apply pool_invariant. intros i X f k ps w Hi. by apply (HI i (Step f k)).
Qed.

(** Runs a pool by a list of thread numbers. *)
Fixpoint run_schedule {A} (s : list nat) (ps : list (prog W A)) (w : W)
  : option (list (prog W A) * W) :=
  match s with
  | [] => Some (ps, w)
  | i :: s =>
      match ps !! i with
      | Some p =>
          match step1 p w with
          | Some (p', w') => run_schedule s (<[i := p']> ps) w'
          | None => None
          end
      | None => None
      end
  end.

Lemma run_schedule_sound {A} s (ps ps' : list (prog W A)) w w' :
  run_schedule s ps w = Some (ps', w') -> rtc pool_step (ps, w) (ps', w').
Proof.
  revert ps w. induction s as [ | i s IH ]; intros ps w H; [ by injection H as -> -> | ].
  simpl in H. destruct (ps !! i) as [p|] eqn:Hi; [|done].
  destruct p as [ a | X f k ]; [done|]. eapply rtc_l; [ by apply (pool_step_at i X f k) | ].
  by apply IH.
Qed.

Definition finished {A} (ps : list (prog W A)) : Prop :=
  Forall (fun p => exists a, p = Ret a) ps.

(** A pool of one thread computes what [run] computes. *)
Lemma pool_single {A} (p : prog W A) w :
  rtc pool_step ([p], w) ([Ret (run p w).1], (run p w).2).
Proof.
  revert w. induction p as [ a | X f k IH ]; intros w; [done|].
  eapply rtc_l; [ | apply IH ].
  by apply (pool_step_at 0 X f k [Step f k] w).
Qed.

(** ** Step-wise invariants

    [typed I Q p]: every atomic step of [p] keeps [I], whatever the world the
    step finds, and the result satisfies [Q].  Unlike a triple it holds under
    every interleaving, since nothing is assumed between two steps but [I]. *)

Fixpoint typed {A} (I : W -> Prop) (Q : A -> Prop) (p : prog W A) : Prop :=
  match p with
  | Ret a => Q a
  | Step f k => forall w, I w -> I (f w).2 /\ typed I Q (k (f w).1)
  end.

Lemma typed_ret {A} I (Q : A -> Prop) a : Q a -> typed I Q (mret a).
Proof. done. Qed.

Lemma typed_bind {A B} I (R : A -> Prop) (Q : B -> Prop) p (k : A -> prog W B) :
  typed I R p -> (forall a, R a -> typed I Q (k a)) -> typed I Q (p ≫= k).
Proof.
  intros Hp Hk. induction p as [ a | X f k' IH ]; [ by apply Hk | ].
  intros w Hw. destruct (Hp w Hw) as [Hi Ht]. split; [ done | by apply IH ].
Qed.

Lemma typed_atomic {X} I (Q : X -> Prop) (f : W -> X * W) :
  (forall w, I w -> I (f w).2 /\ Q (f w).1) -> typed I Q (atomic f).
Proof. intros H w Hw. by apply H. Qed.

Lemma typed_conseq {A} I (Q Q' : A -> Prop) p :
  typed I Q' p -> (forall a, Q' a -> Q a) -> typed I Q p.
Proof.
  intros Hp HQ. induction p as [ a | X f k IH ]; [ by apply HQ | ].
  intros w Hw. destruct (Hp w Hw) as [Hi Ht]. split; [ done | by apply IH ].
Qed.

Lemma typed_assoc {A B C} I (Q : C -> Prop) (p : prog W A) (k : A -> prog W B)
    (k' : B -> prog W C) :
  typed I Q (p ≫= fun a => k a ≫= k') -> typed I Q ((p ≫= k) ≫= k').
Proof.
  induction p as [ a | X f k0 IH ]; [done|]. intros H w Hw.
  destruct (H w Hw) as [Hi Ht]. split; [ done | by apply IH ].
Qed.

Lemma typed_run {A} I (Q : A -> Prop) (p : prog W A) w :
  typed I Q p -> I w -> Q (run p w).1 /\ I (run p w).2.
Proof.
  revert w. induction p as [ a | X f k IH ]; intros w Hp Hw; [done|].
  destruct (Hp w Hw) as [Hi Ht]. by apply IH.
Qed.

Lemma typed_pool {A} I (Q : A -> Prop) c c' :
  rtc (pool_step (A:=A)) c c' -> Forall (typed I Q) c.1 /\ I c.2 ->
  Forall (typed I Q) c'.1 /\ I c'.2.
Proof.
  intros Hs. apply (pool_invariant (fun ps w => Forall (typed I Q) ps /\ I w)); [|done].
  intros i X f k ps w Hi [Hps Hw].
  pose proof (Forall_lookup_1 _ _ _ _ Hps Hi) as Hp. destruct (Hp w Hw) as [HI Ht].
  split; [ by apply Forall_insert | done ].
Qed.
End prog.

#[global] Arguments run : simpl never.
#[global] Arguments atomic : simpl never.

Create Rewrite HintDb run.
#[export] Hint Rewrite @run_ret @run_bind : run.
#[export] Hint Resolve preserves_ret preserves_bind : stutter.

(** [let_else x := o or r; k]: Rust's [let Some(x) = o else { return r }; k] *)
Notation "'let_else' x ':=' o 'or' r ';' k" :=
  (match o with Some x => k | None => r end)
  (at level 100, x name, o at level 99, r at level 99, k at level 200,
   only parsing).
