(* ===== verification/Abi.v ===== *)
(** * The userspace/eBPF ABI

    [stutter-common]: the event kinds, flag bits, drop-counter slots and
    capacities, the [#[repr(C)]] event records with their memory layout, and the
    userspace decoder of [stutter/src/events/decode.rs].  A record's layout is
    the list of its field types; [size_of] and [offsets] are computed from it by
    the C rules, [encode] writes the bytes the probe submits and [decode_fields]
    reads them back. *)

From S2P Require Import Prelude.

(** ** Constants of [stutter-common/src/lib.rs] *)

Definition EVENT_RUNNABLE_LATENCY : Z := 1.
Definition EVENT_IRQ_LATENCY : Z := 2.
Definition EVENT_MIGRATION : Z := 3.
Definition EVENT_CPU_FREQ : Z := 4.
Definition EVENT_STAT_WAIT : Z := 5.
Definition EVENT_BLOCK_IO : Z := 6.
Definition EVENT_EXEC : Z := 7.
Definition EVENT_KMS_FLIP : Z := 8.
Definition EVENT_DRM_FENCE : Z := 9.
Definition BPF_MAX_TRACKED_CPUS : Z := 16384.
Definition BPF_DEFAULT_EVENTS_RINGBUF_BYTES : Z := 256 * 1024.
Definition KMS_FLIP_HAS_REQUEST_NS : Z := Z.shiftl 1 0.
Definition KMS_FLIP_HAS_DONE_NS : Z := Z.shiftl 1 1.
Definition KMS_FLIP_HAS_DURATION_NS : Z := Z.shiftl 1 2.
Definition KMS_FLIP_HAS_SEQUENCE : Z := Z.shiftl 1 3.
Definition KMS_FLIP_HAS_CRTC : Z := Z.shiftl 1 4.
Definition KMS_FLIP_EVENT_REQUEST : Z := 1.
Definition KMS_FLIP_EVENT_PAGEFLIP_DONE : Z := 2.
Definition KMS_FLIP_EVENT_INTERVAL : Z := 3.
Definition KMS_FLIP_EVENT_VBLANK : Z := 4.
Definition KMS_FLIP_PROVIDER_DRM : Z := 1.
Definition KMS_FLIP_PROVIDER_I915 : Z := 2.
Definition KMS_FLIP_PROVIDER_AMDGPU : Z := 3.
Definition DRM_FENCE_HAS_CONTEXT : Z := Z.shiftl 1 0.
Definition DRM_FENCE_HAS_SEQNO : Z := Z.shiftl 1 1.
Definition DRM_FENCE_HAS_TIMELINE : Z := Z.shiftl 1 2.
Definition DRM_FENCE_HAS_DURATION : Z := Z.shiftl 1 3.
Definition DRM_FENCE_HAS_PID : Z := Z.shiftl 1 4.
Definition DRM_FENCE_IS_IMPORTER_SIDE : Z := Z.shiftl 1 5.
Definition DRM_FENCE_IS_EXPORTER_SIDE : Z := Z.shiftl 1 6.
Definition DRM_FENCE_WAIT_DONE_WITHOUT_START : Z := Z.shiftl 1 7.
Definition DRM_FENCE_EVENT_WAIT_START : Z := 1.
Definition DRM_FENCE_EVENT_WAIT_DONE : Z := 2.
Definition DRM_FENCE_EVENT_SIGNAL : Z := 3.
Definition DRM_FENCE_EVENT_WAIT_INTERVAL : Z := 4.
Definition DRM_FENCE_PROVIDER_DMA_FENCE : Z := 1.
Definition DRM_FENCE_PROVIDER_DRM_SCHED : Z := 2.
Definition DRM_FENCE_PROVIDER_AMDGPU : Z := 3.
Definition DRM_FENCE_PROVIDER_I915 : Z := 4.
Definition DRM_GPU_ROLE_UNKNOWN : Z := 0.
Definition DRM_GPU_ROLE_RENDER : Z := 1.
Definition DRM_GPU_ROLE_DISPLAY : Z := 2.
Definition DROP_WAKEUP_DATA_INSERT_FAILED : Z := 0.
Definition DROP_RINGBUF_RESERVE_FAILED : Z := 1.
Definition DROP_IRQ_START_TIMES_INSERT_FAILED : Z := 2.
Definition DROP_BLOCK_START_INSERT_FAILED : Z := 3.
Definition DROP_WAKEUP_DATA_STALE_ENTRY : Z := 4.
Definition DROP_BLOCK_FALLBACK_KEY_COLLISION : Z := 5.
Definition DROP_WAKEUP_DATA_REPLACED_ENTRY : Z := 6.
Definition DROP_WAKEUP_DATA_CONSUMED_READ_FAILED : Z := 7.
Definition DROP_CPU_ACCOUNTING_UNTRACKED : Z := 8.
Definition DROP_BLOCK_ZERO_KEY : Z := 9.
Definition DROP_DRM_FENCE_MISSING_START : Z := 10.
Definition DROP_COUNTERS_MAX : Z := 11.

(** ** Map capacities of [stutter-common/src/ebpf_capacity.rs] *)

Definition DEFAULT_TARGET_PIDS_MAP_MAX_ENTRIES : Z := 1024.
Definition DEFAULT_TARGET_CGROUP_IDS_MAP_MAX_ENTRIES : Z := 64.
Definition DEFAULT_TARGET_IRQS_MAP_MAX_ENTRIES : Z := 64.
Definition DEFAULT_IRQ_START_TIMES_MAP_MAX_ENTRIES : Z := 1024.
Definition DEFAULT_BLOCK_START_MAP_MAX_ENTRIES : Z := 16384.
Definition DEFAULT_KMS_FLIP_STARTS_MAP_MAX_ENTRIES : Z := 4096.
Definition DEFAULT_FENCE_WAIT_STARTS_MAP_MAX_ENTRIES : Z := 4096.
Definition DEFAULT_FENCE_SIGNAL_TIMES_MAP_MAX_ENTRIES : Z := 4096.
Definition DEFAULT_WAKEUP_DATA_PER_TARGET_MULTIPLIER : Z := 128.
Definition DEFAULT_RUNNABLE_TASK_CPU_PER_TARGET_MULTIPLIER : Z := 64.
Definition DEFAULT_PREV_FAULTS_PER_TARGET_MULTIPLIER : Z := 128.

(** ** Tracepoint field offsets of [stutter-common/src/tracepoint_offsets.rs] *)

Definition SCHED_WAKEUP_PID_OFFSET : Z := 24.
Definition SCHED_WAKEUP_PRIO_OFFSET : Z := 28.
Definition SCHED_WAKEUP_TARGET_CPU_OFFSET : Z := 32.
Definition SCHED_SWITCH_PREV_PID_OFFSET : Z := 24.
Definition SCHED_SWITCH_PREV_STATE_OFFSET : Z := 32.
Definition SCHED_SWITCH_NEXT_COMM_OFFSET : Z := 40.
Definition SCHED_SWITCH_NEXT_PID_OFFSET : Z := 56.
Definition SCHED_SWITCH_NEXT_PRIO_OFFSET : Z := 60.
Definition SCHED_MIGRATE_TASK_PID_OFFSET : Z := 12.
Definition SCHED_MIGRATE_TASK_ORIG_CPU_OFFSET : Z := 20.
Definition SCHED_MIGRATE_TASK_DEST_CPU_OFFSET : Z := 24.
Definition CPU_FREQUENCY_STATE_OFFSET : Z := 8.
Definition CPU_FREQUENCY_CPU_ID_OFFSET : Z := 12.
Definition SCHED_STAT_WAIT_PID_OFFSET : Z := 8.
Definition SCHED_STAT_WAIT_DELAY_OFFSET : Z := 16.
Definition IRQ_HANDLER_IRQ_OFFSET : Z := 8.
Definition BLOCK_RQ_DEV_OFFSET : Z := 8.
Definition BLOCK_RQ_SECTOR_OFFSET : Z := 16.
Definition BLOCK_RQ_DEV_MIN_SIZE : Z := 4.
Definition BLOCK_RQ_SECTOR_MIN_SIZE : Z := 8.
Definition BLOCK_RQ_REQUEST_POINTER_MIN_SIZE : Z := 8.
Definition BLOCK_RQ_NR_SECTOR_MIN_SIZE : Z := 4.
Definition BLOCK_RQ_RWBS_MIN_SIZE : Z := 8.

(** ** Drop-counter metadata *)

Record DropCounterMetadata := {
  index : Z; constant_name : string; field_name : string; label : string }.

Definition DROP_COUNTER_METADATA : list DropCounterMetadata :=
  [
    {| index := DROP_WAKEUP_DATA_INSERT_FAILED; constant_name := "DROP_WAKEUP_DATA_INSERT_FAILED";
       field_name := "wakeup_data_insert_failed"; label := "wakeup data insert failed" |};
    {| index := DROP_RINGBUF_RESERVE_FAILED; constant_name := "DROP_RINGBUF_RESERVE_FAILED";
       field_name := "ringbuf_reserve_failed"; label := "ring buffer reserve failed" |};
    {| index := DROP_IRQ_START_TIMES_INSERT_FAILED; constant_name := "DROP_IRQ_START_TIMES_INSERT_FAILED";
       field_name := "irq_start_times_insert_failed"; label := "IRQ start-time insert failed" |};
    {| index := DROP_BLOCK_START_INSERT_FAILED; constant_name := "DROP_BLOCK_START_INSERT_FAILED";
       field_name := "block_start_insert_failed"; label := "block I/O start insert failed" |};
    {| index := DROP_WAKEUP_DATA_STALE_ENTRY; constant_name := "DROP_WAKEUP_DATA_STALE_ENTRY";
       field_name := "wakeup_data_stale_entries"; label := "stale wakeup data entry" |};
    {| index := DROP_BLOCK_FALLBACK_KEY_COLLISION; constant_name := "DROP_BLOCK_FALLBACK_KEY_COLLISION";
       field_name := "block_fallback_key_collisions"; label := "block I/O fallback key collision" |};
    {| index := DROP_WAKEUP_DATA_REPLACED_ENTRY; constant_name := "DROP_WAKEUP_DATA_REPLACED_ENTRY";
       field_name := "wakeup_data_replaced_entries"; label := "wakeup data replaced before consumption" |};
    {| index := DROP_WAKEUP_DATA_CONSUMED_READ_FAILED; constant_name := "DROP_WAKEUP_DATA_CONSUMED_READ_FAILED";
       field_name := "wakeup_data_consumed_read_failed"; label := "consumed wakeup read failed" |};
    {| index := DROP_CPU_ACCOUNTING_UNTRACKED; constant_name := "DROP_CPU_ACCOUNTING_UNTRACKED";
       field_name := "cpu_accounting_untracked"; label := "CPU accounting untracked" |};
    {| index := DROP_BLOCK_ZERO_KEY; constant_name := "DROP_BLOCK_ZERO_KEY";
       field_name := "block_zero_keys"; label := "block I/O zero key" |};
    {| index := DROP_DRM_FENCE_MISSING_START; constant_name := "DROP_DRM_FENCE_MISSING_START";
       field_name := "drm_fence_missing_start"; label := "DRM fence missing wait start" |} ]%string.

(** ** [#[repr(C)]] layouts *)

Inductive field := U32 | I32 | U64 | I64 | Bytes (n : nat).

Definition field_size (f : field) : nat :=
  match f with U32 | I32 => 4 | U64 | I64 => 8 | Bytes n => n end.

Definition field_align (f : field) : nat :=
  match f with U32 | I32 => 4 | U64 | I64 => 8 | Bytes _ => 1 end.

(** Bytes of padding that bring [off] to a multiple of [a]. *)
Definition padding (off a : nat) : nat := ((a - off mod a) mod a)%nat.

Definition align_of (fs : list field) : nat := foldr (fun f a => Nat.max (field_align f) a) 1%nat fs.

Fixpoint offsets_from (off : nat) (fs : list field) : list nat :=
  match fs with
  | [] => []
  | f :: fs =>
      let o := (off + padding off (field_align f))%nat in
      o :: offsets_from (o + field_size f) fs
  end.

Definition offsets (fs : list field) : list nat := offsets_from 0 fs.

Fixpoint end_from (off : nat) (fs : list field) : nat :=
  match fs with
  | [] => off
  | f :: fs => end_from (off + padding off (field_align f) + field_size f) fs
  end.

Definition size_of (fs : list field) : nat :=
  (end_from 0 fs + padding (end_from 0 fs) (align_of fs))%nat.

(** The values of a field and of a record. *)
Definition value (f : field) : Type :=
  match f with U32 | I32 | U64 | I64 => Z | Bytes _ => list Z end.

Fixpoint values (fs : list field) : Type :=
  match fs with [] => unit | f :: fs => (value f * values fs)%type end.

Definition value_ok (f : field) : value f -> Prop :=
  match f with
  | U32 => in_u32 | I32 => in_i32 | U64 => in_u64 | I64 => in_i64
  | Bytes n => fun bs => length bs = n /\ Forall in_u8 bs
  end.

Fixpoint values_ok (fs : list field) : values fs -> Prop :=
  match fs with
  | [] => fun _ => True
  | f :: fs => fun v => value_ok f v.1 /\ values_ok fs v.2
  end.

Definition encode_value (f : field) : value f -> list Z :=
  match f with
  | U32 => le_bytes 4
  | I32 => fun z => le_bytes 4 (as_u32 z)
  | U64 => le_bytes 8
  | I64 => fun z => le_bytes 8 (as_u64 z)
  | Bytes _ => fun bs => bs
  end.

Definition decode_value (f : field) : list Z -> value f :=
  match f with
  | U32 => le_Z
  | I32 => fun bs => as_i32 (le_Z bs)
  | U64 => le_Z
  | I64 => fun bs => as_i64 (le_Z bs)
  | Bytes _ => fun bs => bs
  end.

Fixpoint encode_from (off : nat) (fs : list field) : values fs -> list Z :=
  match fs with
  | [] => fun _ => []
  | f :: fs => fun v =>
      let pad := padding off (field_align f) in
      replicate pad 0 ++ encode_value f v.1 ++
      encode_from (off + pad + field_size f) fs v.2
  end.

(** [bs] are the bytes from offset [off] on. *)
Fixpoint decode_from (off : nat) (fs : list field) (bs : list Z) : values fs :=
  match fs with
  | [] => tt
  | f :: fs =>
      let pad := padding off (field_align f) in
      let bs := drop pad bs in
      (decode_value f (take (field_size f) bs),
       decode_from (off + pad + field_size f) fs (drop (field_size f) bs))
  end.

(** Plain-old-data records: what [aya::Pod] promises. *)
Class Pod (T : Type) := {
  pod_layout : list field;
  pod_to : T -> values pod_layout;
  pod_of : values pod_layout -> T;
  pod_of_to : forall t, pod_of (pod_to t) = t;
}.
Arguments pod_layout T {_}.

Definition encode `{Pod T} (t : T) : list Z :=
  encode_from 0 (pod_layout T) (pod_to t) ++
  replicate (padding (end_from 0 (pod_layout T)) (align_of (pod_layout T))) 0.

Definition pod_ok `{Pod T} (t : T) : Prop := values_ok (pod_layout T) (pod_to t).

(** ** Event records *)

Record SchedulerEvent := {
  se_kind : Z; se_tid : Z; se_cpu : Z; se_wakeup_target_cpu : Z; se_prio : Z;
  se_waker_tid : Z; se_target_pending_wakeups : Z;
  se_observed_runnable_depth : Z; se_maj_flt : Z; se_min_flt : Z;
  se_wakeup_ns : Z; se_switch_ns : Z; se_latency_ns : Z; se_comm : list Z;
  se_switch_prev_pid : Z; se_pad0 : Z; se_switch_prev_state : Z;
}.

Definition SchedulerEvent_layout : list field :=
  [ U32; U32; U32; U32; I32; U32; U32; U32; U64; U64; U64; U64; U64;
    Bytes 16; U32; U32; I64 ].

#[export] Instance SchedulerEvent_pod : Pod SchedulerEvent := {
  pod_layout := SchedulerEvent_layout;
  pod_to e :=
    (se_kind e, (se_tid e, (se_cpu e, (se_wakeup_target_cpu e, (se_prio e,
    (se_waker_tid e, (se_target_pending_wakeups e,
    (se_observed_runnable_depth e, (se_maj_flt e, (se_min_flt e,
    (se_wakeup_ns e, (se_switch_ns e, (se_latency_ns e, (se_comm e,
    (se_switch_prev_pid e, (se_pad0 e, (se_switch_prev_state e, tt)))))))))))))))));
  pod_of v :=
    let '(a0, (a1, (a2, (a3, (a4, (a5, (a6, (a7, (a8, (a9, (a10, (a11, (a12, 
      (a13, (a14, (a15, (a16, tt))))))))))))))))) := v in
    {| se_kind := a0; se_tid := a1; se_cpu := a2;
       se_wakeup_target_cpu := a3; se_prio := a4; se_waker_tid := a5;
       se_target_pending_wakeups := a6; se_observed_runnable_depth := a7;
       se_maj_flt := a8; se_min_flt := a9; se_wakeup_ns := a10;
       se_switch_ns := a11; se_latency_ns := a12; se_comm := a13;
       se_switch_prev_pid := a14; se_pad0 := a15;
       se_switch_prev_state := a16 |};
  pod_of_to := ltac:(by intros []);
}.

Record IrqEvent := {
  ie_kind : Z; ie_irq : Z; ie_cpu : Z; ie_pad0 : Z; ie_enter_ns : Z;
  ie_exit_ns : Z; ie_duration_ns : Z;
}.

Definition IrqEvent_layout : list field :=
  [ U32; U32; U32; U32; U64; U64; U64 ].

#[export] Instance IrqEvent_pod : Pod IrqEvent := {
  pod_layout := IrqEvent_layout;
  pod_to e :=
    (ie_kind e, (ie_irq e, (ie_cpu e, (ie_pad0 e, (ie_enter_ns e,
    (ie_exit_ns e, (ie_duration_ns e, tt)))))));
  pod_of v :=
    let '(a0, (a1, (a2, (a3, (a4, (a5, (a6, tt))))))) := v in
    {| ie_kind := a0; ie_irq := a1; ie_cpu := a2; ie_pad0 := a3;
       ie_enter_ns := a4; ie_exit_ns := a5; ie_duration_ns := a6 |};
  pod_of_to := ltac:(by intros []);
}.

Record MigrationEvent := {
  me_kind : Z; me_tid : Z; me_from_cpu : Z; me_to_cpu : Z;
  me_timestamp_ns : Z;
}.

Definition MigrationEvent_layout : list field :=
  [ U32; U32; U32; U32; U64 ].

#[export] Instance MigrationEvent_pod : Pod MigrationEvent := {
  pod_layout := MigrationEvent_layout;
  pod_to e :=
    (me_kind e, (me_tid e, (me_from_cpu e, (me_to_cpu e, (me_timestamp_ns e, tt)))));
  pod_of v :=
    let '(a0, (a1, (a2, (a3, (a4, tt))))) := v in
    {| me_kind := a0; me_tid := a1; me_from_cpu := a2; me_to_cpu := a3;
       me_timestamp_ns := a4 |};
  pod_of_to := ltac:(by intros []);
}.

Record CpuFreqEvent := {
  cf_kind : Z; cf_cpu : Z; cf_state : Z; cf_pad : Z; cf_timestamp_ns : Z;
}.

Definition CpuFreqEvent_layout : list field :=
  [ U32; U32; U32; U32; U64 ].

#[export] Instance CpuFreqEvent_pod : Pod CpuFreqEvent := {
  pod_layout := CpuFreqEvent_layout;
  pod_to e :=
    (cf_kind e, (cf_cpu e, (cf_state e, (cf_pad e, (cf_timestamp_ns e, tt)))));
  pod_of v :=
    let '(a0, (a1, (a2, (a3, (a4, tt))))) := v in
    {| cf_kind := a0; cf_cpu := a1; cf_state := a2; cf_pad := a3;
       cf_timestamp_ns := a4 |};
  pod_of_to := ltac:(by intros []);
}.

Record StatWaitEvent := {
  sw_kind : Z; sw_tid : Z; sw_delay_ns : Z;
}.

Definition StatWaitEvent_layout : list field :=
  [ U32; U32; U64 ].

#[export] Instance StatWaitEvent_pod : Pod StatWaitEvent := {
  pod_layout := StatWaitEvent_layout;
  pod_to e :=
    (sw_kind e, (sw_tid e, (sw_delay_ns e, tt)));
  pod_of v :=
    let '(a0, (a1, (a2, tt))) := v in
    {| sw_kind := a0; sw_tid := a1; sw_delay_ns := a2 |};
  pod_of_to := ltac:(by intros []);
}.

Record BlockIoEvent := {
  bi_kind : Z; bi_tid : Z; bi_dev : Z; bi_nr_sector : Z; bi_sector : Z;
  bi_duration_ns : Z; bi_timestamp_ns : Z; bi_rwbs : list Z;
}.

Definition BlockIoEvent_layout : list field :=
  [ U32; U32; U32; U32; U64; U64; U64; Bytes 8 ].

#[export] Instance BlockIoEvent_pod : Pod BlockIoEvent := {
  pod_layout := BlockIoEvent_layout;
  pod_to e :=
    (bi_kind e, (bi_tid e, (bi_dev e, (bi_nr_sector e, (bi_sector e,
    (bi_duration_ns e, (bi_timestamp_ns e, (bi_rwbs e, tt))))))));
  pod_of v :=
    let '(a0, (a1, (a2, (a3, (a4, (a5, (a6, (a7, tt)))))))) := v in
    {| bi_kind := a0; bi_tid := a1; bi_dev := a2; bi_nr_sector := a3;
       bi_sector := a4; bi_duration_ns := a5; bi_timestamp_ns := a6;
       bi_rwbs := a7 |};
  pod_of_to := ltac:(by intros []);
}.

Record ExecEvent := {
  ee_kind : Z; ee_pid : Z; ee_tid : Z; ee_comm : list Z;
}.

Definition ExecEvent_layout : list field :=
  [ U32; U32; U32; Bytes 16 ].

#[export] Instance ExecEvent_pod : Pod ExecEvent := {
  pod_layout := ExecEvent_layout;
  pod_to e :=
    (ee_kind e, (ee_pid e, (ee_tid e, (ee_comm e, tt))));
  pod_of v :=
    let '(a0, (a1, (a2, (a3, tt)))) := v in
    {| ee_kind := a0; ee_pid := a1; ee_tid := a2; ee_comm := a3 |};
  pod_of_to := ltac:(by intros []);
}.

Record KmsFlipEvent := {
  kf_kind : Z; kf_event_kind : Z; kf_provider : Z; kf_flags : Z; kf_pid : Z;
  kf_tid : Z; kf_cpu : Z; kf_card_minor : Z; kf_crtc_id : Z; kf_pipe : Z;
  kf_sequence : Z; kf_request_ns : Z; kf_done_ns : Z; kf_duration_ns : Z;
  kf_timestamp_ns : Z;
}.

Definition KmsFlipEvent_layout : list field :=
  [ U32; U32; U32; U32; U32; U32; U32; U32; U32; U32; U64; U64; U64; U64;
    U64 ].

#[export] Instance KmsFlipEvent_pod : Pod KmsFlipEvent := {
  pod_layout := KmsFlipEvent_layout;
  pod_to e :=
    (kf_kind e, (kf_event_kind e, (kf_provider e, (kf_flags e, (kf_pid e,
    (kf_tid e, (kf_cpu e, (kf_card_minor e, (kf_crtc_id e, (kf_pipe e,
    (kf_sequence e, (kf_request_ns e, (kf_done_ns e, (kf_duration_ns e,
    (kf_timestamp_ns e, tt)))))))))))))));
  pod_of v :=
    let '(a0, (a1, (a2, (a3, (a4, (a5, (a6, (a7, (a8, (a9, (a10, (a11, (a12, 
      (a13, (a14, tt))))))))))))))) := v in
    {| kf_kind := a0; kf_event_kind := a1; kf_provider := a2;
       kf_flags := a3; kf_pid := a4; kf_tid := a5; kf_cpu := a6;
       kf_card_minor := a7; kf_crtc_id := a8; kf_pipe := a9;
       kf_sequence := a10; kf_request_ns := a11; kf_done_ns := a12;
       kf_duration_ns := a13; kf_timestamp_ns := a14 |};
  pod_of_to := ltac:(by intros []);
}.

Record DrmFenceEvent := {
  df_kind : Z; df_event_kind : Z; df_provider : Z; df_flags : Z; df_pid : Z;
  df_tid : Z; df_cpu : Z; df_driver_id : Z; df_gpu_role : Z; df_pad0 : Z;
  df_context : Z; df_seqno : Z; df_timeline_hash : Z; df_wait_start_ns : Z;
  df_wait_done_ns : Z; df_signal_ns : Z; df_duration_ns : Z;
  df_timestamp_ns : Z;
}.

Definition DrmFenceEvent_layout : list field :=
  [ U32; U32; U32; U32; U32; U32; U32; U32; U32; U32; U64; U64; U64; U64;
    U64; U64; U64; U64 ].

#[export] Instance DrmFenceEvent_pod : Pod DrmFenceEvent := {
  pod_layout := DrmFenceEvent_layout;
  pod_to e :=
    (df_kind e, (df_event_kind e, (df_provider e, (df_flags e, (df_pid e,
    (df_tid e, (df_cpu e, (df_driver_id e, (df_gpu_role e, (df_pad0 e,
    (df_context e, (df_seqno e, (df_timeline_hash e, (df_wait_start_ns e,
    (df_wait_done_ns e, (df_signal_ns e, (df_duration_ns e,
    (df_timestamp_ns e, tt))))))))))))))))));
  pod_of v :=
    let '(a0, (a1, (a2, (a3, (a4, (a5, (a6, (a7, (a8, (a9, (a10, (a11, (a12, 
      (a13, (a14, (a15, (a16, (a17, tt)))))))))))))))))) := v in
    {| df_kind := a0; df_event_kind := a1; df_provider := a2;
       df_flags := a3; df_pid := a4; df_tid := a5; df_cpu := a6;
       df_driver_id := a7; df_gpu_role := a8; df_pad0 := a9;
       df_context := a10; df_seqno := a11; df_timeline_hash := a12;
       df_wait_start_ns := a13; df_wait_done_ns := a14; df_signal_ns := a15;
       df_duration_ns := a16; df_timestamp_ns := a17 |};
  pod_of_to := ltac:(by intros []);
}.

(** A record submitted to the [EVENTS] ring buffer. *)
Inductive RingEvent :=
| EvScheduler (e : SchedulerEvent)
| EvIrq (e : IrqEvent)
| EvMigration (e : MigrationEvent)
| EvCpuFreq (e : CpuFreqEvent)
| EvStatWait (e : StatWaitEvent)
| EvBlockIo (e : BlockIoEvent)
| EvExec (e : ExecEvent)
| EvKmsFlip (e : KmsFlipEvent)
| EvDrmFence (e : DrmFenceEvent).

Definition event_bytes (ev : RingEvent) : list Z :=
  match ev with
  | EvScheduler e => encode e
  | EvIrq e => encode e
  | EvMigration e => encode e
  | EvCpuFreq e => encode e
  | EvStatWait e => encode e
  | EvBlockIo e => encode e
  | EvExec e => encode e
  | EvKmsFlip e => encode e
  | EvDrmFence e => encode e
  end.

Definition event_kind (ev : RingEvent) : Z :=
  match ev with
  | EvScheduler e => se_kind e
  | EvIrq e => ie_kind e
  | EvMigration e => me_kind e
  | EvCpuFreq e => cf_kind e
  | EvStatWait e => sw_kind e
  | EvBlockIo e => bi_kind e
  | EvExec e => ee_kind e
  | EvKmsFlip e => kf_kind e
  | EvDrmFence e => df_kind e
  end.

(** The kind constant of the record type. *)
Definition expected_kind (ev : RingEvent) : Z :=
  match ev with
  | EvScheduler _ => EVENT_RUNNABLE_LATENCY
  | EvIrq _ => EVENT_IRQ_LATENCY
  | EvMigration _ => EVENT_MIGRATION
  | EvCpuFreq _ => EVENT_CPU_FREQ
  | EvStatWait _ => EVENT_STAT_WAIT
  | EvBlockIo _ => EVENT_BLOCK_IO
  | EvExec _ => EVENT_EXEC
  | EvKmsFlip _ => EVENT_KMS_FLIP
  | EvDrmFence _ => EVENT_DRM_FENCE
  end.

(** Every field is in the range of its type and the kind tag is the right one. *)
Definition event_ok (ev : RingEvent) : Prop :=
  event_kind ev = expected_kind ev /\
  match ev with
  | EvScheduler e => pod_ok e
  | EvIrq e => pod_ok e
  | EvMigration e => pod_ok e
  | EvCpuFreq e => pod_ok e
  | EvStatWait e => pod_ok e
  | EvBlockIo e => pod_ok e
  | EvExec e => pod_ok e
  | EvKmsFlip e => pod_ok e
  | EvDrmFence e => pod_ok e
  end.

(** ** The userspace decoder, [stutter/src/events/decode.rs] *)

Record EventDecodeLayout := { edl_size : nat; edl_align : nat }.

Definition EventDecodeLayout_of (T : Type) `{Pod T} : EventDecodeLayout :=
  {| edl_size := size_of (pod_layout T); edl_align := align_of (pod_layout T) |}.

Inductive EventDecodeError :=
| EDE_Short (actual_len : nat) (layout : EventDecodeLayout).

Inductive DecodedEbpfEvent :=
| DecodedScheduler (e : SchedulerEvent)
| DecodedIrq (e : IrqEvent)
| DecodedMigration (e : MigrationEvent)
| DecodedCpuFreq (e : CpuFreqEvent)
| DecodedStatWait (e : StatWaitEvent)
| DecodedBlockIo (e : BlockIoEvent)
| DecodedExec (e : ExecEvent)
| DecodedKmsFlip (e : KmsFlipEvent)
| DecodedDrmFence (e : DrmFenceEvent)
| DecodedUnknown (kind : Z)
| DecodedShort (kind : Z) (len : nat).

Definition read_u32_unaligned (data : list Z) : option Z :=
  if (length data <? 4)%nat then None else Some (le_Z (take 4 data)).

Definition read_event_unaligned_checked (T : Type) `{Pod T} (data : list Z)
  : T + EventDecodeError :=
  let layout := EventDecodeLayout_of T in
  if (length data <? edl_size layout)%nat
  then inr (EDE_Short (length data) layout)
  else inl (pod_of (decode_from 0 (pod_layout T) data)).

Definition read_event_unaligned (T : Type) `{Pod T} (data : list Z) : option T :=
  match read_event_unaligned_checked T data with inl e => Some e | inr _ => None end.

Definition decode_or_short {T : Type} `{Pod T} (bytes : list Z) (kind : Z)
    (constructor : T -> DecodedEbpfEvent) : DecodedEbpfEvent :=
  match read_event_unaligned_checked T bytes with
  | inl event => constructor event
  | inr (EDE_Short _ _) => DecodedShort kind (length bytes)
  end.

Definition decode_ebpf_event (kind : Z) (bytes : list Z) : DecodedEbpfEvent :=
  if kind =? EVENT_RUNNABLE_LATENCY then decode_or_short bytes kind DecodedScheduler
  else if kind =? EVENT_IRQ_LATENCY then decode_or_short bytes kind DecodedIrq
  else if kind =? EVENT_MIGRATION then decode_or_short bytes kind DecodedMigration
  else if kind =? EVENT_CPU_FREQ then decode_or_short bytes kind DecodedCpuFreq
  else if kind =? EVENT_STAT_WAIT then decode_or_short bytes kind DecodedStatWait
  else if kind =? EVENT_BLOCK_IO then decode_or_short bytes kind DecodedBlockIo
  else if kind =? EVENT_EXEC then decode_or_short bytes kind DecodedExec
  else if kind =? EVENT_KMS_FLIP then decode_or_short bytes kind DecodedKmsFlip
  else if kind =? EVENT_DRM_FENCE then decode_or_short bytes kind DecodedDrmFence
  else DecodedUnknown kind.

(** The decoder's answer for an event that arrives whole. *)
Definition decoded_of (ev : RingEvent) : DecodedEbpfEvent :=
  match ev with
  | EvScheduler e => DecodedScheduler e
  | EvIrq e => DecodedIrq e
  | EvMigration e => DecodedMigration e
  | EvCpuFreq e => DecodedCpuFreq e
  | EvStatWait e => DecodedStatWait e
  | EvBlockIo e => DecodedBlockIo e
  | EvExec e => DecodedExec e
  | EvKmsFlip e => DecodedKmsFlip e
  | EvDrmFence e => DecodedDrmFence e
  end.

(** ** Correctness of the layout and of the decoder *)

Lemma value_round_trip f (v : value f) :
  value_ok f v -> decode_value f (encode_value f v) = v.
Proof.
  destruct f; simpl; intros Hv; try done.
  - apply le_Z_bytes. exact Hv.
  - rewrite le_Z_bytes by apply as_u32_range.
    unfold as_i32, as_u32, in_i32 in *. rewrite Zplus_mod_idemp_l.
    rewrite Z.mod_small; lia.
  - apply le_Z_bytes. exact Hv.
  - rewrite le_Z_bytes by apply as_u64_range.
    unfold as_i64, as_u64, in_i64 in *. rewrite Zplus_mod_idemp_l.
    rewrite Z.mod_small; lia.
Qed.

Lemma encode_value_length f (v : value f) :
  value_ok f v -> length (encode_value f v) = field_size f.
Proof. destruct f; simpl; intros Hv; first [ done | apply Hv ]. Qed.

Lemma fields_round_trip fs (v : values fs) off rest :
  values_ok fs v -> decode_from off fs (encode_from off fs v ++ rest) = v.
Proof.
  revert off. induction fs as [ | f fs IH ]; intros off Hv; simpl in *.
  - by destruct v.
  - destruct v as [v vs]. destruct Hv as [Hv Hvs]. simpl in *.
    rewrite <- !app_assoc, drop_app_length' by (by rewrite length_replicate).
    rewrite take_app_length' by (by rewrite encode_value_length).
    rewrite drop_app_length' by (by rewrite encode_value_length).
    by rewrite value_round_trip, IH.
Qed.

Lemma encode_from_length fs (v : values fs) off :
  values_ok fs v -> (off + length (encode_from off fs v) = end_from off fs)%nat.
Proof.
  revert off. induction fs as [ | f fs IH ]; intros off Hv; simpl in *; [ lia | ].
  destruct Hv as [Hv Hvs]. rewrite !length_app, length_replicate.
  rewrite (encode_value_length f) by done. rewrite <- (IH _ _ Hvs). lia.
Qed.

Section pod.
Context `{Pod T}.

Lemma encode_length (t : T) : pod_ok t -> length (encode t) = size_of (pod_layout T).
Proof.
  intros Ht. unfold encode, size_of. rewrite length_app, length_replicate.
  pose proof (encode_from_length _ _ 0 Ht). lia.
Qed.

Lemma read_encoded (t : T) rest :
  pod_ok t -> read_event_unaligned_checked T (encode t ++ rest) = inl t.
Proof.
  intros Ht. unfold read_event_unaligned_checked. simpl.
  rewrite length_app, (encode_length t Ht).
  replace (_ <? _)%nat with false by (symmetry; apply Nat.ltb_ge; lia).
  unfold encode. rewrite <- app_assoc, fields_round_trip by done.
  by rewrite pod_of_to.
Qed.

Lemma decode_or_short_encoded (t : T) rest k c :
  pod_ok t -> decode_or_short (encode t ++ rest) k c = c t.
Proof. intros Ht. unfold decode_or_short. by rewrite read_encoded. Qed.

Lemma decode_or_short_short data k (c : T -> DecodedEbpfEvent) :
  (length data < size_of (pod_layout T))%nat ->
  decode_or_short data k c = DecodedShort k (length data).
Proof.
  intros Hl. unfold decode_or_short, read_event_unaligned_checked. simpl.
  by apply Nat.ltb_lt in Hl as ->.
Qed.
End pod.

(** The record type of each event kind has the size the source asserts. *)
Definition kind_size (kind : Z) : option nat :=
  if kind =? EVENT_RUNNABLE_LATENCY then Some (size_of SchedulerEvent_layout)
  else if kind =? EVENT_IRQ_LATENCY then Some (size_of IrqEvent_layout)
  else if kind =? EVENT_MIGRATION then Some (size_of MigrationEvent_layout)
  else if kind =? EVENT_CPU_FREQ then Some (size_of CpuFreqEvent_layout)
  else if kind =? EVENT_STAT_WAIT then Some (size_of StatWaitEvent_layout)
  else if kind =? EVENT_BLOCK_IO then Some (size_of BlockIoEvent_layout)
  else if kind =? EVENT_EXEC then Some (size_of ExecEvent_layout)
  else if kind =? EVENT_KMS_FLIP then Some (size_of KmsFlipEvent_layout)
  else if kind =? EVENT_DRM_FENCE then Some (size_of DrmFenceEvent_layout)
  else None.

(** The layouts of the nine event records, computed from the field lists by the C
    rules, have the sizes and the offsets that the compile-time assertions of [stutter-
    common] pin. *)
Theorem abi_layout_pinned :
  map kind_size [1; 2; 3; 4; 5; 6; 7; 8; 9] =
    map Some [104; 40; 24; 24; 16; 48; 28; 80; 104]%nat /\
  offsets SchedulerEvent_layout !! 14%nat = Some 88%nat /\
  offsets SchedulerEvent_layout !! 15%nat = Some 92%nat /\
  offsets SchedulerEvent_layout !! 16%nat = Some 96%nat /\
  take 5 (offsets IrqEvent_layout) = [0; 4; 8; 12; 16]%nat /\
  drop 8 (take 11 (offsets DrmFenceEvent_layout)) = [32; 36; 40]%nat.
Proof. by vm_compute. Qed.

Lemma decode_event_bytes (ev : RingEvent) (rest : list Z) :
  event_ok ev ->
  read_u32_unaligned (event_bytes ev ++ rest) = Some (event_kind ev) /\
  decode_ebpf_event (event_kind ev) (event_bytes ev ++ rest) = decoded_of ev.
Proof.
  intros [Hk Hok].
  assert (Hkind : read_u32_unaligned (event_bytes ev ++ rest) = Some (event_kind ev)).
  { destruct ev as [e|e|e|e|e|e|e|e|e]; destruct Hok as [Hu Hok];
      unfold read_u32_unaligned, event_bytes, encode; simpl;
      f_equal; apply (le_Z_bytes 4); exact Hu. }
  split; [done|]. rewrite Hk.
  destruct ev as [e|e|e|e|e|e|e|e|e]; exact (decode_or_short_encoded e rest _ _ Hok).
Qed.

Lemma event_bytes_length (ev : RingEvent) :
  event_ok ev -> kind_size (event_kind ev) = Some (length (event_bytes ev)).
Proof.
  intros [Hk Hok]. rewrite Hk.
  destruct ev as [e|e|e|e|e|e|e|e|e];
    exact (eq_sym (f_equal Some (encode_length e Hok))).
Qed.

(** C35. The record of a well-formed event has the size of its kind, its first four
    bytes are the kind tag, and the userspace decoder reads the event back from it, even
    with trailing bytes. *)
Theorem decode_round_trip (ev : RingEvent) (rest : list Z) :
  event_ok ev ->
  kind_size (event_kind ev) = Some (length (event_bytes ev)) /\
  read_u32_unaligned (event_bytes ev ++ rest) = Some (event_kind ev) /\
  decode_ebpf_event (event_kind ev) (event_bytes ev ++ rest) = decoded_of ev.
Proof. intros Hok. split; [ by apply event_bytes_length | by apply decode_event_bytes ]. Qed.

(** A buffer shorter than its kind's record decodes to [Short] with its length, an
    unknown kind to [Unknown], whatever the bytes: the decoder never reads past the
    buffer. *)
Theorem decode_short_or_unknown (kind : Z) (bytes : list Z) :
  match kind_size kind with
  | Some n => (length bytes < n)%nat ->
      decode_ebpf_event kind bytes = DecodedShort kind (length bytes)
  | None => decode_ebpf_event kind bytes = DecodedUnknown kind
  end.
Proof.
  unfold kind_size, decode_ebpf_event.
  do 9 (match goal with
        | |- match (if ?b then _ else _) with _ => _ end =>
            destruct b; [ intros Hl; by apply decode_or_short_short | ]
        end). done.
Qed.

(** The drop-counter metadata table labels every slot of the shared counter array
    exactly once, at its own position, with non-empty distinct names. *)
Theorem drop_counter_metadata_covers_every_slot :
  map index DROP_COUNTER_METADATA =
    map Z.of_nat (seq 0 (Z.to_nat DROP_COUNTERS_MAX)) /\
  NoDup (map constant_name DROP_COUNTER_METADATA) /\
  NoDup (map field_name DROP_COUNTER_METADATA) /\
  Forall (fun d => label d <> ""%string /\ field_name d <> ""%string)
    DROP_COUNTER_METADATA.
Proof.
  split; [done|]. split; [|split].
  - apply (bool_decide_unpack _). by vm_compute.
  - apply (bool_decide_unpack _). by vm_compute.
  - repeat constructor; done.
Qed.
