(* ===== verification/Maps.v ===== *)
(** * BPF maps, helpers and tracepoint contexts

    The state shared by the probes of [stutter-ebpf] and what they call of the
    kernel.  [World] has one field per BPF map ([maps.rs], [wakeup_data.rs],
    [irq.rs], [block_io.rs]), the contents of the ring buffer and the clock.
    The kernel's part is a parameter: the class [Kernel] decides which map
    inserts and which ring-buffer reservations succeed and what the LRU map
    evicts, with the documented behaviour as laws.  Every map operation is one
    atomic step; a read-modify-write through a value pointer is two. *)

From S2P Require Import Prelude Prog Abi.

(** ** [trace_offsets.rs]: offsets and providers the loader patches *)

Record TraceOffsets := {
  BLOCK_RQ_KEY_OFFSET : Z; BLOCK_RQ_ISSUE_NR_SECTOR_OFFSET : Z;
  BLOCK_RQ_ISSUE_RWBS_OFFSET : Z; BLOCK_RQ_COMPLETE_NR_SECTOR_OFFSET : Z;
  BLOCK_RQ_COMPLETE_RWBS_OFFSET : Z; I915_FLIP_REQUEST_CRTC_OFFSET : Z;
  I915_FLIP_REQUEST_PIPE_OFFSET : Z; I915_FLIP_REQUEST_CARD_MINOR_OFFSET : Z;
  I915_FLIP_DONE_CRTC_OFFSET : Z; I915_FLIP_DONE_PIPE_OFFSET : Z;
  I915_FLIP_DONE_CARD_MINOR_OFFSET : Z; I915_FLIP_DONE_SEQUENCE_OFFSET : Z;
  I915_FLIP_DONE_SEQUENCE_SIZE : Z; DRM_FLIP_REQUEST_CRTC_OFFSET : Z;
  DRM_FLIP_REQUEST_PIPE_OFFSET : Z; DRM_FLIP_REQUEST_CARD_MINOR_OFFSET : Z;
  DRM_FLIP_DONE_CRTC_OFFSET : Z; DRM_FLIP_DONE_PIPE_OFFSET : Z;
  DRM_FLIP_DONE_CARD_MINOR_OFFSET : Z; DRM_FLIP_DONE_SEQUENCE_OFFSET : Z;
  DRM_FLIP_DONE_SEQUENCE_SIZE : Z; DRM_VBLANK_CRTC_OFFSET : Z;
  DRM_VBLANK_PIPE_OFFSET : Z; DRM_VBLANK_CARD_MINOR_OFFSET : Z;
  DRM_VBLANK_SEQUENCE_OFFSET : Z; DRM_VBLANK_SEQUENCE_SIZE : Z;
  AMDGPU_FLIP_REQUEST_CRTC_OFFSET : Z; AMDGPU_FLIP_REQUEST_PIPE_OFFSET : Z;
  AMDGPU_FLIP_REQUEST_CARD_MINOR_OFFSET : Z; AMDGPU_FLIP_DONE_CRTC_OFFSET : Z;
  AMDGPU_FLIP_DONE_PIPE_OFFSET : Z; AMDGPU_FLIP_DONE_CARD_MINOR_OFFSET : Z;
  AMDGPU_FLIP_DONE_SEQUENCE_OFFSET : Z; AMDGPU_FLIP_DONE_SEQUENCE_SIZE : Z;
  AMDGPU_VBLANK_CRTC_OFFSET : Z; AMDGPU_VBLANK_PIPE_OFFSET : Z;
  AMDGPU_VBLANK_CARD_MINOR_OFFSET : Z; AMDGPU_VBLANK_SEQUENCE_OFFSET : Z;
  AMDGPU_VBLANK_SEQUENCE_SIZE : Z; DRM_FENCE_WAIT_START_CONTEXT_OFFSET : Z;
  DRM_FENCE_WAIT_START_SEQNO_OFFSET : Z;
  DRM_FENCE_WAIT_START_TIMELINE_OFFSET : Z;
  DRM_FENCE_WAIT_DONE_CONTEXT_OFFSET : Z;
  DRM_FENCE_WAIT_DONE_SEQNO_OFFSET : Z;
  DRM_FENCE_WAIT_DONE_TIMELINE_OFFSET : Z;
  DRM_FENCE_SIGNAL_CONTEXT_OFFSET : Z; DRM_FENCE_SIGNAL_SEQNO_OFFSET : Z;
  DRM_FENCE_SIGNAL_TIMELINE_OFFSET : Z; DRM_FENCE_WAIT_START_PROVIDER : Z;
  DRM_FENCE_WAIT_START_GPU_ROLE : Z; DRM_FENCE_WAIT_DONE_PROVIDER : Z;
  DRM_FENCE_WAIT_DONE_GPU_ROLE : Z; DRM_FENCE_SIGNAL_PROVIDER : Z;
  DRM_FENCE_SIGNAL_GPU_ROLE : Z
}.

Definition default_trace_offsets : TraceOffsets := {|
  BLOCK_RQ_KEY_OFFSET := 0; BLOCK_RQ_ISSUE_NR_SECTOR_OFFSET := 0;
  BLOCK_RQ_ISSUE_RWBS_OFFSET := 0; BLOCK_RQ_COMPLETE_NR_SECTOR_OFFSET := 0;
  BLOCK_RQ_COMPLETE_RWBS_OFFSET := 0; I915_FLIP_REQUEST_CRTC_OFFSET := 0;
  I915_FLIP_REQUEST_PIPE_OFFSET := 0;
  I915_FLIP_REQUEST_CARD_MINOR_OFFSET := 0; I915_FLIP_DONE_CRTC_OFFSET := 0;
  I915_FLIP_DONE_PIPE_OFFSET := 0; I915_FLIP_DONE_CARD_MINOR_OFFSET := 0;
  I915_FLIP_DONE_SEQUENCE_OFFSET := 0; I915_FLIP_DONE_SEQUENCE_SIZE := 0;
  DRM_FLIP_REQUEST_CRTC_OFFSET := 0; DRM_FLIP_REQUEST_PIPE_OFFSET := 0;
  DRM_FLIP_REQUEST_CARD_MINOR_OFFSET := 0; DRM_FLIP_DONE_CRTC_OFFSET := 0;
  DRM_FLIP_DONE_PIPE_OFFSET := 0; DRM_FLIP_DONE_CARD_MINOR_OFFSET := 0;
  DRM_FLIP_DONE_SEQUENCE_OFFSET := 0; DRM_FLIP_DONE_SEQUENCE_SIZE := 0;
  DRM_VBLANK_CRTC_OFFSET := 0; DRM_VBLANK_PIPE_OFFSET := 0;
  DRM_VBLANK_CARD_MINOR_OFFSET := 0; DRM_VBLANK_SEQUENCE_OFFSET := 0;
  DRM_VBLANK_SEQUENCE_SIZE := 0; AMDGPU_FLIP_REQUEST_CRTC_OFFSET := 0;
  AMDGPU_FLIP_REQUEST_PIPE_OFFSET := 0;
  AMDGPU_FLIP_REQUEST_CARD_MINOR_OFFSET := 0;
  AMDGPU_FLIP_DONE_CRTC_OFFSET := 0; AMDGPU_FLIP_DONE_PIPE_OFFSET := 0;
  AMDGPU_FLIP_DONE_CARD_MINOR_OFFSET := 0;
  AMDGPU_FLIP_DONE_SEQUENCE_OFFSET := 0; AMDGPU_FLIP_DONE_SEQUENCE_SIZE := 0;
  AMDGPU_VBLANK_CRTC_OFFSET := 0; AMDGPU_VBLANK_PIPE_OFFSET := 0;
  AMDGPU_VBLANK_CARD_MINOR_OFFSET := 0; AMDGPU_VBLANK_SEQUENCE_OFFSET := 0;
  AMDGPU_VBLANK_SEQUENCE_SIZE := 0; DRM_FENCE_WAIT_START_CONTEXT_OFFSET := 0;
  DRM_FENCE_WAIT_START_SEQNO_OFFSET := 0;
  DRM_FENCE_WAIT_START_TIMELINE_OFFSET := 0;
  DRM_FENCE_WAIT_DONE_CONTEXT_OFFSET := 0;
  DRM_FENCE_WAIT_DONE_SEQNO_OFFSET := 0;
  DRM_FENCE_WAIT_DONE_TIMELINE_OFFSET := 0;
  DRM_FENCE_SIGNAL_CONTEXT_OFFSET := 0; DRM_FENCE_SIGNAL_SEQNO_OFFSET := 0;
  DRM_FENCE_SIGNAL_TIMELINE_OFFSET := 0;
  DRM_FENCE_WAIT_START_PROVIDER := DRM_FENCE_PROVIDER_DMA_FENCE;
  DRM_FENCE_WAIT_START_GPU_ROLE := DRM_GPU_ROLE_UNKNOWN;
  DRM_FENCE_WAIT_DONE_PROVIDER := DRM_FENCE_PROVIDER_DMA_FENCE;
  DRM_FENCE_WAIT_DONE_GPU_ROLE := DRM_GPU_ROLE_UNKNOWN;
  DRM_FENCE_SIGNAL_PROVIDER := DRM_FENCE_PROVIDER_DMA_FENCE;
  DRM_FENCE_SIGNAL_GPU_ROLE := DRM_GPU_ROLE_UNKNOWN
|}.

(** ** Value types of the maps *)

(** [wakeup_data.rs] *)
Record WakeupData := {
  wd_ts : Z; wd_target_cpu : Z; wd_waker_tid : Z; wd_seq : Z }.

(** [#[derive(Default)]] *)
Definition WakeupData_default : WakeupData :=
  {| wd_ts := 0; wd_target_cpu := 0; wd_waker_tid := 0; wd_seq := 0 |}.

Definition WakeupData_layout : list field := [ U64; U32; U32; U32 ].

(** [maps.rs] *)
Record FaultCounters := { fc_maj : Z; fc_min : Z }.

Record KmsFlipKey := {
  kk_provider : Z; kk_card_minor_known : Z; kk_card_minor : Z; kk_crtc_id : Z;
  kk_pipe : Z }.

Record FenceKey := { fk_context : Z; fk_seqno : Z }.

Record FenceWaitStart := {
  fw_ts : Z; fw_pid : Z; fw_tid : Z; fw_provider : Z; fw_gpu_role : Z }.

Record FenceSignal := { fs_ts : Z; fs_provider : Z; fs_gpu_role : Z }.

(** [block_io.rs] *)
Record IoStart := { io_ts : Z; io_tid : Z }.

#[export] Instance WakeupData_eq_dec : EqDecision WakeupData.
Proof. solve_decision. Defined.
#[export] Instance KmsFlipKey_eq_dec : EqDecision KmsFlipKey.
Proof. solve_decision. Defined.
#[export] Instance FenceKey_eq_dec : EqDecision FenceKey.
Proof. solve_decision. Defined.

#[export] Instance KmsFlipKey_countable : Countable KmsFlipKey.
Proof.
  refine (inj_countable'
    (fun k => (kk_provider k, kk_card_minor_known k, kk_card_minor k,
               kk_crtc_id k, kk_pipe k))
    (fun '(a, b, c, d, e) => {| kk_provider := a; kk_card_minor_known := b;
       kk_card_minor := c; kk_crtc_id := d; kk_pipe := e |}) _).
  by intros [].
Defined.

#[export] Instance FenceKey_countable : Countable FenceKey.
Proof.
  refine (inj_countable' (fun k => (fk_context k, fk_seqno k))
    (fun '(a, b) => {| fk_context := a; fk_seqno := b |}) _).
  by intros [].
Defined.

(** ** The shared state *)

(** [Array] and [PerCpuArray] maps are zero-initialised, so an absent index of
    the two per-CPU arrays and of [DROP_COUNTERS], which is keyed by CPU and
    slot, reads as zero.  [EVENTS] holds the submitted and not yet drained
    records, oldest first. *)
Record World := mkWorld {
  TARGET_PIDS : gmap Z Z;
  TARGET_CGROUP_IDS : gmap Z Z;
  TARGET_IRQS : gmap Z Z;
  WAKEUP_DATA : gmap Z WakeupData;
  WAKEUP_CONSUMED : gmap Z WakeupData;
  WAKEUP_SEQ : gmap Z Z;
  TARGET_PENDING_WAKEUPS : gmap Z Z;
  CPU_RUNNABLE_DEPTH : gmap Z Z;
  RUNNABLE_TASK_CPU : gmap Z Z;
  PREV_FAULTS : gmap Z FaultCounters;
  IRQ_START_TIMES : gmap Z Z;
  BLOCK_START : gmap Z IoStart;
  KMS_FLIP_STARTS : gmap KmsFlipKey Z;
  FENCE_WAIT_STARTS : gmap FenceKey FenceWaitStart;
  FENCE_SIGNAL_TIMES : gmap FenceKey FenceSignal;
  DROP_COUNTERS : gmap (Z * Z) Z;
  EVENTS : list RingEvent;
  clock : Z;
}.

Definition upd_TARGET_PIDS (f : gmap Z Z -> gmap Z Z) (w : World) : World :=
  mkWorld (f (TARGET_PIDS w)) (TARGET_CGROUP_IDS w) (TARGET_IRQS w) (WAKEUP_DATA w)
    (WAKEUP_CONSUMED w) (WAKEUP_SEQ w) (TARGET_PENDING_WAKEUPS w)
    (CPU_RUNNABLE_DEPTH w) (RUNNABLE_TASK_CPU w) (PREV_FAULTS w)
    (IRQ_START_TIMES w) (BLOCK_START w) (KMS_FLIP_STARTS w)
    (FENCE_WAIT_STARTS w) (FENCE_SIGNAL_TIMES w) (DROP_COUNTERS w) (EVENTS w)
    (clock w).
Definition upd_TARGET_CGROUP_IDS (f : gmap Z Z -> gmap Z Z) (w : World) : World :=
  mkWorld (TARGET_PIDS w) (f (TARGET_CGROUP_IDS w)) (TARGET_IRQS w) (WAKEUP_DATA w)
    (WAKEUP_CONSUMED w) (WAKEUP_SEQ w) (TARGET_PENDING_WAKEUPS w)
    (CPU_RUNNABLE_DEPTH w) (RUNNABLE_TASK_CPU w) (PREV_FAULTS w)
    (IRQ_START_TIMES w) (BLOCK_START w) (KMS_FLIP_STARTS w)
    (FENCE_WAIT_STARTS w) (FENCE_SIGNAL_TIMES w) (DROP_COUNTERS w) (EVENTS w)
    (clock w).
Definition upd_TARGET_IRQS (f : gmap Z Z -> gmap Z Z) (w : World) : World :=
  mkWorld (TARGET_PIDS w) (TARGET_CGROUP_IDS w) (f (TARGET_IRQS w)) (WAKEUP_DATA w)
    (WAKEUP_CONSUMED w) (WAKEUP_SEQ w) (TARGET_PENDING_WAKEUPS w)
    (CPU_RUNNABLE_DEPTH w) (RUNNABLE_TASK_CPU w) (PREV_FAULTS w)
    (IRQ_START_TIMES w) (BLOCK_START w) (KMS_FLIP_STARTS w)
    (FENCE_WAIT_STARTS w) (FENCE_SIGNAL_TIMES w) (DROP_COUNTERS w) (EVENTS w)
    (clock w).
Definition upd_WAKEUP_DATA (f : gmap Z WakeupData -> gmap Z WakeupData) (w : World) : World :=
  mkWorld (TARGET_PIDS w) (TARGET_CGROUP_IDS w) (TARGET_IRQS w) (f (WAKEUP_DATA w))
    (WAKEUP_CONSUMED w) (WAKEUP_SEQ w) (TARGET_PENDING_WAKEUPS w)
    (CPU_RUNNABLE_DEPTH w) (RUNNABLE_TASK_CPU w) (PREV_FAULTS w)
    (IRQ_START_TIMES w) (BLOCK_START w) (KMS_FLIP_STARTS w)
    (FENCE_WAIT_STARTS w) (FENCE_SIGNAL_TIMES w) (DROP_COUNTERS w) (EVENTS w)
    (clock w).
Definition upd_WAKEUP_CONSUMED (f : gmap Z WakeupData -> gmap Z WakeupData) (w : World) : World :=
  mkWorld (TARGET_PIDS w) (TARGET_CGROUP_IDS w) (TARGET_IRQS w) (WAKEUP_DATA w)
    (f (WAKEUP_CONSUMED w)) (WAKEUP_SEQ w) (TARGET_PENDING_WAKEUPS w)
    (CPU_RUNNABLE_DEPTH w) (RUNNABLE_TASK_CPU w) (PREV_FAULTS w)
    (IRQ_START_TIMES w) (BLOCK_START w) (KMS_FLIP_STARTS w)
    (FENCE_WAIT_STARTS w) (FENCE_SIGNAL_TIMES w) (DROP_COUNTERS w) (EVENTS w)
    (clock w).
Definition upd_WAKEUP_SEQ (f : gmap Z Z -> gmap Z Z) (w : World) : World :=
  mkWorld (TARGET_PIDS w) (TARGET_CGROUP_IDS w) (TARGET_IRQS w) (WAKEUP_DATA w)
    (WAKEUP_CONSUMED w) (f (WAKEUP_SEQ w)) (TARGET_PENDING_WAKEUPS w)
    (CPU_RUNNABLE_DEPTH w) (RUNNABLE_TASK_CPU w) (PREV_FAULTS w)
    (IRQ_START_TIMES w) (BLOCK_START w) (KMS_FLIP_STARTS w)
    (FENCE_WAIT_STARTS w) (FENCE_SIGNAL_TIMES w) (DROP_COUNTERS w) (EVENTS w)
    (clock w).
Definition upd_TARGET_PENDING_WAKEUPS (f : gmap Z Z -> gmap Z Z) (w : World) : World :=
  mkWorld (TARGET_PIDS w) (TARGET_CGROUP_IDS w) (TARGET_IRQS w) (WAKEUP_DATA w)
    (WAKEUP_CONSUMED w) (WAKEUP_SEQ w) (f (TARGET_PENDING_WAKEUPS w))
    (CPU_RUNNABLE_DEPTH w) (RUNNABLE_TASK_CPU w) (PREV_FAULTS w)
    (IRQ_START_TIMES w) (BLOCK_START w) (KMS_FLIP_STARTS w)
    (FENCE_WAIT_STARTS w) (FENCE_SIGNAL_TIMES w) (DROP_COUNTERS w) (EVENTS w)
    (clock w).
Definition upd_CPU_RUNNABLE_DEPTH (f : gmap Z Z -> gmap Z Z) (w : World) : World :=
  mkWorld (TARGET_PIDS w) (TARGET_CGROUP_IDS w) (TARGET_IRQS w) (WAKEUP_DATA w)
    (WAKEUP_CONSUMED w) (WAKEUP_SEQ w) (TARGET_PENDING_WAKEUPS w)
    (f (CPU_RUNNABLE_DEPTH w)) (RUNNABLE_TASK_CPU w) (PREV_FAULTS w)
    (IRQ_START_TIMES w) (BLOCK_START w) (KMS_FLIP_STARTS w)
    (FENCE_WAIT_STARTS w) (FENCE_SIGNAL_TIMES w) (DROP_COUNTERS w) (EVENTS w)
    (clock w).
Definition upd_RUNNABLE_TASK_CPU (f : gmap Z Z -> gmap Z Z) (w : World) : World :=
  mkWorld (TARGET_PIDS w) (TARGET_CGROUP_IDS w) (TARGET_IRQS w) (WAKEUP_DATA w)
    (WAKEUP_CONSUMED w) (WAKEUP_SEQ w) (TARGET_PENDING_WAKEUPS w)
    (CPU_RUNNABLE_DEPTH w) (f (RUNNABLE_TASK_CPU w)) (PREV_FAULTS w)
    (IRQ_START_TIMES w) (BLOCK_START w) (KMS_FLIP_STARTS w)
    (FENCE_WAIT_STARTS w) (FENCE_SIGNAL_TIMES w) (DROP_COUNTERS w) (EVENTS w)
    (clock w).
Definition upd_PREV_FAULTS (f : gmap Z FaultCounters -> gmap Z FaultCounters) (w : World) : World :=
  mkWorld (TARGET_PIDS w) (TARGET_CGROUP_IDS w) (TARGET_IRQS w) (WAKEUP_DATA w)
    (WAKEUP_CONSUMED w) (WAKEUP_SEQ w) (TARGET_PENDING_WAKEUPS w)
    (CPU_RUNNABLE_DEPTH w) (RUNNABLE_TASK_CPU w) (f (PREV_FAULTS w))
    (IRQ_START_TIMES w) (BLOCK_START w) (KMS_FLIP_STARTS w)
    (FENCE_WAIT_STARTS w) (FENCE_SIGNAL_TIMES w) (DROP_COUNTERS w) (EVENTS w)
    (clock w).
Definition upd_IRQ_START_TIMES (f : gmap Z Z -> gmap Z Z) (w : World) : World :=
  mkWorld (TARGET_PIDS w) (TARGET_CGROUP_IDS w) (TARGET_IRQS w) (WAKEUP_DATA w)
    (WAKEUP_CONSUMED w) (WAKEUP_SEQ w) (TARGET_PENDING_WAKEUPS w)
    (CPU_RUNNABLE_DEPTH w) (RUNNABLE_TASK_CPU w) (PREV_FAULTS w)
    (f (IRQ_START_TIMES w)) (BLOCK_START w) (KMS_FLIP_STARTS w)
    (FENCE_WAIT_STARTS w) (FENCE_SIGNAL_TIMES w) (DROP_COUNTERS w) (EVENTS w)
    (clock w).
Definition upd_BLOCK_START (f : gmap Z IoStart -> gmap Z IoStart) (w : World) : World :=
  mkWorld (TARGET_PIDS w) (TARGET_CGROUP_IDS w) (TARGET_IRQS w) (WAKEUP_DATA w)
    (WAKEUP_CONSUMED w) (WAKEUP_SEQ w) (TARGET_PENDING_WAKEUPS w)
    (CPU_RUNNABLE_DEPTH w) (RUNNABLE_TASK_CPU w) (PREV_FAULTS w)
    (IRQ_START_TIMES w) (f (BLOCK_START w)) (KMS_FLIP_STARTS w)
    (FENCE_WAIT_STARTS w) (FENCE_SIGNAL_TIMES w) (DROP_COUNTERS w) (EVENTS w)
    (clock w).
Definition upd_KMS_FLIP_STARTS (f : gmap KmsFlipKey Z -> gmap KmsFlipKey Z) (w : World) : World :=
  mkWorld (TARGET_PIDS w) (TARGET_CGROUP_IDS w) (TARGET_IRQS w) (WAKEUP_DATA w)
    (WAKEUP_CONSUMED w) (WAKEUP_SEQ w) (TARGET_PENDING_WAKEUPS w)
    (CPU_RUNNABLE_DEPTH w) (RUNNABLE_TASK_CPU w) (PREV_FAULTS w)
    (IRQ_START_TIMES w) (BLOCK_START w) (f (KMS_FLIP_STARTS w))
    (FENCE_WAIT_STARTS w) (FENCE_SIGNAL_TIMES w) (DROP_COUNTERS w) (EVENTS w)
    (clock w).
Definition upd_FENCE_WAIT_STARTS (f : gmap FenceKey FenceWaitStart -> gmap FenceKey FenceWaitStart) (w : World) : World :=
  mkWorld (TARGET_PIDS w) (TARGET_CGROUP_IDS w) (TARGET_IRQS w) (WAKEUP_DATA w)
    (WAKEUP_CONSUMED w) (WAKEUP_SEQ w) (TARGET_PENDING_WAKEUPS w)
    (CPU_RUNNABLE_DEPTH w) (RUNNABLE_TASK_CPU w) (PREV_FAULTS w)
    (IRQ_START_TIMES w) (BLOCK_START w) (KMS_FLIP_STARTS w)
    (f (FENCE_WAIT_STARTS w)) (FENCE_SIGNAL_TIMES w) (DROP_COUNTERS w)
    (EVENTS w) (clock w).
Definition upd_FENCE_SIGNAL_TIMES (f : gmap FenceKey FenceSignal -> gmap FenceKey FenceSignal) (w : World) : World :=
  mkWorld (TARGET_PIDS w) (TARGET_CGROUP_IDS w) (TARGET_IRQS w) (WAKEUP_DATA w)
    (WAKEUP_CONSUMED w) (WAKEUP_SEQ w) (TARGET_PENDING_WAKEUPS w)
    (CPU_RUNNABLE_DEPTH w) (RUNNABLE_TASK_CPU w) (PREV_FAULTS w)
    (IRQ_START_TIMES w) (BLOCK_START w) (KMS_FLIP_STARTS w)
    (FENCE_WAIT_STARTS w) (f (FENCE_SIGNAL_TIMES w)) (DROP_COUNTERS w)
    (EVENTS w) (clock w).
Definition upd_DROP_COUNTERS (f : gmap (Z * Z) Z -> gmap (Z * Z) Z) (w : World) : World :=
  mkWorld (TARGET_PIDS w) (TARGET_CGROUP_IDS w) (TARGET_IRQS w) (WAKEUP_DATA w)
    (WAKEUP_CONSUMED w) (WAKEUP_SEQ w) (TARGET_PENDING_WAKEUPS w)
    (CPU_RUNNABLE_DEPTH w) (RUNNABLE_TASK_CPU w) (PREV_FAULTS w)
    (IRQ_START_TIMES w) (BLOCK_START w) (KMS_FLIP_STARTS w)
    (FENCE_WAIT_STARTS w) (FENCE_SIGNAL_TIMES w) (f (DROP_COUNTERS w))
    (EVENTS w) (clock w).
Definition upd_EVENTS (f : list RingEvent -> list RingEvent) (w : World) : World :=
  mkWorld (TARGET_PIDS w) (TARGET_CGROUP_IDS w) (TARGET_IRQS w) (WAKEUP_DATA w)
    (WAKEUP_CONSUMED w) (WAKEUP_SEQ w) (TARGET_PENDING_WAKEUPS w)
    (CPU_RUNNABLE_DEPTH w) (RUNNABLE_TASK_CPU w) (PREV_FAULTS w)
    (IRQ_START_TIMES w) (BLOCK_START w) (KMS_FLIP_STARTS w)
    (FENCE_WAIT_STARTS w) (FENCE_SIGNAL_TIMES w) (DROP_COUNTERS w)
    (f (EVENTS w)) (clock w).
Definition upd_clock (f : Z -> Z) (w : World) : World :=
  mkWorld (TARGET_PIDS w) (TARGET_CGROUP_IDS w) (TARGET_IRQS w) (WAKEUP_DATA w)
    (WAKEUP_CONSUMED w) (WAKEUP_SEQ w) (TARGET_PENDING_WAKEUPS w)
    (CPU_RUNNABLE_DEPTH w) (RUNNABLE_TASK_CPU w) (PREV_FAULTS w)
    (IRQ_START_TIMES w) (BLOCK_START w) (KMS_FLIP_STARTS w)
    (FENCE_WAIT_STARTS w) (FENCE_SIGNAL_TIMES w) (DROP_COUNTERS w) (EVENTS w)
    (f (clock w)).

Definition empty_world : World :=
  mkWorld ∅ ∅ ∅ ∅ ∅ ∅ ∅ ∅ ∅ ∅ ∅ ∅ ∅ ∅ ∅ ∅ [] 0.

(** ** The invocation environment: what the helpers tell about the current task *)

Record Env := {
  smp_processor_id : Z;
  current_pid_tgid : Z;
  current_cgroup_id : Z;
  current_comm : option (list Z);
  trace_offsets : TraceOffsets;
}.

Definition env_ok (e : Env) : Prop :=
  in_u32 (smp_processor_id e) /\ in_u64 (current_pid_tgid e) /\
  match current_comm e with
  | Some bs => length bs = 16%nat /\ Forall in_u8 bs
  | None => True
  end /\
  Forall (fun provider => in_u32 (provider (trace_offsets e)))
    [ DRM_FENCE_WAIT_START_PROVIDER; DRM_FENCE_WAIT_START_GPU_ROLE;
      DRM_FENCE_SIGNAL_PROVIDER; DRM_FENCE_SIGNAL_GPU_ROLE ].

(** [(pid_tgid & 0xffff_ffff) as u32] and [(pid_tgid >> 32) as u32] *)
Definition current_tid (e : Env) : Z := as_u32 (Z.land (current_pid_tgid e) 4294967295).
Definition current_pid (e : Env) : Z := as_u32 (Z.shiftr (current_pid_tgid e) 32).

(** ** The kernel's side of the maps *)

Inductive MapSlot :=
| S_WAKEUP_DATA (pid : Z) | S_WAKEUP_CONSUMED (pid : Z) | S_WAKEUP_SEQ (pid : Z)
| S_RUNNABLE_TASK_CPU (pid : Z) | S_PREV_FAULTS (tid : Z)
| S_IRQ_START_TIMES (key : Z) | S_BLOCK_START (key : Z)
| S_KMS_FLIP_STARTS (key : KmsFlipKey) | S_FENCE_WAIT_STARTS (key : FenceKey)
| S_FENCE_SIGNAL_TIMES (key : FenceKey).

Inductive MapId :=
| M_WAKEUP_DATA | M_WAKEUP_CONSUMED | M_WAKEUP_SEQ | M_RUNNABLE_TASK_CPU
| M_PREV_FAULTS | M_IRQ_START_TIMES | M_BLOCK_START | M_KMS_FLIP_STARTS
| M_FENCE_WAIT_STARTS | M_FENCE_SIGNAL_TIMES.

Definition slot_map (s : MapSlot) : MapId :=
  match s with
  | S_WAKEUP_DATA _ => M_WAKEUP_DATA
  | S_WAKEUP_CONSUMED _ => M_WAKEUP_CONSUMED
  | S_WAKEUP_SEQ _ => M_WAKEUP_SEQ
  | S_RUNNABLE_TASK_CPU _ => M_RUNNABLE_TASK_CPU
  | S_PREV_FAULTS _ => M_PREV_FAULTS
  | S_IRQ_START_TIMES _ => M_IRQ_START_TIMES
  | S_BLOCK_START _ => M_BLOCK_START
  | S_KMS_FLIP_STARTS _ => M_KMS_FLIP_STARTS
  | S_FENCE_WAIT_STARTS _ => M_FENCE_WAIT_STARTS
  | S_FENCE_SIGNAL_TIMES _ => M_FENCE_SIGNAL_TIMES
  end.

Definition slot_present (s : MapSlot) (w : World) : bool :=
  match s with
  | S_WAKEUP_DATA k => bool_decide (is_Some (WAKEUP_DATA w !! k))
  | S_WAKEUP_CONSUMED k => bool_decide (is_Some (WAKEUP_CONSUMED w !! k))
  | S_WAKEUP_SEQ k => bool_decide (is_Some (WAKEUP_SEQ w !! k))
  | S_RUNNABLE_TASK_CPU k => bool_decide (is_Some (RUNNABLE_TASK_CPU w !! k))
  | S_PREV_FAULTS k => bool_decide (is_Some (PREV_FAULTS w !! k))
  | S_IRQ_START_TIMES k => bool_decide (is_Some (IRQ_START_TIMES w !! k))
  | S_BLOCK_START k => bool_decide (is_Some (BLOCK_START w !! k))
  | S_KMS_FLIP_STARTS k => bool_decide (is_Some (KMS_FLIP_STARTS w !! k))
  | S_FENCE_WAIT_STARTS k => bool_decide (is_Some (FENCE_WAIT_STARTS w !! k))
  | S_FENCE_SIGNAL_TIMES k => bool_decide (is_Some (FENCE_SIGNAL_TIMES w !! k))
  end.

Definition map_load (m : MapId) (w : World) : Z :=
  Z.of_nat match m with
  | M_WAKEUP_DATA => size (WAKEUP_DATA w)
  | M_WAKEUP_CONSUMED => size (WAKEUP_CONSUMED w)
  | M_WAKEUP_SEQ => size (WAKEUP_SEQ w)
  | M_RUNNABLE_TASK_CPU => size (RUNNABLE_TASK_CPU w)
  | M_PREV_FAULTS => size (PREV_FAULTS w)
  | M_IRQ_START_TIMES => size (IRQ_START_TIMES w)
  | M_BLOCK_START => size (BLOCK_START w)
  | M_KMS_FLIP_STARTS => size (KMS_FLIP_STARTS w)
  | M_FENCE_WAIT_STARTS => size (FENCE_WAIT_STARTS w)
  | M_FENCE_SIGNAL_TIMES => size (FENCE_SIGNAL_TIMES w)
  end.

(** [insert_ok] is the kernel's answer to [bpf_map_update_elem] with [BPF_ANY]:
    a refused insert leaves the map alone, an accepted one of a new key needs a
    free entry.  [map_capacity] is [max_entries], a [u32] the loader may raise.
    An insert into the LRU map first evicts what [lru_evict] drops. *)
Class Kernel := {
  map_capacity : MapId -> Z;
  map_capacity_u32 : forall m, in_u32 (map_capacity m);
  insert_ok : MapSlot -> World -> bool;
  insert_ok_room : forall s w, insert_ok s w = true ->
    slot_map s <> M_BLOCK_START ->
    slot_present s w = true \/ map_load (slot_map s) w < map_capacity (slot_map s);
  reserve_ok : nat -> World -> bool;
  lru_evict : gmap Z IoStart -> Z -> gmap Z IoStart;
  lru_evict_sub : forall m k, lru_evict m k ⊆ m;
}.

(** ** Map capacities of [map_limits.rs] *)

Definition TARGET_PIDS_MAP_MAX_ENTRIES : Z := DEFAULT_TARGET_PIDS_MAP_MAX_ENTRIES.
Definition WAKEUP_DATA_PER_TARGET_MULTIPLIER : Z :=
  DEFAULT_WAKEUP_DATA_PER_TARGET_MULTIPLIER.
Definition RUNNABLE_TASK_CPU_PER_TARGET_MULTIPLIER : Z :=
  DEFAULT_RUNNABLE_TASK_CPU_PER_TARGET_MULTIPLIER.
Definition PREV_FAULTS_PER_TARGET_MULTIPLIER : Z :=
  DEFAULT_PREV_FAULTS_PER_TARGET_MULTIPLIER.
Definition WAKEUP_DATA_MAP_MAX_ENTRIES : Z :=
  TARGET_PIDS_MAP_MAX_ENTRIES * WAKEUP_DATA_PER_TARGET_MULTIPLIER.
Definition RUNNABLE_TASK_CPU_MAP_MAX_ENTRIES : Z :=
  TARGET_PIDS_MAP_MAX_ENTRIES * RUNNABLE_TASK_CPU_PER_TARGET_MULTIPLIER.
Definition PREV_FAULTS_MAP_MAX_ENTRIES : Z :=
  TARGET_PIDS_MAP_MAX_ENTRIES * PREV_FAULTS_PER_TARGET_MULTIPLIER.
Definition TARGET_CGROUP_IDS_MAP_MAX_ENTRIES : Z :=
  DEFAULT_TARGET_CGROUP_IDS_MAP_MAX_ENTRIES.
Definition TARGET_IRQS_MAP_MAX_ENTRIES : Z := DEFAULT_TARGET_IRQS_MAP_MAX_ENTRIES.
Definition IRQ_START_TIMES_MAP_MAX_ENTRIES : Z := DEFAULT_IRQ_START_TIMES_MAP_MAX_ENTRIES.
Definition BLOCK_START_MAP_MAX_ENTRIES : Z := DEFAULT_BLOCK_START_MAP_MAX_ENTRIES.
Definition KMS_FLIP_STARTS_MAP_MAX_ENTRIES : Z := DEFAULT_KMS_FLIP_STARTS_MAP_MAX_ENTRIES.
Definition FENCE_WAIT_STARTS_MAP_MAX_ENTRIES : Z :=
  DEFAULT_FENCE_WAIT_STARTS_MAP_MAX_ENTRIES.
Definition FENCE_SIGNAL_TIMES_MAP_MAX_ENTRIES : Z :=
  DEFAULT_FENCE_SIGNAL_TIMES_MAP_MAX_ENTRIES.

Definition compiled_capacity (m : MapId) : Z :=
  match m with
  | M_WAKEUP_DATA | M_WAKEUP_CONSUMED | M_WAKEUP_SEQ => WAKEUP_DATA_MAP_MAX_ENTRIES
  | M_RUNNABLE_TASK_CPU => RUNNABLE_TASK_CPU_MAP_MAX_ENTRIES
  | M_PREV_FAULTS => PREV_FAULTS_MAP_MAX_ENTRIES
  | M_IRQ_START_TIMES => IRQ_START_TIMES_MAP_MAX_ENTRIES
  | M_BLOCK_START => BLOCK_START_MAP_MAX_ENTRIES
  | M_KMS_FLIP_STARTS => KMS_FLIP_STARTS_MAP_MAX_ENTRIES
  | M_FENCE_WAIT_STARTS => FENCE_WAIT_STARTS_MAP_MAX_ENTRIES
  | M_FENCE_SIGNAL_TIMES => FENCE_SIGNAL_TIMES_MAP_MAX_ENTRIES
  end.

(** Bytes the undrained records take in the ring buffer: each has an 8-byte
    header and is rounded up to a multiple of 8. *)
Definition ring_used (w : World) : Z :=
  foldr (fun ev n => n + 8 + 8 * ((Z.of_nat (length (event_bytes ev)) + 7) / 8))
    0 (EVENTS w).

(** A kernel with the compiled-in capacities: an instance of [Kernel] that
    witnesses evaluate with. *)
#[export] Program Instance compiled_kernel : Kernel := {
  map_capacity := compiled_capacity;
  insert_ok s w :=
    slot_present s w || (map_load (slot_map s) w <? compiled_capacity (slot_map s));
  reserve_ok n w :=
    ring_used w + 8 + Z.of_nat n <=? BPF_DEFAULT_EVENTS_RINGBUF_BYTES;
  lru_evict m k :=
    if Z.of_nat (size m) <? BLOCK_START_MAP_MAX_ENTRIES then m else ∅;
}.
Next Obligation. by intros []. Qed.
Next Obligation.
  intros s w H _. apply orb_true_iff in H as [H|H]; [by left|right].
  by apply Z.ltb_lt in H.
Qed.
Next Obligation. intros m k. simpl. case_match; [done|]. apply map_empty_subseteq. Qed.

(** ** Atomic operations on the maps *)

Section ops.
Context {K : Kernel}.

(** [MAP.get(k)] *)
Definition map_get {X} (f : World -> X) : prog World X := atomic (fun w => (f w, w)).

(** [MAP.insert(k, v, 0).is_ok()] *)
Definition map_insert (s : MapSlot) (upd : World -> World) : prog World bool :=
  atomic (fun w => if insert_ok s w then (true, upd w) else (false, w)).

(** [MAP.remove(k).is_ok()]: removing an absent key is an error; [upd] deletes
    the key, which then does nothing. *)
Definition map_remove (s : MapSlot) (upd : World -> World) : prog World bool :=
  atomic (fun w => (slot_present s w, upd w)).

(** A store through a value pointer. *)
Definition store (upd : World -> World) : prog World unit := atomic (fun w => (tt, upd w)).

(** [bpf_ktime_get_ns()] *)
Definition bpf_ktime_get_ns : prog World Z := map_get clock.

(** [EVENTS.reserve::<T>(0)] and [entry.submit(0)] *)
Definition reserve (n : nat) : prog World bool := map_get (reserve_ok n).
Definition submit (ev : RingEvent) : prog World unit :=
  store (upd_EVENTS (fun l => l ++ [ev])).

(** [Array::get(i)] of a per-CPU array. *)
Definition array_get (arr : World -> gmap Z Z) (i : Z) (w : World) : option Z :=
  if (0 <=? i) && (i <? BPF_MAX_TRACKED_CPUS)
  then Some (default 0 (arr w !! i)) else None.

(** *** [drop_counters.rs] *)

Definition drop_counter (w : World) (cpu reason : Z) : Z :=
  default 0 (DROP_COUNTERS w !! (cpu, reason)).

Definition increment_drop_counter (e : Env) (reason : Z) : prog World unit :=
  let cpu := smp_processor_id e in
  counter ← map_get (fun w =>
    if (0 <=? reason) && (reason <? DROP_COUNTERS_MAX)
    then Some (drop_counter w cpu reason) else None);
  let_else v := counter or mret tt;
  store (upd_DROP_COUNTERS (<[(cpu, reason) := saturating_add_u64 v 1]>)).

(** *** The macro [emit_ringbuf_event!] of [main.rs] *)

Definition emit_ringbuf_event {A} (e : Env) (size : nat) (reserve_failed : A)
    (event : RingEvent) (k : prog World A) : prog World A :=
  entry ← reserve size;
  if (entry : bool) then submit event ;; k
  else increment_drop_counter e DROP_RINGBUF_RESERVE_FAILED ;; mret reserve_failed.

(** *** [target_filter.rs] *)

Definition is_target_current_cgroup (e : Env) : prog World bool :=
  map_get (fun w => bool_decide (is_Some (TARGET_CGROUP_IDS w !! current_cgroup_id e))).

Definition is_target_pid (pid : Z) : prog World bool :=
  map_get (fun w => bool_decide (is_Some (TARGET_PIDS w !! pid))).

Definition is_target_pid_or_current_cgroup (e : Env) (pid : Z) : prog World bool :=
  t ← is_target_pid pid;
  if (t : bool) then mret true else is_target_current_cgroup e.

Definition valid_cpu (cpu : Z) : bool := cpu <? BPF_MAX_TRACKED_CPUS.
End ops.

#[global] Arguments map_get : simpl never.
#[global] Arguments map_insert : simpl never.
#[global] Arguments map_remove : simpl never.
#[global] Arguments store : simpl never.
#[global] Arguments insert_ok : simpl never.
#[global] Arguments reserve_ok : simpl never.
#[global] Arguments slot_present : simpl never.

Section run_ops.
Context {K : Kernel}.

Lemma run_map_get {X} (f : World -> X) w : run (map_get f) w = (f w, w).
Proof. done. Qed.

Lemma run_map_insert s upd w :
  run (map_insert s upd) w = if insert_ok s w then (true, upd w) else (false, w).
Proof. apply run_atomic. Qed.

Lemma run_map_remove s upd w : run (map_remove s upd) w = (slot_present s w, upd w).
Proof. done. Qed.

Lemma run_store upd w : run (store upd) w = (tt, upd w).
Proof. done. Qed.

(** The world after a drop: only [DROP_COUNTERS] changes. *)
Definition drop_world (e : Env) (reason : Z) (w : World) : World :=
  upd_DROP_COUNTERS (fun m =>
    if (0 <=? reason) && (reason <? DROP_COUNTERS_MAX)
    then <[(smp_processor_id e, reason) :=
           saturating_add_u64 (drop_counter w (smp_processor_id e) reason) 1]> m
    else m) w.

Lemma run_increment_drop_counter e reason w :
  run (increment_drop_counter e reason) w = (tt, drop_world e reason w).
Proof.
  unfold increment_drop_counter, drop_world. rewrite run_bind, run_map_get. cbn [fst snd].
  destruct (_ && _); [done|]. rewrite run_ret. by destruct w.
Qed.

Definition submit_world (ev : RingEvent) (w : World) : World :=
  upd_EVENTS (fun l => l ++ [ev]) w.

Lemma run_emit_ringbuf_event {A} e n (r : A) ev (k : prog World A) w :
  run (emit_ringbuf_event e n r ev k) w =
    if reserve_ok n w then run k (submit_world ev w)
    else (r, drop_world e DROP_RINGBUF_RESERVE_FAILED w).
Proof.
  unfold emit_ringbuf_event, reserve. rewrite run_bind, run_map_get. cbn [fst snd].
  destruct (reserve_ok n w).
  - by rewrite run_bind.
  - rewrite run_bind, run_increment_drop_counter. done.
Qed.

Lemma run_is_target_pid_or_current_cgroup e pid w :
  run (is_target_pid_or_current_cgroup e pid) w =
    (bool_decide (is_Some (TARGET_PIDS w !! pid)) ||
     bool_decide (is_Some (TARGET_CGROUP_IDS w !! current_cgroup_id e)), w).
Proof.
  unfold is_target_pid_or_current_cgroup, is_target_pid.
  rewrite run_bind, run_map_get. cbn [fst snd]. by destruct (bool_decide _).
Qed.

Lemma run_is_target_pid pid w :
  run (is_target_pid pid) w = (bool_decide (is_Some (TARGET_PIDS w !! pid)), w).
Proof. done. Qed.
End run_ops.

#[export] Hint Rewrite @run_map_get @run_map_insert @run_map_remove @run_store
  @run_increment_drop_counter @run_emit_ringbuf_event
  @run_is_target_pid_or_current_cgroup @run_is_target_pid : run.

(** Executes a program symbolically with the [run] equations. *)
Ltac run_simpl := repeat (progress (autorewrite with run; cbn [fst snd])).

(** ** Tracepoint contexts and [trace_read.rs] *)

(** [ctx.read_at::<T>(offset)] with [size_of::<T>() = n]: the bytes at [offset],
    or an error. *)
Record TracePointContext := {
  read_at : Z -> nat -> option (list Z);
  read_at_ok : forall off n bs, read_at off n = Some bs ->
    length bs = n /\ Forall in_u8 bs;
}.

Definition read_i32 (ctx : TracePointContext) (offset : Z) : option Z :=
  match read_at ctx offset 4 with Some bs => Some (as_i32 (le_Z bs)) | None => None end.
Definition read_i64 (ctx : TracePointContext) (offset : Z) : option Z :=
  match read_at ctx offset 8 with Some bs => Some (as_i64 (le_Z bs)) | None => None end.
Definition read_u32 (ctx : TracePointContext) (offset : Z) : option Z :=
  match read_at ctx offset 4 with Some bs => Some (le_Z bs) | None => None end.
Definition read_u64 (ctx : TracePointContext) (offset : Z) : option Z :=
  match read_at ctx offset 8 with Some bs => Some (le_Z bs) | None => None end.
Definition read_comm16 (ctx : TracePointContext) (offset : Z) : option (list Z) :=
  read_at ctx offset 16.

Definition read_optional_u32 (ctx : TracePointContext) (offset : Z) : option Z :=
  if offset =? 0 then None else read_u32 ctx offset.
Definition read_optional_u64 (ctx : TracePointContext) (offset : Z) : option Z :=
  if offset =? 0 then None else read_u64 ctx offset.
Definition read_sequence_field (ctx : TracePointContext) (offset size : Z) : option Z :=
  if offset =? 0 then None
  else if 8 <=? size then read_u64 ctx offset
  else match read_u32 ctx offset with Some value => Some value | None => None end.

(** A context made of the raw bytes of a trace record. *)
Program Definition context_of_bytes (bytes : list Z) : TracePointContext := {|
  read_at off n :=
    if (0 <=? off) && (Z.to_nat off + n <=? length bytes)%nat
    then Some (map (fun b => b mod 256) (take n (drop (Z.to_nat off) bytes)))
    else None;
|}.
Next Obligation.
  intros bytes off n bs H. simpl in H. case_match eqn:Hb; [|done]. simplify_eq.
  apply andb_true_iff in Hb as [_ Hb%Nat.leb_le]. split.
  - rewrite length_map, length_take, length_drop. lia.
  - apply Forall_forall. intros b (b' & <- & _)%in_map_iff.
    apply Z.mod_pos_bound. lia.
Qed.

Lemma read_i32_range ctx off v : read_i32 ctx off = Some v -> in_i32 v.
Proof. unfold read_i32. case_match; [|done]. intros [= <-]. apply as_i32_range. Qed.

Lemma read_i64_range ctx off v : read_i64 ctx off = Some v -> in_i64 v.
Proof. unfold read_i64. case_match; [|done]. intros [= <-]. apply as_i64_range. Qed.

Lemma read_u32_range ctx off v : read_u32 ctx off = Some v -> in_u32 v.
Proof.
  unfold read_u32. case_match eqn:H; [|done]. intros [= <-].
  apply read_at_ok in H as [Hl Hb]. pose proof (le_Z_range _ Hb) as Hr.
  by rewrite Hl in Hr.
Qed.

Lemma read_u64_range ctx off v : read_u64 ctx off = Some v -> in_u64 v.
Proof.
  unfold read_u64. case_match eqn:H; [|done]. intros [= <-].
  apply read_at_ok in H as [Hl Hb]. pose proof (le_Z_range _ Hb) as Hr.
  by rewrite Hl in Hr.
Qed.

#[export] Hint Resolve read_i32_range read_i64_range read_u32_range read_u64_range
  : machine.

Lemma current_tid_range e : in_u32 (current_tid e).
Proof. apply as_u32_range. Qed.

Lemma current_pid_range e : in_u32 (current_pid e).
Proof. apply as_u32_range. Qed.
#[export] Hint Resolve current_tid_range current_pid_range : machine.

(** ** Counters and records after a step *)

Definition drop_slot (reason : Z) : Prop := 0 <= reason < DROP_COUNTERS_MAX.

Lemma drop_counter_drop e r w : drop_slot r ->
  drop_counter (drop_world e r w) (smp_processor_id e) r =
    saturating_add_u64 (drop_counter w (smp_processor_id e) r) 1.
Proof.
  intros [H1 H2]. unfold drop_counter at 1, drop_world. simpl.
  apply Z.leb_le in H1 as ->. apply Z.ltb_lt in H2 as ->. simpl.
  by rewrite lookup_insert_eq.
Qed.

Lemma drop_counter_drop_ne e r w cpu r' : r <> r' ->
  drop_counter (drop_world e r w) cpu r' = drop_counter w cpu r'.
Proof.
  intros Hne. unfold drop_counter at 1, drop_world. simpl.
  destruct (_ && _); [|done]. rewrite lookup_insert_ne by congruence. done.
Qed.
