(* ===== verification/Typing.v ===== *)
(** * Machine-width typing of the shared state

    [world_ok] says that every value in every map, every undrained record and the
    clock are in the range of their Rust types.  A program is [typed] when each of
    its atomic steps keeps [world_ok]; the rules below are the typing rules of the
    map operations and are collected in the hint database [typed], so that the
    tactic [typecheck] types a handler by following its structure. *)

From S2P Require Import Prelude Prog Abi Maps.

Definition wakeup_ok (d : WakeupData) : Prop :=
  in_u64 (wd_ts d) /\ in_u32 (wd_target_cpu d) /\ in_u32 (wd_waker_tid d) /\
  in_u32 (wd_seq d).
Definition faults_ok (f : FaultCounters) : Prop := in_u64 (fc_maj f) /\ in_u64 (fc_min f).
Definition io_ok (i : IoStart) : Prop := in_u64 (io_ts i) /\ in_u32 (io_tid i).
Definition fence_wait_ok (s : FenceWaitStart) : Prop :=
  in_u64 (fw_ts s) /\ in_u32 (fw_pid s) /\ in_u32 (fw_tid s) /\ in_u32 (fw_provider s) /\
  in_u32 (fw_gpu_role s).
Definition fence_signal_ok (s : FenceSignal) : Prop :=
  in_u64 (fs_ts s) /\ in_u32 (fs_provider s) /\ in_u32 (fs_gpu_role s).

Abbreviation all_ok P m := (map_Forall (fun _ v => P v) m).
Abbreviation opt_ok P o := (from_option P True o).

Record world_ok (w : World) : Prop := {
  wo_clock : in_u64 (clock w);
  wo_WAKEUP_DATA : all_ok wakeup_ok (WAKEUP_DATA w);
  wo_WAKEUP_CONSUMED : all_ok wakeup_ok (WAKEUP_CONSUMED w);
  wo_WAKEUP_SEQ : all_ok in_u32 (WAKEUP_SEQ w);
  wo_TARGET_PENDING_WAKEUPS : all_ok in_u32 (TARGET_PENDING_WAKEUPS w);
  wo_CPU_RUNNABLE_DEPTH : all_ok in_u32 (CPU_RUNNABLE_DEPTH w);
  wo_RUNNABLE_TASK_CPU : all_ok in_u32 (RUNNABLE_TASK_CPU w);
  wo_PREV_FAULTS : all_ok faults_ok (PREV_FAULTS w);
  wo_IRQ_START_TIMES : all_ok in_u64 (IRQ_START_TIMES w);
  wo_BLOCK_START : all_ok io_ok (BLOCK_START w);
  wo_KMS_FLIP_STARTS : all_ok in_u64 (KMS_FLIP_STARTS w);
  wo_FENCE_WAIT_STARTS : all_ok fence_wait_ok (FENCE_WAIT_STARTS w);
  wo_FENCE_SIGNAL_TIMES : all_ok fence_signal_ok (FENCE_SIGNAL_TIMES w);
  wo_DROP_COUNTERS : all_ok in_u64 (DROP_COUNTERS w);
  wo_EVENTS : Forall event_ok (EVENTS w);
}.

Create HintDb typed.

Lemma world_ok_empty : world_ok empty_world.
Proof. split; simpl; try apply map_Forall_empty; try done. Qed.

(** ** Updates that keep [world_ok] *)

Section updates.
Context (w : World) (Hw : world_ok w).

Ltac upd := intros Hf; destruct Hw; split; simpl; auto.

Lemma ok_upd_WAKEUP_DATA f :
  (forall m, all_ok wakeup_ok m -> all_ok wakeup_ok (f m)) -> world_ok (upd_WAKEUP_DATA f w).
Proof using Hw. upd. Qed.
Lemma ok_upd_WAKEUP_CONSUMED f :
  (forall m, all_ok wakeup_ok m -> all_ok wakeup_ok (f m)) ->
  world_ok (upd_WAKEUP_CONSUMED f w).
Proof using Hw. upd. Qed.
Lemma ok_upd_WAKEUP_SEQ f :
  (forall m, all_ok in_u32 m -> all_ok in_u32 (f m)) -> world_ok (upd_WAKEUP_SEQ f w).
Proof using Hw. upd. Qed.
Lemma ok_upd_TARGET_PENDING_WAKEUPS f :
  (forall m, all_ok in_u32 m -> all_ok in_u32 (f m)) ->
  world_ok (upd_TARGET_PENDING_WAKEUPS f w).
Proof using Hw. upd. Qed.
Lemma ok_upd_CPU_RUNNABLE_DEPTH f :
  (forall m, all_ok in_u32 m -> all_ok in_u32 (f m)) -> world_ok (upd_CPU_RUNNABLE_DEPTH f w).
Proof using Hw. upd. Qed.
Lemma ok_upd_RUNNABLE_TASK_CPU f :
  (forall m, all_ok in_u32 m -> all_ok in_u32 (f m)) -> world_ok (upd_RUNNABLE_TASK_CPU f w).
Proof using Hw. upd. Qed.
Lemma ok_upd_PREV_FAULTS f :
  (forall m, all_ok faults_ok m -> all_ok faults_ok (f m)) -> world_ok (upd_PREV_FAULTS f w).
Proof using Hw. upd. Qed.
Lemma ok_upd_IRQ_START_TIMES f :
  (forall m, all_ok in_u64 m -> all_ok in_u64 (f m)) -> world_ok (upd_IRQ_START_TIMES f w).
Proof using Hw. upd. Qed.
Lemma ok_upd_BLOCK_START f :
  (forall m, all_ok io_ok m -> all_ok io_ok (f m)) -> world_ok (upd_BLOCK_START f w).
Proof using Hw. upd. Qed.
Lemma ok_upd_KMS_FLIP_STARTS f :
  (forall m, all_ok in_u64 m -> all_ok in_u64 (f m)) -> world_ok (upd_KMS_FLIP_STARTS f w).
Proof using Hw. upd. Qed.
Lemma ok_upd_FENCE_WAIT_STARTS f :
  (forall m, all_ok fence_wait_ok m -> all_ok fence_wait_ok (f m)) ->
  world_ok (upd_FENCE_WAIT_STARTS f w).
Proof using Hw. upd. Qed.
Lemma ok_upd_FENCE_SIGNAL_TIMES f :
  (forall m, all_ok fence_signal_ok m -> all_ok fence_signal_ok (f m)) ->
  world_ok (upd_FENCE_SIGNAL_TIMES f w).
Proof using Hw. upd. Qed.
Lemma ok_upd_DROP_COUNTERS f :
  (forall m, all_ok in_u64 m -> all_ok in_u64 (f m)) -> world_ok (upd_DROP_COUNTERS f w).
Proof using Hw. upd. Qed.
Lemma ok_upd_EVENTS f :
  (forall l, Forall event_ok l -> Forall event_ok (f l)) -> world_ok (upd_EVENTS f w).
Proof using Hw. upd. Qed.
Lemma ok_upd_clock f : in_u64 (f (clock w)) -> world_ok (upd_clock f w).
Proof using Hw. upd. Qed.
End updates.

Lemma all_ok_insert `{Countable Key} {A} (P : A -> Prop) k v (m : gmap Key A) :
  P v -> all_ok P m -> all_ok P (<[k := v]> m).
Proof. intros Hv Hm. by apply map_Forall_insert_2. Qed.

Lemma all_ok_delete `{Countable Key} {A} (P : A -> Prop) k (m : gmap Key A) :
  all_ok P m -> all_ok P (delete k m).
Proof. apply map_Forall_delete. Qed.

Lemma all_ok_sub `{Countable Key} {A} (P : A -> Prop) (m m' : gmap Key A) :
  m' ⊆ m -> all_ok P m -> all_ok P m'.
Proof. intros Hs Hm k v Hk. by eapply Hm, lookup_weaken. Qed.

Lemma all_ok_lookup `{Countable Key} {A} (P : A -> Prop) k (m : gmap Key A) :
  all_ok P m -> opt_ok P (m !! k).
Proof. intros Hm. destruct (m !! k) eqn:Hk; simpl; [ by eapply Hm | done ]. Qed.

Lemma all_ok_default `{Countable Key} (P : Z -> Prop) k (m : gmap Key Z) :
  P 0 -> all_ok P m -> P (default 0 (m !! k)).
Proof. intros H0 Hm. destruct (m !! k) eqn:Hk; simpl; [ by eapply Hm | done ]. Qed.

#[export] Hint Resolve ok_upd_WAKEUP_DATA ok_upd_WAKEUP_CONSUMED ok_upd_WAKEUP_SEQ
  ok_upd_TARGET_PENDING_WAKEUPS ok_upd_CPU_RUNNABLE_DEPTH ok_upd_RUNNABLE_TASK_CPU
  ok_upd_PREV_FAULTS ok_upd_IRQ_START_TIMES ok_upd_BLOCK_START ok_upd_KMS_FLIP_STARTS
  ok_upd_FENCE_WAIT_STARTS ok_upd_FENCE_SIGNAL_TIMES ok_upd_DROP_COUNTERS ok_upd_EVENTS
  ok_upd_clock all_ok_insert all_ok_delete : typed.

Lemma in_u32_0 : in_u32 0.
Proof. width. Qed.
Lemma in_u64_0 : in_u64 0.
Proof. width. Qed.
Lemma in_u32_1 : in_u32 1.
Proof. width. Qed.
Lemma in_u64_1 : in_u64 1.
Proof. width. Qed.
Lemma in_u32_u64 x : in_u32 x -> in_u64 x.
Proof. width. Qed.
Lemma wrapping_add_u32_range x y : in_u32 (wrapping_add_u32 x y).
Proof. apply as_u32_range. Qed.
Lemma wrapping_add_u64_range x y : in_u64 (wrapping_add_u64 x y).
Proof. apply as_u64_range. Qed.
#[export] Hint Resolve in_u32_0 in_u64_0 in_u32_1 in_u64_1 wrapping_add_u32_range
  wrapping_add_u64_range : machine.

(** ** Typing rules of the operations *)

Abbreviation typed_w := (typed world_ok).

Section rules.
Context {K : Kernel}.

Lemma typed_get {X} (Q : X -> Prop) (f : World -> X) :
  (forall w, world_ok w -> Q (f w)) -> typed_w Q (map_get f).
Proof. intros H. apply typed_atomic. intros w Hw. split; simpl; auto. Qed.

Lemma typed_insert s upd :
  (forall w, world_ok w -> world_ok (upd w)) -> typed_w (fun _ : bool => True) (map_insert s upd).
Proof. intros H. apply typed_atomic. intros w Hw. destruct (insert_ok s w); simpl; auto. Qed.

Lemma typed_remove s upd :
  (forall w, world_ok w -> world_ok (upd w)) -> typed_w (fun _ : bool => True) (map_remove s upd).
Proof. intros H. apply typed_atomic. intros w Hw. split; simpl; auto. Qed.

Lemma typed_store upd :
  (forall w, world_ok w -> world_ok (upd w)) -> typed_w (fun _ : unit => True) (store upd).
Proof. intros H. apply typed_atomic. intros w Hw. split; simpl; auto. Qed.

Lemma typed_ktime : typed_w in_u64 bpf_ktime_get_ns.
Proof. apply typed_get. by intros w []. Qed.

Lemma typed_get_wakeup pid : typed_w (fun o => opt_ok wakeup_ok o) (map_get (fun w => WAKEUP_DATA w !! pid)).
Proof. apply typed_get. intros w []. by apply all_ok_lookup. Qed.
Lemma typed_get_consumed pid :
  typed_w (fun o => opt_ok wakeup_ok o) (map_get (fun w => WAKEUP_CONSUMED w !! pid)).
Proof. apply typed_get. intros w []. by apply all_ok_lookup. Qed.
Lemma typed_get_seq pid : typed_w (fun o => opt_ok in_u32 o) (map_get (fun w => WAKEUP_SEQ w !! pid)).
Proof. apply typed_get. intros w []. by apply all_ok_lookup. Qed.
Lemma typed_get_runnable pid :
  typed_w (fun o => opt_ok in_u32 o) (map_get (fun w => RUNNABLE_TASK_CPU w !! pid)).
Proof. apply typed_get. intros w []. by apply all_ok_lookup. Qed.
Lemma typed_get_faults pid :
  typed_w (fun o => opt_ok faults_ok o) (map_get (fun w => PREV_FAULTS w !! pid)).
Proof. apply typed_get. intros w []. by apply all_ok_lookup. Qed.
Lemma typed_get_irq k : typed_w (fun o => opt_ok in_u64 o) (map_get (fun w => IRQ_START_TIMES w !! k)).
Proof. apply typed_get. intros w []. by apply all_ok_lookup. Qed.
Lemma typed_get_block k : typed_w (fun o => opt_ok io_ok o) (map_get (fun w => BLOCK_START w !! k)).
Proof. apply typed_get. intros w []. by apply all_ok_lookup. Qed.
Lemma typed_get_kms k : typed_w (fun o => opt_ok in_u64 o) (map_get (fun w => KMS_FLIP_STARTS w !! k)).
Proof. apply typed_get. intros w []. by apply all_ok_lookup. Qed.
Lemma typed_get_fence_wait k :
  typed_w (fun o => opt_ok fence_wait_ok o) (map_get (fun w => FENCE_WAIT_STARTS w !! k)).
Proof. apply typed_get. intros w []. by apply all_ok_lookup. Qed.
Lemma typed_get_fence_signal k :
  typed_w (fun o => opt_ok fence_signal_ok o) (map_get (fun w => FENCE_SIGNAL_TIMES w !! k)).
Proof. apply typed_get. intros w []. by apply all_ok_lookup. Qed.

Lemma typed_get_pending_array cpu :
  typed_w (fun o => opt_ok in_u32 o) (map_get (array_get TARGET_PENDING_WAKEUPS cpu)).
Proof.
  apply typed_get. intros w []. unfold array_get. case_match; [|done].
  simpl. by apply (all_ok_default in_u32).
Qed.
Lemma typed_get_depth_array cpu :
  typed_w (fun o => opt_ok in_u32 o) (map_get (array_get CPU_RUNNABLE_DEPTH cpu)).
Proof.
  apply typed_get. intros w []. unfold array_get. case_match; [|done].
  simpl. by apply (all_ok_default in_u32).
Qed.

Lemma typed_increment_drop_counter e reason :
  typed_w (fun _ => True) (increment_drop_counter e reason).
Proof.
  unfold increment_drop_counter. eapply typed_bind.
  - apply (typed_get (fun o => opt_ok in_u64 o)). intros w []. case_match; [|done].
    simpl. by apply (all_ok_default in_u64).
  - intros [v|] Hv; [|done]. simpl in Hv. apply typed_store. intros w Hw.
    auto with typed machine.
Qed.

Lemma typed_emit {A} e n (r : A) ev k (Q : A -> Prop) :
  event_ok ev -> Q r -> typed_w Q k -> typed_w Q (emit_ringbuf_event e n r ev k).
Proof.
  intros Hev Hr Hk. unfold emit_ringbuf_event, reserve, submit. eapply typed_bind.
  - by apply (typed_get (fun _ => True)).
  - intros [] _; eapply typed_bind; try done.
    + apply typed_store. intros w Hw. apply ok_upd_EVENTS; [done|].
      intros l Hl. apply Forall_app; auto.
    + apply typed_increment_drop_counter.
Qed.

Lemma typed_is_target_pid pid : typed_w (fun _ => True) (is_target_pid pid).
Proof. by apply typed_get. Qed.
Lemma typed_is_target_cgroup e : typed_w (fun _ => True) (is_target_current_cgroup e).
Proof. by apply typed_get. Qed.
Lemma typed_is_target_pid_or_cgroup e pid :
  typed_w (fun _ => True) (is_target_pid_or_current_cgroup e pid).
Proof.
  unfold is_target_pid_or_current_cgroup. eapply typed_bind; [ apply typed_is_target_pid | ].
  intros [] _; [ done | apply typed_is_target_cgroup ].
Qed.
End rules.

#[global] Arguments typed : simpl never.

#[export] Hint Resolve typed_insert typed_remove typed_store typed_ktime typed_get_wakeup
  typed_get_consumed typed_get_seq typed_get_runnable typed_get_faults typed_get_irq
  typed_get_block typed_get_kms typed_get_fence_wait typed_get_fence_signal
  typed_get_pending_array typed_get_depth_array typed_increment_drop_counter
  typed_is_target_pid typed_is_target_cgroup typed_is_target_pid_or_cgroup : typed.

(** A rule of the database for the first operation of a sequence, with a
    postcondition to be found. *)
Ltac typed_op := solve [ eauto with typed machine ].

(** Types a handler by following its structure; leaves what the rules do not
    solve, mostly range conditions of values. *)
Ltac typecheck :=
  repeat match goal with
  | |- typed _ _ (mbind _ (match ?x with _ => _ end)) =>
      destruct x eqn:?; cbn [from_option fst snd] in *
  | |- typed _ _ (mbind _ (mbind _ _)) => apply typed_assoc
  | |- typed ?I ?Q (mbind ?k (mret ?a)) => change (typed I Q (k a)); cbv beta
  | |- typed _ _ (mbind _ _) => eapply typed_bind; [ typed_op | intros ? ?; cbn [from_option fst snd] in * ]
  | |- typed _ _ (mret _) => apply typed_ret
  | |- typed _ _ (emit_ringbuf_event _ _ _ _ _) => apply typed_emit
  | |- typed _ _ (match ?x with _ => _ end) => destruct x eqn:?; cbn [from_option fst snd] in *
  | |- typed _ _ (let _ := _ in _) => cbv zeta
  | |- True => exact I
  end.


Lemma default_in_u32 (o : option Z) : opt_ok in_u32 o -> in_u32 (default 0 o).
Proof. destruct o; simpl; [ done | width ]. Qed.

Lemma read_comm16_ok ctx off comm :
  read_comm16 ctx off = Some comm -> length comm = 16%nat /\ Forall in_u8 comm.
Proof. apply read_at_ok. Qed.

Lemma wakeup_ok_intro ts cpu tid seq :
  in_u64 ts -> in_u32 cpu -> in_u32 tid -> in_u32 seq ->
  wakeup_ok {| wd_ts := ts; wd_target_cpu := cpu; wd_waker_tid := tid; wd_seq := seq |}.
Proof. done. Qed.

Lemma WakeupData_default_ok : wakeup_ok WakeupData_default.
Proof. unfold wakeup_ok. simpl. auto with machine. Qed.

Lemma wakeup_ok_fields d : wakeup_ok d ->
  in_u64 (wd_ts d) /\ in_u32 (wd_target_cpu d) /\ in_u32 (wd_waker_tid d).
Proof. unfold wakeup_ok. tauto. Qed.

Lemma default_faults_ok (o : option FaultCounters) :
  opt_ok faults_ok o -> faults_ok (default {| fc_maj := 0; fc_min := 0 |} o).
Proof. destruct o; simpl; [ done | split; simpl; auto with machine ]. Qed.

Lemma in_u32_if (b : bool) x y : in_u32 x -> in_u32 y -> in_u32 (if b then x else y).
Proof. by destruct b. Qed.

Lemma typed_if {A} (Q : A -> Prop) (b : bool) (p q : prog World A) :
  typed_w Q p -> typed_w Q q -> typed_w Q (if b then p else q).
Proof. by destruct b. Qed.

#[export] Hint Resolve default_in_u32 read_comm16_ok wakeup_ok_intro WakeupData_default_ok in_u32_if
  : machine.
#[export] Hint Resolve typed_if typed_ret : typed.

(** The fields of an event, one by one. *)
Ltac typed_event :=
  repeat match goal with
  | H : wakeup_ok ?d |- _ => apply wakeup_ok_fields in H as (? & ? & ?)
  | H : from_option faults_ok True _ |- _ => apply default_faults_ok in H as [? ?]
  | H : read_comm16 _ _ = Some _ |- _ => apply read_comm16_ok in H as [? ?]
  end;
  split; [ reflexivity | ];
  unfold pod_ok; cbn;
  repeat match goal with |- _ /\ _ => split | |- True => exact I end;
  try solve [ eauto with machine | width ].

Lemma all_ok_alter `{Countable Key} {A} (P : A -> Prop) f k (m : gmap Key A) :
  (forall v, P v -> P (f v)) -> all_ok P m -> all_ok P (alter f k m).
Proof.
  intros Hf Hm i v. rewrite lookup_alter. case_decide; [ subst | apply Hm ].
  destruct (m !! _) eqn:Hk; simpl; [|done]. intros [= <-]. apply Hf. by eapply Hm.
Qed.

(** ** Step-wise rules for any predicate that ignores some fields *)

Section stepwise.
Context {K : Kernel} (I : World -> Prop).
Context (Hdrop : forall f w, I w -> I (upd_DROP_COUNTERS f w)).

Lemma step_get {X} (f : World -> X) : typed I (fun _ => True) (map_get f).
Proof using Type. apply typed_atomic. intros w Hw. split; simpl; auto. Qed.

Lemma step_insert s upd :
  (forall w, I w -> I (upd w)) -> typed I (fun _ => True) (map_insert s upd).
Proof using Type. intros H. apply typed_atomic. intros w Hw. destruct (insert_ok s w); simpl; auto. Qed.

Lemma step_remove s upd :
  (forall w, I w -> I (upd w)) -> typed I (fun _ => True) (map_remove s upd).
Proof using Type. intros H. apply typed_atomic. intros w Hw. split; simpl; auto. Qed.

Lemma step_store upd :
  (forall w, I w -> I (upd w)) -> typed I (fun _ => True) (store upd).
Proof using Type. intros H. apply typed_atomic. intros w Hw. split; simpl; auto. Qed.

Lemma step_drop e r : typed I (fun _ => True) (increment_drop_counter e r).
Proof using Hdrop.
  unfold increment_drop_counter. eapply typed_bind; [ apply step_get | ].
  intros [v|] _; [ apply step_store; intros w Hw; by apply Hdrop | done ].
Qed.

Lemma step_emit {A} e n (r : A) ev k :
  (forall w, I w -> I (upd_EVENTS (fun l => l ++ [ev]) w)) ->
  typed I (fun _ => True) k -> typed I (fun _ => True) (emit_ringbuf_event e n r ev k).
Proof using Hdrop.
  intros Hev Hk. unfold emit_ringbuf_event, reserve, submit. eapply typed_bind; [ apply step_get | ].
  intros [] _; (eapply typed_bind; [ | done ]).
  - apply step_store. intros w Hw. by apply Hev.
  - apply step_drop.
Qed.
End stepwise.

(** Follows the structure of a handler with the step-wise rules; [keep] proves
    that a map update keeps the predicate. *)
Ltac stepwise keep :=
  let upd := (intros; keep) in
  let op := first
    [ apply step_get | apply step_insert; upd | apply step_remove; upd
    | apply step_store; upd | apply step_drop; upd
    | apply step_emit; [ upd | upd | exact I ] ] in
  repeat match goal with
  | |- typed _ _ (match ?x with _ => _ end) => destruct x
  | |- typed _ _ (mbind _ (match ?x with _ => _ end)) => destruct x
  | |- typed _ _ (mbind _ (mbind _ _)) => apply typed_assoc
  | |- typed ?I ?Q (mbind ?k (mret ?a)) => change (typed I Q (k a)); cbv beta
  | |- typed _ _ (mret _) => exact I
  | |- typed _ _ (emit_ringbuf_event _ _ _ _ _) => apply step_emit; [ upd | upd | ]
  | |- typed _ _ (mbind _ _) =>
      eapply typed_bind; [ op | let a := fresh "a" in intros a _; cbv beta zeta ]
  | |- typed _ _ _ => op
  end.
