(* ===== verification/WakeupData.v ===== *)
(** * The wakeup hand-off between [sched_wakeup] and [sched_switch]

    [stutter-ebpf/src/wakeup_data.rs].  A wakeup of a task is pending when
    [WAKEUP_DATA] holds it and [WAKEUP_CONSUMED] does not hold the same value.
    [pending_map] is that abstraction: run alone, [record_wakeup] is an insert
    into it, [consume_pending_wakeup] takes an entry out, [remove_for_exit] and
    the cursor-failure fallback delete one.  What the protocol guarantees when
    the operations interleave is in [Handoff]. *)

From S2P Require Import Prelude Prog Abi Maps Typing.

Definition WAKEUP_RECORD_INSERT_FAILED : Z := 0.
Definition WAKEUP_RECORD_NEW_PENDING : Z := 1.
Definition WAKEUP_RECORD_REPLACED_PENDING_SAME_CPU : Z := 2.
Definition WAKEUP_RECORD_REPLACED_PENDING_MOVED_CPU : Z := 3.
Definition WAKEUP_CONSUME_NONE : Z := 0.
Definition WAKEUP_CONSUME_OK : Z := 1.
Definition WAKEUP_CONSUME_CURSOR_INSERT_FAILED : Z := 2.

Definition same_wakeup_value (consumed data : WakeupData) : bool :=
  (wd_ts consumed =? wd_ts data) && (wd_target_cpu consumed =? wd_target_cpu data) &&
  (wd_waker_tid consumed =? wd_waker_tid data) && (wd_seq consumed =? wd_seq data).

Section wakeup_data.
Context {K : Kernel}.

Definition same_wakeup_consumed (pid : Z) (data : WakeupData) : prog World bool :=
  c ← map_get (fun w => WAKEUP_CONSUMED w !! pid);
  mret match c with
       | Some consumed => same_wakeup_value consumed data
       | None => false
       end.

(** [None] is the [false] result, [Some next] is [true] with [*out = next]. *)
Definition next_wakeup_seq (pid : Z) : prog World (option Z) :=
  cur ← map_get (fun w => WAKEUP_SEQ w !! pid);
  let next := match cur with Some seq => wrapping_add_u32 seq 1 | None => 1 end in
  ok ← map_insert (S_WAKEUP_SEQ pid) (upd_WAKEUP_SEQ (<[pid := next]>));
  mret (if (ok : bool) then Some next else None).

(** Returns the code and the final value of [*old]. *)
Definition record_wakeup (pid : Z) (data old : WakeupData) : prog World (Z * WakeupData) :=
  existing ← map_get (fun w => WAKEUP_DATA w !! pid);
  '(old, had_pending_old) ←
    match existing with
    | Some existing =>
        same ← same_wakeup_consumed pid existing;
        mret (existing, negb same)
    | None => mret (old, false)
    end;
  ok ← map_insert (S_WAKEUP_DATA pid) (upd_WAKEUP_DATA (<[pid := data]>));
  if negb ok then mret (WAKEUP_RECORD_INSERT_FAILED, old) else
  _ ← map_remove (S_WAKEUP_CONSUMED pid) (upd_WAKEUP_CONSUMED (delete pid));
  if negb had_pending_old then mret (WAKEUP_RECORD_NEW_PENDING, old) else
  if wd_target_cpu old =? wd_target_cpu data
  then mret (WAKEUP_RECORD_REPLACED_PENDING_SAME_CPU, old)
  else mret (WAKEUP_RECORD_REPLACED_PENDING_MOVED_CPU, old).

(** Returns the code and the final value of [*out]. *)
Definition consume_pending_wakeup (pid : Z) (out : WakeupData) : prog World (Z * WakeupData) :=
  d ← map_get (fun w => WAKEUP_DATA w !! pid);
  let_else data := d or mret (WAKEUP_CONSUME_NONE, out);
  same ← same_wakeup_consumed pid data;
  if (same : bool) then mret (WAKEUP_CONSUME_NONE, data) else
  ok ← map_insert (S_WAKEUP_CONSUMED pid) (upd_WAKEUP_CONSUMED (<[pid := data]>));
  if negb ok then mret (WAKEUP_CONSUME_CURSOR_INSERT_FAILED, data) else
  mret (WAKEUP_CONSUME_OK, data).

Definition drop_pending_wakeup_after_cursor_failure (pid : Z) (expected : WakeupData)
  : prog World bool :=
  c ← map_get (fun w => WAKEUP_DATA w !! pid);
  let_else current := c or mret false;
  if negb (same_wakeup_value current expected) then mret false else
  consumed ← same_wakeup_consumed pid expected;
  if (consumed : bool) then mret false else
  ok ← map_remove (S_WAKEUP_DATA pid) (upd_WAKEUP_DATA (delete pid));
  if negb ok then mret false else
  _ ← map_remove (S_WAKEUP_CONSUMED pid) (upd_WAKEUP_CONSUMED (delete pid));
  mret true.

(** Returns [was_pending] and the final value of [*out]. *)
Definition remove_for_exit (pid : Z) (out : WakeupData) : prog World (bool * WakeupData) :=
  d ← map_get (fun w => WAKEUP_DATA w !! pid);
  '(out, was_pending) ←
    match d with
    | Some data =>
        same ← same_wakeup_consumed pid data;
        _ ← map_remove (S_WAKEUP_DATA pid) (upd_WAKEUP_DATA (delete pid));
        mret (data, negb same)
    | None => mret (out, false)
    end;
  _ ← map_remove (S_WAKEUP_CONSUMED pid) (upd_WAKEUP_CONSUMED (delete pid));
  _ ← map_remove (S_WAKEUP_SEQ pid) (upd_WAKEUP_SEQ (delete pid));
  mret (was_pending, out).
End wakeup_data.

(** ** The abstraction: pending wakeups *)

Lemma same_wakeup_value_spec a b : same_wakeup_value a b = bool_decide (a = b).
Proof.
  unfold same_wakeup_value. destruct a, b; simpl. zbool; simpl;
    case_bool_decide; naive_solver.
Qed.

Definition pending_map (w : World) : gmap Z WakeupData :=
  map_imap (fun pid d =>
    if bool_decide (WAKEUP_CONSUMED w !! pid = Some d) then None else Some d)
    (WAKEUP_DATA w).

(** Some wakeup of [pid] is pending. *)
Definition pending (w : World) (pid : Z) : option WakeupData := pending_map w !! pid.

Lemma pending_lookup w pid :
  pending w pid =
    match WAKEUP_DATA w !! pid with
    | Some d => if bool_decide (WAKEUP_CONSUMED w !! pid = Some d) then None else Some d
    | None => None
    end.
Proof.
  unfold pending, pending_map. rewrite map_lookup_imap. by destruct (WAKEUP_DATA w !! pid).
Qed.

Lemma pending_data w pid d : pending w pid = Some d -> WAKEUP_DATA w !! pid = Some d.
Proof. rewrite pending_lookup. repeat case_match; naive_solver. Qed.

(** What one world step does to the abstraction. *)
Lemma pending_map_record w pid d :
  pending_map (upd_WAKEUP_CONSUMED (delete pid) (upd_WAKEUP_DATA (<[pid := d]>) w)) =
    <[pid := d]> (pending_map w).
Proof.
  apply map_eq. intros i. change (pending_map ?w !! i) with (pending w i).
  rewrite pending_lookup. simpl. destruct (decide (pid = i)) as [->|Hne].
  - rewrite !lookup_insert_eq, lookup_delete_eq. done.
  - rewrite !lookup_insert_ne, lookup_delete_ne by done.
    symmetry. apply pending_lookup.
Qed.

Lemma pending_map_consume w pid d :
  WAKEUP_DATA w !! pid = Some d ->
  pending_map (upd_WAKEUP_CONSUMED (<[pid := d]>) w) = delete pid (pending_map w).
Proof.
  intros Hd. apply map_eq. intros i. change (pending_map ?w !! i) with (pending w i).
  rewrite pending_lookup. simpl. destruct (decide (pid = i)) as [<-|Hne].
  - rewrite lookup_insert_eq, lookup_delete_eq, Hd. by rewrite bool_decide_true.
  - rewrite lookup_insert_ne, lookup_delete_ne by done.
    symmetry. apply pending_lookup.
Qed.

Lemma pending_map_remove w pid :
  pending_map (upd_WAKEUP_CONSUMED (delete pid) (upd_WAKEUP_DATA (delete pid) w)) =
    delete pid (pending_map w).
Proof.
  apply map_eq. intros i. change (pending_map ?w !! i) with (pending w i).
  rewrite pending_lookup. simpl. destruct (decide (pid = i)) as [<-|Hne].
  - by rewrite !lookup_delete_eq.
  - rewrite !lookup_delete_ne by done. symmetry. apply pending_lookup.
Qed.

(** ** The operations, run alone *)

Section run_alone.
Context {K : Kernel}.

Lemma run_same_wakeup_consumed pid d w :
  run (same_wakeup_consumed pid d) w =
    (bool_decide (WAKEUP_CONSUMED w !! pid = Some d), w).
Proof.
  unfold same_wakeup_consumed. run_simpl. f_equal.
  destruct (WAKEUP_CONSUMED w !! pid) as [c|]; [|done].
  rewrite same_wakeup_value_spec. apply bool_decide_ext. naive_solver.
Qed.
Hint Rewrite run_same_wakeup_consumed : run.

Lemma run_next_wakeup_seq pid w :
  run (next_wakeup_seq pid) w =
    let next := match WAKEUP_SEQ w !! pid with
                | Some seq => wrapping_add_u32 seq 1 | None => 1 end in
    if insert_ok (S_WAKEUP_SEQ pid) w
    then (Some next, upd_WAKEUP_SEQ (<[pid := next]>) w) else (None, w).
Proof. unfold next_wakeup_seq. run_simpl. by destruct (insert_ok _ w). Qed.

Definition record_world (pid : Z) (d : WakeupData) (w : World) : World :=
  upd_WAKEUP_CONSUMED (delete pid) (upd_WAKEUP_DATA (<[pid := d]>) w).

(** The code [record_wakeup] returns when it installs [d] over [old]. *)
Definition record_code (old : option WakeupData) (d : WakeupData) : Z :=
  match old with
  | None => WAKEUP_RECORD_NEW_PENDING
  | Some p =>
      if wd_target_cpu p =? wd_target_cpu d
      then WAKEUP_RECORD_REPLACED_PENDING_SAME_CPU
      else WAKEUP_RECORD_REPLACED_PENDING_MOVED_CPU
  end.

Lemma run_record_wakeup pid d old w :
  run (record_wakeup pid d old) w =
    if insert_ok (S_WAKEUP_DATA pid) w
    then ((record_code (pending w pid) d, default old (WAKEUP_DATA w !! pid)),
          record_world pid d w)
    else ((WAKEUP_RECORD_INSERT_FAILED, default old (WAKEUP_DATA w !! pid)), w).
Proof.
  unfold record_wakeup. run_simpl. rewrite pending_lookup.
  destruct (WAKEUP_DATA w !! pid) as [e|]; run_simpl;
    destruct (insert_ok _ w); cbn; run_simpl; try done.
  by case_bool_decide; cbn; try destruct (_ =? _).
Qed.

Lemma run_consume_pending_wakeup pid out w :
  run (consume_pending_wakeup pid out) w =
    match pending w pid with
    | None => ((WAKEUP_CONSUME_NONE, default out (WAKEUP_DATA w !! pid)), w)
    | Some d =>
        if insert_ok (S_WAKEUP_CONSUMED pid) w
        then ((WAKEUP_CONSUME_OK, d), upd_WAKEUP_CONSUMED (<[pid := d]>) w)
        else ((WAKEUP_CONSUME_CURSOR_INSERT_FAILED, d), w)
    end.
Proof.
  unfold consume_pending_wakeup. run_simpl. rewrite pending_lookup.
  destruct (WAKEUP_DATA w !! pid) as [d|]; [|done]. run_simpl.
  case_bool_decide; [done|]. run_simpl. by destruct (insert_ok _ w).
Qed.

Definition remove_world (pid : Z) (w : World) : World :=
  upd_WAKEUP_CONSUMED (delete pid) (upd_WAKEUP_DATA (delete pid) w).

Lemma run_drop_pending_wakeup pid d w :
  pending w pid = Some d ->
  run (drop_pending_wakeup_after_cursor_failure pid d) w = (true, remove_world pid w).
Proof.
  intros Hp. pose proof (pending_data _ _ _ Hp) as Hd.
  rewrite pending_lookup, Hd in Hp. case_bool_decide as Hc; [done|].
  unfold drop_pending_wakeup_after_cursor_failure. run_simpl.
  rewrite Hd, same_wakeup_value_spec, (bool_decide_true (d = d)) by done. cbn [negb].
  run_simpl. rewrite bool_decide_false by done. run_simpl.
  unfold slot_present. rewrite Hd. by rewrite bool_decide_true by eauto.
Qed.

Lemma upd_WAKEUP_DATA_absent pid w :
  WAKEUP_DATA w !! pid = None -> upd_WAKEUP_DATA (delete pid) w = w.
Proof. intros H. destruct w; unfold upd_WAKEUP_DATA; simpl in *. by rewrite delete_id. Qed.

Lemma run_remove_for_exit pid out w :
  run (remove_for_exit pid out) w =
    ((bool_decide (is_Some (pending w pid)), default out (WAKEUP_DATA w !! pid)),
     upd_WAKEUP_SEQ (delete pid) (remove_world pid w)).
Proof.
  unfold remove_for_exit. run_simpl. rewrite pending_lookup.
  destruct (WAKEUP_DATA w !! pid) as [d|] eqn:Hd; run_simpl.
  - by case_bool_decide.
  - unfold remove_world. by rewrite (upd_WAKEUP_DATA_absent _ _ Hd).
Qed.
End run_alone.

#[export] Hint Rewrite @run_next_wakeup_seq @run_record_wakeup
  @run_consume_pending_wakeup @run_remove_for_exit : run.

(** ** Typing *)

Section typing.
Context {K : Kernel}.

Lemma typed_same_wakeup_consumed pid d :
  typed_w (fun _ => True) (same_wakeup_consumed pid d).
Proof. unfold same_wakeup_consumed. typecheck. Qed.
Hint Resolve typed_same_wakeup_consumed : typed.

Lemma typed_next_wakeup_seq pid : typed_w (fun o => opt_ok in_u32 o) (next_wakeup_seq pid).
Proof.
  unfold next_wakeup_seq. eapply typed_bind; [typed_op|]. intros cur Hcur. cbv zeta.
  assert (in_u32 (match cur with Some s => wrapping_add_u32 s 1 | None => 1 end))
    by (destruct cur; auto with machine).
  typecheck. by destruct a.
Qed.

Lemma typed_record_wakeup pid d old : wakeup_ok d -> wakeup_ok old ->
  typed_w (fun r => wakeup_ok r.2) (record_wakeup pid d old).
Proof.
  intros Hd Hold. unfold record_wakeup. eapply typed_bind; [typed_op|].
  intros ex Hex. eapply (typed_bind _ (fun r => wakeup_ok r.1)).
  - destruct ex; typecheck; done.
  - intros [o had] Ho. typecheck; done.
Qed.

Lemma typed_consume_pending_wakeup pid out : wakeup_ok out ->
  typed_w (fun r => wakeup_ok r.2) (consume_pending_wakeup pid out).
Proof. intros Hout. unfold consume_pending_wakeup. typecheck; done. Qed.

Lemma typed_drop_pending_wakeup pid d :
  typed_w (fun _ => True) (drop_pending_wakeup_after_cursor_failure pid d).
Proof. unfold drop_pending_wakeup_after_cursor_failure. typecheck. Qed.

Lemma typed_remove_for_exit pid out : wakeup_ok out ->
  typed_w (fun r => wakeup_ok r.2) (remove_for_exit pid out).
Proof.
  intros Hout. unfold remove_for_exit. eapply typed_bind; [typed_op|].
  intros ex Hex. eapply (typed_bind _ (fun r => wakeup_ok r.1)).
  - destruct ex; typecheck; done.
  - intros [o was] Ho. typecheck; done.
Qed.
End typing.

#[export] Hint Resolve typed_same_wakeup_consumed typed_next_wakeup_seq typed_record_wakeup
  typed_consume_pending_wakeup typed_drop_pending_wakeup typed_remove_for_exit : typed.
