(* ===== verification/Handoff.v ===== *)
(** * The wakeup hand-off under interleaving

    [stutter-ebpf/src/wakeup_data.rs] says that keeping the data entry and marking
    it consumed by value avoids losing a wakeup that is installed while a
    [sched_switch] on another CPU is consuming an older one.  Here one
    [record_wakeup] runs against any number of [consume_pending_wakeup] of the
    same task, every map operation being one step of any of them. *)

From S2P Require Import Prelude Prog Abi Maps Typing WakeupData.

Section handoff.
Context {K : Kernel} (pid : Z) (d1 : WakeupData).

Abbreviation thread := (prog World (Z * WakeupData)).

(** The places a consumer can be at. *)
Definition consumer_start (out : WakeupData) : thread := consume_pending_wakeup pid out.
Definition consumer_check (data : WakeupData) : thread :=
  same ← same_wakeup_consumed pid data;
  if (same : bool) then mret (WAKEUP_CONSUME_NONE, data) else
  ok ← map_insert (S_WAKEUP_CONSUMED pid) (upd_WAKEUP_CONSUMED (<[pid := data]>));
  if negb ok then mret (WAKEUP_CONSUME_CURSOR_INSERT_FAILED, data) else
  mret (WAKEUP_CONSUME_OK, data).
Definition consumer_mark (data : WakeupData) : thread :=
  ok ← map_insert (S_WAKEUP_CONSUMED pid) (upd_WAKEUP_CONSUMED (<[pid := data]>));
  if negb ok then mret (WAKEUP_CONSUME_CURSOR_INSERT_FAILED, data) else
  mret (WAKEUP_CONSUME_OK, data).

(** A consumer that holds only wakeups [P] accepts. *)
Inductive consumer (P : WakeupData -> Prop) : thread -> Prop :=
| c_start out : consumer P (consumer_start out)
| c_check d : P d -> consumer P (consumer_check d)
| c_mark d : P d -> consumer P (consumer_mark d)
| c_done code d : (code = WAKEUP_CONSUME_OK -> P d) -> consumer P (Ret (code, d)).

(** The places the producer of [d1] can be at, before and after the install. *)
Definition producer_check (existing : WakeupData) : thread :=
  '(old, had_pending_old) ←
    (same ← same_wakeup_consumed pid existing; mret (existing, negb same));
  ok ← map_insert (S_WAKEUP_DATA pid) (upd_WAKEUP_DATA (<[pid := d1]>));
  if negb ok then mret (WAKEUP_RECORD_INSERT_FAILED, old) else
  _ ← map_remove (S_WAKEUP_CONSUMED pid) (upd_WAKEUP_CONSUMED (delete pid));
  if negb had_pending_old then mret (WAKEUP_RECORD_NEW_PENDING, old) else
  if wd_target_cpu old =? wd_target_cpu d1
  then mret (WAKEUP_RECORD_REPLACED_PENDING_SAME_CPU, old)
  else mret (WAKEUP_RECORD_REPLACED_PENDING_MOVED_CPU, old).
Definition producer_clear (old : WakeupData) (had_pending_old : bool) : thread :=
  _ ← map_remove (S_WAKEUP_CONSUMED pid) (upd_WAKEUP_CONSUMED (delete pid));
  if negb had_pending_old then mret (WAKEUP_RECORD_NEW_PENDING, old) else
  if wd_target_cpu old =? wd_target_cpu d1
  then mret (WAKEUP_RECORD_REPLACED_PENDING_SAME_CPU, old)
  else mret (WAKEUP_RECORD_REPLACED_PENDING_MOVED_CPU, old).
Definition producer_install (old : WakeupData) (had_pending_old : bool) : thread :=
  ok ← map_insert (S_WAKEUP_DATA pid) (upd_WAKEUP_DATA (<[pid := d1]>));
  if negb ok then mret (WAKEUP_RECORD_INSERT_FAILED, old) else
  producer_clear old had_pending_old.

Inductive before_install : thread -> Prop :=
| b_start old : before_install (record_wakeup pid d1 old)
| b_check x : before_install (producer_check x)
| b_install old had : before_install (producer_install old had).

Inductive after_install : thread -> Prop :=
| a_clear old had : after_install (producer_clear old had)
| a_done code old : code <> WAKEUP_RECORD_INSERT_FAILED -> after_install (Ret (code, old)).

Definition consumed_by (cs : list thread) : Prop := Ret (WAKEUP_CONSUME_OK, d1) ∈ cs.

Definition any (d : WakeupData) : Prop := True.
Definition not_d1 (d : WakeupData) : Prop := d <> d1.

(** The state of the hand-off: [d1] not installed yet, refused, or installed. *)
Inductive handoff : list thread -> World -> Prop :=
| h_before p cs w :
    before_install p -> Forall (consumer not_d1) cs ->
    WAKEUP_DATA w !! pid <> Some d1 -> WAKEUP_CONSUMED w !! pid <> Some d1 ->
    handoff (p :: cs) w
| h_refused old cs w : handoff (Ret (WAKEUP_RECORD_INSERT_FAILED, old) :: cs) w
| h_after p cs w :
    after_install p -> Forall (consumer any) cs ->
    WAKEUP_DATA w !! pid = Some d1 ->
    (WAKEUP_CONSUMED w !! pid = Some d1 -> consumed_by cs) ->
    handoff (p :: cs) w.

Lemma consumer_weaken (p : thread) : consumer not_d1 p -> consumer any p.
Proof. by intros []; constructor. Qed.

(** One step of a consumer leaves the data alone; it may set the cursor to the
    wakeup it then reports. *)
Lemma consumer_step P p p' w w' :
  consumer P p -> (forall d, WAKEUP_DATA w !! pid = Some d -> P d) ->
  step1 p w = Some (p', w') ->
  consumer P p' /\ WAKEUP_DATA w' = WAKEUP_DATA w /\
  (WAKEUP_CONSUMED w' = WAKEUP_CONSUMED w \/
   exists d, P d /\ p' = Ret (WAKEUP_CONSUME_OK, d) /\
     WAKEUP_CONSUMED w' = <[pid := d]> (WAKEUP_CONSUMED w)).
Proof.
  intros Hc HP Hs. destruct Hc as [ out | d Hd | d Hd | code d Hd ]; [ | | | done ].
  - injection Hs as <- <-. split; [|auto].
    destruct (WAKEUP_DATA w !! pid) as [d|] eqn:Hw; [ apply c_check; auto | ].
    by apply c_done.
  - injection Hs as <- <-. split; [|auto].
    destruct (WAKEUP_CONSUMED w !! pid) as [c|]; [ | by apply c_mark ].
    simpl. destruct (same_wakeup_value c d); [ by apply c_done | by apply c_mark ].
  - revert Hs. unfold consumer_mark, map_insert, atomic. simpl.
    destruct (insert_ok (S_WAKEUP_CONSUMED pid) w); simpl; intros [= <- <-].
    + split; [ by apply c_done | ]. split; [done|]. right. eauto.
    + split; [ by apply c_done | ]. auto.
Qed.

(** One step of the producer before the install: still before it, refused, or
    installed. *)
Lemma producer_step_before p p' w w' :
  before_install p -> step1 p w = Some (p', w') ->
  (before_install p' /\ w' = w) \/
  (exists old, p' = Ret (WAKEUP_RECORD_INSERT_FAILED, old)) \/
  (exists old had, p' = producer_clear old had /\ w' = upd_WAKEUP_DATA (<[pid := d1]>) w).
Proof.
  intros Hp Hs. destruct Hp as [ old | x | old had ].
  - injection Hs as <- <-. left. split; [|done].
    destruct (WAKEUP_DATA w !! pid) as [x|]; [ apply (b_check x) | apply (b_install old false) ].
  - injection Hs as <- <-. left. split; [|done].
    destruct (WAKEUP_CONSUMED w !! pid) as [c|].
    + apply (b_install x (negb (same_wakeup_value c x))).
    + apply (b_install x true).
  - revert Hs. unfold producer_install, map_insert, atomic. simpl.
    destruct (insert_ok (S_WAKEUP_DATA pid) w); simpl; intros [= <- <-]; eauto 10.
Qed.

Lemma handoff_step i p p' ps w w' :
  ps !! i = Some p -> step1 p w = Some (p', w') -> handoff ps w -> handoff (<[i := p']> ps) w'.
Proof.
  intros Hi Hs Hh. destruct Hh as [ p0 cs w Hp Hcs HD HC | old cs w | p0 cs w Hp Hcs HD HC ];
    destruct i as [|i]; simpl in Hi |- *; simplify_eq; try done; try apply h_refused.
  - destruct (producer_step_before _ _ _ _ Hp Hs)
      as [[Hp' ->]|[[old ->]|(old & had & -> & ->)]].
    + by apply h_before.
    + apply h_refused.
    + apply h_after; [ constructor | | by apply lookup_insert_eq | done ].
      eapply Forall_impl; [ | exact Hcs ]. apply consumer_weaken.
  - pose proof (Forall_lookup_1 _ _ _ _ Hcs Hi) as Hc.
    destruct (consumer_step not_d1 p p' w w' Hc) as (Hc' & HD' & HC'); [ | done | ].
    { intros d Hd ->. by apply HD. }
    apply h_before; [ done | by apply Forall_insert | by rewrite HD' | ].
    destruct HC' as [->|(d & Hd & _ & ->)]; [done|]. rewrite lookup_insert_eq.
    by intros [= ->].
  - destruct Hp as [ old had | code old Hcode ]; [|done]. injection Hs as <- <-.
    apply h_after; [ | done | done | by simpl; rewrite lookup_delete_eq ].
    destruct (negb had); [ by constructor | ]. by destruct (_ =? _); constructor.
  - pose proof (Forall_lookup_1 _ _ _ _ Hcs Hi) as Hc.
    destruct (consumer_step any p p' w w' Hc) as (Hc' & HD' & HC'); [ done | done | ].
    apply h_after; [ done | by apply Forall_insert | by rewrite HD' | ].
    assert (Hlen : (i < length cs)%nat) by (by eapply lookup_lt_Some).
    destruct HC' as [->|(d & _ & -> & ->)].
    + intros Hc1. destruct (list_elem_of_lookup_1 _ _ (HC Hc1)) as [j Hj].
      assert (Hij : i <> j) by (intros <-; rewrite Hi in Hj; by simplify_eq).
      apply list_elem_of_lookup_2 with j. by rewrite list_lookup_insert_ne.
    + rewrite lookup_insert_eq. intros [= ->].
      apply list_elem_of_lookup_2 with i. by apply list_lookup_insert_eq.
Qed.

(** C34. A wakeup installed while consumers of an older one are running is not lost:
    when the producer has returned without a refusal, the new wakeup is pending or a
    consumer has returned it, whatever the interleaving. *)
Theorem newer_wakeup_not_lost (old : WakeupData) (outs : list WakeupData) (w w' : World)
    (code : Z) (old' : WakeupData) (cs : list thread) :
  WAKEUP_DATA w !! pid <> Some d1 -> WAKEUP_CONSUMED w !! pid <> Some d1 ->
  rtc pool_step (record_wakeup pid d1 old :: map (consume_pending_wakeup pid) outs, w)
    (Ret (code, old') :: cs, w') ->
  code <> WAKEUP_RECORD_INSERT_FAILED ->
  pending w' pid = Some d1 \/ consumed_by cs.
Proof.
  intros HD HC Hrun Hcode.
  assert (Hh : handoff (Ret (code, old') :: cs) w').
  { apply (pool_invariant_step1 handoff handoff_step _ _ Hrun). apply h_before; try done.
    - constructor.
    - apply Forall_fmap, Forall_true. intros out. constructor. }
  inversion Hh as [ p cs' w0 Hp | ? ? ? Heq | p cs' w0 Hp _ HD' HC' ]; subst.
  - inversion Hp.
  - done.
  - rewrite pending_lookup, HD'. case_bool_decide; auto.
Qed.
End handoff.

(** ** The other direction *)

Definition race_wakeup : WakeupData :=
  {| wd_ts := 5; wd_target_cpu := 1; wd_waker_tid := 9; wd_seq := 1 |}.

(** The install and the clearing of the cursor are two steps: a consumer that runs
    between them reports the new wakeup, and the clearing then makes it pending again,
    so the same wakeup can be reported a second time. The probes rely on the kernel not
    switching to a task while its wakeup is being traced. *)
Theorem consumed_wakeup_can_reappear :
  exists w', rtc pool_step
    ([record_wakeup 7 race_wakeup WakeupData_default; consume_pending_wakeup 7 WakeupData_default],
     empty_world)
    ([Ret (WAKEUP_RECORD_NEW_PENDING, WakeupData_default); Ret (WAKEUP_CONSUME_OK, race_wakeup)], w')
    /\ pending w' 7 = Some race_wakeup.
Proof.
  eexists. split.
  - apply (run_schedule_sound [0; 0; 1; 1; 1; 0]%nat). vm_compute. reflexivity.
  - vm_compute. reflexivity.
Qed.
