(* ===== verification/RunnableDepth.v ===== *)
(** * Runnable-depth and pending-wakeup accounting

    [stutter-ebpf/src/runnable_depth.rs]: per-CPU counters of the monitored tasks
    that are runnable ([CPU_RUNNABLE_DEPTH], with [RUNNABLE_TASK_CPU] as the
    reverse map) and of the wakeups that are pending
    ([TARGET_PENDING_WAKEUPS]).  [depth_inv] says that the depth counter of a CPU
    is exactly the number of tasks the reverse map places there. *)

From S2P Require Import Prelude Prog Abi Maps Typing.

Section runnable_depth.
Context {K : Kernel}.

Definition read_cpu_runnable_depth (cpu : Z) : prog World Z :=
  if negb (valid_cpu cpu) then mret 0 else
  depth ← map_get (array_get CPU_RUNNABLE_DEPTH cpu);
  mret (default 0 depth).

Definition increment_cpu_runnable_depth (cpu : Z) : prog World unit :=
  if negb (valid_cpu cpu) then mret tt else
  ptr ← map_get (array_get CPU_RUNNABLE_DEPTH cpu);
  let_else depth := ptr or mret tt;
  store (upd_CPU_RUNNABLE_DEPTH (<[cpu := saturating_add_u32 depth 1]>)).

Definition decrement_cpu_runnable_depth (cpu : Z) : prog World unit :=
  if negb (valid_cpu cpu) then mret tt else
  ptr ← map_get (array_get CPU_RUNNABLE_DEPTH cpu);
  let_else depth := ptr or mret tt;
  store (upd_CPU_RUNNABLE_DEPTH (<[cpu := saturating_sub depth 1]>)).

Definition mark_task_runnable (e : Env) (pid target_cpu : Z) : prog World bool :=
  if pid =? 0 then mret false else
  if negb (valid_cpu target_cpu)
  then increment_drop_counter e DROP_CPU_ACCOUNTING_UNTRACKED ;; mret false else
  cur ← map_get (fun w => RUNNABLE_TASK_CPU w !! pid);
  match cur with
  | Some old_cpu =>
      if old_cpu =? target_cpu then mret true else
      ok ← map_insert (S_RUNNABLE_TASK_CPU pid)
             (upd_RUNNABLE_TASK_CPU (<[pid := target_cpu]>));
      if negb ok
      then increment_drop_counter e DROP_CPU_ACCOUNTING_UNTRACKED ;; mret false else
      decrement_cpu_runnable_depth old_cpu ;;
      increment_cpu_runnable_depth target_cpu ;;
      mret true
  | None =>
      ok ← map_insert (S_RUNNABLE_TASK_CPU pid)
             (upd_RUNNABLE_TASK_CPU (<[pid := target_cpu]>));
      if negb ok
      then increment_drop_counter e DROP_CPU_ACCOUNTING_UNTRACKED ;; mret false else
      increment_cpu_runnable_depth target_cpu ;;
      mret true
  end.

Definition mark_task_running (pid current_cpu : Z) : prog World unit :=
  if pid =? 0 then mret tt else
  cur ← map_get (fun w => RUNNABLE_TASK_CPU w !! pid);
  match cur with
  | Some stored_cpu =>
      let cpu_to_decrement := if valid_cpu stored_cpu then stored_cpu else current_cpu in
      decrement_cpu_runnable_depth cpu_to_decrement ;;
      _ ← map_remove (S_RUNNABLE_TASK_CPU pid) (upd_RUNNABLE_TASK_CPU (delete pid));
      mret tt
  | None => mret tt
  end.

Definition remove_runnable_task_if_present (pid : Z) : prog World unit :=
  if pid =? 0 then mret tt else
  cur ← map_get (fun w => RUNNABLE_TASK_CPU w !! pid);
  match cur with
  | Some cpu =>
      decrement_cpu_runnable_depth cpu ;;
      _ ← map_remove (S_RUNNABLE_TASK_CPU pid) (upd_RUNNABLE_TASK_CPU (delete pid));
      mret tt
  | None => mret tt
  end.

Definition increment_target_pending (e : Env) (cpu : Z) : prog World unit :=
  if negb (valid_cpu cpu)
  then increment_drop_counter e DROP_CPU_ACCOUNTING_UNTRACKED else
  ptr ← map_get (array_get TARGET_PENDING_WAKEUPS cpu);
  let_else depth := ptr or mret tt;
  store (upd_TARGET_PENDING_WAKEUPS (<[cpu := saturating_add_u32 depth 1]>)).

Definition decrement_target_pending (cpu : Z) : prog World unit :=
  if negb (valid_cpu cpu) then mret tt else
  ptr ← map_get (array_get TARGET_PENDING_WAKEUPS cpu);
  let_else depth := ptr or mret tt;
  store (upd_TARGET_PENDING_WAKEUPS (<[cpu := saturating_sub depth 1]>)).
End runnable_depth.

(** ** The operations, run alone *)

Definition depth_of (w : World) (cpu : Z) : Z := default 0 (CPU_RUNNABLE_DEPTH w !! cpu).
Definition pending_of (w : World) (cpu : Z) : Z := default 0 (TARGET_PENDING_WAKEUPS w !! cpu).

(** A CPU id the arrays track. *)
Definition tracked (cpu : Z) : Prop := 0 <= cpu < BPF_MAX_TRACKED_CPUS.

(** Number of tasks the reverse map places on [cpu]. *)
Definition runnable_count (w : World) (cpu : Z) : Z :=
  count_map (Z.eqb cpu) (RUNNABLE_TASK_CPU w).

Definition set_depth (cpu d : Z) (w : World) : World :=
  upd_CPU_RUNNABLE_DEPTH (<[cpu := d]>) w.
Definition set_pending (cpu d : Z) (w : World) : World :=
  upd_TARGET_PENDING_WAKEUPS (<[cpu := d]>) w.
Definition set_runnable (pid cpu : Z) (w : World) : World :=
  upd_RUNNABLE_TASK_CPU (<[pid := cpu]>) w.
Definition del_runnable (pid : Z) (w : World) : World :=
  upd_RUNNABLE_TASK_CPU (delete pid) w.

Section run_alone.
Context {K : Kernel}.

Lemma valid_cpu_tracked cpu : 0 <= cpu -> valid_cpu cpu = true <-> tracked cpu.
Proof. unfold valid_cpu, tracked. rewrite Z.ltb_lt. lia. Qed.

Lemma array_get_tracked arr cpu w :
  tracked cpu -> array_get arr cpu w = Some (default 0 (arr w !! cpu)).
Proof.
  intros [H1 H2]. unfold array_get. by apply Z.leb_le in H1 as ->; apply Z.ltb_lt in H2 as ->.
Qed.

Lemma tracked_valid cpu : tracked cpu -> valid_cpu cpu = true.
Proof. intros H. apply valid_cpu_tracked; [ apply H | done ]. Qed.

Lemma run_increment_depth cpu w : tracked cpu ->
  run (increment_cpu_runnable_depth cpu) w =
    (tt, set_depth cpu (saturating_add_u32 (depth_of w cpu) 1) w).
Proof.
  intros H. unfold increment_cpu_runnable_depth. rewrite tracked_valid by done. cbn [negb].
  run_simpl. by rewrite array_get_tracked.
Qed.

Lemma run_decrement_depth cpu w : tracked cpu ->
  run (decrement_cpu_runnable_depth cpu) w =
    (tt, set_depth cpu (saturating_sub (depth_of w cpu) 1) w).
Proof.
  intros H. unfold decrement_cpu_runnable_depth. rewrite tracked_valid by done. cbn [negb].
  run_simpl. by rewrite array_get_tracked.
Qed.

Lemma run_increment_target_pending e cpu w : tracked cpu ->
  run (increment_target_pending e cpu) w =
    (tt, set_pending cpu (saturating_add_u32 (pending_of w cpu) 1) w).
Proof.
  intros H. unfold increment_target_pending. rewrite tracked_valid by done. cbn [negb].
  run_simpl. by rewrite array_get_tracked.
Qed.

Lemma run_decrement_target_pending cpu w : 0 <= cpu ->
  run (decrement_target_pending cpu) w =
    (tt, if valid_cpu cpu
         then set_pending cpu (saturating_sub (pending_of w cpu) 1) w else w).
Proof.
  intros H. unfold decrement_target_pending.
  destruct (valid_cpu cpu) eqn:Hv; cbn [negb]; [|done].
  run_simpl. apply valid_cpu_tracked in Hv; [|done]. by rewrite array_get_tracked.
Qed.

Lemma run_read_cpu_runnable_depth cpu w : 0 <= cpu ->
  run (read_cpu_runnable_depth cpu) w = (if valid_cpu cpu then depth_of w cpu else 0, w).
Proof.
  intros H. unfold read_cpu_runnable_depth.
  destruct (valid_cpu cpu) eqn:Hv; cbn [negb]; [|done].
  run_simpl. apply valid_cpu_tracked in Hv; [|done]. by rewrite array_get_tracked.
Qed.
End run_alone.

(** ** The depth invariant *)

(** [depth_of] counts exactly the tasks of the reverse map, every one of which is
    on a tracked CPU, and the reverse map is within its capacity. *)
Record depth_inv {K : Kernel} (w : World) : Prop := {
  di_tracked : forall pid cpu, RUNNABLE_TASK_CPU w !! pid = Some cpu -> tracked cpu;
  di_exact : forall cpu, tracked cpu -> depth_of w cpu = runnable_count w cpu;
  di_room : Z.of_nat (size (RUNNABLE_TASK_CPU w)) <= map_capacity M_RUNNABLE_TASK_CPU;
}.

Section depth_inv.
Context {K : Kernel}.

Lemma depth_inv_view w w' :
  RUNNABLE_TASK_CPU w' = RUNNABLE_TASK_CPU w -> CPU_RUNNABLE_DEPTH w' = CPU_RUNNABLE_DEPTH w ->
  depth_inv w -> depth_inv w'.
Proof.
  intros HR HD [H1 H2 H3].
  split; unfold depth_of, runnable_count; rewrite ?HR, ?HD; done.
Qed.

(** Closed forms of the three operations on the reverse map, in a world whose
    stored CPUs are tracked. *)
Definition move_runnable (pid old cpu : Z) (w : World) : World :=
  let w1 := set_depth old (saturating_sub (depth_of w old) 1) (set_runnable pid cpu w) in
  set_depth cpu (saturating_add_u32 (depth_of w1 cpu) 1) w1.

Definition add_runnable (pid cpu : Z) (w : World) : World :=
  set_depth cpu (saturating_add_u32 (depth_of w cpu) 1) (set_runnable pid cpu w).

Definition remove_runnable (pid : Z) (w : World) : World :=
  match RUNNABLE_TASK_CPU w !! pid with
  | Some cpu => del_runnable pid (set_depth cpu (saturating_sub (depth_of w cpu) 1) w)
  | None => w
  end.

Definition mark_runnable (e : Env) (pid cpu : Z) (w : World) : bool * World :=
  if negb (valid_cpu cpu) then (false, drop_world e DROP_CPU_ACCOUNTING_UNTRACKED w) else
  match RUNNABLE_TASK_CPU w !! pid with
  | Some old =>
      if old =? cpu then (true, w)
      else if insert_ok (S_RUNNABLE_TASK_CPU pid) w
      then (true, move_runnable pid old cpu w)
      else (false, drop_world e DROP_CPU_ACCOUNTING_UNTRACKED w)
  | None =>
      if insert_ok (S_RUNNABLE_TASK_CPU pid) w
      then (true, add_runnable pid cpu w)
      else (false, drop_world e DROP_CPU_ACCOUNTING_UNTRACKED w)
  end.

Lemma run_mark_task_runnable e pid cpu w :
  depth_inv w -> 0 < pid -> 0 <= cpu ->
  run (mark_task_runnable e pid cpu) w = mark_runnable e pid cpu w.
Proof.
  intros Hinv Hpid Hcpu. unfold mark_task_runnable, mark_runnable.
  replace (pid =? 0) with false by (symmetry; apply Z.eqb_neq; lia).
  destruct (valid_cpu cpu) eqn:Hv; cbn [negb]; [|by run_simpl].
  apply valid_cpu_tracked in Hv; [|done]. run_simpl.
  destruct (RUNNABLE_TASK_CPU w !! pid) as [old|] eqn:Hr.
  - pose proof (di_tracked _ Hinv _ _ Hr) as Hold.
    destruct (old =? cpu); [done|]. run_simpl.
    destruct (insert_ok _ w); cbn [negb fst snd]; run_simpl; [|done].
    rewrite run_decrement_depth by done. cbn [fst snd].
    by rewrite run_increment_depth.
  - run_simpl. destruct (insert_ok _ w); cbn [negb fst snd]; run_simpl; [|done].
    by rewrite run_increment_depth.
Qed.

Lemma run_mark_task_running pid cpu w :
  depth_inv w -> 0 < pid -> run (mark_task_running pid cpu) w = (tt, remove_runnable pid w).
Proof.
  intros Hinv Hpid. unfold mark_task_running, remove_runnable.
  replace (pid =? 0) with false by (symmetry; apply Z.eqb_neq; lia). run_simpl.
  destruct (RUNNABLE_TASK_CPU w !! pid) as [old|] eqn:Hr; [|done].
  pose proof (di_tracked _ Hinv _ _ Hr) as Hold.
  rewrite tracked_valid by done. run_simpl. by rewrite run_decrement_depth.
Qed.

Lemma run_remove_runnable_task_if_present pid w :
  depth_inv w -> 0 < pid ->
  run (remove_runnable_task_if_present pid) w = (tt, remove_runnable pid w).
Proof.
  intros Hinv Hpid. unfold remove_runnable_task_if_present, remove_runnable.
  replace (pid =? 0) with false by (symmetry; apply Z.eqb_neq; lia). run_simpl.
  destruct (RUNNABLE_TASK_CPU w !! pid) as [old|] eqn:Hr; [|done].
  pose proof (di_tracked _ Hinv _ _ Hr) as Hold.
  run_simpl. by rewrite run_decrement_depth.
Qed.

Lemma depth_of_set_depth c d w c' :
  depth_of (set_depth c d w) c' = if decide (c = c') then d else depth_of w c'.
Proof. unfold depth_of. simpl. rewrite lookup_insert. by case_decide. Qed.

Lemma runnable_count_bound w cpu : depth_inv w -> runnable_count w cpu < 2 ^ 32.
Proof.
  intros Hinv. pose proof (di_room _ Hinv). pose proof (map_capacity_u32 M_RUNNABLE_TASK_CPU).
  pose proof (count_map_size (Z.eqb cpu) (RUNNABLE_TASK_CPU w)).
  unfold runnable_count. width.
Qed.

Lemma depth_inv_move pid old cpu w :
  depth_inv w -> RUNNABLE_TASK_CPU w !! pid = Some old -> old <> cpu -> tracked cpu ->
  depth_inv (move_runnable pid old cpu w).
Proof.
  intros Hinv Hr Hne Hcpu. pose proof (di_tracked _ Hinv _ _ Hr) as Hold. split.
  - intros p c. simpl. rewrite lookup_insert. case_decide; [ naive_solver | ].
    apply Hinv.
  - intros c Hc. unfold move_runnable. rewrite !depth_of_set_depth.
    unfold runnable_count; simpl.
    rewrite (count_map_insert_some _ _ _ old) by done.
    assert (He : forall c, tracked c -> default 0 (CPU_RUNNABLE_DEPTH w !! c) =
              count_map (Z.eqb c) (RUNNABLE_TASK_CPU w)) by apply Hinv.
    pose proof (count_map_pos (Z.eqb old) _ _ _ Hr (Z.eqb_refl old)).
    pose proof (count_map_size (Z.eqb cpu) (RUNNABLE_TASK_CPU w)).
    pose proof (di_room _ Hinv). pose proof (map_capacity_u32 M_RUNNABLE_TASK_CPU).
    pose proof (count_map_delete (Z.eqb cpu) _ _ _ Hr) as Hd.
    pose proof (count_map_size (Z.eqb cpu) (delete pid (RUNNABLE_TASK_CPU w))).
    pose proof (map_size_delete_Some pid (RUNNABLE_TASK_CPU w) ltac:(eauto)).
    assert (size (RUNNABLE_TASK_CPU w) <> 0)%nat.
    { intros Hz%map_size_empty_inv. by rewrite Hz, lookup_empty in Hr. }
    unfold depth_of. simpl. rewrite !He by done.
    repeat case_decide; subst; zbool; try done; width.
  - simpl. rewrite map_size_insert_Some by eauto. apply Hinv.
Qed.

Lemma depth_inv_add pid cpu w :
  depth_inv w -> RUNNABLE_TASK_CPU w !! pid = None -> tracked cpu ->
  insert_ok (S_RUNNABLE_TASK_CPU pid) w = true ->
  depth_inv (add_runnable pid cpu w).
Proof.
  intros Hinv Hr Hcpu Hok.
  apply insert_ok_room in Hok as [Hp|Hroom]; [ | | done ].
  { unfold slot_present in Hp. apply bool_decide_eq_true in Hp as [? Hp].
    by rewrite Hr in Hp. }
  change (Z.of_nat (size (RUNNABLE_TASK_CPU w)) < map_capacity M_RUNNABLE_TASK_CPU) in Hroom.
  split.
  - intros p c. simpl. rewrite lookup_insert. case_decide; [ naive_solver | apply Hinv ].
  - intros c Hc. unfold add_runnable. rewrite depth_of_set_depth.
    unfold runnable_count; simpl. rewrite count_map_insert_new by done.
    pose proof (di_exact _ Hinv c Hc) as He. unfold depth_of, runnable_count in *.
    pose proof (count_map_size (Z.eqb cpu) (RUNNABLE_TASK_CPU w)).
    pose proof (map_capacity_u32 M_RUNNABLE_TASK_CPU).
    simpl. case_decide; subst; zbool; try done; rewrite ?He; width.
  - simpl. rewrite map_size_insert_None by done. lia.
Qed.

Lemma depth_inv_remove pid w : depth_inv w -> depth_inv (remove_runnable pid w).
Proof.
  intros Hinv. unfold remove_runnable.
  destruct (RUNNABLE_TASK_CPU w !! pid) as [cpu|] eqn:Hr; [|done]. split.
  - intros p c. simpl. rewrite lookup_delete_Some. intros [_ Hp]. by eapply Hinv.
  - intros c Hc. change (depth_of (del_runnable pid ?w) c) with (depth_of w c).
    rewrite depth_of_set_depth. unfold runnable_count; simpl.
    rewrite (count_map_delete _ _ _ cpu) by done.
    pose proof (di_exact _ Hinv c Hc) as He. unfold depth_of, runnable_count in *.
    pose proof (count_map_pos (Z.eqb cpu) _ _ _ Hr (Z.eqb_refl cpu)).
    case_decide; subst; zbool; try done; rewrite ?He; width.
  - simpl. rewrite map_size_delete_Some by eauto. pose proof (di_room _ Hinv). lia.
Qed.

Lemma depth_inv_mark e pid cpu w :
  depth_inv w -> 0 <= cpu -> depth_inv (mark_runnable e pid cpu w).2.
Proof.
  intros Hinv Hcpu. assert (Hdrop : forall r, depth_inv (drop_world e r w)).
  { intros r. split; apply Hinv. }
  unfold mark_runnable. destruct (valid_cpu cpu) eqn:Hv; [|apply Hdrop]. cbn [negb].
  apply valid_cpu_tracked in Hv; [|done].
  destruct (RUNNABLE_TASK_CPU w !! pid) as [old|] eqn:Hr.
  - destruct (Z.eqb_spec old cpu); [done|].
    destruct (insert_ok _ w); [|apply Hdrop]. by apply depth_inv_move.
  - destruct (insert_ok _ w) eqn:?; [|apply Hdrop]. by apply depth_inv_add.
Qed.
End depth_inv.

(** ** Typing *)

Section typing.
Context {K : Kernel}.

Lemma typed_read_depth cpu : typed_w in_u32 (read_cpu_runnable_depth cpu).
Proof.
  unfold read_cpu_runnable_depth. typecheck; auto with machine.
Qed.

Lemma typed_increment_depth cpu : typed_w (fun _ => True) (increment_cpu_runnable_depth cpu).
Proof. unfold increment_cpu_runnable_depth. typecheck. typed_op. Qed.

Lemma typed_decrement_depth cpu : typed_w (fun _ => True) (decrement_cpu_runnable_depth cpu).
Proof. unfold decrement_cpu_runnable_depth. typecheck. typed_op. Qed.

Lemma typed_increment_pending e cpu : typed_w (fun _ => True) (increment_target_pending e cpu).
Proof. unfold increment_target_pending. typecheck; typed_op. Qed.

Lemma typed_decrement_pending cpu : typed_w (fun _ => True) (decrement_target_pending cpu).
Proof. unfold decrement_target_pending. typecheck. typed_op. Qed.

Hint Resolve typed_increment_depth typed_decrement_depth : typed.

Lemma typed_mark_task_runnable e pid cpu : in_u32 cpu ->
  typed_w (fun _ => True) (mark_task_runnable e pid cpu).
Proof. intros Hcpu. unfold mark_task_runnable. typecheck. Qed.

Lemma typed_mark_task_running pid cpu : typed_w (fun _ => True) (mark_task_running pid cpu).
Proof. unfold mark_task_running. typecheck. Qed.

Lemma typed_remove_runnable pid : typed_w (fun _ => True) (remove_runnable_task_if_present pid).
Proof. unfold remove_runnable_task_if_present. typecheck. Qed.
End typing.

#[export] Hint Resolve typed_read_depth typed_increment_depth typed_decrement_depth
  typed_increment_pending typed_decrement_pending typed_mark_task_runnable
  typed_mark_task_running typed_remove_runnable : typed.
