(* ===== verification/Accounting.v ===== *)
(** * The accounting invariant of the scheduler probes

    What the wakeup hand-off of [WakeupData] and the counters of [RunnableDepth]
    mean together.  [sched_inv] holds the depth invariant, the coherence of the
    consumed cursor, the relation between [TARGET_PENDING_WAKEUPS] and the
    pending wakeups, and that a task counted runnable has a pending wakeup, so a
    later [sched_switch] or exit takes the count away again.  The relation is
    equality when [RUNNABLE_TASK_CPU] has room for every task with a wakeup
    record ([exact = true]) and an upper bound in general. *)

From S2P Require Import Prelude Prog Abi Maps Typing WakeupData RunnableDepth.

Definition on_cpu (cpu : Z) (d : WakeupData) : bool := cpu =? wd_target_cpu d.

(** Number of pending wakeups that target [cpu]. *)
Definition pending_count (w : World) (cpu : Z) : Z := count_map (on_cpu cpu) (pending_map w).

Definition pend_rel (exact : bool) (a b : Z) : Prop := if exact then a = b else a <= b.

(** The counters [P] against the pending wakeups [M]. *)
Definition pend_ok (exact : bool) (P : Z -> Z) (M : gmap Z WakeupData) : Prop :=
  forall cpu, tracked cpu -> 0 <= P cpu /\ pend_rel exact (P cpu) (count_map (on_cpu cpu) M).

Record wakeup_inv {K : Kernel} (exact : bool) (w : World) : Prop := {
  wi_cursor : forall pid c, WAKEUP_CONSUMED w !! pid = Some c -> WAKEUP_DATA w !! pid = Some c;
  wi_data : forall pid d, WAKEUP_DATA w !! pid = Some d -> 0 < pid /\ 0 <= wd_target_cpu d;
  wi_room : Z.of_nat (size (WAKEUP_DATA w)) <= map_capacity M_WAKEUP_DATA;
  wi_pending : pend_ok exact (pending_of w) (pending_map w);
}.

Record sched_inv {K : Kernel} (exact : bool) (w : World) : Prop := {
  si_depth : depth_inv w;
  si_wakeup : wakeup_inv exact w;
  si_runnable : forall pid cpu, RUNNABLE_TASK_CPU w !! pid = Some cpu ->
    is_Some (pending w pid);
}.

(** [RUNNABLE_TASK_CPU] has room for every task with a wakeup record, and the
    kernel refuses an insert into it only when it is full.  The compiled-in
    capacities do not have this; the loader may raise them. *)
Definition runnable_has_room (K : Kernel) : Prop :=
  map_capacity M_WAKEUP_DATA <= map_capacity M_RUNNABLE_TASK_CPU /\
  forall pid w,
    slot_present (S_RUNNABLE_TASK_CPU pid) w = true \/
    map_load M_RUNNABLE_TASK_CPU w < map_capacity M_RUNNABLE_TASK_CPU ->
    insert_ok (S_RUNNABLE_TASK_CPU pid) w = true.

Definition inc_pending (cpu : Z) (w : World) : World :=
  set_pending cpu (saturating_add_u32 (pending_of w cpu) 1) w.
Definition dec_pending (cpu : Z) (w : World) : World :=
  if valid_cpu cpu then set_pending cpu (saturating_sub (pending_of w cpu) 1) w else w.

(** ** Counters against pending wakeups *)

Section pend_ok.
Implicit Types (P : Z -> Z) (M : gmap Z WakeupData).

Definition inc_at (P : Z -> Z) (c c' : Z) : Z :=
  if decide (c = c') then saturating_add_u32 (P c) 1 else P c'.
Definition dec_at (P : Z -> Z) (c c' : Z) : Z :=
  if decide (c = c' /\ tracked c) then saturating_sub (P c) 1 else P c'.

Lemma pend_ok_delete exact P M pid d :
  pend_ok exact P M -> M !! pid = Some d ->
  pend_ok exact (dec_at P (wd_target_cpu d)) (delete pid M).
Proof.
  intros HP Hd c Hc. destruct (HP c Hc) as [H0 Hr].
  rewrite (count_map_delete _ _ _ d) by done. unfold dec_at, on_cpu in *.
  case_decide as Hdec; [ destruct Hdec as [<- _] | ].
  - rewrite Z.eqb_refl.
    pose proof (count_map_pos (on_cpu (wd_target_cpu d)) _ _ _ Hd (Z.eqb_refl _)).
    unfold on_cpu, pend_rel in *. destruct exact; split; width.
  - destruct (Z.eqb_spec c (wd_target_cpu d)) as [->|]; [ by destruct Hdec | ].
    unfold pend_rel in *. destruct exact; lia.
Qed.

Lemma pend_ok_insert_inc exact P M pid d :
  pend_ok exact P M -> M !! pid = None -> Z.of_nat (size M) < U32_MAX ->
  pend_ok exact (inc_at P (wd_target_cpu d)) (<[pid := d]> M).
Proof.
  intros HP Hn Hsz c Hc. destruct (HP c Hc) as [H0 Hr].
  rewrite count_map_insert_new by done. unfold inc_at, on_cpu in *.
  pose proof (count_map_size (on_cpu c) M) as Hs. unfold on_cpu in *.
  case_decide; subst; zbool; try done; unfold pend_rel in *; destruct exact; split; width.
Qed.

Lemma pend_ok_insert_skip exact P M pid d :
  pend_ok exact P M -> M !! pid = None ->
  (exact = true -> ~ tracked (wd_target_cpu d)) ->
  pend_ok exact P (<[pid := d]> M).
Proof.
  intros HP Hn Hex c Hc. destruct (HP c Hc) as [H0 Hr].
  rewrite count_map_insert_new by done. unfold on_cpu in *.
  destruct (Z.eqb_spec c (wd_target_cpu d)) as [->|]; unfold pend_rel in *;
    destruct exact; try lia. by destruct Hex.
Qed.

Lemma pend_ok_replace exact P M pid p d :
  pend_ok exact P M -> M !! pid = Some p -> wd_target_cpu p = wd_target_cpu d ->
  pend_ok exact P (<[pid := d]> M).
Proof.
  intros HP Hp Heq c Hc. destruct (HP c Hc) as [H0 Hr].
  rewrite (count_map_insert_some _ _ _ p) by done. unfold on_cpu. rewrite Heq.
  split; [done|]. unfold pend_rel, on_cpu in *. destruct exact; lia.
Qed.

Lemma pend_ok_ext exact P P' M :
  (forall c, tracked c -> P c = P' c) -> pend_ok exact P M -> pend_ok exact P' M.
Proof. intros Heq HP c Hc. rewrite <- Heq by done. by apply HP. Qed.
End pend_ok.

Lemma pending_of_inc cpu w c : pending_of (inc_pending cpu w) c = inc_at (pending_of w) cpu c.
Proof.
  unfold pending_of, inc_pending, inc_at. simpl. rewrite lookup_insert. by case_decide.
Qed.

Lemma pending_of_dec cpu w c : 0 <= cpu ->
  pending_of (dec_pending cpu w) c = dec_at (pending_of w) cpu c.
Proof.
  intros H0. unfold dec_pending, dec_at. pose proof (valid_cpu_tracked cpu H0) as Hv.
  destruct (valid_cpu cpu).
  - unfold pending_of. simpl. rewrite lookup_insert. destruct Hv as [Hv _].
    specialize (Hv eq_refl). repeat case_decide; tauto || done.
  - rewrite decide_False; [done|]. intros [_ Ht]. by apply Hv in Ht.
Qed.

(** ** What the wakeup operations do to the invariant *)

Section wakeup_inv.
Context {K : Kernel}.

(** The fields [wakeup_inv] reads. *)
Definition wakeup_view (w : World) :=
  (WAKEUP_DATA w, WAKEUP_CONSUMED w, TARGET_PENDING_WAKEUPS w).

Lemma pending_map_view w w' : wakeup_view w = wakeup_view w' -> pending_map w = pending_map w'.
Proof. unfold wakeup_view, pending_map. by intros [= -> -> _]. Qed.

Lemma wakeup_inv_view exact w w' :
  wakeup_view w = wakeup_view w' -> wakeup_inv exact w -> wakeup_inv exact w'.
Proof.
  intros Hv [H1 H2 H3 H4]. pose proof (pending_map_view _ _ Hv) as Hm.
  unfold wakeup_view in Hv. injection Hv as HD HC HT. split.
  - intros pid c. rewrite <- HD, <- HC. apply H1.
  - intros pid d. rewrite <- HD. apply H2.
  - by rewrite <- HD.
  - rewrite <- Hm. eapply pend_ok_ext; [ | exact H4 ].
    intros c _. unfold pending_of. by rewrite HT.
Qed.

Lemma mark_runnable_view e pid cpu w :
  wakeup_view (mark_runnable e pid cpu w).2 = wakeup_view w.
Proof. unfold mark_runnable. by repeat case_match. Qed.

Lemma remove_runnable_view pid w : wakeup_view (remove_runnable pid w) = wakeup_view w.
Proof. unfold remove_runnable. by case_match. Qed.

Lemma pending_map_size w : (size (pending_map w) <= size (WAKEUP_DATA w))%nat.
Proof.
  apply dom_subseteq_size. intros pid. rewrite !elem_of_dom. intros [d Hd].
  apply pending_data in Hd. eauto.
Qed.

Lemma pending_fresh_room w pid :
  Z.of_nat (size (WAKEUP_DATA w)) <= map_capacity M_WAKEUP_DATA ->
  insert_ok (S_WAKEUP_DATA pid) w = true -> pending w pid = None ->
  Z.of_nat (size (pending_map w)) < U32_MAX.
Proof.
  intros Hroom Hok Hp. pose proof (map_capacity_u32 M_WAKEUP_DATA) as Hcap.
  pose proof (pending_map_size w) as Hs.
  apply insert_ok_room in Hok as [Hpres|Hlt]; [ | | done ].
  - unfold slot_present in Hpres. apply bool_decide_eq_true in Hpres as [d Hd].
    enough (size (pending_map w) < size (WAKEUP_DATA w))%nat by width.
    enough (size (pending_map w) <= size (delete pid (WAKEUP_DATA w)))%nat as Hle.
    { rewrite map_size_delete_Some in Hle by eauto.
      assert (size (WAKEUP_DATA w) <> 0)%nat; [|lia].
      intros Hz%map_size_empty_inv. by rewrite Hz, lookup_empty in Hd. }
    apply dom_subseteq_size. intros i. rewrite !elem_of_dom. intros [x Hx].
    destruct (decide (i = pid)) as [->|]; [ by unfold pending in Hp; rewrite Hp in Hx | ].
    rewrite lookup_delete_ne by done. apply pending_data in Hx. eauto.
  - change (Z.of_nat (size (WAKEUP_DATA w)) < map_capacity M_WAKEUP_DATA) in Hlt. width.
Qed.

(** The parts of [wakeup_inv] that a recorded wakeup keeps whatever the counters. *)
Lemma record_room w pid d :
  Z.of_nat (size (WAKEUP_DATA w)) <= map_capacity M_WAKEUP_DATA ->
  insert_ok (S_WAKEUP_DATA pid) w = true ->
  Z.of_nat (size (<[pid := d]> (WAKEUP_DATA w))) <= map_capacity M_WAKEUP_DATA.
Proof.
  intros Hroom Hok. apply insert_ok_room in Hok as [Hpres|Hlt]; [ | | done ].
  - unfold slot_present in Hpres. apply bool_decide_eq_true in Hpres.
    by rewrite map_size_insert_Some.
  - change (Z.of_nat (size (WAKEUP_DATA w)) < map_capacity M_WAKEUP_DATA) in Hlt.
    rewrite map_size_insert. case_match; unfold id; lia.
Qed.

Lemma wakeup_inv_record exact w w' pid d :
  wakeup_inv exact w -> insert_ok (S_WAKEUP_DATA pid) w = true ->
  0 < pid -> 0 <= wd_target_cpu d ->
  WAKEUP_DATA w' = <[pid := d]> (WAKEUP_DATA w) ->
  WAKEUP_CONSUMED w' = delete pid (WAKEUP_CONSUMED w) ->
  pend_ok exact (pending_of w') (<[pid := d]> (pending_map w)) ->
  wakeup_inv exact w'.
Proof.
  intros Hinv Hok Hpid Hcpu HD HC HP. split.
  - intros p c. rewrite HC, HD, lookup_delete_Some. intros [Hne Hc].
    rewrite lookup_insert_ne by done. by apply Hinv.
  - intros p x. rewrite HD, lookup_insert. case_decide; [ naive_solver | apply Hinv ].
  - rewrite HD. apply record_room; [ apply Hinv | done ].
  - rewrite <- pending_map_record in HP. unfold pending_map in *. simpl in HP.
    by rewrite HD, HC.
Qed.

Lemma wakeup_inv_take exact w w' pid d :
  wakeup_inv exact w -> pending w pid = Some d ->
  (forall c, tracked c -> pending_of w' c = dec_at (pending_of w) (wd_target_cpu d) c) ->
  (WAKEUP_DATA w' = WAKEUP_DATA w /\
   WAKEUP_CONSUMED w' = <[pid := d]> (WAKEUP_CONSUMED w)) \/
  (WAKEUP_DATA w' = delete pid (WAKEUP_DATA w) /\
   WAKEUP_CONSUMED w' = delete pid (WAKEUP_CONSUMED w)) ->
  wakeup_inv exact w'.
Proof.
  intros Hinv Hp HP Hcase. pose proof (pending_data _ _ _ Hp) as Hd.
  assert (Hm : pending_map w' = delete pid (pending_map w)).
  { destruct Hcase as [[HD HC]|[HD HC]].
    - rewrite <- (pending_map_consume w pid d) by done. unfold pending_map. simpl.
      by rewrite HD, HC.
    - rewrite <- pending_map_remove. unfold pending_map. simpl. by rewrite HD, HC. }
  assert (Hsz : (size (WAKEUP_DATA w') <= size (WAKEUP_DATA w))%nat).
  { destruct Hcase as [[-> _]|[-> _]]; [done|]. apply map_subseteq_size, delete_subseteq. }
  split.
  - intros p c. destruct Hcase as [[HD HC]|[HD HC]]; rewrite HD, HC.
    + rewrite lookup_insert. case_decide; [ naive_solver | apply Hinv ].
    + rewrite !lookup_delete_Some. intros [Hne Hc]. split; [done|]. by apply Hinv.
  - intros p x. destruct Hcase as [[-> _]|[-> _]]; [ apply Hinv | ].
    rewrite lookup_delete_Some. intros [_ Hx]. by apply Hinv.
  - pose proof (wi_room _ _ Hinv). lia.
  - rewrite Hm. eapply pend_ok_ext; [ intros c Hc; symmetry; by apply HP | ].
    apply pend_ok_delete; [ apply Hinv | done ].
Qed.
End wakeup_inv.

(** ** What a whole wakeup, switch or exit does to the invariant *)

Section sched_inv.
Context {K : Kernel}.

(** The fields [sched_inv] reads. *)
Definition sched_view (w : World) :=
  (WAKEUP_DATA w, WAKEUP_CONSUMED w, TARGET_PENDING_WAKEUPS w,
   CPU_RUNNABLE_DEPTH w, RUNNABLE_TASK_CPU w).

Lemma sched_inv_view exact w w' :
  sched_view w = sched_view w' -> sched_inv exact w -> sched_inv exact w'.
Proof.
  intros Hv [[H1 H2 H3] Hw Hr]. unfold sched_view in Hv. injection Hv as HD HC HT HP HR.
  assert (Hview : wakeup_view w = wakeup_view w')
    by (unfold wakeup_view; by rewrite HD, HC, HT).
  split.
  - unfold depth_of, runnable_count in *. split; unfold depth_of, runnable_count;
      rewrite <- ?HR, <- ?HP; done.
  - by apply (wakeup_inv_view _ w).
  - intros pid cpu. rewrite <- HR. unfold pending.
    rewrite <- (pending_map_view _ _ Hview). apply Hr.
Qed.

Lemma mark_runnable_tracked e pid cpu w :
  0 <= cpu -> (mark_runnable e pid cpu w).1 = true -> tracked cpu.
Proof.
  intros H0. rewrite <- valid_cpu_tracked by done. unfold mark_runnable.
  by destruct (valid_cpu cpu).
Qed.

Lemma mark_runnable_exact e pid cpu w :
  insert_ok (S_RUNNABLE_TASK_CPU pid) w = true -> 0 <= cpu ->
  (mark_runnable e pid cpu w).1 = false -> ~ tracked cpu.
Proof.
  intros HK H0. rewrite <- valid_cpu_tracked by done. unfold mark_runnable.
  rewrite HK. destruct (valid_cpu cpu); [|done]. simpl. by repeat case_match.
Qed.

(** Only tasks with a wakeup record are runnable, so the map has a free entry for
    one that is not yet. *)
Lemma runnable_fits w pid :
  runnable_has_room K ->
  (forall p c, RUNNABLE_TASK_CPU w !! p = Some c -> is_Some (WAKEUP_DATA w !! p)) ->
  is_Some (WAKEUP_DATA w !! pid) ->
  Z.of_nat (size (WAKEUP_DATA w)) <= map_capacity M_WAKEUP_DATA ->
  insert_ok (S_RUNNABLE_TASK_CPU pid) w = true.
Proof.
  intros [Hcap Hok] Hsub Hpid Hroom. apply Hok.
  destruct (RUNNABLE_TASK_CPU w !! pid) as [c0|] eqn:Hp; [left|right].
  { unfold slot_present. rewrite bool_decide_eq_true, Hp. eauto. }
  unfold map_load.
  enough (size (RUNNABLE_TASK_CPU w) < size (WAKEUP_DATA w))%nat by lia.
  enough (size (RUNNABLE_TASK_CPU w) <= size (delete pid (WAKEUP_DATA w)))%nat as Hle.
  { rewrite map_size_delete_Some in Hle by done.
    assert (size (WAKEUP_DATA w) <> 0)%nat; [|lia].
    intros Hz%map_size_empty_inv. rewrite Hz, lookup_empty in Hpid. by destruct Hpid. }
  rewrite <- (size_dom (RUNNABLE_TASK_CPU w)), <- (size_dom (delete pid (WAKEUP_DATA w))).
  apply subseteq_size. intros i. rewrite !elem_of_dom. intros [c Hc].
  rewrite lookup_delete_ne; [ eauto | ]. intros ->. congruence.
Qed.

Lemma mark_runnable_dom e pid cpu w p c :
  RUNNABLE_TASK_CPU (mark_runnable e pid cpu w).2 !! p = Some c ->
  p = pid \/ RUNNABLE_TASK_CPU w !! p = Some c.
Proof.
  assert (Hins : <[pid := cpu]> (RUNNABLE_TASK_CPU w) !! p = Some c ->
    p = pid \/ RUNNABLE_TASK_CPU w !! p = Some c)
    by (rewrite lookup_insert_Some; naive_solver).
  unfold mark_runnable. destruct (valid_cpu cpu); [|by right]. simpl.
  destruct (RUNNABLE_TASK_CPU w !! pid); [ destruct (_ =? _); [by right|] | ];
    destruct (insert_ok _ w); (exact Hins || by right).
Qed.

(** The counters after a wakeup was recorded: the task becomes runnable on its
    target CPU and, when that is tracked, so does its pending wakeup. *)
Definition account_wakeup (e : Env) (pid cpu : Z) (w : World) : World :=
  let bw := mark_runnable e pid cpu w in
  if bw.1 then inc_pending cpu bw.2 else bw.2.

Lemma account_wakeup_maps e pid cpu w :
  WAKEUP_DATA (account_wakeup e pid cpu w) = WAKEUP_DATA w /\
  WAKEUP_CONSUMED (account_wakeup e pid cpu w) = WAKEUP_CONSUMED w.
Proof.
  pose proof (mark_runnable_view e pid cpu w) as Hv. unfold wakeup_view in Hv.
  injection Hv as HD HC _. unfold account_wakeup. by case_match.
Qed.

Lemma sched_inv_account exact e pid d w w1 :
  (exact = true -> runnable_has_room K) ->
  sched_inv exact w -> insert_ok (S_WAKEUP_DATA pid) w = true ->
  0 < pid -> 0 <= wd_target_cpu d ->
  WAKEUP_DATA w1 = <[pid := d]> (WAKEUP_DATA w) ->
  WAKEUP_CONSUMED w1 = delete pid (WAKEUP_CONSUMED w) ->
  RUNNABLE_TASK_CPU w1 = RUNNABLE_TASK_CPU w -> depth_inv w1 ->
  Z.of_nat (size (delete pid (pending_map w))) < U32_MAX ->
  pend_ok exact (pending_of w1) (delete pid (pending_map w)) ->
  sched_inv exact (account_wakeup e pid (wd_target_cpu d) w1).
Proof.
  intros HK [_ Hw Hr] Hok Hpid Hcpu HD HC HR Hdi Hsz HP.
  set (cpu := wd_target_cpu d) in *.
  destruct (account_wakeup_maps e pid cpu w1) as [HD' HC'].
  pose proof (depth_inv_mark e pid cpu w1 Hdi Hcpu) as Hdi2.
  pose proof (mark_runnable_view e pid cpu w1) as Hv.
  assert (Hpm : pending_map (account_wakeup e pid cpu w1) = <[pid := d]> (pending_map w)).
  { rewrite <- (pending_map_record w pid d). unfold pending_map. simpl.
    by rewrite HD', HC', HD, HC. }
  assert (HPm : pending_of (mark_runnable e pid cpu w1).2 = pending_of w1).
  { unfold pending_of. unfold wakeup_view in Hv. by injection Hv as _ _ ->. }
  split.
  - unfold account_wakeup. case_match; [ split; apply Hdi2 | done ].
  - apply (wakeup_inv_record exact w _ pid d); try done.
    + by rewrite HD'.
    + by rewrite HC'.
    + rewrite <- insert_delete_eq. unfold account_wakeup.
      destruct (mark_runnable e pid cpu w1).1 eqn:Hb.
      * eapply pend_ok_ext; [ intros c _; symmetry; apply pending_of_inc | ].
        rewrite HPm. apply pend_ok_insert_inc; [ done | apply lookup_delete_eq | done ].
      * rewrite HPm. apply pend_ok_insert_skip; [ done | apply lookup_delete_eq | ].
        intros Hx. eapply mark_runnable_exact; [ | exact Hcpu | exact Hb ].
        apply runnable_fits; [ by apply HK | | rewrite HD, lookup_insert_eq; by eexists | ].
        -- intros p c. rewrite HR, HD. intros [x Hx']%Hr. apply lookup_insert_is_Some'.
           right. eexists. by apply pending_data.
        -- rewrite HD. apply record_room; [ apply Hw | done ].
  - intros p c Hp. unfold pending. rewrite Hpm, lookup_insert. case_decide; [done|].
    assert (Hp' : RUNNABLE_TASK_CPU (mark_runnable e pid cpu w1).2 !! p = Some c).
    { revert Hp. unfold account_wakeup. by destruct (mark_runnable _ _ _ _).1. }
    apply mark_runnable_dom in Hp' as [->|Hp']; [done|].
    rewrite HR in Hp'. by eapply Hr.
Qed.

(** A pending wakeup of [pid] is taken out, by cursor or by removal, and the
    counters are released. *)
Lemma sched_inv_release exact w w1 pid d :
  sched_inv exact w -> pending w pid = Some d ->
  (WAKEUP_DATA w1 = WAKEUP_DATA w /\
   WAKEUP_CONSUMED w1 = <[pid := d]> (WAKEUP_CONSUMED w)) \/
  (WAKEUP_DATA w1 = delete pid (WAKEUP_DATA w) /\
   WAKEUP_CONSUMED w1 = delete pid (WAKEUP_CONSUMED w)) ->
  TARGET_PENDING_WAKEUPS w1 = TARGET_PENDING_WAKEUPS w ->
  CPU_RUNNABLE_DEPTH w1 = CPU_RUNNABLE_DEPTH w ->
  RUNNABLE_TASK_CPU w1 = RUNNABLE_TASK_CPU w ->
  sched_inv exact (remove_runnable pid (dec_pending (wd_target_cpu d) w1)).
Proof.
  intros [[H1 H2 H3] Hw Hr] Hp Hcase HP HDep HR.
  pose proof (pending_data _ _ _ Hp) as Hd.
  destruct (wi_data _ _ Hw _ _ Hd) as [Hpid Hcpu].
  set (w2 := dec_pending (wd_target_cpu d) w1).
  assert (Hw2 : WAKEUP_DATA w2 = WAKEUP_DATA w1 /\ WAKEUP_CONSUMED w2 = WAKEUP_CONSUMED w1 /\
    RUNNABLE_TASK_CPU w2 = RUNNABLE_TASK_CPU w /\ CPU_RUNNABLE_DEPTH w2 = CPU_RUNNABLE_DEPTH w).
  { unfold w2, dec_pending. by case_match. }
  destruct Hw2 as (HD2 & HC2 & HR2 & HDep2).
  assert (Hdi : depth_inv w2).
  { split; unfold depth_of, runnable_count; rewrite ?HR2, ?HDep2; done. }
  assert (Hw' : wakeup_inv exact w2).
  { apply (wakeup_inv_take exact w _ pid d); try done.
    - intros c _. unfold w2. rewrite pending_of_dec by done.
      unfold dec_at, pending_of. by rewrite HP.
    - by rewrite HD2, HC2. }
  assert (Hpm : pending_map w2 = delete pid (pending_map w)).
  { destruct Hcase as [[HD HC]|[HD HC]].
    - rewrite <- (pending_map_consume w pid d) by done. unfold pending_map. simpl.
      by rewrite HD2, HC2, HD, HC.
    - rewrite <- pending_map_remove. unfold pending_map. simpl.
      by rewrite HD2, HC2, HD, HC. }
  split.
  - by apply depth_inv_remove.
  - eapply wakeup_inv_view; [ symmetry; apply remove_runnable_view | done ].
  - intros p c Hpc. unfold pending.
    rewrite (pending_map_view _ w2) by apply remove_runnable_view. rewrite Hpm.
    assert (Hpc2 : p <> pid /\ RUNNABLE_TASK_CPU w2 !! p = Some c).
    { revert Hpc. unfold remove_runnable.
      destruct (RUNNABLE_TASK_CPU w2 !! pid) as [c0|] eqn:Hl; simpl.
      - rewrite lookup_delete_Some. naive_solver.
      - intros Hpc. split; [|done]. intros ->. congruence. }
    destruct Hpc2 as [Hne Hpc2]. rewrite lookup_delete_ne by done.
    eapply Hr. by rewrite <- HR2.
Qed.
End sched_inv.

(** ** Releasing the counters of a taken wakeup *)

(** [depth_inv] of a world that has the two fields of a known one. *)
Ltac same_depth := eapply depth_inv_view; [ | | eassumption ]; reflexivity.

Section release.
Context {K : Kernel}.

(** [pid] is no longer runnable and its wakeup [d] no longer pending. *)
Definition release (pid : Z) (d : WakeupData) (w : World) : World :=
  remove_runnable pid (dec_pending (wd_target_cpu d) w).

Ltac release_cases :=
  unfold release, dec_pending, remove_runnable;
  destruct (valid_cpu _); simpl; by destruct (RUNNABLE_TASK_CPU _ !! _).

Lemma depth_inv_dec_pending cpu w : depth_inv w -> depth_inv (dec_pending cpu w).
Proof. intros H. unfold dec_pending. case_match; same_depth. Qed.

Lemma run_decrement_pending cpu w : 0 <= cpu ->
  run (decrement_target_pending cpu) w = (tt, dec_pending cpu w).
Proof. apply run_decrement_target_pending. Qed.

Lemma run_release pid d w : depth_inv w -> 0 < pid -> 0 <= wd_target_cpu d ->
  run (decrement_target_pending (wd_target_cpu d) ;; remove_runnable_task_if_present pid) w =
    (tt, release pid d w).
Proof.
  intros Hinv Hpid Hcpu. rewrite run_bind, run_decrement_pending by done. cbn [fst snd].
  apply run_remove_runnable_task_if_present; [ by apply depth_inv_dec_pending | done ].
Qed.

Lemma release_comm pid d w :
  dec_pending (wd_target_cpu d) (remove_runnable pid w) = release pid d w.
Proof. release_cases. Qed.

Lemma release_drop e r pid d w : release pid d (drop_world e r w) = drop_world e r (release pid d w).
Proof. release_cases. Qed.

(** What [release] leaves alone. *)
Lemma release_frame pid d w :
  pending_map (release pid d w) = pending_map w /\ EVENTS (release pid d w) = EVENTS w /\
  DROP_COUNTERS (release pid d w) = DROP_COUNTERS w /\ clock (release pid d w) = clock w /\
  PREV_FAULTS (release pid d w) = PREV_FAULTS w /\ TARGET_PIDS (release pid d w) = TARGET_PIDS w.
Proof. release_cases. Qed.
End release.

(** ** The three ways a recorded wakeup is accounted *)

Section record_cases.
Context {K : Kernel}.

Lemma pending_delete_room w pid :
  Z.of_nat (size (WAKEUP_DATA w)) <= map_capacity M_WAKEUP_DATA ->
  insert_ok (S_WAKEUP_DATA pid) w = true ->
  Z.of_nat (size (delete pid (pending_map w))) < U32_MAX.
Proof.
  intros Hroom Hok. destruct (pending w pid) as [p|] eqn:Hp; unfold pending in Hp.
  - rewrite map_size_delete_Some by eauto.
    pose proof (map_capacity_u32 M_WAKEUP_DATA). pose proof (pending_map_size w).
    assert (size (pending_map w) <> 0)%nat; [|width].
    intros Hz%map_size_empty_inv. by rewrite Hz, lookup_empty in Hp.
  - rewrite delete_id by done. by eapply pending_fresh_room.
Qed.

Lemma sched_inv_record_new exact e pid d w :
  (exact = true -> runnable_has_room K) ->
  sched_inv exact w -> insert_ok (S_WAKEUP_DATA pid) w = true ->
  0 < pid -> 0 <= wd_target_cpu d -> pending w pid = None ->
  sched_inv exact (account_wakeup e pid (wd_target_cpu d) (record_world pid d w)).
Proof.
  intros HK Hinv Hok Hpid Hcpu Hp. pose proof (si_wakeup _ _ Hinv) as Hw.
  pose proof (si_depth _ _ Hinv) as Hdi.
  apply (sched_inv_account exact e pid d w); try done.
  - same_depth.
  - apply pending_delete_room; [ apply Hw | done ].
  - rewrite delete_id by done. apply Hw.
Qed.

Lemma sched_inv_record_moved exact e r pid d p w :
  (exact = true -> runnable_has_room K) ->
  sched_inv exact w -> insert_ok (S_WAKEUP_DATA pid) w = true ->
  0 < pid -> 0 <= wd_target_cpu d -> pending w pid = Some p ->
  sched_inv exact (account_wakeup e pid (wd_target_cpu d)
    (dec_pending (wd_target_cpu p) (drop_world e r (record_world pid d w)))).
Proof.
  intros HK Hinv Hok Hpid Hcpu Hp. pose proof (si_wakeup _ _ Hinv) as Hw.
  pose proof (si_depth _ _ Hinv) as Hdi.
  destruct (wi_data _ _ Hw _ _ (pending_data _ _ _ Hp)) as [_ Hpc].
  apply (sched_inv_account exact e pid d w); try done.
  1-3: unfold dec_pending; by case_match.
  - apply depth_inv_dec_pending. same_depth.
  - apply pending_delete_room; [ apply Hw | done ].
  - eapply pend_ok_ext; [ intros c _; symmetry; by apply pending_of_dec | ].
    apply (pend_ok_delete exact (pending_of w) (pending_map w) pid p); [ apply Hw | done ].
Qed.

Lemma sched_inv_record_same exact e pid d p w :
  sched_inv exact w -> insert_ok (S_WAKEUP_DATA pid) w = true ->
  0 < pid -> 0 <= wd_target_cpu d -> pending w pid = Some p ->
  wd_target_cpu p = wd_target_cpu d ->
  sched_inv exact (mark_runnable e pid (wd_target_cpu d) (record_world pid d w)).2.
Proof.
  intros [Hdi Hw Hr] Hok Hpid Hcpu Hp Heq.
  set (w1 := record_world pid d w). set (cpu := wd_target_cpu d) in *.
  assert (Hdi1 : depth_inv w1) by same_depth.
  assert (Hpm : pending_map w1 = <[pid := d]> (pending_map w)) by apply pending_map_record.
  split.
  - by apply depth_inv_mark.
  - eapply wakeup_inv_view; [ symmetry; apply mark_runnable_view | ].
    apply (wakeup_inv_record exact w _ pid d); try done.
    eapply pend_ok_replace; [ apply Hw | apply Hp | done ].
  - intros q c Hq. unfold pending.
    rewrite (pending_map_view _ w1) by apply mark_runnable_view.
    rewrite Hpm, lookup_insert. case_decide; [done|].
    apply mark_runnable_dom in Hq as [->|Hq]; [done|]. by eapply Hr.
Qed.

(** A runnable task moves to another CPU and keeps its pending wakeup. *)
Lemma sched_inv_move exact e pid old cpu w :
  sched_inv exact w -> RUNNABLE_TASK_CPU w !! pid = Some old -> 0 <= cpu ->
  sched_inv exact (mark_runnable e pid cpu w).2.
Proof.
  intros [Hdi Hw Hr] Hold Hcpu.
  split.
  - by apply depth_inv_mark.
  - eapply wakeup_inv_view; [ symmetry; apply mark_runnable_view | done ].
  - intros q c Hq. unfold pending. rewrite (pending_map_view _ w) by apply mark_runnable_view.
    apply mark_runnable_dom in Hq as [->|Hq]; by eapply Hr.
Qed.
End record_cases.
