(* ===== verification/Scheduler.v ===== *)
(** * Scheduler probes

    [stutter-ebpf/src/scheduler.rs]: [sched_wakeup], [sched_switch],
    [sched_migrate_task] and [sched_stat_wait].  A handler returns the [u32] the
    source returns; its effects are on the [World].  The theorems say what each
    handler does to the pending wakeups (the abstract state), which event it
    emits, and that every one keeps the accounting invariant. *)

From S2P Require Import Prelude Prog Abi Maps Typing WakeupData RunnableDepth Accounting.

Section scheduler.
Context {K : Kernel}.

Definition try_sched_wakeup (e : Env) (ctx : TracePointContext) : prog World Z :=
  let_else pid := read_i32 ctx SCHED_WAKEUP_PID_OFFSET or mret 1;
  let_else target_cpu := read_u32 ctx SCHED_WAKEUP_TARGET_CPU_OFFSET or mret 1;
  if pid <=? 0 then mret 0 else
  let pid := as_u32 pid in
  t ← is_target_pid pid;
  if negb t then mret 0 else
  now ← bpf_ktime_get_ns;
  let waker_tid := current_tid e in
  s ← next_wakeup_seq pid;
  let_else seq := s or
    (increment_drop_counter e DROP_WAKEUP_DATA_INSERT_FAILED ;; mret 0);
  let data := {| wd_ts := now; wd_target_cpu := target_cpu;
                 wd_waker_tid := waker_tid; wd_seq := seq |} in
  '(code, old) ← record_wakeup pid data WakeupData_default;
  if code =? WAKEUP_RECORD_INSERT_FAILED then
    increment_drop_counter e DROP_WAKEUP_DATA_INSERT_FAILED ;; mret 0
  else if code =? WAKEUP_RECORD_NEW_PENDING then
    target_cpu_tracked ← mark_task_runnable e pid target_cpu;
    (if (target_cpu_tracked : bool) then increment_target_pending e target_cpu
     else mret tt) ;;
    mret 0
  else if code =? WAKEUP_RECORD_REPLACED_PENDING_MOVED_CPU then
    increment_drop_counter e DROP_WAKEUP_DATA_REPLACED_ENTRY ;;
    decrement_target_pending (wd_target_cpu old) ;;
    target_cpu_tracked ← mark_task_runnable e pid target_cpu;
    (if (target_cpu_tracked : bool) then increment_target_pending e target_cpu
     else mret tt) ;;
    mret 0
  else if code =? WAKEUP_RECORD_REPLACED_PENDING_SAME_CPU then
    _ ← mark_task_runnable e pid target_cpu;
    increment_drop_counter e DROP_WAKEUP_DATA_REPLACED_ENTRY ;;
    mret 0
  else mret 0.

(** The part of [try_sched_switch] after a successful [consume_pending_wakeup]. *)
Definition switch_taken (e : Env) (ctx : TracePointContext) (pid : Z)
    (wakeup_data : WakeupData) : prog World Z :=
  t ← is_target_pid pid;
  if negb t then
    increment_drop_counter e DROP_WAKEUP_DATA_STALE_ENTRY ;;
    decrement_target_pending (wd_target_cpu wakeup_data) ;;
    remove_runnable_task_if_present pid ;;
    mret 0
  else
  let_else prev_pid_raw := read_i32 ctx SCHED_SWITCH_PREV_PID_OFFSET or
    (increment_drop_counter e DROP_WAKEUP_DATA_CONSUMED_READ_FAILED ;;
     decrement_target_pending (wd_target_cpu wakeup_data) ;;
     remove_runnable_task_if_present pid ;;
     mret 1);
  let_else prev_state := read_i64 ctx SCHED_SWITCH_PREV_STATE_OFFSET or
    (increment_drop_counter e DROP_WAKEUP_DATA_CONSUMED_READ_FAILED ;;
     decrement_target_pending (wd_target_cpu wakeup_data) ;;
     remove_runnable_task_if_present pid ;;
     mret 1);
  let switch_prev_pid := if 0 <? prev_pid_raw then as_u32 prev_pid_raw else 0 in
  let wakeup_ns := wd_ts wakeup_data in
  let waker_tid := wd_waker_tid wakeup_data in
  let target_cpu := wd_target_cpu wakeup_data in
  let cpu := smp_processor_id e in
  mark_task_running pid cpu ;;
  observed_runnable_depth ← read_cpu_runnable_depth cpu;
  decrement_target_pending target_cpu ;;
  target_pending_wakeups ←
    (if valid_cpu cpu
     then p ← map_get (array_get TARGET_PENDING_WAKEUPS cpu); mret (default 0 p)
     else mret 0);
  switch_ns ← bpf_ktime_get_ns;
  let latency_ns := saturating_sub switch_ns wakeup_ns in
  f ← map_get (fun w => PREV_FAULTS w !! pid);
  let faults := default {| fc_maj := 0; fc_min := 0 |} f in
  let_else prio := read_i32 ctx SCHED_SWITCH_NEXT_PRIO_OFFSET or
    (increment_drop_counter e DROP_WAKEUP_DATA_CONSUMED_READ_FAILED ;; mret 1);
  let_else comm := read_comm16 ctx SCHED_SWITCH_NEXT_COMM_OFFSET or
    (increment_drop_counter e DROP_WAKEUP_DATA_CONSUMED_READ_FAILED ;; mret 1);
  emit_ringbuf_event e (size_of SchedulerEvent_layout) 0
    (EvScheduler {|
       se_kind := EVENT_RUNNABLE_LATENCY; se_tid := pid; se_cpu := cpu;
       se_wakeup_target_cpu := target_cpu; se_prio := prio;
       se_waker_tid := waker_tid;
       se_target_pending_wakeups := target_pending_wakeups;
       se_observed_runnable_depth := observed_runnable_depth;
       se_maj_flt := fc_maj faults; se_min_flt := fc_min faults;
       se_wakeup_ns := wakeup_ns; se_switch_ns := switch_ns;
       se_latency_ns := latency_ns; se_comm := comm;
       se_switch_prev_pid := switch_prev_pid; se_pad0 := 0;
       se_switch_prev_state := prev_state |})
    (mret 0).

Definition try_sched_switch (e : Env) (ctx : TracePointContext) : prog World Z :=
  let_else next_pid := read_i32 ctx SCHED_SWITCH_NEXT_PID_OFFSET or mret 1;
  if next_pid <=? 0 then mret 0 else
  let pid := as_u32 next_pid in
  '(code, wakeup_data) ← consume_pending_wakeup pid WakeupData_default;
  if code =? WAKEUP_CONSUME_CURSOR_INSERT_FAILED then
    increment_drop_counter e DROP_WAKEUP_DATA_INSERT_FAILED ;;
    dropped ← drop_pending_wakeup_after_cursor_failure pid wakeup_data;
    (if (dropped : bool) then
       decrement_target_pending (wd_target_cpu wakeup_data) ;;
       remove_runnable_task_if_present pid
     else mret tt) ;;
    mret 0
  else if negb (code =? WAKEUP_CONSUME_OK) then mret 0 else
  switch_taken e ctx pid wakeup_data.

Definition try_sched_migrate_task (e : Env) (ctx : TracePointContext) : prog World Z :=
  let_else pid := read_i32 ctx SCHED_MIGRATE_TASK_PID_OFFSET or mret 1;
  if pid <=? 0 then mret 0 else
  let pid := as_u32 pid in
  t ← is_target_pid pid;
  if negb t then mret 0 else
  let_else orig_cpu := read_i32 ctx SCHED_MIGRATE_TASK_ORIG_CPU_OFFSET or mret 1;
  let_else dest_cpu := read_i32 ctx SCHED_MIGRATE_TASK_DEST_CPU_OFFSET or mret 1;
  now ← bpf_ktime_get_ns;
  let new_cpu := as_u32 dest_cpu in
  cur ← map_get (fun w => RUNNABLE_TASK_CPU w !! pid);
  (match cur with
   | Some old_cpu =>
       if negb (old_cpu =? new_cpu)
       then _ ← mark_task_runnable e pid new_cpu; mret tt
       else mret tt
   | None => mret tt
   end) ;;
  emit_ringbuf_event e (size_of MigrationEvent_layout) 0
    (EvMigration {|
       me_kind := EVENT_MIGRATION; me_tid := pid; me_from_cpu := as_u32 orig_cpu;
       me_to_cpu := as_u32 dest_cpu; me_timestamp_ns := now |})
    (mret 0).

Definition try_sched_stat_wait (e : Env) (ctx : TracePointContext) : prog World Z :=
  let_else pid := read_i32 ctx SCHED_STAT_WAIT_PID_OFFSET or mret 1;
  if pid <=? 0 then mret 0 else
  let pid := as_u32 pid in
  t ← is_target_pid pid;
  if negb t then mret 0 else
  let_else delay := read_u64 ctx SCHED_STAT_WAIT_DELAY_OFFSET or mret 1;
  emit_ringbuf_event e (size_of StatWaitEvent_layout) 0
    (EvStatWait {|
       sw_kind := EVENT_STAT_WAIT; sw_tid := pid; sw_delay_ns := delay |})
    (mret 0).
End scheduler.

(** ** [sched_switch], run alone *)

Section switch.
Context {K : Kernel}.

(** The latency event of [pid], whose wakeup [d] was taken in world [w]. *)
Definition latency_event (e : Env) (pid : Z) (d : WakeupData) (prev_pid prev_state prio : Z)
    (comm : list Z) (w : World) : SchedulerEvent :=
  let cpu := smp_processor_id e in
  let faults := default {| fc_maj := 0; fc_min := 0 |} (PREV_FAULTS w !! pid) in
  {| se_kind := EVENT_RUNNABLE_LATENCY; se_tid := pid; se_cpu := cpu;
     se_wakeup_target_cpu := wd_target_cpu d; se_prio := prio;
     se_waker_tid := wd_waker_tid d;
     se_target_pending_wakeups := if valid_cpu cpu then pending_of w cpu else 0;
     se_observed_runnable_depth := if valid_cpu cpu then depth_of w cpu else 0;
     se_maj_flt := fc_maj faults; se_min_flt := fc_min faults;
     se_wakeup_ns := wd_ts d; se_switch_ns := clock w;
     se_latency_ns := saturating_sub (clock w) (wd_ts d); se_comm := comm;
     se_switch_prev_pid := if 0 <? prev_pid then as_u32 prev_pid else 0; se_pad0 := 0;
     se_switch_prev_state := prev_state |}.

(** What the rest of the handler makes of a taken wakeup. *)
Definition switch_report (e : Env) (ctx : TracePointContext) (pid : Z) (d : WakeupData)
    (w : World) : Z * World :=
  if bool_decide (is_Some (TARGET_PIDS w !! pid)) then
    match read_i32 ctx SCHED_SWITCH_PREV_PID_OFFSET, read_i64 ctx SCHED_SWITCH_PREV_STATE_OFFSET,
          read_i32 ctx SCHED_SWITCH_NEXT_PRIO_OFFSET, read_comm16 ctx SCHED_SWITCH_NEXT_COMM_OFFSET with
    | Some prev_pid, Some prev_state, Some prio, Some comm =>
        if reserve_ok (size_of SchedulerEvent_layout) w
        then (0, submit_world
                   (EvScheduler (latency_event e pid d prev_pid prev_state prio comm w)) w)
        else (0, drop_world e DROP_RINGBUF_RESERVE_FAILED w)
    | _, _, _, _ => (1, drop_world e DROP_WAKEUP_DATA_CONSUMED_READ_FAILED w)
    end
  else (0, drop_world e DROP_WAKEUP_DATA_STALE_ENTRY w).

Definition switch_world (e : Env) (ctx : TracePointContext) (w : World) : Z * World :=
  match read_i32 ctx SCHED_SWITCH_NEXT_PID_OFFSET with
  | None => (1, w)
  | Some next_pid =>
      if next_pid <=? 0 then (0, w) else
      match pending w next_pid with
      | None => (0, w)
      | Some d =>
          if insert_ok (S_WAKEUP_CONSUMED next_pid) w
          then switch_report e ctx next_pid d
                 (release next_pid d (upd_WAKEUP_CONSUMED (<[next_pid := d]>) w))
          else (0, drop_world e DROP_WAKEUP_DATA_INSERT_FAILED
                     (release next_pid d (remove_world next_pid w)))
      end
  end.

Lemma release_valid_depth pid d w cpu :
  depth_of (remove_runnable pid w) cpu = depth_of (release pid d w) cpu.
Proof. rewrite <- release_comm. unfold dec_pending. by case_match. Qed.

Lemma run_read_pending w cpu : 0 <= cpu ->
  run (if valid_cpu cpu
       then p ← map_get (array_get TARGET_PENDING_WAKEUPS cpu); mret (default 0 p)
       else mret 0) w = (if valid_cpu cpu then pending_of w cpu else 0, w).
Proof.
  intros H. destruct (valid_cpu cpu) eqn:Hv; [|done]. run_simpl.
  apply valid_cpu_tracked in Hv; [|done]. by rewrite array_get_tracked.
Qed.

(** The counters are released in the same way on every path. *)
Lemma run_release_k {A} pid d (k : prog World A) w :
  depth_inv w -> 0 < pid -> 0 <= wd_target_cpu d ->
  run (decrement_target_pending (wd_target_cpu d) ;; remove_runnable_task_if_present pid ;; k) w =
    run k (release pid d w).
Proof.
  intros Hdi Hpid Hd. rewrite run_bind, run_decrement_pending by done. cbn [fst snd].
  rewrite run_bind, run_remove_runnable_task_if_present
    by (done || by apply depth_inv_dec_pending).
  done.
Qed.

Lemma run_switch_taken e ctx pid d w :
  depth_inv w -> 0 < pid -> 0 <= wd_target_cpu d -> in_u32 (smp_processor_id e) ->
  run (switch_taken e ctx pid d) w = switch_report e ctx pid d (release pid d w).
Proof.
  intros Hdi Hpid Hd [Hc _]. unfold switch_taken, switch_report.
  destruct (release_frame pid d w) as (_ & _ & _ & Hck & Hf & Ht). rewrite Ht. run_simpl.
  destruct (bool_decide _); cbn [negb].
  2: { rewrite run_bind, run_increment_drop_counter. cbn [fst snd].
       rewrite run_release_k by (same_depth || done). by rewrite release_drop. }
  destruct (read_i32 ctx SCHED_SWITCH_PREV_PID_OFFSET) as [pp|].
  2: { rewrite run_bind, run_increment_drop_counter. cbn [fst snd].
       rewrite run_release_k by (same_depth || done). by rewrite release_drop. }
  destruct (read_i64 ctx SCHED_SWITCH_PREV_STATE_OFFSET) as [ps|].
  2: { rewrite run_bind, run_increment_drop_counter. cbn [fst snd].
       rewrite run_release_k by (same_depth || done). by rewrite release_drop. }
  cbv zeta. rewrite run_bind, run_mark_task_running by done. cbn [fst snd].
  rewrite run_bind, run_read_cpu_runnable_depth by done. cbn [fst snd].
  rewrite run_bind, run_decrement_pending by done. cbn [fst snd].
  rewrite release_comm, (release_valid_depth pid d w).
  rewrite run_bind, (run_read_pending _ (smp_processor_id e)) by done. cbn [fst snd].
  unfold bpf_ktime_get_ns. run_simpl.
  destruct (read_i32 ctx SCHED_SWITCH_NEXT_PRIO_OFFSET) as [prio|]; [|by run_simpl].
  destruct (read_comm16 ctx SCHED_SWITCH_NEXT_COMM_OFFSET) as [comm|]; [|by run_simpl].
  by run_simpl.
Qed.

Lemma run_try_sched_switch exact e ctx w :
  sched_inv exact w -> env_ok e -> run (try_sched_switch e ctx) w = switch_world e ctx w.
Proof.
  intros [Hdi Hwi _] (Hcpu & _ & _). unfold try_sched_switch, switch_world.
  destruct (read_i32 ctx SCHED_SWITCH_NEXT_PID_OFFSET) as [next|] eqn:Hn; [|done].
  destruct (Z.leb_spec next 0) as [|Hpos]; [done|].
  rewrite (as_u32_pos next) by eauto with machine. run_simpl.
  destruct (pending w next) as [d|] eqn:Hp; [|done].
  destruct (wi_data _ _ Hwi _ _ (pending_data _ _ _ Hp)) as [_ Hd].
  destruct (insert_ok _ w); cbn [fst snd].
  - apply run_switch_taken; [ same_depth | done.. ].
  - change (_ =? WAKEUP_CONSUME_CURSOR_INSERT_FAILED) with true. cbv iota.
    rewrite run_bind, run_increment_drop_counter. cbn [fst snd].
    rewrite run_bind, run_drop_pending_wakeup by done. cbn [fst snd].
    rewrite run_bind, run_release by (same_depth || done). by rewrite <- release_drop.
Qed.
End switch.

(** Decides a comparison of two result codes. *)
Ltac codes :=
  unfold WAKEUP_RECORD_INSERT_FAILED, WAKEUP_RECORD_NEW_PENDING,
    WAKEUP_RECORD_REPLACED_PENDING_SAME_CPU, WAKEUP_RECORD_REPLACED_PENDING_MOVED_CPU;
  cbn [Z.eqb Pos.eqb].

(** ** [sched_wakeup], run alone *)

Section wakeup.
Context {K : Kernel}.

(** The world once wakeup [d] of [pid] is installed over [old]. *)
Definition wakeup_recorded (e : Env) (pid : Z) (d : WakeupData) (old : option WakeupData)
    (w : World) : World :=
  let cpu := wd_target_cpu d in
  let w1 := record_world pid d w in
  match old with
  | None => account_wakeup e pid cpu w1
  | Some p =>
      if wd_target_cpu p =? cpu
      then drop_world e DROP_WAKEUP_DATA_REPLACED_ENTRY (mark_runnable e pid cpu w1).2
      else account_wakeup e pid cpu
             (dec_pending (wd_target_cpu p) (drop_world e DROP_WAKEUP_DATA_REPLACED_ENTRY w1))
  end.

Definition next_seq (w : World) (pid : Z) : Z :=
  match WAKEUP_SEQ w !! pid with Some seq => wrapping_add_u32 seq 1 | None => 1 end.

(** The wakeup record [sched_wakeup] makes in world [w]. *)
Definition new_wakeup (e : Env) (pid cpu : Z) (w : World) : WakeupData :=
  {| wd_ts := clock w; wd_target_cpu := cpu; wd_waker_tid := current_tid e;
     wd_seq := next_seq w pid |}.

Definition wakeup_target (e : Env) (pid cpu : Z) (w : World) : World :=
  let w1 := upd_WAKEUP_SEQ (<[pid := next_seq w pid]>) w in
  if insert_ok (S_WAKEUP_SEQ pid) w then
    if insert_ok (S_WAKEUP_DATA pid) w1
    then wakeup_recorded e pid (new_wakeup e pid cpu w) (pending w pid) w1
    else drop_world e DROP_WAKEUP_DATA_INSERT_FAILED w1
  else drop_world e DROP_WAKEUP_DATA_INSERT_FAILED w.

Definition wakeup_world (e : Env) (ctx : TracePointContext) (w : World) : Z * World :=
  match read_i32 ctx SCHED_WAKEUP_PID_OFFSET, read_u32 ctx SCHED_WAKEUP_TARGET_CPU_OFFSET with
  | Some pid, Some cpu =>
      (0, if (0 <? pid) && bool_decide (is_Some (TARGET_PIDS w !! pid))
          then wakeup_target e pid cpu w else w)
  | _, _ => (1, w)
  end.

Lemma run_account_wakeup e pid cpu w :
  depth_inv w -> 0 < pid -> 0 <= cpu ->
  run (target_cpu_tracked ← mark_task_runnable e pid cpu;
       (if (target_cpu_tracked : bool) then increment_target_pending e cpu else mret tt) ;;
       mret 0) w = (0, account_wakeup e pid cpu w).
Proof.
  intros Hdi Hpid Hcpu. rewrite run_bind, run_mark_task_runnable by done.
  unfold account_wakeup. rewrite run_bind.
  destruct (mark_runnable e pid cpu w).1 eqn:Hb; [|done].
  rewrite run_increment_target_pending; [done|]. by eapply mark_runnable_tracked.
Qed.

Lemma run_try_sched_wakeup exact e ctx w :
  sched_inv exact w -> run (try_sched_wakeup e ctx) w = wakeup_world e ctx w.
Proof.
  intros [Hdi Hwi _]. unfold try_sched_wakeup, wakeup_world.
  destruct (read_i32 ctx SCHED_WAKEUP_PID_OFFSET) as [pid|] eqn:Hp; [|done].
  destruct (read_u32 ctx SCHED_WAKEUP_TARGET_CPU_OFFSET) as [cpu|] eqn:Hc; [|done].
  rewrite Z.leb_antisym. destruct (Z.ltb_spec 0 pid) as [Hpos|]; cbn [negb andb]; [|done].
  rewrite (as_u32_pos pid) by eauto with machine.
  rewrite run_bind, run_is_target_pid. cbn [fst snd].
  destruct (bool_decide _); cbn [negb]; [|done].
  assert (Hcpu : 0 <= cpu) by (apply read_u32_range in Hc; width).
  rewrite run_bind. unfold bpf_ktime_get_ns. rewrite run_map_get. cbn [fst snd]. cbv zeta.
  rewrite run_bind, run_next_wakeup_seq. unfold wakeup_target, next_seq. cbv zeta.
  destruct (insert_ok (S_WAKEUP_SEQ pid) w); cbn [fst snd]; [|by run_simpl].
  set (w1 := upd_WAKEUP_SEQ _ w). set (d := Build_WakeupData _ _ _ _).
  change (new_wakeup e pid cpu w) with d.
  rewrite run_bind, run_record_wakeup.
  destruct (insert_ok (S_WAKEUP_DATA pid) w1); cbn [fst snd]; [|by run_simpl].
  change (pending w1 pid) with (pending w pid).
  destruct (pending w pid) as [p|] eqn:Hpend; cbn [record_code wakeup_recorded].
  - assert (HD : WAKEUP_DATA w1 !! pid = Some p) by exact (pending_data _ _ _ Hpend).
    destruct (wi_data _ _ Hwi pid p HD) as [_ Hpc].
    rewrite HD. cbn [default]. change (wd_target_cpu d) with cpu.
    destruct (wd_target_cpu p =? cpu); codes.
    + rewrite run_bind, run_mark_task_runnable by (same_depth || done). by run_simpl.
    + rewrite run_bind, run_increment_drop_counter. cbn [fst snd].
      rewrite run_bind, run_decrement_pending by done. cbn [fst snd].
      apply run_account_wakeup; [|done..]. apply depth_inv_dec_pending. same_depth.
  - codes. apply run_account_wakeup; [ same_depth | done.. ].
Qed.
End wakeup.

(** ** [sched_migrate_task] and [sched_stat_wait], run alone *)

Section migrate.
Context {K : Kernel}.

Definition emit_world (e : Env) (n : nat) (ev : RingEvent) (w : World) : World :=
  if reserve_ok n w then submit_world ev w
  else drop_world e DROP_RINGBUF_RESERVE_FAILED w.

Definition migrate_world (e : Env) (ctx : TracePointContext) (w : World) : Z * World :=
  match read_i32 ctx SCHED_MIGRATE_TASK_PID_OFFSET with
  | None => (1, w)
  | Some pid =>
      if (pid <=? 0) || negb (bool_decide (is_Some (TARGET_PIDS w !! pid))) then (0, w) else
      match read_i32 ctx SCHED_MIGRATE_TASK_ORIG_CPU_OFFSET,
            read_i32 ctx SCHED_MIGRATE_TASK_DEST_CPU_OFFSET with
      | Some orig, Some dest =>
          let w1 := match RUNNABLE_TASK_CPU w !! pid with
                    | Some old => if old =? as_u32 dest then w
                                  else (mark_runnable e pid (as_u32 dest) w).2
                    | None => w
                    end in
          (0, emit_world e (size_of MigrationEvent_layout)
                (EvMigration {| me_kind := EVENT_MIGRATION; me_tid := pid;
                   me_from_cpu := as_u32 orig; me_to_cpu := as_u32 dest;
                   me_timestamp_ns := clock w |}) w1)
      | _, _ => (1, w)
      end
  end.

Lemma run_emit e n ev w :
  run (emit_ringbuf_event e n 0 ev (mret 0)) w = (0, emit_world e n ev w).
Proof. rewrite run_emit_ringbuf_event. unfold emit_world. by case_match. Qed.

Lemma run_try_sched_migrate_task exact e ctx w :
  sched_inv exact w -> run (try_sched_migrate_task e ctx) w = migrate_world e ctx w.
Proof.
  intros [Hdi _ _]. unfold try_sched_migrate_task, migrate_world.
  destruct (read_i32 ctx SCHED_MIGRATE_TASK_PID_OFFSET) as [pid|] eqn:Hp; [|done].
  destruct (Z.leb_spec pid 0) as [|Hpos]; cbn [orb]; [done|].
  rewrite (as_u32_pos pid) by eauto with machine.
  rewrite run_bind, run_is_target_pid. cbn [fst snd].
  destruct (bool_decide _); cbn [negb]; [|done].
  destruct (read_i32 ctx SCHED_MIGRATE_TASK_ORIG_CPU_OFFSET) as [orig|]; [|done].
  destruct (read_i32 ctx SCHED_MIGRATE_TASK_DEST_CPU_OFFSET) as [dest|]; [|done].
  rewrite run_bind. unfold bpf_ktime_get_ns. rewrite run_map_get. cbn [fst snd]. cbv zeta.
  rewrite run_bind, run_map_get. cbn [fst snd]. rewrite run_bind.
  assert (0 <= as_u32 dest) by apply as_u32_range.
  destruct (RUNNABLE_TASK_CPU w !! pid) as [old|]; [ destruct (old =? _); cbn [negb] | ].
  2: rewrite run_bind, run_mark_task_runnable by done.
  all: rewrite run_ret; apply run_emit.
Qed.

Definition stat_wait_world (e : Env) (ctx : TracePointContext) (w : World) : Z * World :=
  match read_i32 ctx SCHED_STAT_WAIT_PID_OFFSET with
  | None => (1, w)
  | Some pid =>
      if (pid <=? 0) || negb (bool_decide (is_Some (TARGET_PIDS w !! pid))) then (0, w) else
      match read_u64 ctx SCHED_STAT_WAIT_DELAY_OFFSET with
      | Some delay =>
          (0, emit_world e (size_of StatWaitEvent_layout)
                (EvStatWait {| sw_kind := EVENT_STAT_WAIT; sw_tid := pid;
                   sw_delay_ns := delay |}) w)
      | None => (1, w)
      end
  end.

Lemma run_try_sched_stat_wait e ctx w :
  run (try_sched_stat_wait e ctx) w = stat_wait_world e ctx w.
Proof.
  unfold try_sched_stat_wait, stat_wait_world.
  destruct (read_i32 ctx SCHED_STAT_WAIT_PID_OFFSET) as [pid|] eqn:Hp; [|done].
  destruct (Z.leb_spec pid 0) as [|Hpos]; cbn [orb]; [done|].
  rewrite (as_u32_pos pid) by eauto with machine.
  rewrite run_bind, run_is_target_pid. cbn [fst snd].
  destruct (bool_decide _); cbn [negb]; [|done].
  destruct (read_u64 ctx SCHED_STAT_WAIT_DELAY_OFFSET); [|done]. apply run_emit.
Qed.
End migrate.

(** ** The accounting invariant *)

(** A world that agrees with a known one on what [sched_inv] reads. *)
Ltac same_sched := eapply sched_inv_view; [ | eassumption ]; reflexivity.

Section invariant.
Context {K : Kernel} (exact : bool) (HK : exact = true -> runnable_has_room K).

Lemma sched_inv_drop e r w : sched_inv exact w -> sched_inv exact (drop_world e r w).
Proof using Type. intros H. same_sched. Qed.

Lemma sched_inv_emit e n ev w : sched_inv exact w -> sched_inv exact (emit_world e n ev w).
Proof using Type. intros H. unfold emit_world. case_match; same_sched. Qed.
#[local] Hint Resolve sched_inv_drop sched_inv_emit : stutter.

Lemma sched_wakeup_inv e ctx : preserves (sched_inv exact) (try_sched_wakeup e ctx).
Proof using HK.
  intros w Hinv. rewrite (run_try_sched_wakeup exact) by done. unfold wakeup_world.
  destruct (read_i32 _ _) as [pid|]; [|done].
  destruct (read_u32 _ _) as [cpu|] eqn:Hc; [|done].
  assert (Hcpu : 0 <= cpu) by (apply read_u32_range in Hc; width).
  cbn [snd]. destruct (Z.ltb_spec 0 pid); cbn [andb]; [|done].
  destruct (bool_decide _); [|done]. unfold wakeup_target.
  destruct (insert_ok (S_WAKEUP_SEQ pid) w); [|auto with stutter].
  set (w1 := upd_WAKEUP_SEQ _ w).
  assert (Hinv1 : sched_inv exact w1) by same_sched.
  destruct (insert_ok (S_WAKEUP_DATA pid) w1) eqn:Hok; [|auto with stutter].
  set (d := new_wakeup e pid cpu w). unfold wakeup_recorded.
  change (pending w pid) with (pending w1 pid).
  destruct (pending w1 pid) as [p|] eqn:Hp; [|by apply sched_inv_record_new].
  destruct (Z.eqb_spec (wd_target_cpu p) (wd_target_cpu d)).
  - apply sched_inv_drop. by eapply sched_inv_record_same.
  - by apply sched_inv_record_moved.
Qed.

Lemma sched_inv_switch_report e ctx pid d w :
  sched_inv exact w -> sched_inv exact (switch_report e ctx pid d w).2.
Proof using Type.
  intros H. unfold switch_report.
  repeat match goal with
  | |- context [ match ?x with _ => _ end ] => destruct x
  end; (auto with stutter || same_sched).
Qed.

Lemma sched_switch_inv e ctx : env_ok e -> preserves (sched_inv exact) (try_sched_switch e ctx).
Proof using Type.
  intros He w Hinv. rewrite (run_try_sched_switch exact) by done. unfold switch_world.
  destruct (read_i32 _ _) as [pid|]; [|done]. destruct (pid <=? 0); [done|].
  destruct (pending w pid) as [d|] eqn:Hp; [|done].
  destruct (insert_ok (S_WAKEUP_CONSUMED pid) w).
  - apply sched_inv_switch_report, (sched_inv_release exact w); try done. by left.
  - apply sched_inv_drop, (sched_inv_release exact w); try done. by right.
Qed.

Lemma sched_migrate_inv e ctx : preserves (sched_inv exact) (try_sched_migrate_task e ctx).
Proof using Type.
  intros w Hinv. rewrite (run_try_sched_migrate_task exact) by done. unfold migrate_world.
  destruct (read_i32 _ _) as [pid|]; [|done]. destruct (_ || _); [done|].
  destruct (read_i32 _ _); [|done]. destruct (read_i32 _ _) as [dest|]; [|done].
  apply sched_inv_emit. destruct (RUNNABLE_TASK_CPU w !! pid) as [old|] eqn:Hr; [|done].
  destruct (_ =? _); [done|]. eapply sched_inv_move; [done..|]. apply as_u32_range.
Qed.

Lemma sched_stat_wait_inv e ctx : preserves (sched_inv exact) (try_sched_stat_wait e ctx).
Proof using Type.
  intros w Hinv. rewrite run_try_sched_stat_wait. unfold stat_wait_world.
  destruct (read_i32 _ _); [|done]. destruct (_ || _); [done|].
  destruct (read_u64 _ _); [|done]. by apply sched_inv_emit.
Qed.
End invariant.

(** ** Typing *)

Section typing.
Context {K : Kernel}.

Lemma typed_sched_wakeup e ctx : typed_w (fun _ => True) (try_sched_wakeup e ctx).
Proof. unfold try_sched_wakeup. typecheck. Qed.

Lemma typed_sched_switch e ctx : env_ok e -> typed_w (fun _ => True) (try_sched_switch e ctx).
Proof.
  intros (Hc & _ & _). unfold try_sched_switch, switch_taken. typecheck; typed_event.
Qed.

Lemma typed_sched_migrate_task e ctx : typed_w (fun _ => True) (try_sched_migrate_task e ctx).
Proof. unfold try_sched_migrate_task. typecheck; typed_event. Qed.

Lemma typed_sched_stat_wait e ctx : typed_w (fun _ => True) (try_sched_stat_wait e ctx).
Proof. unfold try_sched_stat_wait. typecheck; typed_event. Qed.
End typing.

(** ** What the scheduler probes promise *)

Section promises.
Context {K : Kernel} (exact : bool).

Lemma account_wakeup_frame e pid cpu w :
  pending_map (account_wakeup e pid cpu w) = pending_map w /\
  EVENTS (account_wakeup e pid cpu w) = EVENTS w /\
  forall c r, r <> DROP_CPU_ACCOUNTING_UNTRACKED ->
    drop_counter (account_wakeup e pid cpu w) c r = drop_counter w c r.
Proof using Type.
  destruct (account_wakeup_maps e pid cpu w) as [HD HC]. split; [|split].
  - unfold pending_map. by rewrite HD, HC.
  - unfold account_wakeup, mark_runnable. by repeat case_match.
  - intros c r Hr. unfold account_wakeup, mark_runnable.
    repeat (case_match; simpl); try done; by apply drop_counter_drop_ne.
Qed.

Lemma mark_runnable_frame e pid cpu w :
  pending_map (mark_runnable e pid cpu w).2 = pending_map w /\
  EVENTS (mark_runnable e pid cpu w).2 = EVENTS w /\
  forall c r, r <> DROP_CPU_ACCOUNTING_UNTRACKED ->
    drop_counter (mark_runnable e pid cpu w).2 c r = drop_counter w c r.
Proof using Type.
  split; [|split].
  - apply pending_map_view, mark_runnable_view.
  - unfold mark_runnable. by repeat case_match.
  - intros c r Hr. unfold mark_runnable.
    repeat (case_match; simpl); try done; by apply drop_counter_drop_ne.
Qed.

Lemma wakeup_recorded_frame e pid d w :
  let w' := wakeup_recorded e pid d (pending w pid) w in
  pending_map w' = <[pid := d]> (pending_map w) /\ EVENTS w' = EVENTS w /\
  drop_counter w' (smp_processor_id e) DROP_WAKEUP_DATA_REPLACED_ENTRY =
    match pending w pid with
    | Some _ => saturating_add_u64
        (drop_counter w (smp_processor_id e) DROP_WAKEUP_DATA_REPLACED_ENTRY) 1
    | None => drop_counter w (smp_processor_id e) DROP_WAKEUP_DATA_REPLACED_ENTRY
    end.
Proof using Type.
  unfold wakeup_recorded. rewrite <- pending_map_record.
  change (upd_WAKEUP_CONSUMED _ _) with (record_world pid d w).
  destruct (pending w pid) as [p|].
  - destruct (_ =? _).
    + destruct (mark_runnable_frame e pid (wd_target_cpu d) (record_world pid d w))
        as (H1 & H2 & H3).
      split; [ exact H1 | split; [ exact H2 | ] ].
      rewrite drop_counter_drop by done. by rewrite H3.
    + set (w1 := dec_pending _ _).
      destruct (account_wakeup_frame e pid (wd_target_cpu d) w1) as (H1 & H2 & H3).
      rewrite H1, H2, H3 by done. unfold w1, dec_pending.
      case_match; (split; [ done | split; [ done | ] ]);
        by apply (drop_counter_drop e DROP_WAKEUP_DATA_REPLACED_ENTRY (record_world pid d w)).
  - destruct (account_wakeup_frame e pid (wd_target_cpu d) (record_world pid d w))
      as (H1 & H2 & H3).
    by rewrite H1, H2, H3.
Qed.

Context (e : Env) (ctx : TracePointContext) (w : World).
Context (Hinv : sched_inv exact w).

Section sched_wakeup_promise.
Context (pid cpu : Z).
Context (Hpid : read_i32 ctx SCHED_WAKEUP_PID_OFFSET = Some pid).
Context (Hcpu : read_u32 ctx SCHED_WAKEUP_TARGET_CPU_OFFSET = Some cpu).
Context (Hpos : 0 < pid) (Htarget : is_Some (TARGET_PIDS w !! pid)).

Lemma exec_sched_wakeup : exec (try_sched_wakeup e ctx) w = wakeup_target e pid cpu w.
Proof using All.
  unfold exec. rewrite (run_try_sched_wakeup exact) by done. unfold wakeup_world.
  rewrite Hpid, Hcpu. cbn [snd]. apply Z.ltb_lt in Hpos as ->.
  by rewrite bool_decide_true.
Qed.

(** When the kernel takes the record, a wakeup of a monitored task becomes the
    task's pending wakeup, stamped with the clock and the waker; no other task's pending
    wakeup changes, nothing is emitted, and a wakeup it replaces is counted. *)
Theorem sched_wakeup_records :
  insert_ok (S_WAKEUP_SEQ pid) w = true ->
  insert_ok (S_WAKEUP_DATA pid) (upd_WAKEUP_SEQ (<[pid := next_seq w pid]>) w) = true ->
  let w' := exec (try_sched_wakeup e ctx) w in
  pending_map w' = <[pid := new_wakeup e pid cpu w]> (pending_map w) /\
  EVENTS w' = EVENTS w /\
  drop_counter w' (smp_processor_id e) DROP_WAKEUP_DATA_REPLACED_ENTRY =
    match pending w pid with
    | Some _ => saturating_add_u64
        (drop_counter w (smp_processor_id e) DROP_WAKEUP_DATA_REPLACED_ENTRY) 1
    | None => drop_counter w (smp_processor_id e) DROP_WAKEUP_DATA_REPLACED_ENTRY
    end.
Proof using All.
  intros Hs Hd. rewrite exec_sched_wakeup. unfold wakeup_target. rewrite Hs, Hd.
  apply (wakeup_recorded_frame e pid (new_wakeup e pid cpu w)
           (upd_WAKEUP_SEQ (<[pid := next_seq w pid]>) w)).
Qed.

(** When the kernel refuses a record, the pending wakeups stay as they were,
    nothing is emitted and the refusal is counted once. *)
Theorem sched_wakeup_refusal_counted :
  insert_ok (S_WAKEUP_SEQ pid) w = false \/
  insert_ok (S_WAKEUP_DATA pid) (upd_WAKEUP_SEQ (<[pid := next_seq w pid]>) w) = false ->
  let w' := exec (try_sched_wakeup e ctx) w in
  pending_map w' = pending_map w /\ EVENTS w' = EVENTS w /\
  DROP_COUNTERS w' = DROP_COUNTERS (drop_world e DROP_WAKEUP_DATA_INSERT_FAILED w).
Proof using All.
  intros H. rewrite exec_sched_wakeup. unfold wakeup_target.
  destruct (insert_ok (S_WAKEUP_SEQ pid) w); [|done].
  destruct H as [H|H]; [done|]. by rewrite H.
Qed.
End sched_wakeup_promise.

Section sched_switch_promise.
Context (pid : Z) (d : WakeupData).
Context (He : env_ok e).
Context (Hpid : read_i32 ctx SCHED_SWITCH_NEXT_PID_OFFSET = Some pid).
Context (Hpos : 0 < pid) (Hpend : pending w pid = Some d).

(** The reasons a taken wakeup may be counted as lost. *)
Definition switch_loss_reasons : list Z :=
  [ DROP_WAKEUP_DATA_INSERT_FAILED; DROP_WAKEUP_DATA_STALE_ENTRY;
    DROP_WAKEUP_DATA_CONSUMED_READ_FAILED; DROP_RINGBUF_RESERVE_FAILED ].

Definition reports (w w' : World) (ev : SchedulerEvent) : Prop :=
  EVENTS w' = EVENTS w ++ [EvScheduler ev] /\ DROP_COUNTERS w' = DROP_COUNTERS w.
Definition counts_loss (w w' : World) (r : Z) : Prop :=
  EVENTS w' = EVENTS w /\ DROP_COUNTERS w' = DROP_COUNTERS (drop_world e r w).

(** The event of wakeup [d]: its latency is the time from the wakeup to the
    switch, zero when the clock is behind the wakeup. *)
Definition is_latency_of (w : World) (pid : Z) (d : WakeupData) (ev : SchedulerEvent) : Prop :=
  se_tid ev = pid /\ se_cpu ev = smp_processor_id e /\
  se_wakeup_target_cpu ev = wd_target_cpu d /\ se_waker_tid ev = wd_waker_tid d /\
  se_wakeup_ns ev = wd_ts d /\ se_switch_ns ev = clock w /\
  se_latency_ns ev = saturating_sub (clock w) (wd_ts d).

Lemma exec_sched_switch : exec (try_sched_switch e ctx) w = (switch_world e ctx w).2.
Proof using He Hinv. unfold exec. by rewrite (run_try_sched_switch exact). Qed.

Lemma switch_report_outcome w1 :
  let w' := (switch_report e ctx pid d w1).2 in
  pending_map w' = pending_map w1 /\
  ((exists ev, is_latency_of w1 pid d ev /\ reports w1 w' ev) \/
   (exists r, r ∈ switch_loss_reasons /\ counts_loss w1 w' r)).
Proof using Type.
  clear Hinv He Hpid Hpos Hpend. unfold switch_report.
  destruct (bool_decide _).
  2: { split; [done|]. right. exists DROP_WAKEUP_DATA_STALE_ENTRY. split; [set_solver|done]. }
  assert (Hrf : forall w', w' = drop_world e DROP_WAKEUP_DATA_CONSUMED_READ_FAILED w1 ->
    exists r, r ∈ switch_loss_reasons /\ counts_loss w1 w' r).
  { intros w' ->. exists DROP_WAKEUP_DATA_CONSUMED_READ_FAILED. split; [set_solver|done]. }
  repeat match goal with
  | |- context [ match read_i32 ?c ?o with _ => _ end ] => destruct (read_i32 c o)
  | |- context [ match read_i64 ?c ?o with _ => _ end ] => destruct (read_i64 c o)
  | |- context [ match read_comm16 ?c ?o with _ => _ end ] => destruct (read_comm16 c o)
  end; try (split; [done|]; right; by apply Hrf).
  destruct (reserve_ok _ w1); (split; [done|]).
  - left. eexists. split; [ | by split ]. done.
  - right. exists DROP_RINGBUF_RESERVE_FAILED. split; [set_solver|done].
Qed.

Lemma switch_world_outcome :
  let w' := (switch_world e ctx w).2 in
  pending_map w' = delete pid (pending_map w) /\
  ((exists ev, is_latency_of w pid d ev /\ reports w w' ev) \/
   (exists r, r ∈ switch_loss_reasons /\ counts_loss w w' r)).
Proof using Hpid Hpos Hpend.
  clear Hinv He. unfold switch_world. rewrite Hpid.
  destruct (Z.leb_spec pid 0); [lia|]. rewrite Hpend.
  destruct (insert_ok (S_WAKEUP_CONSUMED pid) w).
  - set (w1 := release pid d _).
    destruct (release_frame pid d (upd_WAKEUP_CONSUMED (<[pid := d]>) w))
      as (Hpm & Hev & Hdr & Hck & _). fold w1 in Hpm, Hev, Hdr, Hck.
    pose proof (switch_report_outcome w1) as [Hpm' Hout].
    rewrite pending_map_consume in Hpm by by apply pending_data.
    split; [ by rewrite Hpm', Hpm | ].
    unfold reports, counts_loss, is_latency_of, drop_world, drop_counter in *. simpl in *.
    by rewrite Hev, Hdr, Hck in Hout.
  - destruct (release_frame pid d (remove_world pid w)) as (Hpm & Hev & Hdr & _).
    split; [ exact (eq_trans Hpm (pending_map_remove w pid)) | ]. right.
    exists DROP_WAKEUP_DATA_INSERT_FAILED. split; [set_solver|].
    unfold counts_loss, drop_world, drop_counter. simpl. by rewrite Hev, Hdr.
Qed.

(** A switch to a task takes its pending wakeup out, leaves every other task's
    alone, and turns it into exactly one latency event or exactly one counted loss: no
    wakeup is reported twice or lost silently. *)
Theorem sched_switch_accounts_wakeup :
  let w' := exec (try_sched_switch e ctx) w in
  pending_map w' = delete pid (pending_map w) /\
  ((exists ev, is_latency_of w pid d ev /\ reports w w' ev) \/
   (exists r, r ∈ switch_loss_reasons /\ counts_loss w w' r)).
Proof using All. rewrite exec_sched_switch. exact switch_world_outcome. Qed.

(** When the task is monitored and the kernel gives what the handler asks for, the
    latency event is emitted; its depth is the number of monitored tasks still runnable
    on the CPU and its pending count the number of wakeups still pending there (exactly
    so when [exact] holds of the state, an upper bound otherwise). *)
Theorem sched_switch_reports_latency prev_pid prev_state prio comm :
  is_Some (TARGET_PIDS w !! pid) ->
  insert_ok (S_WAKEUP_CONSUMED pid) w = true ->
  reserve_ok (size_of SchedulerEvent_layout)
    (release pid d (upd_WAKEUP_CONSUMED (<[pid := d]>) w)) = true ->
  read_i32 ctx SCHED_SWITCH_PREV_PID_OFFSET = Some prev_pid ->
  read_i64 ctx SCHED_SWITCH_PREV_STATE_OFFSET = Some prev_state ->
  read_i32 ctx SCHED_SWITCH_NEXT_PRIO_OFFSET = Some prio ->
  read_comm16 ctx SCHED_SWITCH_NEXT_COMM_OFFSET = Some comm ->
  let w' := exec (try_sched_switch e ctx) w in
  exists ev, is_latency_of w pid d ev /\ reports w w' ev /\
    se_prio ev = prio /\ se_comm ev = comm /\ se_switch_prev_state ev = prev_state /\
    (tracked (smp_processor_id e) ->
     se_observed_runnable_depth ev = runnable_count w' (smp_processor_id e) /\
     pend_rel exact (se_target_pending_wakeups ev) (pending_count w' (smp_processor_id e))).
Proof using All.
  intros Ht Hi Hr H1 H2 H3 H4. pose proof (sched_switch_inv exact e ctx He w Hinv) as Hinv'.
  fold (exec (try_sched_switch e ctx) w) in Hinv'. rewrite exec_sched_switch in *.
  revert Hinv'. unfold switch_world, switch_report. rewrite Hpid.
  destruct (Z.leb_spec pid 0); [lia|]. rewrite Hpend, Hi, H1, H2, H3, H4.
  destruct (release_frame pid d (upd_WAKEUP_CONSUMED (<[pid := d]>) w))
    as (_ & Hev & Hdr & Hck & _ & Htp).
  rewrite Htp. rewrite bool_decide_true by done. rewrite Hr. cbn [snd].
  set (w1 := release pid d _) in *. intros Hinv'. eexists. split; [|split; [|split_and!]].
  2: { split; simpl; by rewrite ?Hev, ?Hdr. }
  1: { unfold is_latency_of. simpl. by rewrite Hck. }
  1-3: done.
  intros Hc. unfold latency_event. cbn. rewrite tracked_valid by done. split.
  - exact (di_exact _ (si_depth _ _ Hinv') _ Hc).
  - apply (wi_pending _ _ (si_wakeup _ _ Hinv') _ Hc).
Qed.
End sched_switch_promise.
End promises.
