(* ===== verification/Lifecycle.v ===== *)
(** * Process lifecycle, page faults and CPU frequency

    [stutter-ebpf/src/process_lifecycle.rs] and [cpu_frequency.rs].  The exit
    probe clears everything the scheduler probes keep for the task; the fault
    probes count page faults for the task's next latency event. *)

From S2P Require Import Prelude Prog Abi Maps Typing WakeupData RunnableDepth Accounting.

Section lifecycle.
Context {K : Kernel}.

Definition try_sched_process_exec (e : Env) : prog World Z :=
  let pid := current_pid e in
  let tid := current_tid e in
  t ← is_target_pid pid;
  t' ← (if (t : bool) then mret true else is_target_pid_or_current_cgroup e tid);
  if negb t' then mret 0 else
  let comm := default (replicate 16 0) (current_comm e) in
  emit_ringbuf_event e (size_of ExecEvent_layout) 0
    (EvExec {| ee_kind := EVENT_EXEC; ee_pid := pid; ee_tid := tid; ee_comm := comm |})
    (mret 0).

Definition try_sched_process_exit (e : Env) : prog World Z :=
  let tid := current_tid e in
  remove_runnable_task_if_present tid ;;
  '(was_pending, old) ← remove_for_exit tid WakeupData_default;
  (if (was_pending : bool) then decrement_target_pending (wd_target_cpu old) else mret tt) ;;
  _ ← map_remove (S_PREV_FAULTS tid) (upd_PREV_FAULTS (delete tid));
  mret 0.

(** [counters.maj += 1] wraps: the crate is built without overflow checks.
    The store goes through the value pointer, so it does not bring an entry
    back that was removed since the lookup. *)
Definition try_major_fault (e : Env) : prog World Z :=
  let tid := current_tid e in
  t ← is_target_pid_or_current_cgroup e tid;
  if (t : bool) then
    p ← map_get (fun w => PREV_FAULTS w !! tid);
    match p with
    | Some counters =>
        store (upd_PREV_FAULTS (alter (fun c =>
          {| fc_maj := wrapping_add_u64 (fc_maj counters) 1; fc_min := fc_min c |}) tid)) ;;
        mret 0
    | None =>
        _ ← map_insert (S_PREV_FAULTS tid)
              (upd_PREV_FAULTS (<[tid := {| fc_maj := 1; fc_min := 0 |}]>));
        mret 0
    end
  else mret 0.

Definition try_minor_fault (e : Env) : prog World Z :=
  let tid := current_tid e in
  t ← is_target_pid_or_current_cgroup e tid;
  if (t : bool) then
    p ← map_get (fun w => PREV_FAULTS w !! tid);
    match p with
    | Some counters =>
        store (upd_PREV_FAULTS (alter (fun c =>
          {| fc_maj := fc_maj c; fc_min := wrapping_add_u64 (fc_min counters) 1 |}) tid)) ;;
        mret 0
    | None =>
        _ ← map_insert (S_PREV_FAULTS tid)
              (upd_PREV_FAULTS (<[tid := {| fc_maj := 0; fc_min := 1 |}]>));
        mret 0
    end
  else mret 0.

Definition try_cpu_frequency (e : Env) (ctx : TracePointContext) : prog World Z :=
  let_else state := read_u32 ctx CPU_FREQUENCY_STATE_OFFSET or mret 1;
  let_else cpu_id := read_u32 ctx CPU_FREQUENCY_CPU_ID_OFFSET or mret 1;
  now ← bpf_ktime_get_ns;
  emit_ringbuf_event e (size_of CpuFreqEvent_layout) 0
    (EvCpuFreq {| cf_kind := EVENT_CPU_FREQ; cf_cpu := cpu_id; cf_state := state;
       cf_pad := 0; cf_timestamp_ns := now |})
    (mret 0).
End lifecycle.

(** ** Typing *)

Section typing.
Context {K : Kernel}.

Lemma typed_process_exec e : env_ok e -> typed_w (fun _ => True) (try_sched_process_exec e).
Proof.
  intros (_ & _ & Hcomm & _). unfold try_sched_process_exec. typecheck; typed_event;
    destruct (current_comm e); simpl; try apply Hcomm; try done; by repeat constructor.
Qed.

Lemma typed_process_exit e : typed_w (fun _ => True) (try_sched_process_exit e).
Proof. unfold try_sched_process_exit. typecheck. Qed.

Lemma typed_fault_store (f : FaultCounters -> FaultCounters) tid :
  (forall c, faults_ok c -> faults_ok (f c)) ->
  typed_w (fun _ => True) (store (upd_PREV_FAULTS (alter f tid))).
Proof.
  intros Hf. apply typed_store. intros w Hw. apply ok_upd_PREV_FAULTS; [done|].
  intros m. by apply all_ok_alter.
Qed.

Lemma faults_ok_intro a b : in_u64 a -> in_u64 b -> faults_ok {| fc_maj := a; fc_min := b |}.
Proof. done. Qed.
Hint Resolve faults_ok_intro : machine.

Lemma typed_major_fault e : typed_w (fun _ => True) (try_major_fault e).
Proof.
  unfold try_major_fault. typecheck.
  eapply typed_bind; [ apply typed_fault_store | intros; typecheck ].
  intros c [_ Hc]. auto with machine.
Qed.

Lemma typed_minor_fault e : typed_w (fun _ => True) (try_minor_fault e).
Proof.
  unfold try_minor_fault. typecheck.
  eapply typed_bind; [ apply typed_fault_store | intros; typecheck ].
  intros c [Hc _]. auto with machine.
Qed.

Lemma typed_cpu_frequency e ctx : typed_w (fun _ => True) (try_cpu_frequency e ctx).
Proof. unfold try_cpu_frequency. typecheck; typed_event. Qed.
End typing.

(** ** The exit probe, run alone *)

(** Step-wise predicates on what [sched_inv] reads are kept by updates of the
    other maps. *)
Ltac keep_sched := eapply sched_inv_view; [ | eassumption ]; reflexivity.

Section exit.
Context {K : Kernel} (exact : bool).

Lemma runnable_key_pos w pid cpu :
  sched_inv exact w -> RUNNABLE_TASK_CPU w !! pid = Some cpu -> 0 < pid.
Proof using Type.
  intros Hinv Hr. destruct (si_runnable _ _ Hinv _ _ Hr) as [d Hd%pending_data].
  by eapply (wi_data _ _ (si_wakeup _ _ Hinv)).
Qed.

Lemma run_remove_runnable w pid : sched_inv exact w -> 0 <= pid ->
  run (remove_runnable_task_if_present pid) w = (tt, remove_runnable pid w).
Proof using Type.
  intros Hinv Hpid. destruct (Z.eqb_spec pid 0) as [->|].
  - unfold remove_runnable. destruct (RUNNABLE_TASK_CPU w !! 0) eqn:H0; [|done].
    apply runnable_key_pos in H0; [lia|done].
  - apply run_remove_runnable_task_if_present; [ apply Hinv | lia ].
Qed.

Definition exit_world (tid : Z) (w : World) : World :=
  upd_PREV_FAULTS (delete tid)
    (match pending w tid with
     | Some d => dec_pending (wd_target_cpu d)
     | None => id
     end (upd_WAKEUP_SEQ (delete tid) (remove_world tid (remove_runnable tid w)))).

Lemma remove_runnable_maps tid w :
  WAKEUP_DATA (remove_runnable tid w) = WAKEUP_DATA w /\
  pending (remove_runnable tid w) tid = pending w tid.
Proof using Type.
  split.
  - pose proof (remove_runnable_view tid w) as Hv. unfold wakeup_view in Hv.
    by injection Hv as -> _ _.
  - unfold pending. by rewrite (pending_map_view _ w) by apply remove_runnable_view.
Qed.

Lemma run_try_sched_process_exit e w : sched_inv exact w ->
  run (try_sched_process_exit e) w = (0, exit_world (current_tid e) w).
Proof using Type.
  intros Hinv. unfold try_sched_process_exit, exit_world. set (tid := current_tid e).
  assert (Htid : 0 <= tid) by apply current_tid_range.
  rewrite run_bind, run_remove_runnable by done. cbn [fst snd].
  destruct (remove_runnable_maps tid w) as [HD HP].
  rewrite run_bind, run_remove_for_exit, HP, HD. cbn [fst snd].
  destruct (pending w tid) as [d|] eqn:Hp; simpl.
  - rewrite (pending_data _ _ _ Hp). cbn [default].
    destruct (wi_data _ _ (si_wakeup _ _ Hinv) _ _ (pending_data _ _ _ Hp)) as [_ Hc].
    rewrite run_bind, run_decrement_pending by done. by run_simpl.
  - by run_simpl.
Qed.

(** Forgetting a task without a pending wakeup. *)
Lemma sched_inv_forget w pid :
  sched_inv exact w -> pending w pid = None -> sched_inv exact (remove_world pid w).
Proof using Type.
  intros [Hdi Hw Hr] Hp.
  assert (Hpm : pending_map (remove_world pid w) = pending_map w).
  { unfold remove_world. rewrite pending_map_remove. by apply delete_id. }
  split.
  - same_depth.
  - split.
    + intros p c. simpl. rewrite !lookup_delete_Some. intros [Hne Hc].
      split; [done|]. by apply Hw.
    + intros p d. simpl. rewrite lookup_delete_Some. intros [_ Hd]. by apply Hw.
    + pose proof (wi_room _ _ Hw).
      assert (size (delete pid (WAKEUP_DATA w)) <= size (WAKEUP_DATA w))%nat
        by (apply map_subseteq_size, delete_subseteq).
      simpl. lia.
    + rewrite Hpm. apply Hw.
  - intros p c Hpc. unfold pending. rewrite Hpm. by eapply Hr.
Qed.

Lemma process_exit_inv e : preserves (sched_inv exact) (try_sched_process_exit e).
Proof using Type.
  intros w Hinv. rewrite run_try_sched_process_exit by done. cbn [snd].
  set (tid := current_tid e). unfold exit_world.
  destruct (pending w tid) as [d|] eqn:Hp.
  - eapply (sched_inv_view exact (release tid d (remove_world tid w))).
    + unfold release, dec_pending, remove_runnable.
      destruct (valid_cpu _); simpl; by destruct (RUNNABLE_TASK_CPU w !! tid).
    + apply (sched_inv_release exact w); try done. by right.
  - assert (Hn : RUNNABLE_TASK_CPU w !! tid = None).
    { destruct (RUNNABLE_TASK_CPU w !! tid) eqn:Hr; [|done].
      apply (si_runnable _ _ Hinv) in Hr as [? Hr]. by rewrite Hp in Hr. }
    eapply (sched_inv_view exact (remove_world tid w)); [ | by apply sched_inv_forget ].
    unfold remove_runnable. by rewrite Hn.
Qed.

Lemma exit_world_clears tid w :
  let w' := exit_world tid w in
  WAKEUP_DATA w' !! tid = None /\ WAKEUP_CONSUMED w' !! tid = None /\
  WAKEUP_SEQ w' !! tid = None /\ RUNNABLE_TASK_CPU w' !! tid = None /\
  PREV_FAULTS w' !! tid = None /\
  pending_map w' = delete tid (pending_map w) /\
  EVENTS w' = EVENTS w /\ DROP_COUNTERS w' = DROP_COUNTERS w.
Proof using Type.
  assert (Hr : pending_map (remove_world tid (remove_runnable tid w)) = delete tid (pending_map w)).
  { unfold remove_world. rewrite pending_map_remove.
    by rewrite (pending_map_view _ w) by apply remove_runnable_view. }
  assert (Hvr : RUNNABLE_TASK_CPU (remove_runnable tid w) !! tid = None).
  { unfold remove_runnable. destruct (RUNNABLE_TASK_CPU w !! tid) eqn:?; [|done].
    apply lookup_delete_eq. }
  assert (Hev : EVENTS (remove_runnable tid w) = EVENTS w /\
    DROP_COUNTERS (remove_runnable tid w) = DROP_COUNTERS w)
    by (unfold remove_runnable; by case_match).
  destruct Hev as [Hev Hdr]. unfold exit_world.
  destruct (pending w tid) as [d|]; [ unfold dec_pending; destruct (valid_cpu _) | ];
    simpl; split_and!; try done; apply lookup_delete_eq.
Qed.

(** After a task's exit no per-task map holds its id, its pending wakeup is gone
    and every other task's is untouched; nothing is emitted and no loss is counted. *)
Theorem process_exit_clears_task e w :
  sched_inv exact w ->
  let tid := current_tid e in
  let w' := exec (try_sched_process_exit e) w in
  WAKEUP_DATA w' !! tid = None /\ WAKEUP_CONSUMED w' !! tid = None /\
  WAKEUP_SEQ w' !! tid = None /\ RUNNABLE_TASK_CPU w' !! tid = None /\
  PREV_FAULTS w' !! tid = None /\
  pending_map w' = delete tid (pending_map w) /\
  EVENTS w' = EVENTS w /\ DROP_COUNTERS w' = DROP_COUNTERS w.
Proof using Type.
  intros Hinv tid. unfold exec. rewrite run_try_sched_process_exit by done.
  apply exit_world_clears.
Qed.
End exit.

(** ** The other lifecycle probes do not touch the scheduler state *)

Section frame.
Context {K : Kernel} (exact : bool).

Lemma process_exec_step e : typed (sched_inv exact) (fun _ => True) (try_sched_process_exec e).
Proof using Type.
  unfold try_sched_process_exec, is_target_pid, is_target_pid_or_current_cgroup,
    is_target_current_cgroup. cbv zeta. stepwise keep_sched.
Qed.

Lemma major_fault_step e : typed (sched_inv exact) (fun _ => True) (try_major_fault e).
Proof using Type.
  unfold try_major_fault, is_target_pid_or_current_cgroup, is_target_current_cgroup,
    is_target_pid. cbv zeta. stepwise keep_sched.
Qed.

Lemma minor_fault_step e : typed (sched_inv exact) (fun _ => True) (try_minor_fault e).
Proof using Type.
  unfold try_minor_fault, is_target_pid_or_current_cgroup, is_target_current_cgroup,
    is_target_pid. cbv zeta. stepwise keep_sched.
Qed.

Lemma cpu_frequency_step e ctx :
  typed (sched_inv exact) (fun _ => True) (try_cpu_frequency e ctx).
Proof using Type. unfold try_cpu_frequency, bpf_ktime_get_ns. stepwise keep_sched. Qed.
End frame.

(** ** Fault counters *)

Section faults.
Context {K : Kernel}.

Definition faults_of (w : World) (tid : Z) : FaultCounters :=
  default {| fc_maj := 0; fc_min := 0 |} (PREV_FAULTS w !! tid).

Lemma upd_alter_faults f tid c w : PREV_FAULTS w !! tid = Some c ->
  upd_PREV_FAULTS (alter f tid) w = upd_PREV_FAULTS (<[tid := f c]>) w.
Proof.
  intros Hc. unfold upd_PREV_FAULTS. f_equal. apply map_eq. intros i.
  rewrite lookup_alter, lookup_insert. case_decide; subst; by rewrite ?Hc.
Qed.

(** A page fault of a monitored task adds one to its own counter, leaves the task's
    other counter and every other task's counters alone, and is the only change it
    makes, as long as the kernel has room for a new entry. *)
Theorem page_faults_counted (e : Env) (w : World) :
  let tid := current_tid e in
  is_Some (TARGET_PIDS w !! tid) \/ is_Some (TARGET_CGROUP_IDS w !! current_cgroup_id e) ->
  is_Some (PREV_FAULTS w !! tid) \/ insert_ok (S_PREV_FAULTS tid) w = true ->
  exec (try_major_fault e) w =
    upd_PREV_FAULTS (<[tid := {| fc_maj := wrapping_add_u64 (fc_maj (faults_of w tid)) 1;
                                 fc_min := fc_min (faults_of w tid) |}]>) w /\
  exec (try_minor_fault e) w =
    upd_PREV_FAULTS (<[tid := {| fc_maj := fc_maj (faults_of w tid);
                                 fc_min := wrapping_add_u64 (fc_min (faults_of w tid)) 1 |}]>) w.
Proof.
  intros tid Ht Hroom.
  assert (Hb : bool_decide (is_Some (TARGET_PIDS w !! tid)) ||
    bool_decide (is_Some (TARGET_CGROUP_IDS w !! current_cgroup_id e)) = true).
  { rewrite orb_true_iff, !bool_decide_eq_true. tauto. }
  unfold exec, try_major_fault, try_minor_fault, faults_of. run_simpl. fold tid.
  rewrite Hb. run_simpl.
  destruct (PREV_FAULTS w !! tid) as [c|] eqn:Hc; run_simpl; cbn [default].
  - by rewrite !(upd_alter_faults _ _ c).
  - destruct Hroom as [[? Hx]|Hok]; [congruence|]. by rewrite Hok.
Qed.
End faults.
