(* ===== verification/Irq.v ===== *)
(** * IRQ handler spans

    [stutter-ebpf/src/irq.rs].  The entry probe stores the start time of a
    monitored IRQ under a key packed from the IRQ number and the CPU; the exit
    probe on the same CPU takes it out and reports the duration.  The packing is
    injective, so spans of different IRQs or CPUs do not disturb each other. *)

From S2P Require Import Prelude Prog Abi Maps Typing WakeupData RunnableDepth Accounting Lifecycle.

Section irq.
Context {K : Kernel}.

Definition is_target_irq (irq : Z) : prog World bool :=
  map_get (fun w => bool_decide (is_Some (TARGET_IRQS w !! irq))).

(** [((irq as u64) << 32) | cpu as u64] *)
Definition irq_key (irq cpu : Z) : Z := Z.lor (as_u64 (Z.shiftl irq 32)) cpu.

Definition try_irq_handler_entry (e : Env) (ctx : TracePointContext) : prog World Z :=
  let_else irq := read_i32 ctx IRQ_HANDLER_IRQ_OFFSET or mret 1;
  if irq <? 0 then mret 0 else
  let irq := as_u32 irq in
  t ← is_target_irq irq;
  if negb t then mret 0 else
  let cpu := smp_processor_id e in
  let key := irq_key irq cpu in
  now ← bpf_ktime_get_ns;
  ok ← map_insert (S_IRQ_START_TIMES key) (upd_IRQ_START_TIMES (<[key := now]>));
  (if negb ok then increment_drop_counter e DROP_IRQ_START_TIMES_INSERT_FAILED
   else mret tt) ;;
  mret 0.

Definition try_irq_handler_exit (e : Env) (ctx : TracePointContext) : prog World Z :=
  let_else irq := read_i32 ctx IRQ_HANDLER_IRQ_OFFSET or mret 1;
  if irq <? 0 then mret 0 else
  let irq := as_u32 irq in
  t ← is_target_irq irq;
  if negb t then mret 0 else
  let cpu := smp_processor_id e in
  let key := irq_key irq cpu in
  s ← map_get (fun w => IRQ_START_TIMES w !! key);
  let_else enter_ns := s or mret 0;
  _ ← map_remove (S_IRQ_START_TIMES key) (upd_IRQ_START_TIMES (delete key));
  exit_ns ← bpf_ktime_get_ns;
  let duration_ns := saturating_sub exit_ns enter_ns in
  emit_ringbuf_event e (size_of IrqEvent_layout) 0
    (EvIrq {| ie_kind := EVENT_IRQ_LATENCY; ie_irq := irq; ie_cpu := cpu; ie_pad0 := 0;
       ie_enter_ns := enter_ns; ie_exit_ns := exit_ns; ie_duration_ns := duration_ns |})
    (mret 0).
End irq.

Section theorems.
Context {K : Kernel}.

Lemma typed_is_target_irq irq : typed_w (fun _ => True) (is_target_irq irq).
Proof. by apply typed_get. Qed.
Hint Resolve typed_is_target_irq : typed.

Lemma typed_irq_entry e ctx : typed_w (fun _ => True) (try_irq_handler_entry e ctx).
Proof. unfold try_irq_handler_entry. typecheck. Qed.

Lemma typed_irq_exit e ctx : env_ok e -> typed_w (fun _ => True) (try_irq_handler_exit e ctx).
Proof.
  intros (Hc & _). unfold try_irq_handler_exit. typecheck; typed_event.
Qed.

Lemma irq_entry_step exact e ctx :
  typed (sched_inv exact) (fun _ => True) (try_irq_handler_entry e ctx).
Proof.
  unfold try_irq_handler_entry, is_target_irq, bpf_ktime_get_ns. cbv zeta. stepwise keep_sched.
Qed.

Lemma irq_exit_step exact e ctx :
  typed (sched_inv exact) (fun _ => True) (try_irq_handler_exit e ctx).
Proof.
  unfold try_irq_handler_exit, is_target_irq, bpf_ktime_get_ns. cbv zeta. stepwise keep_sched.
Qed.

(** The high and the low half of the key are the IRQ and the CPU. *)
Lemma irq_key_halves irq cpu : in_u32 irq -> in_u32 cpu ->
  Z.shiftr (irq_key irq cpu) 32 = irq /\ Z.land (irq_key irq cpu) (Z.ones 32) = cpu.
Proof.
  intros Hi Hc. unfold irq_key. rewrite as_u64_id.
  2: { rewrite Z.shiftl_mul_pow2 by lia. width. }
  split.
  - rewrite Z.shiftr_lor, Z.shiftr_shiftl_l, Z.sub_diag, Z.shiftl_0_r by lia.
    rewrite (Z.shiftr_div_pow2 cpu) by lia. rewrite Z.div_small by exact Hc.
    apply Z.lor_0_r.
  - rewrite Z.land_lor_distr_l, !Z.land_ones by lia.
    rewrite Z.shiftl_mul_pow2, Z.mod_mul by lia.
    rewrite Z.mod_small by exact Hc. apply Z.lor_0_l.
Qed.

(** Two spans share a key only when they are of the same IRQ on the same CPU. *)
Lemma irq_key_injective irq cpu irq' cpu' :
  in_u32 irq -> in_u32 cpu -> in_u32 irq' -> in_u32 cpu' ->
  irq_key irq cpu = irq_key irq' cpu' -> irq = irq' /\ cpu = cpu'.
Proof.
  intros H1 H2 H3 H4 Heq. destruct (irq_key_halves irq cpu) as [Ha Hb]; [done..|].
  destruct (irq_key_halves irq' cpu') as [Ha' Hb']; [done..|]. rewrite Heq in Ha, Hb.
  split; congruence.
Qed.

Lemma run_is_target_irq irq w :
  run (is_target_irq irq) w = (bool_decide (is_Some (TARGET_IRQS w !! irq)), w).
Proof. done. Qed.

Definition irq_event (e : Env) (irq enter_ns : Z) (w : World) : IrqEvent :=
  {| ie_kind := EVENT_IRQ_LATENCY; ie_irq := irq; ie_cpu := smp_processor_id e; ie_pad0 := 0;
     ie_enter_ns := enter_ns; ie_exit_ns := clock w;
     ie_duration_ns := saturating_sub (clock w) enter_ns |}.

(** The two probes on an IRQ number the context holds, run alone. *)
Lemma exec_irq_entry e ctx irq w :
  read_i32 ctx IRQ_HANDLER_IRQ_OFFSET = Some irq -> 0 <= irq ->
  is_Some (TARGET_IRQS w !! irq) ->
  let key := irq_key irq (smp_processor_id e) in
  exec (try_irq_handler_entry e ctx) w =
    if insert_ok (S_IRQ_START_TIMES key) w
    then upd_IRQ_START_TIMES (<[key := clock w]>) w
    else drop_world e DROP_IRQ_START_TIMES_INSERT_FAILED w.
Proof.
  intros Hirq Hpos Ht key. unfold exec, try_irq_handler_entry, bpf_ktime_get_ns. rewrite Hirq.
  destruct (Z.ltb_spec irq 0); [lia|]. cbv zeta.
  rewrite as_u32_id by (apply read_i32_range in Hirq; width).
  rewrite run_bind, run_is_target_irq. cbn [fst snd]. rewrite bool_decide_true by done.
  cbn [negb]. fold key. run_simpl. by destruct (insert_ok _ w); run_simpl.
Qed.

Lemma exec_irq_exit e ctx irq w :
  read_i32 ctx IRQ_HANDLER_IRQ_OFFSET = Some irq -> 0 <= irq ->
  is_Some (TARGET_IRQS w !! irq) ->
  let key := irq_key irq (smp_processor_id e) in
  exec (try_irq_handler_exit e ctx) w =
    match IRQ_START_TIMES w !! key with
    | None => w
    | Some t =>
        let w1 := upd_IRQ_START_TIMES (delete key) w in
        if reserve_ok (size_of IrqEvent_layout) w1
        then submit_world (EvIrq (irq_event e irq t w)) w1
        else drop_world e DROP_RINGBUF_RESERVE_FAILED w1
    end.
Proof.
  intros Hirq Hpos Ht key. unfold exec, try_irq_handler_exit, bpf_ktime_get_ns. rewrite Hirq.
  destruct (Z.ltb_spec irq 0); [lia|]. cbv zeta.
  rewrite as_u32_id by (apply read_i32_range in Hirq; width).
  rewrite run_bind, run_is_target_irq. cbn [fst snd]. rewrite bool_decide_true by done.
  cbn [negb]. fold key. rewrite run_bind, run_map_get. cbn [fst snd].
  destruct (IRQ_START_TIMES w !! key); [|done]. run_simpl. by case_match.
Qed.

(** Other spans, time passing and other probes leave the start of a span alone. *)
Definition same_span (key : Z) (w w' : World) : Prop :=
  IRQ_START_TIMES w' !! key = IRQ_START_TIMES w !! key /\
  TARGET_IRQS w' = TARGET_IRQS w.

(** A monitored IRQ handler that enters in [w] and exits in a later world [w'] on
    the same CPU is reported with exactly the two times, whatever happened in between to
    other IRQs and on other CPUs; its start is gone afterwards, so the same entry is
    never reported twice. *)
Theorem irq_span_reported e ctx ctx' irq w w' :
  read_i32 ctx IRQ_HANDLER_IRQ_OFFSET = Some irq ->
  read_i32 ctx' IRQ_HANDLER_IRQ_OFFSET = Some irq -> 0 <= irq ->
  is_Some (TARGET_IRQS w !! irq) ->
  let key := irq_key irq (smp_processor_id e) in
  insert_ok (S_IRQ_START_TIMES key) w = true ->
  same_span key (exec (try_irq_handler_entry e ctx) w) w' ->
  reserve_ok (size_of IrqEvent_layout) (upd_IRQ_START_TIMES (delete key) w') = true ->
  let w'' := exec (try_irq_handler_exit e ctx') w' in
  EVENTS w'' = EVENTS w' ++ [EvIrq (irq_event e irq (clock w) w')] /\
  IRQ_START_TIMES w'' = delete key (IRQ_START_TIMES w').
Proof.
  intros H1 H2 Hpos Ht key Hok [Hs Htg] Hres.
  rewrite (exec_irq_entry e ctx irq) in Hs, Htg by done. fold key in Hs, Htg.
  rewrite Hok in Hs, Htg. simpl in Hs, Htg. rewrite lookup_insert_eq in Hs.
  cbv zeta. rewrite (exec_irq_exit e ctx' irq) by (done || by rewrite Htg).
  fold key. rewrite Hs. cbv zeta. by rewrite Hres.
Qed.

(** An entry or an exit of another IRQ or on another CPU leaves the start of an
    IRQ alone: the packed key is injective. *)
Theorem irq_spans_isolated e e' ctx irq irq' w :
  read_i32 ctx IRQ_HANDLER_IRQ_OFFSET = Some irq' -> env_ok e -> env_ok e' ->
  in_u32 irq -> (irq, smp_processor_id e) <> (irq', smp_processor_id e') ->
  same_span (irq_key irq (smp_processor_id e)) w (exec (try_irq_handler_entry e' ctx) w) /\
  same_span (irq_key irq (smp_processor_id e)) w (exec (try_irq_handler_exit e' ctx) w).
Proof.
  intros Hirq [Hc _] [Hc' _] Hi Hne. pose proof (read_i32_range _ _ _ Hirq) as Hr.
  destruct (Z.ltb_spec irq' 0) as [Hneg|Hpos].
  { unfold exec, try_irq_handler_entry, try_irq_handler_exit. rewrite Hirq.
    apply Z.ltb_lt in Hneg as ->. done. }
  destruct (decide (is_Some (TARGET_IRQS w !! irq'))) as [Ht|Hn].
  2: { unfold exec, try_irq_handler_entry, try_irq_handler_exit. rewrite Hirq.
       destruct (Z.ltb_spec irq' 0); [lia|]. cbv zeta.
       rewrite as_u32_id by width. rewrite !run_bind, !run_is_target_irq. cbn [fst snd].
       by rewrite bool_decide_false. }
  rewrite (exec_irq_entry e' ctx irq'), (exec_irq_exit e' ctx irq') by done.
  assert (Hk : irq_key irq (smp_processor_id e) <> irq_key irq' (smp_processor_id e')).
  { intros Heq. apply Hne. apply irq_key_injective in Heq as [-> ->]; [ done | try width.. ]. }
  split.
  - destruct (insert_ok _ w); [|done]. split; [|done]. simpl. by rewrite lookup_insert_ne.
  - destruct (IRQ_START_TIMES w !! irq_key irq' _); [|done]. cbv zeta.
    destruct (reserve_ok _ _); (split; [|done]); simpl; by rewrite lookup_delete_ne.
Qed.
End theorems.
