(* ===== verification/BlockIo.v ===== *)
(** * Block I/O requests

    [stutter-ebpf/src/block_io.rs].  An issue by a monitored task stores the start
    under the request pointer, or under a hash of the request's fields when the
    tracepoint has no pointer; the completion takes it out and reports the
    duration.  The hash can collide: the probes then drop both requests rather
    than report a duration that may belong to the other one. *)

From S2P Require Import Prelude Prog Abi Maps Typing WakeupData RunnableDepth Accounting Lifecycle.

Section block_io.
Context {K : Kernel}.

(** [ctx.read_at::<T>(offset).unwrap_or(0)] *)
Definition read_u32_at_or_zero (ctx : TracePointContext) (offset : Z) : Z :=
  default 0 (read_u32 ctx offset).
Definition read_u64_at_or_zero (ctx : TracePointContext) (offset : Z) : Z :=
  default 0 (read_u64 ctx offset).

Definition block_rq_fallback_key (ctx : TracePointContext)
    (sector dev nr_sector_offset rwbs_offset : Z) : Z :=
  let h := Z.lxor (wrapping_mul_u64 sector 11400714819323198485)
                  (wrapping_mul_u64 dev 14029467366897019727) in
  let h := if negb (nr_sector_offset =? 0)
           then Z.lxor h (wrapping_mul_u64 (read_u32_at_or_zero ctx nr_sector_offset)
                            11500714819323198485)
           else h in
  if negb (rwbs_offset =? 0)
  then Z.lxor h (wrapping_mul_u64 (read_u64_at_or_zero ctx rwbs_offset)
                   11600714819323198485)
  else h.

Definition read_u32_or_zero (ctx : TracePointContext) (offset : Z) : Z :=
  if offset =? 0 then 0 else read_u32_at_or_zero ctx offset.

Definition try_block_rq_issue (e : Env) (ctx : TracePointContext) : prog World Z :=
  let_else dev := read_u32 ctx BLOCK_RQ_DEV_OFFSET or mret 1;
  let_else sector := read_u64 ctx BLOCK_RQ_SECTOR_OFFSET or mret 1;
  let tid := current_tid e in
  t ← is_target_pid_or_current_cgroup e tid;
  if negb t then mret 0 else
  ts ← bpf_ktime_get_ns;
  let request_key_offset := BLOCK_RQ_KEY_OFFSET (trace_offsets e) in
  let using_fallback_key := request_key_offset =? 0 in
  let key :=
    if negb using_fallback_key then read_u64_at_or_zero ctx request_key_offset
    else
      let nr_sector_offset := BLOCK_RQ_ISSUE_NR_SECTOR_OFFSET (trace_offsets e) in
      let rwbs_offset := BLOCK_RQ_ISSUE_RWBS_OFFSET (trace_offsets e) in
      block_rq_fallback_key ctx sector dev nr_sector_offset rwbs_offset in
  if key =? 0 then increment_drop_counter e DROP_BLOCK_ZERO_KEY ;; mret 0 else
  collision ← (if using_fallback_key
               then map_get (fun w => bool_decide (is_Some (BLOCK_START w !! key)))
               else mret false);
  if (collision : bool) then
    increment_drop_counter e DROP_BLOCK_FALLBACK_KEY_COLLISION ;;
    _ ← map_remove (S_BLOCK_START key) (upd_BLOCK_START (delete key));
    mret 0
  else
  ok ← map_insert (S_BLOCK_START key)
         (upd_BLOCK_START (fun m => <[key := {| io_ts := ts; io_tid := tid |}]> (lru_evict m key)));
  (if negb ok then increment_drop_counter e DROP_BLOCK_START_INSERT_FAILED else mret tt) ;;
  mret 0.

Definition try_block_rq_complete (e : Env) (ctx : TracePointContext) : prog World Z :=
  let_else dev := read_u32 ctx BLOCK_RQ_DEV_OFFSET or mret 1;
  let_else sector := read_u64 ctx BLOCK_RQ_SECTOR_OFFSET or mret 1;
  let nr_sector_offset := BLOCK_RQ_COMPLETE_NR_SECTOR_OFFSET (trace_offsets e) in
  let nr_sector := read_u32_or_zero ctx nr_sector_offset in
  let request_key_offset := BLOCK_RQ_KEY_OFFSET (trace_offsets e) in
  let key :=
    if negb (request_key_offset =? 0) then read_u64_at_or_zero ctx request_key_offset
    else
      let rwbs_offset := BLOCK_RQ_COMPLETE_RWBS_OFFSET (trace_offsets e) in
      block_rq_fallback_key ctx sector dev nr_sector_offset rwbs_offset in
  if key =? 0 then increment_drop_counter e DROP_BLOCK_ZERO_KEY ;; mret 0 else
  s ← map_get (fun w => BLOCK_START w !! key);
  let_else start := s or mret 0;
  _ ← map_remove (S_BLOCK_START key) (upd_BLOCK_START (delete key));
  now ← bpf_ktime_get_ns;
  let duration_ns := saturating_sub now (io_ts start) in
  let rwbs_offset := BLOCK_RQ_COMPLETE_RWBS_OFFSET (trace_offsets e) in
  let rwbs := if negb (rwbs_offset =? 0)
              then default (replicate 8 0) (read_at ctx rwbs_offset 8)
              else replicate 8 0 in
  emit_ringbuf_event e (size_of BlockIoEvent_layout) 0
    (EvBlockIo {| bi_kind := EVENT_BLOCK_IO; bi_tid := io_tid start; bi_dev := dev;
       bi_nr_sector := nr_sector; bi_sector := sector; bi_duration_ns := duration_ns;
       bi_timestamp_ns := now; bi_rwbs := rwbs |})
    (mret 0).
End block_io.

(** ** Typing and frame *)

Section typing.
Context {K : Kernel}.

Lemma read_u32_or_zero_range ctx off : in_u32 (read_u32_or_zero ctx off).
Proof.
  unfold read_u32_or_zero, read_u32_at_or_zero. destruct (off =? 0); [width|].
  destruct (read_u32 ctx off) eqn:H; simpl; eauto with machine.
Qed.

Lemma default_bytes_ok ctx off n :
  length (default (replicate n 0) (read_at ctx off n)) = n /\
  Forall in_u8 (default (replicate n 0) (read_at ctx off n)).
Proof.
  destruct (read_at ctx off n) eqn:Hr; simpl; [ by apply read_at_ok in Hr | ].
  split; [ apply length_replicate | ]. apply Forall_replicate. width.
Qed.

Lemma typed_get_block_present key :
  typed_w (fun _ => True) (map_get (fun w => bool_decide (is_Some (BLOCK_START w !! key)))).
Proof. by apply typed_get. Qed.

Lemma typed_lru_insert key v : io_ok v ->
  typed_w (fun _ => True) (map_insert (S_BLOCK_START key)
    (upd_BLOCK_START (fun m => <[key := v]> (lru_evict m key)))).
Proof.
  intros Hv. apply typed_insert. intros w Hw. apply ok_upd_BLOCK_START; [done|].
  intros m Hm. apply all_ok_insert; [done|]. eapply all_ok_sub; [ apply lru_evict_sub | done ].
Qed.

Lemma io_ok_intro a b : in_u64 a -> in_u32 b -> io_ok {| io_ts := a; io_tid := b |}.
Proof. done. Qed.
Hint Resolve typed_get_block_present typed_lru_insert io_ok_intro : typed.
Hint Resolve read_u32_or_zero_range : machine.

Lemma typed_block_rq_issue e ctx : typed_w (fun _ => True) (try_block_rq_issue e ctx).
Proof. unfold try_block_rq_issue. typecheck. Qed.

Lemma typed_block_rq_complete e ctx : typed_w (fun _ => True) (try_block_rq_complete e ctx).
Proof.
  unfold try_block_rq_complete. typecheck;
    match goal with H : io_ok _ |- _ => destruct H end; typed_event;
    match goal with |- context [ if ?b then _ else _ ] => destruct b end;
    apply (default_bytes_ok ctx _ 8) || (by repeat constructor).
Qed.

Lemma block_rq_issue_step exact e ctx :
  typed (sched_inv exact) (fun _ => True) (try_block_rq_issue e ctx).
Proof.
  unfold try_block_rq_issue, is_target_pid_or_current_cgroup, is_target_current_cgroup,
    is_target_pid, bpf_ktime_get_ns. cbv zeta. stepwise keep_sched.
Qed.

Lemma block_rq_complete_step exact e ctx :
  typed (sched_inv exact) (fun _ => True) (try_block_rq_complete e ctx).
Proof. unfold try_block_rq_complete, bpf_ktime_get_ns. cbv zeta. stepwise keep_sched. Qed.
End typing.

(** ** The probes, run alone *)

Section theorems.
Context {K : Kernel}.

Definition fallback_mode (e : Env) : bool := BLOCK_RQ_KEY_OFFSET (trace_offsets e) =? 0.

(** The key the issue and the completion probe correlate a request by. *)
Definition issue_key (e : Env) (ctx : TracePointContext) (dev sector : Z) : Z :=
  if fallback_mode e
  then block_rq_fallback_key ctx sector dev (BLOCK_RQ_ISSUE_NR_SECTOR_OFFSET (trace_offsets e))
         (BLOCK_RQ_ISSUE_RWBS_OFFSET (trace_offsets e))
  else read_u64_at_or_zero ctx (BLOCK_RQ_KEY_OFFSET (trace_offsets e)).
Definition complete_key (e : Env) (ctx : TracePointContext) (dev sector : Z) : Z :=
  if fallback_mode e
  then block_rq_fallback_key ctx sector dev (BLOCK_RQ_COMPLETE_NR_SECTOR_OFFSET (trace_offsets e))
         (BLOCK_RQ_COMPLETE_RWBS_OFFSET (trace_offsets e))
  else read_u64_at_or_zero ctx (BLOCK_RQ_KEY_OFFSET (trace_offsets e)).

Definition block_event (e : Env) (ctx : TracePointContext) (dev sector : Z) (start : IoStart)
    (w : World) : BlockIoEvent :=
  {| bi_kind := EVENT_BLOCK_IO; bi_tid := io_tid start; bi_dev := dev;
     bi_nr_sector := read_u32_or_zero ctx (BLOCK_RQ_COMPLETE_NR_SECTOR_OFFSET (trace_offsets e));
     bi_sector := sector; bi_duration_ns := saturating_sub (clock w) (io_ts start);
     bi_timestamp_ns := clock w;
     bi_rwbs := if negb (BLOCK_RQ_COMPLETE_RWBS_OFFSET (trace_offsets e) =? 0)
                then default (replicate 8 0)
                       (read_at ctx (BLOCK_RQ_COMPLETE_RWBS_OFFSET (trace_offsets e)) 8)
                else replicate 8 0 |}.

(** The current task is monitored by id or by cgroup. *)
Definition monitored (e : Env) (w : World) : Prop :=
  is_Some (TARGET_PIDS w !! current_tid e) \/
  is_Some (TARGET_CGROUP_IDS w !! current_cgroup_id e).

Lemma run_monitored e w : monitored e w ->
  run (is_target_pid_or_current_cgroup e (current_tid e)) w = (true, w).
Proof.
  intros H. rewrite run_is_target_pid_or_current_cgroup. f_equal.
  rewrite orb_true_iff, !bool_decide_eq_true. exact H.
Qed.

Lemma exec_block_issue e ctx dev sector w :
  read_u32 ctx BLOCK_RQ_DEV_OFFSET = Some dev -> read_u64 ctx BLOCK_RQ_SECTOR_OFFSET = Some sector ->
  monitored e w ->
  let key := issue_key e ctx dev sector in
  exec (try_block_rq_issue e ctx) w =
    if key =? 0 then drop_world e DROP_BLOCK_ZERO_KEY w
    else if fallback_mode e && bool_decide (is_Some (BLOCK_START w !! key))
    then upd_BLOCK_START (delete key) (drop_world e DROP_BLOCK_FALLBACK_KEY_COLLISION w)
    else if insert_ok (S_BLOCK_START key) w
    then upd_BLOCK_START (fun m => <[key := {| io_ts := clock w; io_tid := current_tid e |}]>
           (lru_evict m key)) w
    else drop_world e DROP_BLOCK_START_INSERT_FAILED w.
Proof.
  intros Hd Hs Hm key. unfold exec, try_block_rq_issue, bpf_ktime_get_ns. rewrite Hd, Hs.
  cbv zeta. rewrite run_bind, run_monitored by done. cbn [fst snd negb].
  rewrite run_bind, run_map_get. cbn [fst snd].
  assert (Hkey : (if negb (BLOCK_RQ_KEY_OFFSET (trace_offsets e) =? 0)
    then read_u64_at_or_zero ctx (BLOCK_RQ_KEY_OFFSET (trace_offsets e))
    else block_rq_fallback_key ctx sector dev
      (BLOCK_RQ_ISSUE_NR_SECTOR_OFFSET (trace_offsets e))
      (BLOCK_RQ_ISSUE_RWBS_OFFSET (trace_offsets e))) = key).
  { unfold key, issue_key, fallback_mode. by destruct (_ =? 0). }
  rewrite Hkey. destruct (key =? 0); [by run_simpl|].
  fold (fallback_mode e). destruct (fallback_mode e); cbn [andb]; run_simpl.
  - destruct (bool_decide _); run_simpl; [done|]. by destruct (insert_ok _ w); run_simpl.
  - by destruct (insert_ok _ w); run_simpl.
Qed.

Lemma exec_block_complete e ctx dev sector w :
  read_u32 ctx BLOCK_RQ_DEV_OFFSET = Some dev -> read_u64 ctx BLOCK_RQ_SECTOR_OFFSET = Some sector ->
  let key := complete_key e ctx dev sector in
  exec (try_block_rq_complete e ctx) w =
    if key =? 0 then drop_world e DROP_BLOCK_ZERO_KEY w else
    match BLOCK_START w !! key with
    | None => w
    | Some start =>
        let w1 := upd_BLOCK_START (delete key) w in
        if reserve_ok (size_of BlockIoEvent_layout) w1
        then submit_world (EvBlockIo (block_event e ctx dev sector start w)) w1
        else drop_world e DROP_RINGBUF_RESERVE_FAILED w1
    end.
Proof.
  intros Hd Hs key. unfold exec, try_block_rq_complete, bpf_ktime_get_ns. rewrite Hd, Hs.
  cbv zeta.
  assert (Hkey : (if negb (BLOCK_RQ_KEY_OFFSET (trace_offsets e) =? 0)
    then read_u64_at_or_zero ctx (BLOCK_RQ_KEY_OFFSET (trace_offsets e))
    else block_rq_fallback_key ctx sector dev
      (BLOCK_RQ_COMPLETE_NR_SECTOR_OFFSET (trace_offsets e))
      (BLOCK_RQ_COMPLETE_RWBS_OFFSET (trace_offsets e))) = key).
  { unfold key, complete_key, fallback_mode. by destruct (_ =? 0). }
  rewrite Hkey. destruct (key =? 0); [by run_simpl|].
  rewrite run_bind, run_map_get. cbn [fst snd].
  destruct (BLOCK_START w !! key) as [start|]; [|done]. run_simpl.
  unfold block_event. by destruct (reserve_ok _ _).
Qed.

Context (e e' : Env) (ctx ctx' : TracePointContext) (dev sector dev' sector' : Z) (w w' : World).
Context (Hdev : read_u32 ctx BLOCK_RQ_DEV_OFFSET = Some dev)
        (Hsector : read_u64 ctx BLOCK_RQ_SECTOR_OFFSET = Some sector)
        (Hdev' : read_u32 ctx' BLOCK_RQ_DEV_OFFSET = Some dev')
        (Hsector' : read_u64 ctx' BLOCK_RQ_SECTOR_OFFSET = Some sector')
        (Hmon : monitored e w).

(** A monitored task's request is reported when it completes: the completion finds
    the start under the same key, reports the issuing task and the time between the two,
    and takes the start out, so it is reported once. *)
Theorem block_request_timed key :
  issue_key e ctx dev sector = key -> complete_key e' ctx' dev' sector' = key -> key <> 0 ->
  (fallback_mode e = true -> BLOCK_START w !! key = None) ->
  insert_ok (S_BLOCK_START key) w = true ->
  BLOCK_START w' !! key = BLOCK_START (exec (try_block_rq_issue e ctx) w) !! key ->
  reserve_ok (size_of BlockIoEvent_layout) (upd_BLOCK_START (delete key) w') = true ->
  let w'' := exec (try_block_rq_complete e' ctx') w' in
  exists ev, EVENTS w'' = EVENTS w' ++ [EvBlockIo ev] /\
    bi_tid ev = current_tid e /\ bi_dev ev = dev' /\ bi_sector ev = sector' /\
    bi_timestamp_ns ev = clock w' /\
    bi_duration_ns ev = saturating_sub (clock w') (clock w) /\
    BLOCK_START w'' = delete key (BLOCK_START w').
Proof using All.
  intros Hk Hk' Hnz Hfree Hok Hsame Hres.
  rewrite (exec_block_issue e ctx dev sector), Hk in Hsame by done.
  destruct (Z.eqb_spec key 0); [done|].
  assert (Hnc : fallback_mode e && bool_decide (is_Some (BLOCK_START w !! key)) = false).
  { destruct (fallback_mode e); [|done]. rewrite Hfree by done. done. }
  rewrite Hnc, Hok in Hsame. simpl in Hsame. rewrite lookup_insert_eq in Hsame.
  cbv zeta. rewrite (exec_block_complete e' ctx' dev' sector'), Hk' by done.
  destruct (Z.eqb_spec key 0); [done|]. rewrite Hsame. cbv zeta. rewrite Hres.
  eexists. split; [done|]. done.
Qed.

(** In fallback mode a second request with the key of a tracked one removes the
    start and counts the collision: a completion of either request then finds nothing
    and reports nothing, so no duration is attributed to the wrong request. *)
Theorem block_collision_reports_neither key :
  issue_key e ctx dev sector = key -> complete_key e' ctx' dev' sector' = key -> key <> 0 ->
  fallback_mode e = true -> is_Some (BLOCK_START w !! key) ->
  let w1 := exec (try_block_rq_issue e ctx) w in
  BLOCK_START w1 = delete key (BLOCK_START w) /\ EVENTS w1 = EVENTS w /\
  DROP_COUNTERS w1 = DROP_COUNTERS (drop_world e DROP_BLOCK_FALLBACK_KEY_COLLISION w) /\
  exec (try_block_rq_complete e' ctx') w1 = w1.
Proof using All.
  intros Hk Hk' Hnz Hf Hp. cbv zeta.
  rewrite (exec_block_complete e' ctx' dev' sector') by done.
  rewrite (exec_block_issue e ctx dev sector), Hk by done. rewrite Hk'.
  destruct (Z.eqb_spec key 0); [done|]. rewrite Hf, bool_decide_true by done. cbn [andb].
  simpl. rewrite lookup_delete_eq. done.
Qed.
End theorems.
