(* ===== verification/Kms.v ===== *)
(** * KMS page flips

    [stutter-ebpf/src/kms.rs] and [kms_emit.rs].  A flip request stores its time
    under the provider, card, CRTC and pipe; a completion takes the request out
    and reports the interval, or a completion without duration when there is no
    request.  Requests whose card is not known are never stored, so two cards of
    one driver are never mixed up. *)

From S2P Require Import Prelude Prog Abi Maps Typing WakeupData RunnableDepth Accounting Lifecycle.

Inductive KmsProvider := I915 | Drm | Amdgpu | KmsProviderUnknown.

Definition KmsProvider_from_raw (provider : Z) : KmsProvider :=
  if provider =? KMS_FLIP_PROVIDER_I915 then I915
  else if provider =? KMS_FLIP_PROVIDER_DRM then Drm
  else if provider =? KMS_FLIP_PROVIDER_AMDGPU then Amdgpu
  else KmsProviderUnknown.

Inductive KmsCompletionEvent := PageflipDone | Vblank | KmsCompletionUnknown.

Definition KmsCompletionEvent_from_raw (completion_event_kind : Z) : KmsCompletionEvent :=
  if completion_event_kind =? KMS_FLIP_EVENT_PAGEFLIP_DONE then PageflipDone
  else if completion_event_kind =? KMS_FLIP_EVENT_VBLANK then Vblank
  else KmsCompletionUnknown.

(** [None] is the [false] result. *)
Definition kms_sequence_offsets (o : TraceOffsets) (provider : KmsProvider)
    (completion_event : KmsCompletionEvent) : option (Z * Z) :=
  match provider, completion_event with
  | I915, PageflipDone => Some (I915_FLIP_DONE_SEQUENCE_OFFSET o, I915_FLIP_DONE_SEQUENCE_SIZE o)
  | Drm, Vblank => Some (DRM_VBLANK_SEQUENCE_OFFSET o, DRM_VBLANK_SEQUENCE_SIZE o)
  | Drm, PageflipDone => Some (DRM_FLIP_DONE_SEQUENCE_OFFSET o, DRM_FLIP_DONE_SEQUENCE_SIZE o)
  | Amdgpu, Vblank => Some (AMDGPU_VBLANK_SEQUENCE_OFFSET o, AMDGPU_VBLANK_SEQUENCE_SIZE o)
  | Amdgpu, PageflipDone =>
      Some (AMDGPU_FLIP_DONE_SEQUENCE_OFFSET o, AMDGPU_FLIP_DONE_SEQUENCE_SIZE o)
  | I915, Vblank | I915, KmsCompletionUnknown | Drm, KmsCompletionUnknown
  | Amdgpu, KmsCompletionUnknown | KmsProviderUnknown, PageflipDone
  | KmsProviderUnknown, Vblank | KmsProviderUnknown, KmsCompletionUnknown => None
  end.

(** [None] is the [false] result, [Some key] is [true] with the key filled in. *)
Definition fill_kms_flip_key (provider card_minor_offset : Z) (ctx : TracePointContext)
    (crtc_offset pipe_offset : Z) : option KmsFlipKey :=
  let card := read_optional_u32 ctx card_minor_offset in
  let has_card_minor := match card with Some _ => 1 | None => 0 end in
  let card_minor := default 0 card in
  let crtc_id := default 0 (read_optional_u32 ctx crtc_offset) in
  let pipe := default 0 (read_optional_u32 ctx pipe_offset) in
  if (crtc_id =? 0) && (pipe =? 0) then None else
  Some {| kk_provider := provider; kk_card_minor_known := has_card_minor;
          kk_card_minor := card_minor; kk_crtc_id := crtc_id; kk_pipe := pipe |}.

Section kms.
Context {K : Kernel}.

(** *** [kms_emit.rs] *)

Definition emit_kms_flip_event (e : Env) (key : KmsFlipKey) (provider_and_event_kind : Z)
    (has_sequence : bool) (sequence : Z) (has_start_ns : bool) (start_ns done_ns : Z)
  : prog World unit :=
  let duration_ns := if has_start_ns then saturating_sub done_ns start_ns else 0 in
  let flags := KMS_FLIP_HAS_DONE_NS in
  let flags := if negb (kk_crtc_id key =? 0) then Z.lor flags KMS_FLIP_HAS_CRTC else flags in
  let flags := if has_start_ns
               then Z.lor flags (Z.lor KMS_FLIP_HAS_REQUEST_NS KMS_FLIP_HAS_DURATION_NS)
               else flags in
  let flags := if has_sequence then Z.lor flags KMS_FLIP_HAS_SEQUENCE else flags in
  let provider := Z.shiftr provider_and_event_kind 16 in
  let completion_event_kind := Z.land provider_and_event_kind 65535 in
  emit_ringbuf_event e (size_of KmsFlipEvent_layout) tt
    (EvKmsFlip {|
       kf_kind := EVENT_KMS_FLIP;
       kf_event_kind := if has_start_ns then KMS_FLIP_EVENT_INTERVAL else completion_event_kind;
       kf_provider := provider; kf_flags := flags;
       kf_pid := current_pid e; kf_tid := current_tid e; kf_cpu := smp_processor_id e;
       kf_card_minor := kk_card_minor key; kf_crtc_id := kk_crtc_id key; kf_pipe := kk_pipe key;
       kf_sequence := if has_sequence then sequence else 0;
       kf_request_ns := if has_start_ns then start_ns else 0;
       kf_done_ns := done_ns; kf_duration_ns := duration_ns; kf_timestamp_ns := done_ns |})
    (mret tt).

(** *** [kms.rs] *)

Definition try_kms_flip_request (e : Env) (ctx : TracePointContext) (provider card_minor_offset
    completion_card_minor_offset crtc_offset pipe_offset : Z) : prog World Z :=
  let_else key := fill_kms_flip_key provider card_minor_offset ctx crtc_offset pipe_offset
    or mret 0;
  if (kk_card_minor_known key =? 0) || (completion_card_minor_offset =? 0) then mret 0 else
  now ← bpf_ktime_get_ns;
  _ ← map_insert (S_KMS_FLIP_STARTS key) (upd_KMS_FLIP_STARTS (<[key := now]>));
  mret 0.

Definition try_kms_flip_done (e : Env) (ctx : TracePointContext) (provider_and_event_kind
    card_minor_offset crtc_offset pipe_offset : Z) : prog World Z :=
  let provider := KmsProvider_from_raw (Z.shiftr provider_and_event_kind 16) in
  let completion_event_kind := Z.land provider_and_event_kind 65535 in
  now ← bpf_ktime_get_ns;
  let_else key := fill_kms_flip_key (Z.shiftr provider_and_event_kind 16) card_minor_offset
                    ctx crtc_offset pipe_offset or mret 0;
  start ← map_get (fun w => KMS_FLIP_STARTS w !! key);
  let start_ns := default 0 start in
  let has_start_ns := match start with Some _ => true | None => false end in
  _ ← map_remove (S_KMS_FLIP_STARTS key) (upd_KMS_FLIP_STARTS (delete key));
  let completion_event := KmsCompletionEvent_from_raw completion_event_kind in
  let seq := match kms_sequence_offsets (trace_offsets e) provider completion_event with
             | Some (sequence_offset, sequence_size) =>
                 read_sequence_field ctx sequence_offset sequence_size
             | None => None
             end in
  let has_sequence := match seq with Some _ => true | None => false end in
  let sequence := default 0 seq in
  emit_kms_flip_event e key provider_and_event_kind has_sequence sequence has_start_ns
    start_ns now ;;
  mret 0.

Definition kind_of (provider event : Z) : Z := Z.lor (Z.shiftl provider 16) event.

Definition try_i915_flip_request (e : Env) (ctx : TracePointContext) : prog World Z :=
  let o := trace_offsets e in
  try_kms_flip_request e ctx KMS_FLIP_PROVIDER_I915 (I915_FLIP_REQUEST_CARD_MINOR_OFFSET o)
    (I915_FLIP_DONE_CARD_MINOR_OFFSET o) (I915_FLIP_REQUEST_CRTC_OFFSET o)
    (I915_FLIP_REQUEST_PIPE_OFFSET o).

Definition try_i915_flip_done (e : Env) (ctx : TracePointContext) : prog World Z :=
  let o := trace_offsets e in
  try_kms_flip_done e ctx (kind_of KMS_FLIP_PROVIDER_I915 KMS_FLIP_EVENT_PAGEFLIP_DONE)
    (I915_FLIP_DONE_CARD_MINOR_OFFSET o) (I915_FLIP_DONE_CRTC_OFFSET o)
    (I915_FLIP_DONE_PIPE_OFFSET o).

Definition try_drm_flip_request (e : Env) (ctx : TracePointContext) : prog World Z :=
  let o := trace_offsets e in
  try_kms_flip_request e ctx KMS_FLIP_PROVIDER_DRM (DRM_FLIP_REQUEST_CARD_MINOR_OFFSET o)
    (DRM_FLIP_DONE_CARD_MINOR_OFFSET o) (DRM_FLIP_REQUEST_CRTC_OFFSET o)
    (DRM_FLIP_REQUEST_PIPE_OFFSET o).

Definition try_drm_flip_done (e : Env) (ctx : TracePointContext) : prog World Z :=
  let o := trace_offsets e in
  try_kms_flip_done e ctx (kind_of KMS_FLIP_PROVIDER_DRM KMS_FLIP_EVENT_PAGEFLIP_DONE)
    (DRM_FLIP_DONE_CARD_MINOR_OFFSET o) (DRM_FLIP_DONE_CRTC_OFFSET o)
    (DRM_FLIP_DONE_PIPE_OFFSET o).

Definition try_drm_vblank_event (e : Env) (ctx : TracePointContext) : prog World Z :=
  let o := trace_offsets e in
  try_kms_flip_done e ctx (kind_of KMS_FLIP_PROVIDER_DRM KMS_FLIP_EVENT_VBLANK)
    (DRM_VBLANK_CARD_MINOR_OFFSET o) (DRM_VBLANK_CRTC_OFFSET o) (DRM_VBLANK_PIPE_OFFSET o).

Definition try_amdgpu_flip_request (e : Env) (ctx : TracePointContext) : prog World Z :=
  let o := trace_offsets e in
  try_kms_flip_request e ctx KMS_FLIP_PROVIDER_AMDGPU (AMDGPU_FLIP_REQUEST_CARD_MINOR_OFFSET o)
    (AMDGPU_FLIP_DONE_CARD_MINOR_OFFSET o) (AMDGPU_FLIP_REQUEST_CRTC_OFFSET o)
    (AMDGPU_FLIP_REQUEST_PIPE_OFFSET o).

Definition try_amdgpu_flip_done (e : Env) (ctx : TracePointContext) : prog World Z :=
  let o := trace_offsets e in
  try_kms_flip_done e ctx (kind_of KMS_FLIP_PROVIDER_AMDGPU KMS_FLIP_EVENT_PAGEFLIP_DONE)
    (AMDGPU_FLIP_DONE_CARD_MINOR_OFFSET o) (AMDGPU_FLIP_DONE_CRTC_OFFSET o)
    (AMDGPU_FLIP_DONE_PIPE_OFFSET o).

Definition try_amdgpu_vblank_event (e : Env) (ctx : TracePointContext) : prog World Z :=
  let o := trace_offsets e in
  try_kms_flip_done e ctx (kind_of KMS_FLIP_PROVIDER_AMDGPU KMS_FLIP_EVENT_VBLANK)
    (AMDGPU_VBLANK_CARD_MINOR_OFFSET o) (AMDGPU_VBLANK_CRTC_OFFSET o)
    (AMDGPU_VBLANK_PIPE_OFFSET o).
End kms.

(** ** Keys *)

Definition key_ok (k : KmsFlipKey) : Prop :=
  in_u32 (kk_card_minor k) /\ in_u32 (kk_crtc_id k) /\ in_u32 (kk_pipe k).

Lemma optional_u32_ok ctx off : in_u32 (default 0 (read_optional_u32 ctx off)).
Proof.
  unfold read_optional_u32. destruct (off =? 0); simpl; [width|].
  destruct (read_u32 ctx off) eqn:H; simpl; [ by eapply read_u32_range | width ].
Qed.

Lemma fill_kms_flip_key_spec provider c ctx crtc pipe k :
  fill_kms_flip_key provider c ctx crtc pipe = Some k ->
  key_ok k /\ kk_provider k = provider /\
  (kk_card_minor_known k = 1 <-> is_Some (read_optional_u32 ctx c)) /\
  (kk_crtc_id k <> 0 \/ kk_pipe k <> 0).
Proof.
  unfold fill_kms_flip_key. destruct (_ && _) eqn:Hz; [done|]. intros [= <-].
  split; [ split_and!; apply optional_u32_ok | ]. split; [done|]. split.
  - simpl. destruct (read_optional_u32 ctx c); by split.
  - simpl. apply andb_false_iff in Hz as [Hz|Hz]; apply Z.eqb_neq in Hz; tauto.
Qed.

Lemma read_sequence_ok ctx off size : in_u64 (default 0 (read_sequence_field ctx off size)).
Proof.
  unfold read_sequence_field. destruct (off =? 0); simpl; [width|].
  destruct (8 <=? size).
  - destruct (read_u64 ctx off) eqn:H; simpl; [ by eapply read_u64_range | width ].
  - destruct (read_u32 ctx off) eqn:H; simpl; [ apply read_u32_range in H; width | width ].
Qed.

(** ** Typing, frame and the request invariant *)

(** Every stored request has a known card. *)
Definition kms_inv (w : World) : Prop :=
  forall k t, KMS_FLIP_STARTS w !! k = Some t -> kk_card_minor_known k = 1.

Section typing.
Context {K : Kernel}.

Lemma in_u64_if (b : bool) x y : in_u64 x -> in_u64 y -> in_u64 (if b then x else y).
Proof. by destruct b. Qed.
Hint Resolve in_u64_if : machine.

(** The flag words of [emit_kms_flip_event] fit in five bits. *)
Lemma kms_flags_range (c h s : bool) :
  let flags := KMS_FLIP_HAS_DONE_NS in
  let flags := if c then Z.lor flags KMS_FLIP_HAS_CRTC else flags in
  let flags := if h
               then Z.lor flags (Z.lor KMS_FLIP_HAS_REQUEST_NS KMS_FLIP_HAS_DURATION_NS)
               else flags in
  in_u32 (if s then Z.lor flags KMS_FLIP_HAS_SEQUENCE else flags).
Proof. by destruct c, h, s. Qed.

Lemma typed_emit_kms e key kind hs seq hst st dn :
  env_ok e -> key_ok key -> in_u32 (Z.shiftr kind 16) -> in_u32 (Z.land kind 65535) ->
  in_u64 seq -> in_u64 st -> in_u64 dn ->
  typed_w (fun _ => True) (emit_kms_flip_event e key kind hs seq hst st dn).
Proof.
  intros (Hc & _) (H1 & H2 & H3) Hp Hk Hseq Hst Hdn. unfold emit_kms_flip_event.
  apply typed_emit; [ | done.. ]. typed_event. apply kms_flags_range.
Qed.

Lemma typed_kms_flip_request e ctx p c cc cr pi :
  typed_w (fun _ => True) (try_kms_flip_request e ctx p c cc cr pi).
Proof. unfold try_kms_flip_request. typecheck. Qed.

Lemma typed_kms_flip_done e ctx kind c cr pi :
  env_ok e -> in_u32 (Z.shiftr kind 16) -> in_u32 (Z.land kind 65535) ->
  typed_w (fun _ => True) (try_kms_flip_done e ctx kind c cr pi).
Proof.
  intros He Hp Hk. unfold try_kms_flip_done. cbv zeta.
  eapply typed_bind; [ apply typed_ktime | ]. intros now Hnow.
  destruct (fill_kms_flip_key _ _ _ _ _) as [key|] eqn:Hkey; [|by apply typed_ret].
  apply fill_kms_flip_key_spec in Hkey as [Hkey _].
  eapply typed_bind; [ typed_op | ]. intros start Hstart.
  eapply typed_bind; [ typed_op | ]. intros _ _.
  eapply typed_bind; [ | intros; typecheck ].
  apply typed_emit_kms; try done.
  - destruct (kms_sequence_offsets _ _ _) as [[]|]; [ apply read_sequence_ok | simpl; width ].
  - by destruct start; [|simpl; width].
Qed.

Lemma kms_flip_request_step exact e ctx p c cc cr pi :
  typed (sched_inv exact) (fun _ => True) (try_kms_flip_request e ctx p c cc cr pi).
Proof. unfold try_kms_flip_request, bpf_ktime_get_ns. stepwise keep_sched. Qed.

Lemma kms_flip_done_step exact e ctx kind c cr pi :
  typed (sched_inv exact) (fun _ => True) (try_kms_flip_done e ctx kind c cr pi).
Proof.
  unfold try_kms_flip_done, emit_kms_flip_event, bpf_ktime_get_ns. cbv zeta.
  stepwise keep_sched.
Qed.

Lemma kms_inv_request e ctx p c cc cr pi :
  typed kms_inv (fun _ => True) (try_kms_flip_request e ctx p c cc cr pi).
Proof.
  unfold try_kms_flip_request, bpf_ktime_get_ns.
  destruct (fill_kms_flip_key _ _ _ _ _) as [key|] eqn:Hkey; [|done].
  destruct (_ || _) eqn:Hz; [done|]. stepwise idtac.
  intros k t. simpl. rewrite lookup_insert. case_decide as Hk; [ intros _ | by apply H ].
  subst k. apply orb_false_iff in Hz as [Hz _]. apply Z.eqb_neq in Hz.
  revert Hkey Hz. unfold fill_kms_flip_key. destruct (_ && _); [done|].
  intros [= <-]. simpl. by destruct (read_optional_u32 ctx c).
Qed.
End typing.

(** ** The probes, run alone *)

Section theorems.
Context {K : Kernel}.

Lemma kms_inv_done e ctx kind c cr pi :
  typed kms_inv (fun _ => True) (try_kms_flip_done e ctx kind c cr pi).
Proof.
  unfold try_kms_flip_done, emit_kms_flip_event, bpf_ktime_get_ns. cbv zeta.
  stepwise ltac:(first [ assumption | idtac ]); intros k' t; simpl;
    rewrite lookup_delete_Some; intros [_ Hk]; by eapply H.
Qed.

Definition has_flag (flags flag : Z) : bool := Z.land flags flag =? flag.

(** The event of a completion, whose request time is [start] if there is one. *)
Definition kms_event (e : Env) (key : KmsFlipKey) (kind : Z) (seq start : option Z) (now : Z)
  : KmsFlipEvent :=
  let hs := match seq with Some _ => true | None => false end in
  let hr := match start with Some _ => true | None => false end in
  let flags := KMS_FLIP_HAS_DONE_NS in
  let flags := if negb (kk_crtc_id key =? 0) then Z.lor flags KMS_FLIP_HAS_CRTC else flags in
  let flags := if hr
               then Z.lor flags (Z.lor KMS_FLIP_HAS_REQUEST_NS KMS_FLIP_HAS_DURATION_NS)
               else flags in
  {| kf_kind := EVENT_KMS_FLIP;
     kf_event_kind := if hr then KMS_FLIP_EVENT_INTERVAL else Z.land kind 65535;
     kf_provider := Z.shiftr kind 16;
     kf_flags := if hs then Z.lor flags KMS_FLIP_HAS_SEQUENCE else flags;
     kf_pid := current_pid e; kf_tid := current_tid e; kf_cpu := smp_processor_id e;
     kf_card_minor := kk_card_minor key; kf_crtc_id := kk_crtc_id key; kf_pipe := kk_pipe key;
     kf_sequence := if hs then default 0 seq else 0;
     kf_request_ns := if hr then default 0 start else 0;
     kf_done_ns := now;
     kf_duration_ns := if hr then saturating_sub now (default 0 start) else 0;
     kf_timestamp_ns := now |}.

Definition kms_sequence (e : Env) (ctx : TracePointContext) (kind : Z) : option Z :=
  match kms_sequence_offsets (trace_offsets e) (KmsProvider_from_raw (Z.shiftr kind 16))
          (KmsCompletionEvent_from_raw (Z.land kind 65535)) with
  | Some (sequence_offset, sequence_size) =>
      read_sequence_field ctx sequence_offset sequence_size
  | None => None
  end.

Lemma exec_kms_request e ctx p c cc cr pi key w :
  fill_kms_flip_key p c ctx cr pi = Some key -> kk_card_minor_known key = 1 -> cc <> 0 ->
  exec (try_kms_flip_request e ctx p c cc cr pi) w =
    if insert_ok (S_KMS_FLIP_STARTS key) w
    then upd_KMS_FLIP_STARTS (<[key := clock w]>) w else w.
Proof.
  intros Hk Hc Hcc. unfold exec, try_kms_flip_request, bpf_ktime_get_ns. rewrite Hk, Hc.
  apply Z.eqb_neq in Hcc as ->. cbn [Z.eqb orb]. run_simpl. by destruct (insert_ok _ w).
Qed.

Lemma exec_kms_done e ctx kind c cr pi key w :
  fill_kms_flip_key (Z.shiftr kind 16) c ctx cr pi = Some key ->
  exec (try_kms_flip_done e ctx kind c cr pi) w =
    let w1 := upd_KMS_FLIP_STARTS (delete key) w in
    if reserve_ok (size_of KmsFlipEvent_layout) w1
    then submit_world (EvKmsFlip (kms_event e key kind (kms_sequence e ctx kind)
           (KMS_FLIP_STARTS w !! key) (clock w))) w1
    else drop_world e DROP_RINGBUF_RESERVE_FAILED w1.
Proof.
  intros Hk. unfold exec, try_kms_flip_done, emit_kms_flip_event, bpf_ktime_get_ns. cbv zeta.
  rewrite run_bind, run_map_get. cbn [fst snd]. rewrite Hk. run_simpl.
  by destruct (reserve_ok _ _).
Qed.

(** What the flags of a completion say. *)
Lemma kms_event_flags e key kind seq start now :
  let ev := kms_event e key kind seq start now in
  has_flag (kf_flags ev) KMS_FLIP_HAS_DONE_NS = true /\
  has_flag (kf_flags ev) KMS_FLIP_HAS_CRTC = negb (kk_crtc_id key =? 0) /\
  has_flag (kf_flags ev) KMS_FLIP_HAS_DURATION_NS = bool_decide (is_Some start) /\
  has_flag (kf_flags ev) KMS_FLIP_HAS_REQUEST_NS = bool_decide (is_Some start) /\
  has_flag (kf_flags ev) KMS_FLIP_HAS_SEQUENCE = bool_decide (is_Some seq).
Proof. unfold kms_event. simpl. by destruct (negb _), seq, start. Qed.

Context (e e' : Env) (ctx ctx' : TracePointContext) (w w' : World).
Context (p c cc cr pi kind c' cr' pi' : Z) (key : KmsFlipKey).

(** A flip requested on a known card and completed later under the same key is
    reported as one interval with the two times and the duration flag, and the request
    is gone afterwards. *)
Theorem kms_flip_interval_reported :
  fill_kms_flip_key p c ctx cr pi = Some key -> kk_card_minor_known key = 1 -> cc <> 0 ->
  insert_ok (S_KMS_FLIP_STARTS key) w = true ->
  fill_kms_flip_key (Z.shiftr kind 16) c' ctx' cr' pi' = Some key ->
  KMS_FLIP_STARTS w' !! key =
    KMS_FLIP_STARTS (exec (try_kms_flip_request e ctx p c cc cr pi) w) !! key ->
  reserve_ok (size_of KmsFlipEvent_layout) (upd_KMS_FLIP_STARTS (delete key) w') = true ->
  let w'' := exec (try_kms_flip_done e' ctx' kind c' cr' pi') w' in
  exists ev, EVENTS w'' = EVENTS w' ++ [EvKmsFlip ev] /\
    kf_event_kind ev = KMS_FLIP_EVENT_INTERVAL /\ kf_request_ns ev = clock w /\
    kf_done_ns ev = clock w' /\ kf_duration_ns ev = saturating_sub (clock w') (clock w) /\
    has_flag (kf_flags ev) KMS_FLIP_HAS_DURATION_NS = true /\
    KMS_FLIP_STARTS w'' = delete key (KMS_FLIP_STARTS w').
Proof using Type.
  intros Hk Hknown Hcc Hok Hk' Hsame Hres. cbv zeta.
  rewrite (exec_kms_request e ctx p c cc cr pi key), Hok in Hsame by done.
  simpl in Hsame. rewrite lookup_insert_eq in Hsame.
  rewrite (exec_kms_done e' ctx' kind c' cr' pi' key) by done. cbv zeta. rewrite Hres, Hsame.
  eexists. split; [done|].
  pose proof (kms_event_flags e' key kind (kms_sequence e' ctx' kind) (Some (clock w)) (clock w'))
    as (_ & _ & Hf & _). by rewrite Hf.
Qed.

(** A completion that does not know its card, or has no stored request, never
    claims a duration: the event keeps the kind of the completion, its duration and
    request time are zero and their flags clear. *)
Theorem kms_no_ambiguous_duration :
  kms_inv w -> fill_kms_flip_key (Z.shiftr kind 16) c ctx cr pi = Some key ->
  (read_optional_u32 ctx c = None \/ KMS_FLIP_STARTS w !! key = None) ->
  reserve_ok (size_of KmsFlipEvent_layout) (upd_KMS_FLIP_STARTS (delete key) w) = true ->
  exists ev,
    EVENTS (exec (try_kms_flip_done e ctx kind c cr pi) w) = EVENTS w ++ [EvKmsFlip ev] /\
    kf_event_kind ev = Z.land kind 65535 /\ kf_duration_ns ev = 0 /\ kf_request_ns ev = 0 /\
    has_flag (kf_flags ev) KMS_FLIP_HAS_DURATION_NS = false /\
    has_flag (kf_flags ev) KMS_FLIP_HAS_REQUEST_NS = false.
Proof using Type.
  intros Hinv Hk Hno Hres. rewrite (exec_kms_done e ctx kind c cr pi key) by done.
  cbv zeta. rewrite Hres.
  assert (Hn : KMS_FLIP_STARTS w !! key = None).
  { destruct Hno as [Hno|?]; [|done]. destruct (KMS_FLIP_STARTS w !! key) eqn:Hs; [|done].
    apply fill_kms_flip_key_spec in Hk as (_ & _ & [Hk _] & _).
    apply Hinv, Hk in Hs as [? Hs]. congruence. }
  rewrite Hn. eexists. split; [done|].
  pose proof (kms_event_flags e key kind (kms_sequence e ctx kind) None (clock w))
    as (_ & _ & Hf & Hf' & _). by rewrite Hf, Hf'.
Qed.
End theorems.
