(* ===== verification/DrmFence.v ===== *)
(** * DRM fence waits and signals

    [stutter-ebpf/src/drm_fence.rs].  A fence is identified by its context (or
    the hash of its timeline) and its sequence number.  A wait's end takes out the
    wait's start and the fence's signal and reports the interval with both sides;
    an end without a start is reported as such and counted. *)

From S2P Require Import Prelude Prog Abi Maps Typing WakeupData RunnableDepth Accounting Lifecycle.

Record FenceIdentity := { fi_key : FenceKey; fi_flags : Z; fi_timeline_hash : Z }.

(** [None] is the [false] result, [Some] is [true] with the identity filled in. *)
Definition fill_fence_identity (ctx : TracePointContext)
    (context_offset seqno_offset timeline_offset : Z) : option FenceIdentity :=
  let context := read_optional_u64 ctx context_offset in
  let_else seqno := read_optional_u64 ctx seqno_offset or None;
  let timeline_hash := default 0 (read_optional_u64 ctx timeline_offset) in
  let has_timeline :=
    match read_optional_u64 ctx timeline_offset with Some _ => true | None => false end &&
    negb (timeline_hash =? 0) in
  let_else key_context :=
    match context with
    | Some context => Some context
    | None => if has_timeline then Some timeline_hash else None
    end or None;
  let flags := DRM_FENCE_HAS_SEQNO in
  let flags := match context with Some _ => Z.lor flags DRM_FENCE_HAS_CONTEXT | None => flags end in
  let flags := if has_timeline then Z.lor flags DRM_FENCE_HAS_TIMELINE else flags in
  Some {| fi_key := {| fk_context := key_context; fk_seqno := seqno |}; fi_flags := flags;
          fi_timeline_hash := if has_timeline then timeline_hash else 0 |}.

(** What the end of a wait knows: with its start, or without. *)
Record WaitOutcome := {
  wo_event_kind : Z; wo_wait_start_ns : Z; wo_duration_ns : Z; wo_pid : Z; wo_tid : Z;
  wo_provider : Z; wo_gpu_role : Z; wo_signal_ns : Z; wo_driver_id : Z; wo_extra_flags : Z }.

Definition exporter_flag (signal : option FenceSignal) : Z :=
  match signal with Some _ => DRM_FENCE_IS_EXPORTER_SIDE | None => 0 end.

Definition outcome_with_start (now : Z) (start : FenceWaitStart) (signal : option FenceSignal)
  : WaitOutcome := {|
  wo_event_kind := DRM_FENCE_EVENT_WAIT_INTERVAL;
  wo_wait_start_ns := fw_ts start;
  wo_duration_ns := saturating_sub now (fw_ts start);
  wo_pid := fw_pid start; wo_tid := fw_tid start;
  wo_provider := fw_provider start; wo_gpu_role := fw_gpu_role start;
  wo_signal_ns := match signal with Some s => fs_ts s | None => 0 end;
  wo_driver_id := match signal with Some s => fs_provider s | None => fw_provider start end;
  wo_extra_flags := Z.lor (Z.lor (Z.lor DRM_FENCE_HAS_DURATION DRM_FENCE_HAS_PID)
                             DRM_FENCE_IS_IMPORTER_SIDE) (exporter_flag signal) |}.

Definition outcome_without_start (signal : option FenceSignal) : WaitOutcome := {|
  wo_event_kind := DRM_FENCE_EVENT_WAIT_DONE;
  wo_wait_start_ns := 0; wo_duration_ns := 0; wo_pid := 0; wo_tid := 0;
  wo_provider := match signal with Some s => fs_provider s | None => 0 end;
  wo_gpu_role := 0;
  wo_signal_ns := match signal with Some s => fs_ts s | None => 0 end;
  wo_driver_id := match signal with Some s => fs_provider s | None => 0 end;
  wo_extra_flags := Z.lor (Z.lor DRM_FENCE_WAIT_DONE_WITHOUT_START DRM_FENCE_IS_IMPORTER_SIDE)
                      (exporter_flag signal) |}.

Definition wait_done_event (e : Env) (identity : FenceIdentity) (now : Z) (o : WaitOutcome)
  : DrmFenceEvent := {|
  df_kind := EVENT_DRM_FENCE; df_event_kind := wo_event_kind o; df_provider := wo_provider o;
  df_flags := Z.lor (fi_flags identity) (wo_extra_flags o);
  df_pid := wo_pid o; df_tid := wo_tid o; df_cpu := smp_processor_id e;
  df_driver_id := wo_driver_id o; df_gpu_role := wo_gpu_role o; df_pad0 := 0;
  df_context := fk_context (fi_key identity); df_seqno := fk_seqno (fi_key identity);
  df_timeline_hash := fi_timeline_hash identity;
  df_wait_start_ns := wo_wait_start_ns o; df_wait_done_ns := now; df_signal_ns := wo_signal_ns o;
  df_duration_ns := wo_duration_ns o; df_timestamp_ns := now |}.

Section drm_fence.
Context {K : Kernel}.

Definition try_drm_fence_wait_start (e : Env) (ctx : TracePointContext) : prog World Z :=
  let o := trace_offsets e in
  let_else identity := fill_fence_identity ctx (DRM_FENCE_WAIT_START_CONTEXT_OFFSET o)
    (DRM_FENCE_WAIT_START_SEQNO_OFFSET o) (DRM_FENCE_WAIT_START_TIMELINE_OFFSET o) or mret 0;
  now ← bpf_ktime_get_ns;
  let start := {| fw_ts := now; fw_pid := current_pid e; fw_tid := current_tid e;
                  fw_provider := DRM_FENCE_WAIT_START_PROVIDER o;
                  fw_gpu_role := DRM_FENCE_WAIT_START_GPU_ROLE o |} in
  _ ← map_insert (S_FENCE_WAIT_STARTS (fi_key identity))
        (upd_FENCE_WAIT_STARTS (<[fi_key identity := start]>));
  mret 0.

Definition try_drm_fence_wait_done (e : Env) (ctx : TracePointContext) : prog World Z :=
  let o := trace_offsets e in
  let_else identity := fill_fence_identity ctx (DRM_FENCE_WAIT_DONE_CONTEXT_OFFSET o)
    (DRM_FENCE_WAIT_DONE_SEQNO_OFFSET o) (DRM_FENCE_WAIT_DONE_TIMELINE_OFFSET o) or mret 0;
  now ← bpf_ktime_get_ns;
  start ← map_get (fun w => FENCE_WAIT_STARTS w !! fi_key identity);
  _ ← map_remove (S_FENCE_WAIT_STARTS (fi_key identity))
        (upd_FENCE_WAIT_STARTS (delete (fi_key identity)));
  signal ← map_get (fun w => FENCE_SIGNAL_TIMES w !! fi_key identity);
  _ ← map_remove (S_FENCE_SIGNAL_TIMES (fi_key identity))
        (upd_FENCE_SIGNAL_TIMES (delete (fi_key identity)));
  outcome ← match start with
            | Some start => mret (outcome_with_start now start signal)
            | None =>
                increment_drop_counter e DROP_DRM_FENCE_MISSING_START ;;
                mret (outcome_without_start signal)
            end;
  emit_ringbuf_event e (size_of DrmFenceEvent_layout) 0
    (EvDrmFence (wait_done_event e identity now outcome))
    (mret 0).

Definition try_drm_fence_signal (e : Env) (ctx : TracePointContext) : prog World Z :=
  let o := trace_offsets e in
  let_else identity := fill_fence_identity ctx (DRM_FENCE_SIGNAL_CONTEXT_OFFSET o)
    (DRM_FENCE_SIGNAL_SEQNO_OFFSET o) (DRM_FENCE_SIGNAL_TIMELINE_OFFSET o) or mret 0;
  now ← bpf_ktime_get_ns;
  let provider := DRM_FENCE_SIGNAL_PROVIDER o in
  let gpu_role := DRM_FENCE_SIGNAL_GPU_ROLE o in
  _ ← map_insert (S_FENCE_SIGNAL_TIMES (fi_key identity))
        (upd_FENCE_SIGNAL_TIMES (<[fi_key identity :=
           {| fs_ts := now; fs_provider := provider; fs_gpu_role := gpu_role |}]>));
  emit_ringbuf_event e (size_of DrmFenceEvent_layout) 0
    (EvDrmFence {|
       df_kind := EVENT_DRM_FENCE; df_event_kind := DRM_FENCE_EVENT_SIGNAL;
       df_provider := provider;
       df_flags := Z.lor (fi_flags identity) DRM_FENCE_IS_EXPORTER_SIDE;
       df_pid := 0; df_tid := 0; df_cpu := smp_processor_id e;
       df_driver_id := provider; df_gpu_role := gpu_role; df_pad0 := 0;
       df_context := fk_context (fi_key identity); df_seqno := fk_seqno (fi_key identity);
       df_timeline_hash := fi_timeline_hash identity;
       df_wait_start_ns := 0; df_wait_done_ns := 0; df_signal_ns := now;
       df_duration_ns := 0; df_timestamp_ns := now |})
    (mret 0).
End drm_fence.

(** ** Identities *)

Definition identity_ok (i : FenceIdentity) : Prop :=
  in_u64 (fk_context (fi_key i)) /\ in_u64 (fk_seqno (fi_key i)) /\
  in_u64 (fi_timeline_hash i) /\ 0 <= fi_flags i < 8.

Lemma read_optional_u64_range ctx off v : read_optional_u64 ctx off = Some v -> in_u64 v.
Proof. unfold read_optional_u64. destruct (off =? 0); [done|]. apply read_u64_range. Qed.

Lemma fill_fence_identity_ok ctx a b c i : fill_fence_identity ctx a b c = Some i -> identity_ok i.
Proof.
  unfold fill_fence_identity. destruct (read_optional_u64 ctx b) as [seqno|] eqn:Hs; [|done].
  apply read_optional_u64_range in Hs.
  assert (Ht : in_u64 (default 0 (read_optional_u64 ctx c))).
  { destruct (read_optional_u64 ctx c) eqn:Ht; simpl; [|width].
    by eapply read_optional_u64_range. }
  destruct (_ && _); (destruct (read_optional_u64 ctx a) as [context|] eqn:Hc;
    [ apply read_optional_u64_range in Hc | ]); try done; intros [= <-];
    split_and!; simpl; try done; width.
Qed.

(** ** Typing and frame *)

Section typing.
Context {K : Kernel}.

(** A disjunction of flag words below [2 ^ 8] is a [u32]. *)
Lemma lor_flags a b : 0 <= a < 8 -> 0 <= b < 256 -> in_u32 (Z.lor a b).
Proof.
  intros [Ha Ha'] [Hb Hb']. split; [ by apply Z.lor_nonneg | ].
  destruct (Z.eq_dec (Z.lor a b) 0) as [->|Hne]; [lia|].
  assert (0 < Z.lor a b) by (pose proof (Z.lor_nonneg a b); lia).
  apply Z.log2_lt_pow2; [done|]. rewrite Z.log2_lor by done.
  assert (Z.log2 a <= Z.log2 255) by (apply Z.log2_le_mono; lia).
  assert (Z.log2 b <= Z.log2 255) by (apply Z.log2_le_mono; lia).
  change (Z.log2 255) with 7 in *. lia.
Qed.

Definition outcome_ok (o : WaitOutcome) : Prop :=
  in_u32 (wo_event_kind o) /\ in_u64 (wo_wait_start_ns o) /\ in_u64 (wo_duration_ns o) /\
  in_u32 (wo_pid o) /\ in_u32 (wo_tid o) /\ in_u32 (wo_provider o) /\ in_u32 (wo_gpu_role o) /\
  in_u64 (wo_signal_ns o) /\ in_u32 (wo_driver_id o) /\ 0 <= wo_extra_flags o < 256.

Lemma outcome_with_start_ok now start signal :
  in_u64 now -> fence_wait_ok start -> opt_ok fence_signal_ok signal ->
  outcome_ok (outcome_with_start now start signal).
Proof.
  intros Hn (H1 & H2 & H3 & H4 & H5) Hs.
  destruct signal as [s|]; [ destruct Hs as (Hs1 & Hs2 & _) | ];
    unfold outcome_ok; simpl; split_and!; try done; auto with machine; width.
Qed.

Lemma outcome_without_start_ok signal :
  opt_ok fence_signal_ok signal -> outcome_ok (outcome_without_start signal).
Proof.
  intros Hs. destruct signal as [s|]; [ destruct Hs as (Hs1 & Hs2 & _) | ];
    unfold outcome_ok; simpl; split_and!; try done; auto with machine; width.
Qed.

Lemma wait_done_event_ok e i now o :
  env_ok e -> identity_ok i -> in_u64 now -> outcome_ok o ->
  event_ok (EvDrmFence (wait_done_event e i now o)).
Proof.
  intros (Hc & _) (I1 & I2 & I3 & I4) Hn
    (O1 & O2 & O3 & O4 & O5 & O6 & O7 & O8 & O9 & O10).
  typed_event; try done. by apply lor_flags.
Qed.

Lemma fence_wait_ok_intro a b c d f :
  in_u64 a -> in_u32 b -> in_u32 c -> in_u32 d -> in_u32 f ->
  fence_wait_ok {| fw_ts := a; fw_pid := b; fw_tid := c; fw_provider := d; fw_gpu_role := f |}.
Proof. done. Qed.
Lemma fence_signal_ok_intro a b c : in_u64 a -> in_u32 b -> in_u32 c ->
  fence_signal_ok {| fs_ts := a; fs_provider := b; fs_gpu_role := c |}.
Proof. done. Qed.
Hint Resolve fence_wait_ok_intro fence_signal_ok_intro : machine.

Lemma env_ok_providers e : env_ok e ->
  in_u32 (DRM_FENCE_WAIT_START_PROVIDER (trace_offsets e)) /\
  in_u32 (DRM_FENCE_WAIT_START_GPU_ROLE (trace_offsets e)) /\
  in_u32 (DRM_FENCE_SIGNAL_PROVIDER (trace_offsets e)) /\
  in_u32 (DRM_FENCE_SIGNAL_GPU_ROLE (trace_offsets e)).
Proof. intros (_ & _ & _ & H). decompose_Forall_hyps. by split_and!. Qed.

Lemma typed_fence_wait_start e ctx : env_ok e ->
  typed_w (fun _ => True) (try_drm_fence_wait_start e ctx).
Proof.
  intros (H1 & H2 & _)%env_ok_providers. unfold try_drm_fence_wait_start. typecheck.
Qed.

Lemma typed_fence_wait_done e ctx : env_ok e ->
  typed_w (fun _ => True) (try_drm_fence_wait_done e ctx).
Proof.
  intros He. unfold try_drm_fence_wait_done.
  typecheck; apply wait_done_event_ok; try done;
    (by eapply fill_fence_identity_ok) || (by apply outcome_with_start_ok) ||
    (by apply outcome_without_start_ok).
Qed.

Lemma typed_fence_signal e ctx : env_ok e -> typed_w (fun _ => True) (try_drm_fence_signal e ctx).
Proof.
  intros He. destruct (env_ok_providers _ He) as (_ & _ & H3 & H4). destruct He as (Hc & _).
  unfold try_drm_fence_signal. typecheck.
  match goal with H : fill_fence_identity _ _ _ _ = Some _ |- _ =>
    apply fill_fence_identity_ok in H as (I1 & I2 & I3 & I4) end.
  typed_event; try done. by apply lor_flags.
Qed.

Lemma fence_wait_start_step exact e ctx :
  typed (sched_inv exact) (fun _ => True) (try_drm_fence_wait_start e ctx).
Proof. unfold try_drm_fence_wait_start, bpf_ktime_get_ns. cbv zeta. stepwise keep_sched. Qed.

Lemma fence_wait_done_step exact e ctx :
  typed (sched_inv exact) (fun _ => True) (try_drm_fence_wait_done e ctx).
Proof. unfold try_drm_fence_wait_done, bpf_ktime_get_ns. cbv zeta. stepwise keep_sched. Qed.

Lemma fence_signal_step exact e ctx :
  typed (sched_inv exact) (fun _ => True) (try_drm_fence_signal e ctx).
Proof. unfold try_drm_fence_signal, bpf_ktime_get_ns. cbv zeta. stepwise keep_sched. Qed.
End typing.

(** ** The probes, run alone *)

Section theorems.
Context {K : Kernel}.

Definition wait_start_identity (e : Env) (ctx : TracePointContext) : option FenceIdentity :=
  fill_fence_identity ctx (DRM_FENCE_WAIT_START_CONTEXT_OFFSET (trace_offsets e))
    (DRM_FENCE_WAIT_START_SEQNO_OFFSET (trace_offsets e))
    (DRM_FENCE_WAIT_START_TIMELINE_OFFSET (trace_offsets e)).
Definition wait_done_identity (e : Env) (ctx : TracePointContext) : option FenceIdentity :=
  fill_fence_identity ctx (DRM_FENCE_WAIT_DONE_CONTEXT_OFFSET (trace_offsets e))
    (DRM_FENCE_WAIT_DONE_SEQNO_OFFSET (trace_offsets e))
    (DRM_FENCE_WAIT_DONE_TIMELINE_OFFSET (trace_offsets e)).
Definition signal_identity (e : Env) (ctx : TracePointContext) : option FenceIdentity :=
  fill_fence_identity ctx (DRM_FENCE_SIGNAL_CONTEXT_OFFSET (trace_offsets e))
    (DRM_FENCE_SIGNAL_SEQNO_OFFSET (trace_offsets e))
    (DRM_FENCE_SIGNAL_TIMELINE_OFFSET (trace_offsets e)).

(** An identity needs a sequence number and a context or a non-zero timeline hash;
    the context wins, and the flags say which were there. *)
Theorem fence_identity_spec ctx a b c :
  match fill_fence_identity ctx a b c with
  | None =>
      read_optional_u64 ctx b = None \/
      (read_optional_u64 ctx a = None /\ default 0 (read_optional_u64 ctx c) = 0)
  | Some i =>
      read_optional_u64 ctx b = Some (fk_seqno (fi_key i)) /\
      fi_timeline_hash i = default 0 (read_optional_u64 ctx c) /\
      fk_context (fi_key i) = default (fi_timeline_hash i) (read_optional_u64 ctx a) /\
      Z.testbit (fi_flags i) 1 = true /\
      Z.testbit (fi_flags i) 0 = bool_decide (is_Some (read_optional_u64 ctx a)) /\
      Z.testbit (fi_flags i) 2 = negb (fi_timeline_hash i =? 0)
  end.
Proof.
  unfold fill_fence_identity. destruct (read_optional_u64 ctx b) as [seqno|]; [|by left].
  destruct (read_optional_u64 ctx a) as [context|], (read_optional_u64 ctx c) as [t|];
    simpl; try destruct (Z.eqb_spec t 0) as [->|Ht]; simpl; auto;
    try (by split_and!); apply Z.eqb_neq in Ht; rewrite Ht; by split_and!.
Qed.

Lemma exec_wait_start e ctx i w : wait_start_identity e ctx = Some i ->
  exec (try_drm_fence_wait_start e ctx) w =
    if insert_ok (S_FENCE_WAIT_STARTS (fi_key i)) w
    then upd_FENCE_WAIT_STARTS (<[fi_key i :=
           {| fw_ts := clock w; fw_pid := current_pid e; fw_tid := current_tid e;
              fw_provider := DRM_FENCE_WAIT_START_PROVIDER (trace_offsets e);
              fw_gpu_role := DRM_FENCE_WAIT_START_GPU_ROLE (trace_offsets e) |}]>) w
    else w.
Proof.
  unfold wait_start_identity. intros Hi. unfold exec, try_drm_fence_wait_start, bpf_ktime_get_ns.
  cbv zeta. rewrite Hi. run_simpl. by destruct (insert_ok _ w).
Qed.

Definition wait_outcome (k : FenceKey) (w : World) : WaitOutcome :=
  match FENCE_WAIT_STARTS w !! k with
  | Some start => outcome_with_start (clock w) start (FENCE_SIGNAL_TIMES w !! k)
  | None => outcome_without_start (FENCE_SIGNAL_TIMES w !! k)
  end.

(** The world after the wait's entries are taken out, with a missing start counted. *)
Definition wait_taken (e : Env) (k : FenceKey) (w : World) : World :=
  let w1 := upd_FENCE_SIGNAL_TIMES (delete k) (upd_FENCE_WAIT_STARTS (delete k) w) in
  match FENCE_WAIT_STARTS w !! k with
  | Some _ => w1
  | None => drop_world e DROP_DRM_FENCE_MISSING_START w1
  end.

Lemma exec_wait_done e ctx i w : wait_done_identity e ctx = Some i ->
  exec (try_drm_fence_wait_done e ctx) w =
    let w1 := wait_taken e (fi_key i) w in
    if reserve_ok (size_of DrmFenceEvent_layout) w1
    then submit_world (EvDrmFence
           (wait_done_event e i (clock w) (wait_outcome (fi_key i) w))) w1
    else drop_world e DROP_RINGBUF_RESERVE_FAILED w1.
Proof.
  unfold wait_done_identity. intros Hi. unfold exec, try_drm_fence_wait_done, bpf_ktime_get_ns.
  cbv zeta. rewrite Hi. run_simpl. unfold wait_taken, wait_outcome.
  destruct (FENCE_WAIT_STARTS w !! fi_key i); run_simpl; by destruct (reserve_ok _ _).
Qed.

Context (e e' : Env) (ctx ctx' : TracePointContext) (i i' : FenceIdentity) (w w' : World).

(** A wait that started in [w] and ends in a later world [w'] on the same fence is
    reported as one interval with the waiter's ids, the two times and, when the fence
    was signalled in between, the time of the signal; both entries are gone afterwards. *)
Theorem fence_wait_interval_reported :
  wait_start_identity e ctx = Some i -> wait_done_identity e' ctx' = Some i' ->
  fi_key i' = fi_key i -> insert_ok (S_FENCE_WAIT_STARTS (fi_key i)) w = true ->
  FENCE_WAIT_STARTS w' !! fi_key i =
    FENCE_WAIT_STARTS (exec (try_drm_fence_wait_start e ctx) w) !! fi_key i ->
  reserve_ok (size_of DrmFenceEvent_layout) (wait_taken e' (fi_key i) w') = true ->
  let w'' := exec (try_drm_fence_wait_done e' ctx') w' in
  exists ev, EVENTS w'' = EVENTS w' ++ [EvDrmFence ev] /\
    df_event_kind ev = DRM_FENCE_EVENT_WAIT_INTERVAL /\
    df_pid ev = current_pid e /\ df_tid ev = current_tid e /\
    df_wait_start_ns ev = clock w /\ df_wait_done_ns ev = clock w' /\
    df_duration_ns ev = saturating_sub (clock w') (clock w) /\
    df_signal_ns ev = match FENCE_SIGNAL_TIMES w' !! fi_key i with
                      | Some s => fs_ts s | None => 0 end /\
    FENCE_WAIT_STARTS w'' = delete (fi_key i) (FENCE_WAIT_STARTS w') /\
    FENCE_SIGNAL_TIMES w'' = delete (fi_key i) (FENCE_SIGNAL_TIMES w') /\
    DROP_COUNTERS w'' = DROP_COUNTERS w'.
Proof using Type.
  intros Hi Hi' Hkey Hok Hsame Hres. cbv zeta.
  rewrite (exec_wait_start e ctx i), Hok in Hsame by done. simpl in Hsame.
  rewrite lookup_insert_eq in Hsame.
  rewrite (exec_wait_done e' ctx' i') by done. cbv zeta. rewrite Hkey, Hres.
  unfold wait_taken, wait_outcome. rewrite Hsame. eexists. split; [done|]. simpl.
  by split_and!.
Qed.

(** The end of a wait whose start was not seen is reported without duration, start
    or waiter, is marked as such, and is counted. *)
Theorem fence_wait_done_without_start :
  wait_done_identity e ctx = Some i -> FENCE_WAIT_STARTS w !! fi_key i = None ->
  reserve_ok (size_of DrmFenceEvent_layout) (wait_taken e (fi_key i) w) = true ->
  let w' := exec (try_drm_fence_wait_done e ctx) w in
  exists ev, EVENTS w' = EVENTS w ++ [EvDrmFence ev] /\
    df_event_kind ev = DRM_FENCE_EVENT_WAIT_DONE /\ df_duration_ns ev = 0 /\
    df_wait_start_ns ev = 0 /\ df_pid ev = 0 /\ df_tid ev = 0 /\
    Z.testbit (df_flags ev) 7 = true /\ Z.testbit (df_flags ev) 3 = false /\
    DROP_COUNTERS w' = DROP_COUNTERS (drop_world e DROP_DRM_FENCE_MISSING_START w).
Proof using Type.
  intros Hi Hn Hres. cbv zeta. rewrite (exec_wait_done e ctx i) by done. cbv zeta. rewrite Hres.
  unfold wait_taken, wait_outcome. rewrite Hn. eexists. split; [done|].
  cbn -[Z.testbit Z.lor].
  assert (Hf : Z.testbit (fi_flags i) 3 = false).
  { apply fill_fence_identity_ok in Hi as (_ & _ & _ & H0 & H8).
    destruct (Z.eq_dec (fi_flags i) 0) as [->|]; [done|].
    apply Z.bits_above_log2; [done|].
    apply Z.log2_lt_pow2; lia. }
  rewrite !Z.lor_spec, Hf. by destruct (FENCE_SIGNAL_TIMES w !! fi_key i); split_and!;
    rewrite ?orb_true_r.
Qed.
End theorems.
