(* ===== verification/Probes.v ===== *)
(** * The probes, by entry point

    The programs of [stutter-ebpf/src/main.rs] as one dispatch, and what holds of
    every atomic step of every one of them. *)

From S2P Require Import Prelude Prog Abi Maps Typing WakeupData RunnableDepth Accounting.
From S2P Require Import Scheduler Lifecycle Irq BlockIo Kms DrmFence.

(** The programs of [main.rs], by name. *)
Inductive Probe :=
| sched_wakeup | sched_wakeup_new | sched_switch | sched_migrate_task
| sched_process_exec | cpu_frequency | sched_stat_wait | sched_process_exit
| major_fault | minor_fault | irq_handler_entry | irq_handler_exit
| block_rq_issue | block_rq_complete | i915_flip_request | i915_flip_done
| drm_flip_request | drm_flip_done | drm_vblank_event | amdgpu_flip_request
| amdgpu_flip_done | amdgpu_vblank_event | drm_fence_wait_start | drm_fence_wait_done
| drm_fence_signal.

Definition handler {K : Kernel} (p : Probe) (e : Env) (ctx : TracePointContext) : prog World Z :=
  match p with
  | sched_wakeup => try_sched_wakeup e ctx
  | sched_wakeup_new => try_sched_wakeup e ctx
  | sched_switch => try_sched_switch e ctx
  | sched_migrate_task => try_sched_migrate_task e ctx
  | sched_process_exec => try_sched_process_exec e
  | cpu_frequency => try_cpu_frequency e ctx
  | sched_stat_wait => try_sched_stat_wait e ctx
  | sched_process_exit => try_sched_process_exit e
  | major_fault => try_major_fault e
  | minor_fault => try_minor_fault e
  | irq_handler_entry => try_irq_handler_entry e ctx
  | irq_handler_exit => try_irq_handler_exit e ctx
  | block_rq_issue => try_block_rq_issue e ctx
  | block_rq_complete => try_block_rq_complete e ctx
  | i915_flip_request => try_i915_flip_request e ctx
  | i915_flip_done => try_i915_flip_done e ctx
  | drm_flip_request => try_drm_flip_request e ctx
  | drm_flip_done => try_drm_flip_done e ctx
  | drm_vblank_event => try_drm_vblank_event e ctx
  | amdgpu_flip_request => try_amdgpu_flip_request e ctx
  | amdgpu_flip_done => try_amdgpu_flip_done e ctx
  | amdgpu_vblank_event => try_amdgpu_vblank_event e ctx
  | drm_fence_wait_start => try_drm_fence_wait_start e ctx
  | drm_fence_wait_done => try_drm_fence_wait_done e ctx
  | drm_fence_signal => try_drm_fence_signal e ctx
  end.

(** ** Every probe, step by step *)

Ltac unfold_helpers :=
  unfold try_sched_wakeup, try_sched_switch, switch_taken, try_sched_migrate_task,
    try_sched_stat_wait, try_sched_process_exit, try_sched_process_exec, try_major_fault,
    try_minor_fault, try_cpu_frequency, try_irq_handler_entry, try_irq_handler_exit,
    try_block_rq_issue, try_block_rq_complete, try_drm_fence_wait_start,
    try_drm_fence_wait_done, try_drm_fence_signal,
    next_wakeup_seq, record_wakeup, consume_pending_wakeup,
    drop_pending_wakeup_after_cursor_failure, remove_for_exit, same_wakeup_consumed,
    mark_task_runnable, mark_task_running, remove_runnable_task_if_present,
    increment_target_pending, decrement_target_pending, read_cpu_runnable_depth,
    increment_cpu_runnable_depth, decrement_cpu_runnable_depth,
    is_target_pid_or_current_cgroup, is_target_current_cgroup, is_target_pid, is_target_irq,
    bpf_ktime_get_ns; cbv zeta.

Section steps.
Context {K : Kernel}.

Lemma handler_typed p e ctx : env_ok e -> typed_w (fun _ => True) (handler p e ctx).
Proof.
  intros He. destruct p; simpl; eauto using typed_sched_wakeup, typed_sched_switch,
    typed_sched_migrate_task, typed_process_exec, typed_cpu_frequency, typed_sched_stat_wait,
    typed_process_exit, typed_major_fault, typed_minor_fault, typed_irq_entry, typed_irq_exit,
    typed_block_rq_issue, typed_block_rq_complete, typed_kms_flip_request,
    typed_fence_wait_start, typed_fence_wait_done, typed_fence_signal;
    by apply typed_kms_flip_done.
Qed.

Lemma handler_kms p e ctx : typed kms_inv (fun _ => True) (handler p e ctx).
Proof.
  destruct p; simpl; try apply kms_inv_request; try apply kms_inv_done;
    unfold_helpers; stepwise assumption.
Qed.
End steps.


(** ** Probes that leave the pending wakeups alone *)

(** The latency events among the records. *)
Definition sched_events (evs : list RingEvent) : list SchedulerEvent :=
  omap (fun ev => match ev with EvScheduler e => Some e | _ => None end) evs.

Lemma sched_events_app l l' : sched_events (l ++ l') = sched_events l ++ sched_events l'.
Proof. apply omap_app. Qed.

(** Same pending wakeups and clock as [w0], and no latency event since. *)
Definition quiet (w0 w : World) : Prop :=
  pending_map w = pending_map w0 /\ clock w = clock w0 /\
  exists evs, EVENTS w = EVENTS w0 ++ evs /\ sched_events evs = [].

Lemma quiet_refl w : quiet w w.
Proof. split; [done|]. split; [done|]. exists []. by rewrite app_nil_r. Qed.

Lemma quiet_emit w0 w ev :
  sched_events [ev] = [] -> quiet w0 w -> quiet w0 (upd_EVENTS (fun l => l ++ [ev]) w).
Proof.
  intros Hev (Hp & Hc & evs & He & Hs). split; [done|]. split; [done|]. exists (evs ++ [ev]).
  simpl. rewrite He, sched_events_app, Hs, Hev. by rewrite app_assoc.
Qed.

Ltac keep_quiet := first [ assumption | apply quiet_emit; [ reflexivity | assumption ] ].

Definition touches_wakeups (p : Probe) : bool :=
  match p with
  | sched_wakeup | sched_wakeup_new | sched_switch | sched_process_exit => true
  | _ => false
  end.

Lemma handler_quiet {K : Kernel} p e ctx w :
  touches_wakeups p = false -> typed (quiet w) (fun _ => True) (handler p e ctx).
Proof.
  intros Hp. destruct p; try done; simpl;
    unfold try_i915_flip_request, try_i915_flip_done, try_drm_flip_request, try_drm_flip_done,
      try_drm_vblank_event, try_amdgpu_flip_request, try_amdgpu_flip_done,
      try_amdgpu_vblank_event, try_kms_flip_request, try_kms_flip_done, emit_kms_flip_event;
    unfold_helpers; stepwise keep_quiet.
Qed.
