(* ===== verification/LatencySpec.v ===== *)
(** * The latency specification

    What the scheduler probes promise together, without maps, cursors and
    counters: a clock, at most one pending wakeup per task, and four moves.  The
    tracer refines this machine ([Tracer]); here are the facts about every trace
    of the machine that make the reported latencies meaningful. *)

From S2P Require Import Prelude Prog Abi Maps.

Record LatState := { ls_pending : gmap Z WakeupData; ls_now : Z }.

Inductive lat_label :=
| L_tick
| L_record (pid : Z) (d : WakeupData)
| L_report (pid : Z) (d : WakeupData) (now : Z)
| L_lose (pid : Z)
| L_tau.

Inductive lat_step : LatState -> lat_label -> LatState -> Prop :=
| lat_tick m now t : now <= t ->
    lat_step {| ls_pending := m; ls_now := now |} L_tick {| ls_pending := m; ls_now := t |}
| lat_record m now pid d : wd_ts d = now ->
    lat_step {| ls_pending := m; ls_now := now |} (L_record pid d)
             {| ls_pending := <[pid := d]> m; ls_now := now |}
| lat_report m now pid d : m !! pid = Some d ->
    lat_step {| ls_pending := m; ls_now := now |} (L_report pid d now)
             {| ls_pending := delete pid m; ls_now := now |}
| lat_lose m now pid :
    lat_step {| ls_pending := m; ls_now := now |} (L_lose pid)
             {| ls_pending := delete pid m; ls_now := now |}
| lat_tau s : lat_step s L_tau s.

Inductive lat_trace : list lat_label -> LatState -> Prop :=
| lat_nil : lat_trace [] {| ls_pending := ∅; ls_now := 0 |}
| lat_snoc tr s l s' : lat_trace tr s -> lat_step s l s' -> lat_trace (tr ++ [l]) s'.

Definition is_record (pid : Z) (l : lat_label) : bool :=
  match l with L_record p _ => p =? pid | _ => false end.
Definition is_report (pid : Z) (l : lat_label) : bool :=
  match l with L_report p _ _ => p =? pid | _ => false end.

Definition count (f : lat_label -> bool) (tr : list lat_label) : nat := length (List.filter f tr).

(** The reports of a trace, oldest first. *)
Definition reports_of (tr : list lat_label) : list (Z * WakeupData * Z) :=
  omap (fun l => match l with L_report pid d now => Some (pid, d, now) | _ => None end) tr.

Lemma count_snoc f tr l : count f (tr ++ [l]) = (count f tr + if f l then 1 else 0)%nat.
Proof.
  unfold count. rewrite List.filter_app, length_app. simpl. by destruct (f l).
Qed.

Lemma reports_of_app tr tr' : reports_of (tr ++ tr') = reports_of tr ++ reports_of tr'.
Proof. apply omap_app. Qed.

(** ** Invariant of every trace *)

Record lat_inv (tr : list lat_label) (s : LatState) : Prop := {
  li_recorded : forall pid d, ls_pending s !! pid = Some d ->
    L_record pid d ∈ tr /\ wd_ts d <= ls_now s;
  li_counts : forall pid,
    (count (is_report pid) tr + (if bool_decide (is_Some (ls_pending s !! pid)) then 1 else 0)
       <= count (is_record pid) tr)%nat;
}.

Lemma lat_inv_step tr s l s' : lat_inv tr s -> lat_step s l s' -> lat_inv (tr ++ [l]) s'.
Proof.
  intros [Hr Hc] Hstep. split.
  - intros pid d Hd. rewrite elem_of_app, list_elem_of_singleton.
    destruct Hstep as [ m now t Ht | m now p x Hx | m now p x Hx | m now p | s ]; simpl in *.
    + destruct (Hr _ _ Hd). split; [ tauto | lia ].
    + apply lookup_insert_Some in Hd as [[-> ->]|[_ Hd]]; [ split; [tauto|lia] | ].
      destruct (Hr _ _ Hd). tauto.
    + apply lookup_delete_Some in Hd as [_ Hd]. destruct (Hr _ _ Hd). tauto.
    + apply lookup_delete_Some in Hd as [_ Hd]. destruct (Hr _ _ Hd). tauto.
    + destruct (Hr _ _ Hd). tauto.
  - intros pid. rewrite !count_snoc. specialize (Hc pid).
    destruct Hstep as [ m now t Ht | m now p x Hx | m now p x Hx | m now p | s ]; simpl in *;
      try lia.
    + destruct (Z.eqb_spec p pid) as [->|].
      * rewrite lookup_insert_eq, bool_decide_true by eauto. case_bool_decide; lia.
      * rewrite lookup_insert_ne by done. lia.
    + destruct (Z.eqb_spec p pid) as [->|].
      * rewrite lookup_delete_eq, bool_decide_false by (by intros []).
        rewrite bool_decide_true in Hc by eauto. lia.
      * rewrite lookup_delete_ne by done. lia.
    + destruct (Z.eq_dec p pid) as [->|].
      * rewrite lookup_delete_eq, bool_decide_false by (by intros []). case_bool_decide; lia.
      * rewrite lookup_delete_ne by done. lia.
Qed.

Lemma lat_trace_inv tr s : lat_trace tr s -> lat_inv tr s.
Proof.
  induction 1 as [ | tr s l s' _ IH Hstep ]; [ | by eapply lat_inv_step ].
  split.
  - intros pid d. simpl. by rewrite lookup_empty.
  - intros pid. simpl. by rewrite lookup_empty.
Qed.

Lemma lat_trace_prefix tr tr' s : lat_trace (tr ++ tr') s -> exists s', lat_trace tr s'.
Proof.
  revert s. induction tr' as [ | l tr' IH ] using rev_ind; intros s H.
  - rewrite app_nil_r in H. eauto.
  - rewrite app_assoc in H. inversion H as [ Hnil | tr0 s0 l0 s1 Ht Hs Heq ]; subst.
    + by destruct (tr ++ tr').
    + apply app_inj_tail in Heq as [-> _]. by eapply IH.
Qed.

(** In every trace of the specification a report is of a wakeup recorded before
    it, its latency is the non-negative time that passed since, and a task has
    never more reports than recorded wakeups. *)
Lemma lat_trace_sound tr s :
  lat_trace tr s ->
  (forall tr1 pid d now tr2, tr = tr1 ++ L_report pid d now :: tr2 ->
     L_record pid d ∈ tr1 /\ wd_ts d <= now) /\
  (forall pid, (count (is_report pid) tr <= count (is_record pid) tr)%nat).
Proof.
  intros Htr. split.
  - intros tr1 pid d now tr2 ->.
    change (tr1 ++ L_report pid d now :: tr2) with (tr1 ++ [L_report pid d now] ++ tr2) in Htr.
    rewrite app_assoc in Htr. apply lat_trace_prefix in Htr as [s' Htr].
    inversion Htr as [ Hnil | tr0 s0 l0 s1 Ht Hs Heq ]; subst; [ by destruct tr1 | ].
    apply app_inj_tail in Heq as [-> ->].
    inversion Hs as [ | | m now' p x Hx | | ]; subst.
    by apply (li_recorded _ _ (lat_trace_inv _ _ Ht)).
  - intros pid. pose proof (li_counts _ _ (lat_trace_inv _ _ Htr) pid). lia.
Qed.
