(* ===== verification/Tracer.v ===== *)
(** * The tracer as a whole

    Runs of the probes of [Probes] with what the rest of the system may do between
    two of them (time passes, userspace drains the
    ring buffer and changes the target sets), and the theorems about whole runs:
    the invariant of every reachable state, the refinement of the abstract
    latency specification, and that every record a run emits, under every
    interleaving of the probes, is one the userspace decoder reads back. *)

From S2P Require Import Prelude Prog Abi Maps Typing WakeupData RunnableDepth Accounting.
From S2P Require Import Scheduler Lifecycle Irq BlockIo Kms DrmFence Probes LatencySpec.

(** What happens between two probes. *)
Inductive env_step : World -> World -> Prop :=
| es_tick t w : clock w <= t -> in_u64 t -> env_step w (upd_clock (fun _ => t) w)
| es_drain n w : env_step w (upd_EVENTS (drop n) w)
| es_pids f w : env_step w (upd_TARGET_PIDS f w)
| es_cgroups f w : env_step w (upd_TARGET_CGROUP_IDS f w)
| es_irqs f w : env_step w (upd_TARGET_IRQS f w).

(** A run from the empty maps, each probe to its end: [tracer_run log w] reaches
    [w] having submitted the records [log]. *)
Inductive tracer_run {K : Kernel} : list RingEvent -> World -> Prop :=
| tr_start : tracer_run [] empty_world
| tr_probe log w p e ctx evs :
    tracer_run log w -> env_ok e ->
    EVENTS (exec (handler p e ctx) w) = EVENTS w ++ evs ->
    tracer_run (log ++ evs) (exec (handler p e ctx) w)
| tr_env log w w' : tracer_run log w -> env_step w w' -> tracer_run log w'.

(** ** Reachable states *)

Section reachable.
Context {K : Kernel} (exact : bool) (HK : exact = true -> runnable_has_room K).

Lemma handler_sched p e ctx : env_ok e -> preserves (sched_inv exact) (handler p e ctx).
Proof using HK.
  intros He. assert (Hstep : forall q : prog World Z,
    typed (sched_inv exact) (fun _ => True) q -> preserves (sched_inv exact) q).
  { intros q Hq w Hw. by apply (typed_run _ _ _ _ Hq Hw). }
  destruct p; simpl; try (by apply sched_wakeup_inv); try (by apply sched_switch_inv);
    try apply sched_migrate_inv; try apply sched_stat_wait_inv; try apply process_exit_inv;
    apply Hstep; eauto using process_exec_step, major_fault_step, minor_fault_step,
      cpu_frequency_step, irq_entry_step, irq_exit_step, block_rq_issue_step,
      block_rq_complete_step, kms_flip_request_step, kms_flip_done_step,
      fence_wait_start_step, fence_wait_done_step, fence_signal_step.
Qed.

(** What holds in every state a run reaches. *)
Record tracer_inv (w : World) : Prop := {
  ti_world : world_ok w;
  ti_sched : sched_inv exact w;
  ti_kms : kms_inv w;
}.

Lemma sched_inv_empty : sched_inv exact empty_world.
Proof using Type.
  clear HK. assert (Hpm : pending_map empty_world = ∅) by apply map_imap_empty.
  split.
  - split; [ done | | ].
    + intros cpu _. unfold depth_of, runnable_count. simpl.
      by rewrite lookup_empty, count_map_empty.
    + simpl. rewrite map_size_empty. apply map_capacity_u32.
  - split; [ done | done | | ].
    + simpl. rewrite map_size_empty. apply map_capacity_u32.
    + rewrite Hpm. intros cpu _. unfold pending_of. simpl.
      rewrite lookup_empty, count_map_empty. simpl. by destruct exact.
  - done.
Qed.

Lemma env_step_inv w w' : tracer_inv w -> env_step w w' -> tracer_inv w'.
Proof using Type.
  intros [Hw Hs Hk] Hstep. destruct Hstep as [ t w Ht Hr | n w | f w | f w | f w ];
    (split; [ | keep_sched | exact Hk ]).
  - by apply ok_upd_clock.
  - apply ok_upd_EVENTS; [done|]. intros l. by apply Forall_drop.
  - destruct Hw; by split.
  - destruct Hw; by split.
  - destruct Hw; by split.
Qed.

Lemma probe_inv p e ctx w : env_ok e -> tracer_inv w -> tracer_inv (exec (handler p e ctx) w).
Proof using HK.
  intros He [Hw Hs Hk]. split.
  - exact (proj2 (typed_run _ _ _ _ (handler_typed p e ctx He) Hw)).
  - exact (handler_sched p e ctx He w Hs).
  - exact (proj2 (typed_run _ _ _ _ (handler_kms p e ctx) Hk)).
Qed.

Lemma run_inv log w : tracer_run log w -> tracer_inv w.
Proof using HK.
  induction 1 as [ | log w p e ctx evs _ IH He Hev | log w w' _ IH Hstep ].
  - split; [ apply world_ok_empty | apply sched_inv_empty | done ].
  - by apply probe_inv.
  - by eapply env_step_inv.
Qed.

(** C8. In every state between two probes of a run in which each probe runs to its end
    before the next one starts, the depth counter of a tracked CPU is exactly the number of
    monitored tasks placed on it, its pending counter is the number of pending wakeups that
    target it (at most that number when the reverse map may be full), every runnable task
    has a pending wakeup that a later switch or exit releases, and every stored value is in
    the range of its type.  Probes that interleave on several CPUs can lose an update of a
    counter, which is loaded and stored separately: there the counters are approximate. *)
Theorem run_accounting_exact log w :
  tracer_run log w ->
  world_ok w /\
  (forall cpu, tracked cpu ->
     depth_of w cpu = runnable_count w cpu /\
     0 <= pending_of w cpu /\ pend_rel exact (pending_of w cpu) (pending_count w cpu)) /\
  (forall pid cpu, RUNNABLE_TASK_CPU w !! pid = Some cpu ->
     tracked cpu /\ is_Some (pending w pid)).
Proof using HK.
  intros [Hw [Hd Hwi Hr] _]%run_inv. split; [done|]. split.
  - intros cpu Hc. split; [ by apply Hd | apply Hwi; done ].
  - intros pid cpu Hp. split; [ by eapply Hd | by eapply Hr ].
Qed.
End reachable.

(** ** Refinement of the latency specification *)

(** The abstract state of a world. *)
Definition abs (w : World) : LatState := {| ls_pending := pending_map w; ls_now := clock w |}.

(** A latency event shows a report of the specification. *)
Definition shows (ev : SchedulerEvent) (r : Z * WakeupData * Z) : Prop :=
  let '(pid, d, now) := r in
  se_tid ev = pid /\ se_wakeup_ns ev = wd_ts d /\ se_waker_tid ev = wd_waker_tid d /\
  se_wakeup_target_cpu ev = wd_target_cpu d /\ se_switch_ns ev = now /\
  se_latency_ns ev = saturating_sub now (wd_ts d).

Section refinement.
Context {K : Kernel} (exact : bool).

(** One move of the specification and the latency events it shows. *)
Definition simulates (w w' : World) : Prop :=
  exists l evs, lat_step (abs w) l (abs w') /\ EVENTS w' = EVENTS w ++ evs /\
    Forall2 shows (sched_events evs) (reports_of [l]).

Lemma simulates_quiet w w' : quiet w w' -> simulates w w'.
Proof using Type.
  intros (Hp & Hc & evs & He & Hs). exists L_tau, evs. unfold abs. rewrite Hp, Hc.
  split; [ constructor | ]. split; [done|]. rewrite Hs. constructor.
Qed.

Lemma simulates_no_event w w' l :
  lat_step (abs w) l (abs w') -> EVENTS w' = EVENTS w -> reports_of [l] = [] -> simulates w w'.
Proof using Type.
  intros Hl He Hr. exists l, []. rewrite app_nil_r, Hr. by split_and!; try constructor.
Qed.

Lemma clock_mark_runnable e pid cpu w : clock (mark_runnable e pid cpu w).2 = clock w.
Proof using Type. unfold mark_runnable. by repeat case_match. Qed.

Lemma clock_account_wakeup e pid cpu w : clock (account_wakeup e pid cpu w) = clock w.
Proof using Type.
  pose proof (clock_mark_runnable e pid cpu w). unfold account_wakeup. by case_match.
Qed.

Lemma clock_wakeup_recorded e pid d old w : clock (wakeup_recorded e pid d old w) = clock w.
Proof using Type.
  unfold wakeup_recorded. destruct old as [p|]; [ destruct (_ =? _) | ].
  - exact (clock_mark_runnable e pid _ (record_world pid d w)).
  - rewrite clock_account_wakeup. unfold dec_pending. by case_match.
  - exact (clock_account_wakeup e pid _ (record_world pid d w)).
Qed.

Lemma simulates_wakeup e ctx w : sched_inv exact w -> simulates w (exec (try_sched_wakeup e ctx) w).
Proof using Type.
  intros Hinv. unfold exec. rewrite (run_try_sched_wakeup exact) by done. unfold wakeup_world.
  destruct (read_i32 _ _) as [pid|]; [ | apply simulates_quiet, quiet_refl ].
  destruct (read_u32 _ _) as [cpu|]; [ | apply simulates_quiet, quiet_refl ].
  cbn [snd]. destruct (_ && _); [ | apply simulates_quiet, quiet_refl ].
  unfold wakeup_target. set (w1 := upd_WAKEUP_SEQ _ w).
  destruct (insert_ok (S_WAKEUP_SEQ pid) w); [ | exact (simulates_quiet w _ (quiet_refl w)) ].
  destruct (insert_ok (S_WAKEUP_DATA pid) w1); [ | exact (simulates_quiet w _ (quiet_refl w)) ].
  set (d := new_wakeup e pid cpu w). change (pending w pid) with (pending w1 pid).
  destruct (wakeup_recorded_frame e pid d w1) as (Hpm & Hev & _).
  apply (simulates_no_event _ _ (L_record pid d)); [ | exact Hev | done ].
  unfold abs. rewrite Hpm, clock_wakeup_recorded. by constructor.
Qed.

Lemma clock_switch_world e ctx w : clock (switch_world e ctx w).2 = clock w.
Proof using Type.
  unfold switch_world. destruct (read_i32 _ _); [|done]. destruct (_ <=? 0); [done|].
  destruct (pending w z) as [d|]; [|done].
  assert (Hc : forall w1, clock (release z d w1) = clock w1).
  { intros w1. by destruct (release_frame z d w1) as (_ & _ & _ & Hc & _). }
  destruct (insert_ok _ w); [ | exact (Hc (remove_world z w)) ].
  etrans; [ | exact (Hc (upd_WAKEUP_CONSUMED (<[z := d]>) w)) ].
  unfold switch_report. by repeat case_match.
Qed.

Lemma simulates_switch e ctx w :
  env_ok e -> sched_inv exact w -> simulates w (exec (try_sched_switch e ctx) w).
Proof using Type.
  intros He Hinv. rewrite (exec_sched_switch exact e ctx w) by done.
  pose proof (clock_switch_world e ctx w) as Hck.
  destruct (read_i32 ctx SCHED_SWITCH_NEXT_PID_OFFSET) as [pid|] eqn:Hpid.
  2: { unfold switch_world. rewrite Hpid. apply simulates_quiet, quiet_refl. }
  destruct (Z.leb_spec pid 0) as [Hneg|Hpos].
  { unfold switch_world. rewrite Hpid. apply Z.leb_le in Hneg as ->.
    apply simulates_quiet, quiet_refl. }
  destruct (pending w pid) as [d|] eqn:Hp.
  2: { unfold switch_world. rewrite Hpid, Hp. apply Z.leb_gt in Hpos as ->.
       apply simulates_quiet, quiet_refl. }
  destruct (switch_world_outcome e ctx w pid d Hpid Hpos Hp)
    as [Hpm [(ev & Hlat & Hev & _)|(r & _ & Hev & _)]].
  - exists (L_report pid d (clock w)), [EvScheduler ev]. unfold abs. rewrite Hpm, Hck.
    split; [ by constructor | ]. split; [done|]. simpl. constructor; [|constructor].
    destruct Hlat as (H1 & _ & H3 & H4 & H5 & H6 & H7). by split_and!.
  - apply (simulates_no_event _ _ (L_lose pid)); [ | done | done ].
    unfold abs. rewrite Hpm, Hck. constructor.
Qed.

Lemma simulates_exit e w : sched_inv exact w -> simulates w (exec (try_sched_process_exit e) w).
Proof using Type.
  intros Hinv. unfold exec. rewrite (run_try_sched_process_exit exact) by done. cbn [snd].
  destruct (exit_world_clears (current_tid e) w) as (_ & _ & _ & _ & _ & Hpm & Hev & _).
  apply (simulates_no_event _ _ (L_lose (current_tid e))); [ | done | done ].
  unfold abs. rewrite Hpm.
  assert (clock (exit_world (current_tid e) w) = clock w) as ->; [|constructor].
  unfold exit_world, remove_runnable, dec_pending.
  destruct (pending w _), (RUNNABLE_TASK_CPU w !! _); simpl; try done; by destruct (valid_cpu _).
Qed.

Lemma simulates_probe p e ctx w :
  env_ok e -> sched_inv exact w -> simulates w (exec (handler p e ctx) w).
Proof using Type.
  intros He Hinv. destruct (touches_wakeups p) eqn:Hp.
  - destruct p; try done; simpl; auto using simulates_wakeup, simulates_switch, simulates_exit.
  - apply simulates_quiet.
    exact (proj2 (typed_run _ _ _ _ (handler_quiet p e ctx w Hp) (quiet_refl w))).
Qed.

Lemma simulates_env w w' : env_step w w' -> exists l, lat_step (abs w) l (abs w') /\ reports_of [l] = [].
Proof using Type.
  intros []; [ exists L_tick | exists L_tau.. ]; (split; [|done]); by constructor.
Qed.
End refinement.

Section whole_runs.
Context {K : Kernel} (exact : bool) (HK : exact = true -> runnable_has_room K).

Lemma run_simulation log w :
  tracer_run log w ->
  exists tr, lat_trace tr (abs w) /\ Forall2 shows (sched_events log) (reports_of tr).
Proof using HK.
  induction 1 as [ | log w p e ctx evs Hrun IH He Hev | log w w' Hrun IH Hstep ].
  - exists []. split; [ | constructor ].
    assert (abs empty_world = {| ls_pending := ∅; ls_now := 0 |}) as ->; [|constructor].
    unfold abs. f_equal.
  - destruct IH as (tr & Htr & Hshow).
    destruct (simulates_probe exact p e ctx w He (ti_sched _ _ (run_inv exact HK _ _ Hrun)))
      as (l & evs' & Hl & Hev' & Hs).
    rewrite Hev in Hev'. apply app_inv_head in Hev' as <-.
    exists (tr ++ [l]). split; [ by econstructor | ].
    rewrite sched_events_app, reports_of_app. by apply Forall2_app.
  - destruct IH as (tr & Htr & Hshow).
    destruct (simulates_env w w' Hstep) as (l & Hl & Hr).
    exists (tr ++ [l]). split; [ by econstructor | ].
    by rewrite reports_of_app, Hr, app_nil_r.
Qed.

(** C2. Every run of the tracer is a run of the latency specification that shows exactly
    its latency events: each one is of a wakeup recorded before it, and a task never has
    more latency events than recorded wakeups. *)
Theorem tracer_refines_latency_spec log w :
  tracer_run log w ->
  exists tr, lat_trace tr (abs w) /\ Forall2 shows (sched_events log) (reports_of tr) /\
    (forall tr1 pid d now tr2, tr = tr1 ++ L_report pid d now :: tr2 ->
       L_record pid d ∈ tr1 /\ wd_ts d <= now) /\
    (forall pid, (count (is_report pid) tr <= count (is_record pid) tr)%nat).
Proof using HK.
  intros (tr & Htr & Hshow)%run_simulation. exists tr. split; [done|]. split; [done|].
  by eapply lat_trace_sound.
Qed.

Lemma reports_of_elem tr pid d now : (pid, d, now) ∈ reports_of tr -> L_report pid d now ∈ tr.
Proof using Type.
  unfold reports_of. rewrite list_elem_of_omap. intros ([] & Hin & Heq); try done.
  by injection Heq as -> -> ->.
Qed.

(** C33. No latency event of a run is saturated: its latency is the difference of its two
    times, which are in order. *)
Theorem latency_events_exact log w :
  tracer_run log w ->
  Forall (fun ev => se_wakeup_ns ev <= se_switch_ns ev /\
                    se_latency_ns ev = se_switch_ns ev - se_wakeup_ns ev) (sched_events log).
Proof using HK.
  intros (tr & Htr & Hshow)%run_simulation. apply Forall_forall. intros ev Hin.
  apply list_elem_of_In, list_elem_of_lookup in Hin as [i Hi].
  destruct (Forall2_lookup_l _ _ _ _ _ Hshow Hi) as ([[pid d] now] & Hr & Hs).
  destruct Hs as (_ & H2 & _ & _ & H5 & H6).
  apply list_elem_of_lookup_2, reports_of_elem, list_elem_of_split in Hr as (tr1 & tr2 & ->).
  destruct (proj1 (lat_trace_sound _ _ Htr) tr1 pid d now tr2 eq_refl) as [_ Hle].
  rewrite H2, H5, H6. unfold saturating_sub. lia.
Qed.
End whole_runs.

(** ** Probes on several CPUs *)

(** One atomic step of one running probe, or a move of the rest of the system. *)
Inductive smp_step {K : Kernel} : list (prog World Z) * World -> list (prog World Z) * World -> Prop :=
| smp_probe c c' : pool_step c c' -> smp_step c c'
| smp_start ps w p e ctx : env_ok e -> smp_step (ps, w) (ps ++ [handler p e ctx], w)
| smp_env ps w w' : env_step w w' -> smp_step (ps, w) (ps, w').

Section smp.
Context {K : Kernel}.

Lemma smp_typed c c' : rtc smp_step c c' ->
  Forall (typed_w (fun _ => True)) c.1 /\ world_ok c.2 ->
  Forall (typed_w (fun _ => True)) c'.1 /\ world_ok c'.2.
Proof.
  induction 1 as [ | c1 c2 c3 Hstep _ IH ]; [done|]. intros Hc. apply IH.
  destruct Hstep as [ c c' Hp | ps w p e ctx He | ps w w' Hs ].
  - exact (typed_pool world_ok (fun _ => True) _ _ (rtc_once _ _ Hp) Hc).
  - destruct Hc as [Hps Hw]. split; [|done]. apply Forall_app. split; [done|].
    constructor; [ by apply handler_typed | done ].
  - destruct Hc as [Hps Hw]. split; [done|]. simpl in *.
    destruct Hs as [ t w Ht Hr | n w | f w | f w | f w ]; [ | | destruct Hw; by split.. ].
    + by apply ok_upd_clock.
    + apply ok_upd_EVENTS; [done|]. intros l. by apply Forall_drop.
Qed.

(** C26. However the probes interleave on any number of CPUs, every record in the ring
    buffer is one the userspace decoder reads back field by field, and every stored
    value stays in the range of its type. *)
Theorem smp_records_decodable ps w :
  rtc smp_step ([], empty_world) (ps, w) ->
  world_ok w /\
  Forall (fun ev => read_u32_unaligned (event_bytes ev) = Some (event_kind ev) /\
                    decode_ebpf_event (event_kind ev) (event_bytes ev) = decoded_of ev)
    (EVENTS w).
Proof.
  intros Hrun. destruct (smp_typed _ _ Hrun) as [_ Hw].
  { split; [ constructor | apply world_ok_empty ]. }
  split; [done|]. eapply Forall_impl; [ | apply (wo_EVENTS _ Hw) ]. intros ev Hev.
  rewrite <- (app_nil_r (event_bytes ev)). by apply decode_event_bytes.
Qed.
End smp.
