(* ===== verification/Runs.v ===== *)
(** * Concrete runs of the tracer

    A monitored task 7 that is woken and then switched to on CPU 2, an interrupt,
    a block request, a page flip and a fence wait, evaluated on raw tracepoint
    records: the theorems of the probes at these inputs, with their hypotheses
    computed. *)

From S2P Require Import Prelude Prog Abi Maps Typing WakeupData Handoff RunnableDepth Accounting.
From S2P Require Import Scheduler Lifecycle Irq BlockIo Kms DrmFence Probes LatencySpec Tracer.

(** ** A kernel, an environment and trace records *)

(** A loaded object whose reverse map was raised to the size of the wakeup map. *)
Definition loaded_capacity (m : MapId) : Z :=
  match m with
  | M_RUNNABLE_TASK_CPU => WAKEUP_DATA_MAP_MAX_ENTRIES
  | _ => compiled_capacity m
  end.

#[local] Program Instance loaded_kernel : Kernel := {
  map_capacity := loaded_capacity;
  insert_ok s w :=
    slot_present s w || (map_load (slot_map s) w <? loaded_capacity (slot_map s));
  reserve_ok n w := ring_used w + 8 + Z.of_nat n <=? BPF_DEFAULT_EVENTS_RINGBUF_BYTES;
  lru_evict m k := if Z.of_nat (size m) <? BLOCK_START_MAP_MAX_ENTRIES then m else ∅;
}.
Next Obligation. by intros []. Qed.
Next Obligation.
  intros s w H _. apply orb_true_iff in H as [H|H]; [by left|right].
  by apply Z.ltb_lt in H.
Qed.
Next Obligation. intros m k. simpl. case_match; [done|]. apply map_empty_subseteq. Qed.

Lemma loaded_has_room : runnable_has_room loaded_kernel.
Proof.
  split; [ by vm_compute | ]. intros pid w H. apply orb_true_iff.
  destruct H as [H|H]; [by left|right]. by apply Z.ltb_lt.
Qed.

(** CPU 2; task 101 of process 100; fence and flip fields at fixed offsets. *)
Definition run_offsets : TraceOffsets :=
  let d := default_trace_offsets in
  {| BLOCK_RQ_KEY_OFFSET := 0; BLOCK_RQ_ISSUE_NR_SECTOR_OFFSET := 24;
     BLOCK_RQ_ISSUE_RWBS_OFFSET := 0; BLOCK_RQ_COMPLETE_NR_SECTOR_OFFSET := 24;
     BLOCK_RQ_COMPLETE_RWBS_OFFSET := 0; I915_FLIP_REQUEST_CRTC_OFFSET := 0;
     I915_FLIP_REQUEST_PIPE_OFFSET := 0; I915_FLIP_REQUEST_CARD_MINOR_OFFSET := 0;
     I915_FLIP_DONE_CRTC_OFFSET := 0; I915_FLIP_DONE_PIPE_OFFSET := 0;
     I915_FLIP_DONE_CARD_MINOR_OFFSET := 0; I915_FLIP_DONE_SEQUENCE_OFFSET := 0;
     I915_FLIP_DONE_SEQUENCE_SIZE := 0; DRM_FLIP_REQUEST_CRTC_OFFSET := 0;
     DRM_FLIP_REQUEST_PIPE_OFFSET := 0; DRM_FLIP_REQUEST_CARD_MINOR_OFFSET := 0;
     DRM_FLIP_DONE_CRTC_OFFSET := 0; DRM_FLIP_DONE_PIPE_OFFSET := 0;
     DRM_FLIP_DONE_CARD_MINOR_OFFSET := 0; DRM_FLIP_DONE_SEQUENCE_OFFSET := 0;
     DRM_FLIP_DONE_SEQUENCE_SIZE := 0; DRM_VBLANK_CRTC_OFFSET := 0;
     DRM_VBLANK_PIPE_OFFSET := 0; DRM_VBLANK_CARD_MINOR_OFFSET := 0;
     DRM_VBLANK_SEQUENCE_OFFSET := 0; DRM_VBLANK_SEQUENCE_SIZE := 0;
     AMDGPU_FLIP_REQUEST_CRTC_OFFSET := 0; AMDGPU_FLIP_REQUEST_PIPE_OFFSET := 0;
     AMDGPU_FLIP_REQUEST_CARD_MINOR_OFFSET := 0; AMDGPU_FLIP_DONE_CRTC_OFFSET := 0;
     AMDGPU_FLIP_DONE_PIPE_OFFSET := 0; AMDGPU_FLIP_DONE_CARD_MINOR_OFFSET := 0;
     AMDGPU_FLIP_DONE_SEQUENCE_OFFSET := 0; AMDGPU_FLIP_DONE_SEQUENCE_SIZE := 0;
     AMDGPU_VBLANK_CRTC_OFFSET := 0; AMDGPU_VBLANK_PIPE_OFFSET := 0;
     AMDGPU_VBLANK_CARD_MINOR_OFFSET := 0; AMDGPU_VBLANK_SEQUENCE_OFFSET := 0;
     AMDGPU_VBLANK_SEQUENCE_SIZE := 0; DRM_FENCE_WAIT_START_CONTEXT_OFFSET := 8;
     DRM_FENCE_WAIT_START_SEQNO_OFFSET := 16; DRM_FENCE_WAIT_START_TIMELINE_OFFSET := 0;
     DRM_FENCE_WAIT_DONE_CONTEXT_OFFSET := 8; DRM_FENCE_WAIT_DONE_SEQNO_OFFSET := 16;
     DRM_FENCE_WAIT_DONE_TIMELINE_OFFSET := 0; DRM_FENCE_SIGNAL_CONTEXT_OFFSET := 8;
     DRM_FENCE_SIGNAL_SEQNO_OFFSET := 16; DRM_FENCE_SIGNAL_TIMELINE_OFFSET := 0;
     DRM_FENCE_WAIT_START_PROVIDER := DRM_FENCE_WAIT_START_PROVIDER d;
     DRM_FENCE_WAIT_START_GPU_ROLE := DRM_FENCE_WAIT_START_GPU_ROLE d;
     DRM_FENCE_WAIT_DONE_PROVIDER := DRM_FENCE_WAIT_DONE_PROVIDER d;
     DRM_FENCE_WAIT_DONE_GPU_ROLE := DRM_FENCE_WAIT_DONE_GPU_ROLE d;
     DRM_FENCE_SIGNAL_PROVIDER := DRM_FENCE_SIGNAL_PROVIDER d;
     DRM_FENCE_SIGNAL_GPU_ROLE := DRM_FENCE_SIGNAL_GPU_ROLE d |}.

Definition run_env : Env :=
  {| smp_processor_id := 2; current_pid_tgid := 100 * 2 ^ 32 + 101; current_cgroup_id := 9;
     current_comm := None; trace_offsets := run_offsets |}.

Lemma run_env_ok : env_ok run_env.
Proof. unfold env_ok. cbn. split_and!; [width..|]. repeat constructor; vm_compute; done. Qed.

Definition u32_bytes (x : Z) : list Z := [x mod 256; x / 256 mod 256; 0; 0].
Definition u64_bytes (x : Z) : list Z := u32_bytes x ++ [0; 0; 0; 0].

Definition wakeup_record : TracePointContext :=
  context_of_bytes (replicate 24 0 ++ u32_bytes 7 ++ u32_bytes 120 ++ u32_bytes 2).
Definition switch_record : TracePointContext :=
  context_of_bytes (replicate 24 0 ++ u32_bytes 3 ++ u32_bytes 0 ++ u64_bytes 1
                    ++ replicate 16 65 ++ u32_bytes 7 ++ u32_bytes 120).
Definition irq_record : TracePointContext := context_of_bytes (replicate 8 0 ++ u32_bytes 5).
Definition other_irq_record : TracePointContext := context_of_bytes (replicate 8 0 ++ u32_bytes 6).
Definition block_record : TracePointContext :=
  context_of_bytes (replicate 8 0 ++ u32_bytes 8 ++ u32_bytes 0 ++ u64_bytes 64 ++ u32_bytes 16).
Definition fence_record : TracePointContext :=
  context_of_bytes (replicate 8 0 ++ u64_bytes 11 ++ u64_bytes 22).
(** CRTC 4 at offset 8, card minor 1 at offset 12. *)
Definition flip_record : TracePointContext :=
  context_of_bytes (replicate 8 0 ++ u32_bytes 4 ++ u32_bytes 1).

(** ** The task's wakeup and switch *)

(** Tasks 7 and 101, cgroup 9 and IRQ 5 are monitored; the clock shows 1000. *)
Definition world_armed : World :=
  upd_clock (fun _ => 1000)
    (upd_TARGET_IRQS (fun _ => {[5 := 0]}) (upd_TARGET_PIDS (fun _ => {[7 := 0; 101 := 0]}) empty_world)).
Definition world_woken : World := exec (handler sched_wakeup run_env wakeup_record) world_armed.
Definition at_time (t : Z) (w : World) : World := upd_clock (fun _ => t) w.
Definition world_switching : World := at_time 5000 world_woken.
Definition world_switched : World := exec (handler sched_switch run_env switch_record) world_switching.

Definition run_log : list RingEvent := EVENTS world_switched.

Lemma armed_run : tracer_run [] world_armed.
Proof.
  eapply tr_env; [|apply es_tick]; [|by vm_compute|by vm_compute].
  eapply tr_env; [|apply es_irqs]. eapply tr_env; [|apply es_pids]. constructor.
Qed.

Lemma woken_run : tracer_run [] world_woken.
Proof.
  change [] with (([] : list RingEvent) ++ []). apply tr_probe; [apply armed_run|apply run_env_ok|].
  by vm_compute.
Qed.

Lemma switched_run : tracer_run run_log world_switched.
Proof.
  change run_log with ([] ++ run_log). apply tr_probe; [|apply run_env_ok|by vm_compute].
  eapply tr_env; [apply woken_run|apply es_tick]; by vm_compute.
Qed.

Lemma armed_inv : sched_inv true world_armed.
Proof. apply (ti_sched true _ (run_inv true (fun _ => loaded_has_room) _ _ armed_run)). Qed.

Lemma switching_inv : sched_inv true world_switching.
Proof.
  eapply (ti_sched true), (run_inv true (fun _ => loaded_has_room)).
  eapply tr_env; [apply woken_run|apply es_tick]; by vm_compute.
Qed.

(** ** The theorems at these runs *)

(** The task's one switch shows one latency event of one recorded wakeup. *)
Lemma tracer_refines_latency_spec_witness :
  exists tr, lat_trace tr (abs world_switched) /\
    Forall2 shows (sched_events run_log) (reports_of tr) /\ length (sched_events run_log) = 1%nat.
Proof.
  destruct (tracer_refines_latency_spec true (fun _ => loaded_has_room) run_log world_switched
    switched_run) as (tr & H1 & H2 & _).
  exists tr. split; [exact H1|]. split; [exact H2|]. vm_compute. reflexivity.
Defined.

Lemma latency_events_exact_witness :
  Forall (fun ev => se_wakeup_ns ev <= se_switch_ns ev /\
                    se_latency_ns ev = se_switch_ns ev - se_wakeup_ns ev) (sched_events run_log) /\
  map se_latency_ns (sched_events run_log) = [4000].
Proof.
  split; [|vm_compute; reflexivity].
  exact (latency_events_exact true (fun _ => loaded_has_room) run_log world_switched switched_run).
Defined.

Lemma run_accounting_exact_witness :
  depth_of world_woken 2 = runnable_count world_woken 2 /\
  pending_of world_woken 2 = pending_count world_woken 2 /\ pending_of world_woken 2 = 1.
Proof.
  destruct (run_accounting_exact true (fun _ => loaded_has_room) [] world_woken woken_run)
    as (_ & H & _).
  destruct (H 2) as (H1 & _ & H2); [split; vm_compute; done|].
  split; [exact H1|]. split; [exact H2|]. vm_compute. reflexivity.
Defined.

(** Two frequency changes traced at the same time on two CPUs, step by step. *)
Definition freq_record : TracePointContext :=
  context_of_bytes (replicate 8 0 ++ u32_bytes 4000 ++ u32_bytes 1).
Definition smp_pool : list (prog World Z) :=
  [handler cpu_frequency run_env freq_record; handler cpu_frequency run_env freq_record].
Definition smp_end : list (prog World Z) * World :=
  default ([], empty_world) (run_schedule [0; 1; 1; 0; 0; 1]%nat smp_pool empty_world).

Lemma smp_pool_run : rtc smp_step ([], empty_world) smp_end.
Proof.
  eapply rtc_l; [apply (smp_start [] empty_world cpu_frequency run_env freq_record run_env_ok)|].
  eapply rtc_l; [apply (smp_start _ empty_world cpu_frequency run_env freq_record run_env_ok)|].
  eapply (rtc_subrel pool_step); [intros c c'; apply smp_probe|].
  apply (run_schedule_sound [0; 1; 1; 0; 0; 1]%nat). vm_compute. reflexivity.
Qed.

Lemma smp_records_decodable_witness :
  Forall (fun ev => read_u32_unaligned (event_bytes ev) = Some (event_kind ev) /\
                    decode_ebpf_event (event_kind ev) (event_bytes ev) = decoded_of ev)
    (EVENTS smp_end.2) /\ length (EVENTS smp_end.2) = 2%nat.
Proof.
  split; [|vm_compute; reflexivity].
  exact (proj2 (smp_records_decodable smp_end.1 smp_end.2 smp_pool_run)).
Defined.

Lemma sched_wakeup_records_witness :
  pending_map (exec (try_sched_wakeup run_env wakeup_record) world_armed) =
    <[7 := new_wakeup run_env 7 2 world_armed]> (pending_map world_armed).
Proof.
  refine (proj1 (sched_wakeup_records true run_env wakeup_record world_armed armed_inv 7 2
    _ _ _ _ _ _)); vm_compute; first [reflexivity | by eexists].
Defined.

(** A kernel without memory: it refuses every insert and reservation. *)
Program Definition refusing_kernel : Kernel := {|
  map_capacity := compiled_capacity;
  insert_ok s w := false;
  reserve_ok n w := false;
  lru_evict m k := m;
|}.
Next Obligation. by intros []. Qed.
Next Obligation. done. Qed.
Next Obligation. done. Qed.

Lemma refusing_inv : @sched_inv refusing_kernel false world_armed.
Proof.
  refine (ti_sched false _ (run_inv (K:=refusing_kernel) false _ [] _ _)); [done|].
  eapply tr_env; [|apply es_tick]; [|by vm_compute|by vm_compute].
  eapply tr_env; [|apply es_irqs]. eapply tr_env; [|apply es_pids]. constructor.
Qed.

Lemma sched_wakeup_refusal_counted_witness :
  pending_map (exec (@try_sched_wakeup refusing_kernel run_env wakeup_record) world_armed)
  = pending_map world_armed.
Proof.
  refine (proj1 (@sched_wakeup_refusal_counted refusing_kernel false run_env wakeup_record world_armed
    refusing_inv 7 2 _ _ _ _ _)); [vm_compute; first [reflexivity | by eexists]..|left; reflexivity].
Defined.

Definition wakeup_of_7 : WakeupData := new_wakeup run_env 7 2 world_armed.

Lemma sched_switch_accounts_wakeup_witness :
  pending_map (exec (try_sched_switch run_env switch_record) world_switching)
  = delete 7 (pending_map world_switching).
Proof.
  refine (proj1 (sched_switch_accounts_wakeup true run_env switch_record world_switching
    switching_inv 7 wakeup_of_7 run_env_ok _ _ _)); vm_compute; reflexivity.
Defined.

Lemma sched_switch_reports_latency_witness :
  exists ev, is_latency_of run_env world_switching 7 wakeup_of_7 ev /\ se_prio ev = 120 /\
    se_target_pending_wakeups ev = 0.
Proof.
  destruct (sched_switch_reports_latency true run_env switch_record world_switching
    switching_inv 7 wakeup_of_7 run_env_ok eq_refl eq_refl eq_refl 3 1 120 (replicate 16 65))
    as (ev & H1 & _ & H2 & _ & _ & H3);
    [vm_compute; first [reflexivity | by eexists]..|].
  exists ev. split; [exact H1|]. split; [exact H2|].
  destruct H3 as [_ H3]; [split; vm_compute; done|]. simpl in H3. rewrite H3. vm_compute. reflexivity.
Defined.

(** A consumer of task 7 finds nothing, then the producer installs its wakeup. *)
Definition handoff_end : World :=
  snd (default ([], empty_world)
    (run_schedule [1; 0; 0; 0]%nat
       [record_wakeup 7 race_wakeup WakeupData_default;
        consume_pending_wakeup 7 WakeupData_default] empty_world)).

Lemma newer_wakeup_not_lost_witness : pending handoff_end 7 = Some race_wakeup.
Proof.
  destruct (newer_wakeup_not_lost 7 race_wakeup WakeupData_default [WakeupData_default] empty_world
    handoff_end WAKEUP_RECORD_NEW_PENDING WakeupData_default
    [Ret (WAKEUP_CONSUME_NONE, WakeupData_default)])
    as [H|H]; [done|done| |done|exact H|].
  - apply (run_schedule_sound [1; 0; 0; 0]%nat). vm_compute. reflexivity.
  - exfalso. unfold consumed_by in H. apply list_elem_of_singleton in H. discriminate.
Defined.

Definition sample_event : RingEvent :=
  EvIrq (irq_event run_env 5 1000 world_switching).

Lemma decode_round_trip_witness :
  decode_ebpf_event (event_kind sample_event) (event_bytes sample_event ++ [1; 2; 3])
  = decoded_of sample_event.
Proof.
  refine (proj2 (proj2 (decode_round_trip sample_event [1; 2; 3] _))).
  split; [reflexivity|]. repeat constructor; vm_compute; done.
Defined.

(** Task 101, the current one, was woken and exits. *)
Definition exit_record : TracePointContext :=
  context_of_bytes (replicate 24 0 ++ u32_bytes 101 ++ u32_bytes 120 ++ u32_bytes 2).
Definition world_exiting : World := exec (handler sched_wakeup run_env exit_record) world_armed.

Lemma exiting_inv : sched_inv true world_exiting.
Proof.
  apply (ti_sched true _), (probe_inv true (fun _ => loaded_has_room)); [apply run_env_ok|].
  exact (run_inv true (fun _ => loaded_has_room) _ _ armed_run).
Qed.

Lemma process_exit_clears_task_witness :
  WAKEUP_DATA world_exiting !! 101 <> None /\
  WAKEUP_DATA (exec (try_sched_process_exit run_env) world_exiting) !! 101 = None.
Proof.
  split; [vm_compute; done|].
  exact (proj1 (process_exit_clears_task true run_env world_exiting exiting_inv)).
Defined.

Lemma page_faults_counted_witness :
  exec (try_major_fault run_env) world_armed =
    upd_PREV_FAULTS (<[101 := {| fc_maj := 1; fc_min := 0 |}]>) world_armed.
Proof.
  refine (proj1 (page_faults_counted run_env world_armed _ _));
    [left; vm_compute; by eexists | right; vm_compute; reflexivity].
Defined.

Definition world_in_irq : World :=
  at_time 1700 (exec (try_irq_handler_entry run_env irq_record) world_armed).

Lemma irq_span_reported_witness :
  EVENTS (exec (try_irq_handler_exit run_env irq_record) world_in_irq)
  = [EvIrq (irq_event run_env 5 1000 world_in_irq)].
Proof.
  refine (proj1 (irq_span_reported run_env irq_record irq_record 5 world_armed world_in_irq
    _ _ _ _ _ _ _)); first [ by split | vm_compute; first [reflexivity | by eexists | done]].
Defined.

Lemma irq_spans_isolated_witness :
  same_span (irq_key 5 2) world_in_irq
    (exec (try_irq_handler_entry run_env other_irq_record) world_in_irq).
Proof.
  refine (proj1 (irq_spans_isolated run_env run_env other_irq_record 5 6 world_in_irq
    _ run_env_ok run_env_ok _ _)); [reflexivity|split; vm_compute; done|done].
Defined.

(** Device 8, sector 64, 16 sectors, in fallback-key mode. *)
Definition block_key : Z := issue_key run_env block_record 8 64.
Definition world_issued : World :=
  at_time 3000 (exec (try_block_rq_issue run_env block_record) world_armed).

Lemma block_request_timed_witness :
  exists ev, EVENTS (exec (try_block_rq_complete run_env block_record) world_issued) = [EvBlockIo ev] /\
    bi_tid ev = 101 /\ bi_duration_ns ev = 2000.
Proof.
  destruct (block_request_timed run_env run_env block_record block_record 8 64 8 64 world_armed
    world_issued) with (key := block_key) as (ev & H1 & H2 & _ & _ & _ & H3 & _);
    [vm_compute; first [reflexivity | done | by left; eexists]..|].
  exists ev. split; [exact H1|]. split; [exact H2|exact H3].
Defined.

Lemma block_collision_reports_neither_witness :
  EVENTS (exec (try_block_rq_complete run_env block_record)
            (exec (try_block_rq_issue run_env block_record) world_issued)) = [].
Proof.
  destruct (block_collision_reports_neither run_env run_env block_record block_record 8 64 8 64
    world_issued world_issued) with (key := block_key) as (_ & H1 & _ & H2);
    [vm_compute; first [reflexivity | done | by eexists | by left; eexists]..|].
  rewrite H2. exact H1.
Defined.

(** CRTC 4 of card 1, provider 2, requested at 1000 and done at 18000. *)
Definition flip_key : KmsFlipKey :=
  {| kk_provider := 2; kk_card_minor_known := 1; kk_card_minor := 1; kk_crtc_id := 4; kk_pipe := 0 |}.
Definition flip_kind : Z := 2 * 65536 + 1.
Definition world_flipping : World :=
  at_time 18000 (exec (try_kms_flip_request run_env flip_record 2 12 12 8 0) world_armed).

Lemma kms_flip_interval_reported_witness :
  exists ev, EVENTS (exec (try_kms_flip_done run_env flip_record flip_kind 12 8 0) world_flipping)
    = [EvKmsFlip ev] /\ kf_duration_ns ev = 17000.
Proof.
  destruct (kms_flip_interval_reported run_env run_env flip_record flip_record world_armed
    world_flipping 2 12 12 8 0 flip_kind 12 8 0 flip_key) as (ev & H1 & _ & _ & _ & H2 & _);
    [vm_compute; first [reflexivity | done]..|].
  exists ev. split; [exact H1|exact H2].
Defined.

Lemma kms_no_ambiguous_duration_witness :
  exists ev, EVENTS (exec (try_kms_flip_done run_env flip_record flip_kind 12 8 0) world_armed)
    = [EvKmsFlip ev] /\ kf_duration_ns ev = 0.
Proof.
  destruct (kms_no_ambiguous_duration run_env flip_record world_armed 12 8 0 flip_kind flip_key)
    as (ev & H1 & _ & H2 & _);
    [vm_compute; first [reflexivity | done | by right]..|].
  exists ev. split; [exact H1|exact H2].
Defined.

(** Fence 22 of context 11, waited for from 1000 to 9000. *)
Definition fence_22 : FenceIdentity :=
  {| fi_key := {| fk_context := 11; fk_seqno := 22 |};
     fi_flags := Z.lor DRM_FENCE_HAS_SEQNO DRM_FENCE_HAS_CONTEXT; fi_timeline_hash := 0 |}.
Definition world_waiting : World :=
  at_time 9000 (exec (try_drm_fence_wait_start run_env fence_record) world_armed).

Lemma fence_wait_interval_reported_witness :
  exists ev, EVENTS (exec (try_drm_fence_wait_done run_env fence_record) world_waiting)
    = [EvDrmFence ev] /\ df_tid ev = 101 /\ df_duration_ns ev = 8000.
Proof.
  destruct (fence_wait_interval_reported run_env run_env fence_record fence_record fence_22 fence_22
    world_armed world_waiting) as (ev & H1 & _ & _ & H2 & _ & _ & H3 & _);
    [vm_compute; first [reflexivity | done]..|].
  exists ev. split; [exact H1|]. split; [exact H2|exact H3].
Defined.

Lemma fence_wait_done_without_start_witness :
  exists ev, EVENTS (exec (try_drm_fence_wait_done run_env fence_record) world_armed)
    = [EvDrmFence ev] /\ df_duration_ns ev = 0.
Proof.
  destruct (fence_wait_done_without_start run_env fence_record fence_22 world_armed)
    as (ev & H1 & _ & H2 & _);
    [vm_compute; first [reflexivity | done]..|].
  exists ev. split; [exact H1|exact H2].
Defined.
