(* ===== verification/PolicyModel.v ===== *)
(** * Daemon policy: data, configuration and construction

    [stutter/src/daemon/policy/{model,context,capability,rejection,remote,build}.rs],
    [daemon/config/{core,safety,target,remote,autotune}.rs] and
    [remote/limits.rs].  A policy is built from the daemon's configuration and,
    for requests of the remote agent, its limits.  Display texts are not
    modelled; strings are ASCII.  An [f32] is a binary32 [spec_float]. *)

From Stdlib Require Import SpecFloat Ascii String.
From S2P Require Import Prelude.

(** ** [f32] *)

Definition f32 := spec_float.

(** [m * 2 ^ -24]: every literal of the policy code is in [[1/2, 1)]. *)
Definition f32_frac (m : positive) : f32 := S754_finite false m (-24).
Definition f32_zero : f32 := S754_zero false.
Definition f32_one : f32 := S754_finite false 8388608 (-23).

(** Rust's [>=], [>] and [f32::max]. *)
Definition f32_ge (a b : f32) : bool := SFleb b a.
Definition f32_gt (a b : f32) : bool := SFltb b a.
Definition f32_max (a b : f32) : f32 :=
  match a, b with
  | S754_nan, _ => b
  | _, S754_nan => a
  | _, _ => if SFltb a b then b else a
  end.

Definition DEFAULT_MIN_FOCUS_CONFIDENCE : f32 := f32_frac 11744051.  (* 0.70 *)

(** ** [actions/model.rs] and [policy/model.rs] *)

Inductive SafetyClass := ObserveOnly | ReversibleLowRisk | ReversibleMediumRisk | HighRisk.

Inductive DaemonMode := Observe | Suggest | ApplyLowRisk | ApplyMediumRisk | ApplyHighRisk.

Inductive ActionEffectScope :=
| ScopeObserveOnly | LocalProcess | LocalProcessTree | UserStateFile | Cgroup | Irq | Sysfs
| CpuPower | GpuPower | VmKnob | SystemWide.

Inductive RollbackRequirement :=
| NotRequiredForDryRun | RequiredBeforeApply | BestEffortOnly | RollbackReqUnavailable.

Inductive ActionSource := Cli | AutotuneRuntime | RemoteAgent | Tune | ApplyProfileWatch | SourceTest.

Inductive PolicyIntent :=
| IntentObserve | IntentSuggest | IntentDryRun | IntentApply | IntentVerify | IntentRollback.

Inductive DaemonPolicyVerdict :=
| Allow | Reject | Delay | RequireObserveOnly | RequireManualConfirmation.

#[export] Instance SafetyClass_eq_dec : EqDecision SafetyClass.
Proof. solve_decision. Defined.
#[export] Instance DaemonMode_eq_dec : EqDecision DaemonMode.
Proof. solve_decision. Defined.
#[export] Instance ActionEffectScope_eq_dec : EqDecision ActionEffectScope.
Proof. solve_decision. Defined.
#[export] Instance RollbackRequirement_eq_dec : EqDecision RollbackRequirement.
Proof. solve_decision. Defined.
#[export] Instance ActionSource_eq_dec : EqDecision ActionSource.
Proof. solve_decision. Defined.
#[export] Instance PolicyIntent_eq_dec : EqDecision PolicyIntent.
Proof. solve_decision. Defined.

(** [#[derive(PartialOrd)]]: the order of the declaration. *)
Definition SafetyClass_rank (c : SafetyClass) : nat :=
  match c with ObserveOnly => 0 | ReversibleLowRisk => 1 | ReversibleMediumRisk => 2 | HighRisk => 3 end.
Definition safety_le (a b : SafetyClass) : bool := (SafetyClass_rank a <=? SafetyClass_rank b)%nat.
Definition safety_lt (a b : SafetyClass) : bool := (SafetyClass_rank a <? SafetyClass_rank b)%nat.
Definition DaemonMode_rank (m : DaemonMode) : nat :=
  match m with
  | Observe => 0 | Suggest => 1 | ApplyLowRisk => 2 | ApplyMediumRisk => 3 | ApplyHighRisk => 4
  end.
Definition mode_le (a b : DaemonMode) : bool := (DaemonMode_rank a <=? DaemonMode_rank b)%nat.

Definition DaemonMode_as_str (m : DaemonMode) : string :=
  match m with
  | Observe => "observe"
  | Suggest => "suggest"
  | ApplyLowRisk => "apply-low-risk"
  | ApplyMediumRisk => "apply-medium-risk"
  | ApplyHighRisk => "apply-high-risk"
  end.

Definition supports_apply (m : DaemonMode) : bool :=
  match m with ApplyLowRisk | ApplyMediumRisk | ApplyHighRisk => true | _ => false end.

Definition is_low_risk_apply_scope (s : ActionEffectScope) : bool :=
  match s with LocalProcess | LocalProcessTree => true | _ => false end.

Definition is_system_wide_resource (s : ActionEffectScope) : bool :=
  match s with Irq | CpuPower | GpuPower | VmKnob | SystemWide => true | _ => false end.

Definition is_explicit_target_scope (s : ActionEffectScope) : bool :=
  match s with
  | LocalProcess | LocalProcessTree | Cgroup | Irq | CpuPower | GpuPower | VmKnob => true
  | _ => false
  end.

Record ActionDescriptor := {
  action_id : string;
  action_kind : string;
  safety_class : SafetyClass;
  effect_scope : ActionEffectScope;
  rollback : RollbackRequirement;
  persistent_effect : bool;
  touches_system_wide_state : bool;
  requires_explicit_target : bool;
  confidence : option f32;
}.

Definition verdict_as_str (v : DaemonPolicyVerdict) : string :=
  match v with
  | Allow => "allow"
  | Reject => "reject"
  | Delay => "delay"
  | RequireObserveOnly => "require_observe_only"
  | RequireManualConfirmation => "require_manual_confirmation"
  end.

Definition is_allowed (v : DaemonPolicyVerdict) : bool :=
  match v with Allow => true | _ => false end.

(** ** [policy/rejection.rs] *)

Inductive PolicyRejection :=
| UnsupportedMode (mode : string)
| InvalidActionDescriptor
| IntentNotAllowed (mode : DaemonMode) (intent : PolicyIntent)
| SafetyClassTooHigh (mode : DaemonMode) (safety_class : SafetyClass)
| EffectScopeNotAllowed (mode : DaemonMode) (effect_scope : ActionEffectScope)
| RollbackRequired (rollback : RollbackRequirement)
| RollbackUnavailable
| SystemWideActionBlocked
| PersistentEffectBlocked
| ActionFamilyNotEnabled (action_kind : string)
| ActionFamilyDenied (action_kind : string)
| CapabilityUnavailable (action_kind feature : string)
| ExplicitTargetRequired
| HighRiskRequiresExplicitOptIn
| HighRiskApplyNotImplemented
| MediumRiskApplyRequiresExplicitUnlock
| ConfidenceTooLow (confidence min_confidence : f32)
| DataQualityBlocked (reason_code : string)
| SystemHealthBlocked (reason_code : string)
| WorkloadUnstable
| CooldownActive
| RollbackPending
| RemoteApplyDisabled
| RemoteModeNotAllowed (mode : DaemonMode)
| RemoteApplyRequiresConfiguredAuth
| RemoteApplyRequiresAuthorizedRequest
| RemoteApplyRequiresLoopbackBind
| RemoteTargetCountTooHigh (target_count max_targets : nat).

Definition rejection_verdict (r : PolicyRejection) : DaemonPolicyVerdict :=
  match r with
  | CooldownActive => Delay
  | DataQualityBlocked _ | SystemHealthBlocked _ | WorkloadUnstable | ConfidenceTooLow _ _ =>
      RequireObserveOnly
  | HighRiskRequiresExplicitOptIn | HighRiskApplyNotImplemented | SystemWideActionBlocked
  | PersistentEffectBlocked | SafetyClassTooHigh _ HighRisk => RequireManualConfirmation
  | UnsupportedMode _ | InvalidActionDescriptor | IntentNotAllowed _ _ | SafetyClassTooHigh _ _
  | EffectScopeNotAllowed _ _ | RollbackRequired _ | RollbackUnavailable
  | ActionFamilyNotEnabled _ | ActionFamilyDenied _ | CapabilityUnavailable _ _
  | ExplicitTargetRequired | MediumRiskApplyRequiresExplicitUnlock | RollbackPending
  | RemoteApplyDisabled | RemoteModeNotAllowed _ | RemoteApplyRequiresConfiguredAuth
  | RemoteApplyRequiresAuthorizedRequest | RemoteApplyRequiresLoopbackBind
  | RemoteTargetCountTooHigh _ _ => Reject
  end.

Definition reason_code (r : PolicyRejection) : string :=
  match r with
  | UnsupportedMode _ => "unsupported_mode"
  | InvalidActionDescriptor => "invalid_action_descriptor"
  | IntentNotAllowed _ _ => "intent_not_allowed"
  | SafetyClassTooHigh _ _ => "safety_class_too_high"
  | EffectScopeNotAllowed _ _ => "effect_scope_not_allowed"
  | RollbackRequired _ => "rollback_required"
  | RollbackUnavailable => "rollback_unavailable"
  | SystemWideActionBlocked => "system_wide_action_blocked"
  | PersistentEffectBlocked => "persistent_effect_blocked"
  | ActionFamilyNotEnabled _ => "action_family_not_enabled"
  | ActionFamilyDenied _ => "action_family_denied"
  | CapabilityUnavailable _ _ => "capability_unavailable"
  | ExplicitTargetRequired => "explicit_target_required"
  | HighRiskRequiresExplicitOptIn => "high_risk_requires_explicit_opt_in"
  | HighRiskApplyNotImplemented => "high_risk_apply_not_implemented"
  | MediumRiskApplyRequiresExplicitUnlock => "medium_risk_apply_requires_explicit_unlock"
  | ConfidenceTooLow _ _ => "confidence_too_low"
  | DataQualityBlocked _ => "data_quality_blocked"
  | SystemHealthBlocked _ => "system_health_blocked"
  | WorkloadUnstable => "workload_unstable"
  | CooldownActive => "cooldown_active"
  | RollbackPending => "rollback_pending"
  | RemoteApplyDisabled => "remote_apply_disabled"
  | RemoteModeNotAllowed _ => "remote_mode_not_allowed"
  | RemoteApplyRequiresConfiguredAuth => "remote_apply_requires_configured_auth"
  | RemoteApplyRequiresAuthorizedRequest => "remote_apply_requires_authorized_request"
  | RemoteApplyRequiresLoopbackBind => "remote_apply_requires_loopback_bind"
  | RemoteTargetCountTooHigh _ _ => "remote_target_count_too_high"
  end.

Definition DaemonMode_from_str (value : string) : DaemonMode + PolicyRejection :=
  if String.eqb value "observe" then inl Observe
  else if String.eqb value "suggest" then inl Suggest
  else if String.eqb value "apply-low-risk" then inl ApplyLowRisk
  else if String.eqb value "apply-medium-risk" then inl ApplyMediumRisk
  else if String.eqb value "apply-high-risk" then inl ApplyHighRisk
  else inr (UnsupportedMode value).

(** ** [daemon/config] and [remote/limits.rs]: what the policy reads of them *)

Record DaemonTargetConfig := {
  target_pids : list Z; tree_pids : list Z; watch_process : option string;
  require_explicit_target : bool }.

Record DaemonCgroupTargetsConfig := {
  interactive_cgroup : option string; background_cgroup : option string;
  game_cgroup : option string; compile_cgroup : option string }.

Record DaemonSystemWideAllowlistConfig := {
  cpu_policies : gset string; gpu_cards : gset string; gpu_pci_ids : gset string;
  irq_devices : gset string; vm_knobs : gset string; operations : gset string }.

Record DaemonSafetyConfig := {
  sc_max_safety_class : SafetyClass;
  sc_allowed_action_classes : list SafetyClass;
  sc_enabled_action_families : gset string;
  sc_denied_action_families : gset string;
  sc_cgroup_targets : DaemonCgroupTargetsConfig;
  sc_system_wide_allowlist : DaemonSystemWideAllowlistConfig;
  sc_allow_system_wide_suggestions : bool;
  sc_allow_system_wide_apply : bool;
  sc_allow_high_risk : bool;
  sc_allow_persistent_effects : bool;
  sc_min_confidence : f32;
}.

Record DaemonRemoteConfig := {
  allow_remote_apply_cfg : bool; require_auth_for_apply : bool; allow_non_loopback_apply : bool }.

Record DaemonCandidateConfidenceConfig := {
  min_suggest_confidence : f32; min_apply_low_risk_confidence : f32;
  min_apply_medium_risk_confidence : f32; min_high_risk_suggestion_confidence : f32 }.

Record DaemonHealthConfig := {
  max_cpu_temp_celsius : Z; max_gpu_temp_celsius : Z; min_disk_available_bytes : Z;
  max_memory_pressure_some_avg10_percent : f32 }.

Record DaemonRetentionConfig := {
  max_history_events : Z; max_state_snapshots : Z; retain_crash_diagnostics : bool }.

(** The fields of [DaemonAutotuneConfig] the policy and the presets touch; the
    settings of the privileged worker and of the controller are not among them. *)
Record DaemonAutotuneConfig := {
  candidate_window_seconds : Z;
  washout_seconds : Z;
  ac_allow_medium_risk_apply : bool;
  ac_allow_cpu_power_on_battery : bool;
  ac_allow_gpu_power_in_autotune : bool;
  ac_allow_vm_knobs_in_autotune : bool;
  ac_high_risk_dry_run : bool;
  ac_confidence : DaemonCandidateConfidenceConfig;
}.

Inductive DaemonPreset :=
| PresetObserveOnly | GamingLowRisk | GamingLaptopSafe | WorkstationLowRisk | DebugAggressive.

Record DaemonConfig := {
  dc_preset : DaemonPreset;
  dc_mode : DaemonMode;
  dc_source : ActionSource;
  dc_target : DaemonTargetConfig;
  dc_safety : DaemonSafetyConfig;
  dc_health : DaemonHealthConfig;
  dc_retention : DaemonRetentionConfig;
  dc_remote : DaemonRemoteConfig;
  dc_autotune : DaemonAutotuneConfig;
}.

Record AgentAutotuneLimits := {
  max_active_controllers : nat;
  max_mode : DaemonMode;
  al_max_safety_class : SafetyClass;
  al_allow_high_risk : bool;
  max_candidate_window_seconds : Z;
  max_targets : nat;
  al_allow_system_wide_suggestions : bool;
  al_allow_system_wide_apply : bool;
}.

Definition DaemonTargetConfig_default : DaemonTargetConfig :=
  {| target_pids := []; tree_pids := []; watch_process := None; require_explicit_target := false |}.
Definition DaemonCgroupTargetsConfig_default : DaemonCgroupTargetsConfig :=
  {| interactive_cgroup := None; background_cgroup := None; game_cgroup := None;
     compile_cgroup := None |}.
Definition DaemonSystemWideAllowlistConfig_default : DaemonSystemWideAllowlistConfig :=
  {| cpu_policies := ∅; gpu_cards := ∅; gpu_pci_ids := ∅; irq_devices := ∅; vm_knobs := ∅;
     operations := ∅ |}.

Definition DaemonSafetyConfig_default : DaemonSafetyConfig := {|
  sc_max_safety_class := ObserveOnly;
  sc_allowed_action_classes := [ObserveOnly];
  sc_enabled_action_families := ∅;
  sc_denied_action_families := ∅;
  sc_cgroup_targets := DaemonCgroupTargetsConfig_default;
  sc_system_wide_allowlist := DaemonSystemWideAllowlistConfig_default;
  sc_allow_system_wide_suggestions := false;
  sc_allow_system_wide_apply := false;
  sc_allow_high_risk := false;
  sc_allow_persistent_effects := false;
  sc_min_confidence := f32_zero;
|}.

Definition DaemonRemoteConfig_default : DaemonRemoteConfig :=
  {| allow_remote_apply_cfg := false; require_auth_for_apply := true;
     allow_non_loopback_apply := false |}.

Definition DaemonCandidateConfidenceConfig_default : DaemonCandidateConfidenceConfig :=
  {| min_suggest_confidence := f32_frac 8388608;  (* 0.50 *)
     min_apply_low_risk_confidence := DEFAULT_MIN_FOCUS_CONFIDENCE;
     min_apply_medium_risk_confidence := f32_frac 14260634;  (* 0.85 *)
     min_high_risk_suggestion_confidence := f32_frac 15099494 (* 0.90 *) |}.

Definition DaemonAutotuneConfig_default : DaemonAutotuneConfig := {|
  candidate_window_seconds := 30;
  washout_seconds := 10;
  ac_allow_medium_risk_apply := false;
  ac_allow_cpu_power_on_battery := false;
  ac_allow_gpu_power_in_autotune := false;
  ac_allow_vm_knobs_in_autotune := false;
  ac_high_risk_dry_run := false;
  ac_confidence := DaemonCandidateConfidenceConfig_default;
|}.

(** From [SystemHealthThresholds::default]: 90_000 and 92_000 millidegrees,
    512 MiB and 50_000 millipercent. *)
Definition DaemonHealthConfig_default : DaemonHealthConfig :=
  {| max_cpu_temp_celsius := 90000 / 1000; max_gpu_temp_celsius := 92000 / 1000;
     min_disk_available_bytes := 512 * 1024 * 1024;
     max_memory_pressure_some_avg10_percent := S754_finite false 13107200 (-18) (* 50.0 *) |}.

Definition DaemonRetentionConfig_default : DaemonRetentionConfig :=
  {| max_history_events := 10000; max_state_snapshots := 16; retain_crash_diagnostics := true |}.

Definition AgentAutotuneLimits_default : AgentAutotuneLimits := {|
  max_active_controllers := 1;
  max_mode := ApplyLowRisk;
  al_max_safety_class := ReversibleLowRisk;
  al_allow_high_risk := false;
  max_candidate_window_seconds := 120;
  max_targets := 1;
  al_allow_system_wide_suggestions := false;
  al_allow_system_wide_apply := false;
|}.

Definition safety_classes_up_to (max : SafetyClass) : list SafetyClass :=
  List.filter (fun class => safety_le class max)
    [ObserveOnly; ReversibleLowRisk; ReversibleMediumRisk; HighRisk].

(** The safety section of a preset: the class ceiling, the enabled families and
    the confidence are set, the rest is the default. *)
Definition preset_safety (class : SafetyClass) (families : gset string) (min_confidence : f32)
  : DaemonSafetyConfig :=
  let d := DaemonSafetyConfig_default in {|
  sc_max_safety_class := class;
  sc_allowed_action_classes := safety_classes_up_to class;
  sc_enabled_action_families := families ∪ sc_enabled_action_families d;
  sc_denied_action_families := sc_denied_action_families d;
  sc_cgroup_targets := sc_cgroup_targets d;
  sc_system_wide_allowlist := sc_system_wide_allowlist d;
  sc_allow_system_wide_suggestions := sc_allow_system_wide_suggestions d;
  sc_allow_system_wide_apply := sc_allow_system_wide_apply d;
  sc_allow_high_risk := sc_allow_high_risk d;
  sc_allow_persistent_effects := sc_allow_persistent_effects d;
  sc_min_confidence := min_confidence;
|}.

Definition preset_autotune (window washout : Z) : DaemonAutotuneConfig :=
  let d := DaemonAutotuneConfig_default in {|
  candidate_window_seconds := window;
  washout_seconds := washout;
  ac_allow_medium_risk_apply := ac_allow_medium_risk_apply d;
  ac_allow_cpu_power_on_battery := ac_allow_cpu_power_on_battery d;
  ac_allow_gpu_power_in_autotune := ac_allow_gpu_power_in_autotune d;
  ac_allow_vm_knobs_in_autotune := ac_allow_vm_knobs_in_autotune d;
  ac_high_risk_dry_run := ac_high_risk_dry_run d;
  ac_confidence := ac_confidence d;
|}.

Definition preset_retention (events : Z) : DaemonRetentionConfig :=
  {| max_history_events := events;
     max_state_snapshots := max_state_snapshots DaemonRetentionConfig_default;
     retain_crash_diagnostics := retain_crash_diagnostics DaemonRetentionConfig_default |}.

Definition preset_health (cpu gpu : Z) : DaemonHealthConfig :=
  let d := DaemonHealthConfig_default in
  {| max_cpu_temp_celsius := cpu; max_gpu_temp_celsius := gpu;
     min_disk_available_bytes := min_disk_available_bytes d;
     max_memory_pressure_some_avg10_percent := max_memory_pressure_some_avg10_percent d |}.

Definition apply_preset (config : DaemonConfig) (preset : DaemonPreset) : DaemonConfig :=
  let set m safety health retention autotune :=
    {| dc_preset := preset; dc_mode := m; dc_source := dc_source config;
       dc_target := dc_target config; dc_safety := safety; dc_health := health;
       dc_retention := retention; dc_remote := DaemonRemoteConfig_default;
       dc_autotune := autotune |} in
  let health := DaemonHealthConfig_default in
  match preset with
  | PresetObserveOnly =>
      set Observe (preset_safety ObserveOnly ∅ f32_zero) health DaemonRetentionConfig_default
        DaemonAutotuneConfig_default
  | GamingLowRisk =>
      set ApplyLowRisk
        (preset_safety ReversibleLowRisk {["cpu_affinity_profile"%string]}
           (f32_frac 14260634) (* 0.85 *))
        health (preset_retention 20000) (preset_autotune 30 10)
  | GamingLaptopSafe =>
      set ApplyLowRisk
        (preset_safety ReversibleLowRisk {["cpu_affinity_profile"%string]}
           (f32_frac 15435039) (* 0.92 *))
        (preset_health 82 84) (preset_retention 12000) (preset_autotune 45 15)
  | WorkstationLowRisk =>
      set ApplyLowRisk
        (preset_safety ReversibleLowRisk {["cpu_affinity_profile"%string]}
           (f32_frac 14763950) (* 0.88 *))
        health (preset_retention 30000) (preset_autotune 60 15)
  | DebugAggressive =>
      set ApplyMediumRisk
        (preset_safety ReversibleMediumRisk
           {["cpu_affinity_profile"%string; "nice"%string; "ionice"%string; "uclamp"%string]}
           (f32_frac 12582912) (* 0.75 *))
        health (preset_retention 50000) (preset_autotune 20 5)
  end.

Definition from_preset (preset : DaemonPreset) (source : ActionSource) : DaemonConfig :=
  apply_preset
    {| dc_preset := preset; dc_mode := Observe; dc_source := source;
       dc_target := DaemonTargetConfig_default; dc_safety := DaemonSafetyConfig_default;
       dc_health := DaemonHealthConfig_default; dc_retention := DaemonRetentionConfig_default;
       dc_remote := DaemonRemoteConfig_default; dc_autotune := DaemonAutotuneConfig_default |}
    preset.

Definition DaemonConfig_default : DaemonConfig := from_preset PresetObserveOnly Cli.


(** ** [policy/capability.rs] *)

Record DaemonCapabilities := {
  kernel_release : option string;
  btf_available : bool;
  sched_tracepoints_available : bool;
  perf_permissions_likely : bool;
  perf_event_paranoid : option Z;
  cgroup_v2_available : bool;
  sched_ext_available : bool;
  uclamp_available : bool;
  ionice_available : bool;
  irq_affinity_available : bool;
  gpu_sysfs_available : bool;
  privileged_worker_socket_reachable : option bool;
}.

(** [str::strip_prefix]. *)
Fixpoint strip_prefix (s prefix : string) {struct prefix} : option string :=
  match prefix, s with
  | EmptyString, _ => Some s
  | String p prefix', String c s' => if Ascii.eqb p c then strip_prefix s' prefix' else None
  | String _ _, EmptyString => None
  end.

Definition family_separator (c : Ascii.ascii) : bool :=
  (Ascii.eqb c ":" || Ascii.eqb c "-" || Ascii.eqb c "_")%char.

Definition action_kind_matches_family (action_kind family : string) : bool :=
  String.eqb action_kind family
  || match strip_prefix action_kind family with
     | Some (String c _) => family_separator c
     | _ => false
     end.

Definition unavailable_capability_for_action
    (action_kind : string) (capabilities : DaemonCapabilities) : option string :=
  let fam := action_kind_matches_family action_kind in
  if fam "ionice" && negb (ionice_available capabilities) then Some "ionice"%string
  else if fam "uclamp" && negb (uclamp_available capabilities) then Some "uclamp"%string
  else if (fam "irq" || fam "irq_affinity") && negb (irq_affinity_available capabilities)
  then Some "irq_affinity"%string
  else if (fam "cgroup" || fam "cpuset") && negb (cgroup_v2_available capabilities)
  then Some "cgroup_v2"%string
  else if (fam "gpu" || fam "gpu_power") && negb (gpu_sysfs_available capabilities)
  then Some "gpu_sysfs"%string
  else if fam "scx" && negb (sched_ext_available capabilities) then Some "sched_ext"%string
  else if (fam "cpu_perf" || fam "perf") && negb (perf_permissions_likely capabilities)
  then Some "perf_permissions"%string
  else None.

(** ** [policy/context.rs] *)

Record DaemonPolicyContext := {
  data_quality_ok : bool;
  data_quality_reason_code : option string;
  system_health_ok : bool;
  system_health_reason_code : option string;
  workload_stable : bool;
  cooldown_active : bool;
  rollback_pending : bool;
  capabilities : option DaemonCapabilities;
}.

Definition DaemonPolicyContext_default : DaemonPolicyContext := {|
  data_quality_ok := true;
  data_quality_reason_code := None;
  system_health_ok := true;
  system_health_reason_code := None;
  workload_stable := true;
  cooldown_active := false;
  rollback_pending := false;
  capabilities := None;
|}.

Record RemotePolicyContext := {
  ctx_bind_is_loopback : bool;
  ctx_auth_configured : bool;
  ctx_request_authorized : bool;
  limits : AgentAutotuneLimits;
}.

(** ** [policy/remote.rs]: the remote section of a policy *)

Record RemoteApplyPolicy := {
  allow_remote_apply : bool;
  remote_apply_enabled : bool;
  require_loopback_bind : bool;
  require_auth : bool;
  max_remote_targets : nat;
  target_count : nat;
  target_count_allowed : bool;
  mode_supported_by_limits : bool;
  auth_configured : bool;
  request_authorized : bool;
  bind_is_loopback : bool;
}.

Definition RemoteApplyPolicy_default : RemoteApplyPolicy := {|
  allow_remote_apply := false;
  remote_apply_enabled := false;
  require_loopback_bind := true;
  require_auth := true;
  max_remote_targets := 1;
  target_count := 0;
  target_count_allowed := true;
  mode_supported_by_limits := false;
  auth_configured := false;
  request_authorized := false;
  bind_is_loopback := false;
|}.

Definition HIGH_RISK_APPLY_IMPLEMENTED : bool := false.

Definition max_safety_class_for_mode (mode : DaemonMode) : SafetyClass :=
  match mode with
  | Observe => ObserveOnly
  | Suggest => HighRisk
  | ApplyLowRisk => ReversibleLowRisk
  | ApplyMediumRisk => ReversibleMediumRisk
  | ApplyHighRisk => HighRisk
  end.

Definition mode_eqb (a b : DaemonMode) : bool := bool_decide (a = b).

Definition remote_mode_supported_by_context (mode : DaemonMode) (context : RemotePolicyContext)
  : bool :=
  mode_le mode (max_mode (limits context))
  && safety_le (max_safety_class_for_mode mode) (al_max_safety_class (limits context))
  && (negb (mode_eqb mode ApplyHighRisk)
      || (HIGH_RISK_APPLY_IMPLEMENTED && al_allow_high_risk (limits context))).

Definition remote_target_count_for_config (config : DaemonConfig) : nat :=
  length (target_pids (dc_target config)) + length (tree_pids (dc_target config))
  + match watch_process (dc_target config) with Some _ => 1 | None => 0 end.

Definition remote_apply_policy_for_config
    (config : DaemonConfig) (remote_context : option RemotePolicyContext) : RemoteApplyPolicy :=
  match remote_context with
  | None => RemoteApplyPolicy_default
  | Some context =>
      let remote := dc_remote config in
      let supports := supports_apply (dc_mode config) in
      let mode_supported := remote_mode_supported_by_context (dc_mode config) context in
      let auth_allowed := negb (require_auth_for_apply remote)
        || (ctx_auth_configured context && ctx_request_authorized context) in
      let bind_allowed := allow_non_loopback_apply remote || ctx_bind_is_loopback context in
      let count := remote_target_count_for_config config in
      let count_allowed := (count <=? max_targets (limits context))%nat in
      {| allow_remote_apply := allow_remote_apply_cfg remote && supports && mode_supported
           && auth_allowed && bind_allowed && count_allowed;
         remote_apply_enabled := allow_remote_apply_cfg remote;
         require_loopback_bind := supports && negb (allow_non_loopback_apply remote);
         require_auth := supports && require_auth_for_apply remote;
         max_remote_targets := max_targets (limits context);
         target_count := count;
         target_count_allowed := count_allowed;
         mode_supported_by_limits := mode_supported;
         auth_configured := ctx_auth_configured context;
         request_authorized := ctx_request_authorized context;
         bind_is_loopback := ctx_bind_is_loopback context |}
  end.

(** ** [policy.rs] and [policy/build.rs] *)

Record DaemonPolicy := {
  mode : DaemonMode;
  source : ActionSource;
  max_safety_class : SafetyClass;
  allowed_effect_scopes : list ActionEffectScope;
  enabled_action_families : gset string;
  denied_action_families : gset string;
  cgroup_targets : DaemonCgroupTargetsConfig;
  system_wide_allowlist : DaemonSystemWideAllowlistConfig;
  rollback_required_before_apply : bool;
  allow_medium_risk_apply : bool;
  allow_system_wide_suggestions : bool;
  allow_system_wide_apply : bool;
  allow_high_risk : bool;
  allow_persistent_effects : bool;
  allow_cpu_power_on_battery : bool;
  allow_gpu_power_in_autotune : bool;
  allow_vm_knobs_in_autotune : bool;
  high_risk_dry_run : bool;
  min_confidence : f32;
  pol_confidence : DaemonCandidateConfidenceConfig;
  remote_apply : RemoteApplyPolicy;
}.

Definition allowed_effect_scopes_for_mode (mode : DaemonMode) : list ActionEffectScope :=
  match mode with
  | ApplyLowRisk => [LocalProcess; LocalProcessTree]
  | ApplyMediumRisk => [LocalProcess; LocalProcessTree; Cgroup; Irq; CpuPower; GpuPower; VmKnob]
  | Observe | Suggest | ApplyHighRisk =>
      [ScopeObserveOnly; LocalProcess; LocalProcessTree; UserStateFile; Cgroup; Irq; Sysfs;
       CpuPower; GpuPower; VmKnob; SystemWide]
  end.

Definition min_confidence_for_config (config : DaemonConfig) : f32 :=
  if f32_gt (sc_min_confidence (dc_safety config)) f32_zero
  then sc_min_confidence (dc_safety config)
  else if supports_apply (dc_mode config) then DEFAULT_MIN_FOCUS_CONFIDENCE
  else f32_zero.

Definition confidence_thresholds_for_config (config : DaemonConfig) (min_confidence : f32)
  : DaemonCandidateConfidenceConfig :=
  let configured := ac_confidence (dc_autotune config) in
  {| min_suggest_confidence := min_suggest_confidence configured;
     min_apply_low_risk_confidence :=
       f32_max (min_apply_low_risk_confidence configured) min_confidence;
     min_apply_medium_risk_confidence :=
       f32_max (f32_max (min_apply_medium_risk_confidence configured) min_confidence)
         (f32_frac 14260634) (* 0.85 *);
     min_high_risk_suggestion_confidence := min_high_risk_suggestion_confidence configured |}.

Definition build_daemon_policy
    (config : DaemonConfig) (remote_context : option RemotePolicyContext) : DaemonPolicy :=
  let m := dc_mode config in
  let safety := dc_safety config in
  let mode_max := max_safety_class_for_mode m in
  let max_class :=
    match remote_context with
    | Some context =>
        if safety_lt (al_max_safety_class (limits context)) mode_max
        then al_max_safety_class (limits context) else mode_max
    | None => mode_max
    end in
  let min_conf := min_confidence_for_config config in
  let high_risk := HIGH_RISK_APPLY_IMPLEMENTED && mode_eqb m ApplyHighRisk && sc_allow_high_risk safety in
  let suggestions := negb (mode_eqb m Observe) && sc_allow_system_wide_suggestions safety in
  let system_wide := sc_allow_system_wide_apply safety
    && (mode_eqb m ApplyMediumRisk
        || (HIGH_RISK_APPLY_IMPLEMENTED && mode_eqb m ApplyHighRisk && sc_allow_high_risk safety)) in
  let limit (f : AgentAutotuneLimits -> bool) (b : bool) :=
    match remote_context with Some context => b && f (limits context) | None => b end in
  {| mode := m;
     source := dc_source config;
     max_safety_class := max_class;
     allowed_effect_scopes := allowed_effect_scopes_for_mode m;
     enabled_action_families := sc_enabled_action_families safety;
     denied_action_families := sc_denied_action_families safety;
     cgroup_targets := sc_cgroup_targets safety;
     system_wide_allowlist := sc_system_wide_allowlist safety;
     rollback_required_before_apply := supports_apply m;
     allow_medium_risk_apply :=
       mode_eqb m ApplyMediumRisk && ac_allow_medium_risk_apply (dc_autotune config);
     allow_system_wide_suggestions := limit al_allow_system_wide_suggestions suggestions;
     allow_system_wide_apply := limit al_allow_system_wide_apply system_wide;
     allow_high_risk := limit al_allow_high_risk high_risk;
     allow_persistent_effects := sc_allow_persistent_effects safety;
     allow_cpu_power_on_battery := ac_allow_cpu_power_on_battery (dc_autotune config);
     allow_gpu_power_in_autotune := ac_allow_gpu_power_in_autotune (dc_autotune config);
     allow_vm_knobs_in_autotune := ac_allow_vm_knobs_in_autotune (dc_autotune config);
     high_risk_dry_run := mode_eqb m Suggest && ac_high_risk_dry_run (dc_autotune config);
     min_confidence := min_conf;
     pol_confidence := confidence_thresholds_for_config config min_conf;
     remote_apply := remote_apply_policy_for_config config remote_context |}.

(** [DaemonConfig { mode, source, ..DaemonConfig::default() }] *)
Definition default_config_with (m : DaemonMode) (s : ActionSource) : DaemonConfig :=
  let d := DaemonConfig_default in
  {| dc_preset := dc_preset d; dc_mode := m; dc_source := s; dc_target := dc_target d;
     dc_safety := dc_safety d; dc_health := dc_health d; dc_retention := dc_retention d;
     dc_remote := dc_remote d; dc_autotune := dc_autotune d |}.

Definition config_for_constructor (m : DaemonMode) (s : ActionSource) (high_risk : bool)
  : DaemonConfig :=
  let d := default_config_with m s in
  let safety min_conf := {|
    sc_max_safety_class := max_safety_class_for_mode m;
    sc_allowed_action_classes := sc_allowed_action_classes (dc_safety d);
    sc_enabled_action_families := sc_enabled_action_families (dc_safety d);
    sc_denied_action_families := sc_denied_action_families (dc_safety d);
    sc_cgroup_targets := sc_cgroup_targets (dc_safety d);
    sc_system_wide_allowlist := sc_system_wide_allowlist (dc_safety d);
    sc_allow_system_wide_suggestions := sc_allow_system_wide_suggestions (dc_safety d);
    sc_allow_system_wide_apply := sc_allow_system_wide_apply (dc_safety d);
    sc_allow_high_risk := high_risk;
    sc_allow_persistent_effects := sc_allow_persistent_effects (dc_safety d);
    sc_min_confidence := min_conf;
  |} in
  let autotune := {|
    candidate_window_seconds := candidate_window_seconds (dc_autotune d);
    washout_seconds := washout_seconds (dc_autotune d);
    ac_allow_medium_risk_apply := mode_eqb m ApplyMediumRisk;
    ac_allow_cpu_power_on_battery := ac_allow_cpu_power_on_battery (dc_autotune d);
    ac_allow_gpu_power_in_autotune := ac_allow_gpu_power_in_autotune (dc_autotune d);
    ac_allow_vm_knobs_in_autotune := ac_allow_vm_knobs_in_autotune (dc_autotune d);
    ac_high_risk_dry_run := ac_high_risk_dry_run (dc_autotune d);
    ac_confidence := ac_confidence (dc_autotune d);
  |} in
  let config min_conf :=
    {| dc_preset := dc_preset d; dc_mode := m; dc_source := s; dc_target := dc_target d;
       dc_safety := safety min_conf; dc_health := dc_health d; dc_retention := dc_retention d;
       dc_remote := dc_remote d; dc_autotune := autotune |} in
  config (min_confidence_for_config (config (sc_min_confidence (dc_safety d)))).

Definition policy_observe (s : ActionSource) : DaemonPolicy :=
  build_daemon_policy (config_for_constructor Observe s false) None.
Definition policy_suggest (s : ActionSource) : DaemonPolicy :=
  build_daemon_policy (config_for_constructor Suggest s false) None.
Definition policy_apply_low_risk (s : ActionSource) : DaemonPolicy :=
  build_daemon_policy (config_for_constructor ApplyLowRisk s false) None.
Definition policy_apply_medium_risk (s : ActionSource) : DaemonPolicy :=
  build_daemon_policy (config_for_constructor ApplyMediumRisk s false) None.
Definition policy_apply_high_risk_explicit (s : ActionSource) : DaemonPolicy :=
  build_daemon_policy (config_for_constructor ApplyHighRisk s true) None.
