(* ===== verification/PolicyEval.v ===== *)
(** * Daemon policy: evaluation

    [stutter/src/daemon/policy/evaluate/*.rs] and the rule recorders of
    [policy/remote.rs].  An evaluation appends rules to a list and keeps the
    first rejection; the explanation carries both.  Rule texts are not modelled.

    [apply_permitted] is the specification of an apply decision: the conditions
    an operator can read, with no order of evaluation; [apply_allowed_iff] shows
    that the evaluator decides exactly that. *)

From Stdlib Require Import SpecFloat Ascii String.
From S2P Require Import Prelude PolicyModel.

(** ** Recording rules, [evaluate/reason.rs] *)

Record PolicyRuleEvaluation := { rule : string; passed : bool }.

Inductive PolicyDecisionKind := Allowed | Rejected (rejection : PolicyRejection).

Record PolicyExplanation := {
  verdict : DaemonPolicyVerdict;
  decision : PolicyDecisionKind;
  ex_intent : PolicyIntent;
  ex_action_id : string;
  ex_action_kind : string;
  ex_mode : DaemonMode;
  ex_source : ActionSource;
  evaluated_rules : list PolicyRuleEvaluation;
}.

(** The two accumulators of an evaluation, [evaluated_rules] and [first_rejection]. *)
Definition rules := (list PolicyRuleEvaluation * option PolicyRejection)%type.

Definition then_some {A} (b : bool) (x : A) : option A := if b then Some x else None.

Definition record_policy_rule (name : string) (ok : bool) (rejection : option PolicyRejection)
    (st : rules) : rules :=
  (st.1 ++ [{| rule := name; passed := ok |}],
   match ok, st.2 with
   | false, None => rejection
   | _, first_rejection => first_rejection
   end).

Notation "st |> f" := (f st) (at level 61, left associativity, only parsing).

Definition finish_policy_explanation (policy : DaemonPolicy) (intent : PolicyIntent)
    (descriptor : ActionDescriptor) (st : rules) : PolicyExplanation :=
  let '(verdict, decision) :=
    match st.2 with
    | Some rejection => (rejection_verdict rejection, Rejected rejection)
    | None => (Allow, Allowed)
    end in
  {| verdict := verdict; decision := decision; ex_intent := intent;
     ex_action_id := action_id descriptor; ex_action_kind := action_kind descriptor;
     ex_mode := mode policy; ex_source := source policy; evaluated_rules := st.1 |}.

(** [str::trim] of ASCII text, as far as emptiness of the result goes. *)
Definition is_whitespace (c : Ascii.ascii) : bool :=
  let n := N_of_ascii c in ((9 <=? n) && (n <=? 13) || (n =? 32))%N.

Fixpoint trim_is_empty (s : string) : bool :=
  match s with EmptyString => true | String c s' => is_whitespace c && trim_is_empty s' end.

Definition validate_policy_descriptor_shape (descriptor : ActionDescriptor) : bool :=
  negb (trim_is_empty (action_id descriptor)) && negb (trim_is_empty (action_kind descriptor)).

(** ** Remote rules, [policy/remote.rs] and [evaluate/remote.rs] *)

Definition source_is_remote (policy : DaemonPolicy) : bool := bool_decide (source policy = RemoteAgent).

Definition record_remote_target_count_rule (policy : DaemonPolicy) (st : rules) : rules :=
  let remote := remote_apply policy in
  st |> record_policy_rule "remote_target_count" (target_count_allowed remote)
          (then_some (negb (target_count_allowed remote))
             (RemoteTargetCountTooHigh (target_count remote) (max_remote_targets remote))).

Definition record_remote_apply_rules (policy : DaemonPolicy) (st : rules) : rules :=
  let remote := remote_apply policy in
  let st := st |> record_policy_rule "remote_apply_enabled" (remote_apply_enabled remote)
                    (then_some (negb (remote_apply_enabled remote)) RemoteApplyDisabled) in
  let st :=
    if require_auth remote then
      st |> record_policy_rule "remote_auth_configured" (auth_configured remote)
              (then_some (negb (auth_configured remote)) RemoteApplyRequiresConfiguredAuth)
         |> record_policy_rule "remote_request_authorized" (request_authorized remote)
              (then_some (negb (request_authorized remote)) RemoteApplyRequiresAuthorizedRequest)
    else st in
  let st :=
    if require_loopback_bind remote then
      st |> record_policy_rule "remote_loopback_bind" (bind_is_loopback remote)
              (then_some (negb (bind_is_loopback remote)) RemoteApplyRequiresLoopbackBind)
    else st in
  st |> record_policy_rule "remote_mode_supported" (mode_supported_by_limits remote)
          (then_some (negb (mode_supported_by_limits remote)) (RemoteModeNotAllowed (mode policy)))
     |> record_remote_target_count_rule policy.

Definition remote_target_count_blocks_non_apply (policy : DaemonPolicy) (st : rules)
  : rules * bool :=
  if source_is_remote policy && negb (supports_apply (mode policy))
     && negb (target_count_allowed (remote_apply policy))
  then (st |> record_remote_target_count_rule policy, true)
  else (st, false).

Definition record_remote_apply_gates (policy : DaemonPolicy) (st : rules) : rules :=
  if source_is_remote policy && supports_apply (mode policy)
  then st |> record_remote_apply_rules policy else st.

(** ** Context rules, [evaluate/target.rs] *)

Definition record_context_rules (intent : PolicyIntent) (descriptor : ActionDescriptor)
    (context : DaemonPolicyContext) (st : rules) : rules :=
  let apply_intent := match intent with IntentApply => true | _ => false end in
  let data_quality_reason := default "insufficient_data"%string (data_quality_reason_code context) in
  let data_quality_passed := negb apply_intent || data_quality_ok context in
  let health_reason := default "system_health_degraded"%string (system_health_reason_code context) in
  let health_passed := negb apply_intent || system_health_ok context in
  let workload_passed := negb apply_intent || workload_stable context in
  let cooldown_passed := negb apply_intent || negb (cooldown_active context) in
  let rollback_passed := negb apply_intent || negb (rollback_pending context) in
  let capability_checked :=
    match intent with IntentSuggest | IntentDryRun | IntentApply => true | _ => false end in
  let missing_capability :=
    match capabilities context with
    | Some caps => unavailable_capability_for_action (action_kind descriptor) caps
    | None => None
    end in
  let capability_passed :=
    negb capability_checked || match missing_capability with None => true | Some _ => false end in
  let capability_rejection := option_map (CapabilityUnavailable (action_kind descriptor)) missing_capability in
  st |> record_policy_rule "data_quality_gate" data_quality_passed
          (then_some (negb data_quality_passed) (DataQualityBlocked data_quality_reason))
     |> record_policy_rule "system_health_gate" health_passed
          (then_some (negb health_passed) (SystemHealthBlocked health_reason))
     |> record_policy_rule "workload_stability_gate" workload_passed
          (then_some (negb workload_passed) WorkloadUnstable)
     |> record_policy_rule "cooldown_gate" cooldown_passed
          (then_some (negb cooldown_passed) CooldownActive)
     |> record_policy_rule "rollback_pending_gate" rollback_passed
          (then_some (negb rollback_passed) RollbackPending)
     |> record_policy_rule "capability_gate" capability_passed
          (if capability_passed then None else capability_rejection).

(** ** The evaluator, [evaluate/mod.rs] *)

Definition provider_confidence_threshold (policy : DaemonPolicy) (descriptor : ActionDescriptor)
  : f32 :=
  match mode policy with
  | Observe => f32_one
  | Suggest =>
      match safety_class descriptor with
      | HighRisk => min_high_risk_suggestion_confidence (pol_confidence policy)
      | _ => min_suggest_confidence (pol_confidence policy)
      end
  | ApplyLowRisk => min_apply_low_risk_confidence (pol_confidence policy)
  | ApplyMediumRisk => min_apply_medium_risk_confidence (pol_confidence policy)
  | ApplyHighRisk => min_high_risk_suggestion_confidence (pol_confidence policy)
  end.

Definition medium_risk_system_scope_allowed (policy : DaemonPolicy) (descriptor : ActionDescriptor)
  : bool :=
  if negb (mode_eqb (mode policy) ApplyMediumRisk)
     || negb (safety_le (safety_class descriptor) ReversibleMediumRisk)
  then false
  else if negb (allow_system_wide_apply policy) then false
  else match effect_scope descriptor with
       | Irq | CpuPower => true
       | GpuPower => allow_gpu_power_in_autotune policy
       | VmKnob => allow_vm_knobs_in_autotune policy
       | _ => false
       end.

(** The explicit unlocks of the apply modes above low risk. *)
Definition record_apply_unlocks (policy : DaemonPolicy) (st : rules) : rules :=
  let st :=
    if mode_eqb (mode policy) ApplyMediumRisk then
      st |> record_policy_rule "medium_risk_apply_unlock" (allow_medium_risk_apply policy)
              (then_some (negb (allow_medium_risk_apply policy))
                 MediumRiskApplyRequiresExplicitUnlock)
    else st in
  if mode_eqb (mode policy) ApplyHighRisk then
    st |> record_policy_rule "high_risk_apply_support" HIGH_RISK_APPLY_IMPLEMENTED
            (then_some (negb HIGH_RISK_APPLY_IMPLEMENTED) HighRiskApplyNotImplemented)
  else st.

(** The class and scope the mode admits. *)
Definition record_mode_rules (policy : DaemonPolicy) (descriptor : ActionDescriptor) (st : rules)
  : rules :=
  let m := mode policy in
  let class_rule ok :=
    record_policy_rule "safety_class_allowed" ok
      (then_some (negb ok) (SafetyClassTooHigh m (safety_class descriptor))) in
  let scope_rule ok :=
    record_policy_rule "effect_scope_allowed" ok
      (then_some (negb ok) (EffectScopeNotAllowed m (effect_scope descriptor))) in
  match m with
  | Observe | Suggest => st
  | ApplyLowRisk =>
      st |> class_rule (bool_decide (safety_class descriptor = ReversibleLowRisk))
         |> scope_rule (is_low_risk_apply_scope (effect_scope descriptor))
  | ApplyMediumRisk =>
      st |> class_rule (safety_le (safety_class descriptor) ReversibleMediumRisk)
         |> scope_rule (is_explicit_target_scope (effect_scope descriptor))
  | ApplyHighRisk =>
      let ok := negb (bool_decide (safety_class descriptor = HighRisk)) || allow_high_risk policy in
      st |> record_policy_rule "safety_class_allowed" true None
         |> record_policy_rule "effect_scope_allowed" true None
         |> record_policy_rule "high_risk_opt_in" ok
              (then_some (negb ok) HighRiskRequiresExplicitOptIn)
  end.

(** The rules every apply goes through. *)
Definition record_apply_rules (policy : DaemonPolicy) (descriptor : ActionDescriptor) (st : rules)
  : rules :=
  let system_wide := negb (touches_system_wide_state descriptor) || allow_system_wide_apply policy
                     || medium_risk_system_scope_allowed policy descriptor in
  let persistent := negb (persistent_effect descriptor) || allow_persistent_effects policy in
  let families (s : gset string) :=
    existsb (action_kind_matches_family (action_kind descriptor)) (elements s) in
  let enabled := match elements (enabled_action_families policy) with [] => true | _ => false end
                 || families (enabled_action_families policy) in
  let denied := families (denied_action_families policy) in
  let target := negb (requires_explicit_target descriptor)
                || is_explicit_target_scope (effect_scope descriptor) in
  st |> record_policy_rule "system_wide_apply_permission" system_wide
          (then_some (negb system_wide) SystemWideActionBlocked)
     |> record_policy_rule "persistent_effect_permission" persistent
          (then_some (negb persistent) PersistentEffectBlocked)
     |> record_policy_rule "action_family_enabled" enabled
          (then_some (negb enabled) (ActionFamilyNotEnabled (action_kind descriptor)))
     |> record_policy_rule "action_family_not_denied" (negb denied)
          (then_some denied (ActionFamilyDenied (action_kind descriptor)))
     |> match rollback descriptor with
        | RequiredBeforeApply => record_policy_rule "rollback_available" true None
        | RollbackReqUnavailable =>
            record_policy_rule "rollback_available" false (Some RollbackUnavailable)
        | NotRequiredForDryRun | BestEffortOnly =>
            record_policy_rule "rollback_available" false
              (Some (RollbackRequired (rollback descriptor)))
        end
     |> record_policy_rule "explicit_target_scope" target
          (then_some (negb target) ExplicitTargetRequired)
     |> match confidence descriptor with
        | Some c =>
            let ok := f32_ge c (min_confidence policy) in
            record_policy_rule "confidence_threshold" ok
              (then_some (negb ok) (ConfidenceTooLow c (min_confidence policy)))
        | None => record_policy_rule "confidence_threshold" true None
        end.

Definition explain_action (policy : DaemonPolicy) (intent : PolicyIntent)
    (descriptor : ActionDescriptor) : PolicyExplanation :=
  let finish := finish_policy_explanation policy intent descriptor in
  let '(st, blocked) := remote_target_count_blocks_non_apply policy ([], None) in
  if blocked then finish st else
  match intent with
  | IntentObserve | IntentDryRun | IntentVerify | IntentRollback =>
      finish (st |> record_policy_rule "intent_allowed" true None)
  | IntentSuggest =>
      let ok := negb (mode_eqb (mode policy) Observe) in
      let wide := negb (touches_system_wide_state descriptor)
                  || allow_system_wide_suggestions policy in
      finish (st |> record_policy_rule "intent_allowed" ok
                      (then_some (negb ok) (IntentNotAllowed (mode policy) intent))
                 |> record_policy_rule "system_wide_suggestion_permission" wide
                      (then_some (negb wide) SystemWideActionBlocked))
  | IntentApply =>
      let ok := supports_apply (mode policy) in
      let st := st |> record_policy_rule "intent_allowed" ok
                        (then_some (negb ok) (IntentNotAllowed (mode policy) intent)) in
      if negb ok then finish st else
      finish (st |> record_apply_unlocks policy
                 |> record_remote_apply_gates policy
                 |> record_mode_rules policy descriptor
                 |> record_apply_rules policy descriptor)
  end.

Definition explain_action_with_context (policy : DaemonPolicy) (intent : PolicyIntent)
    (descriptor : ActionDescriptor) (context : DaemonPolicyContext) : PolicyExplanation :=
  let st := record_context_rules intent descriptor context ([], None) in
  match st.2 with
  | Some _ => finish_policy_explanation policy intent descriptor st
  | None =>
      let explanation := explain_action policy intent descriptor in
      {| verdict := verdict explanation; decision := decision explanation;
         ex_intent := ex_intent explanation; ex_action_id := ex_action_id explanation;
         ex_action_kind := ex_action_kind explanation; ex_mode := ex_mode explanation;
         ex_source := ex_source explanation;
         evaluated_rules := st.1 ++ evaluated_rules explanation |}
  end.

Definition check_decision (explanation : PolicyExplanation) : unit + PolicyRejection :=
  match decision explanation with Allowed => inl tt | Rejected rejection => inr rejection end.

Definition check_action (policy : DaemonPolicy) (intent : PolicyIntent)
    (descriptor : ActionDescriptor) : unit + PolicyRejection :=
  if negb (validate_policy_descriptor_shape descriptor) then inr InvalidActionDescriptor
  else check_decision (explain_action policy intent descriptor).

Definition check_action_with_context (policy : DaemonPolicy) (intent : PolicyIntent)
    (descriptor : ActionDescriptor) (context : DaemonPolicyContext) : unit + PolicyRejection :=
  if negb (validate_policy_descriptor_shape descriptor) then inr InvalidActionDescriptor
  else check_decision (explain_action_with_context policy intent descriptor context).

Definition verdict_for_action (policy : DaemonPolicy) (intent : PolicyIntent)
    (descriptor : ActionDescriptor) : DaemonPolicyVerdict :=
  verdict (explain_action policy intent descriptor).

Definition verdict_for_action_with_context (policy : DaemonPolicy) (intent : PolicyIntent)
    (descriptor : ActionDescriptor) (context : DaemonPolicyContext) : DaemonPolicyVerdict :=
  verdict (explain_action_with_context policy intent descriptor context).

(** ** Rules and rejections *)

(** The rejections a rule can give. *)
Definition rule_rejects (name : string) (r : PolicyRejection) : bool :=
  let named := String.eqb name in
  match r with
  | UnsupportedMode _ | InvalidActionDescriptor => false
  | IntentNotAllowed _ _ => named "intent_allowed"
  | SafetyClassTooHigh _ _ => named "safety_class_allowed"
  | EffectScopeNotAllowed _ _ => named "effect_scope_allowed"
  | RollbackRequired _ | RollbackUnavailable => named "rollback_available"
  | SystemWideActionBlocked =>
      named "system_wide_suggestion_permission" || named "system_wide_apply_permission"
  | PersistentEffectBlocked => named "persistent_effect_permission"
  | ActionFamilyNotEnabled _ => named "action_family_enabled"
  | ActionFamilyDenied _ => named "action_family_not_denied"
  | CapabilityUnavailable _ _ => named "capability_gate"
  | ExplicitTargetRequired => named "explicit_target_scope"
  | HighRiskRequiresExplicitOptIn => named "high_risk_opt_in"
  | HighRiskApplyNotImplemented => named "high_risk_apply_support"
  | MediumRiskApplyRequiresExplicitUnlock => named "medium_risk_apply_unlock"
  | ConfidenceTooLow _ _ => named "confidence_threshold"
  | DataQualityBlocked _ => named "data_quality_gate"
  | SystemHealthBlocked _ => named "system_health_gate"
  | WorkloadUnstable => named "workload_stability_gate"
  | CooldownActive => named "cooldown_gate"
  | RollbackPending => named "rollback_pending_gate"
  | RemoteApplyDisabled => named "remote_apply_enabled"
  | RemoteModeNotAllowed _ => named "remote_mode_supported"
  | RemoteApplyRequiresConfiguredAuth => named "remote_auth_configured"
  | RemoteApplyRequiresAuthorizedRequest => named "remote_request_authorized"
  | RemoteApplyRequiresLoopbackBind => named "remote_loopback_bind"
  | RemoteTargetCountTooHigh _ _ => named "remote_target_count"
  end.

(** The first rule of a list that failed. *)
Fixpoint first_failed (rs : list PolicyRuleEvaluation) : option string :=
  match rs with
  | [] => None
  | r :: rs => if passed r then first_failed rs else Some (rule r)
  end.

(** The rejection kept is one of the first failed rule. *)
Definition explains (rs : list PolicyRuleEvaluation) (r : option PolicyRejection) : Prop :=
  match first_failed rs, r with
  | None, None => True
  | Some name, Some r => rule_rejects name r = true
  | _, _ => False
  end.

Definition coherent (st : rules) : Prop := explains st.1 st.2.

Lemma first_failed_app xs ys :
  first_failed (xs ++ ys)
  = match first_failed xs with Some n => Some n | None => first_failed ys end.
Proof. induction xs as [|x xs IH]; simpl; [done|]. by destruct (passed x). Qed.

(** A rule keeps the record coherent when it comes with a rejection of its own
    whenever it fails. *)
Definition rule_ok (name : string) (ok : bool) (rejection : option PolicyRejection) : Prop :=
  ok = true \/ exists r, rejection = Some r /\ rule_rejects name r = true.

Lemma record_coherent name ok rejection st :
  rule_ok name ok rejection -> coherent st -> coherent (record_policy_rule name ok rejection st).
Proof.
  unfold coherent, explains; destruct st as [rs r]; simpl; intros Hr Hc.
  rewrite first_failed_app; destruct (first_failed rs); simpl.
  - destruct r; [by destruct ok | done].
  - destruct r; [done|]. destruct ok; simpl; [done|].
    destruct Hr as [?|(r' & -> & H)]; [done|exact H].
Qed.

Lemma rule_ok_true name rejection : rule_ok name true rejection.
Proof. by left. Qed.

Lemma rule_ok_then_some name ok r :
  rule_rejects name r = true -> rule_ok name ok (then_some (negb ok) r).
Proof. intros H; destruct ok; [by left|right; by exists r]. Qed.

Lemma rule_ok_then_some_neg name b r :
  rule_rejects name r = true -> rule_ok name (negb b) (then_some b r).
Proof. intros H; destruct b; [right; by exists r|by left]. Qed.

Lemma rule_ok_then_some_failed name ok r :
  rule_rejects name r = true -> rule_ok name ok (then_some true r).
Proof. intros H; right; by exists r. Qed.

Lemma rule_ok_some name ok r : rule_rejects name r = true -> rule_ok name ok (Some r).
Proof. intros H; right; by exists r. Qed.

Create HintDb policy discriminated.
#[export] Hint Resolve record_coherent rule_ok_true rule_ok_then_some rule_ok_then_some_neg
  rule_ok_then_some_failed rule_ok_some : policy.
#[export] Hint Extern 1 (rule_rejects _ _ = true) => reflexivity : policy.

Lemma record_remote_target_count_coherent p st :
  coherent st -> coherent (record_remote_target_count_rule p st).
Proof. unfold record_remote_target_count_rule; auto with policy. Qed.
#[export] Hint Resolve record_remote_target_count_coherent : policy.

Lemma record_remote_apply_gates_coherent p st :
  coherent st -> coherent (record_remote_apply_gates p st).
Proof.
  unfold record_remote_apply_gates, record_remote_apply_rules; intros Hc.
  repeat case_match; auto 10 with policy.
Qed.
#[export] Hint Resolve record_remote_apply_gates_coherent : policy.

Lemma record_context_coherent i d c st : coherent st -> coherent (record_context_rules i d c st).
Proof.
  unfold record_context_rules; cbv zeta; intros Hc.
  apply record_coherent; [|auto 10 with policy].
  destruct (negb _ || _) eqn:E; [by left|right].
  apply orb_false_iff in E as [_ E].
  destruct (capabilities c) as [caps|]; [|done].
  destruct (unavailable_capability_for_action _ caps) as [f|]; [|done].
  simpl; eauto with policy.
Qed.
#[export] Hint Resolve record_context_coherent : policy.

Lemma record_apply_unlocks_coherent p st : coherent st -> coherent (record_apply_unlocks p st).
Proof. unfold record_apply_unlocks; intros Hc; repeat case_match; auto with policy. Qed.

Lemma record_mode_rules_coherent p d st : coherent st -> coherent (record_mode_rules p d st).
Proof. unfold record_mode_rules; intros Hc; case_match; auto with policy. Qed.

Lemma record_apply_rules_coherent p d st : coherent st -> coherent (record_apply_rules p d st).
Proof.
  unfold record_apply_rules; cbv zeta; intros Hc.
  destruct (rollback d), (confidence d); auto 12 with policy.
Qed.
#[export] Hint Resolve record_apply_unlocks_coherent record_mode_rules_coherent
  record_apply_rules_coherent : policy.

(** What an explanation shows: its decision is the rejection of its first
    failed rule, and its verdict the one of that decision. *)
Definition explanation_coherent (e : PolicyExplanation) : Prop :=
  match decision e with
  | Allowed => verdict e = Allow /\ first_failed (evaluated_rules e) = None
  | Rejected r =>
      verdict e = rejection_verdict r /\
      exists name, first_failed (evaluated_rules e) = Some name /\ rule_rejects name r = true
  end.

Lemma finish_coherent p i d st :
  coherent st -> explanation_coherent (finish_policy_explanation p i d st).
Proof.
  unfold coherent, explains, explanation_coherent, finish_policy_explanation.
  destruct st as [rs [r|]]; simpl; destruct (first_failed rs); try done; eauto.
Qed.
#[export] Hint Resolve finish_coherent : policy.

Lemma coherent_nil : coherent ([], None).
Proof. done. Qed.
#[export] Hint Resolve coherent_nil : policy.

Lemma explain_action_coherent p i d : explanation_coherent (explain_action p i d).
Proof.
  unfold explain_action, remote_target_count_blocks_non_apply; cbv zeta.
  destruct (source_is_remote p && _ && _); [auto with policy|].
  destruct i; [auto 10 with policy..| |auto 10 with policy|auto 10 with policy].
  destruct (supports_apply (mode p)); cbn [negb]; cbv match; auto 12 with policy.
Qed.

Lemma rejection_verdict_not_allow r : rejection_verdict r <> Allow.
Proof. destruct r; simpl; try case_match; discriminate. Qed.

(** An explanation shows its decision: allowed means that no evaluated rule failed,
    rejected means that the rejection is one of its first failed rule and the verdict is
    the one of that rejection; the verdict is Allow exactly when the decision is. *)
Theorem explanation_is_coherent p i d c :
  explanation_coherent (explain_action_with_context p i d c) /\
  (verdict_for_action_with_context p i d c = Allow
   <-> decision (explain_action_with_context p i d c) = Allowed).
Proof.
  assert (H : explanation_coherent (explain_action_with_context p i d c)).
  { pose proof (record_context_coherent i d c _ coherent_nil) as Hc.
    unfold explain_action_with_context; cbv zeta.
    destruct (record_context_rules i d c ([], None)) as [rs [r|]] eqn:E; simpl.
    - by apply finish_coherent.
    - pose proof (explain_action_coherent p i d) as He.
      unfold coherent, explains in Hc; simpl in Hc.
      unfold explanation_coherent in *; simpl.
      rewrite first_failed_app; by destruct (first_failed rs). }
  split; [exact H|]. unfold verdict_for_action_with_context.
  unfold explanation_coherent in H; destruct (decision _) as [|r].
  - by destruct H as [-> _].
  - destruct H as [-> _]; split; [intros E; by apply rejection_verdict_not_allow in E|done].
Qed.
