(* ===== verification/PolicySpec.v ===== *)
(** * Daemon policy: what the decisions guarantee

    [apply_permitted] states when an action may be applied, without the
    evaluator's order, early returns or redundant rules; [apply_allowed_iff]
    proves the evaluator of [PolicyEval] equivalent to it.  The other theorems
    are about policies built from a configuration ([build_daemon_policy]):
    ceilings, remote requests, presets, and the intents that never mutate. *)

From Stdlib Require Import SpecFloat Ascii String.
From S2P Require Import Prelude PolicyModel PolicyEval.

(** ** Families *)

(** A kind belongs to a family when it is the family's name, or that name
    followed by a separator. *)
Definition in_family (kind family : string) : Prop :=
  kind = family \/ exists sep rest, kind = (family ++ String sep rest)%string /\ family_separator sep = true.

Lemma append_nil_l (t : string) : ("" ++ t)%string = t.
Proof. done. Qed.

Lemma append_cons_l c (s t : string) : (String c s ++ t)%string = String c (s ++ t).
Proof. done. Qed.

Lemma append_inj_r (s t u : string) : (s ++ t)%string = (s ++ u)%string -> t = u.
Proof.
  induction s as [|c s IH]; [done|]. rewrite !append_cons_l; intros H; apply IH; congruence.
Qed.

Lemma strip_prefix_spec s pre rest : strip_prefix s pre = Some rest <-> s = (pre ++ rest)%string.
Proof.
  revert s; induction pre as [|p pre IH]; intros s; simpl.
  - rewrite append_nil_l; split; congruence.
  - rewrite append_cons_l; destruct s as [|c s]; [split; congruence|].
    destruct (Ascii.eqb_spec p c) as [->|Hne].
    + rewrite IH; split; congruence.
    + split; congruence.
Qed.

Lemma action_kind_matches_family_spec kind family :
  action_kind_matches_family kind family = true <-> in_family kind family.
Proof.
  unfold action_kind_matches_family, in_family; rewrite orb_true_iff, String.eqb_eq.
  apply or_iff_compat_l; destruct (strip_prefix kind family) as [[|c rest]|] eqn:E.
  - apply strip_prefix_spec in E; split; [done|]; intros (sep & r & H & _).
    rewrite E in H; by apply append_inj_r in H.
  - apply strip_prefix_spec in E; split; [eauto|]; intros (sep & r & H & Hs).
    rewrite E in H; apply append_inj_r in H; by simplify_eq.
  - split; [done|]; intros (sep & r & H & _).
    apply strip_prefix_spec in H; congruence.
Qed.

Lemma existsb_family_spec kind (s : gset string) :
  existsb (action_kind_matches_family kind) (elements s) = true
  <-> exists family, family ∈ s /\ in_family kind family.
Proof.
  rewrite existsb_exists; split.
  - intros (f & Hin & H); exists f; split; [|by apply action_kind_matches_family_spec].
    by apply elem_of_elements, list_elem_of_In.
  - intros (f & Hin & H); exists f; split; [|by apply action_kind_matches_family_spec].
    by apply list_elem_of_In, elem_of_elements.
Qed.

(** ** The specification of apply *)

Definition remote_permitted (r : RemoteApplyPolicy) : Prop :=
  remote_apply_enabled r = true /\
  (require_auth r = true -> auth_configured r = true /\ request_authorized r = true) /\
  (require_loopback_bind r = true -> bind_is_loopback r = true) /\
  mode_supported_by_limits r = true /\ target_count_allowed r = true.

Definition context_permitted (d : ActionDescriptor) (c : DaemonPolicyContext) : Prop :=
  data_quality_ok c = true /\ system_health_ok c = true /\ workload_stable c = true /\
  cooldown_active c = false /\ rollback_pending c = false /\
  (forall caps, capabilities c = Some caps ->
     unavailable_capability_for_action (action_kind d) caps = None).

(** The class and the scope of an action each apply mode admits; the medium-risk
    mode needs its unlock and the high-risk mode admits nothing. *)
Definition mode_permits (p : DaemonPolicy) (d : ActionDescriptor) : Prop :=
  match mode p with
  | ApplyLowRisk =>
      safety_class d = ReversibleLowRisk /\
      (effect_scope d = LocalProcess \/ effect_scope d = LocalProcessTree)
  | ApplyMediumRisk =>
      allow_medium_risk_apply p = true /\ safety_class d <> HighRisk /\
      is_explicit_target_scope (effect_scope d) = true
  | Observe | Suggest | ApplyHighRisk => False
  end.

Record action_permitted (p : DaemonPolicy) (d : ActionDescriptor) : Prop := {
  ap_mode : mode_permits p d;
  ap_remote : source p = RemoteAgent -> remote_permitted (remote_apply p);
  ap_system_wide : touches_system_wide_state d = true -> allow_system_wide_apply p = true;
  ap_persistent : persistent_effect d = true -> allow_persistent_effects p = true;
  ap_enabled : enabled_action_families p <> ∅ ->
    exists family, family ∈ enabled_action_families p /\ in_family (action_kind d) family;
  ap_denied : forall family, family ∈ denied_action_families p -> ~ in_family (action_kind d) family;
  ap_rollback : rollback d = RequiredBeforeApply;
  ap_confidence : forall c, confidence d = Some c -> f32_ge c (min_confidence p) = true;
}.

Definition apply_permitted (p : DaemonPolicy) (d : ActionDescriptor) (c : DaemonPolicyContext)
  : Prop := action_permitted p d /\ context_permitted d c.

(** ** Recorders, one at a time: when they leave no rejection *)

Lemma record_none name ok rejection st :
  (record_policy_rule name ok rejection st).2 = None
  <-> st.2 = None /\ (ok = true \/ rejection = None).
Proof. destruct st as [rs [r|]], ok; simpl; naive_solver. Qed.

Lemma record_then_none name ok r st :
  (record_policy_rule name ok (then_some (negb ok) r) st).2 = None <-> st.2 = None /\ ok = true.
Proof. rewrite record_none; destruct ok; simpl; naive_solver. Qed.

Lemma record_then_neg_none name b r st :
  (record_policy_rule name (negb b) (then_some b r) st).2 = None <-> st.2 = None /\ b = false.
Proof. rewrite record_none; destruct b; simpl; naive_solver. Qed.

Lemma record_true_none name rejection st :
  (record_policy_rule name true rejection st).2 = None <-> st.2 = None.
Proof. rewrite record_none; naive_solver. Qed.

Lemma record_false_none name r st :
  (record_policy_rule name false (Some r) st).2 = None <-> False.
Proof. rewrite record_none; naive_solver. Qed.

Lemma record_failed_none name r st :
  (record_policy_rule name false (then_some true r) st).2 = None <-> False.
Proof. apply record_false_none. Qed.

Ltac unrecord :=
  repeat first [rewrite record_true_none | rewrite record_failed_none | rewrite record_false_none
               |rewrite record_then_neg_none | rewrite record_then_none].

Lemma negb_orb_impl a b : (negb a || b) = true <-> (a = true -> b = true).
Proof. destruct a, b; naive_solver. Qed.

Lemma mode_eqb_spec a b : mode_eqb a b = true <-> a = b.
Proof. apply bool_decide_eq_true. Qed.

Lemma record_apply_unlocks_none p st :
  (record_apply_unlocks p st).2 = None
  <-> st.2 = None /\ (mode p = ApplyMediumRisk -> allow_medium_risk_apply p = true) /\
      mode p <> ApplyHighRisk.
Proof.
  unfold record_apply_unlocks, mode_eqb, HIGH_RISK_APPLY_IMPLEMENTED; simpl negb.
  repeat case_bool_decide; rewrite ?record_failed_none, ?record_then_none; naive_solver.
Qed.

Lemma record_remote_apply_rules_none p st :
  (record_remote_apply_rules p st).2 = None
  <-> st.2 = None /\ remote_permitted (remote_apply p).
Proof.
  unfold record_remote_apply_rules, record_remote_target_count_rule, remote_permitted.
  rewrite !record_then_none.
  destruct (require_loopback_bind _), (require_auth _); rewrite !record_then_none; naive_solver.
Qed.

Lemma record_remote_apply_gates_none p st :
  supports_apply (mode p) = true ->
  (record_remote_apply_gates p st).2 = None
  <-> st.2 = None /\ (source p = RemoteAgent -> remote_permitted (remote_apply p)).
Proof.
  intros Hs; unfold record_remote_apply_gates, source_is_remote; rewrite Hs, andb_true_r.
  case_bool_decide; rewrite ?record_remote_apply_rules_none; naive_solver.
Qed.

Lemma record_mode_rules_none p d st :
  (record_mode_rules p d st).2 = None
  <-> st.2 = None /\
      match mode p with
      | Observe | Suggest => True
      | ApplyLowRisk =>
          safety_class d = ReversibleLowRisk /\
          (effect_scope d = LocalProcess \/ effect_scope d = LocalProcessTree)
      | ApplyMediumRisk =>
          safety_class d <> HighRisk /\ is_explicit_target_scope (effect_scope d) = true
      | ApplyHighRisk => safety_class d = HighRisk -> allow_high_risk p = true
      end.
Proof.
  unfold record_mode_rules; destruct (mode p); unrecord.
  - naive_solver.
  - naive_solver.
  - rewrite bool_decide_eq_true; destruct (effect_scope d); simpl; naive_solver.
  - destruct (safety_class d); simpl; naive_solver.
  - rewrite negb_orb_impl, bool_decide_eq_true; naive_solver.
Qed.

Lemma mode_permits_target p d :
  mode_permits p d -> is_explicit_target_scope (effect_scope d) = true.
Proof. unfold mode_permits; case_match; destruct (effect_scope d); simpl; naive_solver. Qed.

Lemma system_wide_rule p d :
  negb (touches_system_wide_state d) || allow_system_wide_apply p
    || medium_risk_system_scope_allowed p d = true
  <-> (touches_system_wide_state d = true -> allow_system_wide_apply p = true).
Proof.
  unfold medium_risk_system_scope_allowed.
  destruct (touches_system_wide_state d), (allow_system_wide_apply p); simpl; try naive_solver.
  case_match; naive_solver.
Qed.

Lemma enabled_rule p kind :
  (match elements (enabled_action_families p) with [] => true | _ => false end
   || existsb (action_kind_matches_family kind) (elements (enabled_action_families p))) = true
  <-> (enabled_action_families p <> ∅ ->
       exists family, family ∈ enabled_action_families p /\ in_family kind family).
Proof.
  rewrite <- existsb_family_spec.
  destruct (elements (enabled_action_families p)) as [|f fs] eqn:E; simpl orb at 1.
  - apply elements_empty_inv in E; split; [|done]. intros _ H; by apply leibniz_equiv in E.
  - split; [done|]; intros H; apply H; intros H0; rewrite H0 in E.
    rewrite elements_empty in E; discriminate.
Qed.

Lemma denied_rule p kind :
  existsb (action_kind_matches_family kind) (elements (denied_action_families p)) = false
  <-> (forall family, family ∈ denied_action_families p -> ~ in_family kind family).
Proof.
  rewrite <- not_true_iff_false, existsb_family_spec; naive_solver.
Qed.

(** The rules shared by every apply mode. *)
Lemma record_apply_rules_none p d st :
  (record_apply_rules p d st).2 = None
  <-> st.2 = None /\
      (touches_system_wide_state d = true -> allow_system_wide_apply p = true) /\
      (persistent_effect d = true -> allow_persistent_effects p = true) /\
      (enabled_action_families p <> ∅ ->
       exists family, family ∈ enabled_action_families p /\ in_family (action_kind d) family) /\
      (forall family, family ∈ denied_action_families p -> ~ in_family (action_kind d) family) /\
      rollback d = RequiredBeforeApply /\
      (requires_explicit_target d = true -> is_explicit_target_scope (effect_scope d) = true) /\
      (forall c, confidence d = Some c -> f32_ge c (min_confidence p) = true).
Proof.
  unfold record_apply_rules; cbv zeta.
  rewrite <- system_wide_rule, <- denied_rule, <- enabled_rule, <- !negb_orb_impl.
  destruct (confidence d) as [c|], (rollback d);
    unrecord; naive_solver.
Qed.

Lemma finish_allowed p i d st :
  decision (finish_policy_explanation p i d st) = Allowed <-> st.2 = None.
Proof. unfold finish_policy_explanation; destruct (st.2); naive_solver. Qed.

Lemma explain_apply_allowed p d :
  decision (explain_action p IntentApply d) = Allowed <-> action_permitted p d.
Proof.
  unfold explain_action, remote_target_count_blocks_non_apply; cbv zeta.
  destruct (supports_apply (mode p)) eqn:Hs; cbn [negb]; rewrite ?andb_false_r, ?andb_true_r;
    cbv match.
  - cbn [andb]; cbv match; rewrite finish_allowed, record_apply_rules_none, record_mode_rules_none,
      record_remote_apply_gates_none, record_apply_unlocks_none by done.
    unrecord; pose proof (mode_permits_target p d) as Ht; unfold mode_permits in Ht.
    split.
    + intros H; split; unfold mode_permits; destruct (mode p); naive_solver.
    + intros [Hm]; unfold mode_permits in Hm; destruct (mode p); naive_solver.
  - split; [|intros [Hm]; unfold mode_permits in Hm; by destruct (mode p)].
    destruct (source_is_remote p && negb (target_count_allowed (remote_apply p))) eqn:E;
      rewrite finish_allowed.
    + unfold record_remote_target_count_rule; rewrite record_then_none.
      apply andb_true_iff in E as [_ E]; destruct (target_count_allowed _); naive_solver.
    + by rewrite record_failed_none.
Qed.

Lemma record_context_rules_apply_none d c st :
  (record_context_rules IntentApply d c st).2 = None <-> st.2 = None /\ context_permitted d c.
Proof.
  unfold record_context_rules, context_permitted; cbv zeta; cbn [negb orb].
  destruct (capabilities c) as [caps|]; [destruct (unavailable_capability_for_action _ caps) eqn:E|];
    cbn [option_map]; unrecord; rewrite ?negb_true_iff; naive_solver.
Qed.

Lemma explain_context_allowed p i d c :
  decision (explain_action_with_context p i d c) = Allowed
  <-> (record_context_rules i d c ([], None)).2 = None /\ decision (explain_action p i d) = Allowed.
Proof.
  unfold explain_action_with_context; cbv zeta.
  destruct (record_context_rules i d c ([], None)) as [rs [r|]]; simpl; naive_solver.
Qed.

Lemma apply_decision p d c :
  decision (explain_action_with_context p IntentApply d c) = Allowed <-> apply_permitted p d c.
Proof.
  rewrite explain_context_allowed, explain_apply_allowed, record_context_rules_apply_none.
  unfold apply_permitted; naive_solver.
Qed.

(** C12. The evaluator allows an apply exactly when the order-free specification
    apply_permitted holds: mode, class, scope, remote limits, system-wide and persistent
    permissions, families, rollback, confidence, and the context gates. *)
Theorem apply_allowed_iff p d c :
  decision (explain_action_with_context p IntentApply d c) = Allowed <-> apply_permitted p d c.
Proof. apply apply_decision. Qed.

(** ** Policies built from a configuration *)

Section built.
Context (config : DaemonConfig) (rc : option RemotePolicyContext).
Abbreviation policy := (build_daemon_policy config rc).

Lemma built_mode_permits d :
  mode_permits policy d ->
  match dc_mode config with
  | ApplyLowRisk =>
      safety_class d = ReversibleLowRisk /\
      (effect_scope d = LocalProcess \/ effect_scope d = LocalProcessTree)
  | ApplyMediumRisk =>
      ac_allow_medium_risk_apply (dc_autotune config) = true /\ safety_class d <> HighRisk /\
      is_explicit_target_scope (effect_scope d) = true
  | _ => False
  end.
Proof.
  unfold mode_permits; change (mode policy) with (dc_mode config).
  change (allow_medium_risk_apply policy)
    with (mode_eqb (dc_mode config) ApplyMediumRisk && ac_allow_medium_risk_apply (dc_autotune config)).
  destruct (dc_mode config); rewrite ?andb_true_iff; naive_solver.
Qed.

Lemma built_class_le_mode d :
  mode_permits policy d ->
  safety_le (safety_class d) (max_safety_class_for_mode (dc_mode config)) = true.
Proof.
  intros H%built_mode_permits; destruct (dc_mode config), (safety_class d); naive_solver.
Qed.

Lemma built_remote_permitted ctx :
  rc = Some ctx -> remote_permitted (remote_apply policy) ->
  remote_mode_supported_by_context (dc_mode config) ctx = true /\
  (remote_target_count_for_config config <= max_targets (limits ctx))%nat /\
  allow_remote_apply_cfg (dc_remote config) = true /\
  (supports_apply (dc_mode config) = true ->
   (require_auth_for_apply (dc_remote config) = true ->
      ctx_auth_configured ctx = true /\ ctx_request_authorized ctx = true) /\
   (allow_non_loopback_apply (dc_remote config) = false -> ctx_bind_is_loopback ctx = true)).
Proof.
  intros -> (He & Ha & Hl & Hm & Ht); cbn in *; apply Nat.leb_le in Ht.
  split; [done|]; split; [done|]; split; [done|]; intros Hs; rewrite Hs in *; cbn in *.
  split; [exact Ha|]; intros Hn; apply Hl; by rewrite Hn.
Qed.

Lemma built_remote_needs_context : remote_permitted (remote_apply policy) -> exists ctx, rc = Some ctx.
Proof. destruct rc as [ctx|]; [eauto|]. intros (H & _); discriminate. Qed.

Lemma built_remote_class ctx d :
  rc = Some ctx -> mode_permits policy d -> remote_permitted (remote_apply policy) ->
  safety_le (safety_class d) (al_max_safety_class (limits ctx)) = true /\
  mode_le (dc_mode config) (max_mode (limits ctx)) = true.
Proof.
  intros E Hm Hr; destruct (built_remote_permitted ctx E Hr) as (Hs & _).
  apply built_class_le_mode in Hm; unfold remote_mode_supported_by_context in Hs.
  rewrite !andb_true_iff in Hs; destruct Hs as [[Hle Hc] _].
  unfold safety_le in *; rewrite !Nat.leb_le in *; split; [lia|done].
Qed.

Lemma built_system_wide ctx :
  rc = Some ctx -> allow_system_wide_apply policy = true ->
  al_allow_system_wide_apply (limits ctx) = true.
Proof. intros ->; cbn; rewrite andb_true_iff; tauto. Qed.

End built.

(** Everything a built policy lets apply is within the class ceiling and the effect
    scopes the policy publishes, is never high-risk, never targets SystemWide, Sysfs or
    UserStateFile, and has a rollback. *)
Theorem built_policy_ceilings config rc d c :
  (rc <> None -> dc_source config = RemoteAgent) ->
  decision (explain_action_with_context (build_daemon_policy config rc) IntentApply d c) = Allowed ->
  safety_le (safety_class d) (max_safety_class (build_daemon_policy config rc)) = true /\
  safety_class d <> HighRisk /\
  In (effect_scope d) (allowed_effect_scopes (build_daemon_policy config rc)) /\
  rollback d = RequiredBeforeApply /\
  (effect_scope d <> SystemWide /\ effect_scope d <> Sysfs /\ effect_scope d <> UserStateFile).
Proof.
  intros Hsrc [[Hm Hr _ _ _ _ Hrb _] _]%apply_decision.
  pose proof (built_mode_permits _ _ _ Hm) as Hmode.
  pose proof (built_class_le_mode _ _ _ Hm) as Hle.
  split_and!; try done.
  - destruct rc as [ctx|]; [|exact Hle]; cbn [max_safety_class build_daemon_policy].
    destruct (safety_lt _ _); [|exact Hle].
    eapply built_remote_class; [done| |]; [exact Hm|]. by apply Hr, Hsrc.
  - clear -Hmode; destruct (dc_mode config); intuition congruence.
  - clear -Hmode; cbn; destruct (dc_mode config), (effect_scope d); cbn in *; intuition congruence.
  - clear -Hmode; destruct (dc_mode config), (effect_scope d); cbn in *; intuition congruence.
  - clear -Hmode; destruct (dc_mode config), (effect_scope d); cbn in *; intuition congruence.
  - clear -Hmode; destruct (dc_mode config), (effect_scope d); cbn in *; intuition congruence.
Qed.

(** A request of the remote agent is allowed to apply only with remote limits
    present and inside each of them: mode, class, target count, system-wide permission,
    authentication and loopback bind. *)
Theorem remote_apply_within_limits config rc d c :
  dc_source config = RemoteAgent ->
  decision (explain_action_with_context (build_daemon_policy config rc) IntentApply d c) = Allowed ->
  exists ctx, rc = Some ctx /\
    allow_remote_apply_cfg (dc_remote config) = true /\
    mode_le (dc_mode config) (max_mode (limits ctx)) = true /\
    safety_le (safety_class d) (al_max_safety_class (limits ctx)) = true /\
    (remote_target_count_for_config config <= max_targets (limits ctx))%nat /\
    (touches_system_wide_state d = true -> al_allow_system_wide_apply (limits ctx) = true) /\
    (require_auth_for_apply (dc_remote config) = true ->
       ctx_auth_configured ctx = true /\ ctx_request_authorized ctx = true) /\
    (allow_non_loopback_apply (dc_remote config) = false -> ctx_bind_is_loopback ctx = true).
Proof.
  intros Hsrc [[Hm Hr Hw _ _ _ _ _] _]%apply_decision; specialize (Hr Hsrc).
  destruct (built_remote_needs_context _ _ Hr) as [ctx Hctx].
  destruct (built_remote_permitted _ _ _ Hctx Hr) as (_ & Hcount & Hen & Hgates).
  destruct (built_remote_class _ _ _ _ Hctx Hm Hr) as [Hclass Hmode].
  apply built_mode_permits in Hm.
  destruct Hgates as [Hauth Hloop]; [by destruct (dc_mode config)|].
  exists ctx; split_and!; auto. intros Ht; by eapply built_system_wide, Hw.
Qed.

(** The configuration of the same daemon acting on its own. *)
Definition with_source (config : DaemonConfig) (s : ActionSource) : DaemonConfig :=
  {| dc_preset := dc_preset config; dc_mode := dc_mode config; dc_source := s;
     dc_target := dc_target config; dc_safety := dc_safety config;
     dc_health := dc_health config; dc_retention := dc_retention config;
     dc_remote := dc_remote config; dc_autotune := dc_autotune config |}.

(** Whatever a remote context lets apply, the same configuration lets the local
    daemon apply: the remote path never widens a permission. *)
Theorem remote_context_only_narrows config rc s d c :
  s <> RemoteAgent ->
  decision (explain_action_with_context (build_daemon_policy config rc) IntentApply d c) = Allowed ->
  decision (explain_action_with_context (build_daemon_policy (with_source config s) None)
              IntentApply d c) = Allowed.
Proof.
  intros Hs; rewrite !apply_decision; intros [[Hm Hr Hw Hp He Hd Hrb Hc] Hctx].
  split; [|exact Hctx]; split; try done.
  intros Ht; specialize (Hw Ht); destruct rc as [ctx|]; [|exact Hw].
  revert Hw; cbn; rewrite andb_true_iff; tauto.
Qed.

(** ** The intents that do not mutate *)

(** A remote request that names too many targets is refused whatever it
    intends, in the modes that never apply. *)
Definition remote_overflow (p : DaemonPolicy) : Prop :=
  source p = RemoteAgent /\ supports_apply (mode p) = false /\
  target_count_allowed (remote_apply p) = false.

Definition capability_permitted (d : ActionDescriptor) (c : DaemonPolicyContext) : Prop :=
  forall caps, capabilities c = Some caps ->
    unavailable_capability_for_action (action_kind d) caps = None.

(** When an intent other than apply is allowed. *)
Definition intent_permitted (p : DaemonPolicy) (i : PolicyIntent) (d : ActionDescriptor)
    (c : DaemonPolicyContext) : Prop :=
  ~ remote_overflow p /\
  match i with
  | IntentObserve | IntentVerify | IntentRollback => True
  | IntentDryRun => capability_permitted d c
  | IntentSuggest =>
      capability_permitted d c /\ mode p <> Observe /\
      (touches_system_wide_state d = true -> allow_system_wide_suggestions p = true)
  | IntentApply => apply_permitted p d c
  end.

Lemma record_context_rules_other_none i d c st :
  i <> IntentApply ->
  (record_context_rules i d c st).2 = None
  <-> st.2 = None /\
      match i with IntentSuggest | IntentDryRun => capability_permitted d c | _ => True end.
Proof.
  intros Hi; unfold record_context_rules, capability_permitted; cbv zeta.
  destruct i; try done; cbn [negb orb]; unrecord; try naive_solver;
    (destruct (capabilities c) as [caps|];
     [destruct (unavailable_capability_for_action _ caps) eqn:E|]);
    cbn [option_map]; unrecord; naive_solver.
Qed.

Lemma remote_overflow_dec p :
  source_is_remote p && negb (supports_apply (mode p))
    && negb (target_count_allowed (remote_apply p)) = true <-> remote_overflow p.
Proof.
  unfold source_is_remote, remote_overflow.
  rewrite !andb_true_iff, !negb_true_iff, bool_decide_eq_true; tauto.
Qed.

Lemma explain_other_allowed p i d :
  i <> IntentApply ->
  decision (explain_action p i d) = Allowed
  <-> ~ remote_overflow p /\
      match i with
      | IntentSuggest =>
          mode p <> Observe /\
          (touches_system_wide_state d = true -> allow_system_wide_suggestions p = true)
      | _ => True
      end.
Proof.
  intros Hi; rewrite <- remote_overflow_dec.
  unfold explain_action, remote_target_count_blocks_non_apply; cbv zeta.
  destruct (source_is_remote p && _ && _) eqn:E; cbv match.
  - rewrite finish_allowed; unfold record_remote_target_count_rule; rewrite record_then_none.
    rewrite !andb_true_iff, !negb_true_iff in E; destruct E as [_ ->]; naive_solver.
  - destruct i; try done; rewrite finish_allowed; unrecord; try naive_solver.
    rewrite negb_orb_impl, negb_true_iff, <- not_true_iff_false, mode_eqb_spec; naive_solver.
Qed.

Lemma non_apply_decision p i d c :
  i <> IntentApply ->
  (decision (explain_action_with_context p i d c) = Allowed <-> intent_permitted p i d c).
Proof.
  intros Hi; rewrite explain_context_allowed, explain_other_allowed,
    record_context_rules_other_none by done.
  unfold intent_permitted; destruct i; naive_solver.
Qed.

(** Observe, verify and rollback are never blocked by health, cooldown or
    capabilities; dry run and suggest need the capability, suggest also its mode and the
    system-wide permission; a remote request over its target limit is refused in the
    modes that never apply. *)
Theorem non_apply_allowed_iff p i d c :
  i <> IntentApply ->
  (decision (explain_action_with_context p i d c) = Allowed <-> intent_permitted p i d c).
Proof. apply non_apply_decision. Qed.

(** ** [check_action]: the gate in front of the evaluator *)

(** A check passes exactly for a descriptor with a non-blank id and kind whose
    explanation allows it. *)
Lemma check_action_ok_iff p i d c :
  check_action_with_context p i d c = inl tt
  <-> trim_is_empty (action_id d) = false /\ trim_is_empty (action_kind d) = false /\
      decision (explain_action_with_context p i d c) = Allowed.
Proof.
  unfold check_action_with_context, validate_policy_descriptor_shape, check_decision.
  destruct (trim_is_empty (action_id d)), (trim_is_empty (action_kind d)); simpl;
    destruct (decision _); naive_solver.
Qed.

(** ** Flags without effect *)

(** [p] with the two autotune scope permissions set to [gpu] and [vm]. *)
Definition with_autotune_scopes (p : DaemonPolicy) (gpu vm : bool) : DaemonPolicy := {|
  mode := mode p; source := source p; max_safety_class := max_safety_class p;
  allowed_effect_scopes := allowed_effect_scopes p;
  enabled_action_families := enabled_action_families p;
  denied_action_families := denied_action_families p;
  cgroup_targets := cgroup_targets p; system_wide_allowlist := system_wide_allowlist p;
  rollback_required_before_apply := rollback_required_before_apply p;
  allow_medium_risk_apply := allow_medium_risk_apply p;
  allow_system_wide_suggestions := allow_system_wide_suggestions p;
  allow_system_wide_apply := allow_system_wide_apply p;
  allow_high_risk := allow_high_risk p;
  allow_persistent_effects := allow_persistent_effects p;
  allow_cpu_power_on_battery := allow_cpu_power_on_battery p;
  allow_gpu_power_in_autotune := gpu;
  allow_vm_knobs_in_autotune := vm;
  high_risk_dry_run := high_risk_dry_run p;
  min_confidence := min_confidence p; pol_confidence := pol_confidence p;
  remote_apply := remote_apply p |}.

Lemma system_wide_rule_flags p d :
  negb (touches_system_wide_state d) || allow_system_wide_apply p
    || medium_risk_system_scope_allowed p d
  = negb (touches_system_wide_state d) || allow_system_wide_apply p.
Proof.
  unfold medium_risk_system_scope_allowed.
  destruct (touches_system_wide_state d), (allow_system_wide_apply p); simpl; try done.
  by case_match.
Qed.

Lemma record_apply_rules_flags p d gpu vm st :
  record_apply_rules (with_autotune_scopes p gpu vm) d st = record_apply_rules p d st.
Proof. unfold record_apply_rules; rewrite !system_wide_rule_flags; reflexivity. Qed.

Lemma explain_action_flags p i d gpu vm :
  explain_action (with_autotune_scopes p gpu vm) i d = explain_action p i d.
Proof.
  unfold explain_action, remote_target_count_blocks_non_apply; cbv zeta.
  change (source_is_remote (with_autotune_scopes p gpu vm)) with (source_is_remote p).
  cbn [mode remote_apply with_autotune_scopes].
  destruct (source_is_remote p && _ && _); cbv match; [reflexivity|].
  destruct i; rewrite ?record_apply_rules_flags; reflexivity.
Qed.

(** The flags allow_gpu_power_in_autotune and allow_vm_knobs_in_autotune change no
    explanation of the evaluator. *)
Theorem autotune_scope_flags_inert p i d c gpu vm :
  explain_action_with_context (with_autotune_scopes p gpu vm) i d c
  = explain_action_with_context p i d c.
Proof.
  unfold explain_action_with_context; rewrite explain_action_flags; reflexivity.
Qed.

(** ** Presets *)

Lemma single_family kind (family : string) :
  let s : gset string := {[family]} ∪ ∅ in
  (s <> ∅ -> exists f, f ∈ s /\ in_family kind f) -> in_family kind family.
Proof. intros s H; destruct H as (f & Hf & Hin); [set_solver|]. by assert (f = family) as -> by set_solver. Qed.

(** Of the five presets only the three low-risk ones let anything apply, and only
    locally, for the cpu_affinity_profile family, with low-risk class, local scope, no
    system-wide or persistent effect, a rollback and the preset confidence. *)
Theorem preset_apply_envelope preset s d c :
  decision (explain_action_with_context (build_daemon_policy (from_preset preset s) None)
              IntentApply d c) = Allowed ->
  (preset = GamingLowRisk \/ preset = GamingLaptopSafe \/ preset = WorkstationLowRisk) /\
  s <> RemoteAgent /\ in_family (action_kind d) "cpu_affinity_profile" /\
  safety_class d = ReversibleLowRisk /\
  (effect_scope d = LocalProcess \/ effect_scope d = LocalProcessTree) /\
  touches_system_wide_state d = false /\ persistent_effect d = false /\
  rollback d = RequiredBeforeApply /\
  (forall conf, confidence d = Some conf ->
     f32_ge conf (sc_min_confidence (dc_safety (from_preset preset s))) = true).
Proof.
  intros [[Hm Hr Hw Hp He _ Hrb Hc] _]%apply_decision.
  apply built_mode_permits in Hm.
  assert (Hs : s <> RemoteAgent).
  { intros ->; destruct (Hr ltac:(by destruct preset)) as (H & _); discriminate. }
  destruct preset; cbn in Hm; try done; destruct Hm as [Hclass Hscope]; try discriminate Hclass.
  all: split_and!; auto 10;
    [by apply single_family | by destruct (touches_system_wide_state d); [specialize (Hw eq_refl)|]
    | by destruct (persistent_effect d); [specialize (Hp eq_refl)|]].
Qed.
