(* ===== verification/ActionModel.v ===== *)
(** * Actions: phases, states, rollback tokens and errors

    [stutter/src/actions/model.rs], [token.rs] and [error/model.rs].  Message
    texts of errors and warnings are not modelled; the values the runner and the
    audit log branch on or record are. *)

From Stdlib Require Import String.
From S2P Require Import Prelude PolicyModel.

(** ** [actions/model.rs] *)

Inductive ActionPhase :=
| PhPreflight | PhDryRun | PhApply | PhVerify | PhRollback | PhEmergencyRollback.

#[export] Instance ActionPhase_eq_dec : EqDecision ActionPhase.
Proof. solve_decision. Defined.

Definition ActionPhase_as_str (p : ActionPhase) : string :=
  match p with
  | PhPreflight => "preflight"
  | PhDryRun => "dry_run"
  | PhApply => "apply"
  | PhVerify => "verify"
  | PhRollback => "rollback"
  | PhEmergencyRollback => "emergency_rollback"
  end.

Record ActionWarning := { aw_message : string }.

Record ActionState := {
  applied : bool;
  affected_tasks : nat;
  checked_tasks : nat;
  pending_changes : nat;
  warnings : list ActionWarning;
}.

Record ActionPreflightReport := {
  rep_action_id : string;
  blockers : list string;
  rep_warnings : list ActionWarning;
}.

Definition report_passed (id : string) (ws : list ActionWarning) : ActionPreflightReport :=
  {| rep_action_id := id; blockers := []; rep_warnings := ws |}.
Definition report_blocked (id blocker : string) : ActionPreflightReport :=
  {| rep_action_id := id; blockers := [blocker]; rep_warnings := [] |}.
Definition is_blocked (r : ActionPreflightReport) : bool :=
  match blockers r with [] => false | _ => true end.

Record TaskRestoreIdentity := {
  tid : Z; process_pid : option Z; starttime_ticks : option Z; comm : option string;
  exe : option string; process_starttime_ticks : option Z }.

Definition legacy (t : Z) : TaskRestoreIdentity :=
  {| tid := t; process_pid := None; starttime_ticks := None; comm := None; exe := None;
     process_starttime_ticks := None |}.

Record NiceRestoreRecord := {
  nice_tid : Z; original_nice : Z; nice_identity : option TaskRestoreIdentity }.
Record UclampRestoreRecord := {
  uclamp_tid : Z; original_util_min : Z; original_util_max : Z;
  uclamp_identity : option TaskRestoreIdentity }.
Record IrqAffinityRestoreRecord := {
  irq : Z; device_hint : string; original_smp_affinity : string }.
Record IoPrioRestoreRecord := {
  ioprio_tid : Z; original_ioprio : Z; ioprio_identity : option TaskRestoreIdentity }.
Record VmKnobRestoreRecord := { vm_path : string; vm_original_value : string }.
Record GpuPowerRestoreRecord := { gpu_path : string; gpu_original_value : string }.
Record CpuPowerResourceIdentity := {
  cpi_cpu : Z; cpi_policy : string; related_cpus : list Z; cpi_attribute : string;
  cpi_driver : option string; available_values : option string; boot_id : option string }.
Record CpuPowerRestoreRecord := {
  cpu_path : string; cpu_original_value : string; cpu_identity : option CpuPowerResourceIdentity }.
Record CgroupRestoreRecord := {
  cgroup_tid : Z; original_cgroup : string; cgroup_identity : option TaskRestoreIdentity;
  original_cgroup_id : option Z }.
Record CgroupCpusetRestoreRecord := {
  cgroup_path : string; original_cpuset_cpus : option string; original_cpuset_mems : option string }.

(** ** [actions/token.rs] *)

Inductive RollbackToken :=
| CpuAffinityRestoreFile (path : string) (affected : nat)
| NiceRestore (records : list NiceRestoreRecord)
| IrqAffinityRestore (records : list IrqAffinityRestoreRecord)
| IoPrioRestore (records : list IoPrioRestoreRecord)
| UclampRestore (records : list UclampRestoreRecord)
| CgroupRestore (records : list CgroupRestoreRecord) (cpuset : option CgroupCpusetRestoreRecord)
| CpuPowerRestore (records : list CpuPowerRestoreRecord)
| VmKnobRestore (records : list VmKnobRestoreRecord)
| GpuPowerRestore (records : list GpuPowerRestoreRecord)
| SysfsRestore (path original_value : string).

#[export] Instance TaskRestoreIdentity_eq_dec : EqDecision TaskRestoreIdentity.
Proof. solve_decision. Defined.
#[export] Instance NiceRestoreRecord_eq_dec : EqDecision NiceRestoreRecord.
Proof. solve_decision. Defined.
#[export] Instance UclampRestoreRecord_eq_dec : EqDecision UclampRestoreRecord.
Proof. solve_decision. Defined.
#[export] Instance IrqAffinityRestoreRecord_eq_dec : EqDecision IrqAffinityRestoreRecord.
Proof. solve_decision. Defined.
#[export] Instance IoPrioRestoreRecord_eq_dec : EqDecision IoPrioRestoreRecord.
Proof. solve_decision. Defined.
#[export] Instance VmKnobRestoreRecord_eq_dec : EqDecision VmKnobRestoreRecord.
Proof. solve_decision. Defined.
#[export] Instance GpuPowerRestoreRecord_eq_dec : EqDecision GpuPowerRestoreRecord.
Proof. solve_decision. Defined.
#[export] Instance CpuPowerResourceIdentity_eq_dec : EqDecision CpuPowerResourceIdentity.
Proof. solve_decision. Defined.
#[export] Instance CpuPowerRestoreRecord_eq_dec : EqDecision CpuPowerRestoreRecord.
Proof. solve_decision. Defined.
#[export] Instance CgroupRestoreRecord_eq_dec : EqDecision CgroupRestoreRecord.
Proof. solve_decision. Defined.
#[export] Instance CgroupCpusetRestoreRecord_eq_dec : EqDecision CgroupCpusetRestoreRecord.
Proof. solve_decision. Defined.
#[export] Instance RollbackToken_eq_dec : EqDecision RollbackToken.
Proof. solve_decision. Defined.

Definition token_kind (t : RollbackToken) : string :=
  match t with
  | CpuAffinityRestoreFile _ _ => "cpu-affinity-restore-file"
  | NiceRestore _ => "nice-restore"
  | IrqAffinityRestore _ => "irq-affinity-restore"
  | IoPrioRestore _ => "ioprio-restore"
  | UclampRestore _ => "uclamp-restore"
  | CgroupRestore _ _ => "cgroup-restore"
  | CpuPowerRestore _ => "cpu-power-restore"
  | VmKnobRestore _ => "vm-knob-restore"
  | GpuPowerRestore _ => "gpu-power-restore"
  | SysfsRestore _ _ => "sysfs-restore"
  end.

Definition token_affected_tasks (t : RollbackToken) : nat :=
  match t with
  | CpuAffinityRestoreFile _ affected => affected
  | NiceRestore records => length records
  | IrqAffinityRestore records => length records
  | IoPrioRestore records => length records
  | UclampRestore records => length records
  | CgroupRestore records _ => length records
  | CpuPowerRestore records => length records
  | VmKnobRestore records => length records
  | GpuPowerRestore records => length records
  | SysfsRestore _ _ => 1
  end.

Definition token_restore_path (t : RollbackToken) : option string :=
  match t with
  | CpuAffinityRestoreFile path _ => Some path
  | SysfsRestore path _ => Some path
  | _ => None
  end.

(** ** [actions/error/model.rs] *)

Inductive PhaseFailure := PfPreflight | PfDryRun | PfApply | PfVerify | PfRollback.

Record ActionTimeout := { timeout_phase : ActionPhase; elapsed_ms : Z; timeout_ms : Z }.

Inductive RollbackOutcome :=
| RollbackFailure
| VerifyRollbackCompleted
| EmergencyRollbackFailure
| TimeoutRollbackCompleted (timeout : ActionTimeout)
| TimeoutRollbackFailure (timeout : ActionTimeout).

Record ScopeLimitExceeded := { sl_affected_tasks : nat; sl_max_affected_tasks : nat }.

Record ActionBoundaryFailure := {
  bf_phase : ActionPhase; bf_action_kind : string; bf_reason_code : string }.

Inductive ActionFailure :=
| FPhase (failure : PhaseFailure)
| FBoundary (failure : ActionBoundaryFailure)
| FTimeout (timeout : ActionTimeout)
| FRollback (outcome : RollbackOutcome)
| FInvalidRollbackToken (expected actual : string)
| FScopeLimitExceeded (scope : ScopeLimitExceeded)
| FPolicyRejected.

(** [ActionError] is a one-field wrapper of the failure. *)
Definition ActionError := ActionFailure.

Inductive ActionBoundaryError :=
| MissingExplicitRollbackToken (handler expected_token_kind : string)
| UnsupportedRollbackToken (handler expected_token_kind actual_token_kind : string)
| MissingExplicitTargets (action_kind : string)
| PolicyDenied (action_kind requirement : string)
| EvidenceRequired (action_kind evidence : string)
| InvalidTargetTid (action_kind : string) (tid : Z)
| TargetIdentityMismatch (action_kind : string) (tid expected_starttime actual_starttime : Z)
| InvalidRequest (action_kind reason : string)
| InvalidPolicy (action_kind reason : string)
| InvalidValue (action_kind field reason : string)
| UnsupportedValue (action_kind field value : string)
| PathNotAllowed (action_kind path reason : string)
| MissingPath (action_kind path : string)
| RestoreFailed (action_kind message : string).

Definition boundary_reason_code (e : ActionBoundaryError) : string :=
  match e with
  | MissingExplicitRollbackToken _ _ => "action_missing_explicit_rollback_token"
  | UnsupportedRollbackToken _ _ _ => "action_unsupported_rollback_token"
  | MissingExplicitTargets _ => "action_missing_explicit_targets"
  | PolicyDenied _ _ => "action_policy_denied"
  | EvidenceRequired _ _ => "action_evidence_required"
  | InvalidTargetTid _ _ => "action_invalid_target_tid"
  | TargetIdentityMismatch _ _ _ _ => "action_target_identity_mismatch"
  | InvalidRequest _ _ => "action_invalid_request"
  | InvalidPolicy _ _ => "action_invalid_policy"
  | InvalidValue _ _ _ => "action_invalid_value"
  | UnsupportedValue _ _ _ => "action_unsupported_value"
  | PathNotAllowed _ _ _ => "action_path_not_allowed"
  | MissingPath _ _ => "action_missing_path"
  | RestoreFailed _ _ => "action_restore_failed"
  end.

Definition boundary_action_kind (e : ActionBoundaryError) : string :=
  match e with
  | MissingExplicitRollbackToken handler _ | UnsupportedRollbackToken handler _ _ => handler
  | MissingExplicitTargets action_kind | PolicyDenied action_kind _ | EvidenceRequired action_kind _
  | InvalidTargetTid action_kind _ | TargetIdentityMismatch action_kind _ _ _
  | InvalidRequest action_kind _ | InvalidPolicy action_kind _ | InvalidValue action_kind _ _
  | UnsupportedValue action_kind _ _ | PathNotAllowed action_kind _ _ | MissingPath action_kind _
  | RestoreFailed action_kind _ => action_kind
  end.

Definition to_failure (e : ActionBoundaryError) (phase : ActionPhase) : ActionBoundaryFailure :=
  {| bf_phase := phase; bf_action_kind := boundary_action_kind e;
     bf_reason_code := boundary_reason_code e |}.

(** An [anyhow::Error], by what the code downcasts it to. *)
Inductive AnyError :=
| EBoundary (e : ActionBoundaryError)
| ETokenKind (expected actual : string)
| EOther (text : string).

Definition err_preflight : ActionError := FPhase PfPreflight.
Definition err_dry_run : ActionError := FPhase PfDryRun.
Definition err_apply : ActionError := FPhase PfApply.
Definition err_verify : ActionError := FPhase PfVerify.
Definition err_rollback : ActionError := FRollback RollbackFailure.
Definition err_verify_rollback_completed : ActionError := FRollback VerifyRollbackCompleted.
Definition err_emergency_rollback : ActionError := FRollback EmergencyRollbackFailure.
Definition err_policy_rejected : ActionError := FPolicyRejected.
Definition err_scope_limit_exceeded (affected max : nat) : ActionError :=
  FScopeLimitExceeded {| sl_affected_tasks := affected; sl_max_affected_tasks := max |}.
Definition err_timeout (phase : ActionPhase) (elapsed timeout : Z) : ActionError :=
  FTimeout {| timeout_phase := phase; elapsed_ms := elapsed; timeout_ms := timeout |}.
Definition err_timeout_rollback_completed (phase : ActionPhase) (elapsed timeout : Z) : ActionError :=
  FRollback (TimeoutRollbackCompleted
    {| timeout_phase := phase; elapsed_ms := elapsed; timeout_ms := timeout |}).
Definition err_timeout_rollback_failure (phase : ActionPhase) (elapsed timeout : Z) : ActionError :=
  FRollback (TimeoutRollbackFailure
    {| timeout_phase := phase; elapsed_ms := elapsed; timeout_ms := timeout |}).

Definition from_phase_error (phase : ActionPhase) (error : AnyError) : ActionError :=
  match error, phase with
  | EBoundary e, _ => FBoundary (to_failure e phase)
  | ETokenKind expected actual, PhRollback => FInvalidRollbackToken expected actual
  | _, PhPreflight => err_preflight
  | _, PhDryRun => err_dry_run
  | _, PhApply => err_apply
  | _, PhVerify => err_verify
  | _, (PhRollback | PhEmergencyRollback) => err_rollback
  end.

Definition dry_run_error : AnyError -> ActionError := from_phase_error PhDryRun.
Definition apply_error : AnyError -> ActionError := from_phase_error PhApply.

Definition timeout_details (e : ActionError) : option ActionTimeout :=
  match e with FTimeout timeout => Some timeout | _ => None end.

Definition PhaseFailure_phase (f : PhaseFailure) : ActionPhase :=
  match f with
  | PfPreflight => PhPreflight | PfDryRun => PhDryRun | PfApply => PhApply | PfVerify => PhVerify
  | PfRollback => PhRollback
  end.

Definition RollbackOutcome_phase (o : RollbackOutcome) : ActionPhase :=
  match o with
  | RollbackFailure => PhRollback
  | VerifyRollbackCompleted => PhVerify
  | EmergencyRollbackFailure => PhEmergencyRollback
  | TimeoutRollbackCompleted timeout => timeout_phase timeout
  | TimeoutRollbackFailure _ => PhEmergencyRollback
  end.

Definition error_phase (e : ActionError) : ActionPhase :=
  match e with
  | FPhase failure => PhaseFailure_phase failure
  | FBoundary failure => bf_phase failure
  | FTimeout timeout => timeout_phase timeout
  | FRollback outcome => RollbackOutcome_phase outcome
  | FInvalidRollbackToken _ _ => PhRollback
  | FScopeLimitExceeded _ => PhDryRun
  | FPolicyRejected => PhPreflight
  end.

Definition PhaseFailure_category (f : PhaseFailure) : string :=
  match f with
  | PfPreflight => "preflight_failure"
  | PfDryRun => "dry_run_failure"
  | PfApply => "apply_failure"
  | PfVerify => "verify_failure"
  | PfRollback => "rollback_failure"
  end.

Definition RollbackOutcome_category (o : RollbackOutcome) : string :=
  match o with
  | RollbackFailure => "rollback_failure"
  | VerifyRollbackCompleted => "verify_failure_rollback_completed"
  | EmergencyRollbackFailure => "emergency_rollback_failure"
  | TimeoutRollbackCompleted _ => "timeout_rollback_completed"
  | TimeoutRollbackFailure _ => "timeout_rollback_failure"
  end.

Definition error_category (e : ActionError) : string :=
  match e with
  | FPhase failure => PhaseFailure_category failure
  | FBoundary failure => bf_reason_code failure
  | FTimeout _ => "timeout"
  | FRollback outcome => RollbackOutcome_category outcome
  | FInvalidRollbackToken _ _ => "invalid_rollback_token"
  | FScopeLimitExceeded _ => "scope_limit_exceeded"
  | FPolicyRejected => "policy_rejected"
  end.

Record PartialApplyError := { pa_source : AnyError; pa_rollback : option RollbackToken }.
