(* ===== verification/ActionRunner.v ===== *)
(** * The audited action runner

    [stutter/src/actions/runner/{model,policy,audit,rollback,execute}.rs].  An
    action is the implementation of the [TuningAction] trait: operations on the
    state [W] of the system, which the model keeps abstract.  The runner is a
    state monad over that state, the audit event it fills in on the way (the
    local [audit_event]) and the trace of the calls it makes, audit appends
    included.  An append that fails is only logged by the code, so the trace
    records the append.  [elapsed] and [unix_nanos] read the clocks: time since
    the run started and wall-clock time, both in nanoseconds. *)

From Stdlib Require Import String.
From S2P Require Import Prelude PolicyModel PolicyEval PolicySpec ActionModel.

(** ** The audit event, [audit.rs] *)

Record AuditEvent := {
  schema_version : Z;
  ev_unix_nanos : Z;
  ev_command : string;
  ev_action_id : option string;
  ev_safety_class : option SafetyClass;
  ev_dry_run : bool;
  ev_success : bool;
  ev_affected_tasks : nat;
  ev_restore_path : option string;
  ev_action_phase : option ActionPhase;
  ev_error_category : option string;
}.

(** ** [runner/audit.rs] *)

Record RunnerAuditEventUpdate := {
  up_phase : option ActionPhase;
  up_success : bool;
  up_affected_tasks : nat;
  up_restore_path : option string;
  up_error_category : option string;
}.

Definition update_event (e : AuditEvent) (now : Z) (u : RunnerAuditEventUpdate) : AuditEvent := {|
  schema_version := schema_version e;
  ev_unix_nanos := now;
  ev_command := ev_command e;
  ev_action_id := ev_action_id e;
  ev_safety_class := ev_safety_class e;
  ev_dry_run := ev_dry_run e;
  ev_success := up_success u;
  ev_affected_tasks := up_affected_tasks u;
  ev_restore_path := up_restore_path u;
  ev_action_phase := up_phase u;
  ev_error_category := up_error_category u;
|}.

(** ** [runner/model.rs] *)

Record AuditedActionResult := { res_state : ActionState; res_rollback : option RollbackToken }.

Record ActionRunPolicy := {
  run_policy : DaemonPolicy;
  run_context : DaemonPolicyContext;
  max_affected_tasks : option nat;
  max_total_duration : option Z;
  run_dry_run : bool;
}.

Definition for_mode (m : DaemonMode) (s : ActionSource) (dry : bool) : ActionRunPolicy := {|
  run_policy := build_daemon_policy (default_config_with m s) None;
  run_context := DaemonPolicyContext_default;
  max_affected_tasks := None;
  max_total_duration := None;
  run_dry_run := dry;
|}.

Definition run_policy_dry_run (s : ActionSource) : ActionRunPolicy := for_mode Suggest s true.
Definition run_policy_apply_low_risk (s : ActionSource) (dry : bool) : ActionRunPolicy :=
  for_mode ApplyLowRisk s dry.
Definition run_policy_apply_medium_risk (s : ActionSource) (dry : bool) : ActionRunPolicy :=
  for_mode ApplyMediumRisk s dry.

Definition for_action (class : SafetyClass) (dry : bool) (s : ActionSource) : ActionRunPolicy :=
  if dry then run_policy_dry_run s
  else match class with
       | ObserveOnly | ReversibleLowRisk => run_policy_apply_low_risk s false
       | ReversibleMediumRisk | HighRisk => run_policy_apply_medium_risk s false
       end.

(** ** [runner/policy.rs] *)

Definition check_action_with_explanation (policy : DaemonPolicy) (context : DaemonPolicyContext)
    (intent : PolicyIntent) (descriptor : ActionDescriptor) : unit + ActionError :=
  match decision (explain_action_with_context policy intent descriptor context) with
  | Allowed => inl tt
  | Rejected _ => inr err_policy_rejected
  end.

Section runner.
Context {W : Type} (elapsed unix_nanos : W -> Z).

(** A fallible operation on the system. *)
Definition io (A E : Type) := W -> (A + E) * W.

(** ** [actions/traits.rs] *)

Record TuningAction := {
  descriptor : ActionDescriptor;
  preflight : io (list ActionWarning) AnyError;
  dry_run : io ActionState AnyError;
  apply_with_prepared_rollback : (RollbackToken -> io unit AnyError) -> io RollbackToken PartialApplyError;
  verify : io ActionState AnyError;
  rollback_with : RollbackToken -> io unit AnyError;
}.

Record ActionHooks := {
  after_prepare : option (RollbackToken -> io unit AnyError);
  after_apply : option (RollbackToken -> io unit AnyError);
  after_rollback : option (RollbackToken -> io unit AnyError);
}.

Definition ActionHooks_none : ActionHooks :=
  {| after_prepare := None; after_apply := None; after_rollback := None |}.

Definition run_hook (hook : option (RollbackToken -> io unit AnyError)) : RollbackToken -> io unit AnyError :=
  fun token w => match hook with Some h => h token w | None => (inl tt, w) end.

(** ** The runner's monad *)

(** The calls of a run, each with its outcome. *)
Inductive Call :=
| CPreflight (ok : bool)
| CDryRun (r : ActionState + AnyError)
| CApply (r : RollbackToken + PartialApplyError)
| CAfterApply (token : RollbackToken) (ok : bool)
| CVerify (ok : bool)
| CRollback (token : RollbackToken) (ok : bool)
| CAfterRollback (token : RollbackToken) (ok : bool)
| CAudit (e : AuditEvent).

Record St := { world : W; trace : list Call; audit_event : AuditEvent }.

Definition M (A : Type) := St -> A * St.
Definition ret {A} (x : A) : M A := fun s => (x, s).
Definition bind {A B} (m : M A) (k : A -> M B) : M B := fun s => let '(x, s') := m s in k x s'.

Local Notation "x <- m ;; k" := (bind m (fun x => k)) (at level 100, m at next level, right associativity).
Local Notation "m ;;; k" := (bind m (fun _ => k)) (at level 100, right associativity).

(** The [?] operator: an error returns. *)
Definition try {A B} (m : M (A + ActionError)) (k : A -> M (B + ActionError)) : M (B + ActionError) :=
  bind m (fun r => match r with inl x => k x | inr e => ret (inr e) end).
Local Notation "x <-? m ;; k" := (try m (fun x => k)) (at level 100, m at next level, right associativity).

Definition is_ok {A E} (r : A + E) : bool := match r with inl _ => true | inr _ => false end.

(** A call of the system: run, record its outcome. *)
Definition call {A E} (op : io A E) (log : A + E -> Call) : M (A + E) :=
  fun s => let '(r, w) := op (world s) in
           (r, {| world := w; trace := trace s ++ [log r]; audit_event := audit_event s |}).

(** Assignments to the local audit event. *)
Definition modify_event (f : AuditEvent -> AuditEvent) : M unit :=
  fun s => (tt, {| world := world s; trace := trace s; audit_event := f (audit_event s) |}).
Definition get_event : M AuditEvent := fun s => (audit_event s, s).

Definition set_phase (p : option ActionPhase) (e : AuditEvent) : AuditEvent :=
  update_event e (ev_unix_nanos e)
    {| up_phase := p; up_success := ev_success e; up_affected_tasks := ev_affected_tasks e;
       up_restore_path := ev_restore_path e; up_error_category := ev_error_category e |}.
Definition set_token (t : RollbackToken) (e : AuditEvent) : AuditEvent :=
  update_event e (ev_unix_nanos e)
    {| up_phase := ev_action_phase e; up_success := ev_success e;
       up_affected_tasks := token_affected_tasks t; up_restore_path := token_restore_path t;
       up_error_category := ev_error_category e |}.
(** [success], [affected_tasks], no phase, no category: the run succeeded. *)
Definition set_success (affected : nat) (e : AuditEvent) : AuditEvent :=
  update_event e (ev_unix_nanos e)
    {| up_phase := None; up_success := true; up_affected_tasks := affected;
       up_restore_path := ev_restore_path e; up_error_category := None |}.
Definition set_error (err : ActionError) (e : AuditEvent) : AuditEvent :=
  update_event e (ev_unix_nanos e)
    {| up_phase := Some (error_phase err); up_success := false;
       up_affected_tasks := ev_affected_tasks e; up_restore_path := ev_restore_path e;
       up_error_category := Some (error_category err) |}.

Definition append_runner_audit_event (u : RunnerAuditEventUpdate) : M unit :=
  fun s => (tt, {| world := world s;
                   trace := trace s ++ [CAudit (update_event (audit_event s) (unix_nanos (world s)) u)];
                   audit_event := audit_event s |}).

Definition audit (phase : ActionPhase) (success : bool) (affected : nat) (path category : option string)
  : M unit :=
  append_runner_audit_event
    {| up_phase := Some phase; up_success := success; up_affected_tasks := affected;
       up_restore_path := path; up_error_category := category |}.

Definition audit_token (phase : ActionPhase) (success : bool) (t : RollbackToken)
    (category : option string) : M unit :=
  audit phase success (token_affected_tasks t) (token_restore_path t) category.

(** ** [runner/rollback.rs] *)

Definition total_timeout_error (max_total_duration : option Z) (phase : ActionPhase)
  : M (option ActionError) :=
  fun s =>
    (match max_total_duration with
     | None => None
     | Some limit =>
         if limit <? elapsed (world s)
         then Some (err_timeout phase (elapsed (world s) / 1000000) (limit / 1000000)) else None
     end, s).

Section run.
Context (command : string) (action : TuningAction) (rp : ActionRunPolicy) (hooks : ActionHooks).

Definition do_rollback (t : RollbackToken) : M (unit + AnyError) :=
  call (rollback_with action t) (fun r => CRollback t (is_ok r)).
Definition run_after_apply (t : RollbackToken) : M (unit + AnyError) :=
  call (run_hook (after_apply hooks) t) (fun r => CAfterApply t (is_ok r)).
Definition run_after_rollback (t : RollbackToken) : M (unit + AnyError) :=
  call (run_hook (after_rollback hooks) t) (fun r => CAfterRollback t (is_ok r)).

Definition rollback_after_timeout (t : RollbackToken) (timeout_error : ActionError) : M ActionError :=
  match timeout_details timeout_error with
  | None => ret timeout_error
  | Some timeout =>
      let phase := timeout_phase timeout in
      r <- do_rollback t ;;
      match r with
      | inl _ =>
          h <- run_after_rollback t ;;
          match h with
          | inr _ =>
              audit_token PhRollback false t (Some "RollbackHookFailed"%string) ;;;
              ret err_rollback
          | inl _ =>
              audit_token PhRollback true t None ;;;
              ret (err_timeout_rollback_completed phase (elapsed_ms timeout) (timeout_ms timeout))
          end
      | inr _ => ret (err_timeout_rollback_failure phase (elapsed_ms timeout) (timeout_ms timeout))
      end
  end.

Definition rollback_after_apply_hook_failure (t : RollbackToken) : M ActionError :=
  r <- do_rollback t ;;
  match r with
  | inl _ =>
      h <- run_after_rollback t ;;
      match h with
      | inl _ => audit_token PhRollback true t None ;;; ret err_apply
      | inr _ =>
          audit_token PhRollback false t (Some "RollbackHookFailed"%string) ;;; ret err_rollback
      end
  | inr _ => ret err_emergency_rollback
  end.

(** ** [runner/execute.rs] *)

(** The timeout checks that return before anything was mutated. *)
Definition timeout_or {A} (phase : ActionPhase) (k : M (A + ActionError)) : M (A + ActionError) :=
  t <- total_timeout_error (max_total_duration rp) phase ;;
  match t with Some timeout => ret (inr timeout) | None => k end.

(** The timeout checks after the mutation roll it back. *)
Definition timeout_rollback_or {A} (t : RollbackToken) (phase : ActionPhase) (k : M (A + ActionError))
  : M (A + ActionError) :=
  o <- total_timeout_error (max_total_duration rp) phase ;;
  match o with
  | Some timeout =>
      modify_event (set_phase (Some PhRollback)) ;;;
      e <- rollback_after_timeout t timeout ;; ret (inr e)
  | None => k
  end.

Definition run_preflight : M (list ActionWarning + ActionError) :=
  modify_event (set_phase (Some PhPreflight)) ;;;
  r <- call (preflight action) (fun r => CPreflight (is_ok r)) ;;
  let report :=
    match r with
    | inl ws => report_passed (action_id (descriptor action)) ws
    | inr _ => report_blocked (action_id (descriptor action)) EmptyString
    end in
  if is_blocked report then ret (inr err_preflight)
  else audit PhPreflight true 0 None None ;;;
       timeout_or PhPreflight (ret (inl (rep_warnings report))).

(** The policy check and the dry run, shared by both modes of the runner. *)
Definition run_dry_run_phase : M (ActionState + ActionError) :=
  modify_event (set_phase (Some PhDryRun)) ;;;
  _ <-? ret (check_action_with_explanation (run_policy rp) (run_context rp) IntentDryRun (descriptor action)) ;;
  r <- call (dry_run action) CDryRun ;;
  match r with
  | inr e => ret (inr (dry_run_error e))
  | inl state =>
      audit PhDryRun true (affected_tasks state) None None ;;;
      timeout_or PhDryRun (ret (inl state))
  end.

(** A failed apply: roll back what the partial token covers. *)
Definition handle_partial_apply (p : PartialApplyError) : M ActionError :=
  match pa_rollback p with
  | None => ret (apply_error (pa_source p))
  | Some t =>
      modify_event (set_token t) ;;;
      h <- run_after_apply t ;;
      match h with
      | inr _ => rollback_after_apply_hook_failure t
      | inl _ =>
          r <- do_rollback t ;;
          match r with
          | inl _ =>
              h' <- run_after_rollback t ;;
              match h' with
              | inr _ => ret err_rollback
              | inl _ => audit_token PhRollback true t None ;;; ret err_apply
              end
          | inr _ =>
              audit_token PhRollback false t (Some "EmergencyRollbackFailed"%string) ;;;
              ret err_emergency_rollback
          end
      end
  end.

Definition run_verify (t : RollbackToken) : M (ActionState + ActionError) :=
  modify_event (set_phase (Some PhVerify)) ;;;
  v <- call (verify action) (fun r => CVerify (is_ok r)) ;;
  match v with
  | inl state =>
      audit PhVerify true (affected_tasks state) (token_restore_path t) None ;;;
      timeout_rollback_or t PhVerify (ret (inl state))
  | inr _ =>
      modify_event (set_phase (Some PhRollback)) ;;;
      r <- do_rollback t ;;
      match r with
      | inl _ =>
          h <- run_after_rollback t ;;
          match h with
          | inr _ => ret (inr err_rollback)
          | inl _ => audit_token PhRollback true t None ;;; ret (inr err_verify_rollback_completed)
          end
      | inr _ => ret (inr err_emergency_rollback)
      end
  end.

Definition run_apply_phase : M (AuditedActionResult + ActionError) :=
  modify_event (set_phase (Some PhApply)) ;;;
  _ <-? ret (check_action_with_explanation (run_policy rp) (run_context rp) IntentApply (descriptor action)) ;;
  a <- call (apply_with_prepared_rollback action (run_hook (after_prepare hooks))) CApply ;;
  match a with
  | inr p => e <- handle_partial_apply p ;; ret (inr e)
  | inl t =>
      modify_event (set_token t) ;;;
      h <- run_after_apply t ;;
      match h with
      | inr _ =>
          modify_event (set_phase (Some PhRollback)) ;;;
          e <- rollback_after_apply_hook_failure t ;; ret (inr e)
      | inl _ =>
          audit_token PhApply true t None ;;;
          timeout_rollback_or t PhApply (
            state <-? run_verify t ;;
            modify_event (set_success (affected_tasks state)) ;;;
            ret (inl {| res_state := state; res_rollback := Some t |}))
      end
  end.

Definition run_closure : M (AuditedActionResult + ActionError) :=
  _ <-? run_preflight ;;
  state <-? run_dry_run_phase ;;
  if run_dry_run rp then
    modify_event (set_success (affected_tasks state)) ;;;
    ret (inl {| res_state := state; res_rollback := None |})
  else
    match max_affected_tasks rp with
    | Some max =>
        if (max <? affected_tasks state)%nat
        then ret (inr (err_scope_limit_exceeded (affected_tasks state) max))
        else run_apply_phase
    | None => run_apply_phase
    end.

Definition initial_event (now : Z) : AuditEvent := {|
  schema_version := 1;
  ev_unix_nanos := now;
  ev_command := command;
  ev_action_id := Some (action_id (descriptor action));
  ev_safety_class := Some (safety_class (descriptor action));
  ev_dry_run := run_dry_run rp;
  ev_success := false;
  ev_affected_tasks := 0;
  ev_restore_path := None;
  ev_action_phase := None;
  ev_error_category := None;
|}.

Definition run_and_audit : M (AuditedActionResult + ActionError) :=
  result <- run_closure ;;
  match result with inr err => modify_event (set_error err) | inl _ => ret tt end ;;;
  e <- get_event ;;
  append_runner_audit_event
    {| up_phase := ev_action_phase e; up_success := ev_success e;
       up_affected_tasks := ev_affected_tasks e; up_restore_path := ev_restore_path e;
       up_error_category := ev_error_category e |} ;;;
  ret result.

(** The whole run: its result, the system afterwards and the calls made. *)
Definition run_audited_action (w : W) : (AuditedActionResult + ActionError) * W * list Call :=
  let '(result, s) :=
    run_and_audit {| world := w; trace := []; audit_event := initial_event (unix_nanos w) |} in
  (result, world s, trace s).

End run.

(** ** Reading a trace *)

(** The tokens apply handed out: what the system may have been changed for. *)
Definition mutation (c : Call) : option RollbackToken :=
  match c with
  | CApply (inl t) => Some t
  | CApply (inr p) => pa_rollback p
  | _ => None
  end.
Definition rollback_of (c : Call) : option (RollbackToken * bool) :=
  match c with CRollback t ok => Some (t, ok) | _ => None end.

Definition mutations (tr : list Call) : list RollbackToken := omap mutation tr.
Definition rollbacks (tr : list Call) : list (RollbackToken * bool) := omap rollback_of tr.

Lemma mutations_in tr t : In t (mutations tr) -> exists a, In (CApply a) tr.
Proof.
  intros Hin; apply list_elem_of_In, list_elem_of_omap in Hin as (c & Hc & Hm).
  destruct c; try done; eexists; apply list_elem_of_In; exact Hc.
Qed.

Definition touches_system (c : Call) : bool :=
  match c with
  | CApply _ | CAfterApply _ _ | CVerify _ | CRollback _ _ | CAfterRollback _ _ => true
  | CPreflight _ | CDryRun _ | CAudit _ => false
  end.

(** One branch of the code at a time; the calls stay as they are. *)
Ltac run_step :=
  match goal with
  | |- context [match ?x with _ => _ end] =>
      lazymatch x with
      | context [match _ with _ => _ end] => fail
      | _ => destruct x eqn:?
      end
  end.

Ltac run_simpl :=
  cbn [fst snd world trace audit_event timeout_details err_timeout timeout_phase elapsed_ms timeout_ms
       is_ok is_blocked blockers rep_warnings report_passed report_blocked app].

Ltac run_unfold :=
  unfold run_audited_action, run_and_audit, run_closure, run_preflight, run_dry_run_phase,
    run_apply_phase, handle_partial_apply, run_verify, timeout_rollback_or, rollback_after_timeout,
    rollback_after_apply_hook_failure, timeout_or, total_timeout_error, do_rollback,
    run_after_apply, run_after_rollback, check_action_with_explanation,
    audit_token, audit, append_runner_audit_event, get_event, modify_event, call, try, bind, ret;
  run_simpl.

Ltac run_all := run_unfold; repeat (run_step; run_simpl).

Section laws.
Context (command : string) (action : TuningAction) (rp : ActionRunPolicy) (hooks : ActionHooks) (w : W).

(** What every run guarantees about its result [r] and the calls [tr] it made. *)
Record run_facts (r : AuditedActionResult + ActionError) (tr : list Call) : Prop := {
  rf_rolled_back :
    match r with
    | inl res => rollbacks tr = [] /\ mutations tr = option_list (res_rollback res)
    | inr err =>
        rollbacks tr
        = map (fun t => (t, negb (bool_decide (error_phase err = PhEmergencyRollback))))
            (mutations tr)
    end;
  rf_applied :
    match r with inl res => run_dry_run rp = false -> res_rollback res <> None | inr _ => True end;
  rf_quiet_dry_run : run_dry_run rp = true -> existsb touches_system tr = false;
  rf_authorized : forall a, In (CApply a) tr ->
    run_dry_run rp = false /\
    decision (explain_action_with_context (run_policy rp) IntentApply (descriptor action)
                (run_context rp)) = Allowed /\
    exists pre post state,
      tr = pre ++ CApply a :: post /\ existsb touches_system pre = false /\
      In (CPreflight true) pre /\ In (CDryRun (inl state)) pre /\
      (forall max, max_affected_tasks rp = Some max -> (affected_tasks state <= max)%nat);
  rf_last_audit : exists pre e,
    tr = pre ++ [CAudit e] /\ ev_command e = command /\
    ev_action_id e = Some (action_id (descriptor action)) /\ ev_dry_run e = run_dry_run rp /\
    match r with
    | inl res => ev_success e = true /\ ev_action_phase e = None /\ ev_error_category e = None /\
                 ev_affected_tasks e = affected_tasks (res_state res)
    | inr err => ev_success e = false /\ ev_action_phase e = Some (error_phase err) /\
                 ev_error_category e = Some (error_category err)
    end;
}.

Ltac solve_rolled_back :=
  unfold rollbacks, mutations; simpl;
  repeat match goal with H : pa_rollback _ = _ |- _ => rewrite H; clear H end;
  first [reflexivity | split; reflexivity].

Ltac solve_quiet := first [reflexivity | intros _; reflexivity | intros ?; congruence].

(** The four calls before an apply: preflight and dry run, each audited. *)
Ltac solve_authorized :=
  let Ha := fresh "Ha" in intros ? Ha; simpl in Ha; destruct_or?; try done; simplify_eq;
  (split; [done|]); (split; [done|]);
  eexists [_; _; _; _], _, _; (split; [reflexivity|]); (split; [reflexivity|]);
  (split; [left; reflexivity|]); (split; [right; right; left; reflexivity|]);
  intros ? ?; simplify_eq; by apply Nat.ltb_ge.

Ltac solve_last_audit :=
  match goal with
  | |- exists pre e, ?tr = _ /\ _ =>
      exists (removelast tr); eexists; (split; [cbn [removelast app]; reflexivity|]);
      repeat split; reflexivity
  end.

Lemma run_spec :
  let '(r, _, tr) := run_audited_action command action rp hooks w in run_facts r tr.
Proof.
  run_all.
  all: split; [solve_rolled_back|first [done | congruence]|solve_quiet|solve_authorized|solve_last_audit].
Qed.
End laws.

(** ** Well-behaved actions

    What an implementation of [TuningAction] and the hooks promise about the
    part [obs] of the system that actions change. *)

Class Reversible {O : Type} (obs : W -> O) (action : TuningAction) (hooks : ActionHooks) : Prop := {
  preflight_quiet w r w' : preflight action w = (r, w') -> obs w' = obs w;
  dry_run_quiet w r w' : dry_run action w = (r, w') -> obs w' = obs w;
  verify_quiet w r w' : verify action w = (r, w') -> obs w' = obs w;
  after_apply_quiet t w r w' : run_hook (after_apply hooks) t w = (r, w') -> obs w' = obs w;
  after_rollback_quiet t w r w' : run_hook (after_rollback hooks) t w = (r, w') -> obs w' = obs w;
  (** An apply that fails without a token changed nothing. *)
  apply_atomic w p w' :
    apply_with_prepared_rollback action (run_hook (after_prepare hooks)) w = (inr p, w') ->
    pa_rollback p = None -> obs w' = obs w;
  (** A token takes the system it was issued for back to where apply found it. *)
  rollback_restores w a w1 t w2 u w3 :
    apply_with_prepared_rollback action (run_hook (after_prepare hooks)) w = (a, w1) ->
    mutation (CApply a) = Some t -> obs w2 = obs w1 ->
    rollback_with action t w2 = (inl u, w3) -> obs w3 = obs w;
}.

Section reversible.
Context {O : Type} (obs : W -> O) (command : string) (action : TuningAction) (rp : ActionRunPolicy)
  (hooks : ActionHooks) `{!Reversible obs action hooks} (w : W).

Ltac observe :=
  repeat match goal with
  | H : preflight action _ = _ |- _ => apply preflight_quiet in H
  | H : dry_run action _ = _ |- _ => apply dry_run_quiet in H
  | H : verify action _ = _ |- _ => apply verify_quiet in H
  | H : run_hook (after_apply hooks) _ _ = _ |- _ => apply after_apply_quiet in H
  | H : run_hook (after_rollback hooks) _ _ = _ |- _ => apply after_rollback_quiet in H
  | H : apply_with_prepared_rollback _ _ _ = (inr ?p, _), E : pa_rollback ?p = None |- _ =>
      apply apply_atomic in H; [|exact E]
  | Ha : apply_with_prepared_rollback _ _ _ = (_, _), Hr : rollback_with action _ _ = (inl _, _) |- _ =>
      eapply rollback_restores in Hr; [|exact Ha|first [done | simpl; eassumption]|congruence]; clear Ha
  end; congruence.

Lemma run_restores :
  let '(r, w', _) := run_audited_action command action rp hooks w in
  match r with
  | inl res => res_rollback res = None -> obs w' = obs w
  | inr err => error_phase err <> PhEmergencyRollback -> obs w' = obs w
  end.
Proof.
  run_all.
  all: intros Hphase; try done.
  all: observe.
Qed.
End reversible.

(** ** The properties of a run *)

Section properties.
Context (command : string) (action : TuningAction) (rp : ActionRunPolicy) (hooks : ActionHooks) (w : W).
Abbreviation run := (run_audited_action command action rp hooks w).

(** C9. A run that fails after apply issued a token rolls that token back exactly once,
    and its error is an emergency-rollback error exactly when the rollback failed; a run
    that succeeds rolls nothing back and returns the token. *)
Theorem failed_run_rolls_back :
  match run.1.1 with
  | inl res => rollbacks run.2 = [] /\ mutations run.2 = option_list (res_rollback res)
  | inr err =>
      rollbacks run.2
      = map (fun t => (t, negb (bool_decide (error_phase err = PhEmergencyRollback))))
          (mutations run.2)
  end.
Proof.
  pose proof (run_spec command action rp hooks w) as H.
  destruct run as [[r w'] tr]; apply (rf_rolled_back _ _ _ _ _ H).
Qed.

(** C5. The runner calls apply only outside dry-run mode, when the policy permits the
    action in its context, after a passed preflight and a dry run within the task limit,
    and before that it has touched nothing. *)
Theorem apply_requires_authorization a :
  In (CApply a) run.2 ->
  run_dry_run rp = false /\
  apply_permitted (run_policy rp) (descriptor action) (run_context rp) /\
  exists pre post state,
    run.2 = pre ++ CApply a :: post /\ existsb touches_system pre = false /\
    In (CPreflight true) pre /\ In (CDryRun (inl state)) pre /\
    (forall max, max_affected_tasks rp = Some max -> (affected_tasks state <= max)%nat).
Proof.
  pose proof (run_spec command action rp hooks w) as H.
  destruct run as [[r w'] tr]; intros Ha.
  destruct (rf_authorized _ _ _ _ _ H a Ha) as (Hd & Hp & Hex).
  split; [exact Hd|]; split; [by apply apply_decision|exact Hex].
Qed.

(** In dry-run mode the runner calls no apply, verify, rollback or hook. *)
Theorem dry_run_never_touches_system :
  run_dry_run rp = true -> existsb touches_system run.2 = false.
Proof.
  pose proof (run_spec command action rp hooks w) as H.
  destruct run as [[r w'] tr]; apply (rf_quiet_dry_run _ _ _ _ _ H).
Qed.

(** The last call of every run appends the audit event of its result: success
    without phase or category, or the phase and category of the error. *)
Theorem run_ends_with_its_audit_event :
  exists pre e,
    run.2 = pre ++ [CAudit e] /\ ev_command e = command /\
    ev_action_id e = Some (action_id (descriptor action)) /\ ev_dry_run e = run_dry_run rp /\
    match run.1.1 with
    | inl res => ev_success e = true /\ ev_action_phase e = None /\ ev_error_category e = None /\
                 ev_affected_tasks e = affected_tasks (res_state res)
    | inr err => ev_success e = false /\ ev_action_phase e = Some (error_phase err) /\
                 ev_error_category e = Some (error_category err)
    end.
Proof.
  pose proof (run_spec command action rp hooks w) as H.
  destruct run as [[r w'] tr]; apply (rf_last_audit _ _ _ _ _ H).
Qed.

(** For an action whose rollback undoes its apply, a failed run leaves the observed
    system as it found it unless the error is an emergency-rollback error; so does a
    successful dry run. *)
Theorem failed_run_restores_system {O} (obs : W -> O) `{!Reversible obs action hooks} :
  match run.1.1 with
  | inl res => res_rollback res = None -> obs run.1.2 = obs w
  | inr err => error_phase err <> PhEmergencyRollback -> obs run.1.2 = obs w
  end.
Proof.
  pose proof (run_restores obs command action rp hooks w) as H.
  destruct run as [[r w'] tr]; exact H.
Qed.

(** A permitted action whose phases succeed within the limits is applied and
    verified: the run returns the verified state and the rollback token and rolls
    nothing back. *)
Theorem permitted_run_applies w1 ws w2 st w3 t w4 u w5 st' :
  preflight action w = (inl ws, w1) ->
  dry_run action w1 = (inl st, w2) ->
  apply_with_prepared_rollback action (run_hook (after_prepare hooks)) w2 = (inl t, w3) ->
  run_hook (after_apply hooks) t w3 = (inl u, w4) ->
  verify action w4 = (inl st', w5) ->
  run_dry_run rp = false ->
  intent_permitted (run_policy rp) IntentDryRun (descriptor action) (run_context rp) ->
  apply_permitted (run_policy rp) (descriptor action) (run_context rp) ->
  (forall max, max_affected_tasks rp = Some max -> (affected_tasks st <= max)%nat) ->
  (forall limit, max_total_duration rp = Some limit ->
     elapsed w1 <= limit /\ elapsed w2 <= limit /\ elapsed w4 <= limit /\ elapsed w5 <= limit) ->
  run.1 = (inl {| res_state := st'; res_rollback := Some t |}, w5) /\
  rollbacks run.2 = [].
Proof.
  intros Hp Hd Ha Hh Hv Hdry Hpd Hpa Hmax Hlim.
  apply non_apply_decision in Hpd; [|done]; apply apply_decision in Hpa.
  assert (Hin : forall limit w', max_total_duration rp = Some limit ->
            elapsed w' <= limit -> (limit <? elapsed w') = false).
  { intros limit w' _; apply Z.ltb_ge. }
  run_unfold; rewrite Hp; run_simpl.
  destruct (max_total_duration rp) as [limit|], (max_affected_tasks rp) as [max|]; run_simpl.
  all: try (destruct (Hlim _ eq_refl) as (H1 & H2 & H3 & H4)).
  all: rewrite ?(Hin _ _ eq_refl H1), Hpd; run_simpl; rewrite Hd; run_simpl.
  all: rewrite ?(Hin _ _ eq_refl H2), Hdry; run_simpl.
  all: rewrite ?(proj2 (Nat.ltb_ge _ _) (Hmax _ eq_refl)), Hpa; run_simpl; rewrite Ha; run_simpl; rewrite Hh; run_simpl.
  all: rewrite ?(Hin _ _ eq_refl H3); run_simpl; rewrite Hv; run_simpl; rewrite ?(Hin _ _ eq_refl H4); run_simpl.
  all: split; reflexivity.
Qed.

(** A run under ActionRunPolicy::for_action for a medium-risk or high-risk action
    never calls apply and never succeeds: the constructed policy has the medium-risk
    mode without its unlock. *)
Theorem for_action_never_applies_medium_risk class s a :
  rp = for_action class false s -> class = ReversibleMediumRisk \/ class = HighRisk ->
  ~ In (CApply a) run.2 /\ is_ok run.1.1 = false.
Proof.
  intros Hrp Hclass; pose proof (run_spec command action rp hooks w) as H.
  assert (Hno : forall a', ~ In (CApply a') run.2).
  { destruct run as [[r w'] tr]; intros a' Ha.
    destruct (rf_authorized _ _ _ _ _ H a' Ha) as (_ & Hp & _).
    apply apply_decision in Hp as [[Hm _ _ _ _ _ _ _] _].
    rewrite Hrp in Hm; destruct Hclass as [-> | ->]; by destruct Hm. }
  split; [apply Hno|]; destruct run as [[[res|err] w'] tr]; [|done].
  exfalso; destruct (rf_rolled_back _ _ _ _ _ H) as [_ Hmut].
  destruct (res_rollback res) as [t|] eqn:Hres.
  - destruct (mutations_in tr t) as [a' Ha]; [rewrite Hmut; by left|]. by apply (Hno a').
  - apply (rf_applied _ _ _ _ _ H); [|done]. rewrite Hrp; by destruct Hclass as [-> | ->].
Qed.
End properties.
End runner.
