(* ===== verification/ActionRuns.v ===== *)
(** * Concrete policies and action runs

    A nice-value action on one task, run under the gaming preset, remotely, as a
    dry run and with a failing verification: the theorems of [PolicySpec] and
    [ActionRunner] at these inputs, with their hypotheses computed. *)

From Stdlib Require Import SpecFloat Ascii String.
From S2P Require Import Prelude PolicyModel PolicyEval PolicySpec ActionModel ActionRunner.

(** ** Policies *)

Definition affinity_descriptor : ActionDescriptor := {|
  action_id := "affinity:7"; action_kind := "cpu_affinity_profile:game";
  safety_class := ReversibleLowRisk; effect_scope := LocalProcessTree;
  rollback := RequiredBeforeApply; persistent_effect := false;
  touches_system_wide_state := false; requires_explicit_target := true;
  confidence := Some (f32_frac 15435039) |}.

Definition gaming_policy : DaemonPolicy := build_daemon_policy (from_preset GamingLowRisk Cli) None.

(** The gaming preset of the agent, with remote apply turned on. *)
Definition remote_config : DaemonConfig :=
  let d := from_preset GamingLowRisk RemoteAgent in
  {| dc_preset := dc_preset d; dc_mode := dc_mode d; dc_source := RemoteAgent;
     dc_target := {| target_pids := [7]; tree_pids := []; watch_process := None;
                     require_explicit_target := true |};
     dc_safety := dc_safety d; dc_health := dc_health d; dc_retention := dc_retention d;
     dc_remote := {| allow_remote_apply_cfg := true; require_auth_for_apply := true;
                     allow_non_loopback_apply := false |};
     dc_autotune := dc_autotune d |}.
Definition remote_context : RemotePolicyContext :=
  {| ctx_bind_is_loopback := true; ctx_auth_configured := true; ctx_request_authorized := true;
     limits := AgentAutotuneLimits_default |}.

Lemma remote_apply_allowed :
  decision (explain_action_with_context (build_daemon_policy remote_config (Some remote_context))
    IntentApply affinity_descriptor DaemonPolicyContext_default) = Allowed.
Proof. vm_compute. reflexivity. Qed.

Lemma built_policy_ceilings_witness :
  safety_le (safety_class affinity_descriptor)
    (max_safety_class (build_daemon_policy remote_config (Some remote_context))) = true.
Proof.
  refine (proj1 (built_policy_ceilings remote_config (Some remote_context) affinity_descriptor
    DaemonPolicyContext_default _ remote_apply_allowed)). reflexivity.
Defined.

Lemma remote_apply_within_limits_witness :
  exists ctx, Some remote_context = Some ctx /\ allow_remote_apply_cfg (dc_remote remote_config) = true.
Proof.
  destruct (remote_apply_within_limits remote_config (Some remote_context) affinity_descriptor
    DaemonPolicyContext_default) as (ctx & H1 & H2 & _);
    [reflexivity|exact remote_apply_allowed|].
  exists ctx. split; [exact H1|exact H2].
Defined.

Lemma remote_context_only_narrows_witness :
  decision (explain_action_with_context (build_daemon_policy (with_source remote_config Cli) None)
    IntentApply affinity_descriptor DaemonPolicyContext_default) = Allowed.
Proof.
  apply (remote_context_only_narrows remote_config (Some remote_context) Cli);
    [discriminate|exact remote_apply_allowed].
Defined.

(** A rollback is allowed while the system is unhealthy and cooling down. *)
Definition bad_context : DaemonPolicyContext := {|
  data_quality_ok := false; data_quality_reason_code := None; system_health_ok := false;
  system_health_reason_code := None; workload_stable := false; cooldown_active := true;
  rollback_pending := true; capabilities := None |}.

Lemma non_apply_allowed_iff_witness :
  decision (explain_action_with_context gaming_policy IntentRollback affinity_descriptor bad_context)
  = Allowed.
Proof.
  refine (proj2 (non_apply_allowed_iff gaming_policy IntentRollback affinity_descriptor bad_context
    _) _); [discriminate|]. split; [|exact I]. intros [H _]. discriminate H.
Defined.

Lemma preset_apply_envelope_witness :
  in_family (action_kind affinity_descriptor) "cpu_affinity_profile".
Proof.
  refine (proj1 (proj2 (proj2 (preset_apply_envelope GamingLowRisk Cli affinity_descriptor
    DaemonPolicyContext_default _)))). vm_compute. reflexivity.
Defined.

(** ** Action runs *)

(** The system: the nice value of task 7 and the clock. *)
Record System := { nice : Z; now : Z }.
Definition tick (s : System) : System := {| nice := nice s; now := now s + 10 |}.
Definition quiet {A E} (r : A + E) : @io System A E := fun s => (r, tick s).

Definition one_task : ActionState :=
  {| applied := false; affected_tasks := 1; checked_tasks := 1; pending_changes := 1; warnings := [] |}.

(** Sets the nice value to -5; the token holds the old one. *)
Definition nice_token (old : Z) : RollbackToken :=
  NiceRestore [{| nice_tid := 7; original_nice := old; nice_identity := None |}].
Definition nice_action (verifies : bool) : @TuningAction System := {|
  descriptor := affinity_descriptor;
  preflight := quiet (inl []);
  dry_run := quiet (inl one_task);
  apply_with_prepared_rollback prepared s :=
    match prepared (nice_token (nice s)) s with
    | (inl _, s') => (inl (nice_token (nice s)), {| nice := -5; now := now s' + 10 |})
    | (inr e, s') => (inr {| pa_source := e; pa_rollback := None |}, s')
    end;
  verify := quiet (if verifies then inl one_task else inr (EOther "nice value not set"));
  rollback_with t s :=
    match t with
    | NiceRestore [r] => (inl tt, {| nice := original_nice r; now := now s + 10 |})
    | _ => (inr (ETokenKind "nice-restore" (token_kind t)), s)
    end;
|}.

Definition system : System := {| nice := 3; now := 0 |}.

Definition run_policy_for (p : DaemonPolicy) (dry : bool) : ActionRunPolicy :=
  {| run_policy := p; run_context := DaemonPolicyContext_default; max_affected_tasks := Some 4%nat;
     max_total_duration := Some 1000; run_dry_run := dry |}.

Abbreviation run_nice verifies dry :=
  (run_audited_action now now "apply" (nice_action verifies) (run_policy_for gaming_policy dry)
     ActionHooks_none system).

#[local] Instance nice_reversible verifies : Reversible nice (nice_action verifies) ActionHooks_none.
Proof.
  split; unfold nice_action, quiet, run_hook; simpl.
  1-5: intros; simplify_eq; done.
  - done.
  - intros w a w1 t w2 u w3 ? ? _ ?; simplify_eq; simpl in *; simplify_eq; done.
Qed.

Lemma apply_requires_authorization_witness :
  apply_permitted gaming_policy affinity_descriptor DaemonPolicyContext_default.
Proof.
  refine (proj1 (proj2 (apply_requires_authorization now now "apply" (nice_action true)
    (run_policy_for gaming_policy false) ActionHooks_none system (inl (nice_token 3)) _))).
  vm_compute. tauto.
Defined.

Lemma dry_run_never_touches_system_witness : existsb touches_system (run_nice true true).2 = false.
Proof.
  apply (dry_run_never_touches_system now now "apply" (nice_action true)
    (run_policy_for gaming_policy true) ActionHooks_none system). reflexivity.
Defined.

(** The verification fails, so the nice value is 3 again. *)
Lemma failed_run_restores_system_witness : nice (run_nice false false).1.2 = nice system.
Proof.
  pose proof (failed_run_restores_system now now "apply" (nice_action false)
    (run_policy_for gaming_policy false) ActionHooks_none system nice) as H.
  assert (E : (run_nice false false).1.1 = inr err_verify_rollback_completed)
    by (vm_compute; reflexivity).
  rewrite E in H. apply H. discriminate.
Defined.

Lemma permitted_run_applies_witness :
  (run_nice true false).1
  = (inl {| res_state := one_task; res_rollback := Some (nice_token 3) |}, {| nice := -5; now := 40 |}).
Proof.
  refine (proj1 (permitted_run_applies now now "apply" (nice_action true)
    (run_policy_for gaming_policy false) ActionHooks_none system
    {| nice := 3; now := 10 |} [] {| nice := 3; now := 20 |} one_task {| nice := -5; now := 30 |}
    (nice_token 3) {| nice := -5; now := 30 |} tt {| nice := -5; now := 40 |} one_task
    eq_refl eq_refl eq_refl eq_refl eq_refl eq_refl _ _ _ _)).
  - split; [|intros caps; discriminate]. intros [H _]. discriminate H.
  - apply apply_decision. vm_compute. reflexivity.
  - intros max [= <-]. simpl. lia.
  - intros limit [= <-]. simpl. lia.
Defined.

Lemma for_action_never_applies_medium_risk_witness :
  is_ok (run_audited_action now now "apply-profile nice" (nice_action true)
    (for_action ReversibleMediumRisk false ApplyProfileWatch) ActionHooks_none system).1.1 = false.
Proof.
  refine (proj2 (for_action_never_applies_medium_risk now now "apply-profile nice" (nice_action true)
    _ ActionHooks_none system ReversibleMediumRisk ApplyProfileWatch (inl (nice_token 3)) eq_refl _)).
  left; reflexivity.
Defined.
