(* ===== verification/RunnerLogic.v ===== *)
(** * A program logic for the audited action runner

    Specifications of the runner's operations from specifications of the action
    and of the hooks: [P0] holds until the apply, [PF] after an apply that failed
    without a token, [P1 b t] while the token [t] is issued and not rolled back
    ([b] once the after-apply hook succeeded), [P2 t] after its rollback and [P3]
    after the after-rollback hook. *)

From Stdlib Require Import String.
From S2P Require Import Prelude PolicyModel PolicyEval PolicySpec ActionModel ActionRunner.

Section logic.
Context {W : Type} (elapsed unix_nanos : W -> Z).

(** A specification of an operation on the system. *)
Definition iospec {A} (P : W -> Prop) (op : W -> A * W) (Q : A -> W -> Prop) : Prop :=
  forall w, P w -> Q (op w).1 (op w).2.

(** A specification of a step of the runner. *)
Definition wspec {A} (P : W -> Prop) (m : M (W := W) A) (Q : A -> W -> Prop) : Prop :=
  forall s, P (world s) -> Q (m s).1 (world (m s).2).

Lemma wspec_ret {A} (x : A) P (Q : A -> W -> Prop) : (forall w, P w -> Q x w) -> wspec P (ret x) Q.
Proof. intros H s. apply H. Qed.

Lemma wspec_bind {A B} (m : M A) (k : A -> M B) P R (Q : B -> W -> Prop) :
  wspec P m R -> (forall x, wspec (R x) (k x) Q) -> wspec P (bind m k) Q.
Proof.
  intros Hm Hk s Hp. unfold bind. specialize (Hm s Hp). destruct (m s) as [x s']. by apply Hk.
Qed.

Lemma wspec_try {A B} (m : M (A + ActionError)) (k : A -> M (B + ActionError)) P R
    (Q : B + ActionError -> W -> Prop) :
  wspec P m R -> (forall e w, R (inr e) w -> Q (inr e) w) -> (forall x, wspec (R (inl x)) (k x) Q) ->
  wspec P (try m k) Q.
Proof.
  intros Hm He Hk. eapply wspec_bind; [exact Hm|]. intros [x|e]; [apply Hk|]. by apply wspec_ret, He.
Qed.

Lemma wspec_call {A E} (op : io A E) (log : A + E -> Call) P Q :
  iospec P op Q -> wspec P (call op log) Q.
Proof. intros H s Hp. unfold call. specialize (H _ Hp). by destruct (op (world s)). Qed.

Lemma wspec_pre {A} (m : M A) (P P' : W -> Prop) Q : wspec P m Q -> (forall w, P' w -> P w) -> wspec P' m Q.
Proof. intros H HP s Hp. by apply H, HP. Qed.

Lemma wspec_post {A} (m : M A) (P : W -> Prop) (Q Q' : A -> W -> Prop) :
  wspec P m Q -> (forall x w, Q x w -> Q' x w) -> wspec P m Q'.
Proof. intros H HQ s Hp. by apply HQ, H. Qed.

(** Steps that leave the system alone. *)
Definition quiet {A} (m : M (W := W) A) : Prop := forall s, world (m s).2 = world s.

Lemma wspec_quiet {A B} (m : M A) (k : A -> M B) P Q :
  quiet m -> (forall x, wspec P (k x) Q) -> wspec P (bind m k) Q.
Proof.
  intros Hm Hk. eapply wspec_bind; [|exact Hk]. intros s Hp. by rewrite Hm.
Qed.

Lemma quiet_modify f : quiet (modify_event (W := W) f).
Proof. done. Qed.
Lemma quiet_append u : quiet (append_runner_audit_event unix_nanos u).
Proof. done. Qed.
Lemma quiet_audit p b n path c : quiet (audit unix_nanos p b n path c).
Proof. done. Qed.
Lemma quiet_audit_token p b t c : quiet (audit_token unix_nanos p b t c).
Proof. done. Qed.
Lemma quiet_event : quiet (get_event (W := W)).
Proof. done. Qed.
Lemma quiet_timeout d p : quiet (total_timeout_error elapsed d p).
Proof. done. Qed.
End logic.

Create HintDb runner.
#[export] Hint Resolve quiet_modify quiet_append quiet_audit quiet_audit_token quiet_event
  quiet_timeout : runner.

(** A step over a quiet prefix. *)
Ltac quietly := apply wspec_quiet; [by auto with runner | intros ?].

Section rules.
Context {W : Type} (elapsed unix_nanos : W -> Z) (command : string).
Context (action : TuningAction (W := W)) (rp : ActionRunPolicy) (hooks : ActionHooks (W := W)).
Context (P0 PF P3 : W -> Prop) (P1 : bool -> RollbackToken -> W -> Prop) (P2 : RollbackToken -> W -> Prop).

Class ActionSpec : Prop := {
  as_preflight : iospec P0 (preflight action) (fun _ => P0);
  as_dry_run : iospec P0 (dry_run action) (fun _ => P0);
  as_apply : iospec P0 (apply_with_prepared_rollback action (run_hook (after_prepare hooks)))
    (fun r => match r with
     | inl t => P1 false t
     | inr p => match pa_rollback p with Some t => P1 false t | None => PF end
     end);
  as_after_apply t : iospec (P1 false t) (run_hook (after_apply hooks) t)
    (fun r => match r with inl _ => P1 true t | inr _ => P1 false t end);
  as_verify t : iospec (P1 true t) (verify action) (fun _ => P1 true t);
  as_rollback b t : iospec (P1 b t) (rollback_with action t)
    (fun r => match r with inl _ => P2 t | inr _ => P1 b t end);
  as_after_rollback t : iospec (P2 t) (run_hook (after_rollback hooks) t)
    (fun r => match r with inl _ => P3 | inr _ => P2 t end);
}.
Context `{!ActionSpec}.

(** What a failed run leaves: the token rolled back, or an emergency. *)
Definition failed (e : ActionError) (w : W) : Prop :=
  P3 w \/ (exists t, P2 t w) \/ (error_phase e = PhEmergencyRollback /\ exists b t, P1 b t w).

Definition failed_result {A} (x : A + ActionError) (w : W) : Prop :=
  match x with inl _ => False | inr e => failed e w end.

(** Roll back, run the hook, report: the tail every failure shares. *)
Lemma rollback_tail {A} b t (k : unit + AnyError -> M (W := W) A) (Q : A -> W -> Prop) :
  wspec (fun w => P2 t w) (k (inl tt)) Q -> (forall u, wspec (P1 b t) (k (inr u)) Q) ->
  wspec (P1 b t) (bind (do_rollback action t) k) Q.
Proof.
  intros Hok Herr. eapply wspec_bind; [apply wspec_call, as_rollback|]. intros [[]|u]; [done|apply Herr].
Qed.

Lemma hook_tail {A} t (k : unit + AnyError -> M (W := W) A) (Q : A -> W -> Prop) :
  wspec P3 (k (inl tt)) Q -> (forall u, wspec (P2 t) (k (inr u)) Q) ->
  wspec (P2 t) (bind (run_after_rollback hooks t) k) Q.
Proof.
  intros Hok Herr. eapply wspec_bind; [apply wspec_call, as_after_rollback|]. intros [[]|u]; [done|apply Herr].
Qed.

Ltac roll_back :=
  apply rollback_tail; [apply hook_tail; [|intros ?]|intros ?];
  repeat quietly; apply wspec_ret; intros w Hw;
  first [left; exact Hw | right; left; eexists; exact Hw
        | right; right; split; [reflexivity|]; do 2 eexists; exact Hw].

Lemma rollback_after_timeout_spec b t phase elapsed_ms' timeout_ms' :
  wspec (P1 b t) (rollback_after_timeout unix_nanos action hooks t (err_timeout phase elapsed_ms' timeout_ms'))
    failed.
Proof. unfold rollback_after_timeout. simpl. roll_back. Qed.

Lemma rollback_after_hook_failure_spec b t :
  wspec (P1 b t) (rollback_after_apply_hook_failure unix_nanos action hooks t) failed.
Proof. unfold rollback_after_apply_hook_failure. roll_back. Qed.

Lemma timeout_rollback_spec {A} b t phase (k : M (W := W) (A + ActionError)) (Q : A -> W -> Prop) :
  wspec (P1 b t) k (fun x w => match x with inl y => Q y w | inr e => failed e w end) ->
  wspec (P1 b t) (timeout_rollback_or elapsed unix_nanos action rp hooks t phase k)
    (fun x w => match x with inl y => Q y w | inr e => failed e w end).
Proof.
  intros Hk. unfold timeout_rollback_or.
  eapply (wspec_bind _ _ _ (fun o w => P1 b t w /\
    match o with Some e => exists p x y, e = err_timeout p x y | None => True end)).
  { intros s Hp. split; [done|]. unfold total_timeout_error. simpl. repeat case_match; simplify_eq; eauto. }
  intros [e|].
  - apply wspec_quiet; [by auto with runner|intros _]. intros s [Hp (p & x & y & ->)]. revert s Hp.
    change (wspec (P1 b t) (bind (rollback_after_timeout unix_nanos action hooks t (err_timeout p x y))
      (fun e => ret (inr e))) (fun x w => match x with inl y => Q y w | inr e => failed e w end)).
    eapply wspec_bind; [apply rollback_after_timeout_spec|]. intros e. by apply wspec_ret.
  - eapply wspec_pre; [exact Hk|]. by intros w [].
Qed.

Lemma run_verify_spec t :
  wspec (P1 true t) (run_verify elapsed unix_nanos action rp hooks t)
    (fun x w => match x with inl _ => P1 true t w | inr e => failed e w end).
Proof.
  unfold run_verify. quietly. eapply wspec_bind; [apply wspec_call, as_verify|]. intros [state|u].
  - quietly. apply timeout_rollback_spec. by apply wspec_ret.
  - quietly. roll_back.
Qed.

Lemma handle_partial_apply_spec p :
  wspec match pa_rollback p with Some t => P1 false t | None => PF end
    (handle_partial_apply unix_nanos action hooks p) (fun e w => PF w \/ failed e w).
Proof.
  unfold handle_partial_apply. destruct (pa_rollback p) as [t|]; [|by apply wspec_ret; auto].
  apply (wspec_post _ _ failed); [|by auto]. quietly.
  eapply wspec_bind; [apply wspec_call, as_after_apply|].
  intros [[]|u]; [roll_back|apply rollback_after_hook_failure_spec].
Qed.

(** What a run leaves. *)
Definition run_leaves (r : AuditedActionResult + ActionError) (w : W) : Prop :=
  match r with
  | inl res => match res_rollback res with Some t => P1 true t w | None => P0 w end
  | inr e => P0 w \/ PF w \/ failed e w
  end.

Lemma run_apply_phase_spec :
  wspec P0 (run_apply_phase elapsed unix_nanos action rp hooks) run_leaves.
Proof.
  unfold run_apply_phase. quietly.
  apply (wspec_try _ _ _ (fun _ => P0)); [by apply wspec_ret|by left|]. intros _.
  eapply wspec_bind; [apply wspec_call, as_apply|]. intros [t|p].
  - quietly. eapply wspec_bind; [apply wspec_call, as_after_apply|]. intros [[]|u].
    + quietly. eapply wspec_post; [eapply (timeout_rollback_spec true t _ _
        (fun res w => res_rollback res = Some t /\ P1 true t w))|].
      * eapply wspec_try; [apply run_verify_spec|done|]. intros state. quietly. by apply wspec_ret.
      * intros [res|e] w; simpl; [intros [-> Hp]; exact Hp|by auto].
    + quietly. eapply wspec_bind; [apply rollback_after_hook_failure_spec|]. intros e.
      apply wspec_ret. simpl. auto.
  - eapply wspec_bind; [apply handle_partial_apply_spec|]. intros e. apply wspec_ret. by right.
Qed.

Lemma timeout_or_spec {A} phase (k : M (W := W) (A + ActionError)) (P : W -> Prop) (Q : A + ActionError -> W -> Prop) :
  (forall e w, P w -> Q (inr e) w) -> wspec P k Q -> wspec P (timeout_or elapsed rp phase k) Q.
Proof.
  intros He Hk. unfold timeout_or. quietly. case_match; [|done]. by apply wspec_ret, He.
Qed.

Lemma run_closure_spec : wspec P0 (run_closure elapsed unix_nanos action rp hooks) run_leaves.
Proof.
  unfold run_closure. apply (wspec_try _ _ _ (fun _ => P0)).
  - unfold run_preflight. quietly. eapply wspec_bind; [apply wspec_call, as_preflight|]. intros r.
    cbv zeta. case_match; [by apply wspec_ret|]. quietly. apply timeout_or_spec; [done|by apply wspec_ret].
  - by left.
  - intros ws. apply (wspec_try _ _ _ (fun _ => P0)); [|by left|].
    + unfold run_dry_run_phase. quietly. apply (wspec_try _ _ _ (fun _ => P0)); [by apply wspec_ret|done|].
      intros _. eapply wspec_bind; [apply wspec_call, as_dry_run|]. intros [state|u]; [|by apply wspec_ret].
      quietly. apply timeout_or_spec; [done|by apply wspec_ret].
    + intros state. case_match; [quietly; by apply wspec_ret|].
      repeat case_match; try apply run_apply_phase_spec. apply wspec_ret. by left.
Qed.

Lemma run_audited_action_spec :
  iospec P0 (fun w => (run_audited_action elapsed unix_nanos command action rp hooks w).1) run_leaves.
Proof.
  intros w Hw. unfold run_audited_action.
  assert (Hrun : wspec P0 (run_and_audit elapsed unix_nanos action rp hooks) run_leaves).
  { unfold run_and_audit. eapply wspec_bind; [apply run_closure_spec|]. intros r.
    apply wspec_quiet; [by destruct r|]. intros _. do 2 quietly. by apply wspec_ret. }
  specialize (Hrun {| world := w; trace := [];
    audit_event := initial_event command action rp (unix_nanos w) |} Hw).
  by destruct (run_and_audit _ _ _ _ _ _).
Qed.
End rules.
