(* ===== verification/Journal.v ===== *)
(** * Durable state: the controller journal and the kept-action ledger

    [stutter/src/autotune/controller_journal/model.rs] and
    [autotune/kept_ledger.rs].  A host is the disk the two files live on, the
    disks a crash could have left behind so far, the log of what it reported,
    and a count of the system calls made; the calls' outcomes are what the class
    [FileSystem] answers.  A replaced file is current at once, but until its
    directory is synced a crash may bring an earlier version back: [journal_old]
    and [ledger_old] hold those versions.  [undone] records the rollbacks that
    succeeded, a fact about the machine that no crash takes back.  JSON is not
    modelled: a file holds the value written to it, or something unreadable. *)

From Stdlib Require Import String.
From S2P Require Import Prelude PolicyModel PolicyEval ActionModel ActionRunner.

(** ** [controller_journal/model.rs]: records *)

Definition CONTROLLER_JOURNAL_SCHEMA_VERSION : Z := 1.

Inductive ControllerJournalState :=
| JClean | JPlanned | JPreflighted | JApplying | JApplied | JVerifying | JMeasuring | JKeeping
| JReverting | JReverted | JFaulted.

#[export] Instance ControllerJournalState_eq_dec : EqDecision ControllerJournalState.
Proof. solve_decision. Defined.

Definition ControllerJournalState_as_str (s : ControllerJournalState) : string :=
  match s with
  | JClean => "clean"
  | JPlanned => "planned"
  | JPreflighted => "preflighted"
  | JApplying => "applying"
  | JApplied => "applied"
  | JVerifying => "verifying"
  | JMeasuring => "measuring"
  | JKeeping => "keeping"
  | JReverting => "reverting"
  | JReverted => "reverted"
  | JFaulted => "faulted"
  end.

Record ControllerJournalRecord := {
  jr_schema_version : Z;
  jr_state : ControllerJournalState;
  jr_experiment_id : option string;
  jr_action_id : option string;
  jr_candidate : option string;
  jr_workload_identity : option string;
  jr_target_identity : option string;
  jr_restore_command : option string;
  jr_verify_result : option string;
  jr_mode : option DaemonMode;
  jr_safety_class : option SafetyClass;
  jr_rollback_token : option RollbackToken;
  jr_phase_started_unix_nanos : option Z;
  jr_updated_unix_nanos : option Z;
  jr_fault_reason : option string;
}.

Record ControllerJournalActionMetadata := {
  md_candidate : option string;
  md_workload_identity : option string;
  md_target_identity : option string;
  md_restore_command : option string;
  md_verify_result : option string;
  md_mode : option DaemonMode;
  md_safety_class : option SafetyClass;
}.

Definition with_verify_result (m : ControllerJournalActionMetadata) (v : string)
  : ControllerJournalActionMetadata := {|
  md_candidate := md_candidate m;
  md_workload_identity := md_workload_identity m;
  md_target_identity := md_target_identity m;
  md_restore_command := md_restore_command m;
  md_verify_result := Some v;
  md_mode := md_mode m;
  md_safety_class := md_safety_class m;
|}.

Definition clean : ControllerJournalRecord := {|
  jr_schema_version := CONTROLLER_JOURNAL_SCHEMA_VERSION;
  jr_state := JClean;
  jr_experiment_id := None; jr_action_id := None; jr_candidate := None;
  jr_workload_identity := None; jr_target_identity := None; jr_restore_command := None;
  jr_verify_result := None; jr_mode := None; jr_safety_class := None; jr_rollback_token := None;
  jr_phase_started_unix_nanos := None; jr_updated_unix_nanos := None; jr_fault_reason := None;
|}.

(** [started] and [updated] are two readings of the wall clock. *)
Definition for_phase (state : ControllerJournalState) (experiment_id action_id : string)
    (rollback_token : option RollbackToken) (started updated : Z) : ControllerJournalRecord := {|
  jr_schema_version := CONTROLLER_JOURNAL_SCHEMA_VERSION;
  jr_state := state;
  jr_experiment_id := Some experiment_id; jr_action_id := Some action_id; jr_candidate := None;
  jr_workload_identity := None; jr_target_identity := None; jr_restore_command := None;
  jr_verify_result := None; jr_mode := None; jr_safety_class := None;
  jr_rollback_token := rollback_token;
  jr_phase_started_unix_nanos := Some started; jr_updated_unix_nanos := Some updated;
  jr_fault_reason := None;
|}.

Definition or_else {A} (new old : option A) : option A :=
  match new with Some _ => new | None => old end.

Definition with_metadata (r : ControllerJournalRecord) (m : ControllerJournalActionMetadata)
  : ControllerJournalRecord := {|
  jr_schema_version := jr_schema_version r;
  jr_state := jr_state r;
  jr_experiment_id := jr_experiment_id r;
  jr_action_id := jr_action_id r;
  jr_candidate := or_else (md_candidate m) (jr_candidate r);
  jr_workload_identity := or_else (md_workload_identity m) (jr_workload_identity r);
  jr_target_identity := or_else (md_target_identity m) (jr_target_identity r);
  jr_restore_command := or_else (md_restore_command m) (jr_restore_command r);
  jr_verify_result := or_else (md_verify_result m) (jr_verify_result r);
  jr_mode := or_else (md_mode m) (jr_mode r);
  jr_safety_class := or_else (md_safety_class m) (jr_safety_class r);
  jr_rollback_token := jr_rollback_token r;
  jr_phase_started_unix_nanos := jr_phase_started_unix_nanos r;
  jr_updated_unix_nanos := jr_updated_unix_nanos r;
  jr_fault_reason := jr_fault_reason r;
|}.

(** The ids of a record are absent or not blank. *)
Definition validate_identity_strings (r : ControllerJournalRecord) : bool :=
  match jr_experiment_id r with Some id => negb (trim_is_empty id) | None => true end &&
  match jr_action_id r with Some id => negb (trim_is_empty id) | None => true end.

Definition may_have_mutated_system (r : ControllerJournalRecord) : bool :=
  match jr_state r with
  | JApplying | JApplied | JVerifying | JMeasuring | JKeeping | JReverting | JFaulted => true
  | JClean | JPlanned | JPreflighted | JReverted => false
  end.

(** ** [kept_ledger.rs]: entries *)

Definition KEPT_LEDGER_SCHEMA_VERSION : Z := 1.

Record KeptLedgerEntry := {
  kl_experiment_id : string;
  kl_action_id : string;
  kl_candidate : string;
  kl_rollback_token : RollbackToken;
  kl_mode : option DaemonMode;
  kl_safety_class : option SafetyClass;
  kl_kept_unix_nanos : Z;
}.

Record KeptLedger := { kl_schema_version : Z; kl_entries : list KeptLedgerEntry }.

Definition KeptLedger_default : KeptLedger :=
  {| kl_schema_version := KEPT_LEDGER_SCHEMA_VERSION; kl_entries := [] |}.

(** [Vec::retain] over the experiment id. *)
Definition retain_other (experiment_id : string) (entries : list KeptLedgerEntry) : list KeptLedgerEntry :=
  List.filter (fun e => negb (String.eqb (kl_experiment_id e) experiment_id)) entries.

(** ** What the controller reports *)

(** [autotune/state.rs] *)
Inductive ControllerPhase :=
| CpDisabled | CpObserving | CpPlanning | CpApplying | CpMeasuring | CpKeeping | CpReverting
| CpCooldown | CpFaulted.

#[export] Instance ControllerPhase_eq_dec : EqDecision ControllerPhase.
Proof. solve_decision. Defined.

(** [daemon/state.rs] *)
Inductive DaemonPhase :=
| DpDisabled | DpInit | DpRecover | DpPaused | DpObserve | DpDecide | DpApply | DpMeasure | DpKeep
| DpRollback | DpCooldown | DpFaulted | DpShutdown.

(** The history event of a restore, [AutotuneHistoryEvent] with the fields its
    writers set. *)
Record RestoreHistoryEvent := {
  rh_phase : ControllerPhase;
  rh_decision : string;
  rh_candidate_name : option string;
  rh_action_kind : string;
  rh_safety_class : SafetyClass;
  rh_experiment_id : string;
  rh_action_id : string;
  rh_rollback_performed : bool;
}.

(** [StartupRecoveryDaemonStateInput], what the daemon state snapshot is built from. *)
Record StartupRecoveryDaemonStateInput := {
  ds_phase : DaemonPhase;
  ds_decision : string;
  ds_experiment_id : string;
  ds_action_id : string;
  ds_rollback_token : option RollbackToken;
  ds_rollback_available : bool;
  ds_include_active_experiment : bool;
  ds_faulted : bool;
}.

Inductive Report :=
| RepAudit (e : AuditEvent)
| RepHistory (e : RestoreHistoryEvent)
| RepSnapshot (s : StartupRecoveryDaemonStateInput).

(** ** The host *)

Inductive File (A : Type) := Missing | Corrupt | Holds (a : A).
Arguments Missing {A}.
Arguments Corrupt {A}.
Arguments Holds {A} a.

(** The cells a running [apply_journaled_action] keeps; a crash loses them. *)
Record TransactionLocals := { tx_rollback : option RollbackToken; tx_rollback_completed : bool }.

Section host.
Context {S : Type}.

Record Disk := {
  journal : File ControllerJournalRecord;
  journal_old : list (File ControllerJournalRecord);
  ledger : File KeptLedger;
  ledger_old : list (File KeptLedger);
  sys : S;
  undone : list RollbackToken;
}.

(** What a crash leaves: one version of each file, the machine as it is. *)
Inductive crashed (d : Disk) : Disk -> Prop :=
| crashed_intro j l :
    j ∈ journal d :: journal_old d -> l ∈ ledger d :: ledger_old d ->
    crashed d {| journal := j; journal_old := []; ledger := l; ledger_old := [];
                 sys := sys d; undone := undone d |}.

Record Host := {
  disk : Disk; past : list Disk; reports : list Report; calls : nat; locals : TransactionLocals }.

(** The disks a crash can find, now or at an earlier point. *)
Definition crash_points (h : Host) : list Disk := disk h :: past h.

(** ** System calls *)

Inductive FsFile := FJournal | FLedger | FAudit | FHistory | FSnapshot.
Inductive FsOp :=
| OpStat | OpOpen | OpMkdir | OpCreate | OpSerialize | OpWrite | OpSync | OpRename | OpSyncDir
| OpRemove | OpAppend.
Inductive FsResult := FsOk | FsAlreadyExists | FsNotFound | FsError.

Class FileSystem := {
  fs_result : FsFile -> FsOp -> Host -> FsResult;
  unix_nanos_now : Host -> Z;
}.
Context {FS : FileSystem}.

Definition HM (A : Type) := Host -> A * Host.
Definition hret {A} (x : A) : HM A := fun h => (x, h).
Definition hbind {A B} (m : HM A) (k : A -> HM B) : HM B := fun h => let '(x, h') := m h in k x h'.
(** The [?] operator. *)
Definition htry {A B} (m : HM (A + AnyError)) (k : A -> HM (B + AnyError)) : HM (B + AnyError) :=
  hbind m (fun r => match r with inl x => k x | inr e => hret (inr e) end).

Definition tick (h : Host) : Host := 
  {| disk := disk h; past := past h; reports := reports h; calls := Nat.succ (calls h);
     locals := locals h |}.
(** Every change of the disk keeps the disk before it as a crash point. *)
Definition change (f : Disk -> Disk) (h : Host) : Host :=
  {| disk := f (disk h); past := disk h :: past h; reports := reports h; calls := calls h;
     locals := locals h |}.

Definition syscall (f : FsFile) (op : FsOp) : HM FsResult := fun h => (fs_result f op h, tick h).
Definition io_error : AnyError := EOther "io".
Definition sys_ok (f : FsFile) (op : FsOp) : HM (unit + AnyError) :=
  hbind (syscall f op) (fun r => hret match r with FsOk => inl tt | _ => inr io_error end).
Definition get_disk {A} (f : Disk -> A) : HM A := fun h => (f (disk h), h).
Definition set_disk (f : Disk -> Disk) : HM unit := fun h => (tt, change f h).
Definition now : HM Z := fun h => (unix_nanos_now h, h).
Definition add_report (r : Report) : HM unit := fun h =>
  (tt, {| disk := disk h; past := past h; reports := reports h ++ [r]; calls := calls h;
        locals := locals h |}).
Definition set_locals (f : TransactionLocals -> TransactionLocals) : HM unit := fun h =>
  (tt, {| disk := disk h; past := past h; reports := reports h; calls := calls h;
          locals := f (locals h) |}).
Definition get_locals : HM TransactionLocals := fun h => (locals h, h).
End host.

Arguments Disk : clear implicits.
Arguments Host : clear implicits.
Arguments FileSystem : clear implicits.
Arguments HM S : clear implicits.

Declare Scope host_scope.
Delimit Scope host_scope with host.
Notation "'let*' x := m 'in' k" := (hbind m (fun x => k))
  (at level 10, x pattern, m at level 100, k at level 200) : host_scope.
Notation "'let?' x := m 'in' k" := (htry m (fun x => k))
  (at level 10, x pattern, m at level 100, k at level 200) : host_scope.
Open Scope host_scope.

(** ** File operations *)

Section files.
Context {S : Type} {FS : FileSystem S}.
Implicit Types h : Host S.

(** [Path::exists]: an error of the stat also reads as absent. *)
Definition exists_file {A} (f : FsFile) (contents : Disk S -> File A) : HM S bool :=
  let* r := syscall f OpStat in
  let* c := get_disk contents in
  hret match c, r with Missing, _ => false | _, FsOk => true | _, _ => false end.

Definition install_journal (r : ControllerJournalRecord) (d : Disk S) : Disk S := {|
  journal := Holds r; journal_old := journal d :: journal_old d;
  ledger := ledger d; ledger_old := ledger_old d; sys := sys d; undone := undone d |}.
Definition sync_journal (d : Disk S) : Disk S := {|
  journal := journal d; journal_old := [];
  ledger := ledger d; ledger_old := ledger_old d; sys := sys d; undone := undone d |}.
Definition install_ledger (l : File KeptLedger) (d : Disk S) : Disk S := {|
  journal := journal d; journal_old := journal_old d;
  ledger := l; ledger_old := ledger d :: ledger_old d; sys := sys d; undone := undone d |}.
Definition sync_ledger (d : Disk S) : Disk S := {|
  journal := journal d; journal_old := journal_old d;
  ledger := ledger d; ledger_old := []; sys := sys d; undone := undone d |}.

(** A call that changes the disk when it succeeds. *)
Definition sys_change (f : FsFile) (op : FsOp) (g : Disk S -> Disk S) : HM S (unit + AnyError) :=
  let? _ := sys_ok f op in let* _ := set_disk g in hret (inl tt).

(** [fs::rename] of the synced temporary file, then a sync of the directory. *)
Definition replace_file (f : FsFile) (install sync : Disk S -> Disk S) : HM S (unit + AnyError) :=
  let? _ := sys_change f OpRename install in
  let? _ := sys_ok f OpOpen in
  sys_change f OpSyncDir sync.

Fixpoint create_unique_journal_temp_file (attempts : nat) : HM S (unit + AnyError) :=
  match attempts with
  | O => hret (inr io_error)
  | Datatypes.S n =>
      let* r := syscall FJournal OpCreate in
      match r with
      | FsOk => hret (inl tt)
      | FsAlreadyExists => create_unique_journal_temp_file n
      | FsNotFound | FsError => hret (inr io_error)
      end
  end.

Definition write_controller_journal_record (r : ControllerJournalRecord) : HM S (unit + AnyError) :=
  let? _ := sys_ok FJournal OpMkdir in
  let? _ := create_unique_journal_temp_file 16 in
  let? _ := sys_ok FJournal OpSerialize in
  let? _ := sys_ok FJournal OpWrite in
  let? _ := sys_ok FJournal OpSync in
  replace_file FJournal (install_journal r) sync_journal.

Definition read_controller_journal : HM S (ControllerJournalRecord + AnyError) :=
  let* present := exists_file FJournal journal in
  if negb present then hret (inl clean) else
  let? _ := sys_ok FJournal OpOpen in
  let* c := get_disk journal in
  match c with
  | Holds r =>
      if negb (validate_identity_strings r) then hret (inr io_error)
      else if negb (jr_schema_version r =? CONTROLLER_JOURNAL_SCHEMA_VERSION)
      then hret (inr io_error)
      else hret (inl r)
  | Missing | Corrupt => hret (inr io_error)
  end.

Definition write_controller_journal_phase_with_metadata (state : ControllerJournalState)
    (experiment_id action_id : string) (token : option RollbackToken)
    (metadata : ControllerJournalActionMetadata) : HM S (unit + AnyError) :=
  let* started := now in
  let* updated := now in
  write_controller_journal_record
    (with_metadata (for_phase state experiment_id action_id token started updated) metadata).

Definition write_controller_journal_applying_with_metadata (experiment_id action_id : string)
    (metadata : ControllerJournalActionMetadata) : HM S (unit + AnyError) :=
  write_controller_journal_phase_with_metadata JApplying experiment_id action_id None metadata.

Definition write_controller_journal_applied_with_metadata (experiment_id action_id : string)
    (token : RollbackToken) (metadata : ControllerJournalActionMetadata) : HM S (unit + AnyError) :=
  write_controller_journal_phase_with_metadata JApplied experiment_id action_id (Some token) metadata.

Definition write_controller_journal_clean : HM S (unit + AnyError) :=
  write_controller_journal_record clean.

Definition read_kept_ledger : HM S (KeptLedger + AnyError) :=
  let* present := exists_file FLedger ledger in
  if negb present then hret (inl KeptLedger_default) else
  let? _ := sys_ok FLedger OpOpen in
  let* c := get_disk ledger in
  match c with
  | Holds l =>
      if negb (kl_schema_version l =? KEPT_LEDGER_SCHEMA_VERSION) then hret (inr io_error)
      else hret (inl l)
  | Missing | Corrupt => hret (inr io_error)
  end.

Definition write_kept_ledger (l : KeptLedger) : HM S (unit + AnyError) :=
  let? _ := sys_ok FLedger OpMkdir in
  let? _ := sys_ok FLedger OpCreate in
  let? _ := sys_ok FLedger OpSerialize in
  let? _ := sys_ok FLedger OpWrite in
  let? _ := sys_ok FLedger OpSync in
  replace_file FLedger (install_ledger (Holds l)) sync_ledger.

Definition with_entries (l : KeptLedger) (entries : list KeptLedgerEntry) : KeptLedger :=
  {| kl_schema_version := kl_schema_version l; kl_entries := entries |}.

Definition record_kept (entry : KeptLedgerEntry) : HM S (unit + AnyError) :=
  let? l := read_kept_ledger in
  write_kept_ledger
    (with_entries l (retain_other (kl_experiment_id entry) (kl_entries l) ++ [entry])).

Definition retire_kept (experiment_id : string) : HM S (unit + AnyError) :=
  let? l := read_kept_ledger in
  let entries := retain_other experiment_id (kl_entries l) in
  if (length entries =? length (kl_entries l))%nat then hret (inl tt) else
  match entries with
  | [] =>
      let* r := syscall FLedger OpRemove in
      match r with
      | FsOk | FsNotFound =>
          let* _ := match r with
                    | FsOk => set_disk (install_ledger Missing)
                    | _ => hret tt
                    end in
          let? _ := sys_ok FLedger OpOpen in
          sys_change FLedger OpSyncDir sync_ledger
      | FsAlreadyExists | FsError => hret (inr io_error)
      end
  | _ => write_kept_ledger (with_entries l entries)
  end.
End files.

(** ** Specifications of host programs *)

Lemma Forall_elem {A} (P : A -> Prop) l x : Forall P l -> x ∈ l -> P x.
Proof. intros H Hx. rewrite List.Forall_forall in H. by apply H, list_elem_of_In. Qed.

Section specs.
Context {S : Type} {FS : FileSystem S}.

Definition hspec {A} (P : Host S -> Prop) (m : HM S A) (Q : A -> Host S -> Prop) : Prop :=
  forall h, P h -> Q (m h).1 (m h).2.

Lemma hspec_ret {A} (x : A) (P : Host S -> Prop) (Q : A -> Host S -> Prop) :
  (forall h, P h -> Q x h) -> hspec P (hret x) Q.
Proof. intros H h Hp. by apply H. Qed.

Lemma hspec_bind {A B} (m : HM S A) (k : A -> HM S B) P (R : A -> Host S -> Prop) Q :
  hspec P m R -> (forall x, hspec (R x) (k x) Q) -> hspec P (hbind m k) Q.
Proof.
  intros Hm Hk h Hp. unfold hbind. specialize (Hm h Hp).
  destruct (m h) as [x h']. by apply Hk.
Qed.

Lemma hspec_try {A B} (m : HM S (A + AnyError)) (k : A -> HM S (B + AnyError)) P
    (R : A + AnyError -> Host S -> Prop) (Q : B + AnyError -> Host S -> Prop) :
  hspec P m R -> (forall e h, R (inr e) h -> Q (inr e) h) ->
  (forall x, hspec (R (inl x)) (k x) Q) -> hspec P (htry m k) Q.
Proof.
  intros Hm He Hk. eapply hspec_bind; [exact Hm|]. intros [x|e]; [apply Hk|].
  apply hspec_ret. intros h. apply He.
Qed.

Lemma hspec_conseq {A} (m : HM S A) (P P' : Host S -> Prop) (Q Q' : A -> Host S -> Prop) :
  hspec P m Q -> (forall h, P' h -> P h) -> (forall x h, Q x h -> Q' x h) -> hspec P' m Q'.
Proof. intros Hm HP HQ h Hp. by apply HQ, Hm, HP. Qed.

Lemma hspec_pre {A} (m : HM S A) (P P' : Host S -> Prop) (Q : A -> Host S -> Prop) :
  hspec P m Q -> (forall h, P' h -> P h) -> hspec P' m Q.
Proof. intros Hm HP h Hp. by apply Hm, HP. Qed.

Lemma hspec_post {A} (m : HM S A) (P : Host S -> Prop) (Q Q' : A -> Host S -> Prop) :
  hspec P m Q -> (forall x h, Q x h -> Q' x h) -> hspec P m Q'.
Proof. intros Hm HQ h Hp. by apply HQ, Hm. Qed.

(** Two specifications of one program. *)
Lemma hspec_and {A} (m : HM S A) (P : Host S -> Prop) (Q1 Q2 : A -> Host S -> Prop) :
  hspec P m Q1 -> hspec P m Q2 -> hspec P m (fun x h => Q1 x h /\ Q2 x h).
Proof. intros H1 H2 h Hp. split; [by apply H1 | by apply H2]. Qed.

Lemma hspec_or {A} (m : HM S A) (P1 P2 : Host S -> Prop) (Q : A -> Host S -> Prop) :
  hspec P1 m Q -> hspec P2 m Q -> hspec (fun h => P1 h \/ P2 h) m Q.
Proof. intros H1 H2 h [Hp|Hp]; [by apply H1 | by apply H2]. Qed.

(** A property that only depends on the disks a crash can find. *)
Definition disks_only (P : Host S -> Prop) : Prop :=
  forall h h', crash_points h' = crash_points h -> P h -> P h'.

Lemma disks_only_Forall (I : Disk S -> Prop) : disks_only (fun h => Forall I (crash_points h)).
Proof. intros h h' E H. by rewrite E. Qed.

Lemma disks_only_disk (I : Disk S -> Prop) : disks_only (fun h => I (disk h)).
Proof. intros h h' E H. unfold crash_points in E. by injection E as -> _. Qed.

Lemma disks_only_and P Q : disks_only P -> disks_only Q -> disks_only (fun h => P h /\ Q h).
Proof. intros HP HQ h h' E [H1 H2]. split; [by eapply HP | by eapply HQ]. Qed.

Lemma hspec_syscall P f op : disks_only P -> hspec P (syscall f op) (fun _ => P).
Proof. intros HP h Hp. apply (HP h); [reflexivity | exact Hp]. Qed.

Lemma hspec_sys_ok P f op : disks_only P -> hspec P (sys_ok f op) (fun _ => P).
Proof.
  intros HP. eapply hspec_bind; [by apply hspec_syscall|]. intros r. by apply hspec_ret.
Qed.

Lemma hspec_get {A} P (f : Disk S -> A) : hspec P (get_disk f) (fun x h => P h /\ x = f (disk h)).
Proof. intros h Hp. by split. Qed.

Lemma hspec_now P : disks_only P -> hspec P now (fun _ => P).
Proof. intros HP h Hp. done. Qed.

Lemma hspec_set_locals P f : disks_only P -> hspec P (set_locals f) (fun _ => P).
Proof. intros HP h Hp. apply (HP h); [reflexivity | exact Hp]. Qed.

Lemma hspec_get_locals P : hspec P (get_locals (S := S)) (fun _ => P).
Proof. by intros h Hp. Qed.

Lemma hspec_add_report P r : disks_only P -> hspec P (add_report r) (fun _ => P).
Proof. intros HP h Hp. apply (HP h); [reflexivity | exact Hp]. Qed.

(** The stat before a read tells a missing file from one that is there. *)
Class StatReliable : Prop := stat_reliable f (h : Host S) : fs_result f OpStat h = FsOk.

Lemma hspec_exists {A} P f (c : Disk S -> File A) :
  disks_only P ->
  hspec P (exists_file f c) (fun x h => P h /\ (x = false -> StatReliable -> c (disk h) = Missing)).
Proof.
  intros HP h Hp. split; [by apply (HP h)|]. simpl. intros Hx Hs. rewrite (Hs f h) in Hx.
  by destruct (c (disk h)).
Qed.

(** A change of the disk from [d] to [g d] adds the crash point [g d]. *)
Lemma hspec_set (I : Disk S -> Prop) (P : Disk S -> Prop) g :
  (forall d, P d -> I d -> I (g d)) ->
  hspec (fun h => Forall I (crash_points h) /\ P (disk h)) (set_disk g)
    (fun _ h => Forall I (crash_points h) /\ exists d, disk h = g d /\ P d /\ I d).
Proof.
  intros HI h [Hall Hp]. simpl. pose proof (Forall_inv Hall) as Hd.
  split; [|by exists (disk h)]. constructor; [by apply HI|exact Hall].
Qed.
End specs.

#[export] Hint Resolve disks_only_Forall disks_only_disk disks_only_and : stutter.

(** ** What the file operations do to the disk

    [I] holds at every crash point, [P] of the disk before the operation. *)

Section file_specs.
Context {S : Type} {FS : FileSystem S}.
Implicit Types (I P : Disk S -> Prop).

Definition at_disk I P (h : Host S) : Prop := Forall I (crash_points h) /\ P (disk h).

Lemma at_disk_only I P : disks_only (at_disk I P).
Proof. apply disks_only_and; [apply disks_only_Forall | apply disks_only_disk]. Qed.
Hint Resolve at_disk_only : stutter.

Lemma hspec_set_at I P g :
  (forall d, P d -> I d -> I (g d)) ->
  hspec (at_disk I P) (set_disk g) (fun _ => at_disk I (fun d' => exists d, d' = g d /\ P d /\ I d)).
Proof. intros HI. by apply hspec_set. Qed.

Lemma hspec_sys_change I P f op g :
  (forall d, P d -> I d -> I (g d)) ->
  hspec (at_disk I P) (sys_change f op g)
    (fun x => at_disk I (fun d' => exists d, P d /\ I d /\ d' = match x with inl _ => g d | inr _ => d end)).
Proof.
  intros HI. eapply hspec_try; [by apply hspec_sys_ok, at_disk_only| |].
  - intros e h [Hall Hp]. split; [done|]. exists (disk h). repeat split; [done|]. by apply Forall_inv in Hall.
  - intros []. eapply hspec_bind; [by apply hspec_set_at|]. intros []. apply hspec_ret.
    intros h [Hall (d & E & Hp & Hi)]. split; [done|]. by exists d.
Qed.

Lemma hspec_create_temp I P n :
  hspec (at_disk I P) (create_unique_journal_temp_file n) (fun _ => at_disk I P).
Proof.
  induction n as [|n IH]; simpl; [by apply hspec_ret|].
  eapply hspec_bind; [by apply hspec_syscall, at_disk_only|].
  intros []; try done; by apply hspec_ret.
Qed.

(** What a replacement leaves: the new version, or on an error possibly the old. *)
Definition replaced I P (install sync : Disk S -> Disk S) (x : unit + AnyError) (d' : Disk S) : Prop :=
  exists d, P d /\ I d /\
    match x with inl _ => d' = sync (install d) | inr _ => d' = d \/ d' = install d end.

Lemma hspec_replace_file I P f install sync :
  (forall d, P d -> I d -> I (install d)) ->
  (forall d, P d -> I d -> I (sync (install d))) ->
  hspec (at_disk I P) (replace_file f install sync) (fun x => at_disk I (replaced I P install sync x)).
Proof.
  intros H1 H2. eapply hspec_try; [by apply hspec_sys_change| |].
  { intros e h [Hall (d & Hp & Hi & E)]. split; [done|]. exists d. auto. }
  intros []. eapply hspec_try; [by apply hspec_sys_ok, at_disk_only| |].
  { intros e h [Hall (d & Hp & Hi & E)]. split; [done|]. exists d. auto. }
  intros []. eapply hspec_conseq;
    [apply (hspec_sys_change I (fun d' => exists d, P d /\ I d /\ d' = install d))| |].
  - intros d' (d & Hp & Hi & ->) _. by apply H2.
  - intros h Hh. exact Hh.
  - intros [[]|e] h [Hall (d' & (d & Hp & Hi & E') & _ & E)]; (split; [done|]); exists d; subst; auto.
Qed.

Lemma unreplaced I P install sync e h : at_disk I P h -> at_disk I (replaced I P install sync (inr e)) h.
Proof.
  intros [Hall Hp]. split; [done|]. exists (disk h). repeat split; [done| |by left].
  by apply Forall_inv in Hall.
Qed.

(** The steps of a write before the rename only touch the temporary file. *)
Ltac quiet_write :=
  repeat (eapply hspec_try;
    [first [by apply hspec_sys_ok, at_disk_only | by apply hspec_create_temp]
    | intros ? ?; apply unreplaced | intros []]).

Lemma hspec_write_journal I P r :
  (forall d, P d -> I d -> I (install_journal r d)) ->
  (forall d, P d -> I d -> I (sync_journal (install_journal r d))) ->
  hspec (at_disk I P) (write_controller_journal_record r)
    (fun x => at_disk I (replaced I P (install_journal r) sync_journal x)).
Proof. intros H1 H2. unfold write_controller_journal_record. quiet_write. by apply hspec_replace_file. Qed.

Lemma hspec_write_ledger I P l :
  (forall d, P d -> I d -> I (install_ledger (Holds l) d)) ->
  (forall d, P d -> I d -> I (sync_ledger (install_ledger (Holds l) d))) ->
  hspec (at_disk I P) (write_kept_ledger l)
    (fun x => at_disk I (replaced I P (install_ledger (Holds l)) sync_ledger x)).
Proof. intros H1 H2. unfold write_kept_ledger. quiet_write. by apply hspec_replace_file. Qed.

(** A read returns what the file holds, or what a missing file stands for. *)
Lemma hspec_read_journal (R : Host S -> Prop) :
  disks_only R ->
  hspec R read_controller_journal
    (fun x h => R h /\ match x with
       | inl r => journal (disk h) = Holds r \/
                  r = clean /\ (StatReliable (FS := FS) -> journal (disk h) = Missing)
       | inr _ => True end).
Proof.
  intros HR. eapply hspec_bind; [by apply hspec_exists|]. intros []; simpl.
  2: { apply hspec_ret. intros h [Hh Hm]. auto. }
  eapply hspec_pre; [|by intros h [Hh _]; exact Hh]. eapply hspec_try; [by apply hspec_sys_ok|auto|].
  intros []. eapply hspec_bind; [apply hspec_get|].
  intros [| |r]; try (apply hspec_ret; intros h [Hh _]; by auto).
  repeat case_match; apply hspec_ret; intros h [Hh E]; auto.
Qed.

Lemma hspec_read_ledger (R : Host S -> Prop) :
  disks_only R ->
  hspec R read_kept_ledger
    (fun x h => R h /\
       match x with
       | inl l => ledger (disk h) = Holds l \/
                  l = KeptLedger_default /\ (StatReliable (FS := FS) -> ledger (disk h) = Missing)
       | inr _ => True end).
Proof.
  intros HR. eapply hspec_bind; [by apply hspec_exists|]. intros []; simpl.
  2: { apply hspec_ret. intros h [Hh Hm]. auto. }
  eapply hspec_pre; [|by intros h [Hh _]; exact Hh]. eapply hspec_try; [by apply hspec_sys_ok|auto|].
  intros []. eapply hspec_bind; [apply hspec_get|].
  intros [| |r]; try (apply hspec_ret; intros h [Hh _]; by auto).
  repeat case_match; apply hspec_ret; intros h [Hh E]; auto.
Qed.
End file_specs.

#[export] Hint Resolve at_disk_only : stutter.
