(* ===== verification/Recovery.v ===== *)
(** * Startup recovery

    [stutter/src/autotune/startup_recovery.rs], [startup_recovery/{ledger,gate}.rs]
    and [actions/rollback/recovery.rs].  The executor that restores a token is a
    parameter, as it is a trait in the source; [Executor] has the one the daemon
    uses.  Manual restore commands and messages are texts for people and not
    modelled.  [durable] and [covered] say that a token survives a crash. *)

From Stdlib Require Import String Ascii.
From S2P Require Import Prelude PolicyModel PolicyEval ActionModel ActionRunner Journal.

(** ** [actions/rollback/recovery.rs] *)

Inductive AutomaticRecoveryCapability := VerifiedAutomatic | ManualOnly | NotRecoverable.

Definition automatic_recovery (t : RollbackToken) : AutomaticRecoveryCapability :=
  match t with
  | CpuAffinityRestoreFile _ _ => VerifiedAutomatic
  | NiceRestore _ => VerifiedAutomatic
  | IoPrioRestore _ => ManualOnly
  | UclampRestore _ => VerifiedAutomatic
  | CgroupRestore _ _ => VerifiedAutomatic
  | IrqAffinityRestore _ => ManualOnly
  | CpuPowerRestore _ => VerifiedAutomatic
  | GpuPowerRestore _ => ManualOnly
  | VmKnobRestore _ => ManualOnly
  | SysfsRestore _ _ => NotRecoverable
  end.

Definition require_automatic_recovery (t : RollbackToken) : unit + AnyError :=
  match automatic_recovery t with
  | VerifiedAutomatic => inl tt
  | ManualOnly | NotRecoverable => inr (EOther "startup_recovery_not_authorized")
  end.

(** ** Texts recovery computes with *)

(** [str::split_once(':')] *)
Fixpoint split_colon (s : string) : option (string * string) :=
  match s with
  | EmptyString => None
  | String c s' =>
      if Ascii.eqb c ":" then Some (EmptyString, s')
      else match split_colon s' with Some (a, b) => Some (String c a, b) | None => None end
  end.

Fixpoint dashes_to_underscores (s : string) : string :=
  match s with
  | EmptyString => EmptyString
  | String c s' => String (if Ascii.eqb c "-" then "_" else c) (dashes_to_underscores s')
  end.

Definition action_kind_from_action_id (action_id : string) : string :=
  dashes_to_underscores
    match split_colon action_id with Some (kind, _) => kind | None => action_id end.

Definition candidate_name_from_action_id (action_id : string) : option string :=
  match split_colon action_id with
  | Some (_, candidate) => if trim_is_empty candidate then None else Some candidate
  | None => None
  end.

(** [daemon/state_builders.rs] *)
Definition safety_class_for_rollback_token (t : RollbackToken) : SafetyClass :=
  match t with
  | CpuAffinityRestoreFile _ _ => ReversibleLowRisk
  | NiceRestore _ | IoPrioRestore _ | UclampRestore _ | IrqAffinityRestore _ | CgroupRestore _ _ =>
      ReversibleMediumRisk
  | CpuPowerRestore _ | VmKnobRestore _ | GpuPowerRestore _ | SysfsRestore _ _ => HighRisk
  end.

(** ** [startup_recovery.rs] *)

Inductive StartupRecoveryOutcome :=
| SrClean
| SrApplyingWithoutRollback (experiment_id action_id : string)
| SrRollbackDisabled (experiment_id action_id : string)
| SrRecovered (experiment_id action_id : string) (affected_tasks : nat)
| SrFaulted (experiment_id action_id : string).

Definition is_faulted (o : StartupRecoveryOutcome) : bool :=
  match o with SrFaulted _ _ => true | _ => false end.

Inductive RecoverySource := SourceJournal | SourceLedger.

Definition journal_experiment_action (r : ControllerJournalRecord) : string * string :=
  let state := ControllerJournalState_as_str (jr_state r) in
  (default (state +:+ "-unknown-experiment")%string (jr_experiment_id r),
   default (state +:+ "-unknown-action")%string (jr_action_id r)).

Definition names_token (r : ControllerJournalRecord) (t : RollbackToken) : bool :=
  bool_decide (jr_rollback_token r = Some t).

Section recovery.
Context {S : Type} {FS : FileSystem S}.
Implicit Types h : Host S.

(** [StartupRecoveryRollbackExecutor]: the affected tasks of a restore. *)
Context (executor : RollbackToken -> HM S (nat + AnyError)).

Definition record_undone (t : RollbackToken) (d : Disk S) : Disk S := {|
  journal := journal d; journal_old := journal_old d; ledger := ledger d;
  ledger_old := ledger_old d; sys := sys d; undone := t :: undone d |}.

(** A dispatch to the executor; its success is recorded in [undone]. *)
Definition dispatch (t : RollbackToken) : HM S (nat + AnyError) :=
  let* r := executor t in
  match r with
  | inl n => let* _ := set_disk (record_undone t) in hret (inl n)
  | inr e => hret (inr e)
  end.

Definition append_report (f : FsFile) (r : Report) : HM S (unit + AnyError) :=
  let? _ := sys_ok f OpAppend in let* _ := add_report r in hret (inl tt).

Definition write_startup_recovery_audit_event (action_id : string) (t : RollbackToken)
    (success : bool) (affected : nat) : HM S (unit + AnyError) :=
  let* n := now in
  append_report FAudit (RepAudit {|
    schema_version := 1; ev_unix_nanos := n; ev_command := "autotune-startup-recovery";
    ev_action_id := Some action_id;
    ev_safety_class := Some (safety_class_for_rollback_token t); ev_dry_run := false;
    ev_success := success; ev_affected_tasks := affected;
    ev_restore_path := token_restore_path t; ev_action_phase := None;
    ev_error_category := None |}).

Definition write_startup_recovery_history_event (phase : ControllerPhase) (decision experiment_id
    action_id : string) (t : RollbackToken) (performed : bool) : HM S (unit + AnyError) :=
  append_report FHistory (RepHistory {|
    rh_phase := phase; rh_decision := decision;
    rh_candidate_name := candidate_name_from_action_id action_id;
    rh_action_kind := action_kind_from_action_id action_id;
    rh_safety_class := safety_class_for_rollback_token t; rh_experiment_id := experiment_id;
    rh_action_id := action_id; rh_rollback_performed := performed |}).

Definition write_startup_recovery_daemon_state_snapshot (s : StartupRecoveryDaemonStateInput)
  : HM S (unit + AnyError) := append_report FSnapshot (RepSnapshot s).

Definition recovery_snapshot (phase : DaemonPhase) (decision experiment_id action_id : string)
    (token : option RollbackToken) (available active faulted : bool)
  : StartupRecoveryDaemonStateInput := {|
  ds_phase := phase; ds_decision := decision; ds_experiment_id := experiment_id;
  ds_action_id := action_id; ds_rollback_token := token; ds_rollback_available := available;
  ds_include_active_experiment := active; ds_faulted := faulted |}.

Definition recover_applied_journal_record (rollback_on_crash_recovery : bool)
    (experiment_id action_id : string) (t : RollbackToken) (source : RecoverySource)
  : HM S (StartupRecoveryOutcome + AnyError) :=
  if negb rollback_on_crash_recovery then
    let? _ := write_startup_recovery_daemon_state_snapshot
                (recovery_snapshot DpFaulted "rollback_disabled" experiment_id action_id (Some t)
                   true true true) in
    hret (inl (SrRollbackDisabled experiment_id action_id))
  else
  let* result := match require_automatic_recovery t with
                 | inl _ => dispatch t
                 | inr e => hret (inr e)
                 end in
  match result with
  | inl affected =>
      let* record := read_controller_journal in
      let journal_names_token := match record with inl r => names_token r t | inr _ => false end in
      let? _ := if match source with SourceJournal => true | SourceLedger => false end
                   || journal_names_token
                then write_controller_journal_clean else hret (inl tt) in
      let? _ := retire_kept experiment_id in
      let? _ := write_startup_recovery_audit_event action_id t true affected in
      let? _ := write_startup_recovery_history_event CpCooldown "restored" experiment_id action_id t
                  true in
      let? _ := write_startup_recovery_daemon_state_snapshot
                  (recovery_snapshot DpCooldown "restored" experiment_id action_id None false false
                     false) in
      hret (inl (SrRecovered experiment_id action_id affected))
  | inr _ =>
      let? _ := write_startup_recovery_audit_event action_id t false 0 in
      let? _ := write_startup_recovery_history_event CpFaulted "CrashRecoveryFault" experiment_id
                  action_id t false in
      let? _ := write_startup_recovery_daemon_state_snapshot
                  (recovery_snapshot DpFaulted "faulted" experiment_id action_id (Some t) true true
                     true) in
      hret (inl (SrFaulted experiment_id action_id))
  end.

Definition recover_without_token (decision : string) (r : ControllerJournalRecord)
  : HM S (StartupRecoveryOutcome + AnyError) :=
  let '(experiment_id, action_id) := journal_experiment_action r in
  let? _ := write_startup_recovery_daemon_state_snapshot
              (recovery_snapshot DpFaulted decision experiment_id action_id None false true true) in
  hret (inl (SrApplyingWithoutRollback experiment_id action_id)).

Definition recover_journal_record (rollback_on_crash_recovery : bool)
  : HM S (StartupRecoveryOutcome + AnyError) :=
  let? r := read_controller_journal in
  let '(experiment_id, action_id) := journal_experiment_action r in
  match jr_state r with
  | JClean => hret (inl SrClean)
  | JReverted | JPlanned | JPreflighted =>
      let? _ := write_controller_journal_clean in hret (inl SrClean)
  | JApplying =>
      match jr_rollback_token r with
      | Some t =>
          recover_applied_journal_record rollback_on_crash_recovery experiment_id action_id t
            SourceJournal
      | None => recover_without_token "applying_without_rollback" r
      end
  | JApplied | JVerifying | JMeasuring | JKeeping | JReverting | JFaulted =>
      match jr_rollback_token r with
      | Some t =>
          recover_applied_journal_record rollback_on_crash_recovery experiment_id action_id t
            SourceJournal
      | None => recover_without_token "missing_rollback_token" r
      end
  end.

(** ** [startup_recovery/ledger.rs] *)

(** [map] and [collect] into a [Result]: the first error stops. *)
Fixpoint recover_entries (rollback_on_crash_recovery : bool) (entries : list KeptLedgerEntry)
  : HM S (list StartupRecoveryOutcome + AnyError) :=
  match entries with
  | [] => hret (inl [])
  | e :: rest =>
      let? o := recover_applied_journal_record rollback_on_crash_recovery (kl_experiment_id e)
                  (kl_action_id e) (kl_rollback_token e) SourceLedger in
      let? os := recover_entries rollback_on_crash_recovery rest in
      hret (inl (o :: os))
  end.

Definition recover_kept_ledger (rollback_on_crash_recovery : bool)
  : HM S (list StartupRecoveryOutcome + AnyError) :=
  let? l := read_kept_ledger in
  recover_entries rollback_on_crash_recovery (kl_entries l).

Definition combine_outcomes (kept : list StartupRecoveryOutcome) (journal : StartupRecoveryOutcome)
  : StartupRecoveryOutcome :=
  if is_faulted journal then journal else
  match List.find is_faulted kept with
  | Some faulted => faulted
  | None => match journal with SrClean => default journal (head kept) | _ => journal end
  end.

Definition recover_controller_journal (rollback_on_crash_recovery : bool)
  : HM S (StartupRecoveryOutcome + AnyError) :=
  let? kept := recover_kept_ledger rollback_on_crash_recovery in
  let? journal := recover_journal_record rollback_on_crash_recovery in
  hret (inl (combine_outcomes kept journal)).

(** ** [startup_recovery/gate.rs]: a fault stops the start *)
Definition recover_before_start (rollback_on_crash_recovery : bool)
  : HM S (StartupRecoveryOutcome + AnyError) :=
  let? outcome := recover_controller_journal rollback_on_crash_recovery in
  match outcome with
  | SrFaulted _ _ => hret (inr (EOther "autotune startup recovery failed"))
  | _ => hret (inl outcome)
  end.
End recovery.

(** ** Tokens that survive a crash *)

Section durable.
Context {S : Type} {FS : FileSystem S}.

(** The journal names the token of an action that may be applied. *)
Definition jnames (t : RollbackToken) (f : File ControllerJournalRecord) : Prop :=
  match f with
  | Holds r => jr_rollback_token r = Some t /\ may_have_mutated_system r = true
  | Missing | Corrupt => False
  end.

Definition lnames (t : RollbackToken) (f : File KeptLedger) : Prop :=
  match f with
  | Holds l => t ∈ map kl_rollback_token (kl_entries l)
  | Missing | Corrupt => False
  end.

(** Whatever version of the files a crash leaves, one of them names the token. *)
Definition durable (t : RollbackToken) (d : Disk S) : Prop :=
  Forall (jnames t) (journal d :: journal_old d) \/ Forall (lnames t) (ledger d :: ledger_old d).

Definition covered (t : RollbackToken) (d : Disk S) : Prop := t ∈ undone d \/ durable t d.

Lemma covered_after_crash t d d' :
  covered t d -> crashed d d' -> t ∈ undone d' \/ jnames t (journal d') \/ lnames t (ledger d').
Proof.
  intros Hc [j l Hj Hl]; simpl. destruct Hc as [Hu|[Hd|Hd]]; [by left| |]; right.
  - left. by eapply Forall_elem, Hj.
  - right. by eapply Forall_elem, Hl.
Qed.

(** An experiment has one token: in the ledger and in the journal. *)
Record labelled (tok : string -> RollbackToken) (d : Disk S) : Prop := {
  lab_ledger l e : ledger d = Holds l -> e ∈ kl_entries l ->
    tok (kl_experiment_id e) = kl_rollback_token e;
  lab_journal r t : journal d = Holds r -> jnames t (journal d) ->
    tok (journal_experiment_action r).1 = t;
}.

Definition same_files (d d' : Disk S) : Prop :=
  journal d' = journal d /\ journal_old d' = journal_old d /\ ledger d' = ledger d /\
  ledger_old d' = ledger_old d /\ undone d' = undone d.

(** An executor restores values of the machine: it leaves the two files alone. *)
Class ExecutorFrame (executor : RollbackToken -> HM S (nat + AnyError)) : Prop :=
  executor_frame t h : exists added,
    crash_points (executor t h).2 = added ++ crash_points h /\
    Forall (same_files (disk h)) (disk (executor t h).2 :: added).

Lemma same_files_covered t d d' : same_files d d' -> covered t d -> covered t d'.
Proof. intros (E1 & E2 & E3 & E4 & E5). unfold covered, durable. by rewrite E1, E2, E3, E4, E5. Qed.

Lemma same_files_labelled tok d d' : same_files d d' -> labelled tok d -> labelled tok d'.
Proof.
  intros (E1 & _ & E3 & _) [Hl Hj]. split.
  - intros l e. rewrite E3. apply Hl.
  - intros r t. rewrite E1. apply Hj.
Qed.

Lemma in_retain_other id e entries :
  e ∈ entries -> kl_experiment_id e <> id -> e ∈ retain_other id entries.
Proof.
  intros He Hid. apply list_elem_of_In, List.filter_In. split; [by apply list_elem_of_In|].
  by apply negb_true_iff, String.eqb_neq.
Qed.

Lemma retain_other_sub id e entries : e ∈ retain_other id entries -> e ∈ entries.
Proof. intros [He _]%list_elem_of_In%List.filter_In. by apply list_elem_of_In. Qed.
End durable.
