(* ===== verification/RecoverySafety.v ===== *)
(** * Startup recovery: no token is forgotten, success means restored

    Two invariants of [Recovery]: at every crash point of a recovery, whatever
    system call fails, a token that was named is undone or still named; and a
    recovery that reports success has undone every token that was named. *)

From Stdlib Require Import String.
From S2P Require Import Prelude PolicyModel PolicyEval ActionModel ActionRunner Journal Recovery.

(** ** Recovery forgets nothing *)

Section safety.
Context {S : Type} {FS : FileSystem S} (executor : RollbackToken -> HM S (nat + AnyError)).
Context `{!ExecutorFrame executor} (tok : string -> RollbackToken) (t : RollbackToken).
Implicit Types (d : Disk S).

(** The invariant of recovery for the token [t]: covered at every crash point. *)
Abbreviation kept_safe := (at_disk (covered t) (labelled tok)).

Lemma append_report_safe P f r :
  disks_only P -> hspec (S := S) P (append_report f r) (fun _ => P).
Proof.
  intros HP. eapply hspec_try; [by apply hspec_sys_ok|auto|]. intros [].
  eapply hspec_bind; [by apply hspec_add_report|]. intros []. by apply hspec_ret.
Qed.

Lemma audit_safe P a t' ok n :
  disks_only P -> hspec (S := S) P (write_startup_recovery_audit_event a t' ok n) (fun _ => P).
Proof.
  intros HP. eapply hspec_bind; [by apply hspec_now|]. intros z. by apply append_report_safe.
Qed.

Lemma dispatch_safe P rt :
  (forall d d', same_files d d' -> P d -> P d') ->
  (forall d, P d -> P (record_undone rt d)) ->
  hspec (at_disk (covered t) P) (dispatch executor rt)
    (fun x => at_disk (covered t) (fun d => P d /\
       match x with inl _ => rt ∈ undone d | inr _ => True end)).
Proof.
  intros Hsame Hund.
  assert (Hx : hspec (at_disk (covered t) P) (executor rt) (fun _ => at_disk (covered t) P)).
  { intros h [Hall Hp]. destruct (executor_frame rt h) as (added & E & Hadd).
    pose proof (Forall_inv Hadd) as Hd. apply Forall_inv_tail in Hadd. split; [|by eapply Hsame].
    rewrite E. apply Forall_app. split; [|done].
    apply Forall_inv in Hall. eapply Forall_impl; [|exact Hadd].
    intros d Hs. by eapply same_files_covered. }
  eapply hspec_bind; [exact Hx|]. intros [n|e].
  - eapply hspec_bind; [apply hspec_set_at|].
    + intros d Hp Hc. destruct Hc as [Hc|Hc]; [left; by right|by right].
    + intros []. apply hspec_ret. intros h [Hall (d & E & Hp & _)]. split; [done|].
      rewrite E. split; [by apply Hund|by left].
  - apply hspec_ret. intros h [Hall Hp]. by split.
Qed.

Lemma covered_install_journal r d :
  covered t d -> (jnames t (journal d) -> t ∈ undone d) ->
  covered t (install_journal r d) /\ covered t (sync_journal (install_journal r d)).
Proof.
  intros Hc Hj. assert (Hor : t ∈ undone d \/ Forall (lnames t) (ledger d :: ledger_old d)).
  { destruct Hc as [Hu|[Hd|Hd]]; [by left| |by right].
    apply Forall_inv in Hd. left. by apply Hj. }
  split; (destruct Hor; [by left|right; by right]).
Qed.

Lemma labelled_clean d : labelled tok d -> labelled tok (sync_journal (install_journal clean d)).
Proof. intros [Hl Hj]. split; [done|]. intros r t' [= <-] [Ht _]. done. Qed.

Lemma write_clean_safe P :
  (forall d, P d -> jnames t (journal d) -> t ∈ undone d) ->
  (forall d, P d -> P (install_journal clean d)) ->
  (forall d, P d -> P (sync_journal (install_journal clean d))) ->
  hspec (at_disk (covered t) P) write_controller_journal_clean (fun _ => at_disk (covered t) P).
Proof.
  intros Hj H1 H2. eapply hspec_conseq; [apply (hspec_write_journal (covered t) P clean)| |].
  - intros d Hp Hc. by apply covered_install_journal; [|apply Hj].
  - intros d Hp Hc. by apply covered_install_journal; [|apply Hj].
  - done.
  - intros [[]|e] h [Hall (d & Hp & Hc & E)]; (split; [done|]).
    + rewrite E. by apply H2.
    + destruct E as [-> | ->]; [done|by apply H1].
Qed.

Lemma covered_install_ledger x d id l :
  covered t d -> labelled tok d -> ledger d = Holds l -> tok id ∈ undone d ->
  (forall e, e ∈ retain_other id (kl_entries l) -> lnames (kl_rollback_token e) x) ->
  covered t (install_ledger x d) /\ covered t (sync_ledger (install_ledger x d)).
Proof.
  intros Hc [Hl _] El Hu Hx. assert (Hor : t ∈ undone d \/ Forall (jnames t) (journal d :: journal_old d)
    \/ (Forall (lnames t) (ledger d :: ledger_old d) /\ lnames t x)).
  { destruct Hc as [Hc|[Hc|Hc]]; [by left|by right; left|].
    pose proof (Forall_inv Hc) as Hn. rewrite El in Hn. apply list_elem_of_fmap in Hn as (e & -> & He).
    destruct (decide (kl_experiment_id e = id)) as [Hid|Hid].
    - left. rewrite <- Hid in Hu. by rewrite (Hl l e) in Hu.
    - right; right. split; [done|]. by apply Hx, in_retain_other. }
  split; (destruct Hor as [H|[H|[H1 H2]]]; [by left|right; by left|right; right]);
    (constructor; [exact H2|]); first [exact H1 | constructor].
Qed.

Lemma labelled_ledger d l entries x :
  labelled tok d -> ledger d = Holds l -> (forall e, e ∈ entries -> e ∈ kl_entries l) ->
  x = Missing \/ x = Holds (with_entries l entries) ->
  labelled tok (install_ledger x d) /\ labelled tok (sync_ledger (install_ledger x d)).
Proof.
  intros [Hl Hj] El Hsub Hx. split; (split; [|done]); simpl; intros l' e E He;
    (destruct Hx as [-> | ->]; [done|]); injection E as <-; by eapply Hl, Hsub.
Qed.

Lemma sync_dir_safe :
  hspec kept_safe (let? _ := sys_ok FLedger OpOpen in sys_change FLedger OpSyncDir sync_ledger)
    (fun _ => kept_safe).
Proof.
  eapply hspec_try; [by apply hspec_sys_ok, at_disk_only|auto|]. intros [].
  eapply hspec_conseq; [apply (hspec_sys_change (covered t) (labelled tok))| |].
  - intros d _ [Hc|[Hc|Hc]]; [by left|right; by left|right; right].
    constructor; [by apply Forall_inv in Hc|done].
  - done.
  - intros [[]|e] h [Hall (d & Hp & _ & E)]; (split; [done|]); rewrite E; [|done].
    destruct Hp as [H1 H2]. by split.
Qed.

Lemma retire_safe id :
  hspec (at_disk (covered t) (fun d => labelled tok d /\ tok id ∈ undone d)) (retire_kept id)
    (fun _ => kept_safe).
Proof.
  eapply hspec_try; [by apply hspec_read_ledger, at_disk_only|by intros e h [[H1 [H2 _]] _]|].
  intros l. set (P := fun d : Disk S => labelled tok d /\ tok id ∈ undone d /\
                       (ledger d = Holds l \/ l = KeptLedger_default)).
  apply (hspec_pre _ (at_disk (covered t) P)); [|intros h [[H1 [H2 H3]] H4]; (split; [done|]); unfold P; tauto].
  assert (Hout : forall h, at_disk (covered t) P h -> kept_safe h) by (by intros h [H1 [H2 _]]).
  cbv zeta. set (kept := retain_other id (kl_entries l)).
  destruct (length kept =? length (kl_entries l))%nat eqn:Hlen; [apply hspec_ret; intros h; apply Hout|].
  assert (Hl : forall d, P d -> ledger d = Holds l).
  { intros d (_ & _ & [H|H]); [done|]. subst l. by rewrite Nat.eqb_refl in Hlen. }
  assert (Hcov : forall x, (x = Missing /\ kept = [] \/ x = Holds (with_entries l kept)) ->
    forall d, P d -> covered t d ->
      covered t (install_ledger x d) /\ covered t (sync_ledger (install_ledger x d))).
  { intros x Hx d Hp Hc. eapply covered_install_ledger; [done|apply Hp|by apply Hl|apply Hp|].
    intros e He. fold kept in He. destruct Hx as [[-> Hnil]| ->]; [rewrite Hnil in He; by apply not_elem_of_nil in He|].
    apply list_elem_of_fmap. by exists e. }
  assert (Hlab : forall x, (x = Missing \/ x = Holds (with_entries l kept)) -> forall d, P d ->
    labelled tok (install_ledger x d) /\ labelled tok (sync_ledger (install_ledger x d))).
  { intros x Hx d Hp. eapply labelled_ledger; [apply Hp|by apply Hl| |exact Hx].
    intros e. apply retain_other_sub. }
  destruct kept as [|k ks] eqn:Hkept.
  - eapply hspec_bind; [by apply hspec_syscall, at_disk_only|].
    intros []; try (apply hspec_ret; intros h; apply Hout).
    + eapply hspec_bind; [apply (hspec_set_at (covered t) P)|].
      * intros d Hp Hc. by apply (Hcov Missing); [left|..].
      * intros []. eapply hspec_pre; [exact sync_dir_safe|].
        intros h [Hall (d & E & Hp & Hc)]. split; [done|]. rewrite E. by apply (Hlab Missing); [left|].
    + eapply hspec_bind; [apply (hspec_ret tt _ (fun _ => at_disk (covered t) P)); auto|].
      intros []. eapply hspec_pre; [exact sync_dir_safe|apply Hout].
  - eapply hspec_conseq; [apply (hspec_write_ledger (covered t) P)| |].
    + intros d Hp Hc. by apply Hcov; [right|..].
    + intros d Hp Hc. by apply Hcov; [right|..].
    + done.
    + intros [[]|e] h [Hall (d & Hp & Hc & E)]; (split; [done|]).
      * rewrite E. by apply Hlab; [right|].
      * destruct E as [-> | ->]; [apply Hp|by apply Hlab; [right|]].
Qed.

(** A report: nothing on the two files changes, whether it is written or not. *)
Ltac safe_report :=
  eapply hspec_try;
  [first [by apply audit_safe, at_disk_only | by apply append_report_safe, at_disk_only]
  |first [by auto | by intros ? ? [? [? _]] | by intros ? ? [? [[? _] _]]] | intros []].

(** The journal names no token but [rt]. *)
Definition names_only (rt : RollbackToken) (d : Disk S) : Prop :=
  forall t', jnames t' (journal d) -> t' = rt.

Lemma clear_journal_safe rt :
  hspec (at_disk (covered t) (fun d => labelled tok d /\ rt ∈ undone d /\ names_only rt d))
    write_controller_journal_clean
    (fun _ => at_disk (covered t) (fun d => labelled tok d /\ rt ∈ undone d)).
Proof.
  assert (Hnone : forall d, names_only rt (install_journal clean d)) by (by intros d t' [Ht _]).
  eapply hspec_post; [apply write_clean_safe|].
  - intros d (_ & Hu & Hn) Hj. by rewrite (Hn t Hj).
  - intros d ([Hl Hj] & Hu & _). split; [|split; [done|apply Hnone]].
    split; [done|]. by intros r t' [= <-] [Ht _].
  - intros d (Hl & Hu & _). split; [by apply labelled_clean|]. split; [done|]. by intros t' [Ht _].
  - by intros x h [Hall (H1 & H2 & _)].
Qed.

Lemma recover_applied_safe enabled id action rt source :
  tok id = rt ->
  hspec (at_disk (covered t) (fun d => labelled tok d /\ (source = SourceJournal -> names_only rt d)))
    (recover_applied_journal_record executor enabled id action rt source) (fun _ => kept_safe).
Proof.
  intros Hid. unfold recover_applied_journal_record.
  set (P := fun d : Disk S => labelled tok d /\ (source = SourceJournal -> names_only rt d)).
  assert (Hout : forall h, at_disk (covered t) P h -> kept_safe h) by (by intros h [H1 [H2 _]]).
  destruct enabled; simpl.
  2: { safe_report. apply hspec_ret, Hout. }
  eapply (hspec_bind _ _ _ (fun x => at_disk (covered t) (fun d => P d /\
            match x with inl _ => rt ∈ undone d | inr _ => True end))).
  { destruct (require_automatic_recovery rt).
    - apply dispatch_safe.
      + intros d d' Hs [Hl Hn]. split; [by eapply same_files_labelled|].
        intros Hsrc t'. destruct Hs as (-> & _). by apply Hn.
      + intros d [[Hl Hj] Hn]. split; [by split|done].
    - apply hspec_ret. by intros h [H1 H2]. }
  intros [n|e].
  2: { do 3 safe_report. apply hspec_ret. by intros h [H1 [[H2 _] _]]. }
  eapply hspec_bind; [by apply hspec_read_journal, at_disk_only|]. intros record.
  eapply (hspec_try _ _ _ (fun _ => at_disk (covered t) (fun d => labelled tok d /\ rt ∈ undone d))).
  { match goal with |- context [if ?b then _ else _] => destruct b eqn:Hb end.
    - eapply hspec_pre; [apply clear_journal_safe|].
      intros h [[Hall [[Hl Hn] Hu]] Hr]. split; [done|]. split; [done|]. split; [done|].
      apply orb_true_iff in Hb as [Hb|Hb]; [apply Hn; by destruct source|].
      destruct record as [r|]; [|done]. apply bool_decide_eq_true in Hb.
      intros t' Hj. destruct Hr as [Hr|[-> _]]; [|done]. rewrite Hr in Hj. destruct Hj as [Hj _]. congruence.
    - apply hspec_ret. by intros h [[Hall [[Hl _] Hu]] _]. }
  { by intros e h [H1 [H2 _]]. }
  intros []. rewrite <- Hid. eapply hspec_try; [apply retire_safe|auto|]. intros [].
  do 3 safe_report. by apply hspec_ret.
Qed.

Lemma recover_entries_safe enabled entries :
  Forall (fun e => tok (kl_experiment_id e) = kl_rollback_token e) entries ->
  hspec kept_safe (recover_entries executor enabled entries) (fun _ => kept_safe).
Proof.
  induction 1 as [|e entries He _ IH]; simpl; [by apply hspec_ret|].
  eapply hspec_try; [eapply hspec_pre; [by apply recover_applied_safe|]|auto|].
  - intros h [H1 H2]. by split.
  - intros o. eapply hspec_try; [exact IH|auto|]. intros os. by apply hspec_ret.
Qed.

Lemma recover_kept_ledger_safe enabled :
  hspec kept_safe (recover_kept_ledger executor enabled) (fun _ => kept_safe).
Proof.
  eapply hspec_try; [by apply hspec_read_ledger, at_disk_only|by intros e h [H _]|].
  intros l h [Hs Hl]. apply recover_entries_safe; [|done].
  destruct Hl as [Hl|[-> _]]; [|constructor]. apply List.Forall_forall. intros e He.
  destruct Hs as [_ [Hlab _]]. by eapply Hlab, list_elem_of_In.
Qed.

Lemma recover_journal_record_safe enabled :
  hspec kept_safe (recover_journal_record executor enabled) (fun _ => kept_safe).
Proof.
  eapply hspec_try; [by apply hspec_read_journal, at_disk_only|by intros e h [H _]|].
  intros r. rewrite (surjective_pairing (journal_experiment_action r)).
  set (R := fun h : Host S => kept_safe h /\ (journal (disk h) = Holds r \/ r = clean)).
  apply (hspec_pre _ R); [|unfold R; tauto].
  assert (HR : forall h, R h -> kept_safe h) by (by intros h [H _]).
  assert (Hjournal : forall h, R h -> jr_state r <> JClean -> journal (disk h) = Holds r).
  { intros h [_ [H| ->]]; [done|by intros []]. }
  assert (Hclear : jr_state r <> JClean -> may_have_mutated_system r = false ->
    hspec R (let? _ := write_controller_journal_clean in hret (inl SrClean)) (fun _ => kept_safe)).
  { intros Hst Hm. eapply hspec_try;
      [eapply hspec_pre; [apply (write_clean_safe (fun d => labelled tok d /\ ~ jnames t (journal d)))|]| |].
    - by intros d [_ Hn] Hj.
    - intros d [[Hl Hj] _]. split; [|by intros [? _]]. split; [done|]. by intros r' t' [= <-] [Ht _].
    - intros d [Hl _]. split; [by apply labelled_clean|by intros [? _]].
    - intros h Hh. destruct (HR h Hh) as [Hall Hl]. split; [done|]. split; [done|].
      rewrite (Hjournal h Hh Hst). intros [_ Hj]. congruence.
    - by intros e h [H1 [H2 _]].
    - intros []. apply hspec_ret. by intros h [H1 [H2 _]]. }
  assert (Happlied : forall t', jr_rollback_token r = Some t' -> may_have_mutated_system r = true ->
    hspec R (recover_applied_journal_record executor enabled (journal_experiment_action r).1
               (journal_experiment_action r).2 t' SourceJournal) (fun _ => kept_safe)).
  { intros t' Ht Hm h Hh. assert (Hj : journal (disk h) = Holds r).
    { apply Hjournal; [done|]. intros E. unfold may_have_mutated_system in Hm. by rewrite E in Hm. }
    apply recover_applied_safe; [|split; [apply Hh|split; [apply Hh|]]].
    - eapply lab_journal; [apply Hh|exact Hj|by rewrite Hj].
    - intros _ t''. rewrite Hj. intros [H _]. congruence. }
  assert (Hnone : forall s, hspec R (recover_without_token s r) (fun _ => kept_safe)).
  { intros s. unfold recover_without_token. rewrite (surjective_pairing (journal_experiment_action r)).
    eapply hspec_pre; [|exact HR]. safe_report. by apply hspec_ret. }
  assert (Hstate : may_have_mutated_system r = match jr_state r with
    | JClean | JPlanned | JPreflighted | JReverted => false | _ => true end) by (unfold may_have_mutated_system; by destruct (jr_state r)).
  destruct (jr_state r) eqn:E; try (by apply Hclear); try (by apply hspec_ret);
    (destruct (jr_rollback_token r); [by apply Happlied|apply Hnone]).
Qed.

Lemma recovery_safe enabled :
  hspec kept_safe (recover_controller_journal executor enabled) (fun _ => kept_safe).
Proof.
  eapply hspec_try; [apply recover_kept_ledger_safe|auto|]. intros os.
  eapply hspec_try; [apply recover_journal_record_safe|auto|]. intros o. by apply hspec_ret.
Qed.
End safety.

(** ** Recovery that reports success restored everything *)

Section completeness.
Context {S : Type} {FS : FileSystem S} (executor : RollbackToken -> HM S (nat + AnyError)).
Context `{!ExecutorFrame executor}.
Implicit Types (d : Disk S) (P : Disk S -> Prop).

(** What recovery may do to the disk without losing [P]. *)
Record recovery_stable P : Prop := {
  rs_frame d d' : same_files d d' -> P d -> P d';
  rs_undone d t : P d -> P (record_undone t d);
  rs_ledger d l : P d -> P (install_ledger l d);
  rs_sync_ledger d : P d -> P (sync_ledger d);
  rs_clear d t : P d -> t ∈ undone d -> names_only t d ->
    P (install_journal clean d) /\ P (sync_journal (install_journal clean d));
}.

Abbreviation at_any := (at_disk (fun _ : Disk S => True)).

Lemma at_any_intro P h : P (disk h) -> at_any P h.
Proof. intros H. split; [by apply List.Forall_forall|done]. Qed.

Lemma stable_and P Q : recovery_stable P -> recovery_stable Q -> recovery_stable (fun d => P d /\ Q d).
Proof.
  intros [P1 P2 P3 P4 P5] [Q1 Q2 Q3 Q4 Q5]. split; intros; naive_solver.
Qed.

Lemma undone_stable t : recovery_stable (fun d => t ∈ undone d).
Proof.
  split; try done.
  - by intros d d' (_ & _ & _ & _ & ->).
  - intros d t' H. by right.
Qed.

Lemma write_clean_stable P t :
  recovery_stable P ->
  hspec (at_any (fun d => P d /\ t ∈ undone d /\ names_only t d)) write_controller_journal_clean
    (fun _ => at_any (fun d => P d /\ t ∈ undone d)).
Proof.
  intros HP. eapply hspec_post; [by apply hspec_write_journal|].
  intros [[]|e] h [_ (d & (Hp & Hu & Hn) & _ & E)]; apply at_any_intro.
  - rewrite E. split; [by eapply rs_clear|done].
  - destruct E as [-> | ->]; (split; [|done]); [done|by eapply rs_clear].
Qed.

Lemma retire_keeps P id :
  (forall d l, P d -> P (install_ledger l d)) -> (forall d, P d -> P (sync_ledger d)) ->
  hspec (at_any P) (retire_kept id) (fun _ => at_any P).
Proof.
  intros Hinst Hsync. eapply hspec_try; [by apply hspec_read_ledger, at_disk_only|by intros e h [H _]|].
  intros l. eapply hspec_pre; [|by intros h [H _]].
  assert (Htail : hspec (at_any P) (let? _ := sys_ok FLedger OpOpen in sys_change FLedger OpSyncDir sync_ledger)
                    (fun _ => at_any P)).
  { eapply hspec_try; [by apply hspec_sys_ok, at_disk_only|auto|]. intros [].
    eapply hspec_post; [by apply hspec_sys_change|].
    intros [[]|e] h [_ (d & Hp & _ & E)]; apply at_any_intro; rewrite E; [by apply Hsync|done]. }
  cbv zeta. case_match; [by apply hspec_ret|]. case_match.
  - eapply hspec_bind; [by apply hspec_syscall, at_disk_only|].
    intros []; try (by apply hspec_ret).
    + eapply hspec_bind; [by apply hspec_set_at|]. intros []. eapply hspec_pre; [exact Htail|].
      intros h [_ (d & E & Hp & _)]. apply at_any_intro. rewrite E. by apply Hinst.
    + eapply hspec_bind; [by apply (hspec_ret tt _ (fun _ => at_any P))|]. intros []. exact Htail.
  - eapply hspec_post; [by apply hspec_write_ledger|].
    intros [[]|e] h [_ (d & Hp & _ & E)]; apply at_any_intro.
    + rewrite E. by apply Hsync, Hinst.
    + destruct E as [-> | ->]; [done|by apply Hinst].
Qed.

Lemma retire_stable P id :
  recovery_stable P -> hspec (at_any P) (retire_kept id) (fun _ => at_any P).
Proof. intros HP. apply retire_keeps; [apply (rs_ledger _ HP)|apply (rs_sync_ledger _ HP)]. Qed.

Lemma dispatch_stable P t :
  recovery_stable P ->
  hspec (at_any P) (dispatch executor t)
    (fun x => at_any (fun d => P d /\ match x with inl _ => t ∈ undone d | inr _ => True end)).
Proof.
  intros HP. eapply (hspec_bind _ _ _ (fun _ => at_any P)).
  { intros h [_ Hp]. destruct (executor_frame t h) as (added & _ & Hadd).
    apply Forall_inv in Hadd. apply at_any_intro. by eapply rs_frame. }
  intros [n|e].
  - eapply hspec_bind; [by apply hspec_set_at|]. intros []. apply hspec_ret.
    intros h [_ (d & E & Hp & _)]. apply at_any_intro. rewrite E. split; [by apply rs_undone|by left].
  - apply hspec_ret. intros h [_ Hp]. by apply at_any_intro.
Qed.

(** What an outcome for a token says. *)
Definition outcome_says (t : RollbackToken) (d : Disk S) (o : StartupRecoveryOutcome) : Prop :=
  match o with
  | SrRecovered _ _ _ => t ∈ undone d
  | SrFaulted _ _ => True
  | SrClean | SrApplyingWithoutRollback _ _ | SrRollbackDisabled _ _ => False
  end.

Ltac stable_report :=
  eapply hspec_try;
  [first [by apply audit_safe, at_disk_only | by apply append_report_safe, at_disk_only]
  |intros ? ? [_ [? _]]; by apply at_any_intro | intros []].

Lemma recover_applied_stable P id action t source :
  recovery_stable P ->
  hspec (at_any (fun d => P d /\ (source = SourceJournal -> names_only t d)))
    (recover_applied_journal_record executor true id action t source)
    (fun x => at_any (fun d => P d /\ match x with inl o => outcome_says t d o | inr _ => True end)).
Proof.
  intros HP. unfold recover_applied_journal_record. simpl.
  set (P' := fun d => P d /\ (source = SourceJournal -> names_only t d)).
  assert (HP' : forall d d', same_files d d' -> P' d -> P' d').
  { intros d d' Hs [Hp Hn]. split; [by eapply rs_frame|]. intros Hsrc t'. destruct Hs as (-> & _). by apply Hn. }
  eapply (hspec_bind _ _ _ (fun x => at_any (fun d => P' d /\
            match x with inl _ => t ∈ undone d | inr _ => True end))).
  { destruct (require_automatic_recovery t).
    - eapply (hspec_bind _ _ _ (fun _ => at_any P')).
      { intros h [_ Hp]. destruct (executor_frame t h) as (added & _ & Hadd).
        apply Forall_inv in Hadd. apply at_any_intro. by eapply HP'. }
      intros [n|e].
      + eapply hspec_bind; [by apply hspec_set_at|]. intros []. apply hspec_ret.
        intros h [_ (d & E & [Hp Hn] & _)]. apply at_any_intro. rewrite E.
        split; [split; [by apply rs_undone|done]|by left].
      + apply hspec_ret. intros h [_ Hp]. by apply at_any_intro.
    - apply hspec_ret. intros h [_ Hp]. by apply at_any_intro. }
  intros [n|e].
  2: { eapply (hspec_pre _ (at_any (fun d => P d /\ True))); [|intros h [_ [[Hp _] _]]; by apply at_any_intro].
       do 3 stable_report. apply hspec_ret. intros h [_ [Hp _]]. by apply at_any_intro. }
  eapply hspec_bind; [by apply hspec_read_journal, at_disk_only|]. intros record.
  eapply (hspec_try _ _ _ (fun _ => at_any (fun d => P d /\ t ∈ undone d))).
  { match goal with |- context [if ?b then _ else _] => destruct b eqn:Hb end.
    - eapply hspec_pre; [by apply write_clean_stable|].
      intros h [[_ [[Hp Hn] Hu]] Hr]. apply at_any_intro. split; [done|]. split; [done|].
      apply orb_true_iff in Hb as [Hb|Hb]; [apply Hn; by destruct source|].
      destruct record as [r|]; [|done]. apply bool_decide_eq_true in Hb.
      intros t' Hj. destruct Hr as [Hr|[-> _]]; [|done]. rewrite Hr in Hj. destruct Hj as [Hj _]. congruence.
    - apply hspec_ret. intros h [[_ [[Hp _] Hu]] _]. by apply at_any_intro. }
  { intros e h [_ [Hp _]]. by apply at_any_intro. }
  intros []. eapply hspec_try.
  { by apply (retire_stable (fun d => P d /\ t ∈ undone d)), stable_and, undone_stable. }
  { intros e h [_ [Hp _]]. by apply at_any_intro. }
  intros []. do 3 stable_report. apply hspec_ret. intros h [_ Hp]. by apply at_any_intro.
Qed.

Lemma says_stable t o : recovery_stable (fun d => outcome_says t d o).
Proof. destruct o; try (split; done). apply undone_stable. Qed.

(** A token the journal names at the start is named until it is undone. *)
Definition journal_pending t d : Prop := t ∈ undone d \/ jnames t (journal d).

Lemma journal_pending_stable t : recovery_stable (journal_pending t).
Proof.
  unfold journal_pending. split; try done.
  - by intros d d' (-> & _ & _ & _ & ->).
  - intros d t' [H|H]; [left; by right|by right].
  - intros d t' [H|H] Hu Hn; [by split; left|]. rewrite (Hn t H). by split; left.
Qed.

Lemma recover_entries_stable P entries :
  recovery_stable P ->
  hspec (at_any P) (recover_entries executor true entries)
    (fun x => at_any (fun d => P d /\ match x with
       | inl os => Forall2 (fun e => outcome_says (kl_rollback_token e) d) entries os
       | inr _ => True end)).
Proof.
  revert P. induction entries as [|e entries IH]; intros P HP; simpl.
  - apply hspec_ret. intros h [_ Hp]. apply at_any_intro. by split; [|constructor].
  - eapply hspec_try; [eapply hspec_pre; [by apply recover_applied_stable|]| |].
    + intros h [_ Hp]. by apply at_any_intro.
    + intros e' h [_ [Hp _]]. by apply at_any_intro.
    + intros o. eapply hspec_try;
        [apply (IH (fun d => P d /\ outcome_says (kl_rollback_token e) d o));
         by apply stable_and, says_stable| |].
      * intros e' h [_ [[Hp _] _]]. by apply at_any_intro.
      * intros os. apply hspec_ret. intros h [_ [[Hp Ho] Hos]]. apply at_any_intro.
        by split; [|constructor].
Qed.

(** What the journal's outcome says of a token the journal named. *)
Definition journal_says (t : RollbackToken) (d : Disk S) (o : StartupRecoveryOutcome) : Prop :=
  match o with
  | SrClean | SrRecovered _ _ _ => t ∈ undone d
  | SrApplyingWithoutRollback _ _ | SrRollbackDisabled _ _ | SrFaulted _ _ => True
  end.

Lemma outcome_says_journal t d o : outcome_says t d o -> journal_says t d o.
Proof. by destruct o. Qed.

Context `{!StatReliable (FS := FS)}.

Lemma recover_journal_applied_stable P t r t' id action :
  recovery_stable P -> jr_rollback_token r = Some t' ->
  hspec (fun h => P (disk h) /\ journal_pending t (disk h) /\ journal (disk h) = Holds r)
    (recover_applied_journal_record executor true id action t' SourceJournal)
    (fun x => at_any (fun d => P d /\ match x with inl o => journal_says t d o | inr _ => True end)).
Proof.
  intros HP Ht h (Hp & Hpend & Hj).
  assert (Hn : names_only t' (disk h)) by (intros t'' H; rewrite Hj in H; destruct H; congruence).
  destruct Hpend as [Hu|Hu].
  - eapply hspec_post; [apply (recover_applied_stable (fun d => P d /\ t ∈ undone d))| |].
    + by apply stable_and, undone_stable.
    + intros x h' [_ [[Hp' Hu'] _]]. apply at_any_intro. split; [done|]. destruct x as [[]|]; done.
    + by apply at_any_intro.
  - rewrite (Hn t Hu). eapply hspec_post; [by apply (recover_applied_stable P)| |by apply at_any_intro].
    intros x h' [_ [Hp' Hx]]. apply at_any_intro. split; [done|].
    destruct x; [by apply outcome_says_journal|done].
Qed.

(** After the journal was read as [r]. *)
Definition journal_read P t r (h : Host S) : Prop :=
  (P (disk h) /\ journal_pending t (disk h)) /\
  (journal (disk h) = Holds r \/ r = clean /\ journal (disk h) = Missing).

Lemma recover_journal_stable P t :
  recovery_stable P ->
  hspec (at_any (fun d => P d /\ journal_pending t d)) (recover_journal_record executor true)
    (fun x => at_any (fun d => P d /\ match x with inl o => journal_says t d o | inr _ => True end)).
Proof.
  intros HP. eapply hspec_try; [by apply hspec_read_journal, at_disk_only| |].
  { intros e h [[_ [Hp _]] _]. by apply at_any_intro. }
  intros r. rewrite (surjective_pairing (journal_experiment_action r)).
  apply (hspec_pre _ (journal_read P t r)).
  2: { intros h [[_ Hp] [Hr|[Hr Hm]]]; split; auto. }
  assert (Hold : forall s, may_have_mutated_system r = true -> hspec
    (journal_read P t r)
    match jr_rollback_token r with
    | Some t' => recover_applied_journal_record executor true (journal_experiment_action r).1
                   (journal_experiment_action r).2 t' SourceJournal
    | None => recover_without_token s r
    end
    (fun x => at_any (fun d => P d /\ match x with inl o => journal_says t d o | inr _ => True end))).
  { intros s Hm. destruct (jr_rollback_token r) as [t'|] eqn:Et.
    - eapply hspec_pre; [by apply (recover_journal_applied_stable P t r)|].
      intros h [[Hp Hpend] [Hr|[-> _]]]; [done|discriminate].
    - unfold recover_without_token. rewrite (surjective_pairing (journal_experiment_action r)).
      apply (hspec_pre _ (at_any (fun d => P d /\ True))); [|intros h [[Hp _] _]; by apply at_any_intro].
      stable_report. by apply hspec_ret. }
  assert (Hmut : forall h, may_have_mutated_system r = false ->
    journal_read P t r h -> P (disk h) /\ t ∈ undone (disk h) /\ names_only t (disk h)).
  { intros h Hm [[Hp Hpend] Hr]. assert (Hno : forall t', ~ jnames t' (journal (disk h))).
    { intros t'. destruct Hr as [-> |[_ ->]]; [intros [_ H]; congruence|by intros []]. }
    split; [done|]. split; [destruct Hpend as [H|H]; [done|by apply Hno in H]|].
    intros t' H. by apply Hno in H. }
  assert (Hclear : may_have_mutated_system r = false -> hspec
    (journal_read P t r)
    (let? _ := write_controller_journal_clean in hret (inl SrClean))
    (fun x => at_any (fun d => P d /\ match x with inl o => journal_says t d o | inr _ => True end))).
  { intros Hm. eapply hspec_try; [eapply hspec_pre; [by apply (write_clean_stable P t)|]| |].
    - intros h Hh. apply at_any_intro. by apply Hmut.
    - intros e h [_ [Hp _]]. by apply at_any_intro.
    - intros []. by apply hspec_ret. }
  unfold may_have_mutated_system in *.
  destruct (jr_state r) eqn:E; try (by apply Hold); try (by apply Hclear).
  apply hspec_ret. intros h Hh. destruct (Hmut h eq_refl Hh) as (? & ? & _). by apply at_any_intro.
Qed.

Lemma recover_ledger_stable P t :
  recovery_stable P ->
  hspec (at_any (fun d => P d /\ lnames t (ledger d))) (recover_kept_ledger executor true)
    (fun x => at_any (fun d => P d /\ match x with
       | inl os => List.find is_faulted os = None -> t ∈ undone d
       | inr _ => True end)).
Proof.
  intros HP. eapply hspec_try; [by apply hspec_read_ledger, at_disk_only| |].
  { intros e h [[_ [Hp _]] _]. by apply at_any_intro. }
  intros l h [[_ [Hp Hl]] Hr].
  assert (El : ledger (disk h) = Holds l).
  { destruct Hr as [Hr|[_ Hm]]; [done|]. rewrite Hm in Hl by done. done. }
  rewrite El in Hl. apply list_elem_of_fmap in Hl as (e & -> & He).
  eapply hspec_post; [by apply (recover_entries_stable P)| |by apply at_any_intro].
  intros [os|] h' [_ [Hp' Hos]]; apply at_any_intro; (split; [done|]); [|done]. intros Hf.
  apply list_elem_of_lookup in He as [i Hi].
  destruct (Forall2_lookup_l _ _ _ _ _ Hos Hi) as (o & Ho & Hsays).
  apply list_elem_of_lookup_2, list_elem_of_In in Ho. apply (List.find_none _ _ Hf) in Ho.
  by destruct o.
Qed.

(** A combined outcome without a fault is the journal's, or the journal's is clean. *)
Lemma combine_no_fault kept o :
  is_faulted (combine_outcomes kept o) = false ->
  List.find is_faulted kept = None /\ is_faulted o = false.
Proof.
  unfold combine_outcomes. destruct (is_faulted o) eqn:Ho; [congruence|].
  destruct (List.find is_faulted kept) as [f|] eqn:Hf; [|done].
  apply List.find_some in Hf as [_ Hf]. congruence.
Qed.

Definition recovered_or_clean (o : StartupRecoveryOutcome) : bool :=
  match o with SrClean | SrRecovered _ _ _ => true | _ => false end.

Lemma combine_recovered kept o :
  recovered_or_clean (combine_outcomes kept o) = true ->
  List.find is_faulted kept = None /\ recovered_or_clean o = true.
Proof.
  intros H. destruct (combine_no_fault kept o) as [Hk Ho].
  { by destruct (combine_outcomes kept o). }
  split; [done|]. unfold combine_outcomes in H. rewrite Ho, Hk in H. by destruct o.
Qed.

(** After the ledger a token is undone, or left to the journal. *)
Lemma ledger_leaves_pending t :
  hspec (at_any (fun d => jnames t (journal d) \/ lnames t (ledger d)))
    (recover_kept_ledger executor true)
    (fun x => at_any (fun d => match x with
       | inl os => List.find is_faulted os = None -> journal_pending t d
       | inr _ => True end)).
Proof.
  eapply hspec_pre; [apply (hspec_or _ (at_any (journal_pending t)) (at_any (fun d => True /\ lnames t (ledger d))))|].
  - eapply hspec_try; [by apply hspec_read_ledger, at_disk_only| |].
    + by intros e h [_ _]; apply at_any_intro.
    + intros l. eapply hspec_conseq; [apply recover_entries_stable, journal_pending_stable|by intros h [H _]|].
      intros x h [_ [H _]]. apply at_any_intro. by destruct x.
  - eapply hspec_post; [apply (recover_ledger_stable (fun _ => True)); by split|].
    intros x h' [_ [_ H]]. apply at_any_intro. destruct x; [|done]. intros Hf. left. by apply H.
  - intros h [_ [Hj|Hl]]; [left|right]; apply at_any_intro; [by right|done].
Qed.

Lemma recover_controller_complete t :
  hspec (at_any (fun d => jnames t (journal d) \/ lnames t (ledger d)))
    (recover_controller_journal executor true)
    (fun x h => match x with
       | inl o => recovered_or_clean o = true -> t ∈ undone (disk h)
       | inr _ => True end).
Proof.
  eapply hspec_try; [apply ledger_leaves_pending|done|].
  intros os. destruct (List.find is_faulted os) eqn:Hf.
  - eapply (hspec_try _ _ _ (fun _ _ => True)); [done|done|].
    intros o. apply hspec_ret. intros h _ [H _]%combine_recovered. congruence.
  - eapply hspec_try; [eapply hspec_pre; [apply (recover_journal_stable (fun _ => True)); by split|]|done|].
    + intros h [_ H]. apply at_any_intro. auto.
    + intros o. apply hspec_ret. intros h' [_ [_ H]] [_ Ho]%combine_recovered. by destruct o.
Qed.
End completeness.

(** ** The properties of recovery *)

Section properties.
Context {S : Type} {FS : FileSystem S} (executor : RollbackToken -> HM S (nat + AnyError)).
Context `{!ExecutorFrame executor}.

(** C6. Startup recovery never forgets a token: whatever system call fails and wherever a
    second crash interrupts it, a token the journal or the ledger durably named is
    undone (the executor answered its rollback with success) or is still named by the
    files the crash leaves.  The files name one token per experiment identifier. *)
Theorem recovery_never_forgets (tok : string -> RollbackToken) enabled t h d d' :
  past h = [] -> labelled tok (disk h) -> durable t (disk h) ->
  d ∈ crash_points (recover_controller_journal executor enabled h).2 -> crashed d d' ->
  t ∈ undone d' \/ jnames t (journal d') \/ lnames t (ledger d').
Proof.
  intros Hp Hl Ht Hd Hc. eapply covered_after_crash; [|exact Hc].
  pose proof (recovery_safe executor tok t enabled h) as Hs. lapply Hs.
  - intros [Hall _]. by eapply Forall_elem.
  - split; [|done]. unfold crash_points. rewrite Hp. constructor; [by right|constructor].
Qed.

(** C15. When recovery is enabled and the test whether the two files exist does not fail
    ([StatReliable]: a failed stat reads the ledger as empty), a recovery that reports a
    clean or recovered start has handed every token the journal and the ledger named,
    kept actions included, to the executor, and the executor has answered its rollback
    with success.  What that answer is worth is the executor's matter: CrashRecovery shows
    when it means that the tasks are restored, and when nothing is. *)
Theorem recovery_complete t h o h' :
  StatReliable (FS := FS) ->
  jnames t (journal (disk h)) \/ lnames t (ledger (disk h)) ->
  recover_controller_journal executor true h = (inl o, h') -> recovered_or_clean o = true ->
  t ∈ undone (disk h').
Proof.
  intros Hst Ht Hr Ho. pose proof (recover_controller_complete executor t h) as Hs.
  rewrite Hr in Hs. apply Hs; [|done]. split; [by apply List.Forall_forall|done].
Qed.
End properties.
