(* ===== verification/Procfs.v ===== *)
(** * Reading /proc

    The parsers of [stutter/src/process/snapshot.rs], [actions/nice/model.rs] and
    [actions/restore_identity.rs] over the text of [/proc/<tid>/stat] and
    [/proc/<tid>/status].  A text is a string of bytes; white space is ASCII
    white space, the only one the kernel writes into these files outside the
    command name. *)

From Stdlib Require Import String Ascii.
From S2P Require Import Prelude PolicyEval.

#[local] Arguments String.append : simpl nomatch.

(** ** [str] *)

(** What follows the last occurrence of a pattern: [rfind] and [rsplit_once]. *)
Fixpoint after_last (p s : string) : option string :=
  match s with
  | EmptyString => None
  | String _ s' =>
      match after_last p s' with
      | Some r => Some r
      | None => if String.prefix p s
                then Some (substring (String.length p) (String.length s) s) else None
      end
  end.

Definition starts_word (s : string) : bool :=
  match s with String c _ => negb (is_whitespace c) | EmptyString => false end.

Fixpoint split_whitespace (s : string) : list string :=
  match s with
  | EmptyString => []
  | String c s' =>
      if is_whitespace c then split_whitespace s' else
      match split_whitespace s' with
      | w :: ws => if starts_word s' then String c w :: ws else String c EmptyString :: w :: ws
      | [] => [String c EmptyString]
      end
  end.

Fixpoint trim_start (s : string) : string :=
  match s with
  | String c s' => if is_whitespace c then trim_start s' else s
  | EmptyString => s
  end.

Fixpoint trim_end (s : string) : string :=
  match s with
  | EmptyString => EmptyString
  | String c s' => if trim_is_empty s then EmptyString else String c (trim_end s')
  end.

Definition trim (s : string) : string := trim_end (trim_start s).

(** [str::lines], with a carriage return left at the end of a line: the readers
    trim what they take from it. *)
Fixpoint lines (s : string) : list string :=
  match s with
  | EmptyString => []
  | String c s' =>
      if Ascii.eqb c "010" then EmptyString :: lines s' else
      match lines s' with
      | [] => [String c EmptyString]
      | l :: ls => String c l :: ls
      end
  end.

Definition strip_prefix (p s : string) : option string :=
  if String.prefix p s then Some (substring (String.length p) (String.length s) s) else None.

Definition digit (c : ascii) : option Z :=
  let n := Z.of_N (N_of_ascii c) in if (48 <=? n) && (n <=? 57) then Some (n - 48) else None.

(** The digits of [str::parse], most significant first. *)
Fixpoint parse_digits (acc : Z) (s : string) : option Z :=
  match s with
  | EmptyString => Some acc
  | String c s' => match digit c with Some d => parse_digits (10 * acc + d) s' | None => None end
  end.

Definition parse_nat (s : string) : option Z :=
  match s with EmptyString => None | _ => parse_digits 0 s end.

(** [parse::<u32>], [parse::<u64>]: an optional plus sign, digits, no overflow. *)
Definition parse_unsigned (max : Z) (s : string) : option Z :=
  match parse_nat match s with String "+" s' => s' | _ => s end with
  | Some n => if n <=? max then Some n else None
  | None => None
  end.

(** [parse::<i32>] *)
Definition parse_i32 (s : string) : option Z :=
  match s with
  | String "-" s' =>
      match parse_nat s' with Some n => if n <=? 2 ^ 31 then Some (- n) else None | None => None end
  | _ =>
      match parse_nat match s with String "+" s' => s' | _ => s end with
      | Some n => if n <? 2 ^ 31 then Some n else None
      | None => None
      end
  end.

(** ** [process/snapshot.rs] *)

Definition parse_proc_stat_starttime (stat : string) : option Z :=
  after_comm ← after_last ") " stat;
  field ← split_whitespace after_comm !! 19%nat;
  parse_unsigned U64_MAX field.

Definition parse_proc_stat_policy (stat : string) : option Z :=
  after_comm ← after_last ") " stat;
  field ← split_whitespace after_comm !! 38%nat;
  parse_unsigned U32_MAX field.

(** ** [actions/nice/model.rs] *)

Definition parse_stat_nice_and_starttime (stat : string) : option (Z * Z) :=
  after_comm ← after_last ")" stat;
  let fields := split_whitespace after_comm in
  nice_field ← fields !! 16%nat;
  nice ← parse_i32 nice_field;
  starttime_field ← fields !! 19%nat;
  starttime ← parse_unsigned U64_MAX starttime_field;
  Some (nice, starttime).

(** ** [actions/restore_identity.rs] *)

(** The first line that names a thread group id. *)
Fixpoint find_tgid (ls : list string) : option Z :=
  match ls with
  | [] => None
  | l :: ls' =>
      match strip_prefix "Tgid:" l with
      | Some value => match parse_unsigned U32_MAX (trim value) with
                      | Some pid => Some pid
                      | None => find_tgid ls'
                      end
      | None => find_tgid ls'
      end
  end.

Definition status_tgid (status : string) : option Z := find_tgid (lines status).

(** ** Splitting a line the kernel wrote *)

Fixpoint forall_ascii (P : ascii -> bool) (s : string) : bool :=
  match s with EmptyString => true | String c s' => P c && forall_ascii P s' end.

(** A field: not empty, no white space, no closing parenthesis. *)
Definition is_field (s : string) : bool :=
  negb (String.eqb s "") &&
  forall_ascii (fun c => negb (is_whitespace c) && negb (Ascii.eqb c ")")) s.

Fixpoint join_fields (fs : list string) : string :=
  match fs with
  | [] => EmptyString
  | [f] => f
  | f :: fs' => f +:+ " " +:+ join_fields fs'
  end.

(** proc(5): [pid (comm) state ppid ...]; the command name may hold anything. *)
Definition stat_line (pid comm : string) (fields : list string) (eol : string) : string :=
  pid +:+ " (" +:+ comm +:+ ") " +:+ join_fields fields +:+ eol.

Lemma string_app_assoc (a b c : string) : a +:+ b +:+ c = (a +:+ b) +:+ c.
Proof. induction a; simpl; [done | by rewrite IHa]. Qed.

Lemma substring_all s n : (String.length s <= n)%nat -> substring 0 n s = s.
Proof.
  revert n. induction s as [|c s IH]; intros [|n] H; simpl in *; [done|done|lia|].
  rewrite IH by lia. done.
Qed.

Lemma drop_prefix p s n :
  (String.length s <= n)%nat -> substring (String.length p) n (p +:+ s) = s.
Proof.
  revert n. induction p as [|c p IH]; intros n H; simpl; [by apply substring_all|]. by apply IH.
Qed.

Lemma prefix_app p s : String.prefix p (p +:+ s) = true.
Proof. induction p as [|c p IH]; simpl; [by destruct s|]. by destruct (ascii_dec c c). Qed.

Lemma length_app_string a b : String.length (a +:+ b) = (String.length a + String.length b)%nat.
Proof. induction a; simpl; [done | by rewrite IHa]. Qed.

(** What precedes the last occurrence does not matter. *)
Lemma after_last_app p a s r : after_last p s = Some r -> after_last p (a +:+ s) = Some r.
Proof. intros H. induction a as [|c a IH]; simpl; [done | by rewrite IH]. Qed.

Lemma after_last_absent c p s :
  forall_ascii (fun x => negb (Ascii.eqb x c)) s = true -> after_last (String c p) s = None.
Proof.
  induction s as [|x s IH]; simpl; [done|]. intros [Hx Hs]%andb_true_iff. rewrite IH by done.
  destruct (ascii_dec c x) as [->|]; [|done]. by rewrite Ascii.eqb_refl in Hx.
Qed.

Lemma after_last_here c p s :
  after_last (String c p) (p +:+ s) = None ->
  after_last (String c p) (String c p +:+ s) = Some s.
Proof.
  intros H. change (String c p +:+ s) with (String c (p +:+ s)).
  cbn [after_last]. rewrite H. change (String c (p +:+ s)) with (String c p +:+ s).
  rewrite prefix_app, drop_prefix; [done|]. rewrite length_app_string. lia.
Qed.

Lemma forall_ascii_app P a b : forall_ascii P (a +:+ b) = forall_ascii P a && forall_ascii P b.
Proof. induction a; simpl; [done|]. by rewrite IHa, andb_assoc. Qed.

Lemma forall_ascii_impl (P Q : ascii -> bool) s :
  (forall c, P c = true -> Q c = true) -> forall_ascii P s = true -> forall_ascii Q s = true.
Proof.
  intros H. induction s as [|c s IH]; simpl; [done|]. intros [Hc Hs]%andb_true_iff.
  by rewrite H, IH.
Qed.

Lemma split_field f s :
  is_field f = true -> split_whitespace (f +:+ " " +:+ s) = f :: split_whitespace s.
Proof.
  intros [Hne Hf]%andb_true_iff. apply negb_true_iff, String.eqb_neq in Hne.
  induction f as [|c f IH]; [done|]. simpl in Hf. apply andb_true_iff in Hf as [Hc Hf].
  apply andb_true_iff in Hc as [Hw _]. apply negb_true_iff in Hw.
  destruct f as [|c' f].
  - simpl. rewrite Hw. by destruct (split_whitespace s).
  - change ((String c (String c' f)) +:+ " " +:+ s) with (String c (String c' f +:+ " " +:+ s)).
    cbn [split_whitespace]. rewrite Hw, (IH ltac:(done) Hf).
    change (String c' f +:+ " " +:+ s) with (String c' (f +:+ " " +:+ s)).
    simpl in Hf. apply andb_true_iff in Hf as [Hc' _]. apply andb_true_iff in Hc' as [Hw' _].
    cbn [starts_word]. by rewrite Hw'.
Qed.

Lemma split_last_field f eol :
  is_field f = true -> forall_ascii is_whitespace eol = true -> split_whitespace (f +:+ eol) = [f].
Proof.
  intros [Hne Hf]%andb_true_iff He. apply negb_true_iff, String.eqb_neq in Hne.
  assert (Hblank : split_whitespace eol = []).
  { clear -He. induction eol as [|c e IH]; [done|]. simpl in *. apply andb_true_iff in He as [-> He].
    by apply IH. }
  induction f as [|c f IH]; [done|]. simpl in Hf. apply andb_true_iff in Hf as [Hc Hf].
  apply andb_true_iff in Hc as [Hw _]. apply negb_true_iff in Hw.
  destruct f as [|c' f].
  - simpl. rewrite Hw, Hblank. by destruct eol.
  - change ((String c (String c' f)) +:+ eol) with (String c (String c' f +:+ eol)).
    cbn [split_whitespace]. rewrite Hw, (IH ltac:(done) Hf).
    change (String c' f +:+ eol) with (String c' (f +:+ eol)).
    simpl in Hf. apply andb_true_iff in Hf as [Hc' _]. apply andb_true_iff in Hc' as [Hw' _].
    cbn [starts_word]. by rewrite Hw'.
Qed.

Lemma split_fields fs eol :
  Forall (fun f => is_field f = true) fs -> forall_ascii is_whitespace eol = true ->
  split_whitespace (join_fields fs +:+ eol) = fs.
Proof.
  intros Hfs He. induction Hfs as [|f fs Hf Hfs IH].
  - simpl. clear -He. induction eol as [|c e IH]; [done|]. simpl in *.
    apply andb_true_iff in He as [-> He]. by apply IH.
  - destruct fs as [|f' fs]; [by apply split_last_field|].
    change (join_fields (f :: f' :: fs)) with (f +:+ " " +:+ join_fields (f' :: fs)).
    rewrite <- !string_app_assoc, split_field by done. by rewrite IH.
Qed.

Lemma no_paren_fields fs eol :
  Forall (fun f => is_field f = true) fs -> forall_ascii is_whitespace eol = true ->
  forall_ascii (fun x => negb (Ascii.eqb x ")")) (join_fields fs +:+ eol) = true.
Proof.
  intros Hfs He.
  assert (Hblank : forall_ascii (fun x => negb (Ascii.eqb x ")")) eol = true).
  { eapply forall_ascii_impl; [|exact He]. intros c Hc. destruct (Ascii.eqb_spec c ")"); [by subst|done]. }
  assert (Hone : forall f, is_field f = true -> forall_ascii (fun x => negb (Ascii.eqb x ")")) f = true).
  { intros f [_ Hf]%andb_true_iff. eapply forall_ascii_impl; [|exact Hf]. by intros c [_ H]%andb_true_iff. }
  rewrite forall_ascii_app, Hblank, andb_true_r.
  induction Hfs as [|f fs Hf Hfs IH]; [done|]. destruct fs as [|f' fs]; [by apply Hone|].
  change (join_fields (f :: f' :: fs)) with (f +:+ " " +:+ join_fields (f' :: fs)).
  rewrite !forall_ascii_app, Hone, IH by done. done.
Qed.

(** After the last parenthesis of a line come exactly its fields. *)
Lemma stat_line_fields pid comm fields eol :
  Forall (fun f => is_field f = true) fields -> forall_ascii is_whitespace eol = true ->
  (after_comm ← after_last ")" (stat_line pid comm fields eol); Some (split_whitespace after_comm))
  = Some fields /\
  after_last ") " (stat_line pid comm fields eol) = Some (join_fields fields +:+ eol).
Proof.
  intros Hfs He. pose proof (no_paren_fields _ _ Hfs He) as Hno. unfold stat_line. split.
  - rewrite (after_last_app _ pid _ (" " +:+ join_fields fields +:+ eol)).
    + simpl. by rewrite split_fields.
    + apply after_last_app, after_last_app.
      change (") " +:+ join_fields fields +:+ eol) with (")" +:+ (" " +:+ join_fields fields +:+ eol)).
      apply after_last_here, after_last_absent. simpl. exact Hno.
  - apply after_last_app, after_last_app, after_last_app, after_last_here, after_last_absent. exact Hno.
Qed.

(** ** Numbers the kernel prints *)

Definition show_digit (d : Z) : ascii := ascii_of_N (Z.to_N (48 + d)).

Fixpoint show_digits (fuel : nat) (n : Z) (acc : string) : string :=
  match fuel with
  | O => acc
  | S fuel =>
      let acc := String (show_digit (n mod 10)) acc in
      if n <? 10 then acc else show_digits fuel (n / 10) acc
  end.

(** printf's [%d] and [%llu], for numbers of at most 20 digits. *)
Definition decimal (z : Z) : string :=
  if z <? 0 then String "-" (show_digits 20 (- z) EmptyString) else show_digits 20 z EmptyString.

Lemma digit_show d : 0 <= d < 10 -> digit (show_digit d) = Some d.
Proof.
  intros H. assert (d = 0 \/ d = 1 \/ d = 2 \/ d = 3 \/ d = 4 \/ d = 5 \/ d = 6 \/ d = 7 \/ d = 8 \/ d = 9)
    as Hd by lia. by destruct_or? Hd; subst.
Qed.

Lemma parse_show_digits fuel n acc :
  0 <= n < 10 ^ Z.of_nat fuel -> parse_digits 0 (show_digits fuel n acc) = parse_digits n acc.
Proof.
  revert n acc. induction fuel as [|fuel IH]; intros n acc Hn; cbn [show_digits].
  { replace n with 0; [done|]. simpl in Hn. lia. }
  assert (Hd : 0 <= n mod 10 < 10) by (apply Z.mod_pos_bound; lia).
  destruct (Z.ltb_spec n 10) as [Hs|Hs].
  - cbn [parse_digits]. rewrite digit_show by done. f_equal. rewrite Z.mod_small; lia.
  - rewrite IH; cbn [parse_digits].
    + rewrite digit_show by done. f_equal. pose proof (Z.div_mod n 10). lia.
    + rewrite Nat2Z.inj_succ, Z.pow_succ_r in Hn by lia.
      split; [apply Z.div_pos; lia | apply Z.div_lt_upper_bound; lia].
Qed.

(** Printed digits start with a digit, so no sign is taken off them. *)
Lemma show_digits_head fuel n acc :
  0 <= n -> exists d s, show_digits (S fuel) n acc = String (show_digit d) s /\ 0 <= d < 10.
Proof.
  revert n acc. induction fuel as [|fuel IH]; intros n acc Hn;
    assert (Hd : 0 <= n mod 10 < 10) by (apply Z.mod_pos_bound; lia); cbn [show_digits].
  - destruct (n <? 10); by eexists _, _.
  - destruct (n <? 10); [by eexists _, _|]. apply IH, Z.div_pos; lia.
Qed.

Lemma parse_shown n :
  0 <= n < 10 ^ 20 ->
  parse_nat (show_digits 20 n "") = Some n /\
  exists d s, show_digits 20 n "" = String (show_digit d) s /\ 0 <= d < 10.
Proof.
  intros Hn. destruct (show_digits_head 19 n "" ltac:(lia)) as (d & s & E & Hd).
  split; [|by exists d, s]. unfold parse_nat. rewrite E, <- E. by apply (parse_show_digits 20).
Qed.

Lemma show_digit_sign d : 0 <= d < 10 -> show_digit d <> "+"%char /\ show_digit d <> "-"%char.
Proof.
  intros H. assert (d = 0 \/ d = 1 \/ d = 2 \/ d = 3 \/ d = 4 \/ d = 5 \/ d = 6 \/ d = 7 \/ d = 8 \/ d = 9)
    as Hd by lia. by destruct_or? Hd; subst.
Qed.

Lemma parse_unsigned_decimal max n :
  0 <= n <= max -> max < 10 ^ 20 -> parse_unsigned max (decimal n) = Some n.
Proof.
  intros Hn Hmax. unfold decimal, parse_unsigned. rewrite (proj2 (Z.ltb_ge n 0)) by lia.
  destruct (parse_shown n ltac:(lia)) as (Hp & d & s & E & Hd).
  destruct (show_digit_sign d Hd) as [Hplus _]. rewrite E in *.
  assert (Hsame : match String (show_digit d) s with String "+" s' => s' | _ => String (show_digit d) s end
                  = String (show_digit d) s).
  { clear -Hplus. destruct (show_digit d) as [[] [] [] [] [] [] [] []]; done. }
  rewrite Hsame, Hp. by rewrite (proj2 (Z.leb_le n max)) by lia.
Qed.

Lemma parse_i32_decimal n : in_i32 n -> parse_i32 (decimal n) = Some n.
Proof.
  intros [Hlo Hhi]. unfold decimal. destruct (Z.ltb_spec n 0).
  - cbn [parse_i32]. destruct (parse_shown (- n) ltac:(lia)) as [-> _].
    rewrite (proj2 (Z.leb_le _ _)) by lia. f_equal. lia.
  - destruct (parse_shown n ltac:(lia)) as (Hp & d & s & E & Hd).
    destruct (show_digit_sign d Hd) as [Hplus Hminus]. rewrite E in *.
    assert (Hsame : parse_i32 (String (show_digit d) s) =
      match parse_nat (String (show_digit d) s) with
      | Some n => if n <? 2 ^ 31 then Some n else None | None => None end).
    { clear -Hplus Hminus. unfold parse_i32. destruct (show_digit d) as [[] [] [] [] [] [] [] []]; done. }
    rewrite Hsame, Hp. by rewrite (proj2 (Z.ltb_lt _ _)) by lia.
Qed.

Lemma stat_line_parses_aux pid comm fields eol nice starttime :
  Forall (fun f => is_field f = true) fields -> forall_ascii is_whitespace eol = true ->
  fields !! 16%nat = Some (decimal nice) -> in_i32 nice ->
  fields !! 19%nat = Some (decimal starttime) -> in_u64 starttime ->
  parse_stat_nice_and_starttime (stat_line pid comm fields eol) = Some (nice, starttime) /\
  parse_proc_stat_starttime (stat_line pid comm fields eol) = Some starttime.
Proof.
  intros Hfs He Hn Hin Ht Hit. destruct (stat_line_fields pid comm fields eol Hfs He) as [H1 H2].
  assert (Hst : parse_unsigned U64_MAX (decimal starttime) = Some starttime).
  { apply parse_unsigned_decimal; unfold in_u64, U64_MAX in *; lia. }
  unfold parse_stat_nice_and_starttime, parse_proc_stat_starttime. split.
  - destruct (after_last ")" (stat_line pid comm fields eol)) as [a|]; [|done].
    simpl in *. injection H1 as ->. by rewrite Hn; simpl; rewrite parse_i32_decimal, Ht; simpl; rewrite ?Hst.
  - rewrite H2. simpl. by rewrite split_fields, Ht.
Qed.

(** The two stat parsers read the nice value and the start time the kernel printed,
    whatever the task's command name contains. *)
Theorem stat_line_parses pid comm fields eol nice starttime :
  Forall (fun f => is_field f = true) fields -> forall_ascii is_whitespace eol = true ->
  fields !! 16%nat = Some (decimal nice) -> in_i32 nice ->
  fields !! 19%nat = Some (decimal starttime) -> in_u64 starttime ->
  parse_stat_nice_and_starttime (stat_line pid comm fields eol) = Some (nice, starttime) /\
  parse_proc_stat_starttime (stat_line pid comm fields eol) = Some starttime.
Proof. apply stat_line_parses_aux. Qed.

Lemma stat_line_parses_witness :
  let fields := ["R"; "1"; "1"; "1"; "0"; "-1"; "4194560"; "0"; "0"; "0"; "0"; "0"; "0"; "0"; "0"; "20";
                 "-5"; "1"; "0"; "98765"; "0"]%string in
  let line := stat_line "42" "evil) S 1 (x" fields (String "010" "") in
  parse_stat_nice_and_starttime line = Some (-5, 98765) /\ parse_proc_stat_starttime line = Some 98765.
Proof.
  intros fields line. apply stat_line_parses;
    first [reflexivity | unfold in_i32; lia | unfold in_u64; lia | idtac].
  by repeat constructor.
Defined.
