(* ===== verification/Allowlist.v ===== *)
(** * Allowlist: what system-wide and cgroup targets a configuration names

    [stutter/src/daemon/config/target.rs] (the cgroups a placement may use, by role)
    and the allowlist of [daemon/config/safety.rs], over the part of [std::path::Path]
    and [str] they use.  A path is a string of bytes with Unix separators; a
    normalisation that fails is [None]. *)

From Stdlib Require Import Ascii String.
From S2P Require Import Prelude PolicyModel PolicyEval Procfs.
From stdpp Require Import gmap strings list.

#[local] Arguments String.append : simpl nomatch.

(** ** [str] *)

Definition to_ascii_lowercase_char (a : ascii) : ascii :=
  let n := N_of_ascii a in
  if ((65 <=? n) && (n <=? 90))%N then ascii_of_N (n + 32) else a.

Fixpoint to_ascii_lowercase (s : string) : string :=
  match s with
  | EmptyString => EmptyString
  | String a rest => String (to_ascii_lowercase_char a) (to_ascii_lowercase rest)
  end.

Fixpoint contains (s pattern : string) : bool :=
  String.prefix pattern s
  || match s with EmptyString => false | String _ rest => contains rest pattern end.

(** [split] on one byte: one piece more than there are separators. *)
Fixpoint split_on (sep : ascii) (s : string) : list string :=
  match s with
  | EmptyString => [EmptyString]
  | String a rest =>
      if Ascii.eqb a sep then EmptyString :: split_on sep rest
      else match split_on sep rest with
           | piece :: pieces => String a piece :: pieces
           | [] => [String a EmptyString]
           end
  end.

(** [split_once]: before and after the first separator. *)
Fixpoint split_once (sep : ascii) (s : string) : option (string * string) :=
  match s with
  | EmptyString => None
  | String c rest =>
      if Ascii.eqb c sep then Some (EmptyString, rest)
      else match split_once sep rest with
           | Some (a, b) => Some (String c a, b)
           | None => None
           end
  end.

Fixpoint trim_start_char (c : ascii) (s : string) : string :=
  match s with
  | String a rest => if Ascii.eqb a c then trim_start_char c rest else s
  | EmptyString => s
  end.

(** [strip_suffix] of one byte. *)
Fixpoint strip_suffix_char (c : ascii) (s : string) : option string :=
  match s with
  | EmptyString => None
  | String a EmptyString => if Ascii.eqb a c then Some EmptyString else None
  | String a rest => String a <$> strip_suffix_char c rest
  end.

Fixpoint replace_char (old new : ascii) (s : string) : string :=
  match s with
  | EmptyString => EmptyString
  | String a rest => String (if Ascii.eqb a old then new else a) (replace_char old new rest)
  end.

(** ** [std::path] *)

Inductive Component := RootDir | CurDir | ParentDir | Normal (part : string).

Definition is_absolute (path : string) : bool :=
  match path with String a _ => Ascii.eqb a "/" | EmptyString => false end.

Definition component_of (piece : string) : option Component :=
  if String.eqb piece "" || String.eqb piece "." then None
  else if String.eqb piece ".." then Some ParentDir
  else Some (Normal piece).

(** Empty pieces and inner dots are skipped; a relative path keeps a leading dot. *)
Definition components (path : string) : list Component :=
  let pieces := split_on "/" path in
  (if is_absolute path then [RootDir]
   else match pieces with "."%string :: _ => [CurDir] | _ => [] end)
  ++ omap component_of pieces.

Definition file_name (path : string) : option string :=
  match last (components path) with Some (Normal part) => Some part | _ => None end.

(** ** [daemon/config/target.rs] *)

Inductive CgroupTargetRole := RoleInteractive | RoleBackground | RoleGame | RoleCompile.

Definition CgroupTargetRole_as_str (role : CgroupTargetRole) : string :=
  match role with
  | RoleInteractive => "interactive" | RoleBackground => "background" | RoleGame => "game"
  | RoleCompile => "compile"
  end.

Definition target_for_role (c : DaemonCgroupTargetsConfig) (role : CgroupTargetRole)
    : option string :=
  match role with
  | RoleInteractive => interactive_cgroup c
  | RoleBackground => background_cgroup c
  | RoleGame => game_cgroup c
  | RoleCompile => compile_cgroup c
  end.

Definition targets_is_empty (c : DaemonCgroupTargetsConfig) : bool :=
  match interactive_cgroup c, background_cgroup c, game_cgroup c, compile_cgroup c with
  | None, None, None, None => true
  | _, _, _, _ => false
  end.

Definition named_targets (c : DaemonCgroupTargetsConfig) : list (string * string) :=
  omap (fun role =>
      (fun target => (CgroupTargetRole_as_str role, target)) <$> target_for_role c role)
    [RoleInteractive; RoleBackground; RoleGame; RoleCompile].

(** The parts of a path without parent traversal. *)
Fixpoint normal_parts (cs : list Component) : option (list string) :=
  match cs with
  | [] => Some []
  | RootDir :: rest | CurDir :: rest => normal_parts rest
  | Normal part :: rest => cons part <$> normal_parts rest
  | ParentDir :: _ => None
  end.

Definition normalize_cgroup_target_path (path : string) : option string :=
  if negb (is_absolute path) then None
  else match normal_parts (components path) with
       | None | Some [] => None
       | Some parts => Some (String "/" (String.concat "/" parts))
       end.

Definition contains_path (c : DaemonCgroupTargetsConfig) (path : string) : bool :=
  match normalize_cgroup_target_path path with
  | None => false
  | Some candidate =>
      existsb (fun t => bool_decide (normalize_cgroup_target_path t.2 = Some candidate))
        (named_targets c)
  end.

Definition validate_cgroup_targets (c : DaemonCgroupTargetsConfig) : bool :=
  forallb (fun t => bool_decide (is_Some (normalize_cgroup_target_path t.2))) (named_targets c).

(** ** [daemon/config/safety.rs] *)

Definition wildcard_match (pattern value : string) : bool :=
  if String.eqb pattern "*" then true
  else match strip_suffix_char "*" pattern with
       | Some prefix => String.prefix prefix value
       | None => String.eqb pattern value
       end.

Definition normalize_vm_knob_text (path : string) : string :=
  let text := trim_start_char "/" (trim path) in
  replace_char "." "/" (default text (PolicyModel.strip_prefix text "proc/sys/")).

Definition allows_operation (a : DaemonSystemWideAllowlistConfig) (operation : string) : bool :=
  bool_decide (operation ∈ operations a).

Definition allows_gpu (a : DaemonSystemWideAllowlistConfig) (card : string)
    (pci_id : option string) : bool :=
  bool_decide (card ∈ gpu_cards a)
  || match pci_id with
     | Some id => existsb (fun allowed => wildcard_match allowed id) (elements (gpu_pci_ids a))
     | None => false
     end.

Definition allows_irq_device (a : DaemonSystemWideAllowlistConfig) (device : string) : bool :=
  let device := to_ascii_lowercase device in
  existsb (fun allowed => contains device (to_ascii_lowercase allowed)) (elements (irq_devices a)).

Definition allows_vm_knob (a : DaemonSystemWideAllowlistConfig) (path : string) : bool :=
  let normalized := normalize_vm_knob_text path in
  existsb (fun allowed => String.eqb (normalize_vm_knob_text allowed) normalized)
    (elements (vm_knobs a)).

(** ** Theorems *)

(** A piece between two separators. *)
Fixpoint slash_free (s : string) : bool :=
  match s with String a rest => negb (Ascii.eqb a "/") && slash_free rest | EmptyString => true end.

(** What a normal component is made of. *)
Definition is_part (s : string) : Prop :=
  slash_free s = true /\ component_of s = Some (Normal s).

Lemma split_on_slash_free s : Forall (fun p => slash_free p = true) (split_on "/" s).
Proof.
  induction s as [|a s IH]; cbn; [by repeat constructor|].
  destruct (Ascii.eqb a "/") eqn:E; [by constructor|].
  destruct (split_on "/" s) as [|p ps]; [constructor; [cbn; by rewrite E|done]|].
  inversion IH; subst. constructor; [|done]. cbn. by rewrite E.
Qed.

Lemma split_on_app p s :
  slash_free p = true -> split_on "/" (p +:+ String "/" s) = p :: split_on "/" s.
Proof.
  induction p as [|a p IH]; [done|]. cbn [slash_free]. intros [Ha Hp]%andb_true_iff.
  apply negb_true_iff in Ha. change (String a p +:+ String "/" s) with (String a (p +:+ String "/" s)).
  cbn [split_on]. by rewrite Ha, IH.
Qed.

Lemma split_on_whole p : slash_free p = true -> split_on "/" p = [p].
Proof.
  induction p as [|a p IH]; [done|]. cbn [slash_free]. intros [Ha Hp]%andb_true_iff.
  apply negb_true_iff in Ha. cbn [split_on]. by rewrite Ha, IH.
Qed.

Lemma concat_cons x y l : String.concat "/" (x :: y :: l) = x +:+ String "/" (String.concat "/" (y :: l)).
Proof. done. Qed.

Lemma split_on_concat ps :
  ps <> [] -> Forall (fun p => slash_free p = true) ps -> split_on "/" (String.concat "/" ps) = ps.
Proof.
  induction ps as [|p ps IH]; [done|]. intros _ [Hp Hps]%Forall_cons.
  destruct ps as [|q ps]; [by apply split_on_whole|].
  rewrite concat_cons, split_on_app by done. by rewrite IH.
Qed.

Lemma component_of_part p q : component_of p = Some (Normal q) -> q = p /\ component_of q = Some (Normal q).
Proof.
  unfold component_of. intros H.
  destruct (String.eqb p "" || String.eqb p ".") eqn:E1; [done|].
  destruct (String.eqb p "..") eqn:E2; simplify_eq. by rewrite E1, E2.
Qed.

Lemma normal_parts_root cs : normal_parts (RootDir :: cs) = normal_parts cs.
Proof. done. Qed.

Lemma normal_parts_are_parts pieces parts :
  Forall (fun p => slash_free p = true) pieces ->
  normal_parts (omap component_of pieces) = Some parts -> Forall is_part parts.
Proof.
  revert parts. induction pieces as [|p pieces IH]; cbn [omap list_omap]; intros parts Hp H.
  { cbn in H. by simplify_eq. }
  apply Forall_cons in Hp as [Hs Hp]. destruct (component_of p) as [c|] eqn:E; [|by apply IH].
  assert (Hc : c = ParentDir \/ c = Normal p).
  { unfold component_of in E. repeat case_match; simplify_eq; auto. }
  destruct Hc as [-> | ->]; [done|]. cbn in H.
  destruct (normal_parts (omap component_of pieces)) as [ps|] eqn:Hps; [|done].
  cbn in H. simplify_eq. constructor; [split; done|]. by apply IH.
Qed.

Lemma omap_parts ps : Forall is_part ps -> omap component_of ps = Normal <$> ps.
Proof. induction 1 as [|p ps [_ Hp] _ IH]; [done|]. cbn. by rewrite Hp, IH. Qed.

Lemma normal_parts_normal ps : normal_parts (Normal <$> ps) = Some ps.
Proof. induction ps as [|p ps IH]; [done|]. cbn. by rewrite IH. Qed.

Lemma components_absolute s :
  components (String "/" s) = RootDir :: omap component_of (split_on "/" s).
Proof. done. Qed.

(** A normalised target is normalised: it names its parts, separated by one slash. *)
Lemma normalize_cgroup_target_path_idem path normal :
  normalize_cgroup_target_path path = Some normal ->
  normalize_cgroup_target_path normal = Some normal.
Proof.
  unfold normalize_cgroup_target_path at 1. destruct path as [|a path]; [done|]. cbn [is_absolute].
  destruct (Ascii.eqb a "/") eqn:Ha; [|done]. apply Ascii.eqb_eq in Ha as ->.
  rewrite components_absolute, normal_parts_root. cbn [negb].
  destruct (normal_parts _) as [[|p ps]|] eqn:E; [done| |done]. intros Hn.
  remember (p :: ps) as parts eqn:Hparts. injection Hn as <-.
  apply normal_parts_are_parts in E; [|apply split_on_slash_free].
  unfold normalize_cgroup_target_path. cbn [is_absolute].
  rewrite components_absolute, normal_parts_root.
  rewrite split_on_concat;
    [|by rewrite Hparts|by eapply Forall_impl; [exact E|]; intros ? []].
  rewrite omap_parts, normal_parts_normal by done. by rewrite Hparts.
Qed.

(** Which spelling of a target is asked for does not matter. *)
Lemma contains_path_spelling c p q :
  normalize_cgroup_target_path p = normalize_cgroup_target_path q ->
  contains_path c p = contains_path c q.
Proof. unfold contains_path. by intros ->. Qed.

Lemma contains_path_iff c p :
  contains_path c p = true <->
  exists role target normal,
    target_for_role c role = Some target /\
    normalize_cgroup_target_path target = Some normal /\
    normalize_cgroup_target_path p = Some normal.
Proof.
  unfold contains_path. destruct (normalize_cgroup_target_path p) as [n|] eqn:Hp;
    [|split; [done|]; by intros (? & ? & ? & _ & _ & ?)].
  rewrite existsb_exists. split.
  - intros ([name target] & Hin & Ht%bool_decide_eq_true).
    apply list_elem_of_In, list_elem_of_omap in Hin as (role & _ & Hrole).
    apply fmap_Some in Hrole as (t & Hrole & ?). simplify_eq/=. by exists role, t, n.
  - intros (role & target & m & Hrole & Htarget & ?). simplify_eq.
    exists (CgroupTargetRole_as_str role, target). split; [|by apply bool_decide_eq_true].
    apply list_elem_of_In, list_elem_of_omap. exists role. rewrite Hrole. split; [|done].
    destruct role; set_solver.
Qed.

(** Every target of a validated configuration is one it contains. *)
Lemma validated_targets_contained c role target :
  validate_cgroup_targets c = true -> target_for_role c role = Some target ->
  contains_path c target = true.
Proof.
  unfold validate_cgroup_targets. rewrite forallb_forall. intros Hv Hrole.
  apply contains_path_iff.
  assert (Hin : In (CgroupTargetRole_as_str role, target) (named_targets c)).
  { apply list_elem_of_In, list_elem_of_omap. exists role. rewrite Hrole. split; [|done].
    destruct role; set_solver. }
  apply Hv, bool_decide_eq_true in Hin as [n Hn]. by exists role, target, n.
Qed.

Example knob_spellings :
  normalize_vm_knob_text "/proc/sys/vm/swappiness" = normalize_vm_knob_text " vm.swappiness ".
Proof. done. Qed.
