(* ===== verification/CpuMask.v ===== *)
(** * CpuMask: sets of CPUs

    [affinity/cpu_mask.rs]: the bit words of a mask, the text of its ranges and the parser
    of such texts. The texts are those of profiles, restore files and of
    [Cpus_allowed_list] in [/proc]. *)

From Stdlib Require Import Ascii String.
From S2P Require Import Prelude PolicyEval Procfs Allowlist.
From stdpp Require Import list strings.
Open Scope Z_scope.

(** [libc::CPU_SETSIZE]. *)
Definition cpu_set_size : Z := 1024.

Record CpuMask := { words : list Z }.

#[export] Instance CpuMask_eq_dec : EqDecision CpuMask.
Proof. solve_decision. Defined.

Definition CpuMask_empty : CpuMask := {| words := [] |}.

Definition from_legacy_bits (bits : Z) : CpuMask :=
  if bits =? 0 then CpuMask_empty else {| words := [bits] |}.

(** [words.resize(n, 0)], when there are fewer. *)
Definition resized (n : nat) (l : list Z) : list Z :=
  if (length l <=? n)%nat then l ++ replicate (S n - length l) 0 else l.

Definition mask_set (m : CpuMask) (cpu : Z) : CpuMask :=
  let word_idx := Z.to_nat (cpu / 64) in
  {| words := alter (fun w => Z.lor w (Z.shiftl 1 (cpu mod 64))) word_idx (resized word_idx (words m)) |}.

Definition mask_contains (m : CpuMask) (cpu : Z) : bool :=
  match words m !! Z.to_nat (cpu / 64) with
  | Some w => negb (Z.land w (Z.shiftl 1 (cpu mod 64)) =? 0)
  | None => false
  end.

Definition mask_is_empty (m : CpuMask) : bool := forallb (fun w => w =? 0) (words m).

Definition is_subset_of (m other : CpuMask) : bool :=
  forallb (fun x => x) (imap (fun i w => Z.land w (Z.lnot (default 0 (words other !! i))) =? 0) (words m)).

Definition cpus (m : CpuMask) : list Z :=
  filter (fun cpu => mask_contains m cpu = true) (seqZ 0 cpu_set_size).

(** The loop of [to_range_string]: a range is extended while the next CPU follows it. *)
Fixpoint ranges_from (start last : Z) (l : list Z) : list (Z * Z) :=
  match l with
  | [] => [(start, last)]
  | c :: l => if c =? last + 1 then ranges_from start c l else (start, last) :: ranges_from c c l
  end.

Definition ranges (l : list Z) : list (Z * Z) :=
  match l with [] => [] | c :: l => ranges_from c c l end.

Definition range_string '(start, last) : string :=
  if start =? last then decimal start else decimal start +:+ "-" +:+ decimal last.

Definition to_range_string (m : CpuMask) : string :=
  String.concat "," (range_string <$> ranges (cpus m)).

Definition parse_cpu (value : string) : option Z :=
  cpu ← parse_unsigned U32_MAX (trim value);
  if cpu_set_size <=? cpu then None else Some cpu.

Definition parse_range (part : string) : option (Z * Z) :=
  match split_once "-" part with
  | Some (start, last) => start ← parse_cpu start; last ← parse_cpu last; Some (start, last)
  | None => cpu ← parse_cpu part; Some (cpu, cpu)
  end.

Definition set_range (m : CpuMask) (start last : Z) : CpuMask :=
  foldl mask_set m (seqZ start (last - start + 1)).

Definition parse_part (m : option CpuMask) (part : string) : option CpuMask :=
  m ← m;
  '(start, last) ← parse_range part;
  if last <? start then None else Some (set_range m start last).

Definition mask_parts (value : string) : list string :=
  filter (fun part => part <> EmptyString) (trim <$> split_on "," value).

Definition CpuMask_parse (value : string) : option CpuMask :=
  m ← foldl parse_part (Some CpuMask_empty) (mask_parts value);
  if mask_is_empty m then None else Some m.

(** ** What a mask holds *)

(** Words of 64 bits with no zero word at the end, of CPUs the C library knows. *)
Record mask_ok (m : CpuMask) : Prop := {
  mo_words : Forall (fun w => 0 <= w < 2 ^ 64) (words m);
  mo_trimmed : last (words m) <> Some 0;
  mo_known : forall cpu, 0 <= cpu -> mask_contains m cpu = true -> cpu < cpu_set_size }.

Lemma contains_testbit m cpu :
  0 <= cpu ->
  mask_contains m cpu =
  match words m !! Z.to_nat (cpu / 64) with Some w => Z.testbit w (cpu mod 64) | None => false end.
Proof.
  intros Hc. unfold mask_contains. destruct (words m !! _) as [w|]; [|done].
  assert (Hk : 0 <= cpu mod 64) by (apply Z.mod_pos_bound; lia).
  rewrite Z.shiftl_1_l. destruct (Z.testbit w (cpu mod 64)) eqn:E.
  - apply negb_true_iff, Z.eqb_neq. intros H0.
    assert (Hb : Z.testbit (Z.land w (2 ^ (cpu mod 64))) (cpu mod 64) = true)
      by (rewrite Z.land_spec, E, Z.pow2_bits_true by done; done).
    by rewrite H0, Z.bits_0 in Hb.
  - apply negb_false_iff, Z.eqb_eq. apply Z.bits_inj'. intros n Hn. rewrite Z.bits_0, Z.land_spec.
    destruct (decide (n = cpu mod 64)) as [->|Hne]; [by rewrite E|].
    by rewrite (Z.pow2_bits_false (cpu mod 64) n), andb_false_r by done.
Qed.

Lemma resized_lookup n l i : (i <= n)%nat -> resized n l !! i = Some (default 0 (l !! i)).
Proof.
  intros Hi. unfold resized. destruct (Nat.leb_spec (length l) n) as [Hl|Hl].
  - destruct (decide (i < length l)%nat) as [H|H].
    + rewrite lookup_app_l by done. by destruct (lookup_lt_is_Some_2 l i H) as [x ->].
    + rewrite lookup_app_r, lookup_replicate_2, (lookup_ge_None_2 l i) by lia. done.
  - by destruct (lookup_lt_is_Some_2 l i ltac:(lia)) as [x ->].
Qed.

Lemma resized_lookup_beyond n l i : (n < i)%nat -> resized n l !! i = l !! i.
Proof.
  intros Hi. unfold resized. destruct (Nat.leb_spec (length l) n) as [Hl|Hl]; [|done].
  rewrite !lookup_ge_None_2; [done|lia|]. rewrite length_app, length_replicate. lia.
Qed.

Lemma div_mod_64 c d : c / 64 = d / 64 -> c mod 64 = d mod 64 -> c = d.
Proof. intros H1 H2. rewrite (Z.div_mod c 64), (Z.div_mod d 64) by lia. congruence. Qed.

Lemma contains_set m c d :
  0 <= c -> 0 <= d -> mask_contains (mask_set m c) d = (c =? d) || mask_contains m d.
Proof.
  intros Hc Hd. rewrite !contains_testbit by done. unfold mask_set. cbn [words].
  assert (Hc64 := Z.div_pos c 64 Hc ltac:(lia)). assert (Hd64 := Z.div_pos d 64 Hd ltac:(lia)).
  assert (Hbc := Z.mod_pos_bound c 64 ltac:(lia)). assert (Hbd := Z.mod_pos_bound d 64 ltac:(lia)).
  destruct (decide (c / 64 = d / 64)) as [E|E].
  - rewrite E, list_lookup_alter_eq, resized_lookup by done. cbn [fmap option_fmap option_map].
    rewrite Z.lor_spec, Z.shiftl_1_l.
    assert (Hold : match words m !! Z.to_nat (d / 64) with Some w => Z.testbit w (d mod 64) | None => false end
                   = Z.testbit (default 0 (words m !! Z.to_nat (d / 64))) (d mod 64)).
    { destruct (words m !! _); [done|]. cbn. by rewrite Z.bits_0. }
    rewrite Hold, orb_comm. f_equal.
    destruct (Z.eqb_spec c d) as [->|Hne]; [apply Z.pow2_bits_true; lia|].
    apply Z.pow2_bits_false. intros E2. by apply Hne, div_mod_64.
  - rewrite list_lookup_alter_ne by lia. destruct (Z.eqb_spec c d) as [->|Hne]; [done|]. cbn [orb].
    destruct (decide (Z.to_nat (d / 64) <= Z.to_nat (c / 64))%nat) as [H|H].
    + rewrite resized_lookup by done. destruct (words m !! _); [done|]. cbn. apply Z.bits_0.
    + by rewrite resized_lookup_beyond by lia.
Qed.

Lemma contains_empty c : mask_contains CpuMask_empty c = false.
Proof. unfold mask_contains. cbn. done. Qed.

(** ** Equal masks *)

Lemma ok_word m i w n :
  mask_ok m -> words m !! i = Some w -> 64 <= n -> Z.testbit w n = false.
Proof.
  intros Hm Hw Hn. apply (Forall_lookup_1 _ _ _ _ (mo_words m Hm)) in Hw.
  apply Z.bits_above_log2; [lia|]. destruct (decide (w = 0)) as [->|]; [cbn; lia|].
  apply Z.log2_lt_pow2; [lia|]. apply Z.lt_le_trans with (2 ^ 64); [lia|]. by apply Z.pow_le_mono_r.
Qed.

(** The bit [k] of the word [i] is the CPU [64 * i + k]. *)
Lemma word_bit m i w k :
  words m !! i = Some w -> 0 <= k < 64 -> Z.testbit w k = mask_contains m (64 * Z.of_nat i + k).
Proof.
  intros Hw Hk. rewrite contains_testbit by lia.
  replace ((64 * Z.of_nat i + k) / 64) with (Z.of_nat i) by (apply Z.div_unique with k; lia).
  replace ((64 * Z.of_nat i + k) mod 64) with k by (apply Z.mod_unique with (Z.of_nat i); lia).
  by rewrite Nat2Z.id, Hw.
Qed.

(** A word that is not zero holds a CPU. *)
Lemma nonzero_word m i w :
  mask_ok m -> words m !! i = Some w -> w <> 0 ->
  exists k, 0 <= k < 64 /\ mask_contains m (64 * Z.of_nat i + k) = true.
Proof.
  intros Hm Hw Hz. pose proof (Forall_lookup_1 _ _ _ _ (mo_words m Hm) Hw) as Hr. cbn in Hr.
  assert (Hb : Z.testbit w (Z.log2 w) = true) by (apply Z.bit_log2; lia).
  assert (0 <= Z.log2 w < 64) by (split; [apply Z.log2_nonneg|apply Z.log2_lt_pow2; lia]).
  exists (Z.log2 w). split; [done|]. by rewrite <- (word_bit m i w).
Qed.

Lemma longer_contains m m' :
  mask_ok m -> (length (words m') < length (words m))%nat ->
  exists cpu, 0 <= cpu /\ mask_contains m cpu = true /\ mask_contains m' cpu = false.
Proof.
  intros Hm Hl. destruct (last (words m)) as [w|] eqn:E; [|apply last_None in E; rewrite E in Hl; cbn in Hl; lia].
  assert (Hw : words m !! pred (length (words m)) = Some w) by (by rewrite <- last_lookup).
  destruct (nonzero_word m _ w Hm Hw) as (k & Hk & Hc).
  { intros ->. by apply (mo_trimmed m Hm). }
  exists (64 * Z.of_nat (pred (length (words m))) + k). split; [lia|]. split; [done|].
  rewrite contains_testbit by lia.
  replace ((64 * Z.of_nat (pred (length (words m))) + k) / 64) with (Z.of_nat (pred (length (words m))))
    by (apply Z.div_unique with k; lia).
  rewrite Nat2Z.id, lookup_ge_None_2 by lia. done.
Qed.

(** Masks are equal exactly when they hold the same CPUs. *)
Lemma mask_ext m m' :
  mask_ok m -> mask_ok m' ->
  (forall cpu, 0 <= cpu -> mask_contains m cpu = mask_contains m' cpu) -> m = m'.
Proof.
  intros Hm Hm' Hsame.
  assert (Hlen : length (words m) = length (words m')).
  { destruct (Nat.lt_trichotomy (length (words m)) (length (words m'))) as [H|[H|H]]; [|done|].
    - destruct (longer_contains m' m Hm' H) as (c & Hc & H1 & H2). rewrite Hsame in H2 by done. congruence.
    - destruct (longer_contains m m' Hm H) as (c & Hc & H1 & H2). rewrite Hsame in H1 by done. congruence. }
  destruct m as [l], m' as [l']. f_equal. apply list_eq_same_length with (length l); [done..|].
  cbn in *. intros i w w' Hi Hw Hw'. apply Z.bits_inj'. intros n Hn.
  destruct (decide (n < 64)) as [Hn64|Hn64].
  - rewrite (word_bit {| words := l |} i w n), (word_bit {| words := l' |} i w' n) by done. apply Hsame. lia.
  - rewrite (ok_word {| words := l |} i w n Hm), (ok_word {| words := l' |} i w' n Hm') by (done || lia). done.
Qed.

(** ** Setting CPUs *)

Lemma empty_ok : mask_ok CpuMask_empty.
Proof. split; [by constructor|done|]. intros cpu _. by rewrite contains_empty. Qed.

Lemma set_words n f l :
  Forall (fun w => 0 <= w < 2 ^ 64) l -> (forall w, 0 <= w < 2 ^ 64 -> 0 < f w < 2 ^ 64) ->
  last l <> Some 0 ->
  let l' := alter f n (resized n l) in
  Forall (fun w => 0 <= w < 2 ^ 64) l' /\ last l' <> Some 0.
Proof.
  intros Hl Hf Hz l'. assert (Hr : Forall (fun w => 0 <= w < 2 ^ 64) (resized n l)).
  { unfold resized. destruct (_ <=? _)%nat; [|done]. apply Forall_app. split; [done|].
    apply Forall_replicate. lia. }
  assert (Hlen : length l' = length (resized n l)) by apply length_alter.
  assert (Hn : (n < length (resized n l))%nat).
  { unfold resized. destruct (Nat.leb_spec (length l) n); rewrite ?length_app, ?length_replicate; lia. }
  split.
  - apply Forall_lookup. intros i w Hi. subst l'. destruct (decide (i = n)) as [->|Hne].
    + rewrite list_lookup_alter_eq in Hi. apply fmap_Some in Hi as (v & Hv & ->).
      assert (0 < f v < 2 ^ 64) by (by apply Hf, (Forall_lookup_1 _ _ _ _ Hr Hv)). lia.
    + rewrite list_lookup_alter_ne in Hi by done. by apply (Forall_lookup_1 _ _ _ _ Hr Hi).
  - rewrite last_lookup, Hlen. subst l'. unfold resized in *. destruct (Nat.leb_spec (length l) n) as [H|H].
    + rewrite length_app, length_replicate. replace (pred (length l + (S n - length l))) with n by lia.
      rewrite list_lookup_alter_eq. intros (v & Hv & E)%fmap_Some.
      assert (0 < f v < 2 ^ 64) by (by apply Hf, (Forall_lookup_1 _ _ _ _ Hr Hv)). lia.
    + destruct (decide (pred (length l) = n)) as [E|E].
      * rewrite E, list_lookup_alter_eq. intros (v & Hv & E2)%fmap_Some.
        assert (0 < f v < 2 ^ 64) by (by apply Hf, (Forall_lookup_1 _ _ _ _ Hr Hv)). lia.
      * rewrite list_lookup_alter_ne by done. by rewrite <- last_lookup.
Qed.

Lemma lor_bit_bounds w k : 0 <= w < 2 ^ 64 -> 0 <= k < 64 -> 0 < Z.lor w (Z.shiftl 1 k) < 2 ^ 64.
Proof.
  intros Hw Hk. rewrite Z.shiftl_1_l. assert (Hp : 0 < 2 ^ k) by lia.
  assert (Hn : 0 <= Z.lor w (2 ^ k)) by (apply Z.lor_nonneg; lia).
  assert (Hz : Z.lor w (2 ^ k) <> 0) by (rewrite Z.lor_eq_0_iff; lia).
  split; [lia|]. apply Z.log2_lt_pow2; [lia|]. rewrite Z.log2_lor by lia.
  rewrite Z.log2_pow2 by lia. apply Z.max_lub_lt; [|lia].
  destruct (decide (w = 0)) as [->|]; [cbn; lia|]. apply Z.log2_lt_pow2; lia.
Qed.

Lemma set_ok m c : mask_ok m -> 0 <= c < cpu_set_size -> mask_ok (mask_set m c).
Proof.
  intros Hm Hc. unfold mask_set.
  destruct (set_words (Z.to_nat (c / 64)) (fun w => Z.lor w (Z.shiftl 1 (c mod 64))) (words m)) as [Hw Hz].
  - apply Hm.
  - intros w Hw. apply lor_bit_bounds; [done|]. apply Z.mod_pos_bound. lia.
  - apply Hm.
  - split; [done|done|]. intros d Hd Hin.
    change (mask_contains (mask_set m c) d = true) in Hin. rewrite contains_set in Hin by lia.
    apply orb_true_iff in Hin as [->%Z.eqb_eq|Hin]; [lia|]. by apply (mo_known m Hm).
Qed.

Lemma set_all m l :
  mask_ok m -> Forall (fun c => 0 <= c < cpu_set_size) l ->
  let m' := foldl mask_set m l in
  mask_ok m' /\ forall d, 0 <= d -> mask_contains m' d = bool_decide (d ∈ l) || mask_contains m d.
Proof.
  revert m. induction l as [|c l IH]; intros m Hm Hl; cbn [foldl].
  { split; [done|]. intros d _. by rewrite bool_decide_eq_false_2 by (apply not_elem_of_nil). }
  apply Forall_cons in Hl as [Hc Hl]. destruct (IH (mask_set m c)) as [Hok Hin]; [by apply set_ok|done|].
  split; [done|]. intros d Hd. rewrite Hin, contains_set by lia. rewrite orb_assoc. f_equal.
  destruct (Z.eqb_spec c d) as [->|Hne].
  - rewrite orb_true_r, bool_decide_eq_true_2; [done|]. by left.
  - rewrite orb_false_r. apply bool_decide_ext. rewrite elem_of_cons. naive_solver.
Qed.

Lemma set_range_spec m start last :
  mask_ok m -> 0 <= start <= last -> last < cpu_set_size ->
  mask_ok (set_range m start last) /\
  forall d, 0 <= d ->
    mask_contains (set_range m start last) d = ((start <=? d) && (d <=? last)) || mask_contains m d.
Proof.
  intros Hm H1 H2. destruct (set_all m (seqZ start (last - start + 1)) Hm) as [Hok Hin].
  { apply Forall_forall. intros c. rewrite elem_of_seqZ. lia. }
  split; [done|]. intros d Hd. unfold set_range. rewrite Hin by done. f_equal.
  apply eq_bool_prop_intro. rewrite bool_decide_spec, elem_of_seqZ, andb_True.
  rewrite !Is_true_true, !Z.leb_le. lia.
Qed.

(** ** Parsing *)

(** The CPUs a text names. *)
Definition named (parts : list string) (cpu : Z) : Prop :=
  exists part start last, part ∈ parts /\ parse_range part = Some (start, last) /\ start <= cpu <= last.

Lemma parse_digits_nonneg s acc n : 0 <= acc -> parse_digits acc s = Some n -> 0 <= n.
Proof.
  revert acc. induction s as [|c s IH]; intros acc Ha; cbn [parse_digits]; [by intros [= <-]|].
  destruct (digit c) as [d|] eqn:E; [|done]. apply IH. unfold digit in E.
  destruct (_ && _) eqn:H; [|done]. apply andb_true_iff in H as [H _]. apply Z.leb_le in H. simplify_eq. lia.
Qed.

Lemma parse_unsigned_nonneg max s n : parse_unsigned max s = Some n -> 0 <= n.
Proof.
  unfold parse_unsigned. set (t := match s with String "+" s' => s' | _ => s end). clearbody t.
  destruct (parse_nat t) as [k|] eqn:E; [|done]. destruct (k <=? max); [|done]. intros [= <-].
  unfold parse_nat in E. destruct t; [done|]. by apply (parse_digits_nonneg _ 0) in E.
Qed.

Lemma parse_cpu_range v c : parse_cpu v = Some c -> 0 <= c < cpu_set_size.
Proof.
  unfold parse_cpu. intros (n & Hn & H)%bind_Some. destruct (Z.leb_spec cpu_set_size n); [done|].
  simplify_eq. split; [|done]. by apply parse_unsigned_nonneg in Hn.
Qed.

Lemma parse_range_bounds part start last :
  parse_range part = Some (start, last) -> 0 <= start < cpu_set_size /\ 0 <= last < cpu_set_size.
Proof.
  unfold parse_range. destruct (split_once "-" part) as [[a b]|].
  - intros (x & Hx & (y & Hy & ?)%bind_Some)%bind_Some. simplify_eq.
    split; by eapply parse_cpu_range.
  - intros (x & Hx & ?)%bind_Some. simplify_eq. split; by eapply parse_cpu_range.
Qed.

Lemma fold_none parts : foldl parse_part None parts = None.
Proof. by induction parts. Qed.

Lemma fold_parts m parts m' :
  mask_ok m -> foldl parse_part (Some m) parts = Some m' ->
  mask_ok m' /\ forall d, 0 <= d -> (mask_contains m' d = true <-> named parts d \/ mask_contains m d = true).
Proof.
  revert m. induction parts as [|part parts IH]; intros m Hm; cbn [foldl].
  { intros [= ->]. split; [done|]. intros d Hd. split; [by right|].
    intros [(p & s & l & Hp & _)|?]; [by apply not_elem_of_nil in Hp|done]. }
  unfold parse_part at 2. cbn [mbind option_bind].
  destruct (parse_range part) as [[start last]|] eqn:E; cbn [mbind option_bind]; [|by rewrite fold_none].
  destruct (parse_range_bounds _ _ _ E) as [Hs Hl].
  destruct (Z.ltb_spec last start) as [Hlt|Hle]; [by rewrite fold_none|]. intros Hf.
  destruct (set_range_spec m start last Hm) as [Hok Hin]; [lia|lia|].
  destruct (IH _ Hok Hf) as [Hok' Hin']. split; [done|]. intros d Hd. rewrite Hin', Hin by done.
  rewrite orb_true_iff, andb_true_iff, !Z.leb_le. split.
  - intros [(p & s & l & Hp & ?)|[?|?]]; [|left; exists part, start, last; by split; [left|]|by right].
    left. exists p, s, l. split; [by right|done].
  - intros [(p & s & l & Hp & Hr & Hd')|?]; [|by right; right].
    apply elem_of_cons in Hp as [->|Hp]; [|left; by exists p, s, l].
    rewrite E in Hr. simplify_eq. by right; left.
Qed.

Lemma is_empty_spec m : mask_is_empty m = true -> forall d, 0 <= d -> mask_contains m d = false.
Proof.
  unfold mask_is_empty. intros H d Hd. rewrite contains_testbit by done.
  destruct (words m !! _) as [w|] eqn:E; [|done].
  rewrite forallb_forall in H. apply list_elem_of_lookup_2, list_elem_of_In, H, Z.eqb_eq in E as ->.
  apply Z.bits_0.
Qed.

(** A parsed mask holds exactly the CPUs the ranges of its text name. *)
Theorem mask_parse_exact value m :
  CpuMask_parse value = Some m ->
  mask_ok m /\ forall cpu, 0 <= cpu -> (mask_contains m cpu = true <-> named (mask_parts value) cpu).
Proof.
  unfold CpuMask_parse. intros (m' & Hf & H)%bind_Some. destruct (mask_is_empty m'); [done|]. simplify_eq.
  destruct (fold_parts _ _ _ empty_ok Hf) as [Hok Hin]. split; [done|]. intros cpu Hc.
  rewrite Hin, contains_empty by done. naive_solver.
Qed.

(** ** Printing *)

Lemma ranges_from_cover start last l cpu :
  start <= last ->
  (exists r, r ∈ ranges_from start last l /\ r.1 <= cpu <= r.2) <-> start <= cpu <= last \/ cpu ∈ l.
Proof.
  revert start last. induction l as [|c l IH]; intros start last Hle; cbn [ranges_from].
  { split; [intros (r & ->%list_elem_of_singleton & ?); by left|].
    intros [?|[]%not_elem_of_nil]. exists (start, last). split; [by apply list_elem_of_singleton|done]. }
  destruct (Z.eqb_spec c (last + 1)) as [->|Hne].
  - rewrite IH by lia. rewrite elem_of_cons. split; [|naive_solver lia].
    intros [H|H]; [|by right; right]. destruct (decide (cpu = last + 1)); [by right; left|left; lia].
  - rewrite elem_of_cons. split.
    + intros (r & [->|Hr]%elem_of_cons & Hc); [by left|].
      destruct (proj1 (IH c c ltac:(lia))) as [H|H]; [by exists r|right; left; lia|by right; right].
    + intros [H|H]; [exists (start, last); by split; [left|]|].
      destruct (proj2 (IH c c ltac:(lia))) as (r & Hr & Hc).
      { destruct H as [->|H]; [left; lia|by right]. }
      exists r. split; [by right|done].
Qed.

Lemma ranges_cover l cpu : (exists r, r ∈ ranges l /\ r.1 <= cpu <= r.2) <-> cpu ∈ l.
Proof.
  destruct l as [|c l]; cbn [ranges].
  - split; [intros (r & []%not_elem_of_nil & _)|intros []%not_elem_of_nil].
  - rewrite ranges_from_cover, elem_of_cons by lia. naive_solver lia.
Qed.

Lemma ranges_from_bounds start last l (P : Z -> Prop) :
  P start -> P last -> start <= last -> Forall P l ->
  Forall (fun r => P r.1 /\ P r.2 /\ r.1 <= r.2) (ranges_from start last l).
Proof.
  revert start last. induction l as [|c l IH]; intros start last Hs Hl Hle Hf; cbn [ranges_from].
  { by repeat constructor. }
  apply Forall_cons in Hf as [Hc Hf]. destruct (Z.eqb_spec c (last + 1)) as [->|Hne].
  - apply IH; try done. lia.
  - constructor; [done|]. by apply IH.
Qed.

Lemma ranges_bounds l (P : Z -> Prop) :
  Forall P l -> Forall (fun r => P r.1 /\ P r.2 /\ r.1 <= r.2) (ranges l).
Proof.
  destruct l as [|c l]; [by constructor|]. intros [Hc Hl]%Forall_cons. by apply ranges_from_bounds.
Qed.

(** The texts of ranges: no white space, no comma. *)
Definition range_char (c : ascii) : bool := negb (is_whitespace c) && negb (Ascii.eqb c ",").

Definition lacks (sep : ascii) (s : string) : bool := forall_ascii (fun c => negb (Ascii.eqb c sep)) s.

Definition is_digit (c : ascii) : bool := match digit c with Some _ => true | None => false end.

Lemma digit_chars c : is_digit c = true -> range_char c = true /\ Ascii.eqb c "-" = false.
Proof. destruct c as [[] [] [] [] [] [] [] []]; vm_compute; split; congruence. Qed.

Lemma show_digits_are_digits fuel n acc :
  0 <= n -> forall_ascii is_digit acc = true -> forall_ascii is_digit (show_digits fuel n acc) = true.
Proof.
  revert n acc. induction fuel as [|fuel IH]; intros n acc Hn Ha; cbn [show_digits]; [done|].
  assert (Hd : 0 <= n mod 10 < 10) by (apply Z.mod_pos_bound; lia).
  assert (Ha' : forall_ascii is_digit (String (show_digit (n mod 10)) acc) = true).
  { cbn. unfold is_digit at 1. by rewrite digit_show. }
  destruct (n <? 10); [done|]. apply IH; [apply Z.div_pos; lia|done].
Qed.

Lemma decimal_digits n : 0 <= n -> forall_ascii is_digit (decimal n) = true /\ decimal n <> EmptyString.
Proof.
  intros Hn. unfold decimal. rewrite (proj2 (Z.ltb_ge n 0)) by lia. split; [by apply show_digits_are_digits|].
  destruct (show_digits_head 19 n "" Hn) as (d & s & E & _). by rewrite E.
Qed.

Lemma decimal_chars n : 0 <= n -> forall_ascii range_char (decimal n) = true /\ lacks "-" (decimal n) = true.
Proof.
  intros Hn. destruct (decimal_digits n Hn) as [H _].
  split; (eapply forall_ascii_impl; [|exact H]); intros c Hc; destruct (digit_chars c Hc) as [H1 H2]; [done|].
  by rewrite H2.
Qed.

Lemma trim_none s : forall_ascii (fun c => negb (is_whitespace c)) s = true -> trim s = s.
Proof.
  intros H. unfold trim. assert (Hs : trim_start s = s).
  { destruct s as [|c s]; [done|]. cbn in *. apply andb_true_iff in H as [H _].
    apply negb_true_iff in H. by rewrite H. }
  rewrite Hs. clear Hs. induction s as [|c s IH]; [done|]. cbn in *. apply andb_true_iff in H as [Hc H].
  apply negb_true_iff in Hc. rewrite Hc. cbn. by rewrite IH.
Qed.

Lemma trim_range s : forall_ascii range_char s = true -> trim s = s.
Proof. intros H. apply trim_none. eapply forall_ascii_impl; [|exact H]. intros c [? _]%andb_true_iff. done. Qed.

Lemma split_once_lacks sep s : lacks sep s = true -> split_once sep s = None.
Proof.
  unfold lacks. induction s as [|c s IH]; cbn; [done|]. intros [Hc Hs]%andb_true_iff.
  apply negb_true_iff in Hc. by rewrite Hc, IH.
Qed.

Lemma split_once_app sep a b : lacks sep a = true -> split_once sep (a +:+ String sep b) = Some (a, b).
Proof.
  unfold lacks. induction a as [|c a IH]; cbn [forall_ascii].
  { change (EmptyString +:+ String sep b) with (String sep b). cbn [split_once]. by rewrite Ascii.eqb_refl. }
  intros [Hc Ha]%andb_true_iff. apply negb_true_iff in Hc.
  change (String c a +:+ String sep b) with (String c (a +:+ String sep b)). cbn [split_once].
  by rewrite Hc, IH.
Qed.

Lemma split_comma_app p s :
  lacks "," p = true -> split_on "," (p +:+ String "," s) = p :: split_on "," s.
Proof.
  unfold lacks. induction p as [|c p IH]; [done|]. cbn [forall_ascii]. intros [Hc Hp]%andb_true_iff.
  apply negb_true_iff in Hc. change (String c p +:+ String "," s) with (String c (p +:+ String "," s)).
  cbn [split_on]. by rewrite Hc, IH.
Qed.

Lemma split_comma_whole p : lacks "," p = true -> split_on "," p = [p].
Proof.
  unfold lacks. induction p as [|c p IH]; [done|]. cbn [forall_ascii]. intros [Hc Hp]%andb_true_iff.
  apply negb_true_iff in Hc. cbn [split_on]. by rewrite Hc, IH.
Qed.

Lemma split_commas ps :
  ps <> [] -> Forall (fun p => lacks "," p = true) ps -> split_on "," (String.concat "," ps) = ps.
Proof.
  induction ps as [|p ps IH]; [done|]. intros _ [Hp Hps]%Forall_cons.
  destruct ps as [|q ps]; [by apply split_comma_whole|].
  change (String.concat "," (p :: q :: ps)) with (p +:+ String "," (String.concat "," (q :: ps))).
  rewrite split_comma_app by done. by rewrite IH.
Qed.

Lemma parse_cpu_decimal c : 0 <= c < cpu_set_size -> parse_cpu (decimal c) = Some c.
Proof.
  intros Hc. unfold parse_cpu. rewrite trim_range by (apply decimal_chars; lia).
  rewrite parse_unsigned_decimal by (unfold U32_MAX, cpu_set_size in *; lia). cbn.
  by rewrite (proj2 (Z.leb_gt cpu_set_size c)) by lia.
Qed.

Lemma range_string_ok r :
  0 <= r.1 < cpu_set_size -> 0 <= r.2 < cpu_set_size ->
  forall_ascii range_char (range_string r) = true /\ range_string r <> EmptyString /\
  parse_range (range_string r) = Some r.
Proof.
  destruct r as [s l]. cbn [fst snd]. intros Hs Hl. unfold range_string.
  destruct (decimal_chars s ltac:(lia)) as [Hs1 Hs2]. destruct (decimal_chars l ltac:(lia)) as [Hl1 Hl2].
  destruct (decimal_digits s ltac:(lia)) as [_ Hne]. unfold parse_range.
  destruct (Z.eqb_spec s l) as [->|Hsl].
  - rewrite split_once_lacks, parse_cpu_decimal by done. done.
  - change ("-" +:+ decimal l) with (String "-" (decimal l)).
    rewrite split_once_app, !parse_cpu_decimal by done. split_and!; [|by destruct (decimal s)|done].
    rewrite forall_ascii_app, Hs1. cbn. by rewrite Hl1.
Qed.

Lemma cpus_spec m cpu : cpu ∈ cpus m <-> 0 <= cpu < cpu_set_size /\ mask_contains m cpu = true.
Proof. unfold cpus. rewrite list_elem_of_filter, elem_of_seqZ. unfold cpu_set_size. naive_solver lia. Qed.

(** The parts of a printed mask are the texts of its ranges. *)
Lemma printed_parts m : mask_parts (to_range_string m) = range_string <$> ranges (cpus m).
Proof.
  unfold mask_parts, to_range_string. set (rs := ranges (cpus m)).
  assert (Hb : Forall (fun r => 0 <= r.1 < cpu_set_size /\ 0 <= r.2 < cpu_set_size /\ r.1 <= r.2) rs).
  { apply (ranges_bounds _ (fun c => 0 <= c < cpu_set_size)). apply Forall_forall. intros c.
    rewrite cpus_spec. tauto. }
  clearbody rs. destruct (decide (rs = [])) as [->|Hne]; [done|].
  rewrite split_commas; [|by destruct rs|].
  - clear Hne. induction Hb as [|r rs (H1 & H2 & _) _ IH]; [done|].
    destruct (range_string_ok r H1 H2) as (Hc & Hn & _). cbn [fmap list_fmap].
    rewrite trim_range by done. rewrite filter_cons_True by done. by rewrite IH.
  - apply Forall_fmap. eapply Forall_impl; [exact Hb|]. intros r (H1 & H2 & _).
    destruct (range_string_ok r H1 H2) as (Hc & _ & _). cbn. eapply forall_ascii_impl; [|exact Hc].
    intros c [_ ?]%andb_true_iff. done.
Qed.

Lemma printed_names m cpu : mask_ok m -> 0 <= cpu ->
  named (mask_parts (to_range_string m)) cpu <-> mask_contains m cpu = true.
Proof.
  intros Hm Hc. rewrite printed_parts.
  assert (Hb : Forall (fun r => 0 <= r.1 < cpu_set_size /\ 0 <= r.2 < cpu_set_size /\ r.1 <= r.2) (ranges (cpus m))).
  { apply (ranges_bounds _ (fun c => 0 <= c < cpu_set_size)). apply Forall_forall. intros c.
    rewrite cpus_spec. tauto. }
  rewrite Forall_forall in Hb.
  transitivity (cpu ∈ cpus m); [|rewrite cpus_spec; split; [tauto|]; intros H; split; [|done];
    split; [done|by apply (mo_known m Hm)]].
  rewrite <- ranges_cover. split.
  - intros (part & s & l & (r & -> & Hr)%list_elem_of_fmap & Hp & Hin). exists r. split; [done|].
    destruct (Hb r Hr) as (H1 & H2 & _). destruct (range_string_ok r H1 H2) as (_ & _ & Hpr).
    rewrite Hpr in Hp. by simplify_eq.
  - intros ([s l] & Hr & Hin). destruct (Hb _ Hr) as (H1 & H2 & _).
    destruct (range_string_ok _ H1 H2) as (_ & _ & Hpr).
    exists (range_string (s, l)), s, l. split; [by apply list_elem_of_fmap_2|done].
Qed.

Lemma fold_parts_some m parts :
  Forall (fun part => exists start last, parse_range part = Some (start, last) /\ start <= last) parts ->
  is_Some (foldl parse_part (Some m) parts).
Proof.
  intros H. revert m. induction H as [|part parts (s & l & E & Hle) _ IH]; intros m; [by eexists|].
  cbn [foldl]. unfold parse_part at 2. cbn. rewrite E. cbn.
  rewrite (proj2 (Z.ltb_ge l s)) by done. apply IH.
Qed.

(** C36. The text of a mask is read back as the same mask, word by word. *)
Theorem cpu_mask_round_trip m :
  mask_ok m -> mask_is_empty m = false -> CpuMask_parse (to_range_string m) = Some m.
Proof.
  intros Hm Hne. unfold CpuMask_parse.
  destruct (fold_parts_some CpuMask_empty (mask_parts (to_range_string m))) as [m' Hf].
  { rewrite printed_parts. apply Forall_fmap.
    assert (Hb : Forall (fun c => 0 <= c < cpu_set_size) (cpus m))
      by (apply Forall_forall; intros c; rewrite cpus_spec; tauto).
    eapply Forall_impl; [by apply ranges_bounds|]. intros [s l] (H1 & H2 & Hle).
    exists s, l. split; [by apply range_string_ok|done]. }
  destruct (fold_parts _ _ _ empty_ok Hf) as [Hok Hin].
  assert (m' = m) as ->.
  { apply mask_ext; [done|done|]. intros cpu Hc. apply eq_bool_prop_intro.
    rewrite !Is_true_true, Hin, contains_empty, printed_names by done. naive_solver. }
  rewrite Hf. cbn. by rewrite Hne.
Qed.

(** The subset test, word by word, is inclusion. *)
Theorem is_subset_exact m other :
  mask_ok m -> (is_subset_of m other = true <->
    forall cpu, 0 <= cpu -> mask_contains m cpu = true -> mask_contains other cpu = true).
Proof.
  intros Hm. unfold is_subset_of. rewrite forallb_forall.
  transitivity (forall i w, words m !! i = Some w -> Z.land w (Z.lnot (default 0 (words other !! i))) = 0).
  { split.
    - intros H i w Hw. apply Z.eqb_eq, H. apply list_elem_of_In, list_elem_of_lookup. exists i.
      rewrite list_lookup_imap, Hw. done.
    - intros H b Hb. apply list_elem_of_In, list_elem_of_lookup in Hb as [i Hi].
      rewrite list_lookup_imap in Hi. destruct (words m !! i) as [w|] eqn:Hw; [|done]. cbn in Hi.
      simplify_eq. by apply Z.eqb_eq, H. }
  assert (Hbit : forall i cpu, 0 <= cpu -> Z.to_nat (cpu / 64) = i ->
    mask_contains other cpu = Z.testbit (default 0 (words other !! i)) (cpu mod 64)).
  { intros i cpu Hc <-. rewrite contains_testbit by done. destruct (words other !! _); [done|].
    cbn. by rewrite Z.bits_0. }
  split.
  - intros H cpu Hc Hin. rewrite (Hbit _ cpu Hc eq_refl). rewrite contains_testbit in Hin by done.
    destruct (words m !! Z.to_nat (cpu / 64)) as [w|] eqn:Hw; [|done].
    assert (Hk := Z.mod_pos_bound cpu 64 ltac:(lia)).
    assert (Hz : Z.testbit (Z.land w (Z.lnot (default 0 (words other !! Z.to_nat (cpu / 64))))) (cpu mod 64) = false)
      by (rewrite (H _ _ Hw); apply Z.bits_0).
    rewrite Z.land_spec, Hin, Z.lnot_spec in Hz by lia. by apply negb_false_iff in Hz.
  - intros H i w Hw. apply Z.bits_inj'. intros n Hn. rewrite Z.bits_0, Z.land_spec, Z.lnot_spec by done.
    destruct (decide (n < 64)) as [Hn64|Hn64]; [|by rewrite (ok_word m i w n Hm) by (done || lia)].
    rewrite (word_bit m i w n) by done. destruct (mask_contains m _) eqn:E; [|done].
    apply H in E; [|lia]. rewrite (Hbit i) in E; [|lia|].
    + replace ((64 * Z.of_nat i + n) mod 64) with n in E by (apply Z.mod_unique with (Z.of_nat i); lia).
      by rewrite E.
    + replace ((64 * Z.of_nat i + n) / 64) with (Z.of_nat i) by (apply Z.div_unique with n; lia).
      by rewrite Nat2Z.id.
Qed.

Example mask_text : option_map to_range_string (CpuMask_parse " 8-11, 2,0-1,130") = Some "0-2,8-11,130"%string.
Proof. by vm_compute. Qed.

Example mask_refused :
  CpuMask_parse "5-2" = None /\ CpuMask_parse "1024" = None /\ CpuMask_parse " , " = None.
Proof. by vm_compute. Qed.
