(* ===== verification/Tasks.v ===== *)
(** * Per-task actions: kernel interface, task identity, planned writes

    [stutter/src/actions/restore_identity.rs], [restore_write.rs],
    [transaction.rs] and [syscalls.rs].  The kernel is the class [TaskKernel]:
    what the files under [/proc/<tid>] read and what a system call answers and
    does to the machine; [TaskKernelLaws] states what proc(5) and setpriority(2)
    document of it. *)

From Stdlib Require Import String.
From S2P Require Import Prelude PolicyModel PolicyEval ActionModel ActionRunner Journal Procfs.

(** ** The kernel *)

(** [io::Error] by the errno it carries. *)
Inductive Errno := ESRCH | ENOENT | EPERM | EACCES | EINVAL | EOtherErrno (code : Z).

#[export] Instance Errno_eq_dec : EqDecision Errno.
Proof. solve_decision. Defined.

Class TaskKernel (S : Type) := {
  (** [fs::read_to_string], [None] on an error *)
  proc_stat : Z -> S -> option string;
  proc_status : Z -> S -> option string;
  proc_comm : Z -> S -> option string;
  (** [fs::read_link] *)
  proc_exe : Z -> S -> option string;
  proc_task_exists : Z -> S -> bool;
  setpriority : Z -> Z -> S -> option Errno * S;
}.

(** ** Actions on the host *)

Section ops.
Context {S : Type} {FS : FileSystem S} {TK : TaskKernel S}.

Definition with_sys (s : S) (d : Disk S) : Disk S := {|
  journal := journal d; journal_old := journal_old d; ledger := ledger d;
  ledger_old := ledger_old d; sys := s; undone := undone d |}.

(** A system call that may change the machine. *)
Definition sys_write (f : S -> option Errno * S) : HM S (unit + Errno) :=
  let* r := get_disk (fun d => f (sys d)) in
  let* _ := set_disk (with_sys r.2) in
  hret match r.1 with None => inl tt | Some e => inr e end.

(** [setpriority_process] *)
Definition set_task_nice (t nice : Z) : HM S (unit + Errno) := sys_write (setpriority t nice).

(** A read of the machine. *)
Definition observe {A} (f : S -> A) : HM S A := get_disk (fun d => f (sys d)).

(** ** [restore_identity.rs] *)

Inductive RestoreIdentityStatus := SameTask | IdentityMissing | IdentityMismatch | UnknownLegacy.

Definition starttime_of (t : Z) (s : S) : option Z := proc_stat t s ≫= parse_proc_stat_starttime.
Definition tgid_of (t : Z) (s : S) : option Z := proc_status t s ≫= status_tgid.

(** The checks in the code's order; the advisory warnings about a changed command
    name or executable are logged only. *)
Definition verify_task_identity (identity : TaskRestoreIdentity) (s : S) : RestoreIdentityStatus :=
  match proc_stat (tid identity) s with
  | None => IdentityMissing
  | Some stat =>
      let current_starttime := parse_proc_stat_starttime stat in
      match starttime_ticks identity, current_starttime with
      | None, _ => UnknownLegacy
      | Some _, None => IdentityMismatch
      | Some expected, Some actual =>
          if negb (expected =? actual) then IdentityMismatch else
          match process_pid identity with
          | None => SameTask
          | Some expected_process_pid =>
              match tgid_of (tid identity) s with
              | None => IdentityMismatch
              | Some actual_process_pid =>
                  if negb (actual_process_pid =? expected_process_pid) then IdentityMismatch else
                  match process_starttime_ticks identity with
                  | None => SameTask
                  | Some expected_starttime =>
                      match if expected_process_pid =? tid identity then current_starttime
                            else starttime_of expected_process_pid s with
                      | Some actual_starttime =>
                          if negb (actual_starttime =? expected_starttime)
                          then IdentityMismatch else SameTask
                      | None => IdentityMismatch
                      end
                  end
              end
          end
      end
  end.

(** ** [restore_write.rs] *)

Inductive RestoreWriteError := MissingTask | PermissionDenied | InvalidWrite | IoError.

Definition classify_restore_write_error (t : Z) (e : Errno) (s : S) : RestoreWriteError :=
  match e with
  | ESRCH => MissingTask
  | ENOENT => if negb (proc_task_exists t s) then MissingTask else IoError
  | EPERM | EACCES => PermissionDenied
  | EINVAL => InvalidWrite
  | EOtherErrno _ => IoError
  end.

Record RestoreSummary := {
  rs_restored : nat; rs_skipped_missing : nat; rs_skipped_identity_mismatch : nat; rs_failed : nat }.

Definition RestoreSummary_default : RestoreSummary :=
  {| rs_restored := 0; rs_skipped_missing := 0; rs_skipped_identity_mismatch := 0; rs_failed := 0 |}.

Definition record_restored (r : RestoreSummary) : RestoreSummary :=
  {| rs_restored := rs_restored r + 1; rs_skipped_missing := rs_skipped_missing r;
     rs_skipped_identity_mismatch := rs_skipped_identity_mismatch r; rs_failed := rs_failed r |}.
Definition record_missing (r : RestoreSummary) : RestoreSummary :=
  {| rs_restored := rs_restored r; rs_skipped_missing := rs_skipped_missing r + 1;
     rs_skipped_identity_mismatch := rs_skipped_identity_mismatch r; rs_failed := rs_failed r |}.
Definition record_identity_mismatch (r : RestoreSummary) : RestoreSummary :=
  {| rs_restored := rs_restored r; rs_skipped_missing := rs_skipped_missing r;
     rs_skipped_identity_mismatch := rs_skipped_identity_mismatch r + 1; rs_failed := rs_failed r |}.
Definition record_failure (r : RestoreSummary) : RestoreSummary :=
  {| rs_restored := rs_restored r; rs_skipped_missing := rs_skipped_missing r;
     rs_skipped_identity_mismatch := rs_skipped_identity_mismatch r; rs_failed := rs_failed r + 1 |}.
Definition has_failures (r : RestoreSummary) : bool := (0 <? rs_failed r)%nat.

(** ** [transaction.rs] *)

Definition ApplyResult := (RollbackToken + PartialApplyError)%type.

(** [From<anyhow::Error> for PartialApplyError] *)
Definition plain_error (e : AnyError) : PartialApplyError := {| pa_source := e; pa_rollback := None |}.

Section apply_loop.
Context {R : Type} (apply_fn : R -> HM S (unit + AnyError)) (make_token : list R -> RollbackToken).

Definition partial_token (applied : list R) : option RollbackToken :=
  match applied with [] => None | _ => Some (make_token applied) end.

Fixpoint apply_planned_loop (planned applied : list R) : HM S ApplyResult :=
  match planned with
  | [] => hret (inl (make_token applied))
  | record :: rest =>
      let* r := apply_fn record in
      match r with
      | inl _ => apply_planned_loop rest (applied ++ [record])
      | inr err => hret (inr {| pa_source := err; pa_rollback := partial_token applied |})
      end
  end.
End apply_loop.

(** ** [rollback/mod.rs] *)

Record RollbackResult := {
  rr_handler_id : string;
  rr_restored : nat;
  rr_skipped_dead : nat;
  rr_skipped_identity_mismatch : nat;
  rr_legacy_unverified : nat;
  rr_errors : nat;
}.

Definition RollbackResult_zero (handler : string) : RollbackResult := {|
  rr_handler_id := handler; rr_restored := 0; rr_skipped_dead := 0;
  rr_skipped_identity_mismatch := 0; rr_legacy_unverified := 0; rr_errors := 0 |}.

(** What one record adds to the counters: a legacy record is counted and restored. *)
Definition count_record (r : RollbackResult) (restored dead mismatch legacy errors : nat)
  : RollbackResult := {|
  rr_handler_id := rr_handler_id r;
  rr_restored := rr_restored r + restored;
  rr_skipped_dead := rr_skipped_dead r + dead;
  rr_skipped_identity_mismatch := rr_skipped_identity_mismatch r + mismatch;
  rr_legacy_unverified := rr_legacy_unverified r + legacy;
  rr_errors := rr_errors r + errors |}.
End ops.

Arguments RestoreIdentityStatus : clear implicits.

(** ** What the kernel documents *)

Section laws.
Context {S : Type} {TK : TaskKernel S}.

(** The value an action changes and what identifies the task it changes it for. *)
Definition task_nice (t : Z) (s : S) : option Z :=
  proc_stat t s ≫= fun stat => fst <$> parse_stat_nice_and_starttime stat.

Record TaskIdent := {
  id_alive : bool; id_starttime : option Z; id_tgid : option Z; id_comm : option string;
  id_exe : option string; id_exists : bool }.

Definition task_ident (t : Z) (s : S) : TaskIdent := {|
  id_alive := bool_decide (is_Some (proc_stat t s));
  id_starttime := starttime_of t s;
  id_tgid := tgid_of t s;
  id_comm := proc_comm t s;
  id_exe := proc_exe t s;
  id_exists := proc_task_exists t s |}.

Class TaskKernelLaws : Prop := {
  (** proc(5): a readable stat file is one line of the documented format *)
  stat_format t s text : proc_stat t s = Some text ->
    exists pid comm fields eol nice starttime,
      text = stat_line pid comm fields eol /\
      Forall (fun f => is_field f = true) fields /\ forall_ascii is_whitespace eol = true /\
      fields !! 16%nat = Some (decimal nice) /\ -20 <= nice <= 19 /\
      fields !! 19%nat = Some (decimal starttime) /\ in_u64 starttime;
  stat_exists t s text : proc_stat t s = Some text -> proc_task_exists t s = true;
  (** setpriority(2): an error changes nothing; [ESRCH] says there is no such task *)
  setpriority_error t n s e s' : setpriority t n s = (Some e, s') -> s' = s;
  setpriority_esrch t n s s' : setpriority t n s = (Some ESRCH, s') -> proc_stat t s = None;
  (** success sets the nice value of that task, a value in range as it is, and
      nothing else /proc shows *)
  setpriority_nice t n s s' : setpriority t n s = (None, s') -> -20 <= n <= 19 -> task_nice t s' = Some n;
  setpriority_other t n s s' t' : setpriority t n s = (None, s') -> t' <> t -> task_nice t' s' = task_nice t' s;
  setpriority_ident t n s s' t' : setpriority t n s = (None, s') -> task_ident t' s' = task_ident t' s;
}.

(** Two machines whose tasks /proc shows alike. *)
Definition same_tasks (s s' : S) : Prop :=
  forall t, task_nice t s = task_nice t s' /\ task_ident t s = task_ident t s'.

#[export] Instance same_tasks_equiv : Equivalence same_tasks.
Proof.
  split.
  - by intros s t.
  - intros s s' H t. destruct (H t). by split.
  - intros s s' s'' H H' t. destruct (H t), (H' t). split; congruence.
Qed.

(** Verification reads nothing but what identifies tasks. *)
Lemma verify_ident identity s s' :
  (forall t, task_ident t s = task_ident t s') ->
  verify_task_identity identity s = verify_task_identity identity s'.
Proof.
  intros H. pose proof (fun t => f_equal id_alive (H t)) as Ha.
  pose proof (fun t => f_equal id_starttime (H t)) as Hs. pose proof (fun t => f_equal id_tgid (H t)) as Hg.
  simpl in *. specialize (Ha (tid identity)). pose proof (Hs (tid identity)) as Hs0.
  unfold verify_task_identity. rewrite (Hg (tid identity)).
  unfold starttime_of in Hs0. destruct (proc_stat (tid identity) s), (proc_stat (tid identity) s');
    simpl in *; try discriminate; [|done].
  rewrite Hs0. destruct (process_pid identity) as [pid|]; [|done]. by rewrite (Hs pid).
Qed.

Context `{!TaskKernelLaws}.

Lemma task_nice_range t s n : task_nice t s = Some n -> -20 <= n <= 19.
Proof.
  unfold task_nice. destruct (proc_stat t s) as [text|] eqn:Hs; [|done]. simpl.
  destruct (stat_format _ _ _ Hs) as (pid & comm & fs & eol & n' & st & -> & H1 & H2 & H3 & H4 & H5 & H6).
  rewrite (proj1 (stat_line_parses_aux pid comm fs eol n' st H1 H2 H3 ltac:(unfold in_i32; lia) H5 H6)).
  simpl. intros [= <-]. done.
Qed.

(** The two parsers agree on what the kernel writes. *)
Lemma parsers_agree t s text nice starttime :
  proc_stat t s = Some text -> parse_stat_nice_and_starttime text = Some (nice, starttime) ->
  parse_proc_stat_starttime text = Some starttime.
Proof.
  intros Hs Hp. destruct (stat_format _ _ _ Hs) as (pid & comm & fs & eol & n & st & -> & H1 & H2 & H3 & H4 & H5 & H6).
  destruct (stat_line_fields pid comm fs eol H1 H2) as [E1 E2].
  revert Hp. unfold parse_stat_nice_and_starttime, parse_proc_stat_starttime. rewrite E2. simpl.
  rewrite split_fields by done. destruct (after_last ")" (stat_line pid comm fs eol)); [|done].
  simpl in *. injection E1 as ->. rewrite H3, H5. simpl.
  destruct (parse_i32 (decimal n)); [|done]. simpl. destruct (parse_unsigned U64_MAX (decimal st)); [|done]. simpl. congruence.
Qed.
End laws.
