(* ===== verification/Nice.v ===== *)
(** * The nice action

    [stutter/src/actions/nice/model.rs] and [nice/prepared.rs]: snapshots of the
    target tasks, the prepared-before-mutation apply, verify, rollback, and the
    handler that restores a token after a crash.  [nice_undoes] is what a token
    promises: from a machine [s] its records lead back to [s0].  The lemmas show
    that a plan promises this before the first write, that every write of an
    apply or a rollback keeps the promise, and that a rollback that reports
    success has kept it. *)

From Stdlib Require Import String.
From S2P Require Import Prelude PolicyModel PolicyEval ActionModel ActionRunner Journal Procfs Tasks.

Definition LINUX_MIN_NICE : Z := -20.
Definition LINUX_MAX_NICE : Z := 19.

Record NicePolicy := { allow_nice_changes : bool; min_nice : Z; max_nice : Z }.

Definition NicePolicy_default : NicePolicy :=
  {| allow_nice_changes := true; min_nice := LINUX_MIN_NICE; max_nice := LINUX_MAX_NICE |}.

(** [TaskIdentity] of [actions/model.rs] *)
Record TaskIdentity := {
  ti_tid : Z; ti_process_pid : option Z; ti_comm : option string; ti_starttime_ticks : option Z }.

Record NiceAction := { targets : list TaskIdentity; nice : Z; nice_policy : NicePolicy }.

Record NiceTargetSnapshot := {
  sn_tid : Z; sn_process_pid : option Z; current_nice : Z; sn_comm : option string;
  sn_starttime_ticks : option Z; sn_exe : option string }.

(** ** Records, [actions/model.rs] *)

Definition TaskRestoreIdentity_observed (t : Z) (pid : option Z) (c : option string)
    (starttime : option Z) (e : option string) : TaskRestoreIdentity :=
  {| tid := t; process_pid := pid; starttime_ticks := starttime; comm := c; exe := e;
     process_starttime_ticks := None |}.

Definition NiceRestoreRecord_new (identity : TaskRestoreIdentity) (original : Z) : NiceRestoreRecord :=
  {| nice_tid := tid identity; original_nice := original; nice_identity := Some identity |}.

Definition record_tid (r : NiceRestoreRecord) : Z :=
  match nice_identity r with Some identity => tid identity | None => nice_tid r end.

Definition restore_identity (r : NiceRestoreRecord) : TaskRestoreIdentity :=
  match nice_identity r with Some identity => identity | None => legacy (nice_tid r) end.

Lemma restore_identity_tid r : tid (restore_identity r) = record_tid r.
Proof. unfold restore_identity, record_tid. by destruct (nice_identity r). Qed.

(** ** Requests *)

Definition in_range (lo hi x : Z) : bool := (lo <=? x) && (x <=? hi).

Definition validate_policy_and_request (policy : NicePolicy) (requested : Z) : unit + AnyError :=
  if negb (allow_nice_changes policy) then inr (EBoundary (PolicyDenied "nice" "allow_nice_changes"))
  else if (min_nice policy <? LINUX_MIN_NICE) || (LINUX_MAX_NICE <? max_nice policy)
  then inr (EBoundary (InvalidPolicy "nice" "range"))
  else if max_nice policy <? min_nice policy
  then inr (EBoundary (InvalidPolicy "nice" "min is greater than max"))
  else if negb (in_range LINUX_MIN_NICE LINUX_MAX_NICE requested)
  then inr (EBoundary (InvalidValue "nice" "nice" "linux range"))
  else if negb (in_range (min_nice policy) (max_nice policy) requested)
  then inr (EBoundary (InvalidValue "nice" "nice" "policy range"))
  else inl tt.

Section nice.
Context {S : Type} {FS : FileSystem S} {TK : TaskKernel S}.

Definition read_target_snapshot (target : TaskIdentity) (s : S) : NiceTargetSnapshot + AnyError :=
  if ti_tid target =? 0 then inr (EBoundary (InvalidTargetTid "nice" (ti_tid target))) else
  match proc_stat (ti_tid target) s with
  | None => inr (EOther "stat is unreadable")
  | Some stat =>
      match parse_stat_nice_and_starttime stat with
      | None => inr (EOther "failed to parse nice/starttime")
      | Some (current, starttime) =>
          let snapshot := inl {|
            sn_tid := ti_tid target;
            sn_process_pid := ti_process_pid target;
            current_nice := current;
            sn_comm := match proc_comm (ti_tid target) s with
                       | Some text => if String.eqb (trim text) "" then None else Some (trim text)
                       | None => None
                       end;
            sn_starttime_ticks := Some starttime;
            sn_exe := proc_exe (ti_tid target) s |} in
          match ti_starttime_ticks target with
          | Some expected =>
              if negb (expected =? starttime)
              then inr (EBoundary (TargetIdentityMismatch "nice" (ti_tid target) expected starttime))
              else snapshot
          | None => snapshot
          end
      end
  end.

Definition a_warning : ActionWarning := {| aw_message := EmptyString |}.

Definition identity_warnings (target : TaskIdentity) (snapshot : NiceTargetSnapshot)
  : list ActionWarning :=
  match ti_comm target, sn_comm snapshot with
  | Some expected, Some actual => if negb (String.eqb expected actual) then [a_warning] else []
  | _, _ => []
  end ++
  match ti_process_pid target with None => [a_warning] | Some _ => [] end.

Fixpoint read_targets (ts : list TaskIdentity) (s : S)
  : list (NiceTargetSnapshot * list ActionWarning) + AnyError :=
  match ts with
  | [] => inl []
  | target :: rest =>
      match read_target_snapshot target s with
      | inr e => inr e
      | inl snapshot =>
          match read_targets rest s with
          | inr e => inr e
          | inl snapshots => inl ((snapshot, identity_warnings target snapshot) :: snapshots)
          end
      end
  end.

Definition collect_target_snapshots (a : NiceAction) (policy : NicePolicy) (s : S)
  : list (NiceTargetSnapshot * list ActionWarning) + AnyError :=
  match validate_policy_and_request policy (nice a) with
  | inr e => inr e
  | inl _ =>
      match targets a with
      | [] => inr (EBoundary (MissingExplicitTargets "nice"))
      | _ => read_targets (targets a) s
      end
  end.

Definition nice_preflight (a : NiceAction) (s : S) : list ActionWarning + AnyError :=
  match collect_target_snapshots a (nice_policy a) s with
  | inl snapshots => inl (flat_map snd snapshots)
  | inr e => inr e
  end.

Definition pending (a : NiceAction) (snapshots : list (NiceTargetSnapshot * list ActionWarning)) : nat :=
  length (List.filter (fun sn => negb (current_nice sn.1 =? nice a)) snapshots).

Definition nice_dry_run (a : NiceAction) (s : S) : ActionState + AnyError :=
  match collect_target_snapshots a (nice_policy a) s with
  | inl snapshots => inl {|
      applied := false; affected_tasks := pending a snapshots;
      checked_tasks := length (targets a); pending_changes := pending a snapshots;
      warnings := flat_map snd snapshots |}
  | inr e => inr e
  end.

Definition nice_verify (a : NiceAction) (s : S) : ActionState + AnyError :=
  match collect_target_snapshots a (nice_policy a) s with
  | inl snapshots => inl {|
      applied := negb (length (targets a) =? 0)%nat && (pending a snapshots =? 0)%nat;
      affected_tasks := length (targets a);
      checked_tasks := length (targets a); pending_changes := pending a snapshots;
      warnings := flat_map snd snapshots |}
  | inr e => inr e
  end.

(** ** [prepared.rs] *)

Fixpoint plan_snapshots (a : NiceAction) (require_identity : bool)
    (snapshots : list (NiceTargetSnapshot * list ActionWarning)) : list NiceRestoreRecord + AnyError :=
  match snapshots with
  | [] => inl []
  | (sn, _) :: rest =>
      if require_identity &&
         negb (bool_decide (is_Some (sn_starttime_ticks sn)) && bool_decide (is_Some (sn_process_pid sn)))
      then inr (EOther "lacks a complete task identity")
      else match plan_snapshots a require_identity rest with
           | inr e => inr e
           | inl plan =>
               if current_nice sn =? nice a then inl plan
               else inl (NiceRestoreRecord_new
                           (TaskRestoreIdentity_observed (sn_tid sn) (sn_process_pid sn) (sn_comm sn)
                              (sn_starttime_ticks sn) (sn_exe sn)) (current_nice sn) :: plan)
           end
  end.

Definition plan_records (a : NiceAction) (require_identity : bool) (s : S)
  : list NiceRestoreRecord + AnyError :=
  match collect_target_snapshots a (nice_policy a) s with
  | inr e => inr e
  | inl snapshots => plan_snapshots a require_identity snapshots
  end.

Definition write_nice (a : NiceAction) (r : NiceRestoreRecord) : HM S (unit + AnyError) :=
  let* w := set_task_nice (record_tid r) (nice a) in
  hret match w with inl _ => inl tt | inr _ => inr (EOther "failed to set nice") end.

Definition apply_plan (a : NiceAction) (plan : list NiceRestoreRecord) : HM S ApplyResult :=
  apply_planned_loop (write_nice a) NiceRestore plan [].

Definition nice_apply (a : NiceAction) : HM S ApplyResult :=
  let* plan := observe (plan_records a false) in
  match plan with
  | inr e => hret (inr (plain_error e))
  | inl plan => apply_plan a plan
  end.

Definition nice_apply_prepared (a : NiceAction) (before_mutation : RollbackToken -> HM S (unit + AnyError))
  : HM S ApplyResult :=
  let* plan := observe (plan_records a true) in
  match plan with
  | inr e => hret (inr (plain_error e))
  | inl plan =>
      let* prepared := before_mutation (NiceRestore plan) in
      match prepared with
      | inr e => hret (inr (plain_error e))
      | inl _ =>
          let* again := observe (plan_records a true) in
          match again with
          | inr e => hret (inr (plain_error e))
          | inl plan' =>
              if bool_decide (plan' = plan) then apply_plan a plan
              else hret (inr (plain_error (EOther "drifted")))
          end
      end
  end.

(** ** Rollback of a running action, [TuningAction::rollback] *)

Fixpoint rollback_records (records : list NiceRestoreRecord) (summary : RestoreSummary)
  : HM S RestoreSummary :=
  match records with
  | [] => hret summary
  | record :: rest =>
      let* status := observe (verify_task_identity (restore_identity record)) in
      match status with
      | IdentityMissing => rollback_records rest (record_missing summary)
      | IdentityMismatch => rollback_records rest (record_identity_mismatch summary)
      | SameTask | UnknownLegacy =>
          let* w := set_task_nice (record_tid record) (original_nice record) in
          match w with
          | inl _ => rollback_records rest (record_restored summary)
          | inr err =>
              let* class := observe (classify_restore_write_error (record_tid record) err) in
              match class with
              | MissingTask => rollback_records rest (record_missing summary)
              | PermissionDenied | InvalidWrite | IoError => rollback_records rest (record_failure summary)
              end
          end
      end
  end.

Definition nice_rollback (token : RollbackToken) : HM S (unit + AnyError) :=
  match token with
  | NiceRestore records =>
      let* summary := rollback_records records RestoreSummary_default in
      if has_failures summary then hret (inr (EBoundary (RestoreFailed "nice" "failed to rollback nice")))
      else hret (inl tt)
  | _ => hret (inr (ETokenKind "nice-restore" (token_kind token)))
  end.

(** ** The recovery handler, [NiceRollbackHandler::restore_token] *)

Section handler.
Context (require_verified_identity : bool).

Fixpoint restore_records (records : list NiceRestoreRecord) (result : RollbackResult)
  : HM S RollbackResult :=
  match records with
  | [] => hret result
  | record :: rest =>
      let* status := observe (verify_task_identity (restore_identity record)) in
      let write (legacy : nat) :=
        let* w := set_task_nice (record_tid record) (original_nice record) in
        match w with
        | inl _ => restore_records rest (count_record result 1 0 0 legacy 0)
        | inr err =>
            let* class := observe (classify_restore_write_error (record_tid record) err) in
            match class with
            | MissingTask => restore_records rest (count_record result 0 1 0 legacy 0)
            | PermissionDenied | InvalidWrite | IoError =>
                restore_records rest (count_record result 0 0 0 legacy 1)
            end
        end in
      match status with
      | IdentityMissing => restore_records rest (count_record result 0 1 0 0 0)
      | IdentityMismatch => restore_records rest (count_record result 0 0 1 0 0)
      | UnknownLegacy =>
          if require_verified_identity then restore_records rest (count_record result 0 0 1 0 0)
          else write 1%nat
      | SameTask => write 0%nat
      end
  end.

Lemma restore_records_ok r rest result h s' :
  verify_task_identity (restore_identity r) (sys (disk h)) = SameTask ->
  setpriority (record_tid r) (original_nice r) (sys (disk h)) = (None, s') ->
  restore_records (r :: rest) result h =
  restore_records rest (count_record result 1 0 0 0 0) (change (with_sys s') h).
Proof.
  intros Hv Hs. simpl. unfold hbind at 1, observe at 1, get_disk at 1. cbn [fst snd]. rewrite Hv.
  unfold set_task_nice, sys_write, hbind, get_disk, set_disk, hret. cbn [fst snd]. by rewrite Hs.
Qed.

Definition nice_restore_token (token : RollbackToken) : HM S (RollbackResult + AnyError) :=
  match token with
  | NiceRestore records =>
      let* result := restore_records records (RollbackResult_zero "nice-rollback") in hret (inl result)
  | _ => hret (inr (EBoundary (UnsupportedRollbackToken "nice-rollback" "nice-restore" (token_kind token))))
  end.
End handler.
End nice.

(** ** What a token promises *)

Section promise.
Context {S : Type} {FS : FileSystem S} {TK : TaskKernel S} `{!TaskKernelLaws (S := S)}.
Implicit Types (s : S) (records : list NiceRestoreRecord).

Definition tids records : list Z := record_tid <$> records.

(** Restoring [records] on [s] gives [s0]. *)
Record nice_undoes records s s0 : Prop := {
  nu_ident t : task_ident t s = task_ident t s0;
  nu_other t : t ∉ tids records -> task_nice t s = task_nice t s0;
  nu_record r : r ∈ records ->
    verify_task_identity (restore_identity r) s = SameTask /\
    task_nice (record_tid r) s0 = Some (original_nice r);
}.

Lemma nice_undoes_nil s s0 : nice_undoes [] s s0 -> same_tasks s s0.
Proof. intros [H1 H2 _] t. split; [apply H2, not_elem_of_nil|apply H1]. Qed.

Lemma nice_undoes_empty s : nice_undoes [] s s.
Proof. split; [done|done|]. intros r []%not_elem_of_nil. Qed.

(** A write to a task of the records keeps the promise. *)
Lemma nice_undoes_write records s s0 t n s' :
  nice_undoes records s s0 -> t ∈ tids records -> setpriority t n s = (None, s') ->
  nice_undoes records s' s0.
Proof.
  intros [H1 H2 H3] Ht Hs. pose proof (fun t' => setpriority_ident _ _ _ _ t' Hs) as Hid. split.
  - intros t'. by rewrite Hid.
  - intros t' Ht'. rewrite (setpriority_other _ _ _ _ t' Hs) by congruence. by apply H2.
  - intros r Hr. destruct (H3 r Hr) as [Hv Hn]. split; [|done]. rewrite <- Hv. by apply verify_ident.
Qed.

(** A write to one more task needs one more record. *)
Lemma nice_undoes_extend done r records s s0 n s' :
  nice_undoes done s s0 -> nice_undoes records s s0 -> r ∈ records ->
  setpriority (record_tid r) n s = (None, s') -> nice_undoes (done ++ [r]) s' s0.
Proof.
  intros [H1 H2 H3] [_ _ Hr] Hin Hs. pose proof (fun t' => setpriority_ident _ _ _ _ t' Hs) as Hid. split.
  - intros t'. by rewrite Hid.
  - intros t' Ht'. unfold tids in Ht'. rewrite fmap_app, not_elem_of_app in Ht'. destruct Ht' as [Hd Hn].
    rewrite (setpriority_other _ _ _ _ t' Hs); [by apply H2|]. intros ->. apply Hn. by left.
  - intros r' Hr'. assert (Hboth : verify_task_identity (restore_identity r') s = SameTask /\
      task_nice (record_tid r') s0 = Some (original_nice r')).
    { apply elem_of_app in Hr' as [Hd | ->%list_elem_of_singleton]; [by apply H3|by apply Hr]. }
    destruct Hboth as [Hv Hn]. split; [|done]. rewrite <- Hv. by apply verify_ident.
Qed.

(** Writing back an original value leaves one record less to restore. *)
Lemma nice_undoes_restore r rest s s0 s' :
  nice_undoes (r :: rest) s s0 -> setpriority (record_tid r) (original_nice r) s = (None, s') ->
  nice_undoes rest s' s0.
Proof.
  intros [H1 H2 H3] Hs. pose proof (fun t' => setpriority_ident _ _ _ _ t' Hs) as Hid.
  destruct (H3 r (list_elem_of_here _ _)) as [_ Hn]. split.
  - intros t'. by rewrite Hid.
  - intros t' Ht'. destruct (decide (t' = record_tid r)) as [->|Hne].
    + rewrite (setpriority_nice _ _ _ _ Hs), Hn; [done|]. by eapply task_nice_range.
    + rewrite (setpriority_other _ _ _ _ t' Hs) by done. apply H2. by intros [?|?]%elem_of_cons.
  - intros r' Hr'. destruct (H3 r' (list_elem_of_further _ _ _ Hr')) as [Hv Hn']. split; [|done].
    rewrite <- Hv. by apply verify_ident.
Qed.

(** ** A plan promises to undo itself *)

(** The process a target names is the one its task belongs to. *)
Definition targets_honest (a : NiceAction) s : Prop :=
  Forall (fun target => forall p, ti_process_pid target = Some p -> tgid_of (ti_tid target) s = Some p)
    (targets a).

Lemma snapshot_undoes target sn s :
  read_target_snapshot target s = inl sn ->
  (forall p, ti_process_pid target = Some p -> tgid_of (ti_tid target) s = Some p) ->
  let identity := TaskRestoreIdentity_observed (sn_tid sn) (sn_process_pid sn) (sn_comm sn)
                    (sn_starttime_ticks sn) (sn_exe sn) in
  verify_task_identity identity s = SameTask /\ task_nice (sn_tid sn) s = Some (current_nice sn).
Proof.
  intros Hr Hp. unfold read_target_snapshot in Hr. destruct (ti_tid target =? 0); [done|].
  destruct (proc_stat (ti_tid target) s) as [stat|] eqn:Hstat; [|done].
  destruct (parse_stat_nice_and_starttime stat) as [[cur st]|] eqn:Hparse; [|done].
  assert (Hsn : sn_tid sn = ti_tid target /\ sn_process_pid sn = ti_process_pid target /\
    current_nice sn = cur /\ sn_starttime_ticks sn = Some st).
  { destruct (ti_starttime_ticks target); [case_match; [done|]|]; by injection Hr as <-. }
  destruct Hsn as (E1 & E2 & E3 & E4). simpl. unfold verify_task_identity, task_nice. simpl.
  rewrite E1, E2, E3, E4, Hstat. simpl. rewrite (parsers_agree _ _ _ _ _ Hstat Hparse), Hparse, Z.eqb_refl. simpl.
  split; [|done]. destruct (ti_process_pid target) as [p|]; [|done].
  by rewrite (Hp p eq_refl), Z.eqb_refl.
Qed.

Lemma read_targets_undoes ts snapshots s :
  read_targets ts s = inl snapshots ->
  Forall (fun target => forall p, ti_process_pid target = Some p -> tgid_of (ti_tid target) s = Some p) ts ->
  Forall (fun sn => let identity := TaskRestoreIdentity_observed (sn_tid sn.1) (sn_process_pid sn.1)
                      (sn_comm sn.1) (sn_starttime_ticks sn.1) (sn_exe sn.1) in
    verify_task_identity identity s = SameTask /\ task_nice (sn_tid sn.1) s = Some (current_nice sn.1)) snapshots.
Proof.
  revert snapshots. induction ts as [|target ts IH]; intros snapshots Hr Hh; simpl in Hr.
  - injection Hr as <-. constructor.
  - inversion Hh as [|? ? Ht Hts]; subst. destruct (read_target_snapshot target s) as [sn|] eqn:Hsn; [|done].
    destruct (read_targets ts s) as [sns|] eqn:Hsns; [|done]. injection Hr as <-.
    constructor; [by apply snapshot_undoes with target|by apply IH].
Qed.

Lemma plan_undoes a require s plan :
  plan_records a require s = inl plan -> targets_honest a s -> nice_undoes plan s s.
Proof.
  intros Hplan Hh. split; [done|done|]. unfold plan_records, collect_target_snapshots in Hplan.
  destruct (validate_policy_and_request _ _); [|done].
  destruct (match targets a with [] => _ | _ => _ end) as [sns|] eqn:Hsns; [|done].
  assert (Hall : read_targets (targets a) s = inl sns) by (by destruct (targets a)).
  apply read_targets_undoes in Hall; [|exact Hh]. clear Hsns Hh.
  revert plan Hplan. induction Hall as [|[sn ws] sns Hsn Hsns IH]; intros plan Hplan r Hr; simpl in Hplan.
  - injection Hplan as <-. by apply not_elem_of_nil in Hr.
  - case_match; [done|]. destruct (plan_snapshots a require sns) as [rest|]; [|done].
    destruct (current_nice sn =? nice a); injection Hplan as <-; [by eapply IH|].
    apply elem_of_cons in Hr as [->|Hr]; [exact Hsn|by eapply IH].
Qed.
End promise.

(** ** Every write keeps the promise

    [I] holds at every crash point; [J] is what is known of the files. *)

Section crash.
Context {S : Type} {FS : FileSystem S} {TK : TaskKernel S} `{!TaskKernelLaws (S := S)}.
Context (I J : Disk S -> Prop) (s0 : S).
Hypothesis J_frame : forall s d, J d -> J (with_sys s d).
Implicit Types (P : S -> Prop) (Q : unit + Errno -> S -> Prop).

Abbreviation on_sys P := (at_disk I (fun d => J d /\ P (sys d))).

Lemma hspec_observe {A} P (f : S -> A) :
  hspec (on_sys P) (observe f) (fun x => on_sys (fun s => P s /\ x = f s)).
Proof. intros h [Hall [Hj Hp]]. by split. Qed.

(** A write happens, or nothing does. *)
Lemma hspec_set_nice P Q t n :
  (forall s s', P s -> setpriority t n s = (None, s') -> Q (inl tt) s') ->
  (forall s e, P s -> setpriority t n s = (Some e, s) -> Q (inr e) s) ->
  (forall d, J d -> Q (inl tt) (sys d) -> I d) ->
  hspec (on_sys P) (set_task_nice t n) (fun r => on_sys (Q r)).
Proof.
  intros Hok Herr HI h [Hall [Hj Hp]]. unfold set_task_nice, sys_write, get_disk, set_disk, hbind, hret.
  simpl. destruct (setpriority t n (sys (disk h))) as [[e|] s'] eqn:Hs; simpl.
  - pose proof (setpriority_error _ _ _ _ _ Hs) as ->. unfold at_disk, crash_points, change. simpl.
    replace (with_sys (sys (disk h)) (disk h)) with (disk h) by (by destruct (disk h)).
    split; [constructor; [by apply Forall_inv in Hall|done]|]. split; [done|]. by apply Herr.
  - assert (Hq : Q (inl tt) s') by (by eapply Hok). unfold at_disk. simpl.
    split; [constructor; [apply HI; [by apply J_frame|done]|done]|]. split; [by apply J_frame|done].
Qed.

Section apply.
Context (a : NiceAction) (plan : list NiceRestoreRecord).
Hypothesis HI : forall d, J d -> nice_undoes plan (sys d) s0 -> I d.

(** What an apply of the plan leaves. *)
Definition applied_plan (x : ApplyResult) (s : S) : Prop :=
  nice_undoes plan s s0 /\
  match x with
  | inl t => t = NiceRestore plan
  | inr p =>
      match pa_rollback p with
      | Some t => exists records, t = NiceRestore records /\ nice_undoes records s s0 /\ records ⊆ plan
      | None => same_tasks s s0
      end
  end.

Lemma write_nice_spec pre r :
  r ∈ plan ->
  hspec (on_sys (fun s => nice_undoes plan s s0 /\ nice_undoes pre s s0)) (write_nice a r)
    (fun x => on_sys (fun s => nice_undoes plan s s0 /\
       nice_undoes match x with inl _ => pre ++ [r] | inr _ => pre end s s0)).
Proof.
  intros Hr. eapply hspec_bind.
  - apply (hspec_set_nice (fun s => nice_undoes plan s s0 /\ nice_undoes pre s s0)
             (fun x s => nice_undoes plan s s0 /\
                nice_undoes match x with inl _ => pre ++ [r] | inr _ => pre end s s0)).
    + intros s s' [Hp Hd] Hs. split; [|by eapply (nice_undoes_extend pre r plan)].
      eapply nice_undoes_write; [exact Hp| |exact Hs]. apply list_elem_of_fmap. by exists r.
    + done.
    + intros d Hj [Hp _]. by apply HI.
  - intros []; by apply hspec_ret.
Qed.

Lemma apply_loop_spec rest pre :
  plan = pre ++ rest ->
  hspec (on_sys (fun s => nice_undoes plan s s0 /\ nice_undoes pre s s0))
    (apply_planned_loop (write_nice a) NiceRestore rest pre) (fun x => on_sys (applied_plan x)).
Proof.
  revert pre. induction rest as [|r rest IH]; intros pre Hplan; simpl.
  { apply hspec_ret. intros h [Hall (Hj & Hp & Hd)]. rewrite app_nil_r in Hplan. by subst. }
  eapply hspec_bind; [apply write_nice_spec; rewrite Hplan; apply elem_of_app; right; by left|].
  intros [[]|err].
  - apply IH. by rewrite <- app_assoc.
  - apply hspec_ret. intros h [Hall (Hj & Hp & Hd)]. split; [done|]. split; [done|]. split; [done|].
    simpl. destruct pre as [|d0 ds] eqn:E; simpl; [by apply nice_undoes_nil|].
    eexists. split; [done|]. split; [done|]. rewrite Hplan. apply list_subseteq_app_l. done.
Qed.

Lemma apply_plan_spec :
  hspec (on_sys (fun s => s = s0 /\ nice_undoes plan s0 s0)) (apply_plan a plan)
    (fun x => on_sys (applied_plan x)).
Proof.
  eapply hspec_pre; [by apply apply_loop_spec|]. intros h [Hall (Hj & Hs & Hp)].
  split; [done|]. rewrite Hs. split; [done|]. split; [done|apply nice_undoes_empty].
Qed.
End apply.

Section restore.
Context (plan records : list NiceRestoreRecord) (Hsub : records ⊆ plan).
Hypothesis HI : forall d, J d -> nice_undoes plan (sys d) s0 /\ nice_undoes records (sys d) s0 -> I d.
Abbreviation keeps := (fun s => nice_undoes plan s s0 /\ nice_undoes records s s0).

Lemma keeps_same_task s r : keeps s -> r ∈ records -> verify_task_identity (restore_identity r) s = SameTask.
Proof. intros [_ H] Hr. by apply (nu_record _ _ _ H). Qed.

(** A task whose identity was verified is not missing. *)
Lemma same_task_not_missing r s e :
  verify_task_identity (restore_identity r) s = SameTask ->
  (e = ESRCH -> proc_stat (record_tid r) s = None) ->
  classify_restore_write_error (record_tid r) e s <> MissingTask.
Proof.
  unfold verify_task_identity. rewrite restore_identity_tid.
  destruct (proc_stat (record_tid r) s) as [text|] eqn:Hs; [|done]. intros _ He.
  destruct e; simpl; try done; [by specialize (He eq_refl)|]. by rewrite (stat_exists _ _ _ Hs).
Qed.

(** Writing one original value back. *)
Lemma restore_step (ok : Prop) r rest :
  r ∈ records ->
  hspec (on_sys (fun s => keeps s /\ (ok -> nice_undoes (r :: rest) s s0)))
    (set_task_nice (record_tid r) (original_nice r))
    (fun x => on_sys (fun s => keeps s /\ match x with
       | inl _ => ok -> nice_undoes rest s s0
       | inr e => classify_restore_write_error (record_tid r) e s <> MissingTask
       end)).
Proof.
  intros Hr. assert (Htid : forall l, r ∈ l -> record_tid r ∈ tids l).
  { intros l Hl. apply list_elem_of_fmap. by exists r. }
  apply (hspec_set_nice (fun s => keeps s /\ (ok -> nice_undoes (r :: rest) s s0))
    (fun x s => keeps s /\ match x with
       | inl _ => ok -> nice_undoes rest s s0
       | inr e => classify_restore_write_error (record_tid r) e s <> MissingTask
       end)).
  - intros s s' [[Hp Hrec] Hok] Hs. split; [split|].
    + eapply nice_undoes_write; [exact Hp|by apply Htid, Hsub|exact Hs].
    + eapply nice_undoes_write; [exact Hrec|by apply Htid|exact Hs].
    + intros H. by eapply nice_undoes_restore, Hs; apply Hok.
  - intros s e [Hk _] Hs. split; [done|]. apply same_task_not_missing; [by apply keeps_same_task|].
    intros ->. by eapply setpriority_esrch.
  - intros d Hj [Hk _]. by apply HI.
Qed.

(** One record of either loop: restored, or counted as a failure. *)
Lemma write_back_spec {A} (ok : Prop) r rest (k_ok k_missing k_fail : HM S A)
    (Q : A -> Host S -> Prop) :
  r ∈ records ->
  hspec (on_sys (fun s => keeps s /\ (ok -> nice_undoes rest s s0))) k_ok Q ->
  hspec (on_sys keeps) k_fail Q ->
  hspec (on_sys (fun s => keeps s /\ (ok -> nice_undoes (r :: rest) s s0)))
    (let* w := set_task_nice (record_tid r) (original_nice r) in
     match w with
     | inl _ => k_ok
     | inr err =>
         let* class := observe (classify_restore_write_error (record_tid r) err) in
         match class with
         | MissingTask => k_missing
         | PermissionDenied | InvalidWrite | IoError => k_fail
         end
     end) Q.
Proof.
  intros Hr Hok Hfail. eapply hspec_bind; [by apply restore_step|]. intros [[]|err]; [done|].
  eapply hspec_bind; [apply (hspec_observe (fun s => keeps s /\
    classify_restore_write_error (record_tid r) err s <> MissingTask))|].
  intros [] h [Hall (Hj & [Hk Hne] & E)]; [by rewrite <- E in Hne|..]; by apply Hfail.
Qed.

(** The identity of a record still to be restored is verified. *)
Lemma status_spec {A} (P : S -> Prop) r (k : RestoreIdentityStatus -> HM S A)
    (Q : A -> Host S -> Prop) :
  r ∈ records -> (forall s, P s -> keeps s) -> hspec (on_sys P) (k SameTask) Q ->
  hspec (on_sys P) (let* status := observe (verify_task_identity (restore_identity r)) in k status) Q.
Proof.
  intros Hr HP Hk. eapply hspec_bind; [apply (hspec_observe P)|].
  intros status h [Hall (Hj & Hp & ->)]. rewrite keeps_same_task by auto. by apply Hk.
Qed.

Lemma rollback_records_spec rest summary :
  rest ⊆ records ->
  hspec (on_sys (fun s => keeps s /\ (rs_failed summary = 0%nat -> nice_undoes rest s s0)))
    (rollback_records rest summary)
    (fun sm => on_sys (fun s => keeps s /\ (rs_failed sm = 0%nat -> same_tasks s s0))).
Proof.
  revert summary. induction rest as [|r rest IH]; intros summary Hrest; simpl.
  { apply hspec_ret. intros h [Hall (Hj & Hk & Hs)]. split; [done|]. split; [done|]. split; [done|].
    intros H. by apply nice_undoes_nil, Hs. }
  apply list_subseteq_cons_iff in Hrest as [Hr Hrest].
  apply (status_spec (fun s => keeps s /\ (rs_failed summary = 0%nat -> nice_undoes (r :: rest) s s0)) r
    (fun status => match status with
     | IdentityMissing => _ | IdentityMismatch => _ | SameTask | UnknownLegacy => _ end));
    [done|by intros s []|].
  apply write_back_spec; [done|by apply (IH (record_restored summary))|].
  eapply hspec_pre; [by apply (IH (record_failure summary))|].
  intros h [Hall (Hj & Hk)]. split; [done|]. split; [done|]. split; [done|]. simpl. lia.
Qed.

(** A rollback that reports success has restored every task. *)
Lemma nice_rollback_spec :
  hspec (on_sys keeps) (nice_rollback (NiceRestore records))
    (fun x => on_sys (fun s => keeps s /\ match x with inl _ => same_tasks s s0 | inr _ => True end)).
Proof.
  eapply hspec_bind.
  - eapply hspec_pre; [by apply (rollback_records_spec records RestoreSummary_default)|].
    intros h [Hall (Hj & Hp & Hr)]. by split.
  - intros sm. unfold has_failures. destruct (Nat.ltb_spec 0 (rs_failed sm)); apply hspec_ret;
      intros h [Hall (Hj & Hk & Hs)]; (split; [done|]; split; [done|]; split; [done|]); [done|].
    apply Hs. lia.
Qed.
(** The handler counts every record as restored or as an error, and without
    errors has restored every task. *)
Definition counted (before : RollbackResult) (n : nat) (after : RollbackResult) : Prop :=
  (rr_restored after + rr_errors after = rr_restored before + rr_errors before + n)%nat.

Lemma restore_records_spec require rest result :
  rest ⊆ records ->
  hspec (on_sys (fun s => keeps s /\ (rr_errors result = 0%nat -> nice_undoes rest s s0)))
    (restore_records require rest result)
    (fun res => on_sys (fun s => keeps s /\ counted result (length rest) res /\
       (rr_errors res = 0%nat -> same_tasks s s0))).
Proof.
  revert result. induction rest as [|r rest IH]; intros result Hrest; simpl.
  { apply hspec_ret. intros h [Hall (Hj & Hk & Hs)]. split; [done|]. split; [done|]. split; [done|].
    split; [unfold counted; lia|]. intros H. by apply nice_undoes_nil, Hs. }
  apply list_subseteq_cons_iff in Hrest as [Hr Hrest].
  apply (status_spec (fun s => keeps s /\ (rr_errors result = 0%nat -> nice_undoes (r :: rest) s s0)) r
    (fun status => match status with
     | IdentityMissing => _ | IdentityMismatch => _ | UnknownLegacy => _ | SameTask => _ end));
    [done|by intros s []|].
  apply write_back_spec; [done|..].
  - eapply hspec_conseq; [by apply (IH (count_record result 1 0 0 0 0))|..].
    + intros h [Hall (Hj & Hk & Hs)]. split; [done|]. split; [done|]. split; [done|].
      simpl. rewrite Nat.add_0_r. done.
    + intros x h [Hall (Hj & Hk & Hc & Hs)]. split; [done|]. split; [done|]. split; [done|].
      split; [|done]. unfold counted in *. simpl in *. lia.
  - eapply hspec_conseq; [by apply (IH (count_record result 0 0 0 0 1))|..].
    + intros h [Hall (Hj & Hk)]. split; [done|]. split; [done|]. split; [done|]. simpl. lia.
    + intros x h [Hall (Hj & Hk & Hc & Hs)]. split; [done|]. split; [done|]. split; [done|].
      split; [|done]. unfold counted in *. simpl in *. lia.
Qed.

Lemma nice_restore_spec require :
  hspec (on_sys keeps) (nice_restore_token require (NiceRestore records))
    (fun x => on_sys (fun s => keeps s /\ match x with
       | inl res => counted (RollbackResult_zero "nice-rollback") (length records) res /\
                    (rr_errors res = 0%nat -> same_tasks s s0)
       | inr _ => False
       end)).
Proof.
  eapply hspec_bind.
  - eapply hspec_pre; [by apply (restore_records_spec require records)|].
    intros h [Hall (Hj & Hp & Hr)]. by split.
  - intros res. by apply hspec_ret.
Qed.
End restore.
End crash.

(** ** The prepared apply

    [K] holds of the files until the token is durable, [J t] once it is. *)

Section prepared.
Context {S : Type} {FS : FileSystem S} {TK : TaskKernel S} `{!TaskKernelLaws (S := S)}.
Context (I K : Disk S -> Prop) (J : RollbackToken -> Disk S -> Prop) (s0 : S) (a : NiceAction).
Context (before_mutation : RollbackToken -> HM S (unit + AnyError)).
Hypothesis Hhonest : targets_honest a s0.
Hypothesis J_frame : forall t s d, J t d -> J t (with_sys s d).
Hypothesis HI : forall plan d, J (NiceRestore plan) d -> nice_undoes plan (sys d) s0 -> I d.
Hypothesis Hhook : forall plan, nice_undoes plan s0 s0 ->
  hspec (at_disk I (fun d => K d /\ sys d = s0)) (before_mutation (NiceRestore plan))
    (fun r => at_disk I (fun d => sys d = s0 /\
       match r with inl _ => J (NiceRestore plan) d | inr _ => K d end)).

(** What the apply leaves: nothing changed, or a durable token that undoes it. *)
Definition prepared_outcome (x : ApplyResult) (d : Disk S) : Prop :=
  (K d /\ sys d = s0 /\ match x with inl _ => False | inr p => pa_rollback p = None end) \/
  exists plan, J (NiceRestore plan) d /\ applied_plan s0 plan x (sys d).

(** Reading a machine that is known. *)
Lemma hspec_observe_at {A B} (P : Host S -> Prop) (f : S -> A) (k : A -> HM S B) (Q : B -> Host S -> Prop) :
  (forall h, P h -> sys (disk h) = s0) -> hspec P (k (f s0)) Q ->
  hspec P (let* x := observe f in k x) Q.
Proof. intros Hs Hk h Hp. specialize (Hk h Hp). rewrite <- (Hs h Hp) in Hk. exact Hk. Qed.

Lemma nice_apply_prepared_spec :
  hspec (at_disk I (fun d => K d /\ sys d = s0)) (nice_apply_prepared a before_mutation)
    (fun x => at_disk I (prepared_outcome x)).
Proof.
  assert (Hnone : forall e, hspec (at_disk I (fun d => K d /\ sys d = s0)) (hret (inr (plain_error e)))
    (fun x => at_disk I (prepared_outcome x))).
  { intros e. apply hspec_ret. intros h [Hall [Hk Hs]]. split; [done|]. by left. }
  apply hspec_observe_at; [by intros h [_ [_ Hs]]|].
  destruct (plan_records a true s0) as [plan|] eqn:Hplan; [|apply Hnone].
  pose proof (plan_undoes _ _ _ _ Hplan Hhonest) as Hund.
  eapply hspec_bind; [by apply Hhook|]. intros [[]|e].
  2: { eapply hspec_pre; [apply Hnone|]. by intros h [Hall [Hs Hk]]. }
  apply hspec_observe_at; [by intros h [_ [Hs _]]|]. rewrite Hplan, bool_decide_eq_true_2 by done.
  eapply hspec_conseq; [apply (apply_plan_spec I (J (NiceRestore plan)) s0)| |].
  - apply J_frame.
  - intros d. apply HI.
  - by intros h [Hall [Hs Hj]].
  - intros x h [Hall [Hj Hx]]. split; [done|]. right. by exists plan.
Qed.
End prepared.
