(* ===== verification/Transaction.v ===== *)
(** * The journaled action transaction

    [stutter/src/autotune/action_transaction.rs]: the audited runner with hooks
    that write the controller journal.  [Undoable] is what a prepared action
    promises the transaction: its tokens undo what it did, also when it is cut
    short.  From it follows that a crash at any point leaves a machine that is
    unchanged or a journal whose token undoes the change. *)

From Stdlib Require Import String.
From S2P Require Import Prelude PolicyModel PolicyEval PolicySpec ActionModel ActionRunner RunnerLogic Journal Recovery Procfs Tasks.

Record JournaledActionInput := {
  ji_experiment_id : string;
  ji_metadata : ControllerJournalActionMetadata;
}.

Record JournaledActionFailure := {
  jf_source : ActionError;
  jf_rollback : option RollbackToken;
  jf_rollback_completed : bool;
}.

(** [anyhow::Error] of the transaction: a failed journal write, or the runner's. *)
Inductive TransactionError := TxIo (e : AnyError) | TxAction (f : JournaledActionFailure).

Section transaction.
Context {S : Type} {FS : FileSystem S} (elapsed : Host S -> Z).

(** [ExperimentId::try_new] *)
Definition try_experiment_id (id : string) : HM S (string + AnyError) :=
  hret (if trim_is_empty id then inr (EOther "ExperimentId cannot be empty") else inl id).

Definition remember_rollback (t : RollbackToken) (l : TransactionLocals) : TransactionLocals :=
  {| tx_rollback := Some t; tx_rollback_completed := tx_rollback_completed l |}.
Definition remember_completed (l : TransactionLocals) : TransactionLocals :=
  {| tx_rollback := tx_rollback l; tx_rollback_completed := true |}.
Definition fresh_locals (_ : TransactionLocals) : TransactionLocals :=
  {| tx_rollback := None; tx_rollback_completed := false |}.

Definition hook_after_apply (input : JournaledActionInput) (action_id : string) (token : RollbackToken)
  : HM S (unit + AnyError) :=
  let* _ := set_locals (remember_rollback token) in
  let? id := try_experiment_id (ji_experiment_id input) in
  write_controller_journal_applied_with_metadata id action_id token
    (with_verify_result (ji_metadata input) "applied_pending_verify").

Definition hook_after_prepare (input : JournaledActionInput) (action_id : string) (token : RollbackToken)
  : HM S (unit + AnyError) :=
  let* _ := set_locals (remember_rollback token) in
  let? id := try_experiment_id (ji_experiment_id input) in
  write_controller_journal_phase_with_metadata JApplying id action_id (Some token)
    (with_verify_result (ji_metadata input) "rollback_prepared_before_mutation").

Definition hook_after_rollback (_ : RollbackToken) : HM S (unit + AnyError) :=
  let* _ := set_locals remember_completed in write_controller_journal_clean.

Definition journal_hooks (input : JournaledActionInput) (action_id : string) : ActionHooks (W := Host S) := {|
  after_prepare := Some (hook_after_prepare input action_id);
  after_apply := Some (hook_after_apply input action_id);
  after_rollback := Some hook_after_rollback |}.

Definition apply_journaled_action (action : TuningAction (W := Host S)) (policy : ActionRunPolicy)
    (input : JournaledActionInput) : HM S (AuditedActionResult + TransactionError) :=
  let action_id := action_id (descriptor action) in
  let* start :=
    (let? id := try_experiment_id (ji_experiment_id input) in
     write_controller_journal_applying_with_metadata id action_id (ji_metadata input)) in
  match start with
  | inr e => hret (inr (TxIo e))
  | inl _ =>
      let* _ := set_locals fresh_locals in
      let* result := (fun h => (run_audited_action elapsed unix_nanos_now "autotune candidate" action
                                  policy (journal_hooks input action_id) h).1) in
      match result with
      | inl res => hret (inl res)
      | inr source =>
          let* l := get_locals in
          hret (inr (TxAction {| jf_source := source; jf_rollback := tx_rollback l;
                                 jf_rollback_completed := tx_rollback_completed l |}))
      end
  end.
End transaction.

(** ** What a crash may find *)

Section crash.
Context {S : Type}.

(** The token a journal file names for an action that may be applied. *)
Definition named (f : File ControllerJournalRecord) : option RollbackToken :=
  match f with
  | Holds r => if may_have_mutated_system r then jr_rollback_token r else None
  | Missing | Corrupt => None
  end.

Lemma named_jnames t f : named f = Some t <-> jnames t f.
Proof.
  destruct f as [| |r]; simpl; [naive_solver..|]. destruct (may_have_mutated_system r); naive_solver.
Qed.

Definition versions (d : Disk S) : list (File ControllerJournalRecord) := journal d :: journal_old d.

Context (eqv : S -> S -> Prop) (undoes : RollbackToken -> S -> S -> Prop).

(** Whatever version of the journal is found: the token it names undoes the
    change, and one that names none is found with nothing changed. *)
Definition accounted (s0 : S) (d : Disk S) : Prop :=
  Forall (fun f => match named f with
                   | Some t => undoes t (sys d) s0
                   | None => eqv (sys d) s0
                   end) (versions d).

(** The ledger is left alone. *)
Definition same_ledger (d0 d : Disk S) : Prop := ledger d = ledger d0 /\ ledger_old d = ledger_old d0.

(** What a crash may find of a transaction that started from [d0]. *)
Definition crash_safe (d0 d : Disk S) : Prop := same_ledger d0 d /\ accounted (sys d0) d.

(** No version names a token. *)
Definition idle (d : Disk S) : Prop := Forall (fun f => named f = None) (versions d).
(** Every version names one of two tokens. *)
Definition names_either (t t' : RollbackToken) (d : Disk S) : Prop :=
  Forall (fun f => named f = Some t \/ named f = Some t') (versions d).

Lemma idle_safe s0 d : idle d -> eqv (sys d) s0 -> accounted s0 d.
Proof. intros Hi He. eapply Forall_impl; [|exact Hi]. by intros f ->. Qed.

Lemma names_either_safe t t' s0 d :
  names_either t t' d -> undoes t (sys d) s0 -> undoes t' (sys d) s0 -> accounted s0 d.
Proof. intros Hn H H'. eapply Forall_impl; [|exact Hn]. by intros f [-> | ->]. Qed.

Lemma safe_after_crash d0 d d' : crash_safe d0 d -> crashed d d' -> accounted (sys d0) d'.
Proof.
  intros [_ Hs] [j l Hj _]. constructor; [|constructor]. simpl. exact (Forall_elem _ _ _ Hs Hj).
Qed.

(** A new version joins the old ones until the directory is synced. *)
Lemma safe_install s0 r d :
  accounted s0 d ->
  match named (Holds r) with Some t => undoes t (sys d) s0 | None => eqv (sys d) s0 end ->
  accounted s0 (install_journal r d) /\ accounted s0 (sync_journal (install_journal r d)).
Proof. intros Hs Hr. split; (constructor; [exact Hr|]); [exact Hs|constructor]. Qed.
End crash.

(** ** What a prepared action promises *)

Section undoable.
Context {S : Type} {FS : FileSystem S}.
Context (action : TuningAction (W := Host S)).
Context (eqv : S -> S -> Prop) (undoes : RollbackToken -> S -> S -> Prop)
  (covers : RollbackToken -> RollbackToken -> Prop) (usable : S -> Prop).

(** A step that changes nothing on disk or of the machine. *)
Definition reads_only {A} (m : HM S A) : Prop := forall h, crash_points (m h).2 = crash_points h.

Definition token_of (x : RollbackToken + PartialApplyError) : option RollbackToken :=
  match x with inl t => Some t | inr p => pa_rollback p end.

Class Undoable : Prop := {
  un_eqv :: Equivalence eqv;
  un_preflight : reads_only (preflight action);
  un_dry_run : reads_only (dry_run action);
  un_verify : reads_only (verify action);
  (** The hook gets a token that undoes what is about to be done; without its
      consent nothing is written, and with it every state on the way is undone by
      that token.  A token that is returned undoes what was written. *)
  un_apply (I K : Disk S -> Prop) (J : RollbackToken -> Disk S -> Prop) s0 hook :
    usable s0 ->
    (forall t s d, J t d -> J t (with_sys s d)) ->
    (forall t d, J t d -> undoes t (sys d) s0 -> I d) ->
    (forall t, undoes t s0 s0 ->
       hspec (at_disk I (fun d => K d /\ sys d = s0)) (hook t)
         (fun r => at_disk I (fun d => sys d = s0 /\ match r with inl _ => J t d | inr _ => K d end))) ->
    hspec (at_disk I (fun d => K d /\ sys d = s0)) (apply_with_prepared_rollback action hook)
      (fun x => at_disk I (fun d =>
         match token_of x with
         | Some t' => exists t, J t d /\ covers t t' /\ undoes t (sys d) s0 /\ undoes t' (sys d) s0
         | None => (K d /\ sys d = s0) \/ (exists t, J t d /\ undoes t (sys d) s0 /\ eqv (sys d) s0)
         end));
  (** A rollback keeps what other tokens promise, and what it reports is so. *)
  un_rollback (I J : Disk S -> Prop) s0 t t' :
    covers t t' ->
    (forall s d, J d -> J (with_sys s d)) ->
    (forall d, J d -> undoes t (sys d) s0 -> undoes t' (sys d) s0 -> I d) ->
    hspec (at_disk I (fun d => J d /\ undoes t (sys d) s0 /\ undoes t' (sys d) s0))
      (rollback_with action t')
      (fun r => at_disk I (fun d => (J d /\ undoes t (sys d) s0 /\ undoes t' (sys d) s0) /\
         match r with inl _ => eqv (sys d) s0 | inr _ => True end));
}.
End undoable.

(** ** The transaction keeps every crash point safe *)

Section safe.
Context {S : Type} {FS : FileSystem S} (elapsed : Host S -> Z).
Context (action : TuningAction (W := Host S)) (policy : ActionRunPolicy) (input : JournaledActionInput).
Context (eqv : S -> S -> Prop) (undoes : RollbackToken -> S -> S -> Prop)
  (covers : RollbackToken -> RollbackToken -> Prop) (usable : S -> Prop).
Context `{!Undoable action eqv undoes covers usable} (d0 : Disk S).

Abbreviation s0 := (sys d0).

Abbreviation I := (crash_safe eqv undoes d0).
Abbreviation aid := (action_id (descriptor action)).

Lemma hspec_write_phase (P : Disk S -> Prop) st id action_id tok md :
  (forall r d, jr_state r = st -> jr_rollback_token r = tok -> P d -> I d ->
     match named (Holds r) with Some t => undoes t (sys d) s0 | None => eqv (sys d) s0 end) ->
  hspec (at_disk I P) (write_controller_journal_phase_with_metadata st id action_id tok md)
    (fun x => at_disk I (fun d' => exists r, jr_state r = st /\ jr_rollback_token r = tok /\
       replaced I P (install_journal r) sync_journal x d')).
Proof.
  intros Hr. eapply hspec_bind; [by apply hspec_now, at_disk_only|]. intros started.
  eapply hspec_bind; [by apply hspec_now, at_disk_only|]. intros updated.
  eapply hspec_post; [apply hspec_write_journal|].
  - intros d Hp Hi. split; [apply Hi|]. apply safe_install; [apply Hi|]. by apply Hr.
  - intros d Hp Hi. split; [apply Hi|]. apply safe_install; [apply Hi|]. by apply Hr.
  - intros x h [Hall Hx]. split; [done|]. eexists. by split; [|split; [|exact Hx]].
Qed.

Lemma hspec_write_clean (P : Disk S -> Prop) :
  (forall d, P d -> eqv (sys d) s0) ->
  hspec (at_disk I P) write_controller_journal_clean
    (fun x => at_disk I (replaced I P (install_journal clean) sync_journal x)).
Proof.
  intros HP. apply hspec_write_journal; intros d Hp Hi; (split; [apply Hi|]); apply safe_install;
    by first [apply HP | apply Hi].
Qed.

(** Nothing is applied and every token the journal may name undoes nothing. *)
Definition before_apply (d : Disk S) : Prop :=
  Forall (fun f => match named f with Some t => undoes t s0 s0 | None => True end) (versions d).

(** The token of the journal and the one the runner holds both undo the change. *)
Definition issued (t' : RollbackToken) (files : Disk S -> Prop) (d : Disk S) : Prop :=
  exists t, (names_either t t' d /\ files d) /\ covers t t' /\ undoes t (sys d) s0 /\ undoes t' (sys d) s0.

(** The journal durably says the token is applied. *)
Definition applied_in_journal (t' : RollbackToken) (d : Disk S) : Prop :=
  exists r, journal d = Holds r /\ jr_state r = JApplied /\ jr_rollback_token r = Some t' /\ journal_old d = [].

Lemma try_id_spec (P : Host S -> Prop) (id : string) : hspec P (try_experiment_id id) (fun _ => P).
Proof. by apply hspec_ret. Qed.

Lemma after_prepare_spec t :
  undoes t s0 s0 ->
  hspec (at_disk I (fun d => before_apply d /\ sys d = s0)) (hook_after_prepare input aid t)
    (fun r => at_disk I (fun d => sys d = s0 /\
       match r with inl _ => Forall (fun f => named f = Some t) (versions d) | inr _ => before_apply d end)).
Proof.
  intros Ht. eapply hspec_bind; [by apply hspec_set_locals, at_disk_only|]. intros [].
  eapply hspec_try; [apply try_id_spec|by intros e h [H1 [H2 H3]]|]. intros id.
  eapply hspec_post; [apply hspec_write_phase|].
  - intros r d Hst Htok [_ Hs] _. unfold named, may_have_mutated_system. rewrite Hst, Htok. by rewrite Hs.
  - intros x h [Hall (r & Hst & Htok & d & [Hb Hs] & _ & E)]. split; [done|].
    assert (Hnew : named (Holds r) = Some t) by (unfold named, may_have_mutated_system; by rewrite Hst).
    destruct x as [[]|e].
    + rewrite E. split; [exact Hs|]. by constructor.
    + destruct E as [-> | ->]; [done|]. split; [exact Hs|].
      constructor; [|exact Hb]. change (journal (install_journal r d)) with (Holds r). by rewrite Hnew.
Qed.

Lemma after_apply_spec t' :
  hspec (at_disk I (issued t' (fun _ => True))) (hook_after_apply input aid t')
    (fun r => at_disk I (issued t' match r with inl _ => applied_in_journal t' | inr _ => fun _ => True end)).
Proof.
  eapply hspec_bind; [by apply hspec_set_locals, at_disk_only|]. intros [].
  eapply hspec_try; [apply try_id_spec|done|]. intros id.
  eapply hspec_post; [apply hspec_write_phase|].
  - intros r d Hst Htok (t & _ & _ & _ & Ht') _. unfold named, may_have_mutated_system. by rewrite Hst, Htok.
  - intros x h [Hall (r & Hst & Htok & d & (t & [Hn _] & Hcov & Ht & Ht') & _ & E)]. split; [done|].
    assert (Hnew : named (Holds r) = Some t') by (unfold named, may_have_mutated_system; by rewrite Hst).
    exists t. destruct x as [[]|e].
    + rewrite E. split; [|done]. split; [constructor; [by right|constructor]|]. by exists r.
    + destruct E as [-> | ->]; (split; [split; [|done]|done]); [done|]. constructor; [by right|exact Hn].
Qed.

Lemma after_rollback_spec t' :
  hspec (at_disk I (fun d => eqv (sys d) s0)) (hook_after_rollback t')
    (fun r => at_disk I (fun d => eqv (sys d) s0 /\
       match r with inl _ => journal d = Holds clean /\ journal_old d = [] | inr _ => True end)).
Proof.
  eapply hspec_bind; [by apply hspec_set_locals, at_disk_only|]. intros [].
  eapply hspec_post; [by apply hspec_write_clean|].
  intros x h [Hall (d & He & _ & E)]. split; [done|]. destruct x as [[]|e]; [by rewrite E|].
  by destruct E as [-> | ->].
Qed.

Lemma reads_only_spec {A} (m : HM S A) (P : Host S -> Prop) : reads_only m -> disks_only P -> hspec P m (fun _ => P).
Proof. intros Hm HP h Hp. by apply (HP h). Qed.
Lemma journaled_action_spec :
  usable s0 ->
  ActionSpec action (journal_hooks input aid)
    (at_disk I (fun d => before_apply d /\ sys d = s0))
    (at_disk I (fun d => eqv (sys d) s0))
    (at_disk I (fun d => eqv (sys d) s0 /\ journal d = Holds clean /\ journal_old d = []))
    (fun b t => at_disk I (issued t (if b then applied_in_journal t else fun _ => True)))
    (fun _ => at_disk I (fun d => eqv (sys d) s0)).
Proof.
  intros Hu. split.
  - apply reads_only_spec; [apply (un_preflight action eqv undoes covers usable)|apply at_disk_only].
  - apply reads_only_spec; [apply (un_dry_run action eqv undoes covers usable)|apply at_disk_only].
  - eapply hspec_post.
    + apply (un_apply action eqv undoes covers usable I before_apply
               (fun t d => same_ledger d0 d /\ Forall (fun f => named f = Some t) (versions d)) s0); [done|done| |].
      * intros t d [Hl Hn] Ht. split; [done|]. eapply Forall_impl; [|exact Hn]. by intros f ->.
      * intros t Ht. eapply hspec_post; [by apply after_prepare_spec|]. intros [[]|e] h [Hall Hx]; [|by split].
        split; [done|]. split; [apply Hx|]. apply Forall_inv in Hall. split; [apply Hall|apply Hx].
    + intros x h [Hall Hx].
      assert (Hnone : (before_apply (disk h) /\ sys (disk h) = s0) \/
        (exists t, (same_ledger d0 (disk h) /\ Forall (fun f => named f = Some t) (versions (disk h))) /\
           undoes t (sys (disk h)) s0 /\ eqv (sys (disk h)) s0) -> eqv (sys (disk h)) s0).
      { intros [[_ ->]|(t & _ & _ & H)]; [reflexivity|done]. }
      assert (Hsome : forall t', (exists t,
        (same_ledger d0 (disk h) /\ Forall (fun f => named f = Some t) (versions (disk h))) /\ covers t t' /\ undoes t (sys (disk h)) s0 /\ undoes t' (sys (disk h)) s0) ->
        issued t' (fun _ => True) (disk h)).
      { intros t' (t & [_ Hn] & H). exists t. split; [|done]. split; [|done].
        eapply Forall_impl; [|exact Hn]. by left. }
      destruct x as [t'|p]; simpl in Hx; [by split; auto|]. destruct (pa_rollback p); split; auto.
  - intros t. eapply hspec_post; [apply after_apply_spec|]. intros [[]|e] h; done.
  - intros t. apply reads_only_spec; [apply (un_verify action eqv undoes covers usable)|apply at_disk_only].
  - intros b t' h [Hall (t & HJ & Hcov & Ht & Ht')].
    assert (Hr := un_rollback action eqv undoes covers usable I
      (fun d => same_ledger d0 d /\ names_either t t' d /\
                (if b then applied_in_journal t' else fun _ => True) d) s0 t t' Hcov).
    lapply Hr; [clear Hr; intros Hr|by intros s d; destruct b].
    lapply Hr; [clear Hr; intros Hr|intros d (Hl & Hn & _) H H'; split; [done|by eapply names_either_safe]].
    specialize (Hr h (conj Hall (conj (conj (proj1 (Forall_inv Hall)) HJ) (conj Ht Ht')))).
    destruct (rollback_with action t' h) as [[[]|e] h']; destruct Hr as [Hall' [Hk Hx]]; simpl in *.
    + by split.
    + split; [done|]. exists t. destruct Hk as ([_ ?] & ? & ?). by split.
  - intros t. eapply hspec_post; [apply after_rollback_spec|]. intros [[]|e] h [Hall Hx]; [by split|].
    split; [done|apply Hx].
Qed.

(** What the transaction leaves, by its result. *)
Definition transaction_leaves (r : AuditedActionResult + TransactionError) (d : Disk S) : Prop :=
  match r with
  | inl res =>
      match res_rollback res with
      | Some t => undoes t (sys d) s0 /\ applied_in_journal t d
      | None => sys d = s0
      end
  | inr (TxIo _) => sys d = s0
  | inr (TxAction f) =>
      eqv (sys d) s0 \/
      error_phase (jf_source f) = PhEmergencyRollback /\
      exists t, undoes t (sys d) s0 /\ exists t', named (journal d) = Some t' /\ undoes t' (sys d) s0
  end.

Lemma start_spec :
  hspec (at_disk I (fun d => idle d /\ sys d = s0))
    (let? id := try_experiment_id (ji_experiment_id input) in
     write_controller_journal_applying_with_metadata id aid (ji_metadata input))
    (fun _ => at_disk I (fun d => before_apply d /\ sys d = s0)).
Proof.
  assert (Hidle : forall d, idle d -> before_apply d).
  { intros d Hd. eapply Forall_impl; [|exact Hd]. by intros f ->. }
  eapply hspec_try; [apply try_id_spec|intros e h [H1 [H2 H3]]; split; [done|]; by auto|]. intros id.
  eapply hspec_post; [apply hspec_write_phase|].
  - intros r d Hst Htok [_ ->] _. unfold named. rewrite Htok. destruct (may_have_mutated_system r); reflexivity.
  - intros x h [Hall (r & Hst & Htok & d & [Hd Hs] & _ & E)]. split; [done|].
    assert (Hnew : named (Holds r) = None) by (unfold named; rewrite Htok; by destruct (may_have_mutated_system r)).
    assert (Hd' : before_apply (install_journal r d) /\ before_apply (sync_journal (install_journal r d))).
    { pose proof (Hidle d Hd) as Hb. unfold before_apply, versions in *.
      split; (apply List.Forall_cons; [|first [exact Hb | constructor]]); cbn [journal install_journal sync_journal];
        by rewrite Hnew. }
    destruct x as [[]|e]; [rewrite E; by destruct Hd'|]. destruct E as [-> | ->]; [by auto|by destruct Hd'].
Qed.

Lemma transaction_safe :
  usable s0 ->
  hspec (at_disk I (fun d => idle d /\ sys d = s0)) (apply_journaled_action elapsed action policy input)
    (fun r => at_disk I (transaction_leaves r)).
Proof.
  intros Hu. unfold apply_journaled_action. cbv zeta.
  eapply hspec_bind; [apply start_spec|]. intros [[]|e].
  2: { apply hspec_ret. by intros h [Hall [_ Hs]]. }
  eapply hspec_bind; [by apply hspec_set_locals, at_disk_only|]. intros [].
  eapply hspec_bind; [exact (run_audited_action_spec elapsed unix_nanos_now _ action policy _ _ _ _ _ _
    (H := journaled_action_spec Hu))|].
  intros [res|source].
  - apply hspec_ret. intros h. unfold transaction_leaves. simpl. destruct (res_rollback res) as [t'|].
    + intros [Hall (t & [_ Hj] & _ & _ & Ht')]. by split.
    + intros [Hall [_ Hs]]. by split.
  - eapply hspec_bind; [apply hspec_get_locals|]. intros l. apply hspec_ret. simpl.
    intros h Hh. assert (Hall : Forall I (crash_points h)).
    { destruct Hh as [[H _]|[[H _]|[[H _]|[(t & H & _)|(_ & b & t & H & _)]]]]; exact H. }
    split; [done|]. simpl.
    destruct Hh as [[_ [_ ->]]|[[_ H]|[[_ [H _]]|[(t & _ & H)|(Hph & b & t' & _ & (t & [Hn _] & _ & Ht & Ht'))]]]].
    + left. reflexivity.
    + by left.
    + by left.
    + by left.
    + right. split; [done|]. exists t'. split; [done|].
      apply Forall_inv in Hn as [Hn|Hn]; eauto.
Qed.
End safe.

(** ** The property of the transaction *)

Section property.
Context {S : Type} {FS : FileSystem S} (elapsed : Host S -> Z).
Context (action : TuningAction (W := Host S)) (policy : ActionRunPolicy) (input : JournaledActionInput).
Context (eqv : S -> S -> Prop) (undoes : RollbackToken -> S -> S -> Prop)
  (covers : RollbackToken -> RollbackToken -> Prop) (usable : S -> Prop).
Context `{!Undoable action eqv undoes covers usable}.

Lemma transaction_crash_points h :
  past h = [] -> idle (disk h) -> usable (sys (disk h)) ->
  Forall (crash_safe eqv undoes (disk h))
    (crash_points (apply_journaled_action elapsed action policy input h).2).
Proof.
  intros Hp Hi Hu.
  assert (Hrefl : Reflexive eqv) by (apply (un_eqv action eqv undoes covers usable)).
  refine (proj1 (transaction_safe elapsed action policy input eqv undoes covers usable (disk h) Hu h _)).
  split; [|done]. unfold crash_points. rewrite Hp. constructor; [|constructor].
  split; [done|]. apply idle_safe; [done|reflexivity].
Qed.

(** C7. A crash at any point of a journaled action that starts with an idle journal,
    between any two system calls and whatever version of the journal it leaves: the token
    the journal names undoes what the action did to the machine, and if it names none the
    machine is unchanged.  The action is [Undoable]: before it changes anything it hands
    the prepare hook a token that undoes every state it goes through, without the hook's
    consent it changes nothing, and a rollback that reports success has restored the
    machine.  An action with the default [apply_with_prepared_rollback], which applies
    first, is not. *)
Theorem journaled_action_crash_safe h d d' :
  past h = [] -> idle (disk h) -> usable (sys (disk h)) ->
  d ∈ crash_points (apply_journaled_action elapsed action policy input h).2 -> crashed d d' ->
  match named (journal d') with
  | Some t => undoes t (sys d') (sys (disk h))
  | None => eqv (sys d') (sys (disk h))
  end.
Proof.
  intros Hp Hi Hu Hd Hc. pose proof (transaction_crash_points h Hp Hi Hu) as Hall.
  eapply Forall_elem in Hall; [|exact Hd].
  pose proof (safe_after_crash eqv undoes _ _ _ Hall Hc) as Hacc. by apply Forall_inv in Hacc.
Qed.

(** A journaled action that succeeds has its token durably in the journal as applied;
    one that fails before or during its run leaves the machine unchanged unless the
    rollback itself failed, and then the journal still names a token that undoes it. *)
Theorem journaled_action_outcome h :
  past h = [] -> idle (disk h) -> usable (sys (disk h)) ->
  transaction_leaves eqv undoes (disk h) (apply_journaled_action elapsed action policy input h).1
    (disk (apply_journaled_action elapsed action policy input h).2).
Proof.
  intros Hp Hi Hu.
  assert (Hrefl : Reflexive eqv) by (apply (un_eqv action eqv undoes covers usable)).
  pose proof (transaction_safe elapsed action policy input eqv undoes covers usable (disk h) Hu h) as Hs.
  lapply Hs; [|split; [|done]].
  - by intros [_ H].
  - unfold crash_points. rewrite Hp. constructor; [|constructor].
    split; [done|]. apply idle_safe; [done|reflexivity].
Qed.
End property.
