(* ===== verification/Executor.v ===== *)
(** * Restoring tokens after a crash

    The executor startup recovery uses, [RealStartupRecoveryRollbackExecutor] of
    [autotune/startup_recovery.rs] with [startup_recovery/privileged.rs] and the
    registry of [actions/rollback/mod.rs], and the emergency restore command of
    [autotune/emergency_restore/mod.rs].  The nice handler is [Nice]; the handlers
    of the other token kinds, the privileged worker and the restore file of CPU
    affinity are parameters. *)

From Stdlib Require Import String.
From S2P Require Import Prelude PolicyModel PolicyEval ActionModel ActionRunner Journal Recovery Procfs Tasks Nice.

(** ** [startup_recovery/privileged.rs] *)

Definition needs_privileged_restore (t : RollbackToken) : bool :=
  match t with NiceRestore _ | CpuPowerRestore _ => true | _ => false end.

Definition identity_complete (i : TaskRestoreIdentity) : bool :=
  bool_decide (is_Some (process_pid i)) && bool_decide (is_Some (starttime_ticks i)).

Definition cgroup_restore_identity (r : CgroupRestoreRecord) : TaskRestoreIdentity :=
  match cgroup_identity r with Some identity => identity | None => legacy (cgroup_tid r) end.

(** The checks of [candidate_for]: a token with an incomplete record is refused. *)
Definition candidate_for (t : RollbackToken) : unit + AnyError :=
  match t with
  | NiceRestore records =>
      if forallb (fun r => identity_complete (restore_identity r)) records then inl tt
      else inr (EOther "incomplete nice record")
  | CgroupRestore records _ =>
      if forallb (fun r => identity_complete (cgroup_restore_identity r) &&
                           bool_decide (is_Some (original_cgroup_id r))) records
      then inl tt else inr (EOther "incomplete cgroup record")
  | CpuPowerRestore records =>
      if forallb (fun r => bool_decide (is_Some (cpu_identity r))) records then inl tt
      else inr (EOther "incomplete cpu power record")
  | _ => inr (EOther "not restored through the privileged worker")
  end.

Section executor.
Context {S : Type} {FS : FileSystem S} {TK : TaskKernel S}.

(** The rollback request the privileged worker answers. *)
Context (worker_rollback : RollbackToken -> HM S (nat + AnyError)).
(** [path.exists()] of a CPU affinity restore file. *)
Context (restore_file_exists : string -> HM S bool).
(** The handlers of the token kinds that are not modelled. *)
Context (other_handler : RollbackToken -> HM S (RollbackResult + AnyError)).

Definition restore_through_worker (t : RollbackToken) : HM S (nat + AnyError) :=
  match candidate_for t with inr e => hret (inr e) | inl _ => worker_rollback t end.

(** ** [rollback/mod.rs]: [startup_rollback_registry] *)

Definition startup_restore_token (t : RollbackToken) : HM S (RollbackResult + AnyError) :=
  match t with
  | NiceRestore _ => nice_restore_token true t
  | CpuAffinityRestoreFile _ _ | UclampRestore _ | CgroupRestore _ _ | CpuPowerRestore _ => other_handler t
  | IrqAffinityRestore _ | IoPrioRestore _ | VmKnobRestore _ | GpuPowerRestore _ | SysfsRestore _ _ =>
      hret (inr (EOther "no handler for token"))
  end.

(** [startup_recovery_summary_from_rollback_result]: the errors of the result go
    into the message only. *)
Definition summary_affected_tasks (r : RollbackResult) : nat := rr_restored r.

Definition real_executor (privileged_worker : bool) (t : RollbackToken) : HM S (nat + AnyError) :=
  match require_automatic_recovery t with
  | inr e => hret (inr e)
  | inl _ =>
      if needs_privileged_restore t && privileged_worker then restore_through_worker t
      else
        let* gone := match t with
                     | CpuAffinityRestoreFile path _ =>
                         let* there := restore_file_exists path in hret (negb there)
                     | _ => hret false
                     end in
        if gone then hret (inl 0%nat)
        else let? result := startup_restore_token t in hret (inl (summary_affected_tasks result))
  end.

(** ** [emergency_restore] *)

Inductive AutotuneRestoreStatus :=
| RestoreClean | ApplyingWithoutRollbackToken | RestoreDryRun | Restored | RestoreFaulted.

Record AutotuneRestoreOutcome := {
  ro_status : AutotuneRestoreStatus;
  ro_restored_actions : nat;
  ro_failed_actions : nat;
  ro_skipped_actions : nat;
  ro_restored_records : nat;
  ro_skipped_missing : nat;
  ro_skipped_identity_mismatch : nat;
  ro_failed_records : nat;
}.

Definition outcome_of (status : AutotuneRestoreStatus) (restored failed skipped : nat)
    (records missing mismatch failed_records : nat) : AutotuneRestoreOutcome := {|
  ro_status := status; ro_restored_actions := restored; ro_failed_actions := failed;
  ro_skipped_actions := skipped; ro_restored_records := records; ro_skipped_missing := missing;
  ro_skipped_identity_mismatch := mismatch; ro_failed_records := failed_records |}.

(** [default_autotune_rollback_registry]: the catch-all handler is last. *)
Definition default_restore_token (t : RollbackToken) : HM S (RollbackResult + AnyError) :=
  match t with
  | NiceRestore _ => nice_restore_token false t
  | _ => other_handler t
  end.
Context (preview_token : RollbackToken -> HM S (nat + AnyError)).

Definition write_emergency_restore_audit_event (action_id : string) (t : RollbackToken)
    (success : bool) (affected : nat) : HM S (unit + AnyError) :=
  let* n := now in
  append_report FAudit (RepAudit {|
    schema_version := 1; ev_unix_nanos := n; ev_command := "autotune emergency restore";
    ev_action_id := Some action_id;
    ev_safety_class := Some (safety_class_for_rollback_token t); ev_dry_run := false;
    ev_success := success; ev_affected_tasks := affected;
    ev_restore_path := token_restore_path t; ev_action_phase := None;
    ev_error_category := None |}).

Definition write_emergency_restore_history_event (phase : ControllerPhase) (decision experiment_id
    action_id : string) (t : RollbackToken) (performed : bool) : HM S (unit + AnyError) :=
  append_report FHistory (RepHistory {|
    rh_phase := phase; rh_decision := decision;
    rh_candidate_name := candidate_name_from_action_id action_id;
    rh_action_kind := action_kind_from_action_id action_id;
    rh_safety_class := safety_class_for_rollback_token t; rh_experiment_id := experiment_id;
    rh_action_id := action_id; rh_rollback_performed := performed |}).

Definition restore_applied_journal_record (experiment_id action_id : string) (t : RollbackToken)
    (dry_run : bool) : HM S (AutotuneRestoreOutcome + AnyError) :=
  if dry_run then
    let? _ := preview_token t in hret (inl (outcome_of RestoreDryRun 0 0 1 0 0 0 0))
  else
    let* result := default_restore_token t in
    match result with
    | inl r =>
        if (0 <? rr_errors r)%nat then
          let? _ := write_emergency_restore_audit_event action_id t false (rr_restored r) in
          let? _ := write_emergency_restore_history_event CpFaulted "EmergencyRestoreFault" experiment_id
                      action_id t false in
          hret (inl (outcome_of RestoreFaulted 0 1 0 (rr_restored r) (rr_skipped_dead r)
                       (rr_skipped_identity_mismatch r) (rr_errors r)))
        else
          let? _ := write_controller_journal_clean in
          let? _ := write_emergency_restore_audit_event action_id t true (rr_restored r) in
          let? _ := write_emergency_restore_history_event CpCooldown "restored" experiment_id action_id t
                      true in
          hret (inl (outcome_of Restored 1 0 0 (rr_restored r) (rr_skipped_dead r)
                       (rr_skipped_identity_mismatch r) (rr_errors r)))
    | inr _ =>
        let? _ := write_emergency_restore_audit_event action_id t false 0 in
        let? _ := write_emergency_restore_history_event CpFaulted "EmergencyRestoreFault" experiment_id
                    action_id t false in
        hret (inl (outcome_of RestoreFaulted 0 1 0 0 0 0 1))
    end.

Definition nothing_to_restore : AutotuneRestoreOutcome := outcome_of RestoreClean 0 0 0 0 0 0 0.
Definition no_token_to_restore : AutotuneRestoreOutcome :=
  outcome_of ApplyingWithoutRollbackToken 0 0 1 0 0 0 0.

Definition restore_known_autotune_actions (dry_run : bool) : HM S (AutotuneRestoreOutcome + AnyError) :=
  let? r := read_controller_journal in
  match jr_state r with
  | JClean | JPlanned | JPreflighted => hret (inl nothing_to_restore)
  | JReverted =>
      let? _ := if dry_run then hret (inl tt) else write_controller_journal_clean in
      hret (inl nothing_to_restore)
  | JApplying | JApplied | JVerifying | JMeasuring | JKeeping | JReverting | JFaulted =>
      match jr_rollback_token r with
      | Some t =>
          let '(experiment_id, action_id) := journal_experiment_action r in
          restore_applied_journal_record experiment_id action_id t dry_run
      | None => hret (inl no_token_to_restore)
      end
  end.

(** The command fails when the restore faulted. *)
Definition autotune_restore_command (dry_run : bool) : HM S (unit + AnyError) :=
  let? outcome := restore_known_autotune_actions dry_run in
  match ro_status outcome with
  | RestoreFaulted => hret (inr (EOther "autotune emergency restore failed"))
  | _ => hret (inl tt)
  end.
End executor.
