(* ===== verification/CrashRecovery.v ===== *)
(** * Crash and recovery, end to end

    A nice action run by the journaled transaction ([Transaction]) on a host that
    crashes at any point, followed by startup recovery ([Recovery]) with the
    daemon's executor ([Executor]): the tasks end up as they were.  The transaction
    and the recovery meet in two interfaces: [Undoable], which the nice action
    implements, and [ExecutorRestores], which the executor implements. *)

From Stdlib Require Import String.
From S2P Require Import Prelude PolicyModel PolicyEval PolicySpec ActionModel ActionRunner RunnerLogic Journal Recovery RecoverySafety Procfs Tasks Nice Transaction Executor.

(** ** Recovery of a machine the transaction left *)

Section recovery.
Context {S : Type} {FS : FileSystem S} (executor : RollbackToken -> HM S (nat + AnyError)).
Context (eqv : S -> S -> Prop) (undoes : RollbackToken -> S -> S -> Prop).

(** A restore that reports success has undone what the token promises. *)
Class ExecutorRestores : Prop :=
  executor_restores t s0 h :
    undoes t (sys (disk h)) s0 ->
    match (executor t h).1 with inl _ => eqv (sys (disk (executor t h).2)) s0 | inr _ => True end.
Context {executor_ok : ExecutorRestores} (s0 : S).

Abbreviation restored := (at_disk (fun _ : Disk S => True) (fun d => eqv (sys d) s0)).

Lemma restored_intro h : eqv (sys (disk h)) s0 -> restored h.
Proof. intros H. split; [by apply List.Forall_forall|done]. Qed.

Lemma write_clean_restored : hspec restored write_controller_journal_clean (fun _ => restored).
Proof.
  eapply hspec_post; [by apply hspec_write_journal|].
  intros [[]|e] h [_ (d & Hd & _ & E)]; apply restored_intro; [by rewrite E|]. by destruct E as [-> | ->].
Qed.

Ltac restored_report :=
  eapply hspec_try;
  [first [by apply audit_safe, at_disk_only | by apply append_report_safe, at_disk_only]|done|intros []].

Lemma recover_applied_restores id action t :
  hspec (fun h => undoes t (sys (disk h)) s0)
    (recover_applied_journal_record executor true id action t SourceJournal)
    (fun x h => match x with inl o => is_faulted o = false -> eqv (sys (disk h)) s0 | inr _ => True end).
Proof.
  unfold recover_applied_journal_record. simpl.
  eapply (hspec_bind _ _ _ (fun x h => match x with inl _ => restored h | inr _ => True end)).
  { destruct (require_automatic_recovery t); [|by apply hspec_ret].
    eapply (hspec_bind _ _ _ (fun x h => match x with inl _ => restored h | inr _ => True end)).
    - intros h Hu. pose proof (executor_restores t s0 h Hu) as Hx.
      destruct (executor t h).1; [by apply restored_intro|done].
    - intros [n|e]; [|by apply hspec_ret].
      eapply hspec_bind; [by apply hspec_set_at|]. intros []. apply hspec_ret.
      intros h [_ (d & E & He & _)]. apply restored_intro. by rewrite E. }
  intros [n|e].
  2: { do 3 (eapply (hspec_try _ _ _ (fun _ _ => True)); [done|done|intros []]). by apply hspec_ret. }
  eapply hspec_bind; [by apply hspec_read_journal, at_disk_only|]. intros record.
  eapply hspec_try; [eapply hspec_pre; [apply write_clean_restored|by intros h [H _]]|done|]. intros [].
  eapply hspec_try; [by apply retire_keeps|done|]. intros [].
  do 3 restored_report. apply hspec_ret. by intros h [_ H].
Qed.
(** The ledger is empty, so recovery is about the journal. *)
Lemma recover_empty_ledger h :
  ledger (disk h) = Missing ->
  exists h', recover_kept_ledger executor true h = (inl [], h') /\ disk h' = disk h.
Proof.
  intros Hl. eexists. unfold recover_kept_ledger, read_kept_ledger, exists_file, htry, hbind, syscall, get_disk.
  simpl. rewrite Hl. simpl. by split.
Qed.

Context `{!StatReliable (FS := FS)} `{!Equivalence eqv}.

Lemma recover_journal_restores :
  hspec (fun h => accounted eqv undoes s0 (disk h)) (recover_journal_record executor true)
    (fun x h => match x with inl o => is_faulted o = false -> eqv (sys (disk h)) s0 | inr _ => True end).
Proof.
  eapply hspec_try; [by apply hspec_read_journal, disks_only_disk|done|]. intros r.
  rewrite (surjective_pairing (journal_experiment_action r)).
  apply (hspec_pre _ (fun h => match named (Holds r) with
    | Some t => undoes t (sys (disk h)) s0 | None => restored h end)).
  2: { intros h [Hs Hr]. apply Forall_inv in Hs. destruct Hr as [Hr|[-> Hm]].
       - rewrite Hr in Hs. destruct (named (Holds r)); [done|by apply restored_intro].
       - rewrite Hm in Hs by done. by apply restored_intro. }
  assert (Htoken : may_have_mutated_system r = true -> forall s,
    hspec (fun h => match named (Holds r) with Some t => undoes t (sys (disk h)) s0 | None => restored h end)
      match jr_rollback_token r with
      | Some t => recover_applied_journal_record executor true (journal_experiment_action r).1
                    (journal_experiment_action r).2 t SourceJournal
      | None => recover_without_token s r
      end
      (fun x h => match x with inl o => is_faulted o = false -> eqv (sys (disk h)) s0 | inr _ => True end)).
  { intros Hm s. simpl. rewrite Hm. destruct (jr_rollback_token r) as [t|]; [apply recover_applied_restores|].
    unfold recover_without_token. rewrite (surjective_pairing (journal_experiment_action r)).
    restored_report. apply hspec_ret. by intros h [_ H]. }
  assert (Hclear : may_have_mutated_system r = false ->
    hspec (fun h => match named (Holds r) with Some t => undoes t (sys (disk h)) s0 | None => restored h end)
      (let? _ := write_controller_journal_clean in hret (inl SrClean))
      (fun x h => match x with inl o => is_faulted o = false -> eqv (sys (disk h)) s0 | inr _ => True end)).
  { intros Hm. simpl. rewrite Hm. eapply hspec_try; [apply write_clean_restored|done|]. intros [].
    apply hspec_ret. by intros h [_ H]. }
  unfold named, may_have_mutated_system in *.
  destruct (jr_state r); try (by apply Htoken); try (by apply Hclear).
  apply hspec_ret. by intros h [_ H].
Qed.

(** From a machine the journal accounts for, recovery that does not fault restores
    the machine. *)
Lemma recovery_restores h o h' :
  accounted eqv undoes s0 (disk h) -> ledger (disk h) = Missing ->
  recover_controller_journal executor true h = (inl o, h') -> is_faulted o = false ->
  eqv (sys (disk h')) s0.
Proof.
  intros Hs Hl Hr Ho. destruct (recover_empty_ledger h Hl) as (h1 & E1 & Ed).
  unfold recover_controller_journal, htry, hbind in Hr. rewrite E1 in Hr.
  rewrite <- Ed in Hs. pose proof (recover_journal_restores h1 Hs) as Hj.
  destruct (recover_journal_record executor true h1) as [[jo|e] h2]; [|done].
  injection Hr as <- <-. apply Hj. by destruct jo as [| | | |].
Qed.
End recovery.

(** ** The nice action as a [TuningAction] *)

Section nice.
Context {S : Type} {FS : FileSystem S} {TK : TaskKernel S} (a : NiceAction).

Definition nice_action_id : string :=
  ("nice:set:" +:+ decimal (nice a) +:+ ":targets:" +:+ decimal (Z.of_nat (length (targets a))))%string.

(** The default [TuningAction::descriptor]. *)
Definition nice_descriptor : ActionDescriptor := {|
  action_id := nice_action_id; action_kind := nice_action_id;
  safety_class := ReversibleMediumRisk; effect_scope := LocalProcessTree;
  rollback := RequiredBeforeApply; persistent_effect := false; touches_system_wide_state := false;
  requires_explicit_target := true; confidence := None |}.

Definition nice_action : TuningAction (W := Host S) := {|
  descriptor := nice_descriptor;
  preflight := observe (nice_preflight a);
  dry_run := observe (nice_dry_run a);
  apply_with_prepared_rollback := nice_apply_prepared a;
  verify := observe (nice_verify a);
  rollback_with := nice_rollback |}.

Definition token_undoes (t : RollbackToken) (s s0 : S) : Prop :=
  match t with NiceRestore records => nice_undoes records s s0 | _ => False end.

Definition token_covers (t t' : RollbackToken) : Prop :=
  match t, t' with NiceRestore plan, NiceRestore records => records ⊆ plan | _, _ => False end.

Context `{!TaskKernelLaws (S := S)}.

#[export] Instance nice_undoable :
  Undoable nice_action same_tasks token_undoes token_covers (targets_honest a).
Proof.
  split; [apply same_tasks_equiv|done|done|done|..].
  - intros I K J s0 hook Hh Hframe HI Hhook.
    eapply hspec_post; [apply (nice_apply_prepared_spec I K J s0 a hook); [done|done| |]|].
    + intros plan d Hj Hu. by apply (HI (NiceRestore plan)).
    + intros plan Hu. by apply Hhook.
    + intros x h [Hall [(Hk & Hs & Hx)|(plan & Hj & Hu & Hx)]]; (split; [done|]).
      * destruct x as [|p]; [done|]. simpl. rewrite Hx. by left.
      * destruct x as [t|p]; simpl in *.
        { subst. exists (NiceRestore plan). split; [done|]. split; [by intros r|done]. }
        destruct (pa_rollback p) as [t|]; [|right; by exists (NiceRestore plan)].
        destruct Hx as (records & -> & Hr & Hsub). by exists (NiceRestore plan).
  - intros I J s0 t t' Hcov Hframe HI. destruct t as [|plan| | | | | | | |], t' as [|recs| | | | | | | |]; try done.
    eapply hspec_conseq; [apply (nice_rollback_spec I J s0 Hframe plan recs Hcov)|..].
    + intros d Hj [H1 H2]. by apply HI.
    + done.
    + intros x h [Hall (Hj & [Hk1 Hk2] & Hx)]. split; [done|]. split; [done|]. by destruct x.
Qed.

(** ** The executor *)

Context (worker_rollback : RollbackToken -> HM S (nat + AnyError)).
Context (restore_file_exists : string -> HM S bool).
Context (other_handler : RollbackToken -> HM S (RollbackResult + AnyError)).
Abbreviation executor := (real_executor worker_rollback restore_file_exists other_handler).

(** The daemon may set the nice value of any task that is there. *)
Class MayRenice : Prop :=
  may_renice t n s : is_Some (proc_stat t s) -> -20 <= n <= 19 -> (setpriority t n s).1 = None.

(** With that permission the handler restores every record of a token that still
    undoes the machine. *)
Lemma restore_records_granted require records rest result s0 :
  MayRenice -> rest ⊆ records ->
  hspec (fun h => nice_undoes records (sys (disk h)) s0 /\ rr_errors result = 0%nat)
    (restore_records require rest result)
    (fun res h => nice_undoes records (sys (disk h)) s0 /\ rr_errors res = 0%nat).
Proof.
  intros Hmay. revert result. induction rest as [|r rest IH]; intros result Hrest; [by apply hspec_ret|].
  apply list_subseteq_cons_iff in Hrest as [Hr Hrest].
  intros h [Hu He]. destruct (nu_record _ _ _ Hu r Hr) as [Hv Hn].
  assert (Halive : is_Some (proc_stat (record_tid r) (sys (disk h)))).
  { unfold verify_task_identity in Hv. rewrite restore_identity_tid in Hv. by destruct (proc_stat _ _). }
  pose proof (may_renice (record_tid r) (original_nice r) _ Halive (task_nice_range _ _ _ Hn)) as Hok.
  destruct (setpriority (record_tid r) (original_nice r) (sys (disk h))) as [e s'] eqn:Hs. simpl in Hok. subst e.
  rewrite (restore_records_ok _ _ _ _ _ _ Hv Hs). apply (IH (count_record result 1 0 0 0 0)); [done|].
  split; [|simpl; lia]. eapply nice_undoes_write; [exact Hu| |exact Hs]. apply list_elem_of_fmap. by exists r.
Qed.

#[export] Instance real_executor_restores :
  MayRenice -> ExecutorRestores (executor false) same_tasks token_undoes.
Proof.
  intros Hmay t s0 h Hu. destruct t as [|records| | | | | | | |]; try done. simpl in Hu.
  unfold real_executor. simpl. unfold htry, hbind, hret.
  pose proof (nice_restore_spec (fun _ => True) (fun _ => True) s0 ltac:(done) records records ltac:(by intros r)
    ltac:(done) true h) as Hspec.
  lapply Hspec; [clear Hspec; intros Hspec|split; [by apply List.Forall_forall|by split]].
  pose proof (restore_records_granted true records records (RollbackResult_zero "nice-rollback") s0 Hmay
    ltac:(by intros r) h (conj Hu eq_refl)) as Hz.
  unfold nice_restore_token, hbind, hret in *.
  destruct (restore_records true records (RollbackResult_zero "nice-rollback") h) as [res h'].
  simpl in *. destruct Hspec as [_ (_ & _ & _ & Hsame)]. by apply Hsame, Hz.
Qed.

(** C1. Crash the daemon at any point of a journaled nice action, keep whatever version of
    the journal the crash leaves, and start it again with recovery enabled: if startup
    recovery does not fault, every task has the nice value and identity it had before the
    action.  It is so when
    - before the action the journal is idle and there is no ledger of kept actions;
    - every target names the process its thread belongs to;
    - the kernel grants the daemon each nice value it writes back ([MayRenice]; when
      it refuses them recovery still reports success, see below);
    - the test whether the two files exist does not fail ([StatReliable]);
    - no privileged worker is involved. *)
Theorem crash_recovery_restores_tasks elapsed policy input h d d' h1 o h2 :
  MayRenice -> StatReliable (FS := FS) ->
  past h = [] -> idle (disk h) -> ledger (disk h) = Missing -> ledger_old (disk h) = [] ->
  targets_honest a (sys (disk h)) ->
  d ∈ crash_points (apply_journaled_action elapsed nice_action policy input h).2 ->
  crashed d d' -> disk h1 = d' ->
  recover_controller_journal (executor false) true h1 = (inl o, h2) -> is_faulted o = false ->
  same_tasks (sys (disk h2)) (sys (disk h)).
Proof.
  intros Hmay Hst Hp Hi Hl Hlo Hh Hd Hc Hd1 Hr Ho.
  pose proof (transaction_crash_points elapsed nice_action policy input same_tasks token_undoes token_covers
    (targets_honest a) h Hp Hi Hh) as Hall. eapply Forall_elem in Hall; [|exact Hd].
  assert (Hledger : ledger d' = Missing).
  { destruct Hall as [[E1 E2] _]. destruct Hc as [j l _ Hl']. simpl. rewrite E1, E2, Hl, Hlo in Hl'.
    by apply list_elem_of_singleton in Hl'. }
  rewrite <- Hd1 in *. eapply (recovery_restores (executor false) same_tasks token_undoes
    (executor_ok := real_executor_restores Hmay)); [exact Hst| |exact Hledger|exact Hr|exact Ho].
  eapply safe_after_crash; [exact Hall|exact Hc].
Qed.

(** ** Where success is reported and nothing was restored *)

(** The outcome of one record that is not restored, with the errors it counts. *)
Lemma restore_records_denied require records result h :
  (forall t n s, is_Some (proc_stat t s) -> setpriority t n s = (Some EPERM, s)) ->
  let '(res, h') := restore_records require records result h in
  rr_restored res = rr_restored result /\ disk h' = disk h.
Proof.
  intros Hdeny. revert result h. induction records as [|r rest IH]; intros result h; [done|].
  cbn [restore_records]. unfold hbind at 1, observe at 1, get_disk at 1. cbn [fst snd].
  assert (Hskip : forall d m l e, let '(res, h') := restore_records require rest (count_record result 0 d m l e) h in
    rr_restored res = rr_restored result /\ disk h' = disk h).
  { intros d m l e. specialize (IH (count_record result 0 d m l e) h). simpl in IH. by rewrite Nat.add_0_r in IH. }
  assert (Hwrite : forall l, verify_task_identity (restore_identity r) (sys (disk h)) <> IdentityMissing ->
    let '(res, h') := (let* w := set_task_nice (record_tid r) (original_nice r) in
      match w with
      | inl _ => restore_records require rest (count_record result 1 0 0 l 0)
      | inr err =>
          let* class := observe (classify_restore_write_error (record_tid r) err) in
          match class with
          | MissingTask => restore_records require rest (count_record result 0 1 0 l 0)
          | PermissionDenied | InvalidWrite | IoError =>
              restore_records require rest (count_record result 0 0 0 l 1)
          end
      end) h in
    rr_restored res = rr_restored result /\ disk h' = disk h).
  { intros l Hv. assert (Halive : is_Some (proc_stat (record_tid r) (sys (disk h)))).
    { unfold verify_task_identity in Hv. rewrite restore_identity_tid in Hv. by destruct (proc_stat _ _). }
    unfold set_task_nice, sys_write, hbind, observe, get_disk, set_disk, hret. cbn [fst snd].
    rewrite (Hdeny _ _ _ Halive). cbn [fst snd classify_restore_write_error].
    specialize (IH (count_record result 0 0 0 l 1) (change (with_sys (sys (disk h))) h)).
    destruct (restore_records require rest (count_record result 0 0 0 l 1) _) as [res h'].
    simpl in IH. rewrite Nat.add_0_r in IH. destruct IH as [-> ->]. split; [done|]. by destruct (disk h). }
  destruct (verify_task_identity _ _) eqn:Hv; [by apply Hwrite|apply Hskip|apply Hskip|].
  destruct require; [apply Hskip|by apply Hwrite].
Qed.


(** The emergency restore command looks at the journal only: with a journal that has no
    active action it reports that there is nothing to restore and changes nothing,
    whatever kept actions the ledger holds. *)
Theorem emergency_restore_misses_kept_actions preview dry h r h' :
  journal (disk h) = Holds clean \/ journal (disk h) = Missing ->
  restore_known_autotune_actions other_handler preview dry h = (r, h') ->
  disk h' = disk h /\ (r = inl nothing_to_restore \/ r = inr io_error).
Proof.
  intros Hj. unfold restore_known_autotune_actions, read_controller_journal, exists_file, sys_ok, htry, hbind,
    syscall, get_disk, hret. simpl.
  destruct Hj as [Hj|Hj]; rewrite Hj; simpl; [|intros [= <- <-]; by auto].
  destruct (fs_result FJournal OpStat h); simpl; [|intros [= <- <-]; by auto..].
  destruct (fs_result FJournal OpOpen _); simpl; rewrite ?Hj; intros [= <- <-]; auto.
Qed.

(** A nice record that names a process the task does not belong to is skipped by the
    rollback, which reports success and leaves the task as it is: the process id of a
    target is recorded without being checked. *)
Theorem unowned_target_not_restored records h :
  Forall (fun r => exists st p, starttime_ticks (restore_identity r) = Some st /\
    process_pid (restore_identity r) = Some p /\ tgid_of (record_tid r) (sys (disk h)) <> Some p) records ->
  nice_rollback (NiceRestore records) h = (inl tt, h).
Proof.
  intros Hr. unfold nice_rollback, hbind.
  assert (H : forall sm, rs_failed sm = 0%nat ->
    exists sm', rollback_records records sm h = (sm', h) /\ rs_failed sm' = 0%nat).
  { induction Hr as [|r rest (st & p & Hst & Hp & Ht) Hrest IH]; intros sm Hsm; [by exists sm|].
    cbn [rollback_records]. unfold hbind at 1, observe at 1, get_disk at 1. cbn [fst snd].
    assert (Hv : verify_task_identity (restore_identity r) (sys (disk h)) = IdentityMissing \/
      verify_task_identity (restore_identity r) (sys (disk h)) = IdentityMismatch).
    { unfold verify_task_identity. rewrite restore_identity_tid, Hst, Hp.
      repeat case_match; simplify_eq; auto; exfalso; apply Ht; f_equal;
        by match goal with H : negb (_ =? p) = false |- _ => apply negb_false_iff, Z.eqb_eq in H end. }
    destruct Hv as [-> | ->]; by apply IH. }
  destruct (H RestoreSummary_default eq_refl) as (sm & -> & Hsm). unfold has_failures. by rewrite Hsm.
Qed.
End nice.
