(* ===== verification/CrashRuns.v ===== *)
(** * Concrete crashes and recoveries

    A machine of tasks with a nice value, a file system whose calls succeed, and
    a daemon that renices one task, crashes after the write and starts again: the
    theorems of [Transaction], [RecoverySafety] and [CrashRecovery] at these
    inputs, with their hypotheses computed. *)

From Stdlib Require Import String.
From S2P Require Import Prelude PolicyModel PolicyEval PolicySpec ActionModel ActionRunner RunnerLogic Journal Recovery RecoverySafety Procfs Tasks Nice Transaction Executor CrashRecovery.

(** ** The machine: nice values by task *)

Abbreviation Machine := (gmap Z Z).

Definition stat_fields (n : Z) : list string :=
  ["R"; "1"; "1"; "1"; "0"; "-1"; "4194560"; "0"; "0"; "0"; "0"; "0"; "0"; "0"; "0"; "20"; decimal n; "1";
   "0"; decimal 100; "0"]%string.

Definition nice_in_range (n : Z) : bool := (-20 <=? n) && (n <=? 19).

Definition machine_stat (t : Z) (m : Machine) : option string :=
  n ← m !! t; if nice_in_range n then Some (stat_line (decimal t) "game (1)" (stat_fields n) "") else None.

(** A kernel that lets the daemon renice its tasks, or refuses with [EPERM]. *)
Definition machine_kernel (granted : bool) : TaskKernel Machine := {|
  proc_stat := machine_stat;
  proc_status t m := if bool_decide (is_Some (m !! t)) then Some ("Tgid: " +:+ decimal t)%string else None;
  proc_comm _ _ := None;
  proc_exe _ _ := None;
  proc_task_exists t m := bool_decide (is_Some (m !! t));
  setpriority t n m :=
    match machine_stat t m with
    | None => (Some ESRCH, m)
    | Some _ => if granted then (None, <[t := Z.max (-20) (Z.min 19 n)]> m) else (Some EPERM, m)
    end |}.

Lemma stat_fields_ok n : -20 <= n <= 19 -> Forall (fun f => is_field f = true) (stat_fields n).
Proof.
  intros Hn. assert (Hd : is_field (decimal n) = true).
  { assert (Hall : forallb (fun k => is_field (decimal k)) (seqZ (-20) 40) = true) by (vm_compute; reflexivity).
    rewrite List.forallb_forall in Hall. apply Hall, list_elem_of_In, elem_of_seqZ. lia. }
  repeat constructor. exact Hd.
Qed.

Lemma stat_text_parses t n :
  -20 <= n <= 19 ->
  parse_stat_nice_and_starttime (stat_line (decimal t) "game (1)" (stat_fields n) "") = Some (n, 100) /\
  parse_proc_stat_starttime (stat_line (decimal t) "game (1)" (stat_fields n) "") = Some 100.
Proof.
  intros Hn. apply stat_line_parses_aux;
    first [by apply stat_fields_ok | reflexivity | unfold in_i32; lia | unfold in_u64; lia].
Qed.

Lemma machine_parses t m text :
  machine_stat t m = Some text ->
  exists n, m !! t = Some n /\ -20 <= n <= 19 /\
    parse_stat_nice_and_starttime text = Some (n, 100) /\ parse_proc_stat_starttime text = Some 100.
Proof.
  unfold machine_stat. destruct (m !! t) as [n|]; [|done]. simpl. destruct (nice_in_range n) eqn:Hr; [|done].
  intros [= <-]. unfold nice_in_range in Hr. apply andb_true_iff in Hr as [H1%Z.leb_le H2%Z.leb_le].
  exists n. split; [done|]. split; [done|]. by apply stat_text_parses.
Qed.

Lemma machine_stat_insert t t' n m :
  is_Some (machine_stat t m) ->
  machine_stat t' (<[t := Z.max (-20) (Z.min 19 n)]> m) =
  if decide (t' = t) then Some (stat_line (decimal t) "game (1)" (stat_fields (Z.max (-20) (Z.min 19 n))) "")
  else machine_stat t' m.
Proof.
  intros _. unfold machine_stat. destruct (decide (t' = t)) as [->|Hne].
  - rewrite lookup_insert_eq. simpl. unfold nice_in_range.
    by rewrite (proj2 (Z.leb_le _ _)), (proj2 (Z.leb_le _ _)) by lia.
  - by rewrite lookup_insert_ne by congruence.
Qed.

#[export] Instance machine_laws granted : TaskKernelLaws (TK := machine_kernel granted).
Proof.
  split; simpl.
  - intros t m text Hs. unfold machine_stat in Hs. destruct (m !! t) as [n|]; [|done]. simpl in Hs.
    destruct (nice_in_range n) eqn:Hr; [|done]. injection Hs as <-.
    unfold nice_in_range in Hr. apply andb_true_iff in Hr as [H1%Z.leb_le H2%Z.leb_le].
    exists (decimal t), "game (1)"%string, (stat_fields n), ""%string, n, 100.
    repeat split; first [done | lia | by apply stat_fields_ok].
  - intros t m text Hs. destruct (machine_parses t m text Hs) as (n & Hn & _).
    apply bool_decide_eq_true_2. by exists n.
  - intros t n m e m'. repeat case_match; congruence.
  - intros t n m m'. by repeat case_match.
  - intros t n m m' Hs Hn. destruct (machine_stat t m) eqn:Ht; [|done]. destruct granted; [|done].
    injection Hs as <-. unfold task_nice. simpl.
    rewrite machine_stat_insert, decide_True by done. simpl.
    rewrite (proj1 (stat_text_parses t (Z.max (-20) (Z.min 19 n)) ltac:(lia))). simpl. f_equal. lia.
  - intros t n m m' t' Hs Hne. destruct (machine_stat t m) eqn:Ht; [|done]. destruct granted; [|done].
    injection Hs as <-. unfold task_nice. simpl. by rewrite machine_stat_insert, decide_False by done.
  - intros t n m m' t' Hs. destruct (machine_stat t m) as [text|] eqn:Ht; [|done]. destruct granted; [|done].
    injection Hs as <-. assert (Hlive : is_Some (<[t := Z.max (-20) (Z.min 19 n)]> m !! t') <-> is_Some (m !! t')).
    { destruct (decide (t' = t)) as [->|Hne]; [|by rewrite lookup_insert_ne by congruence].
      rewrite lookup_insert_eq. destruct (machine_parses t m text Ht) as (k & Hk & _). rewrite Hk. split; eauto. }
    unfold task_ident, starttime_of, tgid_of. simpl. rewrite !(bool_decide_ext _ _ Hlive).
    rewrite machine_stat_insert by done. destruct (decide (t' = t)) as [->|]; [|done].
    rewrite Ht. simpl. destruct (machine_parses t m text Ht) as (k & _ & _ & _ & ->).
    by rewrite (proj2 (stat_text_parses t (Z.max (-20) (Z.min 19 n)) ltac:(lia))).
Qed.

#[export] Instance machine_may_renice : MayRenice (TK := machine_kernel true).
Proof. intros t n m [text Ht] _. simpl in *. by rewrite Ht. Qed.

(** ** A file system whose calls succeed *)

#[export] Instance good_fs : FileSystem Machine := {| fs_result _ _ _ := FsOk; unix_nanos_now _ := 7 |}.

#[export] Instance good_fs_stat : StatReliable (FS := good_fs).
Proof. done. Qed.

(** ** The daemon before the action *)

Definition tasks : Machine := {[ 42 := 0; 43 := 5 ]}.
Definition fresh_disk (m : Machine) (j : File ControllerJournalRecord) (l : File KeptLedger) : Disk Machine :=
  {| journal := j; journal_old := []; ledger := l; ledger_old := []; sys := m; undone := [] |}.
Definition fresh_host (d : Disk Machine) : Host Machine :=
  {| disk := d; past := []; reports := []; calls := 0;
     locals := {| tx_rollback := None; tx_rollback_completed := false |} |}.
Definition start : Host Machine := fresh_host (fresh_disk tasks Missing Missing).

(** Demote task 42 to nice 10. *)
Definition demote : NiceAction := {|
  targets := [{| ti_tid := 42; ti_process_pid := Some 42; ti_comm := None; ti_starttime_ticks := Some 100 |}];
  nice := 10; nice_policy := NicePolicy_default |}.

Definition medium_policy : ActionRunPolicy := {|
  run_policy := policy_apply_medium_risk AutotuneRuntime; run_context := DaemonPolicyContext_default;
  max_affected_tasks := Some 4%nat; max_total_duration := None; run_dry_run := false |}.

Definition experiment : JournaledActionInput := {|
  ji_experiment_id := "experiment-1";
  ji_metadata := {| md_candidate := None; md_workload_identity := None; md_target_identity := None;
                    md_restore_command := None; md_verify_result := None; md_mode := None;
                    md_safety_class := None |} |}.

Abbreviation transaction := (@apply_journaled_action _ good_fs (fun _ => 0)
  (@nice_action _ (machine_kernel true) demote) medium_policy experiment start).

(** ** A crash right after the write *)

Definition no_worker (_ : RollbackToken) : HM Machine (nat + AnyError) := hret (inr (EOther "no worker")).
Definition no_file (_ : string) : HM Machine bool := hret false.
Definition no_handler (_ : RollbackToken) : HM Machine (RollbackResult + AnyError) := hret (inr (EOther "none")).

Definition daemon_executor (granted : bool) : RollbackToken -> HM Machine (nat + AnyError) :=
  @real_executor _ (machine_kernel granted) no_worker no_file no_handler false.

(** The disk once task 42 has its new value and the journal still says applying. *)
Definition crash_disk : Disk Machine := nth 2 (crash_points transaction.2) (disk start).
Definition crash_left : Disk Machine := fresh_disk (sys crash_disk) (journal crash_disk) (ledger crash_disk).
Definition restart : Host Machine := fresh_host crash_left.

Lemma crash_disk_in : crash_disk ∈ crash_points transaction.2.
Proof. apply list_elem_of_lookup. exists 2%nat. vm_compute. reflexivity. Qed.

Lemma crash_disk_left : crashed crash_disk crash_left.
Proof. apply (crashed_intro crash_disk (journal crash_disk) (ledger crash_disk)); by left. Qed.

Lemma start_idle : idle (disk start).
Proof. by repeat constructor. Qed.

Lemma demote_honest : @targets_honest _ (machine_kernel true) demote (sys (disk start)).
Proof. repeat constructor. intros p [= <-]. vm_compute. reflexivity. Qed.

Lemma pair_fst {A B} (p : A * B) (a : A) : p.1 = a -> p = (a, p.2).
Proof. destruct p. simpl. congruence. Qed.

Lemma restart_recovered :
  (recover_controller_journal (daemon_executor true) true restart).1
  = inl (SrRecovered "experiment-1" "nice:set:10:targets:1" 1).
Proof. vm_compute. reflexivity. Qed.

Lemma crash_recovery_restores_tasks_witness :
  sys crash_left !! 42 = Some 10 /\
  @same_tasks _ (machine_kernel true)
    (sys (disk (recover_controller_journal (daemon_executor true) true restart).2)) (sys (disk start)).
Proof.
  split; [vm_compute; reflexivity|].
  apply (@crash_recovery_restores_tasks _ good_fs (machine_kernel true) demote (machine_laws true)
    no_worker no_file no_handler (fun _ => 0) medium_policy experiment start crash_disk crash_left restart
    (SrRecovered "experiment-1" "nice:set:10:targets:1" 1)).
  - exact machine_may_renice.
  - exact good_fs_stat.
  - reflexivity.
  - exact start_idle.
  - reflexivity.
  - reflexivity.
  - exact demote_honest.
  - exact crash_disk_in.
  - exact crash_disk_left.
  - reflexivity.
  - exact (pair_fst _ _ restart_recovered).
  - reflexivity.
Defined.

Lemma journaled_action_crash_safe_witness :
  exists t, named (journal crash_left) = Some t /\
    @token_undoes _ (machine_kernel true) t (sys crash_left) (sys (disk start)).
Proof.
  pose proof (@journaled_action_crash_safe _ good_fs (fun _ => 0) (@nice_action _ (machine_kernel true) demote)
    medium_policy experiment (@same_tasks _ (machine_kernel true)) (@token_undoes _ (machine_kernel true))
    token_covers (@targets_honest _ (machine_kernel true) demote) _ start crash_disk crash_left eq_refl start_idle
    demote_honest crash_disk_in crash_disk_left) as H.
  destruct (named (journal crash_left)) as [t|] eqn:E; [exists t; split; [reflexivity|exact H]|]. vm_compute in E. discriminate E.
Defined.

Lemma journaled_action_outcome_witness :
  match transaction.1 with inl res => bool_decide (is_Some (res_rollback res)) | inr _ => false end = true /\
  transaction_leaves (@same_tasks _ (machine_kernel true)) (@token_undoes _ (machine_kernel true))
    (disk start) transaction.1 (disk transaction.2).
Proof.
  split; [vm_compute; reflexivity|].
  exact (@journaled_action_outcome _ good_fs (fun _ => 0) (@nice_action _ (machine_kernel true) demote)
    medium_policy experiment (@same_tasks _ (machine_kernel true)) (@token_undoes _ (machine_kernel true))
    token_covers (@targets_honest _ (machine_kernel true) demote) _ start eq_refl start_idle demote_honest).
Defined.

(** ** Recovery of a journal and a ledger *)

(** An executor that puts every task back to nice 0. *)
Definition reset_executor (_ : RollbackToken) : HM Machine (nat + AnyError) :=
  let* _ := set_disk (with_sys {[ 42 := 0; 43 := 0 ]}) in hret (inl 2%nat).

#[export] Instance reset_frame : ExecutorFrame reset_executor.
Proof.
  intros t h. exists [with_sys {[ 42 := 0; 43 := 0 ]} (disk h)]. split; [reflexivity|]. by repeat constructor.
Qed.

Definition journal_token : RollbackToken := NiceRestore [].
Definition ledger_token : RollbackToken :=
  NiceRestore [{| nice_tid := 43; original_nice := 0; nice_identity := None |}].
Definition token_by_id (id : string) : RollbackToken :=
  if String.eqb id "kept-1" then ledger_token else journal_token.

Definition both_disk : Disk Machine :=
  fresh_disk tasks (Holds (for_phase JApplied "experiment-1" "nice:1" (Some journal_token) 7 7))
    (Holds {| kl_schema_version := 1; kl_entries := [{| kl_experiment_id := "kept-1"; kl_action_id := "nice:2";
       kl_candidate := "c"; kl_rollback_token := ledger_token; kl_mode := None; kl_safety_class := None;
       kl_kept_unix_nanos := 3 |}] |}).
Definition both : Host Machine := fresh_host both_disk.

Lemma both_labelled : labelled token_by_id both_disk.
Proof.
  split.
  - intros l e [= <-] He%list_elem_of_singleton. by subst.
  - intros r t [= <-] [Ht _]. injection Ht as <-. reflexivity.
Qed.

(** The middle of the recovery: the kept action is undone, the journal still pending. *)
Definition mid_disk : Disk Machine := nth 4 (crash_points (recover_controller_journal reset_executor true both).2) both_disk.
Definition mid_left : Disk Machine := {|
  journal := journal mid_disk; journal_old := []; ledger := ledger mid_disk; ledger_old := [];
  sys := sys mid_disk; undone := undone mid_disk |}.

Lemma recovery_never_forgets_witness :
  ledger_token ∈ undone mid_left \/ jnames ledger_token (journal mid_left) \/ lnames ledger_token (ledger mid_left).
Proof.
  apply (recovery_never_forgets reset_executor token_by_id true ledger_token both mid_disk mid_left).
  - reflexivity.
  - exact both_labelled.
  - right. repeat constructor.
  - apply list_elem_of_lookup. exists 4%nat. vm_compute. reflexivity.
  - apply (crashed_intro mid_disk (journal mid_disk) (ledger mid_disk)); by left.
Defined.

Lemma both_recovered :
  (recover_controller_journal reset_executor true both).1 = inl (SrRecovered "experiment-1" "nice:1" 2).
Proof. vm_compute. reflexivity. Qed.

Lemma recovery_complete_witness :
  ledger_token ∈ undone (disk (recover_controller_journal reset_executor true both).2).
Proof.
  apply (recovery_complete reset_executor ledger_token both (SrRecovered "experiment-1" "nice:1" 2)).
  - exact good_fs_stat.
  - right. by left.
  - exact (pair_fst _ _ both_recovered).
  - reflexivity.
Defined.

(** ** Success that is none *)

(** The records of the token the crash left in the journal. *)
Definition crash_records : list NiceRestoreRecord :=
  match named (journal crash_left) with Some (NiceRestore records) => records | _ => [] end.


Definition kept_only : Host Machine := fresh_host (fresh_disk tasks (Holds clean) (ledger both_disk)).

Lemma emergency_restore_misses_kept_actions_witness :
  lnames ledger_token (ledger (disk kept_only)) /\
  disk (@restore_known_autotune_actions _ good_fs (machine_kernel true) no_handler
          (fun _ => hret (inl 0%nat)) false kept_only).2 = disk kept_only.
Proof.
  split; [by left|].
  refine (proj1 (@emergency_restore_misses_kept_actions _ good_fs (machine_kernel true) no_handler
    (fun _ => hret (inl 0%nat)) false kept_only _ _ _ (surjective_pairing _))). by left.
Defined.

(** Task 42 recorded for process 41. *)
Definition stale_record : NiceRestoreRecord :=
  NiceRestoreRecord_new (TaskRestoreIdentity_observed 42 (Some 41) None (Some 100) None) 0.

Lemma unowned_target_not_restored_witness :
  @nice_rollback _ (machine_kernel true) (NiceRestore [stale_record]) restart = (inl tt, restart).
Proof.
  apply (@unowned_target_not_restored _ (machine_kernel true)). repeat constructor.
  exists 100, 41. split; [reflexivity|]. split; [reflexivity|]. vm_compute. discriminate.
Defined.
