(* ===== verification/Metrics.v ===== *)
(** * Metrics: latency statistics of one task

    [metrics/percentile.rs] and [metrics/cpu_stats.rs]: the fixed-bucket
    histogram, the bounded exact sample buffer, the snapshot with its percentiles,
    and the per-CPU statistics.  [u64] and [u128] additions wrap, as a release
    build's do; the theorems ask for fewer than [2^64] samples, below which
    nothing wraps.

    The theorems relate what the incremental code keeps to the list of latencies
    it was fed: the counters are the exact counts, the histogram is the exact
    distribution over the buckets, and a reported percentile is the nearest-rank
    order statistic (exact buffer) or a bound on it (histogram). *)

From S2P Require Import Prelude Binary64.
From stdpp Require Import sorting.
Open Scope Z_scope.

(** ** [percentile.rs] *)

Definition MAX_EXACT_SAMPLES : nat := 1024.

Definition LATENCY_HISTOGRAM_BUCKETS_NS : list Z :=
  [1000; 2000; 5000; 10000; 20000; 50000; 100000; 200000; 500000; 1000000; 2000000;
   5000000; 10000000; 20000000; 50000000].

Definition LATENCY_HISTOGRAM_BUCKET_COUNT : nat :=
  (length LATENCY_HISTOGRAM_BUCKETS_NS + 1)%nat.

Definition LatencyHistogram := list Z.

Record LatencyStats := {
  ls_count : Z;
  ls_min_ns : Z;
  ls_max_ns : Z;
  ls_sum_ns : Z;
  ls_over_1ms : Z;
  ls_over_2ms : Z;
  ls_over_5ms : Z;
  ls_samples_ns : list Z;
  ls_samples_truncated : Z;
  ls_histogram : LatencyHistogram }.

Record LatencyHistogramBucket := { upper_bound_ns : option Z; bucket_count : Z }.

Record LatencySnapshot := {
  sn_count : Z;
  sn_stored_samples : Z;
  sn_min_ns : Z;
  sn_avg_ns : Z;
  sn_max_ns : Z;
  sn_p95_ns : Z;
  sn_p99_ns : Z;
  sn_over_1ms : Z;
  sn_over_2ms : Z;
  sn_over_5ms : Z;
  sn_samples_truncated : Z;
  sn_percentile_scope : string;
  sn_histogram : list LatencyHistogramBucket }.

Definition histogram_new : LatencyHistogram := replicate LATENCY_HISTOGRAM_BUCKET_COUNT 0.

(** The index [record] adds to. *)
Definition bucket_idx (latency_ns : Z) : nat :=
  default (LATENCY_HISTOGRAM_BUCKET_COUNT - 1)%nat
    (fst <$> list_find (fun upper => latency_ns <= upper) LATENCY_HISTOGRAM_BUCKETS_NS).

Definition histogram_record (h : LatencyHistogram) (latency_ns : Z) : LatencyHistogram :=
  alter (fun c => wrapping_add_u64 c 1) (bucket_idx latency_ns) h.

Fixpoint percentile_scan (rank cumulative : Z) (idx : nat) (buckets : list Z) : option Z :=
  match buckets with
  | [] => None
  | count :: rest =>
      let cumulative := wrapping_add_u64 cumulative count in
      if rank <=? cumulative then LATENCY_HISTOGRAM_BUCKETS_NS !! idx
      else percentile_scan rank cumulative (S idx) rest
  end.

Definition percentile_rank (total_count : Z) (percentile : f64) : Z :=
  Z.max (f64_ceil_as_u64 (f64_mul (f64_of_Z total_count) percentile)) 1.

Definition percentile_upper_bound (h : LatencyHistogram) (total_count : Z) (percentile : f64)
    : option Z :=
  if total_count =? 0 then Some 0
  else percentile_scan (percentile_rank total_count percentile) 0 0 h.

Definition histogram_snapshot (h : LatencyHistogram) : list LatencyHistogramBucket :=
  imap (fun idx count =>
    {| upper_bound_ns := LATENCY_HISTOGRAM_BUCKETS_NS !! idx; bucket_count := count |}) h.

Definition LatencyStats_new : LatencyStats :=
  {| ls_count := 0; ls_min_ns := 0; ls_max_ns := 0; ls_sum_ns := 0; ls_over_1ms := 0;
     ls_over_2ms := 0; ls_over_5ms := 0; ls_samples_ns := []; ls_samples_truncated := 0;
     ls_histogram := histogram_new |}.

Definition wrapping_add_u128 (x y : Z) : Z := (x + y) mod 2 ^ 128.

(** [if cond { counter += 1 }]. *)
Definition bump (cond : bool) (counter : Z) : Z :=
  if cond then wrapping_add_u64 counter 1 else counter.

Definition LatencyStats_record (s : LatencyStats) (latency_ns : Z) : LatencyStats :=
  let stored := (length (ls_samples_ns s) <? MAX_EXACT_SAMPLES)%nat in
  {| ls_histogram := histogram_record (ls_histogram s) latency_ns;
     ls_min_ns := if ls_count s =? 0 then latency_ns else Z.min (ls_min_ns s) latency_ns;
     ls_max_ns := if ls_count s =? 0 then latency_ns else Z.max (ls_max_ns s) latency_ns;
     ls_count := wrapping_add_u64 (ls_count s) 1;
     ls_sum_ns := wrapping_add_u128 (ls_sum_ns s) latency_ns;
     ls_over_1ms := bump (1000000 <=? latency_ns) (ls_over_1ms s);
     ls_over_2ms := bump (2000000 <=? latency_ns) (ls_over_2ms s);
     ls_over_5ms := bump (5000000 <=? latency_ns) (ls_over_5ms s);
     ls_samples_ns := if stored then ls_samples_ns s ++ [latency_ns] else ls_samples_ns s;
     ls_samples_truncated := bump (negb stored) (ls_samples_truncated s) |}.

Definition stored_samples (s : LatencyStats) : Z :=
  Z.min (ls_count s) (Z.of_nat MAX_EXACT_SAMPLES).

(** [samples[idx]]; the index is below the length when the list is not empty. *)
Definition percentile_from_sorted (samples : list Z) (percentile : f64) : Z :=
  if decide (samples = []) then 0
  else
    let n := Z.of_nat (length samples) in
    let rank := saturating_sub (f64_ceil_as_u64 (f64_mul (f64_of_Z n) percentile)) 1 in
    let idx := Z.min rank (n - 1) in
    default 0 (samples !! Z.to_nat idx).

Definition P95 : f64 := f64_lit 95 100.
Definition P99 : f64 := f64_lit 99 100.

Definition sort_samples (l : list Z) : list Z := merge_sort Z.le l.

(** [snapshot] sorts the stored samples in place. *)
Definition LatencyStats_snapshot (s : LatencyStats) : LatencyStats * option LatencySnapshot :=
  if ls_count s =? 0 then (s, None)
  else
    let sorted := sort_samples (ls_samples_ns s) in
    let truncated := 0 <? ls_samples_truncated s in
    let percentile p :=
      if truncated
      then default (ls_max_ns s) (percentile_upper_bound (ls_histogram s) (ls_count s) p)
      else percentile_from_sorted sorted p in
    ({| ls_count := ls_count s; ls_min_ns := ls_min_ns s; ls_max_ns := ls_max_ns s;
        ls_sum_ns := ls_sum_ns s; ls_over_1ms := ls_over_1ms s; ls_over_2ms := ls_over_2ms s;
        ls_over_5ms := ls_over_5ms s; ls_samples_ns := sorted;
        ls_samples_truncated := ls_samples_truncated s; ls_histogram := ls_histogram s |},
     Some
       {| sn_count := ls_count s;
          sn_stored_samples := stored_samples s;
          sn_min_ns := ls_min_ns s;
          sn_avg_ns := as_u64 (ls_sum_ns s / ls_count s);
          sn_max_ns := ls_max_ns s;
          sn_p95_ns := percentile P95;
          sn_p99_ns := percentile P99;
          sn_over_1ms := ls_over_1ms s;
          sn_over_2ms := ls_over_2ms s;
          sn_over_5ms := ls_over_5ms s;
          sn_samples_truncated := ls_samples_truncated s;
          sn_percentile_scope := if truncated then "histogram" else "exact";
          sn_histogram := histogram_snapshot (ls_histogram s) |}).

Definition snapshot_and_reset (s : LatencyStats) : LatencyStats * option LatencySnapshot :=
  match LatencyStats_snapshot s with
  | (s', None) => (s', None)
  | (_, Some snapshot) => (LatencyStats_new, Some snapshot)
  end.

(** ** What the statistics summarise *)

Section Summary.

Implicit Types (l : list Z) (s : LatencyStats).

Definition count_of (P : Z -> Prop) `{!forall x, Decision (P x)} l : Z :=
  Z.of_nat (length (filter P l)).

Definition sum_list l : Z := foldr Z.add 0 l.

(** [s] is the exact summary of the latencies [l], in the order they came. *)
Record summarises s l : Prop := {
  sum_count : ls_count s = Z.of_nat (length l);
  sum_total : ls_sum_ns s = sum_list l;
  sum_over_1ms : ls_over_1ms s = count_of (fun x => 1000000 <= x) l;
  sum_over_2ms : ls_over_2ms s = count_of (fun x => 2000000 <= x) l;
  sum_over_5ms : ls_over_5ms s = count_of (fun x => 5000000 <= x) l;
  sum_samples : ls_samples_ns s = take MAX_EXACT_SAMPLES l;
  sum_truncated : ls_samples_truncated s = Z.max 0 (Z.of_nat (length l) - 1024);
  sum_histogram :
    ls_histogram s = (fun i => count_of (fun x => bucket_idx x = i) l) <$> seq 0 16;
  sum_min : l <> [] -> ls_min_ns s ∈ l /\ Forall (fun x => ls_min_ns s <= x) l;
  sum_max : l <> [] -> ls_max_ns s ∈ l /\ Forall (fun x => x <= ls_max_ns s) l }.

Lemma count_of_snoc (P : Z -> Prop) `{!forall x, Decision (P x)} l x :
  count_of P (l ++ [x]) = count_of P l + (if decide (P x) then 1 else 0).
Proof.
  unfold count_of. rewrite filter_app, length_app, filter_cons, filter_nil.
  destruct (decide (P x)); cbn; lia.
Qed.

Lemma count_of_app (P : Z -> Prop) `{!forall x, Decision (P x)} l k :
  count_of P (l ++ k) = count_of P l + count_of P k.
Proof. unfold count_of. rewrite filter_app, length_app. lia. Qed.

Lemma count_of_bounds (P : Z -> Prop) `{!forall x, Decision (P x)} l :
  0 <= count_of P l <= Z.of_nat (length l).
Proof. unfold count_of. pose proof (length_filter P l). lia. Qed.

Lemma count_of_mono (P Q : Z -> Prop) `{!forall x, Decision (P x)} `{!forall x, Decision (Q x)} l :
  (forall x, x ∈ l -> P x -> Q x) -> count_of P l <= count_of Q l.
Proof.
  intros Himp. induction l as [|x l IH]; [done|].
  unfold count_of in *. rewrite !filter_cons.
  specialize (IH (fun y Hy => Himp y (list_elem_of_further y x l Hy))).
  pose proof (Himp x (list_elem_of_here x l)).
  destruct (decide (P x)), (decide (Q x)); cbn [length]; try tauto; lia.
Qed.

Lemma count_of_ext (P Q : Z -> Prop) `{!forall x, Decision (P x)} `{!forall x, Decision (Q x)} l :
  (forall x, x ∈ l -> P x <-> Q x) -> count_of P l = count_of Q l.
Proof. intros Hiff. apply Z.le_antisymm; apply count_of_mono; intros x Hx; apply Hiff, Hx. Qed.

Lemma sum_list_app l k : sum_list (l ++ k) = sum_list l + sum_list k.
Proof. unfold sum_list. induction l as [|x l IH]; cbn; lia. Qed.

Lemma sum_list_bound l :
  Forall in_u64 l -> 0 <= sum_list l <= Z.of_nat (length l) * (2 ^ 64 - 1).
Proof.
  induction 1 as [|x l Hx Hl IH]; [cbn; lia|].
  unfold sum_list in *. cbn [foldr length]. unfold in_u64 in Hx. lia.
Qed.

Lemma bump_spec b n : 0 <= n < 2 ^ 64 - 1 -> bump b n = n + Z.b2z b.
Proof.
  intros H. unfold bump, wrapping_add_u64. destruct b; cbn [Z.b2z]; [|lia].
  rewrite as_u64_id; [done|]. split; lia.
Qed.

Lemma bucket_idx_lt x : (bucket_idx x < 16)%nat.
Proof.
  unfold bucket_idx. destruct (list_find _ _) as [[i u]|] eqn:E; cbn; [|lia].
  apply list_find_Some in E as [E _]. apply lookup_lt_Some in E. cbn in E. lia.
Qed.

Lemma summarises_new : summarises LatencyStats_new [].
Proof. by constructor. Qed.

Lemma histogram_record_spec l x :
  Z.of_nat (length l) < 2 ^ 64 - 1 ->
  histogram_record ((fun i => count_of (fun y => bucket_idx y = i) l) <$> seq 0 16) x
    = (fun i => count_of (fun y => bucket_idx y = i) (l ++ [x])) <$> seq 0 16.
Proof.
  intros Hl. unfold histogram_record, LatencyHistogram. pose proof (bucket_idx_lt x) as Hb.
  apply (list_eq_same_length _ _ 16); [by rewrite length_fmap|by rewrite length_alter, length_fmap|].
  intros i a b Hi Ha Hb'.
  assert (Hs : seq 0 16 !! i = Some i) by (rewrite lookup_seq; split; lia).
  rewrite list_lookup_fmap, Hs in Hb'. cbn [fmap option_fmap option_map] in Hb'. injection Hb' as <-.
  rewrite count_of_snoc. destruct (decide (bucket_idx x = i)) as [<-|Hne].
  - rewrite list_lookup_alter_eq, list_lookup_fmap, Hs in Ha. cbn [fmap option_fmap option_map] in Ha. injection Ha as <-.
    pose proof (count_of_bounds (fun y => bucket_idx y = bucket_idx x) l).
    unfold wrapping_add_u64. rewrite as_u64_id; [lia|split; lia].
  - rewrite list_lookup_alter_ne, list_lookup_fmap, Hs in Ha by done.
    cbn [fmap option_fmap option_map] in Ha. injection Ha as <-. lia.
Qed.

Lemma take_snoc {A} (n : nat) (k : list A) x :
  take n (k ++ [x]) = if (length (take n k) <? n)%nat then take n k ++ [x] else take n k.
Proof.
  rewrite length_take. destruct (Nat.ltb_spec (Nat.min n (length k)) n).
  - rewrite !take_ge by (rewrite ?length_app; cbn; lia). done.
  - by rewrite take_app_le by lia.
Qed.

Lemma min_snoc l x m :
  m ∈ l -> Forall (fun y => m <= y) l ->
  Z.min m x ∈ l ++ [x] /\ Forall (fun y => Z.min m x <= y) (l ++ [x]).
Proof.
  intros Hm Hl. split.
  - apply elem_of_app. destruct (Z.min_spec m x) as [[_ ->]|[_ ->]]; set_solver.
  - apply Forall_app. split; [|constructor; [lia|done]].
    eapply Forall_impl; [exact Hl|]. cbn. lia.
Qed.

Lemma max_snoc l x m :
  m ∈ l -> Forall (fun y => y <= m) l ->
  Z.max m x ∈ l ++ [x] /\ Forall (fun y => y <= Z.max m x) (l ++ [x]).
Proof.
  intros Hm Hl. split.
  - apply elem_of_app. destruct (Z.max_spec m x) as [[_ ->]|[_ ->]]; set_solver.
  - apply Forall_app. split; [|constructor; [lia|done]].
    eapply Forall_impl; [exact Hl|]. cbn. lia.
Qed.

Lemma over_snoc t l x n :
  Z.of_nat (length l) < 2 ^ 64 - 1 -> n = count_of (fun y => t <= y) l ->
  bump (t <=? x) n = count_of (fun y => t <= y) (l ++ [x]).
Proof.
  intros Hl ->. pose proof (count_of_bounds (fun y => t <= y) l).
  rewrite bump_spec, count_of_snoc by lia.
  destruct (decide (t <= x)), (Z.leb_spec t x); cbn; lia.
Qed.

Lemma summarises_record s l x :
  summarises s l -> in_u64 x -> Forall in_u64 l -> Z.of_nat (length l) < 2 ^ 64 - 1 ->
  summarises (LatencyStats_record s x) (l ++ [x]).
Proof.
  intros [Hc Ht H1 H2 H5 Hs Htr Hh Hmin Hmax] Hx Hl Hlen.
  pose proof (sum_list_bound l Hl) as Hsum.
  assert (Hz : (ls_count s =? 0) = bool_decide (l = [])).
  { rewrite Hc. destruct l; [done|]. cbn. done. }
  constructor; cbn [LatencyStats_record ls_count ls_sum_ns ls_over_1ms ls_over_2ms ls_over_5ms
    ls_samples_ns ls_samples_truncated ls_histogram ls_min_ns ls_max_ns].
  - unfold wrapping_add_u64. rewrite Hc, length_app, as_u64_id; cbn; [lia|split; lia].
  - unfold wrapping_add_u128. rewrite Ht, sum_list_app. cbn [sum_list foldr].
    unfold in_u64 in Hx. rewrite Z.mod_small; nia.
  - by apply over_snoc.
  - by apply over_snoc.
  - by apply over_snoc.
  - rewrite Hs. symmetry. apply take_snoc.
  - rewrite Hs, Htr, bump_spec, length_take, length_app by lia. unfold MAX_EXACT_SAMPLES.
    destruct (Nat.ltb_spec (Nat.min 1024 (length l)) 1024); cbn; lia.
  - rewrite Hh. by apply histogram_record_spec.
  - intros _. rewrite Hz. case_bool_decide as E; [subst; split; [set_solver|repeat constructor; lia]|].
    destruct (Hmin E). by apply min_snoc.
  - intros _. rewrite Hz. case_bool_decide as E; [subst; split; [set_solver|repeat constructor; lia]|].
    destruct (Hmax E). by apply max_snoc.
Qed.

Definition stats_of l : LatencyStats := foldl LatencyStats_record LatencyStats_new l.

Lemma summarises_feed s l :
  summarises s [] -> Forall in_u64 l -> Z.of_nat (length l) < 2 ^ 64 ->
  summarises (foldl LatencyStats_record s l) l.
Proof.
  intros Hs. induction l as [|x l IH] using rev_ind; intros Hl Hlen; [done|].
  apply Forall_app in Hl as [Hl Hx]. inversion Hx; subst. rewrite length_app in Hlen. cbn in Hlen.
  rewrite foldl_snoc. apply summarises_record; [apply IH| | |]; auto; lia.
Qed.

Lemma stats_of_summarises l :
  Forall in_u64 l -> Z.of_nat (length l) < 2 ^ 64 -> summarises (stats_of l) l.
Proof. apply summarises_feed, summarises_new. Qed.

End Summary.

(** ** Percentiles *)

Section Percentiles.

Implicit Types (l : list Z).

(** [v] is the [r]-th smallest element of [l] (from 1): at least [r] elements are
    at most [v] and fewer than [r] are below it. *)
Definition order_statistic l (r v : Z) : Prop :=
  v ∈ l /\ count_of (fun x => x < v) l < r <= count_of (fun x => x <= v) l.

(** [v] is at least the [r]-th smallest element of [l]. *)
Definition dominates l (r v : Z) : Prop := r <= count_of (fun x => x <= v) l.

(** [ceil (pct * n / 100)], the nearest rank. *)
Definition nearest_rank (pct n : Z) : Z := (pct * n + 99) / 100.

Definition float_rank_ok (n : Z) : bool :=
  (f64_ceil_as_u64 (f64_mul (f64_of_Z n) P95) =? nearest_rank 95 n)
  && (f64_ceil_as_u64 (f64_mul (f64_of_Z n) P99) =? nearest_rank 99 n).

(** The floating-point rank is the exact one for every size of the sample buffer. *)
Lemma float_rank_exact n :
  1 <= n <= 1024 ->
  f64_ceil_as_u64 (f64_mul (f64_of_Z n) P95) = nearest_rank 95 n
  /\ f64_ceil_as_u64 (f64_mul (f64_of_Z n) P99) = nearest_rank 99 n.
Proof.
  intros Hn. assert (H : forallb float_rank_ok (seqZ 1 1024) = true) by (vm_compute; reflexivity).
  rewrite forallb_forall in H. specialize (H n).
  unfold float_rank_ok in H. rewrite andb_true_iff, !Z.eqb_eq in H.
  apply H, list_elem_of_In, elem_of_seqZ. lia.
Qed.

Lemma count_of_perm (P : Z -> Prop) `{!forall x, Decision (P x)} l k :
  l ≡ₚ k -> count_of P l = count_of P k.
Proof. intros Hp. unfold count_of. by rewrite Hp. Qed.

Lemma count_of_all (P : Z -> Prop) `{!forall x, Decision (P x)} l :
  Forall P l -> count_of P l = Z.of_nat (length l).
Proof.
  intros Hl. unfold count_of. f_equal. induction Hl as [|x l Hx Hl IH]; [done|].
  rewrite filter_cons. case_decide; cbn; [by rewrite IH|done].
Qed.

Lemma count_of_none (P : Z -> Prop) `{!forall x, Decision (P x)} l :
  Forall (fun x => ~ P x) l -> count_of P l = 0.
Proof.
  intros Hl. unfold count_of. induction Hl as [|x l Hx Hl IH]; [done|].
  rewrite filter_cons. case_decide; [done|exact IH].
Qed.

Lemma sort_samples_perm l : sort_samples l ≡ₚ l.
Proof. apply merge_sort_Permutation. Qed.

Lemma sort_samples_sorted l : StronglySorted Z.le (sort_samples l).
Proof. apply StronglySorted_merge_sort; [intros x y z; lia|intros x y; lia]. Qed.

Lemma StronglySorted_split (k1 k2 : list Z) v :
  StronglySorted Z.le (k1 ++ v :: k2) -> Forall (fun x => x <= v) k1 /\ Forall (fun x => v <= x) k2.
Proof.
  induction k1 as [|x k1 IH]; cbn; intros H; apply StronglySorted_inv in H as [Hs Hf].
  - split; [constructor|done].
  - destruct (IH Hs) as [H1 H2]. split; [|done]. constructor; [|done].
    apply Forall_app in Hf as [_ Hf]. by inversion Hf.
Qed.

Lemma sorted_order_statistic l (i : nat) v :
  sort_samples l !! i = Some v -> order_statistic l (Z.of_nat i + 1) v.
Proof.
  intros Hi. pose proof (sort_samples_perm l) as Hp. pose proof (sort_samples_sorted l) as Hs.
  split; [rewrite <- Hp; by eapply list_elem_of_lookup_2|].
  rewrite <- !(count_of_perm _ _ _ Hp).
  pose proof (lookup_lt_Some _ _ _ Hi) as Hlen.
  rewrite <- (take_drop_middle _ _ _ Hi) in Hs |- *.
  apply StronglySorted_split in Hs as [H1 H2].
  rewrite !count_of_app. change (v :: ?k) with ([v] ++ k). rewrite !count_of_app.
  pose proof (count_of_bounds (fun x => x < v) (take i (sort_samples l))) as Hb.
  pose proof (count_of_bounds (fun x => x <= v) (drop (S i) (sort_samples l))) as Hb2.
  rewrite (count_of_all (fun x => x <= v) _ H1), (count_of_all (fun x => x <= v) [v])
    by (repeat constructor; lia).
  rewrite (count_of_none (fun x => x < v) [v]), (count_of_none (fun x => x < v) (drop _ _))
    by (first [repeat constructor; lia | eapply Forall_impl; [exact H2|cbn; lia]]).
  rewrite length_take in *. cbn [length]. lia.
Qed.

Lemma nearest_rank_bounds pct n :
  0 < pct <= 100 -> 1 <= n -> 1 <= nearest_rank pct n <= n.
Proof.
  intros Hp Hn. unfold nearest_rank. split.
  - apply Z.div_le_lower_bound; lia.
  - assert ((pct * n + 99) / 100 < n + 1); [|lia]. apply Z.div_lt_upper_bound; nia.
Qed.

Lemma percentile_from_sorted_spec l p pct :
  l <> [] -> 0 < pct <= 100 ->
  f64_ceil_as_u64 (f64_mul (f64_of_Z (Z.of_nat (length l))) p)
    = nearest_rank pct (Z.of_nat (length l)) ->
  order_statistic l (nearest_rank pct (Z.of_nat (length l)))
    (percentile_from_sorted (sort_samples l) p).
Proof.
  intros Hl Hpct Hrank. unfold percentile_from_sorted.
  assert (Hlen : length (sort_samples l) = length l) by (by rewrite sort_samples_perm).
  destruct (decide (sort_samples l = [])) as [E|_].
  { rewrite E in Hlen. by destruct l. }
  rewrite Hlen, Hrank. set (r := nearest_rank pct _) in *.
  assert (1 <= Z.of_nat (length l)) by (destruct l; [done|cbn; lia]).
  pose proof (nearest_rank_bounds pct (Z.of_nat (length l)) Hpct ltac:(done)) as Hr. fold r in Hr.
  unfold saturating_sub. rewrite Z.max_r, Z.min_l by lia.
  destruct (lookup_lt_is_Some_2 (sort_samples l) (Z.to_nat (r - 1)) ltac:(lia)) as [v Hv].
  rewrite Hv. cbn [default]. apply sorted_order_statistic in Hv.
  by replace (Z.of_nat (Z.to_nat (r - 1)) + 1) with r in Hv by lia.
Qed.

(** *** The histogram *)

Lemma bucket_bound_mono (i j : nat) a b :
  LATENCY_HISTOGRAM_BUCKETS_NS !! i = Some a -> LATENCY_HISTOGRAM_BUCKETS_NS !! j = Some b ->
  (i <= j)%nat -> a <= b.
Proof.
  assert (Hs : StronglySorted Z.le LATENCY_HISTOGRAM_BUCKETS_NS).
  { unfold LATENCY_HISTOGRAM_BUCKETS_NS. repeat constructor; lia. }
  intros Hi Hj Hij. destruct (decide (i = j)) as [->|Hne]; [by rewrite Hi in Hj; simplify_eq|].
  rewrite <- (take_drop_middle _ _ _ Hj) in Hs. apply StronglySorted_split in Hs as [Hs _].
  rewrite Forall_lookup in Hs. apply (Hs i). rewrite lookup_take_lt by lia. done.
Qed.

Lemma bucket_idx_le x (j : nat) b :
  LATENCY_HISTOGRAM_BUCKETS_NS !! j = Some b -> (bucket_idx x <= j)%nat <-> x <= b.
Proof.
  intros Hj. unfold bucket_idx. pose proof (lookup_lt_Some _ _ _ Hj) as Hlt. cbn in Hlt.
  destruct (list_find _ _) as [[i u]|] eqn:E; cbn.
  - apply list_find_Some in E as (Hi & Hu & Hfirst). split.
    + intros Hij. pose proof (bucket_bound_mono _ _ _ _ Hi Hj Hij). lia.
    + intros Hx. destruct (Nat.le_gt_cases i j) as [|Hgt]; [done|].
      exfalso. exact (Hfirst j b Hj Hgt Hx).
  - apply list_find_None in E. rewrite Forall_lookup in E. specialize (E j b Hj). cbn in E. lia.
Qed.

Definition below_bucket (k : nat) l : Z := count_of (fun x => (bucket_idx x < k)%nat) l.

Lemma below_bucket_S k l :
  below_bucket (S k) l = below_bucket k l + count_of (fun x => bucket_idx x = k) l.
Proof.
  unfold below_bucket, count_of. induction l as [|x l IH]; [done|].
  rewrite !filter_cons. repeat case_decide; cbn [length]; lia.
Qed.

Lemma below_bucket_bound j b l :
  LATENCY_HISTOGRAM_BUCKETS_NS !! j = Some b ->
  below_bucket (S j) l = count_of (fun x => x <= b) l.
Proof.
  intros Hj. apply count_of_ext. intros x _. rewrite <- (bucket_idx_le x j b Hj). lia.
Qed.

(** What the scan returns, from bucket [k] on. *)
Definition scan_result l (rank : Z) (r : option Z) : Prop :=
  match r with
  | Some b => exists j, LATENCY_HISTOGRAM_BUCKETS_NS !! j = Some b
      /\ below_bucket j l < rank <= count_of (fun x => x <= b) l
  | None => below_bucket 15 l < rank
  end.

Lemma percentile_scan_spec l rank (n k : nat) :
  Z.of_nat (length l) < 2 ^ 64 -> (k + n = 16)%nat -> below_bucket k l < rank ->
  scan_result l rank
    (percentile_scan rank (below_bucket k l) k
       ((fun i => count_of (fun x => bucket_idx x = i) l) <$> seq k n)).
Proof.
  intros Hlen. revert k. induction n as [|n IH]; intros k Hk Hr; cbn [seq fmap list_fmap percentile_scan].
  { cbn. eapply Z.le_lt_trans; [|exact Hr]. apply count_of_mono. intros x _ Hx. lia. }
  assert (Hw : wrapping_add_u64 (below_bucket k l) (count_of (fun x => bucket_idx x = k) l)
    = below_bucket (S k) l).
  { unfold wrapping_add_u64. rewrite <- below_bucket_S. apply as_u64_id.
    pose proof (count_of_bounds (fun x => (bucket_idx x < S k)%nat) l). unfold below_bucket, in_u64. lia. }
  rewrite Hw. destruct (Z.leb_spec rank (below_bucket (S k) l)) as [Hle|Hgt]; [|apply IH; lia].
  destruct (LATENCY_HISTOGRAM_BUCKETS_NS !! k) as [b|] eqn:Hb; cbn.
  - exists k. rewrite <- (below_bucket_bound k b l Hb). done.
  - apply lookup_ge_None in Hb. cbn in Hb. by replace 15%nat with k by lia.
Qed.

End Percentiles.

(** ** Snapshots *)

Section Snapshots.

Implicit Types (l : list Z).

(** The lower bound of a bucket: the largest latency that does not belong to it or
    to a later one. *)
Definition bucket_floor (j : nat) : Z :=
  match j with O => -1 | S i => default 0 (LATENCY_HISTOGRAM_BUCKETS_NS !! i) end.

(** [v] is a histogram percentile at [rank]: it bounds the order statistic from
    above, and it is the end of the bucket the order statistic is in (the maximum
    for the last bucket). *)
Definition histogram_percentile l (rank v : Z) : Prop :=
  dominates l (Z.min rank (Z.of_nat (length l))) v
  /\ exists j, (j < 16)%nat /\ count_of (fun x => x <= bucket_floor j) l < rank
       /\ (LATENCY_HISTOGRAM_BUCKETS_NS !! j = Some v
           \/ j = 15%nat /\ v ∈ l /\ Forall (fun x => x <= v) l).

Lemma below_bucket_floor j l :
  (j < 16)%nat -> Forall in_u64 l -> below_bucket j l = count_of (fun x => x <= bucket_floor j) l.
Proof.
  intros Hj Hl. destruct j as [|i]; cbn [bucket_floor].
  - unfold below_bucket. rewrite !count_of_none; [done| |].
    + eapply Forall_impl; [exact Hl|]. unfold in_u64. cbn. lia.
    + apply Forall_forall. intros x _. lia.
  - destruct (lookup_lt_is_Some_2 LATENCY_HISTOGRAM_BUCKETS_NS i ltac:(cbn; lia)) as [b Hb].
    rewrite (below_bucket_bound i b l Hb), Hb. done.
Qed.

Lemma histogram_percentile_spec l s p :
  summarises s l -> l <> [] -> Forall in_u64 l -> Z.of_nat (length l) < 2 ^ 64 ->
  histogram_percentile l (percentile_rank (Z.of_nat (length l)) p)
    (default (ls_max_ns s) (percentile_upper_bound (ls_histogram s) (Z.of_nat (length l)) p)).
Proof.
  intros Hs Hl Hu Hlen. unfold percentile_upper_bound. rewrite (sum_histogram _ _ Hs).
  destruct (Z.eqb_spec (Z.of_nat (length l)) 0); [by destruct l|].
  set (rank := percentile_rank _ _). assert (Hr : 0 < rank) by (unfold rank, percentile_rank; lia).
  assert (H0 : below_bucket 0 l = 0).
  { unfold below_bucket. apply count_of_none, Forall_forall. intros x _. lia. }
  pose proof (percentile_scan_spec l rank 16 0 Hlen eq_refl ltac:(lia)) as Hscan.
  rewrite H0 in Hscan. destruct (percentile_scan _ _ _ _) as [b|] eqn:E; cbn [default] in *.
  - destruct Hscan as (j & Hj & Hlo & Hhi). pose proof (lookup_lt_Some _ _ _ Hj) as Hlt. cbn in Hlt.
    split; [unfold dominates; etrans; [apply Z.le_min_l|exact Hhi]|]. exists j. rewrite <- below_bucket_floor by (done || lia).
    repeat split; [lia|done|by left].
  - destruct (sum_max _ _ Hs Hl) as [Hin Hall]. split.
    + unfold dominates. rewrite (count_of_all _ _ Hall). lia.
    + exists 15%nat. rewrite <- below_bucket_floor by (done || lia). repeat split; [lia|done|by right].
Qed.

(** What a snapshot says of the latencies recorded since the last reset. *)
Record describes (sn : LatencySnapshot) l : Prop := {
  desc_count : sn_count sn = Z.of_nat (length l);
  desc_min : sn_min_ns sn ∈ l /\ Forall (fun x => sn_min_ns sn <= x) l;
  desc_max : sn_max_ns sn ∈ l /\ Forall (fun x => x <= sn_max_ns sn) l;
  desc_avg : sn_avg_ns sn = sum_list l / Z.of_nat (length l);
  desc_over_1ms : sn_over_1ms sn = count_of (fun x => 1000000 <= x) l;
  desc_over_2ms : sn_over_2ms sn = count_of (fun x => 2000000 <= x) l;
  desc_over_5ms : sn_over_5ms sn = count_of (fun x => 5000000 <= x) l;
  desc_histogram :
    sn_histogram sn
      = (fun i => {| upper_bound_ns := LATENCY_HISTOGRAM_BUCKETS_NS !! i;
                     bucket_count := count_of (fun x => bucket_idx x = i) l |}) <$> seq 0 16;
  desc_exact :
    (length l <= MAX_EXACT_SAMPLES)%nat ->
    order_statistic l (nearest_rank 95 (Z.of_nat (length l))) (sn_p95_ns sn)
    /\ order_statistic l (nearest_rank 99 (Z.of_nat (length l))) (sn_p99_ns sn);
  desc_bounded :
    (MAX_EXACT_SAMPLES < length l)%nat ->
    histogram_percentile l (percentile_rank (Z.of_nat (length l)) P95) (sn_p95_ns sn)
    /\ histogram_percentile l (percentile_rank (Z.of_nat (length l)) P99) (sn_p99_ns sn) }.

Lemma imap_fmap_seq {A B} (f : nat -> A -> B) (g : nat -> A) (n : nat) :
  imap f (g <$> seq 0 n) = (fun i => f i (g i)) <$> seq 0 n.
Proof.
  apply list_eq. intros i. rewrite list_lookup_imap, !list_lookup_fmap.
  destruct (decide (i < n)%nat).
  - by rewrite lookup_seq_lt.
  - by rewrite lookup_seq_ge by lia.
Qed.

Lemma avg_in_u64 l :
  l <> [] -> Forall in_u64 l -> in_u64 (sum_list l / Z.of_nat (length l)).
Proof.
  intros Hl Hu. pose proof (sum_list_bound l Hu). destruct l as [|x l]; [done|].
  assert (0 < Z.of_nat (length (x :: l))) by (cbn; lia). split.
  - apply Z.div_pos; lia.
  - apply Z.div_lt_upper_bound; lia.
Qed.

Lemma snapshot_describes s l :
  summarises s l -> l <> [] -> Forall in_u64 l -> Z.of_nat (length l) < 2 ^ 64 ->
  exists sn, (LatencyStats_snapshot s).2 = Some sn /\ describes sn l.
Proof.
  intros Hs Hl Hu Hlen. unfold LatencyStats_snapshot.
  assert (Hn : 1 <= Z.of_nat (length l)) by (destruct l; [done|cbn; lia]).
  rewrite (sum_count _ _ Hs). destruct (Z.eqb_spec (Z.of_nat (length l)) 0); [lia|].
  eexists. split; [done|]. pose proof (sum_truncated _ _ Hs) as Ht.
  constructor; cbn [sn_count sn_min_ns sn_max_ns sn_avg_ns sn_over_1ms sn_over_2ms sn_over_5ms
    sn_histogram sn_p95_ns sn_p99_ns].
  - done.
  - by apply (sum_min _ _ Hs).
  - by apply (sum_max _ _ Hs).
  - rewrite (sum_total _ _ Hs), as_u64_id; [done|by apply avg_in_u64].
  - apply Hs.
  - apply Hs.
  - apply Hs.
  - unfold histogram_snapshot. rewrite (sum_histogram _ _ Hs). apply imap_fmap_seq.
  - unfold MAX_EXACT_SAMPLES. intros Hsmall. rewrite Ht, (sum_samples _ _ Hs), take_ge by done.
    destruct (Z.ltb_spec 0 (Z.max 0 (Z.of_nat (length l) - 1024))); [lia|].
    destruct (float_rank_exact (Z.of_nat (length l)) ltac:(lia)).
    split; apply percentile_from_sorted_spec; done || lia.
  - unfold MAX_EXACT_SAMPLES. intros Hbig. rewrite Ht.
    destruct (Z.ltb_spec 0 (Z.max 0 (Z.of_nat (length l) - 1024))); [|lia].
    split; by apply histogram_percentile_spec.
Qed.

End Snapshots.

(** ** The properties of a snapshot *)

(** A snapshot of the latencies recorded since the last reset is right: the count,
    the minimum, the maximum, the floor of the mean, the three tail counters and the 16
    histogram buckets are those of the recorded latencies; p95 and p99 are the nearest-rank
    order statistics while every sample is held, and beyond that the upper bound of the
    bucket the rank falls in. *)
Theorem latency_snapshot_exact (l : list Z) :
  l <> [] -> Forall in_u64 l -> Z.of_nat (length l) < 2 ^ 64 ->
  exists sn, (LatencyStats_snapshot (stats_of l)).2 = Some sn /\ describes sn l.
Proof. intros Hl Hu Hlen. apply snapshot_describes; [by apply stats_of_summarises|done..]. Qed.
