(* ===== verification/Intervals.v ===== *)
(** * Intervals: per-task statistics and interval records

    [metrics/cpu_stats.rs], [metrics/task_stats.rs], [metrics/interval.rs] and the
    collection of [metrics/output.rs]: a [SchedulerEvent] of the tracer updates the
    interval and session statistics of its task, and at the end of an interval every
    task with samples gives one [IntervalRecord] and starts afresh.

    A [BTreeMap] is a [gmap]; where its order matters the entries are sorted by
    key.  Log lines are not modelled. *)

From S2P Require Import Prelude Binary64 Abi Metrics.
From stdpp Require Import sorting.
Open Scope Z_scope.

(** The entries of a [BTreeMap] with integer keys, in iteration order. *)
Definition key_le {A} (a b : Z * A) : Prop := a.1 <= b.1.
#[export] Instance key_le_dec {A} (a b : Z * A) : Decision (key_le a b).
Proof. unfold key_le. apply _. Defined.

Definition btree_entries {A} (m : gmap Z A) : list (Z * A) := merge_sort key_le (map_to_list m).

(** ** [cpu_stats.rs] *)

Record CpuStats := { cs_samples : Z; cs_max_ns : Z; cs_spikes : Z }.

Definition CpuStatsSet := gmap Z CpuStats.

Record CpuPerfRecord := {
  cpr_cycles : option Z;
  cpr_instructions : option Z;
  cpr_cache_references : option Z;
  cpr_cache_misses : option Z;
  cpr_ipc : option f64;
  cpr_cache_miss_rate : option f64;
  cpr_cache_mpki : option f64;
  cpr_time_enabled_ns : option Z;
  cpr_time_running_ns : option Z;
  cpr_multiplexed : bool;
  cpr_scaled : bool;
  cpr_unavailable_reason : option string }.

Record CpuPerfAccumulator := {
  acc_cycles : Z;
  acc_instructions : Z;
  acc_cache_references : Z;
  acc_cache_misses : Z;
  acc_time_enabled_ns : Z;
  acc_time_running_ns : Z;
  acc_samples : Z;
  acc_multiplexed_samples : Z;
  acc_scaled_samples : Z;
  acc_unavailable_samples : Z;
  acc_last_unavailable_reason : option string }.

(** [perf_counters/sample.rs]. *)
Record CpuPerfDelta := {
  cpd_cycles : option Z;
  cpd_instructions : option Z;
  cpd_cache_references : option Z;
  cpd_cache_misses : option Z;
  cpd_ipc : option f64;
  cpd_cache_miss_rate : option f64;
  cpd_cache_mpki : option f64;
  cpd_time_enabled_ns : option Z;
  cpd_time_running_ns : option Z;
  cpd_multiplexed : bool;
  cpd_scaled : bool;
  cpd_unavailable_reason : option string }.

Record CpuLine := { cl_cpu : Z; cl_samples : Z; cl_max_ns : Z; cl_spikes : Z }.

Record CpuSnapshot := {
  busiest_cpu : option Z;
  busiest_cpu_samples : Z;
  worst_cpu : option Z;
  worst_cpu_max_ns : Z;
  spikiest_cpu : option Z;
  spikiest_cpu_spikes : Z;
  per_cpu : list CpuLine }.

Definition CpuStats_default : CpuStats := {| cs_samples := 0; cs_max_ns := 0; cs_spikes := 0 |}.

Definition CpuStats_record (s : CpuStats) (latency_ns spike_threshold_ns : Z) : CpuStats :=
  {| cs_samples := wrapping_add_u64 (cs_samples s) 1;
     cs_max_ns := Z.max (cs_max_ns s) latency_ns;
     cs_spikes := bump (spike_threshold_ns <=? latency_ns) (cs_spikes s) |}.

Definition CpuStatsSet_record (m : CpuStatsSet) (cpu latency_ns spike_threshold_ns : Z)
    : CpuStatsSet :=
  <[cpu := CpuStats_record (default CpuStats_default (m !! cpu)) latency_ns spike_threshold_ns]> m.

(** One leader of the snapshot loop: the first CPU whose value exceeds all before
    it, starting from zero. *)
Definition leader (value : CpuStats -> Z) (entries : list (Z * CpuStats)) : option Z * Z :=
  foldl (fun '(best, best_value) '(cpu, stats) =>
      if best_value <? value stats then (Some cpu, value stats) else (best, best_value))
    (None, 0) entries.

Definition CpuStatsSet_snapshot (m : CpuStatsSet) : CpuSnapshot :=
  let entries := btree_entries m in
  let busiest := leader cs_samples entries in
  let worst := leader cs_max_ns entries in
  let spikiest := leader cs_spikes entries in
  {| busiest_cpu := busiest.1; busiest_cpu_samples := busiest.2;
     worst_cpu := worst.1; worst_cpu_max_ns := worst.2;
     spikiest_cpu := spikiest.1; spikiest_cpu_spikes := spikiest.2;
     per_cpu := (fun '(cpu, s) =>
       {| cl_cpu := cpu; cl_samples := cs_samples s; cl_max_ns := cs_max_ns s;
          cl_spikes := cs_spikes s |}) <$> entries |}.

Definition CpuStatsSet_snapshot_and_reset (m : CpuStatsSet) : CpuStatsSet * CpuSnapshot :=
  (∅, CpuStatsSet_snapshot m).

Definition U128_MAX : Z := 2 ^ 128 - 1.
Definition saturating_add_u128 (x y : Z) : Z := Z.min (x + y) U128_MAX.

(** [if let Some(v) = field { acc = acc.saturating_add(v as u128) }]. *)
Definition add_counter (acc : Z) (field : option Z) : Z :=
  match field with Some v => saturating_add_u128 acc v | None => acc end.

Definition CpuPerfAccumulator_default : CpuPerfAccumulator :=
  {| acc_cycles := 0; acc_instructions := 0; acc_cache_references := 0; acc_cache_misses := 0;
     acc_time_enabled_ns := 0; acc_time_running_ns := 0; acc_samples := 0;
     acc_multiplexed_samples := 0; acc_scaled_samples := 0; acc_unavailable_samples := 0;
     acc_last_unavailable_reason := None |}.

Definition CpuPerfAccumulator_record (a : CpuPerfAccumulator) (d : CpuPerfDelta)
    : CpuPerfAccumulator :=
  let count (cond : bool) n := if cond then saturating_add_u64 n 1 else n in
  {| acc_samples := saturating_add_u64 (acc_samples a) 1;
     acc_cycles := add_counter (acc_cycles a) (cpd_cycles d);
     acc_instructions := add_counter (acc_instructions a) (cpd_instructions d);
     acc_cache_references := add_counter (acc_cache_references a) (cpd_cache_references d);
     acc_cache_misses := add_counter (acc_cache_misses a) (cpd_cache_misses d);
     acc_time_enabled_ns := add_counter (acc_time_enabled_ns a) (cpd_time_enabled_ns d);
     acc_time_running_ns := add_counter (acc_time_running_ns a) (cpd_time_running_ns d);
     acc_multiplexed_samples := count (cpd_multiplexed d) (acc_multiplexed_samples a);
     acc_scaled_samples := count (cpd_scaled d) (acc_scaled_samples a);
     acc_unavailable_samples :=
       count (bool_decide (is_Some (cpd_unavailable_reason d))) (acc_unavailable_samples a);
     acc_last_unavailable_reason :=
       match cpd_unavailable_reason d with
       | Some reason => Some reason
       | None => acc_last_unavailable_reason a
       end |}.

Definition optional_u128_to_u64 (value : Z) : option Z :=
  if value =? 0 then None else Some (Z.min value U64_MAX).

Definition finite_only (x : f64) : option f64 := if f64_is_finite x then Some x else None.

Definition ratio_u128 (numerator denominator : Z) : option f64 :=
  if denominator =? 0 then None
  else finite_only (f64_div (f64_of_Z numerator) (f64_of_Z denominator)).

Definition CpuPerfAccumulator_snapshot (a : CpuPerfAccumulator) : option CpuPerfRecord :=
  if acc_samples a =? 0 then None
  else Some
    {| cpr_cycles := optional_u128_to_u64 (acc_cycles a);
       cpr_instructions := optional_u128_to_u64 (acc_instructions a);
       cpr_cache_references := optional_u128_to_u64 (acc_cache_references a);
       cpr_cache_misses := optional_u128_to_u64 (acc_cache_misses a);
       cpr_ipc := ratio_u128 (acc_instructions a) (acc_cycles a);
       cpr_cache_miss_rate := ratio_u128 (acc_cache_misses a) (acc_cache_references a);
       cpr_cache_mpki :=
         if 0 <? acc_instructions a
         then finite_only (f64_div (f64_mul (f64_of_Z (acc_cache_misses a)) (f64_of_Z 1000))
                             (f64_of_Z (acc_instructions a)))
         else None;
       cpr_time_enabled_ns := optional_u128_to_u64 (acc_time_enabled_ns a);
       cpr_time_running_ns := optional_u128_to_u64 (acc_time_running_ns a);
       cpr_multiplexed := 0 <? acc_multiplexed_samples a;
       cpr_scaled := 0 <? acc_scaled_samples a;
       cpr_unavailable_reason := acc_last_unavailable_reason a |}.

Definition CpuPerfAccumulator_snapshot_and_reset (a : CpuPerfAccumulator)
    : CpuPerfAccumulator * option CpuPerfRecord :=
  match CpuPerfAccumulator_snapshot a with
  | None => (a, None)
  | Some record => (CpuPerfAccumulator_default, Some record)
  end.

(** ** [task_stats.rs] *)

(** [process/model.rs]. *)
Inductive TaskClass :=
| AudioRealtime | Input | Game | GameHelper | GameRenderThread | GameWorkerThread | Launcher
| WineServer | GameScope | Compositor | BrowserForeground | BrowserBackground | BrowserRenderer
| BrowserGpu | BrowserNetwork | BuildJob | Compiler | Linker | Indexer | PackageManager | Editor
| Terminal | Shell | Media | Recorder | VirtualMachine | KernelThread | IrqThread | Service
| NetworkDaemon | StorageDaemon | SteamRuntime | Render | Helper | UnknownClass.

#[export] Instance TaskClass_eq_dec : EqDecision TaskClass.
Proof. solve_decision. Defined.

Record TaskInfo := {
  ti_tid : Z;
  ti_process_pid : Z;
  ti_process_ppid : Z;
  ti_comm : string;
  ti_process_comm : string;
  ti_process_starttime_ticks : option Z;
  ti_task_starttime_ticks : option Z;
  ti_exe_dev : option Z;
  ti_exe_ino : option Z;
  ti_class : TaskClass;
  ti_sched_policy : option Z;
  ti_from_cgroup : bool }.

Record SpikeRecord := {
  sp_latency_ns : Z;
  sp_cpu : Z;
  sp_wakeup_target_cpu : Z;
  sp_prio : Z;
  sp_wakeup_ns : Z;
  sp_switch_ns : Z;
  sp_switch_prev_pid : Z;
  sp_switch_prev_state : Z;
  sp_switch_prev_state_label : string;
  sp_target_pending_wakeups : Z;
  sp_observed_runnable_depth : Z;
  sp_major_faults : Z;
  sp_minor_faults : Z;
  sp_scx_ops : option string;
  sp_scx_state : option string;
  sp_scx_enable_seq : option string;
  sp_cause_tags : list string;
  sp_primary_cause : option string }.

Record SpikeRecordDiagnostics := {
  srd_scx_ops : option string;
  srd_scx_state : option string;
  srd_scx_enable_seq : option string;
  srd_cause_tags : list string;
  srd_primary_cause : option string }.

Definition SpikeRecordDiagnostics_default : SpikeRecordDiagnostics :=
  {| srd_scx_ops := None; srd_scx_state := None; srd_scx_enable_seq := None;
     srd_cause_tags := []; srd_primary_cause := None |}.

Record TaskStats := {
  ts_task : Z;
  ts_comm : string;
  ts_class : TaskClass;
  ts_process_pid : option Z;
  ts_process_comm : string;
  ts_process_starttime_ticks : option Z;
  ts_task_starttime_ticks : option Z;
  ts_exe_dev : option Z;
  ts_exe_ino : option Z;
  ts_active : bool;
  ts_first_seen_ms : Z;
  ts_last_seen_ms : Z;
  ts_removed_ms : option Z;
  interval_latency : LatencyStats;
  interval_cpu : CpuStatsSet;
  interval_cpu_perf : option CpuPerfAccumulator;
  session_latency : LatencyStats;
  session_cpu : CpuStatsSet;
  session_cpu_perf : option CpuPerfAccumulator;
  top_spikes : list SpikeRecord;
  migration_count : Z;
  cross_numa_migrations : Z;
  waker_counts : gmap Z Z;
  ts_sched_policy : option Z;
  stat_wait_sum_ns : Z;
  stat_wait_count : Z;
  last_spike_major_faults : Z;
  last_spike_minor_faults : Z;
  ts_from_cgroup : bool;
  histogram_truncation_warned : bool }.

(** [sched_state.rs]: the first flag that is set names the state. *)
Definition switch_prev_flags : list (Z * string) :=
  [(0x1, "interruptible_sleep"); (0x2, "uninterruptible_sleep"); (0x4, "stopped");
   (0x8, "traced"); (0x10, "exit_dead"); (0x20, "exit_zombie"); (0x40, "parked");
   (0x80, "dead"); (0x100, "wakekill"); (0x200, "waking"); (0x400, "no_load");
   (0x800, "new"); (0x1000, "rtlock_wait")]%string.

Definition classify_switch_prev_state (state : Z) : string :=
  if state =? 0 then "running"
  else if state <? 0 then "preempted"
  else match list_find (fun '(flag, _) => Z.land (as_u64 state) flag <> 0) switch_prev_flags with
       | Some (_, (_, label)) => label
       | None => "unknown"
       end.

Definition should_replace_comm_from_task_info (current : string) (info : TaskInfo) : bool :=
  bool_decide (current = "?") || bool_decide (current = "")
  || bool_decide (current = ti_process_comm info)
  || bool_decide (current = "wine64-preloader").

Definition apply_task_info (s : TaskStats) (info : TaskInfo) : TaskStats :=
  {| ts_task := ts_task s;
     ts_comm := if should_replace_comm_from_task_info (ts_comm s) info then ti_comm info
                else ts_comm s;
     ts_class := ti_class info;
     ts_process_pid := Some (ti_process_pid info);
     ts_process_comm := ti_process_comm info;
     ts_process_starttime_ticks := ti_process_starttime_ticks info;
     ts_task_starttime_ticks := ti_task_starttime_ticks info;
     ts_exe_dev := ti_exe_dev info;
     ts_exe_ino := ti_exe_ino info;
     ts_active := ts_active s;
     ts_first_seen_ms := ts_first_seen_ms s;
     ts_last_seen_ms := ts_last_seen_ms s;
     ts_removed_ms := ts_removed_ms s;
     interval_latency := interval_latency s;
     interval_cpu := interval_cpu s;
     interval_cpu_perf := interval_cpu_perf s;
     session_latency := session_latency s;
     session_cpu := session_cpu s;
     session_cpu_perf := session_cpu_perf s;
     top_spikes := top_spikes s;
     migration_count := migration_count s;
     cross_numa_migrations := cross_numa_migrations s;
     waker_counts := waker_counts s;
     ts_sched_policy := ti_sched_policy info;
     stat_wait_sum_ns := stat_wait_sum_ns s;
     stat_wait_count := stat_wait_count s;
     last_spike_major_faults := last_spike_major_faults s;
     last_spike_minor_faults := last_spike_minor_faults s;
     ts_from_cgroup := ti_from_cgroup info;
     histogram_truncation_warned := histogram_truncation_warned s |}.

Definition spike_of_event (event : SchedulerEvent) (major minor : Z)
    (d : SpikeRecordDiagnostics) : SpikeRecord :=
  {| sp_latency_ns := se_latency_ns event;
     sp_cpu := se_cpu event;
     sp_wakeup_target_cpu := se_wakeup_target_cpu event;
     sp_prio := se_prio event;
     sp_wakeup_ns := se_wakeup_ns event;
     sp_switch_ns := se_switch_ns event;
     sp_switch_prev_pid := se_switch_prev_pid event;
     sp_switch_prev_state := se_switch_prev_state event;
     sp_switch_prev_state_label := classify_switch_prev_state (se_switch_prev_state event);
     sp_target_pending_wakeups := se_target_pending_wakeups event;
     sp_observed_runnable_depth := se_observed_runnable_depth event;
     sp_major_faults := major;
     sp_minor_faults := minor;
     sp_scx_ops := srd_scx_ops d;
     sp_scx_state := srd_scx_state d;
     sp_scx_enable_seq := srd_scx_enable_seq d;
     sp_cause_tags := srd_cause_tags d;
     sp_primary_cause := srd_primary_cause d |}.

(** [sort_unstable_by_key(Reverse(latency_ns))]: the order of equal latencies is
    unspecified; the model keeps it. *)
Definition spike_ge (a b : SpikeRecord) : Prop := sp_latency_ns b <= sp_latency_ns a.
#[export] Instance spike_ge_dec a b : Decision (spike_ge a b).
Proof. unfold spike_ge. apply _. Defined.

Definition MAX_TOP_SPIKES : nat := 16.

Definition push_spike (spikes : list SpikeRecord) (spike : SpikeRecord) : list SpikeRecord :=
  take MAX_TOP_SPIKES (merge_sort spike_ge (spikes ++ [spike])).

(** [TaskStats::record]; returns the page faults since the previous event too. *)
Definition TaskStats_record (s : TaskStats) (event : SchedulerEvent)
    (spike_threshold_ns elapsed_ms : Z) (diagnostics : option SpikeRecordDiagnostics)
    : TaskStats * (Z * Z) :=
  let latency := se_latency_ns event in
  let session := LatencyStats_record (session_latency s) latency in
  let major := saturating_sub (se_maj_flt event) (last_spike_major_faults s) in
  let minor := saturating_sub (se_min_flt event) (last_spike_minor_faults s) in
  let spikes :=
    if spike_threshold_ns <=? latency
    then push_spike (top_spikes s)
           (spike_of_event event major minor (default SpikeRecordDiagnostics_default diagnostics))
    else top_spikes s in
  let wakers :=
    if se_waker_tid event =? 0 then waker_counts s
    else <[se_waker_tid event :=
           wrapping_add_u64 (default 0 (waker_counts s !! se_waker_tid event)) 1]> (waker_counts s) in
  ({| ts_task := ts_task s;
      ts_comm := ts_comm s;
      ts_class := ts_class s;
      ts_process_pid := ts_process_pid s;
      ts_process_comm := ts_process_comm s;
      ts_process_starttime_ticks := ts_process_starttime_ticks s;
      ts_task_starttime_ticks := ts_task_starttime_ticks s;
      ts_exe_dev := ts_exe_dev s;
      ts_exe_ino := ts_exe_ino s;
      ts_active := ts_active s;
      ts_first_seen_ms := ts_first_seen_ms s;
      ts_last_seen_ms := elapsed_ms;
      ts_removed_ms := ts_removed_ms s;
      interval_latency := LatencyStats_record (interval_latency s) latency;
      interval_cpu := CpuStatsSet_record (interval_cpu s) (se_cpu event) latency spike_threshold_ns;
      interval_cpu_perf := interval_cpu_perf s;
      session_latency := session;
      session_cpu := CpuStatsSet_record (session_cpu s) (se_cpu event) latency spike_threshold_ns;
      session_cpu_perf := session_cpu_perf s;
      top_spikes := spikes;
      migration_count := migration_count s;
      cross_numa_migrations := cross_numa_migrations s;
      waker_counts := wakers;
      ts_sched_policy := ts_sched_policy s;
      stat_wait_sum_ns := stat_wait_sum_ns s;
      stat_wait_count := stat_wait_count s;
      last_spike_major_faults := se_maj_flt event;
      last_spike_minor_faults := se_min_flt event;
      ts_from_cgroup := ts_from_cgroup s;
      histogram_truncation_warned :=
        histogram_truncation_warned s || (0 <? ls_samples_truncated session) |},
   (major, minor)).

Definition record_cpu_perf (s : TaskStats) (delta : CpuPerfDelta) : TaskStats :=
  let add o := Some (CpuPerfAccumulator_record (default CpuPerfAccumulator_default o) delta) in
  {| ts_task := ts_task s;
     ts_comm := ts_comm s;
     ts_class := ts_class s;
     ts_process_pid := ts_process_pid s;
     ts_process_comm := ts_process_comm s;
     ts_process_starttime_ticks := ts_process_starttime_ticks s;
     ts_task_starttime_ticks := ts_task_starttime_ticks s;
     ts_exe_dev := ts_exe_dev s;
     ts_exe_ino := ts_exe_ino s;
     ts_active := ts_active s;
     ts_first_seen_ms := ts_first_seen_ms s;
     ts_last_seen_ms := ts_last_seen_ms s;
     ts_removed_ms := ts_removed_ms s;
     interval_latency := interval_latency s;
     interval_cpu := interval_cpu s;
     interval_cpu_perf := add (interval_cpu_perf s);
     session_latency := session_latency s;
     session_cpu := session_cpu s;
     session_cpu_perf := add (session_cpu_perf s);
     top_spikes := top_spikes s;
     migration_count := migration_count s;
     cross_numa_migrations := cross_numa_migrations s;
     waker_counts := waker_counts s;
     ts_sched_policy := ts_sched_policy s;
     stat_wait_sum_ns := stat_wait_sum_ns s;
     stat_wait_count := stat_wait_count s;
     last_spike_major_faults := last_spike_major_faults s;
     last_spike_minor_faults := last_spike_minor_faults s;
     ts_from_cgroup := ts_from_cgroup s;
     histogram_truncation_warned := histogram_truncation_warned s |}.

(** ** [interval.rs] *)

(** [ebpf/model.rs]. *)
Record DropCountersSnapshot := {
  dc_wakeup_data_insert_failed : Z;
  dc_wakeup_data_stale_entries : Z;
  dc_wakeup_data_replaced_entries : Z;
  dc_wakeup_data_consumed_read_failed : Z;
  dc_ringbuf_reserve_failed : Z;
  dc_irq_start_times_insert_failed : Z;
  dc_block_start_insert_failed : Z;
  dc_block_fallback_key_collisions : Z;
  dc_cpu_accounting_untracked : Z;
  dc_block_zero_keys : Z;
  dc_drm_fence_missing_start : Z }.

Definition DropCountersSnapshot_total (d : DropCountersSnapshot) : Z :=
  foldl saturating_add_u64 (dc_wakeup_data_insert_failed d)
    [dc_wakeup_data_stale_entries d; dc_wakeup_data_replaced_entries d;
     dc_wakeup_data_consumed_read_failed d; dc_ringbuf_reserve_failed d;
     dc_irq_start_times_insert_failed d; dc_block_start_insert_failed d;
     dc_block_fallback_key_collisions d; dc_cpu_accounting_untracked d;
     dc_block_zero_keys d; dc_drm_fence_missing_start d].

Definition total_excluding_block_io (d : DropCountersSnapshot) : Z :=
  foldl saturating_add_u64 (dc_wakeup_data_insert_failed d)
    [dc_wakeup_data_stale_entries d; dc_wakeup_data_replaced_entries d;
     dc_wakeup_data_consumed_read_failed d; dc_ringbuf_reserve_failed d;
     dc_irq_start_times_insert_failed d; dc_cpu_accounting_untracked d;
     dc_drm_fence_missing_start d].

(** [psi.rs]. *)
Record PsiSnapshot := {
  cpu_some_avg10 : f64; cpu_some_total_us : Z;
  mem_some_avg10 : f64; mem_some_total_us : Z;
  mem_full_avg10 : f64; mem_full_total_us : Z;
  io_some_avg10 : f64; io_some_total_us : Z;
  io_full_avg10 : f64; io_full_total_us : Z }.

Record PsiDelta := {
  psi_snapshot : PsiSnapshot;
  mem_stall_delta_us : option Z;
  cpu_stall_delta_us : option Z;
  io_stall_delta_us : option Z;
  mem_stall_spike : bool }.

Record IntervalRecord := {
  ir_elapsed_ms : Z;
  ir_task : Z;
  ir_active : bool;
  ir_class : TaskClass;
  ir_comm : string;
  ir_process_pid : option Z;
  ir_process_comm : string;
  ir_samples : Z;
  ir_stored_samples : Z;
  ir_truncated_samples : Z;
  ir_min_ns : Z;
  ir_avg_ns : Z;
  ir_p95_ns : Z;
  ir_p99_ns : Z;
  ir_max_ns : Z;
  ir_over_1ms : Z;
  ir_over_2ms : Z;
  ir_over_5ms : Z;
  ir_busiest_cpu : option Z;
  ir_busiest_cpu_samples : Z;
  ir_worst_cpu : option Z;
  ir_worst_cpu_max_ns : Z;
  ir_spikiest_cpu : option Z;
  ir_spikiest_cpu_spikes : Z;
  ir_major_faults : Z;
  ir_minor_faults : Z;
  ir_cpu_psi_some : f64;
  ir_mem_psi_some : f64;
  ir_mem_psi_full : f64;
  ir_mem_psi_delta_us : Z;
  ir_mem_psi_spike : bool;
  ir_io_psi_some : f64;
  ir_io_psi_full : f64;
  ir_percentile_scope : string;
  ir_histogram : list LatencyHistogramBucket;
  ir_drop_counters : DropCountersSnapshot;
  ir_cpu_perf : option CpuPerfRecord }.

(** [stats.interval_cpu_perf.as_mut().and_then(snapshot_and_reset)]. *)
Definition take_interval_cpu_perf (perf : option CpuPerfAccumulator)
    : option CpuPerfAccumulator * option CpuPerfRecord :=
  match perf with
  | None => (None, None)
  | Some a => let '(a', r) := CpuPerfAccumulator_snapshot_and_reset a in (Some a', r)
  end.

(** Resetting the interval fields the collection owns. *)
Definition with_interval (s : TaskStats) (latency : LatencyStats) (cpu : CpuStatsSet)
    (perf : option CpuPerfAccumulator) : TaskStats :=
  {| ts_task := ts_task s;
     ts_comm := ts_comm s;
     ts_class := ts_class s;
     ts_process_pid := ts_process_pid s;
     ts_process_comm := ts_process_comm s;
     ts_process_starttime_ticks := ts_process_starttime_ticks s;
     ts_task_starttime_ticks := ts_task_starttime_ticks s;
     ts_exe_dev := ts_exe_dev s;
     ts_exe_ino := ts_exe_ino s;
     ts_active := ts_active s;
     ts_first_seen_ms := ts_first_seen_ms s;
     ts_last_seen_ms := ts_last_seen_ms s;
     ts_removed_ms := ts_removed_ms s;
     interval_latency := latency;
     interval_cpu := cpu;
     interval_cpu_perf := perf;
     session_latency := session_latency s;
     session_cpu := session_cpu s;
     session_cpu_perf := session_cpu_perf s;
     top_spikes := top_spikes s;
     migration_count := migration_count s;
     cross_numa_migrations := cross_numa_migrations s;
     waker_counts := waker_counts s;
     ts_sched_policy := ts_sched_policy s;
     stat_wait_sum_ns := stat_wait_sum_ns s;
     stat_wait_count := stat_wait_count s;
     last_spike_major_faults := last_spike_major_faults s;
     last_spike_minor_faults := last_spike_minor_faults s;
     ts_from_cgroup := ts_from_cgroup s;
     histogram_truncation_warned := histogram_truncation_warned s |}.

Definition interval_record_from_snapshot (task : Z) (stats : TaskStats)
    (latency : LatencySnapshot) (cpu : CpuSnapshot) (elapsed_ms : Z)
    (drop_counters : DropCountersSnapshot) (psi : option PsiDelta) (faults_delta : Z * Z)
    : TaskStats * IntervalRecord :=
  let psi_of {A} (f : PsiDelta -> A) (d : A) : A :=
    match psi with Some p => f p | None => d end in
  let '(perf, perf_record) := take_interval_cpu_perf (interval_cpu_perf stats) in
  (with_interval stats (interval_latency stats) (interval_cpu stats) perf,
   {| ir_elapsed_ms := elapsed_ms;
      ir_task := task;
      ir_active := ts_active stats;
      ir_class := ts_class stats;
      ir_comm := ts_comm stats;
      ir_process_pid := ts_process_pid stats;
      ir_process_comm := ts_process_comm stats;
      ir_samples := sn_count latency;
      ir_stored_samples := sn_stored_samples latency;
      ir_truncated_samples := sn_samples_truncated latency;
      ir_min_ns := sn_min_ns latency;
      ir_avg_ns := sn_avg_ns latency;
      ir_p95_ns := sn_p95_ns latency;
      ir_p99_ns := sn_p99_ns latency;
      ir_max_ns := sn_max_ns latency;
      ir_over_1ms := sn_over_1ms latency;
      ir_over_2ms := sn_over_2ms latency;
      ir_over_5ms := sn_over_5ms latency;
      ir_busiest_cpu := busiest_cpu cpu;
      ir_busiest_cpu_samples := busiest_cpu_samples cpu;
      ir_worst_cpu := worst_cpu cpu;
      ir_worst_cpu_max_ns := worst_cpu_max_ns cpu;
      ir_spikiest_cpu := spikiest_cpu cpu;
      ir_spikiest_cpu_spikes := spikiest_cpu_spikes cpu;
      ir_major_faults := faults_delta.1;
      ir_minor_faults := faults_delta.2;
      ir_cpu_psi_some := psi_of (fun p => cpu_some_avg10 (psi_snapshot p)) f64_zero;
      ir_mem_psi_some := psi_of (fun p => mem_some_avg10 (psi_snapshot p)) f64_zero;
      ir_mem_psi_full := psi_of (fun p => mem_full_avg10 (psi_snapshot p)) f64_zero;
      ir_mem_psi_delta_us := psi_of (fun p => default 0 (mem_stall_delta_us p)) 0;
      ir_mem_psi_spike := psi_of mem_stall_spike false;
      ir_io_psi_some := psi_of (fun p => io_some_avg10 (psi_snapshot p)) f64_zero;
      ir_io_psi_full := psi_of (fun p => io_full_avg10 (psi_snapshot p)) f64_zero;
      ir_percentile_scope := sn_percentile_scope latency;
      ir_histogram := sn_histogram latency;
      ir_drop_counters := drop_counters;
      ir_cpu_perf := perf_record |}).

(** ** [output.rs] *)

Abbreviation TaskStatsMap := (gmap Z TaskStats).

(** The fault counters of the eBPF map, when it is loaded: a read that may fail. *)
Definition FaultsMap := Z -> option (Z * Z).

(** One task of [collect_interval_summaries_labeled]: the new statistics, the new
    snapshot of the fault counters, and the record if the task had samples. *)
Definition collect_task (elapsed_ms : Z) (drop_counters : DropCountersSnapshot)
    (prev_faults_map : option FaultsMap) (psi : option PsiDelta)
    (prev_faults : gmap Z (Z * Z)) (task : Z) (stats : TaskStats)
    : TaskStats * gmap Z (Z * Z) * option IntervalRecord :=
  let counters := prev_faults_map ≫= (fun read => read task) in
  let delta :=
    match counters with
    | Some (maj, min) =>
        let prev := default (maj, min) (prev_faults !! task) in
        (saturating_sub maj prev.1, saturating_sub min prev.2)
    | None => (0, 0)
    end in
  match snapshot_and_reset (interval_latency stats) with
  | (latency', None) =>
      let '(perf, _) := take_interval_cpu_perf (interval_cpu_perf stats) in
      (with_interval stats latency' (interval_cpu stats) perf, prev_faults, None)
  | (latency', Some snapshot) =>
      let prev_faults' :=
        match counters with
        | Some c => <[task := c]> prev_faults
        | None => delete task prev_faults
        end in
      let '(cpu', cpu_snapshot) := CpuStatsSet_snapshot_and_reset (interval_cpu stats) in
      let stats' := with_interval stats latency' cpu' (interval_cpu_perf stats) in
      let '(stats'', record) :=
        interval_record_from_snapshot task stats' snapshot cpu_snapshot elapsed_ms drop_counters
          psi delta in
      (stats'', prev_faults', Some record)
  end.

Definition collect_interval_summaries (stats_by_task : TaskStatsMap) (elapsed_ms : Z)
    (drop_counters : DropCountersSnapshot) (prev_faults_map : option FaultsMap)
    (psi : option PsiDelta) (prev_faults : gmap Z (Z * Z))
    : TaskStatsMap * gmap Z (Z * Z) * list IntervalRecord :=
  let prev_faults := match prev_faults_map with Some _ => prev_faults | None => ∅ end in
  foldl (fun '(stats_by_task, prev_faults, records) '(task, stats) =>
      let '(stats', prev_faults', record) :=
        collect_task elapsed_ms drop_counters prev_faults_map psi prev_faults task stats in
      (<[task := stats']> stats_by_task, prev_faults', records ++ option_list record))
    (stats_by_task, prev_faults, []) (btree_entries stats_by_task).

(** ** Top spikes *)

Section TopSpikes.

Implicit Types (l a b : list Z).

#[export] Instance Z_ge_dec (x y : Z) : Decision (x >= y).
Proof. unfold Z.ge. apply _. Defined.
#[local] Instance Z_ge_trans : Transitive Z.ge.
Proof. intros x y z. lia. Qed.
#[local] Instance Z_ge_total : Total Z.ge.
Proof. intros x y. lia. Qed.
#[local] Instance Z_ge_antisymm : AntiSymm (=) Z.ge.
Proof. intros x y. lia. Qed.
#[local] Instance spike_ge_trans : Transitive spike_ge.
Proof. intros x y z. unfold spike_ge. lia. Qed.
#[local] Instance spike_ge_total : Total spike_ge.
Proof. intros x y. unfold spike_ge. lia. Qed.

Definition sort_desc l : list Z := merge_sort Z.ge l.

Lemma sort_desc_perm l : sort_desc l ≡ₚ l.
Proof. apply merge_sort_Permutation. Qed.

Lemma sort_desc_sorted l : StronglySorted Z.ge (sort_desc l).
Proof. apply StronglySorted_merge_sort; apply _. Qed.

Lemma sort_desc_unique l a : StronglySorted Z.ge a -> a ≡ₚ l -> a = sort_desc l.
Proof.
  intros Ha Hp. apply (StronglySorted_unique Z.ge); [done|apply sort_desc_sorted|].
  by rewrite sort_desc_perm.
Qed.

Lemma sorted_app a b :
  StronglySorted Z.ge a -> StronglySorted Z.ge b ->
  (forall x y, x ∈ a -> y ∈ b -> x >= y) -> StronglySorted Z.ge (a ++ b).
Proof.
  induction a as [|x a IH]; cbn; intros Ha Hb Hab; [done|].
  apply StronglySorted_inv in Ha as [Ha Hx]. constructor.
  - apply IH; [done|done|]. intros y z Hy. apply Hab. by apply list_elem_of_further.
  - apply Forall_app. split; [done|]. apply Forall_forall. intros y Hy. apply Hab; [|done].
    apply list_elem_of_here.
Qed.

(** Keeping the [n] largest after every insertion keeps the [n] largest overall. *)
Lemma take_sort_desc_snoc (n : nat) l x :
  take n (sort_desc (take n (sort_desc l) ++ [x])) = take n (sort_desc (l ++ [x])).
Proof.
  pose proof (sort_desc_sorted l) as Hs.
  assert (Hl : l ≡ₚ sort_desc l) by (symmetry; apply sort_desc_perm).
  set (s := sort_desc l) in *.
  destruct (Nat.le_gt_cases (length s) n) as [Hn|Hn].
  { rewrite (take_ge s) by done. f_equal. apply sort_desc_unique; [apply sort_desc_sorted|].
    by rewrite sort_desc_perm, Hl. }
  rewrite <- (take_drop n s) in Hs, Hl. set (a := take n s) in *. set (b := drop n s) in *.
  assert (Hlen : length a = n) by (unfold a; rewrite length_take; lia).
  assert (Hab : forall y z, y ∈ a -> z ∈ b -> y >= z).
  { intros y z Hy Hz. by apply (StronglySorted_app_1_elem_of Z.ge a b). }
  apply StronglySorted_app_1_r in Hs.
  pose proof (sort_desc_sorted (a ++ [x])) as Hc. pose proof (sort_desc_perm (a ++ [x])) as Hpc.
  set (c := sort_desc (a ++ [x])) in *.
  assert (Hlc : length c = S n) by (rewrite Hpc, length_app; cbn; lia).
  destruct c as [|m c' _] using rev_ind; [done|]. rewrite length_app in Hlc. cbn in Hlc.
  rewrite take_app_le, (take_ge c') by lia.
  assert (Hcm : forall y, y ∈ c' -> y >= m).
  { intros y Hy. apply (StronglySorted_app_1_elem_of Z.ge c' [m]); [done|done|set_solver]. }
  assert (Hm : (m = x /\ c' ≡ₚ a) \/ m ∈ a).
  { assert (m ∈ a ++ [x]) as Hin by (rewrite <- Hpc; set_solver).
    apply elem_of_app in Hin as [|Hin]; [by right|]. apply list_elem_of_singleton in Hin as ->.
    left. split; [done|]. by apply (Permutation_app_inv_r [x]). }
  assert (Hcb : forall y z, y ∈ c' -> z ∈ sort_desc (m :: b) -> y >= z).
  { intros y z Hy Hz. rewrite sort_desc_perm in Hz. apply elem_of_cons in Hz as [->|Hz]; [auto|].
    destruct Hm as [[-> Hca]|Hma].
    - apply Hab; [by rewrite <- Hca|done].
    - pose proof (Hcm y Hy). pose proof (Hab m z Hma Hz). lia. }
  apply StronglySorted_app_1_l in Hc.
  rewrite <- (sort_desc_unique (l ++ [x]) (c' ++ sort_desc (m :: b))).
  - rewrite take_app_le, take_ge by lia. done.
  - apply sorted_app; [done|apply sort_desc_sorted|done].
  - rewrite sort_desc_perm, Hl. change (m :: b) with ([m] ++ b). rewrite app_assoc, Hpc.
    by rewrite <- !app_assoc, (Permutation_app_comm [x] b).
Qed.

Lemma latencies_sorted (spikes : list SpikeRecord) :
  sp_latency_ns <$> merge_sort spike_ge spikes = sort_desc (sp_latency_ns <$> spikes).
Proof.
  apply sort_desc_unique.
  - apply (StronglySorted_fmap sp_latency_ns spike_ge Z.ge).
    + intros a b. unfold spike_ge. lia.
    + apply StronglySorted_merge_sort; apply _.
  - by rewrite merge_sort_Permutation.
Qed.

Lemma push_spike_latencies spikes spike l :
  sp_latency_ns <$> spikes = take MAX_TOP_SPIKES (sort_desc l) ->
  sp_latency_ns <$> push_spike spikes spike
    = take MAX_TOP_SPIKES (sort_desc (l ++ [sp_latency_ns spike])).
Proof.
  intros H. unfold push_spike. rewrite fmap_take, latencies_sorted, fmap_app, H. cbn [fmap list_fmap].
  apply take_sort_desc_snoc.
Qed.

End TopSpikes.

(** ** A task over an interval *)

Section TaskInterval.

Context (spike_threshold_ns : Z).

(** An event with the time and diagnostics it is recorded with. *)
Definition Recorded : Type := SchedulerEvent * Z * option SpikeRecordDiagnostics.

Implicit Types (es : list Recorded).

Definition latencies es : list Z := (fun '(e, _, _) => se_latency_ns e) <$> es.

Definition feed (s : TaskStats) es : TaskStats :=
  foldl (fun s '(e, elapsed_ms, d) => (TaskStats_record s e spike_threshold_ns elapsed_ms d).1) s es.

Lemma feed_snoc s es e : feed s (es ++ [e]) = feed (feed s es) [e].
Proof. unfold feed. by rewrite foldl_app. Qed.

Lemma latencies_snoc es e t d : latencies (es ++ [(e, t, d)]) = latencies es ++ [se_latency_ns e].
Proof. unfold latencies. by rewrite fmap_app. Qed.

Lemma feed_interval_latency s es :
  interval_latency (feed s es) = foldl LatencyStats_record (interval_latency s) (latencies es).
Proof.
  induction es as [|[[e t] d] es IH] using rev_ind; [done|].
  rewrite feed_snoc, latencies_snoc, foldl_app, <- IH. done.
Qed.

Lemma feed_session_latency s es :
  session_latency (feed s es) = foldl LatencyStats_record (session_latency s) (latencies es).
Proof.
  induction es as [|[[e t] d] es IH] using rev_ind; [done|].
  rewrite feed_snoc, latencies_snoc, foldl_app, <- IH. done.
Qed.

(** The latencies that count as spikes. *)
Definition spike_latencies es : list Z :=
  filter (fun x => spike_threshold_ns <= x) (latencies es).

Lemma feed_top_spikes s es :
  top_spikes s = [] ->
  sp_latency_ns <$> top_spikes (feed s es)
    = take MAX_TOP_SPIKES (sort_desc (spike_latencies es)).
Proof.
  intros H0. induction es as [|[[e t] d] es IH] using rev_ind; [cbn; by rewrite H0|].
  rewrite feed_snoc. unfold spike_latencies in *. rewrite latencies_snoc, filter_app, filter_cons, filter_nil.
  cbn [feed foldl TaskStats_record fst top_spikes].
  destruct (Z.leb_spec spike_threshold_ns (se_latency_ns e)), (decide (spike_threshold_ns <= se_latency_ns e));
    try lia.
  - by rewrite (push_spike_latencies _ _ _ IH).
  - by rewrite app_nil_r.
Qed.

Lemma feed_identity s es :
  ts_class (feed s es) = ts_class s /\ ts_process_pid (feed s es) = ts_process_pid s.
Proof.
  induction es as [|[[e t] d] es IH] using rev_ind; [done|]. rewrite feed_snoc. exact IH.
Qed.

(** What an interval record says of the latencies of its interval. *)
Record record_describes (r : IntervalRecord) (l : list Z) : Prop := {
  rd_samples : ir_samples r = Z.of_nat (length l);
  rd_max : ir_max_ns r ∈ l /\ Forall (fun x => x <= ir_max_ns r) l;
  rd_over_1ms : ir_over_1ms r = count_of (fun x => 1000000 <= x) l;
  rd_over_2ms : ir_over_2ms r = count_of (fun x => 2000000 <= x) l;
  rd_over_5ms : ir_over_5ms r = count_of (fun x => 5000000 <= x) l;
  rd_histogram :
    ir_histogram r
      = (fun i => {| upper_bound_ns := LATENCY_HISTOGRAM_BUCKETS_NS !! i;
                     bucket_count := count_of (fun x => bucket_idx x = i) l |}) <$> seq 0 16;
  rd_exact :
    (length l <= MAX_EXACT_SAMPLES)%nat ->
    order_statistic l (nearest_rank 99 (Z.of_nat (length l))) (ir_p99_ns r);
  rd_bounded :
    (MAX_EXACT_SAMPLES < length l)%nat ->
    histogram_percentile l (percentile_rank (Z.of_nat (length l)) P99) (ir_p99_ns r) }.

Section Collect.

Context (elapsed_ms : Z) (drop_counters : DropCountersSnapshot)
  (prev_faults_map : option FaultsMap) (psi : option PsiDelta) (prev_faults : gmap Z (Z * Z)).

Lemma collect_task_describes task s l :
  summarises (interval_latency s) l -> l <> [] -> Forall in_u64 l -> Z.of_nat (length l) < 2 ^ 64 ->
  exists s' pf r,
    collect_task elapsed_ms drop_counters prev_faults_map psi prev_faults task s = (s', pf, Some r)
    /\ record_describes r l
    /\ ir_class r = ts_class s /\ ir_process_pid r = ts_process_pid s /\ ir_task r = task
    /\ interval_latency s' = LatencyStats_new /\ interval_cpu s' = ∅.
Proof.
  intros Hs Hl Hu Hlen. destruct (snapshot_describes _ _ Hs Hl Hu Hlen) as (sn & Hsn & Hd).
  unfold collect_task, snapshot_and_reset.
  destruct (LatencyStats_snapshot (interval_latency s)) as [st o]. cbn [snd] in Hsn. subst o.
  unfold CpuStatsSet_snapshot_and_reset, interval_record_from_snapshot.
  destruct (take_interval_cpu_perf _) as [perf pr]. eexists _, _, _. split; [done|].
  split; [|done]. constructor; cbn; apply Hd.
Qed.

(** A task with no samples gives no record and keeps its statistics. *)
Lemma collect_task_silent task s :
  summarises (interval_latency s) [] ->
  exists s' , collect_task elapsed_ms drop_counters prev_faults_map psi prev_faults task s
    = (s', prev_faults, None)
    /\ interval_latency s' = interval_latency s /\ interval_cpu s' = interval_cpu s.
Proof.
  intros Hs. unfold collect_task, snapshot_and_reset, LatencyStats_snapshot.
  rewrite (sum_count _ _ Hs). cbn [length Z.of_nat Z.eqb].
  destruct (take_interval_cpu_perf _) as [perf pr]. eexists. done.
Qed.

(** One step of the collection over all tasks. *)
Definition collect_step '(m, pf, records) '(task, stats)
    : TaskStatsMap * gmap Z (Z * Z) * list IntervalRecord :=
  let '(stats', pf', record) :=
    collect_task elapsed_ms drop_counters prev_faults_map psi pf task stats in
  (<[task := stats']> m, pf', records ++ option_list record).

End Collect.

Section CollectAll.

Context (elapsed_ms : Z) (drop_counters : DropCountersSnapshot)
  (prev_faults_map : option FaultsMap) (psi : option PsiDelta).
Context (lat : Z -> list Z).

#[local] Abbreviation step := (collect_step elapsed_ms drop_counters prev_faults_map psi).

(** [lat task] are the latencies of the interval, for every task of the map. *)
Definition tracks '((task, s) : Z * TaskStats) : Prop :=
  summarises (interval_latency s) (lat task)
  /\ Forall in_u64 (lat task) /\ Z.of_nat (length (lat task)) < 2 ^ 64.

(** The record of a task, from its statistics before the collection. *)
Definition record_for (entries : list (Z * TaskStats)) (r : IntervalRecord) : Prop :=
  exists s, (ir_task r, s) ∈ entries /\ record_describes r (lat (ir_task r))
    /\ ir_class r = ts_class s /\ ir_process_pid r = ts_process_pid s.

Definition active_tasks (entries : list (Z * TaskStats)) : list Z :=
  filter (fun task => lat task <> []) entries.*1.

(** The state after the entries were visited. *)
Record collected (entries : list (Z * TaskStats)) (m m' : TaskStatsMap)
    (records : list IntervalRecord) : Prop := {
  col_tasks : ir_task <$> records = active_tasks entries;
  col_records : Forall (record_for entries) records;
  col_visited : forall task s', task ∈ entries.*1 -> m' !! task = Some s' ->
    summarises (interval_latency s') [];
  col_others : forall task, task ∉ entries.*1 -> m' !! task = m !! task;
  col_dom : forall task, is_Some (m !! task) \/ task ∈ entries.*1 <-> is_Some (m' !! task) }.

Lemma record_for_app entries e r : record_for entries r -> record_for (entries ++ [e]) r.
Proof. intros (s & Hin & H). exists s. split; [apply elem_of_app; by left|done]. Qed.

Lemma collect_step_spec entries m m' pf records task s :
  collected entries m m' records -> tracks (task, s) -> task ∉ entries.*1 ->
  let '(m'', pf', records') := step (m', pf, records) (task, s) in
  collected (entries ++ [(task, s)]) m m'' records'.
Proof.
  intros [Ht Hr Hv Ho Hd] (Hs & Hu & Hlen) Hnew. cbn [collect_step].
  assert (Hcase : exists s' pf' o,
    collect_task elapsed_ms drop_counters prev_faults_map psi pf task s = (s', pf', o)
    /\ summarises (interval_latency s') []
    /\ ir_task <$> option_list o = filter (fun t => lat t <> []) [task]
    /\ Forall (record_for (entries ++ [(task, s)])) (option_list o)).
  { rewrite filter_cons, filter_nil. destruct (decide (lat task = [])) as [E|E].
    - rewrite E in Hs. destruct (collect_task_silent elapsed_ms drop_counters prev_faults_map psi pf task s Hs)
        as (s' & -> & Hl & _). exists s', pf, None. rewrite Hl.
      destruct (decide (lat task <> [])); [done|]. done.
    - destruct (collect_task_describes elapsed_ms drop_counters prev_faults_map psi pf task s _ Hs E Hu Hlen)
        as (s' & pf' & r & -> & Hdesc & Hc & Hp & Htask & Hl & _).
      exists s', pf', (Some r). rewrite Hl. split; [done|]. split; [apply summarises_new|].
      destruct (decide (lat task <> [])); [|done]. cbn. rewrite Htask. split; [done|].
      constructor; [|constructor]. exists s. rewrite Htask. split; [set_solver|done]. }
  destruct Hcase as (s' & pf' & o & -> & Hempty & Hts & Hall). constructor.
  - unfold active_tasks. rewrite !fmap_app, filter_app, Ht, Hts. done.
  - apply Forall_app. split; [|done]. eapply Forall_impl; [exact Hr|]. apply record_for_app.
  - intros t s2. rewrite fmap_app. cbn. rewrite elem_of_app, list_elem_of_singleton.
    destruct (decide (t = task)) as [->|Hne].
    + rewrite lookup_insert. destruct (decide _); [|done]. by intros _ [= <-].
    + rewrite lookup_insert_ne by done. intros [Hin|]; [by apply Hv|done].
  - intros t. rewrite fmap_app. cbn. rewrite elem_of_app, list_elem_of_singleton. intros Hn.
    rewrite lookup_insert_ne by naive_solver. apply Ho. tauto.
  - intros t. rewrite fmap_app. cbn. rewrite elem_of_app, list_elem_of_singleton.
    destruct (decide (t = task)) as [->|Hne].
    + rewrite lookup_insert. destruct (decide _); [|done]. naive_solver.
    + rewrite lookup_insert_ne, <- Hd by done. naive_solver.
Qed.

Lemma collect_entries entries m pf :
  NoDup entries.*1 -> Forall tracks entries ->
  let '(m', pf', records) := foldl step (m, pf, []) entries in collected entries m m' records.
Proof.
  induction entries as [|[task s] entries IH] using rev_ind; intros Hnd Hall.
  { cbn. constructor; [done|constructor|by intros ? ? ?%elem_of_nil|done|].
    intros t. cbn. rewrite elem_of_nil. tauto. }
  rewrite fmap_app in Hnd. apply NoDup_app in Hnd as (Hnd & Hdis & _).
  apply Forall_app in Hall as [Hall Htr]. inversion Htr; subst.
  specialize (IH Hnd Hall). rewrite foldl_app. cbn [foldl].
  destruct (foldl step (m, pf, []) entries) as [[m' pf'] records].
  apply (collect_step_spec entries m m' pf' records task s IH); [done|].
  intros Hin. apply (Hdis _ Hin). cbn. set_solver.
Qed.

Lemma btree_entries_perm {A} (m : gmap Z A) : btree_entries m ≡ₚ map_to_list m.
Proof. apply merge_sort_Permutation. Qed.

Lemma collect_interval_summaries_spec m pf :
  (forall task s, m !! task = Some s -> tracks (task, s)) ->
  let '(m', _, records) :=
    collect_interval_summaries m elapsed_ms drop_counters prev_faults_map psi pf in
  collected (btree_entries m) m m' records.
Proof.
  intros H. unfold collect_interval_summaries. apply collect_entries.
  - rewrite btree_entries_perm. apply NoDup_fst_map_to_list.
  - rewrite btree_entries_perm. apply Forall_forall. intros [task s] Hin.
    apply H. by apply elem_of_map_to_list.
Qed.

End CollectAll.

End TaskInterval.

(** The collection of an interval is complete and exact: for a map of statistics that
    have been fed the events of the interval, in any number and order, the records are of
    exactly the tasks that had an event, in the order of their ids, each one describing the
    latencies of its own task (count, maximum, tails, histogram, p99) with its class and
    process; afterwards the same tasks are tracked and every interval statistic is empty
    again, so that no latency is counted in two intervals. *)
Theorem interval_collection_complete (threshold elapsed_ms : Z) (drops : DropCountersSnapshot)
    (faults : option FaultsMap) (psi : option PsiDelta) (es : Z -> list Recorded) m pf :
  (forall task s, m !! task = Some s ->
     (exists s0, summarises (interval_latency s0) [] /\ s = feed threshold s0 (es task)) /\
     Forall in_u64 (latencies (es task)) /\ Z.of_nat (length (es task)) < 2 ^ 64) ->
  let '(m', _, records) := collect_interval_summaries m elapsed_ms drops faults psi pf in
  ir_task <$> records = filter (fun task => latencies (es task) <> []) (btree_entries m).*1 /\
  Forall (fun r => record_describes r (latencies (es (ir_task r))) /\
    exists s, m !! ir_task r = Some s /\ ir_class r = ts_class s /\
      ir_process_pid r = ts_process_pid s) records /\
  (forall task, is_Some (m' !! task) <-> is_Some (m !! task)) /\
  (forall task s', m' !! task = Some s' -> summarises (interval_latency s') []).
Proof.
  intros Hm. assert (Htr : forall task s, m !! task = Some s ->
    tracks (fun task => latencies (es task)) (task, s)).
  { intros task s Hs. destruct (Hm task s Hs) as ((s0 & H0 & ->) & Hu & Hlen).
    assert (Hl : length (latencies (es task)) = length (es task)) by apply length_fmap.
    split; [|by rewrite Hl]. rewrite feed_interval_latency. by apply summarises_feed; rewrite ?Hl. }
  pose proof (collect_interval_summaries_spec elapsed_ms drops faults psi _ m pf Htr) as H.
  destruct (collect_interval_summaries m elapsed_ms drops faults psi pf) as [[m' pf'] records].
  destruct H as [Ht Hr Hv Ho Hd].
  assert (Hin : forall task, task ∈ (btree_entries m).*1 <-> is_Some (m !! task)).
  { intros task. rewrite btree_entries_perm. split.
    - intros ([k s] & -> & He)%list_elem_of_fmap. apply elem_of_map_to_list in He. by exists s.
    - intros [s Hs]. apply (list_elem_of_fmap_2 fst _ (task, s)). by apply elem_of_map_to_list. }
  split; [exact Ht|]. split; [|split].
  - eapply Forall_impl; [exact Hr|]. intros r (s & Hs & Hdesc & Hc & Hp). split; [done|].
    exists s. rewrite btree_entries_perm in Hs. by apply elem_of_map_to_list in Hs.
  - intros task. rewrite <- Hd, Hin. tauto.
  - intros task s' Hs'. eapply Hv; [|exact Hs']. apply Hin.
    assert (is_Some (m' !! task)) as Hi by eauto. apply Hd in Hi. rewrite Hin in Hi. tauto.
Qed.

(** The spikes a task keeps are the largest ones: after any sequence of events from a
    task without spikes, the latencies of [top_spikes] are the first [MAX_TOP_SPIKES] of all
    its latencies at or above the threshold, in descending order. *)
Theorem top_spikes_are_largest (threshold : Z) s (es : list Recorded) :
  top_spikes s = [] ->
  sp_latency_ns <$> top_spikes (feed threshold s es)
    = take MAX_TOP_SPIKES (sort_desc (filter (fun x => threshold <= x) (latencies es))).
Proof. apply feed_top_spikes. Qed.
