(* ===== verification/Profiles.v ===== *)
(** * Profiles: rules that place and prioritise tasks

    [profiles/mod.rs], [parse.rs], [matching.rs], [evaluate.rs] and [warnings.rs]: the rules
    of a profile, what a configured one becomes, which rule a task matches and which mask it
    asks for; the I/O priorities of [actions/ioprio]; the patterns of [process/model.rs] with
    the text search of [ascii_match.rs].

    The TOML reader is not modelled: a configured rule is the record it fills. A regular
    expression is the predicate the library compiled it to. *)

From Stdlib Require Import Ascii String List.
From S2P Require Import Prelude PolicyEval Procfs Allowlist CpuMask Abi Metrics Intervals.
From stdpp Require Import list strings.
Open Scope Z_scope.

(** ** [ascii_match.rs] *)

Fixpoint starts_with_ignore_ascii_case (value prefix : string) : bool :=
  match prefix, value with
  | EmptyString, _ => true
  | String _ _, EmptyString => false
  | String p prefix, String v value =>
      Ascii.eqb (to_ascii_lowercase_char v) (to_ascii_lowercase_char p)
      && starts_with_ignore_ascii_case value prefix
  end.

(** Some window of the haystack is the needle, whatever the case. *)
Fixpoint contains_ignore_ascii_case (haystack needle : string) : bool :=
  starts_with_ignore_ascii_case haystack needle
  || match haystack with EmptyString => false | String _ rest => contains_ignore_ascii_case rest needle end.

(** ** [process/model.rs] *)

Record CompiledPattern := { cp_raw : string; cp_regex : option (string -> bool) }.

Definition pattern_matches (p : CompiledPattern) (value : string) : bool :=
  match cp_regex p with
  | Some is_match => is_match value
  | None => contains_ignore_ascii_case value (cp_raw p)
  end.

(** [CompiledPattern::new]: a text between slashes is a regular expression; [compile] is
    the library's compiler. *)
Definition CompiledPattern_new (compile : string -> option (string -> bool)) (raw : string)
    : option CompiledPattern :=
  match raw with
  | String "/" rest =>
      match strip_suffix_char "/" rest with
      | Some inner => (fun regex => {| cp_raw := raw; cp_regex := Some regex |}) <$> compile inner
      | None => Some {| cp_raw := raw; cp_regex := None |}
      end
  | _ => Some {| cp_raw := raw; cp_regex := None |}
  end.

(** ** [actions/ioprio] *)

Inductive IoPrioClass := IpNone | IpRealtime | IpBestEffort | IpIdle.

#[export] Instance IoPrioClass_eq_dec : EqDecision IoPrioClass.
Proof. solve_decision. Defined.

Definition IoPrioClass_label (c : IoPrioClass) : string :=
  match c with
  | IpNone => "none" | IpRealtime => "realtime" | IpBestEffort => "best-effort" | IpIdle => "idle"
  end.

Record IoPrioValue := { ip_class : IoPrioClass; ip_level : option Z }.

#[export] Instance IoPrioValue_eq_dec : EqDecision IoPrioValue.
Proof. solve_decision. Defined.

Definition best_effort (level : Z) : IoPrioValue := {| ip_class := IpBestEffort; ip_level := Some level |}.
Definition realtime (level : Z) : IoPrioValue := {| ip_class := IpRealtime; ip_level := Some level |}.
Definition ioprio_idle : IoPrioValue := {| ip_class := IpIdle; ip_level := None |}.
Definition ioprio_none : IoPrioValue := {| ip_class := IpNone; ip_level := None |}.

Definition IoPrioValue_label (v : IoPrioValue) : string :=
  match ip_level v with
  | Some level => IoPrioClass_label (ip_class v) +:+ ":" +:+ decimal level
  | None => IoPrioClass_label (ip_class v)
  end.

Definition validate_ioprio_value (v : IoPrioValue) : bool :=
  match ip_class v, ip_level v with
  | (IpNone | IpIdle), Some _ => false
  | (IpNone | IpIdle), None => true
  | (IpBestEffort | IpRealtime), None => false
  | (IpBestEffort | IpRealtime), Some level => level <=? 7
  end.

Definition IOPRIO_CLASS_SHIFT : Z := 13.
Definition IOPRIO_PRIO_MASK : Z := Z.shiftl 1 IOPRIO_CLASS_SHIFT - 1.

Definition linux_class (c : IoPrioClass) : Z :=
  match c with IpNone => 0 | IpRealtime => 1 | IpBestEffort => 2 | IpIdle => 3 end.

Definition from_linux_class (class : Z) : option IoPrioClass :=
  if class =? 0 then Some IpNone else if class =? 1 then Some IpRealtime
  else if class =? 2 then Some IpBestEffort else if class =? 3 then Some IpIdle else None.

Definition ioprio_encode (v : IoPrioValue) : option Z :=
  if validate_ioprio_value v
  then Some (Z.lor (Z.shiftl (linux_class (ip_class v)) IOPRIO_CLASS_SHIFT) (default 0 (ip_level v)))
  else None.

Definition ioprio_decode (encoded : Z) : option IoPrioValue :=
  if encoded <? 0 then None
  else
    class ← from_linux_class (Z.shiftr encoded IOPRIO_CLASS_SHIFT);
    let data := Z.land encoded IOPRIO_PRIO_MASK mod 2 ^ 8 in
    let v := {| ip_class := class;
                ip_level := match class with IpBestEffort | IpRealtime => Some data | _ => None end |} in
    if validate_ioprio_value v then Some v else None.

(** ** [profiles/mod.rs] *)

Record ProfileRule := {
  pr_affinity : option CpuMask;
  pr_nice : option Z;
  pr_ionice : option IoPrioValue;
  pr_match_class : list TaskClass;
  pr_match_comm : list CompiledPattern }.

Record Profile := { pf_name : string; pf_rules : list ProfileRule }.

(** [apply.rs]. *)
Definition profile_uses_priority_actions (p : Profile) : bool :=
  existsb (fun rule => match pr_nice rule, pr_ionice rule with None, None => false | _, _ => true end)
    (pf_rules p).

(** ** [matching.rs] *)

Inductive CommField := TaskComm | ProcessComm.

Record CommPatternHit := {
  hit_field : CommField; hit_pattern_index : nat; hit_pattern : string; hit_value : string }.

Record RuleMatchEvidence := {
  rm_matched_class : bool;
  rm_rule_had_match_class : bool;
  rm_rule_had_match_comm : bool;
  rm_comm_hits : list CommPatternHit }.

Definition not_empty {A} (l : list A) : bool := match l with [] => false | _ => true end.

Definition pattern_hits (t : TaskInfo) (index : nat) (p : CompiledPattern) : list CommPatternHit :=
  let hit field value :=
    if pattern_matches p value
    then [{| hit_field := field; hit_pattern_index := index; hit_pattern := cp_raw p; hit_value := value |}]
    else [] in
  hit TaskComm (ti_comm t) ++ hit ProcessComm (ti_process_comm t).

Definition profile_rule_match_evidence (t : TaskInfo) (r : ProfileRule) : option RuleMatchEvidence :=
  let had_class := not_empty (pr_match_class r) in
  let had_comm := not_empty (pr_match_comm r) in
  let matched_class := had_class && bool_decide (ti_class t ∈ pr_match_class r) in
  if had_class && negb matched_class then None
  else
    let hits := mjoin (imap (pattern_hits t) (pr_match_comm r)) in
    if had_comm && negb (not_empty hits) then None
    else Some {| rm_matched_class := matched_class; rm_rule_had_match_class := had_class;
                 rm_rule_had_match_comm := had_comm; rm_comm_hits := hits |}.

Definition profile_rule_matches_task (t : TaskInfo) (r : ProfileRule) : bool :=
  match profile_rule_match_evidence t r with Some _ => true | None => false end.

Definition profile_matches_task (t : TaskInfo) (p : Profile) : bool :=
  existsb (profile_rule_matches_task t) (pf_rules p).

(** The first rule that matches, with its index. *)
Fixpoint first_matching (t : TaskInfo) (index : nat) (rules : list ProfileRule)
    : option (nat * ProfileRule * RuleMatchEvidence) :=
  match rules with
  | [] => None
  | rule :: rules =>
      match profile_rule_match_evidence t rule with
      | Some evidence => Some (index, rule, evidence)
      | None => first_matching t (S index) rules
      end
  end.

Definition matching_profile_rule_with_evidence (t : TaskInfo) (p : Profile)
    : option (nat * ProfileRule * RuleMatchEvidence) := first_matching t 0 (pf_rules p).

Definition matching_profile_rule_with_index (t : TaskInfo) (p : Profile) : option (nat * ProfileRule) :=
  fst <$> matching_profile_rule_with_evidence t p.

(** ** [evaluate.rs] *)

(** [observation.rs]. *)
Record ActiveTaskSnapshot := {
  at_tid : Z;
  at_process_pid : Z;
  at_comm : string;
  at_class : TaskClass;
  at_process_starttime_ticks : option Z;
  at_task_starttime_ticks : option Z;
  at_cgroup_path : option string }.

Record ProfileTaskPlan := {
  pt_tid : Z;
  pt_process_pid : Z;
  pt_comm : string;
  pt_class : TaskClass;
  pt_requested_mask : string;
  pt_matched_rule_index : nat }.

Definition task_info_from_active_snapshot (t : ActiveTaskSnapshot) : TaskInfo :=
  {| ti_tid := at_tid t; ti_process_pid := at_process_pid t; ti_process_ppid := 0; ti_comm := at_comm t;
     ti_process_comm := at_comm t; ti_process_starttime_ticks := at_process_starttime_ticks t;
     ti_task_starttime_ticks := at_task_starttime_ticks t; ti_exe_dev := None; ti_exe_ino := None;
     ti_class := at_class t; ti_sched_policy := None;
     ti_from_cgroup := match at_cgroup_path t with Some _ => true | None => false end |}.

Definition profile_task_plan (p : Profile) (t : ActiveTaskSnapshot) : option ProfileTaskPlan :=
  '(index, rule) ← matching_profile_rule_with_index (task_info_from_active_snapshot t) p;
  mask ← pr_affinity rule;
  Some {| pt_tid := at_tid t; pt_process_pid := at_process_pid t; pt_comm := at_comm t;
          pt_class := at_class t; pt_requested_mask := to_range_string mask;
          pt_matched_rule_index := index |}.

Definition evaluate_profile_for_tasks (p : Profile) (tasks : list ActiveTaskSnapshot) : list ProfileTaskPlan :=
  omap (profile_task_plan p) tasks.

Definition profile_matched_task_count_from_snapshots (tasks : list ActiveTaskSnapshot) (p : Profile) : nat :=
  length (filter (fun t => profile_matches_task (task_info_from_active_snapshot t) p = true) tasks).

(** ** [parse.rs] *)

Record ProfileRuleToml := {
  tr_affinity : option string;
  tr_nice : option Z;
  tr_ionice : option string;
  tr_match_class : list string;
  tr_match_comm : list string }.

Record ProfileToml := { tf_name : string; tf_rules : list ProfileRuleToml }.

(** [{:?}] of a class. *)
Definition TaskClass_debug (c : TaskClass) : string :=
  match c with
  | AudioRealtime => "AudioRealtime" | Input => "Input" | Game => "Game" | GameHelper => "GameHelper"
  | GameRenderThread => "GameRenderThread" | GameWorkerThread => "GameWorkerThread"
  | Launcher => "Launcher" | WineServer => "WineServer" | GameScope => "GameScope"
  | Compositor => "Compositor" | BrowserForeground => "BrowserForeground"
  | BrowserBackground => "BrowserBackground" | BrowserRenderer => "BrowserRenderer"
  | BrowserGpu => "BrowserGpu" | BrowserNetwork => "BrowserNetwork" | BuildJob => "BuildJob"
  | Compiler => "Compiler" | Linker => "Linker" | Indexer => "Indexer"
  | PackageManager => "PackageManager" | Editor => "Editor" | Terminal => "Terminal" | Shell => "Shell"
  | Media => "Media" | Recorder => "Recorder" | VirtualMachine => "VirtualMachine"
  | KernelThread => "KernelThread" | IrqThread => "IrqThread" | Service => "Service"
  | NetworkDaemon => "NetworkDaemon" | StorageDaemon => "StorageDaemon"
  | SteamRuntime => "SteamRuntime" | Render => "Render" | Helper => "Helper" | UnknownClass => "Unknown"
  end.

(** The names of [parse_task_class]. *)
Definition task_class_names : list (string * TaskClass) :=
  [("Game", Game); ("GameRenderThread", GameRenderThread); ("GameWorkerThread", GameWorkerThread);
   ("GameHelper", GameHelper); ("Launcher", Launcher); ("WineServer", WineServer);
   ("GameScope", GameScope); ("Compositor", Compositor); ("AudioRealtime", AudioRealtime);
   ("Input", Input); ("BrowserForeground", BrowserForeground); ("BrowserBackground", BrowserBackground);
   ("BrowserRenderer", BrowserRenderer); ("BrowserGpu", BrowserGpu); ("BrowserNetwork", BrowserNetwork);
   ("Compiler", Compiler); ("Linker", Linker); ("Indexer", Indexer); ("PackageManager", PackageManager);
   ("BuildJob", BuildJob); ("StorageDaemon", StorageDaemon); ("NetworkDaemon", NetworkDaemon);
   ("KernelThread", KernelThread); ("IrqThread", IrqThread); ("Editor", Editor); ("Terminal", Terminal);
   ("Shell", Shell); ("Media", Media); ("Recorder", Recorder); ("VirtualMachine", VirtualMachine);
   ("SteamRuntime", SteamRuntime); ("Render", Render); ("Helper", Helper); ("Service", Service);
   ("Unknown", UnknownClass)]%string.

Definition parse_task_class (value : string) : option TaskClass :=
  snd <$> List.find (fun entry => String.eqb value entry.1) task_class_names.

(** [online] is what [/sys/devices/system/cpu/online] holds, when it can be read. *)
Definition online_cpus (online : option string) : option CpuMask :=
  text ← online; CpuMask_parse (trim text).

Definition parse_affinity_value (online : option string) (value : string) : option CpuMask :=
  if String.eqb (trim value) "online" then online_cpus online else CpuMask_parse value.

Definition parse_ionice_value (value : string) : option IoPrioValue :=
  let trimmed := to_ascii_lowercase (trim value) in
  if String.eqb trimmed "idle" then Some ioprio_idle
  else if String.eqb trimmed "none" then Some ioprio_none
  else if existsb (String.eqb trimmed) ["best-effort"; "be"; "realtime"; "rt"]%string then None
  else
    '(class, level) ← split_once ":" trimmed;
    level ← parse_unsigned U8_MAX level;
    parsed ← (if String.eqb class "best-effort" || String.eqb class "be" then Some (best_effort level)
              else if String.eqb class "realtime" || String.eqb class "rt" then Some (realtime level)
              else None);
    _ ← ioprio_encode parsed;
    Some parsed.

(** [transpose]: an absent value is no error. *)
Definition transpose {A B} (f : A -> option B) (o : option A) : option (option B) :=
  match o with None => Some None | Some x => Some <$> f x end.

Definition is_none {A} (o : option A) : bool := match o with None => true | Some _ => false end.

Section parse.
Context (compile : string -> option (string -> bool)) (online : option string).

Definition try_into_rule (r : ProfileRuleToml) : option ProfileRule :=
  match_class ← mapM parse_task_class (tr_match_class r);
  match_comm ← mapM (CompiledPattern_new compile) (tr_match_comm r);
  affinity ← transpose (parse_affinity_value online) (tr_affinity r);
  ionice ← transpose parse_ionice_value (tr_ionice r);
  if is_none (tr_nice r) && is_none affinity && is_none ionice then None
  else if match tr_nice r with Some nice => negb ((-20 <=? nice) && (nice <=? 19)) | None => false end
  then None
  else Some {| pr_affinity := affinity; pr_nice := tr_nice r; pr_ionice := ionice;
               pr_match_class := match_class; pr_match_comm := match_comm |}.

Definition try_into_profile (p : ProfileToml) : option Profile :=
  rules ← mapM try_into_rule (tf_rules p);
  Some {| pf_name := tf_name p; pf_rules := rules |}.

Definition validate_rule (mask : CpuMask) (r : ProfileRule) : bool :=
  negb (is_none (pr_affinity r) && is_none (pr_nice r) && is_none (pr_ionice r))
  && match pr_affinity r with
     | Some affinity => negb (mask_is_empty affinity) && is_subset_of affinity mask
     | None => true
     end.

Definition validate_profile (p : Profile) : option Profile :=
  if String.eqb (pf_name p) "" then None
  else
    mask ← online_cpus online;
    if forallb (validate_rule mask) (pf_rules p) then Some p else None.

(** [parse_profiles], after the file was read into records. *)
Definition parse_profiles (file : list ProfileToml) : option (list Profile) :=
  mapM (fun p => try_into_profile p ≫= validate_profile) file.

End parse.

(** ** [warnings.rs] *)

Definition class_dimension_may_overlap (a b : list TaskClass) : bool :=
  negb (not_empty a) || negb (not_empty b) || existsb (fun left => bool_decide (left ∈ b)) a.

Definition comm_dimension_may_overlap (a b : list CompiledPattern) : bool :=
  negb (not_empty a) || negb (not_empty b)
  || existsb (fun left => existsb (fun right => String.eqb (cp_raw left) (cp_raw right)) b) a.

Definition rule_may_overlap (earlier later : ProfileRule) : bool :=
  class_dimension_may_overlap (pr_match_class earlier) (pr_match_class later)
  && comm_dimension_may_overlap (pr_match_comm earlier) (pr_match_comm later).

(** Pairs of the indices of an earlier and a later rule. *)
Definition profile_rule_overlap_warnings (rules : list ProfileRule) : list (nat * nat) :=
  mjoin (imap (fun i earlier =>
      omap (fun '(j, later) => if (i <? j)%nat && rule_may_overlap earlier later then Some (i, j) else None)
        (imap pair rules)) rules).

(** Rules that ask for CPUs that are not online: the rule, what it asks for, what is online. *)
Definition profile_offline_cpu_warnings (p : Profile) (online : CpuMask) : list (nat * string * string) :=
  omap (fun '(i, rule) =>
      mask ← pr_affinity rule;
      if is_subset_of mask online then None else Some (i, to_range_string mask, to_range_string online))
    (imap pair (pf_rules p)).

(** ** Theorems *)

(** The search without allocation finds what a search in lower case finds. *)
Lemma starts_with_lowercase value prefix :
  starts_with_ignore_ascii_case value prefix
  = String.prefix (to_ascii_lowercase prefix) (to_ascii_lowercase value).
Proof.
  revert value. induction prefix as [|p prefix IH]; intros [|v value]; cbn; try done.
  rewrite IH. destruct (Ascii.eqb_spec (to_ascii_lowercase_char v) (to_ascii_lowercase_char p)) as [E|E];
    destruct (ascii_dec _ _); cbn; done || congruence.
Qed.

Lemma contains_ignore_case_lowercase haystack needle :
  contains_ignore_ascii_case haystack needle = contains (to_ascii_lowercase haystack) (to_ascii_lowercase needle).
Proof.
  induction haystack as [|c haystack IH]; cbn [contains_ignore_ascii_case contains to_ascii_lowercase];
    rewrite starts_with_lowercase; [done|]. by rewrite IH.
Qed.

(** A class is configured by the name it is printed with. *)
Lemma parse_class_debug c : parse_task_class (TaskClass_debug c) = Some c.
Proof. by destruct c; vm_compute. Qed.

(** An I/O priority survives the kernel's encoding. *)
Lemma ioprio_round_trip v e :
  (forall level, ip_level v = Some level -> 0 <= level) ->
  ioprio_encode v = Some e -> ioprio_decode e = Some v.
Proof.
  intros Hl. destruct v as [class level]. unfold ioprio_encode, ioprio_decode. cbn [ip_class ip_level] in *.
  destruct class, level as [level|]; cbn [validate_ioprio_value ip_class ip_level]; try done;
    try (intros [= <-]; done); specialize (Hl level eq_refl);
    (destruct (Z.leb_spec level 7) as [H7|H7]; [|done]); intros [= <-]; cbn [default];
    assert (H : level = 0 \/ level = 1 \/ level = 2 \/ level = 3 \/ level = 4 \/ level = 5 \/ level = 6 \/ level = 7)
      by lia; by destruct_or? H; subst.
Qed.

Lemma first_matching_spec t n rules i r ev :
  first_matching t n rules = Some (i, r, ev) <->
  exists k, i = (n + k)%nat /\ rules !! k = Some r /\ profile_rule_match_evidence t r = Some ev /\
    forall j r', (j < k)%nat -> rules !! j = Some r' -> profile_rule_matches_task t r' = false.
Proof.
  revert n. induction rules as [|rule rules IH]; intros n; cbn [first_matching].
  { split; [done|]. intros (k & _ & H & _). by destruct k. }
  destruct (profile_rule_match_evidence t rule) as [e|] eqn:E.
  - split.
    + intros [= <- <- <-]. exists 0%nat. split_and!; [lia|done|done|]. intros j; lia.
    + intros ([|k] & -> & Hr & He & Hj); [by rewrite Nat.add_0_r; simplify_eq/=|].
      specialize (Hj 0%nat rule ltac:(lia) eq_refl). unfold profile_rule_matches_task in Hj. by rewrite E in Hj.
  - rewrite IH. split.
    + intros (k & -> & Hr & He & Hj). exists (S k). split_and!; [lia|done|done|].
      intros [|j] r' Hlt Hr'; [|by apply (Hj j); [lia|]]. simplify_eq/=.
      unfold profile_rule_matches_task. by rewrite E.
    + intros ([|k] & -> & Hr & He & Hj); [simplify_eq/=; congruence|]. exists k. split_and!; [lia|done|done|].
      intros j r' Hlt Hr'. by apply (Hj (S j)); [lia|].
Qed.

(** The plan of a task is the mask of the first rule that matches it. *)
Theorem planned_by_first_rule p t plan :
  profile_task_plan p t = Some plan <->
  exists k rule mask,
    pf_rules p !! k = Some rule /\ pr_affinity rule = Some mask /\
    profile_rule_matches_task (task_info_from_active_snapshot t) rule = true /\
    (forall j r', (j < k)%nat -> pf_rules p !! j = Some r' ->
       profile_rule_matches_task (task_info_from_active_snapshot t) r' = false) /\
    plan = {| pt_tid := at_tid t; pt_process_pid := at_process_pid t; pt_comm := at_comm t;
              pt_class := at_class t; pt_requested_mask := to_range_string mask; pt_matched_rule_index := k |}.
Proof.
  unfold profile_task_plan, matching_profile_rule_with_index, matching_profile_rule_with_evidence.
  set (info := task_info_from_active_snapshot t). split.
  - destruct (first_matching info 0 (pf_rules p)) as [[[i r] ev]|] eqn:E; cbn; [|done].
    intros (mask & Hm & H)%bind_Some. simplify_eq. apply first_matching_spec in E as (k & -> & Hr & He & Hj).
    exists k, r, mask. split_and!; try done. unfold profile_rule_matches_task. by rewrite He.
  - intros (k & r & mask & Hr & Hm & Hmatch & Hj & ->). unfold profile_rule_matches_task in Hmatch.
    destruct (profile_rule_match_evidence info r) as [ev|] eqn:He; [|done].
    assert (E : first_matching info 0 (pf_rules p) = Some (k, r, ev))
      by (apply first_matching_spec; exists k; by split_and!).
    rewrite E. cbn. by rewrite Hm.
Qed.

(** What [collect] gathered came from somewhere. *)
Lemma mapM_elem {A B} (f : A -> option B) l k y : mapM f l = Some k -> y ∈ k -> exists x, f x = Some y.
Proof.
  intros H%mapM_Some_1 [i Hi]%list_elem_of_lookup. destruct (Forall2_lookup_r _ _ _ _ _ H Hi) as (x & _ & Hx).
  by exists x.
Qed.

Lemma parsed_mask_ok v m : CpuMask_parse v = Some m -> mask_ok m /\ mask_is_empty m = false.
Proof.
  unfold CpuMask_parse. intros (m' & Hf & H)%bind_Some. destruct (mask_is_empty m') eqn:E; [done|]. simplify_eq.
  split; [|done]. by destruct (fold_parts _ _ _ empty_ok Hf).
Qed.

Lemma parsed_affinity_ok online v m :
  parse_affinity_value online v = Some m -> mask_ok m /\ mask_is_empty m = false.
Proof.
  unfold parse_affinity_value, online_cpus. destruct (String.eqb _ _); [|apply parsed_mask_ok].
  intros (text & _ & H)%bind_Some. by apply parsed_mask_ok in H.
Qed.

Lemma parsed_ionice_ok v p : parse_ionice_value v = Some p -> ioprio_encode p <> None.
Proof.
  unfold parse_ionice_value. repeat (destruct (String.eqb _ _); [by intros [= <-]|]).
  destruct (existsb _ _); [done|]. intros ([class level] & _ & (n & _ & H)%bind_Some)%bind_Some.
  apply bind_Some in H as (q & _ & (e & He & [= <-])%bind_Some). by rewrite He.
Qed.

Lemma transpose_some {A B} (f : A -> option B) o r : transpose f o = Some r -> forall y, r = Some y ->
  exists x, o = Some x /\ f x = Some y.
Proof.
  destruct o as [x|]; cbn; [|by intros [= <-]]. destruct (f x) as [z|] eqn:E; cbn; [|done].
  intros [= <-] y [= <-]. by exists x.
Qed.

(** A rule that was parsed and validated. *)
Lemma rule_ok compile online mask t r :
  try_into_rule compile online t = Some r -> validate_rule mask r = true ->
  (pr_affinity r <> None \/ pr_nice r <> None \/ pr_ionice r <> None) /\
  (forall nice, pr_nice r = Some nice -> -20 <= nice <= 19) /\
  (forall v, pr_ionice r = Some v -> ioprio_encode v <> None) /\
  (forall m cpu, pr_affinity r = Some m -> 0 <= cpu -> mask_contains m cpu = true -> mask_contains mask cpu = true) /\
  (forall m, pr_affinity r = Some m -> mask_ok m /\ mask_is_empty m = false).
Proof.
  unfold try_into_rule. intros (mc & _ & (mp & _ & H)%bind_Some)%bind_Some.
  apply bind_Some in H as (affinity & Ha & (ionice & Hi & H)%bind_Some).
  destruct (is_none (tr_nice t) && _ && _) eqn:En; [done|].
  destruct (match tr_nice t with Some _ => _ | None => false end) eqn:Er; [done|]. simplify_eq.
  unfold validate_rule. cbn [pr_affinity pr_nice pr_ionice]. intros [_ Hv]%andb_true_iff.
  assert (Hok : forall m, affinity = Some m -> mask_ok m /\ mask_is_empty m = false).
  { intros m ->. destruct (transpose_some _ _ _ Ha m eq_refl) as (x & _ & Hx). by eapply parsed_affinity_ok. }
  split_and!.
  - destruct affinity, (tr_nice t), ionice; cbn in En; naive_solver.
  - intros nice Hn. rewrite Hn in Er. apply negb_false_iff, andb_true_iff in Er as [H1 H2].
    apply Z.leb_le in H1, H2. lia.
  - intros v ->. destruct (transpose_some _ _ _ Hi v eq_refl) as (x & _ & Hx). by eapply parsed_ionice_ok.
  - intros m cpu -> Hc Hin. apply andb_true_iff in Hv as [_ Hsub].
    by apply (proj1 (is_subset_exact m mask (proj1 (Hok m eq_refl))) Hsub).
  - done.
Qed.

(** A profile that was parsed: every rule does something, within the ranges of the system. *)
Theorem parsed_profile_ok compile online file profiles :
  parse_profiles compile online file = Some profiles ->
  exists mask, (profiles <> [] -> online_cpus online = Some mask) /\
  forall p r, p ∈ profiles -> r ∈ pf_rules p ->
    (pr_affinity r <> None \/ pr_nice r <> None \/ pr_ionice r <> None) /\
    (forall nice, pr_nice r = Some nice -> -20 <= nice <= 19) /\
    (forall v, pr_ionice r = Some v -> ioprio_encode v <> None) /\
    (forall m cpu, pr_affinity r = Some m -> 0 <= cpu -> mask_contains m cpu = true -> mask_contains mask cpu = true) /\
    (forall m, pr_affinity r = Some m -> mask_ok m /\ mask_is_empty m = false).
Proof.
  unfold parse_profiles. intros H.
  destruct (online_cpus online) as [mask|] eqn:Eo.
  2: { exists CpuMask_empty. assert (profiles = []) as ->.
       { destruct profiles as [|p ps]; [done|]. exfalso.
         destruct (mapM_elem _ _ _ p H) as (x & (q & _ & Hv)%bind_Some); [by left|]. unfold validate_profile in Hv.
         destruct (String.eqb _ _); [done|]. by rewrite Eo in Hv. }
       split; [done|]. intros p r Hp. by apply not_elem_of_nil in Hp. }
  exists mask. split; [done|]. intros p r Hp Hr.
  destruct (mapM_elem _ _ _ p H Hp) as (x & (q & Hq & Hv)%bind_Some).
  unfold validate_profile in Hv. destruct (String.eqb _ _); [done|]. rewrite Eo in Hv. cbn in Hv.
  destruct (forallb _ _) eqn:Ef; [|done]. simplify_eq.
  assert (Hval : validate_rule mask r = true).
  { rewrite forallb_forall in Ef. apply Ef, list_elem_of_In, Hr. }
  unfold try_into_profile in Hq. apply bind_Some in Hq as (rules & Hrules & [= <-]). cbn in Hr.
  destruct (mapM_elem _ _ _ r Hrules Hr) as (y & Hy).
  by apply (rule_ok compile online mask y).
Qed.
