(* ===== verification/Classify.v ===== *)
(** * Classify: the class of a task from its names

    [process/classify.rs], the built-in classification: the first rule that applies to the
    thread's name, the process's name, the command line, the executable, the control group
    and the scheduling policy decides. *)

From Stdlib Require Import Ascii String List.
From S2P Require Import Prelude Abi Metrics Intervals PolicyModel Procfs Allowlist CpuMask Profiles.
From stdpp Require Import list strings.
Open Scope Z_scope.

(** ** Matching *)

Record AsciiFields := {
  af_comm : string;
  af_process_comm : string;
  af_cmdline : string;
  af_exe_path : string;
  af_cgroup_path : string }.

Fixpoint eq_ignore_ascii (value expected : string) : bool :=
  match value, expected with
  | EmptyString, EmptyString => true
  | String v value, String e expected =>
      Ascii.eqb (to_ascii_lowercase_char v) (to_ascii_lowercase_char e) && eq_ignore_ascii value expected
  | _, _ => false
  end.

(** The windows of the haystack, compared whatever the case; [ascii_match.rs] has the same. *)
Definition contains_ignore_ascii (haystack needle : string) : bool := contains_ignore_ascii_case haystack needle.

Definition starts_with_ignore_ascii (value prefix : string) : bool := starts_with_ignore_ascii_case value prefix.

(** Some tail of the value is the suffix. *)
Fixpoint ends_with_ignore_ascii (value suffix : string) : bool :=
  eq_ignore_ascii value suffix
  || match value with EmptyString => false | String _ rest => ends_with_ignore_ascii rest suffix end.

Definition contains_any_ignore_ascii (haystack : string) (needles : list string) : bool :=
  existsb (contains_ignore_ascii haystack) needles.

Definition eq_any_ignore_ascii (value : string) (expected : list string) : bool :=
  existsb (eq_ignore_ascii value) expected.

Definition field_contains (f : AsciiFields) (needle : string) : bool :=
  contains_ignore_ascii (af_comm f) needle || contains_ignore_ascii (af_process_comm f) needle
  || contains_ignore_ascii (af_cmdline f) needle || contains_ignore_ascii (af_exe_path f) needle
  || contains_ignore_ascii (af_cgroup_path f) needle.

Definition contains_any_field (f : AsciiFields) (needles : list string) : bool :=
  existsb (field_contains f) needles.

(** ** The predicates *)

Fixpoint ends_with_char (c : ascii) (s : string) : bool :=
  match s with
  | EmptyString => false
  | String a EmptyString => Ascii.eqb a c
  | String _ rest => ends_with_char c rest
  end.

Definition is_bracketed_kernel_comm (comm : string) : bool :=
  match comm with String "[" _ => ends_with_char "]" comm | _ => false end.

Definition is_irq_thread (comm : string) (f : AsciiFields) : bool :=
  starts_with_ignore_ascii comm "irq/" || starts_with_ignore_ascii comm "irq-"
  || field_contains f " irq/" || field_contains f " irq-".

Definition is_input_thread (comm : string) (f : AsciiFields) : bool :=
  contains_ignore_ascii comm "input" || field_contains f "libinput".

Definition audio_servers : list string := ["pipewire"; "wireplumber"; "pulseaudio"; "jackd"; "easyeffects"]%string.

Definition is_audio_realtime_comm (comm : string) : bool := eq_any_ignore_ascii comm audio_servers.

Definition is_audio_looking_process (f : AsciiFields) : bool :=
  contains_any_field f ["audio"; "alsa"; "jack"; "pipewire"; "pulseaudio"; "pulse"; "easyeffects"]%string.

Definition is_game_render_comm (comm : string) : bool :=
  contains_any_ignore_ascii comm ["render"; "rhi"; "dxvk"; "vulkan"; "gpu"]%string.

Definition is_game_exe (exe_path : string) : bool :=
  contains_ignore_ascii exe_path "steamapps/common" || contains_ignore_ascii exe_path "/games/"
  || contains_ignore_ascii exe_path "pressure-vessel".

Definition is_game_comm (comm : string) : bool :=
  contains_any_ignore_ascii comm ["steam"; "proton"; "wine"]%string.

Definition is_game_cgroup (cgroup : string) : bool :=
  contains_ignore_ascii cgroup "steam" || contains_ignore_ascii cgroup "games".

Definition is_browser_process (comm process_comm : string) (f : AsciiFields) : bool :=
  let names := ["firefox"; "chrome"; "chromium"; "brave"; "browser"]%string in
  contains_any_ignore_ascii comm names || contains_any_ignore_ascii process_comm names
  || contains_any_field f ["--type=renderer"; "--type=gpu-process"]%string.

Definition is_compiler_comm (comm : string) : bool :=
  contains_any_ignore_ascii comm ["rustc"; "gcc"; "g++"; "clang"; "cc1"; "cc1plus"]%string.
Definition is_linker_comm (comm : string) : bool :=
  eq_any_ignore_ascii comm ["ld"; "ld.lld"; "ld.gold"; "mold"; "gold"; "lld"]%string.
Definition is_indexer_comm (comm : string) : bool :=
  contains_any_ignore_ascii comm ["clangd"; "rust-analyzer"; "ccls"; "indexer"]%string.
Definition is_package_manager_comm (comm : string) : bool :=
  contains_any_ignore_ascii comm ["emerge"; "portage"; "pacman"; "apt"; "dnf"]%string.
Definition is_build_job_comm (comm : string) : bool :=
  contains_any_ignore_ascii comm ["cargo"; "make"; "ninja"; "cmake"; "meson"]%string.
Definition is_storage_daemon_comm (comm : string) : bool :=
  contains_any_ignore_ascii comm ["udisks"; "jbd2"; "btrfs"; "zfs"; "io_uring"]%string.
Definition is_network_daemon_comm (comm : string) : bool :=
  contains_any_ignore_ascii comm ["networkmanager"; "systemd-network"; "dhcpcd"; "wpa_supplicant"]%string.
Definition is_steam_runtime_comm (comm : string) : bool :=
  contains_any_ignore_ascii comm ["pressure-vessel"; "bwrap"]%string.
Definition is_launcher_comm (comm : string) : bool :=
  contains_any_ignore_ascii comm ["epicgames"; "origin"; "uplay"; "battle.net"; "lutris"]%string.

Definition is_service_looking_process (comm cgroup : string) : bool :=
  eq_ignore_ascii comm "systemd" || contains_ignore_ascii cgroup ".service"
  || contains_ignore_ascii cgroup "/system.slice/" || ends_with_ignore_ascii comm "d".

Definition is_editor_comm (comm : string) : bool :=
  contains_any_ignore_ascii comm ["code"; "vscodium"; "kate"; "nvim"; "vim"; "emacs"]%string.
Definition is_terminal_comm (comm : string) : bool :=
  contains_any_ignore_ascii comm ["alacritty"; "kitty"; "wezterm"; "foot"; "gnome-terminal"; "konsole"]%string.
Definition is_shell_comm (comm : string) : bool := eq_any_ignore_ascii comm ["bash"; "zsh"; "fish"; "sh"]%string.
Definition is_media_comm (comm : string) : bool := contains_any_ignore_ascii comm ["vlc"; "mpv"; "spotify"]%string.
Definition is_recorder_comm (comm : string) : bool :=
  contains_any_ignore_ascii comm ["obs"; "gpu-screen-recorder"; "recorder"]%string.
Definition is_vm_comm (comm : string) : bool :=
  contains_any_ignore_ascii comm ["qemu"; "virt"; "virtualbox"; "vmware"]%string.

Definition is_realtime_policy (sched_policy : option Z) : bool :=
  match sched_policy with Some p => (p =? 1) || (p =? 2) || (p =? 6) | None => false end.

(** The kind of a browser's process. *)
Definition browser_class (f : AsciiFields) : TaskClass :=
  if contains_any_field f ["gpu process"; "--type=gpu-process"]%string
     || contains_ignore_ascii (af_comm f) "gpu process" then BrowserGpu
  else if contains_any_field f ["utility process"; "--type=utility"; "network service"; "socket process"]%string
  then BrowserNetwork
  else if contains_any_field f ["web content"; "isolated web co"; "rdd process"; "--type=renderer"; "renderer"]%string
  then BrowserRenderer
  else if contains_any_field f ["--background"; "background"; "crashpad"; "updater"; "extension process"]%string
  then BrowserBackground
  else BrowserForeground.

(** ** The rules, in order *)

Definition classify_fields (f : AsciiFields) (sched_policy : option Z) : TaskClass :=
  let comm := af_comm f in
  let process_comm := af_process_comm f in
  let is_game := is_game_exe (af_exe_path f) || is_game_comm process_comm || is_game_cgroup (af_cgroup_path f) in
  if is_bracketed_kernel_comm comm then KernelThread
  else if is_input_thread comm f then Input
  else if is_irq_thread comm f then IrqThread
  else if is_audio_realtime_comm comm || is_audio_realtime_comm process_comm || contains_any_field f audio_servers
          || (is_realtime_policy sched_policy && is_audio_looking_process f) then AudioRealtime
  else if eq_ignore_ascii comm "gamescope" || eq_ignore_ascii process_comm "gamescope" then GameScope
  else if eq_ignore_ascii comm "wineserver" || eq_ignore_ascii process_comm "wineserver" then WineServer
  else if contains_any_ignore_ascii comm ["sway"; "kwin"; "mutter"; "gnome-shell"; "weston"; "hyprland"]%string
  then Compositor
  else if eq_ignore_ascii comm "steam" || eq_ignore_ascii process_comm "steam"
          || eq_ignore_ascii comm "steamwebhelper" || eq_ignore_ascii process_comm "steamwebhelper" then Service
  else if is_game && is_game_render_comm comm then GameRenderThread
  else if is_game && (contains_ignore_ascii comm "worker" || contains_ignore_ascii comm "task"
                      || contains_ignore_ascii comm "job") then GameWorkerThread
  else if is_browser_process comm process_comm f then browser_class f
  else if is_indexer_comm comm then Indexer
  else if is_compiler_comm comm then Compiler
  else if is_linker_comm comm then Linker
  else if is_package_manager_comm comm || contains_ignore_ascii (af_cmdline f) " emerge " then PackageManager
  else if is_build_job_comm comm then BuildJob
  else if is_storage_daemon_comm comm then StorageDaemon
  else if is_network_daemon_comm comm then NetworkDaemon
  else if is_game then Game
  else if is_steam_runtime_comm process_comm || contains_ignore_ascii (af_exe_path f) "pressure-vessel"
  then SteamRuntime
  else if is_launcher_comm comm || is_launcher_comm process_comm then Launcher
  else if is_service_looking_process process_comm (af_cgroup_path f) || contains_ignore_ascii process_comm "helper"
  then Service
  else if is_editor_comm comm then Editor
  else if is_terminal_comm comm then Terminal
  else if is_shell_comm comm then Shell
  else if is_media_comm comm then Media
  else if is_recorder_comm comm then Recorder
  else if is_vm_comm comm then VirtualMachine
  else if ends_with_ignore_ascii (af_exe_path f) ".exe" then GameHelper
  else UnknownClass.

Definition classify_task_with_context (comm process_comm cmdline exe_path cgroup_path : string)
    (sched_policy : option Z) : TaskClass :=
  classify_fields {| af_comm := comm; af_process_comm := process_comm; af_cmdline := cmdline;
                     af_exe_path := exe_path; af_cgroup_path := cgroup_path |} sched_policy.

Definition classify_task (comm process_comm cmdline : string) : TaskClass :=
  classify_task_with_context comm process_comm cmdline "" "" None.

Definition contains_known_non_game_exe (text : string) : bool :=
  existsb (contains text)
    ["steam.exe"; "steamwebhelper.exe"; "steamerrorreporter.exe"; "xalia.exe"; "explorer.exe"; "services.exe";
     "winedevice.exe"; "svchost.exe"; "plugplay.exe"; "rpcss.exe"; "tabtip.exe"; "rundll32.exe"; "wineboot.exe";
     "winemenubuilder.exe"; "conhost.exe"; "regsvr32.exe"; "msiexec.exe"]%string.

Definition contains_likely_game_cmdline (cmdline : string) : bool :=
  contains cmdline ".exe"
  && (contains cmdline "steamapps/common" || contains cmdline "\steamapps\common"
      || contains cmdline "/games/" || contains cmdline "\games\")
  && negb (contains_known_non_game_exe cmdline).

(** ** Theorems *)

Lemma lowercase_char_idem c : to_ascii_lowercase_char (to_ascii_lowercase_char c) = to_ascii_lowercase_char c.
Proof. by destruct c as [[] [] [] [] [] [] [] []]; vm_compute. Qed.

Lemma lowercase_idem s : to_ascii_lowercase (to_ascii_lowercase s) = to_ascii_lowercase s.
Proof. induction s as [|c s IH]; cbn; [done|]. by rewrite lowercase_char_idem, IH. Qed.

Lemma contains_lower h n : contains_ignore_ascii (to_ascii_lowercase h) n = contains_ignore_ascii h n.
Proof. unfold contains_ignore_ascii. by rewrite !contains_ignore_case_lowercase, lowercase_idem. Qed.

Lemma starts_with_lower h n : starts_with_ignore_ascii (to_ascii_lowercase h) n = starts_with_ignore_ascii h n.
Proof. unfold starts_with_ignore_ascii. by rewrite !starts_with_lowercase, lowercase_idem. Qed.

Lemma eq_ignore_lower v e : eq_ignore_ascii (to_ascii_lowercase v) e = eq_ignore_ascii v e.
Proof.
  revert e. induction v as [|c v IH]; intros [|d e]; cbn; try done. by rewrite lowercase_char_idem, IH.
Qed.

Lemma ends_with_lower v e : ends_with_ignore_ascii (to_ascii_lowercase v) e = ends_with_ignore_ascii v e.
Proof.
  induction v as [|c v IH]; [done|]. cbn [to_ascii_lowercase ends_with_ignore_ascii].
  change (String (to_ascii_lowercase_char c) (to_ascii_lowercase v)) with (to_ascii_lowercase (String c v)).
  by rewrite eq_ignore_lower, IH.
Qed.

Create Rewrite HintDb lower.
#[export] Hint Rewrite contains_lower starts_with_lower eq_ignore_lower ends_with_lower : lower.

Lemma contains_any_lower h needles :
  contains_any_ignore_ascii (to_ascii_lowercase h) needles = contains_any_ignore_ascii h needles.
Proof.
  unfold contains_any_ignore_ascii. induction needles as [|n l IH]; cbn; [done|]. by rewrite contains_lower, IH.
Qed.

Lemma eq_any_lower v expected :
  eq_any_ignore_ascii (to_ascii_lowercase v) expected = eq_any_ignore_ascii v expected.
Proof. unfold eq_any_ignore_ascii. induction expected as [|e l IH]; cbn; [done|]. by rewrite eq_ignore_lower, IH. Qed.
#[export] Hint Rewrite contains_any_lower eq_any_lower : lower.

(** The fields in lower case. *)
Definition lower_fields (f : AsciiFields) : AsciiFields :=
  {| af_comm := to_ascii_lowercase (af_comm f); af_process_comm := to_ascii_lowercase (af_process_comm f);
     af_cmdline := to_ascii_lowercase (af_cmdline f); af_exe_path := to_ascii_lowercase (af_exe_path f);
     af_cgroup_path := to_ascii_lowercase (af_cgroup_path f) |}.

Lemma field_lower f n : field_contains (lower_fields f) n = field_contains f n.
Proof. unfold field_contains, lower_fields. cbn. by autorewrite with lower. Qed.

Lemma any_field_lower f needles : contains_any_field (lower_fields f) needles = contains_any_field f needles.
Proof. unfold contains_any_field. induction needles as [|n l IH]; cbn; [done|]. by rewrite field_lower, IH. Qed.
#[export] Hint Rewrite field_lower any_field_lower : lower.

Lemma bracket_lower c b : b = "["%char \/ b = "]"%char -> Ascii.eqb (to_ascii_lowercase_char c) b = Ascii.eqb c b.
Proof. intros [-> | ->]; by destruct c as [[] [] [] [] [] [] [] []]; vm_compute. Qed.

Lemma ends_with_bracket_lower s : ends_with_char "]" (to_ascii_lowercase s) = ends_with_char "]" s.
Proof.
  induction s as [|c s IH]; [done|]. cbn [to_ascii_lowercase ends_with_char].
  destruct s as [|d s]; cbn [to_ascii_lowercase] in *; [by apply bracket_lower; right|done].
Qed.

Lemma bracketed_lower s : is_bracketed_kernel_comm (to_ascii_lowercase s) = is_bracketed_kernel_comm s.
Proof.
  destruct s as [|c s]; [done|].
  assert (H : forall t, is_bracketed_kernel_comm (String c t)
              = (Ascii.eqb c "[" && ends_with_char "]" (String c t))%bool
              /\ is_bracketed_kernel_comm (String (to_ascii_lowercase_char c) t)
              = (Ascii.eqb c "[" && ends_with_char "]" (String (to_ascii_lowercase_char c) t))%bool)
    by (intros t; by destruct c as [[] [] [] [] [] [] [] []]).
  cbn [to_ascii_lowercase]. rewrite (proj1 (H s)), (proj2 (H _)). f_equal.
  exact (ends_with_bracket_lower (String c s)).
Qed.
#[export] Hint Rewrite bracketed_lower : lower.

(** The class does not depend on the case of the names. *)
Theorem classify_ignores_case f policy : classify_fields (lower_fields f) policy = classify_fields f policy.
Proof.
  unfold classify_fields, browser_class, is_input_thread, is_irq_thread, is_audio_realtime_comm,
    is_audio_looking_process, is_game_exe, is_game_comm, is_game_cgroup, is_game_render_comm, is_browser_process,
    is_indexer_comm, is_compiler_comm, is_linker_comm, is_package_manager_comm, is_build_job_comm,
    is_storage_daemon_comm, is_network_daemon_comm, is_steam_runtime_comm, is_launcher_comm,
    is_service_looking_process, is_editor_comm, is_terminal_comm, is_shell_comm, is_media_comm, is_recorder_comm,
    is_vm_comm.
  cbv zeta. rewrite !field_lower, !any_field_lower.
  cbn [lower_fields af_comm af_process_comm af_cmdline af_exe_path af_cgroup_path].
  by rewrite ?bracketed_lower, ?eq_any_lower, ?contains_any_lower, ?eq_ignore_lower, ?contains_lower,
    ?starts_with_lower, ?ends_with_lower.
Qed.

(** No task is a [Helper] or a [Render] thread: the rules never answer these classes. *)
Theorem classify_never_helper f policy : classify_fields f policy <> Helper /\ classify_fields f policy <> Render.
Proof.
  unfold classify_fields, browser_class. cbv zeta.
  repeat match goal with |- context [if ?b then _ else _] => destruct b; try done end.
Qed.

(** Names the header of the source calls helpers are services or games. *)
Example helpers_are_not :
  classify_task "steamwebhelper" "steamwebhelper" "" = Service /\
  classify_task "svchost.exe" "svchost.exe" "" = UnknownClass /\
  classify_task_with_context "svchost.exe" "svchost.exe" "" "/opt/wine/svchost.exe" "" None = GameHelper.
Proof. by vm_compute. Qed.

(** A game known by its path is not one to a caller that passes only names. *)
Example game_needs_its_path :
  let exe := "/home/user/.steam/steamapps/common/Factorio/bin/factorio"%string in
  classify_task_with_context "factorio" "factorio" exe exe "" None = Game /\
  classify_task "factorio" "factorio" exe = UnknownClass.
Proof. by vm_compute. Qed.
