(* ===== verification/RunnableSignal.v ===== *)
(** * RunnableSignal: the whole-window runnable latency of the target

    [autotune/objective/runnable_signal.rs]: the histograms of the interval records
    of the latency-sensitive game tasks are checked and merged, and the percentiles
    and tail counts of the merged population are the primary signal of the
    runnable-latency objective.

    The theorems: on records that [Metrics] produced, the merged population is the
    exact distribution of all latencies of the window, the reported percentiles
    bound the exact order statistics and never exceed the maximum; and the records
    are accepted exactly when no latency equals 1 ms, 2 ms or 5 ms. *)

From S2P Require Import Prelude Binary64 Abi Metrics Intervals.
From stdpp Require Import list.
Open Scope Z_scope.

Definition RUNNABLE_HISTOGRAM_SOURCE : string := "target-game-scheduler-histogram-v1".

Definition is_primary_game_class (class : TaskClass) : bool :=
  match class with
  | Game | GameRenderThread | GameWorkerThread | GameHelper | WineServer => true
  | _ => false
  end.

Record WindowHistogram := {
  wh_buckets : list LatencyHistogramBucket;
  wh_samples : Z;
  wh_max_ns : Z }.

Definition checked_add_u64 (x y : Z) : option Z :=
  if x + y <? 2 ^ 64 then Some (x + y) else None.

(** [upper.is_none_or(|upper| p upper)]. *)
Definition is_none_or (o : option Z) (p : Z -> bool) : bool :=
  match o with None => true | Some x => p x end.

Definition tail_count (buckets : list LatencyHistogramBucket) (threshold : Z) : Z :=
  foldl (fun total b =>
      if is_none_or (upper_bound_ns b) (fun upper => threshold <? upper)
      then wrapping_add_u64 total (bucket_count b) else total)
    0 buckets.

(** A record of no samples is skipped. *)
Definition record_is_empty (r : IntervalRecord) : bool :=
  (ir_samples r =? 0) && (ir_over_1ms r =? 0) && (ir_over_2ms r =? 0) && (ir_over_5ms r =? 0)
  && forallb (fun b => bucket_count b =? 0) (ir_histogram r).

Definition same_bounds (incoming expected : list LatencyHistogramBucket) : bool :=
  bool_decide (length incoming = length expected)
  && forallb (fun '(i, e) => bool_decide (upper_bound_ns i = upper_bound_ns e))
       (combine incoming expected).

Definition histogram_count (h : list LatencyHistogramBucket) : option Z :=
  foldl (fun total b => total ≫= (fun t => checked_add_u64 t (bucket_count b))) (Some 0) h.

Definition tails_agree (r : IntervalRecord) : bool :=
  (tail_count (ir_histogram r) 1000000 =? ir_over_1ms r)
  && (tail_count (ir_histogram r) 2000000 =? ir_over_2ms r)
  && (tail_count (ir_histogram r) 5000000 =? ir_over_5ms r).

(** A populated bucket's lower bound is below the observed maximum. *)
Fixpoint maximum_covers (max_ns : Z) (lower_bound : option Z) (h : list LatencyHistogramBucket)
    : bool :=
  match h with
  | [] => true
  | b :: rest =>
      negb ((0 <? bucket_count b)
            && match lower_bound with Some lower => max_ns <=? lower | None => false end)
      && maximum_covers max_ns (upper_bound_ns b) rest
  end.

(** The bucket of the maximum is populated. *)
Definition maximum_observed (max_ns : Z) (h : list LatencyHistogramBucket) : bool :=
  match List.find (fun b => is_none_or (upper_bound_ns b) (fun upper => max_ns <=? upper)) h with
  | Some b => negb (bucket_count b =? 0)
  | None => false
  end.

Fixpoint add_buckets (window incoming : list LatencyHistogramBucket)
    : option (list LatencyHistogramBucket) :=
  match window, incoming with
  | b :: window', i :: incoming' =>
      count ← checked_add_u64 (bucket_count b) (bucket_count i);
      rest ← add_buckets window' incoming';
      Some ({| upper_bound_ns := upper_bound_ns b; bucket_count := count |} :: rest)
  | _, _ => Some window
  end.

(** [expr.ok_or(message)]. *)
Definition ok_or {A} (o : option A) (message : string) : A + string :=
  match o with Some a => inl a | None => inr message end.

(** [if cond { return Err(message) }]. *)
Definition guard_err {A} (cond : bool) (message : string) (k : A + string) : A + string :=
  if cond then inr message else k.

Definition and_then {A B} (x : A + string) (f : A -> B + string) : B + string :=
  match x with inl a => f a | inr e => inr e end.

(** The body of the loop of [from_records]. *)
Definition merge_record (w : WindowHistogram) (r : IntervalRecord) : WindowHistogram + string :=
  if record_is_empty r then inl w
  else
    guard_err (negb (same_bounds (ir_histogram r) (wh_buckets w)))
      "missing or incompatible runnable-latency histogram"
    (and_then (ok_or (histogram_count (ir_histogram r)) "runnable-latency histogram count overflow")
      (fun count =>
    guard_err (negb (count =? ir_samples r))
      "inconsistent runnable-latency histogram population"
    (guard_err (negb (tails_agree r))
      "runnable-latency histogram disagrees with tail counters"
    (guard_err (negb (maximum_covers (ir_max_ns r) None (ir_histogram r)))
      "runnable-latency histogram disagrees with maximum"
    (guard_err (negb (maximum_observed (ir_max_ns r) (ir_histogram r)))
      "runnable-latency maximum has no histogram observation"
    (and_then (ok_or (checked_add_u64 (wh_samples w) count) "runnable-latency window count overflow")
      (fun samples =>
    and_then (ok_or (add_buckets (wh_buckets w) (ir_histogram r))
                "runnable-latency bucket count overflow")
      (fun buckets =>
    inl {| wh_buckets := buckets; wh_samples := samples;
           wh_max_ns := Z.max (wh_max_ns w) (ir_max_ns r) |})))))))).

Definition window_new : WindowHistogram :=
  {| wh_buckets := histogram_snapshot histogram_new; wh_samples := 0; wh_max_ns := 0 |}.

Definition merge_records (w : WindowHistogram) (records : list IntervalRecord)
    : WindowHistogram + string :=
  foldl (fun acc r => and_then acc (fun w => merge_record w r)) (inl w) records.

Definition from_records (records : list IntervalRecord) : WindowHistogram + string :=
  and_then
    (merge_records window_new (filter (fun r => is_primary_game_class (ir_class r)) records))
    (fun w =>
  guard_err (wh_samples w =? 0)
    "direct runnable-latency signal unavailable: no game scheduler samples" (inl w)).

Fixpoint window_scan (max_ns rank cumulative : Z) (buckets : list LatencyHistogramBucket) : Z :=
  match buckets with
  | [] => max_ns
  | b :: rest =>
      let cumulative := wrapping_add_u64 cumulative (bucket_count b) in
      if rank <=? cumulative then Z.min (default max_ns (upper_bound_ns b)) max_ns
      else window_scan max_ns rank cumulative rest
  end.

(** [(samples * per_thousand).div_ceil(1_000) as u64]. *)
Definition window_rank (samples per_thousand : Z) : Z :=
  as_u64 ((samples * per_thousand + 999) / 1000).

Definition percentile (w : WindowHistogram) (per_thousand : Z) : Z :=
  window_scan (wh_max_ns w) (window_rank (wh_samples w) per_thousand) 0 (wh_buckets w).

(** ** The histogram of a list of latencies *)

Section Histogram.

Implicit Types (l L : list Z).

Definition bucket_at l (i : nat) : LatencyHistogramBucket :=
  {| upper_bound_ns := LATENCY_HISTOGRAM_BUCKETS_NS !! i;
     bucket_count := count_of (fun x => bucket_idx x = i) l |}.

Definition buckets_of l : list LatencyHistogramBucket := bucket_at l <$> seq 0 16.

Definition in_range (k : nat) (q : nat -> bool) (x : Z) : Prop :=
  (bucket_idx x < k)%nat /\ q (bucket_idx x) = true.

#[local] Instance in_range_dec k q x : Decision (in_range k q x).
Proof. unfold in_range. apply _. Defined.

Lemma in_range_S k q l :
  count_of (in_range (S k) q) l
    = count_of (in_range k q) l
      + (if q k then count_of (fun x => bucket_idx x = k) l else 0).
Proof.
  unfold count_of. induction l as [|x l IH]; [by destruct (q k)|].
  rewrite !filter_cons. destruct (decide (in_range (S k) q x)) as [H1|H1],
    (decide (in_range k q x)) as [H2|H2], (decide (bucket_idx x = k)) as [E|E], (q k) eqn:Eq;
    unfold in_range in H1, H2; cbn [length]; try lia; exfalso;
    first [lia | destruct H1; congruence | destruct H2; lia
          | apply H1; split; [lia|congruence] | apply H1; split; [lia|tauto]
          | apply H2; split; [lia|tauto] ].
Qed.

Lemma in_range_16 q l : count_of (in_range 16 q) l = count_of (fun x => q (bucket_idx x) = true) l.
Proof.
  apply count_of_ext. intros x _. unfold in_range. pose proof (bucket_idx_lt x). tauto.
Qed.

(** Summing the buckets that satisfy [q]. *)
Lemma tail_fold (q : option Z -> bool) l (k : nat) :
  Z.of_nat (length l) < 2 ^ 64 ->
  foldl (fun total b => if q (upper_bound_ns b) then wrapping_add_u64 total (bucket_count b) else total)
    0 (bucket_at l <$> seq 0 k)
  = count_of (in_range k (fun i => q (LATENCY_HISTOGRAM_BUCKETS_NS !! i))) l.
Proof.
  intros Hl. induction k as [|k IH].
  { symmetry. apply count_of_none, Forall_forall. intros x _ [? _]. lia. }
  rewrite seq_S, fmap_app, foldl_app, IH, in_range_S. cbn [foldl fmap list_fmap bucket_at Nat.add].
  change (upper_bound_ns (bucket_at l k)) with (LATENCY_HISTOGRAM_BUCKETS_NS !! k).
  destruct (q (LATENCY_HISTOGRAM_BUCKETS_NS !! k)) eqn:E; [|lia].
  unfold wrapping_add_u64. apply as_u64_id.
  pose proof (in_range_S k (fun i => q (LATENCY_HISTOGRAM_BUCKETS_NS !! i)) l) as H. cbn beta in H.
  rewrite E in H. rewrite <- H.
  pose proof (count_of_bounds (in_range (S k) (fun i => q (LATENCY_HISTOGRAM_BUCKETS_NS !! i))) l).
  unfold in_u64. lia.
Qed.

Lemma tail_count_spec l t (j : nat) :
  LATENCY_HISTOGRAM_BUCKETS_NS !! j = Some t -> Z.of_nat (length l) < 2 ^ 64 ->
  tail_count (buckets_of l) t = count_of (fun x => t < x) l.
Proof.
  intros Hj Hl. unfold tail_count, buckets_of.
  rewrite (tail_fold (fun o => is_none_or o (fun upper => t <? upper)) l 16 Hl), in_range_16.
  apply count_of_ext. intros x _. pose proof (bucket_idx_le x j t Hj) as Hle.
  destruct (LATENCY_HISTOGRAM_BUCKETS_NS !! bucket_idx x) as [u|] eqn:Hu; cbn.
  - rewrite Z.ltb_lt. pose proof (bucket_idx_le x _ u Hu).
    destruct (Nat.le_gt_cases (bucket_idx x) j) as [Hc|Hc].
    + pose proof (bucket_bound_mono _ _ _ _ Hu Hj Hc). lia.
    + pose proof (bucket_bound_mono j (bucket_idx x) t u Hj Hu ltac:(lia)).
      assert (t <> u).
      { intros ->. assert (bucket_idx x = j); [|lia].
        assert (Hnd : NoDup LATENCY_HISTOGRAM_BUCKETS_NS) by (by apply (bool_decide_unpack _)).
        eapply NoDup_lookup; eauto. }
      lia.
  - apply lookup_ge_None in Hu. apply lookup_lt_Some in Hj.
    change (length LATENCY_HISTOGRAM_BUCKETS_NS) with 15%nat in Hu, Hj. split; [intros _|done]. destruct (Z.le_gt_cases x t); [|done]. exfalso.
    assert (bucket_idx x <= j)%nat by (by apply Hle). lia.
Qed.

Lemma histogram_count_spec l (k : nat) :
  Z.of_nat (length l) < 2 ^ 64 ->
  histogram_count (bucket_at l <$> seq 0 k) = Some (below_bucket k l).
Proof.
  intros Hl. unfold histogram_count. induction k as [|k IH].
  { cbn. f_equal. symmetry. apply count_of_none, Forall_forall. intros x _. lia. }
  rewrite seq_S, fmap_app, foldl_app, IH. cbn [foldl fmap list_fmap mbind option_bind Nat.add bucket_at bucket_count].
  unfold checked_add_u64. rewrite <- below_bucket_S.
  pose proof (count_of_bounds (fun x => (bucket_idx x < S k)%nat) l) as Hb. fold (below_bucket (S k) l) in Hb.
  by destruct (Z.ltb_spec (below_bucket (S k) l) (2 ^ 64)); [|lia].
Qed.

Lemma below_bucket_16 l : below_bucket 16 l = Z.of_nat (length l).
Proof. apply count_of_all, Forall_forall. intros x _. apply bucket_idx_lt. Qed.

Lemma same_bounds_spec l L : same_bounds (buckets_of l) (buckets_of L) = true.
Proof. by apply (bool_decide_unpack _). Qed.

Lemma count_pos_exists (P : Z -> Prop) `{!forall x, Decision (P x)} l :
  0 < count_of P l -> exists x, x ∈ l /\ P x.
Proof.
  unfold count_of. intros Hc. destruct (filter P l) as [|x k] eqn:E; [cbn in Hc; lia|].
  exists x. assert (Hin : x ∈ filter P l) by (rewrite E; set_solver).
  apply list_elem_of_filter in Hin. tauto.
Qed.

Lemma count_pos (P : Z -> Prop) `{!forall x, Decision (P x)} l x :
  x ∈ l -> P x -> 0 < count_of P l.
Proof.
  intros Hin Hp. unfold count_of.
  assert (x ∈ filter P l) by (by apply list_elem_of_filter).
  destruct (filter P l); [set_solver|cbn; lia].
Qed.

Lemma maximum_covers_spec l m (n k : nat) :
  Forall (fun x => x <= m) l -> (k + n = 16)%nat ->
  maximum_covers m (match k with O => None | S i => LATENCY_HISTOGRAM_BUCKETS_NS !! i end)
    (bucket_at l <$> seq k n) = true.
Proof.
  intros Hm. revert k. induction n as [|n IH]; intros k Hk; [done|].
  cbn [seq fmap list_fmap maximum_covers]. apply andb_true_intro. split; [|apply (IH (S k)); lia].
  apply negb_true_iff, andb_false_iff. cbn [bucket_at bucket_count].
  destruct k as [|i]; [by right|]. destruct (LATENCY_HISTOGRAM_BUCKETS_NS !! i) as [b|] eqn:Hb; [|by right].
  destruct (Z.ltb_spec 0 (count_of (fun x => bucket_idx x = S i) l)) as [Hc|]; [|by left].
  right. apply Z.leb_gt. apply count_pos_exists in Hc as (x & Hin & Hx).
  rewrite Forall_forall in Hm. specialize (Hm x Hin).
  pose proof (bucket_idx_le x i b Hb). lia.
Qed.

Lemma find_bucket l m (n k : nat) :
  (k + n = 16)%nat -> (k <= bucket_idx m)%nat ->
  List.find (fun b => is_none_or (upper_bound_ns b) (fun upper => m <=? upper))
    (bucket_at l <$> seq k n) = Some (bucket_at l (bucket_idx m)).
Proof.
  revert k. induction n as [|n IH]; intros k Hk Hle; [pose proof (bucket_idx_lt m); lia|].
  cbn [seq fmap list_fmap List.find bucket_at upper_bound_ns].
  destruct (LATENCY_HISTOGRAM_BUCKETS_NS !! k) as [u|] eqn:Hu; cbn [is_none_or].
  - pose proof (bucket_idx_le m k u Hu) as Hb. destruct (Z.leb_spec m u) as [Hc|Hc].
    + assert (bucket_idx m = k) as E by (apply Nat.le_antisymm; [by apply Hb|done]). rewrite E.
      unfold bucket_at. by rewrite Hu.
    + apply IH; [lia|]. destruct (decide (bucket_idx m = k)) as [E|]; [|lia].
      assert (m <= u) by (apply Hb; lia). lia.
  - apply lookup_ge_None in Hu. change (length LATENCY_HISTOGRAM_BUCKETS_NS) with 15%nat in Hu.
    pose proof (bucket_idx_lt m).
    assert (bucket_idx m = k) as -> by lia. unfold bucket_at. rewrite lookup_ge_None_2; [done|cbn; lia].
Qed.

Lemma maximum_observed_spec l m : m ∈ l -> maximum_observed m (buckets_of l) = true.
Proof.
  intros Hin. unfold maximum_observed, buckets_of.
  rewrite (find_bucket l m 16 0 eq_refl ltac:(lia)). cbn [bucket_at bucket_count].
  pose proof (count_pos (fun x => bucket_idx x = bucket_idx m) l m Hin eq_refl).
  apply negb_true_iff, Z.eqb_neq. lia.
Qed.

Lemma add_buckets_spec L l (n k : nat) :
  Z.of_nat (length (L ++ l)) < 2 ^ 64 ->
  add_buckets (bucket_at L <$> seq k n) (bucket_at l <$> seq k n)
    = Some (bucket_at (L ++ l) <$> seq k n).
Proof.
  intros Hl. revert k. induction n as [|n IH]; intros k; [done|].
  cbn [seq fmap list_fmap add_buckets bucket_at bucket_count upper_bound_ns].
  unfold checked_add_u64. rewrite <- count_of_app.
  pose proof (count_of_bounds (fun x => bucket_idx x = k) (L ++ l)).
  destruct (Z.ltb_spec (count_of (fun x => bucket_idx x = k) (L ++ l)) (2 ^ 64)); [|lia].
  cbn [mbind option_bind]. rewrite IH. done.
Qed.

End Histogram.

(** ** Windows *)

Section Window.

Implicit Types (l L : list Z) (w : WindowHistogram) (r : IntervalRecord).

(** A latency on which the tail counters ([>=]) and the histogram ([>]) differ. *)
Definition on_threshold (x : Z) : Prop := x = 1000000 \/ x = 2000000 \/ x = 5000000.

#[export] Instance on_threshold_dec x : Decision (on_threshold x).
Proof. unfold on_threshold. apply _. Defined.

(** [w] is the exact distribution of the latencies [L]. *)
Record window_of w L : Prop := {
  wo_buckets : wh_buckets w = buckets_of L;
  wo_samples : wh_samples w = Z.of_nat (length L);
  wo_max : (L = [] /\ wh_max_ns w = 0)
    \/ (wh_max_ns w ∈ L /\ Forall (fun x => x <= wh_max_ns w) L) }.

(** [r] is the record of an interval with latencies [l]. *)
Definition described r l : Prop := record_describes r l /\ l <> [] /\ Forall in_u64 l.

Lemma window_of_new : window_of window_new [].
Proof. constructor; [done|done|by left]. Qed.

Lemma count_le_lt t l :
  count_of (fun x => t <= x) l = count_of (fun x => t < x) l + count_of (fun x => x = t) l.
Proof.
  unfold count_of. induction l as [|x l IH]; [done|].
  rewrite !filter_cons. repeat case_decide; cbn [length]; lia.
Qed.

Lemma record_histogram r l : record_describes r l -> ir_histogram r = buckets_of l.
Proof. apply rd_histogram. Qed.

Lemma count_eq_zero t l : (count_of (fun x => t < x) l =? count_of (fun x => t <= x) l)
  = bool_decide (t ∉ l).
Proof.
  rewrite count_le_lt. pose proof (count_of_bounds (fun x => x = t) l). case_bool_decide as Hn.
  - rewrite (count_of_none (fun x => x = t)); [apply Z.eqb_eq; lia|].
    apply Forall_forall. by intros x Hx ->.
  - pose proof (count_pos (fun x => x = t) l t Hn eq_refl).
    apply Z.eqb_neq. lia.
Qed.

Lemma tails_agree_spec r l :
  record_describes r l -> Z.of_nat (length l) < 2 ^ 64 ->
  tails_agree r = true <-> Forall (fun x => ~ on_threshold x) l.
Proof.
  intros Hd Hl. unfold tails_agree.
  rewrite (record_histogram _ _ Hd), (rd_over_1ms _ _ Hd), (rd_over_2ms _ _ Hd), (rd_over_5ms _ _ Hd).
  rewrite (tail_count_spec l 1000000 9 eq_refl Hl), (tail_count_spec l 2000000 10 eq_refl Hl),
    (tail_count_spec l 5000000 11 eq_refl Hl), !count_eq_zero, !andb_true_iff, !bool_decide_eq_true.
  rewrite Forall_forall. unfold on_threshold. naive_solver.
Qed.

Lemma described_not_empty r l : described r l -> record_is_empty r = false.
Proof.
  intros (Hd & Hne & _). unfold record_is_empty. rewrite (rd_samples _ _ Hd).
  by destruct l.
Qed.

(** The checks before the tails pass on every record the metrics produced. *)
Lemma merge_record_unfold w L r l :
  window_of w L -> described r l -> Z.of_nat (length (L ++ l)) < 2 ^ 64 ->
  merge_record w r
    = guard_err (negb (tails_agree r)) "runnable-latency histogram disagrees with tail counters"
        (inl {| wh_buckets := buckets_of (L ++ l); wh_samples := Z.of_nat (length (L ++ l));
                wh_max_ns := Z.max (wh_max_ns w) (ir_max_ns r) |}).
Proof.
  intros Hw Hr Hlen. pose proof (described_not_empty _ _ Hr) as He. destruct Hr as (Hd & Hne & Hu).
  assert (Hll : Z.of_nat (length l) < 2 ^ 64) by (rewrite length_app in Hlen; lia).
  destruct (rd_max _ _ Hd) as [Hmin Hmall].
  unfold merge_record. rewrite He, (wo_buckets _ _ Hw), (record_histogram _ _ Hd), same_bounds_spec.
  assert (Hc : histogram_count (buckets_of l) = Some (Z.of_nat (length l)))
    by (unfold buckets_of; by rewrite histogram_count_spec, below_bucket_16).
  rewrite Hc. cbn [ok_or and_then]. rewrite (rd_samples _ _ Hd), Z.eqb_refl, (wo_samples _ _ Hw).
  rewrite (maximum_covers_spec l (ir_max_ns r) 16 0 Hmall eq_refl : maximum_covers _ _ (buckets_of l) = true).
  rewrite (maximum_observed_spec l _ Hmin). cbn [negb guard_err and_then ok_or].
  unfold checked_add_u64. rewrite length_app, Nat2Z.inj_add in Hlen.
  destruct (Z.ltb_spec (Z.of_nat (length L) + Z.of_nat (length l)) (2 ^ 64)); [|lia].
  unfold buckets_of. rewrite (add_buckets_spec L l 16 0) by (rewrite length_app; lia).
  cbn [ok_or and_then]. by rewrite length_app, Nat2Z.inj_add.
Qed.

Lemma window_max_app w L r l :
  window_of w L -> described r l ->
  Z.max (wh_max_ns w) (ir_max_ns r) ∈ L ++ l
  /\ Forall (fun x => x <= Z.max (wh_max_ns w) (ir_max_ns r)) (L ++ l).
Proof.
  intros Hw (Hd & Hne & Hu). destruct (rd_max _ _ Hd) as [Hin Hall].
  assert (H0 : 0 <= ir_max_ns r) by (rewrite Forall_forall in Hu; apply (Hu _ Hin)).
  destruct (wo_max _ _ Hw) as [[-> ->]|[HinL HallL]].
  - rewrite Z.max_r by done. done.
  - split.
    + apply elem_of_app. destruct (Z.max_spec (wh_max_ns w) (ir_max_ns r)) as [[_ ->]|[_ ->]]; auto.
    + apply Forall_app. split; (eapply Forall_impl; [eassumption|]); cbn; lia.
Qed.

Lemma merge_records_spec records lats w L :
  Forall2 described records lats -> window_of w L ->
  Z.of_nat (length (L ++ concat lats)) < 2 ^ 64 ->
  (Forall (fun x => ~ on_threshold x) (concat lats) ->
    exists w', merge_records w records = inl w' /\ window_of w' (L ++ concat lats))
  /\ (Exists on_threshold (concat lats) ->
    merge_records w records = inr "runnable-latency histogram disagrees with tail counters").
Proof.
  intros H. revert w L. induction H as [|r l records lats Hr Hrs IH]; intros w L Hw Hlen.
  { split; [|by intros ?%Exists_nil]. intros _. exists w. cbn. by rewrite app_nil_r. }
  cbn [concat] in *. rewrite app_assoc in Hlen.
  assert (Hlen1 : Z.of_nat (length (L ++ l)) < 2 ^ 64) by (rewrite (length_app (L ++ l)) in Hlen; lia).
  assert (Hll : Z.of_nat (length l) < 2 ^ 64) by (rewrite length_app in Hlen1; lia).
  unfold merge_records. cbn [foldl and_then].
  rewrite (merge_record_unfold _ _ _ _ Hw Hr Hlen1).
  pose proof (tails_agree_spec r l (proj1 Hr) Hll) as Ht.
  assert (Herr : forall e, foldl (fun acc r => and_then acc (fun w => merge_record w r))
    (inr e) records = inr e) by (intros e; clear; induction records; done).
  destruct (tails_agree r) eqn:Et; cbn [negb guard_err].
  - pose proof (proj1 Ht eq_refl) as Hok.
    set (w' := {| wh_buckets := _; wh_samples := _; wh_max_ns := _ |}).
    destruct (IH w' (L ++ l)) as [Hacc Hrej]; [|exact Hlen|].
    { constructor; [done|done|right; by apply window_max_app]. }
    rewrite app_assoc. split.
    + intros [_ Hc]%Forall_app. by apply Hacc.
    + intros Hex. apply Hrej. apply Exists_app in Hex as [Hex|]; [|done].
      apply Exists_exists in Hex as (x & Hin & Hx). rewrite Forall_forall in Hok.
      by destruct (Hok x Hin).
  - split.
    + intros [Hc _]%Forall_app. by apply Ht in Hc.
    + intros _. apply Herr.
Qed.

(** The records of the latency-sensitive tasks, with their latencies. *)
Definition primary_records (records : list IntervalRecord) : list IntervalRecord :=
  filter (fun r => is_primary_game_class (ir_class r)) records.

Definition window_latencies (records : list IntervalRecord) (lats : list (list Z)) : Prop :=
  Forall2 described (primary_records records) lats
  /\ Z.of_nat (length (concat lats)) < 2 ^ 64.

Lemma window_latencies_range records lats :
  window_latencies records lats -> Forall in_u64 (concat lats).
Proof.
  intros [H _]. induction H as [|r l rs ls (_ & _ & Hu) _ IH]; cbn; [done|].
  by apply Forall_app.
Qed.

Lemma from_records_spec records lats :
  window_latencies records lats ->
  match from_records records with
  | inl w => window_of w (concat lats) /\ concat lats <> []
      /\ Forall (fun x => ~ on_threshold x) (concat lats)
  | inr _ => concat lats = [] \/ Exists on_threshold (concat lats)
  end.
Proof.
  intros [Hf Hlen]. unfold from_records.
  destruct (merge_records_spec _ _ window_new [] Hf window_of_new Hlen) as [Hacc Hrej].
  fold (primary_records records). destruct (decide (Exists on_threshold (concat lats))) as [He|He].
  - rewrite (Hrej He). by right.
  - assert (Hok : Forall (fun x => ~ on_threshold x) (concat lats)).
    { apply Forall_forall. intros x Hx Ht. apply He, Exists_exists. eauto. }
    destruct (Hacc Hok) as (w & -> & Hw). cbn [and_then]. cbn [app] in Hw.
    destruct (Z.eqb_spec (wh_samples w) 0) as [E|E]; rewrite (wo_samples _ _ Hw) in E; cbn [guard_err].
    + left. destruct (concat lats); [done|cbn in E; lia].
    + split; [done|]. split; [|done]. by intros Hn; rewrite Hn in E.
Qed.

(** *** Percentiles of a window *)

(** [v] is a percentile of the window at [rank]: it is at least the exact order
    statistic, at most the maximum, and not beyond the bucket the order
    statistic is in. *)
Definition window_percentile L (rank v : Z) : Prop :=
  dominates L rank v
  /\ (exists x, x ∈ L /\ v <= x)
  /\ exists j, (j < 16)%nat /\ count_of (fun x => x <= bucket_floor j) L < rank
       /\ default v (LATENCY_HISTOGRAM_BUCKETS_NS !! j) >= v.

Lemma window_scan_spec L m rank (n k : nat) :
  Z.of_nat (length L) < 2 ^ 64 -> Forall in_u64 L -> m ∈ L -> Forall (fun x => x <= m) L ->
  rank <= Z.of_nat (length L) -> (k + n = 16)%nat -> below_bucket k L < rank ->
  window_percentile L rank (window_scan m rank (below_bucket k L) (bucket_at L <$> seq k n)).
Proof.
  intros Hlen Hu Hin Hall Hrank. revert k.
  induction n as [|n IH]; intros k Hk Hr; cbn [seq fmap list_fmap window_scan].
  { replace k with 16%nat in Hr by lia. rewrite below_bucket_16 in Hr. lia. }
  assert (Hw : wrapping_add_u64 (below_bucket k L) (bucket_count (bucket_at L k)) = below_bucket (S k) L).
  { unfold wrapping_add_u64. cbn [bucket_at bucket_count]. rewrite <- below_bucket_S. apply as_u64_id.
    pose proof (count_of_bounds (fun x => (bucket_idx x < S k)%nat) L). unfold below_bucket, in_u64. lia. }
  rewrite Hw. destruct (Z.leb_spec rank (below_bucket (S k) L)) as [Hle|Hgt]; [|apply IH; lia].
  change (upper_bound_ns (bucket_at L k)) with (LATENCY_HISTOGRAM_BUCKETS_NS !! k).
  rewrite (below_bucket_floor k L ltac:(lia) Hu) in Hr. split; [|split].
  - unfold dominates. destruct (LATENCY_HISTOGRAM_BUCKETS_NS !! k) as [b|] eqn:Hb; cbn [from_option id].
    + rewrite (below_bucket_bound k b L Hb) in Hle. destruct (Z.min_spec b m) as [[_ ->]|[_ ->]]; [done|].
      by rewrite (count_of_all _ _ Hall).
    + rewrite Z.min_id, (count_of_all _ _ Hall). done.
  - exists m. split; [done|lia].
  - exists k. split; [lia|]. split; [done|].
    destruct (LATENCY_HISTOGRAM_BUCKETS_NS !! k) as [b|] eqn:Hb; cbn [from_option id]; lia.
Qed.

Lemma percentile_spec w L pt :
  window_of w L -> L <> [] -> Forall in_u64 L -> Z.of_nat (length L) < 2 ^ 64 -> 0 < pt <= 1000 ->
  window_percentile L ((Z.of_nat (length L) * pt + 999) / 1000) (percentile w pt).
Proof.
  intros Hw Hne Hu Hlen Hpt. unfold percentile.
  destruct (wo_max _ _ Hw) as [[-> _]|[Hin Hall]]; [done|].
  assert (Hn : 1 <= Z.of_nat (length L)) by (destruct L; [done|cbn; lia]).
  assert (Hr : 1 <= (Z.of_nat (length L) * pt + 999) / 1000 <= Z.of_nat (length L)).
  { split; [apply Z.div_le_lower_bound; nia|].
    assert ((Z.of_nat (length L) * pt + 999) / 1000 < Z.of_nat (length L) + 1); [|lia].
    apply Z.div_lt_upper_bound; nia. }
  unfold window_rank. rewrite (wo_samples _ _ Hw), as_u64_id by (unfold in_u64; lia).
  rewrite (wo_buckets _ _ Hw). unfold buckets_of.
  assert (H0 : below_bucket 0 L = 0) by (apply count_of_none, Forall_forall; intros x _; lia).
  rewrite <- H0. apply window_scan_spec; try done; lia.
Qed.

(** The exact order statistic is at most a value that dominates the rank. *)
Lemma order_statistic_le L rank q v : order_statistic L rank q -> dominates L rank v -> q <= v.
Proof.
  intros [_ [Hlt _]] Hd. destruct (Z.le_gt_cases q v) as [|Hv]; [done|exfalso].
  unfold dominates in Hd. assert (count_of (fun x => x <= v) L <= count_of (fun x => x < q) L); [|lia].
  apply count_of_mono. intros x _. lia.
Qed.

Lemma order_statistic_above L rank q f :
  order_statistic L rank q -> count_of (fun x => x <= f) L < rank -> f < q.
Proof.
  intros [_ [_ Hle]] Hf. destruct (Z.lt_ge_cases f q) as [|Hq]; [done|exfalso].
  assert (count_of (fun x => x <= q) L <= count_of (fun x => x <= f) L); [|lia].
  apply count_of_mono. intros x _. lia.
Qed.

Lemma bucket_floor_idx j x : (j < 16)%nat -> bucket_floor j < x -> (j <= bucket_idx x)%nat.
Proof.
  intros Hj Hx. destruct j as [|i]; [lia|]. cbn [bucket_floor] in Hx.
  destruct (lookup_lt_is_Some_2 LATENCY_HISTOGRAM_BUCKETS_NS i ltac:(cbn; lia)) as [b Hb].
  rewrite Hb in Hx. cbn in Hx. pose proof (bucket_idx_le x i b Hb) as Hi.
  destruct (Nat.le_gt_cases (bucket_idx x) i) as [Hc|]; [|lia]. apply Hi in Hc. lia.
Qed.

Lemma bucket_end_idx j x v :
  (j < 16)%nat -> x <= v -> default v (LATENCY_HISTOGRAM_BUCKETS_NS !! j) >= v ->
  (bucket_idx x <= j)%nat.
Proof.
  intros Hj Hx Hv. destruct (LATENCY_HISTOGRAM_BUCKETS_NS !! j) as [b|] eqn:Hb; cbn in Hv.
  - apply (bucket_idx_le x j b Hb). lia.
  - apply lookup_ge_None in Hb. change (length LATENCY_HISTOGRAM_BUCKETS_NS) with 15%nat in Hb.
    pose proof (bucket_idx_lt x). lia.
Qed.

Lemma bucket_idx_mono x y : x <= y -> (bucket_idx x <= bucket_idx y)%nat.
Proof.
  intros Hxy. apply (bucket_end_idx (bucket_idx y) x y); [apply bucket_idx_lt|done|].
  destruct (LATENCY_HISTOGRAM_BUCKETS_NS !! bucket_idx y) as [b|] eqn:Hb; cbn; [|lia].
  pose proof (proj1 (bucket_idx_le y _ b Hb) (le_n _)). lia.
Qed.

(** A lower reported percentile is a lower exact one, up to the bucket width. *)
Lemma lower_percentile Lb Lc rb rc vb vc qb qc :
  window_percentile Lb rb vb -> window_percentile Lc rc vc -> vc < vb ->
  order_statistic Lb rb qb -> order_statistic Lc rc qc ->
  qc < qb \/ bucket_idx qc = bucket_idx qb.
Proof.
  intros (Hdb & _ & j & Hj & Hfl & Hend) (Hdc & _) Hlt Hqb Hqc.
  pose proof (order_statistic_le _ _ _ _ Hqb Hdb) as Hb.
  pose proof (order_statistic_le _ _ _ _ Hqc Hdc) as Hc.
  pose proof (order_statistic_above _ _ _ _ Hqb Hfl) as Ha.
  destruct (Z.lt_ge_cases qc qb) as [|Hge]; [by left|right].
  pose proof (bucket_idx_mono _ _ Hge). pose proof (bucket_floor_idx j qb Hj Ha).
  pose proof (bucket_end_idx j qc vb Hj ltac:(lia) Hend). lia.
Qed.

End Window.

