(* ===== verification/Score.v ===== *)
(** * Score: stutter scores and the comparison of two windows

    [scorer.rs], the scores of [autotune/experiment.rs] and
    [autotune/comparison.rs]: interval records and frame times give a
    [StutterScore]; two windows are compared per scored sample under a threshold
    configuration.  Reasons are texts for people and are left out: [Inconclusive]
    and [Invalid] carry nothing, and a validation is a boolean. *)

From S2P Require Import Prelude Binary64 Abi Metrics Intervals.
From stdpp Require Import sorting list.
Open Scope Z_scope.

(** ** [scorer.rs] *)

Record StutterScore := {
  total : Z;
  over_1ms : Z;
  over_2ms : Z;
  over_5ms : Z;
  max_latency_ns : Z;
  frame_max_ms : f64;
  frame_p99_ms : f64;
  frame_over_16ms : Z;
  frame_over_33ms : Z;
  frame_over_50ms : Z }.

Definition StutterScore_default : StutterScore :=
  {| total := 0; over_1ms := 0; over_2ms := 0; over_5ms := 0; max_latency_ns := 0;
     frame_max_ms := f64_zero; frame_p99_ms := f64_zero; frame_over_16ms := 0;
     frame_over_33ms := 0; frame_over_50ms := 0 |}.

(** [autotune/situation.rs]. *)
Inductive SituationKind :=
| SkUnknown | SkIdle | GameFocused | GameCpuSchedulerPressure | GameGpuBound | CompositorPressure
| CpuPressure | IoPressure | IrqPressure | ThermalOrPowerLimit | CompileLoad | BrowserFocused
| BrowserCpuPressure | BrowserGpuVideo | BrowserIoPressure | CompileCpuBound
| CompileLinkerPressure | MediaPlayback | SkRecording | VirtualMachineLoad.

#[export] Instance SituationKind_eq_dec : EqDecision SituationKind.
Proof. solve_decision. Defined.

Definition class_contributes_to_score (class : TaskClass) : bool :=
  match class with
  | Game | GameHelper | WineServer | GameScope | GameRenderThread | GameWorkerThread => true
  | _ => false
  end.

Definition class_contributes_to_score_for_situation (class : TaskClass) (s : SituationKind) : bool :=
  match s with
  | GameFocused | GameCpuSchedulerPressure | GameGpuBound => class_contributes_to_score class
  | CompositorPressure => match class with Compositor => true | _ => false end
  | CompileLoad | CompileCpuBound | CompileLinkerPressure | BrowserFocused | BrowserCpuPressure
  | BrowserGpuVideo | BrowserIoPressure =>
      match class with Service | UnknownClass => false | _ => true end
  | _ => class_contributes_to_score class
  end.

Definition saturating_mul_u64 (x y : Z) : Z := Z.min (x * y) U64_MAX.

Definition weighted_total (severe medium mild : Z) : Z :=
  saturating_add_u64
    (saturating_add_u64 (saturating_mul_u64 severe 100) (saturating_mul_u64 medium 20)) mild.

(** The tallies of the loop: over 1, 2, 5 ms and the maximum. *)
Definition tally_record '(o1, o2, o5, mx) (r : IntervalRecord) : Z * Z * Z * Z :=
  (saturating_add_u64 o1 (ir_over_1ms r), saturating_add_u64 o2 (ir_over_2ms r),
   saturating_add_u64 o5 (ir_over_5ms r), Z.max mx (ir_max_ns r)).

Definition score_from_interval_records_for_situation (records : list IntervalRecord)
    (situation : SituationKind) : StutterScore :=
  let '(o1, o2, o5, mx) :=
    foldl tally_record (0, 0, 0, 0)
      (filter (fun r => class_contributes_to_score_for_situation (ir_class r) situation) records) in
  {| total := weighted_total o5 o2 o1; over_1ms := o1; over_2ms := o2; over_5ms := o5;
     max_latency_ns := mx; frame_max_ms := f64_zero; frame_p99_ms := f64_zero;
     frame_over_16ms := 0; frame_over_33ms := 0; frame_over_50ms := 0 |}.

Definition score_from_interval_records (records : list IntervalRecord) : StutterScore :=
  score_from_interval_records_for_situation records GameFocused.

(** [f64::total_cmp] on values that are not NaN: [-0.0] before [0.0]. *)
Definition f64_total_le (a b : f64) : Prop :=
  match SpecFloat.SFcompare a b with
  | Some Lt => True
  | Some Gt => False
  | Some Eq =>
      match a, b with
      | SpecFloat.S754_zero false, SpecFloat.S754_zero true => False
      | _, _ => True
      end
  | None => False
  end.
#[export] Instance f64_total_le_dec a b : Decision (f64_total_le a b).
Proof.
  unfold f64_total_le. destruct (SpecFloat.SFcompare a b) as [[]|]; try apply _.
  destruct a as [[]|[]| |[]], b as [[]|[]| |[]]; apply _.
Defined.

(** Nearest-rank percentile of the finite frame times; a frame is its
    [frametime_ms]. *)
Definition frame_time_percentile_ms (frames : list f64) (fraction : f64) : option f64 :=
  let times := filter (fun t => f64_is_finite t = true) frames in
  if decide (times = []) then None
  else
    let n := Z.of_nat (length times) in
    let index :=
      Z.min (saturating_sub (f64_ceil_as_u64 (f64_mul (f64_of_Z n) fraction)) 1) (n - 1) in
    merge_sort f64_total_le times !! Z.to_nat index.

Definition calculate_frame_metrics (frames : list f64) : f64 * f64 :=
  (default f64_zero (frame_time_percentile_ms frames (f64_of_Z 1)),
   default f64_zero (frame_time_percentile_ms frames P99)).

(** The loop over the frames: one saturating counter per threshold. *)
Definition count_over (frames : list f64) (threshold : f64) : Z :=
  foldl (fun n t => if f64_gt t threshold then saturating_add_u64 n 1 else n) 0 frames.

Definition score_from_interval_records_and_frames (records : list IntervalRecord)
    (frames : list f64) : StutterScore :=
  let score := score_from_interval_records records in
  let '(frame_max, frame_p99) := calculate_frame_metrics frames in
  let over_16 := count_over frames (f64_lit 166 10) in
  let over_33 := count_over frames (f64_lit 333 10) in
  let over_50 := count_over frames (f64_of_Z 50) in
  {| total :=
       saturating_add_u64
         (saturating_add_u64
            (saturating_add_u64 (total score) (saturating_mul_u64 over_50 100))
            (saturating_mul_u64 over_33 20))
         over_16;
     over_1ms := over_1ms score; over_2ms := over_2ms score; over_5ms := over_5ms score;
     max_latency_ns := max_latency_ns score;
     frame_max_ms := frame_max; frame_p99_ms := frame_p99;
     frame_over_16ms := over_16; frame_over_33ms := over_33; frame_over_50ms := over_50 |}.

(** [process/explicit_target.rs]. *)
Definition is_generic_fallback (class : TaskClass) : bool :=
  match class with Service | Helper | Render | UnknownClass => true | _ => false end.

Definition class_for_explicit_target (class : TaskClass) (is_explicit_pid : bool) : TaskClass :=
  if is_explicit_pid && is_generic_fallback class then Game else class.

Definition with_class (r : IntervalRecord) (class : TaskClass) : IntervalRecord :=
  {| ir_elapsed_ms := ir_elapsed_ms r; ir_task := ir_task r; ir_active := ir_active r;
     ir_class := class; ir_comm := ir_comm r; ir_process_pid := ir_process_pid r;
     ir_process_comm := ir_process_comm r; ir_samples := ir_samples r;
     ir_stored_samples := ir_stored_samples r; ir_truncated_samples := ir_truncated_samples r;
     ir_min_ns := ir_min_ns r; ir_avg_ns := ir_avg_ns r; ir_p95_ns := ir_p95_ns r;
     ir_p99_ns := ir_p99_ns r; ir_max_ns := ir_max_ns r; ir_over_1ms := ir_over_1ms r;
     ir_over_2ms := ir_over_2ms r; ir_over_5ms := ir_over_5ms r;
     ir_busiest_cpu := ir_busiest_cpu r; ir_busiest_cpu_samples := ir_busiest_cpu_samples r;
     ir_worst_cpu := ir_worst_cpu r; ir_worst_cpu_max_ns := ir_worst_cpu_max_ns r;
     ir_spikiest_cpu := ir_spikiest_cpu r; ir_spikiest_cpu_spikes := ir_spikiest_cpu_spikes r;
     ir_major_faults := ir_major_faults r; ir_minor_faults := ir_minor_faults r;
     ir_cpu_psi_some := ir_cpu_psi_some r; ir_mem_psi_some := ir_mem_psi_some r;
     ir_mem_psi_full := ir_mem_psi_full r; ir_mem_psi_delta_us := ir_mem_psi_delta_us r;
     ir_mem_psi_spike := ir_mem_psi_spike r; ir_io_psi_some := ir_io_psi_some r;
     ir_io_psi_full := ir_io_psi_full r; ir_percentile_scope := ir_percentile_scope r;
     ir_histogram := ir_histogram r; ir_drop_counters := ir_drop_counters r;
     ir_cpu_perf := ir_cpu_perf r |}.

Definition records_for_explicit_targets (records : list IntervalRecord) (explicit_pids : list Z)
    : list IntervalRecord :=
  (fun r =>
     let named := match ir_process_pid r with
                  | Some pid => bool_decide (pid ∈ explicit_pids)
                  | None => false
                  end in
     with_class r (class_for_explicit_target (ir_class r) named)) <$> records.

Definition score_from_interval_records_for_explicit_targets (records : list IntervalRecord)
    (explicit_pids : list Z) : StutterScore :=
  score_from_interval_records (records_for_explicit_targets records explicit_pids).

Definition score_from_interval_records_and_frames_for_explicit_targets
    (records : list IntervalRecord) (frames : list f64) (explicit_pids : list Z) : StutterScore :=
  score_from_interval_records_and_frames (records_for_explicit_targets records explicit_pids) frames.

(** ** [experiment.rs] *)

Record WindowScore := {
  started_unix_nanos : Z;
  finished_unix_nanos : Z;
  interval_count : Z;
  scored_samples : Z;
  scored_task_count : Z;
  score : StutterScore }.

Definition per_sample (value samples : Z) : option f64 :=
  if samples =? 0 then None else Some (f64_div (f64_of_Z value) (f64_of_Z samples)).

Definition score_per_sample (w : WindowScore) : option f64 :=
  per_sample (total (score w)) (scored_samples w).
Definition over_5ms_per_sample (w : WindowScore) : option f64 :=
  per_sample (over_5ms (score w)) (scored_samples w).

(** ** [comparison.rs] *)

Inductive ExperimentResult :=
| Improved (improvement_percent : f64)
| Regressed (regression_percent : f64)
| Inconclusive
| Invalid.

#[export] Instance ExperimentResult_eq_dec : EqDecision ExperimentResult.
Proof. solve_decision. Defined.

Inductive ExperimentDataQuality := QHigh | QMedium | QLow.

Definition is_acceptable_for_improvement (q : ExperimentDataQuality) : bool :=
  match q with QHigh | QMedium => true | QLow => false end.

Definition is_low (q : ExperimentDataQuality) : bool :=
  match q with QLow => true | _ => false end.

Record ScoreComparisonConfig := {
  min_improvement_percent : f64;
  max_regression_percent : f64;
  max_frame_p99_regression_ms : f64;
  max_over_5ms_regression_per_1k_samples : f64 }.

Definition DEFAULT_SCORE_COMPARISON_CONFIG : ScoreComparisonConfig :=
  {| min_improvement_percent := f64_lit 125 10;
     max_regression_percent := f64_lit 75 10;
     max_frame_p99_regression_ms := f64_of_Z 2;
     max_over_5ms_regression_per_1k_samples := f64_zero |}.

Record ThresholdTier := {
  tier_min_scored_samples : Z;
  tier_min_improvement_percent : f64;
  tier_max_regression_percent : f64 }.

Definition ThresholdPolicy := list ThresholdTier.

(** [iter().max_by_key(..)]: the last of the maximal elements. *)
Definition max_by_key {A} (key : A -> Z) (l : list A) : option A :=
  foldl (fun best x =>
      match best with
      | Some b => if key b <=? key x then Some x else Some b
      | None => Some x
      end) None l.

Definition config_for_samples (policy : ThresholdPolicy) (samples : Z) : ScoreComparisonConfig :=
  match max_by_key tier_min_scored_samples
          (filter (fun t => tier_min_scored_samples t <= samples) policy) with
  | Some tier =>
      {| min_improvement_percent := tier_min_improvement_percent tier;
         max_regression_percent := tier_max_regression_percent tier;
         max_frame_p99_regression_ms :=
           max_frame_p99_regression_ms DEFAULT_SCORE_COMPARISON_CONFIG;
         max_over_5ms_regression_per_1k_samples :=
           max_over_5ms_regression_per_1k_samples DEFAULT_SCORE_COMPARISON_CONFIG |}
  | None => DEFAULT_SCORE_COMPARISON_CONFIG
  end.

Record ScoreComparisonInput := {
  sci_baseline : WindowScore;
  sci_candidate : WindowScore;
  sci_data_quality : ExperimentDataQuality;
  sci_target_disappeared : bool }.

Record ComparableScore := {
  cmp_score_per_sample : f64;
  cmp_over_5ms_per_sample : f64;
  cmp_raw_total : Z;
  cmp_raw_over_5ms : Z }.

Definition comparable_score (w : WindowScore) : option ComparableScore :=
  per ← score_per_sample w;
  over ← over_5ms_per_sample w;
  if negb (f64_is_finite per) then None
  else if negb (f64_is_finite over) then None
  else Some {| cmp_score_per_sample := per; cmp_over_5ms_per_sample := over;
               cmp_raw_total := total (score w); cmp_raw_over_5ms := over_5ms (score w) |}.

(** [!x.is_finite() || x < 0.0]. *)
Definition bad_threshold (x : f64) : bool := negb (f64_is_finite x) || f64_lt x f64_zero.

Definition validate_score_comparison_config (c : ScoreComparisonConfig) : bool :=
  negb (bad_threshold (min_improvement_percent c))
  && negb (bad_threshold (max_regression_percent c))
  && negb (bad_threshold (max_frame_p99_regression_ms c))
  && negb (bad_threshold (max_over_5ms_regression_per_1k_samples c)).

Definition validate_window_score (w : WindowScore) : bool :=
  negb (interval_count w =? 0) && negb (scored_samples w =? 0) && negb (scored_task_count w =? 0)
  && f64_is_finite (frame_p99_ms (score w)) && f64_is_finite (frame_max_ms (score w)).

Definition improvement_percent_f64 (baseline candidate : f64) : f64 :=
  if f64_le baseline f64_zero || f64_ge candidate baseline then f64_zero
  else f64_mul (f64_div (f64_sub baseline candidate) baseline) (f64_of_Z 100).

Definition regression_percent_f64 (baseline candidate : f64) : f64 :=
  if f64_le candidate baseline then f64_zero
  else if f64_le baseline f64_zero then f64_of_Z 100
  else f64_mul (f64_div (f64_sub candidate baseline) baseline) (f64_of_Z 100).

Definition compare_scores_with_config (input : ScoreComparisonInput)
    (config : ScoreComparisonConfig) (threshold_policy : option ThresholdPolicy)
    : ExperimentResult :=
  let b := sci_baseline input in
  let c := sci_candidate input in
  let config :=
    match threshold_policy with
    | Some policy => config_for_samples policy (scored_samples b)
    | None => config
    end in
  if negb (validate_score_comparison_config config) then Invalid
  else if negb (validate_window_score b) then Invalid
  else if negb (validate_window_score c) then Invalid
  else match comparable_score b, comparable_score c with
  | Some baseline, Some candidate =>
      let regression :=
        regression_percent_f64 (cmp_score_per_sample baseline) (cmp_score_per_sample candidate) in
      if sci_target_disappeared input then Regressed regression
      else if is_low (sci_data_quality input) then Regressed regression
      else if f64_gt regression (max_regression_percent config) then Regressed regression
      else
        let baseline_per_1k := f64_mul (cmp_over_5ms_per_sample baseline) (f64_of_Z 1000) in
        let candidate_per_1k := f64_mul (cmp_over_5ms_per_sample candidate) (f64_of_Z 1000) in
        if f64_gt candidate_per_1k
             (f64_add baseline_per_1k (max_over_5ms_regression_per_1k_samples config))
        then Regressed regression
        else
          let frame_limit :=
            f64_add (frame_p99_ms (score b)) (max_frame_p99_regression_ms config) in
          if f64_gt (frame_p99_ms (score c)) frame_limit then Regressed regression
          else
            let improvement :=
              improvement_percent_f64 (cmp_score_per_sample baseline)
                (cmp_score_per_sample candidate) in
            if is_acceptable_for_improvement (sci_data_quality input)
               && f64_ge improvement (min_improvement_percent config)
               && f64_le (cmp_over_5ms_per_sample candidate) (cmp_over_5ms_per_sample baseline)
               && f64_le (frame_p99_ms (score c)) frame_limit
            then Improved improvement
            else Inconclusive
  | _, _ => Invalid
  end.

Record ExperimentComparisonPolicy := {
  min_improvement_ratio : f64;
  max_regression_ratio : f64;
  regressed_frame_p99_slack_ms : f64 }.

Definition ExperimentComparisonPolicy_default : ExperimentComparisonPolicy :=
  {| min_improvement_ratio :=
       f64_sub (f64_of_Z 1)
         (f64_div (min_improvement_percent DEFAULT_SCORE_COMPARISON_CONFIG) (f64_of_Z 100));
     max_regression_ratio :=
       f64_add (f64_of_Z 1)
         (f64_div (max_regression_percent DEFAULT_SCORE_COMPARISON_CONFIG) (f64_of_Z 100));
     regressed_frame_p99_slack_ms := max_frame_p99_regression_ms DEFAULT_SCORE_COMPARISON_CONFIG |}.

Definition ratio_to_improvement_percent (ratio : f64) : f64 :=
  if negb (f64_is_finite ratio) then f64_zero
  else f64_max (f64_mul (f64_sub (f64_of_Z 1) ratio) (f64_of_Z 100)) f64_zero.

Definition ratio_to_regression_percent (ratio : f64) : f64 :=
  if negb (f64_is_finite ratio) then f64_zero
  else f64_max (f64_mul (f64_sub ratio (f64_of_Z 1)) (f64_of_Z 100)) f64_zero.

Definition as_score_comparison_config (p : ExperimentComparisonPolicy) : ScoreComparisonConfig :=
  {| min_improvement_percent := ratio_to_improvement_percent (min_improvement_ratio p);
     max_regression_percent := ratio_to_regression_percent (max_regression_ratio p);
     max_frame_p99_regression_ms := regressed_frame_p99_slack_ms p;
     max_over_5ms_regression_per_1k_samples :=
       max_over_5ms_regression_per_1k_samples DEFAULT_SCORE_COMPARISON_CONFIG |}.

Definition compare_experiment_with_policy (input : ScoreComparisonInput)
    (policy : ExperimentComparisonPolicy) : ExperimentResult :=
  compare_scores_with_config input (as_score_comparison_config policy) None.

Definition compare_experiment (input : ScoreComparisonInput) : ExperimentResult :=
  compare_experiment_with_policy input ExperimentComparisonPolicy_default.

(** ** The comparison *)

(** The ratio form of the default policy is the default configuration up to the
    rounding of the percentages: 12.5% and 7.499...% or 7.5%. *)
Example default_ratio_policy :
  min_improvement_percent (as_score_comparison_config ExperimentComparisonPolicy_default)
    = min_improvement_percent DEFAULT_SCORE_COMPARISON_CONFIG
  /\ f64_le (max_regression_percent (as_score_comparison_config ExperimentComparisonPolicy_default))
       (max_regression_percent DEFAULT_SCORE_COMPARISON_CONFIG) = true.
Proof. vm_compute. split; reflexivity. Qed.

Section Comparison.

Implicit Types (b c : WindowScore) (config : ScoreComparisonConfig).

(** A configuration that asks for an improvement: what every built-in one does. *)
Definition asks_improvement config : Prop := f64_lt f64_zero (min_improvement_percent config) = true.

(** [c] is better than [b]: strictly lower score per sample, no more events over
    5 ms per sample. *)
Definition better_window b c : Prop :=
  exists sb sc ob oc,
    score_per_sample b = Some sb /\ score_per_sample c = Some sc /\ f64_lt sc sb = true
    /\ over_5ms_per_sample b = Some ob /\ over_5ms_per_sample c = Some oc /\ f64_le oc ob = true.

Lemma comparable_score_some w s :
  comparable_score w = Some s ->
  score_per_sample w = Some (cmp_score_per_sample s)
  /\ over_5ms_per_sample w = Some (cmp_over_5ms_per_sample s)
  /\ f64_is_finite (cmp_score_per_sample s) = true /\ f64_is_finite (cmp_over_5ms_per_sample s) = true.
Proof.
  unfold comparable_score. destruct (score_per_sample w) as [p|]; cbn; [|done].
  destruct (over_5ms_per_sample w) as [o|]; cbn; [|done].
  destruct (f64_is_finite p) eqn:Hp; cbn; [|done]. destruct (f64_is_finite o) eqn:Ho; cbn; [|done].
  intros [= <-]. done.
Qed.

Lemma improvement_means_lower x y m :
  f64_lt f64_zero m = true -> x <> SpecFloat.S754_nan -> y <> SpecFloat.S754_nan ->
  f64_ge (improvement_percent_f64 x y) m = true -> f64_lt y x = true.
Proof.
  intros Hm Hx Hy. unfold improvement_percent_f64.
  assert (Hz : f64_ge f64_zero m = true -> False).
  { intros H. change (f64_le m f64_zero = true) in H. apply f64_le_not_lt in H. congruence. }
  destruct (f64_le x f64_zero); cbn [orb]; [tauto|].
  destruct (f64_ge y x) eqn:E; [tauto|]. intros _. by apply (f64_not_le x y).
Qed.

(** Everything a verdict of improvement rests on. *)
Lemma compare_improved input config p :
  asks_improvement config ->
  compare_scores_with_config input config None = Improved p ->
  better_window (sci_baseline input) (sci_candidate input)
  /\ sci_target_disappeared input = false /\ is_low (sci_data_quality input) = false
  /\ f64_ge p (min_improvement_percent config) = true
  /\ f64_le (frame_p99_ms (score (sci_candidate input)))
       (f64_add (frame_p99_ms (score (sci_baseline input))) (max_frame_p99_regression_ms config)) = true.
Proof.
  intros Hask. unfold compare_scores_with_config.
  destruct (validate_score_comparison_config config); cbn [negb]; [|done].
  destruct (validate_window_score (sci_baseline input)); cbn [negb]; [|done].
  destruct (validate_window_score (sci_candidate input)); cbn [negb]; [|done].
  destruct (comparable_score (sci_baseline input)) as [sb|] eqn:Eb; [|done].
  destruct (comparable_score (sci_candidate input)) as [sc|] eqn:Ec; [|done].
  destruct (sci_target_disappeared input); [done|].
  destruct (is_low (sci_data_quality input)); [done|].
  destruct (f64_gt _ _); [done|]. destruct (f64_gt _ _); [done|]. destruct (f64_gt _ _); [done|].
  destruct (_ && _ && _ && _) eqn:E; [|done]. intros [= <-].
  rewrite !andb_true_iff in E. destruct E as [[[_ Hi] Ho] Hf].
  apply comparable_score_some in Eb as (Hb1 & Hb2 & Hb3 & Hb4).
  apply comparable_score_some in Ec as (Hc1 & Hc2 & Hc3 & Hc4).
  split; [|done]. exists (cmp_score_per_sample sb), (cmp_score_per_sample sc),
    (cmp_over_5ms_per_sample sb), (cmp_over_5ms_per_sample sc).
  repeat split; try done. apply (improvement_means_lower _ _ _ Hask); auto using finite_not_nan.
Qed.

Lemma better_window_asym b c : better_window b c -> better_window c b -> False.
Proof.
  intros (sb & sc & ob & oc & H1 & H2 & H3 & _) (sc' & sb' & _ & _ & H4 & H5 & H6 & _).
  simplify_eq. apply f64_lt_asym in H3. congruence.
Qed.

End Comparison.

(** A verdict of improvement means that the candidate window was better: strictly
    lower score per sample, no more events over 5 ms per sample and no higher frame p99 than
    the tolerance, on data of sufficient quality with the target present; and it is one-way,
    so that no configuration lets the two windows improve on each other. *)
Theorem improvement_is_one_way input config config' p p' b c :
  asks_improvement config -> asks_improvement config' ->
  sci_baseline input = b -> sci_candidate input = c ->
  compare_scores_with_config input config None = Improved p ->
  (better_window b c /\ sci_target_disappeared input = false /\ is_low (sci_data_quality input) = false
   /\ f64_ge p (min_improvement_percent config) = true
   /\ f64_le (frame_p99_ms (score c))
        (f64_add (frame_p99_ms (score b)) (max_frame_p99_regression_ms config)) = true) /\
  forall swapped, sci_baseline swapped = c -> sci_candidate swapped = b ->
    compare_scores_with_config swapped config' None <> Improved p'.
Proof.
  intros Hc Hc' <- <- H. apply compare_improved in H; [|done]. split; [done|].
  intros swapped E1 E2 H'. apply compare_improved in H'; [|done].
  destruct H as [Hb _], H' as [Hb' _]. rewrite E1, E2 in Hb'. by eapply better_window_asym.
Qed.
