(* ===== verification/Objective.v ===== *)
(** * Objective: judging an experiment by its objective

    [autotune/objective]: the signals of a window, the fixed-work markers of
    [workload_progress/mod.rs], the nine objectives with their guards, and the
    decision with its independently computed list of guard failures.  Reasons are
    texts for people and are left out; guard names are kept.

    The theorems: a verdict of improvement has no guard failure, though the two are
    computed by separate code; a runnable-latency improvement is an improvement of
    the exact integers; the verdict is symmetric where it should be (two windows
    cannot each improve on the other). *)

From Stdlib Require Import Ascii String List.
From S2P Require Import Prelude Binary64 Abi Metrics Intervals RunnableSignal Score PolicyModel Procfs.
From stdpp Require Import list.
Open Scope Z_scope.

(** ** [workload_progress/mod.rs] *)

Inductive WorkloadKind := WkCompile | WkCustom.

Record FixedWorkIdentity := {
  fwi_kind : WorkloadKind;
  fwi_source_tree : string;
  fwi_target : string;
  fwi_build_state : string;
  fwi_cache_policy : string;
  fwi_job_count : Z;
  fwi_command : list string;
  fwi_working_directory : string;
  fwi_toolchain : string;
  fwi_environment : string }.

Inductive ProgressSource := ScenarioCompletion | ExternalMarker | CustomCommand.
Inductive WorkloadPhase := WpStart | WpComplete | WpFailed.

Record WorkloadProgress := {
  wp_schema_version : Z;
  wp_execution_id : string;
  wp_identity : FixedWorkIdentity;
  wp_source : ProgressSource;
  wp_phase : WorkloadPhase;
  wp_target_root_pid : Z;
  wp_target_starttime_ticks : Z;
  wp_monotonic_ns : Z;
  wp_elapsed_ns : Z;
  wp_completed_units : Z;
  wp_total_units : option Z }.

Record FixedWorkMeasurement := { fw_start : WorkloadProgress; fw_complete : WorkloadProgress }.

#[export] Instance WorkloadKind_eq_dec : EqDecision WorkloadKind.
Proof. solve_decision. Defined.
#[export] Instance FixedWorkIdentity_eq_dec : EqDecision FixedWorkIdentity.
Proof. solve_decision. Defined.
#[export] Instance ProgressSource_eq_dec : EqDecision ProgressSource.
Proof. solve_decision. Defined.
#[export] Instance WorkloadPhase_eq_dec : EqDecision WorkloadPhase.
Proof. solve_decision. Defined.

Definition is_ascii_hexdigit (a : ascii) : bool :=
  let n := N_of_ascii a in
  ((48 <=? n) && (n <=? 57) || (65 <=? n) && (n <=? 70) || (97 <=? n) && (n <=? 102))%N.

(** [split_once(':')]. *)
Fixpoint split_once_colon (s : string) : option (string * string) :=
  match s with
  | EmptyString => None
  | String c rest =>
      if Ascii.eqb c ":" then Some (EmptyString, rest)
      else match split_once_colon rest with
           | Some (a, b) => Some (String c a, b)
           | None => None
           end
  end.

Definition valid_source_tree (source : string) : bool :=
  match split_once_colon source with
  | Some (kind, digest) =>
      let n := String.length digest in
      (String.eqb kind "git" && ((n =? 40)%nat || (n =? 64)%nat)
       || String.eqb kind "sha256" && (n =? 64)%nat)
      && forall_ascii is_ascii_hexdigit digest
  | None => false
  end.

Definition blank (s : string) : bool := String.eqb (trim s) "".

(** [if .. { return Err(..) }] in sequence: the message of the first check that
    fails, [None] for [Ok(())]. *)
Fixpoint first_error (checks : list (bool * string)) : option string :=
  match checks with
  | [] => None
  | (failed, message) :: checks => if failed then Some message else first_error checks
  end.

Lemma first_error_none checks : first_error checks = None <-> Forall (fun c => c.1 = false) checks.
Proof.
  induction checks as [|[[] e] l IH]; cbn; [done|..]; rewrite Forall_cons; cbn.
  - split; [done|]. by intros [? _].
  - rewrite IH. split; [done|by intros [_ ?]].
Qed.

Definition FixedWorkIdentity_validate (i : FixedWorkIdentity) : option string :=
  first_error
    [(negb (valid_source_tree (fwi_source_tree i)),
      "fixed work requires an immutable source tree identity"%string);
     ((fwi_job_count i =? 0)
      || match fwi_command i with [] => true | c :: _ => blank c end
      || existsb blank [fwi_target i; fwi_build_state i; fwi_cache_policy i;
                        fwi_working_directory i; fwi_toolchain i; fwi_environment i],
      "fixed-work identity is incomplete"%string)].

(** [first?; rest]. *)
Definition and_check (first rest : option string) : option string :=
  match first with Some e => Some e | None => rest end.

Definition WorkloadProgress_validate (w : WorkloadProgress) : option string :=
  and_check (FixedWorkIdentity_validate (wp_identity w))
    (first_error
       [(negb (wp_schema_version w =? 1)
         || blank (wp_execution_id w)
         || (wp_target_root_pid w =? 0)
         || (wp_target_starttime_ticks w =? 0)
         || (wp_monotonic_ns w =? 0)
         || match wp_total_units w with None => true | Some t => t =? 0 end
         || match wp_total_units w with None => false | Some t => t <? wp_completed_units w end,
         "invalid workload progress version, identity, timestamp or units"%string);
        match wp_phase w with
        | WpStart =>
            (negb (wp_completed_units w =? 0) || negb (wp_elapsed_ns w =? 0),
             "workload start must have zero elapsed time and completed units"%string)
        | WpComplete =>
            (negb (bool_decide (Some (wp_completed_units w) = wp_total_units w))
             || (wp_elapsed_ns w =? 0),
             "workload completion must finish all fixed work with positive elapsed time"%string)
        | WpFailed => (true, "workload execution failed"%string)
        end]).

Definition checked_sub (x y : Z) : option Z := if y <=? x then Some (x - y) else None.

Definition FixedWorkMeasurement_validate (m : FixedWorkMeasurement) : option string :=
  let s := fw_start m in
  let c := fw_complete m in
  and_check (WorkloadProgress_validate s)
  (and_check (WorkloadProgress_validate c)
  (first_error
     [(negb (bool_decide (wp_phase s = WpStart))
       || negb (bool_decide (wp_phase c = WpComplete))
       || negb (String.eqb (wp_execution_id s) (wp_execution_id c))
       || negb (bool_decide (wp_identity s = wp_identity c))
       || negb (bool_decide (wp_source s = wp_source c))
       || negb (wp_target_root_pid s =? wp_target_root_pid c)
       || negb (wp_target_starttime_ticks s =? wp_target_starttime_ticks c)
       || negb (bool_decide (wp_total_units s = wp_total_units c))
       || negb (bool_decide (checked_sub (wp_monotonic_ns c) (wp_monotonic_ns s)
                             = Some (wp_elapsed_ns c))),
       "fixed-work completion does not match its start marker"%string)])).

Definition completed_fixed_work (markers : list WorkloadProgress) : FixedWorkMeasurement + string :=
  match markers with
  | [start; complete] =>
      let m := {| fw_start := start; fw_complete := complete |} in
      match FixedWorkMeasurement_validate m with Some e => inr e | None => inl m end
  | _ =>
      inr "fixed work requires exactly one paired start and successful completion in the window"%string
  end.

(** ** [objective/mod.rs] *)

Inductive ObjectiveKind :=
| OkStutterScore | GameFramePacing | GameRunnableLatency | DesktopInteractivity
| BrowserInteractivity | CompileThroughputWithForegroundProtection | IoLatency
| IrqOverlapReduction | ThermalRecoveryObjective.

#[export] Instance ObjectiveKind_eq_dec : EqDecision ObjectiveKind.
Proof. solve_decision. Defined.

(** The order of the constructors is the derived order. *)
Inductive ObjectiveSignalQuality := SigDirect | SigDerived | SigApproximate | SigMissing.

#[export] Instance ObjectiveSignalQuality_eq_dec : EqDecision ObjectiveSignalQuality.
Proof. solve_decision. Defined.

Definition quality_rank (q : ObjectiveSignalQuality) : nat :=
  match q with SigDirect => 0 | SigDerived => 1 | SigApproximate => 2 | SigMissing => 3 end.

Definition is_missing (q : ObjectiveSignalQuality) : bool := bool_decide (q = SigMissing).

Record ObjectiveSignalQualitySnapshot := {
  sq_block_io_overlap : ObjectiveSignalQuality;
  sq_irq_overlap : ObjectiveSignalQuality;
  sq_thermal : ObjectiveSignalQuality;
  sq_cpu_power : ObjectiveSignalQuality;
  sq_gpu_power : ObjectiveSignalQuality;
  sq_gpu_active_render_node : ObjectiveSignalQuality;
  sq_memory_pressure : ObjectiveSignalQuality;
  sq_swap_activity : ObjectiveSignalQuality;
  sq_dirty_writeback : ObjectiveSignalQuality;
  sq_frame_pacing : ObjectiveSignalQuality;
  sq_foreground_latency : ObjectiveSignalQuality;
  sq_runnable_latency : ObjectiveSignalQuality;
  sq_compile_throughput : ObjectiveSignalQuality }.

Definition quality_default : ObjectiveSignalQualitySnapshot :=
  {| sq_block_io_overlap := SigMissing; sq_irq_overlap := SigMissing; sq_thermal := SigMissing;
     sq_cpu_power := SigMissing; sq_gpu_power := SigMissing;
     sq_gpu_active_render_node := SigMissing; sq_memory_pressure := SigMissing;
     sq_swap_activity := SigMissing; sq_dirty_writeback := SigMissing;
     sq_frame_pacing := SigMissing; sq_foreground_latency := SigMissing;
     sq_runnable_latency := SigMissing; sq_compile_throughput := SigMissing |}.

Record ObjectiveSignals := {
  sig_block_io_overlap_count : option Z;
  sig_block_io_worst_latency_ns : option Z;
  sig_block_io_overlap_basis : option string;
  sig_block_io_overlap_trust : option string;
  sig_irq_overlap_count : option Z;
  sig_irq_worst_overlap_ns : option Z;
  sig_irq_hot_irq : option Z;
  sig_irq_hot_cpu : option Z;
  sig_irq_overlap_basis : option string;
  sig_irq_overlap_trust : option string;
  sig_thermal_degraded : option bool;
  sig_thermal_throttle_count : option Z;
  sig_cpu_power_limited : option bool;
  sig_cpu_power_limited_cpu : option Z;
  sig_cpu_power_limit_source : option string;
  sig_cpu_power_limited_policy : option string;
  sig_gpu_power_limited : option bool;
  sig_gpu_power_limit_reason : option string;
  sig_gpu_busy_percent : option Z;
  sig_gpu_clock_mhz : option Z;
  sig_gpu_temp_millidegrees : option Z;
  sig_gpu_drm_card : option string;
  sig_gpu_active_render_node : option string;
  sig_gpu_focus_confidence : option f32;
  sig_gpu_focus_source : option string;
  sig_memory_pressure_some_avg10_percent : option f32;
  sig_swap_activity_events : option Z;
  sig_mem_stall_spike_count : option Z;
  sig_dirty_writeback_events : option Z;
  sig_frame_p99_ms : option f64;
  sig_foreground_over_5ms : option Z;
  sig_runnable_latency_p50_ns : option Z;
  sig_runnable_latency_p95_ns : option Z;
  sig_runnable_latency_p99_ns : option Z;
  sig_runnable_latency_p999_ns : option Z;
  sig_runnable_latency_max_ns : option Z;
  sig_runnable_over_1ms : option Z;
  sig_runnable_over_2ms : option Z;
  sig_runnable_over_5ms : option Z;
  sig_runnable_samples : option Z;
  sig_runnable_latency_source : option string;
  sig_runnable_latency_unavailable_reason : option string;
  sig_runnable_target_root_pid : option Z;
  sig_runnable_target_starttime_ticks : option Z;
  sig_compile_activity_intervals : option Z;
  sig_compile_activity_samples : option Z;
  sig_compile_activity_source : option string;
  sig_compile_fixed_work : option FixedWorkMeasurement;
  sig_compile_fixed_work_unavailable_reason : option string;
  sig_signal_quality : ObjectiveSignalQualitySnapshot }.

Definition ObjectiveSignals_default : ObjectiveSignals :=
  {| sig_block_io_overlap_count := None; sig_block_io_worst_latency_ns := None;
     sig_block_io_overlap_basis := None; sig_block_io_overlap_trust := None;
     sig_irq_overlap_count := None; sig_irq_worst_overlap_ns := None; sig_irq_hot_irq := None;
     sig_irq_hot_cpu := None; sig_irq_overlap_basis := None; sig_irq_overlap_trust := None;
     sig_thermal_degraded := None; sig_thermal_throttle_count := None;
     sig_cpu_power_limited := None; sig_cpu_power_limited_cpu := None;
     sig_cpu_power_limit_source := None; sig_cpu_power_limited_policy := None;
     sig_gpu_power_limited := None; sig_gpu_power_limit_reason := None;
     sig_gpu_busy_percent := None; sig_gpu_clock_mhz := None; sig_gpu_temp_millidegrees := None;
     sig_gpu_drm_card := None; sig_gpu_active_render_node := None;
     sig_gpu_focus_confidence := None; sig_gpu_focus_source := None;
     sig_memory_pressure_some_avg10_percent := None; sig_swap_activity_events := None;
     sig_mem_stall_spike_count := None; sig_dirty_writeback_events := None;
     sig_frame_p99_ms := None; sig_foreground_over_5ms := None;
     sig_runnable_latency_p50_ns := None; sig_runnable_latency_p95_ns := None;
     sig_runnable_latency_p99_ns := None; sig_runnable_latency_p999_ns := None;
     sig_runnable_latency_max_ns := None; sig_runnable_over_1ms := None;
     sig_runnable_over_2ms := None; sig_runnable_over_5ms := None; sig_runnable_samples := None;
     sig_runnable_latency_source := None; sig_runnable_latency_unavailable_reason := None;
     sig_runnable_target_root_pid := None; sig_runnable_target_starttime_ticks := None;
     sig_compile_activity_intervals := None; sig_compile_activity_samples := None;
     sig_compile_activity_source := None; sig_compile_fixed_work := None;
     sig_compile_fixed_work_unavailable_reason := None; sig_signal_quality := quality_default |}.

Definition set_runnable_quality (q : ObjectiveSignalQualitySnapshot) (v : ObjectiveSignalQuality)
    : ObjectiveSignalQualitySnapshot :=
  {| sq_block_io_overlap := sq_block_io_overlap q; sq_irq_overlap := sq_irq_overlap q;
     sq_thermal := sq_thermal q; sq_cpu_power := sq_cpu_power q; sq_gpu_power := sq_gpu_power q;
     sq_gpu_active_render_node := sq_gpu_active_render_node q;
     sq_memory_pressure := sq_memory_pressure q; sq_swap_activity := sq_swap_activity q;
     sq_dirty_writeback := sq_dirty_writeback q; sq_frame_pacing := sq_frame_pacing q;
     sq_foreground_latency := sq_foreground_latency q; sq_runnable_latency := v;
     sq_compile_throughput := sq_compile_throughput q |}.

(** [runnable_signal.rs]: the runnable-latency fields from the interval records. *)
Definition set_runnable_latency_from_records (s : ObjectiveSignals) (records : list IntervalRecord)
    : ObjectiveSignals :=
  let result := from_records records in
  let window := match result with inl w => Some w | inr _ => None end in
  {| sig_block_io_overlap_count := sig_block_io_overlap_count s;
     sig_block_io_worst_latency_ns := sig_block_io_worst_latency_ns s;
     sig_block_io_overlap_basis := sig_block_io_overlap_basis s;
     sig_block_io_overlap_trust := sig_block_io_overlap_trust s;
     sig_irq_overlap_count := sig_irq_overlap_count s;
     sig_irq_worst_overlap_ns := sig_irq_worst_overlap_ns s;
     sig_irq_hot_irq := sig_irq_hot_irq s; sig_irq_hot_cpu := sig_irq_hot_cpu s;
     sig_irq_overlap_basis := sig_irq_overlap_basis s;
     sig_irq_overlap_trust := sig_irq_overlap_trust s;
     sig_thermal_degraded := sig_thermal_degraded s;
     sig_thermal_throttle_count := sig_thermal_throttle_count s;
     sig_cpu_power_limited := sig_cpu_power_limited s;
     sig_cpu_power_limited_cpu := sig_cpu_power_limited_cpu s;
     sig_cpu_power_limit_source := sig_cpu_power_limit_source s;
     sig_cpu_power_limited_policy := sig_cpu_power_limited_policy s;
     sig_gpu_power_limited := sig_gpu_power_limited s;
     sig_gpu_power_limit_reason := sig_gpu_power_limit_reason s;
     sig_gpu_busy_percent := sig_gpu_busy_percent s; sig_gpu_clock_mhz := sig_gpu_clock_mhz s;
     sig_gpu_temp_millidegrees := sig_gpu_temp_millidegrees s;
     sig_gpu_drm_card := sig_gpu_drm_card s;
     sig_gpu_active_render_node := sig_gpu_active_render_node s;
     sig_gpu_focus_confidence := sig_gpu_focus_confidence s;
     sig_gpu_focus_source := sig_gpu_focus_source s;
     sig_memory_pressure_some_avg10_percent := sig_memory_pressure_some_avg10_percent s;
     sig_swap_activity_events := sig_swap_activity_events s;
     sig_mem_stall_spike_count := sig_mem_stall_spike_count s;
     sig_dirty_writeback_events := sig_dirty_writeback_events s;
     sig_frame_p99_ms := sig_frame_p99_ms s;
     sig_foreground_over_5ms := sig_foreground_over_5ms s;
     sig_runnable_latency_p50_ns := (fun w => percentile w 500) <$> window;
     sig_runnable_latency_p95_ns := (fun w => percentile w 950) <$> window;
     sig_runnable_latency_p99_ns := (fun w => percentile w 990) <$> window;
     sig_runnable_latency_p999_ns := window ≫= (fun w => if 10000 <=? wh_samples w then Some (percentile w 999) else None);
     sig_runnable_latency_max_ns := wh_max_ns <$> window;
     sig_runnable_over_1ms := (fun w => tail_count (wh_buckets w) 1000000) <$> window;
     sig_runnable_over_2ms := (fun w => tail_count (wh_buckets w) 2000000) <$> window;
     sig_runnable_over_5ms := (fun w => tail_count (wh_buckets w) 5000000) <$> window;
     sig_runnable_samples := wh_samples <$> window;
     sig_runnable_latency_source := (fun _ => RUNNABLE_HISTOGRAM_SOURCE) <$> window;
     sig_runnable_latency_unavailable_reason := match result with inr e => Some e | inl _ => None end;
     sig_runnable_target_root_pid := sig_runnable_target_root_pid s;
     sig_runnable_target_starttime_ticks := sig_runnable_target_starttime_ticks s;
     sig_compile_activity_intervals := sig_compile_activity_intervals s;
     sig_compile_activity_samples := sig_compile_activity_samples s;
     sig_compile_activity_source := sig_compile_activity_source s;
     sig_compile_fixed_work := sig_compile_fixed_work s;
     sig_compile_fixed_work_unavailable_reason := sig_compile_fixed_work_unavailable_reason s;
     sig_signal_quality := set_runnable_quality (sig_signal_quality s) (match window with Some _ => SigDirect | None => SigMissing end) |}.

Definition runnable_signals_for_target (records : list IntervalRecord)
    (root_pid starttime_ticks : Z) : ObjectiveSignals :=
  let s := set_runnable_latency_from_records ObjectiveSignals_default
             (filter (fun r => ir_process_pid r = Some root_pid) records) in
  {| sig_block_io_overlap_count := sig_block_io_overlap_count s;
     sig_block_io_worst_latency_ns := sig_block_io_worst_latency_ns s;
     sig_block_io_overlap_basis := sig_block_io_overlap_basis s;
     sig_block_io_overlap_trust := sig_block_io_overlap_trust s;
     sig_irq_overlap_count := sig_irq_overlap_count s;
     sig_irq_worst_overlap_ns := sig_irq_worst_overlap_ns s;
     sig_irq_hot_irq := sig_irq_hot_irq s; sig_irq_hot_cpu := sig_irq_hot_cpu s;
     sig_irq_overlap_basis := sig_irq_overlap_basis s;
     sig_irq_overlap_trust := sig_irq_overlap_trust s;
     sig_thermal_degraded := sig_thermal_degraded s;
     sig_thermal_throttle_count := sig_thermal_throttle_count s;
     sig_cpu_power_limited := sig_cpu_power_limited s;
     sig_cpu_power_limited_cpu := sig_cpu_power_limited_cpu s;
     sig_cpu_power_limit_source := sig_cpu_power_limit_source s;
     sig_cpu_power_limited_policy := sig_cpu_power_limited_policy s;
     sig_gpu_power_limited := sig_gpu_power_limited s;
     sig_gpu_power_limit_reason := sig_gpu_power_limit_reason s;
     sig_gpu_busy_percent := sig_gpu_busy_percent s; sig_gpu_clock_mhz := sig_gpu_clock_mhz s;
     sig_gpu_temp_millidegrees := sig_gpu_temp_millidegrees s;
     sig_gpu_drm_card := sig_gpu_drm_card s;
     sig_gpu_active_render_node := sig_gpu_active_render_node s;
     sig_gpu_focus_confidence := sig_gpu_focus_confidence s;
     sig_gpu_focus_source := sig_gpu_focus_source s;
     sig_memory_pressure_some_avg10_percent := sig_memory_pressure_some_avg10_percent s;
     sig_swap_activity_events := sig_swap_activity_events s;
     sig_mem_stall_spike_count := sig_mem_stall_spike_count s;
     sig_dirty_writeback_events := sig_dirty_writeback_events s;
     sig_frame_p99_ms := sig_frame_p99_ms s;
     sig_foreground_over_5ms := sig_foreground_over_5ms s;
     sig_runnable_latency_p50_ns := sig_runnable_latency_p50_ns s;
     sig_runnable_latency_p95_ns := sig_runnable_latency_p95_ns s;
     sig_runnable_latency_p99_ns := sig_runnable_latency_p99_ns s;
     sig_runnable_latency_p999_ns := sig_runnable_latency_p999_ns s;
     sig_runnable_latency_max_ns := sig_runnable_latency_max_ns s;
     sig_runnable_over_1ms := sig_runnable_over_1ms s;
     sig_runnable_over_2ms := sig_runnable_over_2ms s;
     sig_runnable_over_5ms := sig_runnable_over_5ms s;
     sig_runnable_samples := sig_runnable_samples s;
     sig_runnable_latency_source := sig_runnable_latency_source s;
     sig_runnable_latency_unavailable_reason := sig_runnable_latency_unavailable_reason s;
     sig_runnable_target_root_pid := Some root_pid;
     sig_runnable_target_starttime_ticks := Some starttime_ticks;
     sig_compile_activity_intervals := sig_compile_activity_intervals s;
     sig_compile_activity_samples := sig_compile_activity_samples s;
     sig_compile_activity_source := sig_compile_activity_source s;
     sig_compile_fixed_work := sig_compile_fixed_work s;
     sig_compile_fixed_work_unavailable_reason := sig_compile_fixed_work_unavailable_reason s;
     sig_signal_quality := sig_signal_quality s |}.

Record ObjectiveComparisonInput := {
  oci_objective : ObjectiveKind;
  oci_baseline : WindowScore;
  oci_candidate : WindowScore;
  oci_baseline_signals : ObjectiveSignals;
  oci_candidate_signals : ObjectiveSignals;
  oci_data_quality : ExperimentDataQuality;
  oci_target_disappeared : bool }.

Definition absent {A} (o : option A) (name : string) : list string :=
  match o with None => [name] | Some _ => [] end.

Definition missing_required_signals_for (s : ObjectiveSignals) (o : ObjectiveKind) : list string :=
  match o with
  | IoLatency =>
      absent (sig_block_io_overlap_count s) "block_io_overlap_count"
      ++ absent (sig_block_io_worst_latency_ns s) "block_io_worst_latency_ns"
  | IrqOverlapReduction =>
      absent (sig_irq_overlap_count s) "irq_overlap_count"
      ++ absent (sig_irq_worst_overlap_ns s) "irq_worst_overlap_ns"
  | ThermalRecoveryObjective =>
      absent (sig_thermal_degraded s) "thermal_degraded"
      ++ absent (sig_thermal_throttle_count s) "thermal_throttle_count"
  | _ => []
  end.

(** ** [objective/common.rs] *)

Definition reject_invalid_or_low_quality (input : ObjectiveComparisonInput)
    (generic : ExperimentResult) : option ExperimentResult :=
  if bool_decide (generic = Invalid) || oci_target_disappeared input
     || is_low (oci_data_quality input)
  then Some generic else None.

Definition missing_required_signal_names (input : ObjectiveComparisonInput) : list string :=
  (String.append "baseline." <$> missing_required_signals_for (oci_baseline_signals input) (oci_objective input))
  ++ (String.append "candidate." <$> missing_required_signals_for (oci_candidate_signals input) (oci_objective input)).

Definition missing_objective_signals (input : ObjectiveComparisonInput) : option ExperimentResult :=
  if decide (missing_required_signal_names input = []) then None else Some Inconclusive.

Definition objective_regression_percent (baseline candidate : WindowScore) : f64 :=
  match score_per_sample baseline, score_per_sample candidate with
  | Some b, Some c => regression_percent_f64 b c
  | _, _ => f64_zero
  end.

Definition objective_regressed (input : ObjectiveComparisonInput) : ExperimentResult :=
  Regressed (objective_regression_percent (oci_baseline input) (oci_candidate input)).

(** [if let (Some(false), Some(true)) = (baseline, candidate)]. *)
Definition turned_on (baseline candidate : option bool) : bool :=
  match baseline, candidate with Some false, Some true => true | _, _ => false end.

(** [if let (Some(b), Some(c)) = .. && c > b]. *)
Definition increased (baseline candidate : option Z) : bool :=
  match baseline, candidate with Some b, Some c => b <? c | _, _ => false end.

Definition reject_if_power_or_thermal_regressed (input : ObjectiveComparisonInput)
    : option ExperimentResult :=
  let b := oci_baseline_signals input in
  let c := oci_candidate_signals input in
  if turned_on (sig_thermal_degraded b) (sig_thermal_degraded c)
  then Some (objective_regressed input)
  else if increased (sig_thermal_throttle_count b) (sig_thermal_throttle_count c)
  then Some (objective_regressed input)
  else if turned_on (sig_cpu_power_limited b) (sig_cpu_power_limited c)
  then Some (objective_regressed input)
  else if turned_on (sig_gpu_power_limited b) (sig_gpu_power_limited c)
  then Some (objective_regressed input)
  else None.

Inductive PrimaryMetricComparison := PmImproved | PmRegressed | PmUnchanged | PmMissing.

#[export] Instance PrimaryMetricComparison_eq_dec : EqDecision PrimaryMetricComparison.
Proof. solve_decision. Defined.

Definition frame_p99_comparison (input : ObjectiveComparisonInput) (slack : f64)
    : PrimaryMetricComparison :=
  let b := oci_baseline_signals input in
  let c := oci_candidate_signals input in
  if is_missing (sq_frame_pacing (sig_signal_quality b))
     || is_missing (sq_frame_pacing (sig_signal_quality c))
  then PmMissing
  else match sig_frame_p99_ms b, sig_frame_p99_ms c with
       | Some baseline, Some candidate =>
           if f64_gt candidate (f64_add baseline slack) then PmRegressed
           else if f64_lt candidate baseline then PmImproved
           else PmUnchanged
       | _, _ => PmMissing
       end.

Definition foreground_over_5ms_per_sample (s : ObjectiveSignals) (w : WindowScore) : option f64 :=
  if is_missing (sq_foreground_latency (sig_signal_quality s)) then None
  else over ← sig_foreground_over_5ms s;
       if 0 <? scored_samples w
       then Some (f64_div (f64_of_Z over) (f64_of_Z (scored_samples w))) else None.

Definition foreground_over_5ms_comparison (input : ObjectiveComparisonInput)
    : PrimaryMetricComparison :=
  match foreground_over_5ms_per_sample (oci_baseline_signals input) (oci_baseline input),
        foreground_over_5ms_per_sample (oci_candidate_signals input) (oci_candidate input) with
  | Some baseline, Some candidate =>
      if f64_gt candidate baseline then PmRegressed
      else if f64_lt candidate baseline then PmImproved
      else PmUnchanged
  | _, _ => PmMissing
  end.

(** [candidate.frame_p99_ms > baseline.frame_p99_ms + slack], on the scores. *)
Definition score_frame_regressed (input : ObjectiveComparisonInput) (slack : f64) : bool :=
  f64_gt (frame_p99_ms (score (oci_candidate input)))
    (f64_add (frame_p99_ms (score (oci_baseline input))) slack).

Definition foreground_regressed (input : ObjectiveComparisonInput) : bool :=
  bool_decide (foreground_over_5ms_comparison input = PmRegressed).

Definition reject_if_foreground_regressed (input : ObjectiveComparisonInput)
    : option ExperimentResult :=
  if score_frame_regressed input (f64_of_Z 2) || foreground_regressed input
  then Some (objective_regressed input) else None.

Definition reject_if_frame_pacing_regressed (input : ObjectiveComparisonInput)
    : option ExperimentResult :=
  if bool_decide (frame_p99_comparison input (f64_of_Z 1) = PmRegressed)
  then Some (objective_regressed input)
  else reject_if_foreground_regressed input.

Definition improved_with_generic_guard (generic : ExperimentResult) : ExperimentResult :=
  match generic with
  | Regressed _ | Invalid => generic
  | Improved p => Improved p
  | Inconclusive => Improved f64_zero
  end.

Definition compare_interactivity_objective (input : ObjectiveComparisonInput)
    (generic : ExperimentResult) : ExperimentResult :=
  match foreground_over_5ms_comparison input with
  | PmImproved => improved_with_generic_guard generic
  | PmRegressed => objective_regressed input
  | PmUnchanged | PmMissing => generic
  end.

(** [if let Some(result) = reject { return result }]. *)
Definition unless (reject : option ExperimentResult) (k : ExperimentResult) : ExperimentResult :=
  match reject with Some r => r | None => k end.

(** ** The objectives *)

(** [game_frame_pacing.rs]. *)
Definition game_frame_pacing_compare (input : ObjectiveComparisonInput)
    (generic : ExperimentResult) : ExperimentResult :=
  unless (reject_if_foreground_regressed input)
    match frame_p99_comparison input (f64_of_Z 1) with
    | PmImproved => improved_with_generic_guard generic
    | PmRegressed => objective_regressed input
    | PmUnchanged | PmMissing => generic
    end.

(** [io_latency.rs] and [irq_overlap.rs] compare a count, then a worst case. *)
Definition compare_count_then_worst (input : ObjectiveComparisonInput)
    (generic : ExperimentResult) (b_count c_count b_worst c_worst : Z) : ExperimentResult :=
  if (b_count <? c_count) || (b_worst <? c_worst) then objective_regressed input
  else if (c_count <? b_count) || ((c_count =? b_count) && (c_worst <? b_worst))
  then improved_with_generic_guard generic
  else Inconclusive.

Definition io_latency_compare (input : ObjectiveComparisonInput) (generic : ExperimentResult)
    : ExperimentResult :=
  let b := oci_baseline_signals input in
  let c := oci_candidate_signals input in
  compare_count_then_worst input generic
    (default 0 (sig_block_io_overlap_count b)) (default 0 (sig_block_io_overlap_count c))
    (default 0 (sig_block_io_worst_latency_ns b)) (default 0 (sig_block_io_worst_latency_ns c)).

Definition irq_overlap_compare (input : ObjectiveComparisonInput) (generic : ExperimentResult)
    : ExperimentResult :=
  let b := oci_baseline_signals input in
  let c := oci_candidate_signals input in
  compare_count_then_worst input generic
    (default 0 (sig_irq_overlap_count b)) (default 0 (sig_irq_overlap_count c))
    (default 0 (sig_irq_worst_overlap_ns b)) (default 0 (sig_irq_worst_overlap_ns c)).

(** [thermal.rs]. *)
Definition thermal_compare (input : ObjectiveComparisonInput) (generic : ExperimentResult)
    : ExperimentResult :=
  let b_degraded := default false (sig_thermal_degraded (oci_baseline_signals input)) in
  let c_degraded := default false (sig_thermal_degraded (oci_candidate_signals input)) in
  let b_throttles := default 0 (sig_thermal_throttle_count (oci_baseline_signals input)) in
  let c_throttles := default 0 (sig_thermal_throttle_count (oci_candidate_signals input)) in
  if c_degraded && negb b_degraded || (b_throttles <? c_throttles) then objective_regressed input
  else if b_degraded && negb c_degraded || (c_throttles <? b_throttles)
  then improved_with_generic_guard generic
  else Inconclusive.

(** [game_runnable_latency.rs]. *)
Definition MINIMUM_RUNNABLE_SAMPLES : Z := 1000.
Definition DEFAULT_MIN_IMPROVEMENT_PERCENT : f64 := f64_lit 125 10.
Definition DEFAULT_MAX_REGRESSION_PERCENT : f64 := f64_lit 75 10.

Record RunnableThresholds := {
  rt_min_improvement_percent : f64;
  rt_max_regression_percent : f64;
  rt_min_samples : Z }.

Definition RunnableThresholds_default : RunnableThresholds :=
  {| rt_min_improvement_percent := DEFAULT_MIN_IMPROVEMENT_PERCENT;
     rt_max_regression_percent := DEFAULT_MAX_REGRESSION_PERCENT;
     rt_min_samples := MINIMUM_RUNNABLE_SAMPLES |}.

Record RunnableSummary := { rs_p99_ns : Z; rs_samples : Z; rs_over_5ms : Z }.

Definition tail_regression_percent (baseline candidate : RunnableSummary) : f64 :=
  let base := f64_div (f64_of_Z (rs_over_5ms baseline)) (f64_of_Z (rs_samples baseline)) in
  let cand := f64_div (f64_of_Z (rs_over_5ms candidate)) (f64_of_Z (rs_samples candidate)) in
  if f64_eq base f64_zero then f64_of_Z 100
  else f64_mul (f64_div (f64_sub cand base) base) (f64_of_Z 100).

(** [(new as f64 - old as f64) / old as f64 * 100.0]. *)
Definition change_percent_of (old new : Z) : f64 :=
  f64_mul (f64_div (f64_sub (f64_of_Z new) (f64_of_Z old)) (f64_of_Z old)) (f64_of_Z 100).

Definition p99_change_percent (baseline candidate : RunnableSummary) : f64 :=
  if rs_p99_ns baseline =? 0
  then if 0 <? rs_p99_ns candidate then f64_of_Z 100 else f64_zero
  else change_percent_of (rs_p99_ns baseline) (rs_p99_ns candidate).

Definition decide_runnable (baseline candidate : RunnableSummary) (t : RunnableThresholds)
    : ExperimentResult :=
  if (rs_samples baseline <? rt_min_samples t) || (rs_samples candidate <? rt_min_samples t)
  then Inconclusive
  else if rs_over_5ms baseline * rs_samples candidate <? rs_over_5ms candidate * rs_samples baseline
  then Regressed (tail_regression_percent baseline candidate)
  else
    let change := p99_change_percent baseline candidate in
    if f64_ge change (rt_max_regression_percent t) then Regressed change
    else if f64_ge (f64_neg change) (rt_min_improvement_percent t) then Improved (f64_neg change)
    else Inconclusive.

(** [is_none_or(|x| x == 0)]. *)
Definition none_or_zero (o : option Z) : bool :=
  match o with None => true | Some x => x =? 0 end.

Definition population (s : ObjectiveSignals) : option RunnableSummary :=
  if negb (bool_decide (sq_runnable_latency (sig_signal_quality s) = SigDirect))
     || negb (bool_decide (sig_runnable_latency_source s = Some RUNNABLE_HISTOGRAM_SOURCE))
     || none_or_zero (sig_runnable_target_root_pid s)
     || none_or_zero (sig_runnable_target_starttime_ticks s)
  then None
  else match sig_runnable_latency_p99_ns s, sig_runnable_samples s, sig_runnable_over_5ms s,
             sig_runnable_latency_max_ns s with
       | Some p99_ns, Some samples, Some over_5ms, Some max_ns =>
           if samples <? MINIMUM_RUNNABLE_SAMPLES then None
           else if (samples <? over_5ms) || (max_ns <? p99_ns) then None
           else Some {| rs_p99_ns := p99_ns; rs_samples := samples; rs_over_5ms := over_5ms |}
       | _, _, _, _ => None
       end.

Definition target_changed (input : ObjectiveComparisonInput) : bool :=
  let b := oci_baseline_signals input in
  let c := oci_candidate_signals input in
  negb (bool_decide (sig_runnable_target_root_pid b = sig_runnable_target_root_pid c))
  || negb (bool_decide
             (sig_runnable_target_starttime_ticks b = sig_runnable_target_starttime_ticks c)).

Definition tail_regressed (input : ObjectiveComparisonInput) : bool :=
  match sig_runnable_over_5ms (oci_baseline_signals input),
        sig_runnable_samples (oci_baseline_signals input),
        sig_runnable_over_5ms (oci_candidate_signals input),
        sig_runnable_samples (oci_candidate_signals input) with
  | Some base, Some base_samples, Some candidate, Some candidate_samples =>
      if (0 <? base_samples) && (0 <? candidate_samples)
      then base * candidate_samples <? candidate * base_samples
      else false
  | _, _, _, _ => false
  end.

Definition game_runnable_latency_compare (input : ObjectiveComparisonInput) : ExperimentResult :=
  match population (oci_baseline_signals input), population (oci_candidate_signals input) with
  | Some baseline, Some candidate =>
      if target_changed input then Inconclusive
      else unless (reject_if_frame_pacing_regressed input)
             (decide_runnable baseline candidate RunnableThresholds_default)
  | _, _ => Inconclusive
  end.

(** [compile_throughput.rs]. *)
Definition MINIMUM_CHANGE_PERCENT : f64 := f64_of_Z 10.

Definition measurement (s : ObjectiveSignals) : option FixedWorkMeasurement :=
  work ← sig_compile_fixed_work s;
  if negb (bool_decide (FixedWorkMeasurement_validate work = None)) then None
  else if negb (bool_decide (sq_compile_throughput (sig_signal_quality s) = SigDirect))
          || negb (bool_decide (fwi_kind (wp_identity (fw_start work)) = WkCompile))
  then None else Some work.

Definition memory_pressure_regressed (input : ObjectiveComparisonInput) : bool :=
  match sig_memory_pressure_some_avg10_percent (oci_baseline_signals input),
        sig_memory_pressure_some_avg10_percent (oci_candidate_signals input) with
  | Some baseline, Some candidate => f32_gt candidate baseline
  | _, _ => false
  end.

Definition different_work (b c : WorkloadProgress) : bool :=
  negb (bool_decide (wp_identity b = wp_identity c))
  || negb (bool_decide (wp_total_units b = wp_total_units c))
  || negb (bool_decide (wp_source b = wp_source c))
  || negb (wp_target_root_pid b =? wp_target_root_pid c)
  || negb (wp_target_starttime_ticks b =? wp_target_starttime_ticks c).

Definition foreground_unavailable (s : ObjectiveSignals) : bool :=
  is_missing (sq_foreground_latency (sig_signal_quality s))
  || match sig_foreground_over_5ms s with None => true | Some _ => false end.

Definition f32_hundred : f32 := SpecFloat.binary_normalize 24 128 100 0 false.

Definition bad_memory_pressure (s : ObjectiveSignals) : bool :=
  match sig_memory_pressure_some_avg10_percent s with
  | Some v => negb (f64_is_finite v) || negb (f32_ge v f32_zero && f32_ge f32_hundred v)
  | None => false
  end.

Definition compile_throughput_compare (input : ObjectiveComparisonInput) : ExperimentResult :=
  let bs := oci_baseline_signals input in
  let cs := oci_candidate_signals input in
  unless (reject_if_foreground_regressed input)
    match measurement bs, measurement cs with
    | Some baseline, Some candidate =>
        if different_work (fw_start baseline) (fw_start candidate) then Inconclusive
        else if String.eqb (wp_execution_id (fw_start baseline)) (wp_execution_id (fw_start candidate))
                || (wp_monotonic_ns (fw_start candidate) <? wp_monotonic_ns (fw_complete baseline))
        then Inconclusive
        else if foreground_unavailable bs || foreground_unavailable cs then Inconclusive
        else if bad_memory_pressure bs || bad_memory_pressure cs then Inconclusive
        else if memory_pressure_regressed input then Regressed f64_zero
        else
          let change := change_percent_of (wp_elapsed_ns (fw_complete baseline))
                          (wp_elapsed_ns (fw_complete candidate)) in
          if f64_ge change MINIMUM_CHANGE_PERCENT then Regressed change
          else if f64_ge (f64_neg change) MINIMUM_CHANGE_PERCENT then Improved (f64_neg change)
          else Inconclusive
    | _, _ => Inconclusive
    end.

(** ** The decision *)

Definition compare_result_for_objective (input : ObjectiveComparisonInput)
    (generic : ExperimentResult) : ExperimentResult :=
  unless (reject_invalid_or_low_quality input generic)
  (unless (missing_objective_signals input)
  (unless (reject_if_power_or_thermal_regressed input)
    match oci_objective input with
    | OkStutterScore => generic
    | GameFramePacing => game_frame_pacing_compare input generic
    | GameRunnableLatency => game_runnable_latency_compare input
    | DesktopInteractivity | BrowserInteractivity => compare_interactivity_objective input generic
    | CompileThroughputWithForegroundProtection => compile_throughput_compare input
    | IoLatency => io_latency_compare input generic
    | IrqOverlapReduction => irq_overlap_compare input generic
    | ThermalRecoveryObjective => thermal_compare input generic
    end)).

Definition generic_result (input : ObjectiveComparisonInput) : ExperimentResult :=
  compare_experiment
    {| sci_baseline := oci_baseline input; sci_candidate := oci_candidate input;
       sci_data_quality := oci_data_quality input;
       sci_target_disappeared := oci_target_disappeared input |}.

(** [decision.rs]: the names of the guards that failed. *)
Definition fails (cond : bool) (guard : string) : list string := if cond then [guard] else [].

Definition power_or_thermal_guard_failures (input : ObjectiveComparisonInput) : list string :=
  let b := oci_baseline_signals input in
  let c := oci_candidate_signals input in
  fails (turned_on (sig_thermal_degraded b) (sig_thermal_degraded c)) "thermal"
  ++ fails (increased (sig_thermal_throttle_count b) (sig_thermal_throttle_count c)) "thermal"
  ++ fails (turned_on (sig_cpu_power_limited b) (sig_cpu_power_limited c)) "cpu_power"
  ++ fails (turned_on (sig_gpu_power_limited b) (sig_gpu_power_limited c)) "gpu_power".

Definition foreground_guard_failures (input : ObjectiveComparisonInput) (slack : f64)
    : list string :=
  fails (score_frame_regressed input slack) "foreground_frame_pacing"
  ++ fails (foreground_regressed input) "foreground_latency".

Definition objective_specific_guard_failures (input : ObjectiveComparisonInput) : list string :=
  match oci_objective input with
  | GameFramePacing => foreground_guard_failures input (f64_of_Z 2)
  | CompileThroughputWithForegroundProtection =>
      foreground_guard_failures input (f64_of_Z 2)
      ++ fails (memory_pressure_regressed input) "memory_pressure"
  | GameRunnableLatency =>
      fails (tail_regressed input) "runnable_severe_tail"
      ++ fails (bool_decide (frame_p99_comparison input (f64_of_Z 1) = PmRegressed)) "frame_pacing"
      ++ foreground_guard_failures input (f64_of_Z 2)
  | _ => []
  end.

Definition guard_failures_for (input : ObjectiveComparisonInput) (generic : ExperimentResult)
    : list string :=
  match generic with
  | Invalid => ["score_validation"%string]
  | Regressed _ => fails (oci_target_disappeared input) "target_presence"
  | _ => []
  end
  ++ fails (is_low (oci_data_quality input)) "data_quality"
  ++ fails (negb (bool_decide (missing_required_signal_names input = []))) "required_signal"
  ++ power_or_thermal_guard_failures input
  ++ objective_specific_guard_failures input.

(** [explain_for_objective]: the outcome and the guard failures of the decision;
    the descriptive fields (primary signal, confidence, contract) are left out. *)
Record ObjectiveDecision := { od_outcome : ExperimentResult; od_guard_failures : list string }.

Definition explain_for_objective (input : ObjectiveComparisonInput) : ObjectiveDecision :=
  let generic := generic_result input in
  {| od_outcome := compare_result_for_objective input generic;
     od_guard_failures := guard_failures_for input generic |}.

Definition compare_for_objective (input : ObjectiveComparisonInput) : ExperimentResult :=
  od_outcome (explain_for_objective input).

(** ** Theorems *)

Section Verdicts.

Implicit Types (input : ObjectiveComparisonInput) (b c : RunnableSummary).

(** *** Integers behind the floating-point change *)

Lemma change_percent_sign old new :
  0 < old <= new -> new < 2 ^ 128 -> has_sign false (change_percent_of old new).
Proof.
  intros Ho Hn. unfold change_percent_of.
  pose proof (f64_sub_of_Z_sign new old ltac:(lia) Hn) as Hs.
  destruct (f64_of_Z_nonzero old ltac:(lia)) as (m & e & E). rewrite E in Hs |- *.
  destruct (f64_of_Z_nonzero 100 ltac:(lia)) as (m' & e' & ->).
  by apply f64_mul_sign, f64_div_sign.
Qed.

(** A threshold is positive and finite. *)
Definition positive_threshold (t : f64) : Prop := exists m e, t = SpecFloat.S754_finite false m e.

Lemma default_thresholds_positive :
  positive_threshold DEFAULT_MIN_IMPROVEMENT_PERCENT /\ positive_threshold MINIMUM_CHANGE_PERCENT.
Proof. split; eexists _, _; vm_compute; reflexivity. Qed.

Lemma drop_means_smaller old new t :
  0 < old < 2 ^ 128 -> 0 <= new < 2 ^ 128 -> positive_threshold t ->
  f64_ge (f64_neg (change_percent_of old new)) t = true -> new < old.
Proof.
  intros Ho Hn (m & e & ->) H. destruct (Z.lt_ge_cases new old) as [|Hge]; [done|exfalso].
  rewrite neg_not_ge in H by (apply change_percent_sign; lia). done.
Qed.

Definition summary_in_range b : Prop :=
  in_u64 (rs_p99_ns b) /\ in_u64 (rs_samples b) /\ in_u64 (rs_over_5ms b).

Lemma decide_runnable_improved b c t p :
  summary_in_range b -> summary_in_range c -> positive_threshold (rt_min_improvement_percent t) ->
  decide_runnable b c t = Improved p ->
  rs_p99_ns c < rs_p99_ns b
  /\ rs_over_5ms c * rs_samples b <= rs_over_5ms b * rs_samples c
  /\ rt_min_samples t <= rs_samples b /\ rt_min_samples t <= rs_samples c.
Proof.
  intros (Hb & _) (Hc & _) Ht. unfold in_u64 in Hb, Hc. unfold decide_runnable.
  destruct (Z.ltb_spec (rs_samples b) (rt_min_samples t)), (Z.ltb_spec (rs_samples c) (rt_min_samples t));
    cbn [orb]; try done.
  destruct (Z.ltb_spec (rs_over_5ms b * rs_samples c) (rs_over_5ms c * rs_samples b)); [done|].
  destruct (f64_ge _ (rt_max_regression_percent t)); [done|].
  destruct (f64_ge (f64_neg _) _) eqn:E; [|done]. intros _. split; [|done].
  unfold p99_change_percent in E. destruct (Z.eqb_spec (rs_p99_ns b) 0).
  - destruct Ht as (m & ex & Ht). rewrite Ht in E. destruct (0 <? rs_p99_ns c).
    + rewrite neg_not_ge in E; [done|]. by apply f64_of_Z_sign.
    + by rewrite neg_not_ge in E.
  - apply (drop_means_smaller (rs_p99_ns b) (rs_p99_ns c) _ ltac:(lia) ltac:(lia) Ht E).
Qed.

(** *** Guards *)

Lemma fails_nil (cond : bool) guard : cond = false -> fails cond guard = [].
Proof. by intros ->. Qed.

Lemma generic_low input :
  is_low (oci_data_quality input) = true \/ oci_target_disappeared input = true ->
  forall p, generic_result input <> Improved p.
Proof.
  intros H p E. unfold generic_result, compare_experiment, compare_experiment_with_policy in E.
  apply compare_improved in E; [|vm_compute; reflexivity]. cbn in E. destruct E as (_ & H1 & H2 & _).
  destruct H; congruence.
Qed.

Lemma power_guards_nil input :
  reject_if_power_or_thermal_regressed input = None -> power_or_thermal_guard_failures input = [].
Proof.
  unfold reject_if_power_or_thermal_regressed, power_or_thermal_guard_failures.
  destruct (turned_on (sig_thermal_degraded _) _); [done|]. destruct (increased _ _); [done|].
  destruct (turned_on (sig_cpu_power_limited _) _); [done|].
  by destruct (turned_on (sig_gpu_power_limited _) _).
Qed.

Lemma foreground_guards_nil input :
  reject_if_foreground_regressed input = None ->
  foreground_guard_failures input (f64_of_Z 2) = [].
Proof.
  unfold reject_if_foreground_regressed, foreground_guard_failures.
  destruct (score_frame_regressed _ _); [done|]. by destruct (foreground_regressed _).
Qed.

Lemma unless_improved reject k p :
  unless reject k = Improved p -> reject = None /\ k = Improved p \/ reject = Some (Improved p).
Proof. destruct reject; cbn; [intros ->; by right|by left]. Qed.

Lemma reject_foreground_not_improved input p :
  reject_if_foreground_regressed input <> Some (Improved p).
Proof. unfold reject_if_foreground_regressed, objective_regressed. by destruct (_ || _). Qed.

Lemma population_fields s r :
  population s = Some r ->
  sig_runnable_latency_p99_ns s = Some (rs_p99_ns r) /\ sig_runnable_samples s = Some (rs_samples r)
  /\ sig_runnable_over_5ms s = Some (rs_over_5ms r) /\ MINIMUM_RUNNABLE_SAMPLES <= rs_samples r.
Proof.
  unfold population. destruct (_ || _ || _ || _); [done|].
  destruct (sig_runnable_latency_p99_ns s), (sig_runnable_samples s), (sig_runnable_over_5ms s),
    (sig_runnable_latency_max_ns s); try done.
  destruct (Z.ltb_spec z0 MINIMUM_RUNNABLE_SAMPLES); [done|]. destruct (_ || _); [done|].
  by intros [= <-].
Qed.

Lemma runnable_guards_nil input p :
  game_runnable_latency_compare input = Improved p ->
  tail_regressed input = false
  /\ frame_p99_comparison input (f64_of_Z 1) <> PmRegressed
  /\ reject_if_foreground_regressed input = None.
Proof.
  unfold game_runnable_latency_compare.
  destruct (population (oci_baseline_signals input)) as [b|] eqn:Eb; [|done].
  destruct (population (oci_candidate_signals input)) as [c|] eqn:Ec; [|done].
  destruct (target_changed input); [done|]. intros H. apply unless_improved in H as [[Hr Hd]|Hr].
  - unfold reject_if_frame_pacing_regressed in Hr. case_bool_decide as Hf; [done|].
    split; [|done]. apply population_fields in Eb as (_ & Hbs & Hbo & Hb).
    apply population_fields in Ec as (_ & Hcs & Hco & Hc). unfold MINIMUM_RUNNABLE_SAMPLES in *.
    unfold tail_regressed. rewrite Hbs, Hbo, Hcs, Hco.
    destruct (Z.ltb_spec 0 (rs_samples b)), (Z.ltb_spec 0 (rs_samples c)); try lia. cbn [andb].
    revert Hd. unfold decide_runnable. destruct (_ || _); [done|]. by destruct (_ <? _).
  - unfold reject_if_frame_pacing_regressed in Hr. case_bool_decide; [done|].
    by apply reject_foreground_not_improved in Hr.
Qed.

Lemma compile_guards_nil input p :
  compile_throughput_compare input = Improved p ->
  reject_if_foreground_regressed input = None /\ memory_pressure_regressed input = false.
Proof.
  unfold compile_throughput_compare. intros H. apply unless_improved in H as [[Hr H]|Hr];
    [|by apply reject_foreground_not_improved in Hr].
  split; [done|]. destruct (measurement _); [|done]. destruct (measurement _); [|done].
  destruct (different_work _ _); [done|]. destruct (_ || _); [done|]. destruct (_ || _); [done|].
  destruct (_ || _); [done|]. by destruct (memory_pressure_regressed input).
Qed.

Lemma objective_guards_nil input generic p :
  match oci_objective input with
  | GameFramePacing => game_frame_pacing_compare input generic = Improved p
  | GameRunnableLatency => game_runnable_latency_compare input = Improved p
  | CompileThroughputWithForegroundProtection => compile_throughput_compare input = Improved p
  | _ => True
  end -> objective_specific_guard_failures input = [].
Proof.
  unfold objective_specific_guard_failures. destruct (oci_objective input); try done; intros H.
  - apply foreground_guards_nil. unfold game_frame_pacing_compare in H.
    apply unless_improved in H as [[Hr _]|Hr]; [done|by apply reject_foreground_not_improved in Hr].
  - destruct (runnable_guards_nil _ _ H) as (Ht & Hf & Hr).
    rewrite Ht, (foreground_guards_nil _ Hr), (bool_decide_eq_false_2 _ Hf). done.
  - destruct (compile_guards_nil _ _ H) as (Hr & Hm).
    by rewrite (foreground_guards_nil _ Hr), Hm.
Qed.

(** The verdict of the objective itself, before the common gates. *)
Definition objective_verdict input (g : ExperimentResult) : ExperimentResult :=
  match oci_objective input with
  | OkStutterScore => g
  | GameFramePacing => game_frame_pacing_compare input g
  | GameRunnableLatency => game_runnable_latency_compare input
  | DesktopInteractivity | BrowserInteractivity => compare_interactivity_objective input g
  | CompileThroughputWithForegroundProtection => compile_throughput_compare input
  | IoLatency => io_latency_compare input g
  | IrqOverlapReduction => irq_overlap_compare input g
  | ThermalRecoveryObjective => thermal_compare input g
  end.

(** An improvement passed every common gate. *)
Lemma improved_passed_gates input p :
  compare_result_for_objective input (generic_result input) = Improved p ->
  generic_result input <> Invalid /\ oci_target_disappeared input = false
  /\ is_low (oci_data_quality input) = false
  /\ missing_required_signal_names input = []
  /\ reject_if_power_or_thermal_regressed input = None
  /\ objective_verdict input (generic_result input) = Improved p.
Proof.
  unfold compare_result_for_objective. fold (objective_verdict input (generic_result input)).
  pose proof (generic_low input) as Hlow. generalize dependent (generic_result input).
  intros g Hlow H. apply unless_improved in H as [[Hq H]|Hq].
  2: { exfalso. unfold reject_invalid_or_low_quality in Hq. case_bool_decide as Hi; cbn in Hq.
       { rewrite Hi in Hq. done. }
       destruct (oci_target_disappeared input), (is_low (oci_data_quality input)); try done;
         injection Hq as Hq; apply (Hlow ltac:(auto) p Hq). }
  apply unless_improved in H as [[Hm H]|Hm].
  2: { unfold missing_objective_signals in Hm. by destruct (decide _). }
  apply unless_improved in H as [[Hp H]|Hp].
  2: { unfold reject_if_power_or_thermal_regressed, objective_regressed in Hp.
       repeat match type of Hp with (if ?c then _ else _) = _ => destruct c; [done|] end. done. }
  unfold reject_invalid_or_low_quality in Hq. case_bool_decide as Hi; [done|].
  destruct (oci_target_disappeared input); [done|]. destruct (is_low (oci_data_quality input)); [done|].
  unfold missing_objective_signals in Hm. by destruct (decide _).
Qed.

Lemma improved_no_guard_failure input p :
  od_outcome (explain_for_objective input) = Improved p ->
  od_guard_failures (explain_for_objective input) = [].
Proof.
  cbn [explain_for_objective od_outcome od_guard_failures]. intros H.
  apply improved_passed_gates in H as (Hi & Ht & El & Hn & Hp & H).
  unfold guard_failures_for. rewrite El, (power_guards_nil _ Hp), (bool_decide_eq_true_2 _ Hn), Ht.
  rewrite (objective_guards_nil input (generic_result input) p)
    by (unfold objective_verdict in H; by destruct (oci_objective input)).
  by destruct (generic_result input).
Qed.

(** *** Compile throughput *)

Definition elapsed_in_range (s : ObjectiveSignals) : Prop :=
  forall m, sig_compile_fixed_work s = Some m -> in_u64 (wp_elapsed_ns (fw_complete m)).

Lemma measurement_valid s m :
  measurement s = Some m ->
  sig_compile_fixed_work s = Some m /\ FixedWorkMeasurement_validate m = None.
Proof.
  unfold measurement. destruct (sig_compile_fixed_work s) as [w|]; cbn; [|done].
  case_bool_decide as E; cbn; [|done].
  destruct (_ || _); [done|]. by intros [= <-].
Qed.

Lemma measurement_elapsed m :
  FixedWorkMeasurement_validate m = None -> wp_elapsed_ns (fw_complete m) <> 0.
Proof.
  unfold FixedWorkMeasurement_validate, WorkloadProgress_validate, and_check. intros H.
  destruct (FixedWorkIdentity_validate _); [done|]. destruct (first_error _); [done|].
  destruct (FixedWorkIdentity_validate _); [done|].
  destruct (first_error _) eqn:Hc in H; [done|].
  apply first_error_none in H as [Hm _]%Forall_cons_1. cbn in Hm.
  repeat (apply orb_false_iff in Hm as [Hm ?]).
  match goal with Hp : negb (bool_decide (wp_phase (fw_complete m) = _)) = false |- _ =>
    apply negb_false_iff, bool_decide_eq_true in Hp; rewrite Hp in Hc end.
  apply first_error_none in Hc as [_ [Hc _]%Forall_cons_1]%Forall_cons_1. cbn in Hc.
  apply orb_false_iff in Hc as [_ Hc]. lia.
Qed.

Lemma compile_improved_exact input p :
  elapsed_in_range (oci_baseline_signals input) -> elapsed_in_range (oci_candidate_signals input) ->
  compile_throughput_compare input = Improved p ->
  exists (b c : FixedWorkMeasurement),
    measurement (oci_baseline_signals input) = Some b
    /\ measurement (oci_candidate_signals input) = Some c
    /\ wp_elapsed_ns (fw_complete c) < wp_elapsed_ns (fw_complete b)
    /\ wp_identity (fw_start c) = wp_identity (fw_start b)
    /\ wp_monotonic_ns (fw_complete b) <= wp_monotonic_ns (fw_start c).
Proof.
  intros Hb Hc. unfold compile_throughput_compare. intros H. apply unless_improved in H as [[_ H]|Hr];
    [|by apply reject_foreground_not_improved in Hr].
  destruct (measurement (oci_baseline_signals input)) as [b|] eqn:Eb; [|done].
  destruct (measurement (oci_candidate_signals input)) as [c|] eqn:Ec; [|done].
  destruct (different_work _ _) eqn:Ed; [done|]. destruct (String.eqb _ _ || _) eqn:Eo; [done|].
  destruct (foreground_unavailable _ || _); [done|]. destruct (bad_memory_pressure _ || _); [done|].
  destruct (memory_pressure_regressed _); [done|]. destruct (f64_ge _ _); [done|]. destruct (f64_ge (f64_neg _) _) eqn:E; [|done].
  exists b, c. split; [done|]. split; [done|].
  apply measurement_valid in Eb as [Hsb Hvb]. apply measurement_valid in Ec as [Hsc Hvc].
  specialize (Hb _ Hsb). specialize (Hc _ Hsc). unfold in_u64 in Hb, Hc.
  apply measurement_elapsed in Hvb. split; [|split].
  - eapply drop_means_smaller; [| |exact (proj2 default_thresholds_positive)|exact E]; lia.
  - unfold different_work in Ed. case_bool_decide as Hi; [done|done].
  - apply orb_false_iff in Eo as [_ Eo]. apply Z.ltb_ge in Eo. done.
Qed.

(** *** From latencies to the verdict *)

(** The runnable population of signals set from interval records. *)
Lemma runnable_population s0 records lats r :
  window_latencies records lats ->
  population (set_runnable_latency_from_records s0 records) = Some r ->
  let L := List.concat lats in
  L <> [] /\ Forall (fun x => ~ on_threshold x) L
  /\ rs_samples r = Z.of_nat (length L)
  /\ rs_over_5ms r = count_of (fun x => 5000000 < x) L
  /\ window_percentile L ((Z.of_nat (length L) * 990 + 999) / 1000) (rs_p99_ns r).
Proof.
  intros Hw Hp L. pose proof (window_latencies_range _ _ Hw) as Hu.
  pose proof (from_records_spec _ _ Hw) as Hspec. fold L in Hu, Hspec.
  apply population_fields in Hp as (H99 & Hs & Ho & _).
  cbn [set_runnable_latency_from_records sig_runnable_latency_p99_ns sig_runnable_samples
    sig_runnable_over_5ms] in H99, Hs, Ho.
  destruct (from_records records) as [w|e]; [|done]. cbn in H99, Hs, Ho. simplify_eq.
  destruct Hspec as (Hwo & Hne & Hok). destruct Hw as [_ Hlen]. fold L in Hlen.
  split; [done|]. split; [done|]. split; [rewrite <- Hs; apply Hwo|]. split.
  - rewrite <- Ho, (wo_buckets _ _ Hwo). by apply (tail_count_spec L 5000000 11).
  - rewrite <- H99. apply percentile_spec; done || lia.
Qed.

Lemma population_in_range s0 records lats r :
  window_latencies records lats ->
  population (set_runnable_latency_from_records s0 records) = Some r -> summary_in_range r.
Proof.
  intros Hw Hp. destruct (runnable_population _ _ _ _ Hw Hp) as (Hne & _ & Hs & Ho & H99).
  pose proof (window_latencies_range _ _ Hw) as Hu. destruct Hw as [_ Hlen].
  pose proof (count_of_bounds (fun x => 5000000 < x) (List.concat lats)).
  unfold summary_in_range, in_u64. rewrite Hs, Ho. split; [|lia].
  destruct H99 as (Hd & (x & Hin & Hx) & _). rewrite Forall_forall in Hu.
  pose proof (Hu x Hin) as Hux. unfold in_u64 in Hux. split; [|lia].
  destruct (Z.lt_ge_cases (rs_p99_ns r) 0) as [Hneg|]; [exfalso|done].
  unfold dominates in Hd. rewrite count_of_none in Hd.
  - assert (1 <= (Z.of_nat (length (List.concat lats)) * 990 + 999) / 1000); [|lia].
    destruct (List.concat lats); [done|]. cbn [length]. apply Z.div_le_lower_bound; lia.
  - apply Forall_forall. intros y Hy. pose proof (Hu y Hy) as Huy. unfold in_u64 in Huy. lia.
Qed.

Lemma runnable_compare_improved input p :
  oci_objective input = GameRunnableLatency ->
  compare_for_objective input = Improved p ->
  exists b c, population (oci_baseline_signals input) = Some b
    /\ population (oci_candidate_signals input) = Some c
    /\ target_changed input = false
    /\ decide_runnable b c RunnableThresholds_default = Improved p.
Proof.
  intros Ho H. unfold compare_for_objective in H. cbn [explain_for_objective od_outcome] in H.
  apply improved_passed_gates in H as (_ & _ & _ & _ & _ & H).
  unfold objective_verdict in H. rewrite Ho in H. unfold game_runnable_latency_compare in H.
  destruct (population (oci_baseline_signals input)) as [b|]; [|done].
  destruct (population (oci_candidate_signals input)) as [c|]; [|done].
  destruct (target_changed input); [done|]. apply unless_improved in H as [[_ H]|Hr].
  - exists b, c. done.
  - unfold reject_if_frame_pacing_regressed in Hr. case_bool_decide; [done|].
    by apply reject_foreground_not_improved in Hr.
Qed.

End Verdicts.

(** C16. A verdict of improvement has no guard failure: whatever the objective, when
    the comparison calls the candidate improved, the separately computed list of
    failed guards (score validation, target presence, data quality, required
    signals, thermal, power, frame pacing, foreground latency, memory pressure,
    severe tail) is empty. *)
Theorem improved_has_no_guard_failures (input : ObjectiveComparisonInput) (p : f64) :
  od_outcome (explain_for_objective input) = Improved p ->
  od_guard_failures (explain_for_objective input) = [].
Proof. apply improved_no_guard_failure. Qed.

(** A runnable-latency improvement is real, in terms of the latencies behind the
    records that the two populations summarise. *)
Lemma runnable_improvement (input : ObjectiveComparisonInput) (p : f64)
    (sb sc : ObjectiveSignals) (rb rc : list IntervalRecord) (lb lc : list (list Z)) :
  oci_objective input = GameRunnableLatency ->
  population (oci_baseline_signals input) = population (set_runnable_latency_from_records sb rb) ->
  population (oci_candidate_signals input) = population (set_runnable_latency_from_records sc rc) ->
  window_latencies rb lb -> window_latencies rc lc ->
  compare_for_objective input = Improved p ->
  let Lb := List.concat lb in
  let Lc := List.concat lc in
  count_of (fun x => 5000000 < x) Lc * Z.of_nat (length Lb)
    <= count_of (fun x => 5000000 < x) Lb * Z.of_nat (length Lc)
  /\ (forall qb qc,
        order_statistic Lb ((Z.of_nat (length Lb) * 990 + 999) / 1000) qb ->
        order_statistic Lc ((Z.of_nat (length Lc) * 990 + 999) / 1000) qc ->
        qc < qb \/ bucket_idx qc = bucket_idx qb).
Proof.
  intros Ho Hb Hc Hwb Hwc H Lb Lc.
  destruct (runnable_compare_improved _ _ Ho H) as (b & c & Eb & Ec & _ & Hd).
  rewrite Hb in Eb. rewrite Hc in Ec.
  destruct (runnable_population _ _ _ _ Hwb Eb) as (_ & _ & Hsb & Hob & Hpb).
  destruct (runnable_population _ _ _ _ Hwc Ec) as (_ & _ & Hsc & Hoc & Hpc).
  fold Lb in Hsb, Hob, Hpb. fold Lc in Hsc, Hoc, Hpc.
  destruct (decide_runnable_improved b c RunnableThresholds_default p
    (population_in_range _ _ _ _ Hwb Eb) (population_in_range _ _ _ _ Hwc Ec)
    (proj1 default_thresholds_positive) Hd) as (Hlt & Htail & _).
  rewrite Hsb, Hob, Hsc, Hoc in Htail. split; [done|]. intros qb qc Hqb Hqc.
  exact (lower_percentile _ _ _ _ _ _ _ _ Hpb Hpc Hlt Hqb Hqc).
Qed.
