(* ===== verification/Controller.v ===== *)
(** * Controller: candidates, conflicts and kept actions

    [autotune/conflicts.rs], [kept.rs], [planning/candidate.rs] with the plans of
    [planning/executable_plan.rs], and the observation ([observation.rs]) the
    controller decides on.

    An action behind a plan is seen through its identifier, its safety class and what it
    changes; an observation is the fields the controller and the comparison of the live
    configuration read; reasons are texts for people
    and are left out of decisions.  Times are [u128] nanoseconds. *)

From Stdlib Require Import Ascii String List.
From S2P Require Import Nice Prelude Binary64 Abi Metrics Intervals CpuMask Profiles Score PolicyModel ActionModel Procfs Allowlist Journal Objective.
From stdpp Require Import sorting list gmap strings.
Open Scope Z_scope.

(** ** [conflicts.rs] *)

Inductive ActionConflictGroup :=
| CgCpuPlacement | CgCpuPriority | CgIoPriority | CgCgroupPlacement | CgIrqPlacement | CgCpuPower
| CgGpuPower | CgVmMemory | CgThermalRecovery | CgNone.

#[export] Instance ActionConflictGroup_eq_dec : EqDecision ActionConflictGroup.
Proof. solve_decision. Defined.

Definition group_conflicts_with (self other : ActionConflictGroup) : bool :=
  if bool_decide (self = CgNone) || bool_decide (other = CgNone) then false
  else if bool_decide (self = other) then true
  else match self, other with
       | CgCpuPlacement, CgCgroupPlacement | CgCgroupPlacement, CgCpuPlacement
       | CgCpuPriority, CgCgroupPlacement | CgCgroupPlacement, CgCpuPriority
       | CgIrqPlacement, CgCpuPlacement | CgCpuPlacement, CgIrqPlacement
       | CgCpuPower, CgThermalRecovery | CgThermalRecovery, CgCpuPower
       | CgGpuPower, CgThermalRecovery | CgThermalRecovery, CgGpuPower
       | CgVmMemory, CgThermalRecovery | CgThermalRecovery, CgVmMemory => true
       | _, _ => false
       end.

Definition group_rank (g : ActionConflictGroup) : nat :=
  match g with
  | CgCpuPlacement => 0 | CgCpuPriority => 1 | CgIoPriority => 2 | CgCgroupPlacement => 3
  | CgIrqPlacement => 4 | CgCpuPower => 5 | CgGpuPower => 6 | CgVmMemory => 7
  | CgThermalRecovery => 8 | CgNone => 9
  end.

(** ** Candidates *)

Record CandidateEvidence := { ev_signal : string; ev_value : string; ev_weight : f32 }.

(** A plan of a task action and one of a system action. *)
Record TaskPlan := {
  tp_name : string;
  tp_action_id : string;
  tp_safety_class : SafetyClass;
  tp_target_root_pid : option Z;
  tp_evidence : list CandidateEvidence;
  tp_objective : ObjectiveKind }.

Record SystemPlan (A : Type) := {
  sp_name : string;
  sp_action_id : string;
  sp_safety_class : SafetyClass;
  sp_evidence : list CandidateEvidence;
  sp_objective : ObjectiveKind;
  sp_action : A }.

#[global] Arguments sp_name {A}.
#[global] Arguments sp_action_id {A}.
#[global] Arguments sp_safety_class {A}.
#[global] Arguments sp_evidence {A}.
#[global] Arguments sp_objective {A}.
#[global] Arguments sp_action {A}.

(** What the operation of a system action and its allowlist entry are read from. *)
Record IrqAffinityAction := {
  irq_number : Z;
  irq_smp_affinity : string;
  irq_device_hint : string;
  irq_known_device_mapping : bool;
  irq_risk_is_medium : bool }.
Record CpuPowerAction := {
  cpw_cpus : list Z;
  cpw_scaling_governor : option string;
  cpw_energy_performance_preference : option string }.
Record GpuPowerAction := {
  gpw_drm_card : string;
  gpw_power_dpm_force_performance_level : option string;
  gpw_pp_power_profile_mode : option string }.
Record VmKnobChange := { vmc_path : string; vmc_value : string }.
Record VmKnobAction := { vmk_root : string; vmk_changes : list VmKnobChange }.

(** What is asked of which tasks; the nice action is the one of [actions/nice]. *)
Record IoPrioAction := { ipa_targets : list TaskIdentity; ipa_ioprio : IoPrioValue }.

Record UclampValues := { uv_sched_util_min : option Z; uv_sched_util_max : option Z }.

Record UclampAction := { uca_targets : list TaskIdentity; uca_values : UclampValues }.

Record CgroupPlacementAction := {
  cga_target_cgroup : string;
  cga_targets : list (TaskIdentity * TaskClass) }.

Record CpuAffinityProfilePlan := {
  cap_profile_name : string;
  cap_profile : Profile;
  cap_tree_pid : Z;
  cap_objective : ObjectiveKind }.

(** [profiles/apply.rs]. *)
Definition cap_uses_priority_actions (p : CpuAffinityProfilePlan) : bool :=
  profile_uses_priority_actions (cap_profile p).

Inductive CandidateAction :=
| CaCpuAffinityProfile (plan : CpuAffinityProfilePlan)
| CaNice (plan : TaskPlan) (action : NiceAction)
| CaIoPrio (plan : TaskPlan) (action : IoPrioAction)
| CaUclamp (plan : TaskPlan) (action : UclampAction)
| CaCgroupPlacement (plan : TaskPlan) (action : CgroupPlacementAction)
| CaIrqAffinity (plan : SystemPlan IrqAffinityAction)
| CaCpuPower (plan : SystemPlan CpuPowerAction)
| CaGpuPower (plan : SystemPlan GpuPowerAction)
| CaVmKnob (plan : SystemPlan VmKnobAction)
| CaFake (action_id : string) (safety_class : SafetyClass).

Definition candidate_name (c : CandidateAction) : string :=
  match c with
  | CaCpuAffinityProfile p => cap_profile_name p
  | CaNice p _ | CaIoPrio p _ | CaUclamp p _ | CaCgroupPlacement p _ => tp_name p
  | CaIrqAffinity p => sp_name p
  | CaCpuPower p => sp_name p
  | CaGpuPower p => sp_name p
  | CaVmKnob p => sp_name p
  | CaFake _ _ => "fake-profile"
  end.

Definition candidate_action_kind (c : CandidateAction) : string :=
  match c with
  | CaCpuAffinityProfile _ => "cpu_affinity_profile"
  | CaNice _ _ => "nice"
  | CaIoPrio _ _ => "ionice"
  | CaUclamp _ _ => "uclamp"
  | CaCgroupPlacement _ _ => "cgroup_placement"
  | CaIrqAffinity _ => "irq_affinity"
  | CaCpuPower _ => "cpu_power"
  | CaGpuPower _ => "gpu_power"
  | CaVmKnob _ => "vm_knob"
  | CaFake _ _ => "fake"
  end.

Definition candidate_action_id (c : CandidateAction) : string :=
  match c with
  | CaCpuAffinityProfile p => String.append "cpu-affinity-profile:" (cap_profile_name p)
  | CaNice p _ | CaIoPrio p _ | CaUclamp p _ | CaCgroupPlacement p _ => tp_action_id p
  | CaIrqAffinity p => sp_action_id p
  | CaCpuPower p => sp_action_id p
  | CaGpuPower p => sp_action_id p
  | CaVmKnob p => sp_action_id p
  | CaFake id _ => id
  end.

Definition candidate_safety_class (c : CandidateAction) : SafetyClass :=
  match c with
  | CaCpuAffinityProfile p =>
      if cap_uses_priority_actions p then ReversibleMediumRisk else ReversibleLowRisk
  | CaNice p _ | CaIoPrio p _ | CaUclamp p _ | CaCgroupPlacement p _ => tp_safety_class p
  | CaIrqAffinity p => sp_safety_class p
  | CaCpuPower p => sp_safety_class p
  | CaGpuPower p => sp_safety_class p
  | CaVmKnob p => sp_safety_class p
  | CaFake _ s => s
  end.

Definition candidate_effect_scope (c : CandidateAction) : ActionEffectScope :=
  match c with
  | CaCpuAffinityProfile _ | CaNice _ _ | CaIoPrio _ _ | CaUclamp _ _ => LocalProcessTree
  | CaCgroupPlacement _ _ => Cgroup
  | CaIrqAffinity _ => Irq
  | CaCpuPower _ => CpuPower
  | CaGpuPower _ => GpuPower
  | CaVmKnob _ => VmKnob
  | CaFake _ _ => ScopeObserveOnly
  end.

Definition candidate_objective (c : CandidateAction) : ObjectiveKind :=
  match c with
  | CaCpuAffinityProfile p => cap_objective p
  | CaNice p _ | CaIoPrio p _ | CaUclamp p _ | CaCgroupPlacement p _ => tp_objective p
  | CaIrqAffinity p => sp_objective p
  | CaCpuPower p => sp_objective p
  | CaGpuPower p => sp_objective p
  | CaVmKnob p => sp_objective p
  | CaFake _ _ => OkStutterScore
  end.

Definition conflict_group (c : CandidateAction) : ActionConflictGroup :=
  match c with
  | CaCpuAffinityProfile _ => CgCpuPlacement
  | CaNice _ _ | CaUclamp _ _ => CgCpuPriority
  | CaIoPrio _ _ => CgIoPriority
  | CaCgroupPlacement _ _ => CgCgroupPlacement
  | CaIrqAffinity _ => CgIrqPlacement
  | CaCpuPower _ => CgCpuPower
  | CaGpuPower _ => CgGpuPower
  | CaVmKnob _ => CgVmMemory
  | CaFake _ _ => CgNone
  end.

Definition candidate_conflicts_with (c other : CandidateAction) : bool :=
  group_conflicts_with (conflict_group c) (conflict_group other).

Record ApplyEligibility := {
  policy_passed : bool;
  safety_passed : bool;
  rollback_available : bool;
  mode_passed : bool;
  data_quality_passed : bool;
  target_scope_passed : bool;
  capability_passed : bool;
  denial_reason : option string }.

Definition is_applyable (e : ApplyEligibility) : bool :=
  policy_passed e && safety_passed e && rollback_available e && mode_passed e
  && data_quality_passed e && target_scope_passed e && capability_passed e
  && match denial_reason e with None => true | Some _ => false end.

Definition try_promote_to_apply_candidate (c : CandidateAction) (e : ApplyEligibility)
    : CandidateAction * ApplyEligibility + ApplyEligibility :=
  if is_applyable e then inl (c, e) else inr e.

Definition candidate_target_root_pid (c : CandidateAction) : option Z :=
  match c with
  | CaCpuAffinityProfile p => Some (cap_tree_pid p)
  | CaNice p _ | CaIoPrio p _ | CaUclamp p _ | CaCgroupPlacement p _ => tp_target_root_pid p
  | _ => None
  end.

Definition candidate_tree_pid (c : CandidateAction) : Z := default 0 (candidate_target_root_pid c).

Definition is_mutation_provider (c : CandidateAction) : bool :=
  match c with CaFake _ _ => false | _ => true end.

(** [planning/gates.rs]. *)
Definition is_high_risk_system_adjacent (c : CandidateAction) : bool :=
  bool_decide (candidate_safety_class c = HighRisk).

(** ** [kept.rs] *)

Record KeptCandidateState := {
  ks_experiment_id : string;
  ks_current_profile_name : string;
  ks_candidate : CandidateAction;
  ks_baseline_score : WindowScore;
  ks_candidate_score : WindowScore;
  ks_rollback : RollbackToken;
  ks_kept_unix_nanos : Z;
  ks_reason : string }.

Definition KeptCandidateState_new (experiment_id : string) (c : CandidateAction)
    (baseline candidate : WindowScore) (rollback : RollbackToken) (now : Z) (reason : string)
    : KeptCandidateState :=
  {| ks_experiment_id := experiment_id; ks_current_profile_name := candidate_name c;
     ks_candidate := c; ks_baseline_score := baseline; ks_candidate_score := candidate;
     ks_rollback := rollback; ks_kept_unix_nanos := now; ks_reason := reason |}.

Record KeptCandidateHistoryEntry := {
  kh_experiment_id : string;
  kh_profile_name : string;
  kh_kept_unix_nanos : Z;
  kh_result : ExperimentResult;
  kh_reason : string;
  kh_diagnostic_baseline_raw_score_total : Z;
  kh_diagnostic_candidate_raw_score_total : Z;
  kh_rollback_available : bool }.

Definition from_kept_state (s : KeptCandidateState) (r : ExperimentResult)
    : KeptCandidateHistoryEntry :=
  {| kh_experiment_id := ks_experiment_id s; kh_profile_name := ks_current_profile_name s;
     kh_kept_unix_nanos := ks_kept_unix_nanos s; kh_result := r; kh_reason := ks_reason s;
     kh_diagnostic_baseline_raw_score_total := Score.total (score (ks_baseline_score s));
     kh_diagnostic_candidate_raw_score_total := Score.total (score (ks_candidate_score s));
     kh_rollback_available := true |}.

(** The map from groups, as the association list in the order of the groups. *)
Definition KeptActionSet := list (ActionConflictGroup * KeptCandidateState).

Definition kept_values (k : KeptActionSet) : list KeptCandidateState := k.*2.

Fixpoint kept_get (k : KeptActionSet) (g : ActionConflictGroup) : option KeptCandidateState :=
  match k with
  | [] => None
  | (g', s) :: rest => if decide (g' = g) then Some s else kept_get rest g
  end.

Fixpoint kept_insert (k : KeptActionSet) (g : ActionConflictGroup) (s : KeptCandidateState)
    : KeptActionSet :=
  match k with
  | [] => [(g, s)]
  | (g', s') :: rest =>
      if decide (g' = g) then (g, s) :: rest
      else if (group_rank g <? group_rank g')%nat then (g, s) :: (g', s') :: rest
      else (g', s') :: kept_insert rest g s
  end.

Definition kept_remove (k : KeptActionSet) (g : ActionConflictGroup)
    : KeptActionSet * option KeptCandidateState :=
  (filter (fun e => e.1 <> g) k, kept_get k g).

Definition most_recent (k : KeptActionSet) : option KeptCandidateState :=
  max_by_key ks_kept_unix_nanos (kept_values k).

Definition conflicting_action (k : KeptActionSet) (c : CandidateAction)
    : option KeptCandidateState :=
  List.find (fun s => candidate_conflicts_with c (ks_candidate s)) (kept_values k).

(** [None]: the insertion is refused. *)
Definition insert_if_compatible (k : KeptActionSet) (s : KeptCandidateState)
    : option KeptActionSet :=
  let g := conflict_group (ks_candidate s) in
  match kept_get k g with
  | Some _ => None
  | None =>
      match conflicting_action k (ks_candidate s) with
      | Some _ => None
      | None => Some (kept_insert k g s)
      end
  end.

Record ActiveProfileState := {
  kept_actions : KeptActionSet;
  kept_history : list KeptCandidateHistoryEntry }.

Definition current_rollback (a : ActiveProfileState) : option RollbackToken :=
  ks_rollback <$> most_recent (kept_actions a).

Definition comparison_baseline_for_next_experiment (a : ActiveProfileState) : option WindowScore :=
  ks_candidate_score <$> most_recent (kept_actions a).

Definition record_kept_candidate (a : ActiveProfileState) (s : KeptCandidateState)
    (r : ExperimentResult) : option ActiveProfileState :=
  kept ← insert_if_compatible (kept_actions a) s;
  Some {| kept_actions := kept; kept_history := kept_history a ++ [from_kept_state s r] |}.

Definition abandon_kept_actions_for_external_resync (a : ActiveProfileState)
    : ActiveProfileState * nat :=
  ({| kept_actions := []; kept_history := kept_history a |}, length (kept_actions a)).

(** ** [controller.rs] *)

Inductive AutotuneMode := AmObserve | AmSuggest | AmApplyLowRisk | AmApplyMediumRisk | AmApplyHighRisk.

Inductive FocusGroupKind :=
| FgGame | FgBrowser | FgCompile | FgMedia | FgRecording | FgVirtualMachine | FgDesktop | FgIdle
| FgUnknown.

(** [activity.rs]. *)
Inductive ActivityLevel := AlActive | AlSlowingDown | AlIdle.

Inductive OnlineDataQuality := OqHigh | OqMedium (reasons : list string) | OqLow (reasons : list string).

(** [WorkloadIdentity] of [observation.rs]; the distribution is a map in key order. *)
Record WorkloadIdentity := {
  wi_root_pid : Z;
  wi_process_starttime_ticks : option Z;
  wi_exe_dev : option Z;
  wi_exe_ino : option Z;
  wi_cgroup_path : option string;
  wi_focus_kind : option FocusGroupKind;
  wi_class_distribution : list (string * Z);
  wi_stable_hash : string }.

(** *** [observation.rs]: the configuration that is live *)

Record CpuPolicyRuntimeState := {
  crs_policy : string;
  crs_scaling_governor : option string;
  crs_energy_performance_preference : option string;
  crs_related_cpus : option string }.

Record GpuPowerRuntimeState := {
  grs_device : string;
  grs_power_dpm_force_performance_level : option string;
  grs_pp_power_profile_mode : option string }.

Record ActiveConfigSnapshot := {
  acs_affinity : gmap Z string;
  acs_nice : gmap Z Z;
  acs_ionice : gmap Z string;
  acs_uclamp : gmap Z UclampValues;
  acs_cgroup : gmap Z string;
  acs_irq : gmap Z string;
  acs_cpu_power : list CpuPolicyRuntimeState;
  acs_gpu_power : list GpuPowerRuntimeState;
  acs_vm : gmap string string }.

(** The fields of an [AutotuneObservation] the controller, the comparison of the live
    configuration and the planner read. *)
Record AutotuneObservation := {
  ob_now_unix_nanos : Z;
  ob_elapsed_ms : Z;
  ob_target_present : bool;
  ob_target_root_pid : option Z;
  ob_active_target_count : Z;
  ob_scored_task_count : Z;
  ob_interval_count : Z;
  ob_scored_samples : Z;
  ob_score : StutterScore;
  ob_data_quality : OnlineDataQuality;
  ob_activity_level : ActivityLevel;
  ob_objective_signals : ObjectiveSignals;
  ob_primary_situation : SituationKind;
  ob_focus_kind : option FocusGroupKind;
  ob_focus_confidence : f32;
  ob_focus_reasons : list string;
  ob_topology_signature : option string;
  ob_workload_identity : option WorkloadIdentity;
  ob_active_tasks : list ActiveTaskSnapshot;
  ob_active_config_snapshot : option ActiveConfigSnapshot;
  ob_frame_p99_ms : f64;
  ob_frame_max_ms : f64 }.

Definition focus_is_idle_or_unknown (o : AutotuneObservation) : bool :=
  match ob_focus_kind o with None | Some FgIdle | Some FgUnknown => true | _ => false end
  || match ob_primary_situation o with SkIdle | SkUnknown => true | _ => false end.

Definition focus_has_critical_realtime_warning (o : AutotuneObservation) : bool :=
  existsb (fun reason =>
      let lower := to_ascii_lowercase reason in
      contains lower "critical realtime" || contains lower "critical realtime/input"
      || contains lower "audio realtime" || contains lower "input process")
    (ob_focus_reasons o).

Definition U128_SAT_MUL (x y : Z) : Z := Z.min (x * y) U128_MAX.

Definition to_window_score (o : AutotuneObservation) : WindowScore :=
  let s := ob_score o in
  {| started_unix_nanos :=
       saturating_sub (ob_now_unix_nanos o) (U128_SAT_MUL (ob_elapsed_ms o) 1000000);
     finished_unix_nanos := ob_now_unix_nanos o;
     interval_count := ob_interval_count o;
     scored_samples := ob_scored_samples o;
     scored_task_count := ob_scored_task_count o;
     score :=
       {| Score.total := Score.total s; over_1ms := over_1ms s; over_2ms := over_2ms s;
          over_5ms := over_5ms s; max_latency_ns := max_latency_ns s;
          frame_max_ms := ob_frame_max_ms o; frame_p99_ms := ob_frame_p99_ms o;
          frame_over_16ms := frame_over_16ms s; frame_over_33ms := frame_over_33ms s;
          frame_over_50ms := frame_over_50ms s |} |}.

(** ** Theorems *)

Lemma group_conflicts_sym a b : group_conflicts_with a b = group_conflicts_with b a.
Proof. by destruct a, b. Qed.

Lemma group_rank_inj a b : group_rank a = group_rank b -> a = b.
Proof. by destruct a, b. Qed.

(** *** Kept actions *)

Section Kept.

Implicit Types (k : KeptActionSet) (s : KeptCandidateState) (g : ActionConflictGroup).

Definition entry_lt (a b : ActionConflictGroup * KeptCandidateState) : Prop :=
  (group_rank a.1 < group_rank b.1)%nat.

(** The entries are ordered by their groups (one entry a group), each under the
    group of its candidate, and no two candidates conflict. *)
Record kept_ok k : Prop := {
  kept_sorted : StronglySorted entry_lt k;
  kept_keys : Forall (fun e => e.1 = conflict_group (ks_candidate e.2)) k;
  kept_compatible :
    forall e f, e ∈ k -> f ∈ k -> e.1 <> f.1 ->
      candidate_conflicts_with (ks_candidate e.2) (ks_candidate f.2) = false }.

Lemma kept_get_elem k g s : kept_get k g = Some s -> (g, s) ∈ k.
Proof.
  induction k as [|[g' s'] k IH]; [done|]. cbn. case_decide; intros; simplify_eq; set_solver.
Qed.

Lemma kept_get_none k g e : kept_get k g = None -> e ∈ k -> e.1 <> g.
Proof.
  induction k as [|[g' s'] k IH]; [set_solver|]. cbn. case_decide; [done|]. intros Hn.
  rewrite elem_of_cons. intros [->|He]; auto.
Qed.

Lemma kept_insert_elem k g s e : e ∈ kept_insert k g s -> e = (g, s) \/ e ∈ k.
Proof.
  induction k as [|[g' s'] k IH]; cbn; [set_solver|].
  repeat (case_decide || case_match); set_solver.
Qed.

Lemma kept_insert_in k g s : (g, s) ∈ kept_insert k g s.
Proof.
  induction k as [|[g' s'] k IH]; cbn; [set_solver|].
  repeat (case_decide || case_match); set_solver.
Qed.

Lemma kept_insert_keeps k g s e : e ∈ k -> e.1 <> g -> e ∈ kept_insert k g s.
Proof.
  induction k as [|[g' s'] k IH]; cbn; [set_solver|]. intros He Hne.
  apply elem_of_cons in He as [->|He]; repeat (case_decide || case_match); set_solver.
Qed.

Lemma kept_insert_sorted k g s :
  StronglySorted entry_lt k -> StronglySorted entry_lt (kept_insert k g s).
Proof.
  induction 1 as [|[g' s'] k Hs IH Hlt]; cbn [kept_insert]; [repeat constructor|].
  case_decide as Hg; [subst; by constructor|]. destruct (_ <? _)%nat eqn:Hr.
  - apply Nat.ltb_lt in Hr. repeat constructor; auto.
    eapply Forall_impl; [exact Hlt|]. unfold entry_lt. cbn. lia.
  - apply Nat.ltb_ge in Hr. constructor; [done|]. apply Forall_forall. intros e He.
    apply kept_insert_elem in He as [->|He]; [|by eapply Forall_forall in Hlt].
    unfold entry_lt. cbn. assert (group_rank g' <> group_rank g) by (intros E; by apply group_rank_inj in E).
    lia.
Qed.

Lemma candidate_conflicts_sym a b : candidate_conflicts_with a b = candidate_conflicts_with b a.
Proof. apply group_conflicts_sym. Qed.

(** An action is refused exactly when one of its group or one in conflict is kept. *)
Lemma insert_if_compatible_refused k s :
  insert_if_compatible k s = None <->
  is_Some (kept_get k (conflict_group (ks_candidate s))) \/
  exists e, e ∈ k /\ candidate_conflicts_with (ks_candidate s) (ks_candidate e.2) = true.
Proof.
  unfold insert_if_compatible, conflicting_action, kept_values.
  destruct (kept_get k _) as [s'|] eqn:Hg; [split; [by left|done]|].
  destruct (List.find _ _) as [s'|] eqn:Hf.
  - split; [|done]. intros _. right. apply find_some in Hf as [Hin Hc].
    apply list_elem_of_In, list_elem_of_fmap in Hin as (e & -> & He). eauto.
  - split; [done|]. intros [[? ?]|(e & He & Hc)]; [done|].
    eapply find_none in Hf; [|apply list_elem_of_In, list_elem_of_fmap_2, He]. cbn in Hf. congruence.
Qed.

Lemma insert_if_compatible_ok k s k' :
  kept_ok k -> insert_if_compatible k s = Some k' ->
  kept_ok k' /\ (conflict_group (ks_candidate s), s) ∈ k' /\ (forall e, e ∈ k -> e ∈ k').
Proof.
  intros [Hs Hk Hc] Hi.
  assert (Hno : ~ (is_Some (kept_get k (conflict_group (ks_candidate s))) \/
                   exists e, e ∈ k /\ candidate_conflicts_with (ks_candidate s) (ks_candidate e.2) = true)).
  { rewrite <- insert_if_compatible_refused. by rewrite Hi. }
  unfold insert_if_compatible in Hi.
  destruct (kept_get k _) eqn:Hg; [done|]. destruct (conflicting_action _ _); [done|].
  injection Hi as <-.
  assert (Hfree : forall e, e ∈ k -> candidate_conflicts_with (ks_candidate s) (ks_candidate e.2) = false).
  { intros e He. apply not_true_is_false. intros Ht. apply Hno. eauto. }
  split; [split|split].
  - by apply kept_insert_sorted.
  - apply Forall_forall. intros e He. apply kept_insert_elem in He as [->|He]; [done|].
    by eapply Forall_forall in Hk.
  - intros e f He Hf Hne. apply kept_insert_elem in He as [->|He], Hf as [->|Hf]; cbn in *; auto.
    + done.
    + rewrite candidate_conflicts_sym. auto.
  - apply kept_insert_in.
  - intros e He. apply kept_insert_keeps; [done|]. by eapply kept_get_none.
Qed.

Lemma StronglySorted_filter {A} (R : A -> A -> Prop) (P : A -> Prop) `{!forall x, Decision (P x)} l :
  StronglySorted R l -> StronglySorted R (filter P l).
Proof.
  induction 1 as [|x l Hs IH Hx]; [constructor|]. rewrite filter_cons. case_decide; [|done].
  constructor; [done|]. apply Forall_forall. intros y [_ Hy]%list_elem_of_filter.
  by eapply Forall_forall in Hx.
Qed.

Lemma kept_remove_ok k g : kept_ok k -> kept_ok (kept_remove k g).1.
Proof.
  intros [Hs Hk Hc]. cbn. split.
  - by apply StronglySorted_filter.
  - apply Forall_forall. intros e [_ He]%list_elem_of_filter. by eapply Forall_forall in Hk.
  - intros e f [_ He]%list_elem_of_filter [_ Hf]%list_elem_of_filter. auto.
Qed.

(** The operations on the profile state: keep one more action, drop one, forget
    all of them after an external change. *)
Inductive profile_step : ActiveProfileState -> ActiveProfileState -> Prop :=
| step_keep a s r a' : record_kept_candidate a s r = Some a' -> profile_step a a'
| step_remove a g :
    profile_step a
      {| kept_actions := (kept_remove (kept_actions a) g).1; kept_history := kept_history a |}
| step_abandon a : profile_step a (abandon_kept_actions_for_external_resync a).1.

Definition ActiveProfileState_default : ActiveProfileState :=
  {| kept_actions := []; kept_history := [] |}.

(** Every kept action is in the history, with its rollback. *)
Definition in_history (h : list KeptCandidateHistoryEntry) (e : ActionConflictGroup * KeptCandidateState)
    : Prop :=
  exists r, from_kept_state e.2 r ∈ h.

Definition profile_ok (a : ActiveProfileState) : Prop :=
  kept_ok (kept_actions a) /\ Forall (in_history (kept_history a)) (kept_actions a).

Lemma profile_step_ok a a' : profile_ok a -> profile_step a a' -> profile_ok a'.
Proof.
  intros [Hk Hh] Hstep. destruct Hstep as [a s r a' Hr|a g|a].
  - unfold record_kept_candidate in Hr. destruct (insert_if_compatible _ _) as [k'|] eqn:Hi; [|done].
    injection Hr as <-. destruct (insert_if_compatible_ok _ _ _ Hk Hi) as (Hk' & _ & _).
    split; [done|]. cbn. unfold insert_if_compatible in Hi.
    destruct (kept_get _ _); [done|]. destruct (conflicting_action _ _); [done|]. injection Hi as <-.
    apply Forall_forall. intros e [->|He]%kept_insert_elem; [exists r; set_solver|].
    eapply Forall_forall in Hh as [r' Hr']; [|exact He]. exists r'. set_solver.
  - split; [by apply kept_remove_ok|]. cbn. apply Forall_forall.
    intros e [_ He]%list_elem_of_filter. by eapply Forall_forall in Hh.
  - split; [|constructor]. split; [constructor|constructor|]. intros e f He. by apply not_elem_of_nil in He.
Qed.

Lemma profile_reachable_ok a : rtc profile_step ActiveProfileState_default a -> profile_ok a.
Proof.
  intros Hr. apply (rtc_ind_l (fun x => profile_ok x -> profile_ok a) a) in Hr; auto.
  - intros x y Hxy _ IH Hx. apply IH. by eapply profile_step_ok.
  - split; [|constructor]. split; [constructor|constructor|]. intros e f He. by apply not_elem_of_nil in He.
Qed.

End Kept.

(** In every state the active profile can reach, by keeping candidates, removing kept
    ones and abandoning them all, the kept actions are ordered by conflict group with one
    action a group, each under the group of its candidate, no two of them conflict, and
    every one is in the history with its rollback. *)
Theorem kept_actions_never_conflict a :
  rtc profile_step ActiveProfileState_default a ->
  NoDup (kept_actions a).*1 /\
  (forall g s, (g, s) ∈ kept_actions a -> g = conflict_group (ks_candidate s) /\
     exists r, from_kept_state s r ∈ kept_history a) /\
  (forall e f, e ∈ kept_actions a -> f ∈ kept_actions a -> e.1 <> f.1 ->
     candidate_conflicts_with (ks_candidate e.2) (ks_candidate f.2) = false).
Proof.
  intros [[Hs Hk Hc] Hh]%profile_reachable_ok. split; [|split; [|done]].
  - clear -Hs. induction Hs as [|x l Hs IH Hx]; cbn; [constructor|]. constructor; [|done].
    intros (y & E & Hy)%list_elem_of_fmap. eapply Forall_forall in Hx; [|exact Hy].
    unfold entry_lt in Hx. rewrite E in Hx. lia.
  - intros g s Hin. split.
    + eapply Forall_forall in Hk; [|exact Hin]. exact Hk.
    + eapply Forall_forall in Hh; [|exact Hin]. exact Hh.
Qed.
