(* ===== verification/AutonomousGate.v ===== *)
(** * AutonomousGate: what may be applied without being asked

    [autotune/operation/mod.rs] (the operation a candidate performs, read from its
    payload), [autotune/situation_model.rs] (the dimensions of a situation and the
    pressure the direct signals establish), the tiers of [capability_tiers.rs], the
    maturity of [autotune/objective/descriptor.rs] and the gate and registry of
    [autotune/autonomous_support/mod.rs]. *)

From Stdlib Require Import String List.
From S2P Require Import Prelude Abi Score PolicyModel Allowlist Objective Controller.
From stdpp Require Import list.
Open Scope Z_scope.

(** ** [operation/mod.rs] *)

Inductive MutationOperationKind :=
| OpCpuAffinityProfile | OpUclamp | OpNice | OpIoPrio | OpCgroupPlacement
| OpCpuPowerEpp | OpCpuPowerGovernor | OpGpuPowerProfile | OpGpuForcePerformance
| OpVmSwappiness | OpVmDirtyBackgroundRatio | OpVmDirtyRatio | OpIrqKnownDevice
| OpIrqStorageOrUnknown | OpUnclassified.

#[export] Instance MutationOperationKind_eq_dec : EqDecision MutationOperationKind.
Proof. solve_decision. Defined.

Definition capability_id (o : MutationOperationKind) : option string :=
  match o with
  | OpCpuAffinityProfile => Some "cpu_affinity_experiment"
  | OpUclamp => Some "uclamp_experiment"
  | OpNice => Some "nice_experiment"
  | OpIoPrio => Some "ioprio_experiment"
  | OpCgroupPlacement => Some "cgroup_placement_experiment"
  | OpCpuPowerEpp => Some "cpu_power_epp"
  | OpCpuPowerGovernor => Some "cpu_power_governor"
  | OpGpuPowerProfile => Some "gpu_power_profile"
  | OpGpuForcePerformance => Some "gpu_force_performance"
  | OpVmSwappiness => Some "vm_swappiness"
  | OpVmDirtyBackgroundRatio => Some "vm_dirty_background_ratio"
  | OpVmDirtyRatio => Some "vm_dirty_ratio"
  | OpIrqKnownDevice => Some "irq_affinity_known_device"
  | OpIrqStorageOrUnknown => Some "irq_affinity_storage_or_unknown"
  | OpUnclassified => None
  end%string.

Definition prepared_transaction_implemented (o : MutationOperationKind) : bool :=
  match o with
  | OpCpuAffinityProfile | OpUclamp | OpNice | OpCgroupPlacement | OpCpuPowerEpp => true
  | _ => false
  end.

Definition is_manual_only (o : MutationOperationKind) : bool :=
  match o with
  | OpCpuPowerGovernor | OpGpuForcePerformance | OpVmDirtyBackgroundRatio | OpVmDirtyRatio
  | OpIrqStorageOrUnknown | OpUnclassified => true
  | _ => false
  end.

Definition irq_operation (a : IrqAffinityAction) : MutationOperationKind :=
  if irq_known_device_mapping a && irq_risk_is_medium a then OpIrqKnownDevice
  else OpIrqStorageOrUnknown.

Definition cpu_power_operation (a : CpuPowerAction) : MutationOperationKind :=
  match cpw_scaling_governor a, cpw_energy_performance_preference a with
  | Some _, _ => OpCpuPowerGovernor
  | None, Some _ => OpCpuPowerEpp
  | None, None => OpUnclassified
  end.

Definition gpu_power_operation (a : GpuPowerAction) : MutationOperationKind :=
  match gpw_power_dpm_force_performance_level a, gpw_pp_power_profile_mode a with
  | Some _, _ => OpGpuForcePerformance
  | None, Some _ => OpGpuPowerProfile
  | None, None => OpUnclassified
  end.

Definition knob_operation (name : string) : option MutationOperationKind :=
  if String.eqb name "swappiness" then Some OpVmSwappiness
  else if String.eqb name "dirty_background_ratio" then Some OpVmDirtyBackgroundRatio
  else if String.eqb name "dirty_ratio" then Some OpVmDirtyRatio
  else None.

(** The riskier of the operation so far and this one. *)
Definition riskier_knob (operation : option MutationOperationKind) (this : MutationOperationKind)
    : MutationOperationKind :=
  match operation, this with
  | Some OpVmDirtyRatio, _ | _, OpVmDirtyRatio => OpVmDirtyRatio
  | Some OpVmDirtyBackgroundRatio, _ | _, OpVmDirtyBackgroundRatio => OpVmDirtyBackgroundRatio
  | _, _ => OpVmSwappiness
  end.

Fixpoint vm_operation_from (operation : option MutationOperationKind) (changes : list VmKnobChange)
    : MutationOperationKind :=
  match changes with
  | [] => default OpUnclassified operation
  | change :: rest =>
      match file_name (vmc_path change) ≫= knob_operation with
      | None => OpUnclassified
      | Some this => vm_operation_from (Some (riskier_knob operation this)) rest
      end
  end.

Definition vm_operation (a : VmKnobAction) : MutationOperationKind :=
  vm_operation_from None (vmk_changes a).

Definition operation_kind (c : CandidateAction) : MutationOperationKind :=
  match c with
  | CaCpuAffinityProfile p =>
      if cap_uses_priority_actions p then OpUnclassified else OpCpuAffinityProfile
  | CaNice _ _ => OpNice
  | CaIoPrio _ _ => OpIoPrio
  | CaUclamp _ _ => OpUclamp
  | CaCgroupPlacement _ _ => OpCgroupPlacement
  | CaIrqAffinity p => irq_operation (sp_action p)
  | CaCpuPower p => cpu_power_operation (sp_action p)
  | CaGpuPower p => gpu_power_operation (sp_action p)
  | CaVmKnob p => vm_operation (sp_action p)
  | CaFake _ _ => OpUnclassified
  end.

(** ** [situation_model.rs] *)

Inductive SituationWorkload :=
| SwGame | SwCompile | SwBrowser | SwMedia | SwRecording | SwVirtualMachine | SwDesktop | SwIdle
| SwUnknown.

Inductive PressureKind := PkScheduler | PkCpu | PkGpu | PkIo | PkIrq | PkMemory | PkThermal | PkPower.

#[export] Instance SituationWorkload_eq_dec : EqDecision SituationWorkload.
Proof. solve_decision. Defined.
#[export] Instance PressureKind_eq_dec : EqDecision PressureKind.
Proof. solve_decision. Defined.

Definition situation_workload (s : SituationKind) : SituationWorkload :=
  match s with
  | GameFocused | GameCpuSchedulerPressure | GameGpuBound => SwGame
  | CompileLoad | CompileCpuBound | CompileLinkerPressure => SwCompile
  | BrowserFocused | BrowserCpuPressure | BrowserGpuVideo | BrowserIoPressure => SwBrowser
  | MediaPlayback => SwMedia
  | SkRecording => SwRecording
  | VirtualMachineLoad => SwVirtualMachine
  | CompositorPressure | CpuPressure | IoPressure | IrqPressure | ThermalOrPowerLimit => SwDesktop
  | SkIdle => SwIdle
  | SkUnknown => SwUnknown
  end.

Definition situation_pressure (s : SituationKind) : option PressureKind :=
  match s with
  | GameCpuSchedulerPressure | CompositorPressure => Some PkScheduler
  | CpuPressure | BrowserCpuPressure | CompileCpuBound => Some PkCpu
  | GameGpuBound | BrowserGpuVideo => Some PkGpu
  | IoPressure | BrowserIoPressure | CompileLinkerPressure => Some PkIo
  | IrqPressure => Some PkIrq
  | ThermalOrPowerLimit => Some PkThermal
  | GameFocused | CompileLoad | BrowserFocused | MediaPlayback | SkRecording | VirtualMachineLoad
  | SkIdle | SkUnknown => None
  end.

(** ** [capability_tiers.rs] *)

Inductive CapabilityTier := TierSupported | TierExperimental | TierInternal | TierDisabled.

#[export] Instance CapabilityTier_eq_dec : EqDecision CapabilityTier.
Proof. solve_decision. Defined.

(** The identifier and the tier of each capability, in order. *)
Definition CAPABILITIES : list (string * CapabilityTier) :=
  [("doctor", TierSupported); ("record", TierSupported); ("bench", TierSupported);
   ("report", TierSupported); ("diagnose", TierExperimental); ("advisor", TierExperimental);
   ("tune_evaluation", TierExperimental); ("audit", TierSupported);
   ("restore", TierExperimental); ("cpu_affinity_experiment", TierSupported);
   ("uclamp_experiment", TierExperimental); ("nice_experiment", TierExperimental);
   ("ioprio_experiment", TierExperimental); ("cgroup_placement_experiment", TierSupported);
   ("cpu_power_epp", TierExperimental); ("cpu_power_governor", TierExperimental);
   ("gpu_power_profile", TierExperimental); ("gpu_force_performance", TierExperimental);
   ("vm_swappiness", TierExperimental); ("vm_dirty_background_ratio", TierExperimental);
   ("vm_dirty_ratio", TierExperimental); ("irq_affinity_known_device", TierExperimental);
   ("irq_affinity_storage_or_unknown", TierExperimental);
   ("bounded_autotune_controller", TierSupported); ("always_on_autotune", TierExperimental);
   ("remote_agent_mutation", TierExperimental); ("privileged_worker", TierInternal);
   ("fake_action_provider", TierInternal); ("completions", TierSupported)]%string.

(** ** [objective/descriptor.rs] *)

Inductive ObjectiveMaturity := OmExperimental | OmValidating | OmSupported.

#[export] Instance ObjectiveMaturity_eq_dec : EqDecision ObjectiveMaturity.
Proof. solve_decision. Defined.

Definition objective_maturity (o : ObjectiveKind) : ObjectiveMaturity :=
  match o with
  | GameRunnableLatency => OmSupported
  | CompileThroughputWithForegroundProtection => OmValidating
  | OkStutterScore | GameFramePacing | DesktopInteractivity | BrowserInteractivity | IoLatency
  | IrqOverlapReduction | ThermalRecoveryObjective => OmExperimental
  end.

Definition objective_autonomous_apply_allowed (o : ObjectiveKind) : bool := true.

(** ** [autonomous_support/mod.rs] *)

Record AutonomousContract := {
  ac_operation : MutationOperationKind;
  ac_workload : SituationWorkload;
  ac_pressure : PressureKind;
  ac_objective : ObjectiveKind;
  ac_effect_scope : ActionEffectScope }.

Definition AUTONOMOUS_CONTRACTS : list AutonomousContract :=
  [ {| ac_operation := OpCpuAffinityProfile; ac_workload := SwGame; ac_pressure := PkScheduler;
       ac_objective := GameRunnableLatency; ac_effect_scope := LocalProcessTree |};
    {| ac_operation := OpCgroupPlacement; ac_workload := SwGame; ac_pressure := PkScheduler;
       ac_objective := GameRunnableLatency; ac_effect_scope := Cgroup |} ].

Record ValidationOverride := {
  vo_operation : MutationOperationKind;
  vo_objective : ObjectiveKind;
  vo_campaign_id : string }.

Definition validation_covers (v : ValidationOverride) (operation : MutationOperationKind)
    (objective : ObjectiveKind) (source : ActionSource) : bool :=
  negb (bool_decide (source = RemoteAgent)) && bool_decide (vo_operation v = operation)
  && bool_decide (vo_objective v = objective).

Record AutonomousGateInput := {
  ag_operation : MutationOperationKind;
  ag_objective : ObjectiveKind;
  ag_situation : SituationKind;
  ag_effect_scope : ActionEffectScope;
  ag_source : ActionSource;
  ag_validation_override : option ValidationOverride }.

Inductive AutonomousDenial :=
| OperationNotAutonomous
| ObjectiveNotSupported (maturity : ObjectiveMaturity)
| ObjectiveAutonomousApplyNotAllowed
| CapabilityTierNotSupported
| PreparedTransactionMissing
| NotInSupportRegistry
| OutsideValidationScope.

Definition capability_supported (o : MutationOperationKind) : bool :=
  match capability_id o with
  | None => false
  | Some id =>
      existsb (fun c => String.eqb c.1 id && bool_decide (c.2 = TierSupported)) CAPABILITIES
  end.

Definition registry_allows (i : AutonomousGateInput) (contracts : list AutonomousContract) : bool :=
  let workload := situation_workload (ag_situation i) in
  let pressure := situation_pressure (ag_situation i) in
  existsb (fun c =>
      bool_decide (ac_operation c = ag_operation i)
      && bool_decide (ac_objective c = ag_objective i)
      && bool_decide (ac_effect_scope c = ag_effect_scope i)
      && bool_decide (ac_workload c = workload)
      && bool_decide (Some (ac_pressure c) = pressure))
    contracts.

Record GateFacts := {
  gf_maturity : ObjectiveMaturity;
  gf_autonomous_apply_allowed : bool;
  gf_capability_supported : bool;
  gf_contracts : list AutonomousContract }.

(** [None] is [Ok]. *)
Definition gate_without_override (i : AutonomousGateInput) (f : GateFacts)
    : option AutonomousDenial :=
  if negb (bool_decide (gf_maturity f = OmSupported)) then Some (ObjectiveNotSupported (gf_maturity f))
  else if negb (gf_autonomous_apply_allowed f) then Some ObjectiveAutonomousApplyNotAllowed
  else if negb (gf_capability_supported f) then Some CapabilityTierNotSupported
  else if negb (prepared_transaction_implemented (ag_operation i))
       then Some PreparedTransactionMissing
  else if negb (registry_allows i (gf_contracts f)) then Some NotInSupportRegistry
  else None.

Definition autonomous_apply_gate_with (i : AutonomousGateInput) (f : GateFacts)
    : option AutonomousDenial :=
  if is_manual_only (ag_operation i) then Some OperationNotAutonomous
  else match ag_validation_override i with
       | Some grant =>
           if bool_decide (ag_source i = RemoteAgent) then gate_without_override i f
           else if negb (bool_decide (vo_operation grant = ag_operation i))
                then Some OutsideValidationScope
           else if bool_decide (vo_objective grant = ag_objective i)
                then match gf_maturity f with
                     | OmExperimental => Some (ObjectiveNotSupported (gf_maturity f))
                     | OmValidating | OmSupported => None
                     end
                else gate_without_override i f
       | None => gate_without_override i f
       end.

Definition autonomous_apply_gate (i : AutonomousGateInput) : option AutonomousDenial :=
  autonomous_apply_gate_with i
    {| gf_maturity := objective_maturity (ag_objective i);
       gf_autonomous_apply_allowed := objective_autonomous_apply_allowed (ag_objective i);
       gf_capability_supported := capability_supported (ag_operation i);
       gf_contracts := AUTONOMOUS_CONTRACTS |}.

(** ** Theorems *)

Section Gate.

Implicit Types (i : AutonomousGateInput) (c : CandidateAction).

(** A candidate whose effect is that of its operation. *)
Definition gate_input_of (c : CandidateAction) (situation : SituationKind) (source : ActionSource)
    (v : option ValidationOverride) : AutonomousGateInput :=
  {| ag_operation := operation_kind c; ag_objective := candidate_objective c;
     ag_situation := situation; ag_effect_scope := candidate_effect_scope c; ag_source := source;
     ag_validation_override := v |}.

(** The registry names two tuples. *)
Lemma registry_allows_iff i :
  registry_allows i AUTONOMOUS_CONTRACTS = true <->
  ag_situation i = GameCpuSchedulerPressure /\ ag_objective i = GameRunnableLatency /\
  ((ag_operation i = OpCpuAffinityProfile /\ ag_effect_scope i = LocalProcessTree) \/
   (ag_operation i = OpCgroupPlacement /\ ag_effect_scope i = Cgroup)).
Proof.
  unfold registry_allows, AUTONOMOUS_CONTRACTS. cbn [existsb ac_operation ac_objective
    ac_effect_scope ac_workload ac_pressure].
  rewrite orb_false_r, orb_true_iff, !andb_true_iff, !bool_decide_eq_true.
  assert (Hsit : (SwGame = situation_workload (ag_situation i) /\
                  Some PkScheduler = situation_pressure (ag_situation i))
                 <-> ag_situation i = GameCpuSchedulerPressure)
    by (destruct (ag_situation i); cbn; split; intros; destruct_and?; done).
  naive_solver.
Qed.

Lemma gate_without_override_iff i :
  gate_without_override i
    {| gf_maturity := objective_maturity (ag_objective i);
       gf_autonomous_apply_allowed := objective_autonomous_apply_allowed (ag_objective i);
       gf_capability_supported := capability_supported (ag_operation i);
       gf_contracts := AUTONOMOUS_CONTRACTS |} = None <->
  registry_allows i AUTONOMOUS_CONTRACTS = true.
Proof.
  unfold gate_without_override. cbn [gf_maturity gf_autonomous_apply_allowed
    gf_capability_supported gf_contracts objective_autonomous_apply_allowed negb].
  destruct (registry_allows i AUTONOMOUS_CONTRACTS) eqn:E; cbn [negb].
  - apply registry_allows_iff in E as (_ & Ho & [[Hop _]|[Hop _]]); by rewrite Ho, Hop.
  - split; [|done]. repeat case_match; done.
Qed.

(** The supported tuples, on candidates. *)
Definition supported_tuple c (situation : SituationKind) : Prop :=
  situation = GameCpuSchedulerPressure /\ candidate_objective c = GameRunnableLatency /\
  ((exists p, c = CaCpuAffinityProfile p /\ cap_uses_priority_actions p = false) \/
   (exists p target, c = CaCgroupPlacement p target)).

(** A local validation campaign owns the candidate's operation and objective. *)
Definition campaign_grants c (source : ActionSource) (v : option ValidationOverride) : Prop :=
  exists g, v = Some g /\ source <> RemoteAgent /\ vo_operation g = operation_kind c /\
    vo_objective g = candidate_objective c /\ objective_maturity (candidate_objective c) <> OmExperimental.

(** No local campaign holds the run for another operation. *)
Definition in_scope c (source : ActionSource) (v : option ValidationOverride) : Prop :=
  forall g, v = Some g -> source <> RemoteAgent ->
    vo_operation g = operation_kind c /\ vo_objective g <> candidate_objective c.

(** A set of VM knobs never reads as an operation of another family. *)
Definition vm_kind (o : MutationOperationKind) : bool :=
  match o with
  | OpVmSwappiness | OpVmDirtyBackgroundRatio | OpVmDirtyRatio | OpUnclassified => true
  | _ => false
  end.

Lemma riskier_knob_kind o this : vm_kind (riskier_knob o this) = true.
Proof. destruct o as [[]|], this; done. Qed.

Lemma vm_operation_kind changes o :
  (forall x, o = Some x -> vm_kind x = true) -> vm_kind (vm_operation_from o changes) = true.
Proof.
  revert o. induction changes as [|change rest IH]; intros o Ho; cbn.
  - destruct o; cbn; auto.
  - destruct (_ ≫= knob_operation) as [this|]; [|done]. apply IH. intros x [= <-].
    apply riskier_knob_kind.
Qed.

Lemma graduated_operation c :
  (operation_kind c = OpCpuAffinityProfile <->
   exists p, c = CaCpuAffinityProfile p /\ cap_uses_priority_actions p = false) /\
  (operation_kind c = OpCgroupPlacement <-> exists p target, c = CaCgroupPlacement p target).
Proof.
  assert (Hvm : forall a, vm_kind (vm_operation a) = true) by (intros a; by apply vm_operation_kind).
  split; split.
  - destruct c as [p| | | | |[????? a]|[????? a]|[????? a]|[????? a]|]; cbn; try done.
    + destruct (cap_uses_priority_actions p) eqn:E; [done|]. eauto.
    + unfold irq_operation. case_match; done.
    + unfold cpu_power_operation. repeat case_match; done.
    + unfold gpu_power_operation. repeat case_match; done.
    + intros E. specialize (Hvm a). by rewrite E in Hvm.
  - intros (p & -> & Hp). cbn. by rewrite Hp.
  - destruct c as [p| | | | |[????? a]|[????? a]|[????? a]|[????? a]|]; cbn; try done; eauto.
    + case_match; done.
    + unfold irq_operation. case_match; done.
    + unfold cpu_power_operation. repeat case_match; done.
    + unfold gpu_power_operation. repeat case_match; done.
    + intros E. specialize (Hvm a). by rewrite E in Hvm.
  - by intros (p & target & ->).
Qed.

Lemma supported_tuple_registry c situation source v :
  registry_allows (gate_input_of c situation source v) AUTONOMOUS_CONTRACTS = true <->
  supported_tuple c situation.
Proof.
  destruct (graduated_operation c) as [H1 H2]. rewrite registry_allows_iff. cbn.
  unfold supported_tuple. rewrite <- H1, <- H2. split; [tauto|].
  intros (Hs & Ho & Hop). split; [done|]. split; [done|]. destruct Hop as [Hop|Hop]; [left|right];
    (split; [done|]); [apply H1 in Hop as (p & -> & _)|apply H2 in Hop as (p & target & ->)]; done.
Qed.

Lemma supported_not_manual c situation :
  supported_tuple c situation -> is_manual_only (operation_kind c) = false.
Proof. intros (_ & _ & [(p & -> & Hp)|(p & target & ->)]); cbn; [by rewrite Hp|done]. Qed.

End Gate.

(** What the gate lets through. *)
Lemma gate_exact (c : CandidateAction) (situation : SituationKind)
    (source : ActionSource) (v : option ValidationOverride) :
  autonomous_apply_gate (gate_input_of c situation source v) = None <->
  (campaign_grants c source v /\ is_manual_only (operation_kind c) = false) \/
  (in_scope c source v /\ supported_tuple c situation).
Proof.
  unfold autonomous_apply_gate, autonomous_apply_gate_with.
  pose proof (gate_without_override_iff (gate_input_of c situation source v)) as Hg.
  rewrite supported_tuple_registry in Hg.
  pose proof (supported_not_manual c situation) as Hnm.
  set (facts := Build_GateFacts _ _ _ _) in *.
  cbn [gate_input_of ag_operation ag_validation_override ag_source ag_objective].
  unfold campaign_grants, in_scope.
  destruct (is_manual_only (operation_kind c)) eqn:Em.
  { split; [done|]. intros [[_ [=]]|[_ Hs]]. by apply Hnm in Hs. }
  destruct v as [g|]; [|rewrite Hg; naive_solver].
  case_bool_decide as Hsrc; [rewrite Hg; naive_solver|].
  case_bool_decide as Hop; cbn [negb]; [|naive_solver].
  case_bool_decide as Hob; [|rewrite Hg; naive_solver].
  cbn [facts gf_maturity gate_input_of ag_objective].
  destruct (objective_maturity (candidate_objective c)) eqn:Emat; naive_solver.
Qed.

(** C25. What is applied autonomously, exactly.  The gate lets a candidate through in two
    cases: a campaign that is not remote holds exactly its operation and objective, the
    operation is not manual-only and the objective at least validating; or there is no
    local campaign (or one that holds the same operation for another objective) and the
    candidate is a CPU-affinity profile that changes no priority or a cgroup placement, for
    a game under scheduler pressure, judged by its runnable latency.  So a manual-only
    operation is refused even when a campaign names it, and a local campaign for another
    operation closes the gate to the registered tuples. *)
Theorem autonomous_apply_exact (c : CandidateAction) (situation : SituationKind)
    (source : ActionSource) (v : option ValidationOverride) :
  autonomous_apply_gate (gate_input_of c situation source v) = None <->
  (campaign_grants c source v /\ is_manual_only (operation_kind c) = false) \/
  (in_scope c source v /\ supported_tuple c situation).
Proof. apply gate_exact. Qed.
