(* ===== verification/ContextKey.v ===== *)
(** * ContextKey: what a candidate's memory is keyed by

    [autotune/candidate_memory/key.rs] with the class names of [process/model.rs]
    and the comparison of [ascii_match.rs]: the context of a candidate, its
    normal form, the parts it is hashed from, the hash (FNV-1a over the parts,
    each with its length), the key and the summary for people.

    Strings are bytes; the text the code trims and compares is ASCII, so that its
    [char]s are the bytes.  [from_snapshot], which no caller uses, is left out. *)

From Stdlib Require Import Ascii String List.
From S2P Require Import Prelude PolicyEval Abi Metrics Intervals Score Procfs Objective Allowlist Controller.
From stdpp Require Import pretty sorting list.
Open Scope Z_scope.

(** ** Names *)

Definition TaskClass_as_str (c : TaskClass) : string :=
  match c with
  | AudioRealtime => "AudioRealtime" | Input => "Input" | Game => "Game"
  | GameHelper => "GameHelper" | GameRenderThread => "GameRenderThread"
  | GameWorkerThread => "GameWorkerThread" | Launcher => "Launcher" | WineServer => "WineServer"
  | GameScope => "GameScope" | Compositor => "Compositor"
  | BrowserForeground => "BrowserForeground" | BrowserBackground => "BrowserBackground"
  | BrowserRenderer => "BrowserRenderer" | BrowserGpu => "BrowserGpu"
  | BrowserNetwork => "BrowserNetwork" | BuildJob => "BuildJob" | Compiler => "Compiler"
  | Linker => "Linker" | Indexer => "Indexer" | PackageManager => "PackageManager"
  | Editor => "Editor" | Terminal => "Terminal" | Shell => "Shell" | Media => "Media"
  | Recorder => "Recorder" | VirtualMachine => "VirtualMachine" | KernelThread => "KernelThread"
  | IrqThread => "IrqThread" | Service => "Service" | NetworkDaemon => "NetworkDaemon"
  | StorageDaemon => "StorageDaemon" | SteamRuntime => "SteamRuntime" | Render => "Render"
  | Helper => "Helper" | UnknownClass => "Unknown"
  end.

(** The table of [from_str_opt], in its order, which is the derived [Ord]'s. *)
Definition class_table : list (string * TaskClass) :=
  [("audiorealtime", AudioRealtime); ("input", Input); ("game", Game); ("gamehelper", GameHelper);
   ("gamerenderthread", GameRenderThread); ("gameworkerthread", GameWorkerThread);
   ("launcher", Launcher); ("wineserver", WineServer); ("gamescope", GameScope);
   ("compositor", Compositor); ("browserforeground", BrowserForeground);
   ("browserbackground", BrowserBackground); ("browserrenderer", BrowserRenderer);
   ("browsergpu", BrowserGpu); ("browsernetwork", BrowserNetwork); ("buildjob", BuildJob);
   ("compiler", Compiler); ("linker", Linker); ("indexer", Indexer);
   ("packagemanager", PackageManager); ("editor", Editor); ("terminal", Terminal);
   ("shell", Shell); ("media", Media); ("recorder", Recorder); ("virtualmachine", VirtualMachine);
   ("kernelthread", KernelThread); ("irqthread", IrqThread); ("service", Service);
   ("networkdaemon", NetworkDaemon); ("storagedaemon", StorageDaemon);
   ("steamruntime", SteamRuntime); ("render", Render); ("helper", Helper);
   ("unknown", UnknownClass)]%string.

Definition TaskClass_rank (c : TaskClass) : nat :=
  match c with
  | AudioRealtime => 0 | Input => 1 | Game => 2 | GameHelper => 3 | GameRenderThread => 4
  | GameWorkerThread => 5 | Launcher => 6 | WineServer => 7 | GameScope => 8 | Compositor => 9
  | BrowserForeground => 10 | BrowserBackground => 11 | BrowserRenderer => 12 | BrowserGpu => 13
  | BrowserNetwork => 14 | BuildJob => 15 | Compiler => 16 | Linker => 17 | Indexer => 18
  | PackageManager => 19 | Editor => 20 | Terminal => 21 | Shell => 22 | Media => 23
  | Recorder => 24 | VirtualMachine => 25 | KernelThread => 26 | IrqThread => 27 | Service => 28
  | NetworkDaemon => 29 | StorageDaemon => 30 | SteamRuntime => 31 | Render => 32 | Helper => 33
  | UnknownClass => 34
  end.

(** The characters of the value that count: no [_], no [-], no whitespace. *)
Fixpoint normalized_chars (s : string) : string :=
  match s with
  | EmptyString => EmptyString
  | String a rest =>
      if Ascii.eqb a "_" || Ascii.eqb a "-" || is_whitespace a then normalized_chars rest
      else String a (normalized_chars rest)
  end.

Definition normalized_eq_ignore_ascii_case (value expected : string) : bool :=
  String.eqb (to_ascii_lowercase (normalized_chars value)) (to_ascii_lowercase expected).

Definition TaskClass_from_str_opt (s : string) : option TaskClass :=
  snd <$> List.find (fun e => normalized_eq_ignore_ascii_case s e.1) class_table.

Definition SituationKind_debug (s : SituationKind) : string :=
  match s with
  | SkUnknown => "Unknown" | SkIdle => "Idle" | GameFocused => "GameFocused"
  | GameCpuSchedulerPressure => "GameCpuSchedulerPressure" | GameGpuBound => "GameGpuBound"
  | CompositorPressure => "CompositorPressure" | CpuPressure => "CpuPressure"
  | IoPressure => "IoPressure" | IrqPressure => "IrqPressure"
  | ThermalOrPowerLimit => "ThermalOrPowerLimit" | CompileLoad => "CompileLoad"
  | BrowserFocused => "BrowserFocused" | BrowserCpuPressure => "BrowserCpuPressure"
  | BrowserGpuVideo => "BrowserGpuVideo" | BrowserIoPressure => "BrowserIoPressure"
  | CompileCpuBound => "CompileCpuBound" | CompileLinkerPressure => "CompileLinkerPressure"
  | MediaPlayback => "MediaPlayback" | SkRecording => "Recording"
  | VirtualMachineLoad => "VirtualMachineLoad"
  end.

Definition FocusGroupKind_debug (f : FocusGroupKind) : string :=
  match f with
  | FgGame => "Game" | FgBrowser => "Browser" | FgCompile => "Compile" | FgMedia => "Media"
  | FgRecording => "Recording" | FgVirtualMachine => "VirtualMachine" | FgDesktop => "Desktop"
  | FgIdle => "Idle" | FgUnknown => "Unknown"
  end.

(** ** The context *)

Record CandidateClassCount := { ccc_class : TaskClass; ccc_count : Z }.

Record CandidateContextHashInput := {
  ci_workload_identity : option string;
  ci_workload_root_pid : option Z;
  ci_workload_starttime_ticks : option Z;
  ci_workload_focus_kind : option FocusGroupKind;
  ci_target_executable : option (Z * Z);
  ci_cgroup_path : option string;
  ci_cpu_topology_signature : option string;
  ci_profile_name : string;
  ci_situation : SituationKind;
  ci_active_task_class_distribution : list CandidateClassCount }.

(** [WorkloadIdentity::new], [CandidateMemoryKey::new], [CandidateIdentitySummary::new]. *)
Definition non_empty_trimmed (value : string) : option string :=
  let t := trim value in if String.eqb t "" then None else Some t.

Definition normalize_optional_string (value : option string) : option string :=
  v ← value; non_empty_trimmed v.

Definition ExecutableFingerprint_from_parts (dev ino : option Z) : option (Z * Z) :=
  d ← dev; i ← ino; Some (d, i).

Definition for_candidate (c : CandidateAction) : CandidateContextHashInput :=
  {| ci_workload_identity := None; ci_workload_root_pid := None;
     ci_workload_starttime_ticks := None; ci_workload_focus_kind := None;
     ci_target_executable := None; ci_cgroup_path := None; ci_cpu_topology_signature := None;
     ci_profile_name := candidate_name c; ci_situation := SkUnknown;
     ci_active_task_class_distribution := [] |}.

Definition class_distribution_from_workload_identity (o : AutotuneObservation)
    : list CandidateClassCount :=
  match ob_workload_identity o with
  | None => []
  | Some identity =>
      omap (fun '(class, count) =>
          c ← TaskClass_from_str_opt class; Some {| ccc_class := c; ccc_count := count |})
        (wi_class_distribution identity)
  end.

Definition from_observation (c : CandidateAction) (o : AutotuneObservation)
    (cpu_topology_signature : option string) : CandidateContextHashInput :=
  let identity := ob_workload_identity o in
  {| ci_workload_identity := (i ← identity; non_empty_trimmed (wi_stable_hash i));
     ci_workload_root_pid := wi_root_pid <$> identity;
     ci_workload_starttime_ticks := (i ← identity; wi_process_starttime_ticks i);
     ci_workload_focus_kind := (i ← identity; wi_focus_kind i);
     ci_target_executable :=
       (i ← identity; ExecutableFingerprint_from_parts (wi_exe_dev i) (wi_exe_ino i));
     ci_cgroup_path := (i ← identity; normalize_optional_string (wi_cgroup_path i));
     ci_cpu_topology_signature :=
       normalize_optional_string
         (match cpu_topology_signature with
          | Some s => Some s
          | None => ob_topology_signature o
          end);
     ci_profile_name := candidate_name c;
     ci_situation := ob_primary_situation o;
     ci_active_task_class_distribution := class_distribution_from_workload_identity o |}.

(** One entry added to the counts, in the order of the classes; [usize] wraps. *)
Fixpoint add_class_count (class : TaskClass) (count : Z) (counts : list CandidateClassCount)
    : list CandidateClassCount :=
  match counts with
  | [] => [{| ccc_class := class; ccc_count := count |}]
  | x :: rest =>
      if decide (ccc_class x = class)
      then {| ccc_class := class; ccc_count := (ccc_count x + count) mod 2 ^ 64 |} :: rest
      else if (TaskClass_rank class <? TaskClass_rank (ccc_class x))%nat
           then {| ccc_class := class; ccc_count := count |} :: x :: rest
           else x :: add_class_count class count rest
  end.

Definition normalize_class_distribution (distribution : list CandidateClassCount)
    : list CandidateClassCount :=
  foldl (fun counts item =>
      if ccc_count item =? 0 then counts
      else add_class_count (ccc_class item) (ccc_count item) counts)
    [] distribution.

Definition normalized (i : CandidateContextHashInput) : CandidateContextHashInput :=
  {| ci_workload_identity := ci_workload_identity i;
     ci_workload_root_pid := ci_workload_root_pid i;
     ci_workload_starttime_ticks := ci_workload_starttime_ticks i;
     ci_workload_focus_kind := ci_workload_focus_kind i;
     ci_target_executable := ci_target_executable i;
     ci_cgroup_path := normalize_optional_string (ci_cgroup_path i);
     ci_cpu_topology_signature := normalize_optional_string (ci_cpu_topology_signature i);
     ci_profile_name := ci_profile_name i;
     ci_situation := ci_situation i;
     ci_active_task_class_distribution :=
       normalize_class_distribution (ci_active_task_class_distribution i) |}.

(** ** Parts, hash and key *)

Definition text (o : option string) : string := default "-" o.

Definition decimal (n : Z) : string := pretty (Z.to_N n).

Definition class_count_text (c : CandidateClassCount) : string :=
  TaskClass_as_str (ccc_class c) +:+ ":" +:+ decimal (ccc_count c).

Definition executable_text (e : option (Z * Z)) : string :=
  text (decimal ∘ fst <$> e) +:+ ":" +:+ text (decimal ∘ snd <$> e).

Definition context_hash_parts (i : CandidateContextHashInput) : list string :=
  let n := normalized i in
  [ "workload_hash=" +:+ text (ci_workload_identity n);
    "target_exe=" +:+ executable_text (ci_target_executable n);
    "cgroup=" +:+ text (ci_cgroup_path n);
    "cpu_topology=" +:+ text (ci_cpu_topology_signature n);
    "profile=" +:+ ci_profile_name n;
    "situation=" +:+ SituationKind_debug (ci_situation n) ]
  ++ ((fun c => "class=" +:+ class_count_text c) <$> ci_active_task_class_distribution n).

Definition FNV_PRIME : Z := 0x100000001b3.

Definition hash_byte (hash byte : Z) : Z := (Z.lxor hash byte * FNV_PRIME) mod 2 ^ 64.

Fixpoint hash_bytes (hash : Z) (s : string) : Z :=
  match s with
  | EmptyString => hash
  | String a rest => hash_bytes (hash_byte hash (Z.of_N (N_of_ascii a))) rest
  end.

Definition hash_part (hash : Z) (part : string) : Z :=
  let hash := hash_bytes hash (decimal (Z.of_nat (String.length part))) in
  let hash := hash_byte hash 58 in
  let hash := hash_bytes hash part in
  hash_byte hash 0xff.

Definition hex_digit (d : Z) : ascii :=
  ascii_of_N (Z.to_N (if d <? 10 then 48 + d else 87 + d)).

(** [{hash:016x}]: sixteen digits, the most significant first. *)
Fixpoint hex_digits (n : nat) (hash : Z) : string :=
  match n with
  | O => EmptyString
  | S k => String (hex_digit (Z.shiftr hash (4 * Z.of_nat k) mod 16)) (hex_digits k hash)
  end.

Definition stable_hash_hex (parts : list string) : string :=
  hex_digits 16 (foldl hash_part 0xcbf29ce484222325 parts).

Definition context_hash (i : CandidateContextHashInput) : string :=
  stable_hash_hex (context_hash_parts i).

(** [None] is the [expect] that panics. *)
Definition context_key (i : CandidateContextHashInput) : option string :=
  non_empty_trimmed (context_hash i).

Definition workload_identity_parts (i : CandidateContextHashInput) : list string :=
  let n := normalized i in
  [ "workload_hash=" +:+ text (ci_workload_identity n);
    "root_pid=" +:+ text (decimal <$> ci_workload_root_pid n);
    "starttime_ticks=" +:+ text (decimal <$> ci_workload_starttime_ticks n);
    "exe=" +:+ executable_text (ci_target_executable n);
    "cgroup=" +:+ text (ci_cgroup_path n);
    "focus=" +:+ text (FocusGroupKind_debug <$> ci_workload_focus_kind n) ].

Definition class_distribution_summary (distribution : list CandidateClassCount) : string :=
  match distribution with
  | [] => "-"
  | _ => String.concat "," (class_count_text <$> distribution)
  end.

Definition context_identity_parts (i : CandidateContextHashInput) : list string :=
  let n := normalized i in
  workload_identity_parts i
  ++ [ "cpu_topology=" +:+ text (ci_cpu_topology_signature n);
       "profile=" +:+ ci_profile_name n;
       "situation=" +:+ SituationKind_debug (ci_situation n);
       "classes=" +:+ class_distribution_summary (ci_active_task_class_distribution n) ].

Definition identity_summary (i : CandidateContextHashInput) : string :=
  default "empty-context" (non_empty_trimmed (String.concat " " (context_identity_parts i))).

Definition workload_identity_summary (i : CandidateContextHashInput) : option string :=
  _ ← ci_workload_identity i;
  non_empty_trimmed (String.concat " " (workload_identity_parts i)).

(** ** Theorems *)

(** A class is read back from the name it is written with. *)
Lemma class_names_roundtrip (c : TaskClass) : TaskClass_from_str_opt (TaskClass_as_str c) = Some c.
Proof. by destruct c. Qed.

Lemma TaskClass_rank_inj (a b : TaskClass) : TaskClass_rank a = TaskClass_rank b -> a = b.
Proof. by destruct a, b. Qed.

(** *** Digits are not white space *)

#[local] Arguments Nat.ltb : simpl never.

Section Key.

Implicit Types (s : string) (i : CandidateContextHashInput).

Fixpoint all_chars (P : ascii -> bool) s : bool :=
  match s with EmptyString => true | String a rest => P a && all_chars P rest end.

Definition is_hex (a : ascii) : bool :=
  existsb (Ascii.eqb a) (list_ascii_of_string "0123456789abcdef").

Lemma hex_digit_is_hex d : 0 <= d < 16 -> is_hex (hex_digit d) = true.
Proof.
  intros Hd. assert (Hall : forallb (fun k => is_hex (hex_digit (Z.of_nat k))) (seq 0 16) = true)
    by reflexivity.
  rewrite forallb_forall in Hall. specialize (Hall (Z.to_nat d)).
  rewrite Z2Nat.id in Hall by lia. apply Hall, in_seq. lia.
Qed.

Lemma hex_digits_hex n h : all_chars is_hex (hex_digits n h) = true.
Proof.
  induction n as [|n IH]; cbn [hex_digits all_chars]; [done|].
  rewrite hex_digit_is_hex, IH; [done|]. by apply Z.mod_pos_bound.
Qed.

Lemma hex_digits_length n h : String.length (hex_digits n h) = n.
Proof. induction n as [|n IH]; cbn; congruence. Qed.

Lemma hex_not_space a : is_hex a = true -> is_whitespace a = false.
Proof. destruct a as [[] [] [] [] [] [] [] []]; by vm_compute. Qed.

Lemma trim_no_space s : all_chars is_hex s = true -> trim s = s.
Proof.
  intros Hs. unfold trim.
  assert (Hstart : trim_start s = s).
  { destruct s as [|a r]; [done|]. cbn in Hs |- *. apply andb_true_iff in Hs as [Ha _].
    by rewrite hex_not_space. }
  rewrite Hstart. clear Hstart. induction s as [|a r IH]; [done|]. cbn in Hs.
  apply andb_true_iff in Hs as [Ha Hr]. cbn [trim_end trim_is_empty].
  rewrite hex_not_space by done. cbn [andb]. by rewrite IH.
Qed.

(** The key of a context always exists: the [expect] never fires. *)
Lemma context_key_hash i : context_key i = Some (context_hash i).
Proof.
  unfold context_key, non_empty_trimmed, context_hash, stable_hash_hex.
  by rewrite trim_no_space by apply hex_digits_hex.
Qed.

(** *** Normal forms *)

Lemma trim_start_idem s : trim_start (trim_start s) = trim_start s.
Proof.
  induction s as [|a r IH]; [done|]. cbn. destruct (is_whitespace a) eqn:E; [done|].
  cbn. by rewrite E.
Qed.

Lemma trim_is_empty_end s : trim_is_empty (trim_end s) = trim_is_empty s.
Proof.
  induction s as [|a r IH]; [done|]. cbn [trim_end]. destruct (trim_is_empty (String a r)) eqn:E; [done|].
  cbn in E |- *. by rewrite IH.
Qed.

Lemma trim_end_idem s : trim_end (trim_end s) = trim_end s.
Proof.
  induction s as [|a r IH]; [done|]. cbn [trim_end].
  destruct (trim_is_empty (String a r)) eqn:E; [done|].
  cbn [trim_end]. replace (trim_is_empty (String a (trim_end r))) with false; [by rewrite IH|].
  cbn in E |- *. by rewrite trim_is_empty_end.
Qed.

Lemma trim_start_end s : trim_start (trim_end (trim_start s)) = trim_end (trim_start s).
Proof.
  induction s as [|a r IH]; [done|]. cbn [trim_start]. destruct (is_whitespace a) eqn:E; [done|].
  cbn [trim_end trim_is_empty]. rewrite E. cbn [andb trim_start]. by rewrite E.
Qed.

Lemma trim_idem s : trim (trim s) = trim s.
Proof. unfold trim. by rewrite trim_start_end, trim_end_idem. Qed.

Lemma normalize_optional_string_idem o :
  normalize_optional_string (normalize_optional_string o) = normalize_optional_string o.
Proof.
  destruct o as [s|]; [|done]. cbn. unfold non_empty_trimmed.
  destruct (String.eqb (trim s) "") eqn:E; [done|]. cbn. unfold non_empty_trimmed.
  by rewrite trim_idem, E.
Qed.

(** *** The distribution of classes *)

Fixpoint class_total (c : TaskClass) (l : list CandidateClassCount) : Z :=
  match l with
  | [] => 0
  | x :: rest =>
      if decide (ccc_class x = c) then ccc_count x + class_total c rest else class_total c rest
  end.

Fixpoint total_count (l : list CandidateClassCount) : Z :=
  match l with [] => 0 | x :: rest => ccc_count x + total_count rest end.

(** Counts are [usize]s whose sum is one too. *)
Definition countable (l : list CandidateClassCount) : Prop :=
  Forall (fun x => 0 <= ccc_count x) l /\ total_count l < 2 ^ 64.

Definition class_lt (a b : CandidateClassCount) : Prop :=
  (TaskClass_rank (ccc_class a) < TaskClass_rank (ccc_class b))%nat.

Definition canonical (l : list CandidateClassCount) : Prop :=
  StronglySorted class_lt l /\ Forall (fun x => 0 < ccc_count x) l.

Lemma class_total_bound c l :
  Forall (fun x => 0 <= ccc_count x) l -> 0 <= class_total c l <= total_count l.
Proof. induction 1 as [|x l Hx _ IH]; cbn; [lia|]. case_decide; lia. Qed.

Lemma class_total_above c l (r : nat) :
  (TaskClass_rank c <= r)%nat ->
  Forall (fun x => (r < TaskClass_rank (ccc_class x))%nat) l -> class_total c l = 0.
Proof.
  intros Hr. induction 1 as [|x l Hx _ IH]; [done|]. cbn. case_decide; subst; [lia|done].
Qed.

Lemma add_class_count_total class n c l :
  0 < n -> Forall (fun x => 0 <= ccc_count x) l -> total_count l + n < 2 ^ 64 ->
  class_total c (add_class_count class n l)
  = class_total c l + (if decide (class = c) then n else 0).
Proof.
  intros Hn Hl. induction Hl as [|x l Hx Hl IH]; intros Hsum; cbn in *; [case_decide; lia|].
  assert (0 <= total_count l) by (pose proof (class_total_bound class l Hl); lia).
  destruct (decide (ccc_class x = class)) as [<-|Hne]; cbn.
  { rewrite Z.mod_small by lia. case_decide; lia. }
  destruct (_ <? _)%nat; cbn; [|rewrite IH by lia]; repeat case_decide; subst; done || lia.
Qed.

Lemma add_class_count_sum class n l :
  0 < n -> Forall (fun x => 0 <= ccc_count x) l -> total_count l + n < 2 ^ 64 ->
  total_count (add_class_count class n l) = total_count l + n.
Proof.
  intros Hn Hl. induction Hl as [|x l Hx Hl IH]; intros Hsum; cbn in *; [lia|].
  assert (0 <= total_count l) by (pose proof (class_total_bound class l Hl); lia).
  case_decide; cbn; [rewrite Z.mod_small by lia; lia|].
  destruct (_ <? _)%nat; cbn; [|rewrite IH by lia]; lia.
Qed.

Lemma add_class_count_above class n l (r : nat) :
  (r < TaskClass_rank class)%nat ->
  Forall (fun x => (r < TaskClass_rank (ccc_class x))%nat) l ->
  Forall (fun x => (r < TaskClass_rank (ccc_class x))%nat) (add_class_count class n l).
Proof.
  intros Hr. induction 1 as [|x l Hx Hl IH]; cbn; [by repeat constructor|].
  repeat (case_decide || case_match); repeat constructor; cbn; auto.
Qed.

Lemma add_class_count_canonical class n l :
  0 < n -> canonical l -> total_count l + n < 2 ^ 64 -> canonical (add_class_count class n l).
Proof.
  intros Hn [Hs Hp]. induction Hs as [|x l Hs IH Hx]; intros Hsum; cbn in *.
  { split; repeat constructor; done. }
  inversion Hp as [|? ? Hx0 Hl0]; subst.
  assert (Hl : Forall (fun x => 0 <= ccc_count x) l) by (eapply Forall_impl; [done|]; cbn; lia).
  pose proof (class_total_bound class l Hl) as Hb.
  case_decide as Hc; [|destruct (_ <? _)%nat eqn:Hr].
  - subst class. split; constructor; cbn; auto. rewrite Z.mod_small by lia. lia.
  - apply Nat.ltb_lt in Hr. split; repeat constructor; auto.
    eapply Forall_impl; [exact Hx|]. unfold class_lt. cbn. lia.
  - apply Nat.ltb_ge in Hr. destruct IH as [IHs IHp]; [done|lia|]. split; constructor; auto.
    apply add_class_count_above; [|done].
    assert (TaskClass_rank (ccc_class x) <> TaskClass_rank class)
      by (intros E; by apply TaskClass_rank_inj in E). lia.
Qed.

Definition add_item (counts : list CandidateClassCount) (item : CandidateClassCount) :=
  if ccc_count item =? 0 then counts
  else add_class_count (ccc_class item) (ccc_count item) counts.

Lemma normalize_fold l counts :
  canonical counts -> Forall (fun x => 0 <= ccc_count x) l ->
  total_count counts + total_count l < 2 ^ 64 ->
  canonical (foldl add_item counts l) /\
  forall c, class_total c (foldl add_item counts l) = class_total c counts + class_total c l.
Proof.
  intros Hc Hl. revert counts Hc. induction Hl as [|x l Hx Hl IH]; intros counts Hc Hsum.
  { split; [done|]. intros c. cbn. lia. }
  cbn [foldl total_count] in *.
  assert (Hcp : Forall (fun x => 0 <= ccc_count x) counts)
    by (eapply Forall_impl; [apply Hc|]; cbn; lia).
  pose proof (class_total_bound UnknownClass l Hl) as Hb.
  unfold add_item at 2 4. destruct (Z.eqb_spec (ccc_count x) 0) as [E|E].
  - destruct (IH counts Hc) as [H1 H2]; [lia|]. split; [done|]. intros c. rewrite H2. cbn.
    case_decide; lia.
  - destruct (IH (add_class_count (ccc_class x) (ccc_count x) counts)) as [H1 H2].
    + apply add_class_count_canonical; [lia|done|lia].
    + rewrite add_class_count_sum by (done || lia). lia.
    + split; [done|]. intros c. rewrite H2, add_class_count_total by (done || lia). cbn.
      case_decide; lia.
Qed.

Lemma normalize_spec l :
  countable l ->
  canonical (normalize_class_distribution l) /\
  forall c, class_total c (normalize_class_distribution l) = class_total c l.
Proof.
  intros [Hp Hs]. destruct (normalize_fold l []) as [H1 H2]; [by repeat constructor|done|cbn; lia|].
  split; [exact H1|]. intros c. change (normalize_class_distribution l) with (foldl add_item [] l).
  rewrite H2. cbn. lia.
Qed.

(** A canonical distribution is determined by its totals. *)
Lemma canonical_head x l :
  canonical (x :: l) ->
  canonical l /\ class_total (ccc_class x) (x :: l) = ccc_count x /\ 0 < ccc_count x /\
  forall c, (TaskClass_rank c < TaskClass_rank (ccc_class x))%nat -> class_total c (x :: l) = 0.
Proof.
  intros [Hs Hp]. inversion Hs as [|? ? Hl Hx]; subst. inversion Hp as [|? ? Hx0 Hl0]; subst.
  split; [by split|]. split; [|split; [done|]].
  - cbn. rewrite decide_True by done.
    rewrite (class_total_above _ l (TaskClass_rank (ccc_class x))) by (done || lia). lia.
  - intros c Hc. apply (class_total_above c _ (TaskClass_rank c)); [lia|].
    constructor; [done|]. eapply Forall_impl; [exact Hx|]. unfold class_lt. lia.
Qed.

Lemma canonical_ext l k :
  canonical l -> canonical k -> (forall c, class_total c l = class_total c k) -> l = k.
Proof.
  revert k. induction l as [|x l IH]; intros [|y k] Hl Hk Heq; [done| | |].
  - destruct (canonical_head y k Hk) as (_ & Hy & Hp & _). specialize (Heq (ccc_class y)).
    rewrite Hy in Heq. cbn in Heq. lia.
  - destruct (canonical_head x l Hl) as (_ & Hx & Hp & _). specialize (Heq (ccc_class x)).
    rewrite Hx in Heq. cbn in Heq. lia.
  - destruct (canonical_head x l Hl) as (Hl' & Hx & Hxp & Hxz).
    destruct (canonical_head y k Hk) as (Hk' & Hy & Hyp & Hyz).
    assert (ccc_class x = ccc_class y) as Hc.
    { apply TaskClass_rank_inj. pose proof (Heq (ccc_class x)). pose proof (Heq (ccc_class y)).
      destruct (Nat.lt_trichotomy (TaskClass_rank (ccc_class x)) (TaskClass_rank (ccc_class y)))
        as [H1|[H1|H1]]; [rewrite (Hyz _ H1) in *; lia|done|rewrite (Hxz _ H1) in *; lia]. }
    assert (x = y) as ->.
    { destruct x as [cx nx], y as [cy ny]. cbn in Hc. subst cy. f_equal.
      specialize (Heq cx). cbn [ccc_class ccc_count] in *. lia. }
    f_equal. apply IH; [done..|]. intros c. specialize (Heq c). cbn in Heq. case_decide; lia.
Qed.

Lemma canonical_countable l : canonical l -> total_count l < 2 ^ 64 -> countable l.
Proof. intros [_ Hp] Hs. split; [|done]. eapply Forall_impl; [exact Hp|]. cbn. lia. Qed.

(** The order of the distribution, and how a class's count is split, do not matter. *)
Lemma normalize_ext l k :
  countable l -> countable k -> (forall c, class_total c l = class_total c k) ->
  normalize_class_distribution l = normalize_class_distribution k.
Proof.
  intros Hl Hk Heq. destruct (normalize_spec l Hl) as [H1 H2], (normalize_spec k Hk) as [H3 H4].
  apply canonical_ext; [done..|]. intros c. by rewrite H2, H4.
Qed.

(** Two contexts that describe the same workload, target, machine and candidate:
    equal up to white space around the texts and to the order and the splitting
    of the class counts. *)
Record same_context i j : Prop := {
  same_identity : ci_workload_identity i = ci_workload_identity j;
  same_executable : ci_target_executable i = ci_target_executable j;
  same_cgroup :
    normalize_optional_string (ci_cgroup_path i) = normalize_optional_string (ci_cgroup_path j);
  same_topology :
    normalize_optional_string (ci_cpu_topology_signature i)
    = normalize_optional_string (ci_cpu_topology_signature j);
  same_profile : ci_profile_name i = ci_profile_name j;
  same_situation : ci_situation i = ci_situation j;
  same_classes :
    forall c, class_total c (ci_active_task_class_distribution i)
              = class_total c (ci_active_task_class_distribution j) }.

Lemma same_context_hash i j :
  countable (ci_active_task_class_distribution i) ->
  countable (ci_active_task_class_distribution j) ->
  same_context i j -> context_hash i = context_hash j.
Proof.
  intros Hi Hj [H1 H2 H3 H4 H5 H6 H7]. unfold context_hash, context_hash_parts.
  cbn [normalized ci_workload_identity ci_target_executable ci_cgroup_path
       ci_cpu_topology_signature ci_profile_name ci_situation ci_active_task_class_distribution].
  by rewrite (normalize_ext _ _ Hi Hj H7), H1, H2, H3, H4, H5, H6.
Qed.

End Key.

(** Every context has a key, and the key depends on nothing but the context: it
    is the sixteen hexadecimal digits of the hash (the code's [expect] on it never
    fires, and trimming leaves it alone), and two observations that describe the
    same workload, executable, cgroup, topology, candidate and situation have the
    same key, whatever the white space around their texts and however their class
    counts are ordered or split. *)
Theorem context_key_canonical (i j : CandidateContextHashInput) :
  countable (ci_active_task_class_distribution i) ->
  countable (ci_active_task_class_distribution j) ->
  same_context i j ->
  exists key, context_key i = Some key /\ context_key j = Some key /\ String.length key = 16%nat.
Proof.
  intros Hi Hj Hsame. exists (context_hash i). rewrite !context_key_hash.
  split; [done|]. split; [by rewrite (same_context_hash i j)|]. apply hex_digits_length.
Qed.
