(* ===== verification/WorkloadPolicy.v ===== *)
(** * WorkloadPolicy: which action families a situation admits

    [stutter/src/autotune/workload_policy]: the rule of a situation and how a
    candidate is matched against it ([match.rs]), the default rules and the overrides
    of a configuration ([defaults.rs]), the configuration's texts ([parse.rs]) and the
    lints of a matrix under a daemon policy ([lint.rs]).

    A [BTreeSet] is a [gset], walked in its order.  A failure carries its cause and
    not its message; a lint, what it is about and not its message.  Texts are ASCII. *)

From Stdlib Require Import Ascii String List.
From S2P Require Import Prelude PolicyModel PolicyEval PolicySpec Abi Metrics Score Procfs Allowlist Objective Controller ContextKey.
From stdpp Require Import sorting gmap strings list.
Open Scope Z_scope.

(** ** [model.rs] *)

Definition ObjectiveKind_rank (o : ObjectiveKind) : nat :=
  match o with
  | OkStutterScore => 0 | GameFramePacing => 1 | GameRunnableLatency => 2
  | DesktopInteractivity => 3 | BrowserInteractivity => 4
  | CompileThroughputWithForegroundProtection => 5 | IoLatency => 6 | IrqOverlapReduction => 7
  | ThermalRecoveryObjective => 8
  end.

Definition all_objectives : list ObjectiveKind :=
  [OkStutterScore; GameFramePacing; GameRunnableLatency; DesktopInteractivity;
   BrowserInteractivity; CompileThroughputWithForegroundProtection; IoLatency;
   IrqOverlapReduction; ThermalRecoveryObjective].

#[export] Instance ObjectiveKind_countable : Countable ObjectiveKind.
Proof.
  refine (inj_countable ObjectiveKind_rank (fun n => all_objectives !! n) _). by intros [].
Defined.

Record WorkloadPolicyRule := {
  wr_situation : SituationKind;
  wr_allowed_families : gset string;
  wr_allowed_objectives : gset ObjectiveKind;
  wr_autonomous_families : gset string }.

Record WorkloadPolicyMatrix := { wm_rules : list WorkloadPolicyRule }.

Inductive LintSeverity := LintWarning | LintError.

Inductive WorkloadPolicyLintKind :=
| EmptyAutonomousFamilies | DeniedFamilyIsAutonomous | HighRiskFamilyIsAutonomous
| MediumRiskSystemWideDenied | ApplyLowRiskAutonomousFamilyTooRisky
| ObjectiveWithoutCapableFamily | UnknownFamily | UnsupportedObjective | DuplicateRule.

#[export] Instance LintSeverity_eq_dec : EqDecision LintSeverity.
Proof. solve_decision. Defined.
#[export] Instance WorkloadPolicyLintKind_eq_dec : EqDecision WorkloadPolicyLintKind.
Proof. solve_decision. Defined.

Definition LintSeverity_rank (s : LintSeverity) : Z :=
  match s with LintWarning => 0 | LintError => 1 end.

Definition WorkloadPolicyLintKind_rank (k : WorkloadPolicyLintKind) : Z :=
  match k with
  | EmptyAutonomousFamilies => 0 | DeniedFamilyIsAutonomous => 1
  | HighRiskFamilyIsAutonomous => 2 | MediumRiskSystemWideDenied => 3
  | ApplyLowRiskAutonomousFamilyTooRisky => 4 | ObjectiveWithoutCapableFamily => 5
  | UnknownFamily => 6 | UnsupportedObjective => 7 | DuplicateRule => 8
  end.

Definition lint_reason_code (k : WorkloadPolicyLintKind) : string :=
  match k with
  | EmptyAutonomousFamilies => "empty_autonomous_families"
  | DeniedFamilyIsAutonomous => "denied_family_is_autonomous"
  | HighRiskFamilyIsAutonomous => "high_risk_family_is_autonomous"
  | MediumRiskSystemWideDenied => "system_wide_family_is_autonomous"
  | ApplyLowRiskAutonomousFamilyTooRisky => "apply_low_risk_autonomous_family_too_risky"
  | ObjectiveWithoutCapableFamily => "objective_without_capable_family"
  | UnknownFamily => "unknown_family"
  | UnsupportedObjective => "unsupported_objective"
  | DuplicateRule => "duplicate_rule"
  end.

Record WorkloadPolicyLint := {
  wl_severity : LintSeverity;
  wl_kind : WorkloadPolicyLintKind;
  wl_reason_code : string;
  wl_situation : option SituationKind;
  wl_family : option string }.

Definition lint_warning (kind : WorkloadPolicyLintKind) (situation : option SituationKind)
    (family : option string) : WorkloadPolicyLint :=
  {| wl_severity := LintWarning; wl_kind := kind; wl_reason_code := lint_reason_code kind;
     wl_situation := situation; wl_family := family |}.

Definition lint_error (kind : WorkloadPolicyLintKind) (situation : option SituationKind)
    (family : option string) : WorkloadPolicyLint :=
  {| wl_severity := LintError; wl_kind := kind; wl_reason_code := lint_reason_code kind;
     wl_situation := situation; wl_family := family |}.

Record DaemonWorkloadPolicyConfig := { wc_rules : list WorkloadPolicyRule }.

Record WorkloadPolicyRuleConfigFile := {
  rf_situation : string;
  rf_allowed_families : list string;
  rf_allowed_objectives : list string;
  rf_autonomous_families : list string }.

(** A [BTreeSet<String>] in its order. *)
Definition in_order (s : gset string) : list string := merge_sort String.le (elements s).

(** ** [match.rs] *)

Definition family_matches (action_kind family : string) : bool :=
  String.eqb action_kind family
  || match PolicyModel.strip_prefix action_kind family with
     | Some (String c _) => Ascii.eqb c ":" || Ascii.eqb c "-" || Ascii.eqb c "_"
     | _ => false
     end.

Definition allows_candidate (r : WorkloadPolicyRule) (c : CandidateAction) : bool :=
  existsb (family_matches (candidate_action_kind c)) (elements (wr_allowed_families r)).

Definition allows_autonomous_candidate (r : WorkloadPolicyRule) (c : CandidateAction) : bool :=
  existsb (family_matches (candidate_action_kind c)) (elements (wr_autonomous_families r)).

Definition allows_objective (r : WorkloadPolicyRule) (o : ObjectiveKind) : bool :=
  bool_decide (wr_allowed_objectives r = ∅) || bool_decide (o ∈ wr_allowed_objectives r).

(** ** [parse.rs] *)

(** Why a configuration is refused. *)
Inductive WorkloadPolicyError :=
| UnknownSituationName (value : string)
| UnknownObjectiveName (value : string)
| EmptyFamilyName (field : string)
| PaddedFamilyName (field : string)
| UnknownFamilyName (family : string)
| AutonomousFamilyNotAllowed (family : string)
| DuplicateSituationRule (situation : SituationKind).

Definition known_action_families : list string :=
  ["cpu_affinity_profile"; "nice"; "ionice"; "uclamp"; "cgroup_placement"; "irq_affinity";
   "cpu_power"; "gpu_power"; "vm_knob"]%string.

Definition known_action_family (family : string) : bool :=
  bool_decide (family ∈ known_action_families).

Definition validate_action_family_name (family : string) : unit + WorkloadPolicyError :=
  if known_action_family family then inl tt else inr (UnknownFamilyName family).

(** The first family the check refuses. *)
Fixpoint check_families (check : string -> unit + WorkloadPolicyError) (families : list string)
    : unit + WorkloadPolicyError :=
  match families with
  | [] => inl tt
  | family :: rest =>
      match check family with inr e => inr e | inl _ => check_families check rest end
  end.

Definition validate_workload_policy_rule (r : WorkloadPolicyRule) : unit + WorkloadPolicyError :=
  match check_families validate_action_family_name
          (in_order (wr_allowed_families r) ++ in_order (wr_autonomous_families r)) with
  | inr e => inr e
  | inl _ =>
      check_families (fun family =>
          if bool_decide (family ∈ wr_allowed_families r) then inl tt
          else inr (AutonomousFamilyNotAllowed family))
        (in_order (wr_autonomous_families r))
  end.

Definition normalize_name (value : string) : string := to_ascii_lowercase (normalized_chars value).

Definition all_situations : list SituationKind :=
  [SkUnknown; SkIdle; GameFocused; GameCpuSchedulerPressure; GameGpuBound; CompositorPressure;
   CpuPressure; IoPressure; IrqPressure; ThermalOrPowerLimit; CompileLoad; BrowserFocused;
   BrowserCpuPressure; BrowserGpuVideo; BrowserIoPressure; CompileCpuBound;
   CompileLinkerPressure; MediaPlayback; SkRecording; VirtualMachineLoad].

Definition ObjectiveKind_debug (o : ObjectiveKind) : string :=
  match o with
  | OkStutterScore => "StutterScore" | GameFramePacing => "GameFramePacing"
  | GameRunnableLatency => "GameRunnableLatency" | DesktopInteractivity => "DesktopInteractivity"
  | BrowserInteractivity => "BrowserInteractivity"
  | CompileThroughputWithForegroundProtection => "CompileThroughputWithForegroundProtection"
  | IoLatency => "IoLatency" | IrqOverlapReduction => "IrqOverlapReduction"
  | ThermalRecoveryObjective => "ThermalRecovery"
  end.

Definition parse_situation_kind (value : string) : SituationKind + WorkloadPolicyError :=
  match List.find (fun s => String.eqb (normalize_name (SituationKind_debug s)) (normalize_name value))
          all_situations with
  | Some s => inl s
  | None => inr (UnknownSituationName value)
  end.

Definition parse_objective_kind (value : string) : ObjectiveKind + WorkloadPolicyError :=
  match List.find (fun o => String.eqb (normalize_name (ObjectiveKind_debug o)) (normalize_name value))
          all_objectives with
  | Some o => inl o
  | None => inr (UnknownObjectiveName value)
  end.

Fixpoint parse_family_set (field : string) (families : gset string) (values : list string)
    : gset string + WorkloadPolicyError :=
  match values with
  | [] => inl families
  | value :: rest =>
      let trimmed := trim value in
      if String.eqb trimmed "" then inr (EmptyFamilyName field)
      else if negb (String.eqb trimmed value) then inr (PaddedFamilyName field)
      else match validate_action_family_name trimmed with
           | inr e => inr e
           | inl _ => parse_family_set field ({[trimmed]} ∪ families) rest
           end
  end.

Fixpoint parse_objective_set (objectives : gset ObjectiveKind) (values : list string)
    : gset ObjectiveKind + WorkloadPolicyError :=
  match values with
  | [] => inl objectives
  | value :: rest =>
      match parse_objective_kind value with
      | inr e => inr e
      | inl o => parse_objective_set ({[o]} ∪ objectives) rest
      end
  end.

Definition into_rule (f : WorkloadPolicyRuleConfigFile) : WorkloadPolicyRule + WorkloadPolicyError :=
  match parse_situation_kind (rf_situation f) with
  | inr e => inr e
  | inl situation =>
  match parse_family_set "allowed_families" ∅ (rf_allowed_families f) with
  | inr e => inr e
  | inl allowed =>
  match parse_family_set "autonomous_families" ∅ (rf_autonomous_families f) with
  | inr e => inr e
  | inl autonomous =>
  match parse_objective_set ∅ (rf_allowed_objectives f) with
  | inr e => inr e
  | inl objectives =>
      let rule := {| wr_situation := situation; wr_allowed_families := allowed;
                     wr_allowed_objectives := objectives; wr_autonomous_families := autonomous |} in
      match validate_workload_policy_rule rule with inr e => inr e | inl _ => inl rule end
  end end end end.

Fixpoint parse_rules_from (seen : list SituationKind) (configs : list WorkloadPolicyRuleConfigFile)
    : list WorkloadPolicyRule + WorkloadPolicyError :=
  match configs with
  | [] => inl []
  | config :: rest =>
      match into_rule config with
      | inr e => inr e
      | inl rule =>
          if bool_decide (wr_situation rule ∈ seen) then inr (DuplicateSituationRule (wr_situation rule))
          else match parse_rules_from (seen ++ [wr_situation rule]) rest with
               | inr e => inr e
               | inl rules => inl (rule :: rules)
               end
      end
  end.

Definition parse_workload_policy_rule_configs (configs : list WorkloadPolicyRuleConfigFile)
    : DaemonWorkloadPolicyConfig + WorkloadPolicyError :=
  match parse_rules_from [] configs with
  | inr e => inr e
  | inl rules => inl {| wc_rules := rules |}
  end.

(** ** [defaults.rs] *)

Definition wrule (situation : SituationKind) (families : list string)
    (objectives : list ObjectiveKind) (autonomous : list string) : WorkloadPolicyRule :=
  {| wr_situation := situation; wr_allowed_families := list_to_set families;
     wr_allowed_objectives := list_to_set objectives;
     wr_autonomous_families := list_to_set autonomous |}.

Definition default_rule_for_situation (situation : SituationKind) : WorkloadPolicyRule :=
  match situation with
  | GameFocused | GameCpuSchedulerPressure | GameGpuBound =>
      wrule situation
        ["cpu_affinity_profile"; "cgroup_placement"; "uclamp"; "gpu_power"; "irq_affinity";
         "cpu_power"; "nice"; "ionice"]
        [OkStutterScore; GameFramePacing; GameRunnableLatency; DesktopInteractivity; IoLatency;
         IrqOverlapReduction; ThermalRecoveryObjective]
        ["cpu_affinity_profile"; "cgroup_placement"]
  | BrowserFocused | BrowserCpuPressure | BrowserGpuVideo | BrowserIoPressure =>
      wrule situation
        ["nice"; "ionice"; "uclamp"; "cpu_affinity_profile"; "gpu_power"]
        [GameFramePacing; BrowserInteractivity; DesktopInteractivity; IoLatency; OkStutterScore;
         ThermalRecoveryObjective]
        []
  | CompileLoad | CompileCpuBound | CompileLinkerPressure =>
      wrule situation
        ["cpu_affinity_profile"; "cgroup_placement"; "uclamp"; "nice"; "ionice"]
        [CompileThroughputWithForegroundProtection; DesktopInteractivity; IoLatency;
         OkStutterScore]
        []
  | SkRecording =>
      wrule situation ["nice"; "ionice"; "uclamp"] [DesktopInteractivity; IoLatency; OkStutterScore] []
  | MediaPlayback =>
      wrule situation ["nice"; "ionice"; "uclamp"] [DesktopInteractivity; IoLatency; OkStutterScore] []
  | VirtualMachineLoad =>
      wrule situation ["cgroup_placement"; "uclamp"; "cpu_affinity_profile"]
        [DesktopInteractivity; OkStutterScore] []
  | CompositorPressure =>
      wrule situation ["uclamp"; "nice"; "ionice"; "cpu_affinity_profile"]
        [DesktopInteractivity; OkStutterScore] []
  | CpuPressure =>
      wrule situation ["cpu_affinity_profile"; "uclamp"; "nice"]
        [DesktopInteractivity; OkStutterScore] []
  | IoPressure => wrule situation ["ionice"; "vm_knob"] [IoLatency; OkStutterScore] []
  | IrqPressure => wrule situation ["irq_affinity"] [IrqOverlapReduction; OkStutterScore] []
  | ThermalOrPowerLimit =>
      wrule situation ["cpu_power"; "gpu_power"] [ThermalRecoveryObjective; OkStutterScore] []
  | SkIdle => wrule situation ["cpu_power"; "gpu_power"] [ThermalRecoveryObjective] []
  | SkUnknown => wrule situation [] [] []
  end%string.

Definition default_rules : WorkloadPolicyMatrix :=
  {| wm_rules := default_rule_for_situation <$> all_situations |}.

Definition rule_for (m : WorkloadPolicyMatrix) (situation : SituationKind) : WorkloadPolicyRule :=
  default (default_rule_for_situation situation)
    (List.find (fun r => bool_decide (wr_situation r = situation)) (wm_rules m)).

(** Replace the first rule of the situation, or append. *)
Fixpoint put_rule (rules : list WorkloadPolicyRule) (r : WorkloadPolicyRule)
    : list WorkloadPolicyRule :=
  match rules with
  | [] => [r]
  | x :: rest =>
      if bool_decide (wr_situation x = wr_situation r) then r :: rest else x :: put_rule rest r
  end.

Fixpoint override_from (rules : list WorkloadPolicyRule) (seen : list SituationKind)
    (overrides : list WorkloadPolicyRule) : list WorkloadPolicyRule + WorkloadPolicyError :=
  match overrides with
  | [] => inl rules
  | r :: rest =>
      match validate_workload_policy_rule r with
      | inr e => inr e
      | inl _ =>
          if bool_decide (wr_situation r ∈ seen) then inr (DuplicateSituationRule (wr_situation r))
          else override_from (put_rule rules r) (seen ++ [wr_situation r]) rest
      end
  end.

Definition with_overrides (overrides : list WorkloadPolicyRule)
    : WorkloadPolicyMatrix + WorkloadPolicyError :=
  match override_from (wm_rules default_rules) [] overrides with
  | inr e => inr e
  | inl rules => inl {| wm_rules := rules |}
  end.

Definition resolved_matrix (c : DaemonWorkloadPolicyConfig)
    : WorkloadPolicyMatrix + WorkloadPolicyError :=
  with_overrides (wc_rules c).

Definition workload_policy_for_situation (situation : SituationKind) : WorkloadPolicyRule :=
  rule_for default_rules situation.

(** ** [lint.rs] *)

Definition high_risk_family (family : string) : bool := String.eqb family "high_risk".

Definition system_wide_family (family : string) : bool :=
  bool_decide (family ∈ ["cpu_power"; "gpu_power"; "irq_affinity"; "vm_knob"]%string).

Definition medium_risk_system_family_allowed (family : string) (p : DaemonPolicy) : bool :=
  if negb (mode_eqb (mode p) ApplyMediumRisk) || negb (allow_medium_risk_apply p) then false
  else if String.eqb family "irq_affinity" then true
  else if String.eqb family "cpu_power" || String.eqb family "gpu_power"
       then allow_gpu_power_in_autotune p
  else if String.eqb family "vm_knob" then allow_vm_knobs_in_autotune p
  else false.

Definition medium_or_high_risk_family (family : string) : bool :=
  negb (String.eqb family "cpu_affinity_profile" || String.eqb family "cgroup_placement").

Definition family_supports_objective (family : string) (o : ObjectiveKind) : bool :=
  let supported :=
    if String.eqb family "cpu_affinity_profile"
    then [OkStutterScore; GameFramePacing; GameRunnableLatency; DesktopInteractivity;
          CompileThroughputWithForegroundProtection]
    else if String.eqb family "nice" || String.eqb family "uclamp"
    then [OkStutterScore; DesktopInteractivity; BrowserInteractivity;
          CompileThroughputWithForegroundProtection; GameRunnableLatency]
    else if String.eqb family "ionice" then [OkStutterScore; DesktopInteractivity; IoLatency]
    else if String.eqb family "cgroup_placement"
    then [OkStutterScore; DesktopInteractivity; CompileThroughputWithForegroundProtection;
          GameRunnableLatency]
    else if String.eqb family "irq_affinity" then [OkStutterScore; IrqOverlapReduction]
    else if String.eqb family "cpu_power" || String.eqb family "gpu_power"
    then [OkStutterScore; ThermalRecoveryObjective; GameFramePacing; BrowserInteractivity]
    else if String.eqb family "vm_knob" then [OkStutterScore; IoLatency]
    else [] in
  bool_decide (o ∈ supported).

Definition pushed {A} (b : bool) (x : A) : list A := if b then [x] else [].

Definition lint_autonomous_family (r : WorkloadPolicyRule) (p : DaemonPolicy) (family : string)
    : list WorkloadPolicyLint :=
  let applies := supports_apply (mode p) in
  let error kind := lint_error kind (Some (wr_situation r)) (Some family) in
  pushed (existsb (fun denied => family_matches family denied || family_matches denied family)
            (elements (denied_action_families p)))
    (error DeniedFamilyIsAutonomous)
  ++ pushed (applies && high_risk_family family && negb (allow_high_risk p))
       (error HighRiskFamilyIsAutonomous)
  ++ pushed (applies && system_wide_family family && negb (allow_system_wide_apply p)
             && negb (medium_risk_system_family_allowed family p))
       (error MediumRiskSystemWideDenied)
  ++ pushed (applies && mode_eqb (mode p) ApplyLowRisk && medium_or_high_risk_family family)
       (error ApplyLowRiskAutonomousFamilyTooRisky).

Definition lint_rule (r : WorkloadPolicyRule) (p : DaemonPolicy) : list WorkloadPolicyLint :=
  pushed (bool_decide (wr_autonomous_families r = ∅) && negb (bool_decide (wr_allowed_families r = ∅)))
    (lint_warning EmptyAutonomousFamilies (Some (wr_situation r)) None)
  ++ mjoin (lint_autonomous_family r p <$> in_order (wr_autonomous_families r))
  ++ mjoin ((fun o =>
        pushed (negb (existsb (fun family => family_supports_objective family o)
                        (elements (wr_allowed_families r))))
          (lint_warning ObjectiveWithoutCapableFamily (Some (wr_situation r)) None))
       <$> filter (fun o => o ∈ wr_allowed_objectives r) all_objectives).

Definition debug_situation (s : option SituationKind) : string :=
  match s with
  | Some s => String.append "Some(" (String.append (SituationKind_debug s) ")")
  | None => "None"
  end.

(** [None] sorts before every [Some]. *)
Definition option_string_le (a b : option string) : bool :=
  match a, b with
  | None, _ => true
  | Some _, None => false
  | Some a, Some b => String.leb a b
  end.

Definition lint_le (a b : WorkloadPolicyLint) : Prop :=
  let s := LintSeverity_rank (wl_severity a) ?= LintSeverity_rank (wl_severity b) in
  let k := WorkloadPolicyLintKind_rank (wl_kind a) ?= WorkloadPolicyLintKind_rank (wl_kind b) in
  let d := String.compare (debug_situation (wl_situation a)) (debug_situation (wl_situation b)) in
  s = Lt \/ (s = Eq /\ (k = Lt \/ (k = Eq /\ (d = Lt \/
    (d = Eq /\ option_string_le (wl_family a) (wl_family b) = true))))).

#[export] Instance lint_le_dec a b : Decision (lint_le a b).
Proof. unfold lint_le. apply _. Defined.

Definition lint_workload_policy (m : WorkloadPolicyMatrix) (p : DaemonPolicy)
    : list WorkloadPolicyLint :=
  stable_sort lint_le (mjoin ((fun r => lint_rule r p) <$> wm_rules m)).

(** Whether the lints hold no error. *)
Definition validate_workload_policy_lints (lints : list WorkloadPolicyLint) : bool :=
  negb (existsb (fun l => bool_decide (wl_severity l = LintError)) lints).

(** ** Theorems *)

Section Rules.

Implicit Types (r : WorkloadPolicyRule) (m : WorkloadPolicyMatrix) (p : DaemonPolicy).

Lemma family_matches_policy kind family :
  family_matches kind family = action_kind_matches_family kind family.
Proof. done. Qed.

Lemma in_order_elem s family : family ∈ in_order s <-> family ∈ s.
Proof. unfold in_order. by rewrite merge_sort_Permutation, elem_of_elements. Qed.

Lemma check_families_ok check l :
  check_families check l = inl tt <-> Forall (fun f => check f = inl tt) l.
Proof.
  induction l as [|f l IH]; cbn; [by split|]. rewrite Forall_cons.
  destruct (check f) as [[]|e]; [rewrite IH|]; naive_solver.
Qed.

(** The rules a configuration may give. *)
Record rule_ok r : Prop := {
  ok_known : forall f, f ∈ wr_allowed_families r -> f ∈ known_action_families;
  ok_autonomous : wr_autonomous_families r ⊆ wr_allowed_families r }.

Lemma known_family_ok f : validate_action_family_name f = inl tt <-> f ∈ known_action_families.
Proof.
  unfold validate_action_family_name, known_action_family. case_bool_decide; naive_solver.
Qed.

Lemma validate_rule_ok r : validate_workload_policy_rule r = inl tt <-> rule_ok r.
Proof.
  unfold validate_workload_policy_rule.
  destruct (check_families validate_action_family_name _) as [[]|e] eqn:E.
  - apply check_families_ok, Forall_app in E as [Hk _]. rewrite check_families_ok, Forall_forall.
    rewrite Forall_forall in Hk.
    assert (Hknown : forall f, f ∈ wr_allowed_families r -> f ∈ known_action_families)
      by (intros f Hf; apply known_family_ok, Hk, in_order_elem, Hf).
    split.
    + intros Ha. split; [done|]. intros f Hf. apply in_order_elem, Ha in Hf.
      by case_bool_decide.
    + intros [_ Ha] f Hf%in_order_elem. apply Ha in Hf. by case_bool_decide.
  - split; [done|]. intros [Hk Ha]. exfalso.
    assert (Hok : check_families validate_action_family_name
                    (in_order (wr_allowed_families r) ++ in_order (wr_autonomous_families r)) = inl tt).
    { apply check_families_ok, Forall_app. rewrite !Forall_forall.
      split; intros f Hf%in_order_elem; apply known_family_ok, Hk; [done|by apply Ha]. }
    by rewrite Hok in E.
Qed.

(** The default rules are rules a configuration could have given. *)
Lemma default_rule_ok s : rule_ok (default_rule_for_situation s).
Proof. apply validate_rule_ok. by destruct s; vm_compute. Qed.

Lemma into_rule_ok f r : into_rule f = inl r -> rule_ok r.
Proof.
  unfold into_rule. intros H. repeat (case_match; try done). simplify_eq. apply validate_rule_ok.
  by destruct u.
Qed.

Lemma default_rule_situation s : wr_situation (default_rule_for_situation s) = s.
Proof. by destruct s. Qed.

(** The rule of a situation in a list of rules. *)
Definition find_rule (s : SituationKind) (rules : list WorkloadPolicyRule)
    : option WorkloadPolicyRule :=
  List.find (fun r => bool_decide (wr_situation r = s)) rules.

Lemma find_rule_cons s r rules :
  find_rule s (r :: rules) = if decide (wr_situation r = s) then Some r else find_rule s rules.
Proof. unfold find_rule. cbn. case_bool_decide; case_decide; done. Qed.

Lemma find_put rules r s :
  find_rule s (put_rule rules r) = if decide (wr_situation r = s) then Some r else find_rule s rules.
Proof.
  unfold find_rule. induction rules as [|x rules IH]; cbn.
  { case_bool_decide; case_decide; done. }
  case_bool_decide as Hx; cbn.
  - repeat (case_bool_decide || case_decide); congruence.
  - rewrite IH. repeat (case_bool_decide || case_decide); congruence.
Qed.

Lemma override_exact rules seen overrides :
  Forall rule_ok overrides -> NoDup (seen ++ (wr_situation <$> overrides)) ->
  exists result, override_from rules seen overrides = inl result /\
    forall s, find_rule s result =
      match find_rule s overrides with Some r => Some r | None => find_rule s rules end.
Proof.
  revert rules seen. induction overrides as [|r rest IH]; intros rules seen Hok Hd; cbn [override_from].
  { by exists rules. }
  apply Forall_cons in Hok as [Hr Hok]. apply validate_rule_ok in Hr as ->.
  case_bool_decide as Hseen.
  { apply NoDup_app in Hd as (_ & Hd & _). exfalso. eapply Hd; [exact Hseen|]. cbn. set_solver. }
  destruct (IH (put_rule rules r) (seen ++ [wr_situation r])) as (result & -> & Hf);
    [done|by rewrite <- app_assoc|].
  exists result. split; [done|]. intros s. rewrite Hf, find_put.
  rewrite (find_rule_cons s r rest). case_decide as Hs; [|done].
  destruct (find_rule s rest) as [r'|] eqn:E; [|done]. exfalso.
  unfold find_rule in E. apply find_some in E as [Hin Hs']. apply bool_decide_eq_true in Hs'.
  apply NoDup_app in Hd as (_ & _ & Hd). cbn in Hd. apply NoDup_cons in Hd as [Hn _].
  apply Hn, list_elem_of_fmap. exists r'. split; [congruence|]. by apply list_elem_of_In.
Qed.

Lemma parse_rules_ok seen configs rules :
  NoDup seen -> parse_rules_from seen configs = inl rules ->
  Forall rule_ok rules /\ NoDup (seen ++ (wr_situation <$> rules)).
Proof.
  revert seen rules. induction configs as [|f configs IH]; intros seen rules Hd H; cbn in H.
  { simplify_eq. cbn. by rewrite app_nil_r. }
  destruct (into_rule f) as [r|] eqn:Er; [|done]. case_bool_decide as Hs; [done|].
  destruct (parse_rules_from _ configs) as [rest|] eqn:E; [|done]. simplify_eq.
  apply IH in E as [Hok Hn].
  - split; [constructor; [by eapply into_rule_ok|done]|]. by rewrite <- app_assoc in Hn.
  - apply NoDup_app. split; [done|]. split; [|apply NoDup_singleton]. set_solver.
Qed.

Lemma find_default s : find_rule s (wm_rules default_rules) = Some (default_rule_for_situation s).
Proof. by destruct s. Qed.

(** *** Lints *)

(** An autonomous family the policy makes an error of. *)
Definition lint_refuses p (family : string) : Prop :=
  (exists denied, denied ∈ denied_action_families p /\
     (family_matches family denied = true \/ family_matches denied family = true)) \/
  (supports_apply (mode p) = true /\
   ((high_risk_family family = true /\ allow_high_risk p = false) \/
    (system_wide_family family = true /\ allow_system_wide_apply p = false /\
     medium_risk_system_family_allowed family p = false) \/
    (mode p = ApplyLowRisk /\ medium_or_high_risk_family family = true))).

Lemma existsb_denied p family :
  existsb (fun denied => family_matches family denied || family_matches denied family)
    (elements (denied_action_families p)) = true <->
  exists denied, denied ∈ denied_action_families p /\
     (family_matches family denied = true \/ family_matches denied family = true).
Proof.
  rewrite existsb_exists. split; intros (d & Hd & H); exists d; rewrite orb_true_iff in *;
    (split; [|done]); [apply elem_of_elements, list_elem_of_In|
                       apply list_elem_of_In, elem_of_elements]; done.
Qed.

Lemma pushed_elem {A} b (x y : A) : y ∈ pushed b x <-> b = true /\ y = x.
Proof. destruct b; cbn; set_solver. Qed.

Lemma autonomous_lint_error r p family :
  (exists l, l ∈ lint_autonomous_family r p family /\ wl_severity l = LintError) <->
  lint_refuses p family.
Proof.
  unfold lint_autonomous_family, lint_refuses. setoid_rewrite elem_of_app.
  setoid_rewrite elem_of_app. setoid_rewrite elem_of_app. setoid_rewrite pushed_elem.
  rewrite <- existsb_denied. unfold mode_eqb. repeat setoid_rewrite andb_true_iff.
  setoid_rewrite negb_true_iff. setoid_rewrite bool_decide_eq_true. split.
  - intros (l & [[H _]|[[H _]|[[H _]|[H _]]]] & _); tauto.
  - intros [H|(Ha & [H|[H|H]])]; eexists.
    + split; [left; split; [exact H|reflexivity]|done].
    + split; [right; left; split; [tauto|reflexivity]|done].
    + split; [right; right; left; split; [tauto|reflexivity]|done].
    + split; [right; right; right; split; [tauto|reflexivity]|done].
Qed.

Lemma lint_rule_error r p :
  (exists l, l ∈ lint_rule r p /\ wl_severity l = LintError) <->
  exists family, family ∈ wr_autonomous_families r /\ lint_refuses p family.
Proof.
  unfold lint_rule. setoid_rewrite elem_of_app. setoid_rewrite elem_of_app.
  setoid_rewrite pushed_elem. setoid_rewrite list_elem_of_join. split.
  - intros (l & [[_ ->]|[(ls & Hl & Hin)|(ls & Hl & Hin)]] & Hs); [done| |].
    + apply list_elem_of_fmap in Hin as (f & -> & Hf%in_order_elem). exists f. split; [done|].
      apply (autonomous_lint_error r). eauto.
    + apply list_elem_of_fmap in Hin as (o & -> & _). by apply pushed_elem in Hl as [_ ->].
  - intros (f & Hf & (l & Hl & Hs)%(autonomous_lint_error r)). exists l. split; [|done]. right. left.
    exists (lint_autonomous_family r p f). split; [done|]. apply list_elem_of_fmap. exists f.
    by rewrite in_order_elem.
Qed.

Lemma lints_elem m p l :
  l ∈ lint_workload_policy m p <-> exists r, r ∈ wm_rules m /\ l ∈ lint_rule r p.
Proof.
  unfold lint_workload_policy. rewrite stable_sort_Permutation, list_elem_of_join. split.
  - intros (ls & Hl & (r & -> & Hr)%list_elem_of_fmap). eauto.
  - intros (r & Hr & Hl). exists (lint_rule r p). split; [done|]. apply list_elem_of_fmap. eauto.
Qed.

End Rules.

(** A parsed configuration always resolves: the rule of a situation is the one
    the configuration gives it, or the default one; the families it names are known and
    what is autonomous in it is also allowed. *)
Theorem configured_matrix_exact (configs : list WorkloadPolicyRuleConfigFile)
    (c : DaemonWorkloadPolicyConfig) :
  parse_workload_policy_rule_configs configs = inl c ->
  exists m, resolved_matrix c = inl m /\
    forall s, rule_for m s = default (default_rule_for_situation s) (find_rule s (wc_rules c)) /\
      wr_autonomous_families (rule_for m s) ⊆ wr_allowed_families (rule_for m s) /\
      (forall f, f ∈ wr_allowed_families (rule_for m s) -> f ∈ known_action_families).
Proof.
  unfold parse_workload_policy_rule_configs. destruct (parse_rules_from [] configs) as [rules|] eqn:E;
    [|done]. intros [= <-]. apply parse_rules_ok in E as [Hok Hd]; [|constructor].
  unfold resolved_matrix, with_overrides. cbn [wc_rules].
  destruct (override_exact (wm_rules default_rules) [] rules) as (result & -> & Hf); [done|done|].
  exists {| wm_rules := result |}. split; [done|]. intros s.
  assert (Hrule : rule_for {| wm_rules := result |} s =
                  default (default_rule_for_situation s) (find_rule s rules)).
  { unfold rule_for. cbn [wm_rules]. fold (find_rule s result). rewrite Hf, find_default.
    by destruct (find_rule s rules). }
  rewrite Hrule. split; [done|].
  assert (Hr : rule_ok (default (default_rule_for_situation s) (find_rule s rules))).
  { destruct (find_rule s rules) as [r|] eqn:Er; cbn; [|apply default_rule_ok].
    unfold find_rule in Er. apply find_some in Er as [Hin _].
    eapply Forall_forall in Hok; [exact Hok|]. by apply list_elem_of_In. }
  by destruct Hr.
Qed.

(** The texts of the situations and of the objectives are read back. *)
Theorem situation_names_round_trip :
  (forall s, parse_situation_kind (SituationKind_debug s) = inl s) /\
  (forall o, parse_objective_kind (ObjectiveKind_debug o) = inl o).
Proof. split; intros []; by vm_compute. Qed.

(** A matrix passes the lints exactly when no rule makes autonomous a family the policy
    denies, or, in an apply mode, one beyond its risk. *)
Theorem lints_pass_iff (m : WorkloadPolicyMatrix) (p : DaemonPolicy) :
  validate_workload_policy_lints (lint_workload_policy m p) = true <->
  forall r family, r ∈ wm_rules m -> family ∈ wr_autonomous_families r -> ~ lint_refuses p family.
Proof.
  unfold validate_workload_policy_lints. rewrite negb_true_iff, <- not_true_iff_false, existsb_exists.
  split.
  - intros H r f Hr Hf Hl. apply H.
    destruct (proj2 (lint_rule_error r p)) as (l & Hin & Hs); [eauto|]. exists l.
    split; [|by apply bool_decide_eq_true]. apply list_elem_of_In, lints_elem. eauto.
  - intros H (l & (r & Hr & Hl)%list_elem_of_In%lints_elem & Hs%bool_decide_eq_true).
    destruct (proj1 (lint_rule_error r p)) as (f & Hf & Hrefuse); [eauto|]. by eapply H.
Qed.

(** In the low-risk mode a matrix that passes makes only CPU affinity and cgroup
    placement autonomous. *)
Corollary low_risk_autonomous_families (m : WorkloadPolicyMatrix) (p : DaemonPolicy) r family :
  mode p = ApplyLowRisk -> validate_workload_policy_lints (lint_workload_policy m p) = true ->
  r ∈ wm_rules m -> family ∈ wr_autonomous_families r ->
  family = "cpu_affinity_profile"%string \/ family = "cgroup_placement"%string.
Proof.
  intros Hm Hv Hr Hf.
  pose proof (proj1 (lints_pass_iff m p) Hv r family Hr Hf) as H. unfold lint_refuses in H.
  destruct (medium_or_high_risk_family family) eqn:E.
  { exfalso. apply H. right. rewrite Hm. auto. }
  unfold medium_or_high_risk_family in E. apply negb_false_iff, orb_true_iff in E.
  by rewrite !String.eqb_eq in E.
Qed.
