(* ===== verification/CandidateMemory.v ===== *)
(** * CandidateMemory: what was tried before

    [stutter/src/autotune/candidate_memory]: the record of each action and context, the
    memory of each action and workload ([model.rs], [persistence.rs]), what they say of
    cooldowns and ranks ([decay.rs]), and what a loaded memory no longer trusts
    ([collision.rs]).  The file the memory is saved to is left out. *)

From Stdlib Require Import Ascii String List.
From S2P Require Import Prelude Binary64 Abi Metrics Intervals Score PolicyModel Procfs Objective Controller AutonomousGate ContextKey.
From stdpp Require Import sorting list.
Open Scope Z_scope.

(** ** [model.rs] *)

Inductive CandidateMemoryResult := MrTried | MrKept | MrReverted | MrFaulted | MrInconclusive | MrRejected.

(** What a record is keyed by: the hash of the context, with the summary it was
    computed from. *)
Record CandidateMemoryRecord := {
  cm_action_id : string;
  cm_candidate_name : string;
  cm_last_tried_unix_nanos : Z;
  cm_result : CandidateMemoryResult;
  cm_context_hash : string;
  cm_identity_summary : option string;
  cm_degraded_reason : option string;
  cm_score_delta : Z;
  cm_rollback_reason : option string;
  cm_cooldown_expires_unix_nanos : option Z }.

Definition is_degraded (r : CandidateMemoryRecord) : bool :=
  match cm_degraded_reason r with Some _ => true | None => false end.

Record WorkloadActionMemory := {
  wa_workload_hash : string;
  wa_action_id : string;
  wa_action_kind : string;
  wa_objective : ObjectiveKind;
  wa_operation : option MutationOperationKind;
  wa_situation : SituationKind;
  wa_last_result : CandidateMemoryResult;
  wa_score_delta : option f64;
  wa_last_seen_unix_nanos : Z;
  wa_cooldown_until_unix_nanos : option Z;
  wa_exe_dev : option Z;
  wa_exe_ino : option Z;
  wa_cgroup_path : option string;
  wa_identity_summary : option string;
  wa_degraded_reason : option string }.

(** An absent summary on either side is no mismatch. *)
Definition summaries_match (stored current : option string) : bool :=
  match stored, current with
  | Some s, Some c => String.eqb c s
  | _, _ => true
  end.

Definition matches_context (w : WorkloadActionMemory) (context : CandidateContextHashInput) : bool :=
  match wa_degraded_reason w with
  | Some _ => false
  | None =>
      let n := normalized context in
      match ci_workload_identity n with
      | Some workload => String.eqb workload (wa_workload_hash w)
      | None => false
      end
      && summaries_match (wa_identity_summary w) (workload_identity_summary n)
      && bool_decide (fst <$> ci_target_executable n = wa_exe_dev w)
      && bool_decide (snd <$> ci_target_executable n = wa_exe_ino w)
      && bool_decide (ci_cgroup_path n = wa_cgroup_path w)
      && bool_decide (ci_situation n = wa_situation w)
  end.

Record CandidateMemory := {
  mem_records : list CandidateMemoryRecord;
  mem_workload_actions : list WorkloadActionMemory }.

Definition CandidateMemory_default : CandidateMemory :=
  {| mem_records := []; mem_workload_actions := [] |}.

Record CandidateResultRecordInput := {
  cri_candidate : CandidateAction;
  cri_context : CandidateContextHashInput;
  cri_now_unix_nanos : Z;
  cri_result : CandidateMemoryResult;
  cri_diagnostic_baseline_raw_score_total : option Z;
  cri_diagnostic_current_raw_score_total : option Z;
  cri_rollback_reason : option string;
  cri_cooldown_expires_unix_nanos : option Z }.

(** ** [diagnostics.rs] *)

Definition normalize_owned_reason (value : option string) : option string :=
  v ← value; let t := trim v in if String.eqb t "" then None else Some t.

Definition I64_MAX : Z := 2 ^ 63 - 1.
Definition I64_MIN : Z := - 2 ^ 63.

Definition diagnostic_raw_score_delta_i64 (baseline current : option Z) : Z :=
  match baseline, current with
  | Some b, Some c =>
      let delta := c - b in
      if I64_MAX <? delta then I64_MAX else if delta <? I64_MIN then I64_MIN else delta
  | _, _ => 0
  end.

Definition diagnostic_raw_score_delta_f64 (baseline current : option Z) : option f64 :=
  match baseline, current with
  | Some b, Some c => Some (f64_sub (f64_of_Z c) (f64_of_Z b))
  | _, _ => None
  end.

(** ** [persistence.rs] *)

(** The key of a context is its hash, [context_key_hash]. *)
Definition record_of_input (i : CandidateResultRecordInput) : CandidateMemoryRecord :=
  {| cm_action_id := candidate_action_id (cri_candidate i);
     cm_candidate_name := candidate_name (cri_candidate i);
     cm_last_tried_unix_nanos := cri_now_unix_nanos i;
     cm_result := cri_result i;
     cm_context_hash := context_hash (cri_context i);
     cm_identity_summary := Some (identity_summary (cri_context i));
     cm_degraded_reason := None;
     cm_score_delta :=
       diagnostic_raw_score_delta_i64 (cri_diagnostic_baseline_raw_score_total i)
         (cri_diagnostic_current_raw_score_total i);
     cm_rollback_reason := normalize_owned_reason (cri_rollback_reason i);
     cm_cooldown_expires_unix_nanos := cri_cooldown_expires_unix_nanos i |}.

(** Replace the first element that is the same, or append. *)
Fixpoint upsert {A} (same : A -> bool) (l : list A) (x : A) : list A :=
  match l with
  | [] => [x]
  | y :: rest => if same y then x :: rest else y :: upsert same rest x
  end.

Definition same_record (a b : CandidateMemoryRecord) : bool :=
  String.eqb (cm_action_id a) (cm_action_id b) && String.eqb (cm_context_hash a) (cm_context_hash b).

Definition upsert_record (l : list CandidateMemoryRecord) (r : CandidateMemoryRecord)
    : list CandidateMemoryRecord :=
  upsert (fun x => same_record x r) l r.

(** The memory of a workload a record leaves, when the context has an identity. *)
Definition workload_memory_of (i : CandidateResultRecordInput) : option WorkloadActionMemory :=
  let context := normalized (cri_context i) in
  workload ← ci_workload_identity context;
  Some
    {| wa_workload_hash := workload;
       wa_action_id := candidate_action_id (cri_candidate i);
       wa_action_kind := candidate_action_kind (cri_candidate i);
       wa_objective := candidate_objective (cri_candidate i);
       wa_operation := Some (operation_kind (cri_candidate i));
       wa_situation := ci_situation context;
       wa_last_result := cri_result i;
       wa_score_delta :=
         Some (default f64_zero
                 (diagnostic_raw_score_delta_f64 (cri_diagnostic_baseline_raw_score_total i)
                    (cri_diagnostic_current_raw_score_total i)));
       wa_last_seen_unix_nanos := cri_now_unix_nanos i;
       wa_cooldown_until_unix_nanos := cri_cooldown_expires_unix_nanos i;
       wa_exe_dev := fst <$> ci_target_executable context;
       wa_exe_ino := snd <$> ci_target_executable context;
       wa_cgroup_path := ci_cgroup_path context;
       wa_identity_summary := workload_identity_summary context;
       wa_degraded_reason := None |}.

Definition record_workload_action (l : list WorkloadActionMemory) (i : CandidateResultRecordInput)
    : list WorkloadActionMemory :=
  match workload_memory_of i with
  | None => l
  | Some w =>
      upsert (fun x => String.eqb (wa_action_id x) (wa_action_id w)
                       && matches_context x (normalized (cri_context i))) l w
  end.

Definition MAX_RECORDS : nat := 512.
Definition MAX_WORKLOAD_ACTIONS : nat := 512.

Definition newer {A} (key : A -> Z) (a b : A) : Prop := key b <= key a.
#[export] Instance newer_dec {A} (key : A -> Z) a b : Decision (newer key a b).
Proof. unfold newer. apply _. Defined.

Definition keep_newest {A} (key : A -> Z) (max : nat) (l : list A) : list A :=
  if (max <? length l)%nat then take max (stable_sort (newer key) l) else l.

Definition enforce_bounds (m : CandidateMemory) : CandidateMemory :=
  {| mem_records := keep_newest cm_last_tried_unix_nanos MAX_RECORDS (mem_records m);
     mem_workload_actions :=
       keep_newest wa_last_seen_unix_nanos MAX_WORKLOAD_ACTIONS (mem_workload_actions m) |}.

Definition record_result (m : CandidateMemory) (i : CandidateResultRecordInput)
    : CandidateMemory * CandidateMemoryRecord :=
  let r := record_of_input i in
  (enforce_bounds
     {| mem_records := upsert_record (mem_records m) r;
        mem_workload_actions := record_workload_action (mem_workload_actions m) i |}, r).

Definition record_attempt (m : CandidateMemory) (c : CandidateAction)
    (context : CandidateContextHashInput) (now : Z) (cooldown : option Z)
    : CandidateMemory * CandidateMemoryRecord :=
  record_result m
    {| cri_candidate := c; cri_context := context; cri_now_unix_nanos := now;
       cri_result := MrTried; cri_diagnostic_baseline_raw_score_total := None;
       cri_diagnostic_current_raw_score_total := None; cri_rollback_reason := None;
       cri_cooldown_expires_unix_nanos := cooldown |}.

Definition latest (m : CandidateMemory) : option CandidateMemoryRecord :=
  max_by_key cm_last_tried_unix_nanos (mem_records m).

Definition last_for_action (m : CandidateMemory) (action_id : string)
    : option CandidateMemoryRecord :=
  max_by_key cm_last_tried_unix_nanos
    (filter (fun r => cm_action_id r = action_id /\ is_degraded r = false) (mem_records m)).

(** ** [decay.rs] *)

(** A [Duration] in nanoseconds; the conversion keeps at most [u64::MAX] of them. *)
Definition duration_from_remaining_nanos (remaining : Z) : Z := Z.min remaining U64_MAX.

Definition cooldown_remaining_for_action (m : CandidateMemory) (action_id : string) (now : Z)
    : option Z :=
  r ← last_for_action m action_id;
  expires ← cm_cooldown_expires_unix_nanos r;
  if expires <=? now then None
  else Some (duration_from_remaining_nanos (saturating_sub expires now)).

Definition last_for_workload_action (m : CandidateMemory) (c : CandidateAction)
    (context : CandidateContextHashInput) : option WorkloadActionMemory :=
  max_by_key wa_last_seen_unix_nanos
    (filter (fun w => wa_action_id w = candidate_action_id c /\ matches_context w context = true)
       (mem_workload_actions m)).

Definition cooldown_remaining_for_workload_action (m : CandidateMemory) (c : CandidateAction)
    (context : CandidateContextHashInput) (now : Z) : option Z :=
  w ← last_for_workload_action m c context;
  until ← wa_cooldown_until_unix_nanos w;
  if until <=? now then None
  else Some (duration_from_remaining_nanos (saturating_sub until now)).

Definition workload_rank_hint (m : CandidateMemory) (c : CandidateAction)
    (context : CandidateContextHashInput) : option Z :=
  w ← last_for_workload_action m c context;
  match wa_last_result w with
  | MrKept => Some (-100)
  | MrReverted | MrFaulted | MrRejected => Some 100
  | MrInconclusive => Some 20
  | MrTried => Some 0
  end.

(** ** [collision.rs]: keys that two entries with different summaries share *)

Fixpoint colliding {A} (key : A -> string) (summary : A -> option string)
    (seen : list (string * string)) (l : list A) : list string :=
  match l with
  | [] => []
  | x :: rest =>
      match summary x with
      | None => colliding key summary seen rest
      | Some s =>
          match List.find (fun e => String.eqb e.1 (key x)) seen with
          | Some (_, previous) =>
              (if String.eqb previous s then [] else [key x]) ++ colliding key summary seen rest
          | None => colliding key summary ((key x, s) :: seen) rest
          end
      end
  end.

Definition colliding_record_context_hashes (m : CandidateMemory) : list string :=
  colliding cm_context_hash cm_identity_summary [] (mem_records m).

Definition colliding_workload_hashes (m : CandidateMemory) : list string :=
  colliding wa_workload_hash wa_identity_summary [] (mem_workload_actions m).

Definition degrade (r : CandidateMemoryRecord) (reason : string) : CandidateMemoryRecord :=
  {| cm_action_id := cm_action_id r; cm_candidate_name := cm_candidate_name r;
     cm_last_tried_unix_nanos := cm_last_tried_unix_nanos r; cm_result := cm_result r;
     cm_context_hash := cm_context_hash r; cm_identity_summary := cm_identity_summary r;
     cm_degraded_reason := Some reason; cm_score_delta := cm_score_delta r;
     cm_rollback_reason := cm_rollback_reason r;
     cm_cooldown_expires_unix_nanos := cm_cooldown_expires_unix_nanos r |}.

Definition degrade_workload (w : WorkloadActionMemory) (reason : string) : WorkloadActionMemory :=
  {| wa_workload_hash := wa_workload_hash w; wa_action_id := wa_action_id w;
     wa_action_kind := wa_action_kind w; wa_objective := wa_objective w;
     wa_operation := wa_operation w; wa_situation := wa_situation w;
     wa_last_result := wa_last_result w; wa_score_delta := wa_score_delta w;
     wa_last_seen_unix_nanos := wa_last_seen_unix_nanos w;
     wa_cooldown_until_unix_nanos := wa_cooldown_until_unix_nanos w;
     wa_exe_dev := wa_exe_dev w; wa_exe_ino := wa_exe_ino w; wa_cgroup_path := wa_cgroup_path w;
     wa_identity_summary := wa_identity_summary w; wa_degraded_reason := Some reason |}.

Definition mark_loaded_identity_collisions (m : CandidateMemory) : CandidateMemory :=
  let records := colliding_record_context_hashes m in
  let workloads := colliding_workload_hashes m in
  {| mem_records :=
       (fun r =>
          if decide (cm_context_hash r ∈ records)
          then degrade r (String.append "candidate memory identity collision for context_hash "
                            (cm_context_hash r))
          else r) <$> mem_records m;
     mem_workload_actions :=
       (fun w =>
          if decide (wa_workload_hash w ∈ workloads)
          then degrade_workload w
                 (String.append "candidate memory identity collision for workload_hash "
                    (wa_workload_hash w))
          else w) <$> mem_workload_actions m |}.

(** ** Theorems *)

(** *** Keeping the newest *)

Lemma upsert_elem {A} (same : A -> bool) l x : x ∈ upsert same l x.
Proof. induction l as [|y l IH]; cbn; [set_solver|]. case_match; set_solver. Qed.

Lemma upsert_length {A} (same : A -> bool) l x : (length (upsert same l x) <= S (length l))%nat.
Proof. induction l as [|y l IH]; cbn; [lia|]. case_match; cbn; lia. Qed.

Lemma upsert_other {A} (same : A -> bool) l x y : y ∈ l -> y ∈ upsert same l x \/ same y = true.
Proof.
  induction l as [|z l IH]; cbn; [set_solver|]. intros Hy. destruct (same z) eqn:E;
    apply elem_of_cons in Hy as [->|Hy]; set_solver.
Qed.

Lemma upsert_incl {A} (same : A -> bool) l x y : y ∈ upsert same l x -> y = x \/ y ∈ l.
Proof. induction l as [|z l IH]; cbn; [set_solver|]. case_match; set_solver. Qed.

Section Newest.

Context {A : Type} (key : A -> Z).
Implicit Types (l : list A) (x y : A).

#[local] Instance newer_trans : Transitive (newer key).
Proof. unfold newer. intros ???. lia. Qed.
#[local] Instance newer_total : Total (newer key).
Proof. unfold newer. intros ??. lia. Qed.

(** [max_by_key] finds a maximum. *)
Lemma max_by_key_spec l :
  l <> [] -> exists x, max_by_key key l = Some x /\ x ∈ l /\ Forall (fun y => key y <= key x) l.
Proof.
  induction l as [|y l IH] using rev_ind; [done|]. intros _. unfold max_by_key in *.
  rewrite foldl_app. cbn. destruct (decide (l = [])) as [->|Hne].
  { exists y. cbn. split; [done|]. split; [set_solver|]. by repeat constructor. }
  destruct (IH Hne) as (x & -> & Hx & Hmax). destruct (Z.leb_spec (key x) (key y)).
  - exists y. split; [done|]. split; [set_solver|]. apply Forall_app. split; [|by repeat constructor].
    eapply Forall_impl; [exact Hmax|]. cbn. lia.
  - exists x. split; [done|]. split; [set_solver|]. apply Forall_app. split; [done|].
    repeat constructor. lia.
Qed.

(** The entries at least as new as [t]. *)
Definition since (t : Z) (l : list A) : list A := filter (fun r => t <= key r) l.

Lemma since_mono s t l : s <= t -> (length (since t l) <= length (since s l))%nat.
Proof.
  intros Hst. unfold since. induction l as [|x l IH]; [done|]. rewrite !filter_cons.
  repeat case_decide; cbn; lia.
Qed.

Lemma since_nil t l : Forall (fun r => key r < t) l -> since t l = [].
Proof.
  unfold since. induction 1 as [|r l Hr _ IH]; [done|]. by rewrite filter_cons_False by lia.
Qed.

Lemma upsert_since same t l x :
  (length (since t (upsert same l x)) <= S (length (since t l)))%nat.
Proof.
  unfold since. induction l as [|y l IH]; cbn [upsert].
  - rewrite filter_cons. case_decide; cbn; lia.
  - case_match; rewrite !filter_cons; repeat case_decide; cbn; lia.
Qed.

(** The newest entries survive the bound. *)
Lemma keep_newest_keeps max l x :
  x ∈ l -> (length (since (key x) l) <= max)%nat -> x ∈ keep_newest key max l.
Proof.
  intros Hr Hlen. unfold keep_newest. case_match; [|done].
  pose proof (stable_sort_Permutation (newer key) l) as Hp.
  assert (Hs : StronglySorted (newer key) (stable_sort (newer key) l)).
  { apply (StronglySorted_stable_sort (newer key)). }
  rewrite <- Hp in Hr. apply list_elem_of_lookup in Hr as [j Hj].
  destruct (decide (j < max)%nat) as [Hlt|Hge].
  { apply (list_elem_of_lookup_2 _ j). by rewrite lookup_take_lt. }
  exfalso. pose proof (take_drop_middle _ _ _ Hj) as Hsplit.
  set (pre := take j (stable_sort (newer key) l)) in *. set (post := drop (S j) _) in *.
  assert (Hpre : Forall (fun y => key x <= key y) pre).
  { rewrite <- Hsplit in Hs. clear -Hs. induction pre as [|y pre IH]; [constructor|].
    cbn in Hs. inversion Hs as [|? ? Hs' Hx]; subst. constructor; [|by apply IH].
    eapply Forall_forall in Hx; [exact Hx|]. set_solver. }
  assert (Hcount : length (since (key x) l) = length (since (key x) (pre ++ x :: post))).
  { unfold since. rewrite Hsplit. apply Permutation_length. by rewrite Hp. }
  unfold since in Hcount at 2. rewrite filter_app, filter_cons_True in Hcount by lia.
  rewrite filter_all, length_app in Hcount by done. cbn [length] in Hcount.
  assert (length pre = j) by (subst pre; apply length_take_le; apply lookup_lt_Some in Hj; lia).
  lia.
Qed.

Lemma keep_newest_incl max l x : x ∈ keep_newest key max l -> x ∈ l.
Proof.
  unfold keep_newest. case_match; [|done]. intros Hr.
  rewrite <- (stable_sort_Permutation (newer key) l).
  by eapply elem_of_take in Hr as (? & ? & ?); eapply list_elem_of_lookup_2.
Qed.

Lemma keep_newest_length max l : (length (keep_newest key max l) <= max)%nat.
Proof.
  unfold keep_newest. case_match eqn:E; [rewrite length_take; lia|]. by apply Nat.ltb_ge in E.
Qed.

Lemma keep_newest_since t max l : (length (since t (keep_newest key max l)) <= length (since t l))%nat.
Proof.
  unfold keep_newest. case_match; [|done]. unfold since.
  rewrite <- (Permutation_length (filter_Permutation _ _ _ (stable_sort_Permutation (newer key) l))).
  rewrite <- (take_drop max (stable_sort (newer key) l)) at 2. rewrite filter_app, length_app. lia.
Qed.

End Newest.

(** *** The records of an action *)

Section Memory.

Implicit Types (m : CandidateMemory) (r : CandidateMemoryRecord) (i : CandidateResultRecordInput).

Abbreviation tried_since := (since cm_last_tried_unix_nanos).
Abbreviation seen_since := (since wa_last_seen_unix_nanos).

(** The action has a usable record no older than [t]. *)
Definition remembers m (id : string) (t : Z) : Prop :=
  exists r, r ∈ mem_records m /\ cm_action_id r = id /\ is_degraded r = false /\
            t <= cm_last_tried_unix_nanos r.

Definition remember m i : CandidateMemory := (record_result m i).1.

Lemma remember_records m i :
  mem_records (remember m i) =
  keep_newest cm_last_tried_unix_nanos MAX_RECORDS (upsert_record (mem_records m) (record_of_input i)).
Proof. done. Qed.

(** One more record: an action remembered before is still remembered, as long as
    the newest records fit. *)
Lemma remember_step m i id t (n : nat) :
  t <= cri_now_unix_nanos i -> (length (tried_since t (mem_records m)) <= n)%nat ->
  (n < MAX_RECORDS)%nat -> remembers m id t ->
  remembers (remember m i) id t /\ (length (tried_since t (mem_records (remember m i))) <= S n)%nat.
Proof.
  intros Ht Hn Hmax (x & Hx & Hid & Hd & Hxt). rewrite remember_records.
  set (u := upsert_record (mem_records m) (record_of_input i)).
  assert (Hu : (length (tried_since t u) <= S n)%nat).
  { etrans; [apply upsert_since|]. lia. }
  split; [|etrans; [apply keep_newest_since|done]].
  assert (Hy : exists y, y ∈ u /\ cm_action_id y = id /\ is_degraded y = false /\
                         t <= cm_last_tried_unix_nanos y).
  { destruct (upsert_other (fun x => same_record x (record_of_input i)) _ (record_of_input i) _ Hx)
      as [Hin|Hsame]; [by exists x|]. exists (record_of_input i).
    apply andb_true_iff in Hsame as [Ha _]. apply String.eqb_eq in Ha.
    split; [apply upsert_elem|]. split; [congruence|done]. }
  destruct Hy as (y & Hy & Hyid & Hyd & Hyt). exists y. split; [|done].
  rewrite remember_records. apply keep_newest_keeps; [done|].
  etrans; [apply (since_mono _ t); lia|]. fold u. lia.
Qed.

Lemma remember_new m i :
  (length (tried_since (cri_now_unix_nanos i) (mem_records m)) < MAX_RECORDS)%nat ->
  remembers (remember m i) (candidate_action_id (cri_candidate i)) (cri_now_unix_nanos i) /\
  (length (tried_since (cri_now_unix_nanos i) (mem_records (remember m i)))
   <= S (length (tried_since (cri_now_unix_nanos i) (mem_records m))))%nat.
Proof.
  intros Hn. rewrite remember_records.
  pose proof (upsert_since cm_last_tried_unix_nanos (fun x => same_record x (record_of_input i))
                (cri_now_unix_nanos i) (mem_records m) (record_of_input i)) as Hu.
  split; [|etrans; [apply keep_newest_since|done]].
  exists (record_of_input i). split; [|done]. rewrite remember_records.
  apply keep_newest_keeps; [apply upsert_elem|]. unfold upsert_record. cbn. lia.
Qed.

(** A remembered action has a last record, no older. *)
Lemma last_for_action_remembers m id t :
  remembers m id t -> exists r, last_for_action m id = Some r /\ t <= cm_last_tried_unix_nanos r.
Proof.
  intros (r & Hr & Hid & Hd & Ht). unfold last_for_action.
  set (l := filter _ (mem_records m)).
  assert (Hl : r ∈ l) by (subst l; apply list_elem_of_filter; done).
  destruct (max_by_key_spec cm_last_tried_unix_nanos l) as (x & Hx & _ & Hmax).
  { intros E. rewrite E in Hl. by apply not_elem_of_nil in Hl. }
  exists x. split; [exact Hx|]. eapply Forall_forall in Hmax; [|exact Hl]. cbn in Hmax. lia.
Qed.

(** The memory after a sequence of recorded results. *)
Definition remember_all m (inputs : list CandidateResultRecordInput) : CandidateMemory :=
  foldl remember m inputs.

Lemma remember_all_keeps inputs m id t (n : nat) :
  Forall (fun i => t <= cri_now_unix_nanos i) inputs ->
  remembers m id t -> (length (tried_since t (mem_records m)) <= n)%nat ->
  (n + length inputs <= MAX_RECORDS)%nat -> remembers (remember_all m inputs) id t.
Proof.
  intros Hi. revert m n. induction Hi as [|i inputs Ht _ IH]; intros m n Hm Hn Hmax; [done|].
  cbn in Hmax |- *. destruct (remember_step m i id t n) as [H1 H2]; [done|done|lia|done|].
  apply (IH _ (S n)); [done|done|lia].
Qed.

End Memory.

(** *** What was recorded is recalled *)

Lemma workload_summary_normalized i :
  workload_identity_summary (normalized i) = workload_identity_summary i.
Proof.
  unfold workload_identity_summary, workload_identity_parts. cbn -[String.append String.concat].
  by rewrite normalize_optional_string_idem.
Qed.

Lemma matches_context_normalized w c : matches_context w (normalized c) = matches_context w c.
Proof.
  unfold matches_context. rewrite !workload_summary_normalized. cbn -[workload_identity_summary].
  by rewrite normalize_optional_string_idem.
Qed.

Lemma summaries_match_refl s : summaries_match s s = true.
Proof. destruct s; [apply String.eqb_refl|done]. Qed.

(** The memory a result leaves matches the context it was recorded in. *)
Lemma workload_memory_matches i w :
  workload_memory_of i = Some w -> matches_context w (cri_context i) = true.
Proof.
  unfold workload_memory_of. destruct (ci_workload_identity (normalized (cri_context i))) as [id|] eqn:E;
    [|done]. cbn -[workload_identity_summary normalized]. intros [= <-].
  unfold matches_context. cbn -[workload_identity_summary normalized]. rewrite E, String.eqb_refl.
  rewrite summaries_match_refl, !bool_decide_eq_true_2 by done. done.
Qed.

(** The entry a maximum by key must be: one newer than all the others. *)
Lemma max_by_key_newest {A} (key : A -> Z) (l : list A) x :
  x ∈ l -> (forall y, y ∈ l -> y = x \/ key y < key x) -> max_by_key key l = Some x.
Proof.
  intros Hx Hy. destruct (max_by_key_spec key l) as (z & Hz & Hin & Hmax).
  { intros ->. by apply not_elem_of_nil in Hx. }
  destruct (Hy z Hin) as [->|Hlt]; [done|]. eapply Forall_forall in Hmax; [|exact Hx]. cbn in Hmax. lia.
Qed.

(** An entry put into a list of older ones is there after the bound, and the newest. *)
Lemma upsert_newest {A} (key : A -> Z) (same : A -> bool) (max : nat) (l : list A) x :
  (0 < max)%nat -> Forall (fun y => key y < key x) l ->
  x ∈ keep_newest key max (upsert same l x) /\
  forall y, y ∈ keep_newest key max (upsert same l x) -> y = x \/ key y < key x.
Proof.
  intros Hmax Hl. split.
  - apply keep_newest_keeps; [apply upsert_elem|]. etrans; [apply upsert_since|].
    rewrite since_nil by done. cbn. lia.
  - intros y Hy%keep_newest_incl%upsert_incl. destruct Hy as [->|Hy]; [by left|]. right.
    by eapply Forall_forall in Hl.
Qed.

(** *** What a loaded memory no longer trusts *)

Section Collisions.

Context {A : Type} (key : A -> string) (summary : A -> option string).
Implicit Types (l : list A) (x y : A).

Lemma colliding_seen seen l x k previous s :
  List.find (fun e => String.eqb e.1 k) seen = Some (k, previous) ->
  x ∈ l -> key x = k -> summary x = Some s -> previous <> s ->
  k ∈ colliding key summary seen l.
Proof.
  revert seen. induction l as [|z l IH]; intros seen Hseen Hx Hk Hs Hne; cbn;
    [by apply not_elem_of_nil in Hx|]. apply elem_of_cons in Hx as [->|Hx].
  - rewrite Hs, Hk, Hseen. destruct (String.eqb_spec previous s); [done|]. set_solver.
  - destruct (summary z) as [t|]; [|by apply IH]. destruct (List.find (fun e => String.eqb e.1 (key z)) seen) as [[? ?]|] eqn:E.
    + apply elem_of_app. right. by apply IH.
    + apply IH; [|done|done|done|done]. cbn. destruct (String.eqb_spec (key z) k) as [Hz|]; [|done].
      rewrite Hz in E. congruence.
Qed.

Lemma colliding_found seen l x y s t :
  List.find (fun e => String.eqb e.1 (key x)) seen = None ->
  x ∈ l -> y ∈ l -> key x = key y -> summary x = Some s -> summary y = Some t -> s <> t ->
  key x ∈ colliding key summary seen l.
Proof.
  revert seen. induction l as [|z l IH]; intros seen Hseen Hx Hy Hk Hs Ht Hne; cbn;
    [by apply not_elem_of_nil in Hx|].
  destruct (decide (key z = key x /\ is_Some (summary z))) as [[Hz [u Hu]]|Hz].
  - rewrite Hu, Hz, Hseen.
    assert (Hw : exists w v, w ∈ l /\ key w = key x /\ summary w = Some v /\ u <> v).
    { apply elem_of_cons in Hx as [->|Hx]; apply elem_of_cons in Hy as [->|Hy].
      - congruence.
      - exists y, t. split; [done|]. split; [congruence|]. split; [done|congruence].
      - exists x, s. split; [done|]. split; [done|]. split; [done|congruence].
      - destruct (decide (u = s)) as [->|].
        + exists y, t. split; [done|]. split; [congruence|]. done.
        + exists x, s. done. }
    destruct Hw as (w & v & Hw & Hkw & Hsw & Huv). eapply colliding_seen; [|exact Hw|done|done|done].
    cbn. by rewrite String.eqb_refl.
  - assert (Hx' : x ∈ l) by (apply elem_of_cons in Hx as [->|]; [|done]; naive_solver).
    assert (Hy' : y ∈ l) by (apply elem_of_cons in Hy as [->|]; [|done]; naive_solver).
    destruct (summary z) as [u|] eqn:Hu; [|by apply IH].
    destruct (List.find (fun e => String.eqb e.1 (key z)) seen) as [[? ?]|] eqn:E; [apply elem_of_app; right; by apply IH|].
    apply IH; [|done|done|done|done|done|done]. cbn.
    destruct (String.eqb_spec (key z) (key x)) as [Hzx|]; [|done]. exfalso. apply Hz. eauto.
Qed.

End Collisions.

(** What the memory records it recalls: after a result recorded later than everything
    in the memory, the action's last record is that result, and so is the memory of
    the action in that workload when the context names one, so that until the
    recorded deadline the action is cooling down for that workload, and its rank is
    that of the recorded result. *)
Theorem recorded_result_recalled (m : CandidateMemory) (i : CandidateResultRecordInput)
    (w : WorkloadActionMemory) (now : Z) :
  Forall (fun r => cm_last_tried_unix_nanos r < cri_now_unix_nanos i) (mem_records m) ->
  Forall (fun x => wa_last_seen_unix_nanos x < cri_now_unix_nanos i) (mem_workload_actions m) ->
  workload_memory_of i = Some w ->
  let m' := (record_result m i).1 in
  let c := cri_candidate i in
  last_for_action m' (candidate_action_id c) = Some (record_of_input i) /\
  last_for_workload_action m' c (cri_context i) = Some w /\
  (is_Some (cooldown_remaining_for_workload_action m' c (cri_context i) now) <->
   exists deadline, cri_cooldown_expires_unix_nanos i = Some deadline /\ now < deadline) /\
  (workload_rank_hint m' c (cri_context i) = Some (-100) <-> cri_result i = MrKept).
Proof.
  intros Hr Hw Hi m' c.
  assert (Hlast : last_for_workload_action m' c (cri_context i) = Some w).
  { unfold last_for_workload_action. subst m'. cbn [record_result fst enforce_bounds mem_workload_actions].
    unfold record_workload_action. rewrite Hi.
    assert (Hkey : wa_last_seen_unix_nanos w = cri_now_unix_nanos i /\
                   wa_action_id w = candidate_action_id c).
    { unfold workload_memory_of in Hi. destruct (ci_workload_identity _); [|done]. by simplify_eq/=. }
    destruct Hkey as [Hkey Hid]. rewrite <- Hkey in Hw.
    destruct (upsert_newest wa_last_seen_unix_nanos
                (fun x => String.eqb (wa_action_id x) (wa_action_id w)
                          && matches_context x (normalized (cri_context i)))
                MAX_WORKLOAD_ACTIONS _ w ltac:(unfold MAX_WORKLOAD_ACTIONS; lia) Hw) as [Hin Hall].
    apply max_by_key_newest.
    - apply list_elem_of_filter. split; [|done]. split; [done|]. by apply workload_memory_matches.
    - intros y [_ Hy]%list_elem_of_filter. by apply Hall. }
  split.
  { unfold last_for_action. subst m'. cbn [record_result fst enforce_bounds mem_records].
    destruct (upsert_newest cm_last_tried_unix_nanos (fun x => same_record x (record_of_input i))
                MAX_RECORDS (mem_records m) (record_of_input i)
                ltac:(unfold MAX_RECORDS; lia) Hr) as [Hin Hall].
    apply max_by_key_newest.
    - apply list_elem_of_filter. done.
    - intros y [_ Hy]%list_elem_of_filter. by apply Hall. }
  split; [done|].
  unfold cooldown_remaining_for_workload_action, workload_rank_hint. rewrite Hlast. cbn.
  assert (Hf : wa_cooldown_until_unix_nanos w = cri_cooldown_expires_unix_nanos i /\
               wa_last_result w = cri_result i).
  { unfold workload_memory_of in Hi. destruct (ci_workload_identity _); [|done]. by simplify_eq/=. }
  destruct Hf as [-> ->]. split; [|by destruct (cri_result i)].
  destruct (cri_cooldown_expires_unix_nanos i) as [d|]; cbn.
  - destruct (Z.leb_spec d now); split.
    + by intros [? ?].
    + intros (? & [= <-] & ?). lia.
    + eauto.
    + eauto.
  - split; [by intros [? ?]|]. by intros (? & ? & ?).
Qed.

(** A loaded memory trusts no key two identities share: two entries of a workload
    still in use, or two records, with the same key have the same summary. *)
Theorem loaded_memory_unambiguous (m : CandidateMemory) :
  let m' := mark_loaded_identity_collisions m in
  (forall x y s t, x ∈ mem_workload_actions m' -> y ∈ mem_workload_actions m' ->
     wa_degraded_reason x = None -> wa_degraded_reason y = None ->
     wa_workload_hash x = wa_workload_hash y ->
     wa_identity_summary x = Some s -> wa_identity_summary y = Some t -> s = t) /\
  (forall x y s t, x ∈ mem_records m' -> y ∈ mem_records m' ->
     is_degraded x = false -> is_degraded y = false ->
     cm_context_hash x = cm_context_hash y ->
     cm_identity_summary x = Some s -> cm_identity_summary y = Some t -> s = t).
Proof.
  cbn. split; intros x y s t (x' & -> & Hx)%list_elem_of_fmap (y' & -> & Hy)%list_elem_of_fmap;
    (case_decide as Hcx; [done|]); (case_decide as Hcy; [done|]); intros _ _ Hk Hs Ht;
    destruct (decide (s = t)) as [|Hne]; try done; exfalso; apply Hcx.
  - by apply (colliding_found _ _ [] _ x' y' s t).
  - by apply (colliding_found _ _ [] _ x' y' s t).
Qed.
