(* ===== verification/Decide.v ===== *)
(** * Decide: the transition of the autotune controller

    [autotune/controller.rs]: the policy of the controller, its runtime state, the
    cooldowns it enters, and [decide_autotune_transition], what it decides on an
    observation and a candidate.  Reasons are texts for people and are left out of
    decisions.  A [Duration] is its nanoseconds. *)

From Stdlib Require Import Ascii String List.
From S2P Require Import Prelude Binary64 Abi Metrics Intervals Score PolicyModel ActionModel Journal Objective Controller AutonomousGate ContextKey CandidateMemory.
From stdpp Require Import sorting list.
Open Scope Z_scope.

(** ** Policy *)

Record ControllerPolicy := {
  cp_mode : DaemonMode;
  cp_max_safety_class : SafetyClass;
  cp_min_improvement_percent : f64;
  cp_max_regression_percent : f64;
  cp_min_focus_confidence : f32;
  cp_cooldown_after_keep : Z;
  cp_cooldown_after_revert : Z;
  cp_cooldown_after_fault : Z;
  cp_minimum_time_between_same_action : Z }.

Definition from_secs (n : Z) : Z := n * 1000000000.

Definition from_daemon_policy (p : DaemonPolicy) : ControllerPolicy :=
  {| cp_mode := mode p;
     cp_max_safety_class := max_safety_class p;
     cp_min_improvement_percent := min_improvement_percent DEFAULT_SCORE_COMPARISON_CONFIG;
     cp_max_regression_percent := max_regression_percent DEFAULT_SCORE_COMPARISON_CONFIG;
     cp_min_focus_confidence := min_confidence p;
     cp_cooldown_after_keep := from_secs 60;
     cp_cooldown_after_revert := from_secs 120;
     cp_cooldown_after_fault := from_secs 300;
     cp_minimum_time_between_same_action := from_secs 300 |}.

Definition daemon_mode_from_autotune_mode (m : AutotuneMode) : DaemonMode :=
  match m with
  | AmObserve => Observe
  | AmSuggest => Suggest
  | AmApplyLowRisk => ApplyLowRisk
  | AmApplyMediumRisk => ApplyMediumRisk
  | AmApplyHighRisk => ApplyHighRisk
  end.

Definition with_min_confidence (c : DaemonConfig) (x : f32) : DaemonConfig :=
  let s := dc_safety c in
  {| dc_preset := dc_preset c; dc_mode := dc_mode c; dc_source := dc_source c;
     dc_target := dc_target c;
     dc_safety :=
       {| sc_max_safety_class := sc_max_safety_class s;
          sc_allowed_action_classes := sc_allowed_action_classes s;
          sc_enabled_action_families := sc_enabled_action_families s;
          sc_denied_action_families := sc_denied_action_families s;
          sc_cgroup_targets := sc_cgroup_targets s;
          sc_system_wide_allowlist := sc_system_wide_allowlist s;
          sc_allow_system_wide_suggestions := sc_allow_system_wide_suggestions s;
          sc_allow_system_wide_apply := sc_allow_system_wide_apply s;
          sc_allow_high_risk := sc_allow_high_risk s;
          sc_allow_persistent_effects := sc_allow_persistent_effects s;
          sc_min_confidence := x |};
     dc_health := dc_health c; dc_retention := dc_retention c; dc_remote := dc_remote c;
     dc_autotune := dc_autotune c |}.

Definition for_mode (m : AutotuneMode) : ControllerPolicy :=
  from_daemon_policy
    (build_daemon_policy
       (with_min_confidence
          (default_config_with (daemon_mode_from_autotune_mode m) AutotuneRuntime)
          DEFAULT_MIN_FOCUS_CONFIDENCE)
       None).

Definition can_start_experiment (p : ControllerPolicy) : bool := supports_apply (cp_mode p).

(** ** State *)

Record ActiveExperiment := {
  ae_experiment_id : string;
  ae_candidate : CandidateAction;
  ae_baseline_score : WindowScore;
  ae_baseline_signals : ObjectiveSignals }.

Record ControllerRuntimeState := {
  cs_phase : ControllerPhase;
  cs_active_experiment : option ActiveExperiment;
  cs_cooldown_until_unix_nanos : option Z;
  cs_candidate_memory : CandidateMemory;
  cs_validation_override : option ValidationOverride }.

Definition ControllerRuntimeState_default : ControllerRuntimeState :=
  {| cs_phase := CpObserving; cs_active_experiment := None; cs_cooldown_until_unix_nanos := None;
     cs_candidate_memory := CandidateMemory_default; cs_validation_override := None |}.

Definition set_phase (s : ControllerRuntimeState) (p : ControllerPhase) : ControllerRuntimeState :=
  {| cs_phase := p; cs_active_experiment := cs_active_experiment s;
     cs_cooldown_until_unix_nanos := cs_cooldown_until_unix_nanos s;
     cs_candidate_memory := cs_candidate_memory s;
     cs_validation_override := cs_validation_override s |}.

Definition set_active (s : ControllerRuntimeState) (a : option ActiveExperiment)
    : ControllerRuntimeState :=
  {| cs_phase := cs_phase s; cs_active_experiment := a;
     cs_cooldown_until_unix_nanos := cs_cooldown_until_unix_nanos s;
     cs_candidate_memory := cs_candidate_memory s;
     cs_validation_override := cs_validation_override s |}.

Definition set_cooldown (s : ControllerRuntimeState) (c : option Z) : ControllerRuntimeState :=
  {| cs_phase := cs_phase s; cs_active_experiment := cs_active_experiment s;
     cs_cooldown_until_unix_nanos := c; cs_candidate_memory := cs_candidate_memory s;
     cs_validation_override := cs_validation_override s |}.

Definition set_memory (s : ControllerRuntimeState) (m : CandidateMemory) : ControllerRuntimeState :=
  {| cs_phase := cs_phase s; cs_active_experiment := cs_active_experiment s;
     cs_cooldown_until_unix_nanos := cs_cooldown_until_unix_nanos s; cs_candidate_memory := m;
     cs_validation_override := cs_validation_override s |}.

Definition mark_candidate_action_attempted (s : ControllerRuntimeState) (c : CandidateAction)
    (now : Z) : ControllerRuntimeState :=
  set_memory s (record_attempt (cs_candidate_memory s) c (for_candidate c) now None).1.

Definition record_candidate_attempt (s : ControllerRuntimeState) (c : CandidateAction)
    (o : AutotuneObservation) (cpu_topology_signature : option string) (cooldown : option Z)
    : ControllerRuntimeState * CandidateMemoryRecord :=
  let (m, r) :=
    record_attempt (cs_candidate_memory s) c (from_observation c o cpu_topology_signature)
      (ob_now_unix_nanos o) cooldown in
  (set_memory s m, r).

Record ControllerCandidateResultInput := {
  ri_candidate : CandidateAction;
  ri_observation : AutotuneObservation;
  ri_cpu_topology_signature : option string;
  ri_result : CandidateMemoryResult;
  ri_diagnostic_baseline_raw_score_total : option Z;
  ri_diagnostic_current_raw_score_total : option Z;
  ri_rollback_reason : option string;
  ri_cooldown_expires_unix_nanos : option Z }.

Definition record_candidate_result (s : ControllerRuntimeState) (i : ControllerCandidateResultInput)
    : ControllerRuntimeState * CandidateMemoryRecord :=
  let context := from_observation (ri_candidate i) (ri_observation i) (ri_cpu_topology_signature i) in
  let (m, r) :=
    record_result (cs_candidate_memory s)
      {| cri_candidate := ri_candidate i; cri_context := context;
         cri_now_unix_nanos := ob_now_unix_nanos (ri_observation i); cri_result := ri_result i;
         cri_diagnostic_baseline_raw_score_total := ri_diagnostic_baseline_raw_score_total i;
         cri_diagnostic_current_raw_score_total := ri_diagnostic_current_raw_score_total i;
         cri_rollback_reason := ri_rollback_reason i;
         cri_cooldown_expires_unix_nanos := ri_cooldown_expires_unix_nanos i |} in
  (set_memory s m, r).

Definition cooldown_deadline (now duration : Z) : option Z :=
  if duration =? 0 then None else Some (saturating_add_u128 now duration).

Definition enter_cooldown_after_keep (s : ControllerRuntimeState) (p : ControllerPolicy) (now : Z)
    : ControllerRuntimeState :=
  set_cooldown (set_phase s CpCooldown) (cooldown_deadline now (cp_cooldown_after_keep p)).

Definition enter_cooldown_after_revert (s : ControllerRuntimeState) (p : ControllerPolicy) (now : Z)
    : ControllerRuntimeState :=
  set_cooldown (set_active (set_phase s CpCooldown) None)
    (cooldown_deadline now (cp_cooldown_after_revert p)).

Definition enter_cooldown_after_fault (s : ControllerRuntimeState) (p : ControllerPolicy) (now : Z)
    : ControllerRuntimeState :=
  set_cooldown (set_active (set_phase s CpFaulted) None)
    (cooldown_deadline now (cp_cooldown_after_fault p)).

(** ** The decision *)

Inductive AutotuneDecision :=
| DNoop
| DSuggest (candidate : CandidateAction)
| DStartExperiment (candidate : CandidateAction)
| DKeepCurrent (experiment_id : string)
| DRevert (experiment_id : string)
| DEnterCooldown (duration : Z)
| DFault.

Definition cooldown_block_decision (s : ControllerRuntimeState) (o : AutotuneObservation)
    : option AutotuneDecision :=
  until ← cs_cooldown_until_unix_nanos s;
  if until <=? ob_now_unix_nanos o then None
  else Some (DEnterCooldown
               (duration_from_remaining_nanos (saturating_sub until (ob_now_unix_nanos o)))).

Definition same_action_cooldown_remaining (p : ControllerPolicy) (s : ControllerRuntimeState)
    (o : AutotuneObservation) (c : CandidateAction) : option Z :=
  let id := candidate_action_id c in
  match cooldown_remaining_for_action (cs_candidate_memory s) id (ob_now_unix_nanos o) with
  | Some d => Some d
  | None =>
      if cp_minimum_time_between_same_action p =? 0 then None
      else
        r ← last_for_action (cs_candidate_memory s) id;
        let next_allowed :=
          saturating_add_u128 (cm_last_tried_unix_nanos r) (cp_minimum_time_between_same_action p)
        in
        if next_allowed <=? ob_now_unix_nanos o then None
        else Some (duration_from_remaining_nanos
                     (saturating_sub next_allowed (ob_now_unix_nanos o)))
  end.

Definition candidate_requires_game_focus (c : CandidateAction) : bool :=
  match c with CaCpuAffinityProfile _ => true | _ => false end.

(** Whether the focus blocks the action: [focus_policy_block_reason] has a reason. *)
Definition focus_policy_blocks (o : AutotuneObservation) (c : CandidateAction) : bool :=
  if focus_has_critical_realtime_warning o && safety_lt ObserveOnly (candidate_safety_class c)
  then true
  else if focus_is_idle_or_unknown o then true
  else match ob_focus_kind o with
       | Some FgGame => false
       | Some FgIdle | Some FgUnknown | None => true
       | Some _ => candidate_requires_game_focus c
       end.

Definition experiment_data_quality (q : OnlineDataQuality) : ExperimentDataQuality :=
  match q with OqHigh => QHigh | OqMedium _ => QMedium | OqLow _ => QLow end.

Definition is_low_quality (q : OnlineDataQuality) : bool :=
  match q with OqLow _ => true | _ => false end.

(** The comparison of the active experiment with the observation. *)
Definition objective_input (a : ActiveExperiment) (o : AutotuneObservation)
    : ObjectiveComparisonInput :=
  {| oci_objective := candidate_objective (ae_candidate a);
     oci_baseline := ae_baseline_score a;
     oci_candidate := to_window_score o;
     oci_baseline_signals := ae_baseline_signals a;
     oci_candidate_signals := ob_objective_signals o;
     oci_data_quality := experiment_data_quality (ob_data_quality o);
     oci_target_disappeared := negb (ob_target_present o) |}.

(** The verdict on the active experiment once nothing forces a revert. *)
Definition decide_objective (a : ActiveExperiment) (o : AutotuneObservation) : AutotuneDecision :=
  match od_outcome (explain_for_objective (objective_input a o)) with
  | Improved _ => DKeepCurrent (ae_experiment_id a)
  | _ => DRevert (ae_experiment_id a)
  end.

Definition policy_comparison_config (p : ControllerPolicy) : ScoreComparisonConfig :=
  {| min_improvement_percent := cp_min_improvement_percent p;
     max_regression_percent := cp_max_regression_percent p;
     max_frame_p99_regression_ms := max_frame_p99_regression_ms DEFAULT_SCORE_COMPARISON_CONFIG;
     max_over_5ms_regression_per_1k_samples :=
       max_over_5ms_regression_per_1k_samples DEFAULT_SCORE_COMPARISON_CONFIG |}.

Definition decide_score (p : ControllerPolicy) (a : ActiveExperiment) (o : AutotuneObservation)
    : AutotuneDecision :=
  match compare_scores_with_config
          {| sci_baseline := ae_baseline_score a; sci_candidate := to_window_score o;
             sci_data_quality := QHigh; sci_target_disappeared := false |}
          (policy_comparison_config p) None with
  | Regressed _ => DRevert (ae_experiment_id a)
  | Improved _ => DKeepCurrent (ae_experiment_id a)
  | Inconclusive => DNoop
  | Invalid => DRevert (ae_experiment_id a)
  end.

Definition decide_active (p : ControllerPolicy) (a : ActiveExperiment) (o : AutotuneObservation)
    : AutotuneDecision :=
  if negb (ob_target_present o) then DRevert (ae_experiment_id a)
  else if is_low_quality (ob_data_quality o) then DRevert (ae_experiment_id a)
  else if focus_policy_blocks o (ae_candidate a) then DRevert (ae_experiment_id a)
  else if decide (candidate_objective (ae_candidate a) = OkStutterScore)
       then decide_score p a o
       else decide_objective a o.

(** Without an active experiment and out of cooldown. *)
Definition decide_candidate (p : ControllerPolicy) (s : ControllerRuntimeState)
    (o : AutotuneObservation) (candidate : option CandidateAction) : AutotuneDecision :=
  if mode_eqb (cp_mode p) Observe then DNoop
  else if is_low_quality (ob_data_quality o) then DNoop
  else match candidate with
       | None => DNoop
       | Some c =>
           if focus_policy_blocks o c then DNoop
           else if safety_lt (cp_max_safety_class p) (candidate_safety_class c) then DNoop
           else match same_action_cooldown_remaining p s o c with
                | Some d => DEnterCooldown d
                | None =>
                    if mode_eqb (cp_mode p) Suggest then DSuggest c
                    else if negb (can_start_experiment p) then DNoop
                    else DStartExperiment c
                end
       end.

Definition decide_autotune_transition (p : ControllerPolicy) (s : ControllerRuntimeState)
    (o : AutotuneObservation) (candidate : option CandidateAction) : AutotuneDecision :=
  if decide (cs_phase s = CpDisabled) then DNoop
  else if decide (cs_phase s = CpFaulted) then default DFault (cooldown_block_decision s o)
  else match cs_active_experiment s with
       | Some a => decide_active p a o
       | None =>
           match cooldown_block_decision s o with
           | Some d => d
           | None => decide_candidate p s o candidate
           end
       end.

(** ** Theorems *)

Section Decisions.

Implicit Types (p : ControllerPolicy) (s : ControllerRuntimeState) (o : AutotuneObservation)
  (c : CandidateAction) (a : ActiveExperiment).

(** Neither disabled nor faulted, no experiment under way, no cooldown pending. *)
Definition idle_controller s o : Prop :=
  cs_phase s <> CpDisabled /\ cs_phase s <> CpFaulted /\ cs_active_experiment s = None /\
  forall until, cs_cooldown_until_unix_nanos s = Some until -> until <= ob_now_unix_nanos o.

(** The gates a candidate passes before it is suggested or tried. *)
Record gates p s o c : Prop := {
  gate_idle : idle_controller s o;
  gate_quality : is_low_quality (ob_data_quality o) = false;
  gate_focus : focus_policy_blocks o c = false;
  gate_class : safety_le (candidate_safety_class c) (cp_max_safety_class p) = true;
  gate_cooldown : same_action_cooldown_remaining p s o c = None }.

Lemma safety_lt_le x y : safety_lt x y = negb (safety_le y x).
Proof. by destruct x, y. Qed.

Lemma cooldown_block_none s o :
  cooldown_block_decision s o = None <->
  forall until, cs_cooldown_until_unix_nanos s = Some until -> until <= ob_now_unix_nanos o.
Proof.
  unfold cooldown_block_decision. destruct (cs_cooldown_until_unix_nanos s) as [u|]; cbn; [|done].
  destruct (Z.leb_spec u (ob_now_unix_nanos o)); split; try done.
  - intros _ v [= <-]. done.
  - intros Hall. specialize (Hall u eq_refl). lia.
Qed.

Lemma cooldown_block_shape s o d : cooldown_block_decision s o = Some d -> exists n, d = DEnterCooldown n.
Proof.
  unfold cooldown_block_decision. destruct (cs_cooldown_until_unix_nanos s); cbn; [|done].
  case_match; [done|]. intros [= <-]. eauto.
Qed.

Lemma decide_active_shape p a o :
  decide_active p a o = DKeepCurrent (ae_experiment_id a) \/
  decide_active p a o = DRevert (ae_experiment_id a) \/
  (decide_active p a o = DNoop /\ candidate_objective (ae_candidate a) = OkStutterScore).
Proof.
  unfold decide_active, decide_score, decide_objective.
  repeat (case_match || case_decide); eauto.
Qed.

Lemma decide_candidate_start p s o candidate c :
  decide_candidate p s o candidate = DStartExperiment c <->
  supports_apply (cp_mode p) = true /\ candidate = Some c /\
  is_low_quality (ob_data_quality o) = false /\ focus_policy_blocks o c = false /\
  safety_le (candidate_safety_class c) (cp_max_safety_class p) = true /\
  same_action_cooldown_remaining p s o c = None.
Proof.
  unfold decide_candidate, can_start_experiment, mode_eqb.
  split.
  - destruct (cp_mode p) eqn:Em; cbn [supports_apply negb]; repeat (case_bool_decide || case_match); try done;
      intros [= <-]; repeat split; auto;
      match goal with H : safety_lt _ _ = false |- _ => rewrite safety_lt_le in H; by apply negb_false_iff in H end.
  - intros (Hm & -> & Hq & Hf & Hc & Hs). rewrite Hq, Hf, safety_lt_le, Hc, Hs. cbn.
    destruct (cp_mode p); try done.
Qed.

Lemma decide_candidate_suggest p s o candidate c :
  decide_candidate p s o candidate = DSuggest c ->
  cp_mode p = Suggest /\ candidate = Some c /\
  is_low_quality (ob_data_quality o) = false /\ focus_policy_blocks o c = false /\
  safety_le (candidate_safety_class c) (cp_max_safety_class p) = true /\
  same_action_cooldown_remaining p s o c = None.
Proof.
  unfold decide_candidate, can_start_experiment, mode_eqb.
  destruct (cp_mode p) eqn:Em; cbn [supports_apply negb]; repeat (case_bool_decide || case_match); try done;
      intros [= <-]; repeat split; auto;
      match goal with H : safety_lt _ _ = false |- _ => rewrite safety_lt_le in H; by apply negb_false_iff in H end.
Qed.

(** What reaches the candidate. *)
Lemma transition_candidate p s o candidate d :
  decide_autotune_transition p s o candidate = d ->
  (exists c, d = DStartExperiment c \/ d = DSuggest c) ->
  idle_controller s o /\ decide_candidate p s o candidate = d.
Proof.
  intros Hd [c Hc]. unfold decide_autotune_transition in Hd. unfold idle_controller.
  case_decide as H1; [subst; by destruct Hc|]. case_decide as H2.
  { destruct (cooldown_block_decision s o) as [d'|] eqn:E.
    - apply cooldown_block_shape in E as [n ->]. cbn in Hd. subst. by destruct Hc.
    - cbn in Hd. subst. by destruct Hc. }
  destruct (cs_active_experiment s) as [a|] eqn:Ha.
  { destruct (decide_active_shape p a o) as [E|[E|[E _]]]; rewrite E in Hd; subst; by destruct Hc. }
  destruct (cooldown_block_decision s o) as [d'|] eqn:E.
  { apply cooldown_block_shape in E as [n ->]. subst. by destruct Hc. }
  rewrite cooldown_block_none in E. done.
Qed.

Lemma transition_idle p s o candidate :
  idle_controller s o -> decide_autotune_transition p s o candidate = decide_candidate p s o candidate.
Proof.
  intros (H1 & H2 & H3 & H4). unfold decide_autotune_transition.
  rewrite decide_False, decide_False by done. rewrite H3.
  apply cooldown_block_none in H4. by rewrite H4.
Qed.

Lemma start_iff p s o candidate c :
  decide_autotune_transition p s o candidate = DStartExperiment c <->
  supports_apply (cp_mode p) = true /\ candidate = Some c /\ gates p s o c.
Proof.
  split.
  - intros Hd. destruct (transition_candidate _ _ _ _ _ Hd) as [Hi Hc]; [eauto|].
    apply decide_candidate_start in Hc as (? & ? & ? & ? & ? & ?). done.
  - intros (Hm & Hc & [Hi Hq Hf Hcl Hs]). rewrite transition_idle by done.
    by apply decide_candidate_start.
Qed.

(** *** The cooldown of an action *)

Lemma cooldown_blocks_action p s o c t :
  0 < cp_minimum_time_between_same_action p ->
  remembers (cs_candidate_memory s) (candidate_action_id c) t ->
  ob_now_unix_nanos o < t + cp_minimum_time_between_same_action p ->
  ob_now_unix_nanos o < U128_MAX ->
  is_Some (same_action_cooldown_remaining p s o c).
Proof.
  intros Hmin Hrem Hnow Hu. apply last_for_action_remembers in Hrem as (r & Hr & Ht).
  unfold same_action_cooldown_remaining. case_match; [eauto|].
  replace (cp_minimum_time_between_same_action p =? 0) with false by lia. rewrite Hr. cbn.
  replace (saturating_add_u128 (cm_last_tried_unix_nanos r) (cp_minimum_time_between_same_action p)
           <=? ob_now_unix_nanos o) with false; [eauto|].
  unfold saturating_add_u128. symmetry. apply Z.leb_gt. lia.
Qed.

(** *** Keeping *)

Lemma transition_keep p s o candidate id :
  decide_autotune_transition p s o candidate = DKeepCurrent id ->
  exists a, cs_active_experiment s = Some a /\ id = ae_experiment_id a /\
            decide_active p a o = DKeepCurrent id.
Proof.
  unfold decide_autotune_transition. case_decide; [done|]. case_decide.
  { destruct (cooldown_block_decision s o) as [d|] eqn:E; [|done].
    apply cooldown_block_shape in E as [n ->]. done. }
  destruct (cs_active_experiment s) as [a|].
  { intros Hd. exists a. split; [done|]. split; [|done].
    destruct (decide_active_shape p a o) as [E|[E|[E _]]]; rewrite E in Hd; congruence. }
  destruct (cooldown_block_decision s o) as [d|] eqn:E.
  { apply cooldown_block_shape in E as [n ->]. done. }
  unfold decide_candidate. repeat case_match; done.
Qed.

End Decisions.

(** C18. When an experiment starts: the controller starts an experiment on the
    candidate exactly when its mode applies actions, it is neither disabled nor
    faulted, has no experiment under way and no cooldown pending, the data is not
    of low quality, the focus does not block the action, its safety class is
    within the policy's maximum and the same action is not cooling down. *)
Theorem start_experiment_iff (p : ControllerPolicy) (s : ControllerRuntimeState)
    (o : AutotuneObservation) (candidate : option CandidateAction) (c : CandidateAction) :
  decide_autotune_transition p s o candidate = DStartExperiment c <->
  supports_apply (cp_mode p) = true /\ candidate = Some c /\ gates p s o c.
Proof. apply start_iff. Qed.

(** The daemon's policy bounds what the controller tries: a controller policy
    made from a daemon policy starts an experiment only in a mode that applies
    actions, with a class no higher than the mode's and no higher than the remote
    limits', and only suggests in suggest mode. *)
Theorem controller_within_daemon_policy (config : DaemonConfig) (rc : option RemotePolicyContext)
    (s : ControllerRuntimeState) (o : AutotuneObservation) (candidate : option CandidateAction)
    (c : CandidateAction) :
  let p := from_daemon_policy (build_daemon_policy config rc) in
  (decide_autotune_transition p s o candidate = DStartExperiment c ->
   supports_apply (dc_mode config) = true /\
   safety_le (candidate_safety_class c) (max_safety_class_for_mode (dc_mode config)) = true /\
   (forall ctx, rc = Some ctx ->
      safety_le (candidate_safety_class c) (al_max_safety_class (limits ctx)) = true)) /\
  (decide_autotune_transition p s o candidate = DSuggest c -> dc_mode config = Suggest).
Proof.
  intros p. split.
  - intros (Hm & _ & [_ _ _ Hc _])%start_iff. cbn in Hm, Hc. split; [done|].
    destruct rc as [ctx|]; [|split; [done|]; intros ? [=]].
    set (lim := al_max_safety_class (limits ctx)) in *.
    set (mm := max_safety_class_for_mode (dc_mode config)) in *.
    assert (Hboth : safety_le (candidate_safety_class c) mm = true /\
                    safety_le (candidate_safety_class c) lim = true)
      by (destruct (candidate_safety_class c), mm, lim; done).
    split; [apply Hboth|]. intros ? [= <-]. apply Hboth.
  - intros Hd. destruct (transition_candidate _ _ _ _ _ Hd) as [_ Hc]; [eauto|].
    by apply decide_candidate_suggest in Hc as [Hm _].
Qed.

(** The same action is not tried twice within the minimum time: once an attempt
    is recorded, and whatever results (at most as many as the memory holds) are
    recorded after it, the controller neither starts nor suggests that action
    before the minimum time has passed. *)
Theorem same_action_cools_down (p : ControllerPolicy) (s : ControllerRuntimeState)
    (o : AutotuneObservation) (candidate : option CandidateAction) (c : CandidateAction)
    (m : CandidateMemory) (attempt : CandidateResultRecordInput)
    (later : list CandidateResultRecordInput) :
  let t := cri_now_unix_nanos attempt in
  candidate_action_id (cri_candidate attempt) = candidate_action_id c ->
  Forall (fun r => cm_last_tried_unix_nanos r < t) (mem_records m) ->
  Forall (fun i => t <= cri_now_unix_nanos i) later ->
  (length later < MAX_RECORDS)%nat ->
  cs_candidate_memory s = remember_all (remember m attempt) later ->
  0 < cp_minimum_time_between_same_action p ->
  ob_now_unix_nanos o < t + cp_minimum_time_between_same_action p ->
  ob_now_unix_nanos o < U128_MAX ->
  decide_autotune_transition p s o candidate <> DStartExperiment c /\
  decide_autotune_transition p s o candidate <> DSuggest c.
Proof.
  intros t Hid Hm Hl Hlen Hs Hmin Hnow Hu.
  assert (H0 : length (since cm_last_tried_unix_nanos t (mem_records m)) = 0%nat)
    by (by rewrite since_nil).
  assert (Hrem : remembers (cs_candidate_memory s) (candidate_action_id c) t).
  { destruct (remember_new m attempt) as [H1 H2]; [fold t; rewrite H0; unfold MAX_RECORDS; lia|].
    rewrite Hs, <- Hid. apply (remember_all_keeps _ _ _ _ 1); [done|done|fold t in H2; lia|lia]. }
  pose proof (cooldown_blocks_action p s o c t Hmin Hrem Hnow Hu) as [d Hd].
  split; intros Hdec.
  - apply start_iff in Hdec as (_ & _ & [_ _ _ _ Hn]). congruence.
  - destruct (transition_candidate _ _ _ _ _ Hdec) as [_ Hc]; [eauto|].
    apply decide_candidate_suggest in Hc as (_ & _ & _ & _ & _ & Hn). congruence.
Qed.

(** C22. An experiment is kept only on evidence: when the controller keeps, there is
    an experiment under way, its target is present, the data is not of low quality,
    the focus does not block it, and either its objective's comparison says
    improved with no guard failed, or (for the generic score) the candidate's
    window is better than the baseline's and its frame times within the bound. *)
Theorem keep_needs_evidence (p : ControllerPolicy) (s : ControllerRuntimeState)
    (o : AutotuneObservation) (candidate : option CandidateAction) (id : string) :
  asks_improvement (policy_comparison_config p) ->
  decide_autotune_transition p s o candidate = DKeepCurrent id ->
  exists a, cs_active_experiment s = Some a /\ id = ae_experiment_id a /\
    ob_target_present o = true /\ is_low_quality (ob_data_quality o) = false /\
    focus_policy_blocks o (ae_candidate a) = false /\
    ((candidate_objective (ae_candidate a) <> OkStutterScore /\
      exists x, od_outcome (explain_for_objective (objective_input a o)) = Improved x /\
        od_guard_failures (explain_for_objective (objective_input a o)) = []) \/
     (candidate_objective (ae_candidate a) = OkStutterScore /\
      better_window (ae_baseline_score a) (to_window_score o) /\
      f64_le (frame_p99_ms (score (to_window_score o)))
        (f64_add (frame_p99_ms (score (ae_baseline_score a)))
           (max_frame_p99_regression_ms DEFAULT_SCORE_COMPARISON_CONFIG)) = true)).
Proof.
  intros Hask Hd. apply transition_keep in Hd as (a & Ha & -> & Hd). exists a.
  unfold decide_active in Hd.
  destruct (ob_target_present o) eqn:Ht; [|done]. cbn [negb] in Hd.
  destruct (is_low_quality _) eqn:Hq; [done|]. destruct (focus_policy_blocks _ _) eqn:Hf; [done|].
  do 5 (split; [done|]). case_decide as Ho.
  - right. split; [done|]. unfold decide_score in Hd.
    destruct (compare_scores_with_config _ _ _) as [x| | |] eqn:Hc; try done.
    apply compare_improved in Hc as (Hb & _ & _ & _ & Hfr); [|done]. done.
  - left. split; [done|]. unfold decide_objective in Hd.
    destruct (od_outcome (explain_for_objective (objective_input a o))) as [x| | |] eqn:Hc;
      [|discriminate..].
    exists x. split; [reflexivity|]. exact (improved_no_guard_failure _ _ Hc).
Qed.

(** An experiment under way is never left open by its objective: the controller
    starts and suggests nothing beside it, and unless it is judged by the generic
    score it either keeps or reverts it on every observation. *)
Theorem active_experiment_resolves (p : ControllerPolicy) (s : ControllerRuntimeState)
    (o : AutotuneObservation) (candidate : option CandidateAction) (a : ActiveExperiment) :
  cs_phase s <> CpDisabled -> cs_phase s <> CpFaulted -> cs_active_experiment s = Some a ->
  let d := decide_autotune_transition p s o candidate in
  d = DKeepCurrent (ae_experiment_id a) \/ d = DRevert (ae_experiment_id a) \/
  (d = DNoop /\ candidate_objective (ae_candidate a) = OkStutterScore /\
   ob_target_present o = true /\ is_low_quality (ob_data_quality o) = false).
Proof.
  intros H1 H2 Ha d. subst d. unfold decide_autotune_transition.
  rewrite decide_False, decide_False, Ha by done. unfold decide_active.
  destruct (ob_target_present o); cbn [negb]; [|auto].
  destruct (is_low_quality _); [auto|]. destruct (focus_policy_blocks _ _); [auto|].
  unfold decide_score, decide_objective. repeat case_match; eauto 10.
Qed.
