(* ===== verification/Planner.v ===== *)
(** * Planner: which candidate is put forward

    [stutter/src/autotune/planning]: the reasons a proposal is denied ([denial.rs]), the
    daemon policy as the planner asks it ([policy.rs]), the static evaluation and the
    dry run of a proposal ([evaluate.rs], [dry_run.rs]), the order of the evaluations
    ([ranking.rs]) and the plan ([planner.rs]), with the reason codes of
    [quality/reason.rs] and the descriptor of [planning/candidate.rs].

    The proposals of the providers are an input of the plan.  The active configuration
    is seen through what [matches_active_config] says of a candidate; the dry runner is
    the interface [CandidateDryRunner] of the source, with its own state.  Messages
    for people are left out. *)

From Stdlib Require Import SpecFloat Ascii String List.
From S2P Require Import Prelude Abi Score PolicyModel PolicyEval PolicySpec ActionModel Procfs Allowlist Objective Controller AutonomousGate ContextKey WorkloadPolicy CandidateMemory Decide.
From stdpp Require Import sorting gmap strings list.
Open Scope Z_scope.

(** ** [denial.rs] *)

Inductive CandidateDenyReason :=
| DenyDisabledFamily | DenyDeniedFamily | DenySafetyClassTooHigh | DenyEffectScopeTooBroad
| DenyCapabilityMissing | DenyDataQualityLow | DenyHealthDegraded | DenyNoExplicitTarget
| DenyFocusLowConfidence | DenyCriticalRealtimeWarning | DenyCooldownActive
| DenyConflictWithActiveAction | DenyConflictWithKeptAction | DenyCgroupTargetNotAllowlisted
| DenySystemWideTargetNotAllowlisted | DenyWorkloadPolicyBlocked | DenyNotAutonomousForWorkload
| DenyProviderConfidenceTooLow | DenyNoEffectiveChange | DenyActiveConfigUnknown
| DenyExternalMutationDetected | DenyKeptActionNoLongerActive | DenyObjectiveNotAllowedForWorkload
| DenyObjectiveNotSupported | DenyObjectiveAutonomousApplyNotAllowed
| DenyCapabilityTierNotSupported | DenyPreparedTransactionMissing | DenyNotInSupportRegistry
| DenyOperationNotAutonomous | DenyOutsideValidationScope | DenyObjectiveSignalMissing
| DenyTargetSnapshotMissing | DenyWorkloadIdle | DenyManualOnlyHighRisk | DenyDryRunFailed
| DenyDryRunMatchedZeroTasks | DenyPolicyRejected.

#[export] Instance CandidateDenyReason_eq_dec : EqDecision CandidateDenyReason.
Proof. solve_decision. Defined.

(** The reason codes, in the order of the constructors, and the names [Debug] prints. *)
Definition deny_table : list (CandidateDenyReason * (string * string)) :=
  [(DenyDisabledFamily, ("disabled_family", "DisabledFamily"));
   (DenyDeniedFamily, ("denied_family", "DeniedFamily"));
   (DenySafetyClassTooHigh, ("safety_class_too_high", "SafetyClassTooHigh"));
   (DenyEffectScopeTooBroad, ("effect_scope_too_broad", "EffectScopeTooBroad"));
   (DenyCapabilityMissing, ("capability_missing", "CapabilityMissing"));
   (DenyDataQualityLow, ("data_quality_low", "DataQualityLow"));
   (DenyHealthDegraded, ("health_degraded", "HealthDegraded"));
   (DenyNoExplicitTarget, ("no_explicit_target", "NoExplicitTarget"));
   (DenyFocusLowConfidence, ("focus_low_confidence", "FocusLowConfidence"));
   (DenyCriticalRealtimeWarning, ("critical_realtime_warning", "CriticalRealtimeWarning"));
   (DenyCooldownActive, ("cooldown_active", "CooldownActive"));
   (DenyConflictWithActiveAction, ("conflict_with_active_action", "ConflictWithActiveAction"));
   (DenyConflictWithKeptAction, ("conflict_with_kept_action", "ConflictWithKeptAction"));
   (DenyCgroupTargetNotAllowlisted, ("cgroup_target_not_allowlisted", "CgroupTargetNotAllowlisted"));
   (DenySystemWideTargetNotAllowlisted,
    ("system_wide_target_not_allowlisted", "SystemWideTargetNotAllowlisted"));
   (DenyWorkloadPolicyBlocked, ("workload_policy_blocked", "WorkloadPolicyBlocked"));
   (DenyNotAutonomousForWorkload, ("not_autonomous_for_workload", "NotAutonomousForWorkload"));
   (DenyProviderConfidenceTooLow, ("provider_confidence_too_low", "ProviderConfidenceTooLow"));
   (DenyNoEffectiveChange, ("no_effective_change", "NoEffectiveChange"));
   (DenyActiveConfigUnknown, ("active_config_unknown", "ActiveConfigUnknown"));
   (DenyExternalMutationDetected, ("external_mutation_detected", "ExternalMutationDetected"));
   (DenyKeptActionNoLongerActive, ("kept_action_no_longer_active", "KeptActionNoLongerActive"));
   (DenyObjectiveNotAllowedForWorkload,
    ("objective_not_allowed_for_workload", "ObjectiveNotAllowedForWorkload"));
   (DenyObjectiveNotSupported, ("objective_not_supported", "ObjectiveNotSupported"));
   (DenyObjectiveAutonomousApplyNotAllowed,
    ("objective_autonomous_apply_not_allowed", "ObjectiveAutonomousApplyNotAllowed"));
   (DenyCapabilityTierNotSupported, ("capability_tier_not_supported", "CapabilityTierNotSupported"));
   (DenyPreparedTransactionMissing, ("prepared_transaction_missing", "PreparedTransactionMissing"));
   (DenyNotInSupportRegistry, ("operation_not_in_support_registry", "NotInSupportRegistry"));
   (DenyOperationNotAutonomous, ("operation_not_autonomous", "OperationNotAutonomous"));
   (DenyOutsideValidationScope, ("outside_validation_scope", "OutsideValidationScope"));
   (DenyObjectiveSignalMissing, ("objective_signal_missing", "ObjectiveSignalMissing"));
   (DenyTargetSnapshotMissing, ("target_snapshot_missing", "TargetSnapshotMissing"));
   (DenyWorkloadIdle, ("workload_idle", "WorkloadIdle"));
   (DenyManualOnlyHighRisk, ("manual_only_high_risk", "ManualOnlyHighRisk"));
   (DenyDryRunFailed, ("dry_run_failed", "DryRunFailed"));
   (DenyDryRunMatchedZeroTasks, ("dry_run_matched_zero_tasks", "DryRunMatchedZeroTasks"));
   (DenyPolicyRejected, ("policy_rejected", "PolicyRejected"))]%string.

Definition deny_names (r : CandidateDenyReason) : string * string :=
  default ("", "")%string (snd <$> List.find (fun e => bool_decide (e.1 = r)) deny_table).

Definition deny_reason_code (r : CandidateDenyReason) : string := (deny_names r).1.
Definition deny_debug (r : CandidateDenyReason) : string := (deny_names r).2.

Definition deny_le (a b : CandidateDenyReason) : Prop := String.le (deny_debug a) (deny_debug b).
#[export] Instance deny_le_dec a b : Decision (deny_le a b).
Proof. unfold deny_le. apply _. Defined.

(** [Vec::dedup]: consecutive repetitions are dropped. *)
Fixpoint dedup (l : list CandidateDenyReason) : list CandidateDenyReason :=
  match l with
  | [] => []
  | x :: rest =>
      match dedup rest with
      | y :: ys => if decide (x = y) then y :: ys else x :: y :: ys
      | [] => [x]
      end
  end.

Definition normalize_evaluation_denials (deny : list CandidateDenyReason)
    : list CandidateDenyReason :=
  dedup (stable_sort deny_le deny).

(** ** [quality/reason.rs] *)

Inductive OnlineDataQualityReasonCode :=
| RcInsufficientSamples | RcTargetMissing | RcFocusLowConfidence | RcDropCountersHigh
| RcWorkloadChanged | RcThermalDegraded | RcFrameDataInvalid | RcFrameCountMismatch
| RcMeasurementUncertain.

#[export] Instance OnlineDataQualityReasonCode_eq_dec : EqDecision OnlineDataQualityReasonCode.
Proof. solve_decision. Defined.

(** In their order, with their texts. *)
Definition quality_codes : list (OnlineDataQualityReasonCode * string) :=
  [(RcInsufficientSamples, "insufficient_samples"); (RcTargetMissing, "target_missing");
   (RcFocusLowConfidence, "focus_low_confidence"); (RcDropCountersHigh, "drop_counters_high");
   (RcWorkloadChanged, "workload_changed"); (RcThermalDegraded, "thermal_degraded");
   (RcFrameDataInvalid, "frame_data_invalid"); (RcFrameCountMismatch, "frame_count_mismatch");
   (RcMeasurementUncertain, "measurement_uncertain")]%string.

Definition data_quality_reason_code_for_reason (reason : string) : OnlineDataQualityReasonCode :=
  let lower := to_ascii_lowercase reason in
  let has := contains lower in
  if has "fewer than min_scored_intervals" || has "fewer than min_scored_samples"
     || has "zero scored tasks" || has "insufficient" then RcInsufficientSamples
  else if has "target disappeared" || has "target missing" then RcTargetMissing
  else if has "focus" && has "confidence" then RcFocusLowConfidence
  else if has "drop counters" || has "dropped events" then RcDropCountersHigh
  else if has "target identity shifted" || has "workload changed"
          || has "scored identity overlap" then RcWorkloadChanged
  else if has "thermal" || has "overheat" then RcThermalDegraded
  else if has "no frame data" || has "one window has frames and the other has none"
          || has "frame data mismatch" then RcFrameDataInvalid
  else if has "frame count differs" then RcFrameCountMismatch
  else RcMeasurementUncertain.

Definition quality_reasons (q : OnlineDataQuality) : list string :=
  match q with OqHigh => [] | OqMedium reasons | OqLow reasons => reasons end.

(** The set of the codes, in their order. *)
Definition reason_code_strings (q : OnlineDataQuality) : list string :=
  let codes := data_quality_reason_code_for_reason <$> quality_reasons q in
  snd <$> filter (fun e => e.1 ∈ codes) quality_codes.

(** ** [planning/candidate.rs] and [operation/mod.rs] *)

Definition candidate_descriptor (c : CandidateAction) (confidence : option f32) : ActionDescriptor :=
  {| action_id := candidate_action_id c;
     action_kind := candidate_action_kind c;
     safety_class := candidate_safety_class c;
     effect_scope := candidate_effect_scope c;
     rollback := RequiredBeforeApply;
     persistent_effect := false;
     touches_system_wide_state :=
       match candidate_effect_scope c with
       | Irq | Sysfs | CpuPower | GpuPower | VmKnob | SystemWide => true
       | _ => false
       end;
     requires_explicit_target :=
       match candidate_target_root_pid c with Some _ => true | None => false end;
     confidence := confidence |}.

Definition cgroup_target_path (c : CandidateAction) : option string :=
  match c with CaCgroupPlacement _ action => Some (cga_target_cgroup action) | _ => None end.

Definition MutationOperationKind_as_str (o : MutationOperationKind) : string :=
  match o with
  | OpCpuAffinityProfile => "cpu_affinity_profile" | OpUclamp => "uclamp" | OpNice => "nice"
  | OpIoPrio => "io_prio" | OpCgroupPlacement => "cgroup_placement"
  | OpCpuPowerEpp => "cpu_power_epp" | OpCpuPowerGovernor => "cpu_power_governor"
  | OpGpuPowerProfile => "gpu_power_profile" | OpGpuForcePerformance => "gpu_force_performance"
  | OpVmSwappiness => "vm_swappiness" | OpVmDirtyBackgroundRatio => "vm_dirty_background_ratio"
  | OpVmDirtyRatio => "vm_dirty_ratio" | OpIrqKnownDevice => "irq_known_device"
  | OpIrqStorageOrUnknown => "irq_storage_or_unknown" | OpUnclassified => "unclassified"
  end.

(** ** The input of a plan *)

(** What the live configuration says of a candidate. *)
Inductive ActiveConfigMatch := AcmMatches | AcmDiffers | AcmUnknown.

Record CandidateProposal := {
  pp_candidate : CandidateAction;
  pp_provider : string;
  pp_confidence : f32;
  pp_deny_reasons : list string;
  pp_rank_hint : Z }.

(** The health is its verdict and its reason; the active configuration, when it was
    read, is what it says of a candidate. *)
Record PlannerInput := {
  pi_observation : AutotuneObservation;
  pi_daemon_policy : DaemonPolicy;
  pi_capabilities : DaemonCapabilities;
  pi_health_ok_for_apply : bool;
  pi_health_reason_code : option string;
  pi_controller_state : ControllerRuntimeState;
  pi_active_profile_state : option ActiveProfileState;
  pi_workload_policy : WorkloadPolicyMatrix;
  pi_active_config : option (CandidateAction -> ActiveConfigMatch) }.

(** ** [policy.rs] *)

Definition policy_intent_for_mode (m : DaemonMode) : PolicyIntent :=
  if supports_apply m then IntentApply else IntentSuggest.

Definition policy_family_matches (action_kind family : string) : bool :=
  String.eqb action_kind family
  || match PolicyModel.strip_prefix action_kind family with
     | Some (String c _) => Ascii.eqb c ":" || Ascii.eqb c "-" || Ascii.eqb c "_"
     | _ => false
     end.

Definition policy_family_enabled (p : DaemonPolicy) (action_kind : string) : bool :=
  match elements (enabled_action_families p) with
  | [] => true
  | families => existsb (policy_family_matches action_kind) families
  end.

Definition policy_family_denied (p : DaemonPolicy) (action_kind : string) : bool :=
  existsb (policy_family_matches action_kind) (elements (denied_action_families p)).

Definition mode_requires_autonomous_workload_family (m : DaemonMode) : bool :=
  match m with ApplyLowRisk | ApplyMediumRisk | ApplyHighRisk => true | _ => false end.

Definition policy_context_for_input (i : PlannerInput) : DaemonPolicyContext :=
  let o := pi_observation i in
  {| data_quality_ok := negb (is_low_quality (ob_data_quality o));
     data_quality_reason_code := head (reason_code_strings (ob_data_quality o));
     system_health_ok := pi_health_ok_for_apply i;
     system_health_reason_code := pi_health_reason_code i;
     workload_stable := match ob_workload_identity o with Some _ => true | None => false end;
     cooldown_active :=
       match cs_cooldown_until_unix_nanos (pi_controller_state i) with
       | Some until => ob_now_unix_nanos o <? until
       | None => false
       end;
     rollback_pending :=
       match cs_active_experiment (pi_controller_state i) with Some _ => true | None => false end;
     capabilities := Some (pi_capabilities i) |}.

Definition deny_reason_from_policy (reason_code : string) : CandidateDenyReason :=
  let code := String.eqb reason_code in
  if code "action_family_not_enabled" then DenyDisabledFamily
  else if code "action_family_denied" then DenyDeniedFamily
  else if code "safety_class_too_high" then DenySafetyClassTooHigh
  else if code "effect_scope_not_allowed" || code "system_wide_action_blocked"
       then DenyEffectScopeTooBroad
  else if code "capability_unavailable" then DenyCapabilityMissing
  else if code "data_quality_blocked" then DenyDataQualityLow
  else if code "system_health_blocked" then DenyHealthDegraded
  else if code "explicit_target_required" then DenyNoExplicitTarget
  else if code "confidence_too_low" then DenyProviderConfidenceTooLow
  else if code "cooldown_active" then DenyCooldownActive
  else if code "high_risk_apply_not_implemented" || code "medium_risk_apply_requires_explicit_unlock"
       then DenyManualOnlyHighRisk
  else DenyPolicyRejected.

(** [AutonomousDenial::deny_reason]. *)
Definition denial_deny_reason (d : AutonomousDenial) : CandidateDenyReason :=
  match d with
  | OperationNotAutonomous => DenyOperationNotAutonomous
  | ObjectiveNotSupported _ => DenyObjectiveNotSupported
  | ObjectiveAutonomousApplyNotAllowed => DenyObjectiveAutonomousApplyNotAllowed
  | CapabilityTierNotSupported => DenyCapabilityTierNotSupported
  | PreparedTransactionMissing => DenyPreparedTransactionMissing
  | NotInSupportRegistry => DenyNotInSupportRegistry
  | OutsideValidationScope => DenyOutsideValidationScope
  end.

(** ** [evaluate.rs]: the allowlist *)

(** [trim_end_matches] of one byte. *)
Fixpoint all_char (c : ascii) (s : string) : bool :=
  match s with String a rest => Ascii.eqb a c && all_char c rest | EmptyString => true end.

Fixpoint trim_end_char (c : ascii) (s : string) : string :=
  match s with
  | EmptyString => EmptyString
  | String a rest => if all_char c s then EmptyString else String a (trim_end_char c rest)
  end.

Definition trim_matches_char (c : ascii) (s : string) : string := trim_end_char c (trim_start_char c s).

Definition normalize_evidence_token_value (value : string) : option string :=
  let value := trim_end_char "," (trim value) in
  if String.eqb value "None" then None
  else
    let value :=
      match PolicyModel.strip_prefix value "Some(" ≫= strip_suffix_char ")" with
      | Some inner => inner
      | None => value
      end in
    let value := trim_matches_char "034" value in
    if String.eqb value "" then None else Some value.

Definition evidence_token_values (evidence : list CandidateEvidence) (prefix : string)
    : list string :=
  omap normalize_evidence_token_value
    (omap (fun token => PolicyModel.strip_prefix token prefix)
       (mjoin ((fun e => split_whitespace (ev_value e)) <$> evidence))).

(** Whether the resource the candidate touches is off the allowlist. *)
Definition resource_denied (c : CandidateAction) (a : DaemonSystemWideAllowlistConfig) : bool :=
  match c with
  | CaCpuPower p =>
      match evidence_token_values (sp_evidence p) "policy=" with
      | [] => true
      | policies => existsb (fun target => negb (bool_decide (target ∈ cpu_policies a))) policies
      end
  | CaGpuPower p =>
      negb (allows_gpu a (gpw_drm_card (sp_action p))
              (head (evidence_token_values (sp_evidence p) "pci_id=")))
  | CaIrqAffinity p => negb (allows_irq_device a (irq_device_hint (sp_action p)))
  | CaVmKnob p =>
      existsb (fun change => negb (allows_vm_knob a (vmc_path change))) (vmk_changes (sp_action p))
  | _ => false
  end.

Definition system_wide_allowlist_denial (c : CandidateAction) (p : DaemonPolicy) : bool :=
  let a := system_wide_allowlist p in
  resource_denied c a
  || (is_system_wide_resource (candidate_effect_scope c)
      && negb (allows_operation a (MutationOperationKind_as_str (operation_kind c)))).

(** ** [evaluate.rs]: the static evaluation *)

(** [f32::is_finite]. *)
Definition f32_is_finite (x : f32) : bool :=
  match x with S754_zero _ | S754_finite _ _ _ => true | _ => false end.

Definition f32_lt (a b : f32) : bool := SFltb a b.

(** [baseline_unavailable_reason] has a reason. *)
Definition baseline_unavailable (kind : ObjectiveKind) (signals : ObjectiveSignals) : bool :=
  match kind with
  | GameRunnableLatency => match population signals with Some _ => false | None => true end
  | _ => false
  end.

Definition kept_values_of (i : PlannerInput) : list KeptCandidateState :=
  match pi_active_profile_state i with Some a => kept_values (kept_actions a) | None => [] end.

Definition conflicts_with_active (i : PlannerInput) (c : CandidateAction) : bool :=
  match cs_active_experiment (pi_controller_state i) with
  | Some a => candidate_conflicts_with c (ae_candidate a)
  | None => false
  end.

Definition conflicts_with_kept (i : PlannerInput) (c : CandidateAction) : bool :=
  match pi_active_profile_state i ≫= (fun a => conflicting_action (kept_actions a) c) with
  | Some kept => candidate_conflicts_with c (ks_candidate kept)
  | None => false
  end.

Definition validated_by_campaign (i : PlannerInput) (c : CandidateAction) : bool :=
  match cs_validation_override (pi_controller_state i) with
  | Some grant =>
      validation_covers grant (operation_kind c) (candidate_objective c) (source (pi_daemon_policy i))
  | None => false
  end.

(** What the active configuration denies. *)
Definition active_config_denials (i : PlannerInput) (c : CandidateAction)
    : list CandidateDenyReason :=
  match pi_active_config i with
  | None => []
  | Some matches =>
      match matches c with
      | AcmMatches => [DenyNoEffectiveChange]
      | AcmDiffers => []
      | AcmUnknown => [DenyActiveConfigUnknown]
      end
      ++ match cs_active_experiment (pi_controller_state i) with
         | Some a =>
             if candidate_conflicts_with c (ae_candidate a)
             then match matches (ae_candidate a) with
                  | AcmDiffers => [DenyExternalMutationDetected]
                  | AcmUnknown => [DenyActiveConfigUnknown]
                  | AcmMatches => []
                  end
             else []
         | None => []
         end
      ++ mjoin ((fun kept =>
             match matches (ks_candidate kept) with
             | AcmDiffers => [DenyKeptActionNoLongerActive]
             | AcmUnknown => [DenyActiveConfigUnknown]
             | AcmMatches => []
             end) <$> kept_values_of i)
  end.

(** What only the apply modes ask. *)
Definition autonomous_denials (i : PlannerInput) (c : CandidateAction) (d : ActionDescriptor)
    : list CandidateDenyReason :=
  if mode_requires_autonomous_workload_family (mode (pi_daemon_policy i)) then
    match autonomous_apply_gate
            {| ag_operation := operation_kind c; ag_objective := candidate_objective c;
               ag_situation := ob_primary_situation (pi_observation i);
               ag_effect_scope := effect_scope d; ag_source := source (pi_daemon_policy i);
               ag_validation_override := cs_validation_override (pi_controller_state i) |} with
    | Some denial => [denial_deny_reason denial]
    | None => []
    end
    ++ pushed (baseline_unavailable (candidate_objective c)
                 (ob_objective_signals (pi_observation i))) DenyObjectiveSignalMissing
  else [].

(** What the memory denies. *)
Definition cooldown_denials (i : PlannerInput) (c : CandidateAction) : list CandidateDenyReason :=
  let o := pi_observation i in
  let memory := cs_candidate_memory (pi_controller_state i) in
  let context := from_observation c o None in
  pushed (match ci_workload_identity context with None => true | Some _ => false end
          && match cooldown_remaining_for_action memory (candidate_action_id c) (ob_now_unix_nanos o) with
             | Some _ => true | None => false
             end) DenyCooldownActive
  ++ pushed match cooldown_remaining_for_workload_action memory c context (ob_now_unix_nanos o) with
            | Some _ => true | None => false
            end DenyCooldownActive.

(** The denials of a proposal, in the order they are found. *)
Definition static_denials (i : PlannerInput) (p : CandidateProposal) : list CandidateDenyReason :=
  let o := pi_observation i in
  let policy := pi_daemon_policy i in
  let c := pp_candidate p in
  let d := candidate_descriptor c (Some (pp_confidence p)) in
  let rule := rule_for (pi_workload_policy i) (ob_primary_situation o) in
  let threshold := provider_confidence_threshold policy d in
  let autonomous := mode_requires_autonomous_workload_family (mode policy) in
  pushed (match ob_activity_level o, ob_primary_situation o with
          | AlIdle, SkIdle => false | AlIdle, _ => true | _, _ => false
          end) DenyWorkloadIdle
  ++ pushed (existsb (fun reason => contains reason "target_selection_fallback_root"
                                    || contains reason "target_snapshot_missing")
               (pp_deny_reasons p)) DenyTargetSnapshotMissing
  ++ pushed (negb (policy_family_enabled policy (action_kind d))) DenyDisabledFamily
  ++ pushed (policy_family_denied policy (action_kind d)) DenyDeniedFamily
  ++ pushed (is_high_risk_system_adjacent c) DenyManualOnlyHighRisk
  ++ match check_action_with_context policy (policy_intent_for_mode (mode policy)) d
             (policy_context_for_input i) with
     | inr rejection => [deny_reason_from_policy (reason_code rejection)]
     | inl _ => []
     end
  ++ pushed (f32_lt (ob_focus_confidence o) (min_confidence policy)) DenyFocusLowConfidence
  ++ pushed (negb (f32_is_finite (pp_confidence p)) || f32_lt (pp_confidence p) threshold)
       DenyProviderConfidenceTooLow
  ++ pushed (focus_has_critical_realtime_warning o) DenyCriticalRealtimeWarning
  ++ pushed (negb (validated_by_campaign i c) && negb (allows_candidate rule c))
       DenyWorkloadPolicyBlocked
  ++ pushed (autonomous && negb (validated_by_campaign i c)
             && negb (allows_autonomous_candidate rule c)) DenyNotAutonomousForWorkload
  ++ autonomous_denials i c d
  ++ pushed (negb (allows_objective rule (candidate_objective c)))
       DenyObjectiveNotAllowedForWorkload
  ++ cooldown_denials i c
  ++ pushed (conflicts_with_active i c) DenyConflictWithActiveAction
  ++ pushed (conflicts_with_kept i c) DenyConflictWithKeptAction
  ++ pushed (match cgroup_target_path c with
             | Some target => negb (contains_path (cgroup_targets policy) target)
             | None => false
             end) DenyCgroupTargetNotAllowlisted
  ++ pushed (system_wide_allowlist_denial c policy) DenySystemWideTargetNotAllowlisted
  ++ active_config_denials i c.

Definition U32_MAX_Z : Z := 2 ^ 32 - 1.

(** [ranking.rs]. *)
Definition rank_with_workload_memory (rank_hint : Z) (adjustment : option Z) : Z :=
  let adjusted := rank_hint + default 0 adjustment in
  Z.min (Z.max adjusted 0) U32_MAX_Z.

Record CandidateEvaluationDraft := {
  dft_candidate_name : string;
  dft_descriptor : ActionDescriptor;
  dft_provider : string;
  dft_confidence : f32;
  dft_deny_reasons : list CandidateDenyReason;
  dft_objective : ObjectiveKind;
  dft_rank : option Z;
  dft_candidate : CandidateAction }.

Definition evaluate_proposal_static (i : PlannerInput) (p : CandidateProposal)
    : CandidateEvaluationDraft :=
  let c := pp_candidate p in
  {| dft_candidate_name := candidate_name c;
     dft_descriptor := candidate_descriptor c (Some (pp_confidence p));
     dft_provider := pp_provider p;
     dft_confidence := pp_confidence p;
     dft_deny_reasons := normalize_evaluation_denials (static_denials i p);
     dft_objective := candidate_objective c;
     dft_rank :=
       Some (rank_with_workload_memory (pp_rank_hint p)
               (workload_rank_hint (cs_candidate_memory (pi_controller_state i)) c
                  (from_observation c (pi_observation i) None)));
     dft_candidate := c |}.

(** ** [dry_run.rs] *)

Record CandidateDryRunRecord := {
  dr_candidate_name : string;
  dr_affected_tasks : nat;
  dr_warnings : list ActionWarning;
  dr_safety_class : SafetyClass;
  dr_eligible : bool }.

Class CandidateDryRunner (R : Type) := {
  dry_run_with : R -> CandidateAction -> CandidateDryRunRecord * R }.

Definition dry_run_record_from_action_state (name : string) (class : SafetyClass) (s : ActionState)
    : CandidateDryRunRecord :=
  {| dr_candidate_name := name; dr_affected_tasks := affected_tasks s;
     dr_warnings := warnings s; dr_safety_class := class;
     dr_eligible := (0 <? affected_tasks s)%nat |}.

(** [built]: what the factory's action and its dry run give; [None] is a failure of
    either. *)
Definition dry_run_candidate (built : CandidateAction -> option ActionState) (c : CandidateAction)
    : CandidateDryRunRecord :=
  match built c with
  | Some state => dry_run_record_from_action_state (candidate_name c) (candidate_safety_class c) state
  | None =>
      {| dr_candidate_name := candidate_name c; dr_affected_tasks := 0; dr_warnings := [];
         dr_safety_class := candidate_safety_class c; dr_eligible := false |}
  end.

(** [RealCandidateDryRunner] has no state of its own. *)
Record RealCandidateDryRunner := { real_built : CandidateAction -> option ActionState }.

#[export] Instance real_dry_runner : CandidateDryRunner RealCandidateDryRunner :=
  {| dry_run_with := fun r c => (dry_run_candidate (real_built r) c, r) |}.

(** ** [evaluate.rs]: the dry run *)

Record CandidateEvaluation := {
  cev_candidate_name : string;
  cev_descriptor : ActionDescriptor;
  cev_provider : string;
  cev_confidence : f32;
  cev_eligible : bool;
  cev_deny_reasons : list CandidateDenyReason;
  cev_objective : ObjectiveKind;
  cev_rank : option Z;
  cev_dry_run : option ActionState;
  cev_candidate : CandidateAction }.

Definition high_risk_suggest_dry_run (i : PlannerInput) (d : CandidateEvaluationDraft) : bool :=
  mode_eqb (mode (pi_daemon_policy i)) Suggest && high_risk_dry_run (pi_daemon_policy i)
  && is_high_risk_system_adjacent (dft_candidate d)
  && forallb (fun r => bool_decide (r = DenyManualOnlyHighRisk)) (dft_deny_reasons d).

Definition dry_run_denials (i : PlannerInput) (record : CandidateDryRunRecord)
    : list CandidateDenyReason :=
  pushed (negb (dr_eligible record))
    (if (dr_affected_tasks record =? 0)%nat then DenyDryRunMatchedZeroTasks else DenyDryRunFailed)
  ++ pushed (safety_lt (max_safety_class (pi_daemon_policy i)) (dr_safety_class record))
       DenySafetyClassTooHigh.

Definition evaluation_of_draft (d : CandidateEvaluationDraft) (deny : list CandidateDenyReason)
    (dry_run : option ActionState) : CandidateEvaluation :=
  let deny := normalize_evaluation_denials deny in
  {| cev_candidate_name := dft_candidate_name d; cev_descriptor := dft_descriptor d;
     cev_provider := dft_provider d; cev_confidence := dft_confidence d;
     cev_eligible := match deny with [] => true | _ => false end; cev_deny_reasons := deny;
     cev_objective := dft_objective d; cev_rank := dft_rank d; cev_dry_run := dry_run;
     cev_candidate := dft_candidate d |}.

Section plan.

Context {R : Type} {runner : CandidateDryRunner R}.

Definition dry_run_candidate_if_still_eligible (i : PlannerInput) (d : CandidateEvaluationDraft)
    (r : R) : CandidateEvaluation * R :=
  if match dft_deny_reasons d with [] => true | _ => false end || high_risk_suggest_dry_run i d then
    let '(record, r) := dry_run_with r (dft_candidate d) in
    (evaluation_of_draft d (dft_deny_reasons d ++ dry_run_denials i record)
       (Some {| applied := false; affected_tasks := dr_affected_tasks record;
                checked_tasks := dr_affected_tasks record;
                pending_changes := dr_affected_tasks record;
                warnings := dr_warnings record |}), r)
  else (evaluation_of_draft d (dft_deny_reasons d) None, r).

Fixpoint evaluate_proposals_with_runner (i : PlannerInput) (proposals : list CandidateProposal)
    (r : R) : list CandidateEvaluation * R :=
  match proposals with
  | [] => ([], r)
  | p :: rest =>
      let '(e, r) := dry_run_candidate_if_still_eligible i (evaluate_proposal_static i p) r in
      let '(es, r) := evaluate_proposals_with_runner i rest r in
      (e :: es, r)
  end.

(** ** [ranking.rs] *)

(** The bits of a finite number but its sign. *)
Definition total_magnitude (m : positive) (e : Z) : Z :=
  if Zpos m <? 2 ^ 23 then Zpos m else (e + 150) * 2 ^ 23 + (Zpos m - 2 ^ 23).

(** [f32::total_cmp] compares the bits as integers, those of negatives reversed. *)
Definition f32_total_key (x : f32) : Z :=
  let magnitude :=
    match x with
    | S754_zero _ => 0
    | S754_finite _ m e => total_magnitude m e
    | S754_infinity _ => 255 * 2 ^ 23
    | S754_nan => 255 * 2 ^ 23 + 2 ^ 22
    end in
  match x with
  | S754_zero true | S754_finite true _ _ | S754_infinity true => - 1 - magnitude
  | _ => magnitude
  end.

Definition evaluation_key (e : CandidateEvaluation) : Z * Z * Z :=
  (if cev_eligible e then 0 else 1, default U32_MAX_Z (cev_rank e), - f32_total_key (cev_confidence e)).

Definition key_compare (a b : Z * Z * Z) : comparison :=
  match a.1.1 ?= b.1.1 with
  | Eq => match a.1.2 ?= b.1.2 with Eq => a.2 ?= b.2 | c => c end
  | c => c
  end.

(** Eligible first, then the lower rank, the higher confidence, the name. *)
Definition evaluation_le (a b : CandidateEvaluation) : Prop :=
  match key_compare (evaluation_key a) (evaluation_key b) with
  | Lt => True
  | Eq => String.le (cev_candidate_name a) (cev_candidate_name b)
  | Gt => False
  end.

#[export] Instance evaluation_le_dec a b : Decision (evaluation_le a b).
Proof. unfold evaluation_le. destruct (key_compare _ _); apply _. Defined.

Definition sort_candidate_evaluations (es : list CandidateEvaluation) : list CandidateEvaluation :=
  stable_sort evaluation_le es.

(** Why there is no candidate. *)
Inductive NoActionReason :=
| NoActionObserveMode
| NoActionFocusIdle
| NoActionGateBlocked
| NoActionNoSimulatedCandidate
| NoActionInvalidWorkloadPolicy
| NoActionNoProposals
| NoActionNoDenials
| NoActionDenied (counts : list (CandidateDenyReason * nat)).

(** The occurrences of each reason, in the order of the reasons. *)
Definition grouped_denials (es : list CandidateEvaluation) : list (CandidateDenyReason * nat) :=
  let found := mjoin (cev_deny_reasons <$> es) in
  filter (fun e => e.2 <> 0%nat)
    ((fun e => (e.1, length (filter (fun r => r = e.1) found))) <$> deny_table).

Definition no_action_reason_for_evaluations (es : list CandidateEvaluation) : NoActionReason :=
  match es with
  | [] => NoActionNoProposals
  | _ =>
      match grouped_denials es with
      | [] => NoActionNoDenials
      | grouped => NoActionDenied (take 4 grouped)
      end
  end.

Definition names_for_any_reason (es : list CandidateEvaluation) (reasons : list CandidateDenyReason)
    : list string :=
  cev_candidate_name <$>
    filter (fun e => Exists (fun r => r ∈ cev_deny_reasons e) reasons) es.

(** ** [planner.rs] *)

Record PlanResult := {
  pr_selected : option CandidateAction;
  pr_evaluations : list CandidateEvaluation;
  pr_no_action_reason : option NoActionReason }.

Definition no_plan (reason : NoActionReason) : PlanResult :=
  {| pr_selected := None; pr_evaluations := []; pr_no_action_reason := Some reason |}.

(** [proposals]: what the registry of providers proposes on this input. *)
Definition plan_with_dry_runner (i : PlannerInput) (proposals : list CandidateProposal) (r : R)
    : PlanResult * R :=
  if mode_eqb (mode (pi_daemon_policy i)) Observe then (no_plan NoActionObserveMode, r)
  else if focus_is_idle_or_unknown (pi_observation i) then (no_plan NoActionFocusIdle, r)
  else
    let '(es, r) := evaluate_proposals_with_runner i proposals r in
    let es := sort_candidate_evaluations es in
    let selected := cev_candidate <$> List.find cev_eligible es in
    ({| pr_selected := selected; pr_evaluations := es;
        pr_no_action_reason :=
          match selected with
          | Some _ => None
          | None => Some (no_action_reason_for_evaluations es)
          end |}, r).

(** [runtime/planning.rs]. *)
Definition plan_has_deny_reason (plan : PlanResult) (reason : CandidateDenyReason) : bool :=
  existsb (fun e => bool_decide (reason ∈ cev_deny_reasons e)) (pr_evaluations plan).

End plan.
