(* ===== verification/PlannerSafety.v ===== *)
(** * PlannerSafety: what a plan guarantees

    The theorems on [Planner]: a plan selects the best eligible proposal; what it
    selects passes the daemon policy, the autonomous gate and the conflict rules, whatever
    the providers propose and the dry runner reports; and the controller starts what was
    selected.  [DryRunReportsClass] is what the planner's client needs of a dry runner,
    discharged for the real one. *)

From Stdlib Require Import SpecFloat Ascii String List.
From S2P Require Import Prelude Abi Score PolicyModel PolicyEval PolicySpec ActionModel Procfs Allowlist Journal Objective Controller AutonomousGate ContextKey WorkloadPolicy CandidateMemory Decide Planner.
From stdpp Require Import sorting gmap strings list.
Open Scope Z_scope.

(** A dry run reports the class of its candidate. *)
Class DryRunReportsClass (R : Type) {runner : CandidateDryRunner R} : Prop :=
  reports_class r c : dr_safety_class (dry_run_with r c).1 = candidate_safety_class c.

#[export] Instance real_reports_class : DryRunReportsClass RealCandidateDryRunner.
Proof. intros r c. cbn. unfold dry_run_candidate. by destruct (real_built r c). Qed.

(** ** The order of the evaluations *)

Lemma key_compare_eq a b : key_compare a b = Eq <-> a = b.
Proof.
  destruct a as [[a1 a2] a3], b as [[b1 b2] b3]. unfold key_compare. cbn.
  destruct (Z.compare_spec a1 b1); [|naive_solver lia|naive_solver lia].
  destruct (Z.compare_spec a2 b2); [|naive_solver lia|naive_solver lia].
  destruct (Z.compare_spec a3 b3); naive_solver lia.
Qed.

Definition key_lt (a b : Z * Z * Z) : Prop :=
  a.1.1 < b.1.1 \/ (a.1.1 = b.1.1 /\ (a.1.2 < b.1.2 \/ (a.1.2 = b.1.2 /\ a.2 < b.2))).

Lemma key_compare_lt a b : key_compare a b = Lt <-> key_lt a b.
Proof.
  destruct a as [[a1 a2] a3], b as [[b1 b2] b3]. unfold key_compare, key_lt. cbn.
  destruct (Z.compare_spec a1 b1); [|naive_solver lia|naive_solver lia].
  destruct (Z.compare_spec a2 b2); [|naive_solver lia|naive_solver lia].
  destruct (Z.compare_spec a3 b3); naive_solver lia.
Qed.

Lemma evaluation_le_iff a b :
  evaluation_le a b <->
  key_lt (evaluation_key a) (evaluation_key b) \/
  (evaluation_key a = evaluation_key b /\ String.le (cev_candidate_name a) (cev_candidate_name b)).
Proof.
  unfold evaluation_le. rewrite <- key_compare_lt, <- key_compare_eq.
  destruct (key_compare _ _); naive_solver.
Qed.

Lemma key_trichotomy a b : key_lt a b \/ a = b \/ key_lt b a.
Proof. destruct a as [[a1 a2] a3], b as [[b1 b2] b3]. unfold key_lt. cbn. 
  destruct (Z.lt_trichotomy a1 b1) as [|[->|]]; [lia| |lia].
  destruct (Z.lt_trichotomy a2 b2) as [|[->|]]; [lia| |lia].
  destruct (Z.lt_trichotomy a3 b3) as [|[->|]]; [lia| |lia]. auto.
Qed.

#[export] Instance evaluation_le_trans : Transitive evaluation_le.
Proof.
  intros a b c. rewrite !evaluation_le_iff. unfold key_lt.
  intros [Hab|[Hab Hn]] [Hbc|[Hbc Hm]].
  - left. lia.
  - left. by rewrite <- Hbc.
  - left. by rewrite Hab.
  - right. split; [congruence|]. by etrans.
Qed.

#[export] Instance evaluation_le_total : Total evaluation_le.
Proof.
  intros a b. rewrite !evaluation_le_iff.
  destruct (key_trichotomy (evaluation_key a) (evaluation_key b)) as [|[E|]]; [tauto| |tauto].
  destruct (total String.le (cev_candidate_name a) (cev_candidate_name b)); [left|right]; by right.
Qed.

(** ** [f32::total_cmp] and the numbers *)

Lemma digits2_log2 m : Z.pos (digits2_pos m) = Z.log2 (Z.pos m) + 1.
Proof.
  induction m as [m IH|m IH|]; cbn [digits2_pos]; [| |done]; rewrite Pos2Z.inj_succ, IH.
  - rewrite Pos2Z.inj_xI, Z.log2_succ_double by lia. lia.
  - rewrite Pos2Z.inj_xO, Z.log2_double by lia. lia.
Qed.

(** The mantissa of a binary32 number has 24 bits, or fewer at the least exponent. *)
Lemma binary32_mantissa m e :
  bounded 24 128 m e = true ->
  Z.pos m < 2 ^ 24 /\ - 149 <= e /\ (Z.pos m < 2 ^ 23 -> e = - 149).
Proof.
  unfold bounded, canonical_mantissa, fexp, emin. intros [Hc%Z.eqb_eq _]%andb_true_iff.
  rewrite digits2_log2 in Hc. split; [|split].
  - apply Z.log2_lt_pow2; lia.
  - lia.
  - intros Hlt. apply Z.log2_lt_pow2 in Hlt; lia.
Qed.

Lemma total_magnitude_bounds m e : bounded 24 128 m e = true -> 0 < total_magnitude m e < 255 * 2 ^ 23.
Proof.
  intros Hb. pose proof Hb as [_ He%Zle_bool_imp_le]%andb_true_iff.
  apply binary32_mantissa in Hb as (Hm & Hmin & _). unfold total_magnitude.
  destruct (Z.ltb_spec (Zpos m) (2 ^ 23)); lia.
Qed.

Lemma total_magnitude_lt m e m' e' :
  bounded 24 128 m e = true -> bounded 24 128 m' e' = true ->
  e < e' \/ (e = e' /\ Z.pos m < Z.pos m') -> total_magnitude m e < total_magnitude m' e'.
Proof.
  intros (Hm & Hmin & Hsub)%binary32_mantissa (Hm' & Hmin' & Hsub')%binary32_mantissa Hlt.
  unfold total_magnitude.
  destruct (Z.ltb_spec (Zpos m) (2 ^ 23)), (Z.ltb_spec (Zpos m') (2 ^ 23)); lia.
Qed.

(** The order of the bits is the order of the numbers. *)
Lemma f32_total_key_lt x y :
  valid_binary 24 128 x = true -> valid_binary 24 128 y = true -> SFltb x y = true ->
  f32_total_key x < f32_total_key y.
Proof.
  intros Hx Hy. unfold SFltb, SFcompare, f32_total_key.
  destruct x as [[]|[]| |[] m e], y as [[]|[]| |[] m' e']; cbn [valid_binary] in *; try done; intros Hlt.
  all: try apply total_magnitude_bounds in Hx as Hbx; try apply total_magnitude_bounds in Hy as Hby; try lia.
  - assert (total_magnitude m' e' < total_magnitude m e); [|lia].
    apply total_magnitude_lt; [done|done|]. destruct (Z.compare_spec e e') as [->| |]; [|done|by left; lia].
    destruct (Pos.compare_cont Eq m m') eqn:E; try done. apply Pos.compare_gt_iff in E. right. lia.
  - apply total_magnitude_lt; [done|done|]. destruct (Z.compare_spec e e') as [->| |]; [|by left|done].
    destruct (Pos.compare_cont Eq m m') eqn:E; try done. change (m < m')%positive in E. right. lia.
Qed.

(** The first eligible evaluation in order is before every other eligible one. *)
Lemma find_first_sorted (l : list CandidateEvaluation) e :
  StronglySorted evaluation_le l -> List.find cev_eligible l = Some e ->
  e ∈ l /\ cev_eligible e = true /\
  forall x, x ∈ l -> cev_eligible x = true -> x = e \/ evaluation_le e x.
Proof.
  induction 1 as [|y l Hs IH Hy]; [done|]. cbn. destruct (cev_eligible y) eqn:Ey.
  - intros [= <-]. split; [set_solver|]. split; [done|]. intros x Hx _.
    apply elem_of_cons in Hx as [->|Hx]; [by left|]. right. by eapply Forall_forall in Hy.
  - intros He. destruct (IH He) as (Hin & Hel & Hall). split; [set_solver|]. split; [done|].
    intros x Hx Hex. apply elem_of_cons in Hx as [->|Hx]; [congruence|]. by apply Hall.
Qed.

(** ** What an eligible evaluation went through *)

Lemma pushed_nil {A} b (x : A) : pushed b x = [] <-> b = false.
Proof. by destruct b. Qed.

Lemma dedup_nil l : dedup l = [] <-> l = [].
Proof.
  split; [|by intros ->]. destruct l as [|x l]; [done|]. cbn. destruct (dedup l); [done|].
  case_decide; done.
Qed.

Lemma normalize_nil l : normalize_evaluation_denials l = [] <-> l = [].
Proof.
  unfold normalize_evaluation_denials. rewrite dedup_nil. split; intros H.
  - apply Permutation_nil. rewrite <- H. apply stable_sort_Permutation.
  - by rewrite H.
Qed.

(** A proposal no rule denies. *)
Record cleared (i : PlannerInput) (p : CandidateProposal) : Prop := {
  cl_high_risk : candidate_safety_class (pp_candidate p) <> HighRisk;
  cl_policy :
    check_action_with_context (pi_daemon_policy i) (policy_intent_for_mode (mode (pi_daemon_policy i)))
      (candidate_descriptor (pp_candidate p) (Some (pp_confidence p)))
      (policy_context_for_input i) = inl tt;
  cl_focus : f32_lt (ob_focus_confidence (pi_observation i)) (min_confidence (pi_daemon_policy i)) = false;
  cl_confident : f32_is_finite (pp_confidence p) = true;
  cl_realtime : focus_has_critical_realtime_warning (pi_observation i) = false;
  cl_gate : mode_requires_autonomous_workload_family (mode (pi_daemon_policy i)) = true ->
    autonomous_apply_gate
      (gate_input_of (pp_candidate p) (ob_primary_situation (pi_observation i))
         (source (pi_daemon_policy i)) (cs_validation_override (pi_controller_state i))) = None;
  cl_baseline : mode_requires_autonomous_workload_family (mode (pi_daemon_policy i)) = true ->
    baseline_unavailable (candidate_objective (pp_candidate p))
      (ob_objective_signals (pi_observation i)) = false;
  cl_workload : validated_by_campaign i (pp_candidate p) = true \/
    allows_candidate (rule_for (pi_workload_policy i) (ob_primary_situation (pi_observation i)))
      (pp_candidate p) = true;
  cl_cooldown :
    cooldown_remaining_for_workload_action (cs_candidate_memory (pi_controller_state i))
      (pp_candidate p) (from_observation (pp_candidate p) (pi_observation i) None)
      (ob_now_unix_nanos (pi_observation i)) = None;
  cl_kept : conflicts_with_kept i (pp_candidate p) = false;
  cl_cgroup : forall target, cgroup_target_path (pp_candidate p) = Some target ->
    contains_path (cgroup_targets (pi_daemon_policy i)) target = true;
  cl_allowlist : system_wide_allowlist_denial (pp_candidate p) (pi_daemon_policy i) = false;
  cl_effect : forall matches, pi_active_config i = Some matches -> matches (pp_candidate p) = AcmDiffers;
  cl_kept_active : forall matches kept, pi_active_config i = Some matches ->
    kept ∈ kept_values_of i -> matches (ks_candidate kept) = AcmMatches }.

Lemma mjoin_nil {A} (ls : list (list A)) l : mjoin ls = [] -> l ∈ ls -> l = [].
Proof.
  intros H Hl. destruct l as [|x l]; [done|]. exfalso.
  assert (Hx : x ∈ mjoin ls) by (apply list_elem_of_join; exists (x :: l); set_solver).
  rewrite H in Hx. by apply not_elem_of_nil in Hx.
Qed.

Lemma active_config_cleared i c :
  active_config_denials i c = [] ->
  forall matches, pi_active_config i = Some matches ->
    matches c = AcmDiffers /\
    forall kept, kept ∈ kept_values_of i -> matches (ks_candidate kept) = AcmMatches.
Proof.
  unfold active_config_denials. intros H matches Hm. rewrite Hm in H.
  apply app_nil in H as [H1 H2]. apply app_nil in H2 as [_ H3].
  split; [by destruct (matches c)|]. intros kept Hk.
  assert (Hn := mjoin_nil _ _ H3 (list_elem_of_fmap_2 _ _ _ Hk)). cbn in Hn.
  by destruct (matches (ks_candidate kept)).
Qed.

Lemma static_cleared i p : static_denials i p = [] -> cleared i p.
Proof.
  unfold static_denials. cbv zeta. intros H.
  apply app_nil in H as [_ H]. apply app_nil in H as [_ H]. apply app_nil in H as [_ H].
  apply app_nil in H as [_ H]. apply app_nil in H as [Hrisk H]. apply app_nil in H as [Hpolicy H].
  apply app_nil in H as [Hfocus H]. apply app_nil in H as [Hconf H]. apply app_nil in H as [Hrt H].
  apply app_nil in H as [Hwork H]. apply app_nil in H as [_ H]. apply app_nil in H as [Hauto H].
  apply app_nil in H as [_ H]. apply app_nil in H as [Hcool H]. apply app_nil in H as [_ H].
  apply app_nil in H as [Hkept H]. apply app_nil in H as [Hcg H]. apply app_nil in H as [Hallow Hac].
  apply pushed_nil in Hrisk, Hfocus, Hconf, Hrt, Hwork, Hkept, Hcg, Hallow.
  apply orb_false_iff in Hconf as [Hfin _].
  assert (Hgate : mode_requires_autonomous_workload_family (mode (pi_daemon_policy i)) = true ->
    autonomous_apply_gate
      (gate_input_of (pp_candidate p) (ob_primary_situation (pi_observation i))
         (source (pi_daemon_policy i)) (cs_validation_override (pi_controller_state i))) = None /\
    baseline_unavailable (candidate_objective (pp_candidate p))
      (ob_objective_signals (pi_observation i)) = false).
  { intros Hm. unfold autonomous_denials in Hauto. rewrite Hm in Hauto.
    apply app_nil in Hauto as [Hg Hb]. apply pushed_nil in Hb. split; [|done].
    cbn [candidate_descriptor effect_scope] in Hg. unfold gate_input_of.
    by destruct (autonomous_apply_gate _). }
  split; try done.
  - intros E. unfold is_high_risk_system_adjacent in Hrisk. by rewrite bool_decide_eq_true_2 in Hrisk.
  - destruct (check_action_with_context _ _ _ _) as [[]|]; done.
  - by apply negb_false_iff.
  - intros Hm. by apply Hgate.
  - intros Hm. by apply Hgate.
  - apply andb_false_iff in Hwork as [Hw|Hw]; apply negb_false_iff in Hw; auto.
  - unfold cooldown_denials in Hcool. cbv zeta in Hcool. apply app_nil in Hcool as [_ Hcool].
    apply pushed_nil in Hcool. by destruct (cooldown_remaining_for_workload_action _ _ _ _).
  - intros target Ht. rewrite Ht in Hcg. by apply negb_false_iff.
  - intros matches Hm. by apply (active_config_cleared i (pp_candidate p)).
  - intros matches kept Hm. by apply (active_config_cleared i (pp_candidate p)).
Qed.

Section Plans.

Context {R : Type} {runner : CandidateDryRunner R}.
Implicit Types (i : PlannerInput) (p : CandidateProposal) (e : CandidateEvaluation) (r : R).

(** The dry run of an eligible candidate matched tasks within the class ceiling. *)
Definition dry_run_passed i (c : CandidateAction) : Prop :=
  exists r, let record := (dry_run_with r c).1 in
    dr_eligible record = true /\
    safety_le (dr_safety_class record) (max_safety_class (pi_daemon_policy i)) = true.

Lemma evaluation_of_draft_eligible d deny dry :
  cev_eligible (evaluation_of_draft d deny dry) = true <-> deny = [].
Proof.
  unfold evaluation_of_draft. cbn. rewrite <- normalize_nil. by destruct (normalize_evaluation_denials deny).
Qed.

Lemma dry_run_eligible i d r :
  cev_eligible (dry_run_candidate_if_still_eligible i d r).1 = true ->
  dft_deny_reasons d = [] /\ dry_run_passed i (dft_candidate d).
Proof.
  unfold dry_run_candidate_if_still_eligible.
  destruct (match dft_deny_reasons d with [] => true | _ => false end || high_risk_suggest_dry_run i d)
    eqn:E.
  - destruct (dry_run_with r (dft_candidate d)) as [record r'] eqn:Er. cbn [fst].
    rewrite evaluation_of_draft_eligible. intros [Hd Hr]%app_nil. split; [done|].
    unfold dry_run_denials in Hr. apply app_nil in Hr as [H1 H2]. apply pushed_nil in H1, H2.
    exists r. rewrite Er. cbn. split; [by apply negb_false_iff|].
    rewrite safety_lt_le in H2. by apply negb_false_iff.
  - cbn [fst]. rewrite evaluation_of_draft_eligible. intros Hd. rewrite Hd in E. done.
Qed.

Lemma dry_run_candidate_kept i d r :
  cev_candidate (dry_run_candidate_if_still_eligible i d r).1 = dft_candidate d.
Proof.
  unfold dry_run_candidate_if_still_eligible. destruct (_ || _); [|done].
  by destruct (dry_run_with r (dft_candidate d)).
Qed.

(** Every evaluation is that of a proposal, in order. *)
Lemma evaluations_of_proposals i proposals r :
  Forall2 (fun p e => exists r', e = (dry_run_candidate_if_still_eligible i (evaluate_proposal_static i p) r').1)
    proposals (evaluate_proposals_with_runner i proposals r).1.
Proof.
  revert r. induction proposals as [|p proposals IH]; intros r; cbn; [constructor|].
  destruct (dry_run_candidate_if_still_eligible _ _ r) as [e r1] eqn:E. specialize (IH r1).
  destruct (evaluate_proposals_with_runner i proposals r1) as [es r2]. cbn in *.
  constructor; [|done]. exists r. by rewrite E.
Qed.

Lemma eligible_cleared i proposals r e :
  e ∈ (evaluate_proposals_with_runner i proposals r).1 -> cev_eligible e = true ->
  exists p, p ∈ proposals /\ cev_candidate e = pp_candidate p /\ cleared i p /\
            dry_run_passed i (pp_candidate p).
Proof.
  intros Hin He. apply list_elem_of_lookup in Hin as [n Hn].
  destruct (Forall2_lookup_r _ _ _ _ _ (evaluations_of_proposals i proposals r) Hn)
    as (p & Hp & r' & ->).
  apply dry_run_eligible in He as [Hd Hdry]. exists p. split; [by eapply list_elem_of_lookup_2|].
  split; [apply dry_run_candidate_kept|]. split; [|done]. apply static_cleared.
  by apply normalize_nil.
Qed.

(** What a selection says. *)
Lemma plan_selected i proposals r c :
  pr_selected (plan_with_dry_runner i proposals r).1 = Some c <->
  mode (pi_daemon_policy i) <> Observe /\ focus_is_idle_or_unknown (pi_observation i) = false /\
  exists e, List.find cev_eligible
              (sort_candidate_evaluations (evaluate_proposals_with_runner i proposals r).1) = Some e /\
            cev_candidate e = c.
Proof.
  unfold plan_with_dry_runner, mode_eqb. case_bool_decide as Hm; [naive_solver|].
  destruct (focus_is_idle_or_unknown _); [naive_solver|].
  destruct (evaluate_proposals_with_runner i proposals r) as [es r']. cbn.
  destruct (List.find _ _); cbn; naive_solver.
Qed.

Lemma sort_elem es e : e ∈ sort_candidate_evaluations es <-> e ∈ es.
Proof. unfold sort_candidate_evaluations. by rewrite stable_sort_Permutation. Qed.

Lemma selected_cleared i proposals r c :
  pr_selected (plan_with_dry_runner i proposals r).1 = Some c ->
  mode (pi_daemon_policy i) <> Observe /\ focus_is_idle_or_unknown (pi_observation i) = false /\
  exists p, p ∈ proposals /\ pp_candidate p = c /\ cleared i p /\ dry_run_passed i c.
Proof.
  intros (Hm & Hf & e & He & <-)%plan_selected. split; [done|]. split; [done|].
  apply find_some in He as [Hin He]. apply list_elem_of_In in Hin. rewrite sort_elem in Hin.
  destruct (eligible_cleared i proposals r e Hin He) as (p & Hp & Hc & Hcl & Hd).
  exists p. rewrite Hc. done.
Qed.

(** In an apply mode the policy's specification holds of the candidate. *)
Lemma cleared_permitted i p :
  supports_apply (mode (pi_daemon_policy i)) = true -> cleared i p ->
  apply_permitted (pi_daemon_policy i) (candidate_descriptor (pp_candidate p) (Some (pp_confidence p)))
    (policy_context_for_input i).
Proof.
  intros Hm Hc. pose proof (cl_policy _ _ Hc) as Hp. unfold policy_intent_for_mode in Hp.
  rewrite Hm in Hp. apply check_action_ok_iff in Hp as (_ & _ & Hp). by apply apply_decision.
Qed.

Lemma apply_mode_autonomous m : supports_apply m = mode_requires_autonomous_workload_family m.
Proof. by destruct m. Qed.

(** In an apply mode nothing is under way and nothing cools down. *)
Lemma cleared_idle i p :
  supports_apply (mode (pi_daemon_policy i)) = true -> cleared i p ->
  cs_active_experiment (pi_controller_state i) = None /\
  is_low_quality (ob_data_quality (pi_observation i)) = false /\
  forall until, cs_cooldown_until_unix_nanos (pi_controller_state i) = Some until ->
    until <= ob_now_unix_nanos (pi_observation i).
Proof.
  intros Hm Hc. destruct (cleared_permitted i p Hm Hc) as [_ (Hq & _ & _ & Hcool & Hroll & _)].
  cbn in Hq, Hcool, Hroll. apply negb_true_iff in Hq.
  split; [by destruct (cs_active_experiment _)|]. split; [done|].
  intros deadline E. rewrite E in Hcool. by apply Z.ltb_ge.
Qed.

(** A conflict-free candidate with a group of its own can be recorded as kept. *)
Lemma no_conflict_records (a : ActiveProfileState) (s : KeptCandidateState) (x : ExperimentResult) :
  kept_ok (kept_actions a) -> conflict_group (ks_candidate s) <> CgNone ->
  conflicting_action (kept_actions a) (ks_candidate s) = None ->
  is_Some (record_kept_candidate a s x).
Proof.
  intros [_ Hk _] Hg Hn. unfold record_kept_candidate, insert_if_compatible. rewrite Hn.
  destruct (kept_get (kept_actions a) (conflict_group (ks_candidate s))) as [s'|] eqn:E; [|by eexists].
  apply kept_get_elem in E. eapply Forall_forall in Hk as Hkey; [|exact E]. cbn in Hkey. exfalso.
  unfold conflicting_action in Hn. eapply find_none in Hn; [|by apply list_elem_of_In, list_elem_of_fmap_2, E].
  cbn in Hn. unfold candidate_conflicts_with, group_conflicts_with in Hn. rewrite <- Hkey in Hn.
  repeat case_bool_decide; done.
Qed.

Lemma cleared_kept i p a :
  cleared i p -> pi_active_profile_state i = Some a ->
  conflicting_action (kept_actions a) (pp_candidate p) = None.
Proof.
  intros Hc Ha. pose proof (cl_kept _ _ Hc) as Hk. unfold conflicts_with_kept in Hk. rewrite Ha in Hk.
  cbn in Hk. destruct (conflicting_action _ _) as [s|] eqn:E; [|done].
  unfold conflicting_action in E. apply find_some in E as [_ E]. congruence.
Qed.

Lemma authorized_group c situation source v :
  autonomous_apply_gate (gate_input_of c situation source v) = None -> conflict_group c <> CgNone.
Proof.
  intros H E. by destruct c.
Qed.

(** *** The choice among the proposals *)

(** A proposal whose evaluation is eligible. *)
Definition eligible_proposal (proposals : list CandidateProposal) (es : list CandidateEvaluation)
    (p : CandidateProposal) : Prop :=
  exists n e, proposals !! n = Some p /\ es !! n = Some e /\ cev_eligible e = true.

(** The rank of a proposal: the hint and what the memory of the workload adds, in u32. *)
Definition proposal_rank (i : PlannerInput) (p : CandidateProposal) : Z :=
  let remembered := workload_rank_hint (cs_candidate_memory (pi_controller_state i)) (pp_candidate p)
                      (from_observation (pp_candidate p) (pi_observation i) None) in
  Z.min (Z.max (pp_rank_hint p + match remembered with Some d => d | None => 0 end) 0) (2 ^ 32 - 1).

Definition at_least_as_good (i : PlannerInput) (p q : CandidateProposal) : Prop :=
  proposal_rank i p <= proposal_rank i q /\
  (proposal_rank i p = proposal_rank i q ->
     SFltb (pp_confidence p) (pp_confidence q) = false /\
     (pp_confidence p = pp_confidence q ->
        String.le (candidate_name (pp_candidate p)) (candidate_name (pp_candidate q)))).

(** What the evaluation of a proposal says of it. *)
Record evaluates (i : PlannerInput) (p : CandidateProposal) (e : CandidateEvaluation) : Prop := {
  ev_candidate : pp_candidate p = cev_candidate e;
  ev_rank : cev_rank e = Some (proposal_rank i p);
  ev_confidence : cev_confidence e = pp_confidence p;
  ev_name : cev_candidate_name e = candidate_name (pp_candidate p) }.

Lemma evaluated_at i proposals r n p e :
  proposals !! n = Some p -> (evaluate_proposals_with_runner i proposals r).1 !! n = Some e -> evaluates i p e.
Proof.
  intros Hp He. destruct (Forall2_lookup_lr _ _ _ _ _ _ (evaluations_of_proposals i proposals r) Hp He) as (r' & ->).
  unfold dry_run_candidate_if_still_eligible. destruct (_ || _); [destruct (dry_run_with _ _)|]; done.
Qed.

Lemma evaluation_proposal i proposals r e :
  e ∈ (evaluate_proposals_with_runner i proposals r).1 -> cev_eligible e = true ->
  exists p, eligible_proposal proposals (evaluate_proposals_with_runner i proposals r).1 p /\ evaluates i p e.
Proof.
  intros [n Hn]%list_elem_of_lookup He.
  destruct (Forall2_lookup_r _ _ _ _ _ (evaluations_of_proposals i proposals r) Hn) as (p & Hp & _).
  exists p. split; [by exists n, e|by eapply evaluated_at].
Qed.

Lemma sorted_evaluations es : StronglySorted evaluation_le (sort_candidate_evaluations es).
Proof. apply (StronglySorted_stable_sort evaluation_le). Qed.

Lemma evaluation_order i p q e x :
  evaluates i p e -> evaluates i q x -> cev_eligible e = cev_eligible x ->
  valid_binary 24 128 (pp_confidence p) = true -> valid_binary 24 128 (pp_confidence q) = true ->
  x = e \/ evaluation_le e x -> at_least_as_good i p q.
Proof.
  intros [_ Hr Hc Hn] [_ Hr' Hc' Hn'] Heq Hp Hq Hle.
  assert (evaluation_le e x) as Hle' by (destruct Hle as [->|]; [|done]; by destruct (total evaluation_le e e)).
  clear Hle. apply evaluation_le_iff in Hle'. unfold key_lt, evaluation_key in Hle'. cbn [fst snd] in Hle'.
  rewrite Heq, Hr, Hr', Hc, Hc', Hn, Hn' in Hle'. cbn [default] in Hle'. unfold default in Hle'. cbn in Hle'.
  split; [naive_solver lia|]. intros Hrank. split.
  - destruct (SFltb (pp_confidence p) (pp_confidence q)) eqn:Hlt; [|done].
    apply f32_total_key_lt in Hlt; [|done|done]. naive_solver lia.
  - intros Hconf. rewrite Hconf in Hle'. naive_solver lia.
Qed.

Lemma plan_unselected i proposals r :
  pr_selected (plan_with_dry_runner i proposals r).1 = None ->
  mode (pi_daemon_policy i) = Observe \/ focus_is_idle_or_unknown (pi_observation i) = true \/
  forall p, ~ eligible_proposal proposals (evaluate_proposals_with_runner i proposals r).1 p.
Proof.
  unfold plan_with_dry_runner, mode_eqb. case_bool_decide as Hm; [by left|].
  destruct (focus_is_idle_or_unknown _) eqn:Hf; [by right; left|].
  destruct (evaluate_proposals_with_runner i proposals r) as [es r'] eqn:E. cbn.
  destruct (List.find cev_eligible (sort_candidate_evaluations es)) eqn:Efind; [done|]. intros _. right. right.
  intros p (n & e & _ & He & Hel). apply list_elem_of_lookup_2 in He. rewrite <- sort_elem in He.
  apply list_elem_of_In in He. eapply find_none in Efind; [|exact He]. congruence.
Qed.

End Plans.

(** ** Claims *)

(** C20. The plan selects the best of what was proposed.  What it selects is an eligible
    proposal such that no other eligible one has a lower rank (the provider's hint moved
    by what the memory of the workload says of the action, within u32), none of the same
    rank has a numerically higher confidence, and none of the same rank and confidence has
    an earlier name.  It selects nothing, and says why, exactly in the observe mode, with
    an idle or unknown focus, or when no proposal is eligible.  The confidences are
    binary32 numbers. *)
Theorem plan_selects_best {R} {runner : CandidateDryRunner R} (i : PlannerInput)
    (proposals : list CandidateProposal) (r : R) :
  Forall (fun p => valid_binary 24 128 (pp_confidence p) = true) proposals ->
  let plan := (plan_with_dry_runner i proposals r).1 in
  let es := (evaluate_proposals_with_runner i proposals r).1 in
  (forall c, pr_selected plan = Some c ->
     exists p, eligible_proposal proposals es p /\ pp_candidate p = c /\
       forall q, eligible_proposal proposals es q -> at_least_as_good i p q) /\
  (pr_selected plan = None <->
   mode (pi_daemon_policy i) = Observe \/ focus_is_idle_or_unknown (pi_observation i) = true \/
   forall p, ~ eligible_proposal proposals es p) /\
  (pr_no_action_reason plan = None <-> is_Some (pr_selected plan)).
Proof.
  intros Hvalid. cbv zeta. split; [|split].
  - intros c (Hm & Hf & e & He & <-)%plan_selected.
    destruct (find_first_sorted _ _ (sorted_evaluations _) He) as (Hin & Hel & Hall).
    rewrite sort_elem in Hin. destruct (evaluation_proposal i proposals r e Hin Hel) as (p & Hp & Hpe).
    exists p. split; [done|]. split; [by destruct Hpe|].
    intros q (m & x & Hq & Hx & Hxe). pose proof (evaluated_at i proposals r m q x Hq Hx) as Hqx.
    destruct Hp as (n & e' & Hp & _).
    apply (evaluation_order i p q e x Hpe Hqx); [congruence| | |].
    + by eapply Forall_lookup_1 in Hvalid.
    + by eapply Forall_lookup_1 in Hvalid.
    + apply Hall; [|done]. by rewrite sort_elem; eapply list_elem_of_lookup_2.
  - destruct (pr_selected _) as [c|] eqn:E.
    + split; [done|]. apply plan_selected in E as (Hm & Hf & e & He & <-).
      apply find_some in He as [Hin Hel]. apply list_elem_of_In in Hin. rewrite sort_elem in Hin.
      destruct (evaluation_proposal i proposals r e Hin Hel) as (p & Hp & _).
      intros [?|[?|Hno]]; [done|congruence|by destruct (Hno p)].
    + split; [|done]. intros _. by apply (plan_unselected i proposals r).
  - unfold plan_with_dry_runner. destruct (mode_eqb _ _); [cbn; split; [done|by intros [? ?]]|].
    destruct (focus_is_idle_or_unknown _); [cbn; split; [done|by intros [? ?]]|].
    destruct (evaluate_proposals_with_runner i proposals r) as [es r']. cbn.
    destruct (List.find _ _); cbn; [by split|]. split; [done|]. by intros [? ?].
Qed.

(** C19. Whatever the providers propose and the dry runner reports, a candidate selected in
    an apply mode is one of the proposals, not high-risk, applied by the daemon policy,
    let through by the autonomous gate (by a local campaign or as a supported tuple),
    with no experiment under way; and it can be kept beside every action already
    kept. *)
Theorem planned_candidate_authorized {R} {runner : CandidateDryRunner R} (i : PlannerInput)
    (proposals : list CandidateProposal) (r : R) (c : CandidateAction) :
  supports_apply (mode (pi_daemon_policy i)) = true ->
  pr_selected (plan_with_dry_runner i proposals r).1 = Some c ->
  exists p, p ∈ proposals /\ pp_candidate p = c /\
  candidate_safety_class c <> HighRisk /\
  apply_permitted (pi_daemon_policy i) (candidate_descriptor c (Some (pp_confidence p)))
    (policy_context_for_input i) /\
  ((campaign_grants c (source (pi_daemon_policy i)) (cs_validation_override (pi_controller_state i)) /\
    is_manual_only (operation_kind c) = false) \/
   supported_tuple c (ob_primary_situation (pi_observation i))) /\
  cs_active_experiment (pi_controller_state i) = None /\
  (forall a s x, pi_active_profile_state i = Some a -> rtc profile_step ActiveProfileState_default a ->
     ks_candidate s = c -> is_Some (record_kept_candidate a s x)).
Proof.
  intros Hm (_ & _ & p & Hp & <- & Hc & _)%selected_cleared.
  assert (Hauto := Hm). rewrite apply_mode_autonomous in Hauto.
  pose proof (cl_gate _ _ Hc Hauto) as Hg.
  exists p. split; [done|]. split; [done|]. split; [apply (cl_high_risk _ _ Hc)|].
  split; [by apply cleared_permitted|]. split; [|split].
  - apply gate_exact in Hg as [H|[_ H]]; auto.
  - by apply (cleared_idle i p).
  - intros a s x Ha Hreach Hs. apply no_conflict_records; rewrite ?Hs.
    + by apply profile_reachable_ok in Hreach as [Hok _].
    + by eapply authorized_group.
    + by apply (cleared_kept i p).
Qed.

(** In the low-risk mode, outside a validation campaign, the only thing a plan can ever
    select is a CPU-affinity profile that changes no priority, for a game under
    scheduler pressure, judged by its runnable latency, which the baseline measured. *)
Theorem low_risk_plan_is_affinity {R} {runner : CandidateDryRunner R} (i : PlannerInput)
    (proposals : list CandidateProposal) (r : R) (c : CandidateAction) :
  mode (pi_daemon_policy i) = ApplyLowRisk ->
  cs_validation_override (pi_controller_state i) = None ->
  pr_selected (plan_with_dry_runner i proposals r).1 = Some c ->
  exists p, c = CaCpuAffinityProfile p /\ cap_uses_priority_actions p = false /\
    cap_objective p = GameRunnableLatency /\
    ob_primary_situation (pi_observation i) = GameCpuSchedulerPressure /\
    is_Some (population (ob_objective_signals (pi_observation i))).
Proof.
  intros Hm Hv (_ & _ & p & Hp & <- & Hc & _)%selected_cleared.
  assert (Hauto : mode_requires_autonomous_workload_family (mode (pi_daemon_policy i)) = true)
    by (by rewrite Hm).
  pose proof (cl_gate _ _ Hc Hauto) as Hg. apply gate_exact in Hg as [[(g & Hg & _) _]|[_ Hs]].
  { by rewrite Hv in Hg. }
  destruct Hs as (Hsit & Hob & Hcand).
  destruct (cleared_permitted i p) as [[Hmode _ _ _ _ _ _ _] _]; [by rewrite Hm|done|].
  unfold mode_permits in Hmode. rewrite Hm in Hmode. destruct Hmode as [_ Hscope].
  pose proof (cl_baseline _ _ Hc Hauto) as Hbase. rewrite Hob in Hbase. cbn in Hbase.
  destruct Hcand as [(q & Hq & Hprio)|(q & target & Hq)]; rewrite Hq in *; cbn in *.
  - exists q. split; [done|]. split; [done|]. split; [done|]. split; [done|].
    destruct (population _); [by eexists|done].
  - by destruct Hscope.
Qed.

(** What is planned is started: for a focused game and a dry runner that reports the
    class of its candidate, a controller that is neither disabled nor faulted starts an
    experiment on the selected candidate, unless the same action was tried too
    recently. *)
Theorem planned_candidate_starts {R} {runner : CandidateDryRunner R} {class : DryRunReportsClass R}
    (i : PlannerInput) (proposals : list CandidateProposal) (r : R) (c : CandidateAction) :
  let p := from_daemon_policy (pi_daemon_policy i) in
  let s := pi_controller_state i in
  let o := pi_observation i in
  supports_apply (mode (pi_daemon_policy i)) = true ->
  ob_focus_kind o = Some FgGame ->
  cs_phase s <> CpDisabled -> cs_phase s <> CpFaulted ->
  pr_selected (plan_with_dry_runner i proposals r).1 = Some c ->
  decide_autotune_transition p s o (Some c) = DStartExperiment c \/
  exists d, same_action_cooldown_remaining p s o c = Some d /\
            decide_autotune_transition p s o (Some c) = DEnterCooldown d.
Proof.
  cbv zeta. intros Hm Hfocus H1 H2 (_ & Hidle & p & Hp & <- & Hc & r' & _ & Hclass)%selected_cleared.
  rewrite reports_class in Hclass.
  destruct (cleared_idle i p Hm Hc) as (Ha & Hq & Hcool).
  assert (Hctl : idle_controller (pi_controller_state i) (pi_observation i)) by done.
  assert (Hblock : focus_policy_blocks (pi_observation i) (pp_candidate p) = false).
  { unfold focus_policy_blocks. by rewrite (cl_realtime _ _ Hc), Hidle, Hfocus. }
  rewrite transition_idle by done.
  destruct (same_action_cooldown_remaining _ _ _ (pp_candidate p)) as [d|] eqn:E.
  - right. exists d. split; [done|]. unfold decide_candidate, mode_eqb.
    cbn [from_daemon_policy cp_mode cp_max_safety_class].
    rewrite bool_decide_eq_false_2 by (intros E'; by rewrite E' in Hm).
    rewrite Hq, Hblock, safety_lt_le, Hclass, E. done.
  - left. apply decide_candidate_start. done.
Qed.
