(* ===== verification/LiveExperiment.v ===== *)
(** * LiveExperiment: the experiment under way

    [autotune/live_experiment]: the manager of the current experiment ([model.rs],
    [manager.rs], [scoring.rs], [rollback.rs]), what it writes to the journal
    ([journal.rs]) and to the ledger of kept actions ([kept_rollback.rs]), and the
    side effects of a decision ([lifecycle.rs]): start, keep, revert, cooldown,
    fault, and the release of the kept actions.

    The executor is the trait of [executor.rs], a class here.  The snapshots of the
    active configuration and their comparison ([active_config]) are parameters:
    what is proved here holds whatever the comparison says, and [ActiveConfig] gives
    it.  What is written for people (the history context, the evidence, logs) is left
    out; the time a process was started is read from the host. *)

From Stdlib Require Import String List.
From S2P Require Import Prelude Abi Score PolicyModel PolicyEval ActionModel ActionRunner Journal Recovery Transaction Objective Controller AutonomousGate ContextKey CandidateMemory Decide.
From stdpp Require Import pretty list.
Open Scope Z_scope.

(** ** [model.rs] and [washout.rs] *)

Record WashoutWindowConfig := { wc_washout_seconds : Z; wc_verify_interval_ms : Z }.

Definition washout_duration (w : WashoutWindowConfig) : Z := from_secs (wc_washout_seconds w).

(** [controller_journal_path] is the host's; whether one is configured is what the
    simulation asks. *)
Record LiveExperimentManagerInput := {
  li_mode : DaemonMode;
  li_daemon_policy : DaemonPolicy;
  li_controller_policy : ControllerPolicy;
  li_simulate_action_effects : bool;
  li_washout : WashoutWindowConfig;
  li_candidate_window_seconds : Z;
  li_manual_restore_command : string;
  li_has_controller_journal_path : bool }.

Inductive LiveExperimentEvent :=
| LeNoop | LeStarted | LeKept | LeReverted | LeCooldownEntered | LeFaulted.

Record LiveExperimentOutcome := { lo_event : LiveExperimentEvent; lo_clear_measurement_window : bool }.

Definition outcome_event (e : LiveExperimentEvent) : LiveExperimentOutcome :=
  {| lo_event := e; lo_clear_measurement_window := false |}.

Record RollbackVerification := {
  rv_verified : bool;
  rv_expected : string;
  rv_actual : string;
  rv_reason_code : string }.

(** ** [scoring.rs] *)

Definition validate_window_score_for_apply (w : WindowScore) : bool :=
  negb (interval_count w =? 0) && negb (scored_samples w =? 0) && negb (scored_task_count w =? 0).

(** ** [manager.rs]: what needs no host *)

(** [inr]: rejected; [inl false]: the mode starts nothing. *)
Definition validate_start_candidate (m : DaemonMode) (p : DaemonPolicy) (c : CandidateAction)
    : bool + AnyError :=
  match m with
  | ApplyLowRisk =>
      if negb (bool_decide (candidate_safety_class c = ReversibleLowRisk))
      then inr (EOther "live apply-low-risk rejected non-low-risk candidate")
      else inl true
  | ApplyMediumRisk =>
      if negb (allow_medium_risk_apply p)
      then inr (EOther "live apply-medium-risk requires explicit medium-risk unlock")
      else if safety_lt ReversibleMediumRisk (candidate_safety_class c)
      then inr (EOther "live apply-medium-risk rejected non-medium-risk candidate")
      else if is_high_risk_system_adjacent c
      then inr (EOther "live apply-medium-risk rejected manual-only high-risk candidate")
      else inl true
  | _ => inl false
  end.

Definition validate_autonomous_support (input : LiveExperimentManagerInput)
    (s : ControllerRuntimeState) (o : AutotuneObservation) (c : CandidateAction) : unit + AnyError :=
  if negb (is_mutation_provider c) then inl tt
  else match autonomous_apply_gate
               {| ag_operation := operation_kind c; ag_objective := candidate_objective c;
                  ag_situation := ob_primary_situation o;
                  ag_effect_scope := candidate_effect_scope c;
                  ag_source := source (li_daemon_policy input);
                  ag_validation_override := cs_validation_override s |} with
       | None => inl tt
       | Some _ => inr (EOther "autonomous apply denied")
       end.

Definition deadlines_from_now (simulate : bool) (w : WashoutWindowConfig)
    (candidate_window_seconds applied : Z) : Z * Z :=
  if simulate then (applied, applied)
  else
    let washout_until := Intervals.saturating_add_u128 applied (washout_duration w) in
    (washout_until,
     Intervals.saturating_add_u128 washout_until (from_secs candidate_window_seconds)).

Section live.
Context {S : Type} {FS : FileSystem S}.

(** A snapshot of the active configuration, the one an observation carries, the
    comparison after a rollback, and when a process was started. *)
Context {Config : Type} (active_config : AutotuneObservation -> option Config)
  (verify_rollback_restored_baseline :
     CandidateAction -> Config -> Config -> AutotuneObservation -> RollbackVerification)
  (process_starttime_at : Host S -> Z -> option Z).

Record LiveExperiment := {
  le_experiment_id : string;
  le_candidate : CandidateAction;
  le_safety_class : SafetyClass;
  le_mode : DaemonMode;
  le_baseline_score : WindowScore;
  le_baseline_signals : ObjectiveSignals;
  le_baseline_active_config : option Config;
  le_applied_unix_nanos : Z;
  le_washout_until_unix_nanos : Z;
  le_measure_until_unix_nanos : Z;
  le_rollback : RollbackToken }.

(** [LiveExperimentActionExecutor]. *)
Class LiveExecutor := {
  apply_candidate :
    LiveExperimentManagerInput -> CandidateAction -> string -> AutotuneObservation ->
    HM S (RollbackToken + TransactionError);
  rollback_candidate :
    LiveExperimentManagerInput -> LiveExperiment -> AutotuneObservation ->
    HM S (option Config + AnyError) }.
Context {executor : LiveExecutor}.

(** The manager's current experiment with the two states it is handed. *)
Record LiveState := {
  lv_current : option LiveExperiment;
  lv_controller : ControllerRuntimeState;
  lv_profile : ActiveProfileState }.

Definition set_current (st : LiveState) (e : option LiveExperiment) : LiveState :=
  {| lv_current := e; lv_controller := lv_controller st; lv_profile := lv_profile st |}.
Definition set_controller (st : LiveState) (c : ControllerRuntimeState) : LiveState :=
  {| lv_current := lv_current st; lv_controller := c; lv_profile := lv_profile st |}.
Definition set_profile (st : LiveState) (p : ActiveProfileState) : LiveState :=
  {| lv_current := lv_current st; lv_controller := lv_controller st; lv_profile := p |}.

Definition Live (A : Type) := HM S ((A + TransactionError) * LiveState).

Definition has_active_experiment (st : LiveState) : bool :=
  match lv_current st with Some _ => true | None => false end.

(** A decision forced by the experiment's windows. *)
Definition active_window_decision (st : LiveState) (o : AutotuneObservation)
    : option AutotuneDecision :=
  e ← lv_current st;
  if ob_now_unix_nanos o <? le_washout_until_unix_nanos e then Some DNoop
  else if ob_now_unix_nanos o <? le_measure_until_unix_nanos e then Some DNoop
  else None.

Definition keep_input (e : LiveExperiment) (o : AutotuneObservation) : ObjectiveComparisonInput :=
  {| oci_objective := candidate_objective (le_candidate e);
     oci_baseline := le_baseline_score e;
     oci_candidate := to_window_score o;
     oci_baseline_signals := le_baseline_signals e;
     oci_candidate_signals := ob_objective_signals o;
     oci_data_quality := experiment_data_quality (ob_data_quality o);
     oci_target_disappeared := negb (ob_target_present o) |}.

Definition compare_keep_result (e : LiveExperiment) (o : AutotuneObservation) : ExperimentResult :=
  compare_for_objective (keep_input e o).

(** ** [rollback.rs] *)

Definition rollback_verification_for_experiment (e : LiveExperiment) (post : option Config)
    (o : AutotuneObservation) : option RollbackVerification :=
  if negb (ob_target_present o) then None
  else
    baseline ← le_baseline_active_config e;
    Some (match post with
          | Some p => verify_rollback_restored_baseline (le_candidate e) baseline p o
          | None =>
              {| rv_verified := false; rv_expected := "post-rollback active config snapshot";
                 rv_actual := "missing"; rv_reason_code := "rollback_verification_unavailable" |}
          end).

(** ** [journal.rs] *)

Definition journal_process_identity (pid : Z) (starttime : option Z) (tasks : option Z) : string :=
  "pid:" +:+ decimal pid +:+ ":starttime:" +:+ default "unknown" (decimal <$> starttime)
  +:+ match tasks with Some n => ":active_tasks:" +:+ decimal n | None => "" end.

Definition controller_journal_metadata_for_candidate (input : LiveExperimentManagerInput)
    (c : CandidateAction) (o : AutotuneObservation) (affected : option Z) (verify_result : string)
    : HM S ControllerJournalActionMetadata := fun h =>
  let pid :=
    match ob_target_root_pid o with
    | Some p => if p =? 0 then candidate_tree_pid c else p
    | None => candidate_tree_pid c
    end in
  let starttime := if pid =? 0 then None else process_starttime_at h pid in
  let tasks := match affected with Some n => Some n | None => Some (ob_active_target_count o) end in
  ({| md_candidate := Some (candidate_name c);
      md_workload_identity := Some (journal_process_identity pid starttime None);
      md_target_identity := Some (journal_process_identity pid starttime tasks);
      md_restore_command := Some (li_manual_restore_command input);
      md_verify_result := Some verify_result;
      md_mode := Some (li_mode input);
      md_safety_class := Some (candidate_safety_class c) |}, h).

Definition with_mode_and_class (r : ControllerJournalRecord) (m : DaemonMode) (c : SafetyClass)
    : ControllerJournalRecord :=
  {| jr_schema_version := jr_schema_version r; jr_state := jr_state r;
     jr_experiment_id := jr_experiment_id r; jr_action_id := jr_action_id r;
     jr_candidate := jr_candidate r; jr_workload_identity := jr_workload_identity r;
     jr_target_identity := jr_target_identity r; jr_restore_command := jr_restore_command r;
     jr_verify_result := jr_verify_result r; jr_mode := Some m; jr_safety_class := Some c;
     jr_rollback_token := jr_rollback_token r;
     jr_phase_started_unix_nanos := jr_phase_started_unix_nanos r;
     jr_updated_unix_nanos := jr_updated_unix_nanos r; jr_fault_reason := jr_fault_reason r |}.

Definition affected_of (t : RollbackToken) : option Z := Some (Z.of_nat (token_affected_tasks t)).

Definition controller_journal_record_for_live_experiment (input : LiveExperimentManagerInput)
    (e : LiveExperiment) (o : AutotuneObservation) (state : ControllerJournalState)
    (verify_result : string) : HM S ControllerJournalRecord :=
  let* started := now in
  let* updated := now in
  let* md := controller_journal_metadata_for_candidate input (le_candidate e) o
               (affected_of (le_rollback e)) verify_result in
  hret (with_mode_and_class
          (with_metadata
             (for_phase state (le_experiment_id e) (candidate_action_id (le_candidate e))
                (Some (le_rollback e)) started updated) md)
          (le_mode e) (le_safety_class e)).

Definition write_controller_journal_phase_for_live_experiment (input : LiveExperimentManagerInput)
    (e : LiveExperiment) (o : AutotuneObservation) (state : ControllerJournalState)
    (verify_result : string) : HM S (unit + AnyError) :=
  if li_simulate_action_effects input && negb (li_has_controller_journal_path input)
  then hret (inl tt)
  else
    let* record := controller_journal_record_for_live_experiment input e o state verify_result in
    write_controller_journal_record record.

(** ** [kept_rollback.rs] *)

Definition record_kept_durably (input : LiveExperimentManagerInput) (e : LiveExperiment) (kept : Z)
    : HM S (unit + AnyError) :=
  if li_simulate_action_effects input && negb (li_has_controller_journal_path input)
  then hret (inl tt)
  else
    record_kept
      {| kl_experiment_id := le_experiment_id e;
         kl_action_id := candidate_action_id (le_candidate e);
         kl_candidate := candidate_name (le_candidate e);
         kl_rollback_token := le_rollback e;
         kl_mode := Some (le_mode e);
         kl_safety_class := Some (le_safety_class e);
         kl_kept_unix_nanos := kept |}.

Definition retire_kept_durably (experiment_id : string) : HM S unit :=
  let* _ := retire_kept experiment_id in hret tt.

Definition commit_keep_durably (input : LiveExperimentManagerInput) (e : LiveExperiment)
    (o : AutotuneObservation) : HM S (unit + AnyError) :=
  let? _ := record_kept_durably input e (ob_now_unix_nanos o) in
  let* r := write_controller_journal_phase_for_live_experiment input e o JKeeping
              "kept_pending_manual_restore" in
  match r with
  | inl _ => hret (inl tt)
  | inr err => let* _ := retire_kept_durably (le_experiment_id e) in hret (inr err)
  end.

Definition clear_journal_if_it_names (t : RollbackToken) : HM S unit :=
  let* r := read_controller_journal in
  match r with
  | inr _ => hret tt
  | inl record =>
      if bool_decide (jr_state record = JKeeping) && bool_decide (jr_rollback_token record = Some t)
      then let* _ := write_controller_journal_clean in hret tt
      else hret tt
  end.

(** The executor's rollback.  [undone] is a log of the model, not of the program: it gets
    the token when the executor answers with success, whatever the machine is like then. *)
Definition rollback_recorded (input : LiveExperimentManagerInput) (e : LiveExperiment)
    (o : AutotuneObservation) : HM S (option Config + AnyError) :=
  let* r := rollback_candidate input e o in
  match r with
  | inl c => let* _ := set_disk (record_undone (le_rollback e)) in hret (inl c)
  | inr err => hret (inr err)
  end.

Definition write_release_audit (e : LiveExperiment) (success : bool) : HM S unit :=
  let* n := now in
  let* _ := append_report FAudit (RepAudit {|
    schema_version := 1; ev_unix_nanos := n; ev_command := "autotune-kept-release";
    ev_action_id := Some (candidate_action_id (le_candidate e));
    ev_safety_class := Some (le_safety_class e); ev_dry_run := false;
    ev_success := success; ev_affected_tasks := token_affected_tasks (le_rollback e);
    ev_restore_path := token_restore_path (le_rollback e); ev_action_phase := None;
    ev_error_category := None |}) in
  hret tt.

Definition experiment_of_kept (input : LiveExperimentManagerInput) (k : KeptCandidateState)
    : LiveExperiment :=
  {| le_experiment_id := ks_experiment_id k; le_candidate := ks_candidate k;
     le_safety_class := candidate_safety_class (ks_candidate k); le_mode := li_mode input;
     le_baseline_score := ks_baseline_score k; le_baseline_signals := ObjectiveSignals_default;
     le_baseline_active_config := None; le_applied_unix_nanos := ks_kept_unix_nanos k;
     le_washout_until_unix_nanos := ks_kept_unix_nanos k;
     le_measure_until_unix_nanos := ks_kept_unix_nanos k; le_rollback := ks_rollback k |}.

Record KeptRelease := { kr_restored : nat; kr_failed : nat }.

Definition drop_kept (p : ActiveProfileState) (g : ActionConflictGroup) : ActiveProfileState :=
  {| kept_actions := (kept_remove (kept_actions p) g).1; kept_history := kept_history p |}.

Definition release_one (input : LiveExperimentManagerInput) (o : AutotuneObservation)
    (g : ActionConflictGroup) (p : ActiveProfileState) (n : KeptRelease)
    : HM S (KeptRelease * ActiveProfileState) :=
  match kept_get (kept_actions p) g with
  | None => hret (n, p)
  | Some k =>
      let e := experiment_of_kept input k in
      let* r := (if li_simulate_action_effects input then hret (inl None)
                 else rollback_recorded input e o) in
      match r with
      | inl _ =>
          let* _ := write_release_audit e true in
          let* _ := retire_kept_durably (ks_experiment_id k) in
          let* _ := clear_journal_if_it_names (ks_rollback k) in
          hret ({| kr_restored := Datatypes.S (kr_restored n); kr_failed := kr_failed n |}, drop_kept p g)
      | inr _ =>
          let* _ := write_release_audit e false in
          hret ({| kr_restored := kr_restored n; kr_failed := Datatypes.S (kr_failed n) |}, p)
      end
  end.

Fixpoint release_groups (input : LiveExperimentManagerInput) (o : AutotuneObservation)
    (groups : list ActionConflictGroup) (p : ActiveProfileState) (n : KeptRelease)
    : HM S (KeptRelease * ActiveProfileState) :=
  match groups with
  | [] => hret (n, p)
  | g :: rest =>
      let* np := release_one input o g p n in
      release_groups input o rest np.2 np.1
  end.

Definition release_kept_actions_with_executor (input : LiveExperimentManagerInput)
    (p : ActiveProfileState) (o : AutotuneObservation) : HM S (KeptRelease * ActiveProfileState) :=
  release_groups input o (kept_actions p).*1 p {| kr_restored := 0; kr_failed := 0 |}.

(** ** [lifecycle.rs] *)

(** A failed apply is an [anyhow::Error], which may be a journaled failure. *)
Definition try_action_id (id : string) : HM S (string + AnyError) :=
  hret (if trim_is_empty id then inr (EOther "ActionId cannot be empty") else inl id).

Definition lift_io {A} (m : HM S (A + AnyError)) : HM S (A + TransactionError) :=
  let* r := m in hret match r with inl x => inl x | inr e => inr (TxIo e) end.

Definition ttry {A B} (m : HM S (A + TransactionError)) (k : A -> HM S (B + TransactionError))
    : HM S (B + TransactionError) :=
  let* r := m in match r with inl x => k x | inr e => hret (inr e) end.

(** The privileged service's historical protocol: the controller writes the two
    journal phases around its apply. *)
Definition deferred_privileged_journal (input : LiveExperimentManagerInput) (c : CandidateAction)
    : bool :=
  mode_eqb (li_mode input) ApplyMediumRisk && safety_lt ReversibleLowRisk (candidate_safety_class c).

Definition durable_applied_token (record : ControllerJournalRecord) (t : RollbackToken)
    (experiment_id action_id : string) : bool :=
  bool_decide (jr_state record = JApplied) && bool_decide (jr_rollback_token record = Some t)
  && bool_decide (jr_experiment_id record = Some experiment_id)
  && bool_decide (jr_action_id record = Some action_id).

Definition apply_candidate_for_runtime_with_executor (input : LiveExperimentManagerInput)
    (c : CandidateAction) (experiment_id action_id : string) (o : AutotuneObservation)
    : HM S (RollbackToken + TransactionError) :=
  if li_simulate_action_effects input then
    match c with
    | CaFake _ _ => hret (inl (NiceRestore []))
    | _ =>
        hret (inl (CpuAffinityRestoreFile
                     ("/tmp/stutter-simulated-rollback-" +:+ experiment_id +:+ ".json")
                     (Z.to_nat (Z.max (ob_active_target_count o) 1))))
    end
  else if deferred_privileged_journal input c then
    ttry (lift_io
            (let? id := try_experiment_id experiment_id in
             let? aid := try_action_id action_id in
             let* md := controller_journal_metadata_for_candidate input c o None "pending_apply" in
             write_controller_journal_applying_with_metadata id aid md)) (fun _ =>
    ttry (apply_candidate input c experiment_id o) (fun t =>
    ttry (lift_io
            (let? id := try_experiment_id experiment_id in
             let? aid := try_action_id action_id in
             let* md := controller_journal_metadata_for_candidate input c o (affected_of t)
                          "applied_pending_verify" in
             write_controller_journal_applied_with_metadata id aid t md)) (fun _ =>
    hret (inl t))))
  else
    ttry (apply_candidate input c experiment_id o) (fun t =>
    ttry (lift_io read_controller_journal) (fun record =>
    hret (if durable_applied_token record t experiment_id action_id then inl t
          else inr (TxIo (EOther "live executor returned without its durable Applied rollback token"))))).

Definition live_experiment_id (input : LiveExperimentManagerInput) (c : CandidateAction)
    (o : AutotuneObservation) : string :=
  "live-" +:+ DaemonMode_as_str (li_mode input) +:+ ":" +:+ candidate_name c +:+ ":"
  +:+ decimal (ob_now_unix_nanos o).

(** What a failed apply leaves to undo by hand. *)
Definition outstanding_rollback (e : TransactionError) : option RollbackToken :=
  match e with
  | TxIo _ => None
  | TxAction f => if jf_rollback_completed f then None else jf_rollback f
  end.

Definition new_experiment (input : LiveExperimentManagerInput) (c : CandidateAction)
    (o : AutotuneObservation) (washout measure : Z) (t : RollbackToken) : LiveExperiment :=
  {| le_experiment_id := live_experiment_id input c o; le_candidate := c;
     le_safety_class := candidate_safety_class c; le_mode := li_mode input;
     le_baseline_score := to_window_score o; le_baseline_signals := ob_objective_signals o;
     le_baseline_active_config := active_config o;
     le_applied_unix_nanos := ob_now_unix_nanos o; le_washout_until_unix_nanos := washout;
     le_measure_until_unix_nanos := measure; le_rollback := t |}.

Definition active_of (e : LiveExperiment) : ActiveExperiment :=
  {| ae_experiment_id := le_experiment_id e; ae_candidate := le_candidate e;
     ae_baseline_score := le_baseline_score e; ae_baseline_signals := le_baseline_signals e |}.

Definition failed_apply (input : LiveExperimentManagerInput) (st : LiveState)
    (o : AutotuneObservation) (c : CandidateAction) (e : TransactionError) : LiveState :=
  let controller := set_phase (lv_controller st) CpFaulted in
  match outstanding_rollback e with
  | None => set_controller st controller
  | Some t =>
      let x := new_experiment input c o (ob_now_unix_nanos o) (ob_now_unix_nanos o) t in
      set_current (set_controller st (set_active controller (Some (active_of x)))) (Some x)
  end.

Definition start_candidate_experiment_with_executor (input : LiveExperimentManagerInput)
    (st : LiveState) (o : AutotuneObservation) (c : CandidateAction) : Live LiveExperimentOutcome :=
  match validate_start_candidate (li_mode input) (li_daemon_policy input) c with
  | inr e => hret (inr (TxIo e), st)
  | inl false => hret (inl (outcome_event LeNoop), st)
  | inl true =>
      match validate_autonomous_support input (lv_controller st) o c with
      | inr e => hret (inr (TxIo e), st)
      | inl _ =>
          if negb (validate_window_score_for_apply (to_window_score o))
          then hret (inr (TxIo (EOther "baseline window is empty")), st)
          else
            let* r := apply_candidate_for_runtime_with_executor input c
                        (live_experiment_id input c o) (candidate_action_id c) o in
            match r with
            | inr e => hret (inr e, failed_apply input st o c e)
            | inl t =>
                let controller :=
                  (record_candidate_attempt (lv_controller st) c o None
                     (Some (Intervals.saturating_add_u128 (ob_now_unix_nanos o)
                              (cp_minimum_time_between_same_action (li_controller_policy input))))).1
                in
                let '(washout, measure) :=
                  deadlines_from_now (li_simulate_action_effects input) (li_washout input)
                    (li_candidate_window_seconds input) (ob_now_unix_nanos o) in
                let e := new_experiment input c o washout measure t in
                let st' :=
                  set_current
                    (set_controller st
                       (set_active (set_phase controller CpMeasuring) (Some (active_of e))))
                    (Some e) in
                let* w := write_controller_journal_phase_for_live_experiment input e o JMeasuring
                            "measurement_window_collecting" in
                match w with
                | inr err => hret (inr (TxIo err), st')
                | inl _ =>
                    hret (inl {| lo_event := LeStarted; lo_clear_measurement_window := true |}, st')
                end
            end
      end
  end.

(** The result of the experiment, for the memory. *)
Definition record_experiment_result (input : LiveExperimentManagerInput)
    (s : ControllerRuntimeState) (e : LiveExperiment) (o : AutotuneObservation)
    (result : CandidateMemoryResult) (current : Z) (reason : option string) (deadline : Z)
    : ControllerRuntimeState :=
  (record_candidate_result s
     {| ri_candidate := le_candidate e; ri_observation := o; ri_cpu_topology_signature := None;
        ri_result := result;
        ri_diagnostic_baseline_raw_score_total := Some (Score.total (score (le_baseline_score e)));
        ri_diagnostic_current_raw_score_total := Some current;
        ri_rollback_reason := reason;
        ri_cooldown_expires_unix_nanos := Some deadline |}).1.

(** The journal is closed, the result remembered, the experiment over. *)
Definition finish_rollback (input : LiveExperimentManagerInput) (st : LiveState)
    (e : LiveExperiment) (o : AutotuneObservation) (now_unix_nanos : Z) (reason : string)
    : Live LiveExperimentOutcome :=
  let p := li_controller_policy input in
  let* w := write_controller_journal_phase_for_live_experiment input e o JReverted
              (if li_simulate_action_effects input then "rollback_simulated" else "rollback_verified") in
  match w with
  | inr err => hret (inr (TxIo err), set_current st None)
  | inl _ =>
      let controller :=
        record_experiment_result input (lv_controller st) e o MrReverted (Score.total (ob_score o))
          (Some reason)
          (Intervals.saturating_add_u128 now_unix_nanos (cp_cooldown_after_revert p)) in
      hret (inl (outcome_event LeReverted),
            set_current
              (set_controller st (enter_cooldown_after_revert controller p now_unix_nanos)) None)
  end.

Definition rollback_active_experiment_with_executor (input : LiveExperimentManagerInput)
    (st : LiveState) (o : AutotuneObservation) (now_unix_nanos : Z) (reason : string)
    : Live LiveExperimentOutcome :=
  match lv_current st with
  | None => hret (inl (outcome_event LeNoop), st)
  | Some e =>
      let p := li_controller_policy input in
      let* w := write_controller_journal_phase_for_live_experiment input e o JReverting
                  "rollback_in_progress" in
      match w with
      | inr err => hret (inr (TxIo err), st)
      | inl _ =>
          let* r := (if li_simulate_action_effects input then hret (inl None)
                     else rollback_recorded input e o) in
          match r with
          | inr err => hret (inr (TxIo err), st)
          | inl post =>
              let verification :=
                if li_simulate_action_effects input then None
                else rollback_verification_for_experiment e post o in
              match verification with
              | Some v =>
                  if negb (rv_verified v) then
                    let detail :=
                      rv_reason_code v +:+ " expected=" +:+ rv_expected v +:+ " actual="
                      +:+ rv_actual v in
                    let* f := write_controller_journal_phase_for_live_experiment input e o JFaulted
                                detail in
                    match f with
                    | inr err => hret (inr (TxIo err), set_current st None)
                    | inl _ =>
                        let controller :=
                          record_experiment_result input (lv_controller st) e o MrFaulted
                            (Score.total (ob_score o))
                            (Some ("rollback verification failed: " +:+ detail))
                            (Intervals.saturating_add_u128 now_unix_nanos (cp_cooldown_after_fault p))
                        in
                        hret (inl (outcome_event LeFaulted),
                              set_controller st
                                (enter_cooldown_after_fault controller p now_unix_nanos))
                    end
                  else finish_rollback input st e o now_unix_nanos reason
              | None => finish_rollback input st e o now_unix_nanos reason
              end
          end
      end
  end.

Definition keep_current_experiment_with_executor (input : LiveExperimentManagerInput)
    (st : LiveState) (o : AutotuneObservation) (reason : string) : Live LiveExperimentOutcome :=
  match lv_current st with
  | None => hret (inl (outcome_event LeNoop), st)
  | Some e =>
      let p := li_controller_policy input in
      if negb (validate_window_score_for_apply (to_window_score o))
      then hret (inr (TxIo (EOther "candidate window is empty")), set_current st None)
      else
        match compare_keep_result e o with
        | Improved x =>
            let* c := commit_keep_durably input e o in
            match c with
            | inr err => hret (inr (TxIo err), st)
            | inl _ =>
                let kept :=
                  KeptCandidateState_new (le_experiment_id e) (le_candidate e) (le_baseline_score e)
                    (to_window_score o) (le_rollback e) (ob_now_unix_nanos o) reason in
                match record_kept_candidate (lv_profile st) kept (Improved x) with
                | None =>
                    let* _ := retire_kept_durably (le_experiment_id e) in
                    hret (inr (TxIo (EOther "kept action conflicts")), st)
                | Some profile =>
                    let deadline :=
                      Intervals.saturating_add_u128 (ob_now_unix_nanos o) (cp_cooldown_after_keep p) in
                    let controller :=
                      record_experiment_result input (lv_controller st) e o MrKept
                        (Score.total (score (to_window_score o))) None deadline in
                    hret (inl (outcome_event LeKept),
                          {| lv_current := None;
                             lv_controller :=
                               set_active
                                 (enter_cooldown_after_keep controller p (ob_now_unix_nanos o)) None;
                             lv_profile := profile |})
                end
            end
        | _ =>
            rollback_active_experiment_with_executor input st o (ob_now_unix_nanos o)
              "candidate was not improved at keep point"
        end
  end.

Definition apply_decision_side_effects_with_executor (input : LiveExperimentManagerInput)
    (st : LiveState) (o : AutotuneObservation) (d : AutotuneDecision) (reason : string)
    : Live LiveExperimentOutcome :=
  match d with
  | DStartExperiment c => start_candidate_experiment_with_executor input st o c
  | DKeepCurrent _ => keep_current_experiment_with_executor input st o reason
  | DRevert _ => rollback_active_experiment_with_executor input st o (ob_now_unix_nanos o) reason
  | DEnterCooldown duration =>
      let s := lv_controller st in
      let s := if decide (cs_phase s = CpFaulted) then s else set_phase s CpCooldown in
      let until := Intervals.saturating_add_u128 (ob_now_unix_nanos o) duration in
      hret (inl (outcome_event LeCooldownEntered), set_controller st (set_cooldown s (Some until)))
  | DFault =>
      let faulted (st : LiveState) :=
        set_controller st
          (enter_cooldown_after_fault (lv_controller st) (li_controller_policy input)
             (ob_now_unix_nanos o)) in
      if has_active_experiment st then
        let* r := rollback_active_experiment_with_executor input st o (ob_now_unix_nanos o) reason in
        match r.1 with
        | inr err => hret (inr err, r.2)
        | inl _ => hret (inl (outcome_event LeFaulted), faulted r.2)
        end
      else hret (inl (outcome_event LeFaulted), faulted st)
  | DNoop | DSuggest _ => hret (inl (outcome_event LeNoop), st)
  end.

End live.

Arguments LiveExperiment : clear implicits.
Arguments LiveExecutor : clear implicits.
Arguments LiveState : clear implicits.
