(* ===== verification/LiveSafety.v ===== *)
(** * LiveSafety: the live controller forgets nothing

    At every point a crash can find during the side effects of a decision
    ([LiveExperiment]), the token of the experiment under way is named by every
    version of the journal and the token of each kept action by every version of
    the ledger, unless the action has been undone; and what a step drops from the
    controller's books has been undone.  Startup recovery ([RecoverySafety])
    restores what the two files name. *)

From Stdlib Require Import String List.
From S2P Require Import Prelude Abi Score PolicyModel PolicyEval ActionModel ActionRunner Journal Recovery RecoverySafety Transaction Objective Controller AutonomousGate ContextKey CandidateMemory Decide LiveExperiment.
From stdpp Require Import list.

Section files.
Context {S : Type} {FS : FileSystem S}.
Implicit Types (d : Disk S) (t : RollbackToken) (kept : list (string * RollbackToken)).

(** The ledger holds the token under the experiment. *)
Definition lholds (id : string) t (f : File KeptLedger) : Prop :=
  match f with
  | Holds l => exists e, e ∈ kl_entries l /\ kl_experiment_id e = id /\ kl_rollback_token e = t
  | Missing | Corrupt => False
  end.

(** Undone, or named by whatever version of the journal a crash leaves. *)
Definition jcov t d : Prop := t ∈ undone d \/ Forall (jnames t) (versions d).

(** Undone, or held by whatever version of the ledger a crash leaves. *)
Definition lcov (id : string) t d : Prop :=
  t ∈ undone d \/ Forall (lholds id t) (ledger d :: ledger_old d).

(** The invariant of every crash point: the kept actions and the current one. *)
Definition safe kept (cur : option RollbackToken) d : Prop :=
  (forall id t, (id, t) ∈ kept -> lcov id t d) /\ (forall t, cur = Some t -> jcov t d).

Lemma lholds_lnames id t f : lholds id t f -> lnames t f.
Proof.
  destruct f as [| |l]; [done..|]. intros (e & He & _ & <-). by apply list_elem_of_fmap_2.
Qed.

(** What is safe is what recovery finds. *)
Lemma safe_covered kept cur d :
  safe kept cur d ->
  (forall id t, (id, t) ∈ kept -> covered t d) /\ (forall t, cur = Some t -> covered t d).
Proof.
  intros [Hk Hc]. split.
  - intros id t Hin. destruct (Hk id t Hin) as [Hu|Hl]; [by left|]. right. right.
    eapply Forall_impl; [exact Hl|]. intros f. apply lholds_lnames.
  - intros t Ht. destruct (Hc t Ht) as [Hu|Hj]; [by left|]. right. by left.
Qed.

(** *** Changes of the disk *)

Lemma safe_install_journal kept cur r d :
  (forall t, cur = Some t -> jnames t (Holds r) \/ t ∈ undone d) ->
  safe kept cur d -> safe kept cur (install_journal r d) /\ safe kept cur (sync_journal (install_journal r d)).
Proof.
  intros Hr [Hk Hc]. split; (split; [exact Hk|]); intros t Ht;
    (destruct (Hr t Ht) as [Hn|Hu]; [|by left]);
    (destruct (Hc t Ht) as [Hu|Hj]; [by left|right]); unfold versions; cbn; by constructor.
Qed.

Lemma safe_install_ledger kept cur x d :
  (forall id t, (id, t) ∈ kept -> lholds id t (ledger d) -> lholds id t x \/ t ∈ undone d) ->
  safe kept cur d -> safe kept cur (install_ledger x d) /\ safe kept cur (sync_ledger (install_ledger x d)).
Proof.
  intros Hx [Hk Hc]. split; (split; [|exact Hc]); intros id t Hin;
    (destruct (Hk id t Hin) as [Hu|Hl]; [by left|]); pose proof (Forall_inv Hl) as Hl0;
    (destruct (Hx id t Hin Hl0) as [Hn|Hu]; [right|by left]);
    (constructor; [done|]); first [exact Hl | constructor].
Qed.

Lemma safe_sync_ledger kept cur d : safe kept cur d -> safe kept cur (sync_ledger d).
Proof.
  intros [Hk Hc]. split; [|exact Hc]. intros id t Hin.
  destruct (Hk id t Hin) as [Hu|Hl]; [by left|right]. constructor; [by apply Forall_inv in Hl|constructor].
Qed.

(** Facts about the ledger and the undone tokens. *)
Definition off_journal (P : Disk S -> Prop) : Prop :=
  forall d d', ledger d' = ledger d -> ledger_old d' = ledger_old d -> undone d' = undone d -> P d -> P d'.

(** Facts about the journal and the undone tokens. *)
Definition off_ledger (P : Disk S -> Prop) : Prop :=
  forall d d', journal d' = journal d -> journal_old d' = journal_old d -> undone d' = undone d -> P d -> P d'.

Lemma undone_off_journal t : off_journal (fun d => t ∈ undone d).
Proof. intros d d' _ _ E. by rewrite E. Qed.
Lemma undone_off_ledger t : off_ledger (fun d => t ∈ undone d).
Proof. intros d d' _ _ E. by rewrite E. Qed.
Lemma lcov_off_journal id t : off_journal (lcov id t).
Proof. intros d d' E1 E2 E3. unfold lcov. by rewrite E1, E2, E3. Qed.
Lemma true_off_journal : off_journal (fun _ => True).
Proof. done. Qed.
Lemma true_off_ledger : off_ledger (fun _ => True).
Proof. done. Qed.

(** *** The journal *)

Lemma write_journal_safe kept cur P r :
  off_journal P ->
  (forall d, P d -> forall t, cur = Some t -> jnames t (Holds r) \/ t ∈ undone d) ->
  hspec (at_disk (safe kept cur) P) (write_controller_journal_record r)
    (fun x => at_disk (safe kept cur) (fun d => P d /\
       match x with inl _ => versions d = [Holds r] | inr _ => True end)).
Proof.
  intros HP Hr. eapply hspec_post; [apply hspec_write_journal|].
  - intros d Hp Hs. apply safe_install_journal; [by apply Hr|done].
  - intros d Hp Hs. apply safe_install_journal; [by apply Hr|done].
  - intros x h [Hall (d & Hp & _ & Hx)]. split; [done|]. destruct x as [[]|e].
    + rewrite Hx. split; [|done]. by apply (HP d).
    + split; [|done]. destruct Hx as [-> | ->]; [done|]. by apply (HP d).
Qed.

(** *** The ledger *)

Lemma retain_keeps id id' t l :
  id' <> id -> lholds id' t (Holds l) -> lholds id' t (Holds (with_entries l (retain_other id (kl_entries l)))).
Proof.
  intros Hne (e & He & Hid & Ht). exists e. split; [|done]. apply in_retain_other; [done|congruence].
Qed.

Context {Hstat : StatReliable (FS := FS)}.

(** What a reliable read of the ledger says. *)
Definition read_as (l : KeptLedger) d : Prop :=
  ledger d = Holds l \/ (ledger d = Missing /\ l = KeptLedger_default).

Lemma read_ledger_safe (R : Host S -> Prop) :
  disks_only R ->
  hspec R read_kept_ledger
    (fun x h => R h /\ match x with inl l => read_as l (disk h) | inr _ => True end).
Proof.
  intros HR. eapply hspec_post; [by apply hspec_read_ledger|]. intros [l|e] h [Hh Hl]; (split; [done|]); [|done].
  destruct Hl as [Hl|[-> Hm]]; [by left|right]. auto.
Qed.

Lemma read_as_lholds l d id t : read_as l d -> lholds id t (ledger d) -> lholds id t (Holds l).
Proof. intros [-> | [-> _]]; done. Qed.

Lemma at_disk_read kept cur P l :
  forall h, at_disk (safe kept cur) P h /\ read_as l (disk h) ->
  at_disk (safe kept cur) (fun d => P d /\ read_as l d) h.
Proof. by intros h [[Hall Hp] Hl]. Qed.

Lemma record_kept_safe kept cur P entry :
  off_ledger P -> Forall (fun x => x.1 <> kl_experiment_id entry) kept ->
  hspec (at_disk (safe kept cur) P) (record_kept entry)
    (fun x => at_disk (safe kept cur) (fun d => P d /\
       match x with inl _ => lcov (kl_experiment_id entry) (kl_rollback_token entry) d | inr _ => True end)).
Proof.
  intros HP Hids. eapply hspec_try; [by apply read_ledger_safe, at_disk_only| |].
  { intros e h [[Hall Hp] _]. by split. }
  intros l. eapply hspec_pre; [|apply at_disk_read].
  set (l' := with_entries l _). set (Q := fun d => P d /\ read_as l d).
  assert (Hkeep : forall d, Q d -> forall id t, (id, t) ∈ kept -> lholds id t (ledger d) -> lholds id t (Holds l')).
  { intros d [_ Hr] id t Hin Hh. eapply Forall_forall in Hids; [|exact Hin]. cbn in Hids.
    apply (read_as_lholds l d) in Hh; [|done].
    destruct (retain_keeps (kl_experiment_id entry) id t l Hids Hh) as (e & He & Hrest).
    exists e. split; [|done]. cbn. set_solver. }
  eapply hspec_post; [apply (hspec_write_ledger (safe kept cur) Q)|].
  - intros d Hq Hs. apply safe_install_ledger; [left; by eapply Hkeep|done].
  - intros d Hq Hs. apply safe_install_ledger; [left; by eapply Hkeep|done].
  - intros x h [Hall (d & [Hp _] & _ & Hx)]. split; [done|]. destruct x as [[]|e].
    + rewrite Hx. split; [by apply (HP d)|]. right. constructor; [|constructor].
      exists entry. split; [cbn; set_solver|done].
    + split; [|done]. destruct Hx as [-> | ->]; [done|]. by apply (HP d).
Qed.

Lemma retire_kept_safe kept cur P id :
  off_ledger P -> (forall d, P d -> forall x, x ∈ kept -> x.1 <> id \/ x.2 ∈ undone d) ->
  hspec (at_disk (safe kept cur) P) (retire_kept id) (fun _ => at_disk (safe kept cur) P).
Proof.
  intros HP Hids. eapply hspec_try; [by apply read_ledger_safe, at_disk_only| |].
  { intros e h [[Hall Hp] _]. by split. }
  intros l. eapply hspec_pre; [|apply at_disk_read].
  cbv zeta. set (entries := retain_other id (kl_entries l)). set (Q := fun d => P d /\ read_as l d).
  assert (Hout : forall h, at_disk (safe kept cur) Q h -> at_disk (safe kept cur) P h) by (by intros h [H1 [H2 _]]).
  assert (Hkeep : forall d, Q d -> forall id' t, (id', t) ∈ kept -> lholds id' t (ledger d) ->
                  lholds id' t (Holds (with_entries l entries)) \/ t ∈ undone d).
  { intros d [Hp Hr] id' t Hin Hh. destruct (Hids d Hp _ Hin) as [Hne|Hu]; [left|by right].
    apply (read_as_lholds l d) in Hh; [|done]. by apply retain_keeps. }
  destruct (_ =? _)%nat; [apply hspec_ret; intros h; apply Hout|].
  assert (Hsync : hspec (at_disk (safe kept cur) P)
      (let? _ := sys_ok FLedger OpOpen in sys_change FLedger OpSyncDir sync_ledger)
      (fun _ => at_disk (safe kept cur) P)).
  { eapply hspec_try; [by apply hspec_sys_ok, at_disk_only|auto|]. intros [].
    eapply hspec_post; [apply (hspec_sys_change (safe kept cur) P)|].
    - intros d _ Hs. by apply safe_sync_ledger.
    - intros [[]|e] h [Hall (d & Hp & _ & E)]; (split; [done|]); rewrite E; [by apply (HP d)|done]. }
  destruct entries as [|x xs] eqn:Hentries.
  - eapply hspec_bind; [by apply hspec_syscall, at_disk_only|].
    intros []; try (apply hspec_ret; intros h; apply Hout).
    + eapply hspec_bind; [apply (hspec_set_at (safe kept cur) Q)|].
      * intros d Hq Hs. apply safe_install_ledger; [|done]. intros id' t Hin Hh.
        destruct (Hkeep d Hq id' t Hin Hh) as [(e & He & _)|Hu]; [by apply not_elem_of_nil in He|by right].
      * intros []. eapply hspec_pre; [exact Hsync|]. intros h [Hall (d & E & [Hp _] & _)].
        split; [done|]. rewrite E. by apply (HP d).
    + eapply hspec_bind; [apply (hspec_ret tt _ (fun _ => at_disk (safe kept cur) P)); intros h; apply Hout|].
      intros []. exact Hsync.
  - eapply hspec_post; [apply (hspec_write_ledger (safe kept cur) Q)|].
    + intros d Hq Hs. apply safe_install_ledger; [by eapply Hkeep|done].
    + intros d Hq Hs. apply safe_install_ledger; [by eapply Hkeep|done].
    + intros y h [Hall (d & [Hp _] & _ & Hy)]. split; [done|].
      destruct y as [[]|e]; [rewrite Hy; by apply (HP d)|]. destruct Hy as [-> | ->]; [done|]. by apply (HP d).
Qed.

End files.

(** ** The kept set, as pairs *)

Definition kept_pairs (p : ActiveProfileState) : list (string * RollbackToken) :=
  (fun e => (ks_experiment_id e.2, ks_rollback e.2)) <$> kept_actions p.

Lemma elem_kept_pairs p (x : ActionConflictGroup * KeptCandidateState) :
  x ∈ kept_actions p -> (ks_experiment_id x.2, ks_rollback x.2) ∈ kept_pairs p.
Proof. apply (list_elem_of_fmap_2 (fun e => (ks_experiment_id e.2, ks_rollback e.2))). Qed.

Lemma kept_insert_perm k g s : kept_get k g = None -> kept_insert k g s ≡ₚ (g, s) :: k.
Proof.
  induction k as [|[g' s'] k IH]; [done|]. cbn. case_decide; [done|]. intros Hn.
  case_match; [done|]. rewrite IH by done. apply perm_swap.
Qed.

Lemma record_kept_pairs p s r p' :
  record_kept_candidate p s r = Some p' ->
  kept_pairs p' ≡ₚ (ks_experiment_id s, ks_rollback s) :: kept_pairs p.
Proof.
  unfold record_kept_candidate, insert_if_compatible.
  destruct (kept_get _ _) eqn:Hg; [done|]. destruct (conflicting_action _ _); [done|].
  intros [= <-]. unfold kept_pairs. cbn [kept_actions]. by rewrite (kept_insert_perm _ _ _ Hg).
Qed.

(** ** The handlers *)

Section live.
Context {S : Type} {FS : FileSystem S} {Hstat : StatReliable (FS := FS)}.
Context {Config : Type} (active_config : AutotuneObservation -> option Config)
  (verify_rollback_restored_baseline :
     CandidateAction -> Config -> Config -> AutotuneObservation -> RollbackVerification)
  (process_starttime_at : Host S -> Z -> option Z).
Context {executor : LiveExecutor S Config}.
Implicit Types (d : Disk S) (t : RollbackToken) (kept : list (string * RollbackToken))
  (e : LiveExperiment Config) (st : LiveState Config) (input : LiveExperimentManagerInput)
  (o : AutotuneObservation) (c : CandidateAction).

Definition same_ledger_and_undone d d' : Prop :=
  ledger d' = ledger d /\ ledger_old d' = ledger_old d /\ undone d' = undone d.

(** What the manager relies on: a rollback leaves the two files alone, an apply
    leaves the ledger alone, and a token returned by an apply that journals for
    itself has reached the disk. *)
Class LiveExecutorLaws : Prop := {
  rollback_frame input e o (h : Host S) : exists added,
    crash_points (rollback_candidate input e o h).2 = added ++ crash_points h /\
    Forall (same_files (disk h)) (disk (rollback_candidate input e o h).2 :: added);
  apply_frame input c id o (h : Host S) : exists added,
    crash_points (apply_candidate input c id o h).2 = added ++ crash_points h /\
    Forall (same_ledger_and_undone (disk h)) (disk (apply_candidate input c id o h).2 :: added);
  apply_durable input c id o (h : Host S) t :
    deferred_privileged_journal input c = false -> (apply_candidate input c id o h).1 = inl t ->
    journal_old (disk (apply_candidate input c id o h).2) = [] }.
Context {Hlaws : LiveExecutorLaws}.

Definition mutated (s : ControllerJournalState) : bool :=
  match s with JClean | JPlanned | JPreflighted | JReverted => false | _ => true end.

Lemma metadata_reads (P : Host S -> Prop) input c o n v :
  hspec P (controller_journal_metadata_for_candidate process_starttime_at input c o n v) (fun _ => P).
Proof. by intros h Hp. Qed.

Lemma write_phase_safe kept cur P input e o state v :
  li_simulate_action_effects input = false -> off_journal P ->
  (forall d, P d -> forall t, cur = Some t -> t = le_rollback e /\ mutated state = true \/ t ∈ undone d) ->
  hspec (at_disk (safe kept cur) P)
    (write_controller_journal_phase_for_live_experiment process_starttime_at input e o state v)
    (fun x => at_disk (safe kept cur) (fun d => P d /\
       match x with
       | inl _ => mutated state = true -> Forall (jnames (le_rollback e)) (versions d)
       | inr _ => True
       end)).
Proof.
  intros Hsim HP Hcur. unfold write_controller_journal_phase_for_live_experiment. rewrite Hsim. cbn [andb].
  set (named_record := fun r : ControllerJournalRecord =>
         mutated state = true -> jnames (le_rollback e) (Holds r)).
  apply (hspec_bind _ _ _ (fun r h => at_disk (safe kept cur) P h /\ named_record r)).
  - unfold controller_journal_record_for_live_experiment.
    eapply hspec_bind; [by apply hspec_now, at_disk_only|]. intros started.
    eapply hspec_bind; [by apply hspec_now, at_disk_only|]. intros updated.
    eapply hspec_bind; [apply metadata_reads|]. intros md. apply hspec_ret. intros h Hh.
    split; [done|]. intros Hm. split; [done|]. by destruct state.
  - intros r h [Hh Hr]. revert h Hh. change (hspec (at_disk (safe kept cur) P)
      (write_controller_journal_record r)
      (fun x => at_disk (safe kept cur) (fun d => P d /\
         match x with
         | inl _ => mutated state = true -> Forall (jnames (le_rollback e)) (versions d)
         | inr _ => True
         end))).
    eapply hspec_post; [apply write_journal_safe; [done|]|].
    + intros d Hp t Ht. destruct (Hcur d Hp t Ht) as [[-> Hm]|Hu]; [left; by apply Hr|by right].
    + intros [[]|err] h [Hall [Hp Hx]]; (split; [done|]); (split; [done|]); [|done].
      intros Hm. rewrite Hx. constructor; [by apply Hr|constructor].
Qed.

Lemma same_files_safe kept cur d d' : same_files d d' -> safe kept cur d -> safe kept cur d'.
Proof.
  intros (E1 & E2 & E3 & E4 & E5) [Hk Hc]. split.
  - intros id t Hin. unfold lcov. rewrite E3, E4, E5. by apply Hk.
  - intros t Ht. unfold jcov, versions. rewrite E1, E2, E5. by apply Hc.
Qed.

Lemma safe_undone kept cur t d : safe kept cur d -> safe kept cur (record_undone t d).
Proof.
  intros [Hk Hc]. split.
  - intros id t' Hin. destruct (Hk id t' Hin) as [Hu|Hl]; [left; by right|by right].
  - intros t' Ht. destruct (Hc t' Ht) as [Hu|Hj]; [left; by right|by right].
Qed.

Lemma rollback_recorded_safe kept cur input e o :
  hspec (at_disk (safe kept cur) (fun _ => True)) (rollback_recorded input e o)
    (fun x => at_disk (safe kept cur) (fun d =>
       match x with inl _ => le_rollback e ∈ undone d | inr _ => True end)).
Proof.
  apply (hspec_bind _ _ _ (fun _ => at_disk (safe kept cur) (fun _ => True))).
  - intros h [Hall _]. destruct (rollback_frame input e o h) as (added & E & Hadd).
    split; [|done]. rewrite E. apply Forall_inv_tail in Hadd. apply Forall_app. split; [|done].
    apply Forall_inv in Hall. eapply Forall_impl; [exact Hadd|]. intros d Hs. by eapply same_files_safe.
  - intros [x|err]; [|by apply hspec_ret].
    eapply hspec_bind; [apply hspec_set_at; intros d _; apply safe_undone|].
    intros []. apply hspec_ret. intros h [Hall (d & Ed & _)]. split; [done|]. rewrite Ed. by left.
Qed.

(** What a rollback leaves: the experiment, or its token undone. *)
Definition rolled_back st e (x : (LiveExperimentOutcome + TransactionError) * LiveState Config) d : Prop :=
  lv_profile x.2 = lv_profile st /\
  (lv_current x.2 = Some e \/ (lv_current x.2 = None /\ le_rollback e ∈ undone d)).

Lemma finish_rollback_safe kept input st e o n reason :
  li_simulate_action_effects input = false ->
  hspec (at_disk (safe kept (Some (le_rollback e))) (fun d => le_rollback e ∈ undone d))
    (finish_rollback process_starttime_at input st e o n reason)
    (fun x => at_disk (safe kept (Some (le_rollback e))) (rolled_back st e x)).
Proof.
  intros Hsim. unfold finish_rollback. rewrite Hsim.
  eapply hspec_bind; [apply write_phase_safe; [done|apply undone_off_journal|]|].
  { intros d Hu t [= <-]. by right. }
  intros [[]|err]; apply hspec_ret; intros h [Hall [Hu _]]; (split; [done|]); split; cbn; auto.
Qed.

Lemma rollback_active_safe kept input st e o n reason :
  li_simulate_action_effects input = false -> lv_current st = Some e ->
  hspec (at_disk (safe kept (Some (le_rollback e))) (fun _ => True))
    (rollback_active_experiment_with_executor verify_rollback_restored_baseline process_starttime_at
       input st o n reason)
    (fun x => at_disk (safe kept (Some (le_rollback e))) (rolled_back st e x)).
Proof.
  intros Hsim Hcur. unfold rollback_active_experiment_with_executor. rewrite Hcur, Hsim.
  eapply hspec_bind; [apply write_phase_safe; [done|apply true_off_journal|]|].
  { intros d _ t [= <-]. by left. }
  intros [[]|err]; [|apply hspec_ret; intros h [Hall _]; (split; [done|]); split; cbn; auto].
  eapply hspec_bind.
  { eapply hspec_pre; [apply (rollback_recorded_safe kept (Some (le_rollback e)))|]. by intros h [Hall _]. }
  intros [post|err]; [|apply hspec_ret; intros h [Hall _]; (split; [done|]); split; cbn; auto].
  destruct (rollback_verification_for_experiment _ _ _ _) as [v|]; [|by apply finish_rollback_safe].
  destruct (rv_verified v); cbn [negb]; [by apply finish_rollback_safe|].
  eapply hspec_bind; [apply write_phase_safe; [done|apply undone_off_journal|]|].
  { intros d Hu t [= <-]. by left. }
  intros [[]|err]; apply hspec_ret; intros h [Hall [Hu _]]; (split; [done|]); split; cbn; auto.
Qed.

(** *** Keeping *)

Lemma retire_durably_safe kept cur P id :
  off_ledger P -> (forall d, P d -> forall x, x ∈ kept -> x.1 <> id \/ x.2 ∈ undone d) ->
  hspec (at_disk (safe kept cur) P) (retire_kept_durably id) (fun _ => at_disk (safe kept cur) P).
Proof.
  intros HP Hids. eapply hspec_bind; [by apply retire_kept_safe|]. intros x. by apply hspec_ret.
Qed.

Lemma commit_keep_safe kept input e o :
  li_simulate_action_effects input = false -> Forall (fun x => x.1 <> le_experiment_id e) kept ->
  hspec (at_disk (safe kept (Some (le_rollback e))) (fun _ => True))
    (commit_keep_durably process_starttime_at input e o)
    (fun x => at_disk (safe kept (Some (le_rollback e))) (fun d =>
       match x with inl _ => lcov (le_experiment_id e) (le_rollback e) d | inr _ => True end)).
Proof.
  intros Hsim Hids. unfold commit_keep_durably, record_kept_durably. rewrite Hsim. cbn [andb].
  eapply hspec_try; [apply record_kept_safe; [apply true_off_ledger|done]| |].
  { intros err h [Hall _]. by split. }
  intros []. cbn [kl_experiment_id kl_rollback_token].
  eapply hspec_bind.
  { apply (write_phase_safe kept (Some (le_rollback e))
             (fun d => True /\ lcov (le_experiment_id e) (le_rollback e) d)); [done| |].
    - intros d d' E1 E2 E3 [_ Hl]. split; [done|]. by apply (lcov_off_journal _ _ d).
    - intros d _ t [= <-]. by left. }
  intros [[]|err]; [apply hspec_ret; intros h [Hall [[_ Hl] _]]; by split|].
  eapply hspec_bind.
  - eapply hspec_pre; [apply (retire_durably_safe kept (Some (le_rollback e)) (fun _ => True));
      [apply true_off_ledger|]|by intros h [Hall _]].
    intros d _ x Hx. left. by eapply Forall_forall in Hids.
  - intros []. by apply hspec_ret.
Qed.

(** What a keep leaves: as a rollback, or the action kept and in the ledger. *)
Definition kept_or_back st e (x : (LiveExperimentOutcome + TransactionError) * LiveState Config) d : Prop :=
  rolled_back st e x d \/
  (lv_current x.2 = None /\ lcov (le_experiment_id e) (le_rollback e) d /\
   kept_pairs (lv_profile x.2) ≡ₚ (le_experiment_id e, le_rollback e) :: kept_pairs (lv_profile st)).

Lemma keep_current_safe kept input st e o reason :
  li_simulate_action_effects input = false -> lv_current st = Some e ->
  validate_window_score_for_apply (to_window_score o) = true ->
  Forall (fun x => x.1 <> le_experiment_id e) kept ->
  hspec (at_disk (safe kept (Some (le_rollback e))) (fun _ => True))
    (keep_current_experiment_with_executor verify_rollback_restored_baseline process_starttime_at
       input st o reason)
    (fun x => at_disk (safe kept (Some (le_rollback e))) (kept_or_back st e x)).
Proof.
  intros Hsim Hcur Hval Hids. unfold keep_current_experiment_with_executor. rewrite Hcur, Hval.
  cbn [negb].
  assert (Hback : hspec (at_disk (safe kept (Some (le_rollback e))) (fun _ => True))
    (rollback_active_experiment_with_executor verify_rollback_restored_baseline process_starttime_at
       input st o (ob_now_unix_nanos o) "candidate was not improved at keep point")
    (fun x => at_disk (safe kept (Some (le_rollback e))) (kept_or_back st e x))).
  { eapply hspec_post; [by apply rollback_active_safe|]. intros x h [Hall Hx]. split; [done|by left]. }
  destruct (compare_keep_result e o) as [p| | |]; [|exact Hback..].
  assert (Hstay : forall err d, kept_or_back st e (inr err, st) d)
    by (intros err d; left; split; cbn; auto).
  eapply hspec_bind; [by apply commit_keep_safe|].
  intros [[]|err]; [|apply hspec_ret; intros h [Hall _]; by split].
  destruct (record_kept_candidate _ _ _) as [profile|] eqn:Hrec.
  - apply record_kept_pairs in Hrec. apply hspec_ret. intros h [Hall Hl]. split; [done|]. right. done.
  - eapply hspec_bind.
    + eapply hspec_pre; [apply (retire_durably_safe kept (Some (le_rollback e)) (fun _ => True));
        [apply true_off_ledger|]|by intros h [Hall _]].
    intros d _ x Hx. left. by eapply Forall_forall in Hids.
    + intros []. apply hspec_ret. intros h [Hall _]. by split.
Qed.

(** *** Starting *)

Lemma same_ledger_safe kept d d' : same_ledger_and_undone d d' -> safe kept None d -> safe kept None d'.
Proof.
  intros (E1 & E2 & E3) [Hk _]. split; [|done]. intros id t Hin. unfold lcov. rewrite E1, E2, E3.
  by apply Hk.
Qed.

Lemma apply_executor_safe kept input c id o :
  hspec (at_disk (safe kept None) (fun _ => True)) (apply_candidate input c id o)
    (fun x => at_disk (safe kept None) (fun d =>
       match x with
       | inl _ => deferred_privileged_journal input c = false -> journal_old d = []
       | inr _ => True
       end)).
Proof.
  intros h [Hall _]. destruct (apply_frame input c id o h) as (added & E & Hadd).
  split.
  - rewrite E. apply Forall_inv_tail in Hadd. apply Forall_app. split; [|done].
    apply Forall_inv in Hall. eapply Forall_impl; [exact Hadd|]. intros d Hs. by eapply same_ledger_safe.
  - destruct (apply_candidate input c id o h).1 as [t|] eqn:Ht; [|done]. intros Hd.
    by apply (apply_durable input c id o h t).
Qed.

Lemma ttry_spec {A B} (m : HM S (A + TransactionError)) (k : A -> HM S (B + TransactionError)) P
    (R : A + TransactionError -> Host S -> Prop) (Q : B + TransactionError -> Host S -> Prop) :
  hspec P m R -> (forall err h, R (inr err) h -> Q (inr err) h) ->
  (forall x, hspec (R (inl x)) (k x) Q) -> hspec P (ttry m k) Q.
Proof.
  intros Hm He Hk. eapply hspec_bind; [exact Hm|]. intros [x|e]; [apply Hk|].
  apply hspec_ret. intros h. apply He.
Qed.

Lemma lift_io_spec {A} (m : HM S (A + AnyError)) P (R : A + AnyError -> Host S -> Prop)
    (Q : A + TransactionError -> Host S -> Prop) :
  hspec P m R -> (forall err h, R (inr err) h -> Q (inr (TxIo err)) h) ->
  (forall x h, R (inl x) h -> Q (inl x) h) -> hspec P (lift_io m) Q.
Proof.
  intros Hm He Hk. eapply hspec_bind; [exact Hm|]. intros [x|e]; apply hspec_ret; intros h; auto.
Qed.

(** The token a successful apply returns is named by the journal. *)
Definition applied kept (x : RollbackToken + TransactionError) (h : Host S) : Prop :=
  at_disk (safe kept None) (fun d =>
    match x with inl t => Forall (jnames t) (versions d) | inr _ => True end) h.

Lemma write_phase_metadata_safe kept state id aid tok n c o input v :
  hspec (at_disk (safe kept None) (fun _ => True))
    (let? i := try_experiment_id id in
     let? a := try_action_id aid in
     let* md := controller_journal_metadata_for_candidate process_starttime_at input c o n v in
     write_controller_journal_phase_with_metadata state i a tok md)
    (fun x => at_disk (safe kept None) (fun d =>
       match x with
       | inl _ => forall t, tok = Some t -> mutated state = true -> Forall (jnames t) (versions d)
       | inr _ => True
       end)).
Proof.
  eapply hspec_try; [apply (try_id_spec (at_disk (safe kept None) (fun _ => True)))|by intros e h [Hall _]|].
  intros i. eapply hspec_try;
    [apply (hspec_ret _ _ (fun _ => at_disk (safe kept None) (fun _ => True))); auto|by intros e h [Hall _]|].
  intros a. eapply hspec_bind; [apply metadata_reads|]. intros md.
  unfold write_controller_journal_phase_with_metadata.
  eapply hspec_bind; [by apply hspec_now, at_disk_only|]. intros started.
  eapply hspec_bind; [by apply hspec_now, at_disk_only|]. intros updated.
  eapply hspec_post; [apply (write_journal_safe kept None (fun _ => True)); [done|done]|].
  intros [[]|e] h [Hall [_ Hx]]; (split; [done|]); [|done]. intros t -> Hm. rewrite Hx.
  constructor; [|constructor]. split; [done|]. by destruct state.
Qed.

Lemma apply_for_runtime_safe kept input c id aid o :
  li_simulate_action_effects input = false ->
  hspec (at_disk (safe kept None) (fun _ => True))
    (apply_candidate_for_runtime_with_executor process_starttime_at input c id aid o) (applied kept).
Proof.
  intros Hsim. unfold apply_candidate_for_runtime_with_executor. rewrite Hsim.
  destruct (deferred_privileged_journal input c) eqn:Hd.
  - eapply ttry_spec.
    + eapply (lift_io_spec _ _ _ (fun _ => at_disk (safe kept None) (fun _ => True)));
        [apply write_phase_metadata_safe|by intros e h [Hall _]|by intros x h [Hall _]].
    + by intros e h [Hall _].
    + intros []. eapply ttry_spec; [apply apply_executor_safe|by intros e h [Hall _]|].
      intros t. eapply ttry_spec.
      * eapply (lift_io_spec _ _ _ (fun x => at_disk (safe kept None) (fun d =>
          match x with inl _ => Forall (jnames t) (versions d) | inr _ => True end))).
        -- eapply hspec_pre; [apply (write_phase_metadata_safe kept JApplied id aid (Some t))|].
           by intros h [Hall _].
        -- by intros e h [Hall _].
        -- intros x h [Hall Hx]. split; [done|]. by apply Hx.
      * by intros e h [Hall _].
      * intros []. by apply hspec_ret.
  - eapply ttry_spec; [apply apply_executor_safe|by intros e h [Hall _]|].
    intros t. eapply ttry_spec.
    + eapply (lift_io_spec _ _ _ (fun x h => at_disk (safe kept None) (fun d => journal_old d = []) h /\
        match x with inl r => journal (disk h) = Holds r \/ r = clean | inr _ => True end)).
      * apply hspec_read_journal, at_disk_only.
      * intros err h [[Hall Hold] _]. split; [|done]. split; [done|by apply Hold].
      * intros r h [[Hall Hold] Hx]. split; [split; [done|by apply Hold]|].
        destruct Hx as [Hx|[Hx _]]; auto.
    + intros e h [[Hall _] _]. by split.
    + intros r. apply hspec_ret. intros h [[Hall Hold] Hr]. split; [done|].
      unfold durable_applied_token. destruct Hr as [Hr| ->]; [|done].
      repeat case_bool_decide; cbn; try done. unfold versions. rewrite Hr, Hold.
      constructor; [|constructor]. cbn. split; [done|]. unfold may_have_mutated_system. by case_match.
Qed.

(** Once the journal names the token, a phase written for it keeps it named. *)
Lemma write_phase_named kept input e o state v :
  li_simulate_action_effects input = false -> mutated state = true ->
  hspec (at_disk (safe kept None) (fun d => Forall (jnames (le_rollback e)) (versions d)))
    (write_controller_journal_phase_for_live_experiment process_starttime_at input e o state v)
    (fun _ => at_disk (safe kept None) (fun d => Forall (jnames (le_rollback e)) (versions d))).
Proof.
  intros Hsim Hm. unfold write_controller_journal_phase_for_live_experiment. rewrite Hsim. cbn [andb].
  set (P := fun d : Disk S => Forall (jnames (le_rollback e)) (versions d)).
  unfold controller_journal_record_for_live_experiment.
  apply (hspec_bind _ _ _ (fun r h => at_disk (safe kept None) P h /\ jnames (le_rollback e) (Holds r))).
  - eapply hspec_bind; [by apply hspec_now, at_disk_only|]. intros t1.
    eapply hspec_bind; [by apply hspec_now, at_disk_only|]. intros t2.
    eapply hspec_bind; [apply metadata_reads|]. intros md. apply hspec_ret. intros h Hh.
    split; [done|]. split; [done|]. by destruct state.
  - intros r h [Hh Hr]. destruct (hspec_write_journal (safe kept None) P r) with (h := h) as [Hall (d & Hp & _ & Hx)].
    + intros d _. by apply safe_install_journal.
    + intros d _. by apply safe_install_journal.
    + done.
    + split; [done|]. destruct (_.1) as [[]|err]; [rewrite Hx; constructor; [done|constructor]|].
      destruct Hx as [-> | ->]; [done|]. unfold P, versions. cbn. by constructor.
Qed.

(** What a start leaves: nothing new, a journaled experiment, or a failed apply. *)
Definition started st (id : string) (x : (LiveExperimentOutcome + TransactionError) * LiveState Config) d : Prop :=
  lv_profile x.2 = lv_profile st /\
  (lv_current x.2 = lv_current st \/
   exists e, lv_current x.2 = Some e /\ le_experiment_id e = id /\
     (Forall (jnames (le_rollback e)) (versions d) \/ exists f, x.1 = inr (TxAction f))).

Lemma start_safe kept input st o c :
  li_simulate_action_effects input = false -> lv_current st = None ->
  hspec (at_disk (safe kept None) (fun _ => True))
    (start_candidate_experiment_with_executor active_config process_starttime_at input st o c)
    (fun x => at_disk (safe kept None) (started st (live_experiment_id input c o) x)).
Proof.
  intros Hsim Hcur. unfold start_candidate_experiment_with_executor.
  assert (Hnone : forall r, hspec (at_disk (safe kept None) (fun _ => True)) (hret (r, st))
    (fun x => at_disk (safe kept None) (started st (live_experiment_id input c o) x))).
  { intros r. apply hspec_ret. intros h [Hall _]. split; [done|]. split; cbn; auto. }
  destruct (validate_start_candidate _ _ _) as [[]|]; [|apply Hnone..].
  destruct (validate_autonomous_support _ _ _ _); [|apply Hnone].
  destruct (validate_window_score_for_apply _); cbn [negb]; [|apply Hnone].
  eapply hspec_bind; [by apply apply_for_runtime_safe|]. intros [t|err].
  - rewrite Hsim. cbn [deadlines_from_now].
    set (x := new_experiment _ _ _ _ _ _ _).
    eapply hspec_bind; [by apply (write_phase_named kept input x o JMeasuring)|].
    intros [[]|err]; apply hspec_ret; intros h [Hall Hn]; (split; [done|]); (split; [done|]); right;
      exists x; (split; [done|]); (split; [done|]); by left.
  - apply hspec_ret. intros h [Hall _]. split; [done|]. unfold failed_apply.
    destruct err as [err|f]; cbn; [split; cbn; auto|].
    destruct (jf_rollback_completed f); [split; cbn; auto|].
    destruct (jf_rollback f) as [t|]; split; cbn; auto. right. eexists. split; [done|]. split; [done|]. right; eauto.
Qed.

(** ** A step *)

(** What the controller holds a token for. *)
Definition outstanding st t : Prop :=
  (exists e, lv_current st = Some e /\ le_rollback e = t) \/ t ∈ (kept_pairs (lv_profile st)).*2.

Definition current_token st : option RollbackToken := le_rollback <$> lv_current st.

(** Every token held is named on disk, in whatever version a crash leaves. *)
Definition live_ok st d : Prop := safe (kept_pairs (lv_profile st)) (current_token st) d.

(** Experiments have their own identifiers. *)
Record ids_ok st : Prop := {
  ids_kept : NoDup (kept_pairs (lv_profile st)).*1;
  ids_current e : lv_current st = Some e -> le_experiment_id e ∉ (kept_pairs (lv_profile st)).*1 }.

Lemma ids_current_differ st e :
  ids_ok st -> lv_current st = Some e ->
  Forall (fun x => x.1 <> le_experiment_id e) (kept_pairs (lv_profile st)).
Proof.
  intros [_ Hid] Hcur. apply Forall_forall. intros x Hx Heq. apply (Hid e Hcur). rewrite <- Heq.
  by apply list_elem_of_fmap_2.
Qed.

(** What the decision asks of the state: a start finds no experiment under way and
    an identifier of its own, a keep finds a window that can be judged. *)
Definition ready input st o (decision : AutotuneDecision) : Prop :=
  match decision with
  | DStartExperiment c =>
      lv_current st = None /\ live_experiment_id input c o ∉ (kept_pairs (lv_profile st)).*1
  | DKeepCurrent _ => validate_window_score_for_apply (to_window_score o) = true
  | _ => True
  end.

(** What a step leaves. *)
Record step_leaves st (r : LiveExperimentOutcome + TransactionError) (st' : LiveState Config) d : Prop := {
  sl_ok : live_ok st' d \/ exists f, r = inr (TxAction f);
  sl_ids : ids_ok st';
  sl_books t : outstanding st t -> outstanding st' t \/ t ∈ undone d }.

Lemma same_books_leaves st r st' d :
  lv_current st' = lv_current st -> lv_profile st' = lv_profile st -> ids_ok st -> live_ok st d ->
  step_leaves st r st' d.
Proof.
  intros Hc Hp [Hk Hi] Hok. split.
  - left. unfold live_ok, current_token. by rewrite Hc, Hp.
  - split; rewrite Hp; [done|]. intros e. rewrite Hc. apply Hi.
  - intros t. unfold outstanding. rewrite Hc, Hp. auto.
Qed.

Lemma rolled_back_leaves st e x d :
  lv_current st = Some e -> ids_ok st -> live_ok st d -> rolled_back st e x d ->
  step_leaves st x.1 x.2 d.
Proof.
  intros Hcur Hids Hok [Hp [Hc|[Hc Hu]]].
  - apply same_books_leaves; [congruence|done|done|done].
  - split.
    + left. destruct Hok as [Hk _]. unfold live_ok, current_token. rewrite Hc, Hp. by split.
    + destruct Hids as [Hk _]. split; rewrite Hp; [done|]. intros e'. by rewrite Hc.
    + intros t [(e' & He' & <-)|Hk]; [right; congruence|]. left. right. by rewrite Hp.
Qed.

Lemma kept_or_back_leaves st e x d :
  lv_current st = Some e -> ids_ok st -> live_ok st d -> kept_or_back st e x d ->
  step_leaves st x.1 x.2 d.
Proof.
  intros Hcur Hids Hok [Hb|(Hc & Hl & Hp)]; [by eapply rolled_back_leaves|].
  destruct Hok as [Hk _]. split.
  - left. split; [|unfold current_token; by rewrite Hc].
    intros id t Hin. rewrite Hp in Hin. apply elem_of_cons in Hin as [[= -> ->]|Hin]; [done|by apply Hk].
  - split; [|intros e'; by rewrite Hc]. rewrite Hp. cbn. constructor; [|apply Hids].
    by apply (ids_current _ Hids e).
  - intros t [(e' & He' & <-)|Ht]; left; right; rewrite Hp; cbn;
      apply elem_of_cons; [left; congruence|by right].
Qed.

Lemma started_leaves st id x d :
  lv_current st = None -> id ∉ (kept_pairs (lv_profile st)).*1 -> ids_ok st -> live_ok st d ->
  started st id x d -> step_leaves st x.1 x.2 d.
Proof.
  intros Hcur Hfresh Hids Hok [Hp [Hc|(e & Hc & Hid & Hj)]]; [by apply same_books_leaves|].
  destruct Hok as [Hk _]. split.
  - destruct Hj as [Hj|Hj]; [left|by right]. unfold live_ok, current_token. rewrite Hc, Hp.
    split; [done|]. intros t [= <-]. by right.
  - split; rewrite Hp; [apply Hids|]. intros e'. rewrite Hc. intros [= <-]. by rewrite Hid.
  - intros t [(e' & He' & _)|Ht]; [congruence|]. left. right. by rewrite Hp.
Qed.

Lemma live_step input st o decision reason :
  li_simulate_action_effects input = false -> ids_ok st -> ready input st o decision ->
  hspec (at_disk (live_ok st) (fun _ => True))
    (apply_decision_side_effects_with_executor active_config verify_rollback_restored_baseline
       process_starttime_at input st o decision reason)
    (fun x => at_disk (live_ok st) (step_leaves st x.1 x.2)).
Proof.
  intros Hsim Hids Hready.
  assert (Hsame : forall r st', lv_current st' = lv_current st -> lv_profile st' = lv_profile st ->
    hspec (at_disk (live_ok st) (fun _ => True)) (hret (r, st'))
      (fun x => at_disk (live_ok st) (step_leaves st x.1 x.2))).
  { intros r st' H1 H2. apply hspec_ret. intros h [Hall _]. split; [done|].
    apply same_books_leaves; try done. by apply Forall_inv in Hall. }
  assert (Hstrong : forall (m : Live (S := S) (Config := Config) LiveExperimentOutcome) Q,
    hspec (at_disk (live_ok st) (fun _ => True)) m (fun x => at_disk (live_ok st) (Q x)) ->
    hspec (at_disk (live_ok st) (fun _ => True)) m
      (fun x => at_disk (live_ok st) (fun d => Q x d /\ live_ok st d))).
  { intros m Q Hm. eapply hspec_post; [exact Hm|]. intros x h [Hall Hq]. split; [done|].
    split; [done|]. by apply Forall_inv in Hall. }
  destruct decision as [|c|c|id|id|n|]; cbn [apply_decision_side_effects_with_executor].
  - by apply Hsame.
  - by apply Hsame.
  - destruct Hready as [Hcur Hfresh].
    assert (Hok : live_ok st = safe (kept_pairs (lv_profile st)) None)
      by (unfold live_ok, current_token; by rewrite Hcur).
    eapply hspec_post; [apply (Hstrong _ (started st (live_experiment_id input c o)));
      rewrite Hok; by apply start_safe|].
    intros x h [Hall [Hs Hl]]. split; [done|]. by eapply started_leaves.
  - cbn in Hready. destruct (lv_current st) as [e|] eqn:Hcur.
    + assert (Hok : live_ok st = safe (kept_pairs (lv_profile st)) (Some (le_rollback e)))
        by (unfold live_ok, current_token; by rewrite Hcur).
      eapply hspec_post; [apply (Hstrong _ (kept_or_back st e)); rewrite Hok;
        apply keep_current_safe; [done|done|done|by apply ids_current_differ]|].
      intros x h [Hall [Hs Hl]]. split; [done|]. by eapply kept_or_back_leaves.
    + unfold keep_current_experiment_with_executor. rewrite Hcur. by apply Hsame.
  - destruct (lv_current st) as [e|] eqn:Hcur.
    + assert (Hok : live_ok st = safe (kept_pairs (lv_profile st)) (Some (le_rollback e)))
        by (unfold live_ok, current_token; by rewrite Hcur).
      eapply hspec_post; [apply (Hstrong _ (rolled_back st e)); rewrite Hok;
        by apply rollback_active_safe|].
      intros x h [Hall [Hs Hl]]. split; [done|]. by eapply rolled_back_leaves.
    + unfold rollback_active_experiment_with_executor. rewrite Hcur. by apply Hsame.
  - case_decide; by apply Hsame.
  - unfold has_active_experiment. destruct (lv_current st) as [e|] eqn:Hcur; [|by apply Hsame].
    assert (Hok : live_ok st = safe (kept_pairs (lv_profile st)) (Some (le_rollback e)))
      by (unfold live_ok, current_token; by rewrite Hcur).
    eapply hspec_bind; [apply (Hstrong _ (rolled_back st e)); rewrite Hok;
      by apply rollback_active_safe|].
    intros [[out|err] st']; apply hspec_ret; intros h [Hall [[Hp Hs] Hl]]; (split; [done|]).
    + eapply (rolled_back_leaves st e (_, _)); [done|done|done|]. by split.
    + eapply (rolled_back_leaves st e (_, _)); [done|done|done|]. by split.
Qed.

(** ** The release of the kept actions *)

(** A kept action of the start is still kept, or undone. *)
Definition accounted_for kept (p : ActiveProfileState) d : Prop :=
  forall x, x ∈ kept -> x ∈ kept_pairs p \/ x.2 ∈ undone d.

Lemma accounted_off_ledger kept p : off_ledger (accounted_for kept p).
Proof. intros d d' _ _ E H x Hx. rewrite E. by apply H. Qed.

Lemma undone_tokens_kept kept p t : off_ledger (fun d => accounted_for kept p d /\ t ∈ undone d).
Proof. intros d d' E1 E2 E3 [H1 H2]. split; [by eapply accounted_off_ledger|by rewrite E3]. Qed.

Lemma clear_journal_names_safe kept cur (P : Disk S -> Prop) t :
  (forall d d', undone d' = undone d -> P d -> P d') -> (forall d, P d -> t ∈ undone d) ->
  hspec (at_disk (safe kept cur) P) (clear_journal_if_it_names t) (fun _ => at_disk (safe kept cur) P).
Proof.
  intros HP Ht. eapply hspec_bind; [apply hspec_read_journal, at_disk_only|].
  intros [r|err]; [|by apply hspec_ret; intros h [Hh _]].
  destruct (bool_decide _ && bool_decide _) eqn:E; [|by apply hspec_ret; intros h [Hh _]].
  apply andb_true_iff in E as [E1%bool_decide_eq_true E2%bool_decide_eq_true].
  set (Q := fun d : Disk S => P d /\ journal d = Holds r).
  eapply hspec_bind; [eapply (hspec_conseq _ (at_disk (safe kept cur) Q) _ _
    (fun _ => at_disk (safe kept cur) P)); [apply (hspec_write_journal (safe kept cur) Q)|..]|].
  3: { intros h [[Hall Hp] [Hj|[-> _]]]; [by split|done]. }
  3: { intros x h [Hall (d & [Hp _] & _ & Hx)]. split; [done|].
       destruct x as [[]|err]; [rewrite Hx; by apply (HP d)|]. destruct Hx as [-> | ->]; [done|by apply (HP d)]. }
  3: { intros []; by apply hspec_ret. }
  all: intros d [Hp Hj] Hs; apply safe_install_journal; [|done]; intros t' Ht'; right;
    destruct (proj2 Hs t' Ht') as [Hu|Hn]; [done|]; apply Forall_inv in Hn; rewrite Hj in Hn;
    destruct Hn as [Hn _]; replace t' with t by congruence; by apply Ht.
Qed.

Lemma release_audit_reads (P : Host S -> Prop) e ok :
  disks_only P -> hspec P (write_release_audit e ok) (fun _ => P).
Proof.
  intros HP. eapply hspec_bind; [by apply hspec_now|]. intros n.
  eapply hspec_bind; [by apply append_report_safe|]. intros x. by apply hspec_ret.
Qed.

Lemma rollback_recorded_frame kept cur (P : Disk S -> Prop) input e o :
  (forall d d', undone d ⊆ undone d' -> P d -> P d') ->
  hspec (at_disk (safe kept cur) P) (rollback_recorded input e o)
    (fun x => at_disk (safe kept cur) (fun d => P d /\
       match x with inl _ => le_rollback e ∈ undone d | inr _ => True end)).
Proof.
  intros HP. apply (hspec_bind _ _ _ (fun _ => at_disk (safe kept cur) P)).
  - intros h [Hall Hp]. destruct (rollback_frame input e o h) as (added & E & Hadd).
    split.
    + rewrite E. apply Forall_inv_tail in Hadd. apply Forall_app. split; [|done].
      apply Forall_inv in Hall. eapply Forall_impl; [exact Hadd|]. intros d Hs. by eapply same_files_safe.
    + apply Forall_inv in Hadd as (_ & _ & _ & _ & Hu). apply (HP (disk h)); [by rewrite Hu|done].
  - intros [x|err]; [|apply hspec_ret; intros h [Hall Hp]; by split].
    eapply hspec_bind; [apply (hspec_set_at _ P); intros d _; apply safe_undone|].
    intros []. apply hspec_ret. intros h [Hall (d & Ed & Hp & _)]. split; [done|]. rewrite Ed.
    split; [|by left]. apply (HP d); [|done]. intros x' Hx'. by right.
Qed.

Lemma kept_get_elem_pairs p g k :
  kept_get (kept_actions p) g = Some k -> (ks_experiment_id k, ks_rollback k) ∈ kept_pairs p.
Proof. intros Hg%kept_get_elem. by apply (elem_kept_pairs p (g, k)). Qed.

Lemma drop_kept_pairs p g k x :
  kept_ok (kept_actions p) -> kept_get (kept_actions p) g = Some k -> x ∈ kept_pairs p ->
  x ∈ kept_pairs (drop_kept p g) \/ x = (ks_experiment_id k, ks_rollback k).
Proof.
  intros [Hs _ _] Hg Hx. apply list_elem_of_fmap in Hx as ([g' k'] & -> & Hin).
  destruct (decide (g' = g)) as [->|Hne].
  - right. apply kept_get_elem in Hg. cbn.
    assert (k' = k) as ->; [|done].
    clear -Hs Hg Hin. induction Hs as [|y l Hs IH Hy]; [by apply not_elem_of_nil in Hin|].
    apply elem_of_cons in Hin as [<-|Hin], Hg as [E|Hg]; [by injection E| | |by apply IH].
    + eapply Forall_forall in Hy; [|exact Hg]. unfold entry_lt in Hy. cbn in Hy. lia.
    + subst y. eapply Forall_forall in Hy; [|exact Hin]. unfold entry_lt in Hy. cbn in Hy. lia.
  - left. apply (elem_kept_pairs (drop_kept p g) (g', k')). cbn. by apply list_elem_of_filter.
Qed.

(** The profile shrinks; an action that is not restored is counted. *)
Record released (p p' : ActiveProfileState) (n n' : KeptRelease) (groups : list ActionConflictGroup) : Prop := {
  rel_sub (x : ActionConflictGroup * KeptCandidateState) : x ∈ kept_actions p' -> x ∈ kept_actions p;
  rel_ok : kept_ok (kept_actions p');
  rel_count : (kr_failed n <= kr_failed n')%nat;
  rel_gone : kr_failed n' = kr_failed n -> forall g (x : ActionConflictGroup * KeptCandidateState),
    g ∈ groups -> x ∈ kept_actions p' -> x.1 <> g }.

Lemma release_one_safe kept cur input o g p n :
  li_simulate_action_effects input = false -> NoDup kept.*1 -> kept_ok (kept_actions p) ->
  (forall x, x ∈ kept_pairs p -> x ∈ kept) ->
  hspec (at_disk (safe kept cur) (accounted_for kept p)) (release_one input o g p n)
    (fun x => at_disk (safe kept cur) (fun d =>
       accounted_for kept x.2 d /\ released p x.2 n x.1 [g])).
Proof.
  intros Hsim Hnd Hok Hsub. unfold release_one. rewrite Hsim.
  destruct (kept_get (kept_actions p) g) as [k|] eqn:Hg.
  2: { apply hspec_ret. intros h [Hall Ha]. split; [done|]. split; [done|]. split; try done.
       intros _ g' e' Hg' He'. apply list_elem_of_singleton in Hg' as ->. by eapply kept_get_none. }
  assert (Hmono : forall d d', undone d ⊆ undone d' -> accounted_for kept p d -> accounted_for kept p d').
  { intros d d' Hu Ha x Hx. destruct (Ha x Hx); auto. }
  eapply hspec_bind; [by apply (rollback_recorded_frame kept cur (accounted_for kept p))|].
  intros [r|err].
  - cbn [le_rollback experiment_of_kept].
    eapply hspec_bind; [by apply release_audit_reads, at_disk_only|]. intros [].
    eapply hspec_bind; [apply retire_durably_safe; [apply undone_tokens_kept|]|].
    { intros d [_ Hu] x Hx. destruct (decide (x.1 = ks_experiment_id k)) as [E|E]; [right|by left].
      pose proof (Hsub _ (kept_get_elem_pairs _ _ _ Hg)) as Hin. destruct x as [i t]. cbn in E. subst i.
      replace t with (ks_rollback k); [done|]. clear -Hnd Hx Hin.
      induction kept as [|[i' t'] l IH]; [by apply not_elem_of_nil in Hx|].
      inversion Hnd as [|? ? Hni Hnd']; subst.
      apply elem_of_cons in Hx as [E|Hx], Hin as [E'|Hin]; [congruence| | |by apply IH].
      - injection E as <- <-. destruct Hni. by apply (list_elem_of_fmap_2 fst _ (_, _)) in Hin.
      - injection E' as <- <-. destruct Hni. by apply (list_elem_of_fmap_2 fst _ (_, _)) in Hx. }
    intros []. eapply hspec_bind.
    { apply (clear_journal_names_safe kept cur _ (ks_rollback k)).
      - intros d d' E [H1 H2]. split; [|by rewrite E]. intros x Hx. rewrite E. by apply H1.
      - by intros d [_ Hu]. }
    intros []. apply hspec_ret. intros h [Hall [Ha Hu]]. split; [done|]. split.
    + intros x Hx. destruct (Ha x Hx) as [Hk|Hk]; [|by right].
      destruct (drop_kept_pairs p g k x Hok Hg Hk) as [Hd| ->]; [by left|by right].
    + split; [|by apply kept_remove_ok|cbn; lia|].
      * intros e' [_ He']%list_elem_of_filter. done.
      * intros _ g' e' Hg' [Hne _]%list_elem_of_filter. by apply list_elem_of_singleton in Hg' as ->.
  - eapply hspec_bind; [by apply release_audit_reads, at_disk_only|]. intros [].
    apply hspec_ret. intros h [Hall [Ha _]]. split; [done|]. split; [done|].
    split; [done|done|cbn; lia|cbn; lia].
Qed.

Lemma release_groups_safe kept cur input o groups p n :
  li_simulate_action_effects input = false -> NoDup kept.*1 -> kept_ok (kept_actions p) ->
  (forall x, x ∈ kept_pairs p -> x ∈ kept) ->
  hspec (at_disk (safe kept cur) (accounted_for kept p)) (release_groups input o groups p n)
    (fun x => at_disk (safe kept cur) (fun d =>
       accounted_for kept x.2 d /\ released p x.2 n x.1 groups)).
Proof.
  intros Hsim Hnd. revert p n. induction groups as [|g groups IH]; intros p n Hok Hsub.
  { apply hspec_ret. intros h [Hall Ha]. split; [done|]. split; [done|]. split; try done.
    intros _ g e' Hg. by apply not_elem_of_nil in Hg. }
  cbn [release_groups]. eapply hspec_bind; [by apply release_one_safe|].
  intros [n1 p1]. cbn [fst snd]. intros h [Hall [Ha [H1 H2 H3 H4]]].
  assert (Hsub1 : forall x, x ∈ kept_pairs p1 -> x ∈ kept).
  { intros x (e' & -> & He')%list_elem_of_fmap. apply Hsub, (elem_kept_pairs p e'). by apply H1. }
  destruct (IH p1 n1 H2 Hsub1 h) as [Hall' [Ha' [K1 K2 K3 K4]]]; [by split|].
  split; [done|]. split; [done|]. split; [by auto|done|lia|].
  intros Hn g' e' Hg' He'. apply elem_of_cons in Hg' as [->|Hg'].
  - apply (H4 ltac:(lia) g e'); [by apply list_elem_of_singleton|by apply K1].
  - apply (K4 ltac:(lia) g' e'); done.
Qed.

(** ** The properties of the controller's side effects *)

Lemma start_point (P Q : Disk S -> Prop) (h : Host S) :
  past h = [] -> P (disk h) -> Q (disk h) -> at_disk P Q h.
Proof. intros Hp H1 H2. split; [|done]. unfold crash_points. rewrite Hp. by repeat constructor. Qed.

(** C3. The side effects of a decision do not lose a rollback token.  Whatever rollback or
    system call fails, but for the test whether the files exist ([StatReliable]: a failed
    stat reads the ledger as empty), a crash at any point of the step leaves every token
    the controller held, of the experiment under way and of the kept actions, undone or
    named by the journal or the ledger, where startup recovery finds it; and when the step
    returns, what it dropped from the controller's books has been undone, and what it still
    holds is durably named unless an apply failed and could not be taken back.  Undone
    means that the executor answered its rollback with success.  The effects are not
    simulated; the tokens held before are named on disk; each experiment has an identifier
    of its own; the decision is [ready]: a start finds nothing under way and a fresh
    identifier, a keep finds a window that can be judged.  (A keep on a window that cannot
    be judged drops the experiment from the books with nothing undone.) *)
Theorem live_step_never_forgets input st o decision reason h :
  li_simulate_action_effects input = false -> past h = [] ->
  ids_ok st -> ready input st o decision -> live_ok st (disk h) ->
  let x := apply_decision_side_effects_with_executor active_config verify_rollback_restored_baseline
             process_starttime_at input st o decision reason h in
  (forall d d' t, d ∈ crash_points x.2 -> crashed d d' -> outstanding st t ->
     t ∈ undone d' \/ jnames t (journal d') \/ lnames t (ledger d')) /\
  step_leaves st x.1.1 x.1.2 (disk x.2).
Proof.
  intros Hsim Hpast Hids Hready Hok x.
  destruct (live_step input st o decision reason Hsim Hids Hready h) as [Hall Hleaves];
    [by apply start_point|]. fold x in Hall, Hleaves. split; [|done].
  intros d d' t Hd Hc Ht. eapply covered_after_crash; [|exact Hc].
  eapply Forall_elem in Hall; [|exact Hd]. apply safe_covered in Hall as [Hk Hcur].
  destruct Ht as [(e & He & <-)|Ht].
  - apply Hcur. unfold current_token. by rewrite He.
  - apply list_elem_of_fmap in Ht as ([id t'] & -> & Hin). by apply (Hk id).
Qed.

(** C27. The release of the kept actions, when the workload goes or the daemon stops:
    a crash at any point leaves every kept token undone or named by the ledger or the
    journal; afterwards every action that was kept is still kept or undone, and when
    no release is reported as failed nothing is kept any more and every token has been
    undone, that is, the executor answered its rollback with success.  The effects are
    not simulated and the test whether the files exist does not fail. *)
Theorem release_kept_complete input st o h :
  li_simulate_action_effects input = false -> past h = [] ->
  ids_ok st -> kept_ok (kept_actions (lv_profile st)) -> live_ok st (disk h) ->
  let x := release_kept_actions_with_executor input (lv_profile st) o h in
  (forall d d' t, d ∈ crash_points x.2 -> crashed d d' -> t ∈ (kept_pairs (lv_profile st)).*2 ->
     t ∈ undone d' \/ jnames t (journal d') \/ lnames t (ledger d')) /\
  (forall t, t ∈ (kept_pairs (lv_profile st)).*2 ->
     t ∈ (kept_pairs x.1.2).*2 \/ t ∈ undone (disk x.2)) /\
  (kr_failed x.1.1 = 0%nat ->
     kept_actions x.1.2 = [] /\ forall t, t ∈ (kept_pairs (lv_profile st)).*2 -> t ∈ undone (disk x.2)).
Proof.
  intros Hsim Hpast [Hnd _] Hkept Hok x.
  destruct (release_groups_safe (kept_pairs (lv_profile st)) (current_token st) input o
    (kept_actions (lv_profile st)).*1 (lv_profile st) {| kr_restored := 0; kr_failed := 0 |}
    Hsim Hnd Hkept (fun y Hy => Hy) h) as [Hall [Ha [Hsub _ _ Hgone]]].
  { apply start_point; [done|done|]. intros y Hy. by left. }
  change (release_groups input o (kept_actions (lv_profile st)).*1 (lv_profile st)
    {| kr_restored := 0; kr_failed := 0 |} h) with x in *. split_and!.
  - intros d d' t Hd Hc ([id t'] & -> & Hin)%list_elem_of_fmap.
    eapply covered_after_crash; [|exact Hc]. eapply Forall_elem in Hall; [|exact Hd].
    by apply safe_covered in Hall as [Hk _]; apply (Hk id).
  - intros t (y & -> & Hin)%list_elem_of_fmap. destruct (Ha y Hin) as [Hy|Hy]; [left|by right].
    by apply list_elem_of_fmap_2.
  - intros Hn. assert (Hempty : kept_actions x.1.2 = []).
    { destruct (kept_actions x.1.2) as [|y l] eqn:E; [done|]. exfalso.
      assert (Hy : y ∈ kept_actions x.1.2) by (rewrite E; by left).
      eapply (Hgone Hn y.1 y); [|first [exact Hy|rewrite <- E; exact Hy|by left]|done].
      apply list_elem_of_fmap_2, Hsub. first [exact Hy|by left]. }
    split; [done|]. intros t (y & -> & Hin)%list_elem_of_fmap.
    destruct (Ha y Hin) as [Hy|Hy]; [|done]. unfold kept_pairs in Hy. rewrite Hempty in Hy.
    by apply not_elem_of_nil in Hy.
Qed.

End live.
