(* ===== verification/FocusModel.v ===== *)
(** * FocusModel: the data of focus detection

    [stutter/src/focus]: the processes of a snapshot with their classification
    and counter deltas ([snapshot.rs], [classify.rs]), the groups built from them
    ([groups.rs]), the foreground window ([foreground/model.rs]), the class tests
    of [process_scan.rs] and the score of one process ([score/kinds.rs]) in
    binary32. *)

From S2P Require Import Prelude PolicyModel Allowlist Intervals Score Controller.
From stdpp Require Import sorting.
From Stdlib Require Import SpecFloat.
Open Scope Z_scope.

(** ** [f32] *)

Definition f32_of_Z (z : Z) : f32 := binary_normalize 24 128 z 0 false.
Definition f32_add : f32 -> f32 -> f32 := SFadd 24 128.
Definition f32_sub : f32 -> f32 -> f32 := SFsub 24 128.
Definition f32_mul : f32 -> f32 -> f32 := SFmul 24 128.
Definition f32_div : f32 -> f32 -> f32 := SFdiv 24 128.

(** A decimal literal: the quotient of two exact integers, rounded once. *)
Definition f32_lit (num den : Z) : f32 := f32_div (f32_of_Z num) (f32_of_Z den).

(** [left.partial_cmp(right).unwrap_or(Equal)]. *)
Definition f32_cmp (a b : f32) : comparison :=
  match SFcompare a b with Some c => c | None => Eq end.

(** [Ordering::then_with]. *)
Definition then_with (c d : comparison) : comparison := match c with Eq => d | _ => c end.

(** [Iterator::max_by]: the last of the greatest elements. *)
Fixpoint max_by_from {A} (cmp : A -> A -> comparison) (best : A) (l : list A) : A :=
  match l with
  | [] => best
  | x :: l => max_by_from cmp (match cmp best x with Gt => best | _ => x end) l
  end.

Definition max_by {A} (cmp : A -> A -> comparison) (l : list A) : option A :=
  match l with [] => None | x :: l => Some (max_by_from cmp x l) end.

(** The values of a [BTreeMap] and the elements of a [BTreeSet], in key order. *)
Definition btree_values {A} (m : gmap Z A) : list A := (btree_entries m).*2.
Definition btree_elements (s : gset Z) : list Z := merge_sort Z.le (elements s).

(** ** [classify.rs], [snapshot.rs] *)

Inductive PriorityBand :=
| PbCriticalRealtime | PbForegroundLatency | PbInteractive | PbThroughput | PbBackground | PbUnknown.

#[export] Instance PriorityBand_eq_dec : EqDecision PriorityBand.
Proof. solve_decision. Defined.

Record Classification := {
  cl_class : TaskClass;
  cl_priority_band : PriorityBand;
  cl_confidence : f32;
  cl_reasons : list string }.

Record FocusProcess := {
  fp_pid : Z;
  fp_ppid : Z;
  fp_comm : string;
  fp_cmdline : string;
  fp_cgroup_path : option string;
  fp_starttime_ticks : option Z;
  fp_sched_policy : option Z;
  fp_is_foreground_window_process : bool;
  fp_classification : Classification;
  fp_cpu_time_ticks_delta : Z;
  fp_read_bytes_delta : Z;
  fp_write_bytes_delta : Z;
  fp_voluntary_ctxt_switches_delta : Z;
  fp_nonvoluntary_ctxt_switches_delta : Z }.

Definition fp_class (p : FocusProcess) : TaskClass := cl_class (fp_classification p).

(** ** [foreground/model.rs] *)

Inductive ForegroundProviderStatus := FpAvailable | FpUnavailable | FpError | FpUnsupported.

#[export] Instance ForegroundProviderStatus_eq_dec : EqDecision ForegroundProviderStatus.
Proof. solve_decision. Defined.

(** The pid of the target and the confidence of the decision; its texts and the
    candidates it rejected play no part in focus detection. *)
Record ForegroundWindowSnapshot := {
  fw_status : ForegroundProviderStatus;
  fw_target_pid : option Z;
  fw_confidence : f32;
  fw_stale_ms : option Z }.

(** ** [groups.rs] *)

#[export] Instance FocusGroupKind_eq_dec : EqDecision FocusGroupKind.
Proof. solve_decision. Defined.

Record FocusScoreBreakdown := {
  cpu_score : f32;
  io_score : f32;
  interactivity_score : f32;
  class_priority_score : f32;
  stability_score : f32;
  foreground_score : f32;
  penalty : f32 }.

Record FocusGroup := {
  fg_kind : FocusGroupKind;
  fg_root_pids : list Z;
  fg_member_pids : list Z;
  fg_primary_pid : option Z;
  fg_display_name : string;
  fg_score : f32;
  fg_score_breakdown : FocusScoreBreakdown;
  fg_confidence : f32;
  fg_priority_band : PriorityBand;
  fg_reasons : list string }.

Record FocusSnapshot := {
  fs_elapsed_ms : Z;
  fs_foreground : option ForegroundWindowSnapshot;
  fs_processes : gmap Z FocusProcess;
  fs_children_by_parent : gmap Z (list Z);
  fs_groups : list FocusGroup }.

(** [build_focus_snapshot_from_processes]: the children of each parent, in order. *)
Definition add_child (m : gmap Z (list Z)) (p : FocusProcess) : gmap Z (list Z) :=
  <[ fp_ppid p := default [] (m !! fp_ppid p) ++ [fp_pid p] ]> m.

Definition children_by_parent_of (processes : gmap Z FocusProcess) : gmap Z (list Z) :=
  merge_sort Z.le <$> foldl add_child ∅ (btree_values processes).

Record FocusCounters := {
  fc_starttime_ticks : option Z;
  fc_cpu_time_ticks : Z;
  fc_read_bytes : Z;
  fc_write_bytes : Z;
  fc_voluntary_ctxt_switches : Z;
  fc_nonvoluntary_ctxt_switches : Z }.

Definition zero_counters (starttime_ticks : option Z) : FocusCounters :=
  {| fc_starttime_ticks := starttime_ticks; fc_cpu_time_ticks := 0; fc_read_bytes := 0;
     fc_write_bytes := 0; fc_voluntary_ctxt_switches := 0; fc_nonvoluntary_ctxt_switches := 0 |}.

Definition counter_deltas (previous : option FocusCounters) (current : FocusCounters) : FocusCounters :=
  match previous with
  | None => zero_counters (fc_starttime_ticks current)
  | Some previous =>
      if bool_decide (fc_starttime_ticks previous <> fc_starttime_ticks current)
      then zero_counters (fc_starttime_ticks current)
      else
        {| fc_starttime_ticks := fc_starttime_ticks current;
           fc_cpu_time_ticks := saturating_sub (fc_cpu_time_ticks current) (fc_cpu_time_ticks previous);
           fc_read_bytes := saturating_sub (fc_read_bytes current) (fc_read_bytes previous);
           fc_write_bytes := saturating_sub (fc_write_bytes current) (fc_write_bytes previous);
           fc_voluntary_ctxt_switches :=
             saturating_sub (fc_voluntary_ctxt_switches current) (fc_voluntary_ctxt_switches previous);
           fc_nonvoluntary_ctxt_switches :=
             saturating_sub (fc_nonvoluntary_ctxt_switches current)
               (fc_nonvoluntary_ctxt_switches previous) |}
  end.

Definition situation_for_group (g : FocusGroup) : SituationKind :=
  match fg_kind g with
  | FgGame => GameFocused
  | FgBrowser => BrowserFocused
  | FgCompile => CompileLoad
  | FgMedia => MediaPlayback
  | FgRecording => SkRecording
  | FgVirtualMachine => VirtualMachineLoad
  | FgIdle => SkIdle
  | FgDesktop | FgUnknown => SkUnknown
  end.

(** [score.rs]. *)
Definition priority_band_rank (b : PriorityBand) : Z :=
  match b with
  | PbUnknown => 0 | PbBackground => 1 | PbThroughput => 2 | PbInteractive => 3
  | PbForegroundLatency => 4 | PbCriticalRealtime => 5
  end.

(** ** [process_scan.rs] *)

Definition process_identity_text (p : FocusProcess) : string :=
  (to_ascii_lowercase (fp_comm p) +:+ " " +:+ to_ascii_lowercase (fp_cmdline p) +:+ " "
   +:+ to_ascii_lowercase (default ""%string (fp_cgroup_path p)))%string.

Definition contains_game_runtime_text (p : FocusProcess) : bool :=
  let text := process_identity_text p in
  contains text "steamapps" || contains text "pressure-vessel" || contains text "proton"
  || contains text "wineserver".

Definition is_game_runtime_process (p : FocusProcess) : bool :=
  let text := process_identity_text p in
  contains text "pressure-vessel" || contains text "steam-runtime" || contains text "proton"
  || contains text "steamapps".

Definition is_game_class (c : TaskClass) : bool :=
  match c with Game | GameRenderThread | GameWorkerThread | WineServer | GameScope => true | _ => false end.

Definition is_browser_class (c : TaskClass) : bool :=
  match c with
  | BrowserForeground | BrowserBackground | BrowserRenderer | BrowserGpu | BrowserNetwork => true
  | _ => false
  end.

Definition is_compile_class (c : TaskClass) : bool :=
  match c with BuildJob | Compiler | Linker | Indexer | PackageManager => true | _ => false end.

Definition is_non_service_interactive_class (c : TaskClass) : bool :=
  match c with
  | AudioRealtime | Input | Game | GameRenderThread | GameWorkerThread | WineServer | GameScope
  | Compositor | BrowserForeground | BrowserRenderer | BrowserGpu | BrowserNetwork | Editor
  | Terminal | Shell | Media | Recorder | VirtualMachine => true
  | _ => false
  end.

Definition is_active_foreground_candidate (p : FocusProcess) : bool :=
  (0 <? fp_cpu_time_ticks_delta p) || (0 <? fp_read_bytes_delta p) || (0 <? fp_write_bytes_delta p)
  || (0 <? fp_voluntary_ctxt_switches_delta p) || (0 <? fp_nonvoluntary_ctxt_switches_delta p).

Definition display_name_for_group (kind : FocusGroupKind) (primary : option FocusProcess) : string :=
  let fallback :=
    match kind with
    | FgGame => "Game" | FgBrowser => "Browser" | FgCompile => "Compile" | FgMedia => "Media"
    | FgRecording => "Recording" | FgVirtualMachine => "VirtualMachine" | FgDesktop => "Desktop"
    | FgIdle => "Idle" | FgUnknown => "Unknown"
    end%string in
  match primary with
  | Some p => if decide (fp_comm p = ""%string) then fallback else fp_comm p
  | None => fallback
  end.

(** ** [score/kinds.rs] *)

Definition focus_group_kind_for_class (c : TaskClass) : FocusGroupKind :=
  match c with
  | Game | GameRenderThread | GameWorkerThread | WineServer | GameScope => FgGame
  | BrowserForeground | BrowserBackground | BrowserRenderer | BrowserGpu | BrowserNetwork => FgBrowser
  | BuildJob | Compiler | Linker | Indexer | PackageManager => FgCompile
  | Media => FgMedia
  | Recorder => FgRecording
  | VirtualMachine => FgVirtualMachine
  | Compositor | AudioRealtime | Input => FgDesktop
  | Editor | Terminal | Shell | UnknownClass => FgUnknown
  | StorageDaemon | NetworkDaemon | KernelThread | IrqThread | Service => FgIdle
  | _ => FgUnknown
  end.

Definition class_base (c : TaskClass) : Z :=
  match c with
  | AudioRealtime | Input => 90
  | Game | GameRenderThread | GameWorkerThread | WineServer | GameScope => 80
  | Compositor | BrowserForeground => 70
  | BrowserRenderer | BrowserGpu | BrowserNetwork | Editor | Terminal | Shell | Media | Recorder
  | VirtualMachine => 50
  | BuildJob | Compiler | Linker | Indexer | PackageManager => 35
  | StorageDaemon | NetworkDaemon | KernelThread | IrqThread | Service | BrowserBackground => 15
  | UnknownClass => 0
  | _ => 10
  end.

Definition process_focus_score (p : FocusProcess) : f32 :=
  let cpu := f32_of_Z (fp_cpu_time_ticks_delta p) in
  let io := f32_div (f32_of_Z (saturating_add_u64 (fp_read_bytes_delta p) (fp_write_bytes_delta p)))
                    (f32_of_Z 1048576) in
  let ctxt := f32_mul (f32_of_Z (saturating_add_u64 (fp_voluntary_ctxt_switches_delta p)
                                           (fp_nonvoluntary_ctxt_switches_delta p)))
                      (f32_lit 5 100) in
  f32_add (f32_add (f32_add (f32_add (f32_of_Z (class_base (fp_class p)))
                                     (cl_confidence (fp_classification p))) cpu) io) ctxt.
