(* ===== verification/RollingWindow.v ===== *)
(** * The rolling measurement window

    [autotune/rolling_window/{mod,utils}.rs]: nine queues of telemetry samples, each
    ordered by elapsed time; a push inserts a sample at its place and drains, from the
    front of every queue, what is older than the window.

    The specification is one log of samples in the order they arrived, from which a
    push removes what is too old ([log_run]). [window_refines_log] shows that the
    nine queues hold exactly the samples of the log, each queue in time order with the
    samples of one time in the order of their arrival, after any sequence of
    operations; [in_order_window_exact] that a window fed in time order holds exactly the
    samples of the last [duration]. *)

From Stdlib Require Import Ascii String.
From S2P Require Import Prelude Binary64 Abi Metrics Intervals PolicyModel Objective FocusModel.
From stdpp Require Import list.
Open Scope Z_scope.

(** ** The records of the queues *)

(** [recorder/event_types.rs]. *)
Record FrameEvent := { fe_elapsed_ms : Z; fe_frametime_ms : f64 }.

Record IrqEventRecord := {
  iq_elapsed_ms : option Z;
  iq_irq : Z;
  iq_cpu : Z;
  iq_enter_ns : Z;
  iq_exit_ns : Z;
  iq_duration_ns : Z }.

Record BlockIoRecord := {
  bi_elapsed_ms : Z;
  bi_tid : Z;
  bi_correlation_basis : string;
  bi_dev : Z;
  bi_nr_sector : Z;
  bi_sector : Z;
  bi_duration_ns : Z;
  bi_timestamp_ns : Z;
  bi_rwbs : string }.

Record GpuSample := {
  gs_elapsed_ms : Z;
  gs_drm_card : option string;
  gs_render_node : option string;
  gs_gpu_busy_percent : option Z;
  gs_vram_used_bytes : option Z;
  gs_vram_total_bytes : option Z;
  gs_vram_used_percent : option Z;
  gs_gpu_clock_mhz : option Z;
  gs_mem_clock_mhz : option Z;
  gs_temp_millidegrees : option Z;
  gs_power_microwatts : option Z;
  gs_power_limit_reason : option string }.

Record CpuFreqRecord := { cf_elapsed_ms : Z; cf_cpu : Z; cf_freq_khz : Z; cf_timestamp_ns : Z }.

(** [foreground/model.rs]. *)
Inductive ForegroundSource := FgsAuto | FgsSway | FgsHyprland | FgsGnome | FgsKde | FgsX11 | FgsUnsupported.

Record ForegroundTarget := {
  ft_pid : option Z;
  ft_app_id : option string;
  ft_class : option string;
  ft_title : option string;
  ft_window_id : option string;
  ft_workspace : option string }.

Record RejectedForegroundCandidate := { rfc_target : ForegroundTarget; rfc_reason : string }.

Record ForegroundDecision := {
  fd_target : option ForegroundTarget;
  fd_confidence : f32;
  fd_reasons : list string;
  fd_rejected_candidates : list RejectedForegroundCandidate }.

Record ForegroundEvent := {
  fg_elapsed_ms : Z;
  fg_source : ForegroundSource;
  fg_status : ForegroundProviderStatus;
  fg_decision : ForegroundDecision;
  fg_stale_ms : option Z }.

(** [diagnosis/model.rs]. *)
Inductive StutterCause :=
| CompositorSchedulerDelay | GameThreadSchedulerDelay | IrqDelayCandidate | GpuBoundCandidate
| BlockIoCandidate | CpuPressureCandidate | CpuMonopolizationCandidate | RuntimeWaitCandidate
| UnknownCause.

Inductive DiagnosisConfidence := DcLow | DcMedium | DcHigh.

Record LiveDiagnosisEntry := {
  ld_elapsed_ms : Z;
  ld_cause : StutterCause;
  ld_confidence : DiagnosisConfidence;
  ld_anchor_class : TaskClass;
  ld_anchor_comm : string;
  ld_evidence : list string }.

(** [workload_progress/mod.rs]. *)
Record WorkloadProgressRecord := { wpr_elapsed_ms : Z; wpr_progress : WorkloadProgress }.

(** ** [utils.rs]: queues by elapsed time *)

Section Queues.
Context {A : Type} (elapsed : A -> Z).

Fixpoint drain_front_before_elapsed (start_ms : Z) (items : list A) : list A :=
  match items with
  | [] => []
  | x :: rest =>
      if elapsed x <? start_ms then drain_front_before_elapsed start_ms rest else items
  end.

(** [Iterator::rposition]: the last position that satisfies the test. *)
Fixpoint rposition (p : A -> bool) (items : list A) : option nat :=
  match items with
  | [] => None
  | x :: rest =>
      match rposition p rest with
      | Some i => Some (S i)
      | None => if p x then Some 0%nat else None
      end
  end.

Definition push_sorted_by_elapsed (item : A) (items : list A) : list A :=
  match rposition (fun existing => elapsed existing <=? elapsed item) items with
  | Some index => take (S index) items ++ item :: drop (S index) items
  | None => item :: items
  end.

Definition earlier (x y : A) : Prop := elapsed x <= elapsed y.

#[global] Instance earlier_dec x y : Decision (earlier x y).
Proof. unfold earlier. apply _. Defined.

(** [sort_by_key(elapsed_ms)]. *)
Definition sort_by_elapsed (items : list A) : list A := stable_sort earlier items.

End Queues.

Definition is_valid_frametime_ms (value : f64) : bool := f64_is_finite value && f64_gt value f64_zero.

(** ** [mod.rs] *)

Record RollingWindow := {
  rw_duration_nanos : Z;
  rw_intervals : list IntervalRecord;
  rw_frames : list FrameEvent;
  rw_diagnoses : list LiveDiagnosisEntry;
  rw_irq_events : list IrqEventRecord;
  rw_block_io_events : list BlockIoRecord;
  rw_gpu_samples : list GpuSample;
  rw_cpu_freq_events : list CpuFreqRecord;
  rw_foreground_events : list ForegroundEvent;
  rw_workload_progress : list WorkloadProgressRecord;
  rw_dropped_invalid_frames : Z }.

Definition RollingWindow_new (duration_nanos : Z) : RollingWindow :=
  {| rw_duration_nanos := duration_nanos; rw_intervals := []; rw_frames := [];
     rw_diagnoses := []; rw_irq_events := []; rw_block_io_events := []; rw_gpu_samples := [];
     rw_cpu_freq_events := []; rw_foreground_events := []; rw_workload_progress := [];
     rw_dropped_invalid_frames := 0 |}.

(** [Duration::from_secs(30)]. *)
Definition RollingWindow_default : RollingWindow := RollingWindow_new 30000000000.

Definition duration_ms (w : RollingWindow) : Z := Z.min (rw_duration_nanos w / 1000000) U64_MAX.

Definition window_start_ms_for (w : RollingWindow) (now_elapsed_ms : Z) : Z :=
  saturating_sub now_elapsed_ms (duration_ms w).

Definition irq_elapsed (e : IrqEventRecord) : Z := default 0 (iq_elapsed_ms e).

(** The queues that are not empty. *)
Definition is_empty_queue {A} (q : list A) : bool := match q with [] => true | _ => false end.

Definition RollingWindow_is_empty (w : RollingWindow) : bool :=
  is_empty_queue (rw_intervals w) && is_empty_queue (rw_frames w)
  && is_empty_queue (rw_diagnoses w) && is_empty_queue (rw_irq_events w)
  && is_empty_queue (rw_block_io_events w) && is_empty_queue (rw_gpu_samples w)
  && is_empty_queue (rw_cpu_freq_events w) && is_empty_queue (rw_foreground_events w)
  && is_empty_queue (rw_workload_progress w).

Definition window_clear (w : RollingWindow) : RollingWindow := RollingWindow_new (rw_duration_nanos w).

(** [Iterator::max] of integers. *)
Definition max_opt (l : list Z) : option Z :=
  foldr (fun x best => Some (match best with Some b => Z.max x b | None => x end)) None l.

Definition latest_elapsed_ms (w : RollingWindow) : option Z :=
  max_opt (omap id
    [ir_elapsed_ms <$> last (rw_intervals w);
     fe_elapsed_ms <$> last (rw_frames w);
     ld_elapsed_ms <$> last (rw_diagnoses w);
     last (rw_irq_events w) ≫= iq_elapsed_ms;
     bi_elapsed_ms <$> last (rw_block_io_events w);
     gs_elapsed_ms <$> last (rw_gpu_samples w);
     cf_elapsed_ms <$> last (rw_cpu_freq_events w);
     fg_elapsed_ms <$> last (rw_foreground_events w);
     wpr_elapsed_ms <$> last (rw_workload_progress w)]).

Definition prune_to (w : RollingWindow) (now_elapsed_ms : Z) : RollingWindow :=
  let start_ms := window_start_ms_for w now_elapsed_ms in
  {| rw_duration_nanos := rw_duration_nanos w;
     rw_intervals := drain_front_before_elapsed ir_elapsed_ms start_ms (rw_intervals w);
     rw_frames := drain_front_before_elapsed fe_elapsed_ms start_ms (rw_frames w);
     rw_diagnoses := drain_front_before_elapsed ld_elapsed_ms start_ms (rw_diagnoses w);
     rw_irq_events := drain_front_before_elapsed irq_elapsed start_ms (rw_irq_events w);
     rw_block_io_events := drain_front_before_elapsed bi_elapsed_ms start_ms (rw_block_io_events w);
     rw_gpu_samples := drain_front_before_elapsed gs_elapsed_ms start_ms (rw_gpu_samples w);
     rw_cpu_freq_events := drain_front_before_elapsed cf_elapsed_ms start_ms (rw_cpu_freq_events w);
     rw_foreground_events :=
       drain_front_before_elapsed fg_elapsed_ms start_ms (rw_foreground_events w);
     rw_workload_progress :=
       drain_front_before_elapsed wpr_elapsed_ms start_ms (rw_workload_progress w);
     rw_dropped_invalid_frames := rw_dropped_invalid_frames w |}.

(** Assignments of one field. *)
Definition set_intervals (w : RollingWindow) (q : list IntervalRecord) : RollingWindow :=
  {| rw_duration_nanos := rw_duration_nanos w; rw_intervals := q; rw_frames := rw_frames w;
     rw_diagnoses := rw_diagnoses w; rw_irq_events := rw_irq_events w;
     rw_block_io_events := rw_block_io_events w; rw_gpu_samples := rw_gpu_samples w;
     rw_cpu_freq_events := rw_cpu_freq_events w; rw_foreground_events := rw_foreground_events w;
     rw_workload_progress := rw_workload_progress w;
     rw_dropped_invalid_frames := rw_dropped_invalid_frames w |}.

Definition set_frames (w : RollingWindow) (q : list FrameEvent) (dropped : Z) : RollingWindow :=
  {| rw_duration_nanos := rw_duration_nanos w; rw_intervals := rw_intervals w; rw_frames := q;
     rw_diagnoses := rw_diagnoses w; rw_irq_events := rw_irq_events w;
     rw_block_io_events := rw_block_io_events w; rw_gpu_samples := rw_gpu_samples w;
     rw_cpu_freq_events := rw_cpu_freq_events w; rw_foreground_events := rw_foreground_events w;
     rw_workload_progress := rw_workload_progress w; rw_dropped_invalid_frames := dropped |}.

Definition set_diagnoses (w : RollingWindow) (q : list LiveDiagnosisEntry) : RollingWindow :=
  {| rw_duration_nanos := rw_duration_nanos w; rw_intervals := rw_intervals w;
     rw_frames := rw_frames w; rw_diagnoses := q; rw_irq_events := rw_irq_events w;
     rw_block_io_events := rw_block_io_events w; rw_gpu_samples := rw_gpu_samples w;
     rw_cpu_freq_events := rw_cpu_freq_events w; rw_foreground_events := rw_foreground_events w;
     rw_workload_progress := rw_workload_progress w;
     rw_dropped_invalid_frames := rw_dropped_invalid_frames w |}.

Definition set_irq_events (w : RollingWindow) (q : list IrqEventRecord) : RollingWindow :=
  {| rw_duration_nanos := rw_duration_nanos w; rw_intervals := rw_intervals w;
     rw_frames := rw_frames w; rw_diagnoses := rw_diagnoses w; rw_irq_events := q;
     rw_block_io_events := rw_block_io_events w; rw_gpu_samples := rw_gpu_samples w;
     rw_cpu_freq_events := rw_cpu_freq_events w; rw_foreground_events := rw_foreground_events w;
     rw_workload_progress := rw_workload_progress w;
     rw_dropped_invalid_frames := rw_dropped_invalid_frames w |}.

Definition set_block_io_events (w : RollingWindow) (q : list BlockIoRecord) : RollingWindow :=
  {| rw_duration_nanos := rw_duration_nanos w; rw_intervals := rw_intervals w;
     rw_frames := rw_frames w; rw_diagnoses := rw_diagnoses w; rw_irq_events := rw_irq_events w;
     rw_block_io_events := q; rw_gpu_samples := rw_gpu_samples w;
     rw_cpu_freq_events := rw_cpu_freq_events w; rw_foreground_events := rw_foreground_events w;
     rw_workload_progress := rw_workload_progress w;
     rw_dropped_invalid_frames := rw_dropped_invalid_frames w |}.

Definition set_gpu_samples (w : RollingWindow) (q : list GpuSample) : RollingWindow :=
  {| rw_duration_nanos := rw_duration_nanos w; rw_intervals := rw_intervals w;
     rw_frames := rw_frames w; rw_diagnoses := rw_diagnoses w; rw_irq_events := rw_irq_events w;
     rw_block_io_events := rw_block_io_events w; rw_gpu_samples := q;
     rw_cpu_freq_events := rw_cpu_freq_events w; rw_foreground_events := rw_foreground_events w;
     rw_workload_progress := rw_workload_progress w;
     rw_dropped_invalid_frames := rw_dropped_invalid_frames w |}.

Definition set_cpu_freq_events (w : RollingWindow) (q : list CpuFreqRecord) : RollingWindow :=
  {| rw_duration_nanos := rw_duration_nanos w; rw_intervals := rw_intervals w;
     rw_frames := rw_frames w; rw_diagnoses := rw_diagnoses w; rw_irq_events := rw_irq_events w;
     rw_block_io_events := rw_block_io_events w; rw_gpu_samples := rw_gpu_samples w;
     rw_cpu_freq_events := q; rw_foreground_events := rw_foreground_events w;
     rw_workload_progress := rw_workload_progress w;
     rw_dropped_invalid_frames := rw_dropped_invalid_frames w |}.

Definition set_foreground_events (w : RollingWindow) (q : list ForegroundEvent) : RollingWindow :=
  {| rw_duration_nanos := rw_duration_nanos w; rw_intervals := rw_intervals w;
     rw_frames := rw_frames w; rw_diagnoses := rw_diagnoses w; rw_irq_events := rw_irq_events w;
     rw_block_io_events := rw_block_io_events w; rw_gpu_samples := rw_gpu_samples w;
     rw_cpu_freq_events := rw_cpu_freq_events w; rw_foreground_events := q;
     rw_workload_progress := rw_workload_progress w;
     rw_dropped_invalid_frames := rw_dropped_invalid_frames w |}.

Definition set_workload_progress (w : RollingWindow) (q : list WorkloadProgressRecord) : RollingWindow :=
  {| rw_duration_nanos := rw_duration_nanos w; rw_intervals := rw_intervals w;
     rw_frames := rw_frames w; rw_diagnoses := rw_diagnoses w; rw_irq_events := rw_irq_events w;
     rw_block_io_events := rw_block_io_events w; rw_gpu_samples := rw_gpu_samples w;
     rw_cpu_freq_events := rw_cpu_freq_events w; rw_foreground_events := rw_foreground_events w;
     rw_workload_progress := q; rw_dropped_invalid_frames := rw_dropped_invalid_frames w |}.

Definition push_workload_progress (w : RollingWindow) (record : WorkloadProgressRecord) : RollingWindow :=
  let elapsed_ms := wpr_elapsed_ms record in
  let w := set_workload_progress w
             (push_sorted_by_elapsed wpr_elapsed_ms record (rw_workload_progress w)) in
  prune_to w (Z.max (default elapsed_ms (latest_elapsed_ms w)) elapsed_ms).

Definition push_interval (w : RollingWindow) (record : IntervalRecord) : RollingWindow :=
  prune_to (set_intervals w (push_sorted_by_elapsed ir_elapsed_ms record (rw_intervals w)))
    (ir_elapsed_ms record).

(** The batch joins the queue and both are sorted again; an empty batch returns. *)
Definition push_intervals (w : RollingWindow) (records : list IntervalRecord) : RollingWindow :=
  match records with
  | [] => w
  | _ =>
      let q := sort_by_elapsed ir_elapsed_ms
                 (rw_intervals w ++ sort_by_elapsed ir_elapsed_ms records) in
      match last q with
      | Some newest => prune_to (set_intervals w q) (ir_elapsed_ms newest)
      | None => set_intervals w q
      end
  end.

Definition push_frame (w : RollingWindow) (frame : FrameEvent) : RollingWindow :=
  if negb (is_valid_frametime_ms (fe_frametime_ms frame)) then
    prune_to (set_frames w (rw_frames w) (saturating_add_u64 (rw_dropped_invalid_frames w) 1))
      (fe_elapsed_ms frame)
  else
    prune_to (set_frames w (push_sorted_by_elapsed fe_elapsed_ms frame (rw_frames w))
                (rw_dropped_invalid_frames w))
      (fe_elapsed_ms frame).

Definition with_elapsed (e : IrqEventRecord) (elapsed_ms : Z) : IrqEventRecord :=
  {| iq_elapsed_ms := Some elapsed_ms; iq_irq := iq_irq e; iq_cpu := iq_cpu e;
     iq_enter_ns := iq_enter_ns e; iq_exit_ns := iq_exit_ns e; iq_duration_ns := iq_duration_ns e |}.

(** [a.or_else_latest(b)]. *)
Definition or_else_latest {A} (a b : option A) : option A := match a with Some x => Some x | None => b end.

Definition push_irq_event (w : RollingWindow) (event : IrqEventRecord) : RollingWindow :=
  match or_else_latest (iq_elapsed_ms event) (latest_elapsed_ms w) with
  | None => w
  | Some elapsed_ms =>
      prune_to (set_irq_events w (push_sorted_by_elapsed irq_elapsed (with_elapsed event elapsed_ms)
                                    (rw_irq_events w)))
        elapsed_ms
  end.

Definition push_block_io_event (w : RollingWindow) (event : BlockIoRecord) : RollingWindow :=
  prune_to (set_block_io_events w (push_sorted_by_elapsed bi_elapsed_ms event (rw_block_io_events w)))
    (bi_elapsed_ms event).

Definition push_gpu_sample (w : RollingWindow) (sample : GpuSample) : RollingWindow :=
  prune_to (set_gpu_samples w (push_sorted_by_elapsed gs_elapsed_ms sample (rw_gpu_samples w)))
    (gs_elapsed_ms sample).

Definition push_cpu_freq_event (w : RollingWindow) (event : CpuFreqRecord) : RollingWindow :=
  prune_to (set_cpu_freq_events w (push_sorted_by_elapsed cf_elapsed_ms event (rw_cpu_freq_events w)))
    (cf_elapsed_ms event).

Definition push_foreground_event (w : RollingWindow) (event : ForegroundEvent) : RollingWindow :=
  prune_to
    (set_foreground_events w (push_sorted_by_elapsed fg_elapsed_ms event (rw_foreground_events w)))
    (fg_elapsed_ms event).

Definition push_diagnosis (w : RollingWindow) (diagnosis : LiveDiagnosisEntry) : RollingWindow :=
  prune_to (set_diagnoses w (push_sorted_by_elapsed ld_elapsed_ms diagnosis (rw_diagnoses w)))
    (ld_elapsed_ms diagnosis).

Definition retain_latest_window (w : RollingWindow) : RollingWindow :=
  match latest_elapsed_ms w with Some now_elapsed_ms => prune_to w now_elapsed_ms | None => w end.

(** [usize] counts add up saturating; the lengths of queues are far below. *)
Definition total_event_count (w : RollingWindow) : Z :=
  foldl saturating_add_u64 (Z.of_nat (length (rw_intervals w)))
    (Z.of_nat <$> [length (rw_frames w); length (rw_diagnoses w); length (rw_irq_events w);
                   length (rw_block_io_events w); length (rw_gpu_samples w);
                   length (rw_cpu_freq_events w); length (rw_foreground_events w);
                   length (rw_workload_progress w)]).

(** ** Sequences of operations *)

Inductive WindowOp :=
| PushWorkloadProgress (record : WorkloadProgressRecord)
| PushInterval (record : IntervalRecord)
| PushIntervals (records : list IntervalRecord)
| PushFrame (frame : FrameEvent)
| PushIrqEvent (event : IrqEventRecord)
| PushBlockIoEvent (event : BlockIoRecord)
| PushGpuSample (sample : GpuSample)
| PushCpuFreqEvent (event : CpuFreqRecord)
| PushForegroundEvent (event : ForegroundEvent)
| PushDiagnosis (diagnosis : LiveDiagnosisEntry)
| PruneTo (now_elapsed_ms : Z)
| RetainLatestWindow
| ClearWindow.

Definition window_step (w : RollingWindow) (op : WindowOp) : RollingWindow :=
  match op with
  | PushWorkloadProgress r => push_workload_progress w r
  | PushInterval r => push_interval w r
  | PushIntervals rs => push_intervals w rs
  | PushFrame f => push_frame w f
  | PushIrqEvent e => push_irq_event w e
  | PushBlockIoEvent e => push_block_io_event w e
  | PushGpuSample s => push_gpu_sample w s
  | PushCpuFreqEvent e => push_cpu_freq_event w e
  | PushForegroundEvent e => push_foreground_event w e
  | PushDiagnosis d => push_diagnosis w d
  | PruneTo now => prune_to w now
  | RetainLatestWindow => retain_latest_window w
  | ClearWindow => window_clear w
  end.

Definition window_run (duration_nanos : Z) (ops : list WindowOp) : RollingWindow :=
  foldl window_step (RollingWindow_new duration_nanos) ops.

(** ** Specification: one log in the order of arrival *)

Inductive Sample :=
| SInterval (record : IntervalRecord)
| SFrame (frame : FrameEvent)
| SDiagnosis (diagnosis : LiveDiagnosisEntry)
| SIrq (event : IrqEventRecord)
| SBlockIo (event : BlockIoRecord)
| SGpu (sample : GpuSample)
| SCpuFreq (event : CpuFreqRecord)
| SForeground (event : ForegroundEvent)
| SProgress (record : WorkloadProgressRecord).

Definition sample_elapsed (s : Sample) : Z :=
  match s with
  | SInterval r => ir_elapsed_ms r
  | SFrame f => fe_elapsed_ms f
  | SDiagnosis d => ld_elapsed_ms d
  | SIrq e => irq_elapsed e
  | SBlockIo e => bi_elapsed_ms e
  | SGpu s => gs_elapsed_ms s
  | SCpuFreq e => cf_elapsed_ms e
  | SForeground e => fg_elapsed_ms e
  | SProgress r => wpr_elapsed_ms r
  end.

(** The samples of one kind. *)
Definition as_interval (s : Sample) := match s with SInterval r => Some r | _ => None end.
Definition as_frame (s : Sample) := match s with SFrame r => Some r | _ => None end.
Definition as_diagnosis (s : Sample) := match s with SDiagnosis r => Some r | _ => None end.
Definition as_irq (s : Sample) := match s with SIrq r => Some r | _ => None end.
Definition as_block_io (s : Sample) := match s with SBlockIo r => Some r | _ => None end.
Definition as_gpu (s : Sample) := match s with SGpu r => Some r | _ => None end.
Definition as_cpu_freq (s : Sample) := match s with SCpuFreq r => Some r | _ => None end.
Definition as_foreground (s : Sample) := match s with SForeground r => Some r | _ => None end.
Definition as_progress (s : Sample) := match s with SProgress r => Some r | _ => None end.

Definition log_start (duration_nanos now : Z) : Z :=
  saturating_sub now (Z.min (duration_nanos / 1000000) U64_MAX).

Definition log_prune (duration_nanos now : Z) (l : list Sample) : list Sample :=
  filter (fun s => log_start duration_nanos now <= sample_elapsed s) l.

Definition log_latest (l : list Sample) : option Z := max_opt (sample_elapsed <$> l).

(** The samples arrive together and the log is pruned once. *)
Definition log_push (duration_nanos now : Z) (new l : list Sample) : list Sample :=
  log_prune duration_nanos now (l ++ new).

(** The samples of a log and the number of frames that were refused. *)
Definition log_step (d : Z) '(l, invalid) (op : WindowOp) : list Sample * Z :=
  match op with
  | PushWorkloadProgress r =>
      let l := l ++ [SProgress r] in
      (log_prune d (default (wpr_elapsed_ms r) (log_latest l)) l, invalid)
  | PushInterval r => (log_push d (ir_elapsed_ms r) [SInterval r] l, invalid)
  | PushIntervals rs =>
      let l' := l ++ (SInterval <$> rs) in
      match rs, max_opt (ir_elapsed_ms <$> omap as_interval l') with
      | _ :: _, Some newest => (log_prune d newest l', invalid)
      | _, _ => (l, invalid)
      end
  | PushFrame f =>
      if is_valid_frametime_ms (fe_frametime_ms f)
      then (log_push d (fe_elapsed_ms f) [SFrame f] l, invalid)
      else (log_prune d (fe_elapsed_ms f) l, saturating_add_u64 invalid 1)
  | PushIrqEvent e =>
      match or_else_latest (iq_elapsed_ms e) (log_latest l) with
      | Some now => (log_push d now [SIrq (with_elapsed e now)] l, invalid)
      | None => (l, invalid)
      end
  | PushBlockIoEvent e => (log_push d (bi_elapsed_ms e) [SBlockIo e] l, invalid)
  | PushGpuSample s => (log_push d (gs_elapsed_ms s) [SGpu s] l, invalid)
  | PushCpuFreqEvent e => (log_push d (cf_elapsed_ms e) [SCpuFreq e] l, invalid)
  | PushForegroundEvent e => (log_push d (fg_elapsed_ms e) [SForeground e] l, invalid)
  | PushDiagnosis x => (log_push d (ld_elapsed_ms x) [SDiagnosis x] l, invalid)
  | PruneTo now => (log_prune d now l, invalid)
  | RetainLatestWindow =>
      match log_latest l with Some now => (log_prune d now l, invalid) | None => (l, invalid) end
  | ClearWindow => ([], 0)
  end.

Definition log_run (duration_nanos : Z) (ops : list WindowOp) : list Sample * Z :=
  foldl (log_step duration_nanos) ([], 0) ops.

(** A queue that holds the samples of one kind of the log, in time order, samples
    of one time in the order of arrival. *)
Definition queue_of {A} (elapsed : A -> Z) (as_kind : Sample -> option A) (l : list Sample) : list A :=
  sort_by_elapsed elapsed (omap as_kind l).

Record represents (d : Z) (w : RollingWindow) (l : list Sample) (invalid : Z) : Prop := {
  rep_duration : rw_duration_nanos w = d;
  rep_intervals : rw_intervals w = queue_of ir_elapsed_ms as_interval l;
  rep_frames : rw_frames w = queue_of fe_elapsed_ms as_frame l;
  rep_diagnoses : rw_diagnoses w = queue_of ld_elapsed_ms as_diagnosis l;
  rep_irq : rw_irq_events w = queue_of irq_elapsed as_irq l;
  rep_block_io : rw_block_io_events w = queue_of bi_elapsed_ms as_block_io l;
  rep_gpu : rw_gpu_samples w = queue_of gs_elapsed_ms as_gpu l;
  rep_cpu_freq : rw_cpu_freq_events w = queue_of cf_elapsed_ms as_cpu_freq l;
  rep_foreground : rw_foreground_events w = queue_of fg_elapsed_ms as_foreground l;
  rep_progress : rw_workload_progress w = queue_of wpr_elapsed_ms as_progress l;
  rep_dropped : rw_dropped_invalid_frames w = invalid;
  rep_irq_timed : Forall (fun s => forall e, s = SIrq e -> is_Some (iq_elapsed_ms e)) l }.

(** ** Queue lemmas *)

Lemma max_opt_cons x (l : list Z) :
  max_opt (x :: l) = Some (match max_opt l with Some b => Z.max x b | None => x end).
Proof. done. Qed.

Lemma max_opt_spec (l : list Z) m : max_opt l = Some m <-> m ∈ l /\ Forall (fun x => x <= m) l.
Proof.
  revert m. induction l as [|x l IH]; intros m; [|rewrite max_opt_cons].
  - split; [done|]. intros [H _]. by apply elem_of_nil in H.
  - rewrite elem_of_cons, Forall_cons. destruct (max_opt l) as [b|] eqn:E.
    + destruct (proj1 (IH b) eq_refl) as [Hb Hl]. split.
      * intros [= <-]. split; [|split; [lia|]].
        -- destruct (Z.max_spec x b) as [[_ ->]|[_ ->]]; auto.
        -- eapply Forall_impl; [exact Hl|]. cbn. lia.
      * intros (Hm & Hx & Hm'). f_equal. rewrite Forall_forall in Hl, Hm'.
        specialize (Hm' b Hb). destruct Hm as [->|Hm]; [lia|]. specialize (Hl m Hm). lia.
    + assert (l = []) as -> by (by destruct l). split.
      * intros [= <-]. split; [auto|]. split; [lia|constructor].
      * intros ([->|H] & _); [done|]. by apply elem_of_nil in H.
Qed.

Lemma max_opt_none (l : list Z) : max_opt l = None <-> l = [].
Proof. by destruct l. Qed.

(** The maximum of some values that are in a list and bound it. *)
Lemma max_opt_cover (candidates : list (option Z)) (l : list Z) :
  Forall (fun c => forall m, c = Some m -> m ∈ l) candidates ->
  (forall x, x ∈ l -> exists m, Some m ∈ candidates /\ x <= m) ->
  max_opt (omap id candidates) = max_opt l.
Proof.
  intros Hin Hcover. rewrite Forall_forall in Hin. destruct (max_opt l) as [m|] eqn:E.
  - apply max_opt_spec in E as [Hm Hl]. rewrite Forall_forall in Hl. apply max_opt_spec.
    destruct (Hcover m Hm) as (m' & Hm' & Hle).
    assert (m' = m) as -> by (pose proof (Hl m' (Hin _ Hm' _ eq_refl)); lia). split.
    + apply list_elem_of_omap. by exists (Some m).
    + apply Forall_forall. intros x (c & Hc & Hx)%list_elem_of_omap. apply Hl. by apply (Hin c).
  - apply max_opt_none in E as ->. apply max_opt_none. destruct (omap id candidates) as [|x k] eqn:E; [done|].
    assert (x ∈ omap id candidates) as (c & Hc & Hx)%list_elem_of_omap by (rewrite E; left).
    specialize (Hin c Hc x Hx). by apply elem_of_nil in Hin.
Qed.

Section QueueLemmas.
Context {A : Type} (elapsed : A -> Z).
Implicit Types (x y : A) (l q : list A).
#[local] Abbreviation sort := (sort_by_elapsed elapsed).
#[local] Abbreviation ib := (insert_before (earlier elapsed)).
#[local] Abbreviation sorted := (Sorted.StronglySorted (earlier elapsed)).

#[local] Instance earlier_trans : Transitive (earlier elapsed).
Proof. intros x y z. unfold earlier. lia. Qed.
#[local] Instance earlier_total : Total (earlier elapsed).
Proof. intros x y. unfold earlier. lia. Qed.

Lemma sort_sorted l : sorted (sort l).
Proof. apply StronglySorted_stable_sort; apply _. Qed.

Lemma sort_perm l : sort l ≡ₚ l.
Proof. apply stable_sort_Permutation. Qed.

Lemma drain_sorted start l :
  sorted l -> drain_front_before_elapsed elapsed start l = filter (fun x => start <= elapsed x) l.
Proof.
  induction 1 as [|x l Hl IH Hx]; [done|]. cbn [drain_front_before_elapsed]. zbool.
  - by rewrite filter_cons_False by lia.
  - rewrite filter_cons_True by lia. f_equal. symmetry. apply filter_all.
    eapply Forall_impl; [exact Hx|]. unfold earlier. lia.
Qed.

Lemma filter_insert_before (P : A -> Prop) `{!forall x, Decision (P x)} x l :
  sorted l ->
  filter P (ib x l) = if decide (P x) then ib x (filter P l) else filter P l.
Proof.
  induction 1 as [|y l Hl IH Hy]; cbn [insert_before].
  - by destruct (decide (P x)); [rewrite filter_cons_True by done|rewrite filter_cons_False by done].
  - destruct (decide (P x)) as [HP|HP], (decide (P y)) as [HPy|HPy];
      case_decide as Hxy;
      rewrite ?(filter_cons_True P x) by done; rewrite ?(filter_cons_False P x) by done;
      rewrite ?(filter_cons_True P y) by done; rewrite ?(filter_cons_False P y) by done;
      rewrite ?IH; cbn [insert_before]; try case_decide; try done.
    destruct (filter P l) as [|z k] eqn:E; [done|]. cbn. rewrite decide_True; [done|].
    assert (z ∈ filter P l) as Hz by (rewrite E; left). apply list_elem_of_filter in Hz as [_ Hz].
    rewrite Forall_forall in Hy. transitivity y; auto.
Qed.

Lemma filter_sort (P : A -> Prop) `{!forall x, Decision (P x)} l :
  filter P (sort l) = sort (filter P l).
Proof.
  induction l as [|x l IH]; [done|]. unfold sort_by_elapsed, stable_sort in *. cbn [foldr].
  rewrite filter_insert_before by apply sort_sorted.
  rewrite IH. case_decide; [by rewrite filter_cons_True|by rewrite filter_cons_False].
Qed.

(** Where [push_sorted_by_elapsed] puts an item. *)
Fixpoint insert_after (x : A) (l : list A) : list A :=
  match l with
  | [] => [x]
  | y :: l => if elapsed y <=? elapsed x then y :: insert_after x l else x :: y :: l
  end.

Lemma rposition_none p l : Forall (fun x => p x = false) l -> rposition p l = None.
Proof. by induction 1 as [|x l H Hl IH]; cbn; [|rewrite IH, H]. Qed.

Lemma push_sorted_insert x l : sorted l -> push_sorted_by_elapsed elapsed x l = insert_after x l.
Proof.
  unfold push_sorted_by_elapsed. induction 1 as [|y l Hl IH Hy]; [done|]. cbn [rposition insert_after].
  destruct (elapsed y <=? elapsed x) eqn:E.
  - destruct (rposition _ l); cbn in *; by rewrite <-IH.
  - rewrite rposition_none; [done|]. eapply Forall_impl; [exact Hy|]. unfold earlier. lia.
Qed.

Lemma insert_after_before x y l : ib y (insert_after x l) = insert_after x (ib y l).
Proof.
  induction l as [|z l IH]; cbn.
  - unfold earlier. case_decide; zbool; done || lia.
  - unfold earlier in *. repeat (zbool || case_decide || cbn); rewrite ?IH; done || lia.
Qed.

Lemma push_sort x l : push_sorted_by_elapsed elapsed x (sort l) = sort (l ++ [x]).
Proof.
  rewrite push_sorted_insert by apply sort_sorted. induction l as [|y l IH]; [done|].
  unfold sort_by_elapsed, stable_sort in *. cbn. by rewrite <-IH, insert_after_before.
Qed.

Lemma sort_of_sorted l : sorted l -> sort l = l.
Proof.
  induction 1 as [|x l Hl IH Hx]; [done|]. unfold sort_by_elapsed, stable_sort in *. cbn.
  rewrite IH. destruct l as [|y l]; [done|]. cbn. apply Forall_cons_1 in Hx as [Hx _].
  by rewrite decide_True.
Qed.

Lemma insert_before_comm x y l : elapsed y < elapsed x -> ib y (ib x l) = ib x (ib y l).
Proof.
  intros H. induction l as [|z l IH]; cbn; unfold earlier in *;
    repeat (case_decide || cbn); rewrite ?IH; done || lia.
Qed.

Lemma foldr_insert_before x q s : foldr ib s (ib x q) = ib x (foldr ib s q).
Proof.
  induction q as [|z q IH]; [done|]. cbn. case_decide as H; [done|]. cbn. rewrite IH.
  apply insert_before_comm. unfold earlier in H. lia.
Qed.

Lemma sort_app_sorted l m : sort (sort l ++ sort m) = sort (l ++ m).
Proof.
  unfold sort_by_elapsed, stable_sort. rewrite !foldr_app.
  assert (forall s, foldr ib s (foldr ib [] l) = foldr ib s l) as ->.
  { intros s. induction l as [|x l IH]; [done|]. cbn. by rewrite foldr_insert_before, IH. }
  f_equal. exact (sort_of_sorted _ (sort_sorted m)).
Qed.

Lemma last_sort l : elapsed <$> last (sort l) = max_opt (elapsed <$> l).
Proof.
  destruct (last (sort l)) as [x|] eqn:E; cbn; symmetry.
  - apply max_opt_spec. apply last_Some in E as [q E].
    pose proof (sort_perm l) as Hp. pose proof (sort_sorted l) as Hs. rewrite E in Hp, Hs.
    split; [by rewrite <-Hp, fmap_app; set_solver|]. rewrite <-Hp, fmap_app, Forall_app.
    split; [|repeat constructor; lia]. rewrite Forall_fmap.
    clear E Hp. induction q as [|y q IH]; [constructor|]. apply Sorted.StronglySorted_inv in Hs as [Hs Hy].
    constructor; [|auto]. rewrite Forall_app in Hy. destruct Hy as [_ Hy%Forall_cons_1]. apply Hy.
  - apply last_None in E. pose proof (sort_perm l) as Hp. rewrite E in Hp.
    by apply Permutation_nil_l in Hp as <-.
Qed.

End QueueLemmas.

(** ** The window represents the log *)

Section Kinds.
Context {A : Type} (elapsed : A -> Z) (as_kind : Sample -> option A).
Hypothesis kind_elapsed : forall s x, as_kind s = Some x -> elapsed x = sample_elapsed s.
Implicit Types (l : list Sample) (s : Sample).
#[local] Abbreviation queue := (queue_of elapsed as_kind).

Lemma queue_push l s x :
  as_kind s = Some x -> push_sorted_by_elapsed elapsed x (queue l) = queue (l ++ [s]).
Proof. intros H. unfold queue_of. rewrite push_sort, omap_app. cbn. by rewrite H. Qed.

Lemma queue_skip l k : omap as_kind k = [] -> queue (l ++ k) = queue l.
Proof. intros H. unfold queue_of. by rewrite omap_app, H, app_nil_r. Qed.

Lemma queue_prune start l :
  drain_front_before_elapsed elapsed start (queue l)
  = queue (filter (fun s => start <= sample_elapsed s) l).
Proof.
  unfold queue_of. rewrite drain_sorted by apply sort_sorted. rewrite filter_sort. f_equal.
  induction l as [|s l IH]; [done|]. cbn [omap list_omap]. destruct (as_kind s) as [x|] eqn:E.
  - apply kind_elapsed in E as Hx. destruct (decide (start <= sample_elapsed s)).
    + rewrite !filter_cons_True by lia. cbn. rewrite E. f_equal. exact IH.
    + rewrite !filter_cons_False by lia. exact IH.
  - destruct (decide (start <= sample_elapsed s)).
    + rewrite filter_cons_True by lia. cbn. rewrite E. exact IH.
    + rewrite filter_cons_False by lia. exact IH.
Qed.

(** The newest sample of a kind. *)
Lemma queue_newest l : elapsed <$> last (queue l) = max_opt (elapsed <$> omap as_kind l).
Proof. apply last_sort. Qed.

Lemma queue_newest_in l m :
  elapsed <$> last (queue l) = Some m -> m ∈ sample_elapsed <$> l.
Proof.
  rewrite queue_newest. intros [H _]%max_opt_spec. apply list_elem_of_fmap in H as (x & -> & H).
  apply list_elem_of_omap in H as (s & Hs & H). rewrite (kind_elapsed s x H).
  by apply list_elem_of_fmap_2.
Qed.

Lemma queue_newest_bound l s x :
  s ∈ l -> as_kind s = Some x ->
  exists m, elapsed <$> last (queue l) = Some m /\ sample_elapsed s <= m.
Proof.
  intros Hs Hx. rewrite queue_newest. destruct (max_opt _) as [m|] eqn:E.
  - exists m. split; [done|]. apply max_opt_spec in E as [_ E]. rewrite Forall_fmap, Forall_forall in E.
    rewrite <-(kind_elapsed s x Hx). apply (E x). apply list_elem_of_omap. by exists s.
  - apply max_opt_none, fmap_nil_inv in E.
    assert (x ∈ omap as_kind l) as H by (apply list_elem_of_omap; by exists s).
    rewrite E in H. by apply elem_of_nil in H.
Qed.
End Kinds.

Ltac kind_elapsed := by intros [] ?; cbn; intros; simplify_eq.

Section Refinement.
Implicit Types (w : RollingWindow) (l : list Sample).

Lemma represents_new d : represents d (RollingWindow_new d) [] 0.
Proof. by split. Qed.

Lemma represents_prune d w l n now :
  represents d w l n -> represents d (prune_to w now) (log_prune d now l) n.
Proof.
  intros []. unfold prune_to, log_prune.
  assert (window_start_ms_for w now = log_start d now) as -> by (unfold window_start_ms_for, duration_ms; by simplify_eq).
  split; cbn; try done;
    repeat match goal with H : rw_duration_nanos _ = _ |- _ => clear H end;
    try (match goal with H : ?q = _ |- drain_front_before_elapsed _ _ ?q = _ => rewrite H end;
         apply queue_prune; kind_elapsed).
  apply Forall_forall. intros s [_ Hs]%list_elem_of_filter. 
  match goal with H : Forall _ l |- _ => rewrite Forall_forall in H; exact (H s Hs) end.
Qed.

Lemma irq_newest l :
  Forall (fun s => forall e, s = SIrq e -> is_Some (iq_elapsed_ms e)) l ->
  last (queue_of irq_elapsed as_irq l) ≫= iq_elapsed_ms
  = irq_elapsed <$> last (queue_of irq_elapsed as_irq l).
Proof.
  intros Hl. destruct (last _) as [e|] eqn:E; cbn; [|done]. apply last_Some in E as [q E].
  assert (e ∈ queue_of irq_elapsed as_irq l) as He by (rewrite E; set_solver).
  unfold queue_of in He. rewrite sort_perm in He. apply list_elem_of_omap in He as (s & Hs & He).
  rewrite Forall_forall in Hl. destruct s; simplify_eq/=. destruct (Hl _ Hs e) as [x Hx]; [done|].
  unfold irq_elapsed. by rewrite Hx.
Qed.

Lemma represents_latest d w l n : represents d w l n -> latest_elapsed_ms w = log_latest l.
Proof.
  intros []. unfold latest_elapsed_ms, log_latest. simplify_eq.
  repeat match goal with H : _ w = queue_of _ _ _ |- _ => rewrite H; clear H end.
  rewrite irq_newest by done. apply max_opt_cover.
  - repeat (apply Forall_cons_2; [intros m; apply queue_newest_in; kind_elapsed|]). by apply Forall_nil_2.
  - intros x Hx. apply list_elem_of_fmap in Hx as (s & -> & Hs).
    assert (forall {A} (f : A -> Z) k, (forall s x, k s = Some x -> f x = sample_elapsed s) ->
      is_Some (k s) -> exists m, f <$> last (queue_of f k l) = Some m /\ sample_elapsed s <= m) as Hk.
    { intros A f k Hf [x Hx]. by apply (queue_newest_bound f k Hf l s x). }
    destruct s; [edestruct (Hk _ ir_elapsed_ms as_interval) as (m & Hm & ?)
      |edestruct (Hk _ fe_elapsed_ms as_frame) as (m & Hm & ?)
      |edestruct (Hk _ ld_elapsed_ms as_diagnosis) as (m & Hm & ?)
      |edestruct (Hk _ irq_elapsed as_irq) as (m & Hm & ?)
      |edestruct (Hk _ bi_elapsed_ms as_block_io) as (m & Hm & ?)
      |edestruct (Hk _ gs_elapsed_ms as_gpu) as (m & Hm & ?)
      |edestruct (Hk _ cf_elapsed_ms as_cpu_freq) as (m & Hm & ?)
      |edestruct (Hk _ fg_elapsed_ms as_foreground) as (m & Hm & ?)
      |edestruct (Hk _ wpr_elapsed_ms as_progress) as (m & Hm & ?)];
      try kind_elapsed; try done; exists m; split; try done; rewrite <-Hm; set_solver.
Qed.

Ltac represent_push :=
  intros []; split; cbn; try done;
  try (by rewrite queue_skip);
  try (match goal with H : ?q = _ |- push_sorted_by_elapsed _ _ ?q = _ => rewrite H end;
       by apply queue_push);
  apply Forall_app; split; [done|]; apply Forall_cons_2; [|by apply Forall_nil_2];
  intros ? ?; simplify_eq/=; done.

Lemma represents_interval d w l n r :
  represents d w l n ->
  represents d (set_intervals w (push_sorted_by_elapsed ir_elapsed_ms r (rw_intervals w)))
    (l ++ [SInterval r]) n.
Proof. represent_push. Qed.

Lemma represents_frame d w l n f :
  represents d w l n ->
  represents d (set_frames w (push_sorted_by_elapsed fe_elapsed_ms f (rw_frames w))
                  (rw_dropped_invalid_frames w)) (l ++ [SFrame f]) n.
Proof. represent_push. Qed.

Lemma represents_invalid_frame d w l n :
  represents d w l n ->
  represents d (set_frames w (rw_frames w) (saturating_add_u64 (rw_dropped_invalid_frames w) 1)) l
    (saturating_add_u64 n 1).
Proof. intros []. split; cbn; try done. by simplify_eq. Qed.

Lemma represents_diagnosis d w l n x :
  represents d w l n ->
  represents d (set_diagnoses w (push_sorted_by_elapsed ld_elapsed_ms x (rw_diagnoses w)))
    (l ++ [SDiagnosis x]) n.
Proof. represent_push. Qed.

Lemma represents_irq d w l n e now :
  represents d w l n ->
  represents d (set_irq_events w (push_sorted_by_elapsed irq_elapsed (with_elapsed e now) (rw_irq_events w)))
    (l ++ [SIrq (with_elapsed e now)]) n.
Proof. represent_push. Qed.

Lemma represents_block_io d w l n e :
  represents d w l n ->
  represents d (set_block_io_events w (push_sorted_by_elapsed bi_elapsed_ms e (rw_block_io_events w)))
    (l ++ [SBlockIo e]) n.
Proof. represent_push. Qed.

Lemma represents_gpu d w l n s :
  represents d w l n ->
  represents d (set_gpu_samples w (push_sorted_by_elapsed gs_elapsed_ms s (rw_gpu_samples w)))
    (l ++ [SGpu s]) n.
Proof. represent_push. Qed.

Lemma represents_cpu_freq d w l n e :
  represents d w l n ->
  represents d (set_cpu_freq_events w (push_sorted_by_elapsed cf_elapsed_ms e (rw_cpu_freq_events w)))
    (l ++ [SCpuFreq e]) n.
Proof. represent_push. Qed.

Lemma represents_foreground d w l n e :
  represents d w l n ->
  represents d (set_foreground_events w (push_sorted_by_elapsed fg_elapsed_ms e (rw_foreground_events w)))
    (l ++ [SForeground e]) n.
Proof. represent_push. Qed.

Lemma represents_progress d w l n r :
  represents d w l n ->
  represents d (set_workload_progress w (push_sorted_by_elapsed wpr_elapsed_ms r (rw_workload_progress w)))
    (l ++ [SProgress r]) n.
Proof. represent_push. Qed.

Lemma represents_batch d w l n rs :
  represents d w l n ->
  represents d (set_intervals w (sort_by_elapsed ir_elapsed_ms
                  (rw_intervals w ++ sort_by_elapsed ir_elapsed_ms rs)))
    (l ++ (SInterval <$> rs)) n.
Proof.
  assert (forall {A} (k : Sample -> option A), (forall r, k (SInterval r) = None) ->
    omap k (SInterval <$> rs) = []) as Hk.
  { intros A k Hk. induction rs as [|r rs IH]; [done|]. cbn. by rewrite Hk. }
  intros []; split; cbn; try done; try (by rewrite queue_skip by (by apply Hk)).
  - match goal with H : rw_intervals w = _ |- _ => rewrite H end. unfold queue_of.
    rewrite sort_app_sorted, omap_app. do 2 f_equal. clear. induction rs as [|r rs IH]; [done|]. cbn. by f_equal.
  - apply Forall_app. split; [done|]. apply Forall_fmap, Forall_forall. intros r _ e. cbn. done.
Qed.

Lemma latest_covers l s : s ∈ l -> exists m, log_latest l = Some m /\ sample_elapsed s <= m.
Proof.
  intros Hs. unfold log_latest. destruct (max_opt _) as [m|] eqn:E.
  - exists m. split; [done|]. apply max_opt_spec in E as [_ E]. rewrite Forall_fmap, Forall_forall in E.
    by apply E.
  - apply max_opt_none, fmap_nil_inv in E as ->. by apply elem_of_nil in Hs.
Qed.

Lemma represents_step d w l n op :
  represents d w l n ->
  let '(l', n') := log_step d (l, n) op in represents d (window_step w op) l' n'.
Proof.
  intros H. destruct op as [r|r|rs|f|e|e|s|e|e|x|now| |]; cbn.
  - unfold push_workload_progress. pose proof (represents_progress d w l n r H) as Hp.
    rewrite (represents_latest _ _ _ _ Hp).
    destruct (latest_covers (l ++ [SProgress r]) (SProgress r)) as (m & Hm & Hle); [set_solver|].
    rewrite Hm. cbn in *. rewrite Z.max_l by done. by apply represents_prune.
  - by apply represents_prune, represents_interval.
  - destruct rs as [|r rs]; [done|]. set (rs' := r :: rs).
    pose proof (represents_batch d w l n rs' H) as Hb. unfold push_intervals. subst rs'. cbv beta match zeta.
    set (q := sort_by_elapsed _ _) in *.
    assert (q = queue_of ir_elapsed_ms as_interval (l ++ (SInterval <$> r :: rs))) as Eq
      by exact (rep_intervals _ _ _ _ Hb).
    pose proof (queue_newest ir_elapsed_ms as_interval (l ++ (SInterval <$> r :: rs))) as Hn.
    rewrite <-Eq in Hn. rewrite <-Hn. destruct (last q) as [x|] eqn:E; cbn.
    + by apply represents_prune.
    + apply last_None in E. exfalso.
      assert (r ∈ q) as Hr; [|rewrite E in Hr; by apply elem_of_nil in Hr].
      subst q. rewrite sort_perm. apply elem_of_app. right. rewrite sort_perm. left.
  - unfold push_frame. destruct (is_valid_frametime_ms _); cbn.
    + by apply represents_prune, represents_frame.
    + by apply represents_prune, represents_invalid_frame.
  - unfold push_irq_event. rewrite (represents_latest _ _ _ _ H).
    destruct (or_else_latest _ _) as [now|]; [|done]. by apply represents_prune, represents_irq.
  - by apply represents_prune, represents_block_io.
  - by apply represents_prune, represents_gpu.
  - by apply represents_prune, represents_cpu_freq.
  - by apply represents_prune, represents_foreground.
  - by apply represents_prune, represents_diagnosis.
  - by apply represents_prune.
  - unfold retain_latest_window. rewrite (represents_latest _ _ _ _ H).
    destruct (log_latest l); [by apply represents_prune|done].
  - destruct H as [<- _ _ _ _ _ _ _ _ _ _ _]. apply represents_new.
Qed.

(** After any sequence of operations the nine queues hold exactly the samples of the
    log: those that arrived since the last reset and were not older than the window at
    any later push, each queue in time order and first come first served within a
    time; the refused frames are counted. *)
Lemma window_represents d ops :
  represents d (window_run d ops) (log_run d ops).1 (log_run d ops).2.
Proof.
  assert (forall w s, represents d w s.1 s.2 ->
    represents d (foldl window_step w ops) (foldl (log_step d) s ops).1 (foldl (log_step d) s ops).2) as H.
  { induction ops as [|op ops IH]; intros w [l n] H; [done|]. apply IH.
    pose proof (represents_step d w l n op H) as Hs. by destruct (log_step d (l, n) op). }
  apply (H (RollingWindow_new d) ([], 0)), represents_new.
Qed.

(** *** Samples in time order *)

(** The sample of a push that carries its own time. *)
Definition push_of (op : WindowOp) : option Sample :=
  match op with
  | PushWorkloadProgress r => Some (SProgress r)
  | PushInterval r => Some (SInterval r)
  | PushFrame f => if is_valid_frametime_ms (fe_frametime_ms f) then Some (SFrame f) else None
  | PushIrqEvent e => (fun now => SIrq (with_elapsed e now)) <$> iq_elapsed_ms e
  | PushBlockIoEvent e => Some (SBlockIo e)
  | PushGpuSample s => Some (SGpu s)
  | PushCpuFreqEvent e => Some (SCpuFreq e)
  | PushForegroundEvent e => Some (SForeground e)
  | PushDiagnosis x => Some (SDiagnosis x)
  | PushIntervals _ | PruneTo _ | RetainLatestWindow | ClearWindow => None
  end.

Lemma log_step_push d l n op s :
  push_of op = Some s -> Forall (fun x => sample_elapsed x <= sample_elapsed s) l ->
  log_step d (l, n) op = (log_prune d (sample_elapsed s) (l ++ [s]), n).
Proof.
  intros Hp Hl. destruct op; cbn in *; simplify_eq/=; try done.
  - do 2 f_equal. assert (log_latest (l ++ [SProgress record]) = Some (wpr_elapsed_ms record)) as ->; [|done].
    apply max_opt_spec. rewrite fmap_app, Forall_app, Forall_fmap. split; [set_solver|].
    split; [done|]. by repeat constructor.
  - destruct (is_valid_frametime_ms _); [|done]. by simplify_eq/=.
  - destruct (iq_elapsed_ms event) as [now|] eqn:E; [|done]. cbn in *. by simplify_eq/=.
Qed.

Lemma log_start_mono d a b : a <= b -> log_start d a <= log_start d b.
Proof. unfold log_start, saturating_sub. lia. Qed.

Lemma log_prune_twice d a b l k :
  a <= b -> log_prune d b (log_prune d a l ++ k) = log_prune d b (l ++ k).
Proof.
  intros H. unfold log_prune. rewrite !filter_app. f_equal. apply log_start_mono with (d := d) in H.
  induction l as [|s l IH]; [done|]. destruct (decide (log_start d a <= sample_elapsed s)).
  - rewrite (filter_cons_True (fun s => log_start d a <= _)) by done.
    destruct (decide (log_start d b <= sample_elapsed s)).
    + by rewrite !filter_cons_True, IH by done.
    + by rewrite !filter_cons_False, IH by done.
  - rewrite (filter_cons_False (fun s => log_start d a <= _)) by done. rewrite IH.
    by rewrite filter_cons_False by lia.
Qed.

(** Samples that arrive in time order. *)
Definition in_order (ops : list WindowOp) (samples : list Sample) : Prop :=
  push_of <$> ops = Some <$> samples
  /\ Sorted.StronglySorted (fun a b => sample_elapsed a <= sample_elapsed b) samples.

Lemma in_order_log d ops samples now :
  in_order ops samples -> sample_elapsed <$> last samples = Some now ->
  log_run d ops = (log_prune d now samples, 0).
Proof.
  revert samples now. induction ops as [|op ops IH] using rev_ind; intros samples now [Hp Hs] Hn.
  - by destruct samples.
  - destruct samples as [|x samples' _] using rev_ind; [by destruct ops|].
    rewrite !fmap_app in Hp. apply app_inj_tail in Hp as [Hp Hx].
    rewrite last_snoc in Hn. cbn in Hn. simplify_eq.
    assert (Forall (fun y => sample_elapsed y <= sample_elapsed x) samples'
            /\ Sorted.StronglySorted (fun a b => sample_elapsed a <= sample_elapsed b) samples') as [Hle Hs'].
    { clear -Hs. induction samples' as [|y k IHk]; [by split; constructor|].
      apply Sorted.StronglySorted_inv in Hs as [Hs Hy]. destruct (IHk Hs) as [? ?].
      rewrite Forall_app in Hy. destruct Hy as [Hy [Hyx _]%Forall_cons_1]. by split; constructor. }
    unfold log_run. rewrite foldl_app. cbn [foldl]. fold (log_run d ops).
    destruct (last samples') as [y|] eqn:E.
    + rewrite (IH samples' (sample_elapsed y)) by (done || by rewrite E).
      apply last_Some in E as [k ->]. rewrite (log_step_push d _ 0 op x).
      * f_equal. apply log_prune_twice. apply Forall_app in Hle as [_ [Hy _]%Forall_cons_1]. done.
      * done.
      * unfold log_prune. apply Forall_forall. intros s [_ Hin]%list_elem_of_filter.
        rewrite Forall_forall in Hle. by apply Hle.
    + apply last_None in E as ->. destruct ops; [|done]. cbn [log_run foldl].
      by apply log_step_push.
Qed.

(** A sample that arrives late is dropped with a batch of intervals, but a late frame
    stays: its own time is what it is pruned by. *)
Lemma late_frame_kept d ops f :
  0 <= d -> 0 <= fe_elapsed_ms f -> is_valid_frametime_ms (fe_frametime_ms f) = true ->
  f ∈ rw_frames (window_run d (ops ++ [PushFrame f])).
Proof.
  intros Hd Hf Hv. rewrite (rep_frames _ _ _ _ (window_represents d _)). unfold queue_of.
  rewrite sort_perm. apply list_elem_of_omap. exists (SFrame f). split; [|done].
  unfold log_run. rewrite foldl_app. cbn [foldl]. destruct (foldl _ _ ops) as [l n].
  cbn -[is_valid_frametime_ms]. rewrite Hv. cbn [fst]. unfold log_push, log_prune.
  apply list_elem_of_filter. split; [|set_solver]. cbn. unfold log_start, saturating_sub, U64_MAX.
  assert (0 <= d / 1000000) by (apply Z.div_pos; lia). lia.
Qed.

Lemma batch_prunes_window d ops rs m :
  rs <> [] -> max_opt (ir_elapsed_ms <$> omap as_interval (log_run d ops).1 ++ rs) = Some m ->
  Forall (fun s => log_start d m <= sample_elapsed s) (log_run d (ops ++ [PushIntervals rs])).1.
Proof.
  intros Hr Hm. unfold log_run in *. rewrite foldl_app. cbn [foldl].
  destruct (foldl _ _ ops) as [l n]. cbn [fst] in Hm. cbn [log_step].
  assert (omap as_interval (l ++ (SInterval <$> rs)) = omap as_interval l ++ rs) as ->.
  { rewrite omap_app. f_equal. clear. induction rs as [|r rs IH]; [done|]. cbn. by f_equal. }
  destruct rs as [|r rs]; [done|]. rewrite Hm. cbn [fst]. unfold log_prune.
  apply Forall_forall. by intros s [? _]%list_elem_of_filter.
Qed.

(** C21. After any sequence of pushes, prunes and resets, the nine queues of the rolling
    window hold exactly the samples of one log that appends what arrives and removes
    what is older than the window at each push: each queue in time order, samples of one
    time in the order of arrival, IRQ events without a time stamped with the newest time
    in the window, frames with an invalid time refused and counted. *)
Theorem window_refines_log (duration_nanos : Z) (ops : list WindowOp) :
  represents duration_nanos (window_run duration_nanos ops)
    (log_run duration_nanos ops).1 (log_run duration_nanos ops).2.
Proof. apply window_represents. Qed.

(** Fed in time order, the window is the last [duration]: it holds the samples that
    are not older than the newest one by more than the duration, and no others. *)
Theorem in_order_window_exact (duration_nanos : Z) (ops : list WindowOp) (samples : list Sample)
    (newest : Z) :
  in_order ops samples -> sample_elapsed <$> last samples = Some newest ->
  represents duration_nanos (window_run duration_nanos ops)
    (filter (fun s => log_start duration_nanos newest <= sample_elapsed s) samples) 0.
Proof.
  intros Ho Hn. pose proof (window_represents duration_nanos ops) as H.
  by rewrite (in_order_log duration_nanos ops samples newest Ho Hn) in H.
Qed.

End Refinement.
