(* ===== verification/Runtime.v ===== *)
(** * Runtime: the tick of the autotune runtime

    [autotune/runtime/phase.rs] (the phases of the runtime and the transitions
    between them), the evaluation of an event and the side effects of its decision
    ([runtime/tick.rs]), the reactions to external changes ([external_mutation.rs]
    and [runtime/restore.rs]), and the stop ([runtime/stop.rs],
    [runtime/kept_release.rs]).

    What the planner and the comparison of the live configuration say is an input
    of a tick: the candidate, the drift the plan reports, the match of the active
    experiment.  The runtime holds the measurement window, which a started experiment
    clears.  Logs, the decision stream and the history are left out. *)

From Stdlib Require Import String List.
From S2P Require Import Prelude Abi Score PolicyModel PolicyEval ActionModel ActionRunner Journal Recovery Transaction Objective Controller AutonomousGate ContextKey CandidateMemory Decide Planner LiveExperiment FocusModel RollingWindow.
From stdpp Require Import list.
Open Scope Z_scope.

(** ** [phase.rs] *)

Inductive AutotuneRuntimePhase :=
| RpIdle | RpObservingBaseline | RpPlanning | RpDryRun | RpApplyingCandidate
| RpMeasuringCandidate | RpKeepingCandidate | RpRevertingCandidate | RpFaulted.

#[export] Instance AutotuneRuntimePhase_eq_dec : EqDecision AutotuneRuntimePhase.
Proof. solve_decision. Defined.

Definition allows_transition_to (self next : AutotuneRuntimePhase) : bool :=
  if bool_decide (self = next) then true
  else if bool_decide (next = RpFaulted) then true
  else match self, next with
       | RpIdle, RpObservingBaseline => true
       | RpObservingBaseline, RpPlanning => true
       | RpPlanning, (RpDryRun | RpApplyingCandidate | RpObservingBaseline) => true
       | RpDryRun, (RpApplyingCandidate | RpObservingBaseline) => true
       | RpApplyingCandidate, RpMeasuringCandidate => true
       | RpMeasuringCandidate, (RpKeepingCandidate | RpRevertingCandidate | RpObservingBaseline) => true
       | (RpKeepingCandidate | RpRevertingCandidate), RpObservingBaseline => true
       | _, _ => false
       end.

(** ** [external_mutation.rs] *)

Inductive ExternalMutationPolicy := EmpFault | EmpRestore | EmpResync.

Inductive ExternalMutationRecoveryDecision :=
| RestoreExpectedState | AcceptExternalMutationAndResync | AbandonKeptAction
| FaultRequireManualRestore.

Definition recovery_decision_for_active_experiment (p : ExternalMutationPolicy)
    : ExternalMutationRecoveryDecision :=
  match p with
  | EmpRestore => RestoreExpectedState
  | EmpResync => AcceptExternalMutationAndResync
  | EmpFault => FaultRequireManualRestore
  end.

Definition recovery_decision_for_kept_action (p : ExternalMutationPolicy)
    : ExternalMutationRecoveryDecision :=
  match p with
  | EmpResync => AbandonKeptAction
  | EmpFault | EmpRestore => FaultRequireManualRestore
  end.

(** ** The runtime *)

Record RuntimeConfig := {
  rc_input : LiveExperimentManagerInput;
  rc_dry_run_all_safe : bool;
  rc_external_mutation_policy : ExternalMutationPolicy;
  (** [resolve_privileged_action_service] succeeds *)
  rc_service_resolves : bool }.

Inductive TickError :=
| TeTransition (from to : AutotuneRuntimePhase)
| TeSideEffect (e : TransactionError)
| TeDryRunRefused
| TePlanFiles
| TeService
| TeClock.

(** What a tick is given beside the observation. *)
Record TickInput := {
  ti_observation : AutotuneObservation;
  ti_candidate : option CandidateAction;
  ti_active_match : option ActiveConfigMatch;
  ti_plan_active_drift : bool;
  ti_plan_kept_drift : bool;
  (** when the planner ran, whether its dry-run files can be written *)
  ti_plan_files : option bool }.

Section runtime.
Context {S : Type} {FS : FileSystem S}.
Context {Config : Type} (active_config : AutotuneObservation -> option Config)
  (verify_rollback_restored_baseline :
     CandidateAction -> Config -> Config -> AutotuneObservation -> RollbackVerification)
  (process_starttime_at : Host S -> Z -> option Z).
Context {executor : LiveExecutor S Config} (config : RuntimeConfig).

(** The phase, the live experiments with the controller's state, and the rolling
    measurement window of the controller. *)
Record AutotuneRuntime := {
  rt_phase : AutotuneRuntimePhase;
  rt_live : LiveState Config;
  rt_window : RollingWindow }.

Definition with_phase (r : AutotuneRuntime) (p : AutotuneRuntimePhase) : AutotuneRuntime :=
  {| rt_phase := p; rt_live := rt_live r; rt_window := rt_window r |}.

Definition with_window (r : AutotuneRuntime) (w : RollingWindow) : AutotuneRuntime :=
  {| rt_phase := rt_phase r; rt_live := rt_live r; rt_window := w |}.

Definition with_live (r : AutotuneRuntime) (st : LiveState Config) : AutotuneRuntime :=
  {| rt_phase := rt_phase r; rt_live := st; rt_window := rt_window r |}.

Definition fault_runtime_phase (r : AutotuneRuntime) : AutotuneRuntime :=
  {| rt_phase := RpFaulted;
     rt_live := set_controller (rt_live r) (set_phase (lv_controller (rt_live r)) CpFaulted);
     rt_window := rt_window r |}.

Definition transition_runtime_phase (r : AutotuneRuntime) (next : AutotuneRuntimePhase)
    : (unit + TickError) * AutotuneRuntime :=
  if allows_transition_to (rt_phase r) next
  then (inl tt, with_phase r next)
  else (inr (TeTransition (rt_phase r) next), fault_runtime_phase r).

(** A transition, then the rest. *)
Definition after_transition {A} (r : AutotuneRuntime) (next : AutotuneRuntimePhase)
    (k : AutotuneRuntime -> HM S ((A + TickError) * AutotuneRuntime))
    : HM S ((A + TickError) * AutotuneRuntime) :=
  match transition_runtime_phase r next with
  | (inl _, r') => k r'
  | (inr e, r') => hret (inr e, r')
  end.

(** ** [tick.rs] *)

Definition phase_for_evaluation (r : AutotuneRuntime) : AutotuneRuntimePhase :=
  if has_active_experiment (rt_live r) then RpMeasuringCandidate else RpObservingBaseline.

Definition prepare_runtime_phase_for_apply_candidate {A} (r : AutotuneRuntime)
    (k : AutotuneRuntime -> HM S ((A + TickError) * AutotuneRuntime))
    : HM S ((A + TickError) * AutotuneRuntime) :=
  match rt_phase r with
  | RpIdle =>
      after_transition r RpObservingBaseline (fun r => after_transition r RpPlanning k)
  | RpObservingBaseline => after_transition r RpPlanning k
  | _ => k r
  end.

(** [plan_output.rs]. *)
Definition prepare_runtime_phase_for_dry_run {A} (r : AutotuneRuntime)
    (k : AutotuneRuntime -> HM S ((A + TickError) * AutotuneRuntime))
    : HM S ((A + TickError) * AutotuneRuntime) :=
  match rt_phase r with
  | RpIdle =>
      after_transition r RpObservingBaseline (fun r => after_transition r RpPlanning k)
  | RpObservingBaseline => after_transition r RpPlanning k
  | _ => k r
  end.

(** The end of [select_candidate_for_observation]: the files of a plan that was made. *)
Definition dry_run_plan {A} (t : TickInput) (r : AutotuneRuntime)
    (k : AutotuneRuntime -> HM S ((A + TickError) * AutotuneRuntime))
    : HM S ((A + TickError) * AutotuneRuntime) :=
  match ti_plan_files t with
  | Some written =>
      if rc_dry_run_all_safe config then
        prepare_runtime_phase_for_dry_run r (fun r =>
          after_transition r RpDryRun (fun r => if written then k r else hret (inr TePlanFiles, r)))
      else k r
  | None => k r
  end.

Definition transition_for_decision {A} (r : AutotuneRuntime) (d : AutotuneDecision)
    (k : AutotuneRuntime -> HM S ((A + TickError) * AutotuneRuntime))
    : HM S ((A + TickError) * AutotuneRuntime) :=
  match d with
  | DStartExperiment _ =>
      prepare_runtime_phase_for_apply_candidate r (fun r => after_transition r RpApplyingCandidate k)
  | DKeepCurrent _ => after_transition r RpKeepingCandidate k
  | DRevert _ => after_transition r RpRevertingCandidate k
  | DFault => after_transition r RpFaulted k
  | DNoop | DSuggest _ | DEnterCooldown _ => k r
  end.

Definition phase_for_outcome (r : AutotuneRuntime) (event : LiveExperimentEvent)
    : AutotuneRuntimePhase :=
  match event with
  | LeStarted => RpMeasuringCandidate
  | LeKept | LeReverted | LeCooldownEntered => RpObservingBaseline
  | LeFaulted => RpFaulted
  | LeNoop => phase_for_evaluation r
  end.

Definition apply_decision_side_effects (r : AutotuneRuntime) (o : AutotuneObservation)
    (d : AutotuneDecision) (reason : string) : HM S ((unit + TickError) * AutotuneRuntime) :=
  if rc_dry_run_all_safe config && match d with DStartExperiment _ => true | _ => false end
  then hret (inr TeDryRunRefused, r)
  else
    transition_for_decision r d (fun r =>
      if negb (rc_service_resolves config) then hret (inr TeService, r)
      else
        let* x := apply_decision_side_effects_with_executor active_config
                    verify_rollback_restored_baseline process_starttime_at (rc_input config)
                    (rt_live r) o d reason in
        match x.1 with
        | inr e => hret (inr (TeSideEffect e), fault_runtime_phase (with_live r x.2))
        | inl outcome =>
            let r := with_live r x.2 in
            let r := if lo_clear_measurement_window outcome
                     then with_window r (window_clear (rt_window r)) else r in
            after_transition r (phase_for_outcome r (lo_event outcome)) (fun r => hret (inl tt, r))
        end).

(** ** [restore.rs] *)

Definition resync_active (st : LiveState Config) : LiveState Config :=
  {| lv_current := None;
     lv_controller := set_phase (set_active (lv_controller st) None) CpObserving;
     lv_profile := lv_profile st |}.

Definition active_experiment_recovery_decision (st : LiveState Config) (id : string)
    (d : ExternalMutationRecoveryDecision) : AutotuneDecision * LiveState Config :=
  match d with
  | RestoreExpectedState => (DRevert id, st)
  | AcceptExternalMutationAndResync => (DNoop, resync_active st)
  | FaultRequireManualRestore | AbandonKeptAction => (DFault, st)
  end.

Definition active_experiment_external_mutation_decision (st : LiveState Config)
    (m : option ActiveConfigMatch) : option (AutotuneDecision * LiveState Config) :=
  e ← lv_current st;
  matched ← m;
  let d := recovery_decision_for_active_experiment (rc_external_mutation_policy config) in
  match matched with
  | AcmMatches => None
  | AcmDiffers => Some (active_experiment_recovery_decision st (le_experiment_id e) d)
  | AcmUnknown =>
      if li_simulate_action_effects (rc_input config)
         && match le_candidate e with CaFake _ _ => true | _ => false end
      then None
      else Some (active_experiment_recovery_decision st (le_experiment_id e) d)
  end.

Definition plan_external_mutation_recovery_decision (st : LiveState Config)
    (active_drift kept_drift : bool) : option (AutotuneDecision * LiveState Config) :=
  if active_drift then
    match recovery_decision_for_active_experiment (rc_external_mutation_policy config) with
    | RestoreExpectedState =>
        match lv_current st with
        | Some e => Some (DRevert (le_experiment_id e), st)
        | None => Some (DFault, st)
        end
    | AcceptExternalMutationAndResync => Some (DNoop, resync_active st)
    | FaultRequireManualRestore | AbandonKeptAction => Some (DFault, st)
    end
  else if kept_drift then
    match recovery_decision_for_kept_action (rc_external_mutation_policy config) with
    | AbandonKeptAction =>
        Some (DNoop, set_profile st (abandon_kept_actions_for_external_resync (lv_profile st)).1)
    | _ => Some (DFault, st)
    end
  else None.

(** ** [kept_release.rs] *)

Definition with_now (o : AutotuneObservation) (n : Z) : AutotuneObservation :=
  {| ob_now_unix_nanos := n; ob_elapsed_ms := ob_elapsed_ms o;
     ob_target_present := ob_target_present o; ob_target_root_pid := ob_target_root_pid o;
     ob_active_target_count := ob_active_target_count o;
     ob_scored_task_count := ob_scored_task_count o; ob_interval_count := ob_interval_count o;
     ob_scored_samples := ob_scored_samples o; ob_score := ob_score o;
     ob_data_quality := ob_data_quality o;
     ob_activity_level := ob_activity_level o; ob_objective_signals := ob_objective_signals o;
     ob_primary_situation := ob_primary_situation o; ob_focus_kind := ob_focus_kind o;
     ob_focus_confidence := ob_focus_confidence o;
     ob_focus_reasons := ob_focus_reasons o; ob_topology_signature := ob_topology_signature o;
     ob_workload_identity := ob_workload_identity o;
     ob_active_tasks := ob_active_tasks o;
     ob_active_config_snapshot := ob_active_config_snapshot o; ob_frame_p99_ms := ob_frame_p99_ms o;
     ob_frame_max_ms := ob_frame_max_ms o |}.

Definition has_kept_actions (st : LiveState Config) : bool :=
  match kept_actions (lv_profile st) with [] => false | _ => true end.

(** How many could not be restored. *)
Definition release_kept_actions (r : AutotuneRuntime) (last : AutotuneObservation)
    : HM S ((nat + TickError) * AutotuneRuntime) :=
  if negb (has_kept_actions (rt_live r)) then hret (inl 0%nat, r)
  else if negb (rc_service_resolves config) then hret (inr TeService, r)
  else
    let* n := now in
    let* x := release_kept_actions_with_executor (rc_input config) (lv_profile (rt_live r))
                (with_now last n) in
    hret (inl (kr_failed x.1), with_live r (set_profile (rt_live r) x.2)).

(** ** The decision of a tick *)

Definition tick_decision (st : LiveState Config) (t : TickInput) : AutotuneDecision * LiveState Config :=
  let p := li_controller_policy (rc_input config) in
  let o := ti_observation t in
  match active_window_decision st o with
  | Some d => (d, st)
  | None =>
      if has_active_experiment st then
        match active_experiment_external_mutation_decision st (ti_active_match t) with
        | Some x => x
        | None => (decide_autotune_transition p (lv_controller st) o None, st)
        end
      else
        match plan_external_mutation_recovery_decision st (ti_plan_active_drift t)
                (ti_plan_kept_drift t) with
        | Some x => x
        | None => (decide_autotune_transition p (lv_controller st) o (ti_candidate t), st)
        end
  end.

Definition evaluate_and_emit (r : AutotuneRuntime) (t : TickInput) (reason : string)
    : HM S ((unit + TickError) * AutotuneRuntime) :=
  let o := ti_observation t in
  after_transition r (phase_for_evaluation r) (fun r =>
    let* released :=
      (if negb (ob_target_present o) && has_kept_actions (rt_live r)
          && negb (has_active_experiment (rt_live r))
       then let* x := release_kept_actions r o in hret x.2
       else hret r) in
    let r := released in
    let decided (r : AutotuneRuntime) :=
      let x := tick_decision (rt_live r) t in
      apply_decision_side_effects (with_live r x.2) o x.1 reason in
    if has_active_experiment (rt_live r) then decided r
    else after_transition r RpPlanning (fun r => dry_run_plan t r decided)).

(** ** [stop.rs] *)

Definition rollback_live_experiment (r : AutotuneRuntime) (last : AutotuneObservation) (n : Z)
    (present : bool) (reason : string) : HM S ((unit + TickError) * AutotuneRuntime) :=
  match lv_current (rt_live r) with
  | None => hret (inl tt, r)
  | Some e =>
      let o := with_now last n in
      let o := if present then o else
        {| ob_now_unix_nanos := ob_now_unix_nanos o; ob_elapsed_ms := ob_elapsed_ms o;
           ob_target_present := false; ob_target_root_pid := ob_target_root_pid o;
           ob_active_target_count := ob_active_target_count o;
           ob_scored_task_count := ob_scored_task_count o;
           ob_interval_count := ob_interval_count o; ob_scored_samples := ob_scored_samples o;
           ob_score := ob_score o; ob_data_quality := ob_data_quality o;
     ob_activity_level := ob_activity_level o;
           ob_objective_signals := ob_objective_signals o;
           ob_primary_situation := ob_primary_situation o; ob_focus_kind := ob_focus_kind o;
     ob_focus_confidence := ob_focus_confidence o;
           ob_focus_reasons := ob_focus_reasons o;
           ob_topology_signature := ob_topology_signature o;
           ob_workload_identity := ob_workload_identity o;
     ob_active_tasks := ob_active_tasks o;
     ob_active_config_snapshot := ob_active_config_snapshot o; ob_frame_p99_ms := ob_frame_p99_ms o;
           ob_frame_max_ms := ob_frame_max_ms o |} in
      apply_decision_side_effects r o (DRevert (le_experiment_id e)) reason
  end.

(** [inl true]: a snapshot of the state after the rollback; [inl false]: nothing was
    applied. *)
Definition rollback_on_stop (r : AutotuneRuntime) (last : AutotuneObservation) (present : bool)
    (reason : string) : HM S ((bool + TickError) * AutotuneRuntime) :=
  if negb (has_active_experiment (rt_live r)) && negb (has_kept_actions (rt_live r))
  then hret (inl false, r)
  else
    let* x := (if has_active_experiment (rt_live r)
               then let* n := now in rollback_live_experiment r last n present reason
               else hret (inl tt, r)) in
    let* y := release_kept_actions x.2 last in
    match y.1 with
    | inr e => hret (inr e, y.2)
    | inl failed =>
        match x.1 with
        | inr e => hret (inr e, y.2)
        | inl _ =>
            if (failed =? 0)%nat then hret (inl true, y.2)
            else hret (inr (TeSideEffect (TxIo (EOther "kept actions not restored"))), y.2)
        end
    end.

(** ** Theorems: no transition of a tick is refused *)

Implicit Types (st : LiveState Config) (o : AutotuneObservation) (r : AutotuneRuntime).

(** The controller's state agrees with the manager's, and is not faulted. *)
Definition consistent st : Prop :=
  cs_active_experiment (lv_controller st) = active_of <$> lv_current st /\
  cs_phase (lv_controller st) <> CpFaulted.

(** The runtime between two events. *)
Record at_rest r : Prop := {
  ar_consistent : consistent (rt_live r);
  ar_phase : match rt_phase r with
             | RpIdle | RpObservingBaseline => has_active_experiment (rt_live r) = false
             | RpMeasuringCandidate => has_active_experiment (rt_live r) = true
             | _ => False
             end }.

(** A decision the controller can come to in this state. *)
Definition sensible st (d : AutotuneDecision) : Prop :=
  match d with
  | DStartExperiment _ =>
      lv_current st = None /\
      (li_mode (rc_input config) = ApplyLowRisk \/ li_mode (rc_input config) = ApplyMediumRisk)
  | DSuggest _ | DEnterCooldown _ => lv_current st = None
  | DKeepCurrent _ | DRevert _ => lv_current st <> None
  | DNoop | DFault => True
  end.

(** What the outcome of the side effects says of the state. *)
Definition settled st (event : LiveExperimentEvent) st' : Prop :=
  match event with
  | LeStarted => lv_current st' <> None /\ consistent st'
  | LeKept | LeReverted => lv_current st' = None /\ consistent st'
  | LeCooldownEntered | LeNoop => lv_current st' = lv_current st /\ consistent st'
  | LeFaulted => True
  end.

(** The events of each decision. *)
Definition event_of (d : AutotuneDecision) (event : LiveExperimentEvent) : Prop :=
  match d with
  | DNoop | DSuggest _ => event = LeNoop
  | DStartExperiment _ => event = LeStarted
  | DKeepCurrent _ => event = LeKept \/ event = LeReverted \/ event = LeFaulted
  | DRevert _ => event = LeReverted \/ event = LeFaulted
  | DEnterCooldown _ => event = LeCooldownEntered
  | DFault => event = LeFaulted
  end.

Definition fine st (d : AutotuneDecision) (x : (LiveExperimentOutcome + TransactionError) * LiveState Config)
    : Prop :=
  match x.1 with
  | inl out => event_of d (lo_event out) /\ settled st (lo_event out) x.2
  | inr _ => True
  end.

Abbreviation any := (fun _ => True).

(** A step of the host whose effect does not matter. *)
Lemma skip {A B} (m : HM S A) (k : A -> HM S B) (Q : B -> Prop) :
  (forall x, hspec any (k x) (fun y _ => Q y)) -> hspec any (hbind m k) (fun y _ => Q y).
Proof. intros Hk. apply (hspec_bind _ _ _ (fun _ => any)); [done|exact Hk]. Qed.

Lemma finish_rollback_fine input st e o n reason d :
  event_of d LeReverted ->
  hspec any (finish_rollback process_starttime_at input st e o n reason) (fun x _ => fine st d x).
Proof.
  intros Hd. apply skip. intros [[]|err]; apply hspec_ret; intros h _; [|done].
  split; [done|]. split; [done|]. by split.
Qed.

Lemma rollback_fine input st o n reason d :
  lv_current st <> None -> event_of d LeReverted -> event_of d LeFaulted ->
  hspec any
    (rollback_active_experiment_with_executor verify_rollback_restored_baseline process_starttime_at
       input st o n reason) (fun x _ => fine st d x).
Proof.
  intros Hcur Hr Hf. unfold rollback_active_experiment_with_executor.
  destruct (lv_current st) as [e|]; [|done].
  apply skip. intros [[]|err]; [|by apply hspec_ret].
  apply skip. intros [post|err]; [|by apply hspec_ret].
  match goal with |- context [if _ then None else ?x] =>
    generalize (if li_simulate_action_effects input then None else x) end.
  intros [v|]; [|by apply finish_rollback_fine].
  destruct (rv_verified v); cbn [negb]; [by apply finish_rollback_fine|].
  apply skip. intros [[]|err]; by apply hspec_ret.
Qed.

Lemma side_effects_fine st o d reason :
  consistent st -> sensible st d ->
  hspec any
    (apply_decision_side_effects_with_executor active_config verify_rollback_restored_baseline
       process_starttime_at (rc_input config) st o d reason) (fun x _ => fine st d x).
Proof.
  intros Hcon Hd. destruct d as [|c|c|id|id|n|]; cbn [apply_decision_side_effects_with_executor].
  - by apply hspec_ret.
  - by apply hspec_ret.
  - destruct Hd as [Hcur Hmode]. unfold start_candidate_experiment_with_executor.
    destruct (validate_start_candidate _ _ _) as [[]|err] eqn:Hv; [|exfalso|by apply hspec_ret].
    2: { destruct Hmode as [Hm|Hm]; rewrite Hm in Hv; cbn in Hv; repeat case_match; done. }
    destruct (validate_autonomous_support _ _ _ _); [|by apply hspec_ret].
    destruct (validate_window_score_for_apply _); cbn [negb]; [|by apply hspec_ret].
    apply skip. intros [t|err]; [|by apply hspec_ret].
    destruct (deadlines_from_now _ _ _ _) as [w m].
    apply skip. intros [[]|err]; apply hspec_ret; intros h _; [|done].
    split; [done|]. split; [done|]. by split.
  - cbn in Hd. unfold keep_current_experiment_with_executor.
    destruct (lv_current st) as [e|] eqn:Hcur; [|done].
    destruct (validate_window_score_for_apply _); cbn [negb]; [|by apply hspec_ret].
    assert (Hback : hspec any
      (rollback_active_experiment_with_executor verify_rollback_restored_baseline process_starttime_at
         (rc_input config) st o (ob_now_unix_nanos o) "candidate was not improved at keep point")
      (fun x _ => fine st (DKeepCurrent id) x)).
    { apply rollback_fine; [by rewrite Hcur|cbn; auto|cbn; auto]. }
    destruct (compare_keep_result e o); [|exact Hback..].
    apply skip. intros [[]|err]; [|by apply hspec_ret].
    destruct (record_kept_candidate _ _ _) as [p|].
    + apply hspec_ret. intros h _. split; [by left|]. split; [done|]. by split.
    + apply skip. intros []. by apply hspec_ret.
  - apply rollback_fine; [exact Hd|cbn; auto|cbn; auto].
  - apply hspec_ret. intros h _. split; [done|]. split; [done|]. destruct Hcon as [Ha Hp].
    case_decide; [done|]. by split.
  - destruct (has_active_experiment st) eqn:Hact.
    + apply skip. intros [[out|err] st']; by apply hspec_ret.
    + by apply hspec_ret.
Qed.

(** The controller's decisions are sensible. *)
Lemma decide_sensible st o candidate :
  consistent st ->
  (lv_current st <> None -> candidate = None) ->
  supports_apply (cp_mode (li_controller_policy (rc_input config))) = true ->
  (li_mode (rc_input config) = ApplyLowRisk \/ li_mode (rc_input config) = ApplyMediumRisk) ->
  sensible st
    (decide_autotune_transition (li_controller_policy (rc_input config)) (lv_controller st) o candidate).
Proof.
  intros [Ha Hp] Hcand Hm Hmode. unfold decide_autotune_transition.
  case_decide; [done|]. case_decide; [done|]. rewrite Ha.
  destruct (lv_current st) as [e|] eqn:Hcur; cbn [fmap option_fmap option_map].
  - destruct (decide_active_shape (li_controller_policy (rc_input config)) (active_of e) o)
      as [E|[E|[E _]]]; rewrite E; cbn; congruence || done.
  - destruct (cooldown_block_decision _ _) as [d|] eqn:E.
    { apply cooldown_block_shape in E as [n ->]. done. }
    unfold decide_candidate. repeat case_match; try done; by split.
Qed.

(** The plan is made, its files written or not. *)
Definition planning r : Prop := rt_phase r = RpPlanning \/ rt_phase r = RpDryRun.

(** A phase from which the transitions of the decision are allowed. *)
Definition poised r (d : AutotuneDecision) : Prop :=
  match d with
  | DStartExperiment _ | DSuggest _ | DEnterCooldown _ => planning r
  | DKeepCurrent _ | DRevert _ => rt_phase r = RpMeasuringCandidate
  | DNoop =>
      rt_phase r = RpMeasuringCandidate \/ planning r /\ lv_current (rt_live r) = None
  | DFault => True
  end.

(** No transition is refused, and the runtime is at rest again or faulted. *)
Definition accepted {A} (x : (A + TickError) * AutotuneRuntime) : Prop :=
  match x.1 with
  | inl _ => at_rest x.2 \/ rt_phase x.2 = RpFaulted
  | inr (TeTransition _ _) => False
  | inr _ => True
  end.

Lemma after_transition_allowed {A} r next (k : AutotuneRuntime -> HM S ((A + TickError) * AutotuneRuntime)) Q :
  allows_transition_to (rt_phase r) next = true ->
  hspec any (k (with_phase r next)) Q -> hspec any (after_transition r next k) Q.
Proof. intros H Hk. unfold after_transition, transition_runtime_phase. by rewrite H. Qed.

(** Steps that only change the phase. *)
Definition same_books r r' : Prop := rt_window r' = rt_window r /\ rt_live r' = rt_live r.

(** Writing the files of a plan leads to a phase from which decisions go on, or fails. *)
Lemma dry_run_plan_allowed {A} t r (k : AutotuneRuntime -> HM S ((A + TickError) * AutotuneRuntime))
    (Q : (A + TickError) * AutotuneRuntime -> Prop) :
  rt_phase r = RpPlanning -> (forall r', same_books r r' -> Q (inr TePlanFiles, r')) ->
  (forall r', planning r' -> same_books r r' -> hspec any (k r') (fun x _ => Q x)) ->
  hspec any (dry_run_plan t r k) (fun x _ => Q x).
Proof.
  intros Hp HQ Hk. unfold dry_run_plan.
  destruct (ti_plan_files t) as [written|]; [|by apply Hk; [left|]].
  destruct (rc_dry_run_all_safe config); [|by apply Hk; [left|]].
  unfold prepare_runtime_phase_for_dry_run. rewrite Hp.
  apply after_transition_allowed; [by rewrite Hp|].
  destruct written; [by apply Hk; [right|]|]. apply hspec_ret. intros h _. by apply HQ.
Qed.

(** The phase in which the side effects of a poised decision run. *)
Definition phase_of_decision r (d : AutotuneDecision) : AutotuneRuntimePhase :=
  match d with
  | DStartExperiment _ => RpApplyingCandidate
  | DKeepCurrent _ => RpKeepingCandidate
  | DRevert _ => RpRevertingCandidate
  | DFault => RpFaulted
  | DNoop | DSuggest _ | DEnterCooldown _ => rt_phase r
  end.

Lemma transition_for_decision_poised {A} r d (k : AutotuneRuntime -> HM S ((A + TickError) * AutotuneRuntime)) Q :
  poised r d ->
  hspec any (k (with_phase r (phase_of_decision r d))) Q ->
  hspec any (transition_for_decision r d k) Q.
Proof.
  intros Hp Hk. destruct d; cbn [transition_for_decision]; cbn in Hp.
  - by destruct r.
  - by destruct r.
  - unfold prepare_runtime_phase_for_apply_candidate.
    destruct Hp as [Hp|Hp]; rewrite Hp; (apply after_transition_allowed; [by rewrite Hp|done]).
  - apply after_transition_allowed; [by rewrite Hp|done].
  - apply after_transition_allowed; [by rewrite Hp|done].
  - by destruct r.
  - apply after_transition_allowed; [|done]. by destruct (rt_phase r).
Qed.

(** The outcome's transition is allowed and leads to rest. *)
Lemma outcome_accepted r d out st' :
  poised r d -> sensible (rt_live r) d -> event_of d (lo_event out) ->
  settled (rt_live r) (lo_event out) st' ->
  forall w,
  let r' := {| rt_phase := phase_of_decision r d; rt_live := st'; rt_window := w |} in
  let next := phase_for_outcome r' (lo_event out) in
  allows_transition_to (phase_of_decision r d) next = true /\
  (at_rest (with_phase r' next) \/ next = RpFaulted).
Proof.
  intros Hp Hs He Hset w. cbv zeta.
  assert (Hnone : forall s : LiveState Config, lv_current s = None -> has_active_experiment s = false)
    by (intros s E; unfold has_active_experiment; by rewrite E).
  assert (Hrest : forall s : LiveState Config, consistent s ->
    at_rest {| rt_phase := if has_active_experiment s then RpMeasuringCandidate else RpObservingBaseline;
               rt_live := s; rt_window := w |}).
  { intros s Hc. split; [done|]. cbn. by destruct (has_active_experiment s). }
  destruct d; cbn in He, Hp, Hs;
    repeat match goal with H : _ \/ _ |- _ => destruct H as [H|H] end;
    try rewrite He in *; cbn [phase_for_outcome phase_of_decision settled] in *;
    unfold phase_for_evaluation; cbn [rt_live].
  all: try (split; [done|by right]).
  all: try (destruct Hset as [Hcur Hcon]).
  all: try (pose proof (Hrest st' Hcon) as Hr).
  - rewrite Hp. split; [by destruct (has_active_experiment st')|by left].
  - destruct Hp as [[Hp|Hp] Hl]; rewrite Hp, (Hnone st') in * by congruence; (split; [done|by left]).
  - destruct Hp as [Hp|Hp]; rewrite Hp, (Hnone st') in * by congruence; (split; [done|by left]).
  - split; [done|]. left. split; [done|]. cbn. unfold has_active_experiment. by destruct (lv_current st').
  - split; [done|]. left. rewrite (Hnone st') in Hr by done. done.
  - split; [done|]. left. rewrite (Hnone st') in Hr by done. done.
  - split; [done|]. left. rewrite (Hnone st') in Hr by done. done.
  - destruct Hp as [Hp|Hp]; rewrite Hp; (split; [done|]); left; rewrite (Hnone st') in Hr by congruence; done.
Qed.

Lemma apply_decision_accepted r o d reason :
  consistent (rt_live r) -> sensible (rt_live r) d -> poised r d ->
  hspec any (apply_decision_side_effects r o d reason) (fun x _ => accepted x).
Proof.
  intros Hcon Hs Hp. unfold apply_decision_side_effects.
  destruct (rc_dry_run_all_safe config && _); [by apply hspec_ret|].
  apply transition_for_decision_poised; [done|].
  destruct (rc_service_resolves config); [|by apply hspec_ret]. cbn [negb rt_live].
  eapply hspec_bind; [by apply side_effects_fine|].
  intros [[out|err] st']; cbn [fst snd]; [|by apply hspec_ret].
  intros h [He Hset].
  set (w := if lo_clear_measurement_window out then window_clear (rt_window r) else rt_window r).
  destruct (outcome_accepted r d out st' Hp Hs He Hset w) as [Hok Hrest].
  revert h He Hset.
  set (r1 := if lo_clear_measurement_window out then _ else _).
  assert (Hr1 : r1 = {| rt_phase := phase_of_decision r d; rt_live := st'; rt_window := w |})
    by (subst r1 w; by destruct (lo_clear_measurement_window out)).
  rewrite Hr1.
  assert (Hgo : hspec any
    (after_transition {| rt_phase := phase_of_decision r d; rt_live := st'; rt_window := w |}
       (phase_for_outcome {| rt_phase := phase_of_decision r d; rt_live := st'; rt_window := w |} (lo_event out))
       (fun r0 => hret (inl tt, r0))) (fun x (_ : Host S) => @accepted unit x)).
  { apply after_transition_allowed; [done|]. by apply hspec_ret. }
  intros h _ _. by apply Hgo.
Qed.

Lemma tick_decision_ok st t :
  consistent st ->
  supports_apply (cp_mode (li_controller_policy (rc_input config))) = true ->
  (li_mode (rc_input config) = ApplyLowRisk \/ li_mode (rc_input config) = ApplyMediumRisk) ->
  let x := tick_decision st t in
  consistent x.2 /\ sensible x.2 x.1 /\
  match lv_current st with
  | Some _ => forall w, poised {| rt_phase := RpMeasuringCandidate; rt_live := x.2; rt_window := w |} x.1
  | None => lv_current x.2 = None
  end.
Proof.
  intros Hcon Hap Hmode. cbv zeta. unfold tick_decision.
  assert (Hpoised : forall d s w, lv_current s <> None -> sensible s d ->
    poised {| rt_phase := RpMeasuringCandidate; rt_live := s; rt_window := w |} d).
  { intros d s w Hc Hd. destruct d; cbn in *; auto; tauto. }
  destruct (active_window_decision st (ti_observation t)) as [d|] eqn:Hw.
  { unfold active_window_decision in Hw. destruct (lv_current st) as [e|] eqn:Hcur; [|done].
    assert (d = DNoop) as -> by (cbn in Hw; repeat case_match; congruence).
    cbn. auto. }
  unfold has_active_experiment. destruct (lv_current st) as [e|] eqn:Hcur.
  - destruct (active_experiment_external_mutation_decision st (ti_active_match t)) as [x|] eqn:Hm.
    + assert (exists id, x = active_experiment_recovery_decision st id
               (recovery_decision_for_active_experiment (rc_external_mutation_policy config)))
        as (id & ->).
      { unfold active_experiment_external_mutation_decision in Hm. rewrite Hcur in Hm. cbn in Hm.
        destruct (ti_active_match t) as [[]|]; cbn in Hm; try done; [|case_match; [done|]];
          injection Hm as <-; eauto. }
      destruct (rc_external_mutation_policy config); cbn; [by auto| |].
      * split; [done|]. split; [congruence|done].
      * split; [done|]. auto.
    + cbn. split; [done|].
      assert (Hd : sensible st (decide_autotune_transition (li_controller_policy (rc_input config))
                     (lv_controller st) (ti_observation t) None))
        by (apply decide_sensible; done).
      split; [done|]. intros w. apply Hpoised; [congruence|done].
  - destruct (plan_external_mutation_recovery_decision st _ _) as [x|] eqn:Hm.
    + unfold plan_external_mutation_recovery_decision in Hm. rewrite Hcur in Hm.
      destruct (ti_plan_active_drift t), (ti_plan_kept_drift t), (rc_external_mutation_policy config);
        cbn in Hm; try done; injection Hm as <-; cbn; (split; [first [exact Hcon|by split]|done]).
    + cbn. split; [done|]. split; [|done]. apply decide_sensible; done.
Qed.

Lemma release_keeps_books r last :
  hspec any (release_kept_actions r last)
    (fun x _ => rt_phase x.2 = rt_phase r /\ lv_current (rt_live x.2) = lv_current (rt_live r) /\
                lv_controller (rt_live x.2) = lv_controller (rt_live r) /\ rt_window x.2 = rt_window r).
Proof.
  unfold release_kept_actions. destruct (has_kept_actions _); [|by apply hspec_ret].
  destruct (rc_service_resolves config); [|by apply hspec_ret]. cbn [negb].
  apply skip. intros n. apply skip. intros x. by apply hspec_ret.
Qed.

Lemma evaluate_accepted r t reason :
  at_rest r ->
  supports_apply (cp_mode (li_controller_policy (rc_input config))) = true ->
  (li_mode (rc_input config) = ApplyLowRisk \/ li_mode (rc_input config) = ApplyMediumRisk) ->
  hspec any (evaluate_and_emit r t reason) (fun x _ => accepted x).
Proof.
  intros [Hcon Hphase] Hap Hmode. unfold evaluate_and_emit.
  apply after_transition_allowed.
  { unfold phase_for_evaluation. destruct (rt_phase r); try done; by rewrite Hphase. }
  set (r1 := with_phase r (phase_for_evaluation r)).
  apply (hspec_bind _ _ _ (fun r2 _ => rt_phase r2 = phase_for_evaluation r /\ consistent (rt_live r2) /\
    has_active_experiment (rt_live r2) = has_active_experiment (rt_live r))).
  { destruct (_ && _ && _); [|by apply hspec_ret].
    eapply hspec_bind; [apply release_keeps_books|]. intros x. apply hspec_ret.
    intros h (H1 & H2 & H3 & _). split; [done|]. unfold consistent, has_active_experiment.
    by rewrite H2, H3. }
  intros r2 h (Hp & Hcon2 & Hact).
  pose proof (tick_decision_ok (rt_live r2) t Hcon2 Hap Hmode) as (Hc & Hs & Hd).
  cbv zeta in *. destruct (has_active_experiment (rt_live r2)) eqn:E.
  - unfold phase_for_evaluation in Hp. rewrite <- Hact in Hp.
    apply apply_decision_accepted; try done. cbn.
    unfold has_active_experiment in E. destruct (lv_current (rt_live r2)); [|done].
    unfold with_live. by rewrite Hp.
  - unfold phase_for_evaluation in Hp. rewrite <- Hact in Hp.
    assert (Hnone : lv_current (tick_decision (rt_live r2) t).2 = None).
    { unfold has_active_experiment in E. by destruct (lv_current (rt_live r2)). }
    cut (hspec any (after_transition r2 RpPlanning (fun r => dry_run_plan t r (fun r3 =>
           apply_decision_side_effects (with_live r3 (tick_decision (rt_live r3) t).2)
             (ti_observation t) (tick_decision (rt_live r3) t).1 reason))) (fun x _ => accepted x)).
    { intros Hgo. by apply Hgo. }
    apply after_transition_allowed; [by rewrite Hp|].
    apply dry_run_plan_allowed; [done|done|]. intros r3 Hp3 [_ Hl3]. rewrite Hl3. cbn [rt_live with_phase].
    apply apply_decision_accepted; try done. cbn.
    destruct (tick_decision (rt_live r2) t).1; cbn in *; auto; congruence.
Qed.

(** ** The measurement window *)

(** Only a started experiment clears the window. *)
Definition clears_on_start (x : (LiveExperimentOutcome + TransactionError) * LiveState Config) : Prop :=
  match x.1 with
  | inl out => lo_clear_measurement_window out = true <-> lo_event out = LeStarted
  | inr _ => True
  end.

Lemma rollback_clear input st o n reason :
  hspec any
    (rollback_active_experiment_with_executor verify_rollback_restored_baseline process_starttime_at
       input st o n reason) (fun x _ => clears_on_start x).
Proof.
  unfold rollback_active_experiment_with_executor.
  assert (Hfin : forall e, hspec any (finish_rollback process_starttime_at input st e o n reason)
                   (fun x _ => clears_on_start x)).
  { intros e. apply skip. intros [[]|err]; by apply hspec_ret. }
  destruct (lv_current st) as [e|]; [|by apply hspec_ret].
  apply skip. intros [[]|err]; [|by apply hspec_ret].
  apply skip. intros [post|err]; [|by apply hspec_ret].
  match goal with |- context [if _ then None else ?x] =>
    generalize (if li_simulate_action_effects input then None else x) end.
  intros [v|]; [|by apply Hfin]. destruct (rv_verified v); cbn [negb]; [by apply Hfin|].
  apply skip. intros [[]|err]; by apply hspec_ret.
Qed.

Lemma side_effects_clear st o d reason :
  hspec any
    (apply_decision_side_effects_with_executor active_config verify_rollback_restored_baseline
       process_starttime_at (rc_input config) st o d reason) (fun x _ => clears_on_start x).
Proof.
  destruct d as [|c|c|id|id|n|]; cbn [apply_decision_side_effects_with_executor];
    try by apply hspec_ret.
  - unfold start_candidate_experiment_with_executor.
    destruct (validate_start_candidate _ _ _) as [[]|err]; [|by apply hspec_ret..].
    destruct (validate_autonomous_support _ _ _ _); [|by apply hspec_ret].
    destruct (validate_window_score_for_apply _); cbn [negb]; [|by apply hspec_ret].
    apply skip. intros [t|err]; [|by apply hspec_ret].
    destruct (deadlines_from_now _ _ _ _) as [w m].
    apply skip. intros [[]|err]; by apply hspec_ret.
  - unfold keep_current_experiment_with_executor.
    destruct (lv_current st) as [e|]; [|by apply hspec_ret].
    destruct (validate_window_score_for_apply _); cbn [negb]; [|by apply hspec_ret].
    destruct (compare_keep_result e o); [|apply rollback_clear..].
    apply skip. intros [[]|err]; [|by apply hspec_ret].
    destruct (record_kept_candidate _ _ _); [by apply hspec_ret|]. apply skip. intros []. by apply hspec_ret.
  - apply rollback_clear.
  - destruct (has_active_experiment st); [|by apply hspec_ret].
    apply skip. intros [[out|err] st']; by apply hspec_ret.
Qed.

(** What a step of the runtime does to the window: nothing, or it clears it; and a step
    after which a new experiment is being measured has cleared it. *)
Definition window_moved r {A} (x : (A + TickError) * AutotuneRuntime) : Prop :=
  (rt_window x.2 = rt_window r \/ rt_window x.2 = window_clear (rt_window r)) /\
  (match x.1 with inl _ => True | inr _ => False end -> rt_phase x.2 <> RpFaulted ->
   lv_current (rt_live r) = None -> lv_current (rt_live x.2) <> None ->
   rt_window x.2 = window_clear (rt_window r)).

Lemma after_transition_window {A} r0 r next (k : AutotuneRuntime -> HM S ((A + TickError) * AutotuneRuntime)) :
  rt_window r = rt_window r0 ->
  hspec any (k (with_phase r next)) (fun x _ => window_moved r0 x) ->
  hspec any (after_transition r next k) (fun x _ => window_moved r0 x).
Proof.
  intros Hw Hk. unfold after_transition, transition_runtime_phase.
  destruct (allows_transition_to _ _); [done|]. apply hspec_ret. intros h _. split; [by left|done].
Qed.

Lemma transition_for_decision_window {A} r d (k : AutotuneRuntime -> HM S ((A + TickError) * AutotuneRuntime)) :
  (forall r', same_books r r' -> hspec any (k r') (fun x _ => window_moved r x)) ->
  hspec any (transition_for_decision r d k) (fun x _ => window_moved r x).
Proof.
  intros Hk. destruct d; cbn [transition_for_decision]; try (apply Hk; by split);
    try (apply after_transition_window; [done|]; apply Hk; by split).
  unfold prepare_runtime_phase_for_apply_candidate.
  destruct (rt_phase r); repeat (apply after_transition_window; [done|]); apply Hk; by split.
Qed.

Lemma apply_decision_window r o d reason :
  consistent (rt_live r) -> sensible (rt_live r) d ->
  hspec any (apply_decision_side_effects r o d reason) (fun x _ => window_moved r x).
Proof.
  intros Hcon Hs. unfold apply_decision_side_effects.
  destruct (rc_dry_run_all_safe config && _); [apply hspec_ret; intros h _; by split; [left|]|].
  apply transition_for_decision_window. intros r' [Hw Hl].
  destruct (rc_service_resolves config); cbn [negb];
    [|apply hspec_ret; intros h _; split; [by left|done]].
  rewrite Hl. eapply hspec_bind.
  { apply hspec_and; [by apply (side_effects_fine (rt_live r))|apply side_effects_clear]. }
  intros [[out|err] st']; cbn [fst snd].
  2: { apply hspec_ret. intros h _. split; [by left|done]. }
  intros h [[He Hset] Hc]. cbn in Hset, Hc. revert h.
  cut (hspec any
    (after_transition
       (if lo_clear_measurement_window out
        then with_window (with_live r' st') (window_clear (rt_window (with_live r' st')))
        else with_live r' st')
       (phase_for_outcome
          (if lo_clear_measurement_window out
           then with_window (with_live r' st') (window_clear (rt_window (with_live r' st')))
           else with_live r' st') (lo_event out))
       (fun r0 => hret (inl tt, r0))) (fun x _ => @window_moved r unit x)).
  { intros Hgo h. by apply Hgo. }
  unfold after_transition, transition_runtime_phase.
  destruct (lo_clear_measurement_window out); destruct (allows_transition_to _ _);
    apply hspec_ret; intros h _; split; cbn; try (by rewrite Hw; auto); try done.
  intros _ Hph Hold Hnew. exfalso.
  destruct (lo_event out) eqn:E; cbn in Hset; try (by destruct Hc as [_ Hc]; specialize (Hc eq_refl)).
  all: try (destruct Hset; congruence). by apply Hph.
Qed.

Lemma evaluate_window r t reason :
  at_rest r ->
  supports_apply (cp_mode (li_controller_policy (rc_input config))) = true ->
  (li_mode (rc_input config) = ApplyLowRisk \/ li_mode (rc_input config) = ApplyMediumRisk) ->
  hspec any (evaluate_and_emit r t reason) (fun x _ => window_moved r x).
Proof.
  intros [Hcon Hphase] Hap Hmode. unfold evaluate_and_emit.
  apply after_transition_window; [done|].
  apply (hspec_bind _ _ _ (fun r2 _ => rt_window r2 = rt_window r /\ consistent (rt_live r2) /\
    lv_current (rt_live r2) = lv_current (rt_live r))).
  { destruct (_ && _ && _); [|by apply hspec_ret].
    eapply hspec_bind; [apply release_keeps_books|]. intros x. apply hspec_ret.
    intros h (_ & H2 & H3 & H4). split; [done|]. unfold consistent. by rewrite H2, H3. }
  intros r2 h (Hw & Hcon2 & Hcur).
  pose proof (tick_decision_ok (rt_live r2) t Hcon2 Hap Hmode) as (Hc & Hs & Hd). cbv zeta in *.
  assert (Hgo : forall r3, same_books r2 r3 -> hspec any
    (apply_decision_side_effects (with_live r3 (tick_decision (rt_live r3) t).2) (ti_observation t)
       (tick_decision (rt_live r3) t).1 reason) (fun x _ => window_moved r x)).
  { intros r3 [Hw3 Hl3]. rewrite Hl3.
    eapply hspec_post; [by apply apply_decision_window|].
    intros x h' [Hm Hn]. cbn in Hm, Hn. rewrite Hw3, Hw in Hm, Hn. split; [done|].
    intros H1 H2 H3 H4. apply Hn; try done. rewrite Hcur, H3 in Hd. done. }
  destruct (has_active_experiment (rt_live r2)); [by apply Hgo|].
  apply (after_transition_window r r2 RpPlanning (fun r => dry_run_plan t r (fun r3 => apply_decision_side_effects
    (with_live r3 (tick_decision (rt_live r3) t).2) (ti_observation t) (tick_decision (rt_live r3) t).1 reason)));
    [done| |done].
  apply dry_run_plan_allowed; [done| |].
  - intros r' [Hw' _]. cbn in Hw'. split; [left; cbn; congruence|done].
  - intros r' _ Hb. by apply Hgo.
Qed.

(** A rollback leaves the window alone, and no experiment unless it faults. *)
Lemma rollback_reverts r last n present reason :
  at_rest r ->
  hspec any (rollback_live_experiment r last n present reason)
    (fun x _ => accepted x /\ rt_window x.2 = rt_window r /\
       (x.1 = inl tt -> rt_phase x.2 = RpFaulted \/ at_rest x.2 /\ lv_current (rt_live x.2) = None)).
Proof.
  intros Hr. pose proof Hr as [Hcon Hphase]. unfold rollback_live_experiment.
  destruct (lv_current (rt_live r)) as [e|] eqn:Hcur.
  2: { apply hspec_ret. intros h _. split; [by left|]. split; [done|]. by right. }
  assert (Hm : rt_phase r = RpMeasuringCandidate).
  { unfold has_active_experiment in Hphase. rewrite Hcur in Hphase. by destruct (rt_phase r). }
  cbv zeta. set (o := if present then _ else _). clearbody o.
  assert (Hs : sensible (rt_live r) (DRevert (le_experiment_id e))) by (cbn; congruence).
  apply hspec_and; [by apply apply_decision_accepted|].
  unfold apply_decision_side_effects. rewrite andb_false_r.
  apply transition_for_decision_poised; [done|].
  destruct (rc_service_resolves config); cbn [negb]; [|by apply hspec_ret].
  eapply hspec_bind.
  { apply hspec_and; [by apply (side_effects_fine (rt_live r))|apply side_effects_clear]. }
  intros [[out|err] st']; cbn [fst snd]; [|by apply hspec_ret].
  intros h [[He Hset] Hc]. cbn in He, Hset, Hc.
  assert (Hclear : lo_clear_measurement_window out = false).
  { apply not_true_iff_false. rewrite Hc. destruct He as [->| ->]; done. }
  rewrite Hclear. cbn. revert h. unfold after_transition, transition_runtime_phase. cbn.
  destruct He as [E|E]; rewrite E in *; cbn; intros h; (split; [done|]); intros _; [right|by left].
  destruct Hset as [Hn Hk]. split; [|done]. split; [done|].
  change (has_active_experiment st' = false). unfold has_active_experiment. by rewrite Hn.
Qed.

(** C13. A tick of an apply mode never asks for a transition of the runtime's
    phases that [phase.rs] refuses, whatever the planner, the workload and the disk
    do: from a runtime at rest every transition it makes is allowed, and when it
    returns normally the runtime is at rest again (idle or observing without an
    experiment, measuring with one) or faulted.  A faulted runtime evaluates nothing:
    every later tick is refused before it reads or writes anything. *)
Theorem tick_transitions_accepted r t reason h :
  at_rest r ->
  supports_apply (cp_mode (li_controller_policy (rc_input config))) = true ->
  (li_mode (rc_input config) = ApplyLowRisk \/ li_mode (rc_input config) = ApplyMediumRisk) ->
  let x := (evaluate_and_emit r t reason h).1 in
  (forall from to, x.1 <> inr (TeTransition from to)) /\
  (x.1 = inl tt -> at_rest x.2 \/ rt_phase x.2 = RpFaulted) /\
  (rt_phase x.2 = RpFaulted -> forall t' reason' h',
     exists e, evaluate_and_emit x.2 t' reason' h' = ((inr e, fault_runtime_phase x.2), h')).
Proof.
  intros Hr Hap Hmode x. pose proof (evaluate_accepted r t reason Hr Hap Hmode h I) as H.
  fold x in H. unfold accepted in H. split_and!.
  - intros from to E. by rewrite E in H.
  - intros E. by rewrite E in H.
  - intros Hf t' reason' h'. unfold evaluate_and_emit, after_transition, transition_runtime_phase.
    rewrite Hf. unfold phase_for_evaluation. destruct (has_active_experiment _); by eexists.
Qed.

End runtime.

Arguments AutotuneRuntime : clear implicits.
