(* ===== verification/Selection.v ===== *)
(** * Selection: the candidate of a tick

    [stutter/src/autotune/runtime/plan_output.rs] (when a tick plans at all, and with
    what) and [runtime/planning.rs] (the choice among simulated candidates), composed
    with the decision of the tick of [Runtime].

    The plan that is kept for the reactions to external changes, [last_plan_result], is
    passed along; the providers are a function of the input they are given.  The plan files
    of [dry_run_all_safe] are left out. *)

From Stdlib Require Import Ascii String List.
From S2P Require Import Prelude Abi Score PolicyModel PolicyEval PolicySpec ActionModel Procfs Allowlist Journal Objective Controller AutonomousGate ContextKey WorkloadPolicy CandidateMemory Decide Planner PlannerSafety LiveExperiment Runtime.
From stdpp Require Import sorting gmap strings list.
Open Scope Z_scope.

(** ** [runtime/planning.rs] *)

Definition candidate_situation_rank (profile_name : string) (situation : SituationKind) : option Z :=
  let has := contains (to_ascii_lowercase profile_name) in
  match situation with
  | GameCpuSchedulerPressure | GameFocused =>
      if has "game-isolate-render" then Some 0
      else if has "avoid-smt-contention" then Some 1
      else if has "wine-server-dedicated" then Some 2
      else if has "helper-spread" then Some 3
      else if has "game" || has "wine" || has "helper" then Some 10
      else None
  | CompositorPressure =>
      if has "game-compositor-separate" then Some 0
      else if has "compositor" then Some 1
      else None
  | CpuPressure =>
      if has "avoid-smt-contention" then Some 0
      else if has "helper-spread" then Some 1
      else None
  | _ => None
  end.

Definition simulated_dry_run_records (candidates : list CandidateAction) (active_target_count : Z)
    : list CandidateDryRunRecord :=
  (fun c =>
     {| dr_candidate_name := candidate_name c;
        dr_affected_tasks := Z.to_nat (Z.max active_target_count 1);
        dr_warnings := []; dr_safety_class := candidate_safety_class c; dr_eligible := true |})
  <$> candidates.

(** The rank of a candidate that may be selected. *)
Definition simulated_rank (records : list CandidateDryRunRecord) (o : AutotuneObservation)
    (max_class : SafetyClass) (s : ControllerRuntimeState) (c : CandidateAction) : option Z :=
  record ← List.find (fun r => String.eqb (dr_candidate_name r) (candidate_name c)) records;
  if negb (dr_eligible record) || safety_lt max_class (dr_safety_class record) then None
  else match cooldown_remaining_for_action (cs_candidate_memory s) (candidate_action_id c)
               (ob_now_unix_nanos o) with
       | Some _ => None
       | None =>
           match c with
           | CaFake _ _ => Some 0
           | _ => candidate_situation_rank (candidate_name c) (ob_primary_situation o)
           end
       end.

Definition ranked_le (a b : Z * CandidateAction) : Prop :=
  a.1 < b.1 \/ (a.1 = b.1 /\ String.le (candidate_name a.2) (candidate_name b.2)).
#[export] Instance ranked_le_dec a b : Decision (ranked_le a b).
Proof. unfold ranked_le. apply _. Defined.

Definition select_best_candidate_for_situation (candidates : list CandidateAction)
    (records : list CandidateDryRunRecord) (o : AutotuneObservation) (max_class : SafetyClass)
    (s : ControllerRuntimeState) : option CandidateAction :=
  snd <$> head
    (stable_sort ranked_le
       (omap (fun c => (fun rank => (rank, c)) <$> simulated_rank records o max_class s c) candidates)).

(** ** [runtime/plan_output.rs] *)

Record SelectionConfig := {
  se_mode : DaemonMode;
  se_controller_policy : ControllerPolicy;
  se_tree_pid : option Z;
  se_simulated_candidates : list CandidateAction;
  se_workload_policy_error : bool }.

Definition with_target_root_pid (o : AutotuneObservation) (pid : Z) : AutotuneObservation :=
  {| ob_now_unix_nanos := ob_now_unix_nanos o; ob_elapsed_ms := ob_elapsed_ms o;
     ob_target_present := ob_target_present o; ob_target_root_pid := Some pid;
     ob_active_target_count := ob_active_target_count o;
     ob_scored_task_count := ob_scored_task_count o; ob_interval_count := ob_interval_count o;
     ob_scored_samples := ob_scored_samples o; ob_score := ob_score o;
     ob_data_quality := ob_data_quality o; ob_activity_level := ob_activity_level o;
     ob_objective_signals := ob_objective_signals o;
     ob_primary_situation := ob_primary_situation o; ob_focus_kind := ob_focus_kind o;
     ob_focus_confidence := ob_focus_confidence o; ob_focus_reasons := ob_focus_reasons o;
     ob_topology_signature := ob_topology_signature o;
     ob_workload_identity := ob_workload_identity o;
     ob_active_tasks := ob_active_tasks o;
     ob_active_config_snapshot := ob_active_config_snapshot o; ob_frame_p99_ms := ob_frame_p99_ms o;
     ob_frame_max_ms := ob_frame_max_ms o |}.

Definition planned_for (i : PlannerInput) (o : AutotuneObservation) : PlannerInput :=
  {| pi_observation := o; pi_daemon_policy := pi_daemon_policy i;
     pi_capabilities := pi_capabilities i; pi_health_ok_for_apply := pi_health_ok_for_apply i;
     pi_health_reason_code := pi_health_reason_code i;
     pi_controller_state := pi_controller_state i;
     pi_active_profile_state := pi_active_profile_state i;
     pi_workload_policy := pi_workload_policy i; pi_active_config := pi_active_config i |}.

(** A plan made without the planner. *)
Definition blocked_plan (selected : option CandidateAction) (reason : NoActionReason) : PlanResult :=
  {| pr_selected := selected; pr_evaluations := [];
     pr_no_action_reason := match selected with Some _ => None | None => Some reason end |}.

Lemma simulated_selection records o max_class s candidates c :
  select_best_candidate_for_situation candidates records o max_class s = Some c -> c ∈ candidates.
Proof.
  unfold select_best_candidate_for_situation. intros ((rank & c') & Hh & ->)%fmap_Some.
  apply head_Some_elem_of in Hh. rewrite stable_sort_Permutation in Hh.
  apply list_elem_of_omap in Hh as (x & Hx & E). cbn.
  destruct (simulated_rank records o max_class s x); [|done]. by simplify_eq/=.
Qed.

Section selection.

Context {R : Type} {runner : CandidateDryRunner R}.
Context (propose : PlannerInput -> list CandidateProposal).

(** What is selected, and the last plan after it.  [i] is the input of the planner
    on this tick. *)
Definition select_candidate_for_observation (cfg : SelectionConfig) (i : PlannerInput)
    (last : option PlanResult) (r : R) : option CandidateAction * option PlanResult * R :=
  let o := pi_observation i in
  if mode_eqb (se_mode cfg) Observe then (None, Some (blocked_plan None NoActionObserveMode), r)
  else if is_low_quality (ob_data_quality o) || focus_is_idle_or_unknown o
          || focus_has_critical_realtime_warning o
          || f32_lt (ob_focus_confidence o) (cp_min_focus_confidence (se_controller_policy cfg))
       then (None, Some (blocked_plan None NoActionGateBlocked), r)
  else
    match (match ob_target_root_pid o with Some pid => Some pid | None => se_tree_pid cfg end) with
    | None => (None, last, r)
    | Some pid =>
        match se_simulated_candidates cfg with
        | (_ :: _) as candidates =>
            let records := simulated_dry_run_records candidates (ob_active_target_count o) in
            let selected :=
              select_best_candidate_for_situation candidates records o
                (cp_max_safety_class (se_controller_policy cfg)) (pi_controller_state i) in
            (selected, Some (blocked_plan selected NoActionNoSimulatedCandidate), r)
        | [] =>
            let o := match ob_target_root_pid o with
                     | Some _ => o
                     | None => with_target_root_pid o pid
                     end in
            if se_workload_policy_error cfg then (None, Some (blocked_plan None NoActionInvalidWorkloadPolicy), r)
            else
              let i := planned_for i o in
              let '(result, r) := plan_with_dry_runner i (propose i) r in
              (pr_selected result, Some result, r)
        end
    end.

(** Whether the selection reaches the planner. *)
Definition planner_runs (cfg : SelectionConfig) (i : PlannerInput) : bool :=
  let o := pi_observation i in
  negb (mode_eqb (se_mode cfg) Observe)
  && negb (is_low_quality (ob_data_quality o) || focus_is_idle_or_unknown o
           || focus_has_critical_realtime_warning o
           || f32_lt (ob_focus_confidence o) (cp_min_focus_confidence (se_controller_policy cfg)))
  && match ob_target_root_pid o, se_tree_pid cfg with None, None => false | _, _ => true end
  && match se_simulated_candidates cfg with [] => true | _ => false end
  && negb (se_workload_policy_error cfg).

(** The input of a tick: the selection, the drift its last plan shows, and whether the
    dry-run files of a plan can be written. *)
Definition planned_tick (cfg : SelectionConfig) (i : PlannerInput) (last : option PlanResult) (r : R)
    (active : option ActiveConfigMatch) (written : bool) : TickInput :=
  let '(selected, last', _) := select_candidate_for_observation cfg i last r in
  let denied reason := match last' with Some plan => plan_has_deny_reason plan reason | None => false end in
  {| ti_observation := pi_observation i; ti_candidate := selected; ti_active_match := active;
     ti_plan_active_drift := denied DenyExternalMutationDetected;
     ti_plan_kept_drift := denied DenyKeptActionNoLongerActive;
     ti_plan_files := if planner_runs cfg i then Some written else None |}.

(** ** Theorems *)

(** Filling in the root of the target changes nothing the authorization reads. *)
Definition planned_observation (i : PlannerInput) (pid : Z) : AutotuneObservation :=
  match ob_target_root_pid (pi_observation i) with
  | Some _ => pi_observation i
  | None => with_target_root_pid (pi_observation i) pid
  end.

Lemma selection_from_plan cfg i last r c :
  se_simulated_candidates cfg = [] ->
  (select_candidate_for_observation cfg i last r).1.1 = Some c ->
  exists pid, let i' := planned_for i (planned_observation i pid) in
    pr_selected (plan_with_dry_runner i' (propose i') r).1 = Some c.
Proof.
  intros Hsim. unfold select_candidate_for_observation.
  destruct (mode_eqb _ _); [done|]. destruct (_ || _ || _ || _); [done|].
  destruct (match ob_target_root_pid (pi_observation i) with Some pid => Some pid | None => _ end)
    as [pid|] eqn:Hpid; [|done].
  rewrite Hsim. destruct (se_workload_policy_error cfg); [done|].
  fold (planned_observation i pid).
  destruct (plan_with_dry_runner _ _ r) as [result r'] eqn:E. cbn. intros Hc.
  exists pid. cbv zeta. by rewrite E.
Qed.

Lemma selection_simulated cfg i last r c :
  se_simulated_candidates cfg <> [] ->
  (select_candidate_for_observation cfg i last r).1.1 = Some c -> c ∈ se_simulated_candidates cfg.
Proof.
  intros Hsim. unfold select_candidate_for_observation.
  destruct (mode_eqb _ _); [done|]. destruct (_ || _ || _ || _); [done|].
  destruct (match ob_target_root_pid (pi_observation i) with Some pid => Some pid | None => _ end); [|done].
  destruct (se_simulated_candidates cfg) as [|x l]; [done|]. cbn. apply simulated_selection.
Qed.

Lemma planned_observation_same i pid :
  let o' := planned_observation i pid in
  ob_primary_situation o' = ob_primary_situation (pi_observation i) /\
  policy_context_for_input (planned_for i o') = policy_context_for_input i.
Proof. cbv zeta. unfold planned_observation. by destruct (ob_target_root_pid _). Qed.

End selection.

Lemma tick_starts_candidate {Config} (config : RuntimeConfig) (st : LiveState Config) (t : TickInput)
    (c : CandidateAction) :
  (tick_decision config st t).1 = DStartExperiment c -> ti_candidate t = Some c /\ lv_current st = None.
Proof.
  unfold tick_decision. destruct (active_window_decision st (ti_observation t)) as [d|] eqn:Hw.
  { unfold active_window_decision in Hw. destruct (lv_current st); [|done]. cbn in *.
    repeat case_match; simplify_eq; done. }
  unfold has_active_experiment. destruct (lv_current st) as [e|] eqn:Hcur.
  - destruct (active_experiment_external_mutation_decision _ st _) as [x|] eqn:Hm.
    + unfold active_experiment_external_mutation_decision in Hm. rewrite Hcur in Hm. cbn in Hm.
      destruct (ti_active_match t) as [m|]; [|done]. cbn in Hm.
      destruct m; [done| |case_match; [done|]]; simplify_eq; by destruct (rc_external_mutation_policy config).
    + cbn. intros H%start_iff. naive_solver.
  - destruct (plan_external_mutation_recovery_decision _ st _ _) as [x|] eqn:Hm.
    + unfold plan_external_mutation_recovery_decision in Hm. rewrite Hcur in Hm.
      destruct (ti_plan_active_drift t), (ti_plan_kept_drift t), (rc_external_mutation_policy config);
        cbn in Hm; by simplify_eq.
    + cbn. intros H%start_iff. naive_solver.
Qed.

(** C4. Every experiment a tick of an apply mode starts was authorized, whatever the
    providers and the dry runner are: nothing was under way, and unless candidates to
    simulate are configured, from which it is then taken, the candidate is a proposal the
    providers made for this tick, is not of high risk, is applied by the daemon policy in
    the context of the tick and is let through by the autonomous gate. *)
Theorem started_experiment_authorized {R} {runner : CandidateDryRunner R} {Config}
    (propose : PlannerInput -> list CandidateProposal) (config : RuntimeConfig) (cfg : SelectionConfig)
    (i : PlannerInput) (last : option PlanResult) (r : R) (active : option ActiveConfigMatch) (written : bool)
    (st : LiveState Config) (c : CandidateAction) :
  supports_apply (mode (pi_daemon_policy i)) = true ->
  (tick_decision config st (planned_tick propose cfg i last r active written)).1 = DStartExperiment c ->
  lv_current st = None /\
  ((se_simulated_candidates cfg <> [] /\ c ∈ se_simulated_candidates cfg) \/
   (se_simulated_candidates cfg = [] /\ candidate_safety_class c <> HighRisk /\
    (exists pid p,
       p ∈ propose (planned_for i (planned_observation i pid)) /\ pp_candidate p = c /\
       apply_permitted (pi_daemon_policy i) (candidate_descriptor c (Some (pp_confidence p)))
         (policy_context_for_input i)) /\
    ((campaign_grants c (source (pi_daemon_policy i)) (cs_validation_override (pi_controller_state i)) /\
      is_manual_only (operation_kind c) = false) \/
     supported_tuple c (ob_primary_situation (pi_observation i))))).
Proof.
  intros Hm Hstart. apply tick_starts_candidate in Hstart as [Hc Hcur]. split; [done|].
  unfold planned_tick in Hc.
  destruct (select_candidate_for_observation propose cfg i last r) as [[selected last'] r'] eqn:E.
  cbn in Hc. subst selected.
  destruct (decide (se_simulated_candidates cfg = [])) as [Hsim|Hsim]; [right|left].
  2: { split; [done|]. eapply selection_simulated; [done|]. by rewrite E. }
  destruct (selection_from_plan propose cfg i last r c Hsim) as [pid Hplan]; [by rewrite E|].
  destruct (planned_observation_same i pid) as [Hsit Hctx].
  apply selected_cleared in Hplan as (_ & _ & p & Hin & <- & Hcl & _).
  pose proof (cleared_permitted (planned_for i (planned_observation i pid)) p Hm Hcl) as Hp.
  rewrite Hctx in Hp.
  pose proof (cl_gate _ _ Hcl) as Hg. cbn in Hg. rewrite Hsit, <- apply_mode_autonomous in Hg.
  split; [done|]. split; [apply (cl_high_risk _ _ Hcl)|]. split; [by exists pid, p|].
  apply Hg, gate_exact in Hm as [H|[_ H]]; auto.
Qed.
