(* ===== verification/ProcessTree.v ===== *)
(** * ProcessTree: walks over the process tree

    [focus/tree_walk.rs], [process/procfs.rs] ([descendants_of]),
    [focus/group_build.rs] (roots and preferences) and
    [autotune/observation_builder/tasks.rs] ([runnable_target_processes]).

    A snapshot of [/proc] is not atomic, so the parent pids in it need not form a
    tree.  Every loop takes fuel; the wrappers compute a bound from the snapshot
    and the theorems show that it is enough, cycles included, and that the result
    is the set of reachable processes.  The walk to the nearest compile session has
    no such bound: it is characterised by when it returns at all. *)

From S2P Require Import Prelude PolicyModel Allowlist Intervals Score Controller FocusModel.
From stdpp Require Import sorting relations.
Open Scope Z_scope.

(** ** Descents *)

(** [children_by_parent.get(&pid)], absent read as no children. *)
Definition children_of (children_by_parent : gmap Z (list Z)) (pid : Z) : list Z :=
  default [] (children_by_parent !! pid).

(** [descendants_of_pid]: the head of [stack] is its top, so the children, pushed
    in reverse, come off in order. *)
Fixpoint descendants_of_pid_loop (fuel : nat) (children_by_parent : gmap Z (list Z))
    (stack : list Z) (result : gset Z) : option (gset Z) :=
  match fuel with
  | O => None
  | S fuel =>
      match stack with
      | [] => Some result
      | pid :: stack =>
          if decide (pid ∈ result)
          then descendants_of_pid_loop fuel children_by_parent stack result
          else descendants_of_pid_loop fuel children_by_parent
                 (children_of children_by_parent pid ++ stack) ({[ pid ]} ∪ result)
      end
  end.

(** The children of the parents that are not in [result] yet. *)
Definition unvisited_children (children_by_parent : gmap Z (list Z)) (result : gset Z) : nat :=
  map_fold (fun _ children n => length children + n)%nat 0%nat
    (filter (fun e => e.1 ∉ result) children_by_parent).

Definition descendants_of_pid (snapshot : FocusSnapshot) (root_pid : Z) : option (gset Z) :=
  let children := fs_children_by_parent snapshot in
  descendants_of_pid_loop (S (S (unvisited_children children ∅))) children [root_pid] ∅.

(** [descendants_of_process]: [stack] starts as the children of the root, the last
    one on top; a pid that is not a process of the snapshot is passed over. *)
Fixpoint descendants_of_process_loop (fuel : nat) (snapshot : FocusSnapshot)
    (stack : list Z) (descendants : gset Z) : option (gset Z) :=
  match fuel with
  | O => None
  | S fuel =>
      match stack with
      | [] => Some descendants
      | pid :: stack =>
          if bool_decide (fs_processes snapshot !! pid = None)
          then descendants_of_process_loop fuel snapshot stack descendants
          else if decide (pid ∈ descendants)
          then descendants_of_process_loop fuel snapshot stack descendants
          else descendants_of_process_loop fuel snapshot
                 (rev (children_of (fs_children_by_parent snapshot) pid) ++ stack)
                 ({[ pid ]} ∪ descendants)
      end
  end.

Definition descendants_of_process (snapshot : FocusSnapshot) (root_pid : Z) : option (list Z) :=
  let children := fs_children_by_parent snapshot in
  let stack := rev (children_of children root_pid) in
  btree_elements <$>
    descendants_of_process_loop (S (length stack + unvisited_children children ∅)) snapshot stack ∅.

(** [procfs::descendants_of]: breadth first, a pid enters the result with the
    queue. *)
Fixpoint enqueue_children (children : list Z) (result : gset Z) (queue : list Z) : gset Z * list Z :=
  match children with
  | [] => (result, queue)
  | child :: children =>
      if decide (child ∈ result) then enqueue_children children result queue
      else enqueue_children children ({[ child ]} ∪ result) (queue ++ [child])
  end.

Fixpoint descendants_of_loop (fuel : nat) (children_by_parent : gmap Z (list Z))
    (queue : list Z) (result : gset Z) : option (gset Z) :=
  match fuel with
  | O => None
  | S fuel =>
      match queue with
      | [] => Some result
      | parent :: queue =>
          let (result, queue) := enqueue_children (children_of children_by_parent parent) result queue in
          descendants_of_loop fuel children_by_parent queue result
      end
  end.

Definition all_children (children_by_parent : gmap Z (list Z)) : gset Z :=
  list_to_set (mjoin ((map_to_list children_by_parent).*2)).

Definition descendants_of (root_pid : Z) (children_by_parent : gmap Z (list Z)) : option (gset Z) :=
  descendants_of_loop (S (S (size (all_children children_by_parent)))) children_by_parent
    [root_pid] {[ root_pid ]}.

(** ** Ascents *)

Fixpoint is_process_ancestor_loop (fuel : nat) (processes : gmap Z FocusProcess)
    (ancestor_pid current : Z) (seen : gset Z) : option bool :=
  match fuel with
  | O => None
  | S fuel =>
      if decide (current ∈ seen) then Some false
      else
        match processes !! current with
        | None => Some false
        | Some process =>
            if fp_ppid process =? ancestor_pid then Some true
            else if (fp_ppid process =? 0) || (fp_ppid process =? current) then Some false
            else is_process_ancestor_loop fuel processes ancestor_pid (fp_ppid process)
                   ({[ current ]} ∪ seen)
        end
  end.

Definition is_process_ancestor (snapshot : FocusSnapshot) (ancestor_pid descendant_pid : Z)
    : option bool :=
  is_process_ancestor_loop (S (S (size (fs_processes snapshot)))) (fs_processes snapshot)
    ancestor_pid descendant_pid ∅.

Fixpoint has_ancestor_in_set_loop (fuel : nat) (processes : gmap Z FocusProcess)
    (pids : gset Z) (current : Z) (seen : gset Z) : option bool :=
  match fuel with
  | O => None
  | S fuel =>
      match processes !! current with
      | None => Some false
      | Some process =>
          if decide (current ∈ seen) then Some false
          else
            let parent := fp_ppid process in
            if (parent =? current) || (parent =? 0) then Some false
            else if decide (parent ∈ pids) then Some true
            else has_ancestor_in_set_loop fuel processes pids parent ({[ current ]} ∪ seen)
      end
  end.

Definition has_ancestor_in_set (snapshot : FocusSnapshot) (pid : Z) (pids : gset Z) : option bool :=
  has_ancestor_in_set_loop (S (S (size (fs_processes snapshot)))) (fs_processes snapshot) pids pid ∅.

Definition parent_of (snapshot : FocusSnapshot) (pid : Z) : option Z :=
  fp_ppid <$> fs_processes snapshot !! pid.

Definition same_process_family (snapshot : FocusSnapshot) (left_pid right_pid : Z) : option bool :=
  if left_pid =? right_pid then Some true
  else
    left_above ← is_process_ancestor snapshot left_pid right_pid;
    if left_above : bool then Some true
    else
      right_above ← is_process_ancestor snapshot right_pid left_pid;
      if right_above : bool then Some true
      else
        Some match parent_of snapshot left_pid, parent_of snapshot right_pid with
             | Some l, Some r => negb (l =? 0) && (l =? r)
             | _, _ => false
             end.

Definition same_non_empty_cgroup (left right : FocusProcess) : bool :=
  match fp_cgroup_path left, fp_cgroup_path right with
  | Some l, Some r =>
      bool_decide (l <> ""%string) && bool_decide (r <> ""%string) && bool_decide (l = r)
  | _, _ => false
  end.

Definition process_appears_tied_to_root (snapshot : FocusSnapshot) (pid root_pid : Z) : option bool :=
  if pid =? root_pid then Some true
  else
    match fs_processes snapshot !! pid, fs_processes snapshot !! root_pid with
    | Some process, Some root =>
        descendants ← descendants_of_pid snapshot root_pid;
        Some (bool_decide (pid ∈ descendants) || (fp_ppid process =? fp_ppid root)
              || same_non_empty_cgroup process root
              || (contains_game_runtime_text process && contains_game_runtime_text root))
    | _, _ => Some false
    end.

(** ** [group_build.rs] *)

Definition root_pids_from_members (snapshot : FocusSnapshot) (member_pids : gset Z) : list Z :=
  List.filter (fun pid =>
    match fs_processes snapshot !! pid with
    | Some process => negb (bool_decide (fp_ppid process ∈ member_pids))
    | None => false
    end) (btree_elements member_pids).

Definition score_of_pid (snapshot : FocusSnapshot) (pid : Z) : f32 :=
  match fs_processes snapshot !! pid with Some p => process_focus_score p | None => f32_zero end.

Definition compare_process_preference (snapshot : FocusSnapshot) (left_pid right_pid : Z) : comparison :=
  then_with (f32_cmp (score_of_pid snapshot left_pid) (score_of_pid snapshot right_pid))
            (left_pid ?= right_pid).

Definition is_stable_build_root (p : FocusProcess) : bool :=
  bool_decide (to_ascii_lowercase (fp_comm p) ∈
                 ["cargo"; "ninja"; "make"; "cmake"; "meson"; "scons"]%string)
  || bool_decide (fp_class p = BuildJob).

Definition stable_build_root_rank (snapshot : FocusSnapshot) (pid : Z) : Z :=
  match fs_processes snapshot !! pid with
  | Some p =>
      if is_stable_build_root p then 3
      else if decide (fp_class p = Terminal) then 2
      else if decide (fp_class p = Shell) then 1
      else 0
  | None => 0
  end.

Definition is_terminal_or_shell (p : FocusProcess) : bool :=
  match fp_class p with Terminal | Shell => true | _ => false end.

(** How the loop of [nearest_compile_session_root] ends: it returns from the
    function, or breaks with the terminal or shell it found. *)
Inductive SessionWalk := WalkReturn (pid : Z) | WalkBreak (nearest_shell_or_terminal : option Z).

Fixpoint compile_session_loop (fuel : nat) (processes : gmap Z FocusProcess) (current : Z)
    : option SessionWalk :=
  match fuel with
  | O => None
  | S fuel =>
      match processes !! current with
      | None => Some (WalkBreak None)
      | Some process =>
          if is_stable_build_root process then Some (WalkReturn (fp_pid process))
          else if is_terminal_or_shell process then Some (WalkBreak (Some (fp_pid process)))
          else
            let parent := fp_ppid process in
            if (parent =? current) || (parent =? 0) then Some (WalkBreak None)
            else compile_session_loop fuel processes parent
      end
  end.

Definition session_in_cgroup (snapshot : FocusSnapshot) (cgroup : string) : option Z :=
  fp_pid <$>
    max_by (fun left right => f32_cmp (process_focus_score left) (process_focus_score right))
      (List.filter is_terminal_or_shell
         (List.filter (fun p => bool_decide (fp_cgroup_path p = Some cgroup))
            (btree_values (fs_processes snapshot)))).

Definition nearest_compile_session_root (fuel : nat) (snapshot : FocusSnapshot) (pid : Z)
    : option (option Z) :=
  let process_cgroup := fs_processes snapshot !! pid ≫= fp_cgroup_path in
  walk ← compile_session_loop fuel (fs_processes snapshot) pid;
  Some match walk with
       | WalkReturn pid => Some pid
       | WalkBreak (Some pid) => Some pid
       | WalkBreak None => process_cgroup ≫= session_in_cgroup snapshot
       end.

(** ** [observation_builder/tasks.rs] *)

Definition add_members (active_tasks : list TaskInfo) (members : gset Z) : gset Z :=
  foldl (fun members task =>
           if decide (ti_process_ppid task ∈ members) then {[ ti_process_pid task ]} ∪ members
           else members) members active_tasks.

Fixpoint member_loop (fuel : nat) (active_tasks : list TaskInfo) (members : gset Z)
    : option (gset Z) :=
  match fuel with
  | O => None
  | S fuel =>
      let members' := add_members active_tasks members in
      if decide (size members' = size members) then Some members'
      else member_loop fuel active_tasks members'
  end.

(** [focus_members] is [focus.map(|f| f.member_pids)]. *)
Definition runnable_target_processes (root_pid : option Z) (explicit_root : bool)
    (focus_members : option (list Z)) (active_tasks : gmap Z TaskInfo) : option (gset Z) :=
  match root_pid with
  | None => Some ∅
  | Some root_pid =>
      let tasks := btree_values active_tasks in
      if negb (0 <? root_pid) || negb (existsb (fun t => ti_process_pid t =? root_pid) tasks)
      then Some ∅
      else
        let members : gset Z :=
          match focus_members with
          | Some pids =>
              if explicit_root then {[ root_pid ]}
              else {[ root_pid ]} ∪ list_to_set (List.filter (fun pid => 0 <? pid) pids)
          | None => {[ root_pid ]}
          end in
        member_loop (S (length tasks)) tasks members
  end.

(** ** Descents are reachability *)

Definition child_of (children_by_parent : gmap Z (list Z)) (p q : Z) : Prop :=
  q ∈ children_of children_by_parent p.

(** What is reachable from a visited pid is visited or reachable from the
    frontier, when the frontier holds every step out of the visited pids. *)
Lemma frontier_reach (R : Z -> Z -> Prop) (result : gset Z) (frontier : Z -> Prop) p x :
  (forall p q, p ∈ result -> R p q -> q ∈ result \/ frontier q) ->
  p ∈ result -> rtc R p x -> x ∈ result \/ exists y, frontier y /\ rtc R y x.
Proof.
  intros Hclosed Hp Hr. revert Hp. induction Hr as [p|p q x Hpq Hqx IH]; intros Hp; [by left|].
  destruct (Hclosed _ _ Hp Hpq) as [Hq|Hq]; [by apply IH|]. right. by exists q.
Qed.

Lemma unvisited_children_visit children (result : gset Z) pid :
  pid ∉ result ->
  unvisited_children children result =
    (length (children_of children pid) + unvisited_children children ({[ pid ]} ∪ result))%nat.
Proof.
  intros Hpid. unfold unvisited_children, children_of.
  assert (Hf : filter (fun e : Z * list Z => e.1 ∉ {[ pid ]} ∪ result) children =
               delete pid (filter (fun e => e.1 ∉ result) children)).
  { apply map_eq. intros p. apply option_eq. intros cs.
    rewrite lookup_delete_Some, !map_lookup_filter_Some. cbn. set_solver. }
  rewrite Hf. clear Hf. destruct (children !! pid) as [cs|] eqn:Hcs; cbn.
  - rewrite (map_fold_delete_L _ _ pid cs (filter _ children)).
    + done.
    + intros. lia.
    + by apply map_lookup_filter_Some.
  - rewrite delete_id; [done|]. apply map_lookup_filter_None. by left.
Qed.

Lemma descendants_of_pid_loop_exact fuel children stack (result : gset Z) :
  (length stack + unvisited_children children result < fuel)%nat ->
  (forall p q, p ∈ result -> child_of children p q -> q ∈ result \/ q ∈ stack) ->
  exists s, descendants_of_pid_loop fuel children stack result = Some s /\
    forall x, x ∈ s <-> x ∈ result \/ exists y, y ∈ stack /\ rtc (child_of children) y x.
Proof.
  revert stack result. induction fuel as [|fuel IH]; intros stack result Hfuel Hclosed; [lia|].
  destruct stack as [|pid stack]; cbn [descendants_of_pid_loop]; cbn [length] in Hfuel.
  { exists result. split; [done|]. set_solver. }
  destruct (decide (pid ∈ result)) as [Hin|Hout].
  - destruct (IH stack result) as (s & -> & Hs); [lia|set_solver|].
    exists s. split; [done|]. intros x. rewrite Hs. split; [set_solver|].
    intros [?|(y & Hy & Hyx)]; [by left|]. apply elem_of_cons in Hy as [->|Hy]; [|by eauto].
    apply (frontier_reach _ result (fun y => y ∈ stack) pid); [|done|done]. set_solver.
  - rewrite (unvisited_children_visit _ _ pid) in Hfuel by done.
    destruct (IH (children_of children pid ++ stack) ({[ pid ]} ∪ result)) as (s & -> & Hs).
    { rewrite length_app. lia. }
    { intros p q Hp Hq. apply elem_of_union in Hp as [Hp|Hp].
      - apply elem_of_singleton in Hp as ->. right. apply elem_of_app. by left.
      - destruct (Hclosed p q Hp Hq) as [?|?]; set_solver. }
    exists s. split; [done|]. intros x. rewrite Hs. split.
    + intros [Hx|(y & Hy & Hyx)].
      * apply elem_of_union in Hx as [Hx|Hx]; [|by left]. apply elem_of_singleton in Hx as ->.
        right. exists pid. split; [by left|done].
      * right. apply elem_of_app in Hy as [Hy|Hy]; [|exists y; split; [by right|done]].
        exists pid. split; [by left|]. by eapply rtc_l.
    + intros [Hx|(y & Hy & Hyx)]; [set_solver|]. apply elem_of_cons in Hy as [->|Hy].
      * inversion Hyx as [|? q ? Hq Hqx]; simplify_eq; [set_solver|].
        right. exists q. split; [apply elem_of_app; by left|done].
      * right. exists y. split; [apply elem_of_app; by right|done].
Qed.

Lemma descendants_of_pid_exact snapshot root :
  exists s, descendants_of_pid snapshot root = Some s /\
    forall x, x ∈ s <-> rtc (child_of (fs_children_by_parent snapshot)) root x.
Proof.
  destruct (descendants_of_pid_loop_exact
              (S (S (unvisited_children (fs_children_by_parent snapshot) ∅)))
              (fs_children_by_parent snapshot) [root] ∅) as (s & Hs & Hx); [cbn; lia|set_solver|].
  exists s. split; [done|]. intros x. rewrite Hx. split; [|intros Hr; right; exists root; set_solver].
  intros [?|(y & Hy%list_elem_of_singleton & Hyx)]; [set_solver|by subst].
Qed.

Lemma elem_of_rev {A} (l : list A) x : x ∈ rev l <-> x ∈ l.
Proof. by rewrite !list_elem_of_In, <- in_rev. Qed.

(** The steps of [descendants_of_process]: to a child the snapshot holds. *)
Definition live_child_of (snapshot : FocusSnapshot) (p q : Z) : Prop :=
  child_of (fs_children_by_parent snapshot) p q /\ is_Some (fs_processes snapshot !! q).

Lemma descendants_of_process_loop_exact fuel snapshot stack (result : gset Z) :
  (length stack + unvisited_children (fs_children_by_parent snapshot) result < fuel)%nat ->
  (forall p q, p ∈ result -> live_child_of snapshot p q -> q ∈ result \/ q ∈ stack) ->
  exists s, descendants_of_process_loop fuel snapshot stack result = Some s /\
    forall x, x ∈ s <-> x ∈ result \/
      exists y, (y ∈ stack /\ is_Some (fs_processes snapshot !! y)) /\
        rtc (live_child_of snapshot) y x.
Proof.
  revert stack result. induction fuel as [|fuel IH]; intros stack result Hfuel Hclosed; [lia|].
  destruct stack as [|pid stack]; cbn [descendants_of_process_loop]; cbn [length] in Hfuel.
  { exists result. split; [done|]. set_solver. }
  case_bool_decide as Hlive.
  { destruct (IH stack result) as (s & -> & Hs); [lia| |].
    - intros p q Hp Hq. destruct (Hclosed p q Hp Hq) as [?|Hin]; [by left|].
      apply elem_of_cons in Hin as [->|?]; [|by right]. destruct Hq as [_ [? ?]]. congruence.
    - exists s. split; [done|]. intros x. rewrite Hs. split; [set_solver|].
      intros [?|(y & [Hy Hl] & Hyx)]; [by left|]. apply elem_of_cons in Hy as [->|Hy]; [|by eauto].
      destruct Hl. congruence. }
  assert (Hp : is_Some (fs_processes snapshot !! pid)) by by apply not_eq_None_Some.
  destruct (decide (pid ∈ result)) as [Hin|Hout].
  - destruct (IH stack result) as (s & -> & Hs); [lia|set_solver|].
    exists s. split; [done|]. intros x. rewrite Hs. split; [set_solver|].
    intros [?|(y & [Hy Hl] & Hyx)]; [by left|]. apply elem_of_cons in Hy as [->|Hy]; [|by eauto].
    apply (frontier_reach _ result (fun y => y ∈ stack /\ is_Some (fs_processes snapshot !! y)) pid);
      [|done|done].
    intros p q Hpr Hq. destruct (Hclosed p q Hpr Hq) as [?|Hin2]; [by left|].
    apply elem_of_cons in Hin2 as [->|?]; [by left|right; split; [done|apply Hq]].
  - rewrite (unvisited_children_visit _ _ pid) in Hfuel by done.
    destruct (IH (rev (children_of (fs_children_by_parent snapshot) pid) ++ stack)
                ({[ pid ]} ∪ result)) as (s & -> & Hs).
    { rewrite length_app, length_rev. lia. }
    { intros p q Hpr Hq. apply elem_of_union in Hpr as [Hpr|Hpr].
      - apply elem_of_singleton in Hpr as ->. right. apply elem_of_app. left.
        rewrite elem_of_rev. apply Hq.
      - destruct (Hclosed p q Hpr Hq) as [?|?]; set_solver. }
    exists s. split; [done|]. intros x. rewrite Hs. split.
    + intros [Hx|(y & [Hy Hl] & Hyx)].
      * apply elem_of_union in Hx as [Hx|Hx]; [|by left]. apply elem_of_singleton in Hx as ->.
        right. exists pid. split; [split; [by left|done]|done].
      * right. apply elem_of_app in Hy as [Hy|Hy]; [|exists y; split; [split; [by right|done]|done]].
        exists pid. split; [split; [by left|done]|]. eapply rtc_l; [|done]. split; [|done].
        unfold child_of. by rewrite <- elem_of_rev.
    + intros [Hx|(y & [Hy Hl] & Hyx)]; [set_solver|]. apply elem_of_cons in Hy as [->|Hy].
      * inversion Hyx as [|? q ? Hq Hqx]; simplify_eq; [set_solver|].
        right. exists q. split; [split; [apply elem_of_app; left|apply Hq]|done].
        rewrite elem_of_rev. apply Hq.
      * right. exists y. split; [split; [apply elem_of_app; by right|done]|done].
Qed.

Lemma btree_elements_elem (s : gset Z) x : x ∈ btree_elements s <-> x ∈ s.
Proof. unfold btree_elements. by rewrite merge_sort_Permutation, elem_of_elements. Qed.

Lemma btree_elements_NoDup (s : gset Z) : NoDup (btree_elements s).
Proof. unfold btree_elements. rewrite merge_sort_Permutation. apply NoDup_elements. Qed.

Lemma btree_elements_sorted (s : gset Z) : StronglySorted Z.le (btree_elements s).
Proof. apply StronglySorted_merge_sort; intros ??; lia. Qed.

Lemma descendants_of_process_exact snapshot root :
  exists l, descendants_of_process snapshot root = Some l /\
    forall x, x ∈ l <-> tc (live_child_of snapshot) root x.
Proof.
  unfold descendants_of_process.
  set (stack := rev (children_of (fs_children_by_parent snapshot) root)).
  destruct (descendants_of_process_loop_exact
              (S (length stack + unvisited_children (fs_children_by_parent snapshot) ∅))
              snapshot stack ∅) as (s & -> & Hx); [lia|set_solver|].
  exists (btree_elements s). split; [done|]. intros x. rewrite btree_elements_elem, Hx.
  assert (Hst : forall y, y ∈ stack <-> child_of (fs_children_by_parent snapshot) root y).
  { intros y. unfold stack, child_of. by rewrite elem_of_rev. }
  split.
  - intros [?|(y & [Hy Hl] & Hyx)]; [set_solver|]. eapply tc_rtc_r; [|done]. apply tc_once.
    split; [by apply Hst|done].
  - intros Htc. right. inversion Htc as [? ? Hone|? y ? Hy Hyx%tc_rtc]; simplify_eq.
    + exists x. split; [|done]. split; [apply Hst, Hone|apply Hone].
    + exists y. split; [split; [apply Hst, Hy|apply Hy]|done].
Qed.

(** Breadth first: the result grows with the queue. *)
Lemma enqueue_children_spec children (result : gset Z) queue result' queue' :
  enqueue_children children result queue = (result', queue') ->
  exists new, queue' = queue ++ new /\ result' = result ∪ list_to_set new /\
    (forall x, x ∈ new -> x ∈ children /\ x ∉ result) /\
    (forall x, x ∈ children -> x ∈ result') /\ NoDup new.
Proof.
  revert result queue. induction children as [|c children IH]; cbn; intros result queue Heq.
  { simplify_eq. exists []. rewrite app_nil_r. split_and!; [done|set_solver|set_solver|set_solver|constructor]. }
  destruct (decide (c ∈ result)) as [Hin|Hout].
  - destruct (IH _ _ Heq) as (new & -> & -> & Hn & Hc & Hnd). exists new. set_solver.
  - destruct (IH _ _ Heq) as (new & -> & -> & Hn & Hc & Hnd).
    exists (c :: new). rewrite <- app_assoc. split_and!; [done|set_solver| |set_solver|].
    + intros x Hx. apply elem_of_cons in Hx as [->|Hx]; [set_solver|].
      destruct (Hn x Hx). set_solver.
    + constructor; [|done]. intros Hc'. destruct (Hn c Hc'). set_solver.
Qed.

Lemma child_in_all children p q : child_of children p q -> q ∈ all_children children.
Proof.
  unfold child_of, children_of, all_children. destruct (children !! p) as [cs|] eqn:Hp; cbn; [|set_solver].
  intros Hq. apply elem_of_list_to_set, list_elem_of_join. exists cs. split; [done|].
  apply list_elem_of_fmap. exists (p, cs). split; [done|]. by apply elem_of_map_to_list.
Qed.

(** As [frontier_reach], when the frontier holds the pids still to be expanded. *)
Lemma queue_reach (R : Z -> Z -> Prop) (result : gset Z) (queue : list Z) p x :
  (forall p q, p ∈ result -> R p q -> q ∈ result \/ p ∈ queue) ->
  p ∈ result -> rtc R p x -> x ∈ result \/ exists y, y ∈ queue /\ rtc R y x.
Proof.
  intros Hclosed Hp Hr. revert Hp. induction Hr as [p|p q x Hpq Hqx IH]; intros Hp; [by left|].
  destruct (Hclosed _ _ Hp Hpq) as [Hq|Hq]; [by apply IH|]. right. exists p. split; [done|by eapply rtc_l].
Qed.

Lemma enqueued_measure children (result : gset Z) parent new :
  (forall x, x ∈ new -> x ∈ children_of children parent /\ x ∉ result) -> NoDup new ->
  (length new + size (all_children children ∖ (result ∪ list_to_set new)))%nat
    = size (all_children children ∖ result).
Proof.
  intros Hnew Hnd. assert (Hsub : list_to_set new ⊆ all_children children ∖ result).
  { intros x Hx%elem_of_list_to_set. destruct (Hnew x Hx) as [Hc Hr].
    apply elem_of_difference. split; [by eapply child_in_all|done]. }
  replace (all_children children ∖ (result ∪ list_to_set new))
    with ((all_children children ∖ result) ∖ list_to_set new) by set_solver.
  pose proof (subseteq_size _ _ Hsub) as Hle. rewrite size_difference by done.
  rewrite size_list_to_set in * by done. lia.
Qed.

Lemma descendants_of_loop_exact fuel children queue (result : gset Z) :
  (length queue + size (all_children children ∖ result) < fuel)%nat ->
  (forall p, p ∈ queue -> p ∈ result) ->
  (forall p q, p ∈ result -> child_of children p q -> q ∈ result \/ p ∈ queue) ->
  exists s, descendants_of_loop fuel children queue result = Some s /\
    forall x, x ∈ s <-> x ∈ result \/ exists y, y ∈ queue /\ rtc (child_of children) y x.
Proof.
  revert queue result. induction fuel as [|fuel IH]; intros queue result Hfuel Hin Hclosed; [lia|].
  destruct queue as [|parent queue]; cbn [descendants_of_loop]; cbn [length] in Hfuel.
  { exists result. split; [done|]. set_solver. }
  destruct (enqueue_children _ result queue) as [result' queue'] eqn:Henq.
  destruct (enqueue_children_spec _ _ _ _ _ Henq) as (new & -> & -> & Hnew & Hall & Hnd).
  assert (Hclosed' : forall p q, p ∈ result ∪ list_to_set new -> child_of children p q ->
    q ∈ result ∪ list_to_set new \/ p ∈ queue ++ new).
  { intros p q Hp Hq. apply elem_of_union in Hp as [Hp|Hp%elem_of_list_to_set].
    - destruct (Hclosed p q Hp Hq) as [?|Hpq]; [set_solver|].
      apply elem_of_cons in Hpq as [->|?]; [left; by apply Hall|set_solver].
    - right. apply elem_of_app. by right. }
  destruct (IH (queue ++ new) (result ∪ list_to_set new)) as (s & -> & Hs); [| |done|].
  - rewrite length_app. pose proof (enqueued_measure _ _ _ _ Hnew Hnd). lia.
  - intros p [Hp|Hp]%elem_of_app; [|set_solver]. apply elem_of_union_l, Hin. by right.
  - exists s. split; [done|]. intros x. rewrite Hs. split.
    + intros [Hx|(y & Hy & Hyx)].
      * apply elem_of_union in Hx as [?|Hx%elem_of_list_to_set]; [by left|].
        right. exists parent. split; [by left|]. apply rtc_once. by apply Hnew.
      * right. apply elem_of_app in Hy as [Hy|Hy]; [exists y; split; [by right|done]|].
        exists parent. split; [by left|]. eapply rtc_l; [by apply Hnew|done].
    + intros [Hx|(y & Hy & Hyx)]; [set_solver|]. apply elem_of_cons in Hy as [->|Hy];
        [|right; exists y; split; [apply elem_of_app; by left|done]].
      apply (queue_reach _ _ _ parent); [done| |done]. apply elem_of_union_l, Hin. by left.
Qed.

Lemma descendants_of_exact root children :
  exists s, descendants_of root children = Some s /\
    forall x, x ∈ s <-> rtc (child_of children) root x.
Proof.
  destruct (descendants_of_loop_exact (S (S (size (all_children children)))) children [root] {[ root ]})
    as (s & Hs & Hx); [|set_solver|set_solver|].
  - cbn. pose proof (subseteq_size (all_children children ∖ {[ root ]}) (all_children children)
                       ltac:(set_solver)). lia.
  - exists s. split; [done|]. intros x. rewrite Hx. split.
    + intros [->%elem_of_singleton|(y & Hy%list_elem_of_singleton & Hyx)]; [done|by subst].
    + intros Hr. right. exists root. set_solver.
Qed.

(** ** Ascents are reachability *)

(** One turn of an upward walk: the parent of a process, unless that is the idle
    task or the process itself. *)
Definition climbs (processes : gmap Z FocusProcess) (p q : Z) : Prop :=
  exists process, processes !! p = Some process /\ fp_ppid process = q /\ q <> 0 /\ q <> p.

Lemma climbs_fun processes p q r : climbs processes p q -> climbs processes p r -> q = r.
Proof. intros (? & ? & ? & ?) (? & ? & ? & ?). by simplify_eq. Qed.

Section Upward.

Context (processes : gmap Z FocusProcess) (hit : Z -> Prop).

(** The walk is at [current]: nothing it has [seen] is a hit, and every step out
    of what it has seen leads to something seen or to [current]. *)
Definition walked (seen : gset Z) (current : Z) : Prop :=
  (forall x, x ∈ seen -> ~ hit x) /\
  (forall x y, x ∈ seen -> climbs processes x y -> y ∈ seen \/ y = current).

Definition hit_above (current : Z) : Prop := exists c, rtc (climbs processes) current c /\ hit c.

(** A walk that meets a pid it has seen has seen everything there is above. *)
Lemma walk_closes seen current : walked seen current -> current ∈ seen -> ~ hit_above current.
Proof.
  intros [Hno Hclosed] Hin (c & Hc & Hhit).
  apply (frontier_reach _ seen (fun _ => False) current) in Hc as [Hc|(? & Hf & _)];
    [by apply (Hno c)|done|set_solver|done].
Qed.

Lemma walk_stops current :
  (forall q, ~ climbs processes current q) -> ~ hit current -> ~ hit_above current.
Proof. intros Hstop Hno (c & Hc & Hhit). inversion Hc; simplify_eq; [done|]. by eapply Hstop. Qed.

Lemma walk_goes_on seen current parent :
  walked seen current -> climbs processes current parent -> ~ hit current ->
  walked ({[ current ]} ∪ seen) parent /\ (hit_above parent <-> hit_above current).
Proof.
  intros [Hno Hclosed] Hclimb Hhit. split; [split|split].
  - intros x Hx. apply elem_of_union in Hx as [->%elem_of_singleton|Hx]; [done|by apply Hno].
  - intros x y Hx Hy. apply elem_of_union in Hx as [->%elem_of_singleton|Hx].
    + right. by eapply climbs_fun.
    + destruct (Hclosed x y Hx Hy) as [?|Heq]; [set_solver|subst]; set_solver.
  - intros (c & Hc & Hh). exists c. split; [by eapply rtc_l|done].
  - intros (c & Hc & Hh). inversion Hc as [|? q ? Hq Hqc]; simplify_eq; [done|].
    rewrite (climbs_fun _ _ _ _ Hclimb Hq). by exists c.
Qed.

End Upward.

(** The pids a walk has still to see. *)
Lemma unseen_decreases (processes : gmap Z FocusProcess) (seen : gset Z) current :
  is_Some (processes !! current) -> current ∉ seen ->
  size (dom processes ∖ seen) = S (size (dom processes ∖ ({[ current ]} ∪ seen))).
Proof.
  intros Hp Hs. assert (Hin : {[ current ]} ⊆ dom processes ∖ seen).
  { apply singleton_subseteq_l, elem_of_difference. split; [by apply elem_of_dom|done]. }
  replace (dom processes ∖ ({[ current ]} ∪ seen)) with ((dom processes ∖ seen) ∖ {[ current ]})
    by set_solver.
  pose proof (subseteq_size _ _ Hin) as Hle. rewrite (size_difference (dom processes ∖ seen)) by done.
  rewrite size_singleton in *. lia.
Qed.

Definition has_parent (processes : gmap Z FocusProcess) (ancestor p : Z) : Prop :=
  exists process, processes !! p = Some process /\ fp_ppid process = ancestor.

Lemma is_process_ancestor_loop_exact fuel processes ancestor current (seen : gset Z) :
  (size (dom processes ∖ seen) < fuel)%nat ->
  walked processes (has_parent processes ancestor) seen current ->
  exists b, is_process_ancestor_loop fuel processes ancestor current seen = Some b /\
    (b = true <-> hit_above processes (has_parent processes ancestor) current).
Proof.
  revert current seen. induction fuel as [|fuel IH]; intros current seen Hfuel Hw; [lia|].
  cbn [is_process_ancestor_loop].
  destruct (decide (current ∈ seen)) as [Hin|Hout].
  { exists false. split; [done|]. split; [done|]. by intros Hh%(walk_closes _ _ _ _ Hw Hin). }
  destruct (processes !! current) as [process|] eqn:Hp.
  2:{ exists false. split; [done|]. split; [done|]. intros []%walk_stops.
      - intros q (? & ? & _). congruence.
      - intros (? & ? & _). congruence. }
  destruct (Z.eqb_spec (fp_ppid process) ancestor) as [Ha|Ha].
  { exists true. split; [done|]. split; [|done]. intros _. exists current. split; [done|by exists process]. }
  assert (Hno : ~ has_parent processes ancestor current) by (intros (? & ? & ?); by simplify_eq).
  destruct (_ || _) eqn:Hstop.
  - exists false. split; [done|]. split; [done|]. intros []%walk_stops; [|done].
    intros q (? & ? & ? & ? & ?). simplify_eq. lia.
  - assert (Hc : climbs processes current (fp_ppid process)) by (exists process; split_and!; [done|done|lia|lia]).
    destruct (walk_goes_on _ _ _ _ _ Hw Hc Hno) as [Hw' Hiff].
    destruct (IH (fp_ppid process) ({[ current ]} ∪ seen)) as (b & -> & Hb); [|done|].
    + pose proof (unseen_decreases processes seen current ltac:(by eexists) Hout). lia.
    + exists b. by rewrite Hb.
Qed.

Lemma walked_start processes hit current : walked processes hit ∅ current.
Proof. split; set_solver. Qed.

Lemma walk_fuel (processes : gmap Z FocusProcess) :
  (size (dom processes ∖ (∅ : gset Z)) < S (S (size processes)))%nat.
Proof. rewrite difference_empty_L, size_dom. lia. Qed.

Lemma is_process_ancestor_exact snapshot ancestor pid :
  exists b, is_process_ancestor snapshot ancestor pid = Some b /\
    (b = true <-> hit_above (fs_processes snapshot) (has_parent (fs_processes snapshot) ancestor) pid).
Proof. apply is_process_ancestor_loop_exact; [apply walk_fuel|apply walked_start]. Qed.

Definition climbs_into (processes : gmap Z FocusProcess) (pids : gset Z) (p : Z) : Prop :=
  exists q, climbs processes p q /\ q ∈ pids.

Lemma has_ancestor_in_set_loop_exact fuel processes pids current (seen : gset Z) :
  (size (dom processes ∖ seen) < fuel)%nat ->
  walked processes (climbs_into processes pids) seen current ->
  exists b, has_ancestor_in_set_loop fuel processes pids current seen = Some b /\
    (b = true <-> hit_above processes (climbs_into processes pids) current).
Proof.
  revert current seen. induction fuel as [|fuel IH]; intros current seen Hfuel Hw; [lia|].
  cbn [has_ancestor_in_set_loop].
  destruct (processes !! current) as [process|] eqn:Hp.
  2:{ exists false. split; [done|]. split; [done|]. intros []%walk_stops.
      - intros q (? & ? & _). congruence.
      - intros (? & (? & ? & _) & _). congruence. }
  destruct (decide (current ∈ seen)) as [Hin|Hout].
  { exists false. split; [done|]. split; [done|]. by intros Hh%(walk_closes _ _ _ _ Hw Hin). }
  cbv zeta. destruct (_ || _) eqn:Hstop.
  { exists false. split; [done|]. split; [done|]. intros []%walk_stops.
    - intros q (? & ? & ? & ? & ?). simplify_eq. lia.
    - intros (q & (? & ? & ? & ? & ?) & _). simplify_eq. lia. }
  assert (Hc : climbs processes current (fp_ppid process)) by (exists process; split_and!; [done|done|lia|lia]).
  destruct (decide (fp_ppid process ∈ pids)) as [Hpids|Hpids].
  { exists true. split; [done|]. split; [|done]. intros _. exists current. split; [done|by eexists]. }
  assert (Hno : ~ climbs_into processes pids current).
  { intros (q & Hq & Hqp). by rewrite (climbs_fun _ _ _ _ Hq Hc) in Hqp. }
  destruct (walk_goes_on _ _ _ _ _ Hw Hc Hno) as [Hw' Hiff].
  destruct (IH (fp_ppid process) ({[ current ]} ∪ seen)) as (b & -> & Hb); [|done|].
  - pose proof (unseen_decreases processes seen current ltac:(by eexists) Hout). lia.
  - exists b. by rewrite Hb.
Qed.

(** A pid has an ancestor in the set exactly when a climb of at least one step
    meets the set. *)
Lemma has_ancestor_in_set_exact snapshot pid pids :
  exists b, has_ancestor_in_set snapshot pid pids = Some b /\
    (b = true <-> exists a, tc (climbs (fs_processes snapshot)) pid a /\ a ∈ pids).
Proof.
  destruct (has_ancestor_in_set_loop_exact (S (S (size (fs_processes snapshot))))
              (fs_processes snapshot) pids pid ∅) as (b & Hb & Hiff);
    [apply walk_fuel|apply walked_start|].
  exists b. split; [done|]. rewrite Hiff. split.
  - intros (c & Hc & a & Ha & Hin). exists a. split; [|done]. eapply tc_rtc_l; [done|by apply tc_once].
  - clear Hb Hiff. intros (a & Ha & Hin). induction Ha as [x y Hxy|x y z Hxy Hyz IH].
    + exists x. split; [done|by exists y].
    + destruct (IH Hin) as (c & Hc & Hh). exists c. split; [by eapply rtc_l|done].
Qed.

(** ** The walk to the compile session *)

(** A turn of the walk: past a process that is neither a build root nor a terminal
    or shell. *)
Definition passes (processes : gmap Z FocusProcess) (p q : Z) : Prop :=
  exists process, processes !! p = Some process /\ is_stable_build_root process = false /\
    is_terminal_or_shell process = false /\ fp_ppid process = q /\ q <> 0 /\ q <> p.

(** The walk from [p] runs into a cycle of such processes. *)
Definition trapped (processes : gmap Z FocusProcess) (p : Z) : Prop :=
  exists q, rtc (passes processes) p q /\ tc (passes processes) q q.

(** Where the walk ends, at [q]. *)
Definition session_end (processes : gmap Z FocusProcess) (q : Z) (w : SessionWalk) : Prop :=
  (forall r, ~ passes processes q r) /\
  match w with
  | WalkReturn r =>
      exists p, processes !! q = Some p /\ is_stable_build_root p = true /\ r = fp_pid p
  | WalkBreak (Some r) =>
      exists p, processes !! q = Some p /\ is_stable_build_root p = false /\
        is_terminal_or_shell p = true /\ r = fp_pid p
  | WalkBreak None =>
      forall p, processes !! q = Some p -> is_stable_build_root p = false /\ is_terminal_or_shell p = false
  end.

Lemma compile_session_turn fuel processes p :
  (exists q, passes processes p q /\
     compile_session_loop (S fuel) processes p = compile_session_loop fuel processes q) \/
  (exists w, compile_session_loop (S fuel) processes p = Some w /\ session_end processes p w).
Proof.
  cbn [compile_session_loop]. unfold session_end, passes.
  destruct (processes !! p) as [process|] eqn:Hp.
  2:{ right. eexists. split; [done|]. split; [intros r (? & ? & _)|intros ? ?]; congruence. }
  destruct (is_stable_build_root process) eqn:Hb.
  { right. eexists. split; [done|]. split; [intros r (? & ? & ? & _); congruence|by exists process]. }
  destruct (is_terminal_or_shell process) eqn:Ht.
  { right. eexists. split; [done|]. split; [intros r (? & ? & ? & ? & _); congruence|by exists process]. }
  cbv zeta. destruct (_ || _) eqn:Hstop.
  - right. eexists. split; [done|]. split; [|intros ? ?; by simplify_eq].
    intros r (? & ? & ? & ? & ? & ? & ?). simplify_eq. lia.
  - left. exists (fp_ppid process). split; [|done]. exists process. split_and!; [done..| |]; lia.
Qed.

Lemma passes_fun processes p q r : passes processes p q -> passes processes p r -> q = r.
Proof. intros (? & ? & _ & _ & ? & _) (? & ? & _ & _ & ? & _). by simplify_eq. Qed.

Lemma trapped_step processes p : trapped processes p -> exists q, passes processes p q /\ trapped processes q.
Proof.
  intros (q & Hpq & Hqq). inversion Hpq as [|? y ? Hy Hyq]; simplify_eq.
  - inversion Hqq as [? ? Hone|? y ? Hy Hyq]; simplify_eq.
    + exists q. split; [done|]. by exists q.
    + exists y. split; [done|]. exists q. split; [by apply tc_rtc|done].
  - exists y. split; [done|]. by exists q.
Qed.

Lemma trapped_no_result fuel processes p : trapped processes p -> compile_session_loop fuel processes p = None.
Proof.
  revert p. induction fuel as [|fuel IH]; intros p Ht; [done|].
  destruct (trapped_step _ _ Ht) as (q & Hq & Hqt).
  destruct (compile_session_turn fuel processes p) as [(r & Hr & ->)|(w & _ & Hend & _)].
  - rewrite (passes_fun _ _ _ _ Hr Hq). by apply IH.
  - by destruct (Hend q).
Qed.

(** A walk that has used up the bound has met a pid twice. *)
Lemma compile_session_bound fuel processes (seen : gset Z) p :
  (size (dom processes ∖ seen) < fuel)%nat ->
  (forall x, x ∈ seen -> tc (passes processes) x p) ->
  trapped processes p \/
  exists w q, compile_session_loop fuel processes p = Some w /\
    rtc (passes processes) p q /\ session_end processes q w.
Proof.
  revert seen p. induction fuel as [|fuel IH]; intros seen p Hfuel Hseen; [lia|].
  destruct (compile_session_turn fuel processes p) as [(q & Hq & ->)|(w & -> & Hend)].
  2:{ right. exists w, p. done. }
  destruct (decide (p ∈ seen)) as [Hin|Hout].
  { left. exists p. split; [done|by apply Hseen]. }
  destruct (IH ({[ p ]} ∪ seen) q) as [(r & Hqr & Hrr)|(w & r & Hw & Hr & Hend)].
  - destruct Hq as (process & Hp & _).
    pose proof (unseen_decreases processes seen p ltac:(by eexists) Hout). lia.
  - intros x Hx. apply elem_of_union in Hx as [->%elem_of_singleton|Hx]; [by apply tc_once|].
    eapply tc_r; [by apply Hseen|done].
  - left. exists r. split; [by eapply rtc_l|done].
  - right. exists w, r. split; [done|]. split; [by eapply rtc_l|done].
Qed.

(** ** The members of a runnable target *)

Definition task_child (active_tasks : list TaskInfo) (p q : Z) : Prop :=
  exists task, task ∈ active_tasks /\ ti_process_ppid task = p /\ ti_process_pid task = q.

Lemma add_members_mono tasks (members : gset Z) : members ⊆ add_members tasks members.
Proof.
  unfold add_members. revert members. induction tasks as [|t tasks IH]; cbn; intros members; [done|].
  etrans; [|apply IH]. case_decide; set_solver.
Qed.

Lemma add_members_sound tasks (members : gset Z) x :
  x ∈ add_members tasks members -> exists y, y ∈ members /\ rtc (task_child tasks) y x.
Proof.
  assert (Hgen : forall rest (m : gset Z), rest ⊆ tasks ->
    (forall z, z ∈ m -> exists y, y ∈ members /\ rtc (task_child tasks) y z) ->
    forall z, z ∈ add_members rest m -> exists y, y ∈ members /\ rtc (task_child tasks) y z).
  { induction rest as [|t rest IH]; cbn; intros m Hsub Hm z Hz; [by apply Hm|].
    apply (IH (if decide (ti_process_ppid t ∈ m) then {[ ti_process_pid t ]} ∪ m else m));
      [set_solver| |done].
    clear z Hz. intros z. case_decide as Hp; [|by apply Hm].
    intros [->%elem_of_singleton|Hz]%elem_of_union; [|by apply Hm].
    destruct (Hm _ Hp) as (y & Hy & Hyp). exists y. split; [done|]. eapply rtc_r; [done|].
    exists t. split_and!; [set_solver|done|done]. }
  apply Hgen; [done|]. intros z Hz. by exists z.
Qed.

Lemma add_members_closed tasks (members : gset Z) p q :
  p ∈ members -> task_child tasks p q -> q ∈ add_members tasks members.
Proof.
  intros Hp (task & Ht & Hpp & <-). unfold add_members. revert members Hp.
  induction tasks as [|t tasks IH]; cbn; intros members Hp; [set_solver|].
  apply elem_of_cons in Ht as [<-|Ht].
  - rewrite decide_True by by rewrite Hpp. apply (add_members_mono tasks). set_solver.
  - apply IH; [done|]. case_decide; set_solver.
Qed.

Lemma member_loop_exact fuel tasks (members : gset Z) :
  (size (list_to_set (ti_process_pid <$> tasks) ∖ members) < fuel)%nat ->
  exists s, member_loop fuel tasks members = Some s /\
    forall x, x ∈ s <-> exists y, y ∈ members /\ rtc (task_child tasks) y x.
Proof.
  revert members. induction fuel as [|fuel IH]; intros members Hfuel; [lia|].
  cbn [member_loop]. pose proof (add_members_mono tasks members) as Hmono. case_decide as Hsize.
  - exists (add_members tasks members). split; [done|]. intros x. split; [apply add_members_sound|].
    intros (y & Hy & Hyx).
    assert (Heq : members = add_members tasks members) by (apply set_subseteq_size_eq; [done|lia]).
    induction Hyx as [y|y z x Hyz Hzx IHx]; [set_solver|]. apply IHx.
    rewrite Heq. by eapply add_members_closed.
  - destruct (IH (add_members tasks members)) as (s & -> & Hs).
    + assert (Hlt : (size members < size (add_members tasks members))%nat).
      { pose proof (subseteq_size _ _ Hmono). lia. }
      assert (Hin : add_members tasks members ∖ members ⊆ list_to_set (ti_process_pid <$> tasks) ∖ members).
      { intros x [Hx Hxm]%elem_of_difference. apply elem_of_difference. split; [|done].
        destruct (add_members_sound _ _ _ Hx) as (y & Hy & Hyx).
        apply rtc_inv_r in Hyx as [->|(z & _ & task & Ht & _ & <-)]; [done|].
        apply elem_of_list_to_set, list_elem_of_fmap. by exists task. }
      replace (list_to_set (ti_process_pid <$> tasks) ∖ add_members tasks members)
        with ((list_to_set (ti_process_pid <$> tasks) ∖ members) ∖ (add_members tasks members ∖ members)).
      2:{ apply set_eq. intros x. rewrite !elem_of_difference. destruct (decide (x ∈ members)); set_solver. }
      rewrite (size_difference (list_to_set (ti_process_pid <$> tasks) ∖ members)) by done.
      pose proof (subseteq_size _ _ Hin). rewrite (size_difference (add_members tasks members)) in * by done.
      lia.
    + exists s. split; [done|]. intros x. rewrite Hs. split.
      * intros (y & Hy & Hyx). destruct (add_members_sound _ _ _ Hy) as (z & Hz & Hzy).
        exists z. split; [done|]. by etrans.
      * intros (y & Hy & Hyx). exists y. split; [by apply Hmono|done].
Qed.

Lemma runnable_seed_exact (root : Z) (explicit_root : bool) (focus_members : option (list Z)) y :
  y ∈ match focus_members with
      | Some pids =>
          if explicit_root then {[ root ]}
          else {[ root ]} ∪ list_to_set (List.filter (fun pid => 0 <? pid) pids)
      | None => ({[ root ]} : gset Z)
      end <->
  y = root \/
  (explicit_root = false /\ exists pids, focus_members = Some pids /\ y ∈ pids /\ 0 < y).
Proof.
  destruct focus_members as [pids|]; [|set_solver]. destruct explicit_root; [set_solver|].
  rewrite elem_of_union, elem_of_singleton, elem_of_list_to_set, list_elem_of_In, filter_In,
    <- list_elem_of_In, Z.ltb_lt. naive_solver.
Qed.

Lemma btree_values_elem {A} (m : gmap Z A) v : v ∈ btree_values m <-> exists k, m !! k = Some v.
Proof.
  unfold btree_values. rewrite list_elem_of_fmap. split.
  - intros ([k w] & -> & Hin). rewrite btree_entries_perm in Hin.
    apply elem_of_map_to_list in Hin. by exists k.
  - intros [k Hk]. exists (k, v). split; [done|]. rewrite btree_entries_perm. by apply elem_of_map_to_list.
Qed.

Lemma pids_left (tasks : list TaskInfo) (members : gset Z) :
  (size (list_to_set (ti_process_pid <$> tasks) ∖ members) <= length tasks)%nat.
Proof.
  etrans; [apply (subseteq_size _ (list_to_set (ti_process_pid <$> tasks))); set_solver|].
  rewrite <- (length_fmap ti_process_pid tasks).
  induction (ti_process_pid <$> tasks) as [|p l IH]; cbn; [by rewrite size_empty|].
  pose proof (size_union_alt {[ p ]} (list_to_set l : gset Z)) as Hu. rewrite Hu, size_singleton.
  pose proof (subseteq_size (list_to_set l ∖ {[ p ]} : gset Z) (list_to_set l) ltac:(set_solver)). lia.
Qed.

Lemma btree_elements_strict (s : gset Z) : StronglySorted Z.lt (btree_elements s).
Proof.
  pose proof (btree_elements_sorted s) as Hs. pose proof (btree_elements_NoDup s) as Hn.
  induction Hs as [|x l Hs IH Hx]; [constructor|]. apply NoDup_cons in Hn as [Hout Hn].
  constructor; [by apply IH|]. rewrite Forall_forall in *. intros y Hy. specialize (Hx y Hy).
  assert (x <> y) by (intros ->; done). lia.
Qed.

(** ** What the walks compute *)

(** C11. Every walk over the processes of a snapshot returns, whatever parent pids the
    snapshot holds, cycles and missing processes included, and it returns what it
    should: [descendants_of_pid] and the breadth-first [descendants_of] the same
    set, everything reachable from the root; [descendants_of_process] the live
    processes below the root, each once and in order; [is_process_ancestor] and
    [has_ancestor_in_set] whether the climb from the pid meets the ancestor or the
    set. *)
Theorem process_walks_exact snapshot root :
  (exists s,
     descendants_of_pid snapshot root = Some s /\
     descendants_of root (fs_children_by_parent snapshot) = Some s /\
     forall x, x ∈ s <-> rtc (child_of (fs_children_by_parent snapshot)) root x) /\
  (exists l,
     descendants_of_process snapshot root = Some l /\ StronglySorted Z.lt l /\
     forall x, x ∈ l <-> tc (live_child_of snapshot) root x) /\
  (forall ancestor, exists b,
     is_process_ancestor snapshot ancestor root = Some b /\
     (b = true <-> exists c, rtc (climbs (fs_processes snapshot)) root c /\
                             has_parent (fs_processes snapshot) ancestor c)) /\
  (forall pids, exists b,
     has_ancestor_in_set snapshot root pids = Some b /\
     (b = true <-> exists a, tc (climbs (fs_processes snapshot)) root a /\ a ∈ pids)).
Proof.
  split_and!.
  - destruct (descendants_of_pid_exact snapshot root) as (s & Hs & Hx).
    destruct (descendants_of_exact root (fs_children_by_parent snapshot)) as (s' & Hs' & Hx').
    exists s. split; [done|]. split; [|done]. rewrite Hs'. f_equal. apply set_eq. intros x.
    by rewrite Hx, Hx'.
  - destruct (descendants_of_process_exact snapshot root) as (l & Hl & Hx).
    exists l. split; [done|]. split; [|done]. unfold descendants_of_process in Hl.
    apply fmap_Some in Hl as (s & _ & ->). apply btree_elements_strict.
  - intros ancestor. apply is_process_ancestor_exact.
  - apply has_ancestor_in_set_exact.
Qed.

(** C28. The walk to the nearest compile session returns exactly when the parents of
    the process do not run into a cycle of processes that are neither build roots
    nor terminals nor shells.  It then returns within one turn per process of the
    snapshot, and its result is the build root, terminal or shell it stopped at,
    or else the session of the cgroup.  On such a cycle it has no result for any
    number of turns: unlike its siblings it keeps no set of pids it has seen. *)
Theorem compile_session_returns_unless_trapped snapshot pid :
  let processes := fs_processes snapshot in
  (~ trapped processes pid /\
   exists r, nearest_compile_session_root (S (size processes)) snapshot pid = Some r /\
     exists w q, rtc (passes processes) pid q /\ session_end processes q w /\
       r = match w with
           | WalkReturn root | WalkBreak (Some root) => Some root
           | WalkBreak None => (processes !! pid ≫= fp_cgroup_path) ≫= session_in_cgroup snapshot
           end) \/
  (trapped processes pid /\ forall fuel, nearest_compile_session_root fuel snapshot pid = None).
Proof.
  cbv zeta. unfold nearest_compile_session_root.
  destruct (compile_session_bound (S (size (fs_processes snapshot))) (fs_processes snapshot) ∅ pid)
    as [Ht|(w & q & Hw & Hq & Hend)].
  - rewrite difference_empty_L, size_dom. lia.
  - set_solver.
  - right. split; [done|]. intros fuel. by rewrite trapped_no_result.
  - left. split; [intros Ht; by rewrite trapped_no_result in Hw|]. rewrite Hw. cbn.
    eexists. split; [done|]. exists w, q. split_and!; [done|done|]. by destruct w as [|[]].
Qed.

(** The processes of a runnable target are computed in at most one round per task
    and one more, and are exactly those below its seeds in the task table: the
    root, and the members of the focus group when the root was not chosen
    explicitly; without a live root there are none. *)
Theorem runnable_target_processes_exact root_pid explicit_root focus_members active_tasks :
  exists s,
    runnable_target_processes root_pid explicit_root focus_members active_tasks = Some s /\
    forall x, x ∈ s <->
      exists root, root_pid = Some root /\ 0 < root /\
        (exists tid task, active_tasks !! tid = Some task /\ ti_process_pid task = root) /\
        exists y, (y = root \/ (explicit_root = false /\
                     exists pids, focus_members = Some pids /\ y ∈ pids /\ 0 < y)) /\
          rtc (task_child (btree_values active_tasks)) y x.
Proof.
  destruct root_pid as [root|]; cbn [runnable_target_processes];
    [|exists ∅; split; [done|]; set_solver].
  cbv zeta. destruct (_ || _) eqn:Hgate.
  - exists ∅. split; [done|]. intros x. split; [set_solver|].
    intros (? & [= <-] & Hpos & (tid & task & Ht & Hp) & _). exfalso.
    apply orb_true_iff in Hgate as [Hg|Hg]; [lia|]. apply negb_true_iff in Hg.
    rewrite <- not_true_iff_false, existsb_exists in Hg. apply Hg. exists task.
    split; [apply list_elem_of_In, btree_values_elem; by exists tid|lia].
  - destruct (member_loop_exact (S (length (btree_values active_tasks))) (btree_values active_tasks)
      match focus_members with
      | Some pids =>
          if explicit_root then {[ root ]}
          else {[ root ]} ∪ list_to_set (List.filter (fun pid => 0 <? pid) pids)
      | None => {[ root ]}
      end) as (s & Hs & Hx); [apply Nat.lt_succ_r, pids_left|].
    exists s. split; [done|]. intros x. rewrite Hx. setoid_rewrite runnable_seed_exact.
    apply orb_false_iff in Hgate as [Hpos%negb_false_iff Hex%negb_false_iff].
    apply existsb_exists in Hex as (task & Hin%list_elem_of_In & Hp).
    apply btree_values_elem in Hin as [tid Ht]. split.
    + intros Hy. exists root. split_and!; [done|lia| |done]. exists tid, task. split; [done|lia].
    + intros (? & [= <-] & _ & _ & Hy). done.
Qed.

(** Being of one family does not depend on the order of the two processes. *)
Lemma same_process_family_sym snapshot l r :
  same_process_family snapshot l r = same_process_family snapshot r l.
Proof.
  unfold same_process_family. rewrite (Z.eqb_sym l r). destruct (r =? l); [done|].
  destruct (is_process_ancestor_exact snapshot l r) as (a & -> & _).
  destruct (is_process_ancestor_exact snapshot r l) as (b & -> & _). cbn.
  destruct a, b; try done.
  destruct (parent_of snapshot l) as [pl|], (parent_of snapshot r) as [pr|]; try done.
  destruct (Z.eqb_spec pl pr) as [->|Hne]; [by rewrite Z.eqb_refl|].
  rewrite (proj2 (Z.eqb_neq pr pl)) by done. by rewrite !andb_false_r.
Qed.

(** ** Snapshots as they are built *)

Lemma add_child_elem m p parent x :
  x ∈ children_of (add_child m p) parent <-> x ∈ children_of m parent \/ (parent = fp_ppid p /\ x = fp_pid p).
Proof.
  unfold children_of, add_child. destruct (decide (parent = fp_ppid p)) as [->|Hne].
  - rewrite lookup_insert_eq. cbn. rewrite elem_of_app, list_elem_of_singleton. naive_solver.
  - rewrite lookup_insert_ne by done. naive_solver.
Qed.

(** In a built snapshot the children of a process are the processes whose parent
    it is. *)
Lemma children_by_parent_exact (processes : gmap Z FocusProcess) parent x :
  map_Forall (fun pid p => fp_pid p = pid) processes ->
  child_of (children_by_parent_of processes) parent x <-> has_parent processes parent x.
Proof.
  intros Hkeys. unfold child_of, children_by_parent_of, children_of. rewrite lookup_fmap.
  transitivity (x ∈ children_of (foldl add_child ∅ (btree_values processes)) parent).
  { unfold children_of. destruct (foldl add_child _ _ !! parent); cbn; [by rewrite merge_sort_Permutation|done]. }
  assert (Hgen : forall l m, x ∈ children_of (foldl add_child m l) parent <->
    x ∈ children_of m parent \/ exists p, p ∈ l /\ fp_ppid p = parent /\ fp_pid p = x).
  { induction l as [|p l IH]; cbn; intros m; [set_solver|]. rewrite IH, add_child_elem. set_solver. }
  rewrite Hgen. unfold children_of at 1. rewrite lookup_empty. cbn. unfold has_parent.
  setoid_rewrite btree_values_elem. split.
  - intros [?|(p & [k Hk] & <- & <-)]; [set_solver|]. exists p. by rewrite (Hkeys _ _ Hk).
  - intros (p & Hp & <-). right. exists p. split; [by exists x|]. split; [done|]. by apply Hkeys.
Qed.

(** What a descent finds below a root is what climbs to it. *)
Lemma descent_is_ascent snapshot root x :
  map_Forall (fun pid p => fp_pid p = pid) (fs_processes snapshot) ->
  fs_children_by_parent snapshot = children_by_parent_of (fs_processes snapshot) ->
  rtc (child_of (fs_children_by_parent snapshot)) root x <->
  rtc (fun q p => has_parent (fs_processes snapshot) p q) x root.
Proof.
  intros Hkeys Hch.
  assert (Hstep : forall p q, child_of (fs_children_by_parent snapshot) p q <->
                              has_parent (fs_processes snapshot) p q).
  { intros p q. rewrite Hch. by apply children_by_parent_exact. }
  split; induction 1 as [|? ? ? Hs _ IH]; try done.
  - eapply rtc_r; [done|]. by apply Hstep.
  - eapply rtc_r; [done|]. by apply Hstep.
Qed.
