(* ===== verification/FocusScore.v ===== *)
(** * FocusScore: the score of a focus group

    [focus/score.rs], [focus/score/evidence.rs], [focus/score/penalties.rs] and the
    safety tests of [focus/safety.rs], in binary32.  A sum of [u64] counters wraps. *)

From S2P Require Import Prelude PolicyModel Allowlist Intervals Score Controller FocusModel ProcessTree.
From Stdlib Require Import SpecFloat.
Open Scope Z_scope.

(** [f32::clamp(0.0, 1.0)]: a NaN stays. *)
Definition clamp_score (score : f32) : f32 :=
  if SFltb score f32_zero then f32_zero else if SFltb f32_one score then f32_one else score.

(** [f32::min]: the other operand when one is a NaN. *)
Definition f32_min (a b : f32) : f32 :=
  match SFcompare a b with
  | Some Gt => b
  | Some _ => a
  | None => match a with S754_nan => b | _ => a end
  end.

(** [iter().filter_map(|pid| snapshot.processes.get(pid))]. *)
Definition members_of (s : FocusSnapshot) (member_pids : list Z) : list FocusProcess :=
  omap (fun pid => fs_processes s !! pid) member_pids.

(** [iter().any(|pid| snapshot.processes.get(pid).map(test).unwrap_or(false))]. *)
Definition any_member (s : FocusSnapshot) (member_pids : list Z) (test : FocusProcess -> bool) : bool :=
  existsb (fun pid => match fs_processes s !! pid with Some p => test p | None => false end) member_pids.

Definition all_members (s : FocusSnapshot) (member_pids : list Z) (test : FocusProcess -> bool) : bool :=
  forallb (fun pid => match fs_processes s !! pid with Some p => test p | None => false end) member_pids.

Definition is_class (c : TaskClass) (p : FocusProcess) : bool := bool_decide (fp_class p = c).

Definition sum_u64 (values : list Z) : Z := foldl wrapping_add_u64 0 values.

Definition count_members (s : FocusSnapshot) (member_pids : list Z) (test : FocusProcess -> bool) : Z :=
  Z.of_nat (length (List.filter test (members_of s member_pids))).

Definition active_process_count (s : FocusSnapshot) (member_pids : list Z) : Z :=
  count_members s member_pids is_active_foreground_candidate.

Definition total_cpu_ticks (s : FocusSnapshot) (member_pids : list Z) : Z :=
  sum_u64 (fp_cpu_time_ticks_delta <$> members_of s member_pids).

Definition io_bytes (p : FocusProcess) : Z :=
  saturating_add_u64 (fp_read_bytes_delta p) (fp_write_bytes_delta p).

Definition ctxt_switches (p : FocusProcess) : Z :=
  saturating_add_u64 (fp_voluntary_ctxt_switches_delta p) (fp_nonvoluntary_ctxt_switches_delta p).

Definition focus_group_contains_pid (g : FocusGroup) (pid : Z) : bool :=
  bool_decide (pid ∈ fg_root_pids g) || bool_decide (pid ∈ fg_member_pids g)
  || bool_decide (fg_primary_pid g = Some pid).

Definition focus_group_cpu_score (s : FocusSnapshot) (member_pids : list Z) : f32 :=
  clamp_score (f32_div (f32_of_Z (total_cpu_ticks s member_pids)) (f32_of_Z 250)).

Definition focus_group_io_score (s : FocusSnapshot) (kind : FocusGroupKind) (member_pids : list Z) : f32 :=
  let base := clamp_score (f32_div (f32_of_Z (sum_u64 (io_bytes <$> members_of s member_pids)))
                                   (f32_of_Z 67108864)) in
  if decide (kind = FgCompile)
  then
    let linker_io_bytes :=
      sum_u64 (io_bytes <$> List.filter (is_class Linker) (members_of s member_pids)) in
    clamp_score (f32_add base (f32_min (f32_div (f32_of_Z linker_io_bytes) (f32_of_Z 33554432))
                                       (f32_lit 20 100)))
  else base.

Definition focus_group_interactivity_score (s : FocusSnapshot) (member_pids : list Z) : f32 :=
  clamp_score (f32_div (f32_of_Z (sum_u64 (ctxt_switches <$> members_of s member_pids))) (f32_of_Z 250)).

(** ** [score/evidence.rs] *)

Definition low_to_moderate_activity_bonus (s : FocusSnapshot) (member_pids : list Z) : f32 :=
  let cpu_ticks := total_cpu_ticks s member_pids in
  if cpu_ticks =? 0 then f32_zero else if cpu_ticks <=? 150 then f32_lit 25 100 else f32_lit 15 100.

(** [if test { score += points }]. *)
Definition plus_if (test : bool) (points : f32) (score : f32) : f32 :=
  if test then f32_add score points else score.

Definition score_game_class_evidence (s : FocusSnapshot) (member_pids : list Z) : f32 :=
  let any := any_member s member_pids in
  clamp_score
    (plus_if (any (fun p => contains (process_identity_text p) "steamapps/common"
                            || contains (process_identity_text p) "steamapps")) (f32_lit 15 100)
    (plus_if (any contains_game_runtime_text) (f32_lit 15 100)
    (plus_if (any (fun p => is_class GameRenderThread p || is_class GameWorkerThread p)) (f32_lit 15 100)
    (plus_if (any (is_class WineServer)) (f32_lit 10 100)
    (plus_if (any (is_class GameScope)) (f32_lit 20 100)
    (plus_if (any (is_class Game)) (f32_lit 25 100) f32_zero)))))).

Definition score_browser_class_evidence (s : FocusSnapshot) (member_pids : list Z) : f32 :=
  let any := any_member s member_pids in
  clamp_score
    (plus_if (2 <=? active_process_count s member_pids) (f32_lit 20 100)
    (plus_if (any (is_class BrowserNetwork)) (f32_lit 10 100)
    (plus_if (any (is_class BrowserGpu)) (f32_lit 15 100)
    (plus_if (any (is_class BrowserRenderer)) (f32_lit 15 100)
    (plus_if (any (is_class BrowserForeground)) (f32_lit 30 100) f32_zero))))).

Definition active_compiler_or_linker_count (s : FocusSnapshot) (member_pids : list Z) : Z :=
  count_members s member_pids
    (fun p => (is_class Compiler p || is_class Linker p) && is_active_foreground_candidate p).

Definition score_compile_class_evidence (s : FocusSnapshot) (member_pids : list Z) : f32 :=
  let any := any_member s member_pids in
  let score := plus_if (any is_stable_build_root) (f32_lit 35 100) f32_zero in
  let score :=
    f32_add score (f32_min (f32_mul (f32_of_Z (active_compiler_or_linker_count s member_pids))
                                    (f32_lit 12 100)) (f32_lit 35 100)) in
  clamp_score
    (plus_if (100 <=? total_cpu_ticks s member_pids) (f32_lit 15 100)
    (plus_if (any (fun p => is_class Linker p && (0 <? io_bytes p))) (f32_lit 15 100) score)).

Definition score_media_class_evidence (s : FocusSnapshot) (member_pids : list Z) : f32 :=
  if any_member s member_pids (is_class Media)
  then clamp_score (f32_add (f32_lit 35 100) (low_to_moderate_activity_bonus s member_pids))
  else f32_zero.

Definition score_recording_class_evidence (s : FocusSnapshot) (member_pids : list Z) : f32 :=
  if any_member s member_pids (is_class Recorder)
  then clamp_score (f32_add (f32_lit 40 100) (low_to_moderate_activity_bonus s member_pids))
  else f32_zero.

Definition score_virtual_machine_class_evidence (s : FocusSnapshot) (member_pids : list Z) : f32 :=
  if any_member s member_pids (is_class VirtualMachine)
  then clamp_score (f32_add (f32_lit 45 100)
                      (f32_mul (focus_group_cpu_score s member_pids) (f32_lit 25 100)))
  else f32_zero.

Definition score_desktop_class_evidence (s : FocusSnapshot) (member_pids : list Z) : f32 :=
  let any := any_member s member_pids in
  clamp_score
    (plus_if (any (fun p => match fp_class p with
                            | AudioRealtime | Input | Editor | Terminal | Shell => true
                            | _ => false
                            end)) (f32_lit 20 100)
    (plus_if (any (is_class Compositor)) (f32_lit 25 100) f32_zero)).

Definition is_service_class (c : TaskClass) : bool :=
  match c with Service | StorageDaemon | NetworkDaemon | KernelThread | IrqThread => true | _ => false end.

Definition score_idle_class_evidence (s : FocusSnapshot) (member_pids : list Z) : f32 :=
  if any_member s member_pids (fun p => is_service_class (fp_class p)) then f32_lit 5 100 else f32_zero.

(** ** [score/penalties.rs] *)

Definition game_group_penalty (s : FocusSnapshot) (root_pids member_pids : list Z) : f32 :=
  let root_is_launcher_only :=
    any_member s root_pids (fun p =>
      let text := process_identity_text p in
      contains text "steam" && negb (contains text "steamapps")
      && negb (contains text "pressure-vessel") && negb (contains text "proton")) in
  let active_game_child_count :=
    count_members s member_pids
      (fun p => (is_class Game p || is_class GameRenderThread p || is_class GameWorkerThread p)
                && is_active_foreground_candidate p) in
  if root_is_launcher_only && (active_game_child_count =? 0) then f32_lit 45 100
  else if (total_cpu_ticks s member_pids <? 5) && (active_game_child_count =? 0) then f32_lit 20 100
  else f32_zero.

Definition browser_group_penalty (s : FocusSnapshot) (member_pids : list Z) : f32 :=
  let idle_renderer_count :=
    count_members s member_pids
      (fun p => is_class BrowserRenderer p && negb (is_active_foreground_candidate p)) in
  let active_child_count :=
    count_members s member_pids
      (fun p => negb (is_class BrowserForeground p) && is_active_foreground_candidate p) in
  if active_child_count * 2 + 2 <? idle_renderer_count
  then f32_min (f32_mul (f32_of_Z (idle_renderer_count - active_child_count)) (f32_lit 4 100))
               (f32_lit 25 100)
  else f32_zero.

Definition compile_group_penalty (s : FocusSnapshot) (member_pids : list Z) : f32 :=
  if all_members s member_pids (is_class Indexer) then f32_lit 55 100
  else if negb (any_member s member_pids is_stable_build_root)
          && (active_compiler_or_linker_count s member_pids =? 0)
  then f32_lit 35 100
  else f32_zero.

Definition idle_group_penalty (s : FocusSnapshot) (member_pids : list Z) : f32 :=
  if total_cpu_ticks s member_pids =? 0 then f32_lit 20 100 else f32_lit 10 100.

Definition desktop_group_penalty (s : FocusSnapshot) (primary_pid : option Z) : f32 :=
  match primary_pid ≫= (fun pid => fs_processes s !! pid) with
  | None => f32_lit 10 100
  | Some primary =>
      if is_class Compositor primary && negb (is_active_foreground_candidate primary)
      then f32_lit 20 100
      else f32_zero
  end.

(** ** The score of a group *)

Definition focus_group_class_priority_score (s : FocusSnapshot) (kind : FocusGroupKind)
    (member_pids : list Z) : f32 :=
  match kind with
  | FgGame => score_game_class_evidence s member_pids
  | FgBrowser => score_browser_class_evidence s member_pids
  | FgCompile => score_compile_class_evidence s member_pids
  | FgMedia => score_media_class_evidence s member_pids
  | FgRecording => score_recording_class_evidence s member_pids
  | FgVirtualMachine => score_virtual_machine_class_evidence s member_pids
  | FgDesktop => score_desktop_class_evidence s member_pids
  | FgIdle => score_idle_class_evidence s member_pids
  | FgUnknown => f32_lit 5 100
  end.

Definition root_stability (kind : FocusGroupKind) (primary_pid : option Z) (root : FocusProcess)
    (score : f32) : f32 :=
  match kind with
  | FgGame =>
      plus_if (is_class GameScope root || is_class Game root || is_game_runtime_process root)
        (f32_lit 20 100) score
  | FgBrowser => plus_if (is_class BrowserForeground root) (f32_lit 25 100) score
  | FgCompile =>
      if is_stable_build_root root then f32_add score (f32_lit 30 100)
      else plus_if (is_terminal_or_shell root) (f32_lit 15 100) score
  | FgMedia | FgRecording | FgVirtualMachine =>
      plus_if (bool_decide (Some (fp_pid root) = primary_pid)) (f32_lit 15 100) score
  | FgDesktop => plus_if (is_class Compositor root) (f32_lit 10 100) score
  | FgIdle | FgUnknown => score
  end.

Definition focus_group_stability_score (s : FocusSnapshot) (kind : FocusGroupKind)
    (root_pids : list Z) (primary_pid : option Z) : f32 :=
  clamp_score
    (foldl (fun score root => root_stability kind primary_pid root score) f32_zero
       (members_of s root_pids)).

Definition focus_group_penalty (s : FocusSnapshot) (kind : FocusGroupKind)
    (root_pids member_pids : list Z) (primary_pid : option Z) : f32 :=
  match kind with
  | FgGame => game_group_penalty s root_pids member_pids
  | FgBrowser => browser_group_penalty s member_pids
  | FgCompile => compile_group_penalty s member_pids
  | FgIdle => idle_group_penalty s member_pids
  | FgDesktop => desktop_group_penalty s primary_pid
  | FgMedia | FgRecording | FgVirtualMachine | FgUnknown => f32_zero
  end.

Definition score_focus_group (s : FocusSnapshot) (kind : FocusGroupKind)
    (root_pids member_pids : list Z) (primary_pid : option Z) : FocusScoreBreakdown :=
  {| cpu_score := focus_group_cpu_score s member_pids;
     io_score := focus_group_io_score s kind member_pids;
     interactivity_score := focus_group_interactivity_score s member_pids;
     class_priority_score := focus_group_class_priority_score s kind member_pids;
     stability_score := focus_group_stability_score s kind root_pids primary_pid;
     foreground_score := f32_zero;
     penalty := focus_group_penalty s kind root_pids member_pids primary_pid |}.

Definition focus_group_confidence (s : FocusSnapshot) (member_pids : list Z)
    (breakdown : FocusScoreBreakdown) : f32 :=
  let max_class_confidence :=
    foldl f32_max f32_zero
      ((fun p => cl_confidence (fp_classification p)) <$> members_of s member_pids) in
  let activity_evidence :=
    clamp_score (f32_add (f32_add (cpu_score breakdown) (io_score breakdown))
                         (interactivity_score breakdown)) in
  let confidence :=
    clamp_score
      (f32_sub
         (f32_add
            (f32_add (f32_mul max_class_confidence (f32_lit 45 100))
                     (f32_mul activity_evidence (f32_lit 40 100)))
            (f32_mul (stability_score breakdown) (f32_lit 25 100)))
         (f32_mul (penalty breakdown) (f32_lit 50 100))) in
  if SFltb activity_evidence (f32_lit 5 100) then f32_min confidence (f32_lit 55 100)
  else if SFltb activity_evidence (f32_lit 20 100) then f32_min confidence (f32_lit 75 100)
  else confidence.

(** ** [safety.rs] *)

Definition is_critical_realtime_process (p : FocusProcess) : bool :=
  is_class AudioRealtime p || is_class Input p
  || bool_decide (cl_priority_band (fp_classification p) = PbCriticalRealtime).

Definition is_unknown_foreground_like (p : FocusProcess) : bool :=
  is_class UnknownClass p && is_active_foreground_candidate p
  && bool_decide (cl_priority_band (fp_classification p) <> PbBackground).

Definition is_system_service_root (p : FocusProcess) : bool :=
  if is_service_class (fp_class p)
  then
    let comm := to_ascii_lowercase (fp_comm p) in
    let cmdline := to_ascii_lowercase (fp_cmdline p) in
    bool_decide (comm ∈ ["systemd"; "dbus-daemon"; "networkmanager"; "udisksd"; "sshd"]%string)
    || String.prefix "systemd-" comm || contains cmdline "/lib/systemd/"
    || contains cmdline "/usr/lib/systemd/"
  else false.

Definition is_too_broad_system_service_group (g : FocusGroup) (s : FocusSnapshot) : bool :=
  if decide (fg_kind g = FgIdle)
  then
    any_member s (fg_root_pids g) is_system_service_root
    && ((4 <=? length (fg_member_pids g))%nat
        || (bool_decide (fg_member_pids g <> [])
            && all_members s (fg_member_pids g) (fun p => is_service_class (fp_class p))))
  else false.

(** [s.ends_with(suffix)]. *)
Definition ends_with (s suffix : string) : bool :=
  let n := (String.length s - String.length suffix)%nat in
  (String.length suffix <=? String.length s)%nat
  && bool_decide (String.substring n (String.length suffix) s = suffix).

Definition process_name_looks_like_systemd (p : FocusProcess) : bool :=
  let comm := to_ascii_lowercase (fp_comm p) in
  let cmdline := to_ascii_lowercase (fp_cmdline p) in
  bool_decide (comm = "systemd"%string) || String.prefix "systemd-" comm
  || bool_decide (cmdline = "systemd"%string) || contains cmdline "/systemd "
  || contains cmdline ("/systemd" +:+ String Ascii.zero EmptyString) || ends_with cmdline "/systemd".
