(* ===== verification/FocusGroups.v ===== *)
(** * FocusGroups: the processes of a snapshot, grouped

    [focus/group_candidates.rs], [focus/group_build.rs] and [focus/groups.rs]: one
    builder per kind of group, each over the processes no earlier builder has
    claimed.  The walk to the nearest compile session may not return (see
    [ProcessTree]), so the builders live in the option monad and the compile builder
    takes the fuel of that walk; the other walks carry their own bound. *)

From S2P Require Import Prelude PolicyModel Allowlist Intervals Score Controller ContextKey FocusModel ProcessTree FocusScore.
From stdpp Require Import sorting relations.
From Stdlib Require Import SpecFloat.
Open Scope Z_scope.

(** [filter] with a test that walks the tree. *)
Fixpoint filter_walk {A} (test : A -> option bool) (l : list A) : option (list A) :=
  match l with
  | [] => Some []
  | x :: l =>
      keep ← test x;
      rest ← filter_walk test l;
      Some (if keep : bool then x :: rest else rest)
  end.

(** [sort_unstable(); dedup()]. *)
Definition sorted_dedup (l : list Z) : list Z := btree_elements (list_to_set l).

(** [max_by(|l, r| compare_process_preference(snapshot, l, r))]. *)
Definition preferred (s : FocusSnapshot) (pids : list Z) : option Z :=
  max_by (compare_process_preference s) pids.

Definition prefer_first (s : FocusSnapshot) (l r : Z) : Prop := compare_process_preference s r l <> Gt.
#[export] Instance prefer_first_dec s l r : Decision (prefer_first s l r).
Proof. unfold prefer_first. apply _. Defined.

(** The unclaimed processes that pass a test. *)
Definition matching (s : FocusSnapshot) (claimed_pids : gset Z) (test : FocusProcess -> bool) : gset Z :=
  list_to_set (fp_pid <$> List.filter test
    (List.filter (fun p => negb (bool_decide (fp_pid p ∈ claimed_pids))) (btree_values (fs_processes s)))).

Definition pid_test (s : FocusSnapshot) (test : FocusProcess -> bool) (pid : Z) : bool :=
  match fs_processes s !! pid with Some p => test p | None => false end.

Definition unclaimed (claimed_pids : gset Z) (pids : list Z) : list Z :=
  List.filter (fun pid => negb (bool_decide (pid ∈ claimed_pids))) pids.

(** ** [make_focus_group] *)

Definition debug_pids (pids : list Z) : string :=
  let fix go pids :=
    match pids with
    | [] => ""
    | [pid] => decimal pid
    | pid :: rest => decimal pid +:+ ", " +:+ go rest
    end%string in
  ("[" +:+ go pids +:+ "]")%string.

Inductive SafetyWarning :=
| CriticalRealtimePresent (pid : Z) (comm : string)
| CompositorInFocusGroup (pid : Z) (comm : string)
| UnknownForegroundLike (pid : Z) (comm : string)
| TooBroadSystemServiceGroup (root_pids : list Z).

Definition safety_warning_reason (w : SafetyWarning) : string :=
  match w with
  | CriticalRealtimePresent pid comm =>
      "safety: critical realtime/input process present pid=" +:+ decimal pid +:+ " comm='" +:+ comm
      +:+ "'; never lower or deprioritize this task"
  | CompositorInFocusGroup pid comm =>
      "safety: compositor process present pid=" +:+ decimal pid +:+ " comm='" +:+ comm
      +:+ "'; compositor is foreground latency context, not disposable background load"
  | UnknownForegroundLike pid comm =>
      "safety: unknown active foreground-like process present pid=" +:+ decimal pid +:+ " comm='" +:+ comm
      +:+ "'; keep it Interactive/Unknown rather than Background"
  | TooBroadSystemServiceGroup root_pids =>
      "safety: broad service/system tree roots " +:+ debug_pids root_pids
      +:+ "; do not select this as a mutation target"
  end%string.

Definition member_warnings (p : FocusProcess) : list SafetyWarning :=
  (if is_critical_realtime_process p then [CriticalRealtimePresent (fp_pid p) (fp_comm p)] else [])
  ++ (if is_class Compositor p then [CompositorInFocusGroup (fp_pid p) (fp_comm p)] else [])
  ++ (if is_unknown_foreground_like p then [UnknownForegroundLike (fp_pid p) (fp_comm p)] else []).

Definition safety_warnings_for_group (g : FocusGroup) (s : FocusSnapshot) : list SafetyWarning :=
  mjoin (member_warnings <$> members_of s (fg_member_pids g))
  ++ (if is_too_broad_system_service_group g s then [TooBroadSystemServiceGroup (fg_root_pids g)] else []).

Definition with_reasons (g : FocusGroup) (reasons : list string) : FocusGroup :=
  {| fg_kind := fg_kind g; fg_root_pids := fg_root_pids g; fg_member_pids := fg_member_pids g;
     fg_primary_pid := fg_primary_pid g; fg_display_name := fg_display_name g; fg_score := fg_score g;
     fg_score_breakdown := fg_score_breakdown g; fg_confidence := fg_confidence g;
     fg_priority_band := fg_priority_band g; fg_reasons := reasons |}.

Definition total_score (b : FocusScoreBreakdown) : f32 :=
  clamp_score
    (f32_sub
       (f32_add (f32_add (f32_add (f32_add (cpu_score b) (io_score b)) (interactivity_score b))
                         (class_priority_score b)) (stability_score b))
       (penalty b)).

Definition make_focus_group (s : FocusSnapshot) (kind : FocusGroupKind) (root_pids member_pids : list Z)
    (primary_pid : option Z) (reasons : list string) : option FocusGroup :=
  let root_pids := sorted_dedup root_pids in
  let member_pids := sorted_dedup member_pids in
  if decide (member_pids = []) then None
  else
    let primary_pid :=
      match primary_pid with Some pid => Some pid | None => preferred s member_pids end in
    let breakdown := score_focus_group s kind root_pids member_pids primary_pid in
    let primary := primary_pid ≫= (fun pid => fs_processes s !! pid) in
    let band :=
      default PbUnknown
        (max_by (fun l r => priority_band_rank l ?= priority_band_rank r)
           ((fun p => cl_priority_band (fp_classification p)) <$> members_of s member_pids)) in
    let reasons :=
      match primary with
      | Some p =>
          reasons ++ ["primary pid=" +:+ decimal (fp_pid p) +:+ " comm='" +:+ fp_comm p +:+ "' class="
                      +:+ TaskClass_as_str (fp_class p)]%string
      | None => reasons
      end in
    let group :=
      {| fg_kind := kind; fg_root_pids := root_pids; fg_member_pids := member_pids;
         fg_primary_pid := primary_pid; fg_display_name := display_name_for_group kind primary;
         fg_score := total_score breakdown; fg_score_breakdown := breakdown;
         fg_confidence := focus_group_confidence s member_pids breakdown;
         fg_priority_band := band; fg_reasons := reasons |} in
    Some (with_reasons group
            (fg_reasons group ++ (safety_warning_reason <$> safety_warnings_for_group group s))).

(** ** The builders *)

Definition option_or {A} (a b : option A) : option A := match a with Some _ => a | None => b end.

Definition game_root (s : FocusSnapshot) (game_like_pids : gset Z) : option (option Z) :=
  let pids := btree_elements game_like_pids in
  let gamescope := preferred s (List.filter (pid_test s (is_class GameScope)) pids) in
  game ← filter_walk (fun pid => negb <$> has_ancestor_in_set s pid game_like_pids)
           (List.filter (pid_test s (is_class Game)) pids);
  runtime ← filter_walk (fun pid =>
              match fs_processes s !! pid with
              | Some p =>
                  if is_game_runtime_process p
                  then
                    descendants ← descendants_of_pid s (fp_pid p);
                    Some (existsb (pid_test s (fun c => is_class Game c || is_class GameRenderThread c
                                                         || is_class GameWorkerThread c))
                            (btree_elements descendants))
                  else Some false
              | None => Some false
              end) pids;
  Some (option_or gamescope (option_or (preferred s game)
          (option_or (preferred s runtime) (preferred s pids)))).

Definition build_game_group (s : FocusSnapshot) (claimed_pids : gset Z) : option (option FocusGroup) :=
  let game_like_pids := matching s claimed_pids (fun p => is_game_class (fp_class p) || is_game_runtime_process p) in
  root ← game_root s game_like_pids;
  match root with
  | None => Some None
  | Some root_pid =>
      descendants ← descendants_of_pid s root_pid;
      wineservers ← filter_walk (fun pid => process_appears_tied_to_root s pid root_pid)
                      (fp_pid <$> List.filter (is_class WineServer)
                         (List.filter (fun p => negb (bool_decide (fp_pid p ∈ claimed_pids)))
                            (btree_values (fs_processes s))));
      game_like ← filter_walk (fun pid => process_appears_tied_to_root s pid root_pid)
                    (unclaimed claimed_pids (btree_elements game_like_pids));
      Some (make_focus_group s FgGame [root_pid]
              (unclaimed claimed_pids (btree_elements descendants) ++ wineservers ++ game_like)
              (Some root_pid)
              ["game group selected from gamescope/game/runtime roots";
               "wineserver is included only when tied to the same parent/session/cgroup/runtime"]%string)
  end.

(** The loop over the roots: a root that an earlier group of the same builder has
    used is passed over; [group_of] gives the members and the group of a root. *)
Fixpoint groups_of_roots (group_of : Z -> option (option (list Z * FocusGroup))) (roots : list Z)
    (used : gset Z) : option (list FocusGroup) :=
  match roots with
  | [] => Some []
  | root_pid :: roots =>
      if decide (root_pid ∈ used) then groups_of_roots group_of roots used
      else
        made ← group_of root_pid;
        match made with
        | Some (member_pids, group) =>
            rest ← groups_of_roots group_of roots (used ∪ list_to_set member_pids);
            Some (group :: rest)
        | None => groups_of_roots group_of roots used
        end
  end.

Definition browser_group_of (s : FocusSnapshot) (claimed_pids : gset Z) (root_pid : Z)
    : option (option (list Z * FocusGroup)) :=
  descendants ← descendants_of_pid s root_pid;
  let member_pids :=
    sorted_dedup (root_pid :: List.filter (pid_test s (fun p => is_browser_class (fp_class p)))
                    (unclaimed claimed_pids (btree_elements descendants))) in
  let primary_pid :=
    option_or (preferred s (List.filter (pid_test s (is_class BrowserForeground)) member_pids)) (Some root_pid) in
  Some ((fun g => (member_pids, g)) <$>
          make_focus_group s FgBrowser [root_pid] member_pids primary_pid
            ["browser group rooted at browser parent process";
             "renderer/GPU/network descendants are included under the browser parent"]%string).

Definition build_browser_groups (s : FocusSnapshot) (claimed_pids : gset Z) : option (list FocusGroup) :=
  let browser_pids := matching s claimed_pids (fun p => is_browser_class (fp_class p)) in
  roots ← filter_walk (fun pid =>
            match fs_processes s !! pid with
            | Some p =>
                if is_class BrowserForeground p then Some true
                else negb <$> has_ancestor_in_set s pid browser_pids
            | None => Some false
            end) (btree_elements browser_pids);
  groups_of_roots (browser_group_of s claimed_pids) (stable_sort (prefer_first s) roots) ∅.

Definition compile_root_first (s : FocusSnapshot) (l r : Z) : Prop :=
  then_with (stable_build_root_rank s r ?= stable_build_root_rank s l) (compare_process_preference s r l) <> Gt.
#[export] Instance compile_root_first_dec s l r : Decision (compile_root_first s l r).
Proof. unfold compile_root_first. apply _. Defined.

(** [filter_map(|pid| nearest_compile_session_root(snapshot, pid))]. *)
Fixpoint session_roots (fuel : nat) (s : FocusSnapshot) (pids : list Z) : option (list Z) :=
  match pids with
  | [] => Some []
  | pid :: pids =>
      root ← nearest_compile_session_root fuel s pid;
      rest ← session_roots fuel s pids;
      Some (match root with Some root => root :: rest | None => rest end)
  end.

Definition compile_roots (fuel : nat) (s : FocusSnapshot) (compile_pids : gset Z) : option (list Z) :=
  let pids := btree_elements compile_pids in
  match List.filter (pid_test s is_stable_build_root) pids with
  | (_ :: _) as roots => Some roots
  | [] =>
      sessions ← session_roots fuel s pids;
      match sorted_dedup sessions with
      | (_ :: _) as roots => Some roots
      | [] =>
          tops ← filter_walk (fun pid => negb <$> has_ancestor_in_set s pid compile_pids) pids;
          Some match tops with _ :: _ => tops | [] => pids end
      end
  end.

Definition compile_group_of (s : FocusSnapshot) (claimed_pids compile_pids : gset Z) (root_pid : Z)
    : option (option (list Z * FocusGroup)) :=
  if decide (root_pid ∈ claimed_pids) then Some None
  else
    descendants ← descendants_of_pid s root_pid;
    let below :=
      List.filter (pid_test s (fun p => is_compile_class (fp_class p) || (fp_pid p =? root_pid)
                                        || is_class Terminal p || is_class Shell p))
        (unclaimed claimed_pids (btree_elements descendants)) in
    let member_pids :=
      sorted_dedup (if decide (root_pid ∈ compile_pids) then root_pid :: below else below) in
    if existsb (fun pid => bool_decide (pid ∈ compile_pids)) member_pids
    then
      let primary_pid :=
        option_or (preferred s (List.filter (pid_test s is_stable_build_root) member_pids))
                  (preferred s member_pids) in
      Some ((fun g => (member_pids, g)) <$>
              make_focus_group s FgCompile [root_pid] member_pids primary_pid
                ["compile group prefers stable build roots such as cargo/ninja/make/cmake/meson";
                 "compiler/linker descendants are grouped under the stable build/session root"]%string)
    else Some None.

Definition build_compile_groups (fuel : nat) (s : FocusSnapshot) (claimed_pids : gset Z)
    : option (list FocusGroup) :=
  let compile_pids := matching s claimed_pids (fun p => is_compile_class (fp_class p)) in
  if decide (compile_pids = ∅) then Some []
  else
    roots ← compile_roots fuel s compile_pids;
    groups_of_roots (compile_group_of s claimed_pids compile_pids)
      (stable_sort (compile_root_first s) roots) ∅.

Definition kind_debug (kind : FocusGroupKind) : string := display_name_for_group kind None.

Definition tree_group_of (s : FocusSnapshot) (claimed_pids matching_pids : gset Z) (kind : FocusGroupKind)
    (root_pid : Z) : option (option (list Z * FocusGroup)) :=
  descendants ← descendants_of_pid s root_pid;
  let member_pids :=
    List.filter (fun pid => bool_decide (pid ∈ matching_pids) || (pid =? root_pid))
      (unclaimed claimed_pids (btree_elements descendants)) in
  if decide (member_pids = []) then Some None
  else
    Some ((fun g => (member_pids, g)) <$>
            make_focus_group s kind [root_pid] member_pids (preferred s member_pids)
              [kind_debug kind +:+ " group rooted at stable process tree"]%string).

Definition build_tree_groups_for_kind (s : FocusSnapshot) (claimed_pids : gset Z) (kind : FocusGroupKind)
    (predicate : FocusProcess -> bool) : option (list FocusGroup) :=
  let matching_pids := matching s claimed_pids predicate in
  let pids := btree_elements matching_pids in
  tops ← filter_walk (fun pid => negb <$> has_ancestor_in_set s pid matching_pids) pids;
  let roots := match tops with _ :: _ => tops | [] => pids end in
  groups_of_roots (tree_group_of s claimed_pids matching_pids kind) (stable_sort (prefer_first s) roots) ∅.

Definition build_desktop_group (s : FocusSnapshot) (claimed_pids : gset Z) : option FocusGroup :=
  let desktop_pids :=
    matching s claimed_pids (fun p => bool_decide (focus_group_kind_for_class (fp_class p) = FgDesktop)) in
  let pids := btree_elements desktop_pids in
  let active := pid_test s is_active_foreground_candidate in
  let primary_pid :=
    option_or (preferred s (List.filter active (List.filter (pid_test s (is_class Compositor)) pids)))
      (option_or (preferred s (List.filter active pids)) (preferred s pids)) in
  make_focus_group s FgDesktop (root_pids_from_members s desktop_pids) pids primary_pid
    ["desktop group is supporting context";
     "compositor becomes primary only when it is an active foreground-latency candidate"]%string.

Definition build_idle_group (s : FocusSnapshot) (claimed_pids : gset Z) : option FocusGroup :=
  let idle_pids :=
    matching s claimed_pids (fun p => bool_decide (focus_group_kind_for_class (fp_class p) = FgIdle)) in
  let pids := btree_elements idle_pids in
  make_focus_group s FgIdle (root_pids_from_members s idle_pids) pids (preferred s pids)
    ["idle/background service group is never allowed to outrank active foreground work by base score alone"]%string.

Definition build_fallback_group (s : FocusSnapshot) (claimed_pids : gset Z) : option (option FocusGroup) :=
  let root :=
    max_by (fun l r => then_with (fp_cpu_time_ticks_delta l ?= fp_cpu_time_ticks_delta r)
                                 (f32_cmp (process_focus_score l) (process_focus_score r)))
      (List.filter (fun p => is_non_service_interactive_class (fp_class p))
         (List.filter (fun p => negb (bool_decide (fp_pid p ∈ claimed_pids))) (btree_values (fs_processes s)))) in
  match root with
  | None => Some None
  | Some root =>
      descendants ← descendants_of_pid s (fp_pid root);
      let member_pids := unclaimed claimed_pids (btree_elements descendants) in
      Some (if decide (member_pids = []) then None
            else
              make_focus_group s FgUnknown [fp_pid root] member_pids (preferred s member_pids)
                ["fallback selected highest non-service interactive process tree by recent CPU delta"]%string)
  end.

(** ** [build_focus_groups] *)

Definition group_order (l r : FocusGroup) : comparison :=
  then_with (f32_cmp (fg_score r) (fg_score l))
    (then_with (priority_band_rank (fg_priority_band r) ?= priority_band_rank (fg_priority_band l))
       (String.compare (fg_display_name l) (fg_display_name r))).
Definition group_first (l r : FocusGroup) : Prop := group_order l r <> Gt.
#[export] Instance group_first_dec l r : Decision (group_first l r).
Proof. unfold group_first. apply _. Defined.

Definition claim (claimed_pids : gset Z) (groups : list FocusGroup) : gset Z :=
  claimed_pids ∪ list_to_set (mjoin (fg_member_pids <$> groups)).

Definition option_list {A} (x : option A) : list A := match x with Some a => [a] | None => [] end.

(** The builders in the order of the source, each given what the earlier ones
    have claimed. *)
Definition builders (fuel : nat) (s : FocusSnapshot) : list (gset Z -> option (list FocusGroup)) :=
  [ (fun c => option_list <$> build_game_group s c);
    (fun c => build_browser_groups s c);
    (fun c => build_compile_groups fuel s c);
    (fun c => build_tree_groups_for_kind s c FgMedia (is_class Media));
    (fun c => build_tree_groups_for_kind s c FgRecording (is_class Recorder));
    (fun c => build_tree_groups_for_kind s c FgVirtualMachine (is_class VirtualMachine));
    (fun c => Some (option_list (build_desktop_group s c)));
    (fun c => Some (option_list (build_idle_group s c)));
    (fun c => option_list <$> build_fallback_group s c) ].

Fixpoint run_builders (bs : list (gset Z -> option (list FocusGroup))) (claimed_pids : gset Z)
    : option (list FocusGroup) :=
  match bs with
  | [] => Some []
  | build :: bs =>
      groups ← build claimed_pids;
      rest ← run_builders bs (claim claimed_pids groups);
      Some (groups ++ rest)
  end.

Definition build_focus_groups (fuel : nat) (s : FocusSnapshot) : option (list FocusGroup) :=
  stable_sort group_first <$> run_builders (builders fuel s) ∅.

(** ** What a builder delivers *)

Definition members_ordered (g : FocusGroup) : Prop :=
  fg_member_pids g <> [] /\ StronglySorted Z.lt (fg_member_pids g).

(** A group of kind [k] that takes nothing from what is claimed. *)
Definition fresh_group (k : FocusGroupKind) (claimed_pids : gset Z) (g : FocusGroup) : Prop :=
  fg_kind g = k /\ members_ordered g /\ forall x, x ∈ fg_member_pids g -> x ∉ claimed_pids.

Lemma sorted_dedup_elem l x : x ∈ sorted_dedup l <-> x ∈ l.
Proof. unfold sorted_dedup. by rewrite btree_elements_elem, elem_of_list_to_set. Qed.

Lemma unclaimed_elem claimed_pids l x : x ∈ unclaimed claimed_pids l <-> x ∈ l /\ x ∉ claimed_pids.
Proof.
  unfold unclaimed. rewrite list_elem_of_In, filter_In, <- list_elem_of_In, negb_true_iff, bool_decide_eq_false.
  done.
Qed.

Lemma list_filter_elem {A} (f : A -> bool) l x : x ∈ List.filter f l <-> x ∈ l /\ f x = true.
Proof. by rewrite list_elem_of_In, filter_In, <- list_elem_of_In. Qed.

Lemma matching_unclaimed s claimed_pids test x : x ∈ matching s claimed_pids test -> x ∉ claimed_pids.
Proof.
  unfold matching. rewrite elem_of_list_to_set, list_elem_of_fmap.
  intros (p & -> & [[_ Hp]%list_filter_elem _]%list_filter_elem).
  by apply negb_true_iff, bool_decide_eq_false in Hp.
Qed.

Lemma make_focus_group_fresh s k roots members primary reasons g claimed_pids :
  make_focus_group s k roots members primary reasons = Some g ->
  (forall x, x ∈ members -> x ∉ claimed_pids) -> fresh_group k claimed_pids g.
Proof.
  unfold make_focus_group. case_decide as He; [done|]. intros [= <-] Hm.
  split; [done|]. split; [split; [done|apply btree_elements_strict]|].
  intros x Hx. change (x ∈ sorted_dedup members) in Hx. rewrite sorted_dedup_elem in Hx. exact (Hm x Hx).
Qed.

Lemma filter_walk_elem {A} (test : A -> option bool) l kept x :
  filter_walk test l = Some kept -> x ∈ kept -> x ∈ l.
Proof.
  revert kept. induction l as [|y l IH]; cbn; intros kept Hw Hx; [simplify_eq; set_solver|].
  destruct (test y) as [b|]; [|done]. cbn in Hw. destruct (filter_walk test l) as [rest|]; [|done].
  cbn in Hw. simplify_eq. destruct b; [|right; by eapply IH].
  apply elem_of_cons in Hx as [->|Hx]; [by left|right; by eapply IH].
Qed.

Lemma filter_walk_total {A} (test : A -> option bool) l :
  (forall x, is_Some (test x)) -> is_Some (filter_walk test l).
Proof.
  intros Ht. induction l as [|x l [kept IH]]; cbn; [by eexists|]. destruct (Ht x) as [b ->]. cbn.
  rewrite IH. by eexists.
Qed.

Lemma groups_of_roots_forall group_of roots used gs (P : FocusGroup -> Prop) :
  groups_of_roots group_of roots used = Some gs ->
  (forall root ms g, root ∈ roots -> group_of root = Some (Some (ms, g)) -> P g) -> Forall P gs.
Proof.
  revert used gs. induction roots as [|root roots IH]; cbn; intros used gs Hg HP; [simplify_eq; constructor|].
  assert (HP' : forall r ms g, r ∈ roots -> group_of r = Some (Some (ms, g)) -> P g)
    by (intros r ms g Hr; apply HP; by right).
  case_decide; [by eapply IH|]. destruct (group_of root) as [[[ms g]|]|] eqn:Hgo; cbn in Hg; [| |done].
  - destruct (groups_of_roots group_of roots _) as [rest|] eqn:Hrest; [|done]. cbn in Hg. simplify_eq.
    constructor; [by eapply HP; [left|]|by eapply IH].
  - by eapply IH.
Qed.

Lemma groups_of_roots_total group_of roots used :
  (forall root, is_Some (group_of root)) -> is_Some (groups_of_roots group_of roots used).
Proof.
  intros Ht. revert used. induction roots as [|root roots IH]; intros used; cbn; [by eexists|].
  case_decide; [done|]. destruct (Ht root) as [[[ms g]|] ->]; cbn; [|done].
  destruct (IH (used ∪ list_to_set ms)) as [rest ->]. by eexists.
Qed.

(** *** The walks inside the builders return *)

Lemma descendants_some s root : exists d, descendants_of_pid s root = Some d.
Proof. destruct (descendants_of_pid_exact s root) as (d & Hd & _). by exists d. Qed.

Lemma has_ancestor_some s pid pids : exists b, has_ancestor_in_set s pid pids = Some b.
Proof. destruct (has_ancestor_in_set_exact s pid pids) as (b & Hb & _). by exists b. Qed.

Lemma tied_some s pid root : is_Some (process_appears_tied_to_root s pid root).
Proof.
  unfold process_appears_tied_to_root. destruct (pid =? root); [by eexists|].
  destruct (fs_processes s !! pid), (fs_processes s !! root); try by eexists.
  destruct (descendants_some s root) as [d ->]. by eexists.
Qed.

Lemma not_ancestor_some s pid pids : is_Some (negb <$> has_ancestor_in_set s pid pids).
Proof. destruct (has_ancestor_some s pid pids) as [b ->]. by eexists. Qed.

Lemma session_roots_total s pids :
  (forall pid, ~ trapped (fs_processes s) pid) ->
  is_Some (session_roots (S (size (fs_processes s))) s pids).
Proof.
  intros Ht. induction pids as [|pid pids [rest IH]]; cbn [session_roots]; [by eexists|].
  assert (Hr : is_Some (nearest_compile_session_root (S (size (fs_processes s))) s pid)).
  { unfold nearest_compile_session_root.
    destruct (compile_session_bound (S (size (fs_processes s))) (fs_processes s) ∅ pid)
      as [Htr|(w & q & -> & _)]; [rewrite difference_empty_L, size_dom; lia|set_solver| |by eexists].
    by apply Ht in Htr. }
  destruct Hr as [r ->]. cbn. rewrite IH. by eexists.
Qed.

#[local] Arguments descendants_of_pid : simpl never.
#[local] Arguments has_ancestor_in_set : simpl never.
#[local] Arguments make_focus_group : simpl never.

(** *** Each builder: fresh groups of its kind, and a result *)

Definition builder_fresh (k : FocusGroupKind) (build : gset Z -> option (list FocusGroup)) : Prop :=
  forall claimed_pids gs, build claimed_pids = Some gs -> Forall (fresh_group k claimed_pids) gs.

Definition builder_total (build : gset Z -> option (list FocusGroup)) : Prop :=
  forall claimed_pids, is_Some (build claimed_pids).

Lemma fmap_group_inv {A} (f : FocusGroup -> A) (o : option FocusGroup) x :
  f <$> o = Some x -> exists g, o = Some g /\ x = f g.
Proof. destruct o; cbn; intros; simplify_eq. by eexists. Qed.

Lemma option_list_fresh k claimed_pids o :
  (forall g, o = Some g -> fresh_group k claimed_pids g) -> Forall (fresh_group k claimed_pids) (option_list o).
Proof. destruct o as [g|]; cbn; intros H; repeat constructor. all: by apply H. Qed.

Lemma game_fresh s : builder_fresh FgGame (fun c => option_list <$> build_game_group s c).
Proof.
  intros c gs Hb. destruct (build_game_group s c) as [o|] eqn:Ho; cbn in Hb; [|done]. simplify_eq.
  apply option_list_fresh. intros g ->. unfold build_game_group in Ho.
  destruct (game_root s _) as [[root|]|]; cbn in Ho; [|done|done].
  destruct (descendants_of_pid s root) as [d|]; cbn in Ho; [|done].
  destruct (filter_walk _ (fp_pid <$> _)) as [ws|] eqn:Hws; cbn in Ho; [|done].
  destruct (filter_walk _ (unclaimed c _)) as [gl|] eqn:Hgl; cbn in Ho; [|done]. simplify_eq.
  eapply make_focus_group_fresh; [done|]. intros x [Hx|[Hx|Hx]%elem_of_app]%elem_of_app.
  - rewrite unclaimed_elem in Hx. apply Hx.
  - eapply filter_walk_elem in Hx; [|done]. apply list_elem_of_fmap in Hx as (p & -> & Hp).
    apply list_filter_elem in Hp as [[_ Hp]%list_filter_elem _].
    by apply negb_true_iff, bool_decide_eq_false in Hp.
  - eapply filter_walk_elem in Hx; [|done]. rewrite unclaimed_elem in Hx. apply Hx.
Qed.

Lemma game_total s : builder_total (fun c => option_list <$> build_game_group s c).
Proof.
  intros c. apply fmap_is_Some. unfold build_game_group, game_root.
  destruct (filter_walk_total (fun pid => negb <$> has_ancestor_in_set s pid
    (matching s c (fun p => is_game_class (fp_class p) || is_game_runtime_process p)))
    (List.filter (pid_test s (is_class Game)) (btree_elements
       (matching s c (fun p => is_game_class (fp_class p) || is_game_runtime_process p)))))
    as [tops ->]; [intros; apply not_ancestor_some|]. cbn.
  match goal with |- context [filter_walk ?t ?l] =>
    destruct (filter_walk_total t l) as [runtime ->] end.
  { intros pid. destruct (fs_processes s !! pid) as [p|]; [|by eexists].
    destruct (is_game_runtime_process p); [|by eexists].
    destruct (descendants_some s (fp_pid p)) as [d ->]. by eexists. }
  cbn. destruct (option_or _ _) as [root|]; [|by eexists].
  destruct (descendants_some s root) as [d ->]. cbn.
  do 2 (match goal with |- context [filter_walk ?t ?l] =>
    destruct (filter_walk_total t l) as [? ->]; [intros; apply tied_some|] end; cbn).
  by eexists.
Qed.

Lemma browser_fresh s : builder_fresh FgBrowser (build_browser_groups s).
Proof.
  intros c gs Hb. unfold build_browser_groups in Hb.
  destruct (filter_walk _ _) as [roots|] eqn:Hr; cbn in Hb; [|done].
  eapply groups_of_roots_forall; [done|]. intros root ms g Hin Hg. unfold browser_group_of in Hg.
  destruct (descendants_of_pid s root) as [d|]; cbn in Hg; [|done]. injection Hg as Hg.
  apply fmap_group_inv in Hg as (g' & Hg & ?). simplify_eq.
  eapply make_focus_group_fresh; [done|]. intros x Hx. rewrite sorted_dedup_elem in Hx.
  apply elem_of_cons in Hx as [->|Hx].
  - rewrite stable_sort_Permutation in Hin. eapply filter_walk_elem in Hin; [|done].
    rewrite btree_elements_elem in Hin. by eapply matching_unclaimed.
  - apply list_filter_elem in Hx as [Hx _]. rewrite unclaimed_elem in Hx. apply Hx.
Qed.

Lemma browser_total s : builder_total (build_browser_groups s).
Proof.
  intros c. unfold build_browser_groups.
  match goal with |- context [filter_walk ?t ?l] => destruct (filter_walk_total t l) as [roots ->] end.
  { intros pid. destruct (fs_processes s !! pid) as [p|]; [|by eexists].
    destruct (is_class _ p); [by eexists|apply not_ancestor_some]. }
  cbn. apply groups_of_roots_total. intros root. unfold browser_group_of.
  destruct (descendants_some s root) as [d ->]. by eexists.
Qed.

Lemma compile_fresh fuel s : builder_fresh FgCompile (build_compile_groups fuel s).
Proof.
  intros c gs Hb. unfold build_compile_groups in Hb. case_decide; [simplify_eq; constructor|].
  destruct (compile_roots fuel s _) as [roots|] eqn:Hr; cbn in Hb; [|done].
  eapply groups_of_roots_forall; [done|]. intros root ms g _ Hg. unfold compile_group_of in Hg.
  case_decide as Hcl; [done|]. destruct (descendants_of_pid s root) as [d|]; cbn in Hg; [|done].
  destruct (existsb _ _); [|done]. injection Hg as Hg.
  apply fmap_group_inv in Hg as (g' & Hg & ?). simplify_eq.
  eapply make_focus_group_fresh; [done|]. intros x Hx. rewrite sorted_dedup_elem in Hx.
  assert (Hbelow : forall f, x ∈ List.filter f (unclaimed c (btree_elements d)) -> x ∉ c).
  { intros f [Hx' _]%list_filter_elem. rewrite unclaimed_elem in Hx'. apply Hx'. }
  case_decide; [|by eapply Hbelow]. apply elem_of_cons in Hx as [->|Hx]; [done|by eapply Hbelow].
Qed.

Lemma compile_total s :
  (forall pid, ~ trapped (fs_processes s) pid) ->
  builder_total (build_compile_groups (S (size (fs_processes s))) s).
Proof.
  intros Ht c. unfold build_compile_groups. case_decide; [by eexists|].
  assert (Hr : is_Some (compile_roots (S (size (fs_processes s))) s
                          (matching s c (fun p => is_compile_class (fp_class p))))).
  { unfold compile_roots. destruct (List.filter _ _); [|by eexists].
    destruct (session_roots_total s (btree_elements
      (matching s c (fun p => is_compile_class (fp_class p)))) Ht) as [sessions ->]. cbn.
    destruct (sorted_dedup sessions); [|by eexists].
    match goal with |- context [filter_walk ?t ?l] =>
      destruct (filter_walk_total t l) as [tops ->]; [intros; apply not_ancestor_some|] end.
    by eexists. }
  destruct Hr as [roots ->]. cbn. apply groups_of_roots_total. intros root. unfold compile_group_of.
  case_decide; [by eexists|]. destruct (descendants_some s root) as [d ->]. cbn.
  destruct (existsb _ _); by eexists.
Qed.

Lemma tree_fresh s k predicate : builder_fresh k (fun c => build_tree_groups_for_kind s c k predicate).
Proof.
  intros c gs Hb. unfold build_tree_groups_for_kind in Hb.
  destruct (filter_walk _ _) as [tops|]; cbn in Hb; [|done].
  eapply groups_of_roots_forall; [done|]. intros root ms g _ Hg. unfold tree_group_of in Hg.
  destruct (descendants_of_pid s root) as [d|]; cbn in Hg; [|done]. case_decide; [done|]. injection Hg as Hg.
  apply fmap_group_inv in Hg as (g' & Hg & ?). simplify_eq.
  eapply make_focus_group_fresh; [done|]. intros x [Hx _]%list_filter_elem.
  rewrite unclaimed_elem in Hx. apply Hx.
Qed.

Lemma tree_total s k predicate : builder_total (fun c => build_tree_groups_for_kind s c k predicate).
Proof.
  intros c. unfold build_tree_groups_for_kind.
  match goal with |- context [filter_walk ?t ?l] =>
    destruct (filter_walk_total t l) as [tops ->]; [intros; apply not_ancestor_some|] end.
  cbn. apply groups_of_roots_total. intros root. unfold tree_group_of.
  destruct (descendants_some s root) as [d ->]. cbn. case_decide; by eexists.
Qed.

Lemma context_fresh s k test roots primary reasons c g :
  make_focus_group s k roots (btree_elements (matching s c test)) primary reasons = Some g ->
  fresh_group k c g.
Proof.
  intros Hg. eapply make_focus_group_fresh; [done|]. intros x Hx. rewrite btree_elements_elem in Hx.
  by eapply matching_unclaimed.
Qed.

Lemma fallback_fresh s : builder_fresh FgUnknown (fun c => option_list <$> build_fallback_group s c).
Proof.
  intros c gs Hb. destruct (build_fallback_group s c) as [o|] eqn:Ho; cbn in Hb; [|done]. simplify_eq.
  apply option_list_fresh. intros g ->. unfold build_fallback_group in Ho.
  destruct (max_by _ _) as [root|]; [|done]. destruct (descendants_of_pid s _) as [d|]; cbn in Ho; [|done].
  case_decide; [done|]. injection Ho as Ho. eapply make_focus_group_fresh; [done|].
  intros x Hx. rewrite unclaimed_elem in Hx. apply Hx.
Qed.

Lemma fallback_total s : builder_total (fun c => option_list <$> build_fallback_group s c).
Proof.
  intros c. apply fmap_is_Some. unfold build_fallback_group. destruct (max_by _ _) as [root|]; [|by eexists].
  destruct (descendants_some s (fp_pid root)) as [d ->]. by eexists.
Qed.

(** *** The builders in sequence *)

Definition all_kinds : list FocusGroupKind :=
  [FgGame; FgBrowser; FgCompile; FgMedia; FgRecording; FgVirtualMachine; FgDesktop; FgIdle; FgUnknown].

Lemma all_kinds_NoDup : NoDup all_kinds.
Proof. by apply (bool_decide_unpack _). Qed.

Lemma builders_fresh fuel s : Forall2 builder_fresh all_kinds (builders fuel s).
Proof.
  repeat constructor.
  - apply game_fresh.
  - apply browser_fresh.
  - apply compile_fresh.
  - apply tree_fresh.
  - apply tree_fresh.
  - apply tree_fresh.
  - intros c gs [= <-]. apply option_list_fresh. intros g Hg. by eapply context_fresh.
  - intros c gs [= <-]. apply option_list_fresh. intros g Hg. by eapply context_fresh.
  - apply fallback_fresh.
Qed.

Lemma builders_total s :
  (forall pid, ~ trapped (fs_processes s) pid) ->
  Forall builder_total (builders (S (size (fs_processes s))) s).
Proof.
  intros Ht. repeat constructor; try (by intros c; eexists).
  - apply game_total.
  - apply browser_total.
  - by apply compile_total.
  - apply tree_total.
  - apply tree_total.
  - apply tree_total.
  - apply fallback_total.
Qed.

Lemma run_builders_total bs c : Forall builder_total bs -> is_Some (run_builders bs c).
Proof.
  intros Hb. revert c. induction Hb as [|b bs Hb _ IH]; intros c; cbn; [by eexists|].
  destruct (Hb c) as [gs ->]. cbn. destruct (IH (claim c gs)) as [rest ->]. by eexists.
Qed.

Definition disjoint_members (g h : FocusGroup) : Prop :=
  forall x, x ∈ fg_member_pids g -> x ∉ fg_member_pids h.

Lemma claim_members c gs g x : g ∈ gs -> x ∈ fg_member_pids g -> x ∈ claim c gs.
Proof.
  intros Hg Hx. unfold claim. apply elem_of_union_r, elem_of_list_to_set, list_elem_of_join.
  exists (fg_member_pids g). split; [done|]. apply list_elem_of_fmap. by exists g.
Qed.

Lemma run_builders_fresh ks bs c gs :
  Forall2 builder_fresh ks bs -> NoDup ks -> run_builders bs c = Some gs ->
  (forall g, g ∈ gs -> fg_kind g ∈ ks /\ members_ordered g /\ forall x, x ∈ fg_member_pids g -> x ∉ c) /\
  (forall g h, g ∈ gs -> h ∈ gs -> fg_kind g <> fg_kind h -> disjoint_members g h).
Proof.
  intros Hb. revert c gs. induction Hb as [|k b ks bs Hk Hb IH]; cbn; intros c gs Hnd Hrun.
  { simplify_eq. split; [set_solver|set_solver]. }
  apply NoDup_cons in Hnd as [Hout Hnd].
  destruct (b c) as [mine|] eqn:Hmine; cbn in Hrun; [|done].
  destruct (run_builders bs (claim c mine)) as [rest|] eqn:Hrest; cbn in Hrun; [|done]. simplify_eq.
  specialize (Hk c mine Hmine). rewrite Forall_forall in Hk.
  destruct (IH _ _ Hnd Hrest) as [Hgs Hdis].
  assert (Hcross : forall g h, g ∈ mine -> h ∈ rest -> disjoint_members g h /\ disjoint_members h g).
  { intros g h Hg Hh. destruct (Hgs h Hh) as (_ & _ & Hun). split; intros x Hx Hx'.
    - apply (Hun x Hx'). by eapply claim_members.
    - apply (Hun x Hx). by eapply claim_members. }
  split.
  - intros g [Hg|Hg]%elem_of_app.
    + destruct (Hk g Hg) as (-> & Ho & Hun). split_and!; [by left|done|done].
    + destruct (Hgs g Hg) as (Hkind & Ho & Hun). split_and!; [by right|done|].
      intros x Hx Hc. apply (Hun x Hx). unfold claim. by apply elem_of_union_l.
  - intros g h [Hg|Hg]%elem_of_app [Hh|Hh]%elem_of_app Hne.
    + destruct (Hk g Hg) as [Hkg _], (Hk h Hh) as [Hkh _]. congruence.
    + apply (Hcross g h Hg Hh).
    + apply (Hcross h g Hh Hg).
    + by apply Hdis.
Qed.

(** C23. On a snapshot whose parents do not trap the walk to a compile session, the
    groups are built, and a process belongs to groups of at most one kind: two
    groups of different kinds have no member in common.  Every group has members,
    listed once each in order. *)
Theorem focus_groups_partition_kinds s :
  (forall pid, ~ trapped (fs_processes s) pid) ->
  exists gs, build_focus_groups (S (size (fs_processes s))) s = Some gs /\
    (forall g, g ∈ gs -> members_ordered g) /\
    (forall g h x, g ∈ gs -> h ∈ gs -> x ∈ fg_member_pids g -> x ∈ fg_member_pids h -> fg_kind g = fg_kind h).
Proof.
  intros Ht. unfold build_focus_groups.
  destruct (run_builders_total _ ∅ (builders_total s Ht)) as [gs Hgs]. rewrite Hgs. cbn.
  destruct (run_builders_fresh _ _ _ _ (builders_fresh _ s) all_kinds_NoDup Hgs) as [Hok Hdis].
  exists (stable_sort group_first gs). split; [done|].
  setoid_rewrite (stable_sort_Permutation group_first gs). split; [intros g Hg; apply Hok, Hg|].
  intros g h x Hg Hh Hx Hx'. destruct (decide (fg_kind g = fg_kind h)) as [|Hne]; [done|].
  by destruct (Hdis g h Hg Hh Hne x Hx).
Qed.
