(* ===== verification/FocusResolver.v ===== *)
(** * FocusResolver: which group has the focus

    [stutter/src/focus/resolve.rs]: a poll of the resolver takes a snapshot with its
    groups and keeps, switches or clears the focus.  The texts of the reasons are
    left out; the cache of the process scan belongs to the snapshot's construction.

    A switch needs the same winner in a number of consecutive polls; a focus whose
    group is still there is only replaced by a group better by a margin, after a
    cooldown.  Both are proved over runs of polls. *)

From S2P Require Import Prelude PolicyModel Intervals Score Controller FocusModel.
From stdpp Require Import sorting.
From Stdlib Require Import SpecFloat.
Open Scope Z_scope.

Record FocusPolicy := {
  fpo_poll_ms : Z;
  fpo_min_confidence : f32;
  fpo_switch_margin : f32;
  fpo_switch_cooldown_ms : Z;
  fpo_required_winner_polls : Z;
  fpo_max_roots : nat }.

Definition FocusPolicy_default : FocusPolicy :=
  {| fpo_poll_ms := 1000; fpo_min_confidence := f32_lit 60 100; fpo_switch_margin := f32_lit 20 100;
     fpo_switch_cooldown_ms := 5000; fpo_required_winner_polls := 2; fpo_max_roots := 4 |}.

Record ResolvedFocus := {
  rf_group : FocusGroup;
  rf_selected_at_ms : Z;
  rf_last_confirmed_ms : Z;
  rf_situation : SituationKind }.

Record PendingFocus := {
  pf_group : FocusGroup;
  pf_first_seen_ms : Z;
  pf_polls : Z }.

Record FocusResolver := {
  fr_current : option ResolvedFocus;
  fr_pending : option PendingFocus;
  fr_policy : FocusPolicy }.

Inductive FocusDecision :=
| FdKeep (focus : ResolvedFocus)
| FdSwitch (old : option ResolvedFocus) (new : ResolvedFocus)
| FdClear (old : option ResolvedFocus)
| FdNoTarget.

Definition FocusResolver_new (policy : FocusPolicy) : FocusResolver :=
  {| fr_current := None; fr_pending := None; fr_policy := policy |}.

Definition set_current (r : FocusResolver) (c : option ResolvedFocus) : FocusResolver :=
  {| fr_current := c; fr_pending := fr_pending r; fr_policy := fr_policy r |}.

Definition set_pending (r : FocusResolver) (p : option PendingFocus) : FocusResolver :=
  {| fr_current := fr_current r; fr_pending := p; fr_policy := fr_policy r |}.

Definition group_roots_alive (s : FocusSnapshot) (g : FocusGroup) : bool :=
  match fg_root_pids g with
  | [] => match fg_primary_pid g with
          | Some pid => bool_decide (is_Some (fs_processes s !! pid))
          | None => false
          end
  | roots => existsb (fun pid => bool_decide (is_Some (fs_processes s !! pid))) roots
  end.

Definition same_focus_identity (l r : FocusGroup) : bool :=
  if bool_decide (fg_kind l <> fg_kind r) then false
  else
    match fg_root_pids l, fg_root_pids r with
    | _ :: _, _ :: _ => existsb (fun pid => bool_decide (pid ∈ fg_root_pids r)) (fg_root_pids l)
    | _, _ =>
        match fg_primary_pid l, fg_primary_pid r with
        | Some l, Some r => l =? r
        | _, _ => false
        end
    end.

Definition first_root (g : FocusGroup) : Z :=
  match fg_root_pids g with
  | root :: _ => root
  | [] => default U32_MAX (fg_primary_pid g)
  end.

Definition compare_group_preference (l r : FocusGroup) : comparison :=
  then_with (f32_cmp (fg_score l) (fg_score r))
    (then_with (f32_cmp (fg_confidence l) (fg_confidence r))
       (then_with (priority_band_rank (fg_priority_band l) ?= priority_band_rank (fg_priority_band r))
          (first_root r ?= first_root l))).

Definition best_eligible_group (r : FocusResolver) (s : FocusSnapshot) : option FocusGroup :=
  max_by compare_group_preference
    (List.filter (group_roots_alive s)
       (List.filter (fun g => f32_ge (fg_confidence g) (fpo_min_confidence (fr_policy r))) (fs_groups s))).

Definition limit_group_roots (r : FocusResolver) (g : FocusGroup) : FocusGroup :=
  {| fg_kind := fg_kind g; fg_root_pids := take (fpo_max_roots (fr_policy r)) (fg_root_pids g);
     fg_member_pids := fg_member_pids g; fg_primary_pid := fg_primary_pid g;
     fg_display_name := fg_display_name g; fg_score := fg_score g;
     fg_score_breakdown := fg_score_breakdown g; fg_confidence := fg_confidence g;
     fg_priority_band := fg_priority_band g; fg_reasons := fg_reasons g |}.

Definition resolved_focus_from_group (g : FocusGroup) (elapsed_ms : Z) : ResolvedFocus :=
  {| rf_group := g; rf_selected_at_ms := elapsed_ms; rf_last_confirmed_ms := elapsed_ms;
     rf_situation := situation_for_group g |}.

Definition first_poll (g : FocusGroup) (elapsed_ms : Z) : PendingFocus :=
  {| pf_group := g; pf_first_seen_ms := elapsed_ms; pf_polls := 1 |}.

Definition confirm_pending_winner (r : FocusResolver) (candidate : FocusGroup) (elapsed_ms : Z)
    : FocusResolver * bool :=
  let required := Z.max (fpo_required_winner_polls (fr_policy r)) 1 in
  if required =? 1 then (set_pending r (Some (first_poll candidate elapsed_ms)), true)
  else
    match fr_pending r with
    | Some pending =>
        if same_focus_identity (pf_group pending) candidate
        then
          let polls := saturating_add_u32 (pf_polls pending) 1 in
          (set_pending r (Some {| pf_group := candidate; pf_first_seen_ms := pf_first_seen_ms pending;
                                  pf_polls := polls |}), required <=? polls)
        else (set_pending r (Some (first_poll candidate elapsed_ms)), false)
    | None => (set_pending r (Some (first_poll candidate elapsed_ms)), false)
    end.

(** [self.current = Some(new.clone()); self.pending = None]. *)
Definition select (r : FocusResolver) (new : ResolvedFocus) : FocusResolver :=
  set_pending (set_current r (Some new)) None.

(** The current group as the snapshot has it, when it is still worth keeping. *)
Definition current_group_in (r : FocusResolver) (s : FocusSnapshot) (current : ResolvedFocus)
    : option FocusGroup :=
  match limit_group_roots r <$> find (fun g => same_focus_identity g (rf_group current)) (fs_groups s) with
  | Some g => if group_roots_alive s g && f32_ge (fg_score g) (f32_lit 45 100) then Some g else None
  | None => None
  end.

Definition refresh (current : ResolvedFocus) (g : FocusGroup) (elapsed_ms : Z) : ResolvedFocus :=
  {| rf_group := g; rf_selected_at_ms := rf_selected_at_ms current;
     rf_last_confirmed_ms := elapsed_ms; rf_situation := situation_for_group g |}.

Definition decide_from_snapshot (r : FocusResolver) (s : FocusSnapshot) : FocusResolver * FocusDecision :=
  match best_eligible_group r s with
  | None =>
      let r := set_pending r None in
      match fr_current r with
      | Some old => (set_current r None, FdClear (Some old))
      | None => (r, FdNoTarget)
      end
  | Some best =>
      let candidate := limit_group_roots r best in
      let new := resolved_focus_from_group candidate (fs_elapsed_ms s) in
      match fr_current r with
      | Some current =>
          match current_group_in r s current with
          | Some g =>
              let refreshed := refresh current g (fs_elapsed_ms s) in
              if same_focus_identity g candidate then (select r refreshed, FdKeep refreshed)
              else if SFltb (fg_score candidate) (f32_add (fg_score g) (fpo_switch_margin (fr_policy r)))
              then (select r refreshed, FdKeep refreshed)
              else if saturating_sub (fs_elapsed_ms s) (rf_selected_at_ms refreshed)
                      <? fpo_switch_cooldown_ms (fr_policy r)
              then (select r refreshed, FdKeep refreshed)
              else
                let (r, confirmed) := confirm_pending_winner r candidate (fs_elapsed_ms s) in
                if confirmed : bool then (select r new, FdSwitch (Some refreshed) new)
                else (set_current r (Some refreshed), FdKeep refreshed)
          | None =>
              let (r, confirmed) := confirm_pending_winner r candidate (fs_elapsed_ms s) in
              if confirmed : bool then (select r new, FdSwitch (fr_current r) new)
              else (set_current r None, FdClear (fr_current r))
          end
      | None =>
          let (r, confirmed) := confirm_pending_winner r candidate (fs_elapsed_ms s) in
          if confirmed : bool then (select r new, FdSwitch None new) else (r, FdNoTarget)
      end
  end.

(** The polls of a session, the latest first. *)
Fixpoint polled (r : FocusResolver) (history : list FocusSnapshot) : FocusResolver :=
  match history with
  | [] => r
  | s :: history => (decide_from_snapshot (polled r history) s).1
  end.

(** ** Runs of polls *)

Definition winner (policy : FocusPolicy) (s : FocusSnapshot) : option FocusGroup :=
  let r := FocusResolver_new policy in limit_group_roots r <$> best_eligible_group r s.

Definition required_polls (policy : FocusPolicy) : Z := Z.max (fpo_required_winner_polls policy) 1.

(** [g] won the last [n] polls: each winner has the identity of the one before. *)
Inductive stable_winner (policy : FocusPolicy) : Z -> list FocusSnapshot -> FocusGroup -> Prop :=
| stable_first s history g : winner policy s = Some g -> stable_winner policy 1 (s :: history) g
| stable_more n s history g g' :
    stable_winner policy n history g' -> winner policy s = Some g ->
    same_focus_identity g' g = true -> stable_winner policy (n + 1) (s :: history) g.

Definition pending_ok (policy : FocusPolicy) (history : list FocusSnapshot) (r : FocusResolver) : Prop :=
  fr_policy r = policy /\
  forall p, fr_pending r = Some p ->
    stable_winner policy (pf_polls p) history (pf_group p) /\ 1 <= pf_polls p < required_polls policy.

Lemma best_eligible_policy r s : best_eligible_group r s = best_eligible_group (FocusResolver_new (fr_policy r)) s.
Proof. done. Qed.

Lemma winner_of_best r s best :
  best_eligible_group r s = Some best -> winner (fr_policy r) s = Some (limit_group_roots r best).
Proof. intros Hb. unfold winner. rewrite best_eligible_policy in Hb. by rewrite Hb. Qed.

Lemma confirm_ok policy history r s g r' b :
  pending_ok policy history r -> required_polls policy <= U32_MAX ->
  winner policy s = Some g ->
  confirm_pending_winner r g (fs_elapsed_ms s) = (r', b) ->
  fr_current r' = fr_current r /\ fr_policy r' = policy /\
  if b then stable_winner policy (required_polls policy) (s :: history) g
  else pending_ok policy (s :: history) r'.
Proof.
  intros [Hpol Hpend] Hmax Hw. unfold confirm_pending_winner. rewrite Hpol.
  fold (required_polls policy). destruct (Z.eqb_spec (required_polls policy) 1) as [H1|H1].
  { intros [= <- <-]. rewrite H1. split_and!; [done|done|]. by constructor. }
  assert (Hreq : 1 < required_polls policy) by (unfold required_polls in *; lia).
  assert (Hfresh : forall r' : FocusResolver, fr_policy r' = policy ->
    pending_ok policy (s :: history) (set_pending r' (Some (first_poll g (fs_elapsed_ms s))))).
  { intros r'' Hr. split; [done|]. intros p [= <-]. cbn. split; [by constructor|lia]. }
  destruct (fr_pending r) as [pending|] eqn:Hp; [|intros [= <- <-]; auto].
  destruct (Hpend pending eq_refl) as [Hst Hpolls].
  destruct (same_focus_identity (pf_group pending) g) eqn:Hid; [|intros [= <- <-]; auto].
  intros [= <- <-]. split_and!; [done|done|]. unfold saturating_add_u32.
  rewrite Z.min_l by lia. destruct (Z.leb_spec (required_polls policy) (pf_polls pending + 1)).
  - replace (required_polls policy) with (pf_polls pending + 1) by lia. by econstructor.
  - split; [done|]. intros p [= <-]. cbn. split; [by econstructor|lia].
Qed.

Lemma pending_ok_none policy history r : fr_policy r = policy -> fr_pending r = None -> pending_ok policy history r.
Proof. intros ? Hp. split; [done|]. rewrite Hp. done. Qed.

(** Why a poll changed the focus. *)
Definition switch_justified (policy : FocusPolicy) (history : list FocusSnapshot) (r : FocusResolver)
    (s : FocusSnapshot) (old : option ResolvedFocus) (new : ResolvedFocus) : Prop :=
  stable_winner policy (required_polls policy) (s :: history) (rf_group new) /\
  new = resolved_focus_from_group (rf_group new) (fs_elapsed_ms s) /\
  forall current g, fr_current r = Some current -> current_group_in r s current = Some g ->
    old = Some (refresh current g (fs_elapsed_ms s)) /\
    same_focus_identity g (rf_group new) = false /\
    SFltb (fg_score (rf_group new)) (f32_add (fg_score g) (fpo_switch_margin policy)) = false /\
    fpo_switch_cooldown_ms policy <= saturating_sub (fs_elapsed_ms s) (rf_selected_at_ms current).

(** What a poll does to the focus. *)
Definition poll_effect (policy : FocusPolicy) (history : list FocusSnapshot) (r : FocusResolver)
    (s : FocusSnapshot) (r' : FocusResolver) (d : FocusDecision) : Prop :=
  match d with
  | FdSwitch old new => fr_current r' = Some new /\ switch_justified policy history r s old new
  | FdKeep focus =>
      fr_current r' = Some focus /\
      exists current g, fr_current r = Some current /\ current_group_in r s current = Some g /\
        focus = refresh current g (fs_elapsed_ms s)
  | FdClear old =>
      fr_current r' = None /\
      exists current, fr_current r = Some current /\ old = Some current /\
        (winner policy s = None \/ current_group_in r s current = None)
  | FdNoTarget => fr_current r' = None /\ fr_current r = None
  end.

Lemma decide_effect policy history r s r' d :
  pending_ok policy history r -> required_polls policy <= U32_MAX ->
  decide_from_snapshot r s = (r', d) ->
  pending_ok policy (s :: history) r' /\ poll_effect policy history r s r' d.
Proof.
  intros Hok Hmax. pose proof Hok as [Hpol _]. unfold decide_from_snapshot.
  destruct (best_eligible_group r s) as [best|] eqn:Hbest.
  2:{ cbn. destruct (fr_current r) as [old|] eqn:Hc; intros [= <- <-];
        (split; [by apply pending_ok_none|]); cbn; rewrite ?Hc; [|done].
      split; [done|]. exists old. split_and!; [done|done|]. left.
      unfold winner. by rewrite <- Hpol, <- best_eligible_policy, Hbest. }
  pose proof (winner_of_best _ _ _ Hbest) as Hw. rewrite Hpol in Hw. cbv zeta.
  set (candidate := limit_group_roots r best) in *.
  assert (Hconf := fun r' b => confirm_ok policy history r s candidate r' b Hok Hmax Hw).
  destruct (fr_current r) as [current|] eqn:Hc.
  2:{ destruct (confirm_pending_winner r candidate _) as [r1 b] eqn:Hcf.
      destruct (Hconf _ _ eq_refl) as (Hc1 & Hp1 & Hb). destruct b; intros [= <- <-].
      - split; [by apply pending_ok_none|]. split; [done|]. split_and!; [done|done|]. by rewrite Hc.
      - split; [done|]. cbn. by rewrite Hc1, Hc. }
  destruct (current_group_in r s current) as [g|] eqn:Hg.
  2:{ destruct (confirm_pending_winner r candidate _) as [r1 b] eqn:Hcf.
      destruct (Hconf _ _ eq_refl) as (Hc1 & Hp1 & Hb). destruct b; intros [= <- <-].
      - split; [by apply pending_ok_none|]. split; [done|]. split_and!; [done|done|].
        intros c g Hcc Hgg. rewrite Hc in Hcc. simplify_eq.
      - split; [split; [done|by apply Hb]|]. cbn. rewrite Hc1, Hc. split; [done|]. by exists current; auto. }
  assert (Hkeep : forall r1, fr_current r1 = Some (refresh current g (fs_elapsed_ms s)) ->
    poll_effect policy history r s r1 (FdKeep (refresh current g (fs_elapsed_ms s)))).
  { intros r1 Hr1. split; [done|]. by exists current, g. }
  destruct (same_focus_identity g candidate) eqn:Hid;
    [intros [= <- <-]; split; [by apply pending_ok_none|by apply Hkeep]|].
  destruct (SFltb _ _) eqn:Hmargin;
    [intros [= <- <-]; split; [by apply pending_ok_none|by apply Hkeep]|].
  destruct (Z.ltb_spec (saturating_sub (fs_elapsed_ms s) (rf_selected_at_ms (refresh current g (fs_elapsed_ms s))))
              (fpo_switch_cooldown_ms (fr_policy r))) as [Hcool|Hcool];
    [intros [= <- <-]; split; [by apply pending_ok_none|by apply Hkeep]|].
  destruct (confirm_pending_winner r candidate _) as [r1 b] eqn:Hcf.
  destruct (Hconf _ _ eq_refl) as (Hc1 & Hp1 & Hb). destruct b; intros [= <- <-].
  - split; [by apply pending_ok_none|]. split; [done|]. split_and!; [done|done|].
    intros c g' Hcc Hgg. rewrite Hc in Hcc. by simplify_eq.
  - split; [split; [done|by apply Hb]|]. by apply Hkeep.
Qed.

Lemma polled_ok policy history :
  required_polls policy <= U32_MAX -> pending_ok policy history (polled (FocusResolver_new policy) history).
Proof.
  intros Hmax. induction history as [|s history IH]; [by apply pending_ok_none|].
  cbn. destruct (decide_from_snapshot _ s) as [r' d] eqn:Hd.
  by destruct (decide_effect _ _ _ _ _ _ IH Hmax Hd).
Qed.

(** The focus was selected by a switch, and every poll since has kept it. *)
Inductive focused_since (r0 : FocusResolver) (at_ms : Z) : list FocusSnapshot -> Prop :=
| focused_by s history old new :
    (decide_from_snapshot (polled r0 history) s).2 = FdSwitch old new -> fs_elapsed_ms s = at_ms ->
    focused_since r0 at_ms (s :: history)
| focused_kept s history focus :
    focused_since r0 at_ms history ->
    (decide_from_snapshot (polled r0 history) s).2 = FdKeep focus ->
    focused_since r0 at_ms (s :: history).

Lemma current_focused_since policy history current :
  required_polls policy <= U32_MAX ->
  fr_current (polled (FocusResolver_new policy) history) = Some current ->
  focused_since (FocusResolver_new policy) (rf_selected_at_ms current) history.
Proof.
  intros Hmax. revert current. induction history as [|s history IH]; intros current; [done|].
  cbn. destruct (decide_from_snapshot _ s) as [r' d] eqn:Hd. cbn. intros Hc.
  destruct (decide_effect _ _ _ _ _ _ (polled_ok policy history Hmax) Hmax Hd) as [_ Heff].
  destruct d as [focus|old new|old|]; cbn in Heff.
  - destruct Heff as (Hc' & c & g & Hcc & Hg & ->). rewrite Hc in Hc'. simplify_eq. cbn.
    eapply focused_kept; [by apply IH|by rewrite Hd].
  - destruct Heff as (Hc' & _ & Hnew & _). rewrite Hc in Hc'. simplify_eq. rewrite Hnew. cbn.
    eapply focused_by; [by rewrite Hd|done].
  - destruct Heff. congruence.
  - destruct Heff. congruence.
Qed.

(** ** Hysteresis *)

(** C14. Every change of the focus is justified.  A focus can hold when the snapshot has
    its group, with live roots and a score of at least 0.45 ([current_group_in]).
    - A switch goes to a group that was the best eligible one in the required number of
      consecutive polls, and that group becomes the focus.  When the old focus can still
      hold, the new one is another group, its score is not below the old score plus the
      margin, and the cooldown has passed since the old focus was selected, in a poll
      after which every poll kept it.
    - A focus is cleared only when no group is eligible or when it can no longer hold.
    - A focus that is kept can hold, and keeps the time of its selection.
    - Otherwise there was no focus and there is none. *)
Theorem focus_switch_justified policy history s r' d :
  required_polls policy <= U32_MAX ->
  decide_from_snapshot (polled (FocusResolver_new policy) history) s = (r', d) ->
  let r := polled (FocusResolver_new policy) history in
  match d with
  | FdSwitch old new =>
      fr_current r' = Some new /\
      rf_selected_at_ms new = fs_elapsed_ms s /\
      stable_winner policy (required_polls policy) (s :: history) (rf_group new) /\
      forall current g,
        fr_current r = Some current -> current_group_in r s current = Some g ->
        same_focus_identity g (rf_group new) = false /\
        SFltb (fg_score (rf_group new)) (f32_add (fg_score g) (fpo_switch_margin policy)) = false /\
        exists at_ms, focused_since (FocusResolver_new policy) at_ms history /\
          fpo_switch_cooldown_ms policy <= saturating_sub (fs_elapsed_ms s) at_ms
  | FdClear old =>
      fr_current r' = None /\
      exists current, fr_current r = Some current /\ old = Some current /\
        (winner policy s = None \/ current_group_in r s current = None)
  | FdKeep focus =>
      fr_current r' = Some focus /\
      exists current g, fr_current r = Some current /\ current_group_in r s current = Some g /\
        rf_group focus = g /\ rf_selected_at_ms focus = rf_selected_at_ms current
  | FdNoTarget => fr_current r' = None /\ fr_current r = None
  end.
Proof.
  intros Hmax Hd r. subst r.
  destruct (decide_effect _ _ _ _ _ _ (polled_ok policy history Hmax) Hmax Hd) as [_ Heff].
  destruct d as [focus|old new|old|]; cbn in Heff; [| |done|done].
  - destruct Heff as (Hc & current & g & Hcur & Hg & ->). split; [done|]. by exists current, g.
  - destruct Heff as (Hc & Hst & Hnew & Hlive).
    split_and!; [done|by rewrite Hnew|done|]. intros current g Hcur Hg.
    destruct (Hlive current g Hcur Hg) as (_ & Hid & Hmargin & Hcool). split_and!; [done|done|].
    exists (rf_selected_at_ms current). split; [by apply current_focused_since|done].
Qed.

Lemma stable_winner_pos policy n history g : stable_winner policy n history g -> 1 <= n.
Proof. induction 1; lia. Qed.

Lemma decide_unfocused r s g :
  fr_current r = None -> winner (fr_policy r) s = Some g ->
  decide_from_snapshot r s =
    let (r', confirmed) := confirm_pending_winner r g (fs_elapsed_ms s) in
    let new := resolved_focus_from_group g (fs_elapsed_ms s) in
    if confirmed : bool then (select r' new, FdSwitch None new) else (r', FdNoTarget).
Proof.
  intros Hc Hw. unfold winner in Hw. unfold decide_from_snapshot. rewrite best_eligible_policy.
  destruct (best_eligible_group _ s) as [best|]; [|done]. cbn in Hw. simplify_eq. by rewrite Hc.
Qed.

(** The pending winner counts the polls of a run that started without a focus. *)
Definition counts_polls (policy : FocusPolicy) (r : FocusResolver) (g : FocusGroup) (n : Z) : Prop :=
  fr_policy r = policy /\ fr_current r = None /\
  exists p, fr_pending r = Some p /\ pf_group p = g /\ pf_polls p = n.

Lemma stable_winner_pending policy r history n g :
  fr_policy r = policy -> fr_current r = None -> fr_pending r = None ->
  required_polls policy <= U32_MAX -> n < required_polls policy ->
  stable_winner policy n history g -> Z.of_nat (length history) = n ->
  counts_polls policy (polled r history) g n.
Proof.
  intros Hpol Hcur Hpend Hmax Hn Hst. revert Hn.
  induction Hst as [s history g Hw|n s history g g' Hst IH Hw Hid];
    intros Hn Hlen; cbn [length] in Hlen; cbn [polled].
  - destruct history; [|cbn in Hlen; lia]. cbn [polled]. rewrite (decide_unfocused _ _ g) by congruence.
    unfold confirm_pending_winner. rewrite Hpend, Hpol. fold (required_polls policy).
    rewrite (proj2 (Z.eqb_neq _ _)) by lia. split_and!; [done|done|]. by eexists.
  - pose proof (stable_winner_pos _ _ _ _ Hst).
    destruct IH as (Hp & Hc & p & Hpp & Hg & Hpn); [lia|lia|].
    rewrite (decide_unfocused _ _ g) by congruence.
    unfold confirm_pending_winner. rewrite Hp, Hpp, Hg, Hid, Hpn. fold (required_polls policy).
    unfold saturating_add_u32. rewrite (proj2 (Z.eqb_neq _ _)), Z.min_l by lia. cbv zeta.
    rewrite (proj2 (Z.leb_gt _ _)) by lia. split_and!; [done|done|]. by eexists.
Qed.

(** C31. A stable winner gets the focus: with no focus and nothing pending, when one
    group wins the required number of polls in a row, the last of them selects it. *)
Theorem stable_winner_gets_focus r history s g :
  fr_current r = None -> fr_pending r = None -> required_polls (fr_policy r) <= U32_MAX ->
  stable_winner (fr_policy r) (required_polls (fr_policy r)) (s :: history) g ->
  Z.of_nat (length (s :: history)) = required_polls (fr_policy r) ->
  exists r', decide_from_snapshot (polled r history) s =
               (r', FdSwitch None (resolved_focus_from_group g (fs_elapsed_ms s))) /\
             fr_current r' = Some (resolved_focus_from_group g (fs_elapsed_ms s)).
Proof.
  intros Hc Hp Hmax Hst Hlen. cbn [length] in Hlen.
  remember (required_polls (fr_policy r)) as req eqn:Hreq. remember (s :: history) as h eqn:Hh.
  destruct Hst as [s' history' g Hw|n s' history' g g' Hst Hw Hid]; simplify_eq.
  - destruct history; [|cbn in Hlen; lia]. cbn [polled]. rewrite (decide_unfocused _ _ g) by done.
    unfold confirm_pending_winner. fold (required_polls (fr_policy r)).
    rewrite (proj2 (Z.eqb_eq _ _)) by lia. by eexists.
  - pose proof (stable_winner_pos _ _ _ _ Hst).
    destruct (stable_winner_pending (fr_policy r) r history n g') as (Hp' & Hc' & p & Hpp & Hg & Hpn);
      [done..|lia|lia|done|lia|].
    rewrite (decide_unfocused _ _ g) by congruence.
    unfold confirm_pending_winner. rewrite Hp', Hpp, Hg, Hid, Hpn. fold (required_polls (fr_policy r)).
    unfold saturating_add_u32. rewrite (proj2 (Z.eqb_neq _ _)), Z.min_l by lia. cbv zeta.
    rewrite (proj2 (Z.leb_le _ _)) by lia. by eexists.
Qed.

(** ** A focus that scores below the keeping threshold *)

Section LowWinner.
  Context (policy : FocusPolicy) (W : FocusGroup -> Prop).
  Hypothesis same_identity : forall g h, W g -> W h -> same_focus_identity g h = true.
  Hypothesis two_polls : required_polls policy = 2.

(** The winner of the poll is one of the groups [W], and no group of the snapshot
    reaches the score a current focus needs to be kept. *)
Definition low_winner (s : FocusSnapshot) : Prop :=
  (exists g, winner policy s = Some g /\ W g) /\
  forall g, g ∈ fs_groups s -> f32_ge (fg_score g) (f32_lit 45 100) = false.

Lemma low_winner_not_held s r current : low_winner s -> current_group_in r s current = None.
Proof.
  intros [_ Hlow]. unfold current_group_in. destruct (find _ (fs_groups s)) as [g|] eqn:Hf; [|done]. cbn.
  apply find_some in Hf as [Hin _]. rewrite (Hlow g) by by apply list_elem_of_In. by rewrite andb_false_r.
Qed.

Lemma low_winner_poll r s :
  fr_policy r = policy -> low_winner s ->
  (fr_pending r = None ->
   exists r' p, decide_from_snapshot r s =
       (r', match fr_current r with Some c => FdClear (Some c) | None => FdNoTarget end) /\
     fr_policy r' = policy /\ fr_current r' = None /\ fr_pending r' = Some p /\ pf_polls p = 1 /\ W (pf_group p)) /\
  (forall p, fr_current r = None -> fr_pending r = Some p -> pf_polls p = 1 -> W (pf_group p) ->
   exists r' new, decide_from_snapshot r s = (r', FdSwitch None new) /\
     fr_policy r' = policy /\ fr_pending r' = None /\ fr_current r' = Some new /\ W (rf_group new)).
Proof.
  intros Hpol Hlow. pose proof Hlow as [(g & Hw & Hg) _].
  assert (Hconf : confirm_pending_winner r g (fs_elapsed_ms s) =
    match fr_pending r with
    | Some p => if same_focus_identity (pf_group p) g
                then (set_pending r (Some {| pf_group := g; pf_first_seen_ms := pf_first_seen_ms p;
                                             pf_polls := saturating_add_u32 (pf_polls p) 1 |}),
                      2 <=? saturating_add_u32 (pf_polls p) 1)
                else (set_pending r (Some (first_poll g (fs_elapsed_ms s))), false)
    | None => (set_pending r (Some (first_poll g (fs_elapsed_ms s))), false)
    end).
  { unfold confirm_pending_winner. rewrite Hpol. fold (required_polls policy). by rewrite two_polls. }
  split.
  - intros Hp. rewrite Hp in Hconf. destruct (fr_current r) as [current|] eqn:Hc.
    + unfold decide_from_snapshot. unfold winner in Hw. rewrite best_eligible_policy, Hpol.
      destruct (best_eligible_group _ s) as [best|]; [|done]. cbn in Hw. simplify_eq. rewrite Hc.
      rewrite (low_winner_not_held _ r current Hlow). cbv zeta.
      replace (limit_group_roots r best) with (limit_group_roots (FocusResolver_new policy) best)
        by (unfold limit_group_roots; cbn; by rewrite Hpol).
      rewrite Hconf. cbn. rewrite Hc. by eexists _, _.
    + rewrite (decide_unfocused r s g) by congruence. rewrite Hconf. by eexists _, _.
  - intros p Hc Hp Hpolls HW. rewrite Hp in Hconf.
    rewrite (same_identity (pf_group p) g), Hpolls in Hconf by done.
    rewrite (decide_unfocused r s g) by congruence. rewrite Hconf. by eexists _, _.
Qed.

(** What the resolver holds after polls that all have such a winner. *)
Definition flapping (history : list FocusSnapshot) (r : FocusResolver) : Prop :=
  fr_policy r = policy /\
  if Nat.even (length history)
  then fr_pending r = None /\
       match history with [] => fr_current r = None | _ => exists c, fr_current r = Some c /\ W (rf_group c) end
  else fr_current r = None /\ exists p, fr_pending r = Some p /\ pf_polls p = 1 /\ W (pf_group p).

Lemma low_winners_flapping history :
  Forall low_winner history -> flapping history (polled (FocusResolver_new policy) history).
Proof.
  induction 1 as [|t history Ht Hall [Hpol IH]]; [done|]. split.
  all: cbn [polled length]; rewrite ?Nat.even_succ, <- ?Nat.negb_even.
  all: destruct (low_winner_poll _ t Hpol Ht) as [Heven Hodd].
  all: destruct (Nat.even (length history)); cbn [negb].
  all: try (destruct IH as [Hp _]; destruct (Heven Hp) as (r' & p & -> & ? & ? & ? & ? & ?); naive_solver).
  all: destruct IH as (Hc & p & Hp & Hn & HW); destruct (Hodd p Hc Hp Hn HW) as (r' & new & -> & ?); naive_solver.
Qed.

(** The decisions of polls that all have such a winner, two polls being required:
    it becomes the focus in every second poll and loses it in the next one. *)
Lemma low_winner_flaps history s :
  Forall low_winner (s :: history) ->
  let d := (decide_from_snapshot (polled (FocusResolver_new policy) history) s).2 in
  if Nat.even (length history)
  then match history with [] => d = FdNoTarget | _ => exists old, d = FdClear (Some old) /\ W (rf_group old) end
  else exists new, d = FdSwitch None new /\ W (rf_group new).
Proof.
  intros [Hs Hall]%Forall_cons. destruct (low_winners_flapping history Hall) as [Hpol Hst].
  destruct (low_winner_poll _ s Hpol Hs) as [Heven Hodd]. cbv zeta.
  destruct (Nat.even (length history)).
  - destruct Hst as [Hp Hst]. destruct (Heven Hp) as (r' & p & -> & _). cbn.
    destruct history; [by rewrite Hst|]. destruct Hst as (c & -> & HW). by exists c.
  - destruct Hst as (Hc & p & Hp & Hn & HW).
    destruct (Hodd p Hc Hp Hn HW) as (r' & new & -> & ? & ? & ? & ?). by exists new.
Qed.

End LowWinner.
