(* ===== verification/FocusForeground.v ===== *)
(** * FocusForeground: the foreground window and the focus groups

    [focus/foreground_match.rs] and [focus/foreground_scoring.rs]: whether the
    foreground process may direct the focus, the fallback group for a foreground
    process no group contains, and the rescoring of the groups.  The number inside
    the reason of a rescored group is a text and left out. *)

From S2P Require Import Prelude PolicyModel PolicyEval Allowlist Procfs Intervals Score Controller ContextKey FocusModel ProcessTree FocusScore FocusGroups FocusResolver.
From stdpp Require Import sorting relations.
From Stdlib Require Import SpecFloat.
Open Scope Z_scope.

(** [stutter-config/src/types.rs]. *)
Inductive FocusSource := FsHeuristic | FsForeground | FsHybrid.

#[export] Instance FocusSource_eq_dec : EqDecision FocusSource.
Proof. solve_decision. Defined.

(** ** [foreground_match.rs] *)

Definition process_name_looks_like_xwayland (p : FocusProcess) : bool :=
  let comm := to_ascii_lowercase (fp_comm p) in
  bool_decide (comm ∈ ["xwayland"; "xwayland.bin"]%string)
  || contains (to_ascii_lowercase (fp_cmdline p)) "xwayland".

Definition foreground_process_is_safe_auto_target (p : FocusProcess) : bool :=
  negb (fp_pid p =? 1) && negb (process_name_looks_like_systemd p) && negb (is_class Compositor p)
  && negb (is_critical_realtime_process p) && negb (process_name_looks_like_xwayland p).

Definition fallback_reason : string := "foreground window PID selected but no known focus group matched".

Definition is_foreground_fallback_group (g : FocusGroup) : bool :=
  bool_decide (fallback_reason ∈ fg_reasons g).

Definition zero_breakdown : FocusScoreBreakdown :=
  {| cpu_score := f32_zero; io_score := f32_zero; interactivity_score := f32_zero;
     class_priority_score := f32_zero; stability_score := f32_zero; foreground_score := f32_zero;
     penalty := f32_zero |}.

Definition fallback_group (pid : Z) (p : FocusProcess) (member_pids : list Z) (decision_confidence : f32)
    : FocusGroup :=
  let confidence := clamp_score (f32_mul decision_confidence (f32_lit 75 100)) in
  {| fg_kind := FgUnknown; fg_root_pids := [pid]; fg_member_pids := member_pids;
     fg_primary_pid := Some pid;
     fg_display_name :=
       (if trim_is_empty (fp_comm p) then "foreground:" +:+ ContextKey.decimal pid
        else "foreground:" +:+ fp_comm p)%string;
     fg_score := confidence; fg_score_breakdown := zero_breakdown; fg_confidence := confidence;
     fg_priority_band := cl_priority_band (fp_classification p);
     fg_reasons :=
       [fallback_reason; "conservative foreground fallback root pid=" +:+ ContextKey.decimal pid]%string |}.

Definition with_groups (s : FocusSnapshot) (groups : list FocusGroup) : FocusSnapshot :=
  {| fs_elapsed_ms := fs_elapsed_ms s; fs_foreground := fs_foreground s; fs_processes := fs_processes s;
     fs_children_by_parent := fs_children_by_parent s; fs_groups := groups |}.

Definition add_foreground_fallback_group_if_needed (s : FocusSnapshot) : option FocusSnapshot :=
  match fs_foreground s with
  | None => Some s
  | Some foreground =>
      match fw_target_pid foreground with
      | None => Some s
      | Some pid =>
          if existsb (fun g => focus_group_contains_pid g pid) (fs_groups s) then Some s
          else
            match fs_processes s !! pid with
            | None => Some s
            | Some p =>
                if foreground_process_is_safe_auto_target p
                then
                  member_pids ← descendants_of_process s pid;
                  Some (with_groups s
                          (fs_groups s ++ [fallback_group pid p member_pids (fw_confidence foreground)]))
                else Some s
            end
      end
  end.

(** ** [foreground_scoring.rs] *)

Inductive ForegroundFocusReadiness :=
| FrReady (pid : Z)
| FrNoForeground
| FrUnavailableStatus
| FrStaleSnapshot
| FrMissingPid
| FrMissingProcess (pid : Z)
| FrUnsafeProcess (pid : Z) (reason : string).

Definition foreground_focus_readiness (s : FocusSnapshot) : ForegroundFocusReadiness :=
  match fs_foreground s with
  | None => FrNoForeground
  | Some foreground =>
      if bool_decide (fw_status foreground <> FpAvailable) then FrUnavailableStatus
      else if bool_decide (is_Some (fw_stale_ms foreground)) then FrStaleSnapshot
      else if SFleb (fw_confidence foreground) f32_zero then FrUnavailableStatus
      else
        match fw_target_pid foreground with
        | None => FrMissingPid
        | Some pid =>
            match fs_processes s !! pid with
            | None => FrMissingProcess pid
            | Some p =>
                if fp_pid p =? 1 then FrUnsafeProcess pid "pid one"
                else if process_name_looks_like_systemd p then FrUnsafeProcess pid "systemd"
                else if is_class Compositor p then FrUnsafeProcess pid "compositor"
                else if is_critical_realtime_process p then FrUnsafeProcess pid "critical realtime"
                else if process_name_looks_like_xwayland p then FrUnsafeProcess pid "xwayland"
                else FrReady pid
            end
        end
  end.

Definition foreground_aware_total_score (b : FocusScoreBreakdown) : f32 :=
  f32_sub
    (f32_add
       (f32_add
          (f32_add
             (f32_add
                (f32_add (f32_mul (cpu_score b) (f32_lit 25 100)) (f32_mul (io_score b) (f32_lit 10 100)))
                (f32_mul (interactivity_score b) (f32_lit 15 100)))
             (f32_mul (class_priority_score b) (f32_lit 20 100)))
          (f32_mul (stability_score b) (f32_lit 10 100)))
       (f32_mul (foreground_score b) (f32_lit 35 100)))
    (penalty b).

(** [member_pids.iter().any(|member| same_process_family(snapshot, member, pid))]. *)
Fixpoint any_in_family (s : FocusSnapshot) (member_pids : list Z) (pid : Z) : option bool :=
  match member_pids with
  | [] => Some false
  | member :: rest =>
      related ← same_process_family s member pid;
      if related : bool then Some true else any_in_family s rest pid
  end.

Definition foreground_score_for_group (g : FocusGroup) (s : FocusSnapshot) : option f32 :=
  match fs_foreground s with
  | None => Some f32_zero
  | Some fg =>
      match fw_target_pid fg with
      | None => Some f32_zero
      | Some pid =>
          if decide (pid ∈ fg_member_pids g) then Some (f32_mul f32_one (fw_confidence fg))
          else if decide (pid ∈ fg_root_pids g) then Some (f32_mul (f32_lit 95 100) (fw_confidence fg))
          else
            related ← any_in_family s (fg_member_pids g) pid;
            Some (if related : bool then f32_mul (f32_lit 75 100) (fw_confidence fg) else f32_zero)
      end
  end.

Definition rescored (g : FocusGroup) (score confidence : f32) (b : FocusScoreBreakdown) (reasons : list string)
    : FocusGroup :=
  {| fg_kind := fg_kind g; fg_root_pids := fg_root_pids g; fg_member_pids := fg_member_pids g;
     fg_primary_pid := fg_primary_pid g; fg_display_name := fg_display_name g; fg_score := score;
     fg_score_breakdown := b; fg_confidence := confidence; fg_priority_band := fg_priority_band g;
     fg_reasons := reasons |}.

Definition with_foreground_score (b : FocusScoreBreakdown) (x : f32) : FocusScoreBreakdown :=
  {| cpu_score := cpu_score b; io_score := io_score b; interactivity_score := interactivity_score b;
     class_priority_score := class_priority_score b; stability_score := stability_score b;
     foreground_score := x; penalty := penalty b |}.

Definition rescore_group (s : FocusSnapshot) (source_mode : FocusSource) (g : FocusGroup) : option FocusGroup :=
  score ← foreground_score_for_group g s;
  let b := with_foreground_score (fg_score_breakdown g) score in
  Some
    (if SFltb f32_zero score
     then
       rescored g (foreground_aware_total_score b)
         (if SFltb (fg_confidence g) score && negb (is_foreground_fallback_group g) then score
          else fg_confidence g)
         b (fg_reasons g ++ ["foreground-window score"%string])
     else if decide (source_mode = FsHybrid)
     then rescored g (foreground_aware_total_score b) (fg_confidence g) b (fg_reasons g)
     else rescored g (fg_score g) (fg_confidence g) b (fg_reasons g)).

Fixpoint rescore_groups (s : FocusSnapshot) (source_mode : FocusSource) (groups : list FocusGroup)
    : option (list FocusGroup) :=
  match groups with
  | [] => Some []
  | g :: groups =>
      g ← rescore_group s source_mode g;
      rest ← rescore_groups s source_mode groups;
      Some (g :: rest)
  end.

Definition apply_foreground_source_mode_to_snapshot (s : FocusSnapshot) (source_mode : FocusSource)
    : option FocusSnapshot :=
  if decide (source_mode = FsHeuristic) then Some s
  else
    match foreground_focus_readiness s with
    | FrReady _ =>
        s ← add_foreground_fallback_group_if_needed s;
        groups ← rescore_groups s source_mode (fs_groups s);
        let groups :=
          if decide (source_mode = FsForeground)
          then List.filter (fun g => SFltb f32_zero (foreground_score (fg_score_breakdown g))) groups
          else groups in
        Some (with_groups s (stable_sort group_first groups))
    | _ => Some (if decide (source_mode = FsForeground) then with_groups s [] else s)
    end.

(** ** The foreground directs the focus only to safe processes *)

#[local] Arguments is_process_ancestor : simpl never.
#[local] Arguments same_process_family : simpl never.
#[local] Arguments descendants_of_process : simpl never.

Lemma same_process_family_some s l r : exists b, same_process_family s l r = Some b.
Proof.
  unfold same_process_family. destruct (l =? r); [by eexists|].
  destruct (is_process_ancestor_exact s l r) as (a & -> & _). cbn. destruct a; [by eexists|].
  destruct (is_process_ancestor_exact s r l) as (b & -> & _). cbn. destruct b; by eexists.
Qed.

Lemma any_in_family_exact s members pid :
  exists b, any_in_family s members pid = Some b /\
    (b = true -> exists m, m ∈ members /\ same_process_family s m pid = Some true).
Proof.
  induction members as [|m members (b & IH & Hb)]; cbn; [by exists false|].
  destruct (same_process_family_some s m pid) as [[|] Hm]; rewrite Hm; cbn.
  - exists true. split; [done|]. intros _. exists m. split; [by left|done].
  - exists b. split; [done|]. intros H. destruct (Hb H) as (m' & ? & ?). exists m'. split; [by right|done].
Qed.

(** The group holds the foreground process or a relative of it. *)
Definition related_to (s : FocusSnapshot) (pid : Z) (g : FocusGroup) : Prop :=
  pid ∈ fg_member_pids g \/ pid ∈ fg_root_pids g \/
  exists m, m ∈ fg_member_pids g /\ same_process_family s m pid = Some true.

Lemma foreground_score_related s g :
  exists x, foreground_score_for_group g s = Some x /\
    (SFltb f32_zero x = true ->
     exists fg pid, fs_foreground s = Some fg /\ fw_target_pid fg = Some pid /\ related_to s pid g).
Proof.
  unfold foreground_score_for_group.
  destruct (fs_foreground s) as [fg|]; [|by exists f32_zero].
  destruct (fw_target_pid fg) as [pid|] eqn:Hpid; [|by exists f32_zero].
  case_decide as Hm; [eexists; split; [done|]; intros _; exists fg, pid; split_and!; [done..|by left]|].
  case_decide as Hr; [eexists; split; [done|]; intros _; exists fg, pid; split_and!; [done..|by right; left]|].
  destruct (any_in_family_exact s (fg_member_pids g) pid) as (b & -> & Hb). cbn.
  eexists. split; [done|]. destruct b; [|done]. intros _. exists fg, pid.
  split_and!; [done..|right; right; by apply Hb].
Qed.

Lemma rescore_groups_exact s mode groups :
  exists gs, rescore_groups s mode groups = Some gs /\
    forall g, g ∈ gs -> exists g0, g0 ∈ groups /\ rescore_group s mode g0 = Some g.
Proof.
  induction groups as [|g groups (gs & IH & Hgs)]; cbn; [exists []; split; [done|set_solver]|].
  assert (Hg : exists g', rescore_group s mode g = Some g').
  { unfold rescore_group. destruct (foreground_score_related s g) as (x & -> & _). by eexists. }
  destruct Hg as [g' Hg']. rewrite Hg'. cbn. rewrite IH. eexists. split; [done|].
  intros h [->|Hh]%elem_of_cons; [exists g; split; [by left|done]|].
  destruct (Hgs h Hh) as (g0 & ? & ?). exists g0. split; [by right|done].
Qed.

Lemma rescored_positive s mode g g' :
  rescore_group s mode g = Some g' -> SFltb f32_zero (foreground_score (fg_score_breakdown g')) = true ->
  exists fg pid, fs_foreground s = Some fg /\ fw_target_pid fg = Some pid /\ related_to s pid g'.
Proof.
  unfold rescore_group. destruct (foreground_score_related s g) as (x & -> & Hx). cbn. intros [= <-] Hpos.
  destruct (SFltb f32_zero x) eqn:Hlt.
  - destruct (Hx eq_refl) as (fg & pid & Hf & Hp & Hrel). by exists fg, pid.
  - case_decide; cbn in Hpos; congruence.
Qed.

Lemma ready_is_safe s pid :
  foreground_focus_readiness s = FrReady pid ->
  exists fg p, fs_foreground s = Some fg /\ fw_status fg = FpAvailable /\ fw_stale_ms fg = None /\
    fw_target_pid fg = Some pid /\ fs_processes s !! pid = Some p /\
    foreground_process_is_safe_auto_target p = true.
Proof.
  unfold foreground_focus_readiness. destruct (fs_foreground s) as [fg|]; [|done].
  case_bool_decide as Hst; [done|]. case_bool_decide as Hstale; [done|].
  destruct (SFleb _ _); [done|]. destruct (fw_target_pid fg) as [q|] eqn:Hq; [|done].
  destruct (fs_processes s !! q) as [p|] eqn:Hp; [|done].
  destruct (fp_pid p =? 1) eqn:H1; [done|]. destruct (process_name_looks_like_systemd p) eqn:H2; [done|].
  destruct (is_class Compositor p) eqn:H3; [done|]. destruct (is_critical_realtime_process p) eqn:H4; [done|].
  destruct (process_name_looks_like_xwayland p) eqn:H5; [done|]. intros [= <-].
  exists fg, p. split_and!; [done|done|by apply eq_None_not_Some|done|done|].
  unfold foreground_process_is_safe_auto_target. by rewrite H1, H2, H3, H4, H5.
Qed.

Lemma add_fallback_some s :
  exists s', add_foreground_fallback_group_if_needed s = Some s' /\
    s' = with_groups s (fs_groups s').
Proof.
  assert (Hs : s = with_groups s (fs_groups s)) by by destruct s.
  unfold add_foreground_fallback_group_if_needed.
  destruct (fs_foreground s) as [fg|]; [|by exists s]. destruct (fw_target_pid fg) as [pid|]; [|by exists s].
  destruct (existsb _ _); [by exists s|]. destruct (fs_processes s !! pid) as [p|]; [|by exists s].
  destruct (foreground_process_is_safe_auto_target p); [|by exists s].
  destruct (descendants_of_process_exact s pid) as (l & -> & _). cbn. by eexists.
Qed.

Lemma same_process_family_groups s gs l r :
  same_process_family (with_groups s gs) l r = same_process_family s l r.
Proof. done. Qed.

(** What applying the foreground promises. *)
Definition foreground_applied (s : FocusSnapshot) (source_mode : FocusSource) (s' : FocusSnapshot) : Prop :=
  s' = with_groups s (fs_groups s') /\
  (source_mode = FsForeground ->
   forall g, g ∈ fs_groups s' ->
     exists fg pid p, fs_foreground s = Some fg /\ fw_target_pid fg = Some pid /\
       fw_status fg = FpAvailable /\ fw_stale_ms fg = None /\
       fs_processes s !! pid = Some p /\ foreground_process_is_safe_auto_target p = true /\
       related_to s pid g) /\
  (source_mode = FsHeuristic \/
   source_mode = FsHybrid /\ (forall pid, foreground_focus_readiness s <> FrReady pid) -> s' = s).

Lemma not_ready_applied s source_mode :
  source_mode <> FsHeuristic ->
  foreground_applied s source_mode (if decide (source_mode = FsForeground) then with_groups s [] else s).
Proof.
  intros Hmode. unfold foreground_applied. case_decide as Hf; cbn.
  - split_and!; [done|set_solver|]. intros [?|[? ?]]; congruence.
  - split_and!; [by destruct s|done|done].
Qed.

(** C24. Applying the foreground to a snapshot always returns and touches nothing but
    the groups.  In foreground mode every group left holds the foreground process or
    a relative of it, and that process is alive, current and safe to direct the
    focus: not pid 1, systemd, a compositor, a critical real-time process or
    Xwayland.  When the foreground is missing, stale or unsafe, foreground mode
    leaves no group and the other modes leave the snapshot as it is. *)
Theorem foreground_mode_safe s source_mode :
  exists s', apply_foreground_source_mode_to_snapshot s source_mode = Some s' /\
    foreground_applied s source_mode s'.
Proof.
  unfold apply_foreground_source_mode_to_snapshot.
  destruct (decide (source_mode = FsHeuristic)) as [->|Hmode].
  { exists s. split; [done|]. split_and!; [by destruct s|done|done]. }
  destruct (foreground_focus_readiness s) as [pid| | | | | |] eqn:Hready.
  2-7: eexists; split; [done|by apply not_ready_applied].
  destruct (add_fallback_some s) as (s1 & -> & Hs1). cbn.
  destruct (rescore_groups_exact s1 source_mode (fs_groups s1)) as (gs & -> & Hgs). cbn.
  eexists. split; [done|]. rewrite Hs1. split; [done|]. split.
  - intros ->. cbn. intros g Hg. rewrite stable_sort_Permutation in Hg.
    apply list_filter_elem in Hg as [Hg Hpos].
    destruct (Hgs g Hg) as (g0 & _ & Hg0). destruct (rescored_positive _ _ _ _ Hg0 Hpos) as (fg & q & Hfg & Hq & Hrel).
    destruct (ready_is_safe s pid Hready) as (fg' & p & Hfg' & Hst & Hstale & Hq' & Hp & Hsafe).
    rewrite Hs1 in Hfg, Hrel. cbn in Hfg. simplify_eq. eexists _, _, p. by split_and!.
  - intros [?|[_ Hnot]]; [done|]. by destruct (Hnot pid).
Qed.

(** ** The foreground fallback cannot hold the focus *)

(** [foreground/model.rs]: [CONFIDENCE_HIGH]; 1 is the most a provider can report. *)
Definition CONFIDENCE_HIGH : f32 := f32_lit 95 100.

(** A ready foreground process that no group has to do with. *)
Definition lone_foreground (pid : Z) (s : FocusSnapshot) : Prop :=
  foreground_focus_readiness s = FrReady pid /\
  (forall g, g ∈ fs_groups s -> ~ related_to s pid g /\ focus_group_contains_pid g pid = false) /\
  exists fg, fs_foreground s = Some fg /\ fw_confidence fg ∈ [CONFIDENCE_HIGH; f32_one].

Lemma unrelated_not_rescored s fg pid g g' :
  fs_foreground s = Some fg -> fw_target_pid fg = Some pid -> ~ related_to s pid g ->
  rescore_group s FsForeground g = Some g' ->
  SFltb f32_zero (foreground_score (fg_score_breakdown g')) = false.
Proof.
  intros Hfg Hpid Hun. unfold rescore_group.
  destruct (foreground_score_related s g) as (x & -> & Hx). cbn. intros [= <-].
  destruct (SFltb f32_zero x) eqn:Hlt; [|done].
  destruct (Hx eq_refl) as (fg' & pid' & Hfg' & Hpid' & Hrel). by simplify_eq.
Qed.

(** What becomes of the fallback group: its score is at most 0.35 of the confidence. *)
Definition held_fallback (pid : Z) (p : FocusProcess) (member_pids : list Z) (confidence score : f32) : FocusGroup :=
  let g := fallback_group pid p member_pids confidence in
  let b := with_foreground_score zero_breakdown score in
  rescored g (foreground_aware_total_score b) (fg_confidence g) b (fg_reasons g ++ ["foreground-window score"%string]).

Lemma fallback_rescored s fg pid p members :
  fs_foreground s = Some fg -> fw_target_pid fg = Some pid -> fw_confidence fg ∈ [CONFIDENCE_HIGH; f32_one] ->
  exists score, score ∈ [f32_mul f32_one (fw_confidence fg); f32_mul (f32_lit 95 100) (fw_confidence fg)] /\
    rescore_group s FsForeground (fallback_group pid p members (fw_confidence fg)) =
      Some (held_fallback pid p members (fw_confidence fg) score) /\
    SFltb f32_zero score = true.
Proof.
  intros Hfg Hpid Hc. unfold rescore_group, foreground_score_for_group. rewrite Hfg, Hpid.
  assert (Hfb : is_foreground_fallback_group (fallback_group pid p members (fw_confidence fg)) = true).
  { apply bool_decide_eq_true. by left. }
  destruct (decide (pid ∈ fg_member_pids _)) as [Hm|Hm].
  - exists (f32_mul f32_one (fw_confidence fg)). split; [by left|]. cbn [mbind option_bind].
    rewrite Hfb, andb_false_r. rewrite list_elem_of_In in Hc.
    destruct Hc as [<-|[<-|[]]]; split; vm_compute; reflexivity.
  - rewrite decide_True by (cbn; by left). exists (f32_mul (f32_lit 95 100) (fw_confidence fg)).
    split; [by right; left|]. cbn [mbind option_bind].
    rewrite Hfb, andb_false_r. rewrite list_elem_of_In in Hc.
    destruct Hc as [<-|[<-|[]]]; split; vm_compute; reflexivity.
Qed.

Lemma only_fallback_left s fg pid groups g g' gs :
  fs_foreground s = Some fg -> fw_target_pid fg = Some pid ->
  (forall h, h ∈ groups -> ~ related_to s pid h) ->
  rescore_group s FsForeground g = Some g' ->
  SFltb f32_zero (foreground_score (fg_score_breakdown g')) = true ->
  rescore_groups s FsForeground (groups ++ [g]) = Some gs ->
  List.filter (fun h => SFltb f32_zero (foreground_score (fg_score_breakdown h))) gs = [g'].
Proof.
  intros Hfg Hpid Hun Hg Hpos. revert gs. induction groups as [|h groups IH]; cbn; intros gs Hgs.
  - rewrite Hg in Hgs. cbn in Hgs. simplify_eq. cbn. by rewrite Hpos.
  - destruct (rescore_group s FsForeground h) as [h'|] eqn:Hh; [|done]. cbn in Hgs.
    destruct (rescore_groups s FsForeground (groups ++ [g])) as [rest|]; [|done]. cbn in Hgs. simplify_eq.
    cbn. rewrite (unrelated_not_rescored s fg pid h h') by (try done; apply Hun; by left).
    apply IH; [|done]. intros x Hx. apply Hun. by right.
Qed.

(** The fallback group of the foreground process, scored below what a current focus needs. *)
Definition is_weak_fallback (pid : Z) (g : FocusGroup) : Prop :=
  fg_kind g = FgUnknown /\ fg_root_pids g = [pid] /\ is_foreground_fallback_group g = true /\
  f32_ge (fg_score g) (f32_lit 45 100) = false.

Lemma weak_fallback_identity pid g h :
  is_weak_fallback pid g -> is_weak_fallback pid h -> same_focus_identity g h = true.
Proof.
  intros (Hk & Hr & _) (Hk' & Hr' & _). unfold same_focus_identity. rewrite Hr, Hr', Hk, Hk'.
  rewrite bool_decide_eq_false_2 by (by intros []). cbn. by rewrite bool_decide_eq_true_2 by by left.
Qed.

(** The only group left is the fallback: it wins under the default policy, with a
    score below what a current focus needs. *)
Lemma lone_foreground_low pid s s' :
  lone_foreground pid s -> apply_foreground_source_mode_to_snapshot s FsForeground = Some s' ->
  low_winner FocusPolicy_default (is_weak_fallback pid) s'.
Proof.
  intros (Hready & Hgroups & fg & Hfg & Hconf) Happ.
  destruct (ready_is_safe s pid Hready) as (fg' & p & Hfg' & _ & _ & Hpid & Hp & Hsafe). simplify_eq.
  unfold apply_foreground_source_mode_to_snapshot in Happ. rewrite decide_False, Hready in Happ by done.
  unfold add_foreground_fallback_group_if_needed in Happ. rewrite Hfg, Hpid in Happ.
  assert (Hno : existsb (fun g => focus_group_contains_pid g pid) (fs_groups s) = false).
  { apply not_true_iff_false. intros (g & Hin & Hg)%existsb_exists.
    destruct (Hgroups g) as [_ Hc]; [by apply list_elem_of_In|]. congruence. }
  rewrite Hno, Hp, Hsafe in Happ. destruct (descendants_of_process s pid) as [members|]; [|done].
  cbn [mbind option_bind] in Happ.
  set (s1 := with_groups s (fs_groups s ++ [fallback_group pid p members (fw_confidence fg)])) in *.
  destruct (fallback_rescored s1 fg pid p members Hfg Hpid Hconf) as (score & Hscore & Hre & Hpos).
  destruct (rescore_groups s1 FsForeground (fs_groups s1)) as [gs|] eqn:Hgs; [|done].
  cbn [mbind option_bind] in Happ. rewrite decide_True in Happ by done.
  rewrite (only_fallback_left s1 fg pid (fs_groups s) _ _ gs Hfg Hpid) with (2 := Hre) in Happ; [| |done|done].
  2:{ intros h Hh. by apply Hgroups. }
  cbn [stable_sort foldr insert_before] in Happ. simplify_eq.
  assert (Hlow : f32_ge (fg_score (held_fallback pid p members (fw_confidence fg) score)) (f32_lit 45 100) = false).
  { rewrite list_elem_of_In in Hconf, Hscore.
    destruct Hconf as [Hc|[Hc|[]]]; rewrite <- Hc in Hscore |- *; destruct Hscore as [<-|[<-|[]]];
      vm_compute; reflexivity. }
  split; [|by intros g ->%list_elem_of_singleton].
  exists (limit_group_roots (FocusResolver_new FocusPolicy_default)
            (held_fallback pid p members (fw_confidence fg) score)).
  split; [|split_and!; [done|done|apply bool_decide_eq_true; by left|exact Hlow]].
  unfold winner, best_eligible_group. cbn [fs_groups with_groups].
  assert (Hok : f32_ge (fg_confidence (held_fallback pid p members (fw_confidence fg) score))
                  (fpo_min_confidence FocusPolicy_default) = true).
  { rewrite list_elem_of_In in Hconf. destruct Hconf as [<-|[<-|[]]]; vm_compute; reflexivity. }
  cbn [List.filter fr_policy FocusResolver_new]. rewrite Hok. cbn [List.filter].
  unfold group_roots_alive. cbn [fg_root_pids held_fallback rescored fallback_group]. cbn. by rewrite Hp.
Qed.

(** C29. In foreground mode, under the default policy and a confident provider, the
    fallback group of a foreground process that belongs to no other group never holds
    the focus.  Every second poll switches the focus to that fallback group (kind
    unknown, the foreground process its only root, its score below the 0.45 a current
    focus needs), and the next poll clears it; the first poll finds no target. *)
Theorem foreground_fallback_flaps pid history s :
  Forall (fun s' => exists s0, lone_foreground pid s0 /\
                     apply_foreground_source_mode_to_snapshot s0 FsForeground = Some s') (s :: history) ->
  let d := (decide_from_snapshot (polled (FocusResolver_new FocusPolicy_default) history) s).2 in
  if Nat.even (length history)
  then match history with
       | [] => d = FdNoTarget
       | _ => exists old, d = FdClear (Some old) /\ is_weak_fallback pid (rf_group old)
       end
  else exists new, d = FdSwitch None new /\ is_weak_fallback pid (rf_group new).
Proof.
  intros Hall. apply low_winner_flaps; [exact (weak_fallback_identity pid)|done|].
  eapply Forall_impl; [exact Hall|]. intros s' (s0 & Hlone & Happ). by eapply lone_foreground_low.
Qed.
