(* ===== verification/FocusRuns.v ===== *)
(** * FocusRuns: concrete snapshots

    A desktop with a game and a build, a snapshot whose parents form a cycle, and a
    foreground process nothing is known of: the hypotheses of the focus theorems hold
    on them, and the builders and the resolver run. *)

From S2P Require Import Prelude PolicyModel Allowlist Intervals Score Controller FocusModel ProcessTree FocusScore FocusGroups FocusResolver FocusForeground.
From stdpp Require Import sorting relations.
From Stdlib Require Import SpecFloat.
Open Scope Z_scope.

Definition process (pid ppid : Z) (comm : string) (class : TaskClass) (cpu : Z) : FocusProcess :=
  {| fp_pid := pid; fp_ppid := ppid; fp_comm := comm; fp_cmdline := comm; fp_cgroup_path := None;
     fp_starttime_ticks := Some 1; fp_sched_policy := Some 0; fp_is_foreground_window_process := false;
     fp_classification :=
       {| cl_class := class; cl_priority_band := PbInteractive; cl_confidence := f32_lit 90 100;
          cl_reasons := [] |};
     fp_cpu_time_ticks_delta := cpu; fp_read_bytes_delta := 0; fp_write_bytes_delta := 0;
     fp_voluntary_ctxt_switches_delta := 0; fp_nonvoluntary_ctxt_switches_delta := 0 |}.

Definition snapshot_of (elapsed_ms : Z) (fg : option ForegroundWindowSnapshot) (ps : list FocusProcess)
    : FocusSnapshot :=
  let processes := list_to_map ((fun p => (fp_pid p, p)) <$> ps) in
  {| fs_elapsed_ms := elapsed_ms; fs_foreground := fg; fs_processes := processes;
     fs_children_by_parent := children_by_parent_of processes; fs_groups := [] |}.

Definition with_built_groups (s : FocusSnapshot) : FocusSnapshot :=
  with_groups s (default [] (build_focus_groups (S (size (fs_processes s))) s)).

Definition desktop (elapsed_ms : Z) : FocusSnapshot :=
  snapshot_of elapsed_ms None
    [process 1 0 "systemd" Service 0; process 50 1 "mygame" Game 200; process 51 50 "render" GameRenderThread 100;
     process 60 1 "bash" Shell 0; process 61 60 "cc1" Compiler 40; process 62 60 "kwin" Compositor 5].

Example desktop_groups :
  (fun g => (fg_kind g, fg_member_pids g)) <$> fs_groups (with_built_groups (desktop 0)) =
  [(FgGame, [50; 51]); (FgCompile, [60; 61]); (FgDesktop, [62]); (FgIdle, [1])].
Proof. vm_compute. reflexivity. Qed.

(** No process of the desktop traps the walk: each climb ends. *)
Lemma not_trapped_desktop pid : ~ trapped (fs_processes (desktop 0)) pid.
Proof.
  intros Ht. pose proof (trapped_no_result 7 _ _ Ht) as Hn. revert Hn.
  destruct (decide (pid ∈ [1; 50; 51; 60; 61; 62])) as [Hin|Hout].
  - rewrite list_elem_of_In in Hin. cbn in Hin.
    destruct Hin as [<-|[<-|[<-|[<-|[<-|[<-|[]]]]]]]; vm_compute; discriminate.
  - assert (Hp : fs_processes (desktop 0) !! pid = None).
    { apply not_elem_of_list_to_map_1. cbn. exact Hout. }
    cbn [compile_session_loop]. rewrite Hp. discriminate.
Qed.

Lemma focus_groups_partition_kinds_witness :
  (forall pid, ~ trapped (fs_processes (desktop 0)) pid) /\
  exists gs, build_focus_groups (S (size (fs_processes (desktop 0)))) (desktop 0) = Some gs /\
    (forall g, g ∈ gs -> members_ordered g) /\
    (forall g h x, g ∈ gs -> h ∈ gs -> x ∈ fg_member_pids g -> x ∈ fg_member_pids h -> fg_kind g = fg_kind h).
Proof. split; [exact not_trapped_desktop|exact (focus_groups_partition_kinds (desktop 0) not_trapped_desktop)]. Defined.

(** Two compilers, each the parent of the other: the compile groups are never built. *)
Definition cyclic : FocusSnapshot :=
  snapshot_of 0 None [process 70 71 "cc1" Compiler 10; process 71 70 "collect2" Compiler 10].

Lemma cyclic_trapped : trapped (fs_processes cyclic) 70.
Proof.
  exists 70. split; [done|]. eapply tc_l; [|apply tc_once].
  - exists (process 70 71 "cc1" Compiler 10). split_and!; vm_compute; try reflexivity; discriminate.
  - exists (process 71 70 "collect2" Compiler 10). split_and!; vm_compute; try reflexivity; discriminate.
Qed.

Theorem cyclic_groups_never_built fuel : build_focus_groups fuel cyclic = None.
Proof.
  assert (Hn : nearest_compile_session_root fuel cyclic 70 = None).
  { unfold nearest_compile_session_root. by rewrite (trapped_no_result _ _ _ cyclic_trapped). }
  unfold build_focus_groups, builders. cbn [run_builders].
  replace (option_list <$> build_game_group cyclic ∅) with (Some ([] : list FocusGroup)) by (vm_compute; reflexivity).
  cbn [mbind option_bind]. replace (build_browser_groups cyclic (claim ∅ [])) with (Some ([] : list FocusGroup))
    by (vm_compute; reflexivity).
  cbn [mbind option_bind].
  assert (Hc : build_compile_groups fuel cyclic (claim (claim ∅ []) []) = None).
  { unfold build_compile_groups. rewrite decide_False by (vm_compute; discriminate).
    unfold compile_roots.
    replace (List.filter _ _) with ([] : list Z) by (vm_compute; reflexivity).
    replace (btree_elements _) with [70; 71] by (vm_compute; reflexivity).
    cbn [session_roots]. by rewrite Hn. }
  by rewrite Hc.
Qed.

(** ** The resolver on the desktop *)

Definition poll (n : Z) : FocusSnapshot := with_built_groups (desktop (n * 1000)).

Example desktop_decisions :
  (fun h => match (decide_from_snapshot (polled (FocusResolver_new FocusPolicy_default) h) (poll 9)).2 with
            | FdKeep f => (1, fg_kind (rf_group f)) | FdSwitch _ f => (2, fg_kind (rf_group f))
            | FdClear _ => (3, FgUnknown) | FdNoTarget => (4, FgUnknown)
            end) <$> [[]; [poll 1]; [poll 2; poll 1]] = [(4, FgUnknown); (2, FgGame); (1, FgGame)].
Proof. vm_compute. reflexivity. Qed.

Definition game_group : FocusGroup :=
  default (fallback_group 0 (process 0 0 "" UnknownClass 0) [] f32_zero) (winner FocusPolicy_default (poll 1)).

Lemma focus_switch_justified_witness :
  required_polls FocusPolicy_default <= U32_MAX /\
  exists r' old new,
    decide_from_snapshot (polled (FocusResolver_new FocusPolicy_default) [poll 1]) (poll 2) = (r', FdSwitch old new) /\
    stable_winner FocusPolicy_default 2 [poll 2; poll 1] (rf_group new).
Proof.
  assert (Hmax : required_polls FocusPolicy_default <= U32_MAX) by (vm_compute; discriminate).
  split; [exact Hmax|].
  destruct (decide_from_snapshot (polled (FocusResolver_new FocusPolicy_default) [poll 1]) (poll 2))
    as [r' [f|old new|o|]] eqn:Hd; try (vm_compute in Hd; discriminate).
  exists r', old, new. split; [reflexivity|].
  exact (proj1 (proj2 (proj2 (focus_switch_justified FocusPolicy_default [poll 1] (poll 2) r' (FdSwitch old new) Hmax Hd)))).
Defined.

Lemma stable_winner_gets_focus_witness :
  exists r', decide_from_snapshot (polled (FocusResolver_new FocusPolicy_default) [poll 1]) (poll 2) =
               (r', FdSwitch None (resolved_focus_from_group game_group 2000)) /\
             fr_current r' = Some (resolved_focus_from_group game_group 2000).
Proof.
  apply (stable_winner_gets_focus (FocusResolver_new FocusPolicy_default) [poll 1] (poll 2) game_group).
  - reflexivity.
  - reflexivity.
  - vm_compute. discriminate.
  - change (required_polls (fr_policy (FocusResolver_new FocusPolicy_default))) with (1 + 1).
    apply stable_more with (g' := game_group); [apply stable_first| |]; vm_compute; reflexivity.
  - reflexivity.
Defined.

(** ** An unknown foreground process *)

Definition foreground (pid : Z) : ForegroundWindowSnapshot :=
  {| fw_status := FpAvailable; fw_target_pid := Some pid; fw_confidence := CONFIDENCE_HIGH; fw_stale_ms := None |}.

Definition unknown_app (n : Z) : FocusSnapshot :=
  snapshot_of (n * 1000) (Some (foreground 90)) [process 90 1 "myapp" UnknownClass 30].

Lemma unknown_app_lone n : lone_foreground 90 (unknown_app n).
Proof.
  split; [vm_compute; reflexivity|]. split; [intros g Hg; by apply elem_of_nil in Hg|].
  exists (foreground 90). split; [reflexivity|by left].
Qed.

Definition shown (s : FocusSnapshot) : FocusSnapshot :=
  default s (apply_foreground_source_mode_to_snapshot s FsForeground).

Lemma unknown_app_shown n :
  apply_foreground_source_mode_to_snapshot (unknown_app n) FsForeground = Some (shown (unknown_app n)).
Proof. vm_compute. reflexivity. Qed.

Lemma foreground_fallback_flaps_witness :
  let d := (decide_from_snapshot (polled (FocusResolver_new FocusPolicy_default)
              (shown <$> [unknown_app 3; unknown_app 2; unknown_app 1])) (shown (unknown_app 4))).2 in
  exists new, d = FdSwitch None new /\ is_weak_fallback 90 (rf_group new).
Proof.
  refine (foreground_fallback_flaps 90 (shown <$> [unknown_app 3; unknown_app 2; unknown_app 1])
            (shown (unknown_app 4)) _).
  repeat (apply List.Forall_cons); [| | | |apply List.Forall_nil];
    (eexists; split; [apply unknown_app_lone|apply unknown_app_shown]).
Defined.
