(* ===== verification/WindowSignals.v ===== *)
(** * What a measurement window says

    [autotune/rolling_window/{score,signals,utils}.rs], [autotune/quality/*.rs] and the
    part of [autotune/observation_builder/builder.rs] that binds the signals to the
    target: the score of a rolling window, the quality of its data and the objective
    signals the comparison of a baseline with a candidate reads.

    [window_score_exact] states the score over the log of the samples that arrived,
    [window_quality_exact] when the data is good enough to act on, and
    [window_improvement_is_real] follows a runnable-latency verdict from the
    operations on two windows down to the latencies behind their interval records. *)

From Stdlib Require Import Ascii String.
From S2P Require Import Prelude Binary64 Abi Metrics Intervals RunnableSignal Score PolicyModel Procfs Objective Allowlist ContextKey Controller FocusModel RollingWindow.
From stdpp Require Import list pretty strings sorting.
Open Scope Z_scope.

(** ** Formatting of floats: [{:.n}] *)

(** The quotient of two positive integers, rounded to the nearest, ties to even. *)
Definition div_half_even (num den : Z) : Z :=
  let q := num / den in
  let r := num mod den in
  if (2 * r <? den) || ((2 * r =? den) && Z.even q) then q else q + 1.

(** [|x| * 10 ^ n], rounded. *)
Definition scaled (n : Z) (m : positive) (e : Z) : Z :=
  if 0 <=? e then Zpos m * 2 ^ e * 10 ^ n else div_half_even (Zpos m * 10 ^ n) (2 ^ (- e)).

Fixpoint zeros (n : nat) : string := match n with O => EmptyString | S n => String "0" (zeros n) end.

(** [v / 10 ^ n] with [n] digits after the point. *)
Definition fixed_text (n : nat) (v : Z) : string :=
  let scale := 10 ^ Z.of_nat n in
  let fraction := ContextKey.decimal (v mod scale) in
  ContextKey.decimal (v / scale)
  +:+ (if (n =? 0)%nat then "" else "." +:+ zeros (n - String.length fraction) +:+ fraction).

Definition f64_fixed (n : nat) (x : f64) : string :=
  let sign (s : bool) := if s then "-"%string else ""%string in
  match x with
  | SpecFloat.S754_nan => "NaN"
  | SpecFloat.S754_infinity s => sign s +:+ "inf"
  | SpecFloat.S754_zero s => sign s +:+ fixed_text n 0
  | SpecFloat.S754_finite s m e => sign s +:+ fixed_text n (scaled (Z.of_nat n) m e)
  end.

(** ** [quality] *)

(** *** [policy.rs] *)

Inductive FrameDataPolicy := FdIgnore | FdAdvisory | FdRequired.

Definition requires_frames (p : FrameDataPolicy) : bool :=
  match p with FdRequired => true | _ => false end.

Definition checks_frame_count_mismatch (p : FrameDataPolicy) : bool :=
  match p with FdIgnore => false | _ => true end.

Record OnlineDataQualityPolicy := {
  qp_min_scored_intervals : Z;
  qp_min_scored_samples : Z;
  qp_max_drop_counter_total : Z;
  qp_frame_data_policy : FrameDataPolicy;
  qp_low_identity_overlap_ratio : f64;
  qp_medium_identity_overlap_ratio : f64;
  qp_low_frame_count_ratio : f64;
  qp_medium_frame_count_ratio : f64 }.

Definition OnlineDataQualityPolicy_default : OnlineDataQualityPolicy :=
  {| qp_min_scored_intervals := 5; qp_min_scored_samples := 100; qp_max_drop_counter_total := 0;
     qp_frame_data_policy := FdAdvisory;
     qp_low_identity_overlap_ratio := f64_lit 75 100;
     qp_medium_identity_overlap_ratio := f64_lit 90 100;
     qp_low_frame_count_ratio := f64_lit 150 100;
     qp_medium_frame_count_ratio := f64_lit 120 100 |}.

(** *** [frame.rs] *)

Definition frame_count_pair (baseline candidate : option Z) : option (Z * Z) :=
  match baseline, candidate with Some b, Some c => Some (b, c) | _, _ => None end.

Definition frame_count_low_reason (baseline candidate : option Z) (low_ratio : f64) : option string :=
  match frame_count_pair baseline candidate with
  | None => None
  | Some (b, c) =>
      let mn := Z.min b c in
      let mx := Z.max b c in
      let counts := "(baseline_frame_count=" +:+ ContextKey.decimal b +:+ " candidate_frame_count="
                    +:+ ContextKey.decimal c +:+ ")" in
      if (mn =? 0) && (0 <? mx) then
        Some ("frame data mismatch when frame-based scoring is required: one window has frames and the other has none " +:+ counts)
      else if 0 <? mn then
        let ratio := f64_div (f64_of_Z mx) (f64_of_Z mn) in
        if f64_gt ratio low_ratio then
          Some ("frame data mismatch when frame-based scoring is required: frame count ratio "
                +:+ f64_fixed 2 ratio +:+ " exceeds " +:+ f64_fixed 2 low_ratio +:+ " " +:+ counts)
        else None
      else None
  end.

Definition frame_count_medium_reason (baseline candidate : option Z) (medium_ratio : f64)
    : option string :=
  match frame_count_pair baseline candidate with
  | None => None
  | Some (b, c) =>
      let mn := Z.min b c in
      let mx := Z.max b c in
      if 0 <? mn then
        let ratio := f64_div (f64_of_Z mx) (f64_of_Z mn) in
        if f64_gt ratio medium_ratio then
          Some ("frame count differs by more than "
                +:+ f64_fixed 0 (f64_mul (f64_sub medium_ratio (f64_of_Z 1)) (f64_of_Z 100))
                +:+ "% but remains below low-quality threshold (baseline_frame_count="
                +:+ ContextKey.decimal b +:+ " candidate_frame_count=" +:+ ContextKey.decimal c
                +:+ " ratio=" +:+ f64_fixed 2 ratio +:+ ")")
        else None
      else None
  end.

(** *** [score.rs] and [tune/comparability/model.rs] *)

Record TaskIdentity := {
  ti_class : TaskClass;
  ti_process_comm : string;
  ti_comm : string;
  ti_process_starttime_ticks : option Z;
  ti_task_starttime_ticks : option Z;
  ti_exe_dev : option Z;
  ti_exe_ino : option Z }.

#[export] Instance TaskIdentity_eq_dec : EqDecision TaskIdentity.
Proof. solve_decision. Defined.

Record ScoredIdentityCount := { sic_identity : TaskIdentity; sic_count : Z }.

(** The entry of an identity in the map of [scored_identity_counts_to_map]; an
    identity without entry counts zero. *)
Definition scored_identity_count (counts : list ScoredIdentityCount) (id : TaskIdentity) : Z :=
  foldr (fun c total => if bool_decide (sic_identity c = id) then sic_count c + total else total)
    0 counts.

Definition scored_identity_overlap (left right : list ScoredIdentityCount) (combine : Z -> Z -> Z) : Z :=
  foldr Z.add 0
    ((fun id => combine (scored_identity_count left id) (scored_identity_count right id))
       <$> remove_dups (sic_identity <$> left ++ right)).

Definition scored_identity_overlap_ratio (baseline candidate : list ScoredIdentityCount) : option f64 :=
  match baseline, candidate with
  | [], [] => None
  | _, _ =>
      let common := scored_identity_overlap baseline candidate Z.min in
      let total := scored_identity_overlap baseline candidate Z.max in
      if total =? 0 then None else Some (f64_div (f64_of_Z common) (f64_of_Z total))
  end.

(** *** [input.rs] *)

Record OnlineDataQualityInput := {
  qi_scored_intervals : Z;
  qi_scored_samples : Z;
  qi_scored_task_count : Z;
  qi_drop_counter_total : Z;
  qi_target_identity_shifted : bool;
  qi_target_present : bool;
  qi_frame_data_required : bool;
  qi_frame_count : Z;
  qi_baseline_frame_count : option Z;
  qi_candidate_frame_count : option Z;
  qi_baseline_scored_identity_counts : list ScoredIdentityCount;
  qi_candidate_scored_identity_counts : list ScoredIdentityCount }.

(** [if cond { reasons.push(message) }]. *)
Definition reason_if (cond : bool) (message : string) : list string := if cond then [message] else [].

(** The low and the medium reasons of one check. *)
Definition drop_reasons (i : OnlineDataQualityInput) (p : OnlineDataQualityPolicy)
    : list string * list string :=
  let totals := "drop_counter_total=" +:+ ContextKey.decimal (qi_drop_counter_total i)
                +:+ " max_drop_counter_total=" +:+ ContextKey.decimal (qp_max_drop_counter_total p) in
  if qp_max_drop_counter_total p <? qi_drop_counter_total i
  then (["drop counters above policy max: " +:+ totals], [])
  else if 0 <? qi_drop_counter_total i
  then ([], ["drop counters are nonzero but within policy max: " +:+ totals])
  else ([], []).

Definition frame_count_reasons (i : OnlineDataQualityInput) (p : OnlineDataQualityPolicy)
    : list string * list string :=
  if checks_frame_count_mismatch (qp_frame_data_policy p) then
    match frame_count_low_reason (qi_baseline_frame_count i) (qi_candidate_frame_count i)
            (qp_low_frame_count_ratio p) with
    | Some reason => ([reason], [])
    | None =>
        match frame_count_medium_reason (qi_baseline_frame_count i) (qi_candidate_frame_count i)
                (qp_medium_frame_count_ratio p) with
        | Some reason => ([], [reason])
        | None => ([], [])
        end
    end
  else ([], []).

Definition overlap_reasons (i : OnlineDataQualityInput) (p : OnlineDataQualityPolicy)
    : list string * list string :=
  match scored_identity_overlap_ratio (qi_baseline_scored_identity_counts i)
          (qi_candidate_scored_identity_counts i) with
  | None => ([], [])
  | Some ratio =>
      let below (limit : f64) :=
        "scored identity overlap " +:+ f64_fixed 1 (f64_mul ratio (f64_of_Z 100))
        +:+ "% is below " +:+ f64_fixed 1 (f64_mul limit (f64_of_Z 100)) +:+ "%" in
      if f64_lt ratio (qp_low_identity_overlap_ratio p)
      then (["target identity shifted during candidate measurement: "
             +:+ below (qp_low_identity_overlap_ratio p)], [])
      else if f64_lt ratio (qp_medium_identity_overlap_ratio p)
      then ([], [below (qp_medium_identity_overlap_ratio p)])
      else ([], [])
  end.

Definition evaluate_with_policy (i : OnlineDataQualityInput) (p : OnlineDataQualityPolicy)
    : OnlineDataQuality :=
  let drops := drop_reasons i p in
  let frames := frame_count_reasons i p in
  let overlap := overlap_reasons i p in
  let low_reasons :=
    reason_if (qi_scored_intervals i <? qp_min_scored_intervals p)
      ("fewer than min_scored_intervals: scored_intervals="
       +:+ ContextKey.decimal (qi_scored_intervals i) +:+ " min_scored_intervals="
       +:+ ContextKey.decimal (qp_min_scored_intervals p))
    ++ reason_if (qi_scored_samples i <? qp_min_scored_samples p)
      ("fewer than min_scored_samples: scored_samples="
       +:+ ContextKey.decimal (qi_scored_samples i) +:+ " min_scored_samples="
       +:+ ContextKey.decimal (qp_min_scored_samples p))
    ++ reason_if (qi_scored_task_count i =? 0) "zero scored tasks"
    ++ drops.1
    ++ reason_if (qi_target_identity_shifted i) "target identity shifted during candidate measurement"
    ++ reason_if (negb (qi_target_present i)) "target disappeared"
    ++ reason_if ((requires_frames (qp_frame_data_policy p) || qi_frame_data_required i)
                  && (qi_frame_count i =? 0))
         "frame data mismatch when frame-based scoring is required: no frame data"
    ++ frames.1 ++ overlap.1 in
  let medium_reasons := drops.2 ++ frames.2 ++ overlap.2 in
  match low_reasons, medium_reasons with
  | _ :: _, _ => OqLow low_reasons
  | [], _ :: _ => OqMedium medium_reasons
  | [], [] => OqHigh
  end.

(** [OnlineDataQuality::blocks_action]. *)
Definition blocks_action (q : OnlineDataQuality) : bool := match q with OqLow _ => true | _ => false end.

(** ** [rolling_window/utils.rs] *)

(** [partial_cmp(..).unwrap_or(Equal)] is not [Greater]. *)
Definition partial_le (a b : f64) : Prop := SpecFloat.SFcompare a b <> Some Gt.

#[export] Instance partial_le_dec a b : Decision (partial_le a b).
Proof. unfold partial_le. apply _. Defined.

Definition percentile_f64 (values : list f64) (percentile : f64) : f64 :=
  match values with
  | [] => f64_zero
  | _ =>
      let n := Z.of_nat (length values) in
      let rank := saturating_sub (f64_ceil_as_u64 (f64_mul (f64_of_Z n) percentile)) 1 in
      default f64_zero (stable_sort partial_le values !! Z.to_nat (Z.min rank (n - 1)))
  end.

Definition is_compile_activity_record (r : IntervalRecord) : bool :=
  (0 <? ir_samples r)
  && match ir_class r with BuildJob | Compiler | Linker => true | _ => false end.

Definition string_le (a b : string) : Prop := String.leb a b = true.

#[export] Instance string_le_dec a b : Decision (string_le a b).
Proof. unfold string_le. apply _. Defined.

(** The distinct labels that are not blank, in order, joined. *)
Definition overlap_basis_label (bases : list string) : option string :=
  match remove_dups (filter (fun b => blank b = false) bases) with
  | [] => None
  | unique => Some (String.concat "+" (stable_sort string_le unique))
  end.

(** ** [rolling_window/score.rs] *)

Definition sum_sat (l : list Z) : Z := foldl saturating_add_u64 0 l.

Definition valid_frametimes (w : RollingWindow) : list f64 :=
  filter (fun t => is_valid_frametime_ms t = true) (fe_frametime_ms <$> rw_frames w).

Definition window_frame_p99_ms (w : RollingWindow) : f64 := percentile_f64 (valid_frametimes w) P99.

Definition window_frame_max_ms (w : RollingWindow) : f64 := foldl f64_max f64_zero (valid_frametimes w).

Definition window_scored_samples (w : RollingWindow) : Z := sum_sat (ir_samples <$> rw_intervals w).

Record RollingWindowScore := {
  ws_duration_ms : Z;
  ws_interval_count : Z;
  ws_scored_task_count : Z;
  ws_scored_samples : Z;
  ws_diagnostic_score_total : Z;
  ws_over_1ms : Z;
  ws_over_2ms : Z;
  ws_over_5ms : Z;
  ws_max_latency_ns : Z;
  ws_frame_count : Z;
  ws_frame_p99_ms : f64;
  ws_frame_max_ms : f64;
  ws_dropped_invalid_frames : Z;
  ws_data_quality : OnlineDataQuality }.

(** The distinct tasks with samples. *)
Definition scored_tasks (records : list IntervalRecord) : list Z :=
  remove_dups (ir_task <$> filter (fun r => 0 < ir_samples r) records).

Definition window_quality_input (w : RollingWindow) : OnlineDataQualityInput :=
  let scored_task_count := Z.of_nat (length (scored_tasks (rw_intervals w))) in
  {| qi_scored_intervals := Z.of_nat (length (rw_intervals w));
     qi_scored_samples := window_scored_samples w;
     qi_scored_task_count := scored_task_count;
     qi_drop_counter_total :=
       sum_sat ((fun r => DropCountersSnapshot_total (ir_drop_counters r)) <$> rw_intervals w);
     qi_target_identity_shifted := false;
     qi_target_present := 0 <? scored_task_count;
     qi_frame_data_required := false;
     qi_frame_count := Z.of_nat (length (rw_frames w));
     qi_baseline_frame_count := None; qi_candidate_frame_count := None;
     qi_baseline_scored_identity_counts := []; qi_candidate_scored_identity_counts := [] |}.

Definition compute_rolling_window_score (w : RollingWindow) (policy : OnlineDataQualityPolicy)
    : RollingWindowScore :=
  let over_1ms := sum_sat (ir_over_1ms <$> rw_intervals w) in
  let over_2ms := sum_sat (ir_over_2ms <$> rw_intervals w) in
  let over_5ms := sum_sat (ir_over_5ms <$> rw_intervals w) in
  {| ws_duration_ms := duration_ms w;
     ws_interval_count := Z.of_nat (length (rw_intervals w));
     ws_scored_task_count := Z.of_nat (length (scored_tasks (rw_intervals w)));
     ws_scored_samples := window_scored_samples w;
     ws_diagnostic_score_total := weighted_total over_5ms over_2ms over_1ms;
     ws_over_1ms := over_1ms; ws_over_2ms := over_2ms; ws_over_5ms := over_5ms;
     ws_max_latency_ns := default 0 (max_opt (ir_max_ns <$> rw_intervals w));
     ws_frame_count := Z.of_nat (length (rw_frames w));
     ws_frame_p99_ms := window_frame_p99_ms w;
     ws_frame_max_ms := window_frame_max_ms w;
     ws_dropped_invalid_frames := rw_dropped_invalid_frames w;
     ws_data_quality := evaluate_with_policy (window_quality_input w) policy |}.

(** [observation_builder/score.rs]. *)
Definition stutter_score_from_runtime_window_score (s : RollingWindowScore) : StutterScore :=
  {| Score.total := ws_diagnostic_score_total s; over_1ms := ws_over_1ms s;
     over_2ms := ws_over_2ms s; over_5ms := ws_over_5ms s;
     max_latency_ns := ws_max_latency_ns s; frame_max_ms := ws_frame_max_ms s;
     frame_p99_ms := ws_frame_p99_ms s; frame_over_16ms := 0; frame_over_33ms := 0;
     frame_over_50ms := 0 |}.

(** ** [rolling_window/signals.rs] *)

Definition GPU_THERMAL_DEGRADED_MILLIDEGREES : Z := 85000.
Definition GPU_POWER_LIMIT_BUSY_PERCENT : Z := 95.
Definition GPU_POWER_LIMIT_LOW_CLOCK_MHZ : Z := 300.

Definition quality_as_str (q : ObjectiveSignalQuality) : string :=
  match q with
  | SigDirect => "direct" | SigDerived => "derived" | SigApproximate => "approximate"
  | SigMissing => "missing"
  end.

Definition source_quality_for_block_io_basis (basis : option string) : ObjectiveSignalQuality :=
  match basis with
  | Some b => if String.eqb b "request-pointer" then SigDirect else SigApproximate
  | None => SigMissing
  end.

(** [cond.then_some(x)] and [if cond { quality } else { Missing }]. *)
Definition some_when {A} (cond : bool) (x : A) : option A := if cond then Some x else None.
Definition quality_if (cond : bool) (q : ObjectiveSignalQuality) : ObjectiveSignalQuality :=
  if cond then q else SigMissing.

Definition count_where {A} (p : A -> bool) (l : list A) : Z :=
  Z.of_nat (length (filter (fun x => p x = true) l)).

(** [x as f32]. *)
Definition f64_as_f32 (x : f64) : f32 :=
  match x with
  | SpecFloat.S754_finite s m e => SpecFloat.binary_normalize 24 128 (SpecFloat.cond_Zopp s (Zpos m)) e s
  | _ => x
  end.

Definition gpu_sample_limited (s : GpuSample) : bool :=
  (GPU_POWER_LIMIT_BUSY_PERCENT <=? default 0 (gs_gpu_busy_percent s))
  && (default U32_MAX (gs_gpu_clock_mhz s) <=? GPU_POWER_LIMIT_LOW_CLOCK_MHZ).

Definition is_some {A} (o : option A) : bool := match o with Some _ => true | None => false end.

Definition gpu_sample_measures (s : GpuSample) : bool :=
  is_some (gs_gpu_busy_percent s) || is_some (gs_gpu_clock_mhz s)
  || is_some (gs_temp_millidegrees s) || is_some (gs_power_microwatts s).

Definition mean_memory_pressure (records : list IntervalRecord) : f32 :=
  f64_as_f32
    (f64_div (foldl (fun total r => f64_add total (f64_max (ir_mem_psi_some r) f64_zero)) f64_zero records)
       (f64_of_Z (Z.of_nat (length records)))).

(** A record of a process of the target. *)
Definition in_target (target : option (Z * list Z)) (r : IntervalRecord) : bool :=
  match target with
  | Some (root, members) =>
      (0 <? root) && match ir_process_pid r with Some pid => bool_decide (pid ∈ members) | None => false end
  | None => false
  end.

Definition runnable_target_records (w : RollingWindow) (target : option (Z * list Z))
    : list IntervalRecord :=
  filter (fun r => in_target target r = true) (rw_intervals w).

Definition progress_of_target (target : option (Z * list Z)) (r : WorkloadProgressRecord) : bool :=
  match target with
  | Some (root, _) => wp_target_root_pid (wpr_progress r) =? root
  | None => false
  end.

(** The fixed work of the target, when it is a compile workload. *)
Definition compile_work (w : RollingWindow) (target : option (Z * list Z))
    : FixedWorkMeasurement + string :=
  and_then
    (completed_fixed_work
       (wpr_progress <$> filter (fun r => progress_of_target target r = true) (rw_workload_progress w)))
    (fun work =>
       match fwi_kind (wp_identity (fw_start work)) with
       | WkCompile => inl work
       | WkCustom => inr "completed work is not a compile workload"%string
       end).

(** Assignment of the quality of the compile signal. *)
Definition set_compile_quality (q : ObjectiveSignalQualitySnapshot) (v : ObjectiveSignalQuality)
    : ObjectiveSignalQualitySnapshot :=
  {| sq_block_io_overlap := sq_block_io_overlap q; sq_irq_overlap := sq_irq_overlap q;
     sq_thermal := sq_thermal q; sq_cpu_power := sq_cpu_power q; sq_gpu_power := sq_gpu_power q;
     sq_gpu_active_render_node := sq_gpu_active_render_node q;
     sq_memory_pressure := sq_memory_pressure q; sq_swap_activity := sq_swap_activity q;
     sq_dirty_writeback := sq_dirty_writeback q; sq_frame_pacing := sq_frame_pacing q;
     sq_foreground_latency := sq_foreground_latency q;
     sq_runnable_latency := sq_runnable_latency q; sq_compile_throughput := v |}.

(** Assignments of the target's root, its start time and the compile fields. *)
Definition set_target_root (s : ObjectiveSignals) (root : option Z) : ObjectiveSignals :=
  {| sig_block_io_overlap_count := sig_block_io_overlap_count s;
     sig_block_io_worst_latency_ns := sig_block_io_worst_latency_ns s;
     sig_block_io_overlap_basis := sig_block_io_overlap_basis s;
     sig_block_io_overlap_trust := sig_block_io_overlap_trust s;
     sig_irq_overlap_count := sig_irq_overlap_count s;
     sig_irq_worst_overlap_ns := sig_irq_worst_overlap_ns s; sig_irq_hot_irq := sig_irq_hot_irq s;
     sig_irq_hot_cpu := sig_irq_hot_cpu s; sig_irq_overlap_basis := sig_irq_overlap_basis s;
     sig_irq_overlap_trust := sig_irq_overlap_trust s;
     sig_thermal_degraded := sig_thermal_degraded s;
     sig_thermal_throttle_count := sig_thermal_throttle_count s;
     sig_cpu_power_limited := sig_cpu_power_limited s;
     sig_cpu_power_limited_cpu := sig_cpu_power_limited_cpu s;
     sig_cpu_power_limit_source := sig_cpu_power_limit_source s;
     sig_cpu_power_limited_policy := sig_cpu_power_limited_policy s;
     sig_gpu_power_limited := sig_gpu_power_limited s;
     sig_gpu_power_limit_reason := sig_gpu_power_limit_reason s;
     sig_gpu_busy_percent := sig_gpu_busy_percent s; sig_gpu_clock_mhz := sig_gpu_clock_mhz s;
     sig_gpu_temp_millidegrees := sig_gpu_temp_millidegrees s;
     sig_gpu_drm_card := sig_gpu_drm_card s;
     sig_gpu_active_render_node := sig_gpu_active_render_node s;
     sig_gpu_focus_confidence := sig_gpu_focus_confidence s;
     sig_gpu_focus_source := sig_gpu_focus_source s;
     sig_memory_pressure_some_avg10_percent := sig_memory_pressure_some_avg10_percent s;
     sig_swap_activity_events := sig_swap_activity_events s;
     sig_mem_stall_spike_count := sig_mem_stall_spike_count s;
     sig_dirty_writeback_events := sig_dirty_writeback_events s;
     sig_frame_p99_ms := sig_frame_p99_ms s; sig_foreground_over_5ms := sig_foreground_over_5ms s;
     sig_runnable_latency_p50_ns := sig_runnable_latency_p50_ns s;
     sig_runnable_latency_p95_ns := sig_runnable_latency_p95_ns s;
     sig_runnable_latency_p99_ns := sig_runnable_latency_p99_ns s;
     sig_runnable_latency_p999_ns := sig_runnable_latency_p999_ns s;
     sig_runnable_latency_max_ns := sig_runnable_latency_max_ns s;
     sig_runnable_over_1ms := sig_runnable_over_1ms s;
     sig_runnable_over_2ms := sig_runnable_over_2ms s;
     sig_runnable_over_5ms := sig_runnable_over_5ms s;
     sig_runnable_samples := sig_runnable_samples s;
     sig_runnable_latency_source := sig_runnable_latency_source s;
     sig_runnable_latency_unavailable_reason := sig_runnable_latency_unavailable_reason s;
     sig_runnable_target_root_pid := root;
     sig_runnable_target_starttime_ticks := sig_runnable_target_starttime_ticks s;
     sig_compile_activity_intervals := sig_compile_activity_intervals s;
     sig_compile_activity_samples := sig_compile_activity_samples s;
     sig_compile_activity_source := sig_compile_activity_source s;
     sig_compile_fixed_work := sig_compile_fixed_work s;
     sig_compile_fixed_work_unavailable_reason := sig_compile_fixed_work_unavailable_reason s;
     sig_signal_quality := sig_signal_quality s |}.

Definition set_target_starttime (s : ObjectiveSignals) (ticks : option Z) : ObjectiveSignals :=
  {| sig_block_io_overlap_count := sig_block_io_overlap_count s;
     sig_block_io_worst_latency_ns := sig_block_io_worst_latency_ns s;
     sig_block_io_overlap_basis := sig_block_io_overlap_basis s;
     sig_block_io_overlap_trust := sig_block_io_overlap_trust s;
     sig_irq_overlap_count := sig_irq_overlap_count s;
     sig_irq_worst_overlap_ns := sig_irq_worst_overlap_ns s; sig_irq_hot_irq := sig_irq_hot_irq s;
     sig_irq_hot_cpu := sig_irq_hot_cpu s; sig_irq_overlap_basis := sig_irq_overlap_basis s;
     sig_irq_overlap_trust := sig_irq_overlap_trust s;
     sig_thermal_degraded := sig_thermal_degraded s;
     sig_thermal_throttle_count := sig_thermal_throttle_count s;
     sig_cpu_power_limited := sig_cpu_power_limited s;
     sig_cpu_power_limited_cpu := sig_cpu_power_limited_cpu s;
     sig_cpu_power_limit_source := sig_cpu_power_limit_source s;
     sig_cpu_power_limited_policy := sig_cpu_power_limited_policy s;
     sig_gpu_power_limited := sig_gpu_power_limited s;
     sig_gpu_power_limit_reason := sig_gpu_power_limit_reason s;
     sig_gpu_busy_percent := sig_gpu_busy_percent s; sig_gpu_clock_mhz := sig_gpu_clock_mhz s;
     sig_gpu_temp_millidegrees := sig_gpu_temp_millidegrees s;
     sig_gpu_drm_card := sig_gpu_drm_card s;
     sig_gpu_active_render_node := sig_gpu_active_render_node s;
     sig_gpu_focus_confidence := sig_gpu_focus_confidence s;
     sig_gpu_focus_source := sig_gpu_focus_source s;
     sig_memory_pressure_some_avg10_percent := sig_memory_pressure_some_avg10_percent s;
     sig_swap_activity_events := sig_swap_activity_events s;
     sig_mem_stall_spike_count := sig_mem_stall_spike_count s;
     sig_dirty_writeback_events := sig_dirty_writeback_events s;
     sig_frame_p99_ms := sig_frame_p99_ms s; sig_foreground_over_5ms := sig_foreground_over_5ms s;
     sig_runnable_latency_p50_ns := sig_runnable_latency_p50_ns s;
     sig_runnable_latency_p95_ns := sig_runnable_latency_p95_ns s;
     sig_runnable_latency_p99_ns := sig_runnable_latency_p99_ns s;
     sig_runnable_latency_p999_ns := sig_runnable_latency_p999_ns s;
     sig_runnable_latency_max_ns := sig_runnable_latency_max_ns s;
     sig_runnable_over_1ms := sig_runnable_over_1ms s;
     sig_runnable_over_2ms := sig_runnable_over_2ms s;
     sig_runnable_over_5ms := sig_runnable_over_5ms s;
     sig_runnable_samples := sig_runnable_samples s;
     sig_runnable_latency_source := sig_runnable_latency_source s;
     sig_runnable_latency_unavailable_reason := sig_runnable_latency_unavailable_reason s;
     sig_runnable_target_root_pid := sig_runnable_target_root_pid s;
     sig_runnable_target_starttime_ticks := ticks;
     sig_compile_activity_intervals := sig_compile_activity_intervals s;
     sig_compile_activity_samples := sig_compile_activity_samples s;
     sig_compile_activity_source := sig_compile_activity_source s;
     sig_compile_fixed_work := sig_compile_fixed_work s;
     sig_compile_fixed_work_unavailable_reason := sig_compile_fixed_work_unavailable_reason s;
     sig_signal_quality := sig_signal_quality s |}.

Definition set_compile_work (s : ObjectiveSignals) (work : FixedWorkMeasurement + string)
    : ObjectiveSignals :=
  {| sig_block_io_overlap_count := sig_block_io_overlap_count s;
     sig_block_io_worst_latency_ns := sig_block_io_worst_latency_ns s;
     sig_block_io_overlap_basis := sig_block_io_overlap_basis s;
     sig_block_io_overlap_trust := sig_block_io_overlap_trust s;
     sig_irq_overlap_count := sig_irq_overlap_count s;
     sig_irq_worst_overlap_ns := sig_irq_worst_overlap_ns s; sig_irq_hot_irq := sig_irq_hot_irq s;
     sig_irq_hot_cpu := sig_irq_hot_cpu s; sig_irq_overlap_basis := sig_irq_overlap_basis s;
     sig_irq_overlap_trust := sig_irq_overlap_trust s;
     sig_thermal_degraded := sig_thermal_degraded s;
     sig_thermal_throttle_count := sig_thermal_throttle_count s;
     sig_cpu_power_limited := sig_cpu_power_limited s;
     sig_cpu_power_limited_cpu := sig_cpu_power_limited_cpu s;
     sig_cpu_power_limit_source := sig_cpu_power_limit_source s;
     sig_cpu_power_limited_policy := sig_cpu_power_limited_policy s;
     sig_gpu_power_limited := sig_gpu_power_limited s;
     sig_gpu_power_limit_reason := sig_gpu_power_limit_reason s;
     sig_gpu_busy_percent := sig_gpu_busy_percent s; sig_gpu_clock_mhz := sig_gpu_clock_mhz s;
     sig_gpu_temp_millidegrees := sig_gpu_temp_millidegrees s;
     sig_gpu_drm_card := sig_gpu_drm_card s;
     sig_gpu_active_render_node := sig_gpu_active_render_node s;
     sig_gpu_focus_confidence := sig_gpu_focus_confidence s;
     sig_gpu_focus_source := sig_gpu_focus_source s;
     sig_memory_pressure_some_avg10_percent := sig_memory_pressure_some_avg10_percent s;
     sig_swap_activity_events := sig_swap_activity_events s;
     sig_mem_stall_spike_count := sig_mem_stall_spike_count s;
     sig_dirty_writeback_events := sig_dirty_writeback_events s;
     sig_frame_p99_ms := sig_frame_p99_ms s; sig_foreground_over_5ms := sig_foreground_over_5ms s;
     sig_runnable_latency_p50_ns := sig_runnable_latency_p50_ns s;
     sig_runnable_latency_p95_ns := sig_runnable_latency_p95_ns s;
     sig_runnable_latency_p99_ns := sig_runnable_latency_p99_ns s;
     sig_runnable_latency_p999_ns := sig_runnable_latency_p999_ns s;
     sig_runnable_latency_max_ns := sig_runnable_latency_max_ns s;
     sig_runnable_over_1ms := sig_runnable_over_1ms s;
     sig_runnable_over_2ms := sig_runnable_over_2ms s;
     sig_runnable_over_5ms := sig_runnable_over_5ms s;
     sig_runnable_samples := sig_runnable_samples s;
     sig_runnable_latency_source := sig_runnable_latency_source s;
     sig_runnable_latency_unavailable_reason := sig_runnable_latency_unavailable_reason s;
     sig_runnable_target_root_pid := sig_runnable_target_root_pid s;
     sig_runnable_target_starttime_ticks := sig_runnable_target_starttime_ticks s;
     sig_compile_activity_intervals := sig_compile_activity_intervals s;
     sig_compile_activity_samples := sig_compile_activity_samples s;
     sig_compile_activity_source := sig_compile_activity_source s;
     sig_compile_fixed_work := match work with inl m => Some m | inr _ => None end;
     sig_compile_fixed_work_unavailable_reason := match work with inr e => Some e | inl _ => None end;
     sig_signal_quality := set_compile_quality (sig_signal_quality s) (match work with inl _ => SigDirect | inr _ => SigMissing end) |}.

(** The signals read from the queues, before the runnable latency and the compile work. *)
Definition queue_signals (w : RollingWindow) : ObjectiveSignals :=
  let io := rw_block_io_events w in
  let irqs := rw_irq_events w in
  let gpus := rw_gpu_samples w in
  let freqs := rw_cpu_freq_events w in
  let records := rw_intervals w in
  let has_io := negb (is_empty_queue io) in
  let has_irq := negb (is_empty_queue irqs) in
  let has_records := negb (is_empty_queue records) in
  let io_basis := overlap_basis_label (bi_correlation_basis <$> io) in
  let io_quality := source_quality_for_block_io_basis io_basis in
  let irq_worst := max_by_key iq_duration_ns (filter (fun e => 0 < iq_duration_ns e) irqs) in
  let irq_quality := quality_if has_irq SigDirect in
  let thermal_samples := omap gs_temp_millidegrees gpus in
  let throttled := count_where (fun t => GPU_THERMAL_DEGRADED_MILLIDEGREES <=? t) thermal_samples in
  let thermal := some_when (negb (is_empty_queue thermal_samples)) (0 <? throttled) in
  let cpu_event := snd <$> list_find (fun e => cf_freq_khz e = 0) freqs in
  let cpu_limited := some_when (negb (is_empty_queue freqs)) (is_some cpu_event) in
  let latest_gpu := last gpus in
  let gpu_event := snd <$> list_find (fun s => gpu_sample_limited s = true) gpus in
  let gpu_limited := some_when (negb (is_empty_queue gpus)) (is_some gpu_event) in
  let active := filter (fun r => is_compile_activity_record r = true) records in
  let compile_intervals := Z.of_nat (length (remove_dups (ir_elapsed_ms <$> active))) in
  let has_compile := 0 <? compile_intervals in
  let render_node := latest_gpu ≫= gs_render_node in
  {| sig_block_io_overlap_count := some_when has_io (count_where (fun e => 0 <? bi_duration_ns e) io);
     sig_block_io_worst_latency_ns := some_when has_io (default 0 (max_opt (bi_duration_ns <$> io)));
     sig_block_io_overlap_basis := io_basis;
     sig_block_io_overlap_trust := some_when has_io (quality_as_str io_quality);
     sig_irq_overlap_count := some_when has_irq (count_where (fun e => 0 <? iq_duration_ns e) irqs);
     sig_irq_worst_overlap_ns := some_when has_irq (default 0 (iq_duration_ns <$> irq_worst));
     sig_irq_hot_irq := iq_irq <$> irq_worst;
     sig_irq_hot_cpu := iq_cpu <$> irq_worst;
     sig_irq_overlap_basis := some_when has_irq "irq-duration"%string;
     sig_irq_overlap_trust := some_when has_irq (quality_as_str irq_quality);
     sig_thermal_degraded := thermal;
     sig_thermal_throttle_count := (fun _ => throttled) <$> thermal;
     sig_cpu_power_limited := cpu_limited;
     sig_cpu_power_limited_cpu := cf_cpu <$> cpu_event;
     sig_cpu_power_limit_source := (fun _ => "cpu_freq_zero_khz"%string) <$> cpu_event;
     sig_cpu_power_limited_policy := (fun e => "cpu" +:+ ContextKey.decimal (cf_cpu e)) <$> cpu_event;
     sig_gpu_power_limited := gpu_limited;
     sig_gpu_power_limit_reason := or_else_latest (gpu_event ≫= gs_power_limit_reason) (some_when (is_some gpu_event) "busy_high_clock_low"%string);
     sig_gpu_busy_percent := latest_gpu ≫= gs_gpu_busy_percent;
     sig_gpu_clock_mhz := latest_gpu ≫= gs_gpu_clock_mhz;
     sig_gpu_temp_millidegrees := latest_gpu ≫= gs_temp_millidegrees;
     sig_gpu_drm_card := latest_gpu ≫= gs_drm_card;
     sig_gpu_active_render_node := render_node;
     sig_gpu_focus_confidence := (fun _ => f32_lit 85 100) <$> render_node;
     sig_gpu_focus_source := (fun _ => "gpu_sample"%string) <$> render_node;
     sig_memory_pressure_some_avg10_percent := some_when has_records (mean_memory_pressure records);
     sig_swap_activity_events := some_when has_records (sum_sat (ir_major_faults <$> records));
     sig_mem_stall_spike_count := some_when has_records (sum_sat ((fun r => Z.b2z (ir_mem_psi_spike r)) <$> records));
     sig_dirty_writeback_events := some_when has_io (count_where (fun e => contains (bi_rwbs e) "W" || contains (bi_rwbs e) "F") io);
     sig_frame_p99_ms := Some (window_frame_p99_ms w);
     sig_foreground_over_5ms := Some (sum_sat (ir_over_5ms <$> records));
     sig_runnable_latency_p50_ns := None;
     sig_runnable_latency_p95_ns := None;
     sig_runnable_latency_p99_ns := None;
     sig_runnable_latency_p999_ns := None;
     sig_runnable_latency_max_ns := None;
     sig_runnable_over_1ms := None;
     sig_runnable_over_2ms := None;
     sig_runnable_over_5ms := None;
     sig_runnable_samples := None;
     sig_runnable_latency_source := None;
     sig_runnable_latency_unavailable_reason := None;
     sig_runnable_target_root_pid := None;
     sig_runnable_target_starttime_ticks := None;
     sig_compile_activity_intervals := some_when has_compile compile_intervals;
     sig_compile_activity_samples := some_when has_compile (sum_sat (ir_samples <$> active));
     sig_compile_activity_source := some_when has_compile "build-compiler-linker-intervals"%string;
     sig_compile_fixed_work := None;
     sig_compile_fixed_work_unavailable_reason := None;
     sig_signal_quality := 
       {| sq_block_io_overlap := io_quality; sq_irq_overlap := irq_quality;
          sq_thermal := quality_if (is_some thermal) SigDirect;
          sq_cpu_power := quality_if (is_some cpu_limited) SigDerived;
          sq_gpu_power := quality_if (existsb gpu_sample_measures gpus) SigDirect;
          sq_gpu_active_render_node := quality_if (is_some render_node) SigDirect;
          sq_memory_pressure := quality_if has_records SigDirect;
          sq_swap_activity := quality_if has_records SigApproximate;
          sq_dirty_writeback := quality_if has_io SigDirect;
          sq_frame_pacing := quality_if (negb (is_empty_queue (rw_frames w))) SigDirect;
          sq_foreground_latency := quality_if has_records SigDerived;
          sq_runnable_latency := SigMissing; sq_compile_throughput := SigMissing |} |}.

Definition compute_objective_signals (w : RollingWindow) (target : option (Z * list Z))
    : ObjectiveSignals :=
  let signals := set_runnable_latency_from_records (queue_signals w) (runnable_target_records w target) in
  set_compile_work (set_target_root signals (fst <$> target)) (compile_work w target).

(** ** [observation_builder/builder.rs]: the signals of the target

    The start time is that of the target's identity; work of another process is
    not the target's. *)
Definition bind_target_identity (s : ObjectiveSignals) (starttime_ticks : option Z) : ObjectiveSignals :=
  let s := set_target_starttime s starttime_ticks in
  match sig_compile_fixed_work s with
  | Some work =>
      if bool_decide (Some (wp_target_starttime_ticks (fw_start work)) = starttime_ticks) then s
      else set_compile_work s
             (inr "fixed-work target process identity no longer matches the selected target"%string)
  | None => s
  end.

Definition observed_signals (w : RollingWindow) (target : option (Z * list Z))
    (starttime_ticks : option Z) : ObjectiveSignals :=
  bind_target_identity (compute_objective_signals w target) starttime_ticks.

(** ** Theorems *)

(** *** Order does not matter *)

Section Orders.

Lemma sum_sat_spec (l : list Z) :
  Forall (fun x => 0 <= x) l -> sum_sat l = Z.min (Metrics.sum_list l) U64_MAX.
Proof.
  intros Hl. unfold sum_sat.
  assert (forall acc, 0 <= acc <= U64_MAX ->
    foldl saturating_add_u64 acc l = Z.min (acc + Metrics.sum_list l) U64_MAX) as H.
  { unfold Metrics.sum_list. induction Hl as [|x l Hx Hl IH]; intros acc Ha; cbn [foldl foldr]; [lia|].
    assert (0 <= foldr Z.add 0 l) by (clear - Hl; induction Hl; cbn [foldr]; lia).
    unfold saturating_add_u64 at 2. rewrite IH by lia. lia. }
  rewrite H; [f_equal; lia|]. unfold U64_MAX. lia.
Qed.

Lemma sum_list_perm (l k : list Z) : l ≡ₚ k -> Metrics.sum_list l = Metrics.sum_list k.
Proof. unfold Metrics.sum_list. induction 1; cbn [foldr] in *; lia. Qed.

Lemma max_opt_perm (l k : list Z) : l ≡ₚ k -> max_opt l = max_opt k.
Proof.
  intros H. destruct (max_opt k) as [m|] eqn:E.
  - apply max_opt_spec in E as [Hm Hk]. apply max_opt_spec. by rewrite H.
  - apply max_opt_none in E as ->. apply Permutation_nil_r in H as ->. done.
Qed.

(** The exponent and the mantissa order the frame times. *)
Definition magnitude (x : f64) : Z * Z :=
  match x with SpecFloat.S754_finite _ m e => (e, Zpos m) | _ => (0, 0) end.

Definition magnitude_le (x y : f64) : Prop :=
  (magnitude x).1 < (magnitude y).1
  \/ (magnitude x).1 = (magnitude y).1 /\ (magnitude x).2 <= (magnitude y).2.

#[local] Instance magnitude_le_dec x y : Decision (magnitude_le x y).
Proof. unfold magnitude_le. apply _. Defined.
#[local] Instance magnitude_le_trans : Transitive magnitude_le.
Proof. intros x y z. unfold magnitude_le. lia. Qed.
#[local] Instance magnitude_le_total : Total magnitude_le.
Proof. intros x y. unfold magnitude_le. lia. Qed.

Definition frametime (t : f64) : Prop := is_valid_frametime_ms t = true.

Lemma frametime_inv t : frametime t -> exists m e, t = SpecFloat.S754_finite false m e.
Proof. destruct t as [[]|[]| |[] m e]; try done. intros _. by exists m, e. Qed.

Lemma compare_finite m e m' e' :
  SpecFloat.SFcompare (SpecFloat.S754_finite false m e) (SpecFloat.S754_finite false m' e')
  = Some (match (e ?= e') with Lt => Lt | Gt => Gt | Eq => (m ?= m')%positive end).
Proof. done. Qed.

Lemma partial_le_magnitude a b : frametime a -> frametime b -> partial_le a b <-> magnitude_le a b.
Proof.
  intros (m & e & ->)%frametime_inv (m' & e' & ->)%frametime_inv. unfold partial_le, magnitude_le.
  rewrite compare_finite. cbn [magnitude fst snd].
  destruct (Z.compare_spec e e'), (Pos.compare_spec m m'); subst; split;
    try (intros _; lia); intros H'; congruence || (exfalso; lia).
Qed.

Lemma stable_sort_ext {A} (R S : relation A) `{!forall x y, Decision (R x y)}
    `{!forall x y, Decision (S x y)} (P : A -> Prop) (l : list A) :
  (forall x y, P x -> P y -> R x y <-> S x y) -> Forall P l -> stable_sort R l = stable_sort S l.
Proof.
  intros HRS. unfold stable_sort. induction 1 as [|x l Hx Hl IH]; [done|]. cbn. rewrite IH.
  assert (Forall P (stable_sort S l)) as Hs by (by rewrite stable_sort_Permutation).
  unfold stable_sort in Hs. clear IH Hl. induction Hs as [|y k Hy Hk IH]; [done|]. cbn.
  destruct (decide (R x y)) as [HR|HR], (decide (S x y)) as [HS|HS]; try done.
  - exfalso. apply HS. by apply HRS.
  - exfalso. apply HR. by apply HRS.
  - by rewrite IH.
Qed.

Lemma sort_frametimes_perm (l k : list f64) :
  Forall frametime l -> l ≡ₚ k -> stable_sort partial_le l = stable_sort partial_le k.
Proof.
  intros Hl H. assert (Forall frametime k) as Hk by (by rewrite <-H).
  rewrite !(stable_sort_ext partial_le magnitude_le frametime) by (done || apply partial_le_magnitude).
  apply (StronglySorted_unique_strong magnitude_le); try apply StronglySorted_stable_sort; try apply _.
  - intros x y Hx Hy. rewrite stable_sort_Permutation in Hx, Hy. rewrite Forall_forall in Hl, Hk.
    destruct (frametime_inv x (Hl x Hx)) as (m & e & ->), (frametime_inv y (Hk y Hy)) as (m' & e' & ->).
    unfold magnitude_le. cbn. intros. assert (e = e') as -> by lia. assert (m = m') as -> by lia. done.
  - by rewrite !stable_sort_Permutation.
Qed.

Lemma percentile_perm (l k : list f64) p :
  Forall frametime l -> l ≡ₚ k -> percentile_f64 l p = percentile_f64 k p.
Proof.
  intros Hl H. unfold percentile_f64. rewrite (sort_frametimes_perm l k Hl H), (Permutation_length H).
  destruct l as [|x l], k as [|y k]; try done.
  by apply Permutation_nil_cons in H.
Qed.

Lemma f64_max_swap acc a b :
  acc = f64_zero \/ frametime acc -> frametime a -> frametime b ->
  f64_max (f64_max acc a) b = f64_max (f64_max acc b) a.
Proof.
  intros Hacc (m & e & ->)%frametime_inv (m' & e' & ->)%frametime_inv.
  destruct Hacc as [->|(m0 & e0 & ->)%frametime_inv]; unfold f64_max at 2 4.
  - cbn [SpecFloat.SFcompare f64_zero]. unfold f64_max. rewrite !compare_finite.
    destruct (Z.compare_spec e e'), (Z.compare_spec e' e), (Pos.compare_spec m m'), (Pos.compare_spec m' m);
      subst; try done; exfalso; lia.
  - rewrite !compare_finite.
    destruct (Z.compare_spec e0 e), (Z.compare_spec e0 e'), (Pos.compare_spec m0 m), (Pos.compare_spec m0 m');
      subst; unfold f64_max; rewrite !compare_finite;
      repeat match goal with |- context [ (?x ?= ?y) ] => destruct (Z.compare_spec x y) end;
      repeat match goal with |- context [ (?x ?= ?y)%positive ] => destruct (Pos.compare_spec x y) end;
      subst; try done; try (exfalso; lia).
Qed.

Lemma f64_max_domain acc a : acc = f64_zero \/ frametime acc -> frametime a -> f64_max acc a = f64_zero \/ frametime (f64_max acc a).
Proof.
  intros Hacc Ha. unfold f64_max. destruct (SpecFloat.SFcompare acc a) as [[]|]; auto.
  destruct acc; auto.
Qed.

Lemma frame_max_perm (l k : list f64) :
  Forall frametime l -> l ≡ₚ k -> foldl f64_max f64_zero l = foldl f64_max f64_zero k.
Proof.
  intros Hl H. assert (f64_zero = f64_zero \/ frametime f64_zero) as H0 by (by left).
  revert Hl H0. generalize f64_zero at 1 3 4 5. 
  induction H as [|x l k H IH|x y l|l k k' H IH H' IH']; intros acc Hl Hacc; cbn [foldl].
  - done.
  - apply Forall_cons_1 in Hl as [Hx Hl]. apply IH; [done|]. by apply f64_max_domain.
  - apply Forall_cons_1 in Hl as [Hx [Hy _]%Forall_cons_1]. by rewrite f64_max_swap.
  - rewrite IH by done. apply IH'; [by rewrite <-H|done].
Qed.

End Orders.

(** *** The score of a window *)

Section WindowScore.
Implicit Types (d : Z) (ops : list WindowOp) (l : list Sample).

(** The interval records and the frame times of a log, in the order of arrival. *)
Definition log_intervals d ops : list IntervalRecord := omap as_interval (log_run d ops).1.
Definition log_frametimes d ops : list f64 := fe_frametime_ms <$> omap as_frame (log_run d ops).1.

(** The counters of a record are unsigned. *)
Definition record_typed (r : IntervalRecord) : Prop :=
  0 <= ir_samples r /\ 0 <= ir_over_1ms r /\ 0 <= ir_over_2ms r /\ 0 <= ir_over_5ms r
  /\ 0 <= DropCountersSnapshot_total (ir_drop_counters r).

Lemma window_intervals_perm d ops : rw_intervals (window_run d ops) ≡ₚ log_intervals d ops.
Proof.
  pose proof (rep_intervals _ _ _ _ (window_represents d ops)) as ->. apply sort_perm.
Qed.

Lemma window_frames_perm d ops :
  fe_frametime_ms <$> rw_frames (window_run d ops) ≡ₚ log_frametimes d ops.
Proof.
  pose proof (rep_frames _ _ _ _ (window_represents d ops)) as ->. unfold log_frametimes, queue_of.
  by rewrite sort_perm.
Qed.

Definition frames_ok l : Prop := Forall (fun s => forall f, s = SFrame f -> frametime (fe_frametime_ms f)) l.

Lemma frames_ok_filter (P : Sample -> Prop) `{!forall x, Decision (P x)} l :
  frames_ok l -> frames_ok (filter P l).
Proof.
  unfold frames_ok. rewrite !Forall_forall. intros Hl s [_ Hs]%list_elem_of_filter. by apply Hl.
Qed.

Lemma frames_ok_push (P : Sample -> Prop) `{!forall x, Decision (P x)} l k :
  frames_ok l -> frames_ok k -> frames_ok (filter P (l ++ k)).
Proof. intros. apply frames_ok_filter. by apply Forall_app. Qed.

Lemma frames_ok_step d l n op : frames_ok l -> frames_ok (log_step d (l, n) op).1.
Proof.
  intros H.
  assert (forall s, (forall f, s = SFrame f -> frametime (fe_frametime_ms f)) -> frames_ok [s]) as H1
    by (intros; by repeat constructor).
  destruct op; cbn -[is_valid_frametime_ms]; unfold log_push, log_prune;
    try (apply frames_ok_push; [done|apply H1; by intros]); try by apply frames_ok_filter.
  - destruct records as [|r rs]; [done|]. destruct (max_opt _); [|done]. cbn [fst].
    apply frames_ok_push; [done|]. apply Forall_fmap, Forall_forall. by intros r' _ f.
  - destruct (is_valid_frametime_ms _) eqn:E; cbn [fst].
    + apply frames_ok_push; [done|]. apply H1. by intros f [= <-].
    + by apply frames_ok_filter.
  - destruct (or_else_latest _ _); [|done]. apply frames_ok_push; [done|]. by apply H1.
  - destruct (log_latest l); [|done]. by apply frames_ok_filter.
  - constructor.
Qed.

Lemma log_frames_ok d ops : frames_ok (log_run d ops).1.
Proof.
  assert (forall st, frames_ok st.1 -> frames_ok (foldl (log_step d) st ops).1) as H
    by (induction ops as [|op ops IH]; intros [l n] Hl; [done|]; by apply IH, frames_ok_step).
  apply H. constructor.
Qed.

Lemma log_frametimes_ok d ops : Forall frametime (log_frametimes d ops).
Proof.
  pose proof (log_frames_ok d ops) as H. unfold frames_ok in H. rewrite Forall_forall in H.
  apply Forall_fmap, Forall_forall. intros f (s & Hs & Hf)%list_elem_of_omap.
  destruct s; simplify_eq/=. by apply (H _ Hs).
Qed.

Lemma valid_frametimes_perm d ops : valid_frametimes (window_run d ops) ≡ₚ log_frametimes d ops.
Proof.
  unfold valid_frametimes. rewrite window_frames_perm. rewrite filter_all; [done|].
  apply log_frametimes_ok.
Qed.

Lemma sum_of_window d ops (f : IntervalRecord -> Z) :
  Forall (fun r => 0 <= f r) (log_intervals d ops) ->
  sum_sat (f <$> rw_intervals (window_run d ops))
  = Z.min (Metrics.sum_list (f <$> log_intervals d ops)) U64_MAX.
Proof.
  intros H. rewrite sum_sat_spec.
  - f_equal. apply sum_list_perm. by rewrite window_intervals_perm.
  - by rewrite window_intervals_perm, Forall_fmap.
Qed.

Lemma scored_tasks_perm (a b : list IntervalRecord) : a ≡ₚ b -> scored_tasks a ≡ₚ scored_tasks b.
Proof.
  intros H. unfold scored_tasks. apply NoDup_Permutation; [apply NoDup_remove_dups..|].
  intros x. rewrite !elem_of_remove_dups. by rewrite H.
Qed.

(** The counters of the records of a window. *)
Lemma typed_counter d ops (f : IntervalRecord -> Z) :
  Forall record_typed (log_intervals d ops) -> (forall r, record_typed r -> 0 <= f r) ->
  sum_sat (f <$> rw_intervals (window_run d ops))
  = Z.min (Metrics.sum_list (f <$> log_intervals d ops)) U64_MAX.
Proof. intros H Hf. apply sum_of_window. eapply Forall_impl; [exact H|done]. Qed.

(** *** The quality of a window *)

(** The data of a window is not too thin to act on. *)
Record sufficient (w : RollingWindow) (p : OnlineDataQualityPolicy) : Prop := {
  enough_intervals : qp_min_scored_intervals p <= Z.of_nat (length (rw_intervals w));
  enough_samples : qp_min_scored_samples p <= window_scored_samples w;
  some_scored_task : exists r, r ∈ rw_intervals w /\ 0 < ir_samples r;
  few_drops :
    sum_sat ((fun r => DropCountersSnapshot_total (ir_drop_counters r)) <$> rw_intervals w)
    <= qp_max_drop_counter_total p;
  frames_when_required : qp_frame_data_policy p = FdRequired -> rw_frames w <> [] }.

Lemma scored_tasks_nil records : scored_tasks records = [] <-> ~ exists r, r ∈ records /\ 0 < ir_samples r.
Proof.
  unfold scored_tasks. split.
  - intros H [r [Hr Hs]]. assert (ir_task r ∈ @nil Z) as Hn; [|by apply elem_of_nil in Hn].
    rewrite <-H. apply elem_of_remove_dups, list_elem_of_fmap_2. by apply list_elem_of_filter.
  - intros H. destruct (filter _ records) as [|r k] eqn:E; [done|]. exfalso. apply H. exists r.
    assert (r ∈ filter (fun r => 0 < ir_samples r) records) as Hr by (rewrite E; left).
    apply list_elem_of_filter in Hr. by destruct Hr.
Qed.

Lemma reason_if_nil c m : reason_if c m = [] <-> c = false.
Proof. by destruct c. Qed.

(** The reasons that make the data of a window low. *)
Definition window_low_reasons (i : OnlineDataQualityInput) (p : OnlineDataQualityPolicy) : Prop :=
  qi_scored_intervals i < qp_min_scored_intervals p \/ qi_scored_samples i < qp_min_scored_samples p
  \/ qi_scored_task_count i = 0 \/ qp_max_drop_counter_total p < qi_drop_counter_total i
  \/ qi_target_present i = false
  \/ requires_frames (qp_frame_data_policy p) = true /\ qi_frame_count i = 0.

Lemma window_evaluation w p :
  match evaluate_with_policy (window_quality_input w) p with
  | OqLow _ => window_low_reasons (window_quality_input w) p
  | OqMedium _ => ~ window_low_reasons (window_quality_input w) p
                  /\ 0 < qi_drop_counter_total (window_quality_input w)
  | OqHigh => ~ window_low_reasons (window_quality_input w) p
              /\ qi_drop_counter_total (window_quality_input w) <= 0
  end.
Proof.
  set (i := window_quality_input w).
  assert (frame_count_reasons i p = ([], [])) as Hf
    by (unfold frame_count_reasons; by destruct (checks_frame_count_mismatch _)).
  assert (overlap_reasons i p = ([], [])) as Ho by done.
  assert (qi_target_identity_shifted i = false) as Hs by done.
  assert (qi_frame_data_required i = false) as Hr by done. clearbody i.
  unfold evaluate_with_policy. rewrite Hf, Ho, Hs, Hr. cbn [fst snd]. rewrite !app_nil_r, orb_false_r.
  unfold window_low_reasons, drop_reasons, reason_if.
  destruct (Z.ltb_spec (qi_scored_intervals i) (qp_min_scored_intervals p)); cbn; [lia|].
  destruct (Z.ltb_spec (qi_scored_samples i) (qp_min_scored_samples p)); cbn; [lia|].
  destruct (Z.eqb_spec (qi_scored_task_count i) 0); cbn; [lia|].
  destruct (Z.ltb_spec (qp_max_drop_counter_total p) (qi_drop_counter_total i)); cbn; [lia|].
  destruct (qi_target_present i); cbn; [|destruct (0 <? qi_drop_counter_total i); cbn; by auto 10].
  destruct (requires_frames _); cbn; destruct (Z.eqb_spec (qi_frame_count i) 0); cbn;
    destruct (Z.ltb_spec 0 (qi_drop_counter_total i)); cbn; try (by auto 10); split; try lia;
    intros Hl; destruct_or? Hl; try lia; naive_solver lia.
Qed.

Lemma sufficient_iff w p : sufficient w p <-> ~ window_low_reasons (window_quality_input w) p.
Proof.
  unfold window_low_reasons. cbn [window_quality_input qi_scored_intervals qi_scored_samples
    qi_scored_task_count qi_drop_counter_total qi_target_present qi_frame_count].
  pose proof (scored_tasks_nil (rw_intervals w)) as Ht.
  split.
  - intros [Hi Hs [r Hr] Hd Hf] H. destruct (scored_tasks (rw_intervals w)) as [|t ts] eqn:E.
    + apply (proj1 Ht eq_refl). by exists r.
    + cbn [length] in H. destruct H as [H|[H|[H|[H|[H|[Hp Hn]]]]]];
        [lia|lia|done|lia|done|].
      apply Hf; [by destruct (qp_frame_data_policy p)|by destruct (rw_frames w)].
  - intros H. split; try lia.
    + destruct (scored_tasks (rw_intervals w)) as [|t ts] eqn:E; [exfalso; apply H; auto|].
      destruct (decide (Exists (fun r => 0 < ir_samples r) (rw_intervals w))) as [He|He].
      * apply Exists_exists in He as (r & ? & ?). by exists r.
      * exfalso. assert (t :: ts = []); [|done]. apply Ht. intros (r & ? & ?). apply He, Exists_exists. by exists r.
    + intros Hp Hw. apply H. do 5 right. by rewrite Hp, Hw.
Qed.

(** The score of a rolling window is a function of the samples in its log,
    whatever the order in which they arrived: the counters are the sums over the
    interval records, saturated once, the maximum is theirs, the tasks are counted
    once, the frame percentile and maximum are those of the frame times. *)
Theorem window_score_exact (duration_nanos : Z) (ops : list WindowOp) (policy : OnlineDataQualityPolicy) :
  let records := log_intervals duration_nanos ops in
  let times := log_frametimes duration_nanos ops in
  let total f := Z.min (Metrics.sum_list (f <$> records)) U64_MAX in
  let s := compute_rolling_window_score (window_run duration_nanos ops) policy in
  Forall record_typed records ->
  ws_interval_count s = Z.of_nat (length records)
  /\ ws_scored_task_count s = Z.of_nat (length (scored_tasks records))
  /\ ws_scored_samples s = total ir_samples
  /\ ws_over_1ms s = total ir_over_1ms /\ ws_over_2ms s = total ir_over_2ms
  /\ ws_over_5ms s = total ir_over_5ms
  /\ ws_diagnostic_score_total s
     = weighted_total (total ir_over_5ms) (total ir_over_2ms) (total ir_over_1ms)
  /\ ws_max_latency_ns s = default 0 (max_opt (ir_max_ns <$> records))
  /\ ws_frame_count s = Z.of_nat (length times)
  /\ ws_frame_p99_ms s = percentile_f64 times P99
  /\ ws_frame_max_ms s = foldl f64_max f64_zero times
  /\ ws_dropped_invalid_frames s = (log_run duration_nanos ops).2.
Proof.
  intros records times total s Hr. subst s records times total.
  cbn [compute_rolling_window_score ws_interval_count ws_scored_task_count ws_scored_samples
    ws_over_1ms ws_over_2ms ws_over_5ms ws_diagnostic_score_total ws_max_latency_ns ws_frame_count
    ws_frame_p99_ms ws_frame_max_ms ws_dropped_invalid_frames]. unfold window_scored_samples.
  rewrite !typed_counter by (done || unfold record_typed; lia).
  pose proof (window_intervals_perm duration_nanos ops) as Hp.
  pose proof (valid_frametimes_perm duration_nanos ops) as Hv.
  pose proof (log_frametimes_ok duration_nanos ops) as Hok.
  assert (Forall frametime (valid_frametimes (window_run duration_nanos ops))) as Hok' by (by rewrite Hv).
  split_and!; try done.
  - by rewrite Hp.
  - by rewrite (scored_tasks_perm _ _ Hp).
  - by rewrite (max_opt_perm _ _ (fmap_Permutation _ _ _ Hp)).
  - rewrite <-(window_frames_perm duration_nanos ops). by rewrite length_fmap.
  - by apply percentile_perm.
  - by apply frame_max_perm.
  - apply (rep_dropped _ _ _ _ (window_represents duration_nanos ops)).
Qed.

(** The data of a window blocks actions exactly when it is too thin: too few
    intervals or samples, no task with a sample, more dropped events than the policy
    allows, or no frame where frames are required. It is of high quality exactly when
    moreover no event was dropped. *)
Theorem window_quality_exact (w : RollingWindow) (policy : OnlineDataQualityPolicy) :
  let q := ws_data_quality (compute_rolling_window_score w policy) in
  (blocks_action q = false <-> sufficient w policy)
  /\ (q = OqHigh <-> sufficient w policy
      /\ sum_sat ((fun r => DropCountersSnapshot_total (ir_drop_counters r)) <$> rw_intervals w) <= 0).
Proof.
  cbn [compute_rolling_window_score ws_data_quality]. rewrite sufficient_iff.
  pose proof (window_evaluation w policy) as H.
  change (sum_sat _) with (qi_drop_counter_total (window_quality_input w)).
  destruct (evaluate_with_policy _ _); cbn [blocks_action].
  - destruct H. done.
  - destruct H as [H Hd]. split; [done|]. split; [done|]. intros [_ ?]. lia.
  - split; split; try done. by intros [? _].
Qed.

End WindowScore.

(** *** From samples to a verdict *)

(** The runnable population of the signals of a target. *)
Lemma observed_population w target starttime :
  population (observed_signals w target starttime)
  = population (set_runnable_latency_from_records
      (set_target_starttime (set_target_root (queue_signals w) (fst <$> target)) starttime)
      (runnable_target_records w target)).
Proof.
  unfold observed_signals, bind_target_identity, compute_objective_signals.
  destruct (compile_work w target) as [work|e]; [|done].
  cbn [sig_compile_fixed_work set_target_starttime set_compile_work].
  by case_bool_decide.
Qed.

(** The target's records in the window are those that arrived for it. *)
Lemma target_records_arrived d ops target :
  runnable_target_records (window_run d ops) target
  ≡ₚ filter (fun r => in_target target r = true) (log_intervals d ops).
Proof. unfold runnable_target_records. by rewrite window_intervals_perm. Qed.

Lemma observed_target w target starttime :
  sig_runnable_target_root_pid (observed_signals w target starttime) = fst <$> target
  /\ sig_runnable_target_starttime_ticks (observed_signals w target starttime) = starttime.
Proof.
  unfold observed_signals, bind_target_identity, compute_objective_signals.
  destruct (compile_work w target) as [work|e]; [|done].
  cbn [sig_compile_fixed_work set_target_starttime set_compile_work].
  by case_bool_decide.
Qed.

(** C17. A runnable-latency improvement is real, from the samples to the verdict: when
    the signals of two rolling windows, each after any sequence of operations, are
    compared and the candidate is called improved, the target is the same process
    and, among the latencies behind the target's interval records in the two windows,
    those over 5 ms are no larger a share in the candidate (exactly), and the exact 99th
    percentile of the candidate is below the baseline's, or the two are in the same
    histogram bucket. All arithmetic of the code, floating point included, is
    accounted for. *)
Theorem window_improvement_is_real (input : ObjectiveComparisonInput) (p : f64)
    (d : Z) (ops_b ops_c : list WindowOp) (target_b target_c : option (Z * list Z))
    (start_b start_c : option Z) (lb lc : list (list Z)) :
  oci_objective input = GameRunnableLatency ->
  oci_baseline_signals input = observed_signals (window_run d ops_b) target_b start_b ->
  oci_candidate_signals input = observed_signals (window_run d ops_c) target_c start_c ->
  window_latencies (runnable_target_records (window_run d ops_b) target_b) lb ->
  window_latencies (runnable_target_records (window_run d ops_c) target_c) lc ->
  compare_for_objective input = Improved p ->
  let Lb := List.concat lb in
  let Lc := List.concat lc in
  fst <$> target_b = fst <$> target_c /\ start_b = start_c
  /\ count_of (fun x => 5000000 < x) Lc * Z.of_nat (length Lb)
     <= count_of (fun x => 5000000 < x) Lb * Z.of_nat (length Lc)
  /\ (forall qb qc,
        order_statistic Lb ((Z.of_nat (length Lb) * 990 + 999) / 1000) qb ->
        order_statistic Lc ((Z.of_nat (length Lc) * 990 + 999) / 1000) qc ->
        qc < qb \/ bucket_idx qc = bucket_idx qb).
Proof.
  intros Ho Hb Hc Hwb Hwc H Lb Lc.
  destruct (runnable_compare_improved _ _ Ho H) as (_ & _ & _ & _ & Ht & _).
  unfold target_changed in Ht. rewrite Hb, Hc in Ht.
  destruct (observed_target (window_run d ops_b) target_b start_b) as [Erb Esb].
  destruct (observed_target (window_run d ops_c) target_c start_c) as [Erc Esc].
  rewrite Erb, Esb, Erc, Esc in Ht. apply orb_false_iff in Ht as [Hr Hs].
  apply negb_false_iff, bool_decide_eq_true in Hr, Hs. split; [done|]. split; [done|].
  eapply runnable_improvement; [done| | |done|done|done];
    [rewrite Hb|rewrite Hc]; apply observed_population.
Qed.

(** The progress markers of a target in the window, in time order. *)
Definition target_markers (w : RollingWindow) (root : Z) : list WorkloadProgress :=
  wpr_progress <$> filter (fun r => (wp_target_root_pid (wpr_progress r) =? root) = true) (rw_workload_progress w).

Lemma compile_work_inl w root members work :
  compile_work w (Some (root, members)) = inl work
  <-> target_markers w root = [fw_start work; fw_complete work]
      /\ FixedWorkMeasurement_validate work = None
      /\ fwi_kind (wp_identity (fw_start work)) = WkCompile.
Proof.
  unfold compile_work, target_markers, progress_of_target. generalize (wpr_progress <$> filter (fun r =>
    (wp_target_root_pid (wpr_progress r) =? root) = true) (rw_workload_progress w)) as ms. intros ms.
  split.
  - destruct ms as [|s [|c [|]]]; try done. cbn [completed_fixed_work].
    destruct (FixedWorkMeasurement_validate _) eqn:E; [done|]. cbn. destruct (fwi_kind _) eqn:Ek; [|done].
    by intros [= <-].
  - intros (-> & Hv & Hk). destruct work as [s c]. cbn [completed_fixed_work fw_start fw_complete] in *.
    rewrite Hv. cbn. by rewrite Hk.
Qed.

(** Fixed work counts only when it is unambiguous: the signals carry a compile
    measurement exactly when the progress markers of the target in the window are one
    start and one successful completion of the same work, by the very process (by its
    start time) that is observed; with a second build, a failure or a marker of another
    process identity there is none, so no build is ever picked among several. The signal
    is direct exactly when there is a measurement. *)
Theorem compile_work_exact (w : RollingWindow) (root : Z) (members : list Z) (starttime : option Z)
    (work : FixedWorkMeasurement) :
  let s := observed_signals w (Some (root, members)) starttime in
  (sig_compile_fixed_work s = Some work
   <-> target_markers w root = [fw_start work; fw_complete work]
       /\ FixedWorkMeasurement_validate work = None
       /\ fwi_kind (wp_identity (fw_start work)) = WkCompile
       /\ starttime = Some (wp_target_starttime_ticks (fw_start work)))
  /\ (sq_compile_throughput (sig_signal_quality s) = SigDirect <-> is_Some (sig_compile_fixed_work s))
  /\ (sig_compile_fixed_work s = None
      -> sq_compile_throughput (sig_signal_quality s) = SigMissing
         /\ is_Some (sig_compile_fixed_work_unavailable_reason s)).
Proof.
  intros s. pose proof (compile_work_inl w root members work) as Hw.
  subst s. unfold observed_signals, bind_target_identity, compute_objective_signals.
  destruct (compile_work w (Some (root, members))) as [m|e] eqn:E;
    cbn [sig_compile_fixed_work set_target_starttime set_compile_work].
  - assert (inl m = inl work :> FixedWorkMeasurement + string <-> m = work) as Hm by (split; congruence).
    rewrite Hm in Hw. clear E. case_bool_decide as Hs; cbn; (split; [|split]).
    + split; [intros [= ->]|intros (H1 & H2 & H3 & _); f_equal; by apply Hw].
      destruct (proj1 Hw eq_refl) as (? & ? & ?). by split_and!.
    + done.
    + done.
    + split; [done|]. intros (H1 & H2 & H3 & ->). exfalso. apply Hs. by rewrite (proj2 Hw) by done.
    + split; [done|by intros [? ?]].
    + intros _. by split.
  - cbn. split; [|split].
    + split; [done|]. intros (H1 & H2 & H3 & _). by discriminate (proj2 Hw (conj H1 (conj H2 H3))).
    + split; [done|by intros [? ?]].
    + intros _. by split.
Qed.
