(* ===== verification/MeasureRuns.v ===== *)
(** * Concrete windows

    Two tasks of a game over an interval, a baseline and a candidate window of a
    thousand latencies each, and two window scores: the theorems of [Metrics],
    [Intervals], [RunnableSignal], [Score] and [Objective] at these inputs. *)

From Stdlib Require Import String List.
From S2P Require Import Prelude Binary64 Abi Metrics Intervals RunnableSignal Score Objective.
From stdpp Require Import sorting list.
Open Scope Z_scope.

(** ** Events of a task *)

Definition fresh_task (id : Z) (class : TaskClass) : TaskStats :=
  {| ts_task := id; ts_comm := "game"; ts_class := class; ts_process_pid := Some 42;
     ts_process_comm := "game"; ts_process_starttime_ticks := Some 100;
     ts_task_starttime_ticks := Some 100; ts_exe_dev := None; ts_exe_ino := None;
     ts_active := true; ts_first_seen_ms := 0; ts_last_seen_ms := 0; ts_removed_ms := None;
     interval_latency := LatencyStats_new; interval_cpu := ∅; interval_cpu_perf := None;
     session_latency := LatencyStats_new; session_cpu := ∅; session_cpu_perf := None;
     top_spikes := []; migration_count := 0; cross_numa_migrations := 0; waker_counts := ∅;
     ts_sched_policy := None; stat_wait_sum_ns := 0; stat_wait_count := 0;
     last_spike_major_faults := 0; last_spike_minor_faults := 0; ts_from_cgroup := false;
     histogram_truncation_warned := false |}.

Definition woken (tid latency : Z) : SchedulerEvent :=
  {| se_kind := EVENT_RUNNABLE_LATENCY; se_tid := tid; se_cpu := 1; se_wakeup_target_cpu := 1; se_prio := 120;
     se_waker_tid := 7; se_target_pending_wakeups := 0; se_observed_runnable_depth := 1;
     se_maj_flt := 0; se_min_flt := 0; se_wakeup_ns := 1000; se_switch_ns := 1000 + latency;
     se_latency_ns := latency; se_comm := replicate 16 0; se_switch_prev_pid := 3; se_pad0 := 0;
     se_switch_prev_state := 1 |}.

Definition recorded (tid : Z) (l : list Z) : list Recorded := (fun x => (woken tid x, 5, None)) <$> l.

Lemma latencies_recorded tid l : latencies (recorded tid l) = l.
Proof. unfold latencies, recorded. rewrite <- list_fmap_compose. apply list_fmap_id. Qed.

(** ** [Metrics] and [Intervals] *)

Definition some_latencies : list Z := [300000; 1500000; 7000000; 20000; 2500000].

Lemma in_u64_check l : forallb (fun x => (0 <=? x) && (x <? 2 ^ 64)) l = true -> Forall in_u64 l.
Proof.
  intros H. apply Forall_forall. intros x Hx. rewrite List.forallb_forall in H.
  apply list_elem_of_In, H in Hx. unfold in_u64. lia.
Qed.

Lemma latency_snapshot_exact_witness :
  exists sn, (LatencyStats_snapshot (stats_of some_latencies)).2 = Some sn /\ describes sn some_latencies.
Proof.
  apply latency_snapshot_exact; [discriminate|apply in_u64_check; vm_compute; reflexivity|reflexivity].
Defined.

(** Task 43 is silent. *)
Definition events (task : Z) : list Recorded := if task =? 42 then recorded 42 some_latencies else [].
Definition tracked : TaskStatsMap :=
  {[ 42 := feed 2000000 (fresh_task 42 Game) (events 42);
     43 := feed 2000000 (fresh_task 43 GameHelper) (events 43) ]}.
Definition no_drops : DropCountersSnapshot :=
  {| dc_wakeup_data_insert_failed := 0; dc_wakeup_data_stale_entries := 0;
     dc_wakeup_data_replaced_entries := 0; dc_wakeup_data_consumed_read_failed := 0;
     dc_ringbuf_reserve_failed := 0; dc_irq_start_times_insert_failed := 0;
     dc_block_start_insert_failed := 0; dc_block_fallback_key_collisions := 0;
     dc_cpu_accounting_untracked := 0; dc_block_zero_keys := 0; dc_drm_fence_missing_start := 0 |}.

Lemma interval_collection_complete_witness :
  let '(m', _, records) := collect_interval_summaries tracked 1000 no_drops None None ∅ in
  ir_task <$> records = [42] /\
  (forall task s', m' !! task = Some s' -> summarises (interval_latency s') []).
Proof.
  pose proof (interval_collection_complete 2000000 1000 no_drops None None events tracked ∅) as H.
  lapply H.
  - clear H. destruct (collect_interval_summaries tracked 1000 no_drops None None ∅) as [[m' pf] records] eqn:E.
    intros (Ht & _ & _ & Hs). split; [|exact Hs]. rewrite Ht. vm_compute. reflexivity.
  - intros task s Hs. unfold tracked in Hs.
    assert (Hc : (task = 42 \/ task = 43) /\ exists c, s = feed 2000000 (fresh_task task c) (events task)).
    { apply lookup_insert_Some in Hs as [[<- <-]|[_ Hs]]; [split; [by left|]; by exists Game|].
      apply lookup_singleton_Some in Hs as [<- <-]. split; [by right|]. by exists GameHelper. }
    destruct Hc as [Hc [c ->]]. split.
    + exists (fresh_task task c). split; [apply summarises_new|done].
    + split; destruct Hc as [-> | ->]; [apply in_u64_check; vm_compute; reflexivity..|reflexivity|reflexivity].
Defined.

Lemma top_spikes_are_largest_witness :
  sp_latency_ns <$> top_spikes (feed 2000000 (fresh_task 42 Game) (recorded 42 some_latencies))
    = [7000000; 2500000].
Proof. rewrite top_spikes_are_largest by reflexivity. vm_compute. reflexivity. Defined.

(** ** Windows of records *)

(** The record of task 42 after the latencies. *)
Definition record_of (l : list Z) : option IntervalRecord :=
  (collect_task 1000 no_drops None None ∅ 42 (feed 2000000 (fresh_task 42 Game) (recorded 42 l))).2.
Definition records_of (l : list Z) : list IntervalRecord := option_list (record_of l).

Lemma records_of_latencies l :
  l <> [] -> forallb (fun x => (0 <=? x) && (x <? 2 ^ 64)) l = true -> Z.of_nat (length l) < 2 ^ 64 ->
  window_latencies (records_of l) [l].
Proof.
  intros Hl Hu%in_u64_check Hlen.
  assert (Hs : summarises (interval_latency (feed 2000000 (fresh_task 42 Game) (recorded 42 l))) l).
  { rewrite feed_interval_latency, latencies_recorded. by apply summarises_feed; [apply summarises_new|..]. }
  destruct (collect_task_describes 1000 no_drops None None ∅ 42 _ l Hs Hl Hu Hlen)
    as (s' & pf & r & E & Hd & Hc & _).
  unfold records_of, record_of, window_latencies, primary_records. rewrite E. cbn [snd option_list option_rect].
  assert (Hclass : is_primary_game_class (ir_class r) = true)
    by (rewrite Hc, (proj1 (feed_identity _ _ _)); reflexivity).
  split; [|cbn; by rewrite app_nil_r].
  rewrite filter_cons_True by (by rewrite Hclass). rewrite filter_nil. constructor; [|constructor].
  by split_and!.
Qed.


(** ** Scores *)

Definition window (samples weighted over5 : Z) : WindowScore :=
  {| started_unix_nanos := 1; finished_unix_nanos := 2; interval_count := 10;
     scored_samples := samples; scored_task_count := 3;
     score := {| Score.total := weighted; over_1ms := 0; over_2ms := 0; over_5ms := over5;
                 max_latency_ns := 9000000; frame_max_ms := f64_zero; frame_p99_ms := f64_zero;
                 frame_over_16ms := 0; frame_over_33ms := 0; frame_over_50ms := 0 |} |}.

Definition judged (b c : WindowScore) : ScoreComparisonInput :=
  {| sci_baseline := b; sci_candidate := c; sci_data_quality := QHigh; sci_target_disappeared := false |}.

Definition verdict (b c : WindowScore) : ExperimentResult :=
  compare_scores_with_config (judged b c) DEFAULT_SCORE_COMPARISON_CONFIG None.

Definition percent_of (r : ExperimentResult) : f64 := match r with Improved p => p | _ => f64_zero end.

Definition gain : f64 := percent_of (verdict (window 1000 500 3) (window 1000 200 2)).

Lemma improvement_is_one_way_witness :
  better_window (window 1000 500 3) (window 1000 200 2) /\
  verdict (window 1000 200 2) (window 1000 500 3) <> Improved gain.
Proof.
  destruct (improvement_is_one_way (judged (window 1000 500 3) (window 1000 200 2))
    DEFAULT_SCORE_COMPARISON_CONFIG DEFAULT_SCORE_COMPARISON_CONFIG gain gain
    (window 1000 500 3) (window 1000 200 2)) as [[H _] H'];
    [vm_compute; reflexivity|vm_compute; reflexivity|reflexivity|reflexivity|vm_compute; reflexivity|].
  split; [exact H|]. exact (H' (judged (window 1000 200 2) (window 1000 500 3)) eq_refl eq_refl).
Defined.

(** ** Objectives *)

(** 990 short latencies and ten longer ones. *)
Definition slow : list Z := replicate 980 300000 ++ replicate 20 7000000.
Definition fast : list Z := replicate 980 300000 ++ replicate 20 1500000.

Definition target_signals : ObjectiveSignals := runnable_signals_for_target [] 42 100.

Definition runnable_input : ObjectiveComparisonInput :=
  {| oci_objective := GameRunnableLatency;
     oci_baseline := window 1000 500 20; oci_candidate := window 1000 200 0;
     oci_baseline_signals := set_runnable_latency_from_records target_signals (records_of slow);
     oci_candidate_signals := set_runnable_latency_from_records target_signals (records_of fast);
     oci_data_quality := QHigh; oci_target_disappeared := false |}.

Definition runnable_gain : f64 := percent_of (od_outcome (explain_for_objective runnable_input)).

Lemma runnable_improved : od_outcome (explain_for_objective runnable_input) = Improved runnable_gain.
Proof. vm_compute. reflexivity. Qed.

Lemma improved_has_no_guard_failures_witness :
  od_guard_failures (explain_for_objective runnable_input) = [].
Proof. apply (improved_has_no_guard_failures runnable_input runnable_gain). exact runnable_improved. Defined.
