(* ===== verification/WindowRuns.v ===== *)
(** * Runs of the measurement window

    Witnesses of the theorems of [RollingWindow] and [WindowSignals], and runs that show
    the window at work: samples in and out of order, a refused frame, a late frame. *)

From Stdlib Require Import Ascii String.
From S2P Require Import Prelude Binary64 Abi Metrics Intervals RunnableSignal Score PolicyModel Objective Controller FocusModel RollingWindow WindowSignals MeasureRuns.
From stdpp Require Import list sorting.
Open Scope Z_scope.

Definition frame (elapsed time : Z) : FrameEvent := {| fe_elapsed_ms := elapsed; fe_frametime_ms := f64_of_Z time |}.

Definition irq (elapsed : option Z) (duration : Z) : IrqEventRecord :=
  {| iq_elapsed_ms := elapsed; iq_irq := 7; iq_cpu := 1; iq_enter_ns := 0; iq_exit_ns := duration;
     iq_duration_ns := duration |}.

(** Thirty seconds. *)
Definition half_minute : Z := 30000000000.

(** Out of order, in one time, without a time, invalid. *)
Example window_run_example :
  let w := window_run half_minute
             [PushFrame (frame 5000 16); PushFrame (frame 4000 17); PushFrame (frame 5000 18);
              PushFrame (frame 5000 0); PushIrqEvent (irq None 900)] in
  rw_frames w = [frame 4000 17; frame 5000 16; frame 5000 18]
  /\ rw_irq_events w = [irq (Some 5000) 900]
  /\ rw_dropped_invalid_frames w = 1.
Proof. vm_compute. done. Qed.

(** A frame that arrives a minute and a half late stays in a window of half a minute;
    the next frame in time removes it. *)
Example late_frame_example :
  rw_frames (window_run half_minute [PushFrame (frame 100000 16); PushFrame (frame 10000 17)])
  = [frame 10000 17; frame 100000 16]
  /\ rw_frames (window_run half_minute
       [PushFrame (frame 100000 16); PushFrame (frame 10000 17); PushFrame (frame 100001 16)])
     = [frame 100000 16; frame 100001 16].
Proof. vm_compute. done. Qed.

(** ** In order *)

Definition ordered_ops : list WindowOp :=
  [PushFrame (frame 1000 16); PushIrqEvent (irq (Some 20000) 900); PushFrame (frame 40000 17)].
Definition ordered_samples : list Sample :=
  [SFrame (frame 1000 16); SIrq (irq (Some 20000) 900); SFrame (frame 40000 17)].

Lemma in_order_window_exact_witness :
  represents half_minute (window_run half_minute ordered_ops)
    [SIrq (irq (Some 20000) 900); SFrame (frame 40000 17)] 0.
Proof.
  apply (in_order_window_exact half_minute ordered_ops ordered_samples 40000).
  - split; [vm_compute; reflexivity|]. repeat constructor; vm_compute; discriminate.
  - vm_compute. reflexivity.
Defined.

(** ** Scores *)

Definition scored_ops : list WindowOp :=
  [PushIntervals (records_of slow); PushFrame (frame 1500 20); PushFrame (frame 1200 16);
   PushIntervals (records_of fast)].

Definition typed_check (r : IntervalRecord) : bool :=
  (0 <=? ir_samples r) && (0 <=? ir_over_1ms r) && (0 <=? ir_over_2ms r) && (0 <=? ir_over_5ms r)
  && (0 <=? DropCountersSnapshot_total (ir_drop_counters r)).

Lemma typed_records rs : forallb typed_check rs = true -> Forall record_typed rs.
Proof.
  rewrite forallb_forall. intros H. apply Forall_forall. intros r Hr%list_elem_of_In%H.
  unfold typed_check in Hr. unfold record_typed. lia.
Qed.

Lemma window_score_exact_witness :
  let s := compute_rolling_window_score (window_run half_minute scored_ops) OnlineDataQualityPolicy_default in
  ws_scored_samples s = 2000 /\ ws_over_5ms s = 20 /\ ws_frame_max_ms s = f64_of_Z 20
  /\ ws_scored_task_count s = 1.
Proof.
  destruct (window_score_exact half_minute scored_ops OnlineDataQualityPolicy_default)
    as (_ & Ht & Hs & _ & _ & H5 & _ & _ & _ & _ & Hm & _).
  - apply typed_records. vm_compute. reflexivity.
  - split; [rewrite Hs; vm_compute; reflexivity|]. split; [rewrite H5; vm_compute; reflexivity|].
    split; [rewrite Hm; vm_compute; reflexivity|rewrite Ht; vm_compute; reflexivity].
Defined.

(** ** A verdict *)

(** Windows whose records are those of process 42, the target. *)
Definition target : option (Z * list Z) := Some (42, [42]).
Definition ops_of (l : list Z) : list WindowOp := [PushIntervals (records_of l)].

Lemma target_records (l : list Z) :
  l = slow \/ l = fast -> runnable_target_records (window_run half_minute (ops_of l)) target = records_of l.
Proof. by intros [-> | ->]; vm_compute. Qed.

Definition window_input : ObjectiveComparisonInput :=
  {| oci_objective := GameRunnableLatency;
     oci_baseline := window 1000 500 20; oci_candidate := window 1000 200 0;
     oci_baseline_signals := observed_signals (window_run half_minute (ops_of slow)) target (Some 100);
     oci_candidate_signals := observed_signals (window_run half_minute (ops_of fast)) target (Some 100);
     oci_data_quality := QHigh; oci_target_disappeared := false |}.

Lemma window_improvement_is_real_witness :
  count_of (fun x => 5000000 < x) (List.concat [fast]) * Z.of_nat (length (List.concat [slow]))
    <= count_of (fun x => 5000000 < x) (List.concat [slow]) * Z.of_nat (length (List.concat [fast])).
Proof.
  apply (window_improvement_is_real window_input runnable_gain half_minute (ops_of slow) (ops_of fast)
    target target (Some 100) (Some 100) [slow] [fast]).
  - reflexivity.
  - reflexivity.
  - reflexivity.
  - rewrite target_records by (by left). apply records_of_latencies; [discriminate|vm_compute; reflexivity|reflexivity].
  - rewrite target_records by (by right). apply records_of_latencies; [discriminate|vm_compute; reflexivity|reflexivity].
  - vm_compute. reflexivity.
Defined.

(** ** Fixed work *)

Definition build (id : string) (phase : WorkloadPhase) (now elapsed done_units : Z) : WorkloadProgressRecord :=
  {| wpr_elapsed_ms := now / 1000000;
     wpr_progress :=
       {| wp_schema_version := 1; wp_execution_id := id;
          wp_identity :=
            {| fwi_kind := WkCompile;
               fwi_source_tree := "git:0123456789abcdef0123456789abcdef01234567";
               fwi_target := "all"; fwi_build_state := "clean"; fwi_cache_policy := "cold";
               fwi_job_count := 8; fwi_command := ["make"%string]; fwi_working_directory := "/build";
               fwi_toolchain := "gcc"; fwi_environment := "default" |};
          wp_source := ExternalMarker; wp_phase := phase; wp_target_root_pid := 42;
          wp_target_starttime_ticks := 100; wp_monotonic_ns := now; wp_elapsed_ns := elapsed;
          wp_completed_units := done_units; wp_total_units := Some 10 |} |}.

Definition one_build : list WindowOp :=
  [PushWorkloadProgress (build "a" WpStart 1000000000 0 0);
   PushWorkloadProgress (build "a" WpComplete 6000000000 5000000000 10)].
Definition two_builds : list WindowOp :=
  one_build ++ [PushWorkloadProgress (build "b" WpStart 7000000000 0 0);
                PushWorkloadProgress (build "b" WpComplete 9000000000 2000000000 10)].

(** One build is measured; two builds, or a target that started at another time,
    are not. *)
Example fixed_work_example :
  let work ops start := sig_compile_fixed_work (observed_signals (window_run half_minute ops) target start) in
  (wp_elapsed_ns ∘ fw_complete <$> work one_build (Some 100)) = Some 5000000000
  /\ work two_builds (Some 100) = None /\ work one_build (Some 101) = None.
Proof. vm_compute. done. Qed.

(** ** Quality *)

Example quality_example :
  evaluate_with_policy (window_quality_input (window_run half_minute [])) OnlineDataQualityPolicy_default
  = OqLow ["fewer than min_scored_intervals: scored_intervals=0 min_scored_intervals=5";
           "fewer than min_scored_samples: scored_samples=0 min_scored_samples=100";
           "zero scored tasks"; "target disappeared"]%string
  /\ frame_count_low_reason (Some 100) (Some 151) (f64_lit 150 100)
     = Some "frame data mismatch when frame-based scoring is required: frame count ratio 1.51 exceeds 1.50 (baseline_frame_count=100 candidate_frame_count=151)"%string
  /\ f64_fixed 1 (f64_lit 25 100) = "0.2"%string.
Proof. vm_compute. done. Qed.
