(* ===== verification/ControllerRuns.v ===== *)
(** * A concrete controller

    A game under scheduler pressure, the affinity profile the planner proposes for it
    and the windows of [MeasureRuns]: the theorems of [Controller], [ContextKey] and
    [Decide] at these inputs. *)

From Stdlib Require Import String List.
From S2P Require Import Prelude Binary64 Abi Metrics Intervals CpuMask Profiles Nice RunnableSignal Score PolicyModel ActionModel Journal Objective Controller AutonomousGate ContextKey CandidateMemory Decide MeasureRuns.
From stdpp Require Import sorting list.
Open Scope Z_scope.

(** The threads of the game on the first eight CPUs, everything else left alone. *)
Definition game_cores_profile : Profile :=
  {| pf_name := "game-cores";
     pf_rules := [{| pr_affinity := Some {| words := [255] |}; pr_nice := None; pr_ionice := None;
                     pr_match_class := [Game; GameRenderThread]; pr_match_comm := [] |}] |}.

Definition game_cores : CandidateAction :=
  CaCpuAffinityProfile
    {| cap_profile_name := "game-cores"; cap_profile := game_cores_profile; cap_tree_pid := 42;
       cap_objective := GameRunnableLatency |}.

Definition demote_helper : CandidateAction :=
  CaNice {| tp_name := "demote-helper"; tp_action_id := "nice:set:5:targets:1";
            tp_safety_class := ReversibleMediumRisk; tp_target_root_pid := Some 42;
            tp_evidence := [];
            tp_objective := GameRunnableLatency |}
    {| targets := [{| ti_tid := 4712; ti_process_pid := Some 4711; ti_comm := Some "helper"%string;
                      ti_starttime_ticks := Some 900 |}];
       nice := 5; nice_policy := NicePolicy_default |}.

Definition observed (now : Z) (w : WindowScore) (signals : ObjectiveSignals) : AutotuneObservation :=
  {| ob_now_unix_nanos := now; ob_elapsed_ms := 5000; ob_target_present := true;
     ob_target_root_pid := Some 42; ob_active_target_count := 2;
     ob_scored_task_count := scored_task_count w; ob_interval_count := interval_count w;
     ob_scored_samples := scored_samples w; ob_score := score w; ob_data_quality := OqHigh;
     ob_activity_level := AlActive;
     ob_objective_signals := signals; ob_primary_situation := GameCpuSchedulerPressure;
     ob_focus_kind := Some FgGame; ob_focus_confidence := f32_one; ob_focus_reasons := []; ob_topology_signature := None;
     ob_workload_identity := None;
     ob_active_tasks := []; ob_active_config_snapshot := None; ob_frame_p99_ms := f64_zero; ob_frame_max_ms := f64_zero |}.

Definition baseline_view : AutotuneObservation :=
  observed 1000 (oci_baseline runnable_input) (oci_baseline_signals runnable_input).
Definition candidate_view : AutotuneObservation :=
  observed 90000000000 (oci_candidate runnable_input) (oci_candidate_signals runnable_input).

Definition low_risk : ControllerPolicy := for_mode AmApplyLowRisk.

Definition under_way : ActiveExperiment :=
  {| ae_experiment_id := "experiment-1"; ae_candidate := game_cores;
     ae_baseline_score := to_window_score baseline_view;
     ae_baseline_signals := ob_objective_signals baseline_view |}.

Definition measuring : ControllerRuntimeState :=
  set_active (set_phase ControllerRuntimeState_default CpMeasuring) (Some under_way).

(** ** [Controller] *)

Definition kept_as (id : string) (c : CandidateAction) (t : RollbackToken) : KeptCandidateState :=
  KeptCandidateState_new id c (window 1000 500 3) (window 1000 200 2) t 7 "improved".

Definition kept_state : KeptCandidateState := kept_as "kept-1" demote_helper (NiceRestore []).

Definition profile : ActiveProfileState :=
  default ActiveProfileState_default
    (record_kept_candidate ActiveProfileState_default kept_state (Improved gain)).

Lemma kept_actions_never_conflict_witness :
  length (kept_actions profile) = 1%nat /\ NoDup (kept_actions profile).*1.
Proof.
  split; [reflexivity|]. apply (kept_actions_never_conflict profile).
  apply rtc_once. apply (step_keep _ kept_state (Improved gain)). reflexivity.
Defined.

(** ** [ContextKey] *)

Definition context (cgroup : string) (classes : list CandidateClassCount) : CandidateContextHashInput :=
  {| ci_workload_identity := Some "pid:42"; ci_workload_root_pid := Some 42;
     ci_workload_starttime_ticks := Some 100; ci_workload_focus_kind := Some FgGame;
     ci_target_executable := Some (8, 99); ci_cgroup_path := Some cgroup;
     ci_cpu_topology_signature := None; ci_profile_name := "game-cores";
     ci_situation := GameCpuSchedulerPressure; ci_active_task_class_distribution := classes |}.

Definition counted (c : TaskClass) (n : Z) : CandidateClassCount := {| ccc_class := c; ccc_count := n |}.

Definition context_a := context "/game.slice " [counted Game 2; counted GameHelper 3].
Definition context_b := context " /game.slice" [counted GameHelper 1; counted Game 2; counted GameHelper 2].

Lemma context_key_canonical_witness :
  exists key, context_key context_a = Some key /\ context_key context_b = Some key /\
    String.length key = 16%nat.
Proof.
  apply context_key_canonical.
  - split; [repeat constructor; cbn; lia|reflexivity].
  - split; [repeat constructor; cbn; lia|reflexivity].
  - split; try (vm_compute; reflexivity). intros c. destruct c; vm_compute; reflexivity.
Defined.

(** ** [Decide] *)

Definition attempt (now : Z) : CandidateResultRecordInput :=
  {| cri_candidate := game_cores; cri_context := for_candidate game_cores;
     cri_now_unix_nanos := now; cri_result := MrTried;
     cri_diagnostic_baseline_raw_score_total := None; cri_diagnostic_current_raw_score_total := None;
     cri_rollback_reason := None; cri_cooldown_expires_unix_nanos := None |}.

Definition tried : ControllerRuntimeState :=
  set_memory ControllerRuntimeState_default (remember_all (remember CandidateMemory_default (attempt 500)) []).

Lemma same_action_cools_down_witness :
  decide_autotune_transition low_risk tried baseline_view (Some game_cores) <> DStartExperiment game_cores /\
  decide_autotune_transition low_risk tried baseline_view (Some game_cores) <> DSuggest game_cores.
Proof.
  apply (same_action_cools_down low_risk tried baseline_view (Some game_cores) game_cores
           CandidateMemory_default (attempt 500) []).
  - reflexivity.
  - constructor.
  - constructor.
  - apply Nat.ltb_lt. vm_compute. reflexivity.
  - reflexivity.
  - reflexivity.
  - reflexivity.
  - reflexivity.
Defined.

Lemma kept_decision :
  decide_autotune_transition low_risk measuring candidate_view None = DKeepCurrent "experiment-1".
Proof. vm_compute. reflexivity. Qed.

Lemma keep_needs_evidence_witness :
  exists a, cs_active_experiment measuring = Some a /\ ob_target_present candidate_view = true.
Proof.
  destruct (keep_needs_evidence low_risk measuring candidate_view None "experiment-1") as (a & H1 & _ & H2 & _).
  - vm_compute. reflexivity.
  - exact kept_decision.
  - exists a. split; [exact H1|exact H2].
Defined.

Lemma active_experiment_resolves_witness :
  let d := decide_autotune_transition low_risk measuring candidate_view None in
  d = DKeepCurrent "experiment-1" \/ d = DRevert "experiment-1" \/
  (d = DNoop /\ candidate_objective game_cores = OkStutterScore /\
   ob_target_present candidate_view = true /\ is_low_quality (ob_data_quality candidate_view) = false).
Proof.
  apply (active_experiment_resolves low_risk measuring candidate_view None under_way);
    [discriminate|discriminate|reflexivity].
Defined.
