(* ===== verification/LiveRuns.v ===== *)
(** * A concrete live controller

    A host whose system calls succeed and an executor that journals its apply and
    whose rollbacks succeed: the theorems of [LiveSafety] at a revert and at a release,
    and that of [Runtime] at a tick that starts an experiment. *)

From Stdlib Require Import String List.
From S2P Require Import Prelude Binary64 Abi Score PolicyModel PolicyEval ActionModel ActionRunner Journal Recovery RecoverySafety Transaction Objective Controller AutonomousGate ContextKey CandidateMemory Decide LiveExperiment LiveSafety FocusModel RollingWindow Runtime MeasureRuns ControllerRuns.
From stdpp Require Import list.
Open Scope Z_scope.

#[local] Instance steady_fs : FileSystem unit := {| fs_result _ _ _ := FsOk; unix_nanos_now _ := 7 |}.

#[local] Instance steady_stat : StatReliable (FS := steady_fs).
Proof. done. Qed.

(** ** The executor *)

Definition profile_token : RollbackToken := CpuAffinityRestoreFile "/run/stutter/restore.json" 2.

Definition applied_record (id action : string) : ControllerJournalRecord :=
  for_phase JApplied id action (Some profile_token) 7 7.

#[local] Instance steady_executor : LiveExecutor unit unit := {|
  apply_candidate _ c id _ :=
    let* _ := set_disk (fun d => sync_journal (install_journal (applied_record id (candidate_action_id c)) d)) in
    hret (inl profile_token);
  rollback_candidate _ _ _ := hret (inl (Some tt)) |}.

#[local] Instance steady_laws : LiveExecutorLaws.
Proof.
  split.
  - intros input e o h. exists []. split; [reflexivity|]. by repeat constructor.
  - intros input c id o h. exists [disk (apply_candidate input c id o h).2]. split; [reflexivity|]. by repeat constructor.
  - intros input c id o h t _ _. reflexivity.
Qed.

Definition snapshot (_ : AutotuneObservation) : option unit := Some tt.
Definition verified (_ : CandidateAction) (_ _ : unit) (_ : AutotuneObservation) : RollbackVerification :=
  {| rv_verified := true; rv_expected := ""; rv_actual := ""; rv_reason_code := "" |}.
Definition starttime (_ : Host unit) (_ : Z) : option Z := Some 100.

(** ** The state: one experiment under way, one action kept *)

Definition live_input : LiveExperimentManagerInput :=
  {| li_mode := ApplyLowRisk;
     li_daemon_policy := build_daemon_policy (default_config_with ApplyLowRisk PolicyModel.AutotuneRuntime) None;
     li_controller_policy := low_risk; li_simulate_action_effects := false;
     li_washout := {| wc_washout_seconds := 5; wc_verify_interval_ms := 100 |};
     li_candidate_window_seconds := 30; li_manual_restore_command := "stutter restore";
     li_has_controller_journal_path := true |}.

Definition current : LiveExperiment unit :=
  new_experiment snapshot live_input game_cores baseline_view 2000 3000 profile_token.

Definition busy : LiveState unit :=
  {| lv_current := Some current;
     lv_controller := set_active (set_phase ControllerRuntimeState_default CpMeasuring) (Some (active_of current));
     lv_profile := profile |}.

Definition ledger_entry : KeptLedgerEntry :=
  {| kl_experiment_id := "kept-1"; kl_action_id := "nice:set:5:targets:1"; kl_candidate := "demote-helper";
     kl_rollback_token := NiceRestore []; kl_mode := None; kl_safety_class := None; kl_kept_unix_nanos := 7 |}.

Definition busy_disk : Disk unit :=
  {| journal := Holds (applied_record (le_experiment_id current) (candidate_action_id game_cores));
     journal_old := []; ledger := Holds {| kl_schema_version := 1; kl_entries := [ledger_entry] |};
     ledger_old := []; sys := tt; undone := [] |}.

Definition host_of (d : Disk unit) : Host unit :=
  {| disk := d; past := []; reports := []; calls := 0;
     locals := {| tx_rollback := None; tx_rollback_completed := false |} |}.

Lemma busy_pairs : kept_pairs (lv_profile busy) = [("kept-1"%string, NiceRestore [])].
Proof. reflexivity. Qed.

Lemma busy_ids : ids_ok busy.
Proof.
  split; rewrite busy_pairs.
  - apply NoDup_singleton.
  - intros e [= <-] E%list_elem_of_singleton. vm_compute in E. discriminate E.
Qed.

Lemma busy_ok : live_ok busy busy_disk.
Proof.
  split.
  - rewrite busy_pairs. intros id t [= -> ->]%list_elem_of_singleton. right. constructor; [|constructor].
    exists ledger_entry. split; [apply list_elem_of_here|]. by split.
  - intros t [= <-]. right. repeat constructor.
Qed.

Lemma busy_kept : kept_ok (kept_actions (lv_profile busy)).
Proof.
  split; [by repeat constructor|by repeat constructor|].
  intros e f He%list_elem_of_singleton Hf%list_elem_of_singleton Hne. by subst.
Qed.

(** ** A revert, with a crash once the rollback was made *)

Abbreviation revert := (apply_decision_side_effects_with_executor snapshot verified starttime live_input busy
  candidate_view (DRevert (le_experiment_id current)) "regressed" (host_of busy_disk)).

Definition revert_crash : Disk unit := nth 1 (crash_points revert.2) busy_disk.
Definition revert_left : Disk unit :=
  {| journal := journal revert_crash; journal_old := []; ledger := ledger revert_crash; ledger_old := [];
     sys := tt; undone := undone revert_crash |}.

Lemma live_step_never_forgets_witness :
  (profile_token ∈ undone revert_left \/ jnames profile_token (journal revert_left) \/
   lnames profile_token (ledger revert_left)) /\
  step_leaves busy revert.1.1 revert.1.2 (disk revert.2).
Proof.
  pose proof (live_step_never_forgets snapshot verified starttime live_input busy candidate_view
    (DRevert (le_experiment_id current)) "regressed" (host_of busy_disk) eq_refl eq_refl busy_ids I busy_ok)
    as [H1 H2].
  split; [|exact H2]. apply (H1 revert_crash revert_left profile_token).
  - apply list_elem_of_lookup. exists 1%nat. vm_compute. reflexivity.
  - apply (crashed_intro revert_crash (journal revert_crash) (ledger revert_crash)); by left.
  - left. by exists current.
Defined.

(** ** The release of the kept action *)

Lemma release_kept_complete_witness :
  let x := release_kept_actions_with_executor live_input (lv_profile busy) candidate_view (host_of busy_disk) in
  kept_actions x.1.2 = [] /\ NiceRestore [] ∈ undone (disk x.2).
Proof.
  pose proof (release_kept_complete live_input busy candidate_view (host_of busy_disk)
    eq_refl eq_refl busy_ids busy_kept busy_ok) as (_ & _ & H).
  destruct (H ltac:(vm_compute; reflexivity)) as [H1 H2]. split; [exact H1|].
  apply H2. apply list_elem_of_here.
Defined.

(** ** A tick that starts an experiment *)

Definition runtime_config : RuntimeConfig :=
  {| rc_input := live_input; rc_dry_run_all_safe := false; rc_external_mutation_policy := EmpRestore;
     rc_service_resolves := true |}.

Definition idle_runtime : AutotuneRuntime unit :=
  {| rt_phase := RpIdle;
     rt_live := {| lv_current := None; lv_controller := ControllerRuntimeState_default;
                   lv_profile := ActiveProfileState_default |};
     rt_window := RollingWindow_default |}.

Definition first_tick : TickInput :=
  {| ti_observation := baseline_view; ti_candidate := Some game_cores; ti_active_match := None;
     ti_plan_active_drift := false; ti_plan_kept_drift := false; ti_plan_files := Some true |}.

Definition empty_disk : Disk unit :=
  {| journal := Missing; journal_old := []; ledger := Missing; ledger_old := []; sys := tt; undone := [] |}.

Abbreviation ticked := (evaluate_and_emit snapshot verified starttime runtime_config idle_runtime first_tick
  "scheduler pressure" (host_of empty_disk)).

Lemma idle_rest : at_rest idle_runtime.
Proof. split; [by split|reflexivity]. Qed.

Lemma tick_transitions_accepted_witness :
  rt_phase ticked.1.2 = RpMeasuringCandidate /\ (at_rest ticked.1.2 \/ rt_phase ticked.1.2 = RpFaulted).
Proof.
  split; [vm_compute; reflexivity|].
  destruct (tick_transitions_accepted snapshot verified starttime runtime_config idle_runtime first_tick
    "scheduler pressure" (host_of empty_disk) idle_rest eq_refl (or_introl eq_refl)) as (_ & H & _).
  apply H. vm_compute. reflexivity.
Defined.
