(* ===== verification/PlanRuns.v ===== *)
(** * A concrete plan

    A game under scheduler pressure, two proposals for it (the affinity profile and a nice
    demotion), the low-risk policy and a memory with one result: the theorems of
    [WorkloadPolicy], [CandidateMemory], [PlannerSafety] and [Selection] at these
    inputs. *)

From Stdlib Require Import String List.
From S2P Require Import Prelude Binary64 Abi Score PolicyModel PolicyEval PolicySpec ActionModel Procfs Allowlist Journal Objective Controller AutonomousGate ContextKey WorkloadPolicy CandidateMemory Decide Planner PlannerSafety LiveExperiment Runtime Selection MeasureRuns ControllerRuns LiveRuns.
From stdpp Require Import gmap list.
Open Scope Z_scope.

(** ** A configuration of the workload policy *)

Definition compile_rule : WorkloadPolicyRuleConfigFile :=
  {| rf_situation := "compile-load"; rf_allowed_families := ["nice"; "ionice"]%string;
     rf_allowed_objectives := ["io_latency"]%string; rf_autonomous_families := [] |}.

Definition compile_config : DaemonWorkloadPolicyConfig :=
  match parse_workload_policy_rule_configs [compile_rule] with
  | inl c => c
  | inr _ => {| wc_rules := [] |}
  end.

Lemma configured_matrix_exact_witness :
  length (wc_rules compile_config) = 1%nat /\
  exists m, resolved_matrix compile_config = inl m /\
    forall s, rule_for m s = default (default_rule_for_situation s) (find_rule s (wc_rules compile_config)).
Proof.
  split; [vm_compute; reflexivity|].
  destruct (configured_matrix_exact [compile_rule] compile_config) as (m & Hm & Hr).
  - vm_compute. reflexivity.
  - exists m. split; [exact Hm|]. intros s. apply (Hr s).
Defined.

(** ** A memory *)

Definition game_identity : WorkloadIdentity :=
  {| wi_root_pid := 42; wi_process_starttime_ticks := Some 100; wi_exe_dev := Some 8;
     wi_exe_ino := Some 99; wi_cgroup_path := Some "/game.slice"%string; wi_focus_kind := Some FgGame;
     wi_class_distribution := []; wi_stable_hash := "pid:42" |}.

Definition game_view : AutotuneObservation :=
  let o := baseline_view in
  {| ob_now_unix_nanos := ob_now_unix_nanos o; ob_elapsed_ms := ob_elapsed_ms o;
     ob_target_present := true; ob_target_root_pid := Some 42;
     ob_active_target_count := ob_active_target_count o;
     ob_scored_task_count := ob_scored_task_count o; ob_interval_count := ob_interval_count o;
     ob_scored_samples := ob_scored_samples o; ob_score := ob_score o; ob_data_quality := OqHigh;
     ob_activity_level := AlActive; ob_objective_signals := ob_objective_signals o;
     ob_primary_situation := GameCpuSchedulerPressure; ob_focus_kind := Some FgGame;
     ob_focus_confidence := f32_one; ob_focus_reasons := []; ob_topology_signature := None;
     ob_workload_identity := Some game_identity; ob_active_tasks := [];
     ob_active_config_snapshot := None; ob_frame_p99_ms := f64_zero;
     ob_frame_max_ms := f64_zero |}.

Definition reverted : CandidateResultRecordInput :=
  {| cri_candidate := demote_helper; cri_context := from_observation demote_helper game_view None;
     cri_now_unix_nanos := 500; cri_result := MrReverted;
     cri_diagnostic_baseline_raw_score_total := Some 100;
     cri_diagnostic_current_raw_score_total := Some 120; cri_rollback_reason := None;
     cri_cooldown_expires_unix_nanos := Some 9000 |}.

Definition remembered : WorkloadActionMemory :=
  match workload_memory_of reverted with
  | Some w => w
  | None =>
      {| wa_workload_hash := ""; wa_action_id := ""; wa_action_kind := ""; wa_objective := OkStutterScore;
         wa_operation := None; wa_situation := SkUnknown; wa_last_result := MrTried;
         wa_score_delta := None; wa_last_seen_unix_nanos := 0; wa_cooldown_until_unix_nanos := None;
         wa_exe_dev := None; wa_exe_ino := None; wa_cgroup_path := None; wa_identity_summary := None;
         wa_degraded_reason := None |}
  end.

Definition memory : CandidateMemory := (record_result CandidateMemory_default reverted).1.

Lemma recorded_result_recalled_witness :
  last_for_workload_action memory demote_helper (cri_context reverted) = Some remembered /\
  is_Some (cooldown_remaining_for_workload_action memory demote_helper (cri_context reverted) 1000).
Proof.
  destruct (recorded_result_recalled CandidateMemory_default reverted remembered 1000) as (_ & H1 & H2 & _).
  - constructor.
  - constructor.
  - vm_compute. reflexivity.
  - split; [exact H1|]. apply H2. exists 9000. split; reflexivity.
Defined.

(** ** A plan *)

Definition all_capabilities : DaemonCapabilities :=
  {| kernel_release := None; btf_available := true; sched_tracepoints_available := true;
     perf_permissions_likely := true; perf_event_paranoid := None; cgroup_v2_available := true;
     sched_ext_available := true; uclamp_available := true; ionice_available := true;
     irq_affinity_available := true; gpu_sysfs_available := true;
     privileged_worker_socket_reachable := None |}.

Definition plan_input : PlannerInput :=
  {| pi_observation := game_view; pi_daemon_policy := policy_apply_low_risk PolicyModel.AutotuneRuntime;
     pi_capabilities := all_capabilities; pi_health_ok_for_apply := true;
     pi_health_reason_code := None;
     pi_controller_state := set_memory ControllerRuntimeState_default memory;
     pi_active_profile_state := Some ActiveProfileState_default;
     pi_workload_policy := default_rules; pi_active_config := Some (fun _ => AcmDiffers) |}.

Definition proposal (c : CandidateAction) (rank : Z) : CandidateProposal :=
  {| pp_candidate := c; pp_provider := candidate_action_kind c; pp_confidence := f32_one;
     pp_deny_reasons := []; pp_rank_hint := rank |}.

Definition proposals : list CandidateProposal := [proposal demote_helper 5; proposal game_cores 10].

Definition dry : RealCandidateDryRunner :=
  {| real_built := fun _ =>
       Some {| applied := false; affected_tasks := 3; checked_tasks := 3; pending_changes := 3;
               warnings := [] |} |}.

Lemma game_cores_planned :
  pr_selected (plan_with_dry_runner plan_input proposals dry).1 = Some game_cores.
Proof. vm_compute. reflexivity. Qed.

Lemma planned_candidate_authorized_witness :
  candidate_safety_class game_cores <> HighRisk /\
  cs_active_experiment (pi_controller_state plan_input) = None.
Proof.
  destruct (planned_candidate_authorized plan_input proposals dry game_cores eq_refl game_cores_planned)
    as (p & _ & _ & H1 & _ & _ & H2 & _).
  split; [exact H1|exact H2].
Defined.

(** The same move proposed twice, the better rank second. *)
Definition two_proposals : list CandidateProposal := [proposal game_cores 20; proposal game_cores 10].

Lemma plan_selects_best_witness :
  exists p, pp_candidate p = game_cores /\ at_least_as_good plan_input p (proposal game_cores 10).
Proof.
  destruct (plan_selects_best plan_input two_proposals dry) as [Hbest _].
  - repeat (apply List.Forall_cons); [| |apply List.Forall_nil]; vm_compute; reflexivity.
  - destruct (Hbest game_cores) as (p & _ & Hc & Hall); [vm_compute; reflexivity|].
    exists p. split; [exact Hc|]. apply Hall. eexists 1%nat, _.
    split; [reflexivity|]. split; vm_compute; reflexivity.
Defined.

Lemma low_risk_plan_is_affinity_witness :
  exists p, game_cores = CaCpuAffinityProfile p /\ cap_uses_priority_actions p = false.
Proof.
  destruct (low_risk_plan_is_affinity plan_input proposals dry game_cores eq_refl eq_refl
    game_cores_planned) as (p & H1 & H2 & _).
  exists p. split; [exact H1|exact H2].
Defined.

Lemma planned_candidate_starts_witness :
  let p := from_daemon_policy (pi_daemon_policy plan_input) in
  decide_autotune_transition p (pi_controller_state plan_input) game_view (Some game_cores)
    = DStartExperiment game_cores \/
  exists d, decide_autotune_transition p (pi_controller_state plan_input) game_view (Some game_cores)
    = DEnterCooldown d.
Proof.
  destruct (planned_candidate_starts plan_input proposals dry game_cores eq_refl eq_refl
    ltac:(discriminate) ltac:(discriminate) game_cores_planned) as [H|(d & _ & H)].
  - left. exact H.
  - right. exists d. exact H.
Defined.

(** ** A tick that starts what was planned *)

Definition selection : SelectionConfig :=
  {| se_mode := ApplyLowRisk; se_controller_policy := low_risk; se_tree_pid := Some 42;
     se_simulated_candidates := []; se_workload_policy_error := false |}.

Definition propose (_ : PlannerInput) : list CandidateProposal := proposals.

Lemma planned_tick_starts :
  (tick_decision runtime_config (rt_live idle_runtime)
     (planned_tick propose selection plan_input None dry None true)).1 = DStartExperiment game_cores.
Proof. vm_compute. reflexivity. Qed.

Lemma started_experiment_authorized_witness :
  lv_current (rt_live idle_runtime) = None /\ candidate_safety_class game_cores <> HighRisk /\
  exists pid p, p ∈ propose (planned_for plan_input (planned_observation plan_input pid)) /\
    pp_candidate p = game_cores.
Proof.
  destruct (started_experiment_authorized propose runtime_config selection plan_input None dry None true
    (rt_live idle_runtime) game_cores eq_refl planned_tick_starts)
    as (H1 & [[H _]|(_ & H2 & (pid & p & H3 & H4 & _) & _)]).
  - exfalso. apply H. reflexivity.
  - split; [exact H1|]. split; [exact H2|]. exists pid, p. split; [exact H3|exact H4].
Defined.
