(* ===== verification/DaemonHealth.v ===== *)
(** * Health of the system and lifecycle of the daemon

    [daemon/health.rs] (the sensors, the guardrails and the verdict on applying),
    [daemon/watchdog.rs] (what the daemon should do about itself),
    [daemon/lifecycle.rs] (suspend, resume and what changes under the daemon), and the
    health of an observation of the autotune runtime
    ([observation_builder/builder.rs], [daemon/policy/context.rs]).

    The files of [/proc] and [/sys] are a function from paths to their contents; the
    free space of a disk is what the system call returned. Messages for people are left
    out, reason codes are kept. *)

From Stdlib Require Import SpecFloat Ascii String.
From S2P Require Import CpuMask Prelude Abi PolicyModel PolicyEval PolicySpec Procfs Allowlist Objective Journal.
From stdpp Require Import list strings.
Open Scope Z_scope.

(** ** [health.rs] *)

Inductive SystemHealthState :=
| Healthy | Degraded | Overheated | LowDisk | LowMemory | InstrumentationBroken | SuspendedResumed.

#[export] Instance SystemHealthState_eq_dec : EqDecision SystemHealthState.
Proof. solve_decision. Defined.

Definition severity_rank (s : SystemHealthState) : Z :=
  match s with
  | Healthy => 0 | Degraded => 1 | SuspendedResumed => 2 | InstrumentationBroken => 3
  | LowMemory => 4 | LowDisk => 5 | Overheated => 6
  end.

Definition blocks_apply (s : SystemHealthState) : bool := match s with Healthy => false | _ => true end.

Record SystemHealthInputs := {
  hi_max_cpu_temp_millidegrees : option Z;
  hi_max_gpu_temp_millidegrees : option Z;
  hi_ac_online : option bool;
  hi_battery_present : bool;
  hi_memory_pressure_some_avg10_millipercent : option Z;
  hi_load_average_1m_milli : option Z;
  hi_cpu_count : option Z;
  hi_disk_available_bytes : option Z;
  hi_ebpf_dropped_events : Z;
  hi_suspended_or_resumed : bool;
  hi_probe_errors : list string }.

Definition SystemHealthInputs_default : SystemHealthInputs :=
  {| hi_max_cpu_temp_millidegrees := None; hi_max_gpu_temp_millidegrees := None;
     hi_ac_online := None; hi_battery_present := false;
     hi_memory_pressure_some_avg10_millipercent := None; hi_load_average_1m_milli := None;
     hi_cpu_count := None; hi_disk_available_bytes := None; hi_ebpf_dropped_events := 0;
     hi_suspended_or_resumed := false; hi_probe_errors := [] |}.

Record SystemHealthIssue := { hs_state : SystemHealthState; hs_reason_code : string }.

Record SystemHealthSnapshot := {
  hs_snapshot_state : SystemHealthState;
  hs_ok_for_apply : bool;
  hs_snapshot_reason_code : option string;
  hs_inputs : SystemHealthInputs;
  hs_issues : list SystemHealthIssue }.

Definition SystemHealthSnapshot_default : SystemHealthSnapshot :=
  {| hs_snapshot_state := Healthy; hs_ok_for_apply := true; hs_snapshot_reason_code := None;
     hs_inputs := SystemHealthInputs_default; hs_issues := [] |}.

Record SystemHealthThresholds := {
  ht_max_cpu_temp_millidegrees : Z;
  ht_max_gpu_temp_millidegrees : Z;
  ht_min_disk_available_bytes : Z;
  ht_max_memory_pressure_some_avg10_millipercent : Z;
  ht_max_load_per_cpu_milli : Z;
  ht_max_ebpf_dropped_events : Z }.

Definition SystemHealthThresholds_default : SystemHealthThresholds :=
  {| ht_max_cpu_temp_millidegrees := 90000; ht_max_gpu_temp_millidegrees := 92000;
     ht_min_disk_available_bytes := 512 * 1024 * 1024;
     ht_max_memory_pressure_some_avg10_millipercent := 50000;
     ht_max_load_per_cpu_milli := 4000; ht_max_ebpf_dropped_events := 10000 |}.

(** [opt.is_some_and(p)]. *)
Definition some_and {A} (o : option A) (p : A -> bool) : bool := match o with Some x => p x | None => false end.

(** [if cond { issues.push(issue) }]. *)
Definition issue_if (cond : bool) (state : SystemHealthState) (reason_code : string)
    : list SystemHealthIssue :=
  if cond then [{| hs_state := state; hs_reason_code := reason_code |}] else [].

(** The load of a CPU; the number of CPUs is cut to 32 bits ([cpus.max(1) as u32]). *)
Definition load_per_cpu (load cpus : Z) : Z := load / as_u32 (Z.max cpus 1).

Definition found_issues (i : SystemHealthInputs) (t : SystemHealthThresholds) : list SystemHealthIssue :=
  issue_if (negb (match hi_probe_errors i with [] => true | _ => false end))
    InstrumentationBroken "instrumentation_probe_failed"
  ++ issue_if (hi_suspended_or_resumed i) SuspendedResumed "suspend_resume_stabilizing"
  ++ issue_if (some_and (hi_max_cpu_temp_millidegrees i) (fun v => ht_max_cpu_temp_millidegrees t <=? v))
       Overheated "cpu_overheated"
  ++ issue_if (some_and (hi_max_gpu_temp_millidegrees i) (fun v => ht_max_gpu_temp_millidegrees t <=? v))
       Overheated "gpu_overheated"
  ++ issue_if (some_and (hi_disk_available_bytes i) (fun v => v <? ht_min_disk_available_bytes t))
       LowDisk "low_disk"
  ++ issue_if (some_and (hi_memory_pressure_some_avg10_millipercent i)
                 (fun v => ht_max_memory_pressure_some_avg10_millipercent t <=? v))
       LowMemory "memory_pressure_high"
  ++ issue_if (match hi_load_average_1m_milli i, hi_cpu_count i with
               | Some load, Some cpus => ht_max_load_per_cpu_milli t <=? load_per_cpu load cpus
               | _, _ => false
               end) Degraded "load_average_high"
  ++ issue_if (ht_max_ebpf_dropped_events t <? hi_ebpf_dropped_events i)
       InstrumentationBroken "drop_counters_high".

(** [sort_by_key(Reverse(severity_rank))]: the most severe first, in the order found. *)
Definition severer (a b : SystemHealthIssue) : Prop :=
  severity_rank (hs_state b) <= severity_rank (hs_state a).

#[export] Instance severer_dec a b : Decision (severer a b).
Proof. unfold severer. apply _. Defined.

Definition evaluate_system_health (i : SystemHealthInputs) (t : SystemHealthThresholds)
    : SystemHealthSnapshot :=
  let issues := stable_sort severer (found_issues i t) in
  let state := match issues with issue :: _ => hs_state issue | [] => Healthy end in
  {| hs_snapshot_state := state; hs_ok_for_apply := negb (blocks_apply state);
     hs_snapshot_reason_code := match issues with issue :: _ => Some (hs_reason_code issue) | [] => None end;
     hs_inputs := i; hs_issues := issues |}.

(** *** The sensors *)

(** What the file system answers: the contents of a file, the names in a directory, the
    free bytes of the disk the daemon writes to. *)
Record HealthFiles := {
  hf_read : string -> option string;
  hf_read_dir : string -> option (list string);
  hf_free_bytes : Z + string }.

Definition path_join (dir name : string) : string := dir +:+ "/" +:+ name.

Definition read_trimmed (f : HealthFiles) (path : string) : option string :=
  text ← hf_read f path;
  let value := trim text in
  if String.eqb value "" then None else Some value.

(** [parse::<i64>]. *)
Definition parse_i64 (s : string) : option Z :=
  match s with
  | String "-" s' =>
      match parse_nat s' with Some n => if n <=? 2 ^ 63 then Some (- n) else None | None => None end
  | _ =>
      match parse_nat match s with String "+" s' => s' | _ => s end with
      | Some n => if n <? 2 ^ 63 then Some n else None
      | None => None
      end
  end.

Definition update_max (slot : option Z) (value : Z) : option Z :=
  Some (match slot with Some current => Z.max current value | None => value end).

(** A reading, and whether it is the GPU's. *)
Definition record_temperature (i : SystemHealthInputs) (gpu : bool) (temp : Z) : SystemHealthInputs :=
  {| hi_max_cpu_temp_millidegrees :=
       if gpu then hi_max_cpu_temp_millidegrees i else update_max (hi_max_cpu_temp_millidegrees i) temp;
     hi_max_gpu_temp_millidegrees :=
       if gpu then update_max (hi_max_gpu_temp_millidegrees i) temp else hi_max_gpu_temp_millidegrees i;
     hi_ac_online := hi_ac_online i; hi_battery_present := hi_battery_present i;
     hi_memory_pressure_some_avg10_millipercent := hi_memory_pressure_some_avg10_millipercent i;
     hi_load_average_1m_milli := hi_load_average_1m_milli i; hi_cpu_count := hi_cpu_count i;
     hi_disk_available_bytes := hi_disk_available_bytes i;
     hi_ebpf_dropped_events := hi_ebpf_dropped_events i;
     hi_suspended_or_resumed := hi_suspended_or_resumed i; hi_probe_errors := hi_probe_errors i |}.

Definition thermal_zone_reading (f : HealthFiles) (root entry : string) : option (bool * Z) :=
  let path := path_join root entry in
  temp ← read_trimmed f (path_join path "temp") ≫= parse_i64;
  let label := to_ascii_lowercase (default EmptyString (read_trimmed f (path_join path "type"))) in
  Some (contains label "gpu", temp).

Definition is_temp_input (name : string) : bool :=
  match PolicyModel.strip_prefix name "temp" with Some _ => true | None => false end
  && String.eqb (String.substring (String.length name - 6) 6 name) "_input".

Definition hwmon_readings (f : HealthFiles) (root entry : string) : list (bool * Z) :=
  let path := path_join root entry in
  let chip := to_ascii_lowercase (default EmptyString (read_trimmed f (path_join path "name"))) in
  let gpu := contains chip "gpu" || contains chip "amdgpu" || contains chip "nvidia" in
  omap (fun file =>
      if negb (is_temp_input file) then None
      else (fun temp => (gpu, temp)) <$> (read_trimmed f (path_join path file) ≫= parse_i64))
    (default [] (hf_read_dir f path)).

Definition record_readings (i : SystemHealthInputs) (l : list (bool * Z)) : SystemHealthInputs :=
  foldl (fun i '(gpu, temp) => record_temperature i gpu temp) i l.

Definition read_thermal_zone_temperatures (f : HealthFiles) (root : string) (i : SystemHealthInputs)
    : SystemHealthInputs :=
  record_readings i (omap (thermal_zone_reading f root) (default [] (hf_read_dir f root))).

Definition read_hwmon_temperatures (f : HealthFiles) (root : string) (i : SystemHealthInputs)
    : SystemHealthInputs :=
  record_readings i (default [] (hf_read_dir f root) ≫= hwmon_readings f root).

Definition read_temperatures (f : HealthFiles) (sys_root : string) (i : SystemHealthInputs)
    : SystemHealthInputs :=
  read_hwmon_temperatures f (path_join sys_root "class/hwmon")
    (read_thermal_zone_temperatures f (path_join sys_root "class/thermal") i).

(** The supplies: a battery, whether an AC adapter was seen, whether one is online. *)
Definition supply_step (f : HealthFiles) (root : string) '(battery, saw_ac, ac_online) (entry : string)
    : bool * bool * bool :=
  let path := path_join root entry in
  let kind := to_ascii_lowercase (default EmptyString (read_trimmed f (path_join path "type"))) in
  if String.eqb kind "battery" then (true, saw_ac, ac_online)
  else if existsb (String.eqb kind) ["mains"; "usb"; "usb_c"; "usb-c"; "ac"]%string
  then (battery, true,
        ac_online || some_and (read_trimmed f (path_join path "online")) (String.eqb "1"))
  else (battery, saw_ac, ac_online).

Definition set_power (i : SystemHealthInputs) (battery : bool) (ac : option bool) : SystemHealthInputs :=
  {| hi_max_cpu_temp_millidegrees := hi_max_cpu_temp_millidegrees i;
     hi_max_gpu_temp_millidegrees := hi_max_gpu_temp_millidegrees i;
     hi_ac_online := ac; hi_battery_present := battery;
     hi_memory_pressure_some_avg10_millipercent := hi_memory_pressure_some_avg10_millipercent i;
     hi_load_average_1m_milli := hi_load_average_1m_milli i; hi_cpu_count := hi_cpu_count i;
     hi_disk_available_bytes := hi_disk_available_bytes i;
     hi_ebpf_dropped_events := hi_ebpf_dropped_events i;
     hi_suspended_or_resumed := hi_suspended_or_resumed i; hi_probe_errors := hi_probe_errors i |}.

Definition read_power_supply (f : HealthFiles) (sys_root : string) (i : SystemHealthInputs)
    : SystemHealthInputs :=
  let root := path_join sys_root "class/power_supply" in
  match hf_read_dir f root with
  | None => i
  | Some entries =>
      let '(battery, saw_ac, ac_online) :=
        foldl (supply_step f root) (hi_battery_present i, false, false) entries in
      set_power i battery (if saw_ac : bool then Some ac_online else hi_ac_online i)
  end.

(** Three characters, zeros after the end. *)
Fixpoint pad_digits (n : nat) (s : string) : string :=
  match n, s with
  | O, _ => EmptyString
  | S n, String c s' => String c (pad_digits n s')
  | S n, EmptyString => String "0" (pad_digits n EmptyString)
  end.

Definition parse_decimal_milli (value : string) : option Z :=
  let '(whole, fraction) := default (value, EmptyString) (split_once "." value) in
  whole ← parse_unsigned U32_MAX whole;
  fraction ← parse_unsigned U32_MAX (pad_digits 3 fraction);
  Some (saturating_add_u32 (Z.min (whole * 1000) U32_MAX) fraction).

Definition starts_with (s prefix : string) : bool :=
  match PolicyModel.strip_prefix s prefix with Some _ => true | None => false end.

(** [find_map]. *)
Fixpoint find_map {A B} (f : A -> option B) (l : list A) : option B :=
  match l with
  | [] => None
  | x :: l => match f x with Some y => Some y | None => find_map f l end
  end.

Definition parse_pressure_avg10 (text : string) : option Z :=
  line ← snd <$> list_find (fun line => starts_with line "some " = true) (lines text);
  find_map (fun part => PolicyModel.strip_prefix part "avg10=" ≫= parse_decimal_milli)
    (split_whitespace line).

Definition is_cpu_line (line : string) : bool :=
  match PolicyModel.strip_prefix line "cpu" with
  | Some (String c _) => match digit c with Some _ => true | None => false end
  | _ => false
  end.

(** [read_proc_pressure], [read_load_average], [read_cpu_count], [read_disk_available]. *)
Definition read_proc (f : HealthFiles) (proc_root : string) (i : SystemHealthInputs) : SystemHealthInputs :=
  let cpus :=
    (fun text => Z.of_nat (length (filter (fun line => is_cpu_line line = true) (lines text))))
      <$> read_trimmed f (path_join proc_root "stat") in
  {| hi_max_cpu_temp_millidegrees := hi_max_cpu_temp_millidegrees i;
     hi_max_gpu_temp_millidegrees := hi_max_gpu_temp_millidegrees i;
     hi_ac_online := hi_ac_online i; hi_battery_present := hi_battery_present i;
     hi_memory_pressure_some_avg10_millipercent :=
       match read_trimmed f (path_join proc_root "pressure/memory") with
       | Some text => parse_pressure_avg10 text
       | None => hi_memory_pressure_some_avg10_millipercent i
       end;
     hi_load_average_1m_milli :=
       match read_trimmed f (path_join proc_root "loadavg") with
       | Some text => head (split_whitespace text) ≫= parse_decimal_milli
       | None => hi_load_average_1m_milli i
       end;
     hi_cpu_count :=
       match cpus with Some n => if 0 <? n then Some n else hi_cpu_count i | None => hi_cpu_count i end;
     hi_disk_available_bytes :=
       match hf_free_bytes f with inl bytes => Some bytes | inr _ => hi_disk_available_bytes i end;
     hi_ebpf_dropped_events := hi_ebpf_dropped_events i;
     hi_suspended_or_resumed := hi_suspended_or_resumed i;
     hi_probe_errors :=
       match hf_free_bytes f with
       | inl _ => hi_probe_errors i
       | inr err => hi_probe_errors i ++ ["disk_available_probe_failed: " +:+ err]
       end |}.

Definition probe_inputs (f : HealthFiles) (proc_root sys_root : string) : SystemHealthInputs :=
  read_proc f proc_root
    (read_power_supply f sys_root (read_temperatures f sys_root SystemHealthInputs_default)).

Definition probe (f : HealthFiles) (proc_root sys_root : string) (t : SystemHealthThresholds)
    : SystemHealthSnapshot :=
  evaluate_system_health (probe_inputs f proc_root sys_root) t.

(** *** The health a policy decision sees *)

(** [DaemonPolicyContext::with_system_health]. *)
Definition with_system_health (c : DaemonPolicyContext) (h : SystemHealthSnapshot) : DaemonPolicyContext :=
  {| data_quality_ok := data_quality_ok c; data_quality_reason_code := data_quality_reason_code c;
     system_health_ok := hs_ok_for_apply h; system_health_reason_code := hs_snapshot_reason_code h;
     workload_stable := workload_stable c; cooldown_active := cooldown_active c;
     rollback_pending := rollback_pending c; capabilities := capabilities c |}.

(** [x.round() as u32] on an [f32]: halves away from zero, out of range saturates, NaN is 0. *)
Definition f32_round_as_u32 (x : f32) : Z :=
  match x with
  | S754_finite false m e =>
      Z.min (2 ^ 32 - 1)
        (if 0 <=? e then Zpos m * 2 ^ e else (Zpos m + 2 ^ (- e - 1)) / 2 ^ (- e))
  | S754_infinity false => 2 ^ 32 - 1
  | _ => 0
  end.

(** [DaemonHealthConfig::thresholds]: the configured guardrails. *)
Definition thresholds (c : DaemonHealthConfig) : SystemHealthThresholds :=
  let defaults := SystemHealthThresholds_default in
  {| ht_max_cpu_temp_millidegrees := max_cpu_temp_celsius c * 1000;
     ht_max_gpu_temp_millidegrees := max_gpu_temp_celsius c * 1000;
     ht_min_disk_available_bytes := min_disk_available_bytes c;
     ht_max_memory_pressure_some_avg10_millipercent :=
       f32_round_as_u32 (SFmul 24 128 (max_memory_pressure_some_avg10_percent c)
                           (S754_finite false 16384000 (-14) (* 1000.0 *)));
     ht_max_load_per_cpu_milli := ht_max_load_per_cpu_milli defaults;
     ht_max_ebpf_dropped_events := ht_max_ebpf_dropped_events defaults |}.

(** The default configuration has the default guardrails. *)
Example default_thresholds : thresholds DaemonHealthConfig_default = SystemHealthThresholds_default.
Proof. by vm_compute. Qed.

(** The health of an observation: the drop counters against the data quality policy. *)
Definition observed_inputs (drops : Z) : SystemHealthInputs :=
  {| hi_max_cpu_temp_millidegrees := None; hi_max_gpu_temp_millidegrees := None;
     hi_ac_online := None; hi_battery_present := false;
     hi_memory_pressure_some_avg10_millipercent := None; hi_load_average_1m_milli := None;
     hi_cpu_count := None; hi_disk_available_bytes := None; hi_ebpf_dropped_events := drops;
     hi_suspended_or_resumed := false; hi_probe_errors := [] |}.

Definition observed_thresholds (max_drop_counter_total : Z) : SystemHealthThresholds :=
  let d := SystemHealthThresholds_default in
  {| ht_max_cpu_temp_millidegrees := ht_max_cpu_temp_millidegrees d;
     ht_max_gpu_temp_millidegrees := ht_max_gpu_temp_millidegrees d;
     ht_min_disk_available_bytes := ht_min_disk_available_bytes d;
     ht_max_memory_pressure_some_avg10_millipercent := ht_max_memory_pressure_some_avg10_millipercent d;
     ht_max_load_per_cpu_milli := ht_max_load_per_cpu_milli d;
     ht_max_ebpf_dropped_events := max_drop_counter_total |}.

Definition observed_health (drops max_drop_counter_total : Z) : SystemHealthSnapshot :=
  evaluate_system_health (observed_inputs drops) (observed_thresholds max_drop_counter_total).

(** ** [lifecycle.rs] *)

Record LifecycleClockSample := { realtime_ms : Z; monotonic_ms : Z }.

Inductive DaemonLifecycleEvent :=
| SuspendDetected
| ResumeDetected (slept_ms : Z)
| GpuReset
| CompositorRestart
| TargetPidRestart (old_pid new_pid : Z)
| TargetExited (pid : Z)
| CgroupMoved
| CpuTopologyChanged.

Definition DaemonLifecycleEvent_as_str (e : DaemonLifecycleEvent) : string :=
  match e with
  | SuspendDetected => "suspend_detected"
  | ResumeDetected _ => "resume_detected"
  | GpuReset => "gpu_reset"
  | CompositorRestart => "compositor_restart"
  | TargetPidRestart _ _ => "target_pid_restart"
  | TargetExited _ => "target_exited"
  | CgroupMoved => "cgroup_moved"
  | CpuTopologyChanged => "cpu_topology_changed"
  end.

Inductive DaemonLifecycleAction :=
| LaPauseExperiments | LaRollbackActiveExperiment | LaFlushJournal | LaRefreshTopology
| LaRefreshTargetIdentity | LaRefreshEbpfMaps | LaClearMeasurementWindows | LaWaitStabilization
| LaEnterObserveOnly.

#[export] Instance DaemonLifecycleAction_eq_dec : EqDecision DaemonLifecycleAction.
Proof. solve_decision. Defined.

Definition DaemonLifecycleAction_as_str (a : DaemonLifecycleAction) : string :=
  match a with
  | LaPauseExperiments => "pause_experiments"
  | LaRollbackActiveExperiment => "rollback_active_experiment"
  | LaFlushJournal => "flush_journal"
  | LaRefreshTopology => "refresh_topology"
  | LaRefreshTargetIdentity => "refresh_target_identity"
  | LaRefreshEbpfMaps => "refresh_ebpf_maps"
  | LaClearMeasurementWindows => "clear_measurement_windows"
  | LaWaitStabilization => "wait_stabilization"
  | LaEnterObserveOnly => "enter_observe_only"
  end.

Record DaemonLifecyclePolicy := {
  suspend_resume_gap_threshold_ms : Z;
  resume_stabilization_ms : Z;
  rollback_active_experiment_on_suspend : bool;
  rollback_active_experiment_on_target_change : bool }.

Definition DaemonLifecyclePolicy_default : DaemonLifecyclePolicy :=
  {| suspend_resume_gap_threshold_ms := 5000; resume_stabilization_ms := 10000;
     rollback_active_experiment_on_suspend := true;
     rollback_active_experiment_on_target_change := true |}.

Record DaemonLifecycleInputs := {
  li_has_active_experiment : bool;
  li_active_experiment_has_rollback : bool;
  li_event : DaemonLifecycleEvent }.

Definition lifecycle_reason (e : DaemonLifecycleEvent) : string :=
  match e with
  | SuspendDetected => "system suspend detected; experiments must pause and journal state must flush"
  | ResumeDetected slept_ms =>
      "system resume detected after approximately " +:+ decimal slept_ms +:+ "ms; measurements must stabilize"
  | GpuReset => "GPU reset detected; current measurement windows are no longer comparable"
  | CompositorRestart => "compositor restart detected; foreground and frame context must be refreshed"
  | TargetPidRestart old_pid new_pid =>
      "target process restarted from pid " +:+ decimal old_pid +:+ " to pid " +:+ decimal new_pid
  | TargetExited pid => "target process pid " +:+ decimal pid +:+ " exited"
  | CgroupMoved => "target cgroup changed; workload identity must be refreshed"
  | CpuTopologyChanged => "CPU topology changed; candidates must be revalidated"
  end.

Record DaemonLifecycleTransition := {
  lt_event : DaemonLifecycleEvent;
  lt_actions : list DaemonLifecycleAction;
  lt_reason_code : string;
  lt_reason : string;
  lt_stabilization_ms : option Z;
  lt_health_suspended_or_resumed : bool }.

Record SuspendResumeDetector := { sd_previous : option LifecycleClockSample; sd_gap_threshold_ms : Z }.

Definition detector_with_policy (p : DaemonLifecyclePolicy) : SuspendResumeDetector :=
  {| sd_previous := None; sd_gap_threshold_ms := suspend_resume_gap_threshold_ms p |}.

(** The wall clock's advance beyond the monotonic clock's, [u128::saturating_sub]. *)
Definition clock_gap (previous sample : LifecycleClockSample) : Z :=
  let realtime_delta := Z.max 0 (realtime_ms sample - realtime_ms previous) in
  let monotonic_delta := Z.max 0 (monotonic_ms sample - monotonic_ms previous) in
  Z.max 0 (realtime_delta - monotonic_delta).

Definition detector_observe (d : SuspendResumeDetector) (sample : LifecycleClockSample)
    : SuspendResumeDetector * option DaemonLifecycleEvent :=
  ({| sd_previous := Some sample; sd_gap_threshold_ms := sd_gap_threshold_ms d |},
   match sd_previous d with
   | None => None
   | Some previous =>
       let gap := clock_gap previous sample in
       if sd_gap_threshold_ms d <=? gap then Some (ResumeDetected gap) else None
   end).

Definition lifecycle_actions (i : DaemonLifecycleInputs) (p : DaemonLifecyclePolicy)
    : list DaemonLifecycleAction :=
  match li_event i with
  | SuspendDetected =>
      [LaPauseExperiments; LaFlushJournal]
      ++ (if rollback_active_experiment_on_suspend p && li_has_active_experiment i
             && li_active_experiment_has_rollback i
          then [LaRollbackActiveExperiment] else [])
  | ResumeDetected _ =>
      [LaRefreshTopology; LaRefreshTargetIdentity; LaRefreshEbpfMaps; LaClearMeasurementWindows;
       LaWaitStabilization]
  | GpuReset | CompositorRestart =>
      [LaPauseExperiments; LaClearMeasurementWindows; LaWaitStabilization]
  | TargetPidRestart _ _ | TargetExited _ | CgroupMoved =>
      [LaRefreshTargetIdentity; LaClearMeasurementWindows]
      ++ (if rollback_active_experiment_on_target_change p && li_has_active_experiment i
          then if li_active_experiment_has_rollback i
               then [LaRollbackActiveExperiment] else [LaEnterObserveOnly]
          else [])
  | CpuTopologyChanged => [LaRefreshTopology; LaClearMeasurementWindows; LaEnterObserveOnly]
  end.

Definition evaluate_daemon_lifecycle_event (i : DaemonLifecycleInputs) (p : DaemonLifecyclePolicy)
    : DaemonLifecycleTransition :=
  {| lt_event := li_event i;
     lt_actions := lifecycle_actions i p;
     lt_reason_code := DaemonLifecycleEvent_as_str (li_event i);
     lt_reason := lifecycle_reason (li_event i);
     lt_stabilization_ms :=
       match li_event i with
       | ResumeDetected _ | GpuReset | CompositorRestart => Some (resume_stabilization_ms p)
       | _ => None
       end;
     lt_health_suspended_or_resumed :=
       match li_event i with SuspendDetected | ResumeDetected _ => true | _ => false end |}.

(** ** [watchdog.rs] *)

Record DaemonWatchdogConfig := {
  wd_max_drop_counters_total : Z;
  wd_max_action_phase_elapsed_ms : Z;
  wd_max_experiment_elapsed_ms : Z;
  wd_max_shutdown_rollback_elapsed_ms : Z }.

Definition DaemonWatchdogConfig_default : DaemonWatchdogConfig :=
  {| wd_max_drop_counters_total := 10000; wd_max_action_phase_elapsed_ms := 30000;
     wd_max_experiment_elapsed_ms := 10 * 60 * 1000; wd_max_shutdown_rollback_elapsed_ms := 30000 |}.

Record DaemonWatchdogInputs := {
  wi_phase : DaemonPhase;
  wi_health : SystemHealthSnapshot;
  wi_ringbuf_alive : bool;
  wi_event_rate_per_minute : option Z;
  wi_drop_counters_total : Z;
  wi_target_refresh_ok : bool;
  wi_recorder_writable : bool;
  wi_rollback_journal_clean : bool;
  wi_has_active_experiment : bool;
  wi_has_active_rollback : bool;
  wi_action_phase_elapsed_ms : option Z;
  wi_experiment_elapsed_ms : option Z;
  wi_shutdown_rollback_elapsed_ms : option Z }.

Definition is_terminal (p : DaemonPhase) : bool :=
  match p with DpDisabled | DpPaused | DpFaulted | DpShutdown => true | _ => false end.

(** The state is read through its phase and whether a target, an experiment and a
    rollback are recorded. *)
Definition from_state_and_health (phase : DaemonPhase) (target experiment rollback : bool)
    (health : SystemHealthSnapshot) : DaemonWatchdogInputs :=
  {| wi_phase := phase; wi_health := health;
     wi_ringbuf_alive := negb (bool_decide (hs_snapshot_state health = InstrumentationBroken));
     wi_event_rate_per_minute := None;
     wi_drop_counters_total := hi_ebpf_dropped_events (hs_inputs health);
     wi_target_refresh_ok :=
       target || negb experiment
       || match phase with DpDisabled | DpInit | DpRecover | DpPaused | DpShutdown => true | _ => false end;
     wi_recorder_writable := match hs_snapshot_state health with LowDisk => false | _ => true end;
     wi_rollback_journal_clean := negb rollback || experiment;
     wi_has_active_experiment := experiment; wi_has_active_rollback := rollback;
     wi_action_phase_elapsed_ms := None; wi_experiment_elapsed_ms := None;
     wi_shutdown_rollback_elapsed_ms := None |}.

Inductive DaemonSelfHealingAction :=
| ShRestartMonitorSubsystem | ShClearStaleTarget | ShPauseAutotune | ShRollbackActiveExperiment
| ShEnterObserveOnly | ShFaultHard.

#[export] Instance DaemonSelfHealingAction_eq_dec : EqDecision DaemonSelfHealingAction.
Proof. solve_decision. Defined.

Record DaemonWatchdogIssue := {
  wx_reason_code : string;
  wx_recommended_actions : list DaemonSelfHealingAction }.

Record DaemonWatchdogReport := {
  wr_ok : bool;
  wr_phase : DaemonPhase;
  wr_issues : list DaemonWatchdogIssue;
  wr_recommended_actions : list DaemonSelfHealingAction }.

Definition watchdog_issue_if (cond : bool) (reason_code : string) (actions : list DaemonSelfHealingAction)
    : list DaemonWatchdogIssue :=
  if cond then [{| wx_reason_code := reason_code; wx_recommended_actions := actions |}] else [].

Definition watchdog_issues (i : DaemonWatchdogInputs) (c : DaemonWatchdogConfig) : list DaemonWatchdogIssue :=
  let rollback := if wi_has_active_rollback i then [ShRollbackActiveExperiment] else [] in
  watchdog_issue_if (negb (wi_ringbuf_alive i)) "ringbuf_not_alive"
    [ShRestartMonitorSubsystem; ShPauseAutotune]
  ++ watchdog_issue_if (bool_decide (wi_event_rate_per_minute i = Some 0) && negb (is_terminal (wi_phase i)))
       "event_rate_zero" [ShRestartMonitorSubsystem; ShPauseAutotune]
  ++ watchdog_issue_if (wd_max_drop_counters_total c <? wi_drop_counters_total i)
       "drop_counters_high" [ShPauseAutotune; ShEnterObserveOnly]
  ++ watchdog_issue_if (negb (wi_target_refresh_ok i)) "target_refresh_stalled"
       [ShClearStaleTarget; ShPauseAutotune]
  ++ watchdog_issue_if (negb (wi_recorder_writable i)) "recorder_unwritable"
       [ShPauseAutotune; ShEnterObserveOnly]
  ++ watchdog_issue_if (negb (wi_rollback_journal_clean i)) "rollback_journal_dirty"
       [ShRollbackActiveExperiment; ShFaultHard]
  ++ watchdog_issue_if (negb (hs_ok_for_apply (wi_health i)))
       (default "health_blocks_apply"%string (hs_snapshot_reason_code (wi_health i)))
       (rollback ++ [ShEnterObserveOnly])
  ++ watchdog_issue_if (some_and (wi_action_phase_elapsed_ms i) (Z.ltb (wd_max_action_phase_elapsed_ms c)))
       "action_phase_timeout" (rollback ++ [ShFaultHard])
  ++ watchdog_issue_if (some_and (wi_experiment_elapsed_ms i) (Z.ltb (wd_max_experiment_elapsed_ms c)))
       "experiment_timeout" [ShRollbackActiveExperiment; ShPauseAutotune]
  ++ watchdog_issue_if
       (some_and (wi_shutdown_rollback_elapsed_ms i) (Z.ltb (wd_max_shutdown_rollback_elapsed_ms c)))
       "shutdown_rollback_timeout" [ShFaultHard].

(** Each action once, where it is first recommended. *)
Definition first_occurrences (l : list DaemonSelfHealingAction) : list DaemonSelfHealingAction :=
  foldl (fun acc a => if bool_decide (a ∈ acc) then acc else acc ++ [a]) [] l.

Definition evaluate_daemon_watchdog (i : DaemonWatchdogInputs) (c : DaemonWatchdogConfig)
    : DaemonWatchdogReport :=
  let issues := watchdog_issues i c in
  {| wr_ok := match issues with [] => true | _ => false end;
     wr_phase := wi_phase i; wr_issues := issues;
     wr_recommended_actions := first_occurrences (issues ≫= wx_recommended_actions) |}.

(** ** The verdict *)

#[local] Instance severer_transitive : Transitive severer.
Proof. intros a b c Hab Hbc. unfold severer in *. lia. Qed.
#[local] Instance severer_total : Total severer.
Proof. intros a b. unfold severer. lia. Qed.

(** The guardrails, one by one: what must hold of the inputs for the system to be
    healthy. *)
Definition guardrails_hold (i : SystemHealthInputs) (t : SystemHealthThresholds) : Prop :=
  hi_probe_errors i = [] /\
  hi_suspended_or_resumed i = false /\
  (forall v, hi_max_cpu_temp_millidegrees i = Some v -> v < ht_max_cpu_temp_millidegrees t) /\
  (forall v, hi_max_gpu_temp_millidegrees i = Some v -> v < ht_max_gpu_temp_millidegrees t) /\
  (forall v, hi_disk_available_bytes i = Some v -> ht_min_disk_available_bytes t <= v) /\
  (forall v, hi_memory_pressure_some_avg10_millipercent i = Some v ->
     v < ht_max_memory_pressure_some_avg10_millipercent t) /\
  (forall load cpus, hi_load_average_1m_milli i = Some load -> hi_cpu_count i = Some cpus ->
     load_per_cpu load cpus < ht_max_load_per_cpu_milli t) /\
  hi_ebpf_dropped_events i <= ht_max_ebpf_dropped_events t.

Lemma issue_if_nil cond state reason : issue_if cond state reason = [] <-> cond = false.
Proof. by destruct cond. Qed.

Lemma some_and_false {A} (o : option A) p : some_and o p = false <-> forall v, o = Some v -> p v = false.
Proof. destruct o as [x|]; cbn; naive_solver. Qed.

Lemma found_issues_nil i t : found_issues i t = [] <-> guardrails_hold i t.
Proof.
  unfold found_issues, guardrails_hold. rewrite !app_nil, !issue_if_nil, !some_and_false.
  setoid_rewrite Z.leb_gt. setoid_rewrite Z.ltb_ge.
  destruct (hi_probe_errors i); destruct (hi_load_average_1m_milli i) as [load|];
    destruct (hi_cpu_count i) as [cpus|]; rewrite ?Z.leb_gt; naive_solver.
Qed.

(** No issue is [Healthy]. *)
Lemma found_issue_blocks i t x : x ∈ found_issues i t -> blocks_apply (hs_state x) = true.
Proof.
  unfold found_issues, issue_if. rewrite !elem_of_app. intros H. destruct_or! H;
  match type of H with _ ∈ (if ?b then _ else _) => destruct b end; set_solver.
Qed.

Lemma evaluated_ok i t : hs_ok_for_apply (evaluate_system_health i t) = true <-> guardrails_hold i t.
Proof.
  rewrite <- found_issues_nil. unfold evaluate_system_health. cbn.
  pose proof (stable_sort_Permutation severer (found_issues i t)) as Hp.
  destruct (stable_sort severer (found_issues i t)) as [|x l].
  - apply Permutation_nil_l in Hp. by rewrite <- Hp.
  - rewrite (found_issue_blocks i t x) by (rewrite <- Hp; left). cbn. split; [done|].
    intros E. rewrite E in Hp. by apply Permutation_nil_r in Hp.
Qed.

(** The head of a stable sort is the first element of the list that nothing precedes. *)
Lemma stable_sort_head {A} (R : relation A) `{!forall x y, Decision (R x y)} (l : list A) x s :
  stable_sort R l = x :: s ->
  exists before after, l = before ++ x :: after /\ Forall (fun y => ~ R y x) before.
Proof.
  revert x s. induction l as [|y l IH]; intros x s; [done|]. unfold stable_sort in *. cbn [foldr].
  destruct (foldr (insert_before R) [] l) as [|z s'] eqn:E; cbn.
  - intros [= <- <-]. by exists [], l.
  - destruct (IH z s' eq_refl) as (before & after & -> & Hb).
    case_decide as Hyz; intros [= <- <-].
    + by exists [], (before ++ z :: after).
    + exists (y :: before), after. split; [done|]. by constructor.
Qed.

(** The verdict on the inputs of a probe: applying is allowed exactly when every guardrail
    holds; the state reported is the most severe found, and the reason is that of the
    first issue found of that severity. *)
Theorem health_verdict_exact i t :
  let h := evaluate_system_health i t in
  (hs_ok_for_apply h = true <-> guardrails_hold i t) /\
  (hs_ok_for_apply h = true <-> hs_snapshot_state h = Healthy) /\
  (forall x, x ∈ found_issues i t -> severity_rank (hs_state x) <= severity_rank (hs_snapshot_state h)) /\
  (hs_ok_for_apply h = false ->
   exists before x after, found_issues i t = before ++ x :: after /\
     hs_state x = hs_snapshot_state h /\ hs_snapshot_reason_code h = Some (hs_reason_code x) /\
     Forall (fun y => severity_rank (hs_state y) < severity_rank (hs_state x)) before).
Proof.
  intros h. split; [apply evaluated_ok|]. subst h. unfold evaluate_system_health. cbn.
  pose proof (stable_sort_Permutation severer (found_issues i t)) as Hp.
  pose proof (StronglySorted_stable_sort severer (found_issues i t)) as Hs.
  pose proof (stable_sort_head severer (found_issues i t)) as Hh.
  destruct (stable_sort severer (found_issues i t)) as [|x l].
  - split; [done|]. split; [|done]. intros x. rewrite <- Hp. set_solver.
  - split; [by destruct (hs_state x)|]. split.
    + intros y. rewrite <- Hp, elem_of_cons. intros [->|Hy]; [lia|].
      apply Sorted.StronglySorted_inv in Hs as [_ Hs]. rewrite Forall_forall in Hs. by apply Hs.
    + intros _. destruct (Hh x l eq_refl) as (before & after & -> & Hb).
      exists before, x, after. split_and!; [done..|]. eapply Forall_impl; [exact Hb|].
      cbn. unfold severer. intros y Hy. lia.
Qed.

(** ** What the sensors say *)

Definition temperature_readings (f : HealthFiles) (sys_root : string) : list (bool * Z) :=
  let thermal := path_join sys_root "class/thermal" in
  let hwmon := path_join sys_root "class/hwmon" in
  omap (thermal_zone_reading f thermal) (default [] (hf_read_dir f thermal))
  ++ (default [] (hf_read_dir f hwmon) ≫= hwmon_readings f hwmon).

Definition max_temp (i : SystemHealthInputs) (gpu : bool) : option Z :=
  if gpu then hi_max_gpu_temp_millidegrees i else hi_max_cpu_temp_millidegrees i.

(** The slot of a source holds the largest of its readings. *)
Definition holds_max (slot : option Z) (readings : list Z) : Prop :=
  match slot with
  | None => readings = []
  | Some m => m ∈ readings /\ Forall (fun v => v <= m) readings
  end.

Definition readings_of (gpu : bool) (l : list (bool * Z)) : list Z :=
  (filter (fun r => r.1 = gpu) l).*2.

Lemma update_max_holds slot l v : holds_max slot l -> holds_max (update_max slot v) (l ++ [v]).
Proof.
  destruct slot as [m|]; cbn; intros H.
  - destruct H as [Hm Hl]. split.
    + destruct (Z.max_spec m v) as [[_ ->]|[_ ->]]; set_solver.
    + apply Forall_app_2; [|repeat constructor; lia]. eapply Forall_impl; [exact Hl|]. cbn. lia.
  - subst l. cbn. split; [set_solver|]. repeat constructor. lia.
Qed.

Lemma record_readings_max i l0 l gpu :
  holds_max (max_temp i gpu) (readings_of gpu l0) ->
  holds_max (max_temp (record_readings i l) gpu) (readings_of gpu (l0 ++ l)).
Proof.
  revert i l0. induction l as [|[g v] l IH]; intros i l0 H; [by rewrite app_nil_r|].
  cbn. rewrite cons_middle, (assoc_L (++)). apply IH. unfold readings_of in *.
  rewrite filter_app, fmap_app. destruct (decide (g = gpu)) as [->|Hg].
  - rewrite filter_cons_True by done. cbn. destruct gpu; cbn; by apply update_max_holds.
  - rewrite filter_cons_False by done. cbn. rewrite app_nil_r.
    by destruct gpu, g; cbn.
Qed.

Lemma record_readings_app i l l' :
  record_readings (record_readings i l) l' = record_readings i (l ++ l').
Proof. symmetry. apply foldl_app. Qed.

Lemma probed_temperature f proc sys gpu :
  max_temp (probe_inputs f proc sys) gpu
  = max_temp (record_readings SystemHealthInputs_default (temperature_readings f sys)) gpu.
Proof.
  unfold probe_inputs, read_temperatures, read_hwmon_temperatures, read_thermal_zone_temperatures.
  rewrite record_readings_app. set (i := record_readings _ _). fold (temperature_readings f sys) in i.
  unfold read_power_supply. destruct (hf_read_dir f _); [|by destruct gpu].
  destruct (foldl _ _ _) as [[? ?] ?]. by destruct gpu.
Qed.

(** Each maximum of a probe is that of the readings of its source, in the thermal zones
    and the hardware monitors together. *)
Theorem probe_temperature_exact f proc sys gpu :
  holds_max (max_temp (probe_inputs f proc sys) gpu) (readings_of gpu (temperature_readings f sys)).
Proof. rewrite probed_temperature. apply (record_readings_max _ [] _ gpu). by destruct gpu. Qed.

(** ** Health and the policy *)

Lemma max_temp_cpu i : hi_max_cpu_temp_millidegrees i = max_temp i false.
Proof. done. Qed.
Lemma max_temp_gpu i : hi_max_gpu_temp_millidegrees i = max_temp i true.
Proof. done. Qed.

Definition temp_limit (t : SystemHealthThresholds) (gpu : bool) : Z :=
  if gpu then ht_max_gpu_temp_millidegrees t else ht_max_cpu_temp_millidegrees t.

(** Under guardrails that hold, every reading is below the limit of its source. *)
Lemma guarded_readings f proc sys t gpu temp :
  guardrails_hold (probe_inputs f proc sys) t ->
  (gpu, temp) ∈ temperature_readings f sys -> temp < temp_limit t gpu.
Proof.
  intros (_ & _ & Hcpu & Hgpu & _) Hin. rewrite max_temp_cpu in Hcpu. rewrite max_temp_gpu in Hgpu.
  pose proof (probe_temperature_exact f proc sys gpu) as Hm.
  assert (Ht : temp ∈ readings_of gpu (temperature_readings f sys)).
  { unfold readings_of. apply list_elem_of_fmap. exists (gpu, temp).
    split; [done|]. by apply list_elem_of_filter. }
  destruct (max_temp (probe_inputs f proc sys) gpu) as [m|] eqn:E; cbn in Hm; [|by rewrite Hm in Ht; set_solver].
  destruct Hm as [_ Hm]. rewrite Forall_forall in Hm. specialize (Hm temp Ht). cbn in Hm.
  destruct gpu; cbn; [specialize (Hgpu m E)|specialize (Hcpu m E)]; lia.
Qed.

Lemma probed_disk f proc sys :
  hi_disk_available_bytes (probe_inputs f proc sys)
  = match hf_free_bytes f with inl bytes => Some bytes | inr _ => None end
  /\ (hi_probe_errors (probe_inputs f proc sys) = [] -> exists bytes, hf_free_bytes f = inl bytes).
Proof.
  unfold probe_inputs, read_power_supply, read_temperatures, read_hwmon_temperatures,
    read_thermal_zone_temperatures.
  rewrite record_readings_app. set (l := _ ++ _).
  assert (Hd : forall i, hi_disk_available_bytes (record_readings i l) = hi_disk_available_bytes i).
  { induction l as [|[g v] l IH]; intros i; [done|]. cbn. by rewrite IH. }
  clearbody l. destruct (hf_read_dir f _); [destruct (foldl _ _ _) as [[? ?] ?]|]; cbn; rewrite Hd;
    destruct (hf_free_bytes f) as [bytes|err]; cbn; (split; [done|]); intros E; eauto;
    by apply app_nil in E as [_ ?].
Qed.

(** C32. An apply the policy allows in a context with the health probed from [/proc] and
    [/sys], as the agent builds it, respects every guardrail of the sensors: each
    thermal-zone and hwmon reading is below the limit of its source, the free space was
    read and is not below its minimum, and the memory pressure and the load read are
    below their limits. *)
Theorem apply_needs_healthy_system p d c f proc sys t :
  decision (explain_action_with_context p IntentApply d (with_system_health c (probe f proc sys t))) = Allowed ->
  (forall gpu temp, (gpu, temp) ∈ temperature_readings f sys -> temp < temp_limit t gpu) /\
  (exists bytes, hf_free_bytes f = inl bytes /\ ht_min_disk_available_bytes t <= bytes) /\
  (forall v, hi_memory_pressure_some_avg10_millipercent (probe_inputs f proc sys) = Some v ->
     v < ht_max_memory_pressure_some_avg10_millipercent t) /\
  (forall load cpus, hi_load_average_1m_milli (probe_inputs f proc sys) = Some load ->
     hi_cpu_count (probe_inputs f proc sys) = Some cpus ->
     load_per_cpu load cpus < ht_max_load_per_cpu_milli t).
Proof.
  rewrite apply_decision. intros [_ Hp].
  assert (Hg : guardrails_hold (probe_inputs f proc sys) t)
    by (apply evaluated_ok; unfold context_permitted in Hp; naive_solver).
  split; [intros gpu temp; by eapply guarded_readings|].
  destruct (probed_disk f proc sys) as [Hd He]. unfold guardrails_hold in Hg.
  split; [|naive_solver]. destruct Hg as (Herr & _ & _ & _ & Hdisk & _).
  destruct (He Herr) as [bytes Hb]. exists bytes. split; [done|]. apply Hdisk. by rewrite Hd, Hb.
Qed.

(** The health the autotune planner decides with reads no sensor: it is the comparison of
    the drop counters with the data quality policy, whatever the guardrails configured
    and whatever the sensors say. *)
Theorem observed_health_is_drops drops max_drops :
  (hs_ok_for_apply (observed_health drops max_drops) = true <-> drops <= max_drops) /\
  (max_drops < drops -> hs_snapshot_reason_code (observed_health drops max_drops) = Some "drop_counters_high"%string).
Proof.
  split.
  - unfold observed_health. rewrite evaluated_ok. unfold guardrails_hold. cbn. naive_solver.
  - intros H. unfold observed_health, evaluate_system_health, found_issues. cbn.
    by rewrite (proj2 (Z.ltb_lt _ _) H).
Qed.

(** ** The decimals of the kernel *)

Lemma show_digit_dot d : 0 <= d < 10 -> Ascii.eqb (show_digit d) "." = false.
Proof.
  intros H. assert (d = 0 \/ d = 1 \/ d = 2 \/ d = 3 \/ d = 4 \/ d = 5 \/ d = 6 \/ d = 7 \/ d = 8 \/ d = 9)
    as Hd by lia. by destruct_or? Hd; subst.
Qed.

Lemma dot_free_digits fuel n acc : 0 <= n -> lacks "." acc = true -> lacks "." (show_digits fuel n acc) = true.
Proof.
  revert n acc. induction fuel as [|fuel IH]; intros n acc Hn Ha; cbn [show_digits]; [done|].
  assert (Hs : lacks "." (String (show_digit (n mod 10)) acc) = true).
  { unfold lacks in *. cbn [forall_ascii]. by rewrite show_digit_dot by (apply Z.mod_pos_bound; lia). }
  destruct (n <? 10); [done|]. apply IH; [apply Z.div_pos; lia|done].
Qed.

(** What the kernel prints in [/proc/loadavg] and [/proc/pressure]: two decimals. *)
Definition kernel_decimal (whole hundredths : Z) : string :=
  decimal whole +:+
  String "." (String (show_digit (hundredths / 10)) (String (show_digit (hundredths mod 10)) EmptyString)).

Lemma parse_kernel_fraction h :
  0 <= h < 100 ->
  parse_unsigned U32_MAX
    (pad_digits 3 (String (show_digit (h / 10)) (String (show_digit (h mod 10)) EmptyString))) = Some (h * 10).
Proof.
  intros Hh. assert (H1 : 0 <= h / 10 < 10) by (split; [apply Z.div_pos|apply Z.div_lt_upper_bound]; lia).
  assert (H2 : 0 <= h mod 10 < 10) by (apply Z.mod_pos_bound; lia).
  pose proof (Z.div_mod h 10 ltac:(lia)) as E. destruct (show_digit_sign _ H1) as [Hp _].
  unfold parse_unsigned. cbn [pad_digits].
  set (s := String (show_digit (h / 10)) _).
  assert (Hs : match s with String "+" s' => s' | _ => s end = s).
  { subst s. destruct (show_digit (h / 10)) as [[] [] [] [] [] [] [] []]; done || by destruct Hp. }
  change (match parse_nat (match s with String "+" s' => s' | _ => s end) with
          | Some n => if n <=? U32_MAX then Some n else None | None => None end = Some (h * 10)).
  rewrite Hs. subst s. unfold parse_nat. cbn [parse_digits].
  rewrite (digit_show _ H1), (digit_show _ H2). change (digit "0") with (Some 0). cbn iota.
  replace (10 * (10 * (10 * 0 + h / 10) + h mod 10) + 0) with (h * 10) by lia.
  destruct (Z.leb_spec (h * 10) U32_MAX) as [Hl|Hl]; [done|]. unfold U32_MAX in Hl. lia.
Qed.

(** The numbers the kernel prints are read back in thousandths, up to the width of the
    field. *)
Theorem decimal_milli_roundtrip whole hundredths :
  0 <= whole <= U32_MAX -> 0 <= hundredths < 100 ->
  parse_decimal_milli (kernel_decimal whole hundredths)
  = Some (Z.min (Z.min (whole * 1000) U32_MAX + hundredths * 10) U32_MAX).
Proof.
  intros Hw Hh. unfold parse_decimal_milli, kernel_decimal. rewrite split_once_app.
  - cbn -[pad_digits parse_unsigned decimal].
    rewrite parse_unsigned_decimal by (unfold U32_MAX in *; lia). cbn -[pad_digits parse_unsigned].
    by rewrite parse_kernel_fraction.
  - unfold decimal. rewrite (proj2 (Z.ltb_ge whole 0)) by lia. apply dot_free_digits; [lia|done].
Qed.

(** ** The watchdog *)

Lemma elem_of_watchdog_issue_if a cond reason actions :
  a ∈ (watchdog_issue_if cond reason actions ≫= wx_recommended_actions) <->
  cond = true /\ bool_decide (a ∈ actions).
Proof. rewrite bool_decide_spec. destruct cond; cbn; set_solver. Qed.

Lemma first_occurrences_from acc l :
  NoDup acc ->
  let r := foldl (fun acc a => if bool_decide (a ∈ acc) then acc else acc ++ [a]) acc l in
  NoDup r /\ forall a : DaemonSelfHealingAction, a ∈ r <-> a ∈ acc \/ a ∈ l.
Proof.
  revert acc. induction l as [|x l IH]; intros acc Hd; cbn.
  { split; [done|]. set_solver. }
  case_bool_decide as Hx.
  - destruct (IH acc Hd) as [Hn Hi]. split; [done|]. intros a. rewrite Hi. set_solver.
  - destruct (IH (acc ++ [x])) as [Hn Hi].
    { apply NoDup_app. split_and!; [done|set_solver|apply NoDup_singleton]. }
    split; [done|]. intros a. rewrite Hi. set_solver.
Qed.

Lemma first_occurrences_spec l :
  NoDup (first_occurrences l) /\ forall a, a ∈ first_occurrences l <-> a ∈ l.
Proof.
  destruct (first_occurrences_from [] l (NoDup_nil_2)) as [Hn Hi]. split; [done|].
  intros a. unfold first_occurrences. rewrite Hi. set_solver.
Qed.

(** Membership in a literal list, computed. *)
Ltac compute_members :=
  repeat match goal with
  | |- context [bool_decide ?P] => let v := eval vm_compute in (bool_decide P) in change (bool_decide P) with v
  end; cbn [Is_true].

(** When each action of the watchdog is recommended. *)
Definition recommended_when (i : DaemonWatchdogInputs) (c : DaemonWatchdogConfig)
    (a : DaemonSelfHealingAction) : Prop :=
  let over o max := exists v, o = Some v /\ max < v in
  let silent := wi_event_rate_per_minute i = Some 0 /\ is_terminal (wi_phase i) = false in
  let drops := wd_max_drop_counters_total c < wi_drop_counters_total i in
  let slow_action := over (wi_action_phase_elapsed_ms i) (wd_max_action_phase_elapsed_ms c) in
  let slow_experiment := over (wi_experiment_elapsed_ms i) (wd_max_experiment_elapsed_ms c) in
  let unhealthy := hs_ok_for_apply (wi_health i) = false in
  match a with
  | ShRestartMonitorSubsystem => wi_ringbuf_alive i = false \/ silent
  | ShClearStaleTarget => wi_target_refresh_ok i = false
  | ShPauseAutotune =>
      wi_ringbuf_alive i = false \/ silent \/ drops \/ wi_target_refresh_ok i = false \/
      wi_recorder_writable i = false \/ slow_experiment
  | ShRollbackActiveExperiment =>
      wi_rollback_journal_clean i = false \/ slow_experiment \/
      (wi_has_active_rollback i = true /\ (unhealthy \/ slow_action))
  | ShEnterObserveOnly => drops \/ wi_recorder_writable i = false \/ unhealthy
  | ShFaultHard =>
      wi_rollback_journal_clean i = false \/ slow_action \/
      over (wi_shutdown_rollback_elapsed_ms i) (wd_max_shutdown_rollback_elapsed_ms c)
  end.

Lemma some_and_ltb (o : option Z) max : some_and o (Z.ltb max) = true <-> exists v, o = Some v /\ max < v.
Proof. destruct o as [v|]; cbn; rewrite ?Z.ltb_lt; naive_solver. Qed.

(** The report of the watchdog names each action at most once, and exactly those its
    conditions ask for. *)
Theorem watchdog_actions_exact i c :
  NoDup (wr_recommended_actions (evaluate_daemon_watchdog i c)) /\
  forall a, a ∈ wr_recommended_actions (evaluate_daemon_watchdog i c) <-> recommended_when i c a.
Proof.
  unfold evaluate_daemon_watchdog. cbn [wr_recommended_actions].
  destruct (first_occurrences_spec (watchdog_issues i c ≫= wx_recommended_actions)) as [Hn Hi].
  split; [done|]. intros a. rewrite Hi. unfold watchdog_issues. cbv zeta.
  rewrite !bind_app, !elem_of_app, !elem_of_watchdog_issue_if, !negb_true_iff, !andb_true_iff, !negb_true_iff,
    !bool_decide_eq_true, !some_and_ltb, !Z.ltb_lt.
  assert (Hft : false = true <-> False) by done.
  destruct (wi_has_active_rollback i) eqn:Er, a; cbn; rewrite ?Er, ?Hft; compute_members; tauto.
Qed.

(** A system found unhealthy while a change is in force: the watchdog asks for the
    rollback, and for observe-only mode. *)
Theorem unhealthy_asks_rollback phase target experiment f proc sys t c :
  ~ guardrails_hold (probe_inputs f proc sys) t ->
  let report :=
    evaluate_daemon_watchdog (from_state_and_health phase target experiment true (probe f proc sys t)) c in
  wr_ok report = false /\
  ShRollbackActiveExperiment ∈ wr_recommended_actions report /\
  ShEnterObserveOnly ∈ wr_recommended_actions report.
Proof.
  rewrite <- evaluated_ok. intros Hok%not_true_iff_false report. subst report.
  rewrite !(proj2 (watchdog_actions_exact _ _)). split; [|cbn; tauto].
  unfold evaluate_daemon_watchdog. cbn [wr_ok].
  pose proof (proj2 (watchdog_actions_exact (from_state_and_health phase target experiment true
    (probe f proc sys t)) c) ShEnterObserveOnly) as [_ Hin].
  unfold evaluate_daemon_watchdog in Hin. cbn [wr_recommended_actions] in Hin.
  destruct (watchdog_issues _ _); [|done].
  exfalso. assert (H : ShEnterObserveOnly ∈ @nil DaemonSelfHealingAction); [|by apply elem_of_nil in H].
  apply Hin. cbn. tauto.
Qed.

(** ** Clocks and lifecycle *)

(** A sleep is seen when the wall clock outran the monotonic clock by the threshold
    between two samples. While both clocks run forward the gap is the time asleep, so a
    sleep is reported with its length exactly when it reaches the threshold. *)
Theorem suspend_detected_iff d previous sample asleep :
  sd_previous d = Some previous ->
  monotonic_ms previous <= monotonic_ms sample ->
  realtime_ms sample - realtime_ms previous = monotonic_ms sample - monotonic_ms previous + asleep ->
  0 <= asleep ->
  (detector_observe d sample).2
  = (if sd_gap_threshold_ms d <=? asleep then Some (ResumeDetected asleep) else None) /\
  sd_previous (detector_observe d sample).1 = Some sample.
Proof.
  intros Hp Hm Hr Ha. unfold detector_observe. cbn. rewrite Hp.
  replace (clock_gap previous sample) with asleep; [done|]. unfold clock_gap. lia.
Qed.
