(* ===== verification/ActiveConfig.v ===== *)
(** * ActiveConfig: the configuration that is live

    [autotune/active_config/]: what is read of the tasks, interrupts, CPUs, graphics cards
    and kernel settings ([collector.rs]), whether a candidate already describes it
    ([matching.rs]), and whether a rollback brought the earlier one back ([rollback.rs]).

    The files of [/proc] and [/sys] are functions from paths to contents; the kernel's answer
    to [ioprio_get] and the inventory of the system are inputs. *)

From Stdlib Require Import Ascii String List.
From S2P Require Import Prelude Binary64 Abi Metrics Score PolicyModel PolicyEval ActionModel Nice Intervals CpuMask Profiles Procfs Allowlist Journal Recovery Transaction Objective Controller AutonomousGate ContextKey CandidateMemory Decide Planner LiveExperiment DaemonHealth.
From stdpp Require Import gmap list strings sorting.
Open Scope Z_scope.

(** ** [collector.rs] *)

Record CollectorInput := {
  ci_files : HealthFiles;
  ci_proc_root : string;
  ci_sys_root : string;
  ci_ioprio_get : Z -> option Z;
  ci_capabilities : DaemonCapabilities;
  ci_cpu_policies : list CpuPolicyRuntimeState;
  ci_drm_devices : list string;
  ci_vm_knobs : gmap string string }.

Definition task_file (i : CollectorInput) (tid : Z) (name : string) : string :=
  path_join (path_join (ci_proc_root i) (Procfs.decimal tid)) name.

(** For every task that can be read. *)
Definition per_tid {A} (read : Z -> option A) (tids : list Z) : gmap Z A :=
  foldl (fun m tid => match read tid with Some value => <[tid := value]> m | None => m end) ∅ tids.

Definition read_status_value (i : CollectorInput) (path key : string) : option string :=
  contents ← hf_read (ci_files i) path;
  find_map (fun line =>
      '(name, value) ← split_once ":" line;
      if String.eqb (trim name) key then Some (trim value) else None)
    (lines contents).

Definition read_cpus_allowed_list (i : CollectorInput) (tid : Z) : option string :=
  read_status_value i (task_file i tid "status") "Cpus_allowed_list".

Definition stat_fields_after_comm (contents : string) : option (list string) :=
  split_whitespace <$> after_last ") " contents.

Definition read_nice (i : CollectorInput) (tid : Z) : option Z :=
  contents ← hf_read (ci_files i) (task_file i tid "stat");
  fields ← stat_fields_after_comm contents;
  field ← fields !! 16%nat;
  parse_i32 field.

Definition read_live_ioprio (i : CollectorInput) (tid : Z) : option string :=
  raw ← ci_ioprio_get i tid; IoPrioValue_label <$> ioprio_decode raw.

Definition read_ioprio (i : CollectorInput) (tid : Z) : option string :=
  match read_trimmed (ci_files i) (task_file i tid "ioprio") with
  | Some value => Some value
  | None => if String.eqb (ci_proc_root i) "/proc" then read_live_ioprio i tid else None
  end.

Definition uclamp_line (values : UclampValues) (line : string) : UclampValues :=
  match split_once ":" line with
  | None => values
  | Some (key, value) =>
      let parsed := parse_unsigned U32_MAX (trim value) in
      if String.eqb (trim key) "uclamp.min"
      then {| uv_sched_util_min := parsed; uv_sched_util_max := uv_sched_util_max values |}
      else if String.eqb (trim key) "uclamp.max"
      then {| uv_sched_util_min := uv_sched_util_min values; uv_sched_util_max := parsed |}
      else values
  end.

Definition read_uclamp (i : CollectorInput) (tid : Z) : option UclampValues :=
  contents ← hf_read (ci_files i) (task_file i tid "sched");
  let values := foldl uclamp_line {| uv_sched_util_min := None; uv_sched_util_max := None |} (lines contents) in
  match uv_sched_util_min values, uv_sched_util_max values with
  | None, None => None
  | _, _ => Some values
  end.

Definition read_cgroup (i : CollectorInput) (tid : Z) : option string :=
  contents ← hf_read (ci_files i) (task_file i tid "cgroup");
  find_map (fun line => trim <$> after_last ":" line) (lines contents).

Definition collect_irq (i : CollectorInput) : gmap Z string :=
  let irq_root := path_join (ci_proc_root i) "irq" in
  foldl (fun m name =>
      match parse_unsigned U32_MAX name with
      | None => m
      | Some irq =>
          match read_trimmed (ci_files i) (path_join (path_join irq_root name) "smp_affinity") with
          | Some value => <[irq := value]> m
          | None => m
          end
      end) ∅ (default [] (hf_read_dir (ci_files i) irq_root)).

Definition collect_gpu_power (i : CollectorInput) : list GpuPowerRuntimeState :=
  (fun name =>
     let device_dir := path_join (path_join (path_join (ci_sys_root i) "class/drm") name) "device" in
     {| grs_device := name;
        grs_power_dpm_force_performance_level :=
          read_trimmed (ci_files i) (path_join device_dir "power_dpm_force_performance_level");
        grs_pp_power_profile_mode :=
          read_trimmed (ci_files i) (path_join device_dir "pp_power_profile_mode") |}) <$> ci_drm_devices i.

Definition sorted_active_tids (tasks : list ActiveTaskSnapshot) : list Z :=
  merge_sort Z.le (remove_dups (at_tid <$> tasks)).

Definition collect_active_config (i : CollectorInput) (tasks : list ActiveTaskSnapshot) : ActiveConfigSnapshot :=
  let tids := sorted_active_tids tasks in
  let c := ci_capabilities i in
  {| acs_affinity := per_tid (read_cpus_allowed_list i) tids;
     acs_nice := per_tid (read_nice i) tids;
     acs_ionice := if ionice_available c then per_tid (read_ioprio i) tids else ∅;
     acs_uclamp := if uclamp_available c then per_tid (read_uclamp i) tids else ∅;
     acs_cgroup := per_tid (read_cgroup i) tids;
     acs_irq := if irq_affinity_available c then collect_irq i else ∅;
     acs_cpu_power := ci_cpu_policies i;
     acs_gpu_power := if gpu_sysfs_available c then collect_gpu_power i else [];
     acs_vm := ci_vm_knobs i |}.

(** ** [helpers.rs] *)

Definition cpu_mask_strings_match (current requested : string) : bool :=
  match CpuMask_parse current, CpuMask_parse requested with
  | Some current, Some requested => bool_decide (current = requested)
  | _, _ => String.eqb (trim current) (trim requested)
  end.

Definition none_or (o current : option Z) : bool :=
  match o with None => true | Some _ => bool_decide (current = o) end.

Definition uclamp_matches_request (current requested : UclampValues) : bool :=
  none_or (uv_sched_util_min requested) (uv_sched_util_min current)
  && none_or (uv_sched_util_max requested) (uv_sched_util_max current).

Definition normalize_cgroup_str (path : string) : string :=
  let trimmed := trim path in
  if String.eqb trimmed "" then "/" else if is_absolute trimmed then trimmed else "/" +:+ trimmed.

Definition cpu_list_contains (list : string) (cpu : Z) : bool :=
  existsb (fun part =>
      let part := trim part in
      match split_once "-" part with
      | Some (start, last) =>
          match parse_unsigned U32_MAX (trim start), parse_unsigned U32_MAX (trim last) with
          | Some start, Some last => (start <=? cpu) && (cpu <=? last)
          | _, _ => false
          end
      | None => match parse_unsigned U32_MAX part with Some value => value =? cpu | None => false end
      end) (split_on "," list).

Definition cpu_policy_for_cpu (policies : list CpuPolicyRuntimeState) (cpu : Z) : option CpuPolicyRuntimeState :=
  List.find (fun p =>
      match crs_related_cpus p with Some related => cpu_list_contains related cpu | None => false end
      || String.eqb (crs_policy p) ("policy" +:+ Procfs.decimal cpu)) policies.

#[export] Instance Component_eq_dec : EqDecision Component.
Proof. solve_decision. Defined.

(** [Path::strip_prefix], on paths without doubled separators. *)
Definition path_strip_prefix (path base : string) : option string :=
  let cs := components path in
  let bs := components base in
  if bool_decide (take (length bs) cs = bs)
  then Some (String.concat "/" (omap (fun c => match c with Normal part => Some part | ParentDir => Some ".."%string
                                              | CurDir => Some "."%string | RootDir => None end)
                                  (drop (length bs) cs)))
  else None.

Definition vm_knob_keys_for_change (root path : string) : list string :=
  let key p := trim_start_char "/" p in
  merge_sort String.le
    (remove_dups ([key path] ++ option_list (key <$> path_strip_prefix path root)
                             ++ option_list (key <$> path_strip_prefix path "/proc"))).

Definition vm_knob_active_value (knobs : gmap string string) (keys : list string) : option string :=
  find_map (fun key => knobs !! key) keys.

(** ** [matching.rs] *)

(** The loop over what a candidate changes: the first that differs or is unknown decides. *)
Fixpoint match_all {A} (f : A -> ActiveConfigMatch) (l : list A) : ActiveConfigMatch :=
  match l with
  | [] => AcmMatches
  | x :: l => match f x with AcmMatches => match_all f l | m => m end
  end.

(** A candidate without targets says nothing. *)
Definition match_targets {A} (f : A -> ActiveConfigMatch) (l : list A) : ActiveConfigMatch :=
  match l with [] => AcmUnknown | _ => match_all f l end.

Definition match_value {A} (current : option A) (same : A -> bool) : ActiveConfigMatch :=
  match current with
  | Some value => if same value then AcmMatches else AcmDiffers
  | None => AcmUnknown
  end.

(** A requested text against an optional live one. *)
Definition text_differs (requested current : option string) : bool :=
  match requested with Some _ => negb (bool_decide (current = requested)) | None => false end.

Definition cpu_affinity_profile_match (p : CpuAffinityProfilePlan) (s : ActiveConfigSnapshot)
    (tasks : list ActiveTaskSnapshot) : ActiveConfigMatch :=
  match tasks with
  | [] => AcmUnknown
  | _ =>
      match_targets (fun t =>
          match_value (acs_affinity s !! pt_tid t) (fun current => cpu_mask_strings_match current (pt_requested_mask t)))
        (evaluate_profile_for_tasks (cap_profile p) tasks)
  end.

Definition cpu_power_match (a : CpuPowerAction) (s : ActiveConfigSnapshot) : ActiveConfigMatch :=
  match cpw_cpus a with
  | [] => AcmUnknown
  | _ =>
      match cpw_scaling_governor a, cpw_energy_performance_preference a with
      | None, None => AcmUnknown
      | governor, epp =>
          match_all (fun cpu =>
              match cpu_policy_for_cpu (acs_cpu_power s) cpu with
              | None => AcmUnknown
              | Some policy =>
                  if text_differs governor (crs_scaling_governor policy) then AcmDiffers
                  else if text_differs epp (crs_energy_performance_preference policy) then AcmDiffers
                  else AcmMatches
              end) (cpw_cpus a)
      end
  end.

Definition gpu_device (s : ActiveConfigSnapshot) (card : string) : option GpuPowerRuntimeState :=
  List.find (fun d => String.eqb (grs_device d) card) (acs_gpu_power s).

Definition gpu_power_match (a : GpuPowerAction) (s : ActiveConfigSnapshot) : ActiveConfigMatch :=
  match gpu_device s (gpw_drm_card a) with
  | None => AcmUnknown
  | Some device =>
      match gpw_power_dpm_force_performance_level a, gpw_pp_power_profile_mode a with
      | None, None => AcmUnknown
      | level, profile =>
          if text_differs level (grs_power_dpm_force_performance_level device) then AcmDiffers
          else if text_differs profile (grs_pp_power_profile_mode device) then AcmDiffers
          else AcmMatches
      end
  end.

Definition matches_active_config (s : ActiveConfigSnapshot) (tasks : list ActiveTaskSnapshot)
    (c : CandidateAction) : ActiveConfigMatch :=
  match c with
  | CaCpuAffinityProfile p => cpu_affinity_profile_match p s tasks
  | CaNice _ a =>
      match_targets (fun t => match_value (acs_nice s !! Nice.ti_tid t) (fun current => current =? nice a)) (targets a)
  | CaIoPrio _ a =>
      match_targets (fun t =>
          match_value (acs_ionice s !! Nice.ti_tid t) (fun current => String.eqb current (IoPrioValue_label (ipa_ioprio a))))
        (ipa_targets a)
  | CaUclamp _ a =>
      match_targets (fun t =>
          match_value (acs_uclamp s !! Nice.ti_tid t) (fun current => uclamp_matches_request current (uca_values a)))
        (uca_targets a)
  | CaCgroupPlacement _ a =>
      match_targets (fun '(t, _) =>
          match_value (acs_cgroup s !! Nice.ti_tid t)
            (fun current => String.eqb (normalize_cgroup_str current) (normalize_cgroup_str (cga_target_cgroup a))))
        (cga_targets a)
  | CaIrqAffinity p =>
      match_value (acs_irq s !! irq_number (sp_action p))
        (fun current => String.eqb (trim current) (trim (irq_smp_affinity (sp_action p))))
  | CaCpuPower p => cpu_power_match (sp_action p) s
  | CaGpuPower p => gpu_power_match (sp_action p) s
  | CaVmKnob p =>
      match_targets (fun change =>
          match_value (vm_knob_active_value (acs_vm s) (vm_knob_keys_for_change (vmk_root (sp_action p)) (vmc_path change)))
            (fun current => String.eqb current (vmc_value change)))
        (vmk_changes (sp_action p))
  | CaFake _ _ => AcmUnknown
  end.

(** ** [rollback.rs] *)

Definition rollback_verified (summary : string) : RollbackVerification :=
  {| rv_verified := true; rv_expected := summary; rv_actual := summary;
     rv_reason_code := "rollback_verified" |}.

Definition rollback_mismatch (expected actual reason_code : string) : RollbackVerification :=
  {| rv_verified := false; rv_expected := expected; rv_actual := actual; rv_reason_code := reason_code |}.

Definition rollback_unavailable (summary : string) : RollbackVerification :=
  {| rv_verified := false; rv_expected := summary; rv_actual := "rollback verification unavailable";
     rv_reason_code := "rollback_verification_unavailable" |}.

Definition compare_required_text (label : string) (expected actual : option string)
    : option RollbackVerification :=
  match expected, actual with
  | Some e, Some a =>
      if String.eqb e a then None
      else Some (rollback_mismatch (label +:+ "=" +:+ e) (label +:+ "=" +:+ a) "rollback_state_mismatch")
  | Some e, None => Some (rollback_mismatch (label +:+ "=" +:+ e) (label +:+ "=missing") "rollback_target_missing")
  | None, _ => Some (rollback_unavailable (label +:+ " baseline value missing"))
  end.

Definition debug_option (o : option Z) : string :=
  match o with Some n => "Some(" +:+ Procfs.decimal n +:+ ")" | None => "None" end.

(** [{:?}] of [UclampValues]. *)
Definition format_debug_value (v : UclampValues) : string :=
  "UclampValues { sched_util_min: " +:+ debug_option (uv_sched_util_min v)
  +:+ ", sched_util_max: " +:+ debug_option (uv_sched_util_max v) +:+ " }".

(** The loop over what was changed: the first target that is not back decides. *)
Definition verify_targets {A} (none : string) (check : A -> option RollbackVerification) (summary : string)
    (l : list A) : RollbackVerification :=
  match l with
  | [] => rollback_unavailable none
  | _ => default (rollback_verified summary) (find_map check l)
  end.

(** [if requested && let Some(verification) = .. { return verification; }]. *)
Definition compare_if {A} (requested : option A) (check : option RollbackVerification)
    (rest : option RollbackVerification) : option RollbackVerification :=
  match requested, check with Some _, Some v => Some v | _, _ => rest end.

Definition affinity_restored (baseline post : ActiveConfigSnapshot) (t : ProfileTaskPlan)
    : option RollbackVerification :=
  let label := "tid=" +:+ Procfs.decimal (pt_tid t) in
  match acs_affinity baseline !! pt_tid t with
  | None => Some (rollback_unavailable (label +:+ " baseline CPU affinity missing"))
  | Some expected =>
      match acs_affinity post !! pt_tid t with
      | None =>
          Some (rollback_mismatch (label +:+ " cpu_affinity=" +:+ expected) (label +:+ " cpu_affinity=missing")
                  "rollback_target_missing")
      | Some actual =>
          if cpu_mask_strings_match actual expected then None
          else Some (rollback_mismatch (label +:+ " cpu_affinity=" +:+ expected)
                       (label +:+ " cpu_affinity=" +:+ actual) "rollback_state_mismatch")
      end
  end.

Definition shown_count {A} (l : list A) : string := Procfs.decimal (Z.of_nat (length l)).

Definition verify_cpu_affinity_rollback (p : CpuAffinityProfilePlan) (baseline post : ActiveConfigSnapshot)
    (tasks : list ActiveTaskSnapshot) : RollbackVerification :=
  let label := "cpu_affinity_profile profile=" +:+ cap_profile_name p +:+ " tree_pid="
               +:+ Procfs.decimal (cap_tree_pid p) in
  match tasks with
  | [] => rollback_unavailable (label +:+ ": active task snapshots missing")
  | _ =>
      let planned := evaluate_profile_for_tasks (cap_profile p) tasks in
      verify_targets (label +:+ ": no active tasks matched profile rules") (affinity_restored baseline post)
        ("cpu_affinity rollback restored " +:+ shown_count planned +:+ " target(s)") planned
  end.

Definition cpu_restored (a : CpuPowerAction) (baseline post : ActiveConfigSnapshot) (cpu : Z)
    : option RollbackVerification :=
  let label := "cpu=" +:+ Procfs.decimal cpu in
  match cpu_policy_for_cpu (acs_cpu_power baseline) cpu with
  | None => Some (rollback_unavailable (label +:+ " baseline CPU policy missing"))
  | Some b =>
      match cpu_policy_for_cpu (acs_cpu_power post) cpu with
      | None =>
          Some (rollback_mismatch (label +:+ " policy=" +:+ crs_policy b) (label +:+ " policy=missing")
                  "rollback_target_missing")
      | Some actual =>
          compare_if (cpw_scaling_governor a)
            (compare_required_text (label +:+ " scaling_governor") (crs_scaling_governor b)
               (crs_scaling_governor actual))
            (compare_if (cpw_energy_performance_preference a)
               (compare_required_text (label +:+ " energy_performance_preference")
                  (crs_energy_performance_preference b) (crs_energy_performance_preference actual))
               None)
      end
  end.

Definition verify_cpu_power_rollback (a : CpuPowerAction) (baseline post : ActiveConfigSnapshot)
    : RollbackVerification :=
  match cpw_cpus a with
  | [] => rollback_unavailable "cpu_power rollback has no CPUs"
  | _ =>
      match cpw_scaling_governor a, cpw_energy_performance_preference a with
      | None, None => rollback_unavailable "cpu_power rollback has no requested runtime state"
      | _, _ =>
          default (rollback_verified ("cpu_power rollback restored " +:+ shown_count (cpw_cpus a) +:+ " CPU(s)"))
            (find_map (cpu_restored a baseline post) (cpw_cpus a))
      end
  end.

Definition verify_gpu_power_rollback (a : GpuPowerAction) (baseline post : ActiveConfigSnapshot)
    : RollbackVerification :=
  let label := "gpu=" +:+ gpw_drm_card a in
  match gpu_device baseline (gpw_drm_card a) with
  | None => rollback_unavailable (label +:+ " baseline power state missing")
  | Some b =>
      match gpu_device post (gpw_drm_card a) with
      | None =>
          rollback_mismatch (label +:+ " power_state=present") (label +:+ " power_state=missing")
            "rollback_target_missing"
      | Some actual =>
          default (rollback_verified ("gpu_power rollback restored " +:+ label))
            (compare_if (gpw_power_dpm_force_performance_level a)
               (compare_required_text (label +:+ " power_dpm_force_performance_level")
                  (grs_power_dpm_force_performance_level b) (grs_power_dpm_force_performance_level actual))
               (compare_if (gpw_pp_power_profile_mode a)
                  (compare_required_text (label +:+ " pp_power_profile_mode")
                     (grs_pp_power_profile_mode b) (grs_pp_power_profile_mode actual))
                  None))
      end
  end.

Definition verify_rollback_restored_baseline (c : CandidateAction) (baseline post : ActiveConfigSnapshot)
    (tasks : list ActiveTaskSnapshot) : RollbackVerification :=
  let tid t name := "tid=" +:+ Procfs.decimal (Nice.ti_tid t) +:+ " " +:+ name in
  match c with
  | CaCpuAffinityProfile p => verify_cpu_affinity_rollback p baseline post tasks
  | CaNice _ a =>
      verify_targets "nice rollback has no target tasks"
        (fun t => compare_required_text (tid t "nice") (Procfs.decimal <$> acs_nice baseline !! Nice.ti_tid t)
                    (Procfs.decimal <$> acs_nice post !! Nice.ti_tid t))
        ("nice rollback restored " +:+ shown_count (targets a) +:+ " target(s)") (targets a)
  | CaIoPrio _ a =>
      verify_targets "ionice rollback has no target tasks"
        (fun t => compare_required_text (tid t "ionice") (acs_ionice baseline !! Nice.ti_tid t)
                    (acs_ionice post !! Nice.ti_tid t))
        ("ionice rollback restored " +:+ shown_count (ipa_targets a) +:+ " target(s)") (ipa_targets a)
  | CaUclamp _ a =>
      verify_targets "uclamp rollback has no target tasks"
        (fun t => compare_required_text (tid t "uclamp") (format_debug_value <$> acs_uclamp baseline !! Nice.ti_tid t)
                    (format_debug_value <$> acs_uclamp post !! Nice.ti_tid t))
        ("uclamp rollback restored " +:+ shown_count (uca_targets a) +:+ " target(s)") (uca_targets a)
  | CaCgroupPlacement _ a =>
      verify_targets "cgroup rollback has no target tasks"
        (fun '(t, _) => compare_required_text (tid t "cgroup")
                          (normalize_cgroup_str <$> acs_cgroup baseline !! Nice.ti_tid t)
                          (normalize_cgroup_str <$> acs_cgroup post !! Nice.ti_tid t))
        ("cgroup rollback restored " +:+ shown_count (cga_targets a) +:+ " target(s)") (cga_targets a)
  | CaIrqAffinity p =>
      let irq := irq_number (sp_action p) in
      default (rollback_verified ("irq rollback restored irq=" +:+ Procfs.decimal irq))
        (compare_required_text ("irq=" +:+ Procfs.decimal irq +:+ " smp_affinity") (trim <$> acs_irq baseline !! irq)
           (trim <$> acs_irq post !! irq))
  | CaCpuPower p => verify_cpu_power_rollback (sp_action p) baseline post
  | CaGpuPower p => verify_gpu_power_rollback (sp_action p) baseline post
  | CaVmKnob p =>
      let value s change :=
        vm_knob_active_value (acs_vm s) (vm_knob_keys_for_change (vmk_root (sp_action p)) (vmc_path change)) in
      verify_targets "vm_knob rollback has no changes"
        (fun change => compare_required_text ("vm_knob " +:+ vmc_path change) (value baseline change) (value post change))
        ("vm_knob rollback restored " +:+ shown_count (vmk_changes (sp_action p)) +:+ " knob(s)")
        (vmk_changes (sp_action p))
  | CaFake _ _ => rollback_unavailable "fake candidate has no active config verifier"
  end.

(** ** What is collected *)

Lemma per_tid_lookup {A} (read : Z -> option A) tids tid :
  per_tid read tids !! tid = if bool_decide (tid ∈ tids) then read tid else None.
Proof.
  unfold per_tid.
  assert (H : forall m : gmap Z A, foldl (fun m t => match read t with Some v => <[t := v]> m | None => m end) m tids !! tid
                  = if bool_decide (tid ∈ tids) then match read tid with Some v => Some v | None => m !! tid end
                    else m !! tid).
  { induction tids as [|t tids IH]; intros m; cbn [foldl]; [done|]. rewrite IH.
    destruct (decide (t = tid)) as [->|Hne].
    - rewrite (bool_decide_true (tid ∈ tid :: tids)) by set_solver.
      case_bool_decide; destruct (read tid); by rewrite ?lookup_insert_eq.
    - rewrite (bool_decide_ext (tid ∈ t :: tids) (tid ∈ tids)) by set_solver.
      assert (E : (match read t with Some v => <[t := v]> m | None => m end) !! tid = m !! tid).
      { destruct (read t); [by rewrite lookup_insert_ne|done]. }
      by rewrite E. }
  rewrite H. case_bool_decide; [|done]. by destruct (read tid).
Qed.

Lemma elem_of_sorted_active_tids tid tasks :
  tid ∈ sorted_active_tids tasks <-> exists t, t ∈ tasks /\ at_tid t = tid.
Proof.
  unfold sorted_active_tids. rewrite merge_sort_Permutation, elem_of_remove_dups, list_elem_of_fmap. naive_solver.
Qed.

(** The fields of a snapshot within their machine types. *)
Definition uclamp_ok (v : UclampValues) : Prop :=
  (forall n, uv_sched_util_min v = Some n -> in_u32 n) /\ (forall n, uv_sched_util_max v = Some n -> in_u32 n).

Definition snapshot_ok (s : ActiveConfigSnapshot) : Prop :=
  map_Forall (fun _ => in_i32) (acs_nice s) /\ map_Forall (fun _ => uclamp_ok) (acs_uclamp s).

Lemma parse_nat_nonneg s n : parse_nat s = Some n -> 0 <= n.
Proof. unfold parse_nat. destruct s; [done|]. intros H. eapply parse_digits_nonneg; [|exact H]. lia. Qed.

Lemma parse_i32_range s n : parse_i32 s = Some n -> in_i32 n.
Proof.
  unfold parse_i32, in_i32. intros H. repeat case_match; simplify_eq;
    match goal with E : parse_nat _ = Some _ |- _ => apply parse_nat_nonneg in E end; lia.
Qed.

Lemma parse_u32_range s n : parse_unsigned U32_MAX s = Some n -> in_u32 n.
Proof.
  unfold parse_unsigned, in_u32, U32_MAX. intros H. repeat case_match; simplify_eq;
    match goal with E : parse_nat _ = Some _ |- _ => apply parse_nat_nonneg in E end; lia.
Qed.

Lemma uclamp_line_ok v line : uclamp_ok v -> uclamp_ok (uclamp_line v line).
Proof.
  intros [H1 H2]. unfold uclamp_line. destruct (split_once ":" line) as [[key value]|]; [|by split].
  destruct (String.eqb _ _); [|destruct (String.eqb _ _); [|by split]]; split; cbn; try done;
    intros n; apply parse_u32_range.
Qed.

Lemma read_uclamp_ok i tid v : read_uclamp i tid = Some v -> uclamp_ok v.
Proof.
  unfold read_uclamp. intros (contents & _ & H)%bind_Some.
  assert (Hok : forall l u, uclamp_ok u -> uclamp_ok (foldl uclamp_line u l)).
  { induction l as [|x l IH]; cbn; [done|]. intros u Hu. apply IH, uclamp_line_ok, Hu. }
  specialize (Hok (lines contents) {| uv_sched_util_min := None; uv_sched_util_max := None |}).
  assert (H0 : uclamp_ok {| uv_sched_util_min := None; uv_sched_util_max := None |}) by (split; by intros).
  specialize (Hok H0). repeat case_match; simplify_eq; exact Hok.
Qed.

Lemma collected_ok i tasks : snapshot_ok (collect_active_config i tasks).
Proof.
  split; cbn.
  - intros tid n. rewrite per_tid_lookup. case_bool_decide; [|done].
    unfold read_nice. intros (? & _ & (? & _ & (? & _ & Hn)%bind_Some)%bind_Some)%bind_Some.
    by apply parse_i32_range in Hn.
  - destruct (uclamp_available _); [|by intros ? ? ?%lookup_empty_Some].
    intros tid v. rewrite per_tid_lookup. case_bool_decide; [|done]. apply read_uclamp_ok.
Qed.

(** ** What a rollback has to bring back *)

(** One setting an action changes. *)
Inductive Setting :=
| StAffinity (tid : Z) | StNice (tid : Z) | StIonice (tid : Z) | StUclamp (tid : Z) | StCgroup (tid : Z)
| StIrq (irq : Z) | StGovernor (cpu : Z) | StPreference (cpu : Z)
| StGpu (card : string) | StGpuLevel (card : string) | StGpuProfile (card : string)
| StVmKnob (root path : string).

Definition if_requested {A B} (o : option A) (x : B) : list B := match o with Some _ => [x] | None => [] end.

(** The settings a candidate changes; of a profile, those of the tasks it now places. *)
Definition changed_settings (c : CandidateAction) (tasks : list ActiveTaskSnapshot) : list Setting :=
  match c with
  | CaCpuAffinityProfile p => (fun t => StAffinity (pt_tid t)) <$> evaluate_profile_for_tasks (cap_profile p) tasks
  | CaNice _ a => (fun t => StNice (Nice.ti_tid t)) <$> targets a
  | CaIoPrio _ a => (fun t => StIonice (Nice.ti_tid t)) <$> ipa_targets a
  | CaUclamp _ a => (fun t => StUclamp (Nice.ti_tid t)) <$> uca_targets a
  | CaCgroupPlacement _ a => (fun t => StCgroup (Nice.ti_tid t.1)) <$> cga_targets a
  | CaIrqAffinity p => [StIrq (irq_number (sp_action p))]
  | CaCpuPower p =>
      cpw_cpus (sp_action p) ≫= fun cpu =>
        if_requested (cpw_scaling_governor (sp_action p)) (StGovernor cpu)
        ++ if_requested (cpw_energy_performance_preference (sp_action p)) (StPreference cpu)
  | CaGpuPower p =>
      let card := gpw_drm_card (sp_action p) in
      StGpu card :: if_requested (gpw_power_dpm_force_performance_level (sp_action p)) (StGpuLevel card)
        ++ if_requested (gpw_pp_power_profile_mode (sp_action p)) (StGpuProfile card)
  | CaVmKnob p => (fun ch => StVmKnob (vmk_root (sp_action p)) (vmc_path ch)) <$> vmk_changes (sp_action p)
  | CaFake _ _ => []
  end.

(** The values before and after are known and related. *)
Definition known_related {A} (R : A -> A -> Prop) (before after : option A) : Prop :=
  exists x y, before = Some x /\ after = Some y /\ R x y.

(** Two affinity lists that name the same CPUs; lists that do not parse are compared as text. *)
Definition same_cpus (a b : string) : Prop :=
  match CpuMask_parse a, CpuMask_parse b with
  | Some _, Some _ => forall cpu, 0 <= cpu -> CpuMask.named (mask_parts a) cpu <-> CpuMask.named (mask_parts b) cpu
  | _, _ => trim a = trim b
  end.

Definition setting_restored (before after : ActiveConfigSnapshot) (s : Setting) : Prop :=
  match s with
  | StAffinity tid => known_related same_cpus (acs_affinity before !! tid) (acs_affinity after !! tid)
  | StNice tid => known_related eq (acs_nice before !! tid) (acs_nice after !! tid)
  | StIonice tid => known_related eq (acs_ionice before !! tid) (acs_ionice after !! tid)
  | StUclamp tid => known_related eq (acs_uclamp before !! tid) (acs_uclamp after !! tid)
  | StCgroup tid =>
      known_related (fun x y => normalize_cgroup_str x = normalize_cgroup_str y)
        (acs_cgroup before !! tid) (acs_cgroup after !! tid)
  | StIrq irq => known_related (fun x y => trim x = trim y) (acs_irq before !! irq) (acs_irq after !! irq)
  | StGovernor cpu =>
      known_related eq (cpu_policy_for_cpu (acs_cpu_power before) cpu ≫= crs_scaling_governor)
        (cpu_policy_for_cpu (acs_cpu_power after) cpu ≫= crs_scaling_governor)
  | StPreference cpu =>
      known_related eq (cpu_policy_for_cpu (acs_cpu_power before) cpu ≫= crs_energy_performance_preference)
        (cpu_policy_for_cpu (acs_cpu_power after) cpu ≫= crs_energy_performance_preference)
  | StGpu card => known_related (fun _ _ => True) (gpu_device before card) (gpu_device after card)
  | StGpuLevel card =>
      known_related eq (gpu_device before card ≫= grs_power_dpm_force_performance_level)
        (gpu_device after card ≫= grs_power_dpm_force_performance_level)
  | StGpuProfile card =>
      known_related eq (gpu_device before card ≫= grs_pp_power_profile_mode)
        (gpu_device after card ≫= grs_pp_power_profile_mode)
  | StVmKnob root path =>
      let keys := vm_knob_keys_for_change root path in
      known_related eq (vm_knob_active_value (acs_vm before) keys) (vm_knob_active_value (acs_vm after) keys)
  end.

Lemma parsed_mask_eq a b m n :
  CpuMask_parse a = Some m -> CpuMask_parse b = Some n ->
  m = n <-> forall cpu, 0 <= cpu -> CpuMask.named (mask_parts a) cpu <-> CpuMask.named (mask_parts b) cpu.
Proof.
  intros Ha Hb. destruct (mask_parse_exact _ _ Ha) as [Hm Hin], (mask_parse_exact _ _ Hb) as [Hn Hin'].
  split.
  - intros -> cpu Hc. rewrite <- Hin, <- Hin' by done. done.
  - intros H. apply mask_ext; [done|done|]. intros cpu Hc. apply eq_bool_prop_intro.
    rewrite !Is_true_true, Hin, Hin' by done. by apply H.
Qed.

Lemma cpu_mask_strings_match_iff a b : cpu_mask_strings_match a b = true <-> same_cpus a b.
Proof.
  unfold cpu_mask_strings_match, same_cpus.
  destruct (CpuMask_parse a) as [m|] eqn:Ha, (CpuMask_parse b) as [n|] eqn:Hb; rewrite ?String.eqb_eq; [|done..].
  rewrite bool_decide_eq_true. by apply parsed_mask_eq.
Qed.

Lemma same_cpus_sym a b : same_cpus a b -> same_cpus b a.
Proof. unfold same_cpus. repeat case_match; naive_solver. Qed.

(** ** Printed values tell apart *)

Lemma decimal_i32_inj m n : in_i32 m -> in_i32 n -> Procfs.decimal m = Procfs.decimal n -> m = n.
Proof. intros Hm Hn E. apply parse_i32_decimal in Hm, Hn. congruence. Qed.

Lemma decimal_u32_inj m n : in_u32 m -> in_u32 n -> Procfs.decimal m = Procfs.decimal n -> m = n.
Proof.
  unfold in_u32. intros Hm Hn E.
  pose proof (parse_unsigned_decimal U32_MAX m ltac:(unfold U32_MAX; lia) ltac:(done)) as H1.
  pose proof (parse_unsigned_decimal U32_MAX n ltac:(unfold U32_MAX; lia) ltac:(done)) as H2. congruence.
Qed.

Lemma lacks_app sep a b : lacks sep (a +:+ b) = lacks sep a && lacks sep b.
Proof.
  unfold lacks. induction a as [|c a IH]; [done|].
  change (String c a +:+ b) with (String c (a +:+ b)). cbn. by rewrite IH, andb_assoc.
Qed.

Lemma lacks_digits sep s : is_digit sep = false -> forall_ascii is_digit s = true -> lacks sep s = true.
Proof.
  intros Hs. apply forall_ascii_impl. intros c Hc. apply negb_true_iff, Ascii.eqb_neq. congruence.
Qed.

Lemma before_sep_inj sep a b x y :
  lacks sep a = true -> lacks sep b = true -> a +:+ String sep x = b +:+ String sep y -> a = b /\ x = y.
Proof.
  intros Ha Hb E. pose proof (split_once_app sep a x Ha) as H1. rewrite E, (split_once_app sep b y Hb) in H1.
  by simplify_eq.
Qed.

Definition option_u32 (o : option Z) : Prop := forall n, o = Some n -> in_u32 n.

Lemma debug_option_lacks sep o :
  is_digit sep = false -> lacks sep "Some()" = true -> lacks sep "None" = true -> option_u32 o ->
  lacks sep (debug_option o) = true.
Proof.
  intros Hd Hsome Hnone Ho. destruct o as [n|]; [|done]. cbn [debug_option].
  destruct (decimal_digits n) as [Hn _]; [specialize (Ho n eq_refl); unfold in_u32 in Ho; lia|].
  change "Some()"%string with ("Some(" +:+ ")") in Hsome. rewrite lacks_app in Hsome.
  apply andb_true_iff in Hsome as [H1 H2]. rewrite !lacks_app, H1, H2, andb_true_r. by apply lacks_digits.
Qed.

Lemma debug_option_inj a b : option_u32 a -> option_u32 b -> debug_option a = debug_option b -> a = b.
Proof.
  intros Ha Hb. destruct a as [m|], b as [n|]; cbn [debug_option]; try done.
  specialize (Ha m eq_refl). specialize (Hb n eq_refl). intros E%(inj (String.append _)).
  apply (before_sep_inj ")"%char) in E as [E _].
  - f_equal. by apply decimal_u32_inj.
  - apply lacks_digits; [done|]. apply decimal_digits. unfold in_u32 in Ha. lia.
  - apply lacks_digits; [done|]. apply decimal_digits. unfold in_u32 in Hb. lia.
Qed.

Lemma format_debug_inj u v : uclamp_ok u -> uclamp_ok v -> format_debug_value u = format_debug_value v -> u = v.
Proof.
  intros [Hu1 Hu2] [Hv1 Hv2]. unfold format_debug_value. intros E%(inj (String.append _)).
  apply (before_sep_inj ","%char) in E as [E1 E]; [|by apply debug_option_lacks..].
  change (" sched_util_max: " +:+ debug_option (uv_sched_util_max u) +:+ " }"
          = " sched_util_max: " +:+ debug_option (uv_sched_util_max v) +:+ " }") in E.
  apply (inj (String.append _)) in E.
  apply (before_sep_inj " "%char) in E as [E2 _]; [|by apply debug_option_lacks..].
  destruct u, v. f_equal; by apply debug_option_inj.
Qed.

(** ** The verdict *)

(** A check answers only when it fails. *)
Definition refuses {A} (check : A -> option RollbackVerification) : Prop :=
  forall x v, check x = Some v -> rv_verified v = false.

Lemma find_map_None {A B} (f : A -> option B) l : find_map f l = None <-> Forall (fun x => f x = None) l.
Proof.
  induction l as [|x l IH]; cbn; [by rewrite Forall_nil|]. rewrite Forall_cons. destruct (f x); naive_solver.
Qed.

Lemma find_map_Some {A B} (f : A -> option B) l y : find_map f l = Some y -> exists x, x ∈ l /\ f x = Some y.
Proof. induction l as [|x l IH]; cbn; [done|]. destruct (f x) eqn:E; set_solver. Qed.

Lemma default_verified (o : option RollbackVerification) summary :
  (forall v, o = Some v -> rv_verified v = false) ->
  rv_verified (default (rollback_verified summary) o) = true <-> o = None.
Proof. intros H. destruct o as [v|]; cbn; [rewrite (H v eq_refl)|]; done. Qed.

Lemma find_map_verified {A} (check : A -> option RollbackVerification) summary l :
  refuses check ->
  rv_verified (default (rollback_verified summary) (find_map check l)) = true <->
  Forall (fun x => check x = None) l.
Proof.
  intros H. rewrite default_verified; [apply find_map_None|]. intros v (x & _ & Hx)%find_map_Some. by apply H in Hx.
Qed.

Lemma verify_targets_verified {A} none (check : A -> option RollbackVerification) summary l :
  refuses check ->
  rv_verified (verify_targets none check summary l) = true <-> l <> [] /\ Forall (fun x => check x = None) l.
Proof.
  intros H. unfold verify_targets. destruct l as [|x l]; [cbn; naive_solver|].
  rewrite find_map_verified by done. naive_solver.
Qed.

Lemma compare_refuses label e a v : compare_required_text label e a = Some v -> rv_verified v = false.
Proof. unfold compare_required_text. intros H. repeat case_match; by simplify_eq. Qed.

Lemma compare_none label e a : compare_required_text label e a = None <-> known_related eq e a.
Proof.
  unfold compare_required_text, known_related. destruct e as [e|], a as [a|]; try naive_solver.
  destruct (String.eqb_spec e a); naive_solver.
Qed.

(** Values compared through what they print or are normalised to. *)
Lemma known_related_fmap {A B} (f : A -> B) (R : A -> A -> Prop) x y :
  (forall a b, x = Some a -> y = Some b -> f a = f b <-> R a b) ->
  known_related eq (f <$> x) (f <$> y) <-> known_related R x y.
Proof.
  intros H. unfold known_related. destruct x as [a|], y as [b|]; cbn; try naive_solver.
Qed.

(** A verdict on targets, as one on their settings. *)
Lemma targets_verdict {A} none (check : A -> option RollbackVerification) summary (f : A -> Setting) l before after :
  refuses check -> (forall x, check x = None <-> setting_restored before after (f x)) ->
  rv_verified (verify_targets none check summary l) = true <->
  f <$> l <> [] /\ Forall (setting_restored before after) (f <$> l).
Proof.
  intros Hr H. rewrite verify_targets_verified by done. rewrite Forall_fmap.
  assert (E : Forall (fun x => check x = None) l <-> Forall (setting_restored before after ∘ f) l)
    by (by apply Forall_iff).
  rewrite E. destruct l; naive_solver.
Qed.

Lemma nice_check before after tid label :
  snapshot_ok before -> snapshot_ok after ->
  compare_required_text label (Procfs.decimal <$> acs_nice before !! tid) (Procfs.decimal <$> acs_nice after !! tid)
    = None <-> setting_restored before after (StNice tid).
Proof.
  intros [Hb _] [Ha _]. rewrite compare_none. apply known_related_fmap. intros x y Hx Hy. split; [|by intros ->].
  apply decimal_i32_inj; [by eapply Hb|by eapply Ha].
Qed.

Lemma uclamp_check before after tid label :
  snapshot_ok before -> snapshot_ok after ->
  compare_required_text label (format_debug_value <$> acs_uclamp before !! tid)
    (format_debug_value <$> acs_uclamp after !! tid) = None <-> setting_restored before after (StUclamp tid).
Proof.
  intros [_ Hb] [_ Ha]. rewrite compare_none. apply known_related_fmap. intros x y Hx Hy. split; [|by intros ->].
  apply format_debug_inj; [by eapply Hb|by eapply Ha].
Qed.

Lemma affinity_check before after t :
  affinity_restored before after t = None <-> setting_restored before after (StAffinity (pt_tid t)).
Proof.
  unfold affinity_restored. cbn. unfold known_related.
  destruct (acs_affinity before !! pt_tid t) as [x|], (acs_affinity after !! pt_tid t) as [y|]; [|naive_solver..].
  destruct (cpu_mask_strings_match y x) eqn:E.
  - apply cpu_mask_strings_match_iff in E. split; [intros _|done]. exists x, y. by split_and!; [..|apply same_cpus_sym].
  - split; [done|]. intros (? & ? & [= <-] & [= <-] & H). apply same_cpus_sym, cpu_mask_strings_match_iff in H. congruence.
Qed.

Lemma affinity_refuses before after : refuses (affinity_restored before after).
Proof. intros t v H. unfold affinity_restored in H. repeat case_match; by simplify_eq. Qed.

Lemma compare_if_refuses {A} (o : option A) x y v :
  (forall v, x = Some v -> rv_verified v = false) -> (forall v, y = Some v -> rv_verified v = false) ->
  compare_if o x y = Some v -> rv_verified v = false.
Proof. unfold compare_if. destruct o, x; naive_solver. Qed.

Lemma compare_if_none {A} (o : option A) x y : compare_if o x y = None <-> (is_Some o -> x = None) /\ y = None.
Proof. unfold compare_if, is_Some. destruct o, x; naive_solver. Qed.

Lemma Forall_if_requested {A B} (o : option A) (x : B) (P : B -> Prop) :
  Forall P (if_requested o x) <-> (is_Some o -> P x).
Proof.
  destruct o as [a|]; cbn; rewrite ?Forall_singleton, ?Forall_nil; [|by split; [intros _ [? ?]|]].
  split; [done|]. intros H. apply H. by exists a.
Qed.

Lemma cpu_refuses a before after : refuses (cpu_restored a before after).
Proof.
  intros cpu v. unfold cpu_restored. destruct (cpu_policy_for_cpu _ _) as [b|]; [|by intros [= <-]].
  destruct (cpu_policy_for_cpu _ _) as [p|]; [|by intros [= <-]].
  apply compare_if_refuses; [apply compare_refuses|]. intros w.
  apply compare_if_refuses; [apply compare_refuses|done].
Qed.

Lemma cpu_check a before after cpu :
  is_Some (cpw_scaling_governor a) \/ is_Some (cpw_energy_performance_preference a) ->
  cpu_restored a before after cpu = None <->
  Forall (setting_restored before after)
    (if_requested (cpw_scaling_governor a) (StGovernor cpu)
     ++ if_requested (cpw_energy_performance_preference a) (StPreference cpu)).
Proof.
  intros Hreq. rewrite Forall_app, !Forall_if_requested. cbn. unfold cpu_restored.
  destruct (cpu_policy_for_cpu (acs_cpu_power before) cpu) as [b|];
    [|unfold known_related; naive_solver].
  destruct (cpu_policy_for_cpu (acs_cpu_power after) cpu) as [p|];
    [|unfold known_related; cbn; naive_solver].
  rewrite !compare_if_none, !compare_none. cbn. naive_solver.
Qed.

Lemma cpu_power_verdict a before after :
  rv_verified (verify_cpu_power_rollback a before after) = true <->
  (let changed := cpw_cpus a ≫= fun cpu =>
     if_requested (cpw_scaling_governor a) (StGovernor cpu)
     ++ if_requested (cpw_energy_performance_preference a) (StPreference cpu) in
   changed <> [] /\ Forall (setting_restored before after) changed).
Proof.
  unfold verify_cpu_power_rollback. cbn zeta.
  destruct (cpw_cpus a) as [|cpu cpus] eqn:Hc; [cbn; naive_solver|]. rewrite <- Hc.
  destruct (cpw_scaling_governor a) as [g|] eqn:Hg, (cpw_energy_performance_preference a) as [e|] eqn:He.
  4: { split; [done|]. intros [H _]. exfalso. apply H. clear. cbn. by induction (cpw_cpus a). }
  all: rewrite find_map_verified by apply cpu_refuses.
  all: rewrite <- Hg, <- He, Forall_bind.
  all: assert (Hreq : is_Some (cpw_scaling_governor a) \/ is_Some (cpw_energy_performance_preference a))
    by (rewrite Hg, He; eauto).
  all: etrans; [apply Forall_iff; intros x; by apply cpu_check|].
  all: split; [intros H; split; [|exact H]|by intros [_ H]]; by rewrite Hc, ?Hg, ?He.
Qed.

Lemma gpu_power_verdict a before after :
  rv_verified (verify_gpu_power_rollback a before after) = true <->
  (let card := gpw_drm_card a in
   Forall (setting_restored before after)
     (StGpu card :: if_requested (gpw_power_dpm_force_performance_level a) (StGpuLevel card)
        ++ if_requested (gpw_pp_power_profile_mode a) (StGpuProfile card))).
Proof.
  unfold verify_gpu_power_rollback. cbn zeta. rewrite Forall_cons, Forall_app, !Forall_if_requested. cbn.
  destruct (gpu_device before _) as [b|]; [|unfold known_related; cbn; naive_solver].
  destruct (gpu_device after _) as [p|]; [|unfold known_related; cbn; naive_solver].
  rewrite default_verified, !compare_if_none, !compare_none; cbn.
  - unfold known_related at 3. naive_solver.
  - intros v. apply compare_if_refuses; [apply compare_refuses|]. intros w.
    apply compare_if_refuses; [apply compare_refuses|done].
Qed.

(** A rollback is verified exactly when the candidate changed some setting and every one it
    changed is known before and after and has its earlier value again: affinities as sets of
    CPUs, control groups as normalised paths, interrupt masks up to spaces, everything else
    as it was read. *)
Theorem rollback_verified_iff c before after tasks :
  snapshot_ok before -> snapshot_ok after ->
  rv_verified (verify_rollback_restored_baseline c before after tasks) = true <->
  changed_settings c tasks <> [] /\ Forall (setting_restored before after) (changed_settings c tasks).
Proof.
  intros Hb Ha. destruct c as [p|p a|p a|p a|p a|p|p|p|p|d r]; cbn [verify_rollback_restored_baseline changed_settings].
  - unfold verify_cpu_affinity_rollback. destruct tasks as [|t tasks].
    { unfold evaluate_profile_for_tasks. cbn. naive_solver. }
    apply targets_verdict; [apply affinity_refuses|intros; apply affinity_check].
  - apply targets_verdict; [intros x v; apply compare_refuses|intros; by apply nice_check].
  - apply targets_verdict; [intros x v; apply compare_refuses|intros; apply compare_none].
  - apply targets_verdict; [intros x v; apply compare_refuses|intros; by apply uclamp_check].
  - apply targets_verdict; [intros [x y] v; apply compare_refuses|].
    intros [x y]. cbn. rewrite compare_none. by apply known_related_fmap.
  - rewrite default_verified by (intros v; apply compare_refuses). rewrite Forall_singleton, compare_none. cbn.
    rewrite (known_related_fmap trim (fun x y => trim x = trim y)) by done. naive_solver.
  - apply cpu_power_verdict.
  - rewrite gpu_power_verdict. cbn zeta. naive_solver.
  - apply targets_verdict; [intros x v; apply compare_refuses|intros; apply compare_none].
  - cbn. naive_solver.
Qed.

(** ** The rollback of an experiment *)

Section verified_rollback.
Context {S : Type} {FS : FileSystem S} (process_starttime_at : Host S -> Z -> option Z).
Context {executor : LiveExecutor S ActiveConfigSnapshot}.

(** The comparison the manager of [LiveExperiment] is given. *)
Definition verify_against (c : CandidateAction) (baseline post : ActiveConfigSnapshot) (o : AutotuneObservation)
    : RollbackVerification :=
  verify_rollback_restored_baseline c baseline post (ob_active_tasks o).

(** [live_experiment/journal.rs]: what is read once the restore is done. *)
Definition collect_post_rollback_active_config (look : Host S -> CollectorInput) (o : AutotuneObservation)
    (h : Host S) : option ActiveConfigSnapshot :=
  _ ← ob_active_config_snapshot o; Some (collect_active_config (look h) (ob_active_tasks o)).

(** The executor reads the configuration after the restore the way the runtime does. *)
Definition reads_after_restore (look : Host S -> CollectorInput) : Prop :=
  forall input e o h post h',
    rollback_candidate input e o h = (inl post, h') ->
    post = collect_post_rollback_active_config look o h'.

#[local] Abbreviation rollback :=
  (rollback_active_experiment_with_executor verify_against process_starttime_at).

Lemma finish_reverted input (st : LiveState ActiveConfigSnapshot) e o now reason h out st' h' :
  finish_rollback process_starttime_at input st e o now reason h = ((inl out, st'), h') ->
  lo_event out = LeReverted.
Proof.
  unfold finish_rollback, hbind.
  destruct (write_controller_journal_phase_for_live_experiment _ _ _ _ _ _ _) as [[w|err] h0]; by intros [= <- _ _].
Qed.

(** The host once the journal says that the experiment is being reverted. *)
Definition reverting input (e : LiveExperiment ActiveConfigSnapshot) o (h : Host S) : Host S :=
  (write_controller_journal_phase_for_live_experiment process_starttime_at input e o JReverting
     "rollback_in_progress" h).2.

(** What the rollback of an experiment answers: the verdict on it, if there is one. *)
Lemma rollback_verdict input st o now reason e h out st' h' :
  lv_current st = Some e -> rollback input st o now reason h = ((inl out, st'), h') ->
  exists post h1,
    (li_simulate_action_effects input = false ->
     rollback_candidate input e o (reverting input e o h) = (inl post, h1)) /\
    lo_event out =
      match (if li_simulate_action_effects input then None
             else rollback_verification_for_experiment verify_against e post o) with
      | Some v => if rv_verified v then LeReverted else LeFaulted
      | None => LeReverted
      end.
Proof.
  intros Hcur. unfold rollback_active_experiment_with_executor, reverting. rewrite Hcur.
  unfold hbind at 1. cbn [snd].
  destruct (write_controller_journal_phase_for_live_experiment _ _ _ _ _ _ _) as [[w|err] h0]; [|by intros [=]].
  assert (Hfault : forall detail k h2,
    hbind (write_controller_journal_phase_for_live_experiment process_starttime_at input e o JFaulted detail)
      (fun f => match f with
                | inr err => hret (inr (TxIo err), set_current st None)
                | inl _ => hret (inl (outcome_event LeFaulted), k)
                end) h2 = ((inl out, st'), h') -> lo_event out = LeFaulted).
  { intros detail k h3. unfold hbind.
    destruct (write_controller_journal_phase_for_live_experiment _ _ _ _ _ _ _) as [[f|err] h4]; by intros [= <- _ _]. }
  destruct (li_simulate_action_effects input).
  { unfold hbind at 1, hret at 1. intros H. exists None, h0. split; [done|]. by eapply finish_reverted. }
  unfold rollback_recorded, hbind at 1 2.
  destruct (rollback_candidate input e o h0) as [[post|err] h1] eqn:Hback; [|by intros [=]].
  unfold hbind at 1. destruct (set_disk _ h1) as [u h2]. unfold hret at 1.
  intros H. exists post, h1. split; [done|].
  destruct (rollback_verification_for_experiment _ e post o) as [v|]; [|by eapply finish_reverted].
  destruct (rv_verified v); cbn [negb] in H; [by eapply finish_reverted|by eapply Hfault].
Qed.

(** What the rollback of an experiment with a baseline answers while its workload is there. *)
Lemma rollback_answers input st o now reason e before h out st' h' :
  lv_current st = Some e -> le_baseline_active_config e = Some before ->
  li_simulate_action_effects input = false -> ob_target_present o = true ->
  rollback input st o now reason h = ((inl out, st'), h') ->
  exists h1 post,
    rollback_candidate input e o (reverting input e o h) = (inl post, h1) /\
    lo_event out =
      match post with
      | Some after =>
          if rv_verified (verify_rollback_restored_baseline (le_candidate e) before after (ob_active_tasks o))
          then LeReverted else LeFaulted
      | None => LeFaulted
      end.
Proof.
  intros Hcur Hbase Hsim Hpresent H.
  destruct (rollback_verdict _ _ _ _ _ _ _ _ _ _ Hcur H) as (post & h1 & Hback & Hout).
  exists h1, post. split; [by apply Hback|]. rewrite Hout, Hsim. unfold rollback_verification_for_experiment.
  rewrite Hpresent, Hbase. cbn. by destruct post.
Qed.

#[export] Instance LiveExperimentEvent_eq_dec : EqDecision LiveExperimentEvent.
Proof. solve_decision. Defined.

(** There is nothing to compare: the effects are simulated, the workload is gone, or no
    configuration was read when the experiment started. *)
Definition nothing_to_verify (input : LiveExperimentManagerInput) (e : LiveExperiment ActiveConfigSnapshot)
    (o : AutotuneObservation) : Prop :=
  li_simulate_action_effects input = true \/ ob_target_present o = false \/ le_baseline_active_config e = None.

(** The candidate changed some setting, and every one it changed is read back, once the
    restore is done, at its value before the experiment. *)
Definition restored_to_baseline (e : LiveExperiment ActiveConfigSnapshot) (o : AutotuneObservation)
    (i : CollectorInput) : Prop :=
  exists before seen,
    le_baseline_active_config e = Some before /\ ob_active_config_snapshot o = Some seen /\
    let changed := changed_settings (le_candidate e) (ob_active_tasks o) in
    changed <> [] /\ Forall (setting_restored before (collect_active_config i (ob_active_tasks o))) changed.


(** The task a setting belongs to. *)
Definition setting_tid (s : Setting) : option Z :=
  match s with
  | StAffinity tid | StNice tid | StIonice tid | StUclamp tid | StCgroup tid => Some tid
  | _ => None
  end.

(** A task that is not looked at is not found restored. *)
Lemma unread_not_restored before i tasks s tid :
  setting_tid s = Some tid -> (forall t, t ∈ tasks -> at_tid t <> tid) ->
  ~ setting_restored before (collect_active_config i tasks) s.
Proof.
  intros Hs Hout. assert (Hno : tid ∉ sorted_active_tids tasks).
  { rewrite elem_of_sorted_active_tids. intros (t & Ht & E). by eapply Hout. }
  assert (Hnone : forall A (read : Z -> option A), per_tid read (sorted_active_tids tasks) !! tid = None)
    by (intros A read; rewrite per_tid_lookup; by case_bool_decide).
  destruct s; cbn in Hs; simplify_eq; intros (x & y & _ & Hy & _); cbn in Hy;
    repeat case_match; rewrite ?Hnone, ?lookup_empty in Hy; done.
Qed.

(** C30. A rollback faults whatever the restore did when a task it verifies is not among the
    observed active ones (background processes that were demoted: the configuration read
    afterwards leaves them out) or is a thread the profile places that was started since the
    baseline was read. *)
Theorem untracked_rollback_faults look input st o now reason e before seen s tid h out st' h' :
  reads_after_restore look -> ob_active_config_snapshot o = Some seen ->
  lv_current st = Some e -> le_baseline_active_config e = Some before -> snapshot_ok before ->
  li_simulate_action_effects input = false -> ob_target_present o = true ->
  s ∈ changed_settings (le_candidate e) (ob_active_tasks o) -> setting_tid s = Some tid ->
  (forall t, t ∈ ob_active_tasks o -> at_tid t <> tid) \/
  (s = StAffinity tid /\ acs_affinity before !! tid = None) ->
  rollback input st o now reason h = ((inl out, st'), h') ->
  lo_event out = LeFaulted.
Proof.
  intros Hlook Hseen Hcur Hbase Hok Hsim Hpresent Hs Htid Hout H.
  destruct (rollback_answers _ _ _ _ _ _ _ _ _ _ _ Hcur Hbase Hsim Hpresent H) as (h1 & post & Hback & ->).
  apply Hlook in Hback. subst post. unfold collect_post_rollback_active_config. rewrite Hseen. cbn.
  destruct (rv_verified _) eqn:Hv; [|done].
  apply rollback_verified_iff in Hv as [_ Hall]; [|done|apply collected_ok].
  rewrite Forall_forall in Hall. apply Hall in Hs. destruct Hout as [Hout|[-> Hnew]].
  - by apply unread_not_restored with (tid := tid) in Hs.
  - destruct Hs as (x & y & Hx & _). congruence.
Qed.

End verified_rollback.
