(* ===== verification/Offenders.v ===== *)
(** * Offenders: background processes that compete with the workload

    [autotune/offenders/mod.rs]: the sampler that reads the CPU time of every process, and
    reports those of the same user that stayed above a share of one CPU for several samples
    in a row.

    A sample is what is read at a time: the files of [/proc] and the owner of each process.
    Sums of clock ticks wrap as in a release build. *)

From Stdlib Require Import Ascii String List.
From S2P Require Import Prelude Binary64 Abi Metrics Intervals Score PolicyModel Procfs Allowlist Nice CpuMask Profiles Classify DaemonHealth.
From stdpp Require Import gmap list strings sorting.
Open Scope Z_scope.

(** ** Data *)

Definition OFFENDER_MIN_CPU_PERCENT : f64 := f64_of_Z 20.
Definition OFFENDER_MIN_SUSTAINED_SAMPLES : Z := 3.
Definition OFFENDER_MAX_REPORTED : nat := 4.
(** 250 ms, in nanoseconds. *)
Definition MIN_SAMPLE_INTERVAL : Z := 250000000.
Definition PF_KTHREAD : Z := 0x200000.

Record OffenderProcess := {
  off_pid : Z;
  off_starttime_ticks : Z;
  off_comm : string;
  off_uid : Z;
  off_nice : Z;
  off_cpu_percent : f64;
  off_sustained_samples : Z;
  off_tasks : list TaskIdentity;
  off_task_nice : gmap Z Z }.

Record Seen := { seen_starttime_ticks : Z; seen_cpu_ticks : Z; seen_hot_samples : Z }.

Record OffenderSampler := { os_previous : gmap Z Seen; os_last_sample : option Z }.

Definition OffenderSampler_default : OffenderSampler := {| os_previous := ∅; os_last_sample := None |}.

Record StatFields := {
  sf_comm : string;
  sf_flags : Z;
  sf_cpu_ticks : Z;
  sf_nice : Z;
  sf_starttime_ticks : Z }.

(** ** [parse_stat] *)

(** What comes before the last separator. *)
Fixpoint before_last (sep : ascii) (s : string) : option string :=
  match s with
  | EmptyString => None
  | String c rest =>
      match before_last sep rest with
      | Some p => Some (String c p)
      | None => if Ascii.eqb c sep then Some EmptyString else None
      end
  end.

(** [u64::try_from] and [i32::try_from] of an [i64]. *)
Definition u64_of_i64 (n : Z) : option Z := if 0 <=? n then Some n else None.
Definition i32_of_i64 (n : Z) : option Z := if (- 2 ^ 31 <=? n) && (n <? 2 ^ 31) then Some n else None.

Definition parse_stat (text : string) : option StatFields :=
  '(_, rest) ← split_once "(" text;
  comm ← before_last ")" rest;
  tail ← after_last ")" rest;
  let fields := split_whitespace tail in
  let field (index : nat) := fields !! index ≫= parse_i64 in
  flags ← field 6%nat ≫= u64_of_i64;
  user ← field 11%nat;
  system ← field 12%nat;
  cpu_ticks ← u64_of_i64 (as_i64 (user + system));
  nice ← field 16%nat ≫= i32_of_i64;
  starttime_ticks ← field 19%nat ≫= u64_of_i64;
  Some {| sf_comm := comm; sf_flags := flags; sf_cpu_ticks := cpu_ticks; sf_nice := nice;
          sf_starttime_ticks := starttime_ticks |}.

(** ** [observation.rs] *)

Definition is_protected_task_class (c : TaskClass) : bool :=
  match c with
  | AudioRealtime | Input | Compositor | GameScope | Media | Recorder | KernelThread | IrqThread | Service
  | NetworkDaemon | StorageDaemon => true
  | _ => false
  end.

Section sampler.
Context (proc_root : string) (clock_ticks_per_second : Z).

(** One sample. *)
Record SampleInput := {
  si_now : Z;
  si_files : HealthFiles;
  si_uid_of : Z -> option Z;
  si_owner_uid : Z;
  si_exclude : gset Z;
  si_only_descendants_of : option Z }.

Definition process_file (i : SampleInput) (name file : string) : option string :=
  hf_read (si_files i) (path_join (path_join proc_root name) file).

(** ** [descends_from] *)

Definition stat_parent (i : SampleInput) (pid : Z) : option Z :=
  stat ← process_file i (Procfs.decimal pid) "stat";
  tail ← after_last ")" stat;
  field ← split_whitespace tail !! 1%nat;
  parse_unsigned U32_MAX field.

Fixpoint climb_to (turns : nat) (i : SampleInput) (current ancestor : Z) : bool :=
  match turns with
  | O => false
  | Datatypes.S turns =>
      match stat_parent i current with
      | None => false
      | Some parent =>
          if parent =? ancestor then true
          else if parent <=? 1 then false
          else climb_to turns i parent ancestor
      end
  end.

Definition descends_from (i : SampleInput) (pid ancestor : Z) : bool := climb_to 64 i pid ancestor.

(** ** [describe] *)

Definition is_game_offender (c : TaskClass) : bool :=
  match c with Game | GameRenderThread | GameWorkerThread | GameHelper | WineServer => true | _ => false end.

(** The command line with its NUL bytes as spaces. *)
Definition cmdline_of (i : SampleInput) (pid : Z) : string :=
  default EmptyString (replace_char Ascii.zero " "%char <$> process_file i (Procfs.decimal pid) "cmdline").

(** One entry of the task directory; one that cannot be read ends the description. *)
Definition describe_task (i : SampleInput) (pid : Z) (acc : option (list TaskIdentity * gmap Z Z)) (name : string)
    : option (list TaskIdentity * gmap Z Z) :=
  '(tasks, task_nice) ← acc;
  tid ← parse_unsigned U32_MAX name;
  text ← hf_read (si_files i)
           (path_join (path_join (path_join (path_join proc_root (Procfs.decimal pid)) "task") name) "stat");
  task ← parse_stat text;
  Some (tasks ++ [{| ti_tid := tid; ti_process_pid := Some pid; ti_comm := Some (sf_comm task);
                     ti_starttime_ticks := Some (sf_starttime_ticks task) |}],
        <[tid := sf_nice task]> task_nice).

Definition describe (i : SampleInput) (pid : Z) (stat : StatFields) (cpu_percent : f64) (sustained : Z)
    : option OffenderProcess :=
  uid ← si_uid_of i pid;
  if negb (uid =? si_owner_uid i) then None
  else
    let class := classify_task (sf_comm stat) (sf_comm stat) (cmdline_of i pid) in
    if is_protected_task_class class || is_game_offender class then None
    else
      names ← hf_read_dir (si_files i) (path_join (path_join proc_root (Procfs.decimal pid)) "task");
      '(tasks, task_nice) ← foldl (describe_task i pid) (Some ([], ∅)) names;
      match tasks with
      | [] => None
      | _ =>
          Some {| off_pid := pid; off_starttime_ticks := sf_starttime_ticks stat; off_comm := sf_comm stat;
                  off_uid := uid; off_nice := sf_nice stat; off_cpu_percent := cpu_percent;
                  off_sustained_samples := sustained; off_tasks := tasks; off_task_nice := task_nice |}
      end.

(** ** [sample_at] *)

(** [Duration::as_secs_f64]. *)
Definition as_secs_f64 (nanos : Z) : f64 :=
  f64_add (f64_of_Z (nanos / 10 ^ 9)) (f64_div (f64_of_Z (nanos mod 10 ^ 9)) (f64_of_Z (10 ^ 9))).

(** The share of one CPU between two readings of the clock ticks. *)
Definition cpu_percent (before after elapsed : Z) : f64 :=
  let used := f64_div (f64_of_Z (saturating_sub after before)) (f64_of_Z (Z.max clock_ticks_per_second 1)) in
  f64_mul (f64_div used (as_secs_f64 elapsed)) (f64_of_Z 100).

(** A process the sample considers. *)
Definition scanned (i : SampleInput) (name : string) : option (Z * StatFields) :=
  pid ← parse_unsigned U32_MAX name;
  if (pid <=? 1) || bool_decide (pid ∈ si_exclude i) then None
  else
    text ← process_file i name "stat";
    stat ← parse_stat text;
    if Z.land (sf_flags stat) PF_KTHREAD =? 0 then Some (pid, stat) else None.

Definition usable_interval (s : OffenderSampler) (i : SampleInput) : option Z :=
  last ← os_last_sample s;
  let elapsed := saturating_sub (si_now i) last in
  if MIN_SAMPLE_INTERVAL <=? elapsed then Some elapsed else None.

Definition scope_allows (i : SampleInput) (pid : Z) : bool :=
  match si_only_descendants_of i with Some ancestor => descends_from i pid ancestor | None => true end.

(** The new count of hot samples of a process, and its report. *)
Definition judge (s : OffenderSampler) (i : SampleInput) (pid : Z) (stat : StatFields)
    : Z * option OffenderProcess :=
  match os_previous s !! pid with
  | Some before =>
      if seen_starttime_ticks before =? sf_starttime_ticks stat then
        match usable_interval s i with
        | Some elapsed =>
            let percent := cpu_percent (seen_cpu_ticks before) (sf_cpu_ticks stat) elapsed in
            if f64_ge percent OFFENDER_MIN_CPU_PERCENT then
              let hot := saturating_add_u32 (seen_hot_samples before) 1 in
              (hot, if (OFFENDER_MIN_SUSTAINED_SAMPLES <=? hot) && scope_allows i pid
                    then describe i pid stat percent hot else None)
            else (0, None)
        | None => (seen_hot_samples before, None)
        end
      else (0, None)
  | None => (0, None)
  end.

Definition visit (s : OffenderSampler) (i : SampleInput) (acc : gmap Z Seen * list OffenderProcess) (name : string)
    : gmap Z Seen * list OffenderProcess :=
  match scanned i name with
  | None => acc
  | Some (pid, stat) =>
      let '(hot, report) := judge s i pid stat in
      (<[pid := {| seen_starttime_ticks := sf_starttime_ticks stat; seen_cpu_ticks := sf_cpu_ticks stat;
                   seen_hot_samples := hot |}]> acc.1, acc.2 ++ option_list report)
  end.

(** [b.cpu_percent.total_cmp(&a.cpu_percent)]: the hottest first. *)
Definition hotter (a b : OffenderProcess) : Prop := f64_total_le (off_cpu_percent b) (off_cpu_percent a).
#[export] Instance hotter_dec a b : Decision (hotter a b).
Proof. unfold hotter. apply _. Defined.

Definition sample_at (s : OffenderSampler) (i : SampleInput) : list OffenderProcess * OffenderSampler :=
  match hf_read_dir (si_files i) proc_root with
  | None => ([], s)
  | Some names =>
      let '(current, offenders) := foldl (visit s i) (∅, []) names in
      let s' :=
        match usable_interval s i, os_last_sample s with
        | None, Some _ => s
        | _, _ => {| os_previous := current; os_last_sample := Some (si_now i) |}
        end in
      (take OFFENDER_MAX_REPORTED (stable_sort hotter offenders), s')
  end.

Definition sampler_after (samples : list SampleInput) : OffenderSampler :=
  foldl (fun s i => (sample_at s i).2) OffenderSampler_default samples.

(** ** The samples that count *)

(** The start time and the clock ticks of every process a sample considered. *)
#[local] Abbreviation Readings := (gmap Z (Z * Z)).

Definition read_into (i : SampleInput) (m : Readings) (name : string) : Readings :=
  match scanned i name with
  | Some (pid, stat) => <[pid := (sf_starttime_ticks stat, sf_cpu_ticks stat)]> m
  | None => m
  end.

(** The samples taken far enough apart, the newest first, with what they read. *)
Definition accept (hist : list (Z * Readings)) (i : SampleInput) : list (Z * Readings) :=
  match hf_read_dir (si_files i) proc_root with
  | None => hist
  | Some names =>
      let taken := (si_now i, foldl (read_into i) ∅ names) in
      match hist with
      | [] => [taken]
      | (last, _) :: _ => if last + MIN_SAMPLE_INTERVAL <=? si_now i then taken :: hist else hist
      end
  end.

Definition history (samples : list SampleInput) : list (Z * Readings) := foldl accept [] samples.

(** The process is the same at both samples and used its share in between. *)
Definition hot_between (pid start : Z) (before after : Z * Readings) : bool :=
  match before.2 !! pid, after.2 !! pid with
  | Some (s0, c0), Some (s1, c1) =>
      (s0 =? start) && (s1 =? start)
      && f64_ge (cpu_percent c0 c1 (after.1 - before.1)) OFFENDER_MIN_CPU_PERCENT
  | _, _ => false
  end.

(** How many of the newest intervals in a row the process was hot in. *)
Fixpoint streak (pid start : Z) (hist : list (Z * Readings)) : Z :=
  match hist with
  | after :: (before :: _) as rest =>
      if hot_between pid start before after then Z.min U32_MAX (1 + streak pid start rest) else 0
  | _ => 0
  end.

Lemma streak_cons pid start after before rest :
  streak pid start (after :: before :: rest)
  = if hot_between pid start before after then Z.min U32_MAX (1 + streak pid start (before :: rest)) else 0.
Proof. done. Qed.

Lemma streak_range pid start hist : 0 <= streak pid start hist <= U32_MAX.
Proof.
  induction hist as [|after [|before rest] IH]; [done..|]. rewrite streak_cons.
  destruct (hot_between _ _ _ _); unfold U32_MAX in *; lia.
Qed.

(** What the sampler remembers of its history. *)
Definition remembers (hist : list (Z * Readings)) (s : OffenderSampler) : Prop :=
  os_last_sample s = fst <$> head hist /\
  os_previous s = map_imap (fun pid '(start, cpu) =>
    Some {| seen_starttime_ticks := start; seen_cpu_ticks := cpu; seen_hot_samples := streak pid start hist |})
    (default ∅ (snd <$> head hist)).

(** Consecutive samples of the history are far enough apart. *)
Fixpoint spaced (hist : list (Z * Readings)) : Prop :=
  match hist with
  | after :: (before :: _) as rest => before.1 + MIN_SAMPLE_INTERVAL <= after.1 /\ spaced rest
  | _ => True
  end.

Lemma accept_spaced hist i : spaced hist -> spaced (accept hist i).
Proof.
  intros H. unfold accept. destruct (hf_read_dir _ _) as [names|]; [|done].
  destruct hist as [|[last r] hist]; [done|]. destruct (Z.leb_spec (last + MIN_SAMPLE_INTERVAL) (si_now i)); [|done].
  by split.
Qed.

Lemma history_spaced samples : spaced (history samples).
Proof.
  induction samples as [|i samples IH] using rev_ind; [done|]. unfold history in *. rewrite foldl_snoc.
  by apply accept_spaced.
Qed.

(** ** One sample *)

(** What is remembered of a process that was read. *)
Definition seen_of (s : OffenderSampler) (i : SampleInput) (pid : Z) (reading : Z * Z) : option Seen :=
  let '(start, cpu) := reading in
  let stat := {| sf_comm := ""; sf_flags := 0; sf_cpu_ticks := cpu; sf_nice := 0; sf_starttime_ticks := start |} in
  Some {| seen_starttime_ticks := start; seen_cpu_ticks := cpu; seen_hot_samples := (judge s i pid stat).1 |}.

(** The count depends on the start time and the ticks only. *)
Lemma judge_count s i pid stat stat' :
  sf_starttime_ticks stat = sf_starttime_ticks stat' -> sf_cpu_ticks stat = sf_cpu_ticks stat' ->
  (judge s i pid stat).1 = (judge s i pid stat').1.
Proof.
  intros E1 E2. unfold judge. rewrite E1, E2. destruct (os_previous s !! pid) as [b|]; [|done].
  destruct (_ =? _); [|done]. destruct (usable_interval s i); [|done]. by destruct (f64_ge _ _).
Qed.

(** The memory a visit of the processes builds. *)
Lemma visit_current s i names acc m :
  acc.1 = map_imap (seen_of s i) m ->
  (foldl (visit s i) acc names).1 = map_imap (seen_of s i) (foldl (read_into i) m names).
Proof.
  revert acc m. induction names as [|name names IH]; intros acc m Hcur; cbn [foldl]; [done|].
  apply IH. unfold visit, read_into. destruct (scanned i name) as [[pid stat]|]; [|done].
  destruct (judge s i pid stat) as [hot report] eqn:Hj. cbn [fst snd]. rewrite Hcur.
  apply map_eq. intros k. rewrite map_lookup_imap. destruct (decide (k = pid)) as [->|Hne].
  - rewrite lookup_insert_eq, (lookup_insert_eq m). cbn. f_equal. f_equal. change hot with (hot, report).1. rewrite <- Hj.
    by apply judge_count.
  - by rewrite lookup_insert_ne, (lookup_insert_ne m), map_lookup_imap by done.
Qed.

(** The count judged at an accepted sample is the streak with that sample. *)
Lemma judge_streak s i hist (stat : StatFields) pid (r : Readings) :
  remembers hist s -> match hist with [] => True | (last, _) :: _ => last + MIN_SAMPLE_INTERVAL <= si_now i end ->
  r !! pid = Some (sf_starttime_ticks stat, sf_cpu_ticks stat) ->
  (judge s i pid stat).1 = streak pid (sf_starttime_ticks stat) ((si_now i, r) :: hist).
Proof.
  intros [Hlast Hprev] Hfar Hr. unfold judge, usable_interval. rewrite Hlast, Hprev, map_lookup_imap.
  destruct hist as [|[last r0] hist]; [cbn; by rewrite lookup_empty|].
  cbn [head fmap option_fmap option_map fst snd from_option id mbind option_bind].
  rewrite streak_cons. unfold hot_between. cbn [fst snd]. rewrite Hr.
  destruct (r0 !! pid) as [[s0 c0]|]; [|done].
  cbn [mbind option_bind seen_starttime_ticks seen_cpu_ticks seen_hot_samples].
  unfold saturating_sub. rewrite Z.max_r by (unfold MIN_SAMPLE_INTERVAL in Hfar; lia).
  rewrite (proj2 (Z.leb_le _ _)) by lia. rewrite Z.eqb_refl, andb_true_r.
  destruct (Z.eqb_spec s0 (sf_starttime_ticks stat)) as [->|]; [|done]. cbn [andb].
  destruct (f64_ge _ _); [|done]. cbn [fst]. unfold saturating_add_u32. lia.
Qed.

(** A sample counts when it is the first or far enough from the last that did. *)
Lemma usable_iff s i hist last r :
  remembers ((last, r) :: hist) s ->
  usable_interval s i = if last + MIN_SAMPLE_INTERVAL <=? si_now i then Some (si_now i - last) else None.
Proof.
  intros [Hlast _]. unfold usable_interval. rewrite Hlast. cbn. unfold saturating_sub, MIN_SAMPLE_INTERVAL.
  destruct (Z.leb_spec (last + 250000000) (si_now i)).
  - rewrite Z.max_r by lia. by rewrite (proj2 (Z.leb_le _ _)) by lia.
  - by rewrite (proj2 (Z.leb_gt _ _)) by lia.
Qed.

(** The memory after an accepted sample. *)
Lemma remembers_accepted s i hist names :
  remembers hist s -> match hist with [] => True | (last, _) :: _ => last + MIN_SAMPLE_INTERVAL <= si_now i end ->
  remembers ((si_now i, foldl (read_into i) ∅ names) :: hist)
    {| os_previous := (foldl (visit s i) (∅, []) names).1; os_last_sample := Some (si_now i) |}.
Proof.
  intros Hrem Hfar. split; [done|]. cbn [os_previous head fmap option_fmap option_map snd from_option id].
  rewrite (visit_current s i names (∅, []) ∅) by done.
  apply map_eq. intros pid. rewrite !map_lookup_imap.
  destruct (foldl (read_into i) ∅ names !! pid) as [[start cpu]|] eqn:E; [|done].
  cbn [mbind option_bind seen_of]. do 2 f_equal.
  by apply (judge_streak s i hist {| sf_comm := ""; sf_flags := 0; sf_cpu_ticks := cpu; sf_nice := 0;
                                     sf_starttime_ticks := start |}).
Qed.

Lemma sample_remembers s i hist : remembers hist s -> remembers (accept hist i) (sample_at s i).2.
Proof.
  intros Hrem. unfold sample_at, accept. destruct (hf_read_dir (si_files i) proc_root) as [names|]; [|done].
  pose proof (remembers_accepted s i hist names Hrem) as Hnew.
  destruct (foldl (visit s i) (∅, []) names) as [current offenders]. cbn [snd fst] in *.
  destruct hist as [|[last r] hist].
  - unfold usable_interval. rewrite (proj1 Hrem). cbn. by apply Hnew.
  - rewrite (usable_iff _ _ _ _ _ Hrem), (proj1 Hrem). cbn [head fmap option_fmap option_map fst].
    destruct (Z.leb_spec (last + MIN_SAMPLE_INTERVAL) (si_now i)); [by apply Hnew|done].
Qed.

Lemma sampler_remembers samples : remembers (history samples) (sampler_after samples).
Proof.
  induction samples as [|i samples IH] using rev_ind.
  - by split.
  - unfold history, sampler_after in *. rewrite !foldl_snoc. by apply sample_remembers.
Qed.

(** ** What is reported *)

(** A report comes from the visit of a process the sample considered. *)
Lemma visited_reports s i names acc p :
  p ∈ (foldl (visit s i) acc names).2 ->
  p ∈ acc.2 \/
  (exists name pid stat, name ∈ names /\ scanned i name = Some (pid, stat) /\ (judge s i pid stat).2 = Some p).
Proof.
  revert acc. induction names as [|name names IH]; intros acc; cbn [foldl]; [by left|].
  intros [H|(n & pid & stat & Hn & H)]%IH; [|right; exists n, pid, stat; by split; [right|]]. unfold visit in H. destruct (scanned i name) as [[pid stat]|] eqn:E; [|by left].
  destruct (judge s i pid stat) as [hot report] eqn:Hj. cbn in H.
  apply elem_of_app in H as [H|H]; [by left|]. right. exists name, pid, stat. rewrite Hj.
  split; [by left|]. split; [done|].
  destruct report as [q|]; [|by apply elem_of_nil in H]. apply list_elem_of_singleton in H. by subst.
Qed.

(** A process of the owner that is neither protected nor a game, described in full. *)
Definition safe_offender (i : SampleInput) (p : OffenderProcess) : Prop :=
  1 < off_pid p /\ (off_pid p ∉ si_exclude i) /\ si_uid_of i (off_pid p) = Some (si_owner_uid i) /\
  scope_allows i (off_pid p) = true /\ off_tasks p <> [] /\
  (let class := classify_task (off_comm p) (off_comm p) (cmdline_of i (off_pid p)) in
   is_protected_task_class class = false /\ is_game_offender class = false).

Lemma describe_safe i pid stat percent hot p :
  1 < pid -> pid ∉ si_exclude i -> scope_allows i pid = true -> describe i pid stat percent hot = Some p ->
  safe_offender i p /\ off_pid p = pid /\ off_starttime_ticks p = sf_starttime_ticks stat /\
  off_cpu_percent p = percent /\ off_sustained_samples p = hot.
Proof.
  intros Hpid Hex Hscope. unfold describe. intros (uid & Huid & H)%bind_Some.
  destruct (Z.eqb_spec uid (si_owner_uid i)) as [->|]; [cbn [negb] in H|done].
  destruct (is_protected_task_class _) eqn:Hp; [done|]. destruct (is_game_offender _) eqn:Hg; [done|]. cbn [orb] in H.
  apply bind_Some in H as (names & _ & H). apply bind_Some in H as ([tasks nices] & _ & H).
  destruct tasks as [|t tasks]; [done|]. injection H as <-. cbn. by split_and!.
Qed.

Lemma scanned_considered i name pid stat : scanned i name = Some (pid, stat) -> 1 < pid /\ pid ∉ si_exclude i.
Proof.
  unfold scanned. intros (q & _ & H)%bind_Some. destruct (Z.leb_spec q 1); [done|]. cbn [orb] in H.
  case_bool_decide; [done|]. apply bind_Some in H as (text & _ & H). apply bind_Some in H as (st & _ & H).
  destruct (_ =? 0); [|done]. by simplify_eq.
Qed.

Lemma parse_stat_nice text f : parse_stat text = Some f -> in_i32 (sf_nice f).
Proof.
  unfold parse_stat. intros H. repeat (apply bind_Some in H as (? & ? & H); try (case_match; simplify_eq)).
  simplify_eq. cbn. match goal with E : _ ≫= i32_of_i64 = Some _ |- _ => apply bind_Some in E as (? & _ & E) end.
  unfold i32_of_i64, in_i32 in *. case_match; simplify_eq. lia.
Qed.

(** The niceness a report carries is an [i32]. *)
Lemma described_nice i pid stat percent hot p :
  describe i pid stat percent hot = Some p -> map_Forall (fun _ => in_i32) (off_task_nice p).
Proof.
  assert (Hfold : forall names acc, (forall x, acc = Some x -> map_Forall (fun _ => in_i32) x.2) ->
    forall y, foldl (describe_task i pid) acc names = Some y -> map_Forall (fun _ => in_i32) y.2).
  { induction names as [|name names IH]; intros acc Hacc y; cbn [foldl]; [apply Hacc|]. apply IH.
    intros x. unfold describe_task. intros ([tasks nices] & Hx & H)%bind_Some.
    apply bind_Some in H as (tid & _ & H). apply bind_Some in H as (text & _ & H).
    apply bind_Some in H as (task & Ht & H). simplify_eq. cbn.
    apply map_Forall_insert_2; [by apply parse_stat_nice in Ht|]. by apply (Hacc (tasks, nices)). }
  unfold describe. intros (uid & _ & H)%bind_Some. destruct (negb _); [done|]. destruct (_ || _); [done|].
  apply bind_Some in H as (names & _ & H). apply bind_Some in H as ([tasks nices] & Hf & H).
  destruct tasks; [done|]. simplify_eq. cbn. apply (Hfold names (Some ([], ∅))) in Hf; [done|].
  intros x [= <-]. apply map_Forall_empty.
Qed.

(** The entries of the directory of processes name distinct ones. *)
Definition distinct_pids (i : SampleInput) : Prop :=
  forall names, hf_read_dir (si_files i) proc_root = Some names -> NoDup (omap (parse_unsigned U32_MAX) names).

Lemma scanned_pid i name pid stat : scanned i name = Some (pid, stat) -> parse_unsigned U32_MAX name = Some pid.
Proof.
  unfold scanned. intros (q & Hq & H)%bind_Some. destruct (_ || _); [done|].
  apply bind_Some in H as (text & _ & H). apply bind_Some in H as (st & _ & H).
  destruct (_ =? 0); [|done]. by simplify_eq.
Qed.

Lemma readings_other i names m pid :
  pid ∉ omap (parse_unsigned U32_MAX) names -> foldl (read_into i) m names !! pid = m !! pid.
Proof.
  revert m. induction names as [|name names IH]; intros m Hout; cbn [foldl]; [done|]. cbn in Hout.
  rewrite IH; [|destruct (parse_unsigned U32_MAX name); set_solver]. unfold read_into.
  destruct (scanned i name) as [[q stat]|] eqn:E; [|done]. apply scanned_pid in E. rewrite E in Hout.
  apply lookup_insert_ne. set_solver.
Qed.

Lemma readings_lookup i names m name pid stat :
  NoDup (omap (parse_unsigned U32_MAX) names) -> name ∈ names -> scanned i name = Some (pid, stat) ->
  foldl (read_into i) m names !! pid = Some (sf_starttime_ticks stat, sf_cpu_ticks stat).
Proof.
  intros Hnd Hin Hs. revert m. induction names as [|n names IH]; intros m; cbn [foldl].
  { by apply elem_of_nil in Hin. }
  cbn in Hnd. apply elem_of_cons in Hin as [<-|Hin].
  - pose proof (scanned_pid _ _ _ _ Hs) as Hpid. rewrite Hpid in Hnd. apply NoDup_cons in Hnd as [Hout _].
    rewrite readings_other by done. unfold read_into. rewrite Hs. apply lookup_insert_eq.
  - apply IH; [|done]. destruct (parse_unsigned U32_MAX n); [by apply NoDup_cons in Hnd as [_ ?]|done].
Qed.

Lemma streak_three pid start hist :
  3 <= streak pid start hist ->
  exists d c b a older, hist = d :: c :: b :: a :: older /\
    hot_between pid start c d = true /\ hot_between pid start b c = true /\ hot_between pid start a b = true.
Proof.
  intros H. destruct hist as [|d [|c rest]]; [cbn in H; lia..|]. rewrite streak_cons in H.
  destruct (hot_between pid start c d) eqn:H1; [|lia].
  destruct rest as [|b rest]; [cbn in H; lia|]. rewrite streak_cons in H.
  destruct (hot_between pid start b c) eqn:H2; [|lia].
  destruct rest as [|a older]; [cbn in H; lia|]. rewrite streak_cons in H.
  destruct (hot_between pid start a b) eqn:H3; [|lia]. by eexists _, _, _, _, _.
Qed.

(** What a judgement that reports says. *)
Lemma judge_reports s i hist pid stat p :
  remembers hist s -> (judge s i pid stat).2 = Some p ->
  (exists last r older, hist = (last, r) :: older /\ last + MIN_SAMPLE_INTERVAL <= si_now i) /\
  OFFENDER_MIN_SUSTAINED_SAMPLES <= (judge s i pid stat).1 /\ scope_allows i pid = true /\
  exists percent, describe i pid stat percent (judge s i pid stat).1 = Some p.
Proof.
  intros Hrem. unfold judge. destruct (os_previous s !! pid) as [before|]; [|done].
  destruct (_ =? _); [|done]. destruct hist as [|[last r] hist].
  { unfold usable_interval. by rewrite (proj1 Hrem). }
  rewrite (usable_iff _ _ _ _ _ Hrem). destruct (Z.leb_spec (last + MIN_SAMPLE_INTERVAL) (si_now i)); [|done].
  destruct (f64_ge _ _); [|done]. cbn [fst snd].
  destruct (Z.leb_spec OFFENDER_MIN_SUSTAINED_SAMPLES (saturating_add_u32 (seen_hot_samples before) 1)); [|done].
  destruct (scope_allows i pid) eqn:Hs; [|done]. cbn [andb]. intros Hd.
  split; [by exists last, r, hist|]. split_and!; [done|done|by eexists].
Qed.

(** C37. Whatever the samples before: at most four processes are reported, and each is a process of
    the owner outside the excluded ones, neither protected nor a game, that has been the same
    process at the last four samples that count, 250 ms apart or more, and used its share of a
    CPU in each of the three intervals between them. *)
Theorem offenders_sustained samples i :
  distinct_pids i ->
  let reported := (sample_at (sampler_after samples) i).1 in
  (length reported <= OFFENDER_MAX_REPORTED)%nat /\
  forall p, p ∈ reported ->
    safe_offender i p /\
    exists d c b a older,
      history (samples ++ [i]) = d :: c :: b :: a :: older /\ d.1 = si_now i /\
      spaced [d; c; b; a] /\
      Forall (fun '(before, after) => hot_between (off_pid p) (off_starttime_ticks p) before after = true)
        [(c, d); (b, c); (a, b)].
Proof.
  intros Hdist. cbv zeta. pose proof (sampler_remembers samples) as Hrem.
  assert (Hsp : spaced (history (samples ++ [i]))) by apply history_spaced.
  assert (Hh : history (samples ++ [i]) = accept (history samples) i) by (unfold history; by rewrite foldl_snoc).
  rewrite Hh in *. revert Hsp. unfold accept, sample_at.
  destruct (hf_read_dir (si_files i) proc_root) as [names|] eqn:Hnames.
  2: { split; [cbn; lia|]. intros p Hp. by apply elem_of_nil in Hp. }
  pose proof (fun p => visited_reports (sampler_after samples) i names (∅, []) p) as Hvis.
  destruct (foldl (visit _ i) (∅, []) names) as [current offenders]. cbn [fst snd] in *. intros Hsp.
  split; [rewrite length_take; lia|]. intros p Hp%subseteq_take.
  rewrite stable_sort_Permutation in Hp. apply Hvis in Hp as [Hp|(name & pid & stat & Hin & Hscan & Hjudge)].
  { by apply elem_of_nil in Hp. }
  destruct (judge_reports _ _ _ _ _ _ Hrem Hjudge) as ((last & r & older & Hhist & Hfar) & H3 & Hscope & percent & Hd).
  destruct (scanned_considered _ _ _ _ Hscan) as [Hpid Hex].
  destruct (describe_safe _ _ _ _ _ _ Hpid Hex Hscope Hd) as (Hsafe & -> & -> & _ & _). split; [done|].
  rewrite Hhist in *. rewrite (proj2 (Z.leb_le _ _)) in Hsp |- * by lia.
  rewrite (judge_streak _ i _ stat pid (foldl (read_into i) ∅ names) Hrem Hfar) in H3
    by (eapply readings_lookup; [by apply Hdist|done|done]).
  destruct (streak_three _ _ _ H3) as (d & c & b & a & rest & E & H1 & H2 & H4).
  rewrite E in *. exists d, c, b, a, rest. split; [done|]. split; [by injection E as <-|].
  split; [cbn in *; tauto|]. by repeat constructor.
Qed.

End sampler.
