(* ===== verification/Situation.v ===== *)
(** * Situation: what the workload is going through

    [autotune/situation.rs] and [autotune/situation_model.rs]: the pressures direct
    telemetry establishes, the situations diagnoses and pressures imply for the focused
    workload, and the classification of an observation. *)

From Stdlib Require Import Ascii String List SpecFloat.
From S2P Require Import Prelude Binary64 Abi Metrics Intervals Profiles Score PolicyModel Procfs Allowlist Objective Controller AutonomousGate ContextKey FocusModel RollingWindow WindowSignals DaemonHealth.
From stdpp Require Import list strings.
Open Scope Z_scope.

(** ** [situation_model.rs] *)

Record PressureEvidence := { pe_kind : PressureKind; pe_signal : string; pe_value : string; pe_weight : f32 }.

Definition DIRECT_PRESSURE_WEIGHT : f32 := f32_lit 90 100.
Definition SCHEDULER_PRESSURE_P99_NS : Z := 2000000.
Definition GPU_BUSY_PERCENT : Z := 90.

Definition direct (kind : PressureKind) (signal value : string) : list PressureEvidence :=
  [{| pe_kind := kind; pe_signal := signal; pe_value := value; pe_weight := DIRECT_PRESSURE_WEIGHT |}].

(** [if let Some(n) = signal.filter(|n| *n >= least) { push(..) } else { rest }]. *)
Definition direct_or (value : option Z) (least : Z) (kind : PressureKind) (signal : string)
    (rest : list PressureEvidence) : list PressureEvidence :=
  match value with
  | Some n => if least <=? n then direct kind signal (decimal n) else rest
  | None => rest
  end.

Definition is_true_signal (b : option bool) : bool := match b with Some true => true | _ => false end.

Definition scheduler_pressure (s : ObjectiveSignals) : list PressureEvidence :=
  match sig_runnable_latency_p99_ns s, sig_runnable_samples s with
  | Some p99, Some samples =>
      if (MINIMUM_RUNNABLE_SAMPLES <=? samples) && (SCHEDULER_PRESSURE_P99_NS <=? p99)
      then direct PkScheduler "runnable_latency_p99_ns" (decimal p99) else []
  | _, _ => []
  end.

Definition direct_pressure_evidence (s : ObjectiveSignals) : list PressureEvidence :=
  scheduler_pressure s
  ++ (if is_true_signal (sig_gpu_power_limited s) then direct PkGpu "gpu_power_limited" "true"
      else direct_or (sig_gpu_busy_percent s) GPU_BUSY_PERCENT PkGpu "gpu_busy_percent" [])
  ++ direct_or (sig_block_io_overlap_count s) 1 PkIo "block_io_overlap_count" []
  ++ direct_or (sig_irq_overlap_count s) 1 PkIrq "irq_overlap_count" []
  ++ direct_or (sig_swap_activity_events s) 1 PkMemory "swap_activity_events"
       (direct_or (sig_mem_stall_spike_count s) 1 PkMemory "mem_stall_spike_count"
          (direct_or (sig_dirty_writeback_events s) 1 PkMemory "dirty_writeback_events" []))
  ++ (if is_true_signal (sig_thermal_degraded s) then direct PkThermal "thermal_degraded" "true"
      else direct_or (sig_thermal_throttle_count s) 1 PkThermal "thermal_throttle_count" [])
  ++ (if is_true_signal (sig_cpu_power_limited s) then direct PkPower "cpu_power_limited" "true" else []).

(** ** [situation.rs] *)

Record SituationEvidence := { se_signal : string; se_value : string; se_weight : f32 }.

Inductive SituationBlocker :=
| LowFocusConfidence | LowDataQuality | MissingFrameData | MissingGpuData | MissingIrqData
| ThermalDegraded.

#[export] Instance SituationBlocker_eq_dec : EqDecision SituationBlocker.
Proof. solve_decision. Defined.

Record SituationClassification := {
  sc_primary : SituationKind;
  sc_secondary : list SituationKind;
  sc_confidence : f32;
  sc_evidence : list SituationEvidence;
  sc_blockers : list SituationBlocker;
  sc_reason_codes : list string }.

(** The fields of an observation only the classification reads. *)
Record ObservationDetail := {
  od_system_health : SystemHealthState;
  od_recent_diagnoses : list LiveDiagnosisEntry;
  od_frame_count : Z }.

Definition set_primary c kind confidence secondary : SituationClassification :=
  {| sc_primary := kind; sc_secondary := secondary; sc_confidence := confidence;
     sc_evidence := sc_evidence c; sc_blockers := sc_blockers c; sc_reason_codes := sc_reason_codes c |}.

Definition push_blocker c (blocker : SituationBlocker) (code : string) : SituationClassification :=
  {| sc_primary := sc_primary c; sc_secondary := sc_secondary c; sc_confidence := sc_confidence c;
     sc_evidence := sc_evidence c; sc_blockers := sc_blockers c ++ [blocker];
     sc_reason_codes := sc_reason_codes c ++ [code] |}.

Definition push_reason c (code : string) : SituationClassification :=
  {| sc_primary := sc_primary c; sc_secondary := sc_secondary c; sc_confidence := sc_confidence c;
     sc_evidence := sc_evidence c; sc_blockers := sc_blockers c;
     sc_reason_codes := sc_reason_codes c ++ [code] |}.

(** [f32::clamp(0.0, 1.0)]. *)
Definition clamp_unit (x : f32) : f32 :=
  if SFltb x f32_zero then f32_zero else if SFltb f32_one x then f32_one else x.

Definition push_evidence c (signal value : string) (weight : f32) : SituationClassification :=
  {| sc_primary := sc_primary c; sc_secondary := sc_secondary c; sc_confidence := sc_confidence c;
     sc_evidence := sc_evidence c ++ [{| se_signal := signal; se_value := value; se_weight := clamp_unit weight |}];
     sc_blockers := sc_blockers c; sc_reason_codes := sc_reason_codes c |}.

Definition base_situation_from_focus (focus : option FocusGroupKind) (primary : SituationKind) : SituationKind :=
  match focus with
  | Some FgGame => GameFocused
  | Some FgBrowser => BrowserFocused
  | Some FgCompile => CompileLoad
  | Some FgMedia => MediaPlayback
  | Some FgRecording => SkRecording
  | Some FgVirtualMachine => VirtualMachineLoad
  | Some FgIdle => SkIdle
  | Some FgDesktop | Some FgUnknown | None => primary
  end.

Definition linker_diagnosed (d : list LiveDiagnosisEntry) : bool :=
  existsb (fun entry => bool_decide (ld_anchor_class entry = Linker)) d.

Definition cpu_pressure_situation (focus : option FocusGroupKind) (d : list LiveDiagnosisEntry) : SituationKind :=
  match focus with
  | Some FgGame => GameCpuSchedulerPressure
  | Some FgBrowser => BrowserCpuPressure
  | Some FgCompile => if linker_diagnosed d then CompileLinkerPressure else CompileCpuBound
  | Some FgMedia => MediaPlayback
  | Some FgRecording => SkRecording
  | Some FgVirtualMachine => VirtualMachineLoad
  | Some FgIdle | Some FgDesktop | Some FgUnknown | None => CpuPressure
  end.

Definition situation_from_diagnosis (focus : option FocusGroupKind) (d : list LiveDiagnosisEntry)
    (cause : StutterCause) : option SituationKind :=
  match cause with
  | GameThreadSchedulerDelay =>
      Some match focus with Some FgGame => GameCpuSchedulerPressure | _ => CpuPressure end
  | CompositorSchedulerDelay => Some CompositorPressure
  | GpuBoundCandidate => Some match focus with Some FgBrowser => BrowserGpuVideo | _ => GameGpuBound end
  | BlockIoCandidate =>
      Some match focus with
           | Some FgBrowser => BrowserIoPressure
           | _ => if linker_diagnosed d then CompileLinkerPressure else IoPressure
           end
  | IrqDelayCandidate => Some IrqPressure
  | CpuPressureCandidate | CpuMonopolizationCandidate | RuntimeWaitCandidate =>
      Some (cpu_pressure_situation focus d)
  | UnknownCause => None
  end.

Definition situation_from_pressure (focus : option FocusGroupKind) (d : list LiveDiagnosisEntry)
    (pressure : PressureKind) : option SituationKind :=
  match pressure with
  | PkScheduler | PkCpu => Some (cpu_pressure_situation focus d)
  | PkGpu =>
      match focus with
      | Some FgGame => Some GameGpuBound
      | Some FgBrowser => Some BrowserGpuVideo
      | _ => None
      end
  | PkIo | PkMemory =>
      Some match focus with
           | Some FgBrowser => BrowserIoPressure
           | Some FgCompile => if linker_diagnosed d then CompileLinkerPressure else IoPressure
           | _ => IoPressure
           end
  | PkIrq => Some IrqPressure
  | PkThermal | PkPower => Some ThermalOrPowerLimit
  end.

Definition confidence_weight (c : DiagnosisConfidence) : f32 :=
  match c with DcHigh => f32_lit 95 100 | DcMedium => f32_lit 70 100 | DcLow => f32_lit 40 100 end.

Definition promote_kind c (kind : SituationKind) (weight : f32) : SituationClassification :=
  if f32_ge weight (sc_confidence c)
     || match sc_primary c with SkUnknown | SkIdle | GameFocused => true | _ => false end
  then
    set_primary c kind (f32_max weight (sc_confidence c))
      (if negb (bool_decide (sc_primary c = kind)) && negb (bool_decide (sc_primary c = SkUnknown))
       then sc_secondary c ++ [sc_primary c] else sc_secondary c)
  else if negb (bool_decide (sc_primary c = kind))
  then set_primary c (sc_primary c) (sc_confidence c) (sc_secondary c ++ [kind])
  else c.

Definition promote_direct_pressure c (base kind : SituationKind) (weight : f32) : SituationClassification :=
  if bool_decide (sc_primary c = base) && match situation_pressure base with None => true | Some _ => false end
  then
    set_primary c kind (f32_max (sc_confidence c) weight)
      (if negb (bool_decide (base = kind)) then sc_secondary c ++ [base] else sc_secondary c)
  else promote_kind c kind weight.

Definition StutterCause_debug (c : StutterCause) : string :=
  match c with
  | CompositorSchedulerDelay => "CompositorSchedulerDelay"
  | GameThreadSchedulerDelay => "GameThreadSchedulerDelay"
  | IrqDelayCandidate => "IrqDelayCandidate" | GpuBoundCandidate => "GpuBoundCandidate"
  | BlockIoCandidate => "BlockIoCandidate" | CpuPressureCandidate => "CpuPressureCandidate"
  | CpuMonopolizationCandidate => "CpuMonopolizationCandidate"
  | RuntimeWaitCandidate => "RuntimeWaitCandidate" | UnknownCause => "Unknown"
  end.

Definition PressureKind_lowercase (k : PressureKind) : string :=
  match k with
  | PkScheduler => "scheduler" | PkCpu => "cpu" | PkGpu => "gpu" | PkIo => "io" | PkIrq => "irq"
  | PkMemory => "memory" | PkThermal => "thermal" | PkPower => "power"
  end.

Definition diagnosis_step (focus : option FocusGroupKind) (d : list LiveDiagnosisEntry)
    (c : SituationClassification) (entry : LiveDiagnosisEntry) : SituationClassification :=
  match situation_from_diagnosis focus d (ld_cause entry) with
  | None => c
  | Some kind =>
      let weight := confidence_weight (ld_confidence entry) in
      promote_kind
        (push_evidence c "diagnosis"
           (StutterCause_debug (ld_cause entry) +:+ "/" +:+ TaskClass_debug (ld_anchor_class entry)
              +:+ "/" +:+ ld_anchor_comm entry) weight)
        kind weight
  end.

Definition pressure_step (focus : option FocusGroupKind) (d : list LiveDiagnosisEntry) (base : SituationKind)
    (c : SituationClassification) (p : PressureEvidence) : SituationClassification :=
  match situation_from_pressure focus d (pe_kind p) with
  | None => c
  | Some kind =>
      promote_direct_pressure
        (push_reason (push_evidence c ("direct_" +:+ pe_signal p) (pe_value p) (pe_weight p))
           ("direct_pressure_" +:+ PressureKind_lowercase (pe_kind p)))
        base kind (pe_weight p)
  end.

(** [Vec::dedup]: consecutive repetitions are dropped. *)
Fixpoint dedup_runs {A} `{!EqDecision A} (l : list A) : list A :=
  match l with
  | [] => []
  | x :: rest =>
      match dedup_runs rest with
      | (y :: _) as rest => if decide (x = y) then rest else x :: rest
      | [] => [x]
      end
  end.

Definition situation_le (a b : SituationKind) : Prop :=
  String.le (SituationKind_debug a) (SituationKind_debug b).

#[export] Instance situation_le_dec a b : Decision (situation_le a b).
Proof. unfold situation_le. apply _. Defined.

Definition dedupe_classification (c : SituationClassification) : SituationClassification :=
  {| sc_primary := sc_primary c;
     sc_secondary :=
       dedup_runs (stable_sort situation_le (filter (fun kind => kind <> sc_primary c) (sc_secondary c)));
     sc_confidence := sc_confidence c; sc_evidence := sc_evidence c;
     sc_blockers := dedup_runs (sc_blockers c);
     sc_reason_codes := dedup_runs (stable_sort String.le (sc_reason_codes c)) |}.

Definition blocked_classification (o : AutotuneObservation) : SituationClassification :=
  let c := {| sc_primary := base_situation_from_focus (ob_focus_kind o) (ob_primary_situation o);
              sc_secondary := []; sc_confidence := clamp_unit (ob_focus_confidence o);
              sc_evidence := []; sc_blockers := []; sc_reason_codes := [] |} in
  let c := if SFltb (ob_focus_confidence o) DEFAULT_MIN_FOCUS_CONFIDENCE
           then push_blocker c LowFocusConfidence "low_focus_confidence" else c in
  if blocks_action (ob_data_quality o) then push_blocker c LowDataQuality "low_data_quality" else c.

Definition add_focus_evidence (o : AutotuneObservation) (c : SituationClassification) : SituationClassification :=
  match ob_focus_kind o with
  | Some kind => push_evidence c "focus_kind" (FocusGroupKind_debug kind) (clamp_unit (ob_focus_confidence o))
  | None => c
  end.

(** The classification of the diagnoses, then of the direct pressures. *)
Definition classify_evidence (o : AutotuneObservation) (x : ObservationDetail) : SituationClassification :=
  let focus := ob_focus_kind o in
  let d := od_recent_diagnoses x in
  let base := base_situation_from_focus focus (ob_primary_situation o) in
  foldl (pressure_step focus d base) (foldl (diagnosis_step focus d) (blocked_classification o) d)
    (direct_pressure_evidence (ob_objective_signals o)).

Definition idle_by_inactivity (o : AutotuneObservation) (c : SituationClassification) : bool :=
  bool_decide (sc_primary c = SkUnknown)
  && match ob_focus_kind o with Some FgIdle | Some FgUnknown => true | _ => false end
  && negb (ob_target_present o) && (ob_active_target_count o =? 0) && (ob_scored_samples o =? 0).

Definition classify_situation (o : AutotuneObservation) (x : ObservationDetail) : SituationClassification :=
  let c := blocked_classification o in
  if bool_decide (od_system_health x = Overheated) then
    let c := push_evidence c "system_health" "overheated" f32_one in
    let c := push_blocker c ThermalDegraded "thermal_or_power_limit" in
    dedupe_classification
      (set_primary c ThermalOrPowerLimit (f32_max (sc_confidence c) (f32_lit 95 100)) (sc_secondary c))
  else
    let c := classify_evidence o x in
    let c := if (od_frame_count x =? 0) && bool_decide (sc_primary c = GameGpuBound)
             then push_blocker c MissingFrameData "missing_frame_data" else c in
    let c := match sc_evidence c with [] => add_focus_evidence o c | _ => c end in
    let c :=
      if idle_by_inactivity o c then
        push_evidence
          (set_primary c SkIdle (f32_max (sc_confidence c) (f32_lit 60 100)) (sc_secondary c))
          "activity" "no active target" (f32_lit 60 100)
      else c in
    dedupe_classification c.

(** ** Where a situation comes from *)

(** The situations the evidence of an observation allows. *)
Inductive supported_by (o : AutotuneObservation) (x : ObservationDetail) : SituationKind -> Prop :=
| by_focus : supported_by o x (base_situation_from_focus (ob_focus_kind o) (ob_primary_situation o))
| by_diagnosis entry kind :
    entry ∈ od_recent_diagnoses x ->
    situation_from_diagnosis (ob_focus_kind o) (od_recent_diagnoses x) (ld_cause entry) = Some kind ->
    supported_by o x kind
| by_pressure p kind :
    p ∈ direct_pressure_evidence (ob_objective_signals o) ->
    situation_from_pressure (ob_focus_kind o) (od_recent_diagnoses x) (pe_kind p) = Some kind ->
    supported_by o x kind.

(** All the situations a classification names are supported. *)
Definition names_supported o x (c : SituationClassification) : Prop :=
  supported_by o x (sc_primary c) /\ Forall (supported_by o x) (sc_secondary c).

Lemma promote_kind_supported o x c kind w :
  names_supported o x c -> supported_by o x kind -> names_supported o x (promote_kind c kind w).
Proof.
  intros [Hp Hs] Hk. unfold promote_kind, set_primary, names_supported.
  destruct (_ || _); [destruct (_ && _)|destruct (negb _)]; cbn; split; try done;
    (apply Forall_app_2; [done|by apply Forall_singleton]).
Qed.

Lemma promote_direct_supported o x c base kind w :
  names_supported o x c -> supported_by o x base -> supported_by o x kind ->
  names_supported o x (promote_direct_pressure c base kind w).
Proof.
  intros Hc Hb Hk. unfold promote_direct_pressure.
  destruct (_ && _); [|by apply promote_kind_supported]. destruct Hc as [Hp Hs]. unfold names_supported.
  destruct (negb _); cbn; split; try done;
    (apply Forall_app_2; [done|by apply Forall_singleton]).
Qed.

Lemma diagnoses_supported o x c l :
  (forall e, e ∈ l -> e ∈ od_recent_diagnoses x) -> names_supported o x c ->
  names_supported o x (foldl (diagnosis_step (ob_focus_kind o) (od_recent_diagnoses x)) c l).
Proof.
  revert c. induction l as [|e l IH]; intros c Hl Hc; [done|]. cbn. apply IH; [set_solver|].
  unfold diagnosis_step. destruct (situation_from_diagnosis _ _ _) as [kind|] eqn:E; [|done].
  apply promote_kind_supported; [done|]. eapply by_diagnosis; [|exact E]. set_solver.
Qed.

Lemma pressures_supported o x c l :
  (forall p, p ∈ l -> p ∈ direct_pressure_evidence (ob_objective_signals o)) -> names_supported o x c ->
  names_supported o x
    (foldl (pressure_step (ob_focus_kind o) (od_recent_diagnoses x)
              (base_situation_from_focus (ob_focus_kind o) (ob_primary_situation o))) c l).
Proof.
  revert c. induction l as [|p l IH]; intros c Hl Hc; [done|]. cbn. apply IH; [set_solver|].
  unfold pressure_step. destruct (situation_from_pressure _ _ _) as [kind|] eqn:E; [|done].
  apply promote_direct_supported; [done|apply by_focus|]. eapply by_pressure; [|exact E]. set_solver.
Qed.

Lemma blocked_supported o x : names_supported o x (blocked_classification o).
Proof.
  unfold blocked_classification, names_supported. repeat case_match; cbn; split; by constructor.
Qed.

Lemma evidence_supported o x : names_supported o x (classify_evidence o x).
Proof.
  apply pressures_supported; [done|]. apply diagnoses_supported; [done|]. apply blocked_supported.
Qed.

(** ** Sorted lists without repetitions *)

Lemma dedup_runs_elem {A} `{!EqDecision A} (l : list A) x : x ∈ dedup_runs l <-> x ∈ l.
Proof.
  induction l as [|y l IH]; [done|]. cbn. rewrite elem_of_cons, <- IH.
  destruct (dedup_runs l) as [|z r]; [by rewrite list_elem_of_singleton, elem_of_nil; tauto|].
  case_decide as Hy; [subst z|]; rewrite !elem_of_cons; naive_solver.
Qed.

Lemma dedup_runs_NoDup {A} `{!EqDecision A} (R : relation A) `{!AntiSymm (=) R} (l : list A) :
  Sorted.StronglySorted R l -> NoDup (dedup_runs l).
Proof.
  induction 1 as [|x l Hl IH Hx]; [constructor|]. cbn.
  destruct (dedup_runs l) as [|y r] eqn:E; [apply NoDup_singleton|].
  case_decide as Hxy; [done|]. constructor; [|done]. intros Hin. apply Hxy.
  assert (Hsub : forall z, z ∈ y :: r -> z ∈ l) by (intros z; by rewrite <- E, dedup_runs_elem).
  rewrite Forall_forall in Hx. apply (anti_symm R); [apply Hx, Hsub; left|].
  apply elem_of_cons in Hin as [->|Hin]; [apply Hx, Hsub; left|].
  (* [x] occurs after [y] in a sorted list *)
  assert (Hs : Sorted.StronglySorted R (dedup_runs l)).
  { clear -Hl. induction Hl as [|a l Hl IH Ha]; [constructor|]. cbn.
    destruct (dedup_runs l) as [|b s] eqn:E; [by repeat constructor|].
    case_decide; [done|]. constructor; [done|]. rewrite <- E. rewrite Forall_forall in *.
    intros z Hz. apply Ha. by apply dedup_runs_elem. }
  rewrite E in Hs. apply Sorted.StronglySorted_inv in Hs as [_ Hs]. rewrite Forall_forall in Hs. by apply Hs.
Qed.

#[export] Instance situation_le_antisymm : AntiSymm (=) situation_le.
Proof.
  intros a b Hab Hba. assert (E : SituationKind_debug a = SituationKind_debug b).
  { by apply (anti_symm String.le). }
  destruct a, b; done.
Qed.
#[export] Instance situation_le_transitive : Transitive situation_le.
Proof. intros a b c. unfold situation_le. apply transitivity. Qed.
#[export] Instance situation_le_total : Total situation_le.
Proof. intros a b. unfold situation_le. apply total, _. Qed.

Lemma dedupe_secondary c kind :
  kind ∈ sc_secondary (dedupe_classification c) <-> kind <> sc_primary c /\ kind ∈ sc_secondary c.
Proof.
  cbn. rewrite dedup_runs_elem, stable_sort_Permutation, list_elem_of_filter. done.
Qed.

Lemma dedupe_NoDup c : NoDup (sc_secondary (dedupe_classification c)).
Proof. cbn. apply (dedup_runs_NoDup situation_le), StronglySorted_stable_sort; apply _. Qed.

(** ** The classification *)

(** What is classified: nothing is named without evidence. An overheated system is
    thermally limited and says so; otherwise the primary situation and every secondary
    one come from the focus, from a diagnosis or from a direct pressure, except that an
    unknown situation of an inactive workload is idle. Each situation is named once. *)
Theorem situation_is_supported o x :
  let c := classify_situation o x in
  (od_system_health x = Overheated -> sc_primary c = ThermalOrPowerLimit /\ ThermalDegraded ∈ sc_blockers c) /\
  (od_system_health x <> Overheated ->
   Forall (supported_by o x) (sc_secondary c) /\
   (supported_by o x (sc_primary c) \/
    sc_primary c = SkIdle /\ ob_target_present o = false /\ ob_scored_samples o = 0)) /\
  NoDup (sc_primary c :: sc_secondary c).
Proof.
  intros c. split_and!.
  - intros Hh. subst c. unfold classify_situation. rewrite bool_decide_true by done. cbn.
    split; [done|]. rewrite dedup_runs_elem. set_solver.
  - intros Hh. subst c. unfold classify_situation. rewrite bool_decide_false by done.
    pose proof (evidence_supported o x) as [Hp Hs].
    set (c := classify_evidence o x) in *.
    set (c1 := if (od_frame_count x =? 0) && _ then _ else c).
    assert (H1 : names_supported o x c1) by (subst c1; destruct (_ && _); by split).
    set (c2 := match sc_evidence c1 with [] => add_focus_evidence o c1 | _ => c1 end).
    assert (H2 : names_supported o x c2).
    { subst c2. destruct (sc_evidence c1); [|done]. unfold add_focus_evidence.
      by destruct (ob_focus_kind o). }
    clearbody c2. destruct H2 as [Hp2 Hs2]. rewrite Forall_forall in Hs2.
    destruct (idle_by_inactivity o c2) eqn:Hi.
    + split; [apply Forall_forall; intros k Hk; apply dedupe_secondary in Hk as [_ Hk]; by apply Hs2|].
      right. unfold idle_by_inactivity in Hi. rewrite !andb_true_iff, negb_true_iff, !Z.eqb_eq in Hi.
      cbn. tauto.
    + split; [apply Forall_forall; intros k Hk; apply dedupe_secondary in Hk as [_ Hk]; by apply Hs2|].
      by left.
  - subst c. unfold classify_situation. repeat case_match; (constructor; [|apply dedupe_NoDup]);
      rewrite dedupe_secondary; intros [? ?]; done.
Qed.

(** ** Two pressures of a game *)

(** The situations the direct pressures imply, in the order they are looked at. *)
Definition pressure_kinds (o : AutotuneObservation) (x : ObservationDetail) : list SituationKind :=
  omap (fun p => situation_from_pressure (ob_focus_kind o) (od_recent_diagnoses x) (pe_kind p))
    (direct_pressure_evidence (ob_objective_signals o)).

Lemma direct_weight s p : p ∈ direct_pressure_evidence s -> pe_weight p = DIRECT_PRESSURE_WEIGHT.
Proof.
  assert (Hd : forall k a b, p ∈ direct k a b -> pe_weight p = DIRECT_PRESSURE_WEIGHT)
    by (intros k a b; unfold direct; rewrite list_elem_of_singleton; by intros ->).
  assert (Ho : forall v n k a rest, p ∈ direct_or v n k a rest ->
    pe_weight p = DIRECT_PRESSURE_WEIGHT \/ p ∈ rest).
  { intros [v|] n k a rest; cbn; [|auto]. destruct (n <=? v); eauto. }
  assert (Hn : p ∉ []) by apply not_elem_of_nil.
  unfold direct_pressure_evidence, scheduler_pressure. rewrite !elem_of_app. intros H.
  destruct_or! H; repeat case_match; eauto; try done;
    repeat (apply Ho in H as [H|H]; [done|]); done.
Qed.

(** [f32::max] of two numbers, and what exceeds what. *)
Lemma f32_max_numbers a b :
  a <> S754_nan -> b <> S754_nan -> f32_max a b = if SFltb a b then b else a.
Proof. intros Ha Hb. by destruct a, b. Qed.

Lemma f32_max_ge w conf :
  w <> S754_nan -> f32_ge w (f32_max conf w) = negb (SFltb w conf).
Proof.
  intros Hw. destruct (decide (conf = S754_nan)) as [->|Hc].
  { unfold f32_max, f32_ge, SFleb. rewrite SFcompare_refl by done. by destruct w. }
  rewrite f32_max_numbers by done. unfold f32_ge, SFltb. pose proof (SFcompare_antisym conf w) as Ha.
  destruct (SFcompare_some conf w Hc Hw) as [cmp E]. rewrite E in *. rewrite Ha.
  unfold SFleb. destruct cmp; cbn; rewrite ?SFcompare_refl, ?E by done; done.
Qed.

Lemma direct_weight_number : DIRECT_PRESSURE_WEIGHT <> S754_nan.
Proof. vm_compute. done. Qed.

Lemma f32_max_below w conf : f32_ge w conf = true -> f32_ge w (f32_max w conf) = true.
Proof.
  unfold f32_ge, SFleb. destruct (SFcompare conf w) as [cmp|] eqn:E; [|done]. intros Hc.
  assert (Hw : w <> S754_nan) by (intros ->; by destruct conf).
  assert (Hn : conf <> S754_nan) by (by intros ->).
  rewrite f32_max_numbers by done. destruct (SFltb w conf); [by rewrite E|]. by rewrite SFcompare_refl.
Qed.

(** The classification settled on a pressure: which of two pressures is primary is decided
    by the confidence. *)
Definition settled_on c (kind : SituationKind) (sticky : bool) : Prop :=
  sc_primary c = kind /\ f32_ge DIRECT_PRESSURE_WEIGHT (sc_confidence c) = negb sticky.

Definition plain (kind : SituationKind) : bool :=
  match kind with SkUnknown | SkIdle | GameFocused => true | _ => false end.

Lemma promote_settled c kind next (sticky : bool) :
  settled_on c kind sticky -> plain kind = false ->
  settled_on (promote_kind c next DIRECT_PRESSURE_WEIGHT) (if sticky then kind else next) sticky.
Proof.
  intros [Hk Hc] Hplain. unfold promote_kind. rewrite Hk.
  replace (match kind with SkUnknown | SkIdle | GameFocused => true | _ => false end) with false
    by (by destruct kind).
  rewrite Hc, orb_false_r. destruct sticky; cbn [negb].
  - destruct (bool_decide (kind = next)); by split.
  - split; [done|]. cbn. by apply f32_max_below.
Qed.

(** Every pressure of a game but the idle ones is a situation of its own. *)
Lemma game_pressure_kind d k kind :
  situation_from_pressure (Some FgGame) d k = Some kind -> plain kind = false.
Proof. by destruct k; intros [= <-]. Qed.

Definition first_or_last (sticky : bool) (first : SituationKind) (rest : list SituationKind) : SituationKind :=
  if sticky then first else default first (last rest).

Lemma later_pressures d c kind sticky l :
  settled_on c kind sticky -> plain kind = false ->
  Forall (fun p => pe_weight p = DIRECT_PRESSURE_WEIGHT) l ->
  settled_on (foldl (pressure_step (Some FgGame) d GameFocused) c l)
    (first_or_last sticky kind (omap (fun p => situation_from_pressure (Some FgGame) d (pe_kind p)) l)) sticky.
Proof.
  intros Hs Hk Hl. revert c kind Hs Hk.
  induction Hl as [|p l Hp Hl IH]; intros c kind Hs Hk; [by destruct sticky|]. cbn [foldl omap list_omap].
  unfold pressure_step at 2. destruct (situation_from_pressure _ d (pe_kind p)) as [next|] eqn:E.
  2: { by apply IH. }
  rewrite Hp. unfold promote_direct_pressure. cbn [sc_primary push_reason push_evidence].
  destruct Hs as [Hk' Hc]. rewrite bool_decide_false by (rewrite Hk'; by intros ->). cbn [andb].
  pose proof (promote_settled
    (push_reason (push_evidence c ("direct_" +:+ pe_signal p) (pe_value p) DIRECT_PRESSURE_WEIGHT)
       ("direct_pressure_" +:+ PressureKind_lowercase (pe_kind p))) kind next sticky
    (conj Hk' Hc) Hk) as Hn.
  specialize (IH _ _ Hn). pose proof (game_pressure_kind d _ _ E) as Hnext.
  destruct sticky; cbn in *; [by apply IH|].
  replace (default kind _) with (default next (last
    (omap (fun p => situation_from_pressure (Some FgGame) d (pe_kind p)) l))); [by apply IH|].
  by destruct (last _) eqn:El; rewrite last_cons, El.
Qed.

Lemma blocked_fields o :
  sc_primary (blocked_classification o) = base_situation_from_focus (ob_focus_kind o) (ob_primary_situation o) /\
  sc_confidence (blocked_classification o) = clamp_unit (ob_focus_confidence o).
Proof. unfold blocked_classification. by repeat case_match. Qed.

Lemma game_evidence_primary o x :
  ob_focus_kind o = Some FgGame -> od_recent_diagnoses x = [] ->
  sc_primary (classify_evidence o x)
  = match pressure_kinds o x with
    | [] => GameFocused
    | first :: rest =>
        first_or_last (SFltb DIRECT_PRESSURE_WEIGHT (clamp_unit (ob_focus_confidence o))) first rest
    end.
Proof.
  intros Hf Hd. destruct (blocked_fields o) as [Hp Hc]. rewrite Hf in Hp. cbn in Hp.
  unfold classify_evidence, pressure_kinds. rewrite Hf, Hd. cbn [foldl base_situation_from_focus].
  assert (Hw : Forall (fun p => pe_weight p = DIRECT_PRESSURE_WEIGHT)
                 (direct_pressure_evidence (ob_objective_signals o)))
    by (apply Forall_forall; intros p; apply direct_weight).
  destruct Hw as [|p l Hw Hl]; [done|]. cbn [foldl omap list_omap]. unfold pressure_step at 2.
  destruct (situation_from_pressure (Some FgGame) [] (pe_kind p)) as [kind|] eqn:E; [|by destruct (pe_kind p)].
  rewrite Hw. unfold promote_direct_pressure. cbn [sc_primary push_reason push_evidence].
  rewrite Hp. cbn [bool_decide decide situation_pressure andb].
  rewrite bool_decide_true by done. cbn [andb sc_confidence].
  set (c := set_primary _ _ _ _).
  assert (Hs : settled_on c kind (SFltb DIRECT_PRESSURE_WEIGHT (clamp_unit (ob_focus_confidence o)))).
  { split; [done|]. subst c. rewrite <- Hc.
    apply f32_max_ge, direct_weight_number. }
  by destruct (later_pressures [] c kind _ l Hs (game_pressure_kind [] _ _ E) Hl).
Qed.

(** A game under direct pressure, with no diagnosis: with a focus more certain than a
    direct pressure the first pressure names the situation, otherwise the last one does,
    in the order runnable latency, GPU, block I/O, interrupts, memory, heat, power. *)
Theorem game_pressure_exact o x :
  ob_focus_kind o = Some FgGame -> od_recent_diagnoses x = [] -> od_system_health x <> Overheated ->
  sc_primary (classify_situation o x)
  = match pressure_kinds o x with
    | [] => GameFocused
    | first :: rest =>
        first_or_last (SFltb DIRECT_PRESSURE_WEIGHT (clamp_unit (ob_focus_confidence o))) first rest
    end.
Proof.
  intros Hf Hd Hh. rewrite <- game_evidence_primary by done.
  unfold classify_situation. rewrite bool_decide_false by done. set (c := classify_evidence o x).
  set (c1 := if (od_frame_count x =? 0) && _ then _ else c).
  assert (H1 : sc_primary c1 = sc_primary c) by (subst c1; by destruct (_ && _)).
  set (c2 := match sc_evidence c1 with [] => add_focus_evidence o c1 | _ => c1 end).
  assert (H2 : sc_primary c2 = sc_primary c1).
  { subst c2. destruct (sc_evidence c1); [|done]. unfold add_focus_evidence. by rewrite Hf. }
  unfold idle_by_inactivity. rewrite Hf, andb_false_r. cbn. congruence.
Qed.
