(* ===== verification/Observation.v ===== *)
(** * Observation: what a tick sees

    [autotune/activity.rs], [autotune/gpu_focus.rs] and [autotune/observation_builder/]:
    the activity level, the GPU of the focused workload, the identity of the workload,
    and the observation built from the rolling window, the focus, the target's tasks and
    what [/proc] and [/sys] say.

    A look at the system is a record: the start time, the executable, the control group
    file and the descriptors of each process, the graphics cards, the hash of the
    inventory, what the collector of the live configuration reads, and the background
    processes that were sampled ([Offenders]). The capabilities and the background
    offenders of an observation are read by the planner and are inputs of its own. *)

From Stdlib Require Import Ascii String List SpecFloat.
From S2P Require Import Prelude Binary64 Abi Metrics Intervals Score PolicyModel Procfs Allowlist Objective Controller ContextKey FocusModel ProcessTree RollingWindow WindowSignals DaemonHealth Profiles ActiveConfig Offenders Situation.
From stdpp Require Import gmap list strings sorting.
Open Scope Z_scope.

(** ** [activity.rs] *)

Record ActivityClassifier := { ac_window : list Z; ac_window_size : nat }.

Definition ActivityClassifier_new (window_size : nat) : ActivityClassifier :=
  {| ac_window := []; ac_window_size := Nat.max window_size 1 |}.

Definition ActivityClassifier_default : ActivityClassifier := ActivityClassifier_new 5.

(** [push_back], then [pop_front] while there are too many. *)
Definition bounded_push {A} (limit : nat) (item : A) (l : list A) : list A :=
  let l := l ++ [item] in drop (length l - limit) l.

Definition push_activity (c : ActivityClassifier) (scored_samples : Z) : ActivityClassifier :=
  {| ac_window := bounded_push (ac_window_size c) scored_samples (ac_window c);
     ac_window_size := ac_window_size c |}.

(** The newest three, the newest first. *)
Definition classify_activity (c : ActivityClassifier) : ActivityLevel :=
  match rev (ac_window c) with
  | last :: middle :: first :: _ =>
      if (first =? 0) && (middle =? 0) && (last =? 0) then AlIdle
      else if (middle <? first) && (last <? middle) && (0 <? first) && (Z.min (last * 2) U64_MAX <? first)
      then AlSlowingDown
      else AlActive
  | _ => AlActive
  end.

(** ** [gpu_focus.rs] *)

Inductive FocusGpuSource :=
| FsExplicitOverride | FsTargetProcessFd | FsGpuSample | FsHwmonSelection | FsSingleGpuFallback
| FsUnresolved.

Definition FocusGpuSource_as_str (s : FocusGpuSource) : string :=
  match s with
  | FsExplicitOverride => "explicit_override" | FsTargetProcessFd => "target_process_fd"
  | FsGpuSample => "gpu_sample" | FsHwmonSelection => "hwmon_selection"
  | FsSingleGpuFallback => "single_gpu_fallback" | FsUnresolved => "unresolved"
  end.

Record DrmDeviceInventory := { drm_name : string; drm_render_node : option string; drm_pci_id : option string }.

Record FocusGpuResolution := {
  fg_render_node : option string;
  fg_drm_card : option string;
  fg_pci_id : option string;
  fg_confidence : f32;
  fg_source : FocusGpuSource }.

Definition unresolved : FocusGpuResolution :=
  {| fg_render_node := None; fg_drm_card := None; fg_pci_id := None; fg_confidence := f32_zero;
     fg_source := FsUnresolved |}.

Definition from_device (d : DrmDeviceInventory) (confidence : f32) (source : FocusGpuSource)
    : FocusGpuResolution :=
  {| fg_render_node := drm_render_node d; fg_drm_card := Some (drm_name d); fg_pci_id := drm_pci_id d;
     fg_confidence := confidence; fg_source := source |}.

Definition render_node_name (path : string) : option string :=
  name ← Allowlist.file_name path;
  if starts_with name "renderD" then Some name else None.

Definition device_for_render_node (devices : list DrmDeviceInventory) (render_node : string)
    : option DrmDeviceInventory :=
  let node := default render_node (render_node_name render_node) in
  List.find (fun d => bool_decide (drm_render_node d = Some node)) devices.

Definition device_for_drm_card (devices : list DrmDeviceInventory) (card : string)
    : option DrmDeviceInventory :=
  List.find (fun d => String.eqb (drm_name d) card) devices.

(** The one render node the descriptors of the processes point at; [fd_links] is where
    the descriptors of a process point. *)
Definition focused_render_node_from_proc (fd_links : Z -> list string) (pids : list Z) : option string :=
  match remove_dups (omap render_node_name (pids ≫= fd_links)) with
  | [node] => Some node
  | _ => None
  end.

Definition resolve_focus_gpu (fd_links : Z -> list string) (pids : list Z) (devices : list DrmDeviceInventory)
    (observed_render_node observed_drm_card explicit_render_node explicit_drm_card : option string)
    : FocusGpuResolution :=
  let by_node node := node ≫= device_for_render_node devices in
  let by_card card := card ≫= device_for_drm_card devices in
  match by_node explicit_render_node with
  | Some d => from_device d f32_one FsExplicitOverride
  | None =>
  match by_card explicit_drm_card with
  | Some d => from_device d f32_one FsExplicitOverride
  | None =>
  match by_node (focused_render_node_from_proc fd_links pids) with
  | Some d => from_device d (f32_lit 95 100) FsTargetProcessFd
  | None =>
  match by_node observed_render_node with
  | Some d => from_device d (f32_lit 85 100) FsGpuSample
  | None =>
  match by_card observed_drm_card with
  | Some d => from_device d (f32_lit 80 100) FsHwmonSelection
  | None =>
  match devices with
  | [d] => from_device d (f32_lit 60 100) FsSingleGpuFallback
  | _ => unresolved
  end end end end end end.

(** ** [observation_builder/gpu.rs] *)

Definition source_quality (s : FocusGpuSource) : ObjectiveSignalQuality :=
  match s with
  | FsTargetProcessFd | FsExplicitOverride | FsGpuSample | FsHwmonSelection => SigDirect
  | FsSingleGpuFallback => SigDerived
  | FsUnresolved => SigMissing
  end.

Definition set_render_node_quality (q : ObjectiveSignalQualitySnapshot) (v : ObjectiveSignalQuality)
    : ObjectiveSignalQualitySnapshot :=
  {| sq_block_io_overlap := sq_block_io_overlap q; sq_irq_overlap := sq_irq_overlap q;
     sq_thermal := sq_thermal q; sq_cpu_power := sq_cpu_power q; sq_gpu_power := sq_gpu_power q;
     sq_gpu_active_render_node := v;
     sq_memory_pressure := sq_memory_pressure q; sq_swap_activity := sq_swap_activity q;
     sq_dirty_writeback := sq_dirty_writeback q; sq_frame_pacing := sq_frame_pacing q;
     sq_foreground_latency := sq_foreground_latency q;
     sq_runnable_latency := sq_runnable_latency q; sq_compile_throughput := sq_compile_throughput q |}.

Definition set_focus_gpu (s : ObjectiveSignals) (r : FocusGpuResolution) : ObjectiveSignals :=
  {| sig_block_io_overlap_count := sig_block_io_overlap_count s;
     sig_block_io_worst_latency_ns := sig_block_io_worst_latency_ns s;
     sig_block_io_overlap_basis := sig_block_io_overlap_basis s;
     sig_block_io_overlap_trust := sig_block_io_overlap_trust s;
     sig_irq_overlap_count := sig_irq_overlap_count s;
     sig_irq_worst_overlap_ns := sig_irq_worst_overlap_ns s; sig_irq_hot_irq := sig_irq_hot_irq s;
     sig_irq_hot_cpu := sig_irq_hot_cpu s; sig_irq_overlap_basis := sig_irq_overlap_basis s;
     sig_irq_overlap_trust := sig_irq_overlap_trust s;
     sig_thermal_degraded := sig_thermal_degraded s;
     sig_thermal_throttle_count := sig_thermal_throttle_count s;
     sig_cpu_power_limited := sig_cpu_power_limited s;
     sig_cpu_power_limited_cpu := sig_cpu_power_limited_cpu s;
     sig_cpu_power_limit_source := sig_cpu_power_limit_source s;
     sig_cpu_power_limited_policy := sig_cpu_power_limited_policy s;
     sig_gpu_power_limited := sig_gpu_power_limited s;
     sig_gpu_power_limit_reason := sig_gpu_power_limit_reason s;
     sig_gpu_busy_percent := sig_gpu_busy_percent s; sig_gpu_clock_mhz := sig_gpu_clock_mhz s;
     sig_gpu_temp_millidegrees := sig_gpu_temp_millidegrees s;
     sig_gpu_drm_card := fg_drm_card r;
     sig_gpu_active_render_node := fg_render_node r;
     sig_gpu_focus_confidence := Some (fg_confidence r);
     sig_gpu_focus_source := Some (FocusGpuSource_as_str (fg_source r));
     sig_memory_pressure_some_avg10_percent := sig_memory_pressure_some_avg10_percent s;
     sig_swap_activity_events := sig_swap_activity_events s;
     sig_mem_stall_spike_count := sig_mem_stall_spike_count s;
     sig_dirty_writeback_events := sig_dirty_writeback_events s;
     sig_frame_p99_ms := sig_frame_p99_ms s; sig_foreground_over_5ms := sig_foreground_over_5ms s;
     sig_runnable_latency_p50_ns := sig_runnable_latency_p50_ns s;
     sig_runnable_latency_p95_ns := sig_runnable_latency_p95_ns s;
     sig_runnable_latency_p99_ns := sig_runnable_latency_p99_ns s;
     sig_runnable_latency_p999_ns := sig_runnable_latency_p999_ns s;
     sig_runnable_latency_max_ns := sig_runnable_latency_max_ns s;
     sig_runnable_over_1ms := sig_runnable_over_1ms s;
     sig_runnable_over_2ms := sig_runnable_over_2ms s;
     sig_runnable_over_5ms := sig_runnable_over_5ms s;
     sig_runnable_samples := sig_runnable_samples s;
     sig_runnable_latency_source := sig_runnable_latency_source s;
     sig_runnable_latency_unavailable_reason := sig_runnable_latency_unavailable_reason s;
     sig_runnable_target_root_pid := sig_runnable_target_root_pid s;
     sig_runnable_target_starttime_ticks := sig_runnable_target_starttime_ticks s;
     sig_compile_activity_intervals := sig_compile_activity_intervals s;
     sig_compile_activity_samples := sig_compile_activity_samples s;
     sig_compile_activity_source := sig_compile_activity_source s;
     sig_compile_fixed_work := sig_compile_fixed_work s;
     sig_compile_fixed_work_unavailable_reason := sig_compile_fixed_work_unavailable_reason s;
     sig_signal_quality := set_render_node_quality (sig_signal_quality s) (source_quality (fg_source r)) |}.

(** The root, then the processes and the threads of the tasks, sorted, each once. *)
Definition focus_gpu_target_pids (root : option Z) (tasks : list TaskInfo) : list Z :=
  dedup_runs
    (merge_sort Z.le (option_list root ++ (ti_process_pid <$> tasks) ++ (ti_tid <$> tasks))).

Definition apply_focus_gpu_resolution (s : ObjectiveSignals) (fd_links : Z -> list string)
    (root : option Z) (tasks : list TaskInfo) (devices : list DrmDeviceInventory) : ObjectiveSignals :=
  let r := resolve_focus_gpu fd_links (focus_gpu_target_pids root tasks) devices
             (sig_gpu_active_render_node s) (sig_gpu_drm_card s) None None in
  match fg_source r with FsUnresolved => s | _ => set_focus_gpu s r end.

(** ** [observation_builder/workload.rs] and [tasks.rs] *)

(** A look at the system. *)
Record SystemView := {
  sv_now_unix_nanos : Z;
  sv_process_starttime : Z -> option Z;
  sv_exe_identity : Z -> option (Z * Z);
  sv_cgroup_file : Z -> option string;
  sv_fd_links : Z -> list string;
  sv_drm_devices : list DrmDeviceInventory;
  sv_inventory_hash : string;
  sv_config : CollectorInput;
  sv_offenders : list OffenderProcess }.

(** The longest path of the lines of the file, the last of the longest. *)
Definition read_proc_cgroup_path (v : SystemView) (pid : Z) : option string :=
  text ← sv_cgroup_file v pid;
  max_by (fun a b => Nat.compare (String.length a) (String.length b))
    (filter (fun path => path <> EmptyString) (omap (fun line => trim <$> after_last ":" line) (lines text))).

Definition active_task_snapshots_from_active_tasks (v : SystemView) (active_tasks : gmap Z TaskInfo)
    : list ActiveTaskSnapshot :=
  (fun task =>
     {| at_tid := ti_tid task; at_process_pid := ti_process_pid task; at_comm := Intervals.ti_comm task;
        at_class := Intervals.ti_class task;
        at_process_starttime_ticks := Intervals.ti_process_starttime_ticks task;
        at_task_starttime_ticks := Intervals.ti_task_starttime_ticks task;
        at_cgroup_path := read_proc_cgroup_path v (ti_tid task) |}) <$> btree_values active_tasks.

Fixpoint count_class (name : string) (l : list (string * Z)) : list (string * Z) :=
  match l with
  | [] => [(name, 1)]
  | (n, count) :: rest =>
      if String.eqb name n then (n, count + 1) :: rest
      else if decide (String.le name n) then (name, 1) :: (n, count) :: rest
      else (n, count) :: count_class name rest
  end.

Definition class_distribution_from_tasks (tasks : list TaskInfo) : list (string * Z) :=
  foldl (fun classes task => count_class (TaskClass_as_str (Intervals.ti_class task)) classes) [] tasks.

(** [daemon/state.rs]. *)
Definition daemon_profile_stable_hash (parts : list string) : string :=
  hex_digits 16 (foldl (fun hash part => hash_byte (hash_bytes hash part) 0xff) 0xcbf29ce484222325 parts).

Definition option_debug (o : option FocusGroupKind) : string :=
  match o with Some f => "Some(" +:+ FocusGroupKind_debug f +:+ ")" | None => "None" end.

Definition number_or_unknown (o : option Z) : string :=
  match o with Some n => decimal n | None => "unknown" end.

Definition workload_identity_from_runtime_context (v : SystemView) (root_pid : option Z)
    (focus_kind : option FocusGroupKind) (active_tasks : gmap Z TaskInfo) : option WorkloadIdentity :=
  root ← root_pid;
  let tasks := btree_values active_tasks in
  let root_task := List.find (fun t => (ti_process_pid t =? root) || (ti_tid t =? root)) tasks in
  let starttime := or_else_latest (root_task ≫= Intervals.ti_process_starttime_ticks) (sv_process_starttime v root) in
  let exe :=
    or_else_latest (t ← root_task; dev ← Intervals.ti_exe_dev t; ino ← Intervals.ti_exe_ino t; Some (dev, ino))
      (sv_exe_identity v root) in
  let cgroup_path := read_proc_cgroup_path v root in
  Some {| wi_root_pid := root; wi_process_starttime_ticks := starttime;
          wi_exe_dev := fst <$> exe; wi_exe_ino := snd <$> exe; wi_cgroup_path := cgroup_path;
          wi_focus_kind := focus_kind; wi_class_distribution := class_distribution_from_tasks tasks;
          wi_stable_hash :=
            daemon_profile_stable_hash
              [decimal root; number_or_unknown starttime; number_or_unknown (fst <$> exe);
               number_or_unknown (snd <$> exe); default EmptyString cgroup_path;
               option_debug focus_kind] |}.

(** ** [observation_builder/builder.rs] *)

Record AutotuneObservationFocus := {
  of_kind : FocusGroupKind;
  of_root_pids : list Z;
  of_member_pids : list Z;
  of_confidence : f32;
  of_situation : SituationKind;
  of_reasons : list string }.

Record AutotuneObservationBuilderInput := {
  bi_window : RollingWindow;
  bi_quality_policy : OnlineDataQualityPolicy;
  bi_focus : option AutotuneObservationFocus;
  bi_root_pid : option Z;
  bi_active_target_count : Z;
  bi_active_tasks : gmap Z TaskInfo;
  bi_recent_diagnoses : list LiveDiagnosisEntry;
  bi_drop_counter_total : Z;
  bi_activity_level : ActivityLevel;
  bi_extra_config_tids : list Z }.

Definition target_root_of (i : AutotuneObservationBuilderInput) : option Z :=
  or_else_latest (bi_root_pid i) (bi_focus i ≫= fun f => head (of_root_pids f)).

(** The processes of the target; the search ends ([runnable_target_processes_exact]). *)
Definition target_members_of (i : AutotuneObservationBuilderInput) : gset Z :=
  default ∅ (runnable_target_processes (target_root_of i) (is_some (bi_root_pid i))
               (of_member_pids <$> bi_focus i) (bi_active_tasks i)).

Definition identity_of (v : SystemView) (i : AutotuneObservationBuilderInput) : option WorkloadIdentity :=
  workload_identity_from_runtime_context v (target_root_of i) (of_kind <$> bi_focus i) (bi_active_tasks i).

Definition signals_of (v : SystemView) (i : AutotuneObservationBuilderInput) : ObjectiveSignals :=
  apply_focus_gpu_resolution
    (observed_signals (bi_window i)
       ((fun root => (root, btree_elements (target_members_of i))) <$> target_root_of i)
       (identity_of v i ≫= wi_process_starttime_ticks))
    (sv_fd_links v) (target_root_of i) (btree_values (bi_active_tasks i)) (sv_drm_devices v).

Definition health_of (i : AutotuneObservationBuilderInput) : SystemHealthSnapshot :=
  observed_health (bi_drop_counter_total i) (qp_max_drop_counter_total (bi_quality_policy i)).

(** A task outside the target whose configuration is read. *)
Definition extra_config_task (tid : Z) : ActiveTaskSnapshot :=
  {| at_tid := tid; at_process_pid := tid; at_comm := EmptyString; at_class := UnknownClass;
     at_process_starttime_ticks := None; at_task_starttime_ticks := None; at_cgroup_path := None |}.

Definition set_config_nice (s : ActiveConfigSnapshot) (nice : gmap Z Z) : ActiveConfigSnapshot :=
  {| acs_affinity := acs_affinity s; acs_nice := nice; acs_ionice := acs_ionice s;
     acs_uclamp := acs_uclamp s; acs_cgroup := acs_cgroup s; acs_irq := acs_irq s;
     acs_cpu_power := acs_cpu_power s; acs_gpu_power := acs_gpu_power s; acs_vm := acs_vm s |}.

(** What is live for the target's tasks and the extra ones, with the niceness sampled of the
    offenders. *)
Definition config_of (v : SystemView) (i : AutotuneObservationBuilderInput) : ActiveConfigSnapshot :=
  let config_tasks :=
    active_task_snapshots_from_active_tasks v (bi_active_tasks i)
    ++ (extra_config_task <$> bi_extra_config_tids i) in
  let s := collect_active_config (sv_config v) config_tasks in
  set_config_nice s (foldl (fun nice p => off_task_nice p ∪ nice) (acs_nice s) (sv_offenders v)).

(** The observation before its situation is classified. *)
Definition unclassified (v : SystemView) (i : AutotuneObservationBuilderInput) : AutotuneObservation :=
  let score := compute_rolling_window_score (bi_window i) (bi_quality_policy i) in
  {| ob_now_unix_nanos := sv_now_unix_nanos v;
     ob_elapsed_ms := default 0 (latest_elapsed_ms (bi_window i));
     ob_target_present := (0 <? bi_active_target_count i) || (0 <? ws_scored_samples score);
     ob_target_root_pid := target_root_of i;
     ob_active_target_count := bi_active_target_count i;
     ob_scored_task_count := ws_scored_task_count score;
     ob_interval_count := ws_interval_count score;
     ob_scored_samples := ws_scored_samples score;
     ob_score := stutter_score_from_runtime_window_score score;
     ob_data_quality := ws_data_quality score;
     ob_activity_level := bi_activity_level i;
     ob_objective_signals := signals_of v i;
     ob_primary_situation := default SkUnknown (of_situation <$> bi_focus i);
     ob_focus_kind := of_kind <$> bi_focus i;
     ob_focus_confidence := default f32_zero (of_confidence <$> bi_focus i);
     ob_focus_reasons := default [] (of_reasons <$> bi_focus i);
     ob_topology_signature := Some (sv_inventory_hash v);
     ob_workload_identity := identity_of v i;
     ob_active_tasks := active_task_snapshots_from_active_tasks v (bi_active_tasks i);
     ob_active_config_snapshot := Some (config_of v i);
     ob_frame_p99_ms := ws_frame_p99_ms score;
     ob_frame_max_ms := ws_frame_max_ms score |}.

Definition set_situation (o : AutotuneObservation) (s : SituationKind) : AutotuneObservation :=
  {| ob_now_unix_nanos := ob_now_unix_nanos o; ob_elapsed_ms := ob_elapsed_ms o;
     ob_target_present := ob_target_present o; ob_target_root_pid := ob_target_root_pid o;
     ob_active_target_count := ob_active_target_count o;
     ob_scored_task_count := ob_scored_task_count o; ob_interval_count := ob_interval_count o;
     ob_scored_samples := ob_scored_samples o; ob_score := ob_score o;
     ob_data_quality := ob_data_quality o; ob_activity_level := ob_activity_level o;
     ob_objective_signals := ob_objective_signals o; ob_primary_situation := s;
     ob_focus_kind := ob_focus_kind o; ob_focus_confidence := ob_focus_confidence o;
     ob_focus_reasons := ob_focus_reasons o; ob_topology_signature := ob_topology_signature o;
     ob_workload_identity := ob_workload_identity o;
     ob_active_tasks := ob_active_tasks o;
     ob_active_config_snapshot := ob_active_config_snapshot o; ob_frame_p99_ms := ob_frame_p99_ms o;
     ob_frame_max_ms := ob_frame_max_ms o |}.

Definition detail_of (i : AutotuneObservationBuilderInput) : ObservationDetail :=
  {| od_system_health := hs_snapshot_state (health_of i); od_recent_diagnoses := bi_recent_diagnoses i;
     od_frame_count := Z.of_nat (length (rw_frames (bi_window i))) |}.

(** [build], with [refresh_situation_classification]. *)
Definition build_observation (v : SystemView) (i : AutotuneObservationBuilderInput) : AutotuneObservation :=
  let o := unclassified v i in set_situation o (sc_primary (classify_situation o (detail_of i))).

(** ** The configuration *)

(** The snapshot of an observation is within its machine types. *)
Lemma observed_config_ok v i :
  Forall (fun p => map_Forall (fun _ => in_i32) (off_task_nice p)) (sv_offenders v) -> snapshot_ok (config_of v i).
Proof.
  intros Hoff. unfold config_of.
  destruct (collected_ok (sv_config v) (active_task_snapshots_from_active_tasks v (bi_active_tasks i)
    ++ (extra_config_task <$> bi_extra_config_tids i))) as [Hn Hu].
  split; [|exact Hu]. cbn [set_config_nice acs_nice]. revert Hn. generalize (acs_nice (collect_active_config
    (sv_config v) (active_task_snapshots_from_active_tasks v (bi_active_tasks i)
    ++ (extra_config_task <$> bi_extra_config_tids i)))).
  induction Hoff as [|p l Ht _ IH]; cbn [foldl]; [done|]. intros m Hm. apply IH.
  by apply map_Forall_union_2.
Qed.

(** ** Activity *)

(** The newest [limit] items of all that were pushed. *)
Definition newest {A} (limit : nat) (l : list A) : list A := drop (length l - limit) l.

Lemma newest_push {A} (limit : nat) (l : list A) x :
  (0 < limit)%nat -> bounded_push limit x (newest limit l) = newest limit (l ++ [x]).
Proof.
  intros Hl. unfold bounded_push, newest. rewrite !length_app, length_drop. cbn [length].
  destruct (decide (length l <= limit)%nat) as [Hs|Hs].
  - replace (length l - limit)%nat with 0%nat by lia. rewrite drop_0. by rewrite Nat.sub_0_r.
  - rewrite (drop_app_le (drop _ l)) by (rewrite length_drop; lia).
    rewrite (drop_app_le l) by lia. rewrite drop_drop. f_equal. f_equal. lia.
Qed.

(** The newest three, when at least three fit. *)
Lemma newest_three {A} (limit : nat) (l : list A) x y z :
  (3 <= limit)%nat -> exists older, rev (newest limit (l ++ [x; y; z])) = z :: y :: x :: older.
Proof.
  intros Hl. unfold newest. rewrite length_app. cbn [length].
  rewrite (drop_app_le l) by lia. rewrite rev_app_distr. cbn. by eexists.
Qed.

Definition activity_run (size : nat) (samples : list Z) : ActivityClassifier :=
  foldl push_activity (ActivityClassifier_new size) samples.

Lemma activity_window size samples :
  activity_run size samples
  = {| ac_window := newest (Nat.max size 1) samples; ac_window_size := Nat.max size 1 |}.
Proof.
  induction samples as [|x l IH] using rev_ind; [done|].
  unfold activity_run in *. rewrite foldl_snoc, IH. unfold push_activity. cbn [ac_window ac_window_size].
  by rewrite newest_push by lia.
Qed.

(** The activity is read from the last three intervals, whatever came before: idle when
    none had a sample, slowing down when each had fewer than the one before and the last
    less than half of the first, active otherwise and before three intervals. *)
Theorem activity_exact size older first middle last :
  (3 <= size)%nat -> Forall in_u64 [first; middle; last] ->
  let level := classify_activity (activity_run size (older ++ [first; middle; last])) in
  (level = AlIdle <-> first = 0 /\ middle = 0 /\ last = 0) /\
  (level = AlSlowingDown <-> last < middle /\ middle < first /\ 2 * last < first).
Proof.
  intros Hs Hu. cbv zeta. rewrite activity_window. unfold classify_activity. cbn [ac_window].
  destruct (newest_three (Nat.max size 1) older first middle last ltac:(lia)) as [rest ->].
  rewrite !Forall_cons in Hu. unfold in_u64, U64_MAX in *.
  destruct (Z.eqb_spec first 0), (Z.eqb_spec middle 0), (Z.eqb_spec last 0); cbn [andb];
    try (split; split; [done|lia|done|lia]);
    destruct (Z.ltb_spec middle first), (Z.ltb_spec last middle), (Z.ltb_spec 0 first),
      (Z.ltb_spec (Z.min (last * 2) (2 ^ 64 - 1)) first); cbn [andb];
    (split; split; [try done; lia|try done; lia|try done; lia|try done; lia]).
Qed.

(** ** The GPU of the workload *)

(** A resolution names a card of the inventory; one that is direct evidence was named by
    the processes or by a sample; two cards that nothing points at stay unresolved. *)
Theorem focus_gpu_exact fd_links pids devices node card :
  let r := resolve_focus_gpu fd_links pids devices node card None None in
  (fg_source r <> FsUnresolved ->
   exists d, d ∈ devices /\ fg_drm_card r = Some (drm_name d) /\ fg_render_node r = drm_render_node d) /\
  (forall d, focused_render_node_from_proc fd_links pids ≫= device_for_render_node devices = Some d ->
     fg_source r = FsTargetProcessFd /\ fg_drm_card r = Some (drm_name d)) /\
  (fg_source r = FsUnresolved <->
   focused_render_node_from_proc fd_links pids ≫= device_for_render_node devices = None /\
   node ≫= device_for_render_node devices = None /\ card ≫= device_for_drm_card devices = None /\
   length devices <> 1%nat).
Proof.
  cbv zeta. unfold resolve_focus_gpu. cbn [mbind option_bind].
  assert (Hfind : forall p d, List.find p devices = Some d -> d ∈ devices)
    by (intros p d H; apply find_some in H as [H _]; by apply list_elem_of_In).
  assert (Hnode : forall n d, n ≫= device_for_render_node devices = Some d -> d ∈ devices)
    by (intros [n|] d H; [by apply Hfind in H|done]).
  assert (Hcard : forall n d, n ≫= device_for_drm_card devices = Some d -> d ∈ devices)
    by (intros [n|] d H; [by apply Hfind in H|done]).
  destruct (focused_render_node_from_proc fd_links pids ≫= _) as [d|] eqn:E1.
  { cbn. split_and!; [|naive_solver|naive_solver]. intros _. exists d. eauto. }
  destruct (node ≫= _) as [d|] eqn:E2.
  { cbn. split_and!; [|naive_solver|naive_solver]. intros _. exists d. eauto. }
  destruct (card ≫= _) as [d|] eqn:E3.
  { cbn. split_and!; [|naive_solver|naive_solver]. intros _. exists d. eauto. }
  destruct devices as [|d [|d' l]]; cbn.
  - split; [done|]. split; [done|]. split; [by intros _|done].
  - split; [|split; [done|by split; [|intros (_ & _ & _ & [])]]].
    intros _. exists d. split_and!; [set_solver|done|done].
  - split; [done|]. split; [done|]. split; [by intros _|done].
Qed.

(** ** Health and situation of an observation *)

(** Only the drop counters degrade the health of an observation, so none is ever
    classified from an overheated system. *)
Lemma observed_state drops max_drops :
  hs_snapshot_state (observed_health drops max_drops)
  = if max_drops <? drops then InstrumentationBroken else Healthy.
Proof. unfold observed_health, evaluate_system_health, found_issues. cbn. by destruct (max_drops <? drops). Qed.

Theorem built_situation_supported v i :
  let o := build_observation v i in
  od_system_health (detail_of i) <> Overheated /\
  (supported_by (unclassified v i) (detail_of i) (ob_primary_situation o) \/
   ob_primary_situation o = SkIdle /\ ob_target_present o = false).
Proof.
  cbv zeta. assert (Hh : od_system_health (detail_of i) <> Overheated).
  { unfold detail_of, od_system_health, health_of. rewrite observed_state. by case_match. }
  split; [done|]. cbn [build_observation set_situation ob_primary_situation ob_target_present].
  destruct (situation_is_supported (unclassified v i) (detail_of i)) as (_ & Hs & _).
  destruct (Hs Hh) as (_ & [H|(H & Ht & _)]); [by left|right]. by split.
Qed.
