(* ===== verification/RuntimeEvents.v ===== *)
(** * RuntimeEvents: the events of the autotune runtime

    [autotune/runtime/tick.rs] ([on_event] and the observation a tick builds),
    [runtime/lifecycle.rs] (the clock gap of a suspended system) and
    [runtime/target_state.rs]: how each monitor event changes the measurement window, the
    focus, the target and the experiment under way.

    An event comes with what is read while it is handled: the clocks, a look at the
    system, what the planner says.  Whether the experiment under way is still live is
    computed from the observation. *)

From Stdlib Require Import String List.
From S2P Require Import Prelude Binary64 Abi Metrics Intervals Score PolicyModel PolicyEval ActionModel ActionRunner Journal Recovery Transaction Objective Controller AutonomousGate ContextKey CandidateMemory Decide Planner LiveExperiment FocusModel RollingWindow Runtime ProcessTree WindowSignals DaemonHealth Profiles ActiveConfig Situation Observation.
From stdpp Require Import gmap list strings sorting.
Open Scope Z_scope.

(** ** [session_events.rs] *)

Inductive MonitorEvent :=
| MeWorkloadProgress (record : WorkloadProgressRecord)
| MeTargetSnapshot (active_targets : gmap Z TaskInfo)
| MeInterval (records : list IntervalRecord) (drop_counters : DropCountersSnapshot)
| MeFrame (event : FrameEvent)
| MeGpuSample (sample : GpuSample)
| MeGpuEngineSample
| MeIrqEvent (event : IrqEventRecord)
| MeIoEvent (event : BlockIoRecord)
| MeCpuFreqSample (event : CpuFreqRecord)
| MeForegroundEvent (event : ForegroundEvent)
| MeLiveDiagnosis (entry : LiveDiagnosisEntry)
| MeFocusChanged (focus : AutotuneObservationFocus)
| MeFocusCleared (reason : string)
| MeDataQualityWarning (message : string)
| MeFinished (reason : string)
| MeAlert | MeMigrationEvent | MeSchedulerSample | MeSpike | MeScxEvent | MeKmsFlipEvent
| MeDrmFenceEvent | MeWaylandPresentationEvent | MeDmaBufEvent | MeExec.

(** ** [target_state.rs] *)

Record RuntimeTargetState := {
  ts_root_pid : option Z;
  ts_active_targets : Z;
  ts_target_comm : option string;
  ts_active_tasks : gmap Z TaskInfo }.

Definition RuntimeTargetState_new (root_pid : option Z) : RuntimeTargetState :=
  {| ts_root_pid := root_pid; ts_active_targets := 0; ts_target_comm := None; ts_active_tasks := ∅ |}.

Definition set_root_pid (t : RuntimeTargetState) (root_pid : option Z) : RuntimeTargetState :=
  {| ts_root_pid := root_pid; ts_active_targets := ts_active_targets t;
     ts_target_comm := ts_target_comm t; ts_active_tasks := ts_active_tasks t |}.

Definition DEFAULT_RECENT_DIAGNOSIS_LIMIT : nat := 16.

Definition DropCountersSnapshot_default : DropCountersSnapshot :=
  {| dc_wakeup_data_insert_failed := 0; dc_wakeup_data_stale_entries := 0;
     dc_wakeup_data_replaced_entries := 0; dc_wakeup_data_consumed_read_failed := 0;
     dc_ringbuf_reserve_failed := 0; dc_irq_start_times_insert_failed := 0;
     dc_block_start_insert_failed := 0; dc_block_fallback_key_collisions := 0;
     dc_cpu_accounting_untracked := 0; dc_block_zero_keys := 0; dc_drm_fence_missing_start := 0 |}.

(** What is read while an event is handled. *)
Record EventInput := {
  ei_view : SystemView;
  (** the clocks; [None] when the wall clock is before the epoch *)
  ei_clock : option LifecycleClockSample;
  (** whether the process of [tree_pid] is running, when one is configured *)
  ei_target_running : bool;
  ei_candidate : option CandidateAction;
  ei_plan_active_drift : bool;
  ei_plan_kept_drift : bool;
  ei_plan_files : option bool;
  (** the text of the decision, when the event gives no reason of its own *)
  ei_decision_reason : string }.

Section events.
Context {S : Type} {FS : FileSystem S}.
Context {Config : Type} (active_config : AutotuneObservation -> option Config)
  (verify_rollback_restored_baseline :
     CandidateAction -> Config -> Config -> AutotuneObservation -> RollbackVerification)
  (process_starttime_at : Host S -> Z -> option Z).
Context {executor : LiveExecutor S Config} (config : RuntimeConfig).
Context (tree_pid : option Z) (quality_policy : OnlineDataQualityPolicy).

Record EventRuntime := {
  er_runtime : AutotuneRuntime Config;
  er_focus : option AutotuneObservationFocus;
  er_target : RuntimeTargetState;
  er_drop_counters : DropCountersSnapshot;
  er_diagnoses : list LiveDiagnosisEntry;
  er_activity : ActivityClassifier;
  er_last_observation : AutotuneObservation;
  er_detector : SuspendResumeDetector;
  er_last_transition : option DaemonLifecycleTransition }.

Definition Evented := HM S ((unit + TickError) * EventRuntime).

Definition with_runtime (r : EventRuntime) (rt : AutotuneRuntime Config) : EventRuntime :=
  {| er_runtime := rt; er_focus := er_focus r; er_target := er_target r;
     er_drop_counters := er_drop_counters r; er_diagnoses := er_diagnoses r;
     er_activity := er_activity r; er_last_observation := er_last_observation r;
     er_detector := er_detector r; er_last_transition := er_last_transition r |}.

Definition with_target (r : EventRuntime) (focus : option AutotuneObservationFocus)
    (target : RuntimeTargetState) : EventRuntime :=
  {| er_runtime := er_runtime r; er_focus := focus; er_target := target;
     er_drop_counters := er_drop_counters r; er_diagnoses := er_diagnoses r;
     er_activity := er_activity r; er_last_observation := er_last_observation r;
     er_detector := er_detector r; er_last_transition := er_last_transition r |}.

Definition with_intervals_seen (r : EventRuntime) (activity : ActivityClassifier) (drops : DropCountersSnapshot)
    : EventRuntime :=
  {| er_runtime := er_runtime r; er_focus := er_focus r; er_target := er_target r;
     er_drop_counters := drops; er_diagnoses := er_diagnoses r; er_activity := activity;
     er_last_observation := er_last_observation r; er_detector := er_detector r;
     er_last_transition := er_last_transition r |}.

Definition with_diagnoses (r : EventRuntime) (d : list LiveDiagnosisEntry) : EventRuntime :=
  {| er_runtime := er_runtime r; er_focus := er_focus r; er_target := er_target r;
     er_drop_counters := er_drop_counters r; er_diagnoses := d; er_activity := er_activity r;
     er_last_observation := er_last_observation r; er_detector := er_detector r;
     er_last_transition := er_last_transition r |}.

Definition with_observation (r : EventRuntime) (o : AutotuneObservation) : EventRuntime :=
  {| er_runtime := er_runtime r; er_focus := er_focus r; er_target := er_target r;
     er_drop_counters := er_drop_counters r; er_diagnoses := er_diagnoses r;
     er_activity := er_activity r; er_last_observation := o; er_detector := er_detector r;
     er_last_transition := er_last_transition r |}.

Definition with_lifecycle (r : EventRuntime) (d : SuspendResumeDetector)
    (t : option DaemonLifecycleTransition) : EventRuntime :=
  {| er_runtime := er_runtime r; er_focus := er_focus r; er_target := er_target r;
     er_drop_counters := er_drop_counters r; er_diagnoses := er_diagnoses r;
     er_activity := er_activity r; er_last_observation := er_last_observation r;
     er_detector := d; er_last_transition := t |}.

(** [self.controller.window.op(..)]. *)
Definition on_window (r : EventRuntime) (op : WindowOp) : EventRuntime :=
  with_runtime r (with_window (er_runtime r) (window_step (rt_window (er_runtime r)) op)).

(** A step on the runtime inside, then the rest: the [?] operator. *)
Definition then_event (m : HM S ((unit + TickError) * AutotuneRuntime Config)) (r : EventRuntime)
    (k : EventRuntime -> Evented) : Evented :=
  let* x := m in
  match x.1 with
  | inr e => hret (inr e, with_runtime r x.2)
  | inl _ => k (with_runtime r x.2)
  end.

(** ** The observation of a tick *)

Definition explicit_target_focus (r : EventRuntime) : option AutotuneObservationFocus :=
  root ← tree_pid;
  let tasks := btree_values (ts_active_tasks (er_target r)) in
  match er_focus r with
  | Some _ => None
  | None =>
      if existsb (fun t => class_contributes_to_score (Intervals.ti_class t)) tasks then
        Some {| of_kind := FgGame; of_root_pids := [root];
                of_member_pids := dedup_runs (merge_sort Z.le (ti_process_pid <$> tasks));
                of_confidence := f32_one; of_situation := GameFocused;
                of_reasons := ["explicit target (--tree-pid) is a game"%string] |}
      else None
  end.

(** The tasks a nice experiment under way changed. *)
Definition extra_config_tids (r : EventRuntime) : list Z :=
  match le_rollback <$> lv_current (rt_live (er_runtime r)) with
  | Some (NiceRestore records) => Nice.record_tid <$> records
  | _ => []
  end.

Definition builder_input (r : EventRuntime) : AutotuneObservationBuilderInput :=
  {| bi_window := rt_window (er_runtime r);
     bi_quality_policy := quality_policy;
     bi_focus := or_else_latest (er_focus r) (explicit_target_focus r);
     bi_root_pid :=
       or_else_latest tree_pid
         match er_focus r with None => ts_root_pid (er_target r) | Some _ => None end;
     bi_active_target_count := ts_active_targets (er_target r);
     bi_active_tasks := ts_active_tasks (er_target r);
     bi_recent_diagnoses := er_diagnoses r;
     bi_drop_counter_total := DropCountersSnapshot_total (er_drop_counters r);
     bi_activity_level := classify_activity (er_activity r);
     bi_extra_config_tids := extra_config_tids r |}.

(** Whether the experiment under way is still what is live. *)
Definition observed_match (r : EventRuntime) (o : AutotuneObservation) : option ActiveConfigMatch :=
  snapshot ← ob_active_config_snapshot o;
  e ← lv_current (rt_live (er_runtime r));
  Some (matches_active_config snapshot (ob_active_tasks o) (le_candidate e)).

(** [evaluate_and_emit]: the observation is built once the phase allows the evaluation. *)
Definition evaluate_event (r : EventRuntime) (i : EventInput) (forced_reason : option string) : Evented :=
  let o := build_observation (ei_view i) (builder_input r) in
  let r :=
    if allows_transition_to (rt_phase (er_runtime r)) (phase_for_evaluation (er_runtime r))
    then with_observation r o else r in
  then_event
    (evaluate_and_emit active_config verify_rollback_restored_baseline process_starttime_at config
       (er_runtime r)
       {| ti_observation := o; ti_candidate := ei_candidate i; ti_active_match := observed_match r o;
          ti_plan_active_drift := ei_plan_active_drift i; ti_plan_kept_drift := ei_plan_kept_drift i;
          ti_plan_files := ei_plan_files i |}
       (default (ei_decision_reason i) forced_reason))
    r (fun r => hret (inl tt, r)).

(** [rollback_live_experiment]: without a configured process the target counts as seen. *)
Definition rollback_event (r : EventRuntime) (i : EventInput) (n : Z) (reason : string)
    (k : EventRuntime -> Evented) : Evented :=
  then_event
    (rollback_live_experiment active_config verify_rollback_restored_baseline process_starttime_at config
       (er_runtime r) (er_last_observation r) n
       (match tree_pid with Some _ => ei_target_running i | None => true end) reason)
    r k.

(** ** [lifecycle.rs] *)

Definition handle_lifecycle_event (r : EventRuntime) (i : EventInput) (event : DaemonLifecycleEvent)
    (k : EventRuntime -> Evented) : Evented :=
  let active := has_active_experiment (rt_live (er_runtime r)) in
  let t := evaluate_daemon_lifecycle_event
             {| li_has_active_experiment := active; li_active_experiment_has_rollback := active;
                li_event := event |} DaemonLifecyclePolicy_default in
  let* n := now in
  let r := if bool_decide (LaClearMeasurementWindows ∈ lt_actions t) then on_window r ClearWindow else r in
  let r := with_lifecycle r (er_detector r) (Some t) in
  let stabilize r :=
    k match lt_stabilization_ms t with
      | None => r
      | Some ms =>
          let until := Intervals.saturating_add_u128 n (ms * 1000000) in
          let st := rt_live (er_runtime r) in
          let c := lv_controller st in
          with_runtime r
            (with_live (er_runtime r)
               (set_controller st
                  (set_cooldown c
                     (Some match cs_cooldown_until_unix_nanos c with
                           | Some existing => Z.max existing until
                           | None => until
                           end))))
      end in
  if bool_decide (LaRollbackActiveExperiment ∈ lt_actions t) then
    then_event
      (after_transition (er_runtime r) (phase_for_evaluation (er_runtime r)) (fun rt => hret (inl tt, rt)))
      r (fun r => rollback_event r i n "system suspend/resume during active experiment" stabilize)
  else stabilize r.

(** A gap only reveals the resume: the suspend was missed, so its policy comes first. *)
Definition poll_lifecycle_clock (r : EventRuntime) (i : EventInput) (k : EventRuntime -> Evented) : Evented :=
  match ei_clock i with
  | None => hret (inr TeClock, r)
  | Some sample =>
      let '(d, event) := detector_observe (er_detector r) sample in
      let r := with_lifecycle r d (er_last_transition r) in
      match event with
      | None => k r
      | Some (ResumeDetected slept_ms as event) =>
          handle_lifecycle_event r i SuspendDetected (fun r => handle_lifecycle_event r i event k)
      | Some event => handle_lifecycle_event r i event k
      end
  end.

(** ** [on_event] *)

Definition update_target_snapshot (r : EventRuntime) (active_targets : gmap Z TaskInfo) : EventRuntime :=
  let root :=
    or_else_latest (ts_root_pid (er_target r))
      (or_else_latest (er_focus r ≫= fun f => head (of_root_pids f)) tree_pid) in
  let first_comm := Intervals.ti_comm <$> head (btree_values active_targets) in
  with_target r (er_focus r)
    {| ts_root_pid := root; ts_active_targets := Z.of_nat (size active_targets);
       ts_target_comm :=
         match root with
         | Some root => or_else_latest (Intervals.ti_comm <$> active_targets !! root) first_comm
         | None => first_comm
         end;
       ts_active_tasks := active_targets |}.

Definition push_recent_diagnosis (r : EventRuntime) (d : LiveDiagnosisEntry) : EventRuntime :=
  let r := on_window r (PushDiagnosis d) in
  with_diagnoses r (bounded_push DEFAULT_RECENT_DIAGNOSIS_LIMIT d (er_diagnoses r)).

(** The window is cleared, then the experiment under way is rolled back. *)
Definition reset_for_focus (r : EventRuntime) (i : EventInput) (reason : string)
    (k : EventRuntime -> Evented) : Evented :=
  let r := on_window r ClearWindow in
  if has_active_experiment (rt_live (er_runtime r))
  then let* n := now in rollback_event r i n reason k
  else k r.

Definition on_event (r : EventRuntime) (event : MonitorEvent) (i : EventInput) : Evented :=
  let done r := hret (inl tt, r) in
  match event with
  | MeWorkloadProgress record => done (on_window r (PushWorkloadProgress record))
  | MeTargetSnapshot active_targets => done (update_target_snapshot r active_targets)
  | MeInterval records drop_counters =>
      poll_lifecycle_clock r i (fun r =>
        let scored_samples := foldl saturating_add_u64 0 (ir_samples <$> records) in
        let r := with_intervals_seen r (push_activity (er_activity r) scored_samples) drop_counters in
        evaluate_event (on_window r (PushIntervals records)) i None)
  | MeFrame event => done (on_window r (PushFrame event))
  | MeIrqEvent event => done (on_window r (PushIrqEvent event))
  | MeIoEvent event => done (on_window r (PushBlockIoEvent event))
  | MeGpuSample sample => done (on_window r (PushGpuSample sample))
  | MeGpuEngineSample => done r
  | MeCpuFreqSample event => done (on_window r (PushCpuFreqEvent event))
  | MeForegroundEvent event => done (on_window r (PushForegroundEvent event))
  | MeLiveDiagnosis entry => done (push_recent_diagnosis r entry)
  | MeFocusChanged focus =>
      reset_for_focus r i "focus changed during active experiment" (fun r =>
        evaluate_event
          (with_target r (Some focus)
             (set_root_pid (er_target r) (or_else_latest tree_pid (head (of_root_pids focus)))))
          i (Some "focus changed; measurement window reset"%string))
  | MeFocusCleared reason =>
      reset_for_focus r i "focus cleared during active experiment" (fun r =>
        evaluate_event (with_target r None (set_root_pid (er_target r) tree_pid)) i (Some reason))
  | MeDataQualityWarning message => evaluate_event r i (Some message)
  | MeFinished reason => evaluate_event r i (Some reason)
  | MeAlert | MeMigrationEvent | MeSchedulerSample | MeSpike | MeScxEvent | MeKmsFlipEvent
  | MeDrmFenceEvent | MeWaylandPresentationEvent | MeDmaBufEvent | MeExec => done r
  end.

(** ** [session.rs]: the events of a session, then the stop *)

(** The events in turn; an error ends the session. *)
Fixpoint session_events (r : EventRuntime) (events : list (MonitorEvent * EventInput)) : Evented :=
  match events with
  | [] => hret (inl tt, r)
  | (event, i) :: rest =>
      let* x := on_event r event i in
      match x.1 with
      | inr e => hret (inr e, x.2)
      | inl _ => session_events x.2 rest
      end
  end.

(** How a session fails: in an event; in the monitor, after a rollback that may have failed
    too; in the rollback of the stop. *)
Inductive SessionError :=
| SeEvent (e : TickError)
| SeMonitor (err : string) (rollback_err : option TickError)
| SeStop (e : TickError).

(** What is applied is rolled back, whether the monitor ended or failed. *)
Definition finish_autotune_controller_session (r : EventRuntime) (target_running : bool)
    (monitor_result : string + string) : HM S ((unit + SessionError) * EventRuntime) :=
  let stop reason :=
    rollback_on_stop active_config verify_rollback_restored_baseline process_starttime_at config
      (er_runtime r) (er_last_observation r)
      (match tree_pid with Some _ => target_running | None => true end) reason in
  match monitor_result with
  | inr err =>
      let* y := stop "autotune controller session failed before clean shutdown"%string in
      hret (inr (SeMonitor err match y.1 with inl _ => None | inr e => Some e end), with_runtime r y.2)
  | inl reason =>
      let* y := stop ("autotune controller session stopped: " +:+ reason)%string in
      hret (match y.1 with inl _ => inl tt | inr e => inr (SeStop e) end, with_runtime r y.2)
  end.

(** [run_autotune_controller_session], without the privileged worker: the events the monitor
    sends, then its result; an error of an event leaves the loop at once. *)
Definition run_session (r : EventRuntime) (events : list (MonitorEvent * EventInput))
    (target_running : bool) (monitor_result : string + string) : HM S ((unit + SessionError) * EventRuntime) :=
  let* x := session_events r events in
  match x.1 with
  | inr e => hret (inr (SeEvent e), x.2)
  | inl _ => finish_autotune_controller_session x.2 target_running monitor_result
  end.

(** [AutotuneRuntime::new], around a runtime without an experiment; [o] is the default
    observation. *)
Definition EventRuntime_new (rt : AutotuneRuntime Config) (o : AutotuneObservation) : EventRuntime :=
  {| er_runtime := rt; er_focus := None; er_target := RuntimeTargetState_new tree_pid;
     er_drop_counters := DropCountersSnapshot_default; er_diagnoses := [];
     er_activity := ActivityClassifier_new 5;
     er_last_observation := o;
     er_detector := detector_with_policy DaemonLifecyclePolicy_default; er_last_transition := None |}.

(** ** Phases *)

Context (Happly : supports_apply (cp_mode (li_controller_policy (rc_input config))) = true)
  (Hmode : li_mode (rc_input config) = ApplyLowRisk \/ li_mode (rc_input config) = ApplyMediumRisk).

#[local] Abbreviation any := (fun _ => True).

(** Between two events the runtime is at rest, or faulted for good. *)
Definition restful (rt : AutotuneRuntime Config) : Prop := at_rest rt \/ rt_phase rt = RpFaulted.

(** Only a faulted runtime is refused a transition. *)
Definition refused_if_faulted (x : (unit + TickError) * AutotuneRuntime Config) : Prop :=
  match x.1 with
  | inl _ => restful x.2
  | inr (TeTransition from _) => from = RpFaulted
  | inr _ => True
  end.

Lemma accepted_refused x : accepted x -> refused_if_faulted x.
Proof. unfold accepted, refused_if_faulted, restful. by destruct x.1 as [[]|[]]. Qed.

Lemma hspec_any_bind {A B} (m : HM S A) (k : A -> HM S B) (R : A -> Prop) (Q : B -> Prop) :
  hspec any m (fun x _ => R x) -> (forall x, R x -> hspec any (k x) (fun y _ => Q y)) ->
  hspec any (hbind m k) (fun y _ => Q y).
Proof.
  intros Hm Hk. eapply hspec_bind; [exact Hm|]. intros x h Hx. by apply Hk.
Qed.

Lemma then_event_spec (m : HM S ((unit + TickError) * AutotuneRuntime Config)) r k
    (R : (unit + TickError) * AutotuneRuntime Config -> Prop) (Q : (unit + TickError) * EventRuntime -> Prop) :
  hspec any m (fun x _ => R x) ->
  (forall rt, R (inl tt, rt) -> hspec any (k (with_runtime r rt)) (fun y _ => Q y)) ->
  (forall e rt, R (inr e, rt) -> Q (inr e, with_runtime r rt)) ->
  hspec any (then_event m r k) (fun y _ => Q y).
Proof.
  intros Hm Hk He. eapply hspec_any_bind; [exact Hm|].
  intros [[[]|e] rt] HR; cbn; [by apply Hk|]. apply hspec_ret. intros h _. by apply He.
Qed.

(** A refused transition of a faulted runtime. *)
Lemma faulted_transition {A} (rt : AutotuneRuntime Config) next
    (k : AutotuneRuntime Config -> HM S ((A + TickError) * AutotuneRuntime Config)) :
  rt_phase rt = RpFaulted -> next <> RpFaulted ->
  after_transition rt next k = hret (inr (TeTransition RpFaulted next), fault_runtime_phase rt).
Proof.
  intros Hf Hn. unfold after_transition, transition_runtime_phase. rewrite Hf. by destruct next.
Qed.

Lemma phase_for_evaluation_not_faulted (rt : AutotuneRuntime Config) : phase_for_evaluation rt <> RpFaulted.
Proof. unfold phase_for_evaluation. by case_match. Qed.

(** ** One event *)

(** What an event that was handled does to the window, given what it pushes. *)
Definition window_next (w w' : RollingWindow) (ops : list WindowOp) : Prop :=
  w' = foldl window_step w ops \/ w' = window_clear w \/ w' = foldl window_step (window_clear w) ops.

(** The window was emptied on the way. *)
Definition window_reset (w w' : RollingWindow) (ops : list WindowOp) : Prop :=
  w' = window_clear w \/ w' = foldl window_step (window_clear w) ops.

Lemma window_reset_next w w' ops : window_reset w w' ops -> window_next w w' ops.
Proof. intros [?|?]; [right; by left|right; by right]. Qed.

Lemma step_duration w op : rw_duration_nanos (window_step w op) = rw_duration_nanos w.
Proof.
  destruct op; cbn; try done.
  all: try (unfold push_workload_progress, push_interval, push_intervals, push_frame, push_irq_event,
    push_block_io_event, push_gpu_sample, push_cpu_freq_event, push_foreground_event, push_diagnosis,
    retain_latest_window; repeat case_match; done).
Qed.

Lemma clear_steps w ops : window_clear (foldl window_step w ops) = window_clear w.
Proof.
  revert w. induction ops as [|op ops IH]; intros w; [done|]. cbn. rewrite IH. unfold window_clear.
  by rewrite step_duration.
Qed.

Lemma clear_clear w : window_clear (window_clear w) = window_clear w.
Proof. done. Qed.

(** An evaluation of a runtime between two events. *)
Lemma evaluate_event_spec r i reason :
  restful (er_runtime r) ->
  hspec any (evaluate_event r i reason)
    (fun x _ => refused_if_faulted (x.1, er_runtime x.2) /\
       (x.1 = inl tt -> window_moved (er_runtime r) (x.1, er_runtime x.2))).
Proof.
  intros Hr. unfold evaluate_event. cbv zeta.
  set (r1 := if allows_transition_to _ _ then _ else r).
  assert (Hr1 : er_runtime r1 = er_runtime r) by (subst r1; by destruct (allows_transition_to _ _)).
  rewrite Hr1. clearbody r1. set (t := Build_TickInput _ _ _ _ _ _). set (reason' := default _ reason).
  apply (then_event_spec _ _ _ (fun x => refused_if_faulted x /\
    (x.1 = inl tt -> window_moved (er_runtime r) x))).
  - destruct Hr as [Hr|Hf].
    + intros h Hh. split; [by apply accepted_refused, (evaluate_accepted _ _ _ _ _ _ _ Hr Happly Hmode)|].
      intros _. by apply (evaluate_window _ _ _ _ _ _ _ Hr Happly Hmode).
    + unfold evaluate_and_emit. rewrite faulted_transition by (done || apply phase_for_evaluation_not_faulted).
      by apply hspec_ret.
  - intros rt HR. by apply hspec_ret.
  - intros e rt [HR _]. by split.
Qed.

(** A rollback inside an event: afterwards no experiment is under way, or the runtime is
    faulted. *)
Lemma rollback_event_spec r i n reason k (Q : (unit + TickError) * EventRuntime -> Prop) :
  at_rest (er_runtime r) ->
  (forall rt, rt_window rt = rt_window (er_runtime r) ->
     (rt_phase rt = RpFaulted \/ at_rest rt /\ lv_current (rt_live rt) = None) ->
     hspec any (k (with_runtime r rt)) (fun y _ => Q y)) ->
  (forall e rt, match e with TeTransition from _ => from = RpFaulted | _ => True end ->
     Q (inr e, with_runtime r rt)) ->
  hspec any (rollback_event r i n reason k) (fun y _ => Q y).
Proof.
  intros Hr Hk He. unfold rollback_event.
  eapply (then_event_spec _ _ _ (fun x => accepted x /\ rt_window x.2 = rt_window (er_runtime r) /\
    (x.1 = inl tt -> rt_phase x.2 = RpFaulted \/ at_rest x.2 /\ lv_current (rt_live x.2) = None))).
  - by apply rollback_reverts.
  - intros rt (_ & Hw & Hx). apply Hk; [done|]. by apply Hx.
  - intros e rt (Ha & _). apply He. by destruct e.
Qed.

(** The state between the steps of an event: no experiment is under way, or the runtime
    is faulted. *)
Definition released (rt : AutotuneRuntime Config) : Prop :=
  rt_phase rt = RpFaulted \/ at_rest rt /\ lv_current (rt_live rt) = None.

Lemma released_restful rt : released rt -> restful rt.
Proof. intros [H|[H _]]; [by right|by left]. Qed.

Lemma inactive_current (st : LiveState Config) : has_active_experiment st = false -> lv_current st = None.
Proof. unfold has_active_experiment. by destruct (lv_current st). Qed.

(** What a step may leave when it fails. *)
Definition benign (e : TickError) : Prop := match e with TeTransition from _ => from = RpFaulted | _ => True end.

(** The missed suspend: the experiment under way is rolled back, the window stays. *)
Lemma suspend_spec r i k (Q : (unit + TickError) * EventRuntime -> Prop) :
  restful (er_runtime r) ->
  (forall r', released (er_runtime r') -> rt_window (er_runtime r') = rt_window (er_runtime r) ->
     hspec any (k r') (fun y _ => Q y)) ->
  (forall e r', benign e -> Q (inr e, r')) ->
  hspec any (handle_lifecycle_event r i SuspendDetected k) (fun y _ => Q y).
Proof.
  intros Hr Hk He. unfold handle_lifecycle_event. apply skip. intros n.
  destruct (has_active_experiment (rt_live (er_runtime r))) eqn:Hact.
  - change (hspec any
      (then_event
         (after_transition (er_runtime r) (phase_for_evaluation (er_runtime r)) (fun rt => hret (inl tt, rt)))
         (with_lifecycle r (er_detector r) (Some (evaluate_daemon_lifecycle_event
            {| li_has_active_experiment := true; li_active_experiment_has_rollback := true;
               li_event := SuspendDetected |} DaemonLifecyclePolicy_default)))
         (fun r0 => rollback_event r0 i n "system suspend/resume during active experiment" k))
      (fun y _ => Q y)).
    apply (then_event_spec _ _ _ (fun x => match x.1 with
      | inl _ => at_rest x.2 /\ rt_window x.2 = rt_window (er_runtime r)
      | inr e => benign e end)).
    + destruct Hr as [Hr|Hf].
      2: { rewrite faulted_transition by (done || apply phase_for_evaluation_not_faulted).
           by apply hspec_ret. }
      pose proof Hr as [Hc Hp]. rewrite Hact in Hp.
      assert (Hm : rt_phase (er_runtime r) = RpMeasuringCandidate) by (by destruct (rt_phase (er_runtime r))).
      unfold phase_for_evaluation. rewrite Hact. apply after_transition_allowed; [by rewrite Hm|].
      apply hspec_ret. intros h _. split; [|done]. split; [done|]. by cbn.
    + intros rt [Hrt Hw]. apply rollback_event_spec; [done| |].
      * intros rt' Hw' Hrel. apply Hk; [exact Hrel|]. by rewrite <- Hw.
      * intros e rt' Hb. by apply He.
    + intros e rt Hb. by apply He.
  - change (hspec any (k (with_lifecycle r (er_detector r) (Some (evaluate_daemon_lifecycle_event
            {| li_has_active_experiment := false; li_active_experiment_has_rollback := false;
               li_event := SuspendDetected |} DaemonLifecyclePolicy_default)))) (fun y _ => Q y)).
    apply Hk; [|done]. destruct Hr as [Hr|Hf]; [right|by left]. split; [done|]. by apply inactive_current.
Qed.

(** The resume: the window is cleared and experiments wait. *)
Lemma resume_spec r i slept_ms k (Q : (unit + TickError) * EventRuntime -> Prop) :
  released (er_runtime r) ->
  (forall r', released (er_runtime r') -> rt_window (er_runtime r') = window_clear (rt_window (er_runtime r)) ->
     (exists until, cs_cooldown_until_unix_nanos (lv_controller (rt_live (er_runtime r'))) = Some until) ->
     hspec any (k r') (fun y _ => Q y)) ->
  hspec any (handle_lifecycle_event r i (ResumeDetected slept_ms) k) (fun y _ => Q y).
Proof.
  intros Hr Hk. unfold handle_lifecycle_event. apply skip. intros n.
  set (t := evaluate_daemon_lifecycle_event _ _).
  change (lt_actions t) with [LaRefreshTopology; LaRefreshTargetIdentity; LaRefreshEbpfMaps;
    LaClearMeasurementWindows; LaWaitStabilization].
  change (lt_stabilization_ms t) with (Some 10000).
  compute_members. cbv zeta.
  apply Hk; [|done|by eexists].
  destruct Hr as [Hf|[[[Ha Hp] Hph] Hn]]; [by left|right]. split; [|done]. split; [by split|]. done.
Qed.

(** Whether the clocks show a gap at this event. *)
Definition gap_seen r (i : EventInput) : bool :=
  match ei_clock i, sd_previous (er_detector r) with
  | Some sample, Some previous => sd_gap_threshold_ms (er_detector r) <=? clock_gap previous sample
  | _, _ => false
  end.

Lemma poll_spec r i k (Q : (unit + TickError) * EventRuntime -> Prop) :
  restful (er_runtime r) ->
  (forall r', gap_seen r i = false -> er_runtime r' = er_runtime r -> hspec any (k r') (fun y _ => Q y)) ->
  (forall r', gap_seen r i = true -> released (er_runtime r') ->
     rt_window (er_runtime r') = window_clear (rt_window (er_runtime r)) ->
     hspec any (k r') (fun y _ => Q y)) ->
  (forall e r', benign e -> Q (inr e, r')) ->
  hspec any (poll_lifecycle_clock r i k) (fun y _ => Q y).
Proof.
  intros Hr Hno Hgap He. unfold poll_lifecycle_clock, gap_seen in *.
  destruct (ei_clock i) as [sample|]; [|apply hspec_ret; intros h _; by apply He].
  unfold detector_observe. destruct (sd_previous (er_detector r)) as [previous|]; [|by apply Hno].
  destruct (sd_gap_threshold_ms (er_detector r) <=? clock_gap previous sample); [|by apply Hno].
  apply suspend_spec; [done| |done]. intros r1 Hr1 Hw1.
  apply resume_spec; [done|]. intros r2 Hr2 Hw2 _. apply Hgap; [done|done|]. by rewrite Hw2, Hw1.
Qed.

Lemma reset_spec r i reason k (Q : (unit + TickError) * EventRuntime -> Prop) :
  restful (er_runtime r) ->
  (forall r', released (er_runtime r') -> rt_window (er_runtime r') = window_clear (rt_window (er_runtime r)) ->
     hspec any (k r') (fun y _ => Q y)) ->
  (forall e r', benign e -> Q (inr e, r')) ->
  hspec any (reset_for_focus r i reason k) (fun y _ => Q y).
Proof.
  intros Hr Hk He. unfold reset_for_focus. cbv zeta.
  change (rt_live (er_runtime (on_window r ClearWindow))) with (rt_live (er_runtime r)).
  destruct (has_active_experiment (rt_live (er_runtime r))) eqn:Hact.
  - apply skip. intros n. destruct Hr as [Hr|Hf].
    + apply rollback_event_spec.
      * destruct Hr as [Hc Hp]. by split.
      * intros rt Hw Hrel. by apply Hk.
      * intros e rt Hb. by apply He.
    + unfold rollback_event. unfold has_active_experiment in Hact.
      apply (then_event_spec _ _ _ (fun x => match x.1 with inl _ => False | inr e => benign e end));
        [|done|intros e rt Hb; by apply He].
      unfold rollback_live_experiment. cbn [er_runtime on_window with_runtime rt_live with_window].
      destruct (lv_current (rt_live (er_runtime r))) as [e|]; [|done]. cbv zeta.
      unfold apply_decision_side_effects. rewrite andb_false_r. cbn [transition_for_decision].
      rewrite faulted_transition by done. by apply hspec_ret.
  - apply Hk; [|done]. destruct Hr as [[Hc Hp]|Hf]; [right|by left].
    split; [by split|]. by apply inactive_current.
Qed.

(** What each event pushes into the window. *)
Definition event_ops (e : MonitorEvent) : list WindowOp :=
  match e with
  | MeWorkloadProgress record => [PushWorkloadProgress record]
  | MeInterval records _ => [PushIntervals records]
  | MeFrame event => [PushFrame event]
  | MeIrqEvent event => [PushIrqEvent event]
  | MeIoEvent event => [PushBlockIoEvent event]
  | MeGpuSample sample => [PushGpuSample sample]
  | MeCpuFreqSample event => [PushCpuFreqEvent event]
  | MeForegroundEvent event => [PushForegroundEvent event]
  | MeLiveDiagnosis entry => [PushDiagnosis entry]
  | _ => []
  end.

(** The events after which nothing measured before may be compared. *)
Definition discontinuity r (e : MonitorEvent) (i : EventInput) : bool :=
  match e with
  | MeFocusChanged _ | MeFocusCleared _ => true
  | MeInterval _ _ => gap_seen r i
  | _ => false
  end.

(** A handled event. *)
Record handled r (e : MonitorEvent) (i : EventInput) (r' : EventRuntime) : Prop := {
  hd_window : window_next (rt_window (er_runtime r)) (rt_window (er_runtime r')) (event_ops e);
  hd_reset : discontinuity r e i = true ->
    window_reset (rt_window (er_runtime r)) (rt_window (er_runtime r')) (event_ops e);
  hd_started : rt_phase (er_runtime r') <> RpFaulted -> lv_current (rt_live (er_runtime r)) = None ->
    lv_current (rt_live (er_runtime r')) <> None ->
    rt_window (er_runtime r') = window_clear (rt_window (er_runtime r)) }.

Definition event_post r e i (x : (unit + TickError) * EventRuntime) : Prop :=
  refused_if_faulted (x.1, er_runtime x.2) /\ (x.1 = inl tt -> handled r e i x.2).

Lemma benign_post r e i err r' : benign err -> event_post r e i (inr err, r').
Proof. intros Hb. split; [|done]. by destruct err. Qed.

(** A faulted runtime evaluates nothing. *)
Lemma evaluate_faulted r e i r1 reason :
  rt_phase (er_runtime r1) = RpFaulted ->
  hspec any (evaluate_event r1 i reason) (fun x _ => event_post r e i x).
Proof.
  intros Hf. unfold evaluate_event. cbv zeta.
  set (r2 := if allows_transition_to _ _ then _ else r1).
  assert (Hr2 : er_runtime r2 = er_runtime r1) by (subst r2; by destruct (allows_transition_to _ _)).
  rewrite Hr2. clearbody r2.
  apply (then_event_spec _ _ _ (fun x => match x.1 with inl _ => False | inr e => benign e end));
    [|done|intros err rt Hb; by apply benign_post].
  unfold evaluate_and_emit. rewrite faulted_transition by (done || apply phase_for_evaluation_not_faulted).
  by apply hspec_ret.
Qed.

(** An evaluation after the window was reset. *)
Lemma evaluate_after_reset r e i r1 reason :
  released (er_runtime r1) ->
  rt_window (er_runtime r1) = foldl window_step (window_clear (rt_window (er_runtime r))) (event_ops e) ->
  hspec any (evaluate_event r1 i reason) (fun x _ => event_post r e i x).
Proof.
  intros [Hf|[Hr Hn]] Hw; [by apply evaluate_faulted|].
  eapply hspec_post; [apply evaluate_event_spec; by left|].
  intros x h [Href Hm]. split; [done|]. intros Hx. destruct (Hm Hx) as [Hmove Hnew].
  cbn in Hmove, Hnew. rewrite Hw, clear_steps in Hmove, Hnew.
  assert (Hreset : window_reset (rt_window (er_runtime r)) (rt_window (er_runtime x.2)) (event_ops e))
    by (destruct Hmove; [by right|by left]).
  split; [by apply window_reset_next|done|]. intros Hph _ Hcur. rewrite clear_clear in Hnew.
  apply Hnew; [by rewrite Hx|done..].
Qed.

(** An evaluation after the event's samples were pushed. *)
Lemma evaluate_after_push r e i r1 reason :
  restful (er_runtime r1) -> discontinuity r e i = false ->
  rt_live (er_runtime r1) = rt_live (er_runtime r) ->
  rt_window (er_runtime r1) = foldl window_step (rt_window (er_runtime r)) (event_ops e) ->
  hspec any (evaluate_event r1 i reason) (fun x _ => event_post r e i x).
Proof.
  intros Hr Hd Hl Hw. eapply hspec_post; [by apply evaluate_event_spec|].
  intros x h [Href Hm]. split; [done|]. intros Hx. destruct (Hm Hx) as [Hmove Hnew].
  cbn in Hmove, Hnew. rewrite Hw, clear_steps in Hmove, Hnew. split.
  - destruct Hmove; [by left|by right; left].
  - rewrite Hd. done.
  - intros Hph Hold Hcur. rewrite <- Hl in Hold. apply Hnew; [by rewrite Hx|done..].
Qed.

Lemma restful_books (rt rt' : AutotuneRuntime Config) :
  rt_phase rt' = rt_phase rt -> rt_live rt' = rt_live rt -> restful rt -> restful rt'.
Proof.
  intros Hp Hl [[Hc Hph]|Hf]; [left|right; congruence]. split; rewrite ?Hl, ?Hp; done.
Qed.

(** Pushing samples. *)
Lemma push_post r e i r' :
  restful (er_runtime r) -> discontinuity r e i = false ->
  er_runtime r' = with_window (er_runtime r) (foldl window_step (rt_window (er_runtime r)) (event_ops e)) ->
  event_post r e i (inl tt, r').
Proof.
  intros Hr Hd E. split.
  - cbn. rewrite E. by apply (restful_books (er_runtime r)).
  - intros _. cbn. split; rewrite E; [by left|by rewrite Hd|done].
Qed.

Lemma on_event_post r e i :
  restful (er_runtime r) -> hspec any (on_event r e i) (fun x _ => event_post r e i x).
Proof.
  intros Hr. destruct e; cbn [on_event];
    try (apply hspec_ret; intros h _; apply push_post; [done|done|by destruct r as [[]]]).
  - apply poll_spec; [done| | |intros err r' Hb; by apply benign_post].
    + intros r1 Hg E1. apply evaluate_after_push; [|done| |]; cbn; rewrite ?E1; try done.
      by apply (restful_books (er_runtime r)).
    + intros r1 Hg Hr1 Hw1. apply evaluate_after_reset; cbn; [|by rewrite Hw1].
      destruct Hr1 as [Hf|[[Hc Hp] Hn]]; [by left|right]. split; [by split|done].
  - apply reset_spec; [done| |intros err r' Hb; by apply benign_post].
    intros r1 Hr1 Hw1. by apply evaluate_after_reset.
  - apply reset_spec; [done| |intros err r' Hb; by apply benign_post].
    intros r1 Hr1 Hw1. by apply evaluate_after_reset.
  - by apply evaluate_after_push.
  - by apply evaluate_after_push.
Qed.

(** ** Sessions *)

Definition pushes (events : list (MonitorEvent * EventInput)) : list WindowOp :=
  events ≫= fun x => event_ops x.1.

Lemma clear_run d tr : window_clear (window_run d tr) = window_run d [].
Proof. unfold window_run. by rewrite clear_steps. Qed.

(** After a session the window holds what all its events pushed, or what those after
    some point pushed. *)
Lemma session_window r events d tr :
  restful (er_runtime r) -> rt_window (er_runtime r) = window_run d tr ->
  hspec any (session_events r events) (fun x _ => x.1 = inl tt ->
    restful (er_runtime x.2) /\
    (rt_window (er_runtime x.2) = window_run d (tr ++ pushes events) \/
     exists before after, events = before ++ after /\
       rt_window (er_runtime x.2) = window_run d (pushes after))).
Proof.
  revert r tr. induction events as [|[e i] events IH]; intros r tr Hr Hw; cbn [session_events].
  { apply hspec_ret. intros h _ _. split; [done|]. left. by rewrite app_nil_r. }
  eapply hspec_any_bind; [by apply on_event_post|].
  intros [[[]|err] r1] [Href Hh]; cbn [fst snd]; [|by apply hspec_ret].
  specialize (Hh eq_refl). cbn in Href, Hh.
  assert (Hlater : forall tr1, rt_window (er_runtime r1) = window_run d tr1 ->
    (exists before, (e, i) :: events = before ++ events /\ tr1 = []) \/ tr1 = event_ops e ->
    hspec any (session_events r1 events) (fun x _ => x.1 = inl tt ->
      restful (er_runtime x.2) /\
      (rt_window (er_runtime x.2) = window_run d (tr ++ pushes ((e, i) :: events)) \/
       exists before after, (e, i) :: events = before ++ after /\
         rt_window (er_runtime x.2) = window_run d (pushes after)))).
  { intros tr1 H1 Hcase. eapply hspec_post; [by apply (IH r1 tr1)|]. intros x h Hx Hok.
    destruct (Hx Hok) as [Hx1 [Hx2|(before & after & -> & Hx2)]]; (split; [done|]); right.
    - destruct Hcase as [(before & E & ->)| ->]; [by exists before, events|].
      exists [], ((e, i) :: events). done.
    - exists ((e, i) :: before), after. done. }
  destruct (hd_window _ _ _ _ Hh) as [H1|[H1|H1]]; rewrite Hw in H1.
  - eapply hspec_post.
    { apply (IH r1 (tr ++ event_ops e)); [done|]. unfold window_run in *. by rewrite foldl_app, <- H1. }
    intros x h Hx Hok. destruct (Hx Hok) as [Hx1 [Hx2|(before & after & -> & Hx2)]]; (split; [done|]).
    + left. rewrite Hx2. cbn. by rewrite (assoc_L (++)).
    + right. by exists ((e, i) :: before), after.
  - rewrite clear_run in H1. apply (Hlater []); [done|]. left. by exists [(e, i)].
  - rewrite clear_run in H1. apply (Hlater (event_ops e)); [done|]. by right.
Qed.

(** C38. What is measured for an experiment is measured after it started, and never across
    a discontinuity: once an event was handled that started an experiment, changed or cleared
    the focus, or revealed a suspend, the window after any number of further events that were
    handled holds exactly what a suffix of these events pushed and nothing from before; when
    an experiment was started, not even what the starting event pushed itself. *)
Theorem measurement_isolated r e i events h d tr :
  restful (er_runtime r) -> rt_window (er_runtime r) = window_run d tr ->
  let x := on_event r e i h in
  let started := lv_current (rt_live (er_runtime r)) = None /\
    lv_current (rt_live (er_runtime x.1.2)) <> None /\ rt_phase (er_runtime x.1.2) <> RpFaulted in
  x.1.1 = inl tt ->
  discontinuity r e i = true \/ started ->
  let y := session_events x.1.2 events x.2 in
  y.1.1 = inl tt ->
  exists before after, (e, i) :: events = before ++ after /\
    rt_window (er_runtime y.1.2) = window_run d (pushes after) /\ (started -> before <> []).
Proof.
  intros Hr Hw x started Hx Hwhy y Hy.
  destruct (on_event_post r e i Hr h I) as [Href Hh]. fold x in Href, Hh.
  specialize (Hh Hx). rewrite Hx in Href.
  assert (Hgo : forall tr1, rt_window (er_runtime x.1.2) = window_run d tr1 ->
    tr1 = [] \/ (~ started /\ tr1 = event_ops e) ->
    exists before after, (e, i) :: events = before ++ after /\
      rt_window (er_runtime y.1.2) = window_run d (pushes after) /\ (started -> before <> [])).
  { intros tr1 H1 Hcase.
    destruct (session_window x.1.2 events d tr1 Href H1 x.2 I Hy) as [_ [H2|(before & after & -> & H2)]].
    - destruct Hcase as [->|[Hns ->]]; [by exists [(e, i)], events|].
      exists [], ((e, i) :: events). by split_and!.
    - by exists ((e, i) :: before), after. }
  assert (Hdec : started \/ ~ started).
  { subst started. destruct (lv_current (rt_live (er_runtime r))); [by right; intros [? _]|].
    destruct (lv_current (rt_live (er_runtime x.1.2))); [|by right; intros (_ & ? & _)].
    destruct (decide (rt_phase (er_runtime x.1.2) = RpFaulted)); [by right; intros (_ & _ & ?)|by left]. }
  assert (Hclear : started -> rt_window (er_runtime x.1.2) = window_run d []).
  { intros (H1 & H2 & H3). rewrite (hd_started _ _ _ _ Hh H3 H1 H2), Hw. apply clear_run. }
  destruct Hdec as [Hs|Hs]; [apply (Hgo []); [by apply Hclear|by left]|].
  destruct Hwhy as [Hd|?]; [|done]. destruct (hd_reset _ _ _ _ Hh Hd) as [H1|H1]; rewrite Hw, clear_run in H1.
  - apply (Hgo []); [done|by left].
  - apply (Hgo (event_ops e)); [done|by right].
Qed.

(** ** Diagnoses *)

Definition diagnoses_after (r : EventRuntime) (e : MonitorEvent) : list LiveDiagnosisEntry :=
  match e with
  | MeLiveDiagnosis d => bounded_push DEFAULT_RECENT_DIAGNOSIS_LIMIT d (er_diagnoses r)
  | _ => er_diagnoses r
  end.

(** Steps that leave the diagnoses alone. *)
Lemma then_event_frame m r k (l : list LiveDiagnosisEntry) :
  er_diagnoses r = l ->
  (forall r', er_diagnoses r' = l -> hspec any (k r') (fun y _ => er_diagnoses y.2 = l)) ->
  hspec any (then_event m r k) (fun y _ => er_diagnoses y.2 = l).
Proof. intros Hr Hk. apply (then_event_spec _ _ _ (fun _ => True)); [done|auto|done]. Qed.

Lemma evaluate_frame r i reason l :
  er_diagnoses r = l -> hspec any (evaluate_event r i reason) (fun y _ => er_diagnoses y.2 = l).
Proof.
  intros Hr. unfold evaluate_event. cbv zeta. apply then_event_frame; [by destruct (allows_transition_to _ _)|].
  intros r' Hr'. by apply hspec_ret.
Qed.

Lemma lifecycle_frame r i e k l :
  er_diagnoses r = l ->
  (forall r', er_diagnoses r' = l -> hspec any (k r') (fun y _ => er_diagnoses y.2 = l)) ->
  hspec any (handle_lifecycle_event r i e k) (fun y _ => er_diagnoses y.2 = l).
Proof.
  intros Hr Hk. unfold handle_lifecycle_event. apply skip. intros n. cbv zeta.
  set (t := evaluate_daemon_lifecycle_event _ _).
  destruct (bool_decide (LaClearMeasurementWindows ∈ _)), (bool_decide (LaRollbackActiveExperiment ∈ _)),
    (lt_stabilization_ms t); cbv beta iota;
    first [ by apply Hk | apply then_event_frame; [done|]; intros r1 H1; apply then_event_frame; [done|];
            intros r2 H2; by apply Hk ].
Qed.

Lemma event_frame r e i :
  hspec any (on_event r e i) (fun y _ => er_diagnoses y.2 = diagnoses_after r e).
Proof.
  assert (Hreset : forall reason k,
    (forall r', er_diagnoses r' = er_diagnoses r -> hspec any (k r') (fun y _ => er_diagnoses y.2 = er_diagnoses r)) ->
    hspec any (reset_for_focus r i reason k) (fun y _ => er_diagnoses y.2 = er_diagnoses r)).
  { intros reason k Hk. unfold reset_for_focus. cbv zeta. destruct (has_active_experiment _); [|by apply Hk].
    apply skip. intros n. by apply then_event_frame. }
  destruct e; cbn [on_event diagnoses_after]; try by apply hspec_ret.
  - assert (Hk : forall r', er_diagnoses r' = er_diagnoses r ->
      hspec any (evaluate_event
        (on_window (with_intervals_seen r' (push_activity (er_activity r')
           (foldl saturating_add_u64 0 (ir_samples <$> records))) drop_counters) (PushIntervals records)) i None)
        (fun y _ => er_diagnoses y.2 = er_diagnoses r)) by (intros r' Hr'; by apply evaluate_frame).
    unfold poll_lifecycle_clock. destruct (ei_clock i); [|by apply hspec_ret].
    destruct (detector_observe _ _) as [d [ev|]]; [|by apply Hk].
    destruct ev; apply lifecycle_frame; try done. intros r1 H1. by apply lifecycle_frame.
  - apply Hreset. intros r' Hr'. by apply evaluate_frame.
  - apply Hreset. intros r' Hr'. by apply evaluate_frame.
  - by apply evaluate_frame.
  - by apply evaluate_frame.
Qed.

Definition diagnoses_of (events : list (MonitorEvent * EventInput)) : list LiveDiagnosisEntry :=
  omap (fun x => match x.1 with MeLiveDiagnosis d => Some d | _ => None end) events.

(** The diagnoses a tick classifies the situation with are the sixteen newest of the
    whole session: neither a change of focus nor a suspend, which clear the window, resets
    them. *)
Theorem diagnoses_are_newest r events seen h :
  er_diagnoses r = newest DEFAULT_RECENT_DIAGNOSIS_LIMIT seen ->
  let x := (session_events r events h).1 in
  x.1 = inl tt -> er_diagnoses x.2 = newest DEFAULT_RECENT_DIAGNOSIS_LIMIT (seen ++ diagnoses_of events).
Proof.
  revert r seen h. induction events as [|[e i] events IH]; intros r seen h Hr x Hx.
  { subst x. cbn. by rewrite app_nil_r. }
  pose proof (event_frame r e i h I) as Hf. subst x. cbn [session_events] in *. unfold hbind in *.
  destruct (on_event r e i h) as [[[[]|err] r1] h1]; cbn in Hf; cbn [fst snd] in *; [|done].
  destruct e; cbn [diagnoses_of omap list_omap fst diagnoses_after] in *;
    try (by apply IH; congruence).
  rewrite (IH r1 (seen ++ [entry])); [by rewrite <- (assoc_L (++))| |done].
  rewrite Hf, Hr. by apply newest_push, Nat.lt_0_succ.
Qed.

End events.
