(* ===== verification/EventRuns.v ===== *)
(** * Runs of the runtime's events

    Witnesses of the theorems of [DaemonHealth] and [RuntimeEvents]: a probe of a cool
    machine, a focus change in the middle of an experiment, diagnoses that outlive the
    focus they were made for, a session that an error ends. *)

From Stdlib Require Import Ascii String List.
From S2P Require Import Prelude Binary64 Abi Metrics Intervals Score PolicyModel PolicyEval PolicySpec ActionModel ActionRunner ActionRuns Procfs Allowlist Journal Recovery Transaction Objective Controller AutonomousGate ContextKey CandidateMemory Decide Planner LiveExperiment FocusModel RollingWindow Runtime ProcessTree WindowSignals MeasureRuns WindowRuns ControllerRuns LiveRuns PlanRuns DaemonHealth Profiles ActiveConfig Situation Observation RuntimeEvents.
From stdpp Require Import gmap list strings.
Open Scope Z_scope.

#[local] Existing Instance steady_fs.
#[local] Existing Instance steady_executor.

(** ** Focus changes *)

Definition browser_focus : AutotuneObservationFocus :=
  {| of_kind := FgBrowser; of_root_pids := [77]; of_member_pids := [77; 78]; of_confidence := f32_lit 60 100;
     of_situation := BrowserFocused; of_reasons := [] |}.

(** A machine whose files cannot be read. *)
Definition unreadable : CollectorInput :=
  {| ci_files := {| hf_read := fun _ => None; hf_read_dir := fun _ => None; hf_free_bytes := inl 0 |};
     ci_proc_root := "/proc"; ci_sys_root := "/sys"; ci_ioprio_get := fun _ => None;
     ci_capabilities := all_capabilities; ci_cpu_policies := []; ci_drm_devices := []; ci_vm_knobs := ∅ |}.

Definition view : SystemView :=
  {| sv_now_unix_nanos := 5000; sv_process_starttime := fun _ => Some 900; sv_exe_identity := fun _ => None;
     sv_cgroup_file := fun _ => Some "0::/user.slice/app.scope
"%string; sv_fd_links := fun _ => []; sv_drm_devices := []; sv_inventory_hash := "topology";
     sv_config := unreadable; sv_offenders := [] |}.

Definition quiet (clock : option LifecycleClockSample) : EventInput :=
  {| ei_view := view; ei_clock := clock; ei_target_running := true; ei_candidate := None;
     ei_plan_active_drift := false; ei_plan_kept_drift := false; ei_plan_files := None;
     ei_decision_reason := "no candidate" |}.

Definition ticking (ms : Z) : EventInput := quiet (Some {| realtime_ms := ms; monotonic_ms := ms |}).

Definition gpu_diagnosis : LiveDiagnosisEntry :=
  {| ld_elapsed_ms := 900; ld_cause := GpuBoundCandidate; ld_confidence := DcHigh; ld_anchor_class := Game;
     ld_anchor_comm := "game.exe"; ld_evidence := [] |}.

(** An experiment of a game under way, frames of the game in the window. *)
Definition game_runtime : AutotuneRuntime unit :=
  {| rt_phase := RpMeasuringCandidate; rt_live := busy;
     rt_window := window_run half_minute [PushFrame (frame 1000 16); PushFrame (frame 1016 40)] |}.

Definition game_session : EventRuntime :=
  with_diagnoses (EventRuntime_new None game_runtime baseline_view) [gpu_diagnosis].

#[local] Abbreviation event := (on_event snapshot verified starttime runtime_config None
  OnlineDataQualityPolicy_default).
#[local] Abbreviation session := (session_events snapshot verified starttime runtime_config None
  OnlineDataQualityPolicy_default).

Lemma game_rests : at_rest game_runtime.
Proof. split; [by split|reflexivity]. Qed.

(** The browser comes to the front: the experiment is rolled back, and the window holds
    the frame that came afterwards and nothing of the game. *)
Lemma measurement_isolated_witness :
  let x := event game_session (MeFocusChanged browser_focus) (ticking 1000) (host_of busy_disk) in
  let y := session x.1.2 [(MeFrame (frame 2000 17), ticking 1000)] x.2 in
  has_active_experiment (rt_live (er_runtime y.1.2)) = false /\
  exists before after,
    [(MeFocusChanged browser_focus, ticking 1000); (MeFrame (frame 2000 17), ticking 1000)]
    = before ++ after /\
    rt_window (er_runtime y.1.2) = window_run half_minute (pushes after).
Proof.
  split; [vm_compute; reflexivity|].
  destruct (measurement_isolated snapshot verified starttime runtime_config None
    OnlineDataQualityPolicy_default eq_refl (or_introl eq_refl) game_session
    (MeFocusChanged browser_focus) (ticking 1000) [(MeFrame (frame 2000 17), ticking 1000)]
    (host_of busy_disk) half_minute [PushFrame (frame 1000 16); PushFrame (frame 1016 40)])
    as (before & after & H1 & H2 & _).
  - left. exact game_rests.
  - reflexivity.
  - vm_compute. reflexivity.
  - left. reflexivity.
  - vm_compute. reflexivity.
  - exists before, after. split; [exact H1|exact H2].
Defined.

(** ** Diagnoses *)

(** The diagnosis made for the game classifies the browser. *)
Lemma diagnoses_are_newest_witness :
  let x := (session game_session [(MeFocusChanged browser_focus, ticking 1000)] (host_of busy_disk)).1 in
  er_diagnoses x.2 = [gpu_diagnosis] /\
  ob_primary_situation (er_last_observation x.2) = BrowserGpuVideo /\
  rw_diagnoses (rt_window (er_runtime x.2)) = [].
Proof.
  split; [|vm_compute; by split].
  apply (diagnoses_are_newest snapshot verified starttime runtime_config None
    OnlineDataQualityPolicy_default game_session [(MeFocusChanged browser_focus, ticking 1000)] [gpu_diagnosis]
    (host_of busy_disk)).
  - reflexivity.
  - vm_compute. reflexivity.
Defined.

(** ** Clocks *)

Definition awake : EventRuntime :=
  with_lifecycle game_session
    {| sd_previous := Some {| realtime_ms := 1000; monotonic_ms := 1000 |}; sd_gap_threshold_ms := 5000 |} None.

(** An hour asleep: the experiment is rolled back and the next one waits ten seconds. *)
Example suspended_run :
  let i := quiet (Some {| realtime_ms := 3601500; monotonic_ms := 1500 |}) in
  let x := event awake (MeInterval [] no_drops) i (host_of busy_disk) in
  x.1.1 = inl tt /\
  has_active_experiment (rt_live (er_runtime x.1.2)) = false /\
  rt_window (er_runtime x.1.2) = window_run half_minute [PushIntervals []] /\
  lt_event <$> er_last_transition x.1.2 = Some (ResumeDetected 3600000) /\
  profile_token ∈ undone (disk x.2).
Proof. vm_compute. split_and!; try reflexivity. by apply list_elem_of_In; cbn; auto. Qed.

(** ** A session ended by an error *)

(** An event that fails ends the session at once: the experiment stays applied, though a
    session whose monitor ends or fails rolls it back. *)
Example failed_session_keeps_experiment :
  let run events result := run_session snapshot verified starttime runtime_config None
                             OnlineDataQualityPolicy_default game_session events true result (host_of busy_disk) in
  let failed := run [(MeInterval [] no_drops, quiet None)] (inl "stop"%string) in
  let stopped := run [] (inl "stop"%string) in
  let broken := run [] (inr "ring buffer"%string) in
  (failed.1.1 = inr (SeEvent TeClock) /\ has_active_experiment (rt_live (er_runtime failed.1.2)) = true /\
   undone (disk failed.2) = []) /\
  (stopped.1.1 = inl tt /\ has_active_experiment (rt_live (er_runtime stopped.1.2)) = false /\
   profile_token ∈ undone (disk stopped.2)) /\
  (broken.1.1 = inr (SeMonitor "ring buffer" None) /\
   has_active_experiment (rt_live (er_runtime broken.1.2)) = false /\ profile_token ∈ undone (disk broken.2)).
Proof. vm_compute. split_and!; try reflexivity; by apply list_elem_of_In; cbn; auto. Qed.

(** ** Health *)

(** One thermal zone of the processor at 61 degrees, a graphics sensor at [gpu], 40 GB free, little
    memory pressure, a load of 2.5 on four processors. *)
Definition machine_files (gpu : string) (path : string) : option string :=
  if String.eqb path "/sys/class/thermal/thermal_zone0/temp" then Some "61000"%string
  else if String.eqb path "/sys/class/thermal/thermal_zone0/type" then Some "x86_pkg_temp"%string
  else if String.eqb path "/sys/class/hwmon/hwmon1/name" then Some "amdgpu"%string
  else if String.eqb path "/sys/class/hwmon/hwmon1/temp1_input" then Some gpu
  else if String.eqb path "/proc/pressure/memory" then
    Some "some avg10=1.25 avg60=0.50 avg300=0.10 total=12345"%string
  else if String.eqb path "/proc/loadavg" then Some "2.50 1.00 0.50 1/900 4242"%string
  else if String.eqb path "/proc/stat" then
    Some "cpu  1 2 3
cpu0 1 2 3
cpu1 1 2 3
cpu2 1 2 3
cpu3 1 2 3
intr 9"%string
  else None.

Definition machine_dirs (path : string) : option (list string) :=
  if String.eqb path "/sys/class/thermal" then Some ["thermal_zone0"; "cooling_device0"]%string
  else if String.eqb path "/sys/class/hwmon" then Some ["hwmon1"]%string
  else if String.eqb path "/sys/class/hwmon/hwmon1" then Some ["name"; "temp1_input"; "temp1_crit"]%string
  else None.

Definition machine (gpu : string) : HealthFiles :=
  {| hf_read := machine_files gpu; hf_read_dir := machine_dirs; hf_free_bytes := inl 40000000000 |}.

Example probed_machine :
  let i := probe_inputs (machine "55000") "/proc" "/sys" in
  hi_max_cpu_temp_millidegrees i = Some 61000 /\ hi_max_gpu_temp_millidegrees i = Some 55000 /\
  hi_memory_pressure_some_avg10_millipercent i = Some 1250 /\ hi_load_average_1m_milli i = Some 2500 /\
  hi_cpu_count i = Some 4 /\ hi_disk_available_bytes i = Some 40000000000.
Proof. vm_compute. by split_and!. Qed.

Lemma apply_needs_healthy_system_witness :
  decision (explain_action_with_context gaming_policy IntentApply affinity_descriptor
    (with_system_health DaemonPolicyContext_default
       (probe (machine "55000") "/proc" "/sys" (thresholds DaemonHealthConfig_default)))) = Allowed /\
  (forall gpu temp, (gpu, temp) ∈ temperature_readings (machine "55000") "/sys" ->
     temp < temp_limit (thresholds DaemonHealthConfig_default) gpu).
Proof.
  assert (H : decision (explain_action_with_context gaming_policy IntentApply affinity_descriptor
    (with_system_health DaemonPolicyContext_default
       (probe (machine "55000") "/proc" "/sys" (thresholds DaemonHealthConfig_default)))) = Allowed)
    by (vm_compute; reflexivity).
  split; [exact H|].
  exact (proj1 (apply_needs_healthy_system gaming_policy affinity_descriptor DaemonPolicyContext_default
    (machine "55000") "/proc" "/sys" (thresholds DaemonHealthConfig_default) H)).
Defined.

(** The same machine with a graphics card at 95 degrees: the configured guardrail blocks
    an apply, the health of an observation does not see it. *)
Example overheated_machine :
  let h := probe (machine "95000") "/proc" "/sys" (thresholds DaemonHealthConfig_default) in
  hs_snapshot_state h = Overheated /\ hs_snapshot_reason_code h = Some "gpu_overheated"%string /\
  decision (explain_action_with_context gaming_policy IntentApply affinity_descriptor
    (with_system_health DaemonPolicyContext_default h)) <> Allowed /\
  hs_ok_for_apply (observed_health 0 (qp_max_drop_counter_total OnlineDataQualityPolicy_default)) = true.
Proof. vm_compute. split_and!; done. Qed.
